(* ===== verification/_CoqProject ===== *)
-Q . S2P
Prelude.v
Spte.v
MmioSpte.v
SpteTrack.v
Vcpu.v
Vmcb.v
VmcbProps.v
Run.v
RunProps.v
VcpuSystem.v
Memslots.v
MemslotsProps.v
MemRegion.v
MemRegionProps.v
MemOwnProps.v
MemGeneration.v
PteList.v
PteListProps.v
Rmap.v
RmapProps.v
SlotWalk.v
SlotWalkProps.v
GuestPaging.v
GuestPagingProps.v
CpuEnable.v
CpuEnableProps.v
VcpuTable.v
VcpuTableProps.v
VcpuIoctl.v
PageTrack.v
PageTrackProps.v
FastFault.v
FastFaultProps.v
ShadowPage.v
ShadowPageProps.v
MmuInv.v
SetSpte.v
SetSpteProps.v
Notifier.v
NotifierProps.v
ZapPage.v
ZapPageProps.v
ZapUnsyncProps.v
ZapProps.v
VmLifecycle.v
VmLifecycleProps.v
GetPage.v
GetPageProps.v
TopupProps.v
MmuRoots.v
MmuRootsProps.v
PteWrite.v
PteWriteProps.v
MmuFault.v
DirectMapProps.v
MmuFaultProps.v
MmuContext.v
MmuContextProps.v
Demo.v
DemoProps.v
