(* ===== verification/Prelude.v ===== *)
(** * A verification development for the vmrun kernel module

    vmrun is a Linux kernel module that runs virtual machines on AMD's SVM
    extension: kernel/vmrun.c and kernel/vmrun.h hold the device, the virtual
    machines with their memory slots, the VCPUs and the run loop;
    kernel/mmu.c, kernel/mmu.h and kernel/page_track.c hold the shadow page
    tables; kernel/cache_regs.h the cached registers; user/vmrun.h the
    interface to user space; user/demo.c is a program that uses it.

    ** Parts of the program and the files that model them

    Each component has a file with its data and operations, translated from
    the C code under their C names, and a file [...Props] with what is proved
    of it (small components have both in one file).

    - Prelude: struct assignment, machine words, bits, errno values, the
      tactics and the hint databases.
    - Spte, with MmioSpte and SpteTrack: one 64-bit shadow entry (kernel/mmu.c
      175-692): format, MMIO entries with their slot generation, access
      tracking, the updates and clears; SpteTrack lets the hardware and the
      lockless fault path write the entry at the same time.
    - Vcpu: [struct vmrun_vcpu], the control block and cache_regs.h.
    - Vmcb: CR0, CR4, EFER, segments, [vmrun_vmcb_init] and the register
      ioctls (kernel/vmrun.c 487-817, 1761-1912).
    - Run: ASIDs, the world switch, exit handlers, [vmrun_vcpu_enter_guest],
      the run loop, load and put (919-1089, 1202-1333, 1561-1759, 3386-3405).
    - VcpuSystem: several VCPUs on several CPUs, as a step relation over the
      operations of Run and Vmcb.
    - Memslots: the sorted slot array (2184-2340).  MemRegion: the request
      VMRUN_SET_USER_MEMORY_REGION with its allocations and its release
      (2252-2804).  MemGeneration: the generations of published slot arrays.
    - PteList: the lists of shadow entries in descriptors (mmu.c 720-734, 1006-1224).
      Rmap: the operations on all entries of a guest frame (1099-1148, 1233-1539).
      SlotWalk: the walks over a slot and over host addresses (1541-1665,
      4938-5167).
    - GuestPaging: reserved bits, permission bitmaps, protection keys, the
      paging modes (mmu.c 3802-4409, mmu.h).
    - PageTrack: trackers of guest frames, large pages (page_track.c, mmu.c
      835-993).
    - FastFault: the shadow walk, [fast_page_fault] and MMIO faults, against
      memory that changes between two accesses (2258-2300, 2944-3136,
      3478-3625).
    - ShadowPage: parents of a shadow page, pages out of sync (1779-1954,
      2307-2350, 2540-2547).  MmuInv: the invariant of the whole of the shadow tables.
      SetSpte: mapping a guest frame, prefetch (1712-1723, 1966-1975, 2549-2817).
    - ZapPage: zapping and freeing of pages, with the pages out of sync below,
      the limit on pages, obsolete generations, the shrinker (1725-1768,
      2048-2118, 2352-2537, 5170-5340), with its proofs in ZapPageProps (one
      page), ZapUnsyncProps (the walk to pages out of sync) and ZapProps (the
      lists of pages).
    - GetPage: the page hash, roles, allocation and syncing of pages, the
      memory caches, making room (748-794, 1980-2046, 2120-2256, 4764-4782);
      TopupProps: what the caches hold.  MmuRoots: the roots (3196-3439,
      4511-4534).
    - MmuFault: the slow path of a fault (2819-2942, 3142-3193, 3627-3800,
      4748-4846), with [__direct_map] proved in DirectMapProps and the part
      under the lock in MmuFaultProps.  PteWrite: writes to guest page tables,
      collapsible entries (3833-3848, 4536-4746, 5070-5111).
    - Notifier: what the host's memory management calls (vmrun.c 2917-3119).
    - CpuEnable: SVM on all CPUs while there are virtual machines (216-441,
      3360-3374).
    - VcpuTable: creation of VCPUs and the table of a virtual machine
      (1350-1554, 2104-2182).  VcpuIoctl: [vmrun_vcpu_ioctl] (1914-2042).
    - VmLifecycle: creation and release of a virtual machine, the device, load
      and unload of the module (vmrun.c 443-468, 2806-2840, 3131-3346, 3407-3494;
      mmu.c 4921-4935, 5341-5415).
    - MmuContext: [struct vmrun_mmu] initialised and reset when the guest's
      paging mode changes (mmu.c 3442-3457, 3817-3820, 4019-4109, 4336-4508,
      4849-4866).
    - Demo: user/demo.c, over a class of system calls; DemoProps makes the
      kernel model an instance of what the program relies on.

    ** How the C code is rendered

    A struct is a record with the fields the code uses, and [r <| f := v |>]
    is [r.f = v].  A w-bit integer is a [Z] and every operation that can leave
    its range is wrapped where it stands.  Pointers into arrays and lists are
    addresses (PteList, Rmap, MemRegion keep heaps of blocks); sharing is
    modelled where the code shares.  A function that fails returns its errno
    value with the state; [None] is a state the kernel does not survive
    (BUG_ON, a NULL or dangling pointer) or, for a lock, the caller that
    waits.  State under a lock is one step per critical section; where code
    runs without a lock (SpteTrack, FastFault, VcpuTable, VcpuSystem, the
    protocol of NotifierProps) the interleavings are explicit.

    Linux and the processor are not in the repository.  What the code takes
    from them is a parameter: classes of constants ([KvmPte], [X86], [Svm],
    [KvmTrack], [X86Paging]), whose documented properties are the classes
    ending in [Ok], and functions given to a Section ([gfn_to_memslot],
    [hva_to_gfn_memslot], [mmu_notifier_retry], the guest's run until its next
    exit, allocation failures).  Every theorem with such a hypothesis has a
    witness in which the parameters are concrete functions.

    ** What is shown

    - Isolation: no guest runs on TLB entries of another VCPU
      ([asid_isolation]), no field the processor may have cached is stale
      ([clean_bits_sound]).
    - Context: every entry into the guest restores preemption, interrupts, GIF
      and SRCU; the registers are switched completely; the run loop returns.
    - Memory slots: every request keeps the slots sorted, disjoint, indexed
      and owning their blocks; success gives exactly what was asked, an error
      changes nothing and leaks nothing; generations of arrays are distinct.
    - Reverse maps: the lists refine lists of entries; walks visit each entry
      once; write protection, dirty logging and zapping act on all entries of
      a frame, and on all frames of a slot.
    - Shadow tables: the invariant of MmuInv (each present entry is in exactly
      the list its value calls for, no entry points to a page that is not
      there, the marks of out-of-sync pages are complete) is kept by mapping,
      linking, taking out of sync, unmapping and zapping; mapping gives a writable entry only
      where no guest page table in sync is; no leaf maps host memory that was
      taken back, whatever the order of faults and invalidations.
    - Lockless paths: no accessed or dirty bit is lost, the fast path grants
      no more than the entry allows.
    - Guest paging: permission and reserved-bit tables agree with the
      architecture's rules for every input.
    - SVM on the CPUs, the VCPU table, VCPU ioctls: all-or-nothing enabling,
      usage count, distinct VCPU ids under concurrent creation, release of
      locks and references on every path but one.
    - Building tables: a page asked for has the frame and the role wanted and,
      when new, no entries; the slow path of a fault on a direct map ends, and
      the code's own walk then comes to an entry that maps the frame with no
      more rights than allowed; room is made when there is none; roots are
      counted; a write to a guest page table leaves no translation that went
      through the old entry.
    - Virtual machines and the module: what creation takes, release gives
      back; the paths on which it does not are named exactly.
    - Paging contexts: fields stay within their C types; a reset gives the
      root back and leaves tables that follow the architecture for the new
      mode; the context for a guest's EPT is right exactly after long mode.
    - The demonstration: what it loads and where, and that over this kernel it
      always ends before running a guest.

    ** Bounds and fuel

    Loops over lists in memory have the number of blocks in the store as fuel,
    and the theorems that they end hold for every represented list.  The
    shadow walk has the level plus one (at most six), the lockless fault five
    passes and the loop over a 64-bit mask 65 steps, as in the code or by the
    width.  The marking of parents has 512 steps per shadow page and one more:
    a page is marked at most once for each of its entries
    ([unsync_page_marks] proves that it ends).  The run loop is a relation
    between a number of passes and the result, so that a run that does not end
    can be stated ([signal_livelock]).
    Zapping a page visits its pages out of sync in vectors of 16, and repeats
    that once more than there are marks, since every pass clears one; reducing
    the number of pages has the pages in use and one more.  The walk over
    obsolete pages, during which others may run, has fuel as an argument:
    [invalidate_zap_all_correct] shows that some amount is enough.  The loop
    of [__direct_map] has the same fuel as a walk: its level falls in every
    pass.  Syncing the pages below a root gives up the lock, and has fuel as
    an argument.  The loops of the demonstration have the passes as fuel:
    loading needs one more than the bytes of the file.

    ** What is not modelled

    [vmrun_vcpu_dump_vmcb] (it prints), [vmrun_vcpu_setup_old] (assembly,
    never called), is_empty_shadow_page (compiled only with MMU_DEBUG), the
    mapping of the VCPU's shared page (vmrun_vcpu_fault), user/guest.S (the
    guest), the guest page walk paging_tmpl.h and mmu_audit (included by
    mmu.c, not in the repository).  TLB flushes are recorded as events: the request that
    would reach the other CPUs is commented out in the source.
    The proofs on the slow path are for direct maps, tables whose address the
    kernel's __va and __pa take to and fro, and mappings at levels 1 to 3; a
    leaf is prefetched with its neighbours only when the slot has pages for
    them, which the theorem excludes below level 2.  Emulation of
    instructions and the functions of paging_tmpl.h are parameters. *)

From Stdlib Require Export ZArith Lia.
From stdpp Require Export prelude gmap list sorting.

#[export] Set Default Proof Using "Type".
#[export] Set Primitive Projections.

Open Scope Z_scope.

(* ------------------------------------------------------------------ *)
(** ** Struct assignment: [r <| f := v |>] is [r.f = v] *)

(** The C code mutates structs field by field.  [Eta] spells a struct out as
    its fields, from which the assignment to any one field is built.  The
    structs are primitive records, so a field of an updated struct reduces to
    the new value or to the old field without case analysis on the struct. *)
Class Eta (R : Type) := eta : R → R.
Class Setter {R T : Type} (f : R → T) := put : T → R → R.
Arguments put {R T} f {_} _ _.

Ltac build_setter f :=
  let v := fresh "v" in
  let r := fresh "r" in
  red; intros v r;
  let e := eval unfold eta in (eta r) in
  let e := eval hnf in e in
  let abs := eval pattern (f r) in e in
  lazymatch abs with
  | ?g _ => let body := eval cbv beta in (g v) in exact body
  end.

#[export] Hint Extern 0 (Setter ?f) => build_setter f : typeclass_instances.

Declare Scope vmrun_scope.
Delimit Scope vmrun_scope with vmrun.

Notation "r <| f := v |>" := (put f v r)
  (at level 1, left associativity, f at level 1, v at level 99,
   format "r  <|  f  :=  v  |>") : vmrun_scope.
Notation "r <| f ::= g |>" := (put f (g (f r)) r)
  (at level 1, left associativity, f at level 1, g at level 99,
   format "r  <|  f  ::=  g  |>") : vmrun_scope.

Open Scope vmrun_scope.

(* ------------------------------------------------------------------ *)
(** ** Machine words *)

(** A C value of an unsigned [w]-bit type is an integer in [0, 2^w); every
    operation that can leave the range goes through [wrap]. *)
Definition wrap (w x : Z) : Z := x mod 2 ^ w.

Abbreviation u8 := (wrap 8).
Abbreviation u16 := (wrap 16).
Abbreviation u32 := (wrap 32).
Abbreviation u64 := (wrap 64).

(** Conversion to a signed [w]-bit type (two's complement). *)
Definition swrap (w x : Z) : Z := (x + 2 ^ (w - 1)) mod 2 ^ w - 2 ^ (w - 1).

Abbreviation s16 := (swrap 16).
Abbreviation s32 := (swrap 32).

(** [~x] at 32 and 64 bits. *)
Definition not32 (x : Z) : Z := u32 (Z.lnot x).
Definition not64 (x : Z) : Z := u64 (Z.lnot x).

(** [1ULL << n]. *)
Definition BIT (n : Z) : Z := Z.shiftl 1 n.

(** A C value used as a condition. *)
Definition truth (x : Z) : bool := negb (x =? 0).

(** A C comparison used as a value. *)
Definition b2z (b : bool) : Z := if b then 1 else 0.

Definition is_u (w x : Z) : Prop := 0 <= x < 2 ^ w.

(** Error numbers. *)
Definition EPERM : Z := 1.
Definition EINTR : Z := 4.
Definition EIO : Z := 5.
Definition E2BIG : Z := 7.
Definition EBADF : Z := 9.
Definition EAGAIN : Z := 11.
Definition ENOMEM : Z := 12.
Definition EFAULT : Z := 14.
Definition EBUSY : Z := 16.
Definition EEXIST : Z := 17.
Definition ENODEV : Z := 19.
Definition EINVAL : Z := 22.
Definition ENOTTY : Z := 25.
Definition ENOSPC : Z := 28.
Definition EOPNOTSUPP : Z := 95.

(* ------------------------------------------------------------------ *)
(** ** Bit-level reasoning *)

Create Rewrite HintDb bits.
Create HintDb consts.

Lemma wrap_testbit (w x i : Z) :
  0 <= w → 0 <= i → Z.testbit (wrap w x) i = (i <? w) && Z.testbit x i.
Proof.
  intros Hw Hi. unfold wrap. destruct (Z.ltb_spec i w).
  - by rewrite Z.mod_pow2_bits_low.
  - by rewrite Z.mod_pow2_bits_high by lia.
Qed.

Lemma is_u_testbit (w x i : Z) : is_u w x → 0 <= w <= i → Z.testbit x i = false.
Proof.
  intros Hx Hi. rewrite <- (Z.mod_small x (2 ^ w)) by exact Hx.
  apply Z.mod_pow2_bits_high. lia.
Qed.

Lemma not64_testbit (x i : Z) :
  0 <= i → Z.testbit (not64 x) i = (i <? 64) && negb (Z.testbit x i).
Proof. intros. unfold not64. rewrite wrap_testbit, Z.lnot_spec by lia. done. Qed.

Lemma not32_testbit (x i : Z) :
  0 <= i → Z.testbit (not32 x) i = (i <? 32) && negb (Z.testbit x i).
Proof. intros. unfold not32. rewrite wrap_testbit, Z.lnot_spec by lia. done. Qed.

Lemma BIT_testbit (n i : Z) : 0 <= n → 0 <= i → Z.testbit (BIT n) i = (i =? n).
Proof.
  intros. unfold BIT. rewrite Z.shiftl_1_l, Z.pow2_bits_eqb by lia. lia.
Qed.

Lemma shiftl_testbit (x n i : Z) :
  0 <= n → 0 <= i → Z.testbit (Z.shiftl x n) i = (n <=? i) && Z.testbit x (i - n).
Proof.
  intros. rewrite Z.shiftl_spec by lia. destruct (Z.leb_spec n i); [done|].
  by rewrite Z.testbit_neg_r by lia.
Qed.

Lemma ones_testbit (n i : Z) : 0 <= n → 0 <= i → Z.testbit (Z.ones n) i = (i <? n).
Proof.
  intros. destruct (Z.ltb_spec i n).
  - by rewrite Z.ones_spec_low by lia.
  - by rewrite Z.ones_spec_high by lia.
Qed.

Lemma b2z_testbit (b : bool) (i : Z) : 0 <= i → Z.testbit (b2z b) i = (i =? 0) && b.
Proof.
  intros. destruct b; cbn; rewrite ?andb_true_r, ?andb_false_r.
  - destruct (Z.eqb_spec i 0); subst; [done|].
    change 1 with (2 ^ 0). rewrite Z.pow2_bits_eqb by lia. lia.
  - by rewrite Z.bits_0.
Qed.

#[export] Hint Rewrite
  Z.land_spec Z.lor_spec Z.lxor_spec Z.ldiff_spec Z.bits_0 : bits.
#[export] Hint Rewrite
  wrap_testbit not64_testbit not32_testbit BIT_testbit shiftl_testbit
  ones_testbit b2z_testbit Z.shiftr_spec Z.lnot_spec using lia : bits.

Lemma bits64_in (i : Z) : 0 <= i < 64 → In i (Z.of_nat <$> seq 0 64).
Proof.
  intros Hi. rewrite <- list_elem_of_In, list_elem_of_fmap. exists (Z.to_nat i).
  rewrite elem_of_seq. lia.
Qed.

(** Evaluate the closed parts of a goal about bits: tests of literal words and
    sums of literal bit positions. *)
Ltac closedZ t :=
  lazymatch t with
  | Z0 => idtac | Zpos ?p => closedZ p | Zneg ?p => closedZ p
  | xH => idtac | xO ?p => closedZ p | xI ?p => closedZ p
  end.
Ltac groundZ t :=
  lazymatch t with
  | BIT ?a => groundZ a
  | not64 ?a => groundZ a
  | not32 ?a => groundZ a
  | ?a - ?b => groundZ a; groundZ b
  | ?a + ?b => groundZ a; groundZ b
  | _ => closedZ t
  end.
Ltac eval_bits :=
  repeat match goal with
  | |- context [Z.of_nat ?k] =>
      let v := eval vm_compute in (Z.of_nat k) in closedZ v; change (Z.of_nat k) with v
  | |- context [?a + ?b] =>
      closedZ a; closedZ b; let v := eval vm_compute in (a + b) in change (a + b) with v
  | |- context [?a - ?b] =>
      closedZ a; closedZ b; let v := eval vm_compute in (a - b) in change (a - b) with v
  | |- context [?a <? ?b] =>
      closedZ a; closedZ b; let v := eval vm_compute in (a <? b) in change (a <? b) with v
  | |- context [?a <=? ?b] =>
      closedZ a; closedZ b; let v := eval vm_compute in (a <=? b) in change (a <=? b) with v
  | |- context [?a =? ?b] =>
      closedZ a; closedZ b; let v := eval vm_compute in (a =? b) in change (a =? b) with v
  | |- context [Z.testbit ?a ?b] =>
      closedZ b; groundZ a;
      let v := eval vm_compute in (Z.testbit a b) in change (Z.testbit a b) with v
  end; cbn [andb orb negb xorb].

(** Split a goal about bit [i], with [Hi : 0 <= i < 64], into its 64 positions. *)
Ltac bits_enum i Hi :=
  apply bits64_in in Hi; cbn in Hi;
  repeat (destruct Hi as [<-|Hi]; [eval_bits; autorewrite with bits; eval_bits|]);
  [..|destruct Hi].

(** Close a boolean goal over bits of free words: use the hypotheses whose
    premises hold, then go through the values of the bits. *)
Ltac bool_crush :=
  intros;
  repeat match goal with
  | H : ?P → _ |- _ =>
      lazymatch type of P with Prop => idtac end;
      first [specialize (H ltac:(lia)) | clear H]
  end;
  repeat match goal with H : context [Z.testbit _ _] |- _ => revert H end;
  repeat match goal with
  | |- context [Z.testbit ?x ?k] => generalize (Z.testbit x k); intros []
  end;
  cbn; intros; rewrite ?andb_false_r, ?andb_true_r, ?orb_false_r, ?orb_true_r in *;
  first [done | congruence].

Lemma truth_nonzero (x : Z) : x ≠ 0 → truth x = true.
Proof. intros Hx. unfold truth. by apply negb_true_iff, Z.eqb_neq. Qed.

Lemma truth_false (x : Z) : truth x = false → x = 0.
Proof. unfold truth. rewrite negb_false_iff. apply Z.eqb_eq. Qed.

Lemma truth_land_BIT (x n : Z) : 0 <= n → truth (Z.land x (BIT n)) = Z.testbit x n.
Proof.
  intros Hn. unfold truth. destruct (Z.testbit x n) eqn:E.
  - destruct (Z.eqb_spec (Z.land x (BIT n)) 0) as [H|]; [|done].
    assert (Z.testbit (Z.land x (BIT n)) n = false) as H' by by rewrite H, Z.bits_0.
    autorewrite with bits in H'. rewrite E, Z.eqb_refl in H'. done.
  - replace (Z.land x (BIT n)) with 0; [done|].
    apply Z.bits_inj'; intros i Hi. autorewrite with bits.
    destruct (Z.eqb_spec i n); subst; [by rewrite E|by rewrite andb_false_r].
Qed.

Lemma land_zero_testbit (a b i : Z) :
  0 <= i → Z.land a b = 0 → Z.testbit a i = true → Z.testbit b i = false.
Proof.
  intros Hi H Ha. assert (Z.testbit (Z.land a b) i = false) as H' by by rewrite H, Z.bits_0.
  rewrite Z.land_spec, Ha in H'. done.
Qed.

Lemma lor_land_id (a b : Z) : Z.land a b = b → Z.lor a b = a.
Proof.
  intros H. apply Z.bits_inj'; intros i Hi. rewrite <- H. autorewrite with bits.
  by destruct (Z.testbit a i), (Z.testbit b i).
Qed.

Lemma is_u_land (w a b : Z) : 0 <= w → is_u w a → 0 <= b → is_u w (Z.land a b).
Proof.
  intros Hw [Ha Ha'] Hb. split; [apply Z.land_nonneg; lia|].
  destruct (Z.eq_dec (Z.land a b) 0) as [->|Hn]; [apply Z.pow_pos_nonneg; lia|].
  assert (0 <= Z.land a b) by (apply Z.land_nonneg; lia).
  apply Z.log2_lt_pow2; [lia|]. pose proof (Z.log2_land a b ltac:(lia) Hb).
  destruct (Z.eq_dec a 0) as [->|]; [done|].
  assert (Z.log2 a < w) by (apply Z.log2_lt_pow2; lia). lia.
Qed.

Lemma is_u_lor (w a b : Z) : 0 <= w → is_u w a → is_u w b → is_u w (Z.lor a b).
Proof.
  intros Hw [Ha Ha'] [Hb Hb']. split; [apply Z.lor_nonneg; lia|].
  destruct (Z.eq_dec (Z.lor a b) 0) as [->|Hn]; [apply Z.pow_pos_nonneg; lia|].
  assert (0 <= Z.lor a b) by (apply Z.lor_nonneg; lia).
  apply Z.log2_lt_pow2; [lia|]. rewrite Z.log2_lor by lia.
  destruct (Z.eq_dec a 0) as [->|], (Z.eq_dec b 0) as [->|]; [done|..];
    apply Z.max_lub_lt; try (apply Z.log2_lt_pow2; lia);
    destruct (Z.eq_dec w 0); subst; cbn in *; lia.
Qed.

Lemma is_u_wrap (w x : Z) : 0 <= w → is_u w (wrap w x).
Proof. intros. apply Z.mod_pos_bound. apply Z.pow_pos_nonneg; lia. Qed.

Lemma wrap_id (w x : Z) : is_u w x → wrap w x = x.
Proof. apply Z.mod_small. Qed.

(** Two 64-bit words are equal when their 64 bits are. *)
Lemma u64_ext (a b : Z) :
  is_u 64 a → is_u 64 b → (∀ i, 0 <= i < 64 → Z.testbit a i = Z.testbit b i) → a = b.
Proof.
  intros Ha Hb H. apply Z.bits_inj'; intros i Hi. destruct (Z.lt_ge_cases i 64).
  - by apply H.
  - by rewrite !(is_u_testbit 64).
Qed.

Lemma is_u_0 (w : Z) : 0 <= w → is_u w 0.
Proof. intros. split; [done|]. apply Z.pow_pos_nonneg; lia. Qed.

Create HintDb words.
#[export] Hint Resolve is_u_wrap is_u_lor is_u_0 : words.
#[export] Hint Extern 1 (0 <= _) => lia : words.

(* ------------------------------------------------------------------ *)
(** ** Occurrences in a list *)

(** How often [i] occurs. *)
Definition occ (i : Z) (l : list Z) : Z := Z.of_nat (count_occ Z.eq_dec l i).

Lemma occ_cons (i j : Z) (l : list Z) : occ i (j :: l) = b2z (j =? i) + occ i l.
Proof.
  unfold occ, b2z. cbn. destruct (Z.eq_dec j i) as [->|Hn].
  - rewrite Z.eqb_refl. lia.
  - rewrite (proj2 (Z.eqb_neq j i) Hn). lia.
Qed.

Lemma occ_nil (i : Z) : occ i [] = 0.
Proof. done. Qed.

Lemma occ_app (i : Z) (l k : list Z) : occ i (l ++ k) = occ i l + occ i k.
Proof. unfold occ. rewrite count_occ_app. lia. Qed.

Lemma occ_bounds (i : Z) (l : list Z) : 0 <= occ i l <= Z.of_nat (length l).
Proof. unfold occ. pose proof (count_occ_bound Z.eq_dec i l). lia. Qed.

Lemma occ_pos (i : Z) (l : list Z) : 0 < occ i l ↔ i ∈ l.
Proof. unfold occ. rewrite list_elem_of_In, (count_occ_In Z.eq_dec). lia. Qed.

Lemma occ_truth (i : Z) (l : list Z) : truth (occ i l) = bool_decide (i ∈ l).
Proof.
  pose proof (occ_bounds i l). destruct (bool_decide_reflect (i ∈ l)) as [H0|H0].
  - apply truth_nonzero. apply occ_pos in H0. lia.
  - rewrite <- occ_pos in H0. replace (occ i l) with 0 by lia. done.
Qed.

#[export] Instance occ_perm (i : Z) : Proper ((≡ₚ) ==> (=)) (occ i).
Proof. intros l l' H. unfold occ. f_equal. by apply (Permutation_count_occ Z.eq_dec). Qed.
