(* ===== verification/Spte.v ===== *)
(** * Shadow page-table entries

    The 64-bit shadow PTE (spte) of kernel/mmu.c: the masks that describe the
    hardware format, the predicates on an spte, the MMIO encoding, the
    access-tracking encoding, and the primitive updates of one entry together
    with the page state they report to the host.

    An update receives the value it reads from the entry first and, where the
    code uses [xchg], the value the exchange finds: the two differ when the
    hardware or the lockless fault path writes the entry in between. *)

From S2P Require Import Prelude.

(** ** Names of the KVM headers that the repository does not contain *)
Class KvmPte := {
  SPTE_SPECIAL_MASK : Z;
  sme_clr : Z → Z;                  (* __sme_clr *)
  vmrun_is_reserved_pfn : Z → bool;
  page_count : Z → Z                (* page_count(pfn_to_page(pfn)) *)
}.

Class KvmPteOk (K : KvmPte) : Prop := {
  special_is_bit62 : SPTE_SPECIAL_MASK = BIT 62;
  sme_clr_mask : ∃ m, ∀ x, is_u 64 x → sme_clr x = Z.land x (not64 m)
}.

(* ------------------------------------------------------------------ *)
(** ** Constants of mmu.h and mmu.c *)

Definition PAGE_SHIFT : Z := 12.
Definition PAGE_SIZE : Z := BIT PAGE_SHIFT.
Definition PAGE_MASK : Z := not64 (PAGE_SIZE - 1).

Definition PT_WRITABLE_SHIFT : Z := 1.
Definition PT_USER_SHIFT : Z := 2.
Definition PT_PRESENT_MASK : Z := BIT 0.
Definition PT_WRITABLE_MASK : Z := BIT PT_WRITABLE_SHIFT.
Definition PT_USER_MASK : Z := BIT PT_USER_SHIFT.
Definition PT_ACCESSED_MASK : Z := BIT 5.
Definition PT_PAGE_SIZE_MASK : Z := BIT 7.

Definition PT64_ROOT_5LEVEL : Z := 5.
Definition PT64_ROOT_4LEVEL : Z := 4.
Definition PT32_ROOT_LEVEL : Z := 2.
Definition PT32E_ROOT_LEVEL : Z := 3.
Definition PT_DIRECTORY_LEVEL : Z := 2.
Definition PT_PAGE_TABLE_LEVEL : Z := 1.

Definition ACC_EXEC_MASK : Z := 1.
Definition ACC_WRITE_MASK : Z := PT_WRITABLE_MASK.
Definition ACC_USER_MASK : Z := PT_USER_MASK.
Definition ACC_ALL : Z := Z.lor (Z.lor ACC_EXEC_MASK ACC_WRITE_MASK) ACC_USER_MASK.

Definition SPTE_HOST_WRITEABLE : Z := BIT 10.
Definition SPTE_MMU_WRITEABLE : Z := BIT 11.

Definition PT64_EPT_READABLE_MASK : Z := 1.
Definition PT64_EPT_EXECUTABLE_MASK : Z := 4.
Definition shadow_acc_track_saved_bits_mask : Z :=
  Z.lor PT64_EPT_READABLE_MASK PT64_EPT_EXECUTABLE_MASK.
Definition shadow_acc_track_saved_bits_shift : Z := 52.

Definition MMIO_SPTE_GEN_LOW_SHIFT : Z := 2.
Definition MMIO_SPTE_GEN_HIGH_SHIFT : Z := 52.
Definition MMIO_GEN_SHIFT : Z := 20.
Definition MMIO_GEN_LOW_SHIFT : Z := 10.
Definition MMIO_GEN_LOW_MASK : Z := BIT MMIO_GEN_LOW_SHIFT - 2.
Definition MMIO_GEN_MASK : Z := BIT MMIO_GEN_SHIFT - 1.

#[export] Hint Unfold
  PAGE_SHIFT PAGE_SIZE PAGE_MASK PT_WRITABLE_SHIFT PT_USER_SHIFT PT_PRESENT_MASK
  PT_WRITABLE_MASK PT_USER_MASK PT_ACCESSED_MASK PT_PAGE_SIZE_MASK
  PT64_ROOT_5LEVEL PT64_ROOT_4LEVEL PT32_ROOT_LEVEL PT32E_ROOT_LEVEL
  PT_DIRECTORY_LEVEL PT_PAGE_TABLE_LEVEL
  ACC_EXEC_MASK ACC_WRITE_MASK ACC_USER_MASK ACC_ALL
  SPTE_HOST_WRITEABLE SPTE_MMU_WRITEABLE
  PT64_EPT_READABLE_MASK PT64_EPT_EXECUTABLE_MASK
  shadow_acc_track_saved_bits_mask shadow_acc_track_saved_bits_shift
  MMIO_SPTE_GEN_LOW_SHIFT MMIO_SPTE_GEN_HIGH_SHIFT MMIO_GEN_SHIFT
  MMIO_GEN_LOW_SHIFT MMIO_GEN_LOW_MASK MMIO_GEN_MASK : consts.

(** ** The static masks of mmu.c *)
Record shadow_masks := {
  shadow_nx_mask : Z;
  shadow_x_mask : Z;
  shadow_user_mask : Z;
  shadow_accessed_mask : Z;
  shadow_dirty_mask : Z;
  shadow_mmio_mask : Z;
  shadow_mmio_value : Z;
  shadow_present_mask : Z;
  shadow_me_mask : Z;
  shadow_acc_track_mask : Z
}.
#[export] Instance eta_shadow_masks : Eta shadow_masks := λ r,
  {| shadow_nx_mask := r.(shadow_nx_mask); shadow_x_mask := r.(shadow_x_mask);
     shadow_user_mask := r.(shadow_user_mask);
     shadow_accessed_mask := r.(shadow_accessed_mask);
     shadow_dirty_mask := r.(shadow_dirty_mask); shadow_mmio_mask := r.(shadow_mmio_mask);
     shadow_mmio_value := r.(shadow_mmio_value);
     shadow_present_mask := r.(shadow_present_mask); shadow_me_mask := r.(shadow_me_mask);
     shadow_acc_track_mask := r.(shadow_acc_track_mask) |}.

(** What an update reports besides the new value of the entry. *)
Inductive spte_event :=
| SetPfnAccessed (pfn : Z)
| SetPfnDirty (pfn : Z)
| Warn.

#[export] Instance spte_event_eq_dec : EqDecision spte_event.
Proof. solve_decision. Defined.

Section Spte.
Context `{K : KvmPte}.

Definition PT64_BASE_ADDR_MASK : Z :=
  sme_clr (Z.land (BIT 52 - 1) (not64 (PAGE_SIZE - 1))).

Definition PT64_LVL_ADDR_MASK (level : Z) : Z :=
  Z.land PT64_BASE_ADDR_MASK (not64 (BIT (PAGE_SHIFT + (level - 1) * 9) - 1)).

Definition shadow_acc_track_value : Z := SPTE_SPECIAL_MASK.

(** ** Setting the masks *)

(** [BUG_ON] stops the kernel: [None]. *)
Definition vmrun_mmu_set_mmio_spte_mask (mmio_mask mmio_value : Z) (g : shadow_masks)
    : option shadow_masks :=
  if negb (Z.land mmio_mask mmio_value =? mmio_value) then None
  else Some (g <| shadow_mmio_value := Z.lor mmio_value SPTE_SPECIAL_MASK |>
               <| shadow_mmio_mask := Z.lor mmio_mask SPTE_SPECIAL_MASK |>).

Definition vmrun_mmu_set_mask_ptes
    (user_mask accessed_mask dirty_mask nx_mask x_mask p_mask acc_track_mask me_mask : Z)
    (g : shadow_masks) : option shadow_masks :=
  if negb (Bool.eqb (truth dirty_mask) (truth accessed_mask)) then None
  else if negb (truth accessed_mask) && negb (truth acc_track_mask) then None
  else if truth (Z.land acc_track_mask shadow_acc_track_value) then None
  else Some (g <| shadow_user_mask := user_mask |>
               <| shadow_accessed_mask := accessed_mask |>
               <| shadow_dirty_mask := dirty_mask |>
               <| shadow_nx_mask := nx_mask |>
               <| shadow_x_mask := x_mask |>
               <| shadow_present_mask := p_mask |>
               <| shadow_acc_track_mask := acc_track_mask |>
               <| shadow_me_mask := me_mask |>).

Definition vmrun_mmu_clear_all_pte_masks (g : shadow_masks) : shadow_masks :=
  g <| shadow_user_mask := 0 |>
    <| shadow_accessed_mask := 0 |>
    <| shadow_dirty_mask := 0 |>
    <| shadow_nx_mask := 0 |>
    <| shadow_x_mask := 0 |>
    <| shadow_mmio_mask := 0 |>
    <| shadow_present_mask := 0 |>
    <| shadow_acc_track_mask := 0 |>.

(** ** Predicates *)
Section Predicates.
Variable g : shadow_masks.

Definition is_writable_pte (pte : Z) : bool := truth (Z.land pte PT_WRITABLE_MASK).

Definition spte_ad_enabled (spte : Z) : bool :=
  negb (truth (Z.land spte shadow_acc_track_value)).

Definition spte_shadow_accessed_mask (spte : Z) : Z :=
  if spte_ad_enabled spte then g.(shadow_accessed_mask) else 0.

Definition spte_shadow_dirty_mask (spte : Z) : Z :=
  if spte_ad_enabled spte then g.(shadow_dirty_mask) else 0.

Definition is_access_track_spte (spte : Z) : bool :=
  negb (spte_ad_enabled spte) && (Z.land spte g.(shadow_acc_track_mask) =? 0).

Definition is_mmio_spte (spte : Z) : bool :=
  Z.land spte g.(shadow_mmio_mask) =? g.(shadow_mmio_value).

Definition is_shadow_present_pte (pte : Z) : bool :=
  negb (pte =? 0) && negb (is_mmio_spte pte).

Definition is_large_pte (pte : Z) : bool := truth (Z.land pte PT_PAGE_SIZE_MASK).

Definition is_last_spte (pte level : Z) : bool :=
  if level =? PT_PAGE_TABLE_LEVEL then true
  else if is_large_pte pte then true
  else false.

Definition is_executable_pte (spte : Z) : bool :=
  Z.land spte (Z.lor g.(shadow_x_mask) g.(shadow_nx_mask)) =? g.(shadow_x_mask).

Definition spte_to_pfn (pte : Z) : Z :=
  Z.shiftr (Z.land pte PT64_BASE_ADDR_MASK) PAGE_SHIFT.

Definition spte_can_locklessly_be_made_writable (spte : Z) : bool :=
  Z.land spte (Z.lor SPTE_HOST_WRITEABLE SPTE_MMU_WRITEABLE)
  =? Z.lor SPTE_HOST_WRITEABLE SPTE_MMU_WRITEABLE.

Definition spte_has_volatile_bits (spte : Z) : bool :=
  if negb (is_shadow_present_pte spte) then false
  else if spte_can_locklessly_be_made_writable spte || is_access_track_spte spte then true
  else if spte_ad_enabled spte then
    (Z.land spte g.(shadow_accessed_mask) =? 0)
    || (is_writable_pte spte && (Z.land spte g.(shadow_dirty_mask) =? 0))
  else false.

Definition is_accessed_spte (spte : Z) : bool :=
  let accessed_mask := spte_shadow_accessed_mask spte in
  if truth accessed_mask then truth (Z.land spte accessed_mask)
  else negb (is_access_track_spte spte).

Definition is_dirty_spte (spte : Z) : bool :=
  let dirty_mask := spte_shadow_dirty_mask spte in
  if truth dirty_mask then truth (Z.land spte dirty_mask)
  else truth (Z.land spte PT_WRITABLE_MASK).

(** ** MMIO sptes *)

(** The [WARN_ON] of an out-of-range generation only logs. *)
Definition generation_mmio_spte_mask (gen : Z) : Z :=
  Z.lor (u32 (Z.shiftl (Z.land gen MMIO_GEN_LOW_MASK) MMIO_SPTE_GEN_LOW_SHIFT))
        (u64 (Z.shiftl (Z.shiftr gen MMIO_GEN_LOW_SHIFT) MMIO_SPTE_GEN_HIGH_SHIFT)).

Definition get_mmio_spte_generation (spte : Z) : Z :=
  let spte := Z.land spte (not64 g.(shadow_mmio_mask)) in
  let gen := Z.land (Z.shiftr spte MMIO_SPTE_GEN_LOW_SHIFT) MMIO_GEN_LOW_MASK in
  u32 (Z.lor gen (u64 (Z.shiftl (Z.shiftr spte MMIO_SPTE_GEN_HIGH_SHIFT)
                                MMIO_GEN_LOW_SHIFT))).

(** [slots_generation] is [vmrun_vcpu_memslots(vcpu)->generation]. *)
Definition vmrun_current_mmio_generation (slots_generation : Z) : Z :=
  Z.land slots_generation MMIO_GEN_MASK.

(** The value [mark_mmio_spte] stores. *)
Definition mark_mmio_spte (slots_generation gfn access : Z) : Z :=
  let gen := vmrun_current_mmio_generation slots_generation in
  let mask := generation_mmio_spte_mask gen in
  let access := Z.land access (Z.lor ACC_WRITE_MASK ACC_USER_MASK) in
  Z.lor mask (Z.lor (Z.lor g.(shadow_mmio_value) access) (u64 (Z.shiftl gfn PAGE_SHIFT))).

Definition get_mmio_spte_gfn (spte : Z) : Z :=
  let mask := Z.lor (generation_mmio_spte_mask MMIO_GEN_MASK) g.(shadow_mmio_mask) in
  Z.shiftr (Z.land spte (not64 mask)) PAGE_SHIFT.

Definition get_mmio_spte_access (spte : Z) : Z :=
  let mask := Z.lor (generation_mmio_spte_mask MMIO_GEN_MASK) g.(shadow_mmio_mask) in
  u32 (Z.land (Z.land spte (not64 mask)) (not64 PAGE_MASK)).

Definition check_mmio_spte (slots_generation spte : Z) : bool :=
  vmrun_current_mmio_generation slots_generation =? get_mmio_spte_generation spte.

(** ** Access tracking *)

Definition mark_spte_for_access_track (spte : Z) : Z * list spte_event :=
  if spte_ad_enabled spte then (Z.land spte (not64 g.(shadow_accessed_mask)), [])
  else if is_access_track_spte spte then (spte, [])
  else
    let w1 := if truth (Z.land spte PT_WRITABLE_MASK)
                 && negb (spte_can_locklessly_be_made_writable spte)
              then [Warn] else [] in
    let w2 := if truth (Z.land spte (Z.shiftl shadow_acc_track_saved_bits_mask
                                              shadow_acc_track_saved_bits_shift))
              then [Warn] else [] in
    let spte := Z.lor spte
                  (u64 (Z.shiftl (Z.land spte shadow_acc_track_saved_bits_mask)
                                 shadow_acc_track_saved_bits_shift)) in
    (Z.land spte (not64 g.(shadow_acc_track_mask)), w1 ++ w2).

Definition restore_acc_track_spte (spte : Z) : Z * list spte_event :=
  let saved_bits := Z.land (Z.shiftr spte shadow_acc_track_saved_bits_shift)
                           shadow_acc_track_saved_bits_mask in
  let w1 := if spte_ad_enabled spte then [Warn] else [] in
  let w2 := if negb (is_access_track_spte spte) then [Warn] else [] in
  let new_spte := Z.land spte (not64 g.(shadow_acc_track_mask)) in
  let new_spte := Z.land new_spte
                    (not64 (Z.shiftl shadow_acc_track_saved_bits_mask
                                     shadow_acc_track_saved_bits_shift)) in
  (Z.lor new_spte saved_bits, w1 ++ w2).

(** ** Updates of one entry

    [read] is the value of the first load of [*sptep]; [cur] is the value of
    the entry when it is written, which an [xchg] returns. *)

(** [__set_spte], [__update_clear_spte_fast]: a plain store. *)
Definition mmu_spte_set (cur new_spte : Z) : Z * list spte_event :=
  (new_spte, if is_shadow_present_pte cur then [Warn] else []).

(** Result: the entry afterwards, the returned old spte, the events. *)
Definition mmu_spte_update_no_track (read cur new_spte : Z) : Z * Z * list spte_event :=
  let w := if negb (is_shadow_present_pte new_spte) then [Warn] else [] in
  if negb (is_shadow_present_pte read) then
    let '(cell, ev) := mmu_spte_set cur new_spte in (cell, read, w ++ ev)
  else
    let old_spte := if negb (spte_has_volatile_bits read) then read else cur in
    let w' := if negb (spte_to_pfn old_spte =? spte_to_pfn new_spte) then [Warn] else [] in
    (new_spte, old_spte, w ++ w').

(** Result: the entry afterwards, whether the TLBs need a flush, the events. *)
Definition mmu_spte_update (read cur new_spte : Z) : Z * bool * list spte_event :=
  let '(cell, old_spte, ev) := mmu_spte_update_no_track read cur new_spte in
  if negb (is_shadow_present_pte old_spte) then (cell, false, ev)
  else
    let flush := spte_can_locklessly_be_made_writable old_spte
                 && negb (is_writable_pte new_spte) in
    let acc := is_accessed_spte old_spte && negb (is_accessed_spte new_spte) in
    let dty := is_dirty_spte old_spte && negb (is_dirty_spte new_spte) in
    (cell, flush || acc || dty,
     ev ++ (if acc then [SetPfnAccessed (spte_to_pfn old_spte)] else [])
        ++ (if dty then [SetPfnDirty (spte_to_pfn old_spte)] else [])).

(** Result: the entry afterwards, the returned int, the events. *)
Definition mmu_spte_clear_track_bits (read cur : Z) : Z * Z * list spte_event :=
  let old_spte := if negb (spte_has_volatile_bits read) then read else cur in
  if negb (is_shadow_present_pte old_spte) then (0, 0, [])
  else
    let pfn := spte_to_pfn old_spte in
    (0, 1,
     (if negb (vmrun_is_reserved_pfn pfn) && negb (truth (page_count pfn)) then [Warn] else [])
     ++ (if is_accessed_spte old_spte then [SetPfnAccessed pfn] else [])
     ++ (if is_dirty_spte old_spte then [SetPfnDirty pfn] else [])).

Definition mmu_spte_clear_no_track (cur : Z) : Z := 0.

(** [ffs] of the C library: one plus the lowest set bit of an [int], 0 for 0. *)
Definition ffs (x : Z) : Z :=
  let x := u32 x in if x =? 0 then 0 else Z.log2 (Z.land x (- x)) + 1.

(** Result: the entry afterwards, the returned bool, the events. *)
Definition mmu_spte_age (read cur : Z) : Z * bool * list spte_event :=
  if negb (is_accessed_spte read) then (cur, false, [])
  else if spte_ad_enabled read then
    (Z.clearbit cur (ffs g.(shadow_accessed_mask) - 1), true, [])
  else
    let d := if is_writable_pte read then [SetPfnDirty (spte_to_pfn read)] else [] in
    let '(spte, w) := mark_spte_for_access_track read in
    let '(cell, _, ev) := mmu_spte_update_no_track cur cur spte in
    (cell, true, d ++ w ++ ev).

End Predicates.
End Spte.

(* ------------------------------------------------------------------ *)
(** ** Concrete values, for examples *)

(** An x86 host: bit 62 is the special bit and no memory encryption. *)
Definition kvm_pte_x86 : KvmPte := {|
  SPTE_SPECIAL_MASK := BIT 62;
  sme_clr := λ x, x;
  vmrun_is_reserved_pfn := λ _, false;
  page_count := λ _, 1
|}.

Definition kvm_pte_x86_ok : KvmPteOk kvm_pte_x86.
Proof.
  split; [done|]. exists 0. intros x Hx. cbn. symmetry.
  apply u64_ext; [|done|]; [by apply is_u_land|].
  intros i Hi. autorewrite with bits. replace (i <? 64) with true by lia.
  by rewrite andb_true_r.
Qed.

Definition zero_masks : shadow_masks :=
  {| shadow_nx_mask := 0; shadow_x_mask := 0; shadow_user_mask := 0;
     shadow_accessed_mask := 0; shadow_dirty_mask := 0; shadow_mmio_mask := 0;
     shadow_mmio_value := 0; shadow_present_mask := 0; shadow_me_mask := 0;
     shadow_acc_track_mask := 0 |}.
