(* ===== verification/MmioSpte.v ===== *)
(** * MMIO shadow entries

    An spte that caches "this gfn is MMIO": the gfn, the access rights and the
    memslot generation packed around a mask the architecture chooses
    ([mark_mmio_spte] and its readers, kernel/mmu.c).  The readers recover what
    was packed, and an entry is honoured only under its own generation. *)

From S2P Require Import Prelude.
From S2P Require Import Spte.

(* ------------------------------------------------------------------ *)
(** ** MMIO sptes: what is stored can be read back *)

(** The masks an architecture may install: a 64-bit word that leaves the
    access bits 1-2 and the generation bits 3-11 and 52-61 alone. *)
Record mmio_mask_format (mask : Z) : Prop := {
  mmf_u64 : is_u 64 mask;
  mmf_low : ∀ i, 1 <= i <= 11 → Z.testbit mask i = false;
  mmf_high : ∀ i, 52 <= i <= 61 → Z.testbit mask i = false
}.

Section Mmio.
Context `{K : KvmPte, KO : !KvmPteOk K}.
Context (g g' : shadow_masks) (mask value : Z).
Hypothesis Hset : vmrun_mmu_set_mmio_spte_mask mask value g = Some g'.
Hypothesis Hfmt : mmio_mask_format mask.

Lemma mmio_masks_set :
  Z.land mask value = value ∧
  shadow_mmio_mask g' = Z.lor mask (BIT 62) ∧ shadow_mmio_value g' = Z.lor value (BIT 62).
Proof using Hset KO.
  revert Hset. unfold vmrun_mmu_set_mmio_spte_mask.
  destruct (Z.eqb_spec (Z.land mask value) value); [|done].
  intros [= <-]. cbn. by rewrite special_is_bit62.
Qed.

Lemma mmio_value_bit (i : Z) :
  Z.testbit value i = Z.testbit mask i && Z.testbit value i.
Proof using Hset KO. destruct mmio_masks_set as [H _]. by rewrite <- Z.land_spec, H. Qed.

(** Every bit of a marked spte, from the fields it encodes. *)
Lemma mark_mmio_spte_bits (gen gfn access i : Z) :
  is_u 40 gfn → Z.land (Z.shiftl gfn PAGE_SHIFT) mask = 0 → 0 <= i < 64 →
  Z.testbit (mark_mmio_spte g' gen gfn access) i =
    if Z.testbit mask i || (i =? 62) then Z.testbit value i || (i =? 62)
    else if i <? 1 then false
    else if i <? 3 then Z.testbit access i
    else if i <? 12 then Z.testbit gen (i - 2)
    else if i <? 52 then Z.testbit gfn (i - 12)
    else if i <? 62 then Z.testbit gen (i - 42)
    else false.
Proof using Hset Hfmt KO.
  intros Hgfn Hdis Hi. destruct Hfmt as [_ Hlo Hhi].
  pose proof (mmio_value_bit i) as Hv. destruct mmio_masks_set as (_ & _ & Hval).
  assert (Hd : Z.testbit mask i && Z.testbit (Z.shiftl gfn PAGE_SHIFT) i = false)
    by by rewrite andb_comm, <- Z.land_spec, Hdis, Z.bits_0.
  unfold mark_mmio_spte, generation_mmio_spte_mask, vmrun_current_mmio_generation.
  rewrite Hval. clear Hval Hdis.
  autounfold with consts in *. autorewrite with bits in *.
  specialize (Hlo i). specialize (Hhi i).
  assert (Hg : 52 <= i → Z.testbit gfn (i - 12) = false)
    by (intros; apply (is_u_testbit 40); [done|lia]).
  revert Hlo Hhi Hv Hd Hg. bits_enum i Hi; bool_crush.
Qed.

Lemma mark_mmio_spte_is_mmio (gen gfn access : Z) :
  is_u 40 gfn → Z.land (Z.shiftl gfn PAGE_SHIFT) mask = 0 →
  is_mmio_spte g' (mark_mmio_spte g' gen gfn access) = true.
Proof using Hset Hfmt KO.
  intros Hgfn Hdis. unfold is_mmio_spte. apply Z.eqb_eq.
  destruct mmio_masks_set as (_ & -> & Hval). rewrite Hval.
  apply Z.bits_inj'; intros i Hi. autorewrite with bits.
  pose proof (mmio_value_bit i) as Hv. destruct (Z.lt_ge_cases i 64).
  - rewrite mark_mmio_spte_bits by done. revert Hv.
    destruct (Z.testbit mask i), (Z.testbit value i), (i =? 62); cbn;
      rewrite ?andb_true_r, ?andb_false_r; congruence.
  - rewrite Hv, (is_u_testbit 64 mask) by (apply Hfmt || lia). 
    replace (i =? 62) with false by lia. by rewrite ?andb_false_r.
Qed.

Lemma get_mmio_spte_gfn_mark (gen gfn access : Z) :
  is_u 40 gfn → Z.land (Z.shiftl gfn PAGE_SHIFT) mask = 0 →
  get_mmio_spte_gfn g' (mark_mmio_spte g' gen gfn access) = gfn.
Proof using Hset Hfmt KO.
  intros Hgfn Hdis. unfold get_mmio_spte_gfn. destruct mmio_masks_set as (_ & -> & _).
  unfold generation_mmio_spte_mask. 
  apply Z.bits_inj'; intros j Hj. destruct (Z.lt_ge_cases j 64) as [Hj'|Hj'].
  - assert (Hd : Z.testbit mask (j + 12) && Z.testbit gfn j = false).
    { pose proof (Z.bits_0 (j + 12)) as H. rewrite <- Hdis in H.
      autounfold with consts in H. autorewrite with bits in H.
      replace (j + 12 - 12) with j in H by lia. replace (12 <=? j + 12) with true in H by lia.
      by rewrite andb_comm. }
    assert (Hg : 40 <= j → Z.testbit gfn j = false)
      by (intros; apply (is_u_testbit 40); [done|lia]).
    autounfold with consts. autorewrite with bits.
    assert (Hb := λ H, mark_mmio_spte_bits gen gfn access (j + 12) Hgfn Hdis H).
    assert (Hi : 0 <= j < 64) by lia. revert Hd Hg Hb. clear Hj Hj'.
    generalize (Z.testbit (mark_mmio_spte g' gen gfn access)). intros T.
    pose proof (mmf_high _ Hfmt (j + 12)) as Hm. revert Hm.
    bits_enum j Hi; intros Hm Hd Hg Hb; rewrite ?Hb by lia; clear Hb; bool_crush.
  - autounfold with consts. autorewrite with bits.
    rewrite (is_u_testbit 40 gfn) by (done || lia).
    replace (j + 12 <? 64) with false by lia. by rewrite ?andb_false_r.
Qed.

Lemma get_mmio_spte_access_mark (gen gfn access : Z) :
  is_u 40 gfn → Z.land (Z.shiftl gfn PAGE_SHIFT) mask = 0 →
  get_mmio_spte_access g' (mark_mmio_spte g' gen gfn access)
  = Z.land access (Z.lor ACC_WRITE_MASK ACC_USER_MASK).
Proof using Hset Hfmt KO.
  intros Hgfn Hdis. unfold get_mmio_spte_access. destruct mmio_masks_set as (_ & -> & _).
  unfold generation_mmio_spte_mask.
  apply Z.bits_inj'; intros j Hj. destruct (Z.lt_ge_cases j 64) as [Hj'|Hj'].
  - assert (Hb := mark_mmio_spte_bits gen gfn access j Hgfn Hdis (conj Hj Hj')).
    autounfold with consts. autorewrite with bits.
    assert (Hi : 0 <= j < 64) by lia. revert Hb. clear Hj Hj'.
    generalize (Z.testbit (mark_mmio_spte g' gen gfn access)). intros T.
    pose proof (mmf_low _ Hfmt j) as Hm. revert Hm.
    bits_enum j Hi; intros Hm Hb; rewrite ?Hb; clear Hb; bool_crush.
  - autounfold with consts. autorewrite with bits.
    replace (j =? 1) with false by lia. replace (j =? 2) with false by lia.
    replace (j <? 32) with false by lia. by rewrite ?andb_false_r.
Qed.

Lemma get_mmio_spte_generation_mark (gen gfn access : Z) :
  is_u 40 gfn → Z.land (Z.shiftl gfn PAGE_SHIFT) mask = 0 →
  get_mmio_spte_generation g' (mark_mmio_spte g' gen gfn access)
  = Z.land gen (MMIO_GEN_MASK - 1).
Proof using Hset Hfmt KO.
  intros Hgfn Hdis. unfold get_mmio_spte_generation. destruct mmio_masks_set as (_ & -> & _).
  apply Z.bits_inj'; intros j Hj. destruct (Z.lt_ge_cases j 64) as [Hj'|Hj'].
  - assert (Hb := λ H, mark_mmio_spte_bits gen gfn access (j + 2) Hgfn Hdis H).
    assert (Hb' := λ H, mark_mmio_spte_bits gen gfn access (j - 10 + 52) Hgfn Hdis H).
    pose proof (mmf_low _ Hfmt (j + 2)) as Hm.
    pose proof (mmf_high _ Hfmt (j - 10 + 52)) as Hm'.
    autounfold with consts. autorewrite with bits.
    assert (Hi : 0 <= j < 64) by lia. revert Hb Hb'. clear Hj Hj'.
    assert (Hv := mmio_value_bit 63). revert Hm Hm'.
    generalize (mark_mmio_spte g' gen gfn access). intros s.
    bits_enum j Hi; intros Hm Hm' Hb Hb'; rewrite ?Hb, ?Hb' by lia; clear Hb Hb'; bool_crush.
  - autounfold with consts. autorewrite with bits. 
    rewrite (is_u_testbit 32 (BIT 20 - 1 - 1)) by (done || lia).
    replace (j <? 32) with false by lia. by rewrite ?andb_false_r.
Qed.
End Mmio.

(** An MMIO spte is a faithful record of the access it caches.  After
    [vmrun_mmu_set_mmio_spte_mask] installs a mask that leaves the field
    positions alone, [mark_mmio_spte] produces an entry that
    [is_mmio_spte] recognises, that is not a present mapping, and from which
    the readers recover the gfn exactly, the write and user permissions, and
    the generation without its lowest bit. *)
Theorem mmio_spte_roundtrip `{K : KvmPte, KO : !KvmPteOk K}
    (g g' : shadow_masks) (mask value gen gfn access : Z) :
  vmrun_mmu_set_mmio_spte_mask mask value g = Some g' →
  mmio_mask_format mask →
  is_u 40 gfn → Z.land (Z.shiftl gfn PAGE_SHIFT) mask = 0 →
  let spte := mark_mmio_spte g' gen gfn access in
  is_mmio_spte g' spte = true ∧
  is_shadow_present_pte g' spte = false ∧
  get_mmio_spte_gfn g' spte = gfn ∧
  get_mmio_spte_access g' spte = Z.land access (Z.lor ACC_WRITE_MASK ACC_USER_MASK) ∧
  get_mmio_spte_generation g' spte = Z.land gen (MMIO_GEN_MASK - 1).
Proof.
  intros Hset Hfmt Hgfn Hdis spte. subst spte.
  assert (Hm : is_mmio_spte g' (mark_mmio_spte g' gen gfn access) = true)
    by by eapply mark_mmio_spte_is_mmio.
  unfold is_shadow_present_pte. rewrite Hm, andb_false_r. repeat split;
    eauto using get_mmio_spte_gfn_mark, get_mmio_spte_access_mark, get_mmio_spte_generation_mark.
Qed.

Lemma mmio_mask_format_bit0_51 : mmio_mask_format (Z.lor (BIT 0) (BIT 51)).
Proof.
  split; [by vm_compute|..]; intros i Hi; assert (Hi' : 0 <= i < 64) by lia; revert Hi;
    apply bits64_in in Hi'; cbn in Hi';
    repeat (destruct Hi' as [<-|Hi']; [first [reflexivity | lia]|]); destruct Hi'.
Qed.

Lemma mmio_spte_roundtrip_witness :
  let K := kvm_pte_x86 in
  ∃ g', vmrun_mmu_set_mmio_spte_mask (Z.lor (BIT 0) (BIT 51)) (Z.lor (BIT 0) (BIT 51)) zero_masks
        = Some g' ∧
        get_mmio_spte_gfn g' (mark_mmio_spte g' 77 0xfee00 7) = 0xfee00.
Proof.
  eexists. split; [reflexivity|].
  apply (mmio_spte_roundtrip (K := kvm_pte_x86) (KO := kvm_pte_x86_ok)
           zero_masks _ (Z.lor (BIT 0) (BIT 51)) (Z.lor (BIT 0) (BIT 51))).
  - reflexivity.
  - apply mmio_mask_format_bit0_51.
  - by vm_compute.
  - by vm_compute.
Defined.

(** A cached MMIO spte is used exactly while the memslots it was
    created under are current.  [check_mmio_spte] accepts it when the current
    generation agrees with the one it was marked under in the low 20 bits and
    is even, the recorded lowest bit being dropped; so no entry is accepted
    while a memslot update is in progress (odd generation), nor an entry that
    was created during one after the update. *)
Theorem check_mmio_spte_iff `{K : KvmPte, KO : !KvmPteOk K}
    (g g' : shadow_masks) (mask value gen now gfn access : Z) :
  vmrun_mmu_set_mmio_spte_mask mask value g = Some g' →
  mmio_mask_format mask →
  is_u 40 gfn → Z.land (Z.shiftl gfn PAGE_SHIFT) mask = 0 →
  check_mmio_spte g' now (mark_mmio_spte g' gen gfn access) = true ↔
  Z.even now = true ∧ now / 2 mod 2 ^ 19 = gen / 2 mod 2 ^ 19.
Proof.
  intros Hset Hfmt Hgfn Hdis. unfold check_mmio_spte.
  erewrite get_mmio_spte_generation_mark by done. rewrite Z.eqb_eq.
  unfold vmrun_current_mmio_generation.
  rewrite <- !Z.land_ones, <- !Z.div2_div, !Z.div2_spec by lia. split.
  - intros H. split.
    + assert (Hb : Z.testbit (Z.land now MMIO_GEN_MASK) 0
                   = Z.testbit (Z.land gen (MMIO_GEN_MASK - 1)) 0) by by rewrite H.
      rewrite !Z.land_spec in Hb. change (Z.testbit MMIO_GEN_MASK 0) with true in Hb.
      change (Z.testbit (MMIO_GEN_MASK - 1) 0) with false in Hb.
      rewrite Z.bit0_odd, andb_true_r, andb_false_r in Hb. by rewrite <- Z.negb_odd, Hb.
    + apply (f_equal (λ x, Z.shiftr x 1)) in H. by rewrite !Z.shiftr_land in H.
  - intros [He H]. apply Z.bits_inj'; intros i Hi. rewrite !Z.land_spec.
    destruct (Z.eq_dec i 0) as [->|Hi0].
    + rewrite Z.bit0_odd, <- Z.negb_even, He. change (Z.testbit (MMIO_GEN_MASK - 1) 0) with false.
      by rewrite andb_false_r.
    + assert (Hb := f_equal (λ x, Z.testbit x (i - 1)) H). cbn in Hb.
      rewrite !Z.land_spec, !Z.shiftr_spec in Hb by lia. replace (i - 1 + 1) with i in Hb by lia.
      replace (Z.testbit MMIO_GEN_MASK i) with (Z.testbit (Z.ones 19) (i - 1));
        [replace (Z.testbit (MMIO_GEN_MASK - 1) i) with (Z.testbit (Z.ones 19) (i - 1))|]; [done|..];
      change MMIO_GEN_MASK with (2 * Z.ones 19 + 1); change (2 * Z.ones 19 + 1 - 1) with (2 * Z.ones 19);
      replace i with (Z.succ (i - 1)) at 2 by lia.
      * by rewrite Z.testbit_even_succ by lia.
      * by rewrite Z.testbit_odd_succ by lia.
Qed.

Lemma check_mmio_spte_iff_witness :
  let K := kvm_pte_x86 in
  ∃ g', vmrun_mmu_set_mmio_spte_mask (Z.lor (BIT 0) (BIT 51)) (Z.lor (BIT 0) (BIT 51)) zero_masks
        = Some g' ∧
        check_mmio_spte g' 76 (mark_mmio_spte g' 76 0xfee00 7) = true.
Proof.
  eexists. split; [reflexivity|].
  apply (check_mmio_spte_iff (K := kvm_pte_x86) (KO := kvm_pte_x86_ok)
           zero_masks _ (Z.lor (BIT 0) (BIT 51)) (Z.lor (BIT 0) (BIT 51))).
  - reflexivity.
  - apply mmio_mask_format_bit0_51.
  - by vm_compute.
  - by vm_compute.
  - by vm_compute.
Defined.
