(* ===== verification/SpteTrack.v ===== *)
(** * Accessed, dirty and writable tracking of shadow entries

    The hardware walker and the lockless fault path write an spte while the
    MMU code, under its lock, reads and replaces it (kernel/mmu.c).  The code
    decides from [spte_has_volatile_bits] whether a plain store is safe.  Here
    the concurrent writers are a step relation on one entry, and the updates
    are shown to lose none of their writes. *)

From S2P Require Import Prelude.
From S2P Require Import Spte.

(** The masks [vmrun_mmu_set_mask_ptes] is given for real hardware: the
    accessed and dirty masks are one bit each, or absent. *)
Definition hw_bit (m : Z) : Prop := m = 0 ∨ ∃ n, 0 <= n < 31 ∧ m = BIT n.

Record ad_masks (g : shadow_masks) : Prop := {
  am_accessed : hw_bit g.(shadow_accessed_mask);
  am_dirty : hw_bit g.(shadow_dirty_mask)
}.

Section Lockless.
Context `{K : KvmPte} (g : shadow_masks).

(** Writes to a present entry that do not take the MMU lock: the hardware's
    accessed and dirty updates, and the two repairs of [fast_page_fault]. *)
Inductive lockless_step : Z → Z → Prop :=
| hw_access s :
    is_shadow_present_pte g s = true → spte_ad_enabled s = true →
    lockless_step s (Z.lor s g.(shadow_accessed_mask))
| hw_dirty s :
    is_shadow_present_pte g s = true → spte_ad_enabled s = true →
    is_writable_pte s = true → Z.land s g.(shadow_accessed_mask) ≠ 0 →
    lockless_step s (Z.lor s g.(shadow_dirty_mask))
| fast_restore s :
    is_shadow_present_pte g s = true → is_access_track_spte g s = true →
    lockless_step s (restore_acc_track_spte g s).1
| fast_write s :
    is_shadow_present_pte g s = true → spte_can_locklessly_be_made_writable s = true →
    lockless_step s (Z.lor s PT_WRITABLE_MASK)
| fast_restore_write s :
    is_shadow_present_pte g s = true → is_access_track_spte g s = true →
    spte_can_locklessly_be_made_writable s = true →
    lockless_step s (Z.lor (restore_acc_track_spte g s).1 PT_WRITABLE_MASK).

Lemma hw_bit_lor (m s : Z) : hw_bit m → Z.land s m ≠ 0 → Z.lor s m = s.
Proof.
  intros [->|(n & Hn & ->)] Hs; [by rewrite Z.lor_0_r|].
  apply lor_land_id. assert (Hb : Z.testbit s n = true).
  { rewrite <- truth_land_BIT by lia. unfold truth. by destruct (Z.eqb_spec (Z.land s (BIT n)) 0). }
  apply Z.bits_inj'; intros i Hi. autorewrite with bits.
  destruct (Z.eqb_spec i n); subst; [by rewrite Hb|by rewrite andb_false_r].
Qed.

Context (Ham : ad_masks g).

(** An entry without volatile bits does not change behind the lock holder. *)
Lemma lockless_step_stable (s s' : Z) :
  spte_has_volatile_bits g s = false → lockless_step s s' → s' = s.
Proof using Ham.
  unfold spte_has_volatile_bits. intros Hv Hs. destruct Ham as [Ha Hd].
  destruct Hs as [s Hp Had|s Hp Had Hw Hacc|s Hp Ht|s Hp Hl|s Hp Ht Hl];
    rewrite Hp in Hv; cbn in Hv.
  - rewrite Had in Hv. case_match; [done|]. apply orb_false_iff in Hv as [Hv _].
    apply hw_bit_lor; [done|]. by apply Z.eqb_neq.
  - rewrite Had, Hw in Hv. case_match; [done|]. apply orb_false_iff in Hv as [_ Hv].
    apply hw_bit_lor; [done|]. by apply Z.eqb_neq.
  - by rewrite Ht, orb_true_r in Hv.
  - by rewrite Hl in Hv.
  - by rewrite Hl in Hv.
Qed.

Lemma lockless_steps_stable (s s' : Z) :
  spte_has_volatile_bits g s = false → rtc lockless_step s s' → s' = s.
Proof using Ham.
  intros Hv Hs. induction Hs as [|s s1 s' Hs _ IH]; [done|].
  apply lockless_step_stable in Hs; [|done]. subst. auto.
Qed.

Lemma lockless_steps_absent (s s' : Z) :
  is_shadow_present_pte g s = false → rtc lockless_step s s' → s' = s.
Proof using Ham.
  intros Hp. apply lockless_steps_stable. unfold spte_has_volatile_bits. by rewrite Hp.
Qed.

(** The value an update takes as the old one is the value it replaces. *)
Lemma old_spte_is_cur (read cur : Z) :
  rtc lockless_step read cur →
  (if negb (spte_has_volatile_bits g read) then read else cur) = cur.
Proof using Ham.
  intros Hs. destruct (spte_has_volatile_bits g read) eqn:Hv; cbn; [done|].
  symmetry. by apply lockless_steps_stable.
Qed.

Lemma update_no_track_cur (read cur new : Z) :
  rtc lockless_step read cur →
  ∃ ev, mmu_spte_update_no_track g read cur new = (new, cur, ev).
Proof using Ham.
  intros Hs. unfold mmu_spte_update_no_track.
  destruct (is_shadow_present_pte g read) eqn:Hp; cbn.
  - rewrite (old_spte_is_cur read cur Hs). eauto.
  - rewrite (lockless_steps_absent read cur Hp Hs). eauto.
Qed.
End Lockless.

(** No accessed or dirty information is lost when an entry is
    cleared, whatever the hardware and the lockless fault path write between
    the first read and the clearing: the entry ends up zero, the returned
    count says whether a mapping was there, and the accessed (dirty) state of
    the value that was actually replaced is reported for its page. *)
Theorem clear_track_bits_no_loss `{K : KvmPte} (g : shadow_masks) (read cur cell n : Z)
    (ev : list spte_event) :
  ad_masks g → rtc (lockless_step g) read cur →
  mmu_spte_clear_track_bits g read cur = (cell, n, ev) →
  cell = 0 ∧ n = b2z (is_shadow_present_pte g cur) ∧
  ∀ pfn,
    (SetPfnAccessed pfn ∈ ev ↔
       is_shadow_present_pte g cur = true ∧ is_accessed_spte g cur = true ∧ pfn = spte_to_pfn cur) ∧
    (SetPfnDirty pfn ∈ ev ↔
       is_shadow_present_pte g cur = true ∧ is_dirty_spte g cur = true ∧ pfn = spte_to_pfn cur).
Proof.
  intros Ham Hs. unfold mmu_spte_clear_track_bits. rewrite (old_spte_is_cur g Ham read cur Hs).
  destruct (is_shadow_present_pte g cur); cbn [negb].
  - destruct (is_accessed_spte g cur), (is_dirty_spte g cur), (negb _ && negb _);
      intros [= <- <- <-]; cbn; set_solver.
  - intros [= <- <- <-]. set_solver.
Qed.

Definition x86_masks : shadow_masks :=
  zero_masks <| shadow_accessed_mask := BIT 5 |> <| shadow_dirty_mask := BIT 6 |>
             <| shadow_user_mask := BIT 2 |> <| shadow_nx_mask := BIT 63 |>
             <| shadow_mmio_mask := Z.lor (BIT 62) (BIT 51) |>
             <| shadow_mmio_value := Z.lor (BIT 62) (BIT 51) |>
             <| shadow_present_mask := BIT 0 |>.

Definition x86_masks_ad : ad_masks x86_masks.
Proof. split; right; [exists 5|exists 6]; (split; [lia|reflexivity]). Defined.

Lemma clear_track_bits_no_loss_witness :
  let K := kvm_pte_x86 in
  ∃ ev, mmu_spte_clear_track_bits x86_masks 0x5003 0x5063 = (0, 1, ev) ∧
        SetPfnDirty 5 ∈ ev ∧ SetPfnAccessed 5 ∈ ev.
Proof.
  intros K. eexists. split; [reflexivity|].
  edestruct (clear_track_bits_no_loss (K := kvm_pte_x86) x86_masks 0x5003 0x5063)
    as (_ & _ & H); [exact x86_masks_ad| |reflexivity|].
  - eapply rtc_l; [by apply (hw_access x86_masks 0x5003)|].
    eapply rtc_l; [by apply (hw_dirty x86_masks 0x5023)|]. apply rtc_refl.
  - destruct (H 5) as [Ha Hd]. split; [apply Hd|apply Ha]; by vm_compute.
Defined.

(** The entries the MMU builds: the hardware write bit is only set on entries
    that may be made writable without the lock. *)
Definition writable_tracked (s : Z) : Prop :=
  is_writable_pte s = true → spte_can_locklessly_be_made_writable s = true.

(** C33: replacing a present entry keeps the page state and the TLBs
    honest.  Whatever was written locklessly since the read, the entry ends up
    as the new value; accessed (dirty) state that the new value no longer
    shows is reported for the page; and when no flush is requested the new
    entry still grants the write access and shows the accessed and dirty
    state that a TLB may have cached from the old one.  The entry is one whose
    hardware write bit is set only where the host and the MMU allow writing;
    no flush is asked for execute or user rights. *)
Theorem spte_update_no_loss `{K : KvmPte} (g : shadow_masks) (read cur new cell : Z)
    (flush : bool) (ev : list spte_event) :
  ad_masks g → rtc (lockless_step g) read cur → writable_tracked cur →
  is_shadow_present_pte g cur = true →
  mmu_spte_update g read cur new = (cell, flush, ev) →
  cell = new ∧
  (is_accessed_spte g cur = true → is_accessed_spte g new = false →
     SetPfnAccessed (spte_to_pfn cur) ∈ ev) ∧
  (is_dirty_spte g cur = true → is_dirty_spte g new = false →
     SetPfnDirty (spte_to_pfn cur) ∈ ev) ∧
  (flush = false →
     (is_writable_pte cur = true → is_writable_pte new = true) ∧
     (is_accessed_spte g cur = true → is_accessed_spte g new = true) ∧
     (is_dirty_spte g cur = true → is_dirty_spte g new = true)).
Proof.
  intros Ham Hs Hwt Hp. unfold mmu_spte_update.
  destruct (update_no_track_cur g Ham read cur new Hs) as [ev0 ->]. rewrite Hp. cbn [negb].
  unfold writable_tracked in Hwt.
  destruct (is_accessed_spte g cur), (is_accessed_spte g new), (is_dirty_spte g cur),
    (is_dirty_spte g new), (is_writable_pte cur), (is_writable_pte new),
    (spte_can_locklessly_be_made_writable cur);
    try specialize (Hwt eq_refl); cbn; intros [= <- <- <-];
    (split_and!; [done|..]; try set_solver); intros; split_and!; intros; congruence.
Qed.

Lemma spte_update_no_loss_witness :
  let K := kvm_pte_x86 in
  ∃ ev, mmu_spte_update x86_masks 0x5c21 0x5c63 0x5c01 = (0x5c01, true, ev) ∧
        SetPfnDirty 5 ∈ ev.
Proof.
  intros K. eexists. split; [reflexivity|].
  edestruct (spte_update_no_loss (K := kvm_pte_x86) x86_masks 0x5c21 0x5c63 0x5c01)
    as (_ & _ & H & _); [exact x86_masks_ad| | | |reflexivity|].
  - eapply rtc_l; [by apply (fast_write x86_masks 0x5c21)|].
    eapply rtc_l; [by apply (hw_dirty x86_masks 0x5c23)|]. apply rtc_refl.
  - intros _. reflexivity.
  - reflexivity.
  - by apply H.
Defined.

(* ------------------------------------------------------------------ *)
(** ** Access tracking *)

Section Track.
Context `{K : KvmPte, KO : !KvmPteOk K} (g : shadow_masks).

Lemma ad_enabled_bit62 (s : Z) : spte_ad_enabled s = negb (Z.testbit s 62).
Proof using KO.
  unfold spte_ad_enabled, shadow_acc_track_value. by rewrite special_is_bit62, truth_land_BIT.
Qed.

(** The bits of a marked entry. *)
Lemma mark_bits (s i : Z) :
  is_u 64 s → spte_ad_enabled s = false → is_access_track_spte g s = false → 0 <= i < 64 →
  Z.testbit (mark_spte_for_access_track g s).1 i =
  (Z.testbit s i || ((i =? 52) && Z.testbit s 0) || ((i =? 54) && Z.testbit s 2))
  && negb (Z.testbit g.(shadow_acc_track_mask) i).
Proof using KO.
  intros Hu Had Ht Hi. unfold mark_spte_for_access_track. rewrite Had, Ht. cbn [fst].
  autounfold with consts. change (Z.lor 1 4) with 5. clear Ht Had. revert Hu.
  bits_enum i Hi; intros _; bool_crush.
Qed.

Lemma restore_bits (s i : Z) :
  is_u 64 s → 0 <= i < 64 →
  Z.testbit (restore_acc_track_spte g s).1 i =
  (Z.testbit s i && negb (Z.testbit g.(shadow_acc_track_mask) i)
     && negb ((i =? 52) || (i =? 54)))
  || ((i =? 0) && Z.testbit s 52) || ((i =? 2) && Z.testbit s 54).
Proof using KO.
  intros Hu Hi. unfold restore_acc_track_spte. cbn [fst].
  autounfold with consts. change (Z.lor 1 4) with 5. change (Z.shiftl 5 52) with 22517998136852480.
  revert Hu. bits_enum i Hi; intros _; bool_crush.
Qed.

Lemma mark_is_u64 (s : Z) : is_u 64 s → is_u 64 (mark_spte_for_access_track g s).1.
Proof using Type.
  intros Hu. unfold mark_spte_for_access_track, not64.
  repeat case_match; cbn; try done; apply is_u_land; auto with words; apply is_u_wrap; lia.
Qed.

Lemma restore_is_u64 (s : Z) : is_u 64 s → is_u 64 (restore_acc_track_spte g s).1.
Proof using Type.
  intros Hu. unfold restore_acc_track_spte, not64. cbn [fst]. apply is_u_lor; [lia|..].
  - repeat (apply is_u_land; [lia| |apply is_u_wrap; lia]). done.
  - rewrite Z.land_comm. apply is_u_land; [lia|done|]. apply Z.shiftr_nonneg. apply Hu.
Qed.

(** Marking an untracked entry gives a tracked one. *)
Lemma mark_is_tracked (s : Z) :
  is_u 64 s → spte_ad_enabled s = false → is_access_track_spte g s = false →
  Z.testbit g.(shadow_acc_track_mask) 62 = false →
  spte_ad_enabled (mark_spte_for_access_track g s).1 = false ∧
  is_access_track_spte g (mark_spte_for_access_track g s).1 = true.
Proof using KO.
  intros Hu Had Ht H62. pose proof (mark_is_u64 s Hu). pose proof (mark_bits s) as Hb.
  set (m := (mark_spte_for_access_track g s).1) in *.
  assert (Hadm : spte_ad_enabled m = false).
  { rewrite ad_enabled_bit62, Hb by (done || lia). rewrite ad_enabled_bit62 in Had.
    rewrite H62. eval_bits.
    destruct (Z.testbit s 62); done. }
  split; [done|]. unfold is_access_track_spte. rewrite Hadm. apply Z.eqb_eq.
  apply Z.bits_inj'; intros i Hi. rewrite Z.land_spec, Z.bits_0. destruct (Z.lt_ge_cases i 64).
  - rewrite Hb by done. by destruct (Z.testbit (shadow_acc_track_mask g) i);
      rewrite !andb_false_r.
  - by rewrite (is_u_testbit 64 m).
Qed.

Lemma ffs_BIT (n : Z) : 0 <= n < 31 → ffs (BIT n) - 1 = n.
Proof using Type.
  intros Hn. assert (Hi : 0 <= n < 64) by lia. revert Hn. apply bits64_in in Hi; cbn in Hi.
  repeat (destruct Hi as [<-|Hi]; [first [reflexivity|lia]|]). destruct Hi.
Qed.

(** Clearing the hardware accessed bit of an entry with A/D bits enabled. *)
Lemma age_ad_clears (s n : Z) :
  0 <= n < 31 → g.(shadow_accessed_mask) = BIT n → spte_ad_enabled s = true →
  is_accessed_spte g (Z.clearbit s (ffs (BIT n) - 1)) = false.
Proof using KO.
  intros Hn Hm Had.
  rewrite ffs_BIT by done. unfold is_accessed_spte, spte_shadow_accessed_mask.
  replace (spte_ad_enabled (Z.clearbit s n)) with true.
  2: { rewrite ad_enabled_bit62 in Had |- *. rewrite Z.clearbit_neq by lia. done. }
  rewrite Hm, truth_land_BIT, Z.clearbit_eq by lia.
  assert (truth (BIT n) = true) as ->; [|done].
  unfold truth, BIT. rewrite Z.shiftl_1_l. apply negb_true_iff, Z.eqb_neq. lia.
Qed.
End Track.

(** Access tracking without hardware accessed bits is reversible.  An
    untracked entry, with bits 52 and 54 free, is marked by removing its access
    bits; it then reads as tracked and not accessed, and restoring it (which
    raises no warning) gives back exactly the entry without the tracked bits
    other than read and execute. *)
Theorem access_track_roundtrip `{K : KvmPte, KO : !KvmPteOk K} (g : shadow_masks) (s : Z) :
  is_u 64 s →
  spte_ad_enabled s = false → is_access_track_spte g s = false →
  Z.testbit s 52 = false → Z.testbit s 54 = false →
  Z.land g.(shadow_acc_track_mask) (Z.lor (BIT 62) (Z.lor (BIT 52) (BIT 54))) = 0 →
  let m := (mark_spte_for_access_track g s).1 in
  spte_ad_enabled m = false ∧
  is_access_track_spte g m = true ∧
  is_accessed_spte g m = false ∧
  restore_acc_track_spte g m
  = (Z.lor (Z.land s (not64 g.(shadow_acc_track_mask)))
           (Z.land s shadow_acc_track_saved_bits_mask), []).
Proof.
  intros Hu Had Ht H52 H54 Hmask m. subst m.
  assert (Hum := mark_is_u64 g s Hu).
  pose proof (mark_bits g s) as Hb.
  set (m := (mark_spte_for_access_track g s).1) in *.
  assert (Hk : ∀ k, 0 <= k → Z.testbit (Z.lor (BIT 62) (Z.lor (BIT 52) (BIT 54))) k = true →
               Z.testbit (shadow_acc_track_mask g) k = false).
  { rewrite Z.land_comm in Hmask. intros k Hk. by apply land_zero_testbit. }
  destruct (mark_is_tracked g s Hu Had Ht (Hk 62 ltac:(lia) eq_refl)) as [Hadm Htm].
  fold m in Hadm, Htm.
  split_and!; [done|done|..].
  - unfold is_accessed_spte, spte_shadow_accessed_mask. rewrite Hadm. cbn. by rewrite Htm.
  - assert (restore_acc_track_spte g m = ((restore_acc_track_spte g m).1, [])) as ->.
    { unfold restore_acc_track_spte. by rewrite Hadm, Htm. }
    f_equal. apply u64_ext; [by apply restore_is_u64| |].
    { apply is_u_lor; [lia|..]; apply is_u_land; try done; apply is_u_wrap; lia. }
    intros i Hi. rewrite restore_bits, !Hb by (done || lia). rewrite H52, H54.
    assert (H52m := Hk 52 ltac:(lia) eq_refl). assert (H54m := Hk 54 ltac:(lia) eq_refl).
    rewrite H52m, H54m. clear Hk Hb Htm Hadm Hum Hmask Ht Had Hu. 
    autounfold with consts. change (Z.lor 1 4) with 5.
    revert H52 H54 H52m H54m. clear m. bits_enum i Hi; bool_crush.
Qed.

(** EPT without accessed/dirty bits: tracked permissions are bits 0-2. *)
Definition ept_masks : shadow_masks :=
  zero_masks <| shadow_acc_track_mask := 7 |> <| shadow_x_mask := 4 |>
             <| shadow_mmio_mask := BIT 63 |> <| shadow_mmio_value := BIT 63 |>.

Lemma access_track_roundtrip_witness :
  let K := kvm_pte_x86 in
  let s := Z.lor (BIT 62) 0x5c07 in
  restore_acc_track_spte ept_masks (mark_spte_for_access_track ept_masks s).1
  = (Z.lor (BIT 62) 0x5c05, []).
Proof.
  intros K s.
  destruct (access_track_roundtrip (K := kvm_pte_x86) (KO := kvm_pte_x86_ok) ept_masks s)
    as (_ & _ & _ & H); [by vm_compute..|].
  etransitivity; [exact H|by vm_compute].
Defined.

(** Aging an entry reports its accessed state and resets it: with the lock
    held and no concurrent write, [mmu_spte_age] returns whether the entry was
    accessed, and afterwards the entry is not accessed; the dirty state that
    marking for access tracking would hide is reported first. *)
Lemma spte_age_resets `{K : KvmPte, KO : !KvmPteOk K} (g : shadow_masks) (s cell : Z)
    (b : bool) (ev : list spte_event) :
  is_u 64 s → ad_masks g →
  Z.testbit g.(shadow_acc_track_mask) 62 = false →
  (spte_ad_enabled s = true → truth g.(shadow_accessed_mask) = true) →
  mmu_spte_age g s s = (cell, b, ev) →
  b = is_accessed_spte g s ∧ is_accessed_spte g cell = false ∧
  (spte_ad_enabled s = false → b = true → is_dirty_spte g s = true →
     SetPfnDirty (spte_to_pfn s) ∈ ev).
Proof.
  intros Hu [Ham _] H62 Hacc. unfold mmu_spte_age.
  destruct (is_accessed_spte g s) eqn:Ha; cbn [negb].
  2: { intros [= <- <- <-]. done. }
  destruct (spte_ad_enabled s) eqn:Had.
  - intros [= <- <- <-]. split_and!; [done| |done]. specialize (Hacc eq_refl).
    destruct Ham as [Hm|(n & Hn & Hm)]; rewrite Hm in Hacc |- *; [done|]. by apply age_ad_clears.
  - destruct (mark_spte_for_access_track g s) as [m w] eqn:Hm.
    destruct (mmu_spte_update_no_track g s s m) as [[cell' old] ev'] eqn:Hup.
    intros [= <- <- <-]. assert (cell' = m) as ->.
    { revert Hup. unfold mmu_spte_update_no_track, mmu_spte_set. case_match; congruence. }
    split_and!; [done|..].
    + assert (is_access_track_spte g s = false) as Ht.
      { revert Ha. unfold is_accessed_spte, spte_shadow_accessed_mask. rewrite Had. cbn.
        by destruct (is_access_track_spte g s). }
      destruct (mark_is_tracked g s Hu Had Ht H62) as (Hadm & Htm). rewrite Hm in *. cbn in *.
      unfold is_accessed_spte, spte_shadow_accessed_mask. rewrite Hadm. cbn. by rewrite Htm.
    + intros _ _. unfold is_dirty_spte, spte_shadow_dirty_mask. rewrite Had. cbn.
      unfold is_writable_pte. intros ->. set_solver.
Qed.
