(* ===== verification/Vcpu.v ===== *)
(** * The virtual CPU

    The per-VCPU state of kernel/vmrun.h and the cached-register accessors of
    kernel/cache_regs.h.  The control block [vcpu->vmcb] is a page private to
    the VCPU, so it is a nested record; of the hardware layout only the fields
    the driver touches are kept.  Every field is a C integer of the declared
    width, as a non-negative [Z] for the unsigned types.  [BUG()] stops the
    kernel: the result is [None]. *)

From S2P Require Import Prelude.

(* ------------------------------------------------------------------ *)
(** ** Constants of kernel/vmrun.h *)

Definition HF_GIF_MASK : Z := 2 ^ 0.
Definition HF_GUEST_MASK : Z := 2 ^ 5.
Definition HF_SMM_MASK : Z := 2 ^ 6.
Definition V_INTR_MASK : Z := 2 ^ 24.
Definition SEG_TYPE_LDT : Z := 2.
Definition SEG_TYPE_AVAIL_TSS16 : Z := 3.
Definition INVALID_PAGE : Z := 2 ^ 64 - 1.

(** The clean-bit enumeration. *)
Definition VMCB_INTERCEPTS : Z := 0.
Definition VMCB_PERM_MAP : Z := 1.
Definition VMCB_ASID : Z := 2.
Definition VMCB_INTR : Z := 3.
Definition VMCB_NPT : Z := 4.
Definition VMCB_CR : Z := 5.
Definition VMCB_DR : Z := 6.
Definition VMCB_DT : Z := 7.
Definition VMCB_SEG : Z := 8.
Definition VMCB_CR2 : Z := 9.
Definition VMCB_LBR : Z := 10.
Definition VMCB_AVIC : Z := 11.
Definition VMCB_DIRTY_MAX : Z := 12.
Definition VMCB_ALWAYS_DIRTY_MASK : Z := Z.lor (BIT VMCB_INTR) (BIT VMCB_CR2).

#[export] Hint Unfold
  VMCB_INTERCEPTS VMCB_PERM_MAP VMCB_ASID VMCB_INTR VMCB_NPT VMCB_CR VMCB_DR VMCB_DT
  VMCB_SEG VMCB_CR2 VMCB_LBR VMCB_AVIC VMCB_DIRTY_MAX VMCB_ALWAYS_DIRTY_MASK : consts.

Inductive vmrun_reg :=
| VCPU_REGS_RAX | VCPU_REGS_RCX | VCPU_REGS_RDX | VCPU_REGS_RBX
| VCPU_REGS_RSP | VCPU_REGS_RBP | VCPU_REGS_RSI | VCPU_REGS_RDI
| VCPU_REGS_R8 | VCPU_REGS_R9 | VCPU_REGS_R10 | VCPU_REGS_R11
| VCPU_REGS_R12 | VCPU_REGS_R13 | VCPU_REGS_R14 | VCPU_REGS_R15
| VCPU_REGS_RIP.

Definition reg_index (r : vmrun_reg) : nat :=
  match r with
  | VCPU_REGS_RAX => 0 | VCPU_REGS_RCX => 1 | VCPU_REGS_RDX => 2 | VCPU_REGS_RBX => 3
  | VCPU_REGS_RSP => 4 | VCPU_REGS_RBP => 5 | VCPU_REGS_RSI => 6 | VCPU_REGS_RDI => 7
  | VCPU_REGS_R8 => 8 | VCPU_REGS_R9 => 9 | VCPU_REGS_R10 => 10 | VCPU_REGS_R11 => 11
  | VCPU_REGS_R12 => 12 | VCPU_REGS_R13 => 13 | VCPU_REGS_R14 => 14 | VCPU_REGS_R15 => 15
  | VCPU_REGS_RIP => 16
  end.

Definition NR_VCPU_REGS : nat := 17.

(** [enum vmrun_reg_ex]: PDPTR, CR3, RFLAGS, SEGMENTS follow the registers. *)
Definition VCPU_EXREG_CR3 : Z := Z.of_nat NR_VCPU_REGS + 1.

Inductive vcpu_sreg :=
| VCPU_SREG_ES | VCPU_SREG_CS | VCPU_SREG_SS | VCPU_SREG_DS
| VCPU_SREG_FS | VCPU_SREG_GS | VCPU_SREG_TR | VCPU_SREG_LDTR.

#[export] Instance vmrun_reg_eq_dec : EqDecision vmrun_reg.
Proof. solve_decision. Defined.
#[export] Instance vcpu_sreg_eq_dec : EqDecision vcpu_sreg.
Proof. solve_decision. Defined.

#[export] Instance reg_index_inj : Inj (=) (=) reg_index.
Proof. intros [] []; by intros [=]. Qed.

Inductive vcpu_mode :=
| OUTSIDE_GUEST_MODE | IN_GUEST_MODE | EXITING_GUEST_MODE | READING_SHADOW_PAGE_TABLES.

#[export] Instance vcpu_mode_eq_dec : EqDecision vcpu_mode.
Proof. solve_decision. Defined.

(** ** The control block *)

Record vmcb_seg := {
  seg_selector : Z;
  seg_attrib : Z;
  seg_limit : Z;
  seg_base : Z
}.
#[export] Instance eta_vmcb_seg : Eta vmcb_seg := λ r,
  {| seg_selector := r.(seg_selector); seg_attrib := r.(seg_attrib);
     seg_limit := r.(seg_limit); seg_base := r.(seg_base) |}.

Record vmcb_control_area := {
  intercept_cr : Z;
  intercept : Z;
  iopm_base_pa : Z;
  asid : Z;
  tlb_ctl : Z;
  int_ctl : Z;
  exit_code : Z;
  exit_info_1 : Z;
  exit_info_2 : Z;
  exit_int_info : Z;
  clean : Z
}.
#[export] Instance eta_vmcb_control_area : Eta vmcb_control_area := λ r,
  {| intercept_cr := r.(intercept_cr); intercept := r.(intercept);
     iopm_base_pa := r.(iopm_base_pa); asid := r.(asid); tlb_ctl := r.(tlb_ctl);
     int_ctl := r.(int_ctl); exit_code := r.(exit_code); exit_info_1 := r.(exit_info_1);
     exit_info_2 := r.(exit_info_2); exit_int_info := r.(exit_int_info); clean := r.(clean) |}.

Record vmcb_save_area := {
  sa_es : vmcb_seg; sa_cs : vmcb_seg; sa_ss : vmcb_seg; sa_ds : vmcb_seg;
  sa_fs : vmcb_seg; sa_gs : vmcb_seg; sa_gdtr : vmcb_seg; sa_ldtr : vmcb_seg;
  sa_idtr : vmcb_seg; sa_tr : vmcb_seg;
  sa_cpl : Z;
  sa_efer : Z;
  sa_cr4 : Z;
  sa_cr3 : Z;
  sa_cr0 : Z;
  sa_dr6 : Z;
  sa_rflags : Z;
  sa_rip : Z;
  sa_rsp : Z;
  sa_rax : Z;
  sa_cr2 : Z
}.
#[export] Instance eta_vmcb_save_area : Eta vmcb_save_area := λ r,
  {| sa_es := r.(sa_es); sa_cs := r.(sa_cs); sa_ss := r.(sa_ss); sa_ds := r.(sa_ds);
     sa_fs := r.(sa_fs); sa_gs := r.(sa_gs); sa_gdtr := r.(sa_gdtr); sa_ldtr := r.(sa_ldtr);
     sa_idtr := r.(sa_idtr); sa_tr := r.(sa_tr); sa_cpl := r.(sa_cpl); sa_efer := r.(sa_efer);
     sa_cr4 := r.(sa_cr4); sa_cr3 := r.(sa_cr3); sa_cr0 := r.(sa_cr0); sa_dr6 := r.(sa_dr6);
     sa_rflags := r.(sa_rflags); sa_rip := r.(sa_rip); sa_rsp := r.(sa_rsp);
     sa_rax := r.(sa_rax); sa_cr2 := r.(sa_cr2) |}.

Record vmcb := { control : vmcb_control_area; save : vmcb_save_area }.
#[export] Instance eta_vmcb : Eta vmcb := λ r,
  {| control := r.(control); save := r.(save) |}.

(** ** [struct vmrun_run] (user/vmrun.h), the page shared with user space *)
Record vmrun_run := {
  immediate_exit : Z;
  exit_reason : Z;
  if_flag : Z;
  run_cr8 : Z;
  hardware_entry_failure_reason : Z
}.
#[export] Instance eta_vmrun_run : Eta vmrun_run := λ r,
  {| immediate_exit := r.(immediate_exit); exit_reason := r.(exit_reason);
     if_flag := r.(if_flag); run_cr8 := r.(run_cr8);
     hardware_entry_failure_reason := r.(hardware_entry_failure_reason) |}.

Record vmrun_mmu := {
  root_hpa : Z;
  root_level : Z;
  shadow_root_level : Z;
  permissions : list Z
}.
#[export] Instance eta_vmrun_mmu : Eta vmrun_mmu := λ r,
  {| root_hpa := r.(root_hpa); root_level := r.(root_level);
     shadow_root_level := r.(shadow_root_level); permissions := r.(permissions) |}.

(** ** [struct vmrun_vcpu]

    [mutex] tells whether the mutex is held and [notifier_registered] whether
    the preempt notifier is registered. *)
Record vmrun_vcpu := {
  cpu : Z;
  vcpu_id : Z;
  srcu_idx : Z;
  mode : vcpu_mode;
  mutex : bool;
  notifier_registered : bool;
  preempted : bool;
  run : vmrun_run;
  vcpu_vmcb : vmcb;
  vmcb_pa : Z;
  asid_generation : Z;
  next_rip : Z;
  host_fs : Z;
  host_gs : Z;
  host_ldt : Z;
  host_gs_base : Z;
  regs : list Z;
  regs_avail : Z;
  regs_dirty : Z;
  cr0 : Z;
  cr2 : Z;
  cr3 : Z;
  cr4 : Z;
  cr8 : Z;
  hflags : Z;
  efer : Z;
  mp_state : Z;
  mmu : vmrun_mmu
}.
#[export] Instance eta_vmrun_vcpu : Eta vmrun_vcpu := λ r,
  {| cpu := r.(cpu); vcpu_id := r.(vcpu_id); srcu_idx := r.(srcu_idx); mode := r.(mode);
     mutex := r.(mutex); notifier_registered := r.(notifier_registered);
     preempted := r.(preempted); run := r.(run); vcpu_vmcb := r.(vcpu_vmcb);
     vmcb_pa := r.(vmcb_pa); asid_generation := r.(asid_generation); next_rip := r.(next_rip);
     host_fs := r.(host_fs); host_gs := r.(host_gs); host_ldt := r.(host_ldt);
     host_gs_base := r.(host_gs_base); regs := r.(regs); regs_avail := r.(regs_avail);
     regs_dirty := r.(regs_dirty); cr0 := r.(cr0); cr2 := r.(cr2); cr3 := r.(cr3);
     cr4 := r.(cr4); cr8 := r.(cr8); hflags := r.(hflags); efer := r.(efer);
     mp_state := r.(mp_state); mmu := r.(mmu) |}.

(** Assignments through [vcpu->vmcb->control] and [vcpu->vmcb->save]. *)
Definition upd_control (f : vmcb_control_area → vmcb_control_area) (v : vmrun_vcpu) : vmrun_vcpu :=
  v <| vcpu_vmcb ::= λ b, b <| control ::= f |> |>.
Definition upd_save (f : vmcb_save_area → vmcb_save_area) (v : vmrun_vcpu) : vmrun_vcpu :=
  v <| vcpu_vmcb ::= λ b, b <| save ::= f |> |>.
Abbreviation ctl v := (control (vcpu_vmcb v)).
Abbreviation sav v := (save (vcpu_vmcb v)).

(** [control.clean &= ~(1 << bit)] *)
Definition mark_dirty (bit : Z) : vmrun_vcpu → vmrun_vcpu :=
  upd_control (λ c, c <| clean ::= λ x, Z.land x (not32 (BIT bit)) |>).

(* ------------------------------------------------------------------ *)
(** ** kernel/cache_regs.h *)

Definition vmrun_register_read (v : vmrun_vcpu) (r : vmrun_reg) : option Z :=
  if negb (Z.testbit v.(regs_avail) (Z.of_nat (reg_index r))) then None
  else v.(regs) !! reg_index r.

Definition vmrun_register_write (r : vmrun_reg) (val : Z) (v : vmrun_vcpu) : vmrun_vcpu :=
  v <| regs ::= <[reg_index r := val]> |>
    <| regs_dirty ::= λ d, Z.setbit d (Z.of_nat (reg_index r)) |>
    <| regs_avail ::= λ a, Z.setbit a (Z.of_nat (reg_index r)) |>.

Definition vmrun_rip_read (v : vmrun_vcpu) : option Z := vmrun_register_read v VCPU_REGS_RIP.
Definition vmrun_rip_write (val : Z) (v : vmrun_vcpu) : vmrun_vcpu :=
  vmrun_register_write VCPU_REGS_RIP val v.

Definition vmrun_read_cr0_bits (v : vmrun_vcpu) (mask : Z) : Z := Z.land v.(cr0) mask.
Definition vmrun_read_cr0 (v : vmrun_vcpu) : Z := vmrun_read_cr0_bits v (not64 0).
Definition vmrun_read_cr4_bits (v : vmrun_vcpu) (mask : Z) : Z := Z.land v.(cr4) mask.
Definition vmrun_read_cr3 (v : vmrun_vcpu) : Z := v.(cr3).
Definition vmrun_read_cr4 (v : vmrun_vcpu) : Z := vmrun_read_cr4_bits v (not64 0).

Definition vmrun_read_edx_eax (v : vmrun_vcpu) : option Z :=
  a ← vmrun_register_read v VCPU_REGS_RAX;
  d ← vmrun_register_read v VCPU_REGS_RDX;
  Some (Z.lor (Z.land a (2 ^ 32 - 1)) (u64 (Z.shiftl (Z.land d (2 ^ 32 - 1)) 32))).

Definition enter_guest_mode (v : vmrun_vcpu) : vmrun_vcpu :=
  v <| hflags ::= λ h, Z.lor h HF_GUEST_MASK |>.
Definition leave_guest_mode (v : vmrun_vcpu) : vmrun_vcpu :=
  v <| hflags ::= λ h, Z.land h (not32 HF_GUEST_MASK) |>.
Definition is_guest_mode (v : vmrun_vcpu) : bool := truth (Z.land v.(hflags) HF_GUEST_MASK).
Definition is_smm (v : vmrun_vcpu) : bool := truth (Z.land v.(hflags) HF_SMM_MASK).

(* ------------------------------------------------------------------ *)
(** ** Lemmas on the accessors *)

Lemma register_read_write (v : vmrun_vcpu) (r : vmrun_reg) (val : Z) :
  length v.(regs) = NR_VCPU_REGS →
  vmrun_register_read (vmrun_register_write r val v) r = Some val.
Proof.
  intros Hlen. unfold vmrun_register_read, vmrun_register_write. cbn.
  rewrite Z.setbit_eq by lia. cbn. apply list_lookup_insert_eq. rewrite Hlen.
  unfold NR_VCPU_REGS. destruct r; cbn; lia.
Qed.

Lemma register_read_write_ne (v : vmrun_vcpu) (r r' : vmrun_reg) (val : Z) :
  r ≠ r' →
  vmrun_register_read (vmrun_register_write r val v) r' = vmrun_register_read v r'.
Proof.
  intros Hne. unfold vmrun_register_read, vmrun_register_write. cbn.
  assert (reg_index r ≠ reg_index r') by (intros ?%(inj _); done).
  rewrite Z.setbit_neq, list_lookup_insert_ne by lia. done.
Qed.

Lemma register_write_length (v : vmrun_vcpu) (r : vmrun_reg) (val : Z) :
  length (vmrun_register_write r val v).(regs) = length v.(regs).
Proof. cbn. apply length_insert. Qed.

Lemma read_cr0_id (v : vmrun_vcpu) : is_u 64 v.(cr0) → vmrun_read_cr0 v = v.(cr0).
Proof.
  intros Hu. unfold vmrun_read_cr0, vmrun_read_cr0_bits.
  change (not64 0) with (Z.ones 64). rewrite Z.land_ones by lia. by apply Z.mod_small.
Qed.

Lemma read_cr4_id (v : vmrun_vcpu) : is_u 64 v.(cr4) → vmrun_read_cr4 v = v.(cr4).
Proof.
  intros Hu. unfold vmrun_read_cr4, vmrun_read_cr4_bits.
  change (not64 0) with (Z.ones 64). rewrite Z.land_ones by lia. by apply Z.mod_small.
Qed.
