(* ===== verification/Vmcb.v ===== *)
(** * Control registers, segments and the control block

    The operations of kernel/vmrun.c that edit the VMCB between two entries
    into the guest: CR0/CR4/EFER, intercepts, segments and descriptor tables,
    [vmrun_vmcb_init], and the get/set ioctls for the registers.

    The bits named by the Linux headers are the parameters of the class [X86];
    [X86Ok] says that they are the ones the AMD manual documents. *)

From S2P Require Import Prelude.
From S2P Require Import Vcpu.

Class X86 := {
  X86_CR0_PE : Z; X86_CR0_MP : Z; X86_CR0_TS : Z; X86_CR0_ET : Z;
  X86_CR0_WP : Z; X86_CR0_NW : Z; X86_CR0_CD : Z; X86_CR0_PG : Z;
  X86_CR4_PAE : Z; X86_CR4_MCE : Z; X86_CR4_PGE : Z; X86_CR4_VMXE : Z;
  EFER_LME : Z; EFER_LMA : Z; EFER_SVME : Z;
  SVM_SELECTOR_S_SHIFT : Z; SVM_SELECTOR_DPL_SHIFT : Z; SVM_SELECTOR_P_SHIFT : Z;
  SVM_SELECTOR_AVL_SHIFT : Z; SVM_SELECTOR_L_SHIFT : Z; SVM_SELECTOR_DB_SHIFT : Z;
  SVM_SELECTOR_G_SHIFT : Z;
  SVM_SELECTOR_TYPE_MASK : Z; SVM_SELECTOR_S_MASK : Z; SVM_SELECTOR_P_MASK : Z;
  SVM_SELECTOR_WRITE_MASK : Z; SVM_SELECTOR_READ_MASK : Z; SVM_SELECTOR_CODE_MASK : Z;
  INTERCEPT_INTR : Z; INTERCEPT_NMI : Z; INTERCEPT_SMI : Z; INTERCEPT_VMRUN : Z;
  INTERCEPT_VMMCALL : Z;
  INTERCEPT_CR0_READ : Z; INTERCEPT_CR0_WRITE : Z; INTERCEPT_CR8_WRITE : Z;
  TLB_CONTROL_DO_NOTHING : Z; TLB_CONTROL_FLUSH_ALL_ASID : Z; TLB_CONTROL_FLUSH_ASID : Z
}.

Class X86Ok (X : X86) : Prop := {
  cr0_bits : X86_CR0_PE = BIT 0 ∧ X86_CR0_MP = BIT 1 ∧ X86_CR0_TS = BIT 3 ∧ X86_CR0_ET = BIT 4 ∧
             X86_CR0_WP = BIT 16 ∧ X86_CR0_NW = BIT 29 ∧ X86_CR0_CD = BIT 30 ∧ X86_CR0_PG = BIT 31;
  cr4_bits : X86_CR4_PAE = BIT 5 ∧ X86_CR4_MCE = BIT 6 ∧ X86_CR4_PGE = BIT 7 ∧ X86_CR4_VMXE = BIT 13;
  efer_bits : EFER_LME = BIT 8 ∧ EFER_LMA = BIT 10 ∧ EFER_SVME = BIT 12;
  selector_shifts : SVM_SELECTOR_S_SHIFT = 4 ∧ SVM_SELECTOR_DPL_SHIFT = 5 ∧
             SVM_SELECTOR_P_SHIFT = 7 ∧ SVM_SELECTOR_AVL_SHIFT = 8 ∧ SVM_SELECTOR_L_SHIFT = 9 ∧
             SVM_SELECTOR_DB_SHIFT = 10 ∧ SVM_SELECTOR_G_SHIFT = 11;
  selector_type_mask : SVM_SELECTOR_TYPE_MASK = 15;
  cr_intercepts : INTERCEPT_CR0_READ = 0 ∧ INTERCEPT_CR0_WRITE = 16 ∧ INTERCEPT_CR8_WRITE = 24
}.

(** ** Structures of user/vmrun.h *)

Record vmrun_regs := {
  u_rax : Z; u_rbx : Z; u_rcx : Z; u_rdx : Z; u_rsi : Z; u_rdi : Z; u_rsp : Z; u_rbp : Z;
  u_r8 : Z; u_r9 : Z; u_r10 : Z; u_r11 : Z; u_r12 : Z; u_r13 : Z; u_r14 : Z; u_r15 : Z;
  u_rip : Z; u_rflags : Z
}.
#[export] Instance eta_vmrun_regs : Eta vmrun_regs := λ r,
  {| u_rax := r.(u_rax); u_rbx := r.(u_rbx); u_rcx := r.(u_rcx); u_rdx := r.(u_rdx);
     u_rsi := r.(u_rsi); u_rdi := r.(u_rdi); u_rsp := r.(u_rsp); u_rbp := r.(u_rbp);
     u_r8 := r.(u_r8); u_r9 := r.(u_r9); u_r10 := r.(u_r10); u_r11 := r.(u_r11);
     u_r12 := r.(u_r12); u_r13 := r.(u_r13); u_r14 := r.(u_r14); u_r15 := r.(u_r15);
     u_rip := r.(u_rip); u_rflags := r.(u_rflags) |}.

Record vmrun_segment := {
  g_base : Z; g_limit : Z; g_selector : Z; g_type : Z;
  g_present : Z; g_dpl : Z; g_db : Z; g_s : Z; g_l : Z; g_g : Z; g_avl : Z;
  g_unusable : Z
}.
#[export] Instance eta_vmrun_segment : Eta vmrun_segment := λ r,
  {| g_base := r.(g_base); g_limit := r.(g_limit); g_selector := r.(g_selector);
     g_type := r.(g_type); g_present := r.(g_present); g_dpl := r.(g_dpl); g_db := r.(g_db);
     g_s := r.(g_s); g_l := r.(g_l); g_g := r.(g_g); g_avl := r.(g_avl);
     g_unusable := r.(g_unusable) |}.

Record vmrun_dtable := { dt_base : Z; dt_limit : Z }.
#[export] Instance eta_vmrun_dtable : Eta vmrun_dtable := λ r,
  {| dt_base := r.(dt_base); dt_limit := r.(dt_limit) |}.

Record vmrun_sregs := {
  s_cs : vmrun_segment; s_ds : vmrun_segment; s_es : vmrun_segment; s_fs : vmrun_segment;
  s_gs : vmrun_segment; s_ss : vmrun_segment; s_tr : vmrun_segment; s_ldt : vmrun_segment;
  s_gdt : vmrun_dtable; s_idt : vmrun_dtable;
  s_cr0 : Z; s_cr2 : Z; s_cr3 : Z; s_cr4 : Z; s_cr8 : Z; s_efer : Z;
  s_apic_base : Z; s_interrupt_bitmap : list Z
}.
#[export] Instance eta_vmrun_sregs : Eta vmrun_sregs := λ r,
  {| s_cs := r.(s_cs); s_ds := r.(s_ds); s_es := r.(s_es); s_fs := r.(s_fs); s_gs := r.(s_gs);
     s_ss := r.(s_ss); s_tr := r.(s_tr); s_ldt := r.(s_ldt); s_gdt := r.(s_gdt);
     s_idt := r.(s_idt); s_cr0 := r.(s_cr0); s_cr2 := r.(s_cr2); s_cr3 := r.(s_cr3);
     s_cr4 := r.(s_cr4); s_cr8 := r.(s_cr8); s_efer := r.(s_efer);
     s_apic_base := r.(s_apic_base); s_interrupt_bitmap := r.(s_interrupt_bitmap) |}.

(** Linux's [struct desc_ptr]: a 16-bit size and an address. *)
Record desc_ptr := { size : Z; address : Z }.
#[export] Instance eta_desc_ptr : Eta desc_ptr := λ r,
  {| size := r.(size); address := r.(address) |}.

Section Vmcb.
Context `{X : X86}.

(** [npt_enabled] and [iopm_base] are static variables of vmrun.c;
    [cr4_shadow] is the host's [cr4_read_shadow()], [has_flushbyasid] is
    [static_cpu_has(X86_FEATURE_FLUSHBYASID)], and [mmu_reset] is the new
    [vcpu->mmu] that [vmrun_mmu_reset_context] leaves. *)
Context (npt_enabled : bool) (iopm_base cr4_shadow : Z) (has_flushbyasid : bool).
Context (mmu_reset : vmrun_vcpu → vmrun_mmu).

Definition VMRUN_CR0_SELECTIVE_MASK : Z := Z.lor X86_CR0_TS X86_CR0_MP.

(** ** Control registers *)

Definition vmrun_set_cr_intercept (bit : Z) (v : vmrun_vcpu) : vmrun_vcpu :=
  mark_dirty VMCB_INTERCEPTS
    (upd_control (λ c, c <| intercept_cr ::= λ x, Z.lor x (u32 (BIT bit)) |>) v).

Definition vmrun_clr_cr_intercept (bit : Z) (v : vmrun_vcpu) : vmrun_vcpu :=
  mark_dirty VMCB_INTERCEPTS
    (upd_control (λ c, c <| intercept_cr ::= λ x, Z.land x (not32 (BIT bit)) |>) v).

Definition vmrun_is_cr_intercept (v : vmrun_vcpu) (bit : Z) : bool :=
  truth (Z.land (ctl v).(intercept_cr) (u32 (BIT bit))).

Definition vmrun_update_cr0_intercept (v : vmrun_vcpu) : vmrun_vcpu :=
  let gcr0 := v.(cr0) in
  let hcr0 := Z.lor (Z.land (sav v).(sa_cr0) (not64 VMRUN_CR0_SELECTIVE_MASK))
                    (Z.land gcr0 VMRUN_CR0_SELECTIVE_MASK) in
  let v := upd_save (λ s, s <| sa_cr0 := hcr0 |>) v in
  let v := mark_dirty VMCB_CR v in
  if gcr0 =? hcr0 then
    vmrun_clr_cr_intercept INTERCEPT_CR0_WRITE (vmrun_clr_cr_intercept INTERCEPT_CR0_READ v)
  else
    vmrun_set_cr_intercept INTERCEPT_CR0_WRITE (vmrun_set_cr_intercept INTERCEPT_CR0_READ v).

(** The long-mode part of [vmrun_set_cr0]: the two tests are made one after
    the other, on the old CR0. *)
Definition set_cr0_efer (new_cr0 : Z) (v : vmrun_vcpu) : vmrun_vcpu :=
  if truth (Z.land v.(efer) EFER_LME) then
    let pg := truth (vmrun_read_cr0_bits v X86_CR0_PG) in
    let v1 :=
      if negb pg && truth (Z.land new_cr0 X86_CR0_PG) then
        upd_save (λ s, s <| sa_efer ::= λ e, Z.lor e (Z.lor EFER_LMA EFER_LME) |>)
          (v <| efer ::= λ e, Z.lor e EFER_LMA |>)
      else v in
    if pg && negb (truth (Z.land new_cr0 X86_CR0_PG)) then
      upd_save (λ s, s <| sa_efer ::= λ e, Z.land e (not64 (Z.lor EFER_LMA EFER_LME)) |>)
        (v1 <| efer ::= λ e, Z.land e (not64 EFER_LMA) |>)
    else v1
  else v.

Definition vmrun_set_cr0 (new_cr0 : Z) (v : vmrun_vcpu) : vmrun_vcpu :=
  let v := set_cr0_efer new_cr0 v in
  let v := v <| cr0 := new_cr0 |> in
  let hw := if negb npt_enabled then Z.lor new_cr0 (Z.lor X86_CR0_PG X86_CR0_WP) else new_cr0 in
  let v := upd_save (λ s, s <| sa_cr0 := hw |>) v in
  let v := mark_dirty VMCB_CR v in
  vmrun_update_cr0_intercept v.

Definition vmrun_flush_tlb (v : vmrun_vcpu) : vmrun_vcpu :=
  if has_flushbyasid then upd_control (λ c, c <| tlb_ctl := TLB_CONTROL_FLUSH_ASID |>) v
  else v <| asid_generation ::= λ g, u64 (g - 1) |>.

(** Result: the returned int and the VCPU. *)
Definition vmrun_set_cr4 (new_cr4 : Z) (v : vmrun_vcpu) : Z * vmrun_vcpu :=
  let host_cr4_mce := Z.land cr4_shadow X86_CR4_MCE in
  let old_cr4 := (sav v).(sa_cr4) in
  if truth (Z.land new_cr4 X86_CR4_VMXE) then (1, v)
  else
    let v := if npt_enabled && truth (Z.land (Z.lxor old_cr4 new_cr4) X86_CR4_PGE)
             then vmrun_flush_tlb v else v in
    let v := v <| cr4 := new_cr4 |> in
    let hw := if negb npt_enabled then Z.lor new_cr4 X86_CR4_PAE else new_cr4 in
    let hw := Z.lor hw host_cr4_mce in
    (0, mark_dirty VMCB_CR (upd_save (λ s, s <| sa_cr4 := hw |>) v)).

Definition vmrun_set_efer (new_efer : Z) (v : vmrun_vcpu) : vmrun_vcpu :=
  let v := v <| efer := new_efer |> in
  let hw := if negb npt_enabled && negb (truth (Z.land new_efer EFER_LMA))
            then Z.land new_efer (not64 EFER_LME) else new_efer in
  mark_dirty VMCB_CR (upd_save (λ s, s <| sa_efer := Z.lor hw EFER_SVME |>) v).

(** ** Segments *)

Definition vmrun_seg (s : vmcb_save_area) (seg : vcpu_sreg) : vmcb_seg :=
  match seg with
  | VCPU_SREG_CS => s.(sa_cs)
  | VCPU_SREG_DS => s.(sa_ds)
  | VCPU_SREG_ES => s.(sa_es)
  | VCPU_SREG_FS => s.(sa_fs)
  | VCPU_SREG_GS => s.(sa_gs)
  | VCPU_SREG_SS => s.(sa_ss)
  | VCPU_SREG_TR => s.(sa_tr)
  | VCPU_SREG_LDTR => s.(sa_ldtr)
  end.

(** A write through the pointer [vmrun_seg] returns. *)
Definition vmrun_seg_write (seg : vcpu_sreg) (x : vmcb_seg) (s : vmcb_save_area) : vmcb_save_area :=
  match seg with
  | VCPU_SREG_CS => s <| sa_cs := x |>
  | VCPU_SREG_DS => s <| sa_ds := x |>
  | VCPU_SREG_ES => s <| sa_es := x |>
  | VCPU_SREG_FS => s <| sa_fs := x |>
  | VCPU_SREG_GS => s <| sa_gs := x |>
  | VCPU_SREG_SS => s <| sa_ss := x |>
  | VCPU_SREG_TR => s <| sa_tr := x |>
  | VCPU_SREG_LDTR => s <| sa_ldtr := x |>
  end.

Definition vmrun_get_segment_base (v : vmrun_vcpu) (seg : vcpu_sreg) : Z :=
  (vmrun_seg (sav v) seg).(seg_base).

Definition vmrun_get_segment (v : vmrun_vcpu) (seg : vcpu_sreg) : vmrun_segment :=
  let s := vmrun_seg (sav v) seg in
  let field shift mask := Z.land (Z.shiftr s.(seg_attrib) shift) mask in
  let present := field SVM_SELECTOR_P_SHIFT 1 in
  let var :=
    {| g_base := s.(seg_base); g_limit := s.(seg_limit); g_selector := s.(seg_selector);
       g_type := u8 (Z.land s.(seg_attrib) SVM_SELECTOR_TYPE_MASK);
       g_s := field SVM_SELECTOR_S_SHIFT 1;
       g_dpl := field SVM_SELECTOR_DPL_SHIFT 3;
       g_present := present;
       g_avl := field SVM_SELECTOR_AVL_SHIFT 1;
       g_l := field SVM_SELECTOR_L_SHIFT 1;
       g_db := field SVM_SELECTOR_DB_SHIFT 1;
       g_g := b2z (s.(seg_limit) >? 0xfffff);
       g_unusable := b2z (negb (truth present)) |} in
  match seg with
  | VCPU_SREG_TR => var <| g_type ::= λ t, Z.lor t 2 |>
  | VCPU_SREG_DS | VCPU_SREG_ES | VCPU_SREG_FS | VCPU_SREG_GS =>
      if negb (truth var.(g_unusable)) then var <| g_type ::= λ t, Z.lor t 1 |> else var
  | VCPU_SREG_SS =>
      (if truth var.(g_unusable) then var <| g_db := 0 |> else var)
        <| g_dpl := (sav v).(sa_cpl) |>
  | VCPU_SREG_CS | VCPU_SREG_LDTR => var
  end.

Definition segment_attrib (var : vmrun_segment) : Z :=
  let a := Z.land var.(g_type) SVM_SELECTOR_TYPE_MASK in
  let a := Z.lor a (Z.shiftl (Z.land var.(g_s) 1) SVM_SELECTOR_S_SHIFT) in
  let a := Z.lor a (Z.shiftl (Z.land var.(g_dpl) 3) SVM_SELECTOR_DPL_SHIFT) in
  let a := Z.lor a (Z.shiftl (b2z (truth (Z.land var.(g_present) 1) && negb (truth var.(g_unusable))))
                             SVM_SELECTOR_P_SHIFT) in
  let a := Z.lor a (Z.shiftl (Z.land var.(g_avl) 1) SVM_SELECTOR_AVL_SHIFT) in
  let a := Z.lor a (Z.shiftl (Z.land var.(g_l) 1) SVM_SELECTOR_L_SHIFT) in
  let a := Z.lor a (Z.shiftl (Z.land var.(g_db) 1) SVM_SELECTOR_DB_SHIFT) in
  u16 (Z.lor a (Z.shiftl (Z.land var.(g_g) 1) SVM_SELECTOR_G_SHIFT)).

Definition vmrun_set_segment (var : vmrun_segment) (seg : vcpu_sreg) (v : vmrun_vcpu) : vmrun_vcpu :=
  let x := {| seg_base := var.(g_base); seg_limit := var.(g_limit);
              seg_selector := var.(g_selector); seg_attrib := segment_attrib var |} in
  let v := upd_save (vmrun_seg_write seg x) v in
  let v := if decide (seg = VCPU_SREG_SS)
           then upd_save (λ s, s <| sa_cpl := Z.land var.(g_dpl) 3 |>) v else v in
  mark_dirty VMCB_SEG v.

Definition vmrun_get_cpl (v : vmrun_vcpu) : Z := (sav v).(sa_cpl).

(** ** Descriptor tables and flags *)

Definition vmrun_get_idt (v : vmrun_vcpu) : desc_ptr :=
  {| size := u16 (sav v).(sa_idtr).(seg_limit); address := (sav v).(sa_idtr).(seg_base) |}.

Definition vmrun_set_idt (dt : desc_ptr) (v : vmrun_vcpu) : vmrun_vcpu :=
  mark_dirty VMCB_DT
    (upd_save (λ s, s <| sa_idtr ::= λ t, t <| seg_limit := dt.(size) |> <| seg_base := dt.(address) |> |>) v).

Definition vmrun_get_gdt (v : vmrun_vcpu) : desc_ptr :=
  {| size := u16 (sav v).(sa_gdtr).(seg_limit); address := (sav v).(sa_gdtr).(seg_base) |}.

Definition vmrun_set_gdt (dt : desc_ptr) (v : vmrun_vcpu) : vmrun_vcpu :=
  mark_dirty VMCB_DT
    (upd_save (λ s, s <| sa_gdtr ::= λ t, t <| seg_limit := dt.(size) |> <| seg_base := dt.(address) |> |>) v).

Definition vmrun_get_rflags (v : vmrun_vcpu) : Z := (sav v).(sa_rflags).
Definition vmrun_set_rflags (rflags : Z) (v : vmrun_vcpu) : vmrun_vcpu :=
  upd_save (λ s, s <| sa_rflags := rflags |>) v.

(** ** Reset state *)

Definition vmrun_init_seg : vmcb_seg :=
  {| seg_selector := 0;
     seg_attrib := Z.lor (Z.lor SVM_SELECTOR_P_MASK SVM_SELECTOR_S_MASK) SVM_SELECTOR_WRITE_MASK;
     seg_limit := 0xffff; seg_base := 0 |}.

Definition vmrun_init_sys_seg (type : Z) : vmcb_seg :=
  {| seg_selector := 0; seg_attrib := u16 (Z.lor SVM_SELECTOR_P_MASK type);
     seg_limit := 0xffff; seg_base := 0 |}.

Definition vmcb_init_control (c : vmcb_control_area) : vmcb_control_area :=
  c <| intercept ::= λ i,
         Z.lor (Z.lor (Z.lor (Z.lor (Z.lor i (BIT INTERCEPT_INTR)) (BIT INTERCEPT_NMI))
                             (BIT INTERCEPT_SMI)) (BIT INTERCEPT_VMRUN)) (BIT INTERCEPT_VMMCALL) |>
    <| clean ::= λ x, Z.land x (not32 (BIT VMCB_INTERCEPTS)) |>
    <| iopm_base_pa := iopm_base |>
    <| int_ctl := V_INTR_MASK |>.

Definition RESET_CR0 : Z := Z.lor (Z.lor X86_CR0_NW X86_CR0_CD) X86_CR0_ET.

Definition vmcb_init_save (s : vmcb_save_area) : vmcb_save_area :=
  s <| sa_es := vmrun_init_seg |> <| sa_ss := vmrun_init_seg |> <| sa_ds := vmrun_init_seg |>
    <| sa_fs := vmrun_init_seg |> <| sa_gs := vmrun_init_seg |>
    <| sa_cs := {| seg_selector := 0xf000; seg_base := 0xffff0000;
                   seg_attrib := Z.lor (Z.lor (Z.lor SVM_SELECTOR_READ_MASK SVM_SELECTOR_P_MASK)
                                              SVM_SELECTOR_S_MASK) SVM_SELECTOR_CODE_MASK;
                   seg_limit := 0xffff |} |>
    <| sa_gdtr ::= λ t, t <| seg_limit := 0xffff |> |>
    <| sa_idtr ::= λ t, t <| seg_limit := 0xffff |> |>
    <| sa_ldtr := vmrun_init_sys_seg SEG_TYPE_LDT |>
    <| sa_tr := vmrun_init_sys_seg SEG_TYPE_AVAIL_TSS16 |>
    <| sa_efer := EFER_SVME |>
    <| sa_cr0 := Z.lor (Z.lor (Z.lor RESET_CR0 X86_CR0_PE) X86_CR0_PG) X86_CR0_WP |>
    <| sa_cr4 := X86_CR4_PAE |>
    <| sa_rip := 0xfff0 |>
    <| sa_dr6 := 0xffff0ff0 |>
    <| sa_rflags := 2 |>.

Definition vmrun_vmcb_init (v : vmrun_vcpu) : vmrun_vcpu :=
  let v := upd_control vmcb_init_control v in
  let v := upd_save vmcb_init_save v in
  let v := mark_dirty VMCB_CR v in
  let v := upd_control (λ c, c <| clean := 0 |>) v in
  let v := v <| cr0 := RESET_CR0 |>
             <| efer := 0 |>
             <| hflags ::= λ h, Z.lor h HF_GIF_MASK |>
             <| asid_generation := 0 |> in
  let v := v <| regs ::= <[reg_index VCPU_REGS_RIP := (sav v).(sa_rip)]> |> in
  v <| mmu := mmu_reset v |>.

Definition vmrun_vcpu_reset (v : vmrun_vcpu) : vmrun_vcpu :=
  let v := v <| hflags := 0 |> <| cr2 := 0 |>
             <| regs := replicate NR_VCPU_REGS 0 |>
             <| regs_avail := not32 0 |> <| regs_dirty := not32 0 |> in
  vmrun_vmcb_init v.

(** ** The register ioctls *)

Definition vmrun_vcpu_ioctl_get_regs (v : vmrun_vcpu) : option (Z * vmrun_regs) :=
  rax ← vmrun_register_read v VCPU_REGS_RAX;
  rbx ← vmrun_register_read v VCPU_REGS_RBX;
  rcx ← vmrun_register_read v VCPU_REGS_RCX;
  rdx ← vmrun_register_read v VCPU_REGS_RDX;
  rsi ← vmrun_register_read v VCPU_REGS_RSI;
  rdi ← vmrun_register_read v VCPU_REGS_RDI;
  rsp ← vmrun_register_read v VCPU_REGS_RSP;
  rbp ← vmrun_register_read v VCPU_REGS_RBP;
  r8 ← vmrun_register_read v VCPU_REGS_R8;
  r9 ← vmrun_register_read v VCPU_REGS_R9;
  r10 ← vmrun_register_read v VCPU_REGS_R10;
  r11 ← vmrun_register_read v VCPU_REGS_R11;
  r12 ← vmrun_register_read v VCPU_REGS_R12;
  r13 ← vmrun_register_read v VCPU_REGS_R13;
  r14 ← vmrun_register_read v VCPU_REGS_R14;
  r15 ← vmrun_register_read v VCPU_REGS_R15;
  rip ← vmrun_register_read v VCPU_REGS_RIP;
  Some (0, {| u_rax := rax; u_rbx := rbx; u_rcx := rcx; u_rdx := rdx;
              u_rsi := rsi; u_rdi := rdi; u_rsp := rsp; u_rbp := rbp;
              u_r8 := r8; u_r9 := r9; u_r10 := r10; u_r11 := r11;
              u_r12 := r12; u_r13 := r13; u_r14 := r14; u_r15 := r15;
              u_rip := rip; u_rflags := vmrun_get_rflags v |}).

Definition vmrun_vcpu_ioctl_set_regs (r : vmrun_regs) (v : vmrun_vcpu) : Z * vmrun_vcpu :=
  let v := vmrun_register_write VCPU_REGS_RAX r.(u_rax) v in
  let v := vmrun_register_write VCPU_REGS_RBX r.(u_rbx) v in
  let v := vmrun_register_write VCPU_REGS_RCX r.(u_rcx) v in
  let v := vmrun_register_write VCPU_REGS_RDX r.(u_rdx) v in
  let v := vmrun_register_write VCPU_REGS_RSI r.(u_rsi) v in
  let v := vmrun_register_write VCPU_REGS_RDI r.(u_rdi) v in
  let v := vmrun_register_write VCPU_REGS_RSP r.(u_rsp) v in
  let v := vmrun_register_write VCPU_REGS_RBP r.(u_rbp) v in
  let v := vmrun_register_write VCPU_REGS_R8 r.(u_r8) v in
  let v := vmrun_register_write VCPU_REGS_R9 r.(u_r9) v in
  let v := vmrun_register_write VCPU_REGS_R10 r.(u_r10) v in
  let v := vmrun_register_write VCPU_REGS_R11 r.(u_r11) v in
  let v := vmrun_register_write VCPU_REGS_R12 r.(u_r12) v in
  let v := vmrun_register_write VCPU_REGS_R13 r.(u_r13) v in
  let v := vmrun_register_write VCPU_REGS_R14 r.(u_r14) v in
  let v := vmrun_register_write VCPU_REGS_R15 r.(u_r15) v in
  let v := vmrun_register_write VCPU_REGS_RIP r.(u_rip) v in
  (0, vmrun_set_rflags r.(u_rflags) v).

(** Result: [( *db, *l )]. *)
Definition vmrun_get_cs_db_l_bits (v : vmrun_vcpu) : Z * Z :=
  let cs := vmrun_get_segment v VCPU_SREG_CS in (cs.(g_db), cs.(g_l)).

(** [buf] is the buffer to fill; [apic_base] and [interrupt_bitmap] keep their
    contents. *)
Definition vmrun_vcpu_ioctl_get_sregs (v : vmrun_vcpu) (buf : vmrun_sregs) : Z * vmrun_sregs :=
  let idt := vmrun_get_idt v in
  let gdt := vmrun_get_gdt v in
  (0, buf <| s_cs := vmrun_get_segment v VCPU_SREG_CS |>
          <| s_ds := vmrun_get_segment v VCPU_SREG_DS |>
          <| s_es := vmrun_get_segment v VCPU_SREG_ES |>
          <| s_fs := vmrun_get_segment v VCPU_SREG_FS |>
          <| s_gs := vmrun_get_segment v VCPU_SREG_GS |>
          <| s_ss := vmrun_get_segment v VCPU_SREG_SS |>
          <| s_tr := vmrun_get_segment v VCPU_SREG_TR |>
          <| s_ldt := vmrun_get_segment v VCPU_SREG_LDTR |>
          <| s_idt := {| dt_limit := idt.(size); dt_base := idt.(address) |} |>
          <| s_gdt := {| dt_limit := gdt.(size); dt_base := gdt.(address) |} |>
          <| s_cr0 := vmrun_read_cr0 v |>
          <| s_cr2 := v.(cr2) |>
          <| s_cr3 := vmrun_read_cr3 v |>
          <| s_cr4 := vmrun_read_cr4 v |>
          <| s_cr8 := v.(cr8) |>
          <| s_efer := v.(efer) |>).

Definition vmrun_vcpu_ioctl_set_sregs (s : vmrun_sregs) (v : vmrun_vcpu) : Z * vmrun_vcpu :=
  let v := vmrun_set_idt {| size := s.(s_idt).(dt_limit); address := s.(s_idt).(dt_base) |} v in
  let v := vmrun_set_gdt {| size := s.(s_gdt).(dt_limit); address := s.(s_gdt).(dt_base) |} v in
  let v := v <| cr2 := s.(s_cr2) |> in
  let reset := negb (vmrun_read_cr3 v =? s.(s_cr3)) in
  let v := v <| cr3 := s.(s_cr3) |> <| regs_avail ::= λ a, Z.setbit a VCPU_EXREG_CR3 |> in
  let v := v <| cr8 := s.(s_cr8) |> in
  let reset := reset || negb (v.(efer) =? s.(s_efer)) in
  let v := vmrun_set_efer s.(s_efer) v in
  let reset := reset || negb (vmrun_read_cr0 v =? s.(s_cr0)) in
  let v := vmrun_set_cr0 s.(s_cr0) v in
  let v := v <| cr0 := s.(s_cr0) |> in
  let reset := reset || negb (vmrun_read_cr4 v =? s.(s_cr4)) in
  let v := (vmrun_set_cr4 s.(s_cr4) v).2 in
  let v := if reset : bool then v <| mmu := mmu_reset v |> else v in
  let v := vmrun_set_segment s.(s_cs) VCPU_SREG_CS v in
  let v := vmrun_set_segment s.(s_ds) VCPU_SREG_DS v in
  let v := vmrun_set_segment s.(s_es) VCPU_SREG_ES v in
  let v := vmrun_set_segment s.(s_fs) VCPU_SREG_FS v in
  let v := vmrun_set_segment s.(s_gs) VCPU_SREG_GS v in
  let v := vmrun_set_segment s.(s_ss) VCPU_SREG_SS v in
  let v := vmrun_set_segment s.(s_tr) VCPU_SREG_TR v in
  let v := vmrun_set_segment s.(s_ldt) VCPU_SREG_LDTR v in
  (0, vmrun_clr_cr_intercept INTERCEPT_CR8_WRITE v).

End Vmcb.
