(* ===== verification/VmcbProps.v ===== *)
(** * Register state: what is set is what is read back

    Round trips of the register ioctls, coherence of the guest's CR0 with the
    value the hardware runs on, and the long-mode invariant. *)

From S2P Require Import Prelude.
From S2P Require Import Vcpu.
From S2P Require Import Vmcb.

(** ** The AMD64 values *)
Definition amd64 : X86 := {|
  X86_CR0_PE := BIT 0; X86_CR0_MP := BIT 1; X86_CR0_TS := BIT 3; X86_CR0_ET := BIT 4;
  X86_CR0_WP := BIT 16; X86_CR0_NW := BIT 29; X86_CR0_CD := BIT 30; X86_CR0_PG := BIT 31;
  X86_CR4_PAE := BIT 5; X86_CR4_MCE := BIT 6; X86_CR4_PGE := BIT 7; X86_CR4_VMXE := BIT 13;
  EFER_LME := BIT 8; EFER_LMA := BIT 10; EFER_SVME := BIT 12;
  SVM_SELECTOR_S_SHIFT := 4; SVM_SELECTOR_DPL_SHIFT := 5; SVM_SELECTOR_P_SHIFT := 7;
  SVM_SELECTOR_AVL_SHIFT := 8; SVM_SELECTOR_L_SHIFT := 9; SVM_SELECTOR_DB_SHIFT := 10;
  SVM_SELECTOR_G_SHIFT := 11;
  SVM_SELECTOR_TYPE_MASK := 15; SVM_SELECTOR_S_MASK := BIT 4; SVM_SELECTOR_P_MASK := BIT 7;
  SVM_SELECTOR_WRITE_MASK := BIT 1; SVM_SELECTOR_READ_MASK := BIT 1; SVM_SELECTOR_CODE_MASK := BIT 3;
  INTERCEPT_INTR := 0; INTERCEPT_NMI := 1; INTERCEPT_SMI := 2; INTERCEPT_VMRUN := 32;
  INTERCEPT_VMMCALL := 33;
  INTERCEPT_CR0_READ := 0; INTERCEPT_CR0_WRITE := 16; INTERCEPT_CR8_WRITE := 24;
  TLB_CONTROL_DO_NOTHING := 0; TLB_CONTROL_FLUSH_ALL_ASID := 1; TLB_CONTROL_FLUSH_ASID := 3
|}.

Definition amd64_ok : X86Ok amd64.
Proof. split; repeat split. Qed.

Definition zero_seg : vmcb_seg :=
  {| seg_selector := 0; seg_attrib := 0; seg_limit := 0; seg_base := 0 |}.

Definition zero_vmcb : vmcb := {|
  control := {| intercept_cr := 0; intercept := 0; iopm_base_pa := 0; asid := 0; tlb_ctl := 0;
                int_ctl := 0; exit_code := 0; exit_info_1 := 0; exit_info_2 := 0;
                exit_int_info := 0; clean := 0 |};
  save := {| sa_es := zero_seg; sa_cs := zero_seg; sa_ss := zero_seg; sa_ds := zero_seg;
             sa_fs := zero_seg; sa_gs := zero_seg; sa_gdtr := zero_seg; sa_ldtr := zero_seg;
             sa_idtr := zero_seg; sa_tr := zero_seg; sa_cpl := 0; sa_efer := 0; sa_cr4 := 0;
             sa_cr3 := 0; sa_cr0 := 0; sa_dr6 := 0; sa_rflags := 0; sa_rip := 0; sa_rsp := 0;
             sa_rax := 0; sa_cr2 := 0 |} |}.

(** A VCPU as [kmem_cache_zalloc] gives it, with its pages attached. *)
Definition zero_vcpu : vmrun_vcpu := {|
  cpu := -1; vcpu_id := 0; srcu_idx := 0; mode := OUTSIDE_GUEST_MODE; mutex := false;
  notifier_registered := false; preempted := false;
  run := {| immediate_exit := 0; exit_reason := 0; if_flag := 0; run_cr8 := 0;
            hardware_entry_failure_reason := 0 |};
  vcpu_vmcb := zero_vmcb; vmcb_pa := 0; asid_generation := 0; next_rip := 0;
  host_fs := 0; host_gs := 0; host_ldt := 0; host_gs_base := 0;
  regs := replicate NR_VCPU_REGS 0; regs_avail := 0; regs_dirty := 0;
  cr0 := 0; cr2 := 0; cr3 := 0; cr4 := 0; cr8 := 0; hflags := 0; efer := 0; mp_state := 0;
  mmu := {| root_hpa := INVALID_PAGE; root_level := 0; shadow_root_level := 0;
            permissions := replicate 16 0 |} |}.

(* ------------------------------------------------------------------ *)
(** ** General-purpose registers *)

(** VMRUN_SET_REGS followed by VMRUN_GET_REGS returns the same eighteen
    registers, from any VCPU state, available or not before. *)
Theorem regs_roundtrip (v : vmrun_vcpu) (r : vmrun_regs) :
  length v.(regs) = NR_VCPU_REGS →
  vmrun_vcpu_ioctl_get_regs (vmrun_vcpu_ioctl_set_regs r v).2 = Some (0, r).
Proof.
  intros Hlen. unfold vmrun_vcpu_ioctl_set_regs. cbn [snd].
  assert (Hrf : ∀ w f reg, vmrun_register_read (vmrun_set_rflags f w) reg = vmrun_register_read w reg)
    by done.
  unfold vmrun_vcpu_ioctl_get_regs. rewrite !Hrf.
  repeat first [rewrite register_read_write by (rewrite ?register_write_length; done)
               |rewrite register_read_write_ne by done].
  by destruct r.
Qed.

Lemma regs_roundtrip_witness :
  vmrun_vcpu_ioctl_get_regs
    (vmrun_vcpu_ioctl_set_regs
       {| u_rax := 1; u_rbx := 2; u_rcx := 3; u_rdx := 4; u_rsi := 5; u_rdi := 6; u_rsp := 7;
          u_rbp := 8; u_r8 := 9; u_r9 := 10; u_r10 := 11; u_r11 := 12; u_r12 := 13; u_r13 := 14;
          u_r14 := 15; u_r15 := 16; u_rip := 17; u_rflags := 2 |} zero_vcpu).2
  = Some (0, {| u_rax := 1; u_rbx := 2; u_rcx := 3; u_rdx := 4; u_rsi := 5; u_rdi := 6; u_rsp := 7;
          u_rbp := 8; u_r8 := 9; u_r9 := 10; u_r10 := 11; u_r11 := 12; u_r12 := 13; u_r13 := 14;
          u_r14 := 15; u_r15 := 16; u_rip := 17; u_rflags := 2 |}).
Proof. apply regs_roundtrip. reflexivity. Defined.

(* ------------------------------------------------------------------ *)
(** ** Segments *)

Definition bit_range (x : Z) : Prop := x = 0 ∨ x = 1.

(** A segment in the format [vmrun_get_segment] reports. *)
Record canonical_segment (seg : vcpu_sreg) (var : vmrun_segment) : Prop := {
  cs_type : 0 <= var.(g_type) < 16;
  cs_dpl : 0 <= var.(g_dpl) < 4;
  cs_present : bit_range var.(g_present);
  cs_db : bit_range var.(g_db);
  cs_s : bit_range var.(g_s);
  cs_l : bit_range var.(g_l);
  cs_avl : bit_range var.(g_avl);
  cs_unusable : var.(g_unusable) = 1 - var.(g_present);
  cs_g : var.(g_g) = b2z (var.(g_limit) >? 0xfffff);
  cs_busy : seg = VCPU_SREG_TR → Z.testbit var.(g_type) 1 = true;
  cs_accessed : seg ∈ [VCPU_SREG_DS; VCPU_SREG_ES; VCPU_SREG_FS; VCPU_SREG_GS] →
                var.(g_present) = 1 → Z.testbit var.(g_type) 0 = true;
  cs_ss_db : seg = VCPU_SREG_SS → var.(g_present) = 0 → var.(g_db) = 0
}.

Section Segments.
Context `{X : X86, XO : !X86Ok X}.

Lemma range_cases (x : Z) (n : nat) : 0 <= x < Z.of_nat n → In x (Z.of_nat <$> seq 0 n).
Proof using Type.
  intros Hx. rewrite <- list_elem_of_In, list_elem_of_fmap. exists (Z.to_nat x).
  rewrite elem_of_seq. lia.
Qed.

(** The check below over all values of the fields. *)
Lemma attrib_fields_all :
  forallb (λ t, forallb (λ d, forallb (λ p, forallb (λ db, forallb (λ s, forallb (λ l,
  forallb (λ a, forallb (λ g,
    let w := u16 (Z.lor (Z.lor (Z.lor (Z.lor (Z.lor (Z.lor (Z.lor (Z.land t 15)
               (Z.shiftl (Z.land s 1) 4)) (Z.shiftl (Z.land d 3) 5))
               (Z.shiftl (b2z (truth (Z.land p 1) && negb (truth (1 - p)))) 7))
               (Z.shiftl (Z.land a 1) 8)) (Z.shiftl (Z.land l 1) 9))
               (Z.shiftl (Z.land db 1) 10)) (Z.shiftl (Z.land g 1) 11)) in
    (u8 (Z.land w 15) =? t) && (Z.land (Z.shiftr w 4) 1 =? s) && (Z.land (Z.shiftr w 5) 3 =? d)
    && (Z.land (Z.shiftr w 7) 1 =? p) && (Z.land (Z.shiftr w 8) 1 =? a)
    && (Z.land (Z.shiftr w 9) 1 =? l) && (Z.land (Z.shiftr w 10) 1 =? db))
  [0; 1]) [0; 1]) [0; 1]) [0; 1]) [0; 1]) [0; 1])
  (Z.of_nat <$> seq 0 4)) (Z.of_nat <$> seq 0 16) = true.
Proof using Type. by vm_compute. Qed.

Lemma bit_range_in (x : Z) : bit_range x → In x [0; 1].
Proof using Type. intros [->| ->]; cbn; auto. Qed.

(** The packed attribute word gives back each of its fields. *)
Lemma segment_attrib_fields (var : vmrun_segment) :
  0 <= var.(g_type) < 16 → 0 <= var.(g_dpl) < 4 →
  bit_range var.(g_present) → bit_range var.(g_db) → bit_range var.(g_s) →
  bit_range var.(g_l) → bit_range var.(g_avl) → bit_range var.(g_g) →
  var.(g_unusable) = 1 - var.(g_present) →
  let a := segment_attrib var in
  u8 (Z.land a SVM_SELECTOR_TYPE_MASK) = var.(g_type) ∧
  Z.land (Z.shiftr a SVM_SELECTOR_S_SHIFT) 1 = var.(g_s) ∧
  Z.land (Z.shiftr a SVM_SELECTOR_DPL_SHIFT) 3 = var.(g_dpl) ∧
  Z.land (Z.shiftr a SVM_SELECTOR_P_SHIFT) 1 = var.(g_present) ∧
  Z.land (Z.shiftr a SVM_SELECTOR_AVL_SHIFT) 1 = var.(g_avl) ∧
  Z.land (Z.shiftr a SVM_SELECTOR_L_SHIFT) 1 = var.(g_l) ∧
  Z.land (Z.shiftr a SVM_SELECTOR_DB_SHIFT) 1 = var.(g_db).
Proof using XO.
  intros Ht Hd Hp Hdb Hs Hl Ha Hg Hu. unfold segment_attrib.
  destruct selector_shifts as (-> & -> & -> & -> & -> & -> & ->).
  rewrite selector_type_mask, Hu.
  apply (range_cases _ 16) in Ht. apply (range_cases _ 4) in Hd.
  apply bit_range_in in Hp, Hdb, Hs, Hl, Ha, Hg.
  pose proof attrib_fields_all as H.
  rewrite forallb_forall in H. specialize (H _ Ht). cbv beta in H.
  rewrite forallb_forall in H. specialize (H _ Hd). cbv beta in H.
  rewrite forallb_forall in H. specialize (H _ Hp). cbv beta in H.
  rewrite forallb_forall in H. specialize (H _ Hdb). cbv beta in H.
  rewrite forallb_forall in H. specialize (H _ Hs). cbv beta in H.
  rewrite forallb_forall in H. specialize (H _ Hl). cbv beta in H.
  rewrite forallb_forall in H. specialize (H _ Ha). cbv beta in H.
  rewrite forallb_forall in H. specialize (H _ Hg). cbv beta zeta in H.
  rewrite !andb_true_iff, !Z.eqb_eq in H. intuition.
Qed.

(** Reading back a segment that was set. *)
Lemma get_set_segment (seg : vcpu_sreg) (var : vmrun_segment) (v : vmrun_vcpu) :
  canonical_segment seg var →
  vmrun_get_segment (vmrun_set_segment var seg v) seg = var.
Proof using XO.
  intros [Ht Hd Hp Hdb Hs Hl Ha Hu Hg Hb Hac Hss].
  destruct (segment_attrib_fields var) as (E1 & E2 & E3 & E4 & E5 & E6 & E7);
    try done; [rewrite Hg; destruct (_ >? _); [by right|by left]|].
  assert (Hrd : vmrun_seg (sav (vmrun_set_segment var seg v)) seg =
                {| seg_base := var.(g_base); seg_limit := var.(g_limit);
                   seg_selector := var.(g_selector); seg_attrib := segment_attrib var |})
    by by destruct seg.
  unfold vmrun_get_segment. rewrite Hrd. cbn [seg_attrib seg_base seg_limit seg_selector].
  rewrite E1, E2, E3, E4, E5, E6, E7, <- Hg.
  assert (b2z (negb (truth (g_present var))) = g_unusable var) as ->.
  { rewrite Hu. by destruct Hp as [-> | ->]. }
  assert (truth (g_unusable var) = (g_present var =? 0)) as Hun.
  { rewrite Hu. by destruct Hp as [-> | ->]. }
  assert (Hor : ∀ t k, 0 <= k → Z.testbit t k = true → Z.lor t (BIT k) = t).
  { intros t k Hk Htk. apply Z.bits_inj'; intros i Hi. autorewrite with bits.
    destruct (Z.eqb_spec i k); subst; [by rewrite Htk|by rewrite orb_false_r]. }
  assert (Hdpl : Z.land (g_dpl var) 3 = g_dpl var)
    by (change 3 with (Z.ones 2); rewrite Z.land_ones by lia; by apply Z.mod_small).
  clear E1 E2 E3 E4 E5 E6 E7 Hrd. destruct seg; cbn [g_unusable]; rewrite ?Hun.
  all: try (destruct (Z.eqb_spec (g_present var) 0) as [Hp0|Hp0];
            [|assert (Hp1 : g_present var = 1) by (destruct Hp; congruence)]).
  all: cbn; rewrite ?(Hor _ 0), ?(Hor _ 1), ?Hdpl; try (apply Hb; done);
       try (apply Hac; set_solver); try lia; try (by destruct var).
  destruct var; cbn in *. by rewrite (Hss eq_refl Hp0), ?Hdpl.
Qed.

Lemma get_set_segment_ne (seg seg' : vcpu_sreg) (var : vmrun_segment) (v : vmrun_vcpu) :
  seg ≠ seg' →
  vmrun_get_segment (vmrun_set_segment var seg v) seg' = vmrun_get_segment v seg'.
Proof using Type. by destruct seg, seg'. Qed.
End Segments.

(* ------------------------------------------------------------------ *)
(** ** CR0: the guest's value and the hardware's *)

(** When neither access to CR0 is intercepted, the guest reads and writes the
    hardware register: it must hold the guest's value. *)
Definition cr0_coherent `{X86} (v : vmrun_vcpu) : Prop :=
  (vmrun_is_cr_intercept v INTERCEPT_CR0_READ = false ∨
   vmrun_is_cr_intercept v INTERCEPT_CR0_WRITE = false) →
  (sav v).(sa_cr0) = v.(cr0).

(** LMA is set exactly when long mode is enabled and paging is on. *)
Definition lma_invariant `{X86} (e c : Z) : Prop :=
  truth (Z.land e EFER_LMA) = truth (Z.land e EFER_LME) && truth (Z.land c X86_CR0_PG).

Section Cr0.
Context `{X : X86, XO : !X86Ok X}.

Lemma intercept_after_set (bit bit' : Z) (v : vmrun_vcpu) :
  0 <= bit < 32 → 0 <= bit' < 32 →
  vmrun_is_cr_intercept (vmrun_set_cr_intercept bit v) bit'
  = (bit' =? bit) || vmrun_is_cr_intercept v bit'.
Proof using Type.
  intros Hb Hb'. unfold vmrun_is_cr_intercept. cbn.
  assert (Hw : ∀ b, 0 <= b < 32 → u32 (BIT b) = BIT b).
  { intros b Hb0. apply wrap_id. unfold BIT. rewrite Z.shiftl_1_l. split; [lia|].
    apply Z.pow_lt_mono_r; lia. }
  rewrite !Hw, !truth_land_BIT by lia. autorewrite with bits. apply orb_comm.
Qed.

Lemma intercept_after_clr (bit bit' : Z) (v : vmrun_vcpu) :
  0 <= bit < 32 → 0 <= bit' < 32 →
  vmrun_is_cr_intercept (vmrun_clr_cr_intercept bit v) bit'
  = negb (bit' =? bit) && vmrun_is_cr_intercept v bit'.
Proof using Type.
  intros Hb Hb'. unfold vmrun_is_cr_intercept. cbn.
  assert (Hw : ∀ b, 0 <= b < 32 → u32 (BIT b) = BIT b).
  { intros b Hb0. apply wrap_id. unfold BIT. rewrite Z.shiftl_1_l. split; [lia|].
    apply Z.pow_lt_mono_r; lia. }
  rewrite !Hw, !truth_land_BIT by lia. autorewrite with bits.
  replace (bit' <? 32) with true by lia. apply andb_comm.
Qed.

Lemma update_cr0_intercept_spec (v : vmrun_vcpu) :
  let v' := vmrun_update_cr0_intercept v in
  v'.(cr0) = v.(cr0) ∧
  (sav v').(sa_cr0) = Z.lor (Z.land (sav v).(sa_cr0) (not64 VMRUN_CR0_SELECTIVE_MASK))
                            (Z.land v.(cr0) VMRUN_CR0_SELECTIVE_MASK) ∧
  vmrun_is_cr_intercept v' INTERCEPT_CR0_READ = negb (v.(cr0) =? (sav v').(sa_cr0)) ∧
  vmrun_is_cr_intercept v' INTERCEPT_CR0_WRITE = negb (v.(cr0) =? (sav v').(sa_cr0)).
Proof using XO.
  destruct cr_intercepts as (Hr & Hw & _). unfold vmrun_update_cr0_intercept.
  rewrite !Hr, !Hw. destruct (_ =? _) eqn:E; cbn [sav vcpu_vmcb save]; cbn; rewrite ?E;
    repeat split; rewrite ?intercept_after_set, ?intercept_after_clr by lia; done.
Qed.

(** Setting CR0 changes EFER only as [set_cr0_efer] does. *)
Lemma set_cr0_frame (npt : bool) (new_cr0 : Z) (v : vmrun_vcpu) :
  let v' := vmrun_set_cr0 npt new_cr0 v in
  v'.(efer) = (set_cr0_efer new_cr0 v).(efer) ∧
  (sav v').(sa_efer) = (sav (set_cr0_efer new_cr0 v)).(sa_efer).
Proof using Type.
  unfold vmrun_set_cr0, vmrun_update_cr0_intercept. by destruct (_ =? _).
Qed.

Lemma land_lor_l (a b m : Z) : truth (Z.land (Z.lor a b) m) = truth (Z.land a m) || truth (Z.land b m).
Proof using Type.
  rewrite Z.land_lor_distr_l. unfold truth.
  destruct (Z.eqb_spec (Z.land a m) 0) as [->|Ha]; [done|].
  destruct (Z.eqb_spec (Z.lor (Z.land a m) (Z.land b m)) 0) as [E|]; [|done].
  apply Z.lor_eq_0_iff in E. tauto.
Qed.

(** Without nested paging the hardware EFER shows LME only together with LMA,
    and LMA as the guest has it. *)
Definition efer_hw (v : vmrun_vcpu) : Prop :=
  truth (Z.land (sav v).(sa_efer) EFER_LMA) = truth (Z.land v.(efer) EFER_LMA) ∧
  truth (Z.land (sav v).(sa_efer) EFER_LME) = truth (Z.land v.(efer) EFER_LMA).

Lemma set_cr0_efer_spec (new_cr0 : Z) (v : vmrun_vcpu) :
  lma_invariant v.(efer) v.(cr0) →
  let v' := set_cr0_efer new_cr0 v in
  lma_invariant v'.(efer) new_cr0 ∧ (efer_hw v → efer_hw v').
Proof using XO.
  destruct efer_bits as (Hlme & Hlma & _). unfold lma_invariant, efer_hw, set_cr0_efer.
  unfold vmrun_read_cr0_bits. rewrite !Hlme, !Hlma. intros Hinv.
  destruct (truth (Z.land (efer v) (BIT 8))) eqn:E8; cbn in Hinv.
  - destruct (truth (Z.land (cr0 v) X86_CR0_PG)) eqn:Epg,
      (truth (Z.land new_cr0 X86_CR0_PG)) eqn:Epg'; cbn;
      rewrite ?E8, ?Epg, ?Epg'; cbn; rewrite ?truth_land_BIT in * by lia;
      autorewrite with bits; eval_bits; rewrite ?E8, ?Hinv; cbn; rewrite ?andb_false_r, ?orb_true_r;
      split; try done; rewrite ?andb_true_r, ?orb_false_r; try tauto; congruence.
  - rewrite E8. cbn. split; [done|tauto].
Qed.
End Cr0.

(** Setting CR0 gives the guest the value it asked for and keeps the
    hardware coherent with it.  Afterwards the guest-visible CR0 is the new
    value; an unintercepted CR0 access sees that value; without nested paging
    the hardware runs with paging and write protection on and is otherwise as
    requested; LMA holds exactly when LME and paging do; and the hardware EFER
    keeps following it. *)
Theorem set_cr0_correct `{X : X86, XO : !X86Ok X} (npt : bool) (new_cr0 : Z) (v : vmrun_vcpu) :
  is_u 64 new_cr0 → lma_invariant v.(efer) v.(cr0) →
  let v' := vmrun_set_cr0 npt new_cr0 v in
  vmrun_read_cr0 v' = new_cr0 ∧
  cr0_coherent v' ∧
  (npt = false → (sav v').(sa_cr0) = Z.lor new_cr0 (Z.lor X86_CR0_PG X86_CR0_WP)) ∧
  lma_invariant v'.(efer) new_cr0 ∧
  (efer_hw v → efer_hw v').
Proof.
  intros Hu Hlma v'.
  destruct (set_cr0_frame npt new_cr0 v) as [He Hse].
  destruct (set_cr0_efer_spec new_cr0 v Hlma) as [Hl Hhw].
  subst v'. unfold vmrun_set_cr0 in *. set (w := mark_dirty VMCB_CR _) in *.
  destruct (update_cr0_intercept_spec w) as (Hc & Hs & Hr & Hw).
  assert (Hcw : cr0 w = new_cr0) by done. rewrite Hcw in Hc, Hr, Hw.
  split_and!.
  - rewrite read_cr0_id; [done|by rewrite Hc].
  - unfold cr0_coherent. rewrite Hr, Hw, Hc, negb_false_iff, Z.eqb_eq. by intros [].
  - intros ->. rewrite Hs, Hcw. subst w. cbn -[Z.lor Z.land].
    unfold VMRUN_CR0_SELECTIVE_MASK.
    destruct cr0_bits as (_ & Hmp & Hts & _ & Hwp & _ & _ & Hpg). rewrite Hmp, Hts, Hwp, Hpg.
    apply u64_ext.
    { apply is_u_lor; [lia|..]; apply is_u_land; try done.
      by repeat apply is_u_lor. }
    { by repeat apply is_u_lor. }
    intros i Hi. bits_enum i Hi; bool_crush.
  - by rewrite He.
  - unfold efer_hw in *. rewrite He, Hse. done.
Qed.

Lemma set_cr0_correct_witness :
  let X := amd64 in
  let v' := vmrun_set_cr0 false (BIT 0) zero_vcpu in
  vmrun_read_cr0 v' = BIT 0 ∧ (sav v').(sa_cr0) = Z.lor (BIT 0) (Z.lor (BIT 31) (BIT 16)).
Proof.
  destruct (set_cr0_correct (X := amd64) (XO := amd64_ok) false (BIT 0) zero_vcpu)
    as (H1 & _ & H2 & _); [by vm_compute..|]. split; [exact H1|exact (H2 eq_refl)].
Defined.

(* ------------------------------------------------------------------ *)
(** ** System registers *)

(** What user space gets from VMRUN_GET_SREGS and may give back. *)
Record sregs_ok `{X86} (s : vmrun_sregs) : Prop := {
  so_cs : canonical_segment VCPU_SREG_CS s.(s_cs);
  so_ds : canonical_segment VCPU_SREG_DS s.(s_ds);
  so_es : canonical_segment VCPU_SREG_ES s.(s_es);
  so_fs : canonical_segment VCPU_SREG_FS s.(s_fs);
  so_gs : canonical_segment VCPU_SREG_GS s.(s_gs);
  so_ss : canonical_segment VCPU_SREG_SS s.(s_ss);
  so_tr : canonical_segment VCPU_SREG_TR s.(s_tr);
  so_ldt : canonical_segment VCPU_SREG_LDTR s.(s_ldt);
  so_idt : is_u 16 s.(s_idt).(dt_limit);
  so_gdt : is_u 16 s.(s_gdt).(dt_limit);
  so_cr0 : is_u 64 s.(s_cr0);
  so_cr4 : is_u 64 s.(s_cr4);
  so_efer : is_u 64 s.(s_efer);
  so_vmxe : truth (Z.land s.(s_cr4) X86_CR4_VMXE) = false;
  so_lma : lma_invariant s.(s_efer) s.(s_cr0)
}.

Section Sregs.
Context `{X : X86, XO : !X86Ok X}.

(** CR0 leaves EFER alone when EFER already fits the new CR0. *)
Lemma set_cr0_efer_same (new_cr0 : Z) (v : vmrun_vcpu) :
  is_u 64 v.(efer) → lma_invariant v.(efer) new_cr0 → (set_cr0_efer new_cr0 v).(efer) = v.(efer).
Proof using XO.
  destruct efer_bits as (Hlme & Hlma & _). unfold lma_invariant, set_cr0_efer.
  rewrite !Hlme, !Hlma. intros Hu Hinv.
  destruct (truth (Z.land (efer v) (BIT 8))) eqn:E8; [|done]. cbn in Hinv.
  rewrite truth_land_BIT in Hinv by lia.
  destruct (truth (Z.land new_cr0 X86_CR0_PG)) eqn:Epg; cbn;
    rewrite ?andb_false_r, ?andb_true_r.
  - case_match; [|done]. cbn. apply lor_land_id. apply Z.bits_inj'; intros i Hi.
    autorewrite with bits. destruct (Z.eqb_spec i 10); subst; [by rewrite Hinv|by rewrite andb_false_r].
  - case_match; [|done]. cbn. apply u64_ext; [|done|].
    + apply is_u_land; [lia|done|]. apply is_u_wrap; lia.
    + intros i Hi. autorewrite with bits. destruct (Z.eqb_spec i 10); subst; [by rewrite Hinv|].
      replace (i <? 64) with true by lia. by rewrite andb_true_r.
Qed.

(** The fields of a VCPU that VMRUN_GET_SREGS reads outside the segments. *)
Definition sregs_fields (v : vmrun_vcpu) :=
  (v.(cr0), v.(cr2), v.(cr3), v.(cr4), v.(cr8), v.(efer), (sav v).(sa_idtr), (sav v).(sa_gdtr)).

Lemma set_cr0_fields (npt : bool) (c : Z) (v : vmrun_vcpu) :
  sregs_fields (vmrun_set_cr0 npt c v)
  = (c, v.(cr2), v.(cr3), v.(cr4), v.(cr8), (set_cr0_efer c v).(efer),
     (sav v).(sa_idtr), (sav v).(sa_gdtr)).
Proof using Type.
  unfold vmrun_set_cr0, vmrun_update_cr0_intercept, set_cr0_efer. by repeat case_match.
Qed.

Lemma set_cr4_fields (npt : bool) (shadow : Z) (fba : bool) (c : Z) (v : vmrun_vcpu) :
  truth (Z.land c X86_CR4_VMXE) = false →
  sregs_fields (vmrun_set_cr4 npt shadow fba c v).2
  = (v.(cr0), v.(cr2), v.(cr3), c, v.(cr8), v.(efer), (sav v).(sa_idtr), (sav v).(sa_gdtr)).
Proof using Type.
  intros Hv. unfold vmrun_set_cr4. rewrite Hv. unfold vmrun_flush_tlb.
  destruct (npt && _), fba; reflexivity.
Qed.

(** The state [vmrun_vcpu_ioctl_set_sregs] has reached when it comes to the
    segments. *)
Lemma set_sregs_before_segments (npt : bool) (shadow : Z) (fba : bool)
    (mr : vmrun_vcpu → vmrun_mmu) (s : vmrun_sregs) (v : vmrun_vcpu) :
  sregs_ok s →
  ∃ w, (vmrun_vcpu_ioctl_set_sregs npt shadow fba mr s v).2 =
       vmrun_clr_cr_intercept INTERCEPT_CR8_WRITE
        (vmrun_set_segment s.(s_ldt) VCPU_SREG_LDTR (vmrun_set_segment s.(s_tr) VCPU_SREG_TR
        (vmrun_set_segment s.(s_ss) VCPU_SREG_SS (vmrun_set_segment s.(s_gs) VCPU_SREG_GS
        (vmrun_set_segment s.(s_fs) VCPU_SREG_FS (vmrun_set_segment s.(s_es) VCPU_SREG_ES
        (vmrun_set_segment s.(s_ds) VCPU_SREG_DS (vmrun_set_segment s.(s_cs) VCPU_SREG_CS w)))))))) ∧
       ∃ ti tg, sregs_fields w = (s.(s_cr0), s.(s_cr2), s.(s_cr3), s.(s_cr4), s.(s_cr8),
                  s.(s_efer), ti <| seg_limit := s.(s_idt).(dt_limit) |>
                                 <| seg_base := s.(s_idt).(dt_base) |>,
                  tg <| seg_limit := s.(s_gdt).(dt_limit) |> <| seg_base := s.(s_gdt).(dt_base) |>).
Proof using XO.
  intros Hs. eexists. split; [reflexivity|].
  exists (sa_idtr (sav v)), (sa_gdtr (sav v)).
  match goal with |- sregs_fields (if ?b then put mmu _ ?x else _) = _ =>
    assert (∀ c : bool, sregs_fields (if c then put mmu (mr x) x else x) = sregs_fields x) as ->
      by (by intros []) end.
  rewrite set_cr4_fields by apply Hs.
  match goal with |- context [vmrun_set_cr0 ?n ?c ?x] =>
    pose proof (set_cr0_fields n c x) as Hf;
    assert (He : (set_cr0_efer c x).(efer) = s_efer s) by (apply set_cr0_efer_same; apply Hs);
    set (v1 := x) in *; set (v2 := vmrun_set_cr0 n c v1) in *
  end.
  rewrite He in Hf. unfold sregs_fields in Hf. injection Hf as Hf1 Hf2 Hf3 Hf4 Hf5 Hf6 Hf7 Hf8.
  repeat (f_equal; try done).
Qed.
End Sregs.

(** C34: VMRUN_SET_SREGS followed by VMRUN_GET_SREGS returns the state that
    was set: every segment, both descriptor tables, the control registers and
    EFER, for states in the reported format: canonical segments, 16-bit table
    limits, no CR4.VMXE, and an EFER.LMA that fits CR0.  [apic_base] and
    [interrupt_bitmap], which the driver does not implement, keep what the
    buffer of VMRUN_GET_SREGS held. *)
Theorem sregs_roundtrip `{X : X86, XO : !X86Ok X} (npt : bool) (shadow : Z) (fba : bool)
    (mr : vmrun_vcpu → vmrun_mmu) (s buf : vmrun_sregs) (v : vmrun_vcpu) :
  sregs_ok s →
  vmrun_vcpu_ioctl_get_sregs (vmrun_vcpu_ioctl_set_sregs npt shadow fba mr s v).2 buf
  = (0, s <| s_apic_base := buf.(s_apic_base) |>
          <| s_interrupt_bitmap := buf.(s_interrupt_bitmap) |>).
Proof.
  intros Hs. pose proof Hs as [].
  destruct (set_sregs_before_segments npt shadow fba mr s v Hs)
    as (w & -> & ti & tg & Hw). injection Hw as H0 H2 H3 H4 H8 He Hi Hg.
  assert (Hclr : ∀ b x seg, vmrun_get_segment (vmrun_clr_cr_intercept b x) seg
                            = vmrun_get_segment x seg) by done.
  unfold vmrun_vcpu_ioctl_get_sregs. rewrite !Hclr.
  repeat first [rewrite get_set_segment by done | rewrite get_set_segment_ne by done].
  set (v' := vmrun_clr_cr_intercept _ _).
  assert (Hf : sregs_fields v' = sregs_fields w) by done. clearbody v'.
  unfold sregs_fields in Hf. rewrite H0, H2, H3, H4, H8, He, Hi, Hg in Hf.
  injection Hf as Hf1 Hf2 Hf3 Hf4 Hf5 Hf6 Hf7 Hf8.
  rewrite (read_cr0_id v'), (read_cr4_id v') by (by rewrite ?Hf1, ?Hf4).
  unfold vmrun_get_idt, vmrun_get_gdt, vmrun_read_cr3.
  rewrite Hf1, Hf2, Hf3, Hf4, Hf5, Hf6, Hf7, Hf8. cbn [seg_limit seg_base].
  rewrite !wrap_id by done.
  clear. destruct s as [? ? ? ? ? ? ? ? [] [] ? ? ? ? ? ? ? ?]. done.
Qed.

Definition flat_segment (type s : Z) : vmrun_segment :=
  {| g_base := 0; g_limit := 0xffff; g_selector := 8; g_type := type; g_present := 1; g_dpl := 0;
     g_db := 0; g_s := s; g_l := 0; g_g := 0; g_avl := 0; g_unusable := 0 |}.

Definition example_sregs : vmrun_sregs :=
  {| s_cs := flat_segment 11 1; s_ds := flat_segment 3 1; s_es := flat_segment 3 1;
     s_fs := flat_segment 3 1; s_gs := flat_segment 3 1; s_ss := flat_segment 3 1;
     s_tr := flat_segment 11 0; s_ldt := flat_segment 2 0;
     s_gdt := {| dt_base := 0x1000; dt_limit := 0x7f |};
     s_idt := {| dt_base := 0x2000; dt_limit := 0xfff |};
     s_cr0 := Z.lor (BIT 31) 1; s_cr2 := 0; s_cr3 := 0x3000; s_cr4 := BIT 5; s_cr8 := 0;
     s_efer := Z.lor (BIT 8) (BIT 10); s_apic_base := 0; s_interrupt_bitmap := [] |}.

Lemma example_sregs_ok : sregs_ok (H := amd64) example_sregs.
Proof.
  split; try by vm_compute.
  all: split; try (by vm_compute); try (by right); try (by left); set_solver.
Qed.

Lemma sregs_roundtrip_witness :
  vmrun_vcpu_ioctl_get_sregs (X := amd64)
    (vmrun_vcpu_ioctl_set_sregs (X := amd64) false 0 false (λ w, w.(mmu)) example_sregs zero_vcpu).2
    example_sregs
  = (0, example_sregs).
Proof.
  apply (sregs_roundtrip (X := amd64) (XO := amd64_ok) false 0 false (λ w, w.(mmu))
           example_sregs example_sregs zero_vcpu example_sregs_ok).
Defined.
