(* ===== verification/Run.v ===== *)
(** * Entering and leaving the guest

    ASID allocation, the world switch [vmrun_vcpu_run], the exit handlers, the
    entry path [vmrun_vcpu_enter_guest], the run loop of the VMRUN_RUN ioctl,
    and loading/putting a VCPU on a physical CPU (kernel/vmrun.c).

    The guest itself is a parameter: what one VMRUN instruction leaves in the
    control block and the registers.  The host's preemption count, interrupt
    flag, GIF and SRCU read-side depth are explicit, so that the lock
    discipline of every path can be stated. *)

From S2P Require Import Prelude.
From S2P Require Import Vcpu.
From S2P Require Import Vmcb.

Class Svm := {
  V_TPR_MASK : Z;
  SVM_EXIT_ERR : Z; SVM_EXIT_EXCP_BASE : Z; SVM_EXIT_NPF : Z; SVM_EXIT_TASK_SWITCH : Z;
  SVM_EXIT_INTR : Z; SVM_EXIT_NMI : Z; SVM_EXIT_CPUID : Z; SVM_EXIT_VMMCALL : Z;
  SVM_EVTINJ_TYPE_MASK : Z; SVM_EVTINJ_VALID : Z; SVM_EVTINJ_TYPE_INTR : Z;
  X86_EFLAGS_IF : Z
}.

Class SvmOk (S : Svm) : Prop := {
  exit_codes : SVM_EXIT_INTR = 0x60 ∧ SVM_EXIT_NMI = 0x61 ∧ SVM_EXIT_CPUID = 0x72 ∧
               SVM_EXIT_VMMCALL = 0x81 ∧ SVM_EXIT_ERR = -1;
  tpr_mask : V_TPR_MASK = 15
}.

Definition PF_VECTOR : Z := 14.
Definition VMRUN_EXIT_FAIL_ENTRY : Z := 7.
Definition VMRUN_MP_STATE_RUNNABLE : Z := 0.
Definition VMRUN_MP_STATE_UNINITIALIZED : Z := 1.
Definition VMRUN_MP_STATE_INIT_RECEIVED : Z := 2.
Definition VMRUN_MP_STATE_HALTED : Z := 3.

(** ** State *)

(** [struct vmrun_cpu_data]; [tss_type] is [tss_desc->type]. *)
Record vmrun_cpu_data := {
  cd_cpu : Z;
  cd_asid_generation : Z;
  max_asid : Z;
  next_asid : Z;
  tss_type : Z
}.
#[export] Instance eta_vmrun_cpu_data : Eta vmrun_cpu_data := λ r,
  {| cd_cpu := r.(cd_cpu); cd_asid_generation := r.(cd_asid_generation);
     max_asid := r.(max_asid); next_asid := r.(next_asid); tss_type := r.(tss_type) |}.

(** What the hardware writes at #VMEXIT: the guest state, the exit fields, the
    virtual-interrupt control, and the registers the world switch stores. *)
Record hw_exit := {
  x_save : vmcb_save_area;
  x_exit_code : Z;
  x_info_1 : Z;
  x_info_2 : Z;
  x_int_info : Z;
  x_int_ctl : Z;
  x_gprs : list Z
}.
#[export] Instance eta_hw_exit : Eta hw_exit := λ r,
  {| x_save := r.(x_save); x_exit_code := r.(x_exit_code); x_info_1 := r.(x_info_1);
     x_info_2 := r.(x_info_2); x_int_info := r.(x_int_info); x_int_ctl := r.(x_int_ctl);
     x_gprs := r.(x_gprs) |}.

Definition hw_guest : Type := vmcb → list Z → hw_exit.

(** The context of the host thread. *)
Record host := {
  preempt : Z;        (* preempt_disable() nesting *)
  irq_on : bool;      (* local interrupts enabled *)
  gif : bool;         (* global interrupt flag *)
  srcu : Z;           (* srcu_read_lock() nesting *)
  in_guest_ctx : bool (* guest_enter() accounting *)
}.
#[export] Instance eta_host : Eta host := λ r,
  {| preempt := r.(preempt); irq_on := r.(irq_on); gif := r.(gif); srcu := r.(srcu);
     in_guest_ctx := r.(in_guest_ctx) |}.

(** One execution of the VMRUN instruction. *)
Record vmrun_entry := {
  e_vmcb : vmcb;
  e_gprs : list Z;
  e_mode : vcpu_mode;
  e_host : host
}.
#[export] Instance eta_vmrun_entry : Eta vmrun_entry := λ r,
  {| e_vmcb := r.(e_vmcb); e_gprs := r.(e_gprs); e_mode := r.(e_mode); e_host := r.(e_host) |}.

Record run_state := {
  vc : vmrun_vcpu;
  cd : vmrun_cpu_data;
  local_vcpu : option Z;        (* per_cpu(local_vcpu), by vcpu_id *)
  ctx : host;
  entries : list vmrun_entry    (* latest first *)
}.
#[export] Instance eta_run_state : Eta run_state := λ r,
  {| vc := r.(vc); cd := r.(cd); local_vcpu := r.(local_vcpu); ctx := r.(ctx);
     entries := r.(entries) |}.

(** What the surroundings do during one pass of the run loop. *)
Record pass_env := {
  mmu_load : vmrun_vcpu → Z * vmrun_vcpu;   (* vmrun_mmu_load *)
  exiting_request : bool;    (* another CPU sets EXITING_GUEST_MODE in between *)
  resched_at_entry : bool;   (* need_resched() *)
  signal_pending : bool;
  guest : hw_guest;
  resched_in_loop : bool     (* need_resched() *)
}.
#[export] Instance eta_pass_env : Eta pass_env := λ r,
  {| mmu_load := r.(mmu_load); exiting_request := r.(exiting_request);
     resched_at_entry := r.(resched_at_entry); signal_pending := r.(signal_pending);
     guest := r.(guest); resched_in_loop := r.(resched_in_loop) |}.

Section Run.
Context `{X : X86, V : Svm}.
Context (npt_enabled : bool).

(** ** ASIDs *)

Definition vmrun_new_asid (v : vmrun_vcpu) (d : vmrun_cpu_data) : vmrun_vcpu * vmrun_cpu_data :=
  let '(v, d) :=
    if d.(next_asid) >? d.(max_asid) then
      (upd_control (λ c, c <| tlb_ctl := TLB_CONTROL_FLUSH_ALL_ASID |>) v,
       d <| cd_asid_generation ::= λ g, u64 (g + 1) |> <| next_asid := 1 |>)
    else (v, d) in
  let v := v <| asid_generation := d.(cd_asid_generation) |> in
  let v := upd_control (λ c, c <| asid := d.(next_asid) |>) v in
  let d := d <| next_asid ::= λ n, u32 (n + 1) |> in
  (mark_dirty VMCB_ASID v, d).

(** ** The world switch *)

(** The registers the switch loads before VMRUN and stores after it. *)
Definition switched_regs : list vmrun_reg :=
  [VCPU_REGS_RBX; VCPU_REGS_RCX; VCPU_REGS_RDX; VCPU_REGS_RSI; VCPU_REGS_RDI; VCPU_REGS_RBP;
   VCPU_REGS_R8; VCPU_REGS_R9; VCPU_REGS_R10; VCPU_REGS_R11;
   VCPU_REGS_R12; VCPU_REGS_R13; VCPU_REGS_R14; VCPU_REGS_R15].

Definition get_reg (v : vmrun_vcpu) (r : vmrun_reg) : Z := v.(regs) !!! reg_index r.
Definition put_reg (r : vmrun_reg) (x : Z) (v : vmrun_vcpu) : vmrun_vcpu :=
  v <| regs ::= <[reg_index r := x]> |>.

Definition store_gprs (xs : list Z) (v : vmrun_vcpu) : vmrun_vcpu :=
  foldl (λ v '(r, x), put_reg r x v) v (zip switched_regs xs).

Definition apply_exit (x : hw_exit) (v : vmrun_vcpu) : vmrun_vcpu :=
  store_gprs x.(x_gprs)
    (upd_control (λ c, c <| exit_code := x.(x_exit_code) |> <| exit_info_1 := x.(x_info_1) |>
                         <| exit_info_2 := x.(x_info_2) |> <| exit_int_info := x.(x_int_info) |>
                         <| int_ctl := x.(x_int_ctl) |>)
       (upd_save (λ _, x.(x_save)) v)).

(** Up to the VMRUN instruction. *)
Definition vcpu_run_pre (v : vmrun_vcpu) (d : vmrun_cpu_data) : vmrun_vcpu * vmrun_cpu_data :=
  let v := upd_save (λ s, s <| sa_rax := get_reg v VCPU_REGS_RAX |>
                            <| sa_rsp := get_reg v VCPU_REGS_RSP |>
                            <| sa_rip := get_reg v VCPU_REGS_RIP |>) v in
  let '(v, d) := if negb (v.(asid_generation) =? d.(cd_asid_generation))
                 then vmrun_new_asid v d else (v, d) in
  let c8 := v.(cr8) in
  let v := upd_control (λ c, c <| int_ctl ::= λ i, Z.land i (not32 V_TPR_MASK) |>) v in
  let v := upd_control (λ c, c <| int_ctl ::= λ i, u32 (Z.lor i (Z.land c8 V_TPR_MASK)) |>) v in
  (upd_save (λ s, s <| sa_cr2 := v.(cr2) |>) v, d).

(** After the VMRUN instruction. *)
Definition vcpu_run_post (v : vmrun_vcpu) : vmrun_vcpu :=
  let v := v <| cr2 := (sav v).(sa_cr2) |> in
  let v := put_reg VCPU_REGS_RAX (sav v).(sa_rax) v in
  let v := put_reg VCPU_REGS_RSP (sav v).(sa_rsp) v in
  let v := put_reg VCPU_REGS_RIP (sav v).(sa_rip) v in
  let v := if negb (vmrun_is_cr_intercept v INTERCEPT_CR8_WRITE)
           then v <| cr8 := Z.land (ctl v).(int_ctl) V_TPR_MASK |> else v in
  let v := v <| next_rip := 0 |> in
  let v := upd_control (λ c, c <| tlb_ctl := TLB_CONTROL_DO_NOTHING |>) v in
  upd_control (λ c, c <| clean := Z.land (BIT VMCB_DIRTY_MAX - 1) (not32 VMCB_ALWAYS_DIRTY_MASK) |>) v.

Definition vmrun_vcpu_run (hw : hw_guest) (s : run_state) : run_state :=
  let '(v, d) := vcpu_run_pre s.(vc) s.(cd) in
  let h := s.(ctx) <| gif := false |> in                           (* clgi *)
  let h := h <| irq_on := true |> in                               (* local_irq_enable *)
  let gprs := get_reg v <$> switched_regs in
  let e := {| e_vmcb := v.(vcpu_vmcb); e_gprs := gprs; e_mode := v.(mode); e_host := h |} in
  let v := apply_exit (hw v.(vcpu_vmcb) gprs) v in
  let d := d <| tss_type := 9 |> in
  let h := h <| irq_on := false |> in                              (* local_irq_disable *)
  let nmi := (ctl v).(exit_code) =? SVM_EXIT_NMI in
  let h := h <| gif := true |> in                                  (* stgi *)
  {| vc := vcpu_run_post v; cd := d;
     local_vcpu := if nmi then None else s.(local_vcpu);
     ctx := h; entries := e :: s.(entries) |}.

(** ** Exit handlers *)

Definition intr_interception (v : vmrun_vcpu) : option (Z * vmrun_vcpu) := Some (1, v).
Definition nmi_interception (v : vmrun_vcpu) : option (Z * vmrun_vcpu) := Some (1, v).

Definition cpuid_interception (v : vmrun_vcpu) : option (Z * vmrun_vcpu) :=
  rip ← vmrun_rip_read v; Some (0, v <| next_rip := u64 (rip + 2) |>).

Definition vmmcall_interception (v : vmrun_vcpu) : option (Z * vmrun_vcpu) :=
  rip ← vmrun_rip_read v; Some (0, v <| next_rip := u64 (rip + 3) |>).

(** [vmrun_exit_handlers]: an index outside the array or without an entry has
    no handler. *)
Definition vmrun_exit_handlers (code : Z) : option (vmrun_vcpu → option (Z * vmrun_vcpu)) :=
  if code =? SVM_EXIT_INTR then Some intr_interception
  else if code =? SVM_EXIT_NMI then Some nmi_interception
  else if code =? SVM_EXIT_CPUID then Some cpuid_interception
  else if code =? SVM_EXIT_VMMCALL then Some vmmcall_interception
  else None.

Definition vmrun_is_external_interrupt (info : Z) : bool :=
  Z.land info (Z.lor SVM_EVTINJ_TYPE_MASK SVM_EVTINJ_VALID)
  =? Z.lor SVM_EVTINJ_VALID SVM_EVTINJ_TYPE_INTR.

Definition vmrun_get_exit_info (v : vmrun_vcpu) : Z * Z :=
  ((ctl v).(exit_info_1), (ctl v).(exit_info_2)).

(** Result: the returned int and the VCPU; the messages are not kept. *)
Definition vmrun_vcpu_handle_exit (v : vmrun_vcpu) : option (Z * vmrun_vcpu) :=
  let code := (ctl v).(exit_code) in
  let v := if negb (vmrun_is_cr_intercept v INTERCEPT_CR0_WRITE)
           then v <| cr0 := (sav v).(sa_cr0) |> else v in
  let v := if npt_enabled then v <| cr3 := (sav v).(sa_cr3) |> else v in
  if code =? u32 SVM_EXIT_ERR then
    Some (0, v <| run ::= λ r, r <| exit_reason := VMRUN_EXIT_FAIL_ENTRY |>
                                 <| hardware_entry_failure_reason := code |> |>)
  else
    match vmrun_exit_handlers code with
    | None => Some (1, v)
    | Some handler => handler v
    end.

(** ** Entering the guest *)

Definition vmrun_mmu_reload (e : pass_env) (v : vmrun_vcpu) : Z * vmrun_vcpu :=
  if negb (v.(mmu).(root_hpa) =? INVALID_PAGE) then (0, v) else e.(mmu_load) v.

(** [srcu_read_lock] and [srcu_read_unlock]; the returned index is 0. *)
Definition srcu_read_lock (s : run_state) : run_state :=
  s <| ctx ::= λ h, h <| srcu ::= λ n, n + 1 |> |> <| vc ::= λ v, v <| srcu_idx := 0 |> |>.
Definition srcu_read_unlock (s : run_state) : run_state :=
  s <| ctx ::= λ h, h <| srcu ::= λ n, n - 1 |> |>.

Definition vmrun_vcpu_enter_guest (e : pass_env) (s : run_state) : option (Z * run_state) :=
  let '(r, v) := vmrun_mmu_reload e s.(vc) in
  let s := s <| vc := v |> in
  if truth r then Some (r, s)
  else
    let s := s <| ctx ::= λ h, h <| preempt ::= λ n, n + 1 |> <| irq_on := false |> |> in
    let s := s <| vc ::= λ v, v <| mode := IN_GUEST_MODE |> |> in
    let s := srcu_read_unlock s in
    let s := if e.(exiting_request) then s <| vc ::= λ v, v <| mode := EXITING_GUEST_MODE |> |> else s in
    if bool_decide (s.(vc).(mode) = EXITING_GUEST_MODE) || e.(resched_at_entry) || e.(signal_pending)
    then
      let s := s <| vc ::= λ v, v <| mode := OUTSIDE_GUEST_MODE |> |> in
      let s := s <| ctx ::= λ h, h <| irq_on := true |> <| preempt ::= λ n, n - 1 |> |> in
      Some (1, srcu_read_lock s)
    else
      let s := s <| ctx ::= λ h, h <| in_guest_ctx := true |> |> in
      let s := vmrun_vcpu_run e.(guest) s in
      let s := s <| vc ::= λ v, v <| mode := OUTSIDE_GUEST_MODE |> |> in
      let s := s <| ctx ::= λ h, h <| in_guest_ctx := false |> |> in
      let s := s <| ctx ::= λ h, h <| irq_on := true |> <| preempt ::= λ n, n - 1 |> |> in
      let s := srcu_read_lock s in
      '(r, v) ← vmrun_vcpu_handle_exit s.(vc); Some (r, s <| vc := v |>).

(** Result: the returned int and the VCPU. *)
Definition vmrun_vcpu_block (v : vmrun_vcpu) : Z * vmrun_vcpu :=
  let st := v.(mp_state) in
  if st =? VMRUN_MP_STATE_HALTED then (1, v <| mp_state := VMRUN_MP_STATE_RUNNABLE |>)
  else if st =? VMRUN_MP_STATE_RUNNABLE then (1, v)
  else if st =? VMRUN_MP_STATE_INIT_RECEIVED then (1, v)
  else (- EINTR, v).

(** ** The run loop *)

Inductive run_outcome :=
| Returned (r : Z) (s : run_state)
| Undefined (s : run_state)    (* an uninitialised variable is read *)
| Bug (s : run_state)          (* BUG() *)
| StillRunning (s : run_state). (* the passes given are used up *)

(** One element of [envs] per pass; [r] is the local variable, [None] before
    its first assignment. *)
Fixpoint run_loop (envs : list pass_env) (r : option Z) (s : run_state) : run_outcome :=
  match envs with
  | [] => StillRunning s
  | e :: envs =>
      let pass :=
        if s.(vc).(mp_state) =? VMRUN_MP_STATE_RUNNABLE then vmrun_vcpu_enter_guest e s
        else (λ r, (r, s)) <$> r in
      match pass with
      | None => if s.(vc).(mp_state) =? VMRUN_MP_STATE_RUNNABLE then Bug s else Undefined s
      | Some (r, s) =>
          if r <=? 0 then Returned r s
          else if e.(resched_in_loop)
               then run_loop envs (Some r) (srcu_read_lock (srcu_read_unlock s))
               else run_loop envs (Some r) s
      end
  end.

Definition ioctl_run_out (r : Z) (s : run_state) : run_outcome :=
  Returned r (s <| vc ::= λ v, v <| run ::= λ u,
     u <| if_flag := b2z (truth (Z.land (vmrun_get_rflags v) X86_EFLAGS_IF)) |>
       <| run_cr8 := v.(cr8) |> |> |>).

Definition vmrun_vcpu_ioctl_run (envs : list pass_env) (s : run_state) : run_outcome :=
  if s.(vc).(mp_state) =? VMRUN_MP_STATE_UNINITIALIZED then
    if truth s.(vc).(run).(immediate_exit) then ioctl_run_out (- EINTR) s
    else ioctl_run_out (- EAGAIN) (s <| vc := (vmrun_vcpu_block s.(vc)).2 |>)
  else if truth s.(vc).(run).(immediate_exit) then ioctl_run_out (- EINTR) s
  else
    match run_loop envs None (srcu_read_lock s) with
    | Returned r s => ioctl_run_out r (srcu_read_unlock s)
    | o => o
    end.

(** ** Loading a VCPU on a physical CPU *)

(** The host's segment state that loading saves. *)
Record host_segs := { hs_fs : Z; hs_gs : Z; hs_ldt : Z; hs_gs_base : Z }.
#[export] Instance eta_host_segs : Eta host_segs := λ r,
  {| hs_fs := r.(hs_fs); hs_gs := r.(hs_gs); hs_ldt := r.(hs_ldt); hs_gs_base := r.(hs_gs_base) |}.

Definition vmrun_svm_vcpu_load (c : Z) (hs : host_segs) (v : vmrun_vcpu) : vmrun_vcpu :=
  let v := if negb (c =? v.(cpu)) then
             upd_control (λ x, x <| clean := 0 |>) (v <| asid_generation := 0 |>)
           else v in
  v <| host_gs_base := hs.(hs_gs_base) |> <| host_fs := hs.(hs_fs) |> <| host_gs := hs.(hs_gs) |>
    <| host_ldt := hs.(hs_ldt) |>.

(** [killed]: [mutex_lock_killable], while it sleeps, is interrupted by a fatal
    signal.  When the mutex is held and no signal comes the call does not
    return: [None]. *)
Definition vmrun_vcpu_load (killed : bool) (c : Z) (hs : host_segs) (v : vmrun_vcpu)
    : option (Z * vmrun_vcpu) :=
  if v.(mutex) then if killed then Some (- EINTR, v) else None
  else
    let v := v <| mutex := true |> in
    let v := v <| notifier_registered := true |> in
    Some (0, vmrun_svm_vcpu_load c hs v).

(** The segment registers reloaded by [vmrun_svm_vcpu_put]. *)
Definition vmrun_svm_vcpu_put (v : vmrun_vcpu) (hs : host_segs) : host_segs :=
  hs <| hs_ldt := v.(host_ldt) |> <| hs_fs := v.(host_fs) |> <| hs_gs := v.(host_gs) |>.

(** The VCPU's part; what the host's segments become is [vmrun_svm_vcpu_put]. *)
Definition vmrun_vcpu_put (v : vmrun_vcpu) : vmrun_vcpu :=
  v <| notifier_registered := false |> <| mutex := false |>.

Definition vmrun_sched_in (c : Z) (hs : host_segs) (v : vmrun_vcpu) : vmrun_vcpu :=
  let v := if v.(preempted) then v <| preempted := false |> else v in
  vmrun_svm_vcpu_load c hs v.

(** [running]: [current->state == TASK_RUNNING]. *)
Definition vmrun_sched_out (running : bool) (hs : host_segs) (v : vmrun_vcpu)
    : vmrun_vcpu * host_segs :=
  let v := if running then v <| preempted := true |> else v in
  (v, vmrun_svm_vcpu_put v hs).

End Run.
