(* ===== verification/RunProps.v ===== *)
(** * The run loop: context discipline, register transparency, termination *)

From S2P Require Import Prelude.
From S2P Require Import Vcpu.
From S2P Require Import Vmcb.
From S2P Require Import VmcbProps.
From S2P Require Import Run.

(** ** Values for the examples *)
Definition amd_svm : Svm := {|
  V_TPR_MASK := 15;
  SVM_EXIT_ERR := -1; SVM_EXIT_EXCP_BASE := 0x40; SVM_EXIT_NPF := 0x400;
  SVM_EXIT_TASK_SWITCH := 0x7d;
  SVM_EXIT_INTR := 0x60; SVM_EXIT_NMI := 0x61; SVM_EXIT_CPUID := 0x72; SVM_EXIT_VMMCALL := 0x81;
  SVM_EVTINJ_TYPE_MASK := 0x700; SVM_EVTINJ_VALID := BIT 31; SVM_EVTINJ_TYPE_INTR := 0;
  X86_EFLAGS_IF := BIT 9
|}.

Definition amd_svm_ok : SvmOk amd_svm.
Proof. split; repeat split. Qed.

Definition quiet_host : host :=
  {| preempt := 0; irq_on := true; gif := true; srcu := 0; in_guest_ctx := false |}.

(** A guest that executes VMMCALL at once. *)
Definition vmmcall_guest : hw_guest := λ b gprs,
  {| x_save := b.(save); x_exit_code := 0x81; x_info_1 := 0; x_info_2 := 0; x_int_info := 0;
     x_int_ctl := b.(control).(int_ctl); x_gprs := take 14 (gprs ++ replicate 14 0) |}.

Lemma vmmcall_guest_length (b : vmcb) (g : list Z) :
  length (vmmcall_guest b g).(x_gprs) = length switched_regs.
Proof.
  cbn [x_gprs vmmcall_guest]. rewrite length_take, length_app, length_replicate.
  change (length switched_regs) with 14%nat. lia.
Qed.

Definition plain_env (g : hw_guest) (sig : bool) : pass_env :=
  {| mmu_load := λ v, (0, v); exiting_request := false; resched_at_entry := false;
     signal_pending := sig; guest := g; resched_in_loop := false |}.

Definition ready_vcpu : vmrun_vcpu :=
  zero_vcpu <| regs_avail := not32 0 |> <| mmu ::= λ m, m <| root_hpa := 0x1000 |> |>.

Definition ready_state : run_state :=
  {| vc := ready_vcpu;
     cd := {| cd_cpu := 0; cd_asid_generation := 1; max_asid := 7; next_asid := 8; tss_type := 0 |};
     local_vcpu := None; ctx := quiet_host; entries := [] |}.

(* ------------------------------------------------------------------ *)
(** ** The context of the host thread *)

(** Process context: interrupts on, GIF set, not accounted as guest. *)
Definition process_context (h : host) : Prop :=
  h.(irq_on) = true ∧ h.(gif) = true ∧ h.(in_guest_ctx) = false.

(** What must hold when VMRUN executes, relative to the context before. *)
Definition entry_context (h : host) (e : vmrun_entry) : Prop :=
  e.(e_mode) = IN_GUEST_MODE ∧
  e.(e_host).(gif) = false ∧ e.(e_host).(irq_on) = true ∧
  e.(e_host).(preempt) = h.(preempt) + 1 ∧ e.(e_host).(srcu) = h.(srcu) - 1 ∧
  e.(e_host).(in_guest_ctx) = true.

Lemma host_ext (h h' : host) :
  preempt h = preempt h' → irq_on h = irq_on h' → gif h = gif h' → srcu h = srcu h' →
  in_guest_ctx h = in_guest_ctx h' → h = h'.
Proof. destruct h, h'; cbn. by intros -> -> -> -> ->. Qed.

Section Context_.
Context `{X : X86, V : Svm}.

Lemma new_asid_frame (v : vmrun_vcpu) (d : vmrun_cpu_data) :
  (vmrun_new_asid v d).1.(mode) = v.(mode) ∧ (vmrun_new_asid v d).1.(regs) = v.(regs) ∧
  (vmrun_new_asid v d).1.(cr8) = v.(cr8) ∧ (vmrun_new_asid v d).1.(cr2) = v.(cr2) ∧
  sav (vmrun_new_asid v d).1 = sav v ∧
  (ctl (vmrun_new_asid v d).1).(int_ctl) = (ctl v).(int_ctl) ∧
  (ctl (vmrun_new_asid v d).1).(intercept_cr) = (ctl v).(intercept_cr).
Proof using Type. unfold vmrun_new_asid. by destruct (_ >? _). Qed.

(** The part of [vmrun_vcpu_run] before VMRUN: what the hardware is given. *)
Lemma run_pre_frame (v : vmrun_vcpu) (d : vmrun_cpu_data) :
  let v' := (vcpu_run_pre v d).1 in
  v'.(mode) = v.(mode) ∧ v'.(regs) = v.(regs) ∧
  (sav v').(sa_rax) = get_reg v VCPU_REGS_RAX ∧ (sav v').(sa_rsp) = get_reg v VCPU_REGS_RSP ∧
  (sav v').(sa_rip) = get_reg v VCPU_REGS_RIP ∧ (sav v').(sa_cr2) = v.(cr2).
Proof using Type.
  unfold vcpu_run_pre. destruct (negb _); cbn zeta; [|done].
  set (w := upd_save _ v). destruct (vmrun_new_asid w d) as [v1 d1] eqn:E.
  destruct (new_asid_frame w d) as (H1 & H2 & H3 & H4 & H5 & H6 & H7). rewrite E in *. cbn in *.
  split_and!; [exact H1|exact H2|exact (f_equal sa_rax H5)|exact (f_equal sa_rsp H5)
              |exact (f_equal sa_rip H5)|exact H4].
Qed.

Lemma store_gprs_frame (xs : list Z) (v : vmrun_vcpu) :
  store_gprs xs v = v <| regs := (store_gprs xs v).(regs) |>.
Proof using Type.
  unfold store_gprs. generalize (zip switched_regs xs). intros l.
  revert v. induction l as [|[r x] l IH]; intros v; [done|]. cbn. rewrite IH. done.
Qed.

Lemma vcpu_run_context (hw : hw_guest) (s : run_state) :
  let s' := vmrun_vcpu_run hw s in
  s'.(ctx) = s.(ctx) <| irq_on := false |> <| gif := true |> ∧
  ∃ e, s'.(entries) = e :: s.(entries) ∧ e.(e_mode) = s.(vc).(mode) ∧
       e.(e_host) = s.(ctx) <| gif := false |> <| irq_on := true |>.
Proof using Type.
  unfold vmrun_vcpu_run. pose proof (run_pre_frame s.(vc) s.(cd)) as H.
  destruct (vcpu_run_pre (vc s) (cd s)) as [v d]. cbn in H. destruct H as (Hm & _).
  split; [done|]. eexists. split; [reflexivity|]. split; [exact Hm|done].
Qed.
End Context_.

Lemma enter_guest_balanced `{X : X86, V : Svm} (npt : bool) (e : pass_env)
    (s s' : run_state) (r : Z) :
  process_context s.(ctx) →
  vmrun_vcpu_enter_guest npt e s = Some (r, s') →
  s'.(ctx) = s.(ctx) ∧
  (s'.(entries) = s.(entries) ∨
   ∃ en, s'.(entries) = en :: s.(entries) ∧ entry_context s.(ctx) en).
Proof.
  intros (Hirq & Hgif & Hin). unfold vmrun_vcpu_enter_guest.
  destruct (vmrun_mmu_reload e (vc s)) as [r0 v0]. cbn zeta.
  destruct (truth r0).
  - intros [= <- <-]. cbn. auto.
  - destruct (bool_decide _ || _ || _) eqn:Hc.
    + intros [= <- <-]. split; [|by left; destruct (exiting_request e)].
      destruct (exiting_request e); cbn; apply host_ext; cbn; first [done|apply Z.add_simpl_r|apply Z.sub_simpl_r].
    + rewrite !orb_false_iff in Hc. destruct Hc as [[Hm _] _]. apply bool_decide_eq_false in Hm.
      destruct (exiting_request e); [by exfalso|].
      match goal with |- context [vmrun_vcpu_run ?g ?s0] =>
        destruct (vcpu_run_context g s0) as (Hctx & en & Hen & Hmode & Hhost);
        set (s1 := vmrun_vcpu_run g s0) in * end.
      destruct (vmrun_vcpu_handle_exit npt _) as [[r1 v1]|]; [|done]. intros [= <- <-].
      split.
      * cbn. rewrite Hctx. apply host_ext; cbn; first [done|apply Z.add_simpl_r|apply Z.sub_simpl_r].
      * right. exists en. split; [exact Hen|]. unfold entry_context.
        rewrite Hmode, Hhost. by cbn.
Qed.

(** C21: every path through [vmrun_vcpu_enter_guest] gives the host thread
    back its context.  Whatever the MMU, the scheduler, signals and the guest
    do, the preemption count, interrupt flag, GIF, SRCU nesting and guest
    accounting are on return what they were on entry; and VMRUN is executed
    at most once, in guest mode, with GIF clear, preemption disabled and
    the SRCU read lock released. *)
Theorem enter_guest_context `{X : X86, V : Svm} (npt : bool) (e : pass_env)
    (s s' : run_state) (r : Z) :
  process_context s.(ctx) →
  vmrun_vcpu_enter_guest npt e s = Some (r, s') →
  s'.(ctx) = s.(ctx) ∧
  (s'.(entries) = s.(entries) ∨
   ∃ en, s'.(entries) = en :: s.(entries) ∧ entry_context s.(ctx) en).
Proof. apply enter_guest_balanced. Qed.

Lemma enter_guest_context_witness :
  let X := amd64 in let V := amd_svm in
  ∃ s', vmrun_vcpu_enter_guest false (plain_env vmmcall_guest false) ready_state = Some (0, s') ∧
        s'.(ctx) = quiet_host.
Proof.
  eexists. split; [reflexivity|].
  eapply (enter_guest_context (X := amd64) (V := amd_svm) false
            (plain_env vmmcall_guest false) ready_state); [done|reflexivity].
Defined.

(* ------------------------------------------------------------------ *)
(** ** Registers across the world switch *)

(** Where the hardware finds, and leaves, each register. *)
Definition hw_reg (s : vmcb_save_area) (gprs : list Z) (r : vmrun_reg) : Z :=
  match r with
  | VCPU_REGS_RAX => s.(sa_rax) | VCPU_REGS_RSP => s.(sa_rsp) | VCPU_REGS_RIP => s.(sa_rip)
  | VCPU_REGS_RBX => gprs !!! 0%nat | VCPU_REGS_RCX => gprs !!! 1%nat
  | VCPU_REGS_RDX => gprs !!! 2%nat | VCPU_REGS_RSI => gprs !!! 3%nat
  | VCPU_REGS_RDI => gprs !!! 4%nat | VCPU_REGS_RBP => gprs !!! 5%nat
  | VCPU_REGS_R8 => gprs !!! 6%nat | VCPU_REGS_R9 => gprs !!! 7%nat
  | VCPU_REGS_R10 => gprs !!! 8%nat | VCPU_REGS_R11 => gprs !!! 9%nat
  | VCPU_REGS_R12 => gprs !!! 10%nat | VCPU_REGS_R13 => gprs !!! 11%nat
  | VCPU_REGS_R14 => gprs !!! 12%nat | VCPU_REGS_R15 => gprs !!! 13%nat
  end.

Section Switch.
Context `{X : X86, V : Svm}.

Lemma store_gprs_regs (xs : list Z) (v : vmrun_vcpu) :
  (store_gprs xs v).(regs)
  = foldl (λ l '(r, x), <[reg_index r := x]> l) v.(regs) (zip switched_regs xs).
Proof using Type.
  unfold store_gprs. generalize (zip switched_regs xs). intros l.
  revert v. induction l as [|[r x] l IH]; intros v; [done|]. cbn. by rewrite IH.
Qed.

Lemma apply_exit_frame (x : hw_exit) (v : vmrun_vcpu) :
  let v' := apply_exit x v in
  sav v' = x.(x_save) ∧
  ctl v' = (ctl v) <| exit_code := x.(x_exit_code) |> <| exit_info_1 := x.(x_info_1) |>
                   <| exit_info_2 := x.(x_info_2) |> <| exit_int_info := x.(x_int_info) |>
                   <| int_ctl := x.(x_int_ctl) |> ∧
  v' = v <| vcpu_vmcb := v'.(vcpu_vmcb) |> <| regs := v'.(regs) |> ∧
  v'.(regs) = foldl (λ l '(r, y), <[reg_index r := y]> l) v.(regs) (zip switched_regs x.(x_gprs)).
Proof using Type.
  unfold apply_exit. cbv zeta. set (w := upd_control _ _).
  assert (Hf := store_gprs_frame x.(x_gprs) w). assert (Hr := store_gprs_regs x.(x_gprs) w).
  set (l := regs (store_gprs (x_gprs x) w)) in *. rewrite Hf. by rewrite Hr.
Qed.

Lemma run_post_frame (v : vmrun_vcpu) :
  let v' := vcpu_run_post v in
  v' = v <| cr2 := (sav v).(sa_cr2) |> <| cr8 := v'.(cr8) |> <| next_rip := 0 |>
         <| vcpu_vmcb := v'.(vcpu_vmcb) |>
         <| regs := <[16%nat := (sav v).(sa_rip)]> (<[4%nat := (sav v).(sa_rsp)]>
                      (<[0%nat := (sav v).(sa_rax)]> v.(regs))) |> ∧
  sav v' = sav v ∧
  ctl v' = (ctl v) <| tlb_ctl := TLB_CONTROL_DO_NOTHING |>
             <| clean := Z.land (BIT VMCB_DIRTY_MAX - 1) (not32 VMCB_ALWAYS_DIRTY_MASK) |>.
Proof using Type. unfold vcpu_run_post. cbv zeta. by case_match. Qed.

(** [vcpu_run_post] after [apply_exit], on the registers. *)
Lemma run_post_regs (x : hw_exit) (v : vmrun_vcpu) :
  length v.(regs) = NR_VCPU_REGS → length x.(x_gprs) = length switched_regs →
  let v' := vcpu_run_post (apply_exit x v) in
  length v'.(regs) = NR_VCPU_REGS ∧ ∀ r, get_reg v' r = hw_reg x.(x_save) x.(x_gprs) r.
Proof using Type.
  intros Hl Hg. destruct (run_post_frame (apply_exit x v)) as (-> & _ & _).
  destruct (apply_exit_frame x v) as (-> & _ & _ & Hr). unfold get_reg. cbn [regs put].
  rewrite Hr. clear Hr. revert Hl Hg.
  generalize (regs v) as rg, (x_gprs x) as gp, (x_save x) as xs. clear. intros rg gp xs Hl Hg.
  do 17 (destruct rg as [|? rg]; [done|]); destruct rg; [|done].
  do 14 (destruct gp as [|? gp]; [done|]); destruct gp; [|done].
  cbn; split; [done|by intros []].
Qed.
End Switch.

(** C22: the world switch is transparent for the registers.  At VMRUN the
    hardware holds exactly the VCPU's seventeen registers and its CR2, and
    afterwards every register of the VCPU is the one the guest left, together
    with CR2; the VMCB is left clean but for the groups that are always
    written, and no TLB flush stays requested. *)
Theorem vcpu_run_registers `{X : X86, V : Svm} (hw : hw_guest) (s : run_state) :
  length s.(vc).(regs) = NR_VCPU_REGS →
  (∀ b g, length (hw b g).(x_gprs) = length switched_regs) →
  let s' := vmrun_vcpu_run hw s in
  ∃ e, s'.(entries) = e :: s.(entries) ∧
    (∀ r, hw_reg e.(e_vmcb).(save) e.(e_gprs) r = get_reg s.(vc) r) ∧
    e.(e_vmcb).(save).(sa_cr2) = s.(vc).(cr2) ∧
    let x := hw e.(e_vmcb) e.(e_gprs) in
    (∀ r, get_reg s'.(vc) r = hw_reg x.(x_save) x.(x_gprs) r) ∧
    length s'.(vc).(regs) = NR_VCPU_REGS ∧
    s'.(vc).(cr2) = x.(x_save).(sa_cr2) ∧
    (ctl s'.(vc)).(tlb_ctl) = TLB_CONTROL_DO_NOTHING ∧
    (∀ k, 0 <= k < 12 → Z.testbit (ctl s'.(vc)).(clean) k = negb ((k =? VMCB_INTR) || (k =? VMCB_CR2))).
Proof.
  intros Hl Hg. unfold vmrun_vcpu_run. pose proof (run_pre_frame s.(vc) s.(cd)) as H.
  destruct (vcpu_run_pre (vc s) (cd s)) as [v d]. cbn in H.
  destruct H as (_ & Hr & Hax & Hsp & Hip & Hcr2).
  eexists. split; [reflexivity|]. cbn [e_vmcb e_gprs].
  set (gp := get_reg v <$> switched_regs). set (x := hw (vcpu_vmcb v) gp).
  destruct (run_post_regs x v) as [Hlen Hregs]; [by rewrite Hr|by apply Hg|].
  split_and!; [|done|exact Hregs|exact Hlen|..].
  - unfold get_reg in Hax, Hsp, Hip. intros r. unfold get_reg at 1. rewrite <- Hr in *.
    destruct r; try done.
  - cbn [vc]. destruct (run_post_frame (apply_exit x v)) as (-> & _ & _).
    by destruct (apply_exit_frame x v) as (-> & _).
  - cbn [vc]. by destruct (run_post_frame (apply_exit x v)) as (_ & _ & ->).
  - intros k Hk. cbn [vc]. destruct (run_post_frame (apply_exit x v)) as (_ & _ & ->).
    cbn [clean put]. clear -Hk. assert (Hk' : 0 <= k < 64) by lia. revert Hk.
    apply bits64_in in Hk'. cbn in Hk'.
    repeat (destruct Hk' as [<-|Hk']; [first [by vm_compute|lia]|]). destruct Hk'.
Qed.

Lemma vcpu_run_registers_witness :
  let X := amd64 in let V := amd_svm in
  ∃ e, (vmrun_vcpu_run vmmcall_guest ready_state).(entries) = [e] ∧
       hw_reg e.(e_vmcb).(save) e.(e_gprs) VCPU_REGS_RIP = 0.
Proof.
  edestruct (vcpu_run_registers (X := amd64) (V := amd_svm) vmmcall_guest ready_state)
    as (e & He & Hr & _); [reflexivity|apply vmmcall_guest_length|].
  exists e. split; [exact He|]. exact (Hr VCPU_REGS_RIP).
Defined.

(* ------------------------------------------------------------------ *)
(** ** The run loop *)

(** Exits that [vmrun_vcpu_handle_exit] returns to user space. *)
Definition exits_to_user `{Svm} (code : Z) : bool :=
  (code =? u32 SVM_EXIT_ERR) || (code =? SVM_EXIT_CPUID) || (code =? SVM_EXIT_VMMCALL).

(** Whether a pass gets as far as VMRUN. *)
Definition pass_enters (e : pass_env) : bool :=
  negb (e.(exiting_request) || e.(resched_at_entry) || e.(signal_pending)).

(** A VCPU that can run: runnable, with a page-table root, and with its
    registers available. *)
Record runnable (v : vmrun_vcpu) : Prop := {
  rn_state : v.(mp_state) = VMRUN_MP_STATE_RUNNABLE;
  rn_root : v.(mmu).(root_hpa) ≠ INVALID_PAGE;
  rn_rip : Z.testbit v.(regs_avail) (Z.of_nat (reg_index VCPU_REGS_RIP)) = true;
  rn_regs : length v.(regs) = NR_VCPU_REGS
}.

Definition guest_ok (hw : hw_guest) : Prop :=
  ∀ b g, length (hw b g).(x_gprs) = length switched_regs.

Section Loop.
Context `{X : X86, V : Svm, VO : !SvmOk V} (npt : bool).

Lemma rip_available (v : vmrun_vcpu) :
  runnable v → ∃ rip, vmrun_register_read v VCPU_REGS_RIP = Some rip.
Proof using Type.
  intros [_ _ Hrip Hlen]. unfold vmrun_register_read. rewrite Hrip. cbn.
  apply lookup_lt_is_Some. rewrite Hlen. cbn. unfold NR_VCPU_REGS. lia.
Qed.

(** [vmrun_vcpu_handle_exit] on a runnable VCPU: the result, and that the
    VCPU stays runnable. *)
Lemma handle_exit_result (v : vmrun_vcpu) :
  runnable v →
  ∃ v', vmrun_vcpu_handle_exit npt v
        = Some (b2z (negb (exits_to_user (ctl v).(exit_code))), v') ∧ runnable v'.
Proof using VO.
  intros [Hs Hroot Hrip Hlen]. unfold vmrun_vcpu_handle_exit, exits_to_user.
  set (w := if npt then _ else _).
  assert (Hw : runnable w ∧ regs w = regs v ∧ regs_avail w = regs_avail v).
  { subst w. destruct npt, (negb _); by repeat split. }
  clearbody w. destruct Hw as (Hw & _ & _). destruct (rip_available w Hw) as [rip Hread].
  destruct Hw as [Hs' Hroot' Hrip' Hlen'].
  destruct exit_codes as (Hi & Hn & Hc & Hm & He). unfold vmrun_exit_handlers.
  rewrite Hi, Hn, Hc, Hm, He. set (code := exit_code (ctl v)).
  change (u32 (-1)) with 4294967295.
  destruct (Z.eqb_spec code 4294967295) as [E|]; cbn.
  { eexists. split; [reflexivity|by split]. }
  destruct (Z.eqb_spec code 0x60) as [->|]; [eexists; split; [reflexivity|by split]|].
  destruct (Z.eqb_spec code 0x61) as [->|]; [eexists; split; [reflexivity|by split]|].
  destruct (Z.eqb_spec code 0x72) as [->|];
    [|destruct (Z.eqb_spec code 0x81) as [->|]; [|eexists; split; [reflexivity|by split]]].
  all: unfold cpuid_interception, vmmcall_interception, vmrun_rip_read; rewrite Hread; cbn;
       eexists; (split; [reflexivity|by split]).
Qed.

Lemma run_pre_runnable (v : vmrun_vcpu) (d : vmrun_cpu_data) :
  runnable v → runnable (vcpu_run_pre v d).1.
Proof using Type.
  intros [Hs Hroot Hrip Hlen]. unfold vcpu_run_pre, vmrun_new_asid.
  destruct (negb _); cbn zeta; [destruct (_ >? _)|]; by split.
Qed.

Lemma run_exit_frame (x : hw_exit) (v : vmrun_vcpu) :
  let v' := vcpu_run_post (apply_exit x v) in
  v'.(mp_state) = v.(mp_state) ∧ v'.(mmu) = v.(mmu) ∧ v'.(regs_avail) = v.(regs_avail).
Proof using Type.
  cbv zeta. destruct (run_post_frame (apply_exit x v)) as (Hp & _ & _).
  destruct (apply_exit_frame x v) as (_ & _ & Ha & _).
  split_and!.
  - exact (eq_trans (f_equal mp_state Hp) (f_equal mp_state Ha)).
  - exact (eq_trans (f_equal mmu Hp) (f_equal mmu Ha)).
  - exact (eq_trans (f_equal regs_avail Hp) (f_equal regs_avail Ha)).
Qed.

Lemma run_runnable (hw : hw_guest) (s : run_state) :
  runnable s.(vc) → guest_ok hw →
  runnable (vmrun_vcpu_run hw s).(vc) ∧
  ∃ b g, (ctl (vmrun_vcpu_run hw s).(vc)).(exit_code) = (hw b g).(x_exit_code).
Proof using Type.
  intros Hr Hg. unfold vmrun_vcpu_run.
  pose proof (run_pre_runnable s.(vc) s.(cd) Hr) as Hpre.
  destruct (vcpu_run_pre (vc s) (cd s)) as [v d]. cbn [fst] in Hpre. cbn [vc].
  destruct Hpre as [Hs Hroot Hrip Hlen].
  set (x := hw (vcpu_vmcb v) (get_reg v <$> switched_regs)).
  destruct (run_post_regs x v Hlen (Hg _ _)) as [Hlen' _].
  destruct (run_post_frame (apply_exit x v)) as (_ & _ & Hc).
  destruct (apply_exit_frame x v) as (_ & Hc' & _ & _).
  split.
  - destruct (run_exit_frame x v) as (E1 & E2 & E3).
    split; [exact (eq_trans E1 Hs)| |exact (eq_trans (f_equal (λ a, Z.testbit a _) E3) Hrip)|exact Hlen'].
    intros E. apply Hroot. rewrite <- E. exact (f_equal root_hpa (eq_sym E2)).
  - exists (vcpu_vmcb v), (get_reg v <$> switched_regs). 
    exact (eq_trans (f_equal exit_code Hc) (f_equal exit_code Hc')).
Qed.

Lemma enter_guest_result (e : pass_env) (s : run_state) :
  runnable s.(vc) → guest_ok e.(guest) →
  ∃ r s', vmrun_vcpu_enter_guest npt e s = Some (r, s') ∧ runnable s'.(vc) ∧
    (if pass_enters e
     then ∃ b g, r = b2z (negb (exits_to_user (e.(guest) b g).(x_exit_code)))
     else r = 1 ∧ s'.(entries) = s.(entries)).
Proof using VO.
  intros Hr Hg. unfold vmrun_vcpu_enter_guest, vmrun_mmu_reload, pass_enters.
  pose proof Hr as [Hs Hroot Hrip Hlen].
  destruct (Z.eqb_spec (root_hpa (mmu (vc s))) INVALID_PAGE); [done|]. cbn [negb truth].
  change (truth 0) with false. cbv iota zeta.
  destruct (exiting_request e); cbn [orb negb].
  - rewrite bool_decide_eq_true_2 by done. cbn [orb]. eexists _, _. split; [reflexivity|].
    split; [by split|done].
  - rewrite bool_decide_eq_false_2 by done. cbn [orb].
    destruct (resched_at_entry e || signal_pending e); cbn [negb].
    + eexists _, _. split; [reflexivity|]. split; [by split|done].
    + match goal with |- context [vmrun_vcpu_run ?g ?s0] =>
        destruct (run_runnable g s0) as (Hr1 & b & gp & Hcode); [by split|done|];
        set (s1 := vmrun_vcpu_run g s0) in * end.
      match goal with |- context [vmrun_vcpu_handle_exit npt ?w] =>
        destruct (handle_exit_result w) as (v' & Hh & Hr'); [by destruct Hr1; split|];
        rewrite Hh end.
      eexists _, _. split; [reflexivity|]. split; [done|].
      exists b, gp. cbn. by rewrite Hcode.
Qed.

(** The loop stops at the latest with the first pass that enters the guest and
    gets an exit for user space. *)
Lemma run_loop_returns (envs : list pass_env) (r : option Z) (s : run_state) :
  runnable s.(vc) → Forall (λ e, guest_ok e.(guest)) envs →
  Exists (λ e, pass_enters e = true ∧
               ∀ b g, exits_to_user (e.(guest) b g).(x_exit_code) = true) envs →
  ∃ s', run_loop npt envs r s = Returned 0 s'.
Proof using VO.
  revert r s. induction envs as [|e envs IH]; intros r s Hr Hg Hex; [by inversion Hex|].
  inversion Hg as [|? ? Hg1 Hg2]; subst.
  destruct (enter_guest_result e s Hr Hg1) as (r1 & s1 & He & Hr1 & Hpass).
  cbn [run_loop]. rewrite (rn_state _ Hr). cbn [VMRUN_MP_STATE_RUNNABLE Z.eqb]. rewrite He.
  destruct (Z.leb_spec r1 0).
  - exists s1. f_equal. destruct (pass_enters e); [|lia].
    destruct Hpass as (b & g & ->). by destruct (exits_to_user _).
  - assert (Hex' : Exists (λ e, pass_enters e = true ∧
               ∀ b g, exits_to_user (e.(guest) b g).(x_exit_code) = true) envs).
    { inversion Hex as [? ? [Hp Hu]|]; subst; [|done]. rewrite Hp in Hpass.
      destruct Hpass as (b & g & ->). rewrite Hu in *. cbn in *. lia. }
    destruct (resched_in_loop e); apply IH; try done. by destruct Hr1; split.
Qed.

(** While signals are pending the loop neither enters the guest nor returns. *)
Lemma run_loop_signalled (envs : list pass_env) (r : option Z) (s : run_state) :
  runnable s.(vc) → Forall (λ e, guest_ok e.(guest)) envs →
  Forall (λ e, e.(signal_pending) = true) envs →
  ∃ s', run_loop npt envs r s = StillRunning s' ∧ s'.(entries) = s.(entries).
Proof using VO.
  revert r s. induction envs as [|e envs IH]; intros r s Hr Hg Hsig; [by eexists|].
  inversion Hg as [|? ? Hg1 Hg2]; subst. inversion Hsig as [|? ? Hs1 Hs2]; subst.
  destruct (enter_guest_result e s Hr Hg1) as (r1 & s1 & He & Hr1 & Hpass).
  unfold pass_enters in Hpass. rewrite Hs1, orb_true_r in Hpass. destruct Hpass as [-> Hent].
  cbn [run_loop]. rewrite (rn_state _ Hr). cbn [VMRUN_MP_STATE_RUNNABLE Z.eqb]. rewrite He.
  cbn [Z.leb Z.compare]. rewrite <- Hent.
  destruct (resched_in_loop e); [|by apply IH].
  destruct (IH (Some 1) (srcu_read_lock (srcu_read_unlock s1))) as (s' & Hl & Hen); try done.
  - by destruct Hr1; split.
  - exists s'. by rewrite Hl, Hen.
Qed.
End Loop.

Section LoopContext.
Context `{X : X86, V : Svm} (npt : bool).

Lemma srcu_relock_ctx (s : run_state) : (srcu_read_lock (srcu_read_unlock s)).(ctx) = s.(ctx).
Proof using Type. apply host_ext; cbn; first [done|apply Z.sub_simpl_r]. Qed.

Lemma run_loop_context (envs : list pass_env) (r : option Z) (s s' : run_state) (r' : Z) :
  process_context s.(ctx) → run_loop npt envs r s = Returned r' s' → s'.(ctx) = s.(ctx).
Proof using Type.
  revert r s. induction envs as [|e envs IH]; intros r s Hp; [done|]. cbn [run_loop].
  assert (Hpass : ∀ r1 s1,
    (if mp_state (vc s) =? VMRUN_MP_STATE_RUNNABLE then vmrun_vcpu_enter_guest npt e s
     else (λ r, (r, s)) <$> r) = Some (r1, s1) → s1.(ctx) = s.(ctx)).
  { intros r1 s1. case_match.
    - intros Heg. by apply enter_guest_balanced in Heg as [].
    - destruct r; [|done]. by intros [= _ <-]. }
  destruct (if _ =? _ then _ else _) as [[r1 s1]|]; [|by case_match].
  specialize (Hpass _ _ eq_refl). destruct (r1 <=? 0); [by intros [= _ <-]|].
  destruct (resched_in_loop e); intros Hl; apply IH in Hl;
    rewrite ?srcu_relock_ctx in *; congruence.
Qed.
End LoopContext.

(** C23: the VMRUN_RUN ioctl returns to user space.  For a runnable VCPU
    whose [immediate_exit] is clear, if in some pass the guest is entered and
    exits with CPUID, VMMCALL or a failed entry, the ioctl returns 0, however
    many interrupts, signals and reschedules the passes before see; and the
    host thread has its context back, the SRCU read lock released. *)
Theorem ioctl_run_returns `{X : X86, V : Svm, VO : !SvmOk V} (npt : bool)
    (envs : list pass_env) (s : run_state) :
  runnable s.(vc) → s.(vc).(run).(immediate_exit) = 0 → process_context s.(ctx) →
  Forall (λ e, guest_ok e.(guest)) envs →
  Exists (λ e, pass_enters e = true ∧
               ∀ b g, exits_to_user (e.(guest) b g).(x_exit_code) = true) envs →
  ∃ s', vmrun_vcpu_ioctl_run npt envs s = Returned 0 s' ∧ s'.(ctx) = s.(ctx).
Proof.
  intros Hr Hi Hctx Hg Hex. unfold vmrun_vcpu_ioctl_run.
  rewrite (rn_state _ Hr), Hi. cbn [VMRUN_MP_STATE_RUNNABLE VMRUN_MP_STATE_UNINITIALIZED Z.eqb].
  change (truth 0) with false. cbv iota.
  destruct (run_loop_returns npt envs None (srcu_read_lock s)) as [s' Hl]; try done.
  - by destruct Hr; split.
  - rewrite Hl. apply run_loop_context in Hl; [|done]. eexists. split; [reflexivity|].
    cbn. rewrite Hl. apply host_ext; cbn; first [done|apply Z.add_simpl_r].
Qed.

Lemma ioctl_run_returns_witness :
  let X := amd64 in let V := amd_svm in
  ∃ s', vmrun_vcpu_ioctl_run false
          [plain_env vmmcall_guest true; plain_env vmmcall_guest false] ready_state
        = Returned 0 s' ∧ s'.(ctx) = quiet_host.
Proof.
  apply (ioctl_run_returns (X := amd64) (V := amd_svm) (VO := amd_svm_ok) false
           [plain_env vmmcall_guest true; plain_env vmmcall_guest false] ready_state).
  - split; by vm_compute.
  - reflexivity.
  - done.
  - repeat constructor; exact vmmcall_guest_length.
  - apply Exists_cons_tl, Exists_cons_hd. split; [reflexivity|]. intros b g. reflexivity.
Defined.

(** C39: a pending signal does not end the VMRUN_RUN ioctl.  The entry
    path refuses to enter the guest while a signal is pending and asks for
    another pass, and the run loop has no test of its own, so for any number
    of passes with a signal pending the ioctl is still looping and the guest
    has not been entered. *)
Theorem signal_livelock `{X : X86, V : Svm, VO : !SvmOk V} (npt : bool)
    (envs : list pass_env) (s : run_state) :
  runnable s.(vc) → s.(vc).(run).(immediate_exit) = 0 →
  Forall (λ e, guest_ok e.(guest)) envs →
  Forall (λ e, e.(signal_pending) = true) envs →
  ∃ s', vmrun_vcpu_ioctl_run npt envs s = StillRunning s' ∧ s'.(entries) = s.(entries).
Proof.
  intros Hr Hi Hg Hsig. unfold vmrun_vcpu_ioctl_run.
  rewrite (rn_state _ Hr), Hi. cbn [VMRUN_MP_STATE_RUNNABLE VMRUN_MP_STATE_UNINITIALIZED Z.eqb].
  change (truth 0) with false. cbv iota.
  destruct (run_loop_signalled npt envs None (srcu_read_lock s)) as (s' & Hl & He); try done.
  - by destruct Hr; split.
  - rewrite Hl. exists s'. by rewrite He.
Qed.

Lemma signal_livelock_witness :
  let X := amd64 in let V := amd_svm in
  ∃ s', vmrun_vcpu_ioctl_run false (replicate 3 (plain_env vmmcall_guest true)) ready_state
        = StillRunning s' ∧ s'.(entries) = [].
Proof.
  apply (signal_livelock (X := amd64) (V := amd_svm) (VO := amd_svm_ok) false
           (replicate 3 (plain_env vmmcall_guest true)) ready_state).
  - split; by vm_compute.
  - reflexivity.
  - repeat constructor; exact vmmcall_guest_length.
  - repeat constructor.
Defined.
