(* ===== verification/VcpuSystem.v ===== *)
(** * VCPUs sharing physical CPUs

    A machine with several physical CPUs on which VCPUs are loaded, edited by
    the ioctls, run, rescheduled and put, as a step relation over the
    operations of kernel/vmrun.c.  Two ghost components follow the hardware:
    which VCPU's translations may be in a CPU's TLB under each ASID, and which
    control block a CPU may have cached from a VCPU's last exit.  The
    invariant shows that no VCPU ever runs on another's translations, and that
    a field group marked clean is one the hardware has seen. *)

From S2P Require Import Prelude.
From S2P Require Import Vcpu.
From S2P Require Import Vmcb.
From S2P Require Import VmcbProps.
From S2P Require Import Run.
From S2P Require Import RunProps.

(* ------------------------------------------------------------------ *)
(** ** The groups of fields behind each clean bit (AMD64 manual, 15.15) *)

Definition clean_group (k : Z) (b : vmcb) : list Z * list vmcb_seg :=
  let c := b.(control) in
  let s := b.(save) in
  if k =? VMCB_INTERCEPTS then ([c.(intercept_cr); c.(intercept)], [])
  else if k =? VMCB_PERM_MAP then ([c.(iopm_base_pa)], [])
  else if k =? VMCB_ASID then ([c.(asid)], [])
  else if k =? VMCB_INTR then ([c.(int_ctl)], [])
  else if k =? VMCB_CR then ([s.(sa_cr0); s.(sa_cr3); s.(sa_cr4); s.(sa_efer)], [])
  else if k =? VMCB_DR then ([s.(sa_dr6)], [])
  else if k =? VMCB_DT then ([], [s.(sa_gdtr); s.(sa_idtr)])
  else if k =? VMCB_SEG then ([s.(sa_cpl)], [s.(sa_cs); s.(sa_ds); s.(sa_ss); s.(sa_es)])
  else if k =? VMCB_CR2 then ([s.(sa_cr2)], [])
  else ([], []).

Abbreviation is_clean v k := (Z.testbit (ctl v).(clean) k).

(** An edit leaves the ASID alone, and a group still marked clean was marked
    clean before and has not changed. *)
Record edit_ok (v v' : vmrun_vcpu) : Prop := {
  eo_asid : (ctl v').(asid) = (ctl v).(asid);
  eo_cpu : v'.(cpu) = v.(cpu);
  eo_clean : ∀ k, 0 <= k → is_clean v' k = true →
    is_clean v k = true ∧ clean_group k v'.(vcpu_vmcb) = clean_group k v.(vcpu_vmcb)
}.

#[export] Instance edit_ok_preorder : PreOrder edit_ok.
Proof.
  split.
  - intros v. by split.
  - intros v1 v2 v3 [Ha Hc Hk] [Ha' Hc' Hk']. split; [congruence..|].
    intros k Hk0 H3. destruct (Hk' k Hk0 H3) as [H2 ->]. destruct (Hk k Hk0 H2). done.
Qed.

Section Edits.
Context `{X : X86, V : Svm}.

Lemma is_clean_mark_dirty (b k : Z) (v : vmrun_vcpu) :
  0 <= b → 0 <= k → is_clean (mark_dirty b v) k = true → is_clean v k = true ∧ k ≠ b.
Proof using Type.
  intros Hb Hk. cbn. autorewrite with bits. rewrite !andb_true_iff, negb_true_iff, Z.eqb_neq. tauto.
Qed.

(** An edit of fields of one group, with the group's clean bit cleared. *)
Lemma edit_mark_dirty (b : Z) (v v1 : vmrun_vcpu) :
  0 <= b → (ctl v1).(asid) = (ctl v).(asid) → v1.(cpu) = v.(cpu) →
  (ctl v1).(clean) = (ctl v).(clean) →
  (∀ k, k ≠ b → clean_group k v1.(vcpu_vmcb) = clean_group k v.(vcpu_vmcb)) →
  edit_ok v (mark_dirty b v1).
Proof using Type.
  intros Hb Ha Hc Hcl Hg. split; [done..|]. intros k Hk [Hk1 Hne]%is_clean_mark_dirty; [|done..].
  rewrite Hcl in Hk1. split; [done|]. by rewrite <- Hg.
Qed.

(** An edit outside the control block. *)
Lemma edit_outside (v v' : vmrun_vcpu) :
  v'.(vcpu_vmcb) = v.(vcpu_vmcb) → v'.(cpu) = v.(cpu) → edit_ok v v'.
Proof using Type. intros E Hc. split; rewrite ?E; auto. Qed.

Ltac group_frame :=
  intros k Hk; unfold clean_group;
  repeat match goal with
  | |- context [k =? ?a] => destruct (Z.eqb_spec k a) as [->|_]; [done|]
  end; try done.

Lemma edit_upd_save_free (f : vmcb_save_area → vmcb_save_area) (v : vmrun_vcpu) :
  (∀ k, clean_group k {| control := ctl v; save := f (sav v) |} = clean_group k v.(vcpu_vmcb)) →
  edit_ok v (upd_save f v).
Proof using Type. intros Hf. split; [done..|]. intros k Hk H. split; [done|]. apply Hf. Qed.

Lemma edit_set_intercept (b : Z) (v : vmrun_vcpu) : edit_ok v (vmrun_set_cr_intercept b v).
Proof using Type. apply edit_mark_dirty; try done. group_frame. Qed.

Lemma edit_clr_intercept (b : Z) (v : vmrun_vcpu) : edit_ok v (vmrun_clr_cr_intercept b v).
Proof using Type. apply edit_mark_dirty; try done. group_frame. Qed.

Lemma edit_save_cr0 (c : Z) (v : vmrun_vcpu) :
  edit_ok v (mark_dirty VMCB_CR (upd_save (λ s, s <| sa_cr0 := c |>) v)).
Proof using Type. apply edit_mark_dirty; try done. group_frame. Qed.

Lemma edit_update_cr0_intercept (v : vmrun_vcpu) : edit_ok v (vmrun_update_cr0_intercept v).
Proof using Type.
  unfold vmrun_update_cr0_intercept. set (w := mark_dirty VMCB_CR _).
  transitivity w; [apply edit_save_cr0|].
  destruct (_ =? _); (etransitivity; [|solve [apply edit_clr_intercept|apply edit_set_intercept]]);
    [apply edit_clr_intercept|apply edit_set_intercept].
Qed.

Lemma edit_set_cr0 (npt : bool) (c : Z) (v : vmrun_vcpu) : edit_ok v (vmrun_set_cr0 npt c v).
Proof using Type.
  unfold vmrun_set_cr0. etransitivity; [|apply edit_update_cr0_intercept].
  set (hw := if negb npt then _ else _).
  assert (He : edit_ok v (mark_dirty VMCB_CR (set_cr0_efer c v))).
  { apply edit_mark_dirty; try done; unfold set_cr0_efer; repeat case_match; try done; group_frame. }
  split.
  - by rewrite <- (eo_asid _ _ He).
  - by rewrite <- (eo_cpu _ _ He).
  - intros k Hk Hcl. destruct (eo_clean _ _ He k Hk) as [H1 H2]; [exact Hcl|].
    split; [done|]. rewrite <- H2. apply is_clean_mark_dirty in Hcl as [_ Hne]; [|done..].
    unfold clean_group. replace (k =? VMCB_CR) with false by lia. done.
Qed.

Lemma edit_set_cr4 (npt : bool) (sh : Z) (fba : bool) (c : Z) (v : vmrun_vcpu) :
  edit_ok v (vmrun_set_cr4 npt sh fba c v).2.
Proof using Type.
  unfold vmrun_set_cr4, vmrun_flush_tlb. destruct (truth _); [done|].
  apply edit_mark_dirty; try done; repeat case_match; try done; group_frame.
Qed.

Lemma edit_set_efer (npt : bool) (e : Z) (v : vmrun_vcpu) : edit_ok v (vmrun_set_efer npt e v).
Proof using Type. apply edit_mark_dirty; try done. group_frame. Qed.

Lemma edit_set_idt (dt : desc_ptr) (v : vmrun_vcpu) : edit_ok v (vmrun_set_idt dt v).
Proof using Type. apply edit_mark_dirty; try done. group_frame. Qed.

Lemma edit_set_gdt (dt : desc_ptr) (v : vmrun_vcpu) : edit_ok v (vmrun_set_gdt dt v).
Proof using Type. apply edit_mark_dirty; try done. group_frame. Qed.

Lemma edit_set_segment (var : vmrun_segment) (seg : vcpu_sreg) (v : vmrun_vcpu) :
  edit_ok v (vmrun_set_segment var seg v).
Proof using Type.
  apply edit_mark_dirty; try done; destruct seg; try done; group_frame.
Qed.

Lemma edit_set_rflags (f : Z) (v : vmrun_vcpu) : edit_ok v (vmrun_set_rflags f v).
Proof using Type. apply edit_upd_save_free. intros k. by unfold clean_group. Qed.

Lemma edit_flush_tlb (fba : bool) (v : vmrun_vcpu) : edit_ok v (vmrun_flush_tlb fba v).
Proof using Type.
  unfold vmrun_flush_tlb. destruct fba; [|by apply edit_outside].
  split; [done..|]. intros k Hk Hc. split; [done|]. by unfold clean_group.
Qed.

Lemma edit_set_regs (r : vmrun_regs) (v : vmrun_vcpu) :
  edit_ok v (vmrun_vcpu_ioctl_set_regs r v).2.
Proof using Type.
  cbn [vmrun_vcpu_ioctl_set_regs snd]. etransitivity; [|apply edit_set_rflags]. by apply edit_outside.
Qed.

(** Initialisation marks everything dirty. *)
Lemma edit_all_dirty (v v' : vmrun_vcpu) :
  (ctl v').(asid) = (ctl v).(asid) → v'.(cpu) = v.(cpu) → (ctl v').(clean) = 0 → edit_ok v v'.
Proof using Type.
  intros Ha Hc H0. split; [done..|]. intros k Hk. by rewrite H0, Z.bits_0.
Qed.

Lemma edit_vcpu_reset (io : Z) (mr : vmrun_vcpu → vmrun_mmu) (v : vmrun_vcpu) :
  edit_ok v (vmrun_vcpu_reset io mr v).
Proof using Type. by apply edit_all_dirty. Qed.

Lemma edit_set_sregs (npt : bool) (sh : Z) (fba : bool) (mr : vmrun_vcpu → vmrun_mmu)
    (s : vmrun_sregs) (v : vmrun_vcpu) :
  edit_ok v (vmrun_vcpu_ioctl_set_sregs npt sh fba mr s v).2.
Proof using Type.
  unfold vmrun_vcpu_ioctl_set_sregs. cbv zeta. cbn [snd].
  etransitivity; [|apply edit_clr_intercept].
  do 8 (etransitivity; [|apply edit_set_segment]).
  match goal with |- edit_ok _ (if ?b then put mmu _ ?x else _) =>
    transitivity x; [|destruct b; [by apply edit_outside|done]] end.
  etransitivity; [|apply edit_set_cr4].
  match goal with |- edit_ok _ (put cr0 _ ?x) => transitivity x; [|by apply edit_outside] end.
  etransitivity; [|apply edit_set_cr0].
  etransitivity; [|apply edit_set_efer].
  match goal with |- edit_ok _ (put cr8 _ (put regs_avail _ (put cr3 _ (put cr2 _ ?x)))) =>
    transitivity x; [|by apply edit_outside] end.
  etransitivity; [|apply edit_set_gdt]. apply edit_set_idt.
Qed.

Lemma edit_handle_exit (npt : bool) (v v' : vmrun_vcpu) (r : Z) :
  vmrun_vcpu_handle_exit npt v = Some (r, v') → edit_ok v v'.
Proof using Type.
  unfold vmrun_vcpu_handle_exit. set (w := if npt then _ else _).
  assert (Hw : vcpu_vmcb w = vcpu_vmcb v ∧ cpu w = cpu v)
    by (subst w; destruct npt, (negb _); done).
  destruct Hw as [Hw Hc].
  destruct (_ =? u32 _); [intros [= <- <-]; by apply edit_outside|].
  unfold vmrun_exit_handlers, cpuid_interception, vmmcall_interception.
  repeat case_match; try (intros [= <- <-]; by apply edit_outside).
  all: simplify_eq; unfold intr_interception, nmi_interception, vmrun_rip_read;
       try (intros [= <- <-]; by apply edit_outside).
  all: destruct (vmrun_register_read _ _); cbn; [|done]; intros [= <- <-]; by apply edit_outside.
Qed.
End Edits.

(* ------------------------------------------------------------------ *)
(** ** The machine *)

(** What the ioctls, the exit path and the MMU do to a loaded VCPU. *)
Inductive vcpu_edit `{X86, Svm} : vmrun_vcpu → vmrun_vcpu → Prop :=
| ed_set_regs r v : vcpu_edit v (vmrun_vcpu_ioctl_set_regs r v).2
| ed_set_sregs npt sh fba mr s v : vcpu_edit v (vmrun_vcpu_ioctl_set_sregs npt sh fba mr s v).2
| ed_set_cr0 npt c v : vcpu_edit v (vmrun_set_cr0 npt c v)
| ed_set_cr4 npt sh fba c v : vcpu_edit v (vmrun_set_cr4 npt sh fba c v).2
| ed_set_efer npt e v : vcpu_edit v (vmrun_set_efer npt e v)
| ed_flush_tlb fba v : vcpu_edit v (vmrun_flush_tlb fba v)
| ed_reset io mr v : vcpu_edit v (vmrun_vcpu_reset io mr v)
| ed_handle_exit npt r v v' :
    vmrun_vcpu_handle_exit npt v = Some (r, v') → vcpu_edit v v'
| ed_mmu m v : vcpu_edit v (v <| mmu := m |>).

(** [sys_loaded]: the physical CPU a VCPU is loaded on.  Ghost state:
    [sys_tlb]: per CPU and ASID, the VCPU whose translations the TLB may
    hold; [sys_cached]: the control block as a CPU left it at a VCPU's last
    exit. *)
Record sys := {
  sys_vcpus : gmap Z vmrun_vcpu;
  sys_cpus : gmap Z vmrun_cpu_data;
  sys_loaded : gmap Z Z;
  sys_tlb : gmap (Z * Z) Z;
  sys_cached : gmap (Z * Z) vmcb
}.
#[export] Instance eta_sys : Eta sys := λ r,
  {| sys_vcpus := r.(sys_vcpus); sys_cpus := r.(sys_cpus); sys_loaded := r.(sys_loaded);
     sys_tlb := r.(sys_tlb); sys_cached := r.(sys_cached) |}.

(** The TLB of CPU [c] after VMRUN of VCPU [i]: TLB_CONTROL_FLUSH_ALL_ASID
    empties it first. *)
Definition tlb_after_run `{X86} (c i : Z) (v : vmrun_vcpu) (t : gmap (Z * Z) Z) : gmap (Z * Z) Z :=
  <[(c, (ctl v).(asid)) := i]>
    (if (ctl v).(tlb_ctl) =? TLB_CONTROL_FLUSH_ALL_ASID
     then filter (λ '((c', _), _), c' ≠ c) t else t).

(** Counters are far from wrapping around. *)
Definition counter_bound : Z := 2 ^ 63.

Inductive sys_step `{X86, Svm} : sys → sys → Prop :=
| st_load s i c v hs :
    (* vmrun_vcpu_load, or vmrun_sched_in on the CPU the thread resumes on *)
    s.(sys_vcpus) !! i = Some v → is_Some (s.(sys_cpus) !! c) → 0 <= c →
    sys_step s (s <| sys_vcpus ::= <[i := vmrun_svm_vcpu_load c hs v]> |>
                  <| sys_loaded ::= <[i := c]> |>)
| st_put s i v :
    s.(sys_vcpus) !! i = Some v →
    sys_step s (s <| sys_vcpus ::= <[i := vmrun_vcpu_put v]> |> <| sys_loaded ::= delete i |>)
| st_edit s i c v v' :
    s.(sys_vcpus) !! i = Some v → s.(sys_loaded) !! i = Some c →
    vcpu_edit v v' → v.(asid_generation) ≠ counter_bound →
    sys_step s (s <| sys_vcpus ::= <[i := v']> |>)
| st_run s i c v d hw (rs : run_state) :
    s.(sys_vcpus) !! i = Some v → s.(sys_loaded) !! i = Some c → s.(sys_cpus) !! c = Some d →
    d.(cd_asid_generation) + 1 < counter_bound →
    rs.(vc) = v → rs.(cd) = d →
    let v1 := (vcpu_run_pre v d).1 in
    sys_step s (s <| sys_vcpus ::= <[i := (vmrun_vcpu_run hw rs).(vc)]> |>
                  <| sys_cpus ::= <[c := (vmrun_vcpu_run hw rs).(cd)]> |>
                  <| sys_tlb ::= tlb_after_run c i v1 |>
                  <| sys_cached ::= <[(c, i) := (vmrun_vcpu_run hw rs).(vc).(vcpu_vmcb)]> |>).

(** A machine before any VCPU has been loaded: the ASID counters as
    [vmrun_cpu_enable_nolock] leaves them, the VCPUs as [vmrun_vcpu_create]
    does. *)
Record sys_init (s : sys) : Prop := {
  si_cpus : map_Forall (λ _ d, d.(cd_asid_generation) = 1 ∧ 1 <= d.(max_asid) < 2 ^ 32 - 1 ∧
                               d.(next_asid) = d.(max_asid) + 1) s.(sys_cpus);
  si_vcpus : map_Forall (λ _ v, v.(cpu) = -1 ∧ (ctl v).(clean) = 0) s.(sys_vcpus);
  si_loaded : s.(sys_loaded) = ∅;
  si_tlb : s.(sys_tlb) = ∅
}.

(** ** The invariant *)

Record cpu_inv (d : vmrun_cpu_data) : Prop := {
  ci_gen : 1 <= d.(cd_asid_generation) < counter_bound;
  ci_max : 1 <= d.(max_asid) < 2 ^ 32 - 1;
  ci_next : 1 <= d.(next_asid) <= d.(max_asid) + 1
}.

(** A VCPU loaded on CPU [c]: its generation is not ahead, and while it is
    current its ASID is its own; what it marks clean is cached. *)
Record loaded_inv (s : sys) (i c : Z) (v : vmrun_vcpu) (d : vmrun_cpu_data) : Prop := {
  li_gen : 0 <= v.(asid_generation) <= d.(cd_asid_generation) ∨
           counter_bound <= v.(asid_generation) < 2 ^ 64;
  li_asid : v.(asid_generation) = d.(cd_asid_generation) →
            1 <= (ctl v).(asid) < d.(next_asid) ∧
            ∀ w, s.(sys_tlb) !! (c, (ctl v).(asid)) = Some w → w = i;
  li_clean : ∀ k, 0 <= k → is_clean v k = true →
             k ≠ VMCB_INTR ∧ k ≠ VMCB_CR2 ∧
             ∃ b, s.(sys_cached) !! (c, i) = Some b ∧ clean_group k b = clean_group k v.(vcpu_vmcb)
}.

Record sys_inv (s : sys) : Prop := {
  inv_cpus : map_Forall (λ _ d, cpu_inv d) s.(sys_cpus);
  inv_vcpus : map_Forall (λ _ v, v.(cpu) = -1) s.(sys_vcpus);
  inv_tlb : ∀ c a i, s.(sys_tlb) !! (c, a) = Some i →
            ∃ d, s.(sys_cpus) !! c = Some d ∧ 1 <= a < d.(next_asid);
  inv_loaded : ∀ i c, s.(sys_loaded) !! i = Some c →
               ∃ v d, s.(sys_vcpus) !! i = Some v ∧ s.(sys_cpus) !! c = Some d ∧
                      loaded_inv s i c v d;
  inv_distinct : ∀ i j c vi vj d, i ≠ j →
    s.(sys_loaded) !! i = Some c → s.(sys_loaded) !! j = Some c →
    s.(sys_vcpus) !! i = Some vi → s.(sys_vcpus) !! j = Some vj → s.(sys_cpus) !! c = Some d →
    vi.(asid_generation) = d.(cd_asid_generation) →
    vj.(asid_generation) = d.(cd_asid_generation) → (ctl vi).(asid) ≠ (ctl vj).(asid)
}.

Section Inv.
Context `{X : X86, V : Svm}.

Lemma vcpu_edit_ok (v v' : vmrun_vcpu) : vcpu_edit v v' → edit_ok v v'.
Proof using Type.
  destruct 1.
  - apply edit_set_regs.
  - apply edit_set_sregs.
  - apply edit_set_cr0.
  - apply edit_set_cr4.
  - apply edit_set_efer.
  - apply edit_flush_tlb.
  - apply edit_vcpu_reset.
  - by eapply edit_handle_exit.
  - by apply edit_outside.
Qed.

(** An edit keeps the generation, resets it, or counts it down once. *)
Lemma vcpu_edit_gen (v v' : vmrun_vcpu) :
  vcpu_edit v v' →
  v'.(asid_generation) = v.(asid_generation) ∨ v'.(asid_generation) = 0 ∨
  v'.(asid_generation) = u64 (v.(asid_generation) - 1).
Proof using Type.
  assert (Hcr0 : ∀ npt c w, asid_generation (vmrun_set_cr0 npt c w) = asid_generation w).
  { intros. unfold vmrun_set_cr0, vmrun_update_cr0_intercept, set_cr0_efer. by repeat case_match. }
  assert (Hcr4 : ∀ npt sh fba c w,
     asid_generation (vmrun_set_cr4 npt sh fba c w).2 = asid_generation w ∨
     asid_generation (vmrun_set_cr4 npt sh fba c w).2 = u64 (asid_generation w - 1)).
  { intros. unfold vmrun_set_cr4, vmrun_flush_tlb. destruct (truth _); [by left|].
    destruct (npt && _), fba; cbn; auto. }
  destruct 1 as [r v|npt sh fba mr s v|npt c v|npt sh fba c v|npt e v|fba v|io mr v|npt r v v' Hh|m v].
  - by left.
  - unfold vmrun_vcpu_ioctl_set_sregs. cbv zeta. cbn [snd].
    match goal with |- context [if ?b then put mmu _ ?x else _] =>
      assert (∀ c : bool, asid_generation (if c then put mmu (mr x) x else x) = asid_generation x)
        as Hif by (by intros []);
      specialize (Hif b); revert Hif; generalize (if b then put mmu (mr x) x else x) end.
    intros w Hw.
    match goal with |- asid_generation ?T = _ ∨ _ =>
      assert (HT : asid_generation T = asid_generation w) by reflexivity;
      rewrite HT, Hw; clear HT Hw w end.
    match goal with |- context [vmrun_set_cr4 npt sh fba ?c ?x] =>
      destruct (Hcr4 npt sh fba c x) as [->| ->]; cbn; rewrite Hcr0; cbn; auto end.
  - left. apply Hcr0.
  - destruct (Hcr4 npt sh fba c v); auto.
  - by left.
  - unfold vmrun_flush_tlb. destruct fba; cbn; auto.
  - by right; left.
  - left. revert Hh. unfold vmrun_vcpu_handle_exit. set (w := if npt then _ else _).
    assert (Hw : asid_generation w = asid_generation v) by (subst w; destruct npt, (negb _); done).
    destruct (_ =? u32 _); [by intros [= <- <-]|].
    unfold vmrun_exit_handlers, cpuid_interception, vmmcall_interception, vmrun_rip_read,
      intr_interception, nmi_interception.
    repeat case_match; simplify_eq; try (by intros [= <- <-]).
    all: destruct (vmrun_register_read _ _); cbn; [|done]; by intros [= <- <-].
  - by left.
Qed.

(** The effect of the entry path on ASIDs. *)
Inductive asid_outcome (v : vmrun_vcpu) (d : vmrun_cpu_data) (v1 : vmrun_vcpu) (d1 : vmrun_cpu_data) : Prop :=
| ao_keep :
    v.(asid_generation) = d.(cd_asid_generation) →
    d1 = d → v1.(asid_generation) = v.(asid_generation) → (ctl v1).(asid) = (ctl v).(asid) →
    asid_outcome v d v1 d1
| ao_next :
    v.(asid_generation) ≠ d.(cd_asid_generation) → d.(next_asid) <= d.(max_asid) →
    d1 = d <| next_asid := d.(next_asid) + 1 |> →
    v1.(asid_generation) = d.(cd_asid_generation) → (ctl v1).(asid) = d.(next_asid) →
    asid_outcome v d v1 d1
| ao_recycle :
    v.(asid_generation) ≠ d.(cd_asid_generation) → d.(max_asid) < d.(next_asid) →
    d1 = d <| cd_asid_generation := d.(cd_asid_generation) + 1 |> <| next_asid := 2 |> →
    v1.(asid_generation) = d.(cd_asid_generation) + 1 → (ctl v1).(asid) = 1 →
    (ctl v1).(tlb_ctl) = TLB_CONTROL_FLUSH_ALL_ASID →
    asid_outcome v d v1 d1.

Lemma run_pre_asid (v : vmrun_vcpu) (d : vmrun_cpu_data) :
  cpu_inv d → d.(cd_asid_generation) + 1 < counter_bound →
  asid_outcome v d (vcpu_run_pre v d).1 (vcpu_run_pre v d).2.
Proof using Type.
  intros [Hg Hm Hn] Hb. unfold vcpu_run_pre. cbn zeta.
  unfold counter_bound in *. change (asid_generation (upd_save _ v)) with (asid_generation v).
  destruct (Z.eqb_spec (asid_generation v) (cd_asid_generation d)); cbn [negb].
  - by apply ao_keep.
  - unfold vmrun_new_asid. rewrite Z.gtb_ltb.
    destruct (Z.ltb_spec (max_asid d) (next_asid d)); cbn.
    + apply ao_recycle; try done.
      * change (u32 (1 + 1)) with 2. rewrite wrap_id; [done|]. split; lia.
      * apply wrap_id. split; lia.
    + apply ao_next; try done. rewrite wrap_id; [done|]. split; lia.
Qed.

(** The world switch after entry keeps ASID and generation, and leaves the
    groups of the control block the guest's exit produced. *)
Lemma run_asid (hw : hw_guest) (rs : run_state) :
  let v1 := (vcpu_run_pre rs.(vc) rs.(cd)).1 in
  let d1 := (vcpu_run_pre rs.(vc) rs.(cd)).2 in
  let s' := vmrun_vcpu_run hw rs in
  (ctl s'.(vc)).(asid) = (ctl v1).(asid) ∧ s'.(vc).(asid_generation) = v1.(asid_generation) ∧
  s'.(vc).(cpu) = v1.(cpu) ∧
  s'.(cd).(cd_asid_generation) = d1.(cd_asid_generation) ∧ s'.(cd).(max_asid) = d1.(max_asid) ∧
  s'.(cd).(next_asid) = d1.(next_asid) ∧
  (ctl s'.(vc)).(clean) = Z.land (BIT VMCB_DIRTY_MAX - 1) (not32 VMCB_ALWAYS_DIRTY_MASK).
Proof using Type.
  cbv zeta. unfold vmrun_vcpu_run. destruct (vcpu_run_pre (vc rs) (cd rs)) as [v d]. cbn [fst snd].
  set (x := hw (vcpu_vmcb v) (get_reg v <$> switched_regs)). cbn [vc cd].
  destruct (run_post_frame (apply_exit x v)) as (Hp & _ & Hc).
  destruct (apply_exit_frame x v) as (_ & Hc' & Ha & _).
  split_and!;
    [exact (eq_trans (f_equal asid Hc) (f_equal asid Hc'))
    |exact (eq_trans (f_equal asid_generation Hp) (f_equal asid_generation Ha))
    |exact (eq_trans (f_equal cpu Hp) (f_equal cpu Ha))|done..|exact (f_equal clean Hc)].
Qed.

(** Up to VMRUN, a group that stays marked clean is unchanged, but for the two
    that are never marked clean. *)
Lemma run_pre_clean (v : vmrun_vcpu) (d : vmrun_cpu_data) (k : Z) :
  0 <= k → is_clean (vcpu_run_pre v d).1 k = true →
  is_clean v k = true ∧
  (k ≠ VMCB_INTR → k ≠ VMCB_CR2 →
   clean_group k (vcpu_run_pre v d).1.(vcpu_vmcb) = clean_group k v.(vcpu_vmcb)).
Proof using Type.
  intros Hk. unfold vcpu_run_pre. cbn zeta.
  change (asid_generation (upd_save _ v)) with (asid_generation v).
  destruct (negb _).
  - set (w := upd_save _ v). destruct (vmrun_new_asid w d) as [v1 d1] eqn:E. cbn [fst].
    intros Hcl. assert (Hcl1 : is_clean v1 k = true) by exact Hcl.
    replace v1 with (vmrun_new_asid w d).1 in Hcl1 by (by rewrite E).
    assert (Hna : is_clean w k = true ∧ k ≠ VMCB_ASID ∧
                  (k ≠ VMCB_ASID → clean_group k v1.(vcpu_vmcb) = clean_group k w.(vcpu_vmcb))).
    { unfold vmrun_new_asid in Hcl1, E.
      destruct (_ >? _); apply is_clean_mark_dirty in Hcl1 as [H1 H2]; try done;
        (split_and!; [exact H1|done|]); injection E as <- <-; intros Hne; unfold clean_group; cbn -[Z.eqb];
        replace (k =? VMCB_ASID) with false by lia; done. }
    destruct Hna as (H1 & H2 & H3). split; [exact H1|]. intros Hni Hn2. specialize (H3 H2).
    transitivity (clean_group k (vcpu_vmcb v1)); [|rewrite H3]; unfold clean_group; cbn -[Z.eqb];
      replace (k =? VMCB_INTR) with false by lia; replace (k =? VMCB_CR2) with false by lia; done.
  - cbn [fst]. intros Hcl. split; [exact Hcl|]. intros Hni Hn2. unfold clean_group; cbn -[Z.eqb].
    replace (k =? VMCB_INTR) with false by lia; replace (k =? VMCB_CR2) with false by lia; done.
Qed.

Lemma run_pre_cpu (v : vmrun_vcpu) (d : vmrun_cpu_data) : (vcpu_run_pre v d).1.(cpu) = v.(cpu).
Proof using Type.
  unfold vcpu_run_pre, vmrun_new_asid. destruct (negb _); [destruct (_ >? _)|]; done.
Qed.

Lemma sys_inv_init (s : sys) : sys_init s → sys_inv s.
Proof using Type.
  intros [Hc Hv Hl Ht]. split; rewrite ?Hl, ?Ht.
  - intros c d (Hg & Hm & Hn)%Hc. split; unfold counter_bound; lia.
  - intros i v (Hcpu & _)%Hv. done.
  - intros c a i. by rewrite lookup_empty.
  - intros i c. by rewrite lookup_empty.
  - intros i j c vi vj d _. by rewrite lookup_empty.
Qed.

(** The parts of [loaded_inv] that do not depend on the VCPU's own ASID. *)
Lemma loaded_inv_fresh (s : sys) (i c : Z) (v : vmrun_vcpu) (d : vmrun_cpu_data) :
  cpu_inv d → v.(asid_generation) = 0 → (ctl v).(clean) = 0 → loaded_inv s i c v d.
Proof using Type.
  intros [Hg _ _] H0 Hcl. split; rewrite ?H0.
  - lia.
  - lia.
  - intros k Hk. by rewrite Hcl, Z.bits_0.
Qed.

Lemma loaded_inv_ext (s s' : sys) (i c : Z) (v : vmrun_vcpu) (d : vmrun_cpu_data) :
  s'.(sys_tlb) = s.(sys_tlb) → s'.(sys_cached) = s.(sys_cached) →
  loaded_inv s i c v d → loaded_inv s' i c v d.
Proof using Type. intros Ht Hc [H1 H2 H3]. split; rewrite ?Ht, ?Hc; done. Qed.

Lemma sys_inv_load (s : sys) (i c : Z) (v : vmrun_vcpu) (hs : host_segs) :
  sys_inv s → s.(sys_vcpus) !! i = Some v → is_Some (s.(sys_cpus) !! c) → 0 <= c →
  sys_inv (s <| sys_vcpus ::= <[i := vmrun_svm_vcpu_load c hs v]> |>
             <| sys_loaded ::= <[i := c]> |>).
Proof using Type.
  intros [Hcpus Hvs Htlb Hld Hdi] Hv [d Hd] Hc.
  assert (Hcpu := Hvs i v Hv). cbn in Hcpu. set (v' := vmrun_svm_vcpu_load c hs v).
  assert (Hv' : v'.(asid_generation) = 0 ∧ (ctl v').(clean) = 0 ∧ v'.(cpu) = -1).
  { subst v'. unfold vmrun_svm_vcpu_load. replace (c =? cpu v) with false by lia. done. }
  destruct Hv' as (Hg & Hcl & Hcp). clearbody v'. split; cbn.
  - done.
  - by apply map_Forall_insert_2.
  - done.
  - intros j cj. rewrite lookup_insert_Some. intros [[<- <-]|[Hne Hj]].
    + exists v', d. rewrite lookup_insert_eq. split_and!; [done..|]. apply loaded_inv_fresh; eauto.
    + destruct (Hld j cj Hj) as (w & dj & ? & ? & ?). exists w, dj. rewrite lookup_insert_ne by done.
      split_and!; [done..|]. by apply (loaded_inv_ext s).
  - intros j k cj vj vk dj Hne. rewrite !lookup_insert_Some.
    intros Hlj Hlk Hvj Hvk Hdj Hgj Hgk. pose proof (ci_gen _ (Hcpus _ _ Hdj)).
    destruct Hvj as [[<- <-]|[? ?]]; [lia|]. destruct Hvk as [[<- <-]|[? ?]]; [lia|].
    destruct Hlj as [[? _]|[? ?]]; [done|]. destruct Hlk as [[? _]|[? ?]]; [done|]. by apply (Hdi j k cj vj vk dj).
Qed.

Lemma sys_inv_put (s : sys) (i : Z) (v : vmrun_vcpu) :
  sys_inv s → s.(sys_vcpus) !! i = Some v →
  sys_inv (s <| sys_vcpus ::= <[i := vmrun_vcpu_put v]> |> <| sys_loaded ::= delete i |>).
Proof using Type.
  intros [Hcpus Hvs Htlb Hld Hdi] Hv. split; cbn; try done.
  - apply map_Forall_insert_2; [|done]. by apply (Hvs i v).
  - intros j cj. rewrite lookup_delete_Some. intros [Hne Hj].
    destruct (Hld j cj Hj) as (w & dj & ? & ? & ?). exists w, dj. rewrite lookup_insert_ne by done.
    split_and!; [done..|]. by apply (loaded_inv_ext s).
  - intros j k cj vj vk dj Hne. rewrite !lookup_delete_Some. intros [? ?] [? ?].
    rewrite !lookup_insert_ne by done. by apply (Hdi j k cj vj vk dj).
Qed.

(** A stale generation stays stale under an edit. *)
Lemma edit_gen_current (g g' G : Z) :
  1 <= G < counter_bound → 0 <= g <= G ∨ counter_bound <= g < 2 ^ 64 → g ≠ counter_bound →
  g' = g ∨ g' = 0 ∨ g' = u64 (g - 1) →
  (0 <= g' <= G ∨ counter_bound <= g' < 2 ^ 64) ∧ (g' = G → g' = g).
Proof using Type.
  unfold counter_bound. intros HG Hg Hne [->|[->| ->]]; [lia..|].
  destruct (Z.eq_dec g 0) as [->|]; [change (u64 (0 - 1)) with (2 ^ 64 - 1); lia|].
  rewrite wrap_id by (split; lia). lia.
Qed.

Lemma sys_inv_edit (s : sys) (i c : Z) (v v' : vmrun_vcpu) :
  sys_inv s → s.(sys_vcpus) !! i = Some v → s.(sys_loaded) !! i = Some c →
  vcpu_edit v v' → v.(asid_generation) ≠ counter_bound →
  sys_inv (s <| sys_vcpus ::= <[i := v']> |>).
Proof using Type.
  intros [Hcpus Hvs Htlb Hld Hdi] Hv Hl Hed Hb.
  pose proof (vcpu_edit_ok v v' Hed) as [Ha Hc Hk].
  destruct (Hld i c Hl) as (? & d & Hv1 & Hd & [Lg La Lc]). rewrite Hv in Hv1. injection Hv1 as <-.
  pose proof (Hcpus _ _ Hd) as [Cg _ _].
  destruct (edit_gen_current _ _ _ Cg Lg Hb (vcpu_edit_gen v v' Hed)) as [Hg1 Hg2].
  split; cbn; try done.
  - apply map_Forall_insert_2; [|done]. rewrite Hc. by apply (Hvs i v).
  - intros j cj Hj. destruct (decide (i = j)) as [<-|Hne].
    + rewrite Hl in Hj. injection Hj as <-. exists v', d. rewrite lookup_insert_eq.
      split_and!; [done..|]. split; cbn; [done| |].
      * intros E. rewrite Ha. apply La. rewrite <- (Hg2 E). done.
      * intros k Hk0 Hcl. destruct (Hk k Hk0 Hcl) as [Hcl' ->]. by apply Lc.
    + destruct (Hld j cj Hj) as (w & dj & ? & ? & ?). exists w, dj. rewrite lookup_insert_ne by done.
      split_and!; [done..|]. by apply (loaded_inv_ext s).
  - intros j k cj vj vk dj Hne Hlj Hlk. rewrite !lookup_insert_Some. intros Hvj Hvk Hdj Hgj Hgk.
    destruct Hvj as [[<- <-]|[? ?]], Hvk as [[<- <-]|[? ?]]; try done.
    + rewrite Hl in Hlj. injection Hlj as <-. rewrite Hd in Hdj. injection Hdj as <-.
      rewrite Ha. apply (Hdi i k c v vk d); try done. rewrite <- (Hg2 Hgj). done.
    + rewrite Hl in Hlk. injection Hlk as <-. rewrite Hd in Hdj. injection Hdj as <-.
      rewrite Ha. apply (Hdi j i c vj v d); try done. rewrite <- (Hg2 Hgk). done.
    + by apply (Hdi j k cj vj vk dj).
Qed.

Lemma tlb_after_run_other (c i c' a : Z) (v : vmrun_vcpu) (t : gmap (Z * Z) Z) :
  c' ≠ c → tlb_after_run c i v t !! (c', a) = t !! (c', a).
Proof using Type.
  intros Hne. unfold tlb_after_run. rewrite lookup_insert_ne by congruence.
  case_match; [|done]. destruct (t !! (c', a)) as [w|] eqn:E.
  - apply map_lookup_filter_Some_2; done.
  - apply map_lookup_filter_None_2. by left.
Qed.

Lemma tlb_after_run_same (c i a w : Z) (v : vmrun_vcpu) (t : gmap (Z * Z) Z) :
  a ≠ (ctl v).(asid) → tlb_after_run c i v t !! (c, a) = Some w →
  (ctl v).(tlb_ctl) ≠ TLB_CONTROL_FLUSH_ALL_ASID ∧ t !! (c, a) = Some w.
Proof using Type.
  intros Hne. unfold tlb_after_run. rewrite lookup_insert_ne by congruence.
  destruct (Z.eqb_spec (tlb_ctl (ctl v)) TLB_CONTROL_FLUSH_ALL_ASID); [|done].
  rewrite map_lookup_filter_Some. by intros [_ ?].
Qed.

Lemma clean_after_run (k : Z) :
  0 <= k → Z.testbit (Z.land (BIT VMCB_DIRTY_MAX - 1) (not32 VMCB_ALWAYS_DIRTY_MASK)) k = true →
  k ≠ VMCB_INTR ∧ k ≠ VMCB_CR2.
Proof using Type.
  intros Hk H. split; intros ->; by vm_compute in H.
Qed.

(** The CPU's data after the entry path, from the three outcomes. *)
Lemma outcome_cpu_inv (v v1 : vmrun_vcpu) (d d1 : vmrun_cpu_data) :
  cpu_inv d → d.(cd_asid_generation) + 1 < counter_bound → asid_outcome v d v1 d1 →
  cpu_inv d1 ∧ v1.(asid_generation) = d1.(cd_asid_generation) ∧ d1.(max_asid) = d.(max_asid).
Proof using Type.
  intros [Hg Hm Hn] Hb. destruct 1; subst d1; (split_and!; [split| |]); cbn; try congruence; lia.
Qed.

(** What a run step does, with the hardware's part abstracted: [v1], [d1] are
    the VCPU and CPU data at VMRUN, [v2], [d2] those after the exit. *)
Record ran (v : vmrun_vcpu) (d : vmrun_cpu_data) (v1 : vmrun_vcpu) (d1 : vmrun_cpu_data)
    (v2 : vmrun_vcpu) (d2 : vmrun_cpu_data) : Prop := {
  ra_outcome : asid_outcome v d v1 d1;
  ra_asid : (ctl v2).(asid) = (ctl v1).(asid);
  ra_gen : v2.(asid_generation) = v1.(asid_generation);
  ra_cpu : v2.(cpu) = v.(cpu);
  ra_d_gen : d2.(cd_asid_generation) = d1.(cd_asid_generation);
  ra_d_max : d2.(max_asid) = d1.(max_asid);
  ra_d_next : d2.(next_asid) = d1.(next_asid);
  ra_clean : (ctl v2).(clean) = Z.land (BIT VMCB_DIRTY_MAX - 1) (not32 VMCB_ALWAYS_DIRTY_MASK)
}.

(** Another VCPU on the same CPU, current before and after the run: its ASID
    is below the next one and differs from the one run. *)
Lemma ran_other (v : vmrun_vcpu) (d : vmrun_cpu_data) (v1 : vmrun_vcpu) (d1 : vmrun_cpu_data)
    (g a : Z) :
  cpu_inv d → asid_outcome v d v1 d1 →
  (0 <= g <= d.(cd_asid_generation) ∨ counter_bound <= g < 2 ^ 64) →
  d.(cd_asid_generation) + 1 < counter_bound →
  (g = d.(cd_asid_generation) → 1 <= a < d.(next_asid)) →
  (v.(asid_generation) = d.(cd_asid_generation) → g = d.(cd_asid_generation) → (ctl v).(asid) ≠ a) →
  g = d1.(cd_asid_generation) →
  g = d.(cd_asid_generation) ∧ 1 <= a < d1.(next_asid) ∧ (ctl v1).(asid) ≠ a.
Proof using Type.
  intros [Cg Cm Cn] Ho Hg Hb Ha Hd. destruct Ho as [? -> ? Has|? ? -> ? Has|? ? -> ? Has ?];
    cbn; intros Hcur; [rewrite Has; auto| |unfold counter_bound in *; lia].
  specialize (Ha Hcur). split_and!; [done|lia..].
Qed.

End Inv.

(** ** The run step *)
Section Ran.
Context `{X : X86, V : Svm}.
Context (s : sys) (i c : Z) (v v1 v2 : vmrun_vcpu) (d d1 d2 : vmrun_cpu_data).
Context (Hinv : sys_inv s) (Hv : s.(sys_vcpus) !! i = Some v) (Hl : s.(sys_loaded) !! i = Some c)
  (Hd : s.(sys_cpus) !! c = Some d) (Hb : d.(cd_asid_generation) + 1 < counter_bound)
  (Hran : ran v d v1 d1 v2 d2).

Local Abbreviation s' :=
  (s <| sys_vcpus ::= <[i := v2]> |> <| sys_cpus ::= <[c := d2]> |>
     <| sys_tlb ::= tlb_after_run c i v1 |>
     <| sys_cached ::= <[(c, i) := v2.(vcpu_vmcb)]> |>).

Lemma ran_cpu_inv : cpu_inv d.
Proof using Hinv Hd. exact (inv_cpus _ Hinv _ _ Hd). Qed.

Lemma ran_loaded_inv (j : Z) (w : vmrun_vcpu) :
  s.(sys_vcpus) !! j = Some w → s.(sys_loaded) !! j = Some c → loaded_inv s j c w d.
Proof using Hinv Hd.
  intros Hw Hlj. destruct (inv_loaded _ Hinv j c Hlj) as (? & ? & E1 & E2 & H).
  rewrite Hw in E1. injection E1 as <-. rewrite Hd in E2. by injection E2 as <-.
Qed.

Lemma ran_own : 1 <= (ctl v1).(asid) < d1.(next_asid).
Proof using Hinv Hv Hl Hd Hran.
  destruct ran_cpu_inv as [Cg Cm Cn]. destruct (ran_loaded_inv i v Hv Hl) as [_ La _].
  destruct (ra_outcome _ _ _ _ _ _ Hran) as [E -> ? ->|? ? -> ? ->|? ? -> ? -> ?]; cbn; lia.
Qed.

Lemma ran_tlb_old (a w : Z) :
  a ≠ (ctl v1).(asid) → tlb_after_run c i v1 s.(sys_tlb) !! (c, a) = Some w →
  s.(sys_tlb) !! (c, a) = Some w ∧ 1 <= a < d1.(next_asid).
Proof using Hinv Hd Hran.
  intros Hne Hw. destruct (tlb_after_run_same _ _ _ _ _ _ Hne Hw) as [Hnf Ht].
  split; [done|]. destruct (inv_tlb _ Hinv c a w Ht) as (d' & Hd' & Ha).
  rewrite Hd in Hd'. injection Hd' as <-.
  destruct (ra_outcome _ _ _ _ _ _ Hran) as [? -> ? ?|? ? -> ? ?|? ? -> ? ? ?]; cbn; [done|lia|done].
Qed.

Lemma ran_others (j : Z) (w : vmrun_vcpu) :
  i ≠ j → s.(sys_vcpus) !! j = Some w → s.(sys_loaded) !! j = Some c →
  w.(asid_generation) = d1.(cd_asid_generation) →
  w.(asid_generation) = d.(cd_asid_generation) ∧
  1 <= (ctl w).(asid) < d1.(next_asid) ∧ (ctl v1).(asid) ≠ (ctl w).(asid).
Proof using Hinv Hv Hl Hd Hb Hran.
  intros Hne Hw Hlj Hcur. destruct (ran_loaded_inv j w Hw Hlj) as [Lg La _].
  apply (ran_other v d v1 d1 _ _ ran_cpu_inv (ra_outcome _ _ _ _ _ _ Hran) Lg Hb); [|..|done].
  - intros E. by apply La.
  - intros E1 E2. by apply (inv_distinct _ Hinv i j c v w d).
Qed.

Lemma ran_gen : v2.(asid_generation) = d2.(cd_asid_generation) ∧
                d.(cd_asid_generation) <= d2.(cd_asid_generation) ∧ cpu_inv d2.
Proof using Hinv Hd Hb Hran.
  destruct Hran as [Ho Ra Rg Rc Rdg Rdm Rdn Rcl].
  destruct (outcome_cpu_inv v v1 d d1 ran_cpu_inv Hb Ho) as ([] & Hg1 & Hm1).
  split_and!; [congruence| |split; rewrite ?Rdg, ?Rdm, ?Rdn; done].
  rewrite Rdg. destruct Ho as [? -> ? ?|? ? -> ? ?|? ? -> ? ? ?]; cbn; lia.
Qed.

Lemma ran_loaded_self : loaded_inv s' i c v2 d2.
Proof using Hinv Hv Hl Hd Hb Hran.
  destruct ran_gen as (Hg & _ & Hci). pose proof ran_own as Hown.
  destruct Hran as [Ho Ra Rg Rc Rdg Rdm Rdn Rcl]. split; cbn.
  - left. pose proof (ci_gen _ Hci). lia.
  - intros _. rewrite Ra, Rdn. split; [done|]. unfold tlb_after_run.
    rewrite lookup_insert_eq. by intros w [= <-].
  - intros k Hk. rewrite Rcl. intros Hcl. destruct (clean_after_run k Hk Hcl).
    split_and!; [done..|]. exists (vcpu_vmcb v2). by rewrite lookup_insert_eq.
Qed.

Lemma ran_loaded_other (j cj : Z) (w : vmrun_vcpu) (dj : vmrun_cpu_data) :
  i ≠ j → s.(sys_vcpus) !! j = Some w → s.(sys_loaded) !! j = Some cj →
  s'.(sys_cpus) !! cj = Some dj → loaded_inv s' j cj w dj.
Proof using Hinv Hv Hl Hd Hb Hran.
  intros Hne Hw Hj. cbn. destruct (inv_loaded _ Hinv j cj Hj) as (? & d0 & E1 & E2 & [Lg La Lc]).
  rewrite Hw in E1. injection E1 as <-. destruct ran_gen as (_ & Hmono & _).
  assert (Hcached : ∀ k, 0 <= k → is_clean w k = true →
     k ≠ VMCB_INTR ∧ k ≠ VMCB_CR2 ∧ ∃ b, sys_cached s' !! (cj, j) = Some b ∧
     clean_group k b = clean_group k (vcpu_vmcb w)).
  { cbn. intros k Hk Hcl. rewrite lookup_insert_ne by congruence. by apply Lc. }
  destruct (decide (cj = c)) as [->|Hnc].
  - rewrite lookup_insert_eq. intros [= <-]. rewrite Hd in E2. injection E2 as <-.
    split; [lia| |exact Hcached]. rewrite (ra_d_gen _ _ _ _ _ _ Hran), (ra_d_next _ _ _ _ _ _ Hran).
    intros Hcur. destruct (ran_others j w Hne Hw Hj Hcur) as (Hcd & Hr & Hna). split; [done|].
    intros w' Hw'. apply ran_tlb_old in Hw' as [Hw' _]; [|done]. by apply (proj2 (La Hcd)).
  - rewrite lookup_insert_ne by done. rewrite E2. intros [= <-]. split; [done| |exact Hcached].
    intros Hcur. destruct (La Hcur) as [Hr Hu]. split; [done|]. intros w'. cbn.
    rewrite tlb_after_run_other by done. apply Hu.
Qed.

Lemma ran_distinct (j k cj : Z) (vj vk : vmrun_vcpu) (dj : vmrun_cpu_data) :
  j ≠ k → s.(sys_loaded) !! j = Some cj → s.(sys_loaded) !! k = Some cj →
  <[i := v2]> s.(sys_vcpus) !! j = Some vj → <[i := v2]> s.(sys_vcpus) !! k = Some vk →
  <[c := d2]> s.(sys_cpus) !! cj = Some dj →
  vj.(asid_generation) = dj.(cd_asid_generation) →
  vk.(asid_generation) = dj.(cd_asid_generation) → (ctl vj).(asid) ≠ (ctl vk).(asid).
Proof using Hinv Hv Hl Hd Hb Hran.
  pose proof (ra_d_gen _ _ _ _ _ _ Hran) as Rdg. pose proof (ra_asid _ _ _ _ _ _ Hran) as Ra.
  intros Hne Hlj Hlk. rewrite !lookup_insert_Some.
  intros [[<- <-]|[Hj Hvj]] [[<- <-]|[Hk Hvk]]; try done.
  - rewrite Hl in Hlj. injection Hlj as <-. intros [[_ <-]|[? _]]; [|done]. rewrite Rdg, Ra.
    intros _ Hgk. by apply (ran_others k vk).
  - rewrite Hl in Hlk. injection Hlk as <-. intros [[_ <-]|[? _]]; [|done]. rewrite Rdg, Ra.
    intros Hgj _. apply not_eq_sym. by apply (ran_others j vj).
  - intros [[<- <-]|[? Hdj]]; [|by apply (inv_distinct _ Hinv j k cj)].
    rewrite Rdg. intros Hgj Hgk. apply (inv_distinct _ Hinv j k c vj vk d); try done.
    + by apply (ran_others j vj).
    + by apply (ran_others k vk).
Qed.

Lemma sys_inv_ran : sys_inv s'.
Proof using Hinv Hv Hl Hd Hb Hran.
  destruct ran_gen as (Hg2 & _ & Hci2). split; cbn.
  - apply map_Forall_insert_2; [done|apply Hinv].
  - apply map_Forall_insert_2; [|apply Hinv]. rewrite (ra_cpu _ _ _ _ _ _ Hran).
    by apply (inv_vcpus _ Hinv i v).
  - intros c' a w. destruct (decide (c' = c)) as [->|Hne].
    + intros Hw. exists d2. rewrite lookup_insert_eq, (ra_d_next _ _ _ _ _ _ Hran). split; [done|].
      destruct (decide (a = (ctl v1).(asid))) as [->|Hna]; [apply ran_own|].
      by apply (ran_tlb_old a w).
    + rewrite tlb_after_run_other, lookup_insert_ne by done. apply (inv_tlb _ Hinv).
  - intros j cj Hj. destruct (decide (i = j)) as [<-|Hne].
    + rewrite Hl in Hj. injection Hj as <-. exists v2, d2. rewrite !lookup_insert_eq.
      split_and!; [done..|]. apply ran_loaded_self.
    + destruct (inv_loaded _ Hinv j cj Hj) as (w & dj & Hw & Hdj & _).
      exists w, (if decide (cj = c) then d2 else dj). rewrite lookup_insert_ne by done.
      assert (<[c:=d2]> (sys_cpus s) !! cj = Some (if decide (cj = c) then d2 else dj)) as Hcj.
      { case_decide; [subst; by rewrite lookup_insert_eq|by rewrite lookup_insert_ne]. }
      split_and!; [done..|]. by apply ran_loaded_other.
  - apply ran_distinct.
Qed.
End Ran.

(** ** Reachable machines *)
Section Reachable.
Context `{X : X86, V : Svm}.

Lemma sys_inv_step (s s' : sys) : sys_inv s → sys_step s s' → sys_inv s'.
Proof using Type.
  intros Hinv Hs.
  destruct Hs as [s i c v hs Hv Hc Hc0|s i v Hv|s i c v v' Hv Hl Hed Hb|s i c v d hw rs Hv Hl Hd Hb Hrv Hrd v1].
  - by apply sys_inv_load.
  - by apply sys_inv_put.
  - by apply sys_inv_edit with c v.
  - subst v d v1. apply (sys_inv_ran s i c (vc rs) _ _ (cd rs) (vcpu_run_pre (vc rs) (cd rs)).2 _);
      try done.
    destruct (run_asid hw rs) as (? & ? & Hcpu & ? & ? & ? & ?). rewrite run_pre_cpu in Hcpu.
    split; try done. apply run_pre_asid; [|done]. by apply (inv_cpus _ Hinv _ _ Hd).
Qed.

Lemma sys_inv_reachable (s0 s : sys) : sys_init s0 → rtc sys_step s0 s → sys_inv s.
Proof using Type.
  intros H0%sys_inv_init Hs. induction Hs as [|s1 s2 s3 Hstep _ IH]; [done|].
  apply IH. by eapply sys_inv_step.
Qed.
End Reachable.

(** C1: no VCPU ever runs on another VCPU's translations.  In every machine
    reached by loading, rescheduling, editing, running and putting VCPUs on
    any number of physical CPUs, when a VCPU executes VMRUN its ASID is between
    1 and the CPU's maximum (0 is the host's), and any translations the CPU's
    TLB may hold under that ASID are the VCPU's own, unless VMRUN flushes all
    ASIDs first. *)
Theorem asid_isolation `{X : X86, V : Svm} (s0 s : sys) (i c : Z) (v : vmrun_vcpu)
    (d : vmrun_cpu_data) :
  sys_init s0 → rtc sys_step s0 s →
  s.(sys_vcpus) !! i = Some v → s.(sys_loaded) !! i = Some c → s.(sys_cpus) !! c = Some d →
  d.(cd_asid_generation) + 1 < counter_bound →
  let v1 := (vcpu_run_pre v d).1 in
  1 <= (ctl v1).(asid) <= d.(max_asid) ∧
  ((ctl v1).(tlb_ctl) = TLB_CONTROL_FLUSH_ALL_ASID ∨
   ∀ w, s.(sys_tlb) !! (c, (ctl v1).(asid)) = Some w → w = i).
Proof.
  intros H0 Hs Hv Hl Hd Hb v1. pose proof (sys_inv_reachable s0 s H0 Hs) as Hinv.
  pose proof (inv_cpus _ Hinv _ _ Hd) as Hci. pose proof Hci as [Cg Cm Cn].
  destruct (ran_loaded_inv s c d Hinv Hd i v Hv Hl) as [Lg La _].
  subst v1. destruct (run_pre_asid v d Hci Hb) as [E _ _ ->|_ ? _ _ ->|_ ? _ _ -> ->].
  - destruct (La E) as [Hr Hu]. split; [lia|by right].
  - split; [lia|]. right. intros w Hw. destruct (inv_tlb _ Hinv _ _ _ Hw) as (d' & Hd' & Ha).
    rewrite Hd in Hd'. injection Hd' as <-. lia.
  - split; [lia|by left].
Qed.

(** C2: clean bits are sound.  In every reachable machine, when a VCPU
    executes VMRUN, each group of VMCB fields whose clean bit is set holds
    exactly the values that this CPU left there at the VCPU's last exit, so a
    processor that uses its cached copy computes with the current state. *)
Theorem clean_bits_sound `{X : X86, V : Svm} (s0 s : sys) (i c : Z) (v : vmrun_vcpu)
    (d : vmrun_cpu_data) (k : Z) :
  sys_init s0 → rtc sys_step s0 s →
  s.(sys_vcpus) !! i = Some v → s.(sys_loaded) !! i = Some c → s.(sys_cpus) !! c = Some d →
  0 <= k →
  let v1 := (vcpu_run_pre v d).1 in
  is_clean v1 k = true →
  ∃ b, s.(sys_cached) !! (c, i) = Some b ∧ clean_group k b = clean_group k v1.(vcpu_vmcb).
Proof.
  intros H0 Hs Hv Hl Hd Hk v1. pose proof (sys_inv_reachable s0 s H0 Hs) as Hinv.
  destruct (ran_loaded_inv s c d Hinv Hd i v Hv Hl) as [_ _ Lc]. intros Hcl.
  destruct (run_pre_clean v d k Hk Hcl) as [Hcl0 Hg].
  destruct (Lc k Hk Hcl0) as (Hi & H2 & b & Hb & Hgb). exists b. split; [done|].
  rewrite Hgb. symmetry. by apply Hg.
Qed.

(** ** An example machine: one CPU, one VCPU *)

Definition example_cpu : vmrun_cpu_data :=
  {| cd_cpu := 0; cd_asid_generation := 1; max_asid := 7; next_asid := 8; tss_type := 0 |}.

Definition example_sys : sys :=
  {| sys_vcpus := {[ 7 := ready_vcpu ]}; sys_cpus := {[ 0 := example_cpu ]};
     sys_loaded := ∅; sys_tlb := ∅; sys_cached := ∅ |}.

Lemma example_sys_init : sys_init example_sys.
Proof.
  split; [| |done..]; apply map_Forall_singleton; [split; [done|cbn; lia]|done].
Qed.

Definition example_segs : host_segs := {| hs_fs := 0; hs_gs := 0; hs_ldt := 0; hs_gs_base := 0 |}.

Definition example_loaded : sys :=
  example_sys <| sys_vcpus ::= <[7 := vmrun_svm_vcpu_load 0 example_segs ready_vcpu]> |>
              <| sys_loaded ::= <[7 := 0]> |>.

Lemma example_load_step : sys_step (H := amd64) (H0 := amd_svm) example_sys example_loaded.
Proof. apply st_load; [done|by eexists|done]. Qed.

Lemma asid_isolation_witness :
  let X := amd64 in let V := amd_svm in
  1 <= (ctl (vcpu_run_pre (vmrun_svm_vcpu_load 0 example_segs ready_vcpu) example_cpu).1).(asid) <= 7.
Proof.
  intros X V.
  destruct (asid_isolation (X := amd64) (V := amd_svm) example_sys example_loaded 7 0
              (vmrun_svm_vcpu_load 0 example_segs ready_vcpu) example_cpu) as [H _].
  - apply example_sys_init.
  - eapply rtc_l; [apply example_load_step|apply rtc_refl].
  - reflexivity.
  - reflexivity.
  - reflexivity.
  - unfold counter_bound. cbn. lia.
  - exact H.
Defined.

Definition example_run_state : run_state :=
  ready_state <| vc := vmrun_svm_vcpu_load 0 example_segs ready_vcpu |> <| cd := example_cpu |>.

Definition example_ran : sys :=
  let X := amd64 in let V := amd_svm in
  let s := example_loaded in
  let rs := vmrun_vcpu_run vmmcall_guest example_run_state in
  s <| sys_vcpus ::= <[7 := rs.(vc)]> |> <| sys_cpus ::= <[0 := rs.(cd)]> |>
    <| sys_tlb ::= tlb_after_run 0 7 (vcpu_run_pre example_run_state.(vc) example_cpu).1 |>
    <| sys_cached ::= <[(0, 7) := rs.(vc).(vcpu_vmcb)]> |>.

Lemma example_run_step : sys_step (H := amd64) (H0 := amd_svm) example_loaded example_ran.
Proof.
  apply (st_run (H := amd64) (H0 := amd_svm) example_loaded 7 0 example_run_state.(vc) example_cpu
           vmmcall_guest example_run_state); try done.
Qed.

Lemma clean_bits_sound_witness :
  let X := amd64 in let V := amd_svm in
  ∃ b, example_ran.(sys_cached) !! (0, 7) = Some b ∧ b.(save).(sa_cr0) = 0.
Proof.
  destruct (clean_bits_sound (X := amd64) (V := amd_svm) example_sys example_ran 7 0
              (vmrun_vcpu_run (X := amd64) (V := amd_svm) vmmcall_guest example_run_state).(vc)
              (vmrun_vcpu_run (X := amd64) (V := amd_svm) vmmcall_guest example_run_state).(cd) VMCB_CR)
    as (b & Hb & Hg).
  - apply example_sys_init.
  - eapply rtc_l; [apply example_load_step|]. eapply rtc_l; [apply example_run_step|apply rtc_refl].
  - reflexivity.
  - reflexivity.
  - reflexivity.
  - done.
  - reflexivity.
  - exists b. split; [exact Hb|]. by injection Hg as ->.
Defined.
