(* ===== verification/Memslots.v ===== *)
(** * Memory slots

    The sorted slot array of kernel/vmrun.c: [struct vmrun_memslots], its
    allocation, the lookup by id, and the in-place re-sorting
    [vmrun_update_memslots].

    The arrays are lists.  A read or write out of range cannot be modelled by
    the total accessors ([!!!] reads the null slot, [<[_:=_]>] does nothing),
    so the invariant below keeps every index in range.  Pointers are integers,
    0 is NULL. *)

From S2P Require Import Prelude.

(* The slot records occur under [fmap] by their projections. *)
Unset Primitive Projections.

Definition VMRUN_USER_MEM_SLOTS : Z := 509.
Definition VMRUN_PRIVATE_MEM_SLOTS : Z := 3.
Definition VMRUN_MEM_SLOTS_NUM : Z := VMRUN_USER_MEM_SLOTS + VMRUN_PRIVATE_MEM_SLOTS.
Definition VMRUN_NR_PAGE_SIZES : Z := 3.
Definition VMRUN_ADDRESS_SPACE_NUM : Z := 2.
Definition VMRUN_PAGE_TRACK_MAX : Z := 1.
Definition VMRUN_MEMSLOT_INVALID : Z := BIT 16.

(** [struct vmrun_arch_memory_slot]: pointers to the per-level arrays. *)
Record vmrun_arch_memory_slot := {
  rmap : list Z;
  lpage_info : list Z;
  gfn_track : list Z
}.
#[export] Instance eta_vmrun_arch_memory_slot : Eta vmrun_arch_memory_slot := λ r,
  {| rmap := r.(rmap); lpage_info := r.(lpage_info); gfn_track := r.(gfn_track) |}.
Record vmrun_memory_slot := {
  base_gfn : Z;
  npages : Z;
  dirty_bitmap : Z;
  arch : vmrun_arch_memory_slot;
  userspace_addr : Z;
  flags : Z;
  id : Z
}.
#[export] Instance eta_vmrun_memory_slot : Eta vmrun_memory_slot := λ r,
  {| base_gfn := r.(base_gfn); npages := r.(npages); dirty_bitmap := r.(dirty_bitmap);
     arch := r.(arch); userspace_addr := r.(userspace_addr); flags := r.(flags); id := r.(id) |}.
Record vmrun_memslots := {
  generation : Z;
  memslots : list vmrun_memory_slot;
  id_to_index : list Z;
  used_slots : Z
}.
#[export] Instance eta_vmrun_memslots : Eta vmrun_memslots := λ r,
  {| generation := r.(generation); memslots := r.(memslots); id_to_index := r.(id_to_index);
     used_slots := r.(used_slots) |}.

#[export] Instance arch_memory_slot_eq_dec : EqDecision vmrun_arch_memory_slot.
Proof. solve_decision. Defined.
#[export] Instance memory_slot_eq_dec : EqDecision vmrun_memory_slot.
Proof. solve_decision. Defined.

Definition null_arch : vmrun_arch_memory_slot :=
  {| rmap := [0; 0; 0]; lpage_info := [0; 0]; gfn_track := [0] |}.
Definition null_slot : vmrun_memory_slot :=
  {| base_gfn := 0; npages := 0; dirty_bitmap := 0; arch := null_arch; userspace_addr := 0;
     flags := 0; id := 0 |}.
#[export] Instance memory_slot_inhabited : Inhabited vmrun_memory_slot := populate null_slot.

(** ** Operations *)

(** [vmrun_alloc_memslots], when the allocation succeeds. *)
Definition vmrun_alloc_memslots : vmrun_memslots :=
  {| generation := 0;
     memslots := (λ i, null_slot <| id := i |>) <$> seqZ 0 VMRUN_MEM_SLOTS_NUM;
     id_to_index := seqZ 0 VMRUN_MEM_SLOTS_NUM;
     used_slots := 0 |}.

(** Index of a slot id, as a list position. *)
Definition slot_index (slots : vmrun_memslots) (i : Z) : nat :=
  Z.to_nat (slots.(id_to_index) !!! Z.to_nat i).

Definition id_to_memslot (slots : vmrun_memslots) (i : Z) : vmrun_memory_slot :=
  slots.(memslots) !!! slot_index slots i.

(** The first [while] loop of [vmrun_update_memslots]; [fuel] bounds the
    number of iterations. *)
Fixpoint shift_down (fuel : nat) (new : vmrun_memory_slot) (i : nat)
    (mslots : list vmrun_memory_slot) (ix : list Z)
    : nat * list vmrun_memory_slot * list Z :=
  match fuel with
  | O => (i, mslots, ix)
  | S fuel =>
      if (Z.of_nat i <? VMRUN_MEM_SLOTS_NUM - 1)
         && (new.(base_gfn) <=? (mslots !!! S i).(base_gfn)) then
        let next := mslots !!! S i in
        if next.(npages) =? 0 then (i, mslots, ix)
        else shift_down fuel new (S i) (<[i := next]> mslots)
               (<[Z.to_nat next.(id) := Z.of_nat i]> ix)
      else (i, mslots, ix)
  end.

(** The second [while] loop. *)
Fixpoint shift_up (new : vmrun_memory_slot) (i : nat)
    (mslots : list vmrun_memory_slot) (ix : list Z)
    : nat * list vmrun_memory_slot * list Z :=
  match i with
  | O => (i, mslots, ix)
  | S j =>
      let prev := mslots !!! j in
      if new.(base_gfn) >=? prev.(base_gfn) then
        shift_up new j (<[i := prev]> mslots) (<[Z.to_nat prev.(id) := Z.of_nat i]> ix)
      else (i, mslots, ix)
  end.

Definition update_used_slots (slots : vmrun_memslots) (new : vmrun_memory_slot) (i : nat) : Z :=
  let cur := slots.(memslots) !!! i in
  if new.(npages) =? 0 then
    if negb (cur.(npages) =? 0) then slots.(used_slots) - 1 else slots.(used_slots)
  else
    if cur.(npages) =? 0 then slots.(used_slots) + 1 else slots.(used_slots).

Definition vmrun_update_memslots (slots : vmrun_memslots) (new : vmrun_memory_slot)
    : vmrun_memslots :=
  let i := slot_index slots new.(id) in
  let used := update_used_slots slots new i in
  let '(i, ms, ix) :=
    shift_down (Z.to_nat VMRUN_MEM_SLOTS_NUM) new i slots.(memslots) slots.(id_to_index) in
  let '(i, ms, ix) := if negb (new.(npages) =? 0) then shift_up new i ms ix else (i, ms, ix) in
  {| generation := slots.(generation);
     memslots := <[i := new]> ms;
     id_to_index := <[Z.to_nat new.(id) := Z.of_nat i]> ix;
     used_slots := used |}.

(** [vmrun_for_each_memslot]: the slots up to the first empty one. *)
Fixpoint each_memslot (ms : list vmrun_memory_slot) : list vmrun_memory_slot :=
  match ms with
  | [] => []
  | s :: ms => if s.(npages) =? 0 then [] else s :: each_memslot ms
  end.

(* ------------------------------------------------------------------ *)
(** ** Well-formed slot arrays *)

Definition used (s : vmrun_memory_slot) : Prop := s.(npages) ≠ 0 ∧ 0 <= s.(base_gfn).
Definition empty_slot (s : vmrun_memory_slot) : Prop := s.(npages) = 0 ∧ s.(base_gfn) = 0.
Definition base_ge (s t : vmrun_memory_slot) : Prop := t.(base_gfn) <= s.(base_gfn).

(** [id_to_index] gives the position of every slot. *)
Definition index_ok (ms : list vmrun_memory_slot) (ix : list Z) : Prop :=
  ∀ k s, ms !! k = Some s → ix !! Z.to_nat s.(id) = Some (Z.of_nat k).

(** The used slots come first, by descending base; the empty ones follow; every
    id occurs once and [id_to_index] finds it. *)
Record memslots_wf (slots : vmrun_memslots) : Prop := {
  wf_split : ∃ U E, slots.(memslots) = U ++ E ∧ Forall used U ∧ Forall empty_slot E ∧
                    StronglySorted base_ge U ∧ Z.of_nat (length U) = slots.(used_slots);
  wf_ids : (id <$> slots.(memslots)) ≡ₚ seqZ 0 VMRUN_MEM_SLOTS_NUM;
  wf_index : index_ok slots.(memslots) slots.(id_to_index);
  wf_index_len : Z.of_nat (length slots.(id_to_index)) = VMRUN_MEM_SLOTS_NUM
}.
