(* ===== verification/MemslotsProps.v ===== *)
(** * The slot array stays sorted and indexed

    [vmrun_update_memslots] moves a hole through the array.  A position of
    the hole is a pair of lists, the slots before and after it; the two loops
    move slots across it without reordering them. *)

From S2P Require Import Prelude.
From S2P Require Import Memslots.

(** The array with a hole at position [i]: [L] before, [R] after, whatever is
    in the hole; the index is right for all the others. *)
Record hole (L R : list vmrun_memory_slot) (i : nat) (ms : list vmrun_memory_slot) (ix : list Z)
    : Prop := {
  ho_ms : ∃ y, ms = L ++ y :: R;
  ho_i : i = length L;
  ho_len : Z.of_nat (length ms) = VMRUN_MEM_SLOTS_NUM;
  ho_ix_len : Z.of_nat (length ix) = VMRUN_MEM_SLOTS_NUM;
  ho_left : ∀ k s, L !! k = Some s → ix !! Z.to_nat s.(id) = Some (Z.of_nat k);
  ho_right : ∀ k s, R !! k = Some s → ix !! Z.to_nat s.(id) = Some (Z.of_nat (S (length L) + k));
  ho_nodup : NoDup (id <$> L ++ R);
  ho_range : Forall (λ s, 0 <= s.(id) < VMRUN_MEM_SLOTS_NUM) (L ++ R)
}.

Lemma id_ne (l1 l2 : list vmrun_memory_slot) (s : vmrun_memory_slot) (k : nat) t :
  NoDup (id <$> l1 ++ s :: l2) → Forall (λ s, 0 <= s.(id)) (l1 ++ s :: l2) →
  l1 !! k = Some t ∨ l2 !! k = Some t → Z.to_nat t.(id) ≠ Z.to_nat s.(id).
Proof.
  intros Hnd Hr Ht Heq. rewrite fmap_app, fmap_cons, NoDup_app, NoDup_cons in Hnd.
  destruct Hnd as (_ & Hd & Hn & _). rewrite Forall_app, Forall_cons in Hr.
  destruct Hr as (H1 & Hs & H2).
  assert (0 <= id t) by
    (destruct Ht as [Ht|Ht]; [exact (Forall_lookup_1 _ _ _ _ H1 Ht)|exact (Forall_lookup_1 _ _ _ _ H2 Ht)]).
  assert (id t = id s) as E by lia. destruct Ht as [Ht%list_elem_of_lookup_2|Ht%list_elem_of_lookup_2].
  - apply (Hd (id t)); [by apply list_elem_of_fmap_2|]. rewrite E. set_solver.
  - apply Hn. rewrite <- E. by apply list_elem_of_fmap_2.
Qed.

(** Moving the slot after the hole to before it. *)
Lemma hole_down (L R : list vmrun_memory_slot) (x : vmrun_memory_slot) (i : nat)
    (ms : list vmrun_memory_slot) (ix : list Z) :
  hole L (x :: R) i ms ix →
  hole (L ++ [x]) R (S i) (<[i := x]> ms) (<[Z.to_nat x.(id) := Z.of_nat i]> ix).
Proof.
  intros [[y Hms] Hi Hlen Hix Hl Hr Hnd Hra]. subst i ms.
  assert (Hra' : Forall (λ s, 0 <= id s) (L ++ x :: R)) by (eapply Forall_impl; [done|]; cbn; lia).
  assert (Hx : 0 <= id x < VMRUN_MEM_SLOTS_NUM)
    by (rewrite Forall_app, Forall_cons in Hra; tauto).
  split.
  - exists x. rewrite insert_app_r_alt, Nat.sub_diag by lia. cbn. by rewrite <- app_assoc.
  - rewrite length_app. cbn. lia.
  - by rewrite length_insert.
  - by rewrite length_insert.
  - intros k s Hk. apply lookup_app_Some in Hk as [Hk|[Hge Hk]].
    + rewrite list_lookup_insert_ne by (apply not_eq_sym, (id_ne L R x k s); auto). by apply Hl.
    + assert (k = length L) as -> by (apply lookup_lt_Some in Hk; cbn in Hk; lia).
      rewrite Nat.sub_diag in Hk. injection Hk as <-.
      rewrite list_lookup_insert_eq by lia. done.
  - intros k s Hk.
    rewrite list_lookup_insert_ne by (apply not_eq_sym, (id_ne L R x k s); auto).
    rewrite (Hr (S k) s Hk). rewrite length_app. cbn. do 2 f_equal. lia.
  - by rewrite <- app_assoc.
  - by rewrite <- app_assoc.
Qed.

(** Moving the slot before the hole to after it. *)
Lemma hole_up (L R : list vmrun_memory_slot) (x : vmrun_memory_slot) (i : nat)
    (ms : list vmrun_memory_slot) (ix : list Z) :
  hole (L ++ [x]) R (S i) ms ix →
  hole L (x :: R) i (<[S i := x]> ms) (<[Z.to_nat x.(id) := Z.of_nat (S i)]> ix).
Proof.
  intros [[y Hms] Hi Hlen Hix Hl Hr Hnd Hra]. rewrite length_app in Hi. cbn in Hi.
  assert (i = length L) as -> by lia. subst ms.
  rewrite <- app_assoc in Hnd, Hra. cbn in Hnd, Hra.
  assert (Hra' : Forall (λ s, 0 <= id s) (L ++ x :: R)) by (eapply Forall_impl; [done|]; cbn; lia).
  assert (Hx : 0 <= id x < VMRUN_MEM_SLOTS_NUM)
    by (rewrite Forall_app, Forall_cons in Hra; tauto).
  split; try done.
  - exists x. rewrite <- app_assoc. cbn. rewrite insert_app_r_alt by lia.
    replace (S (length L) - length L)%nat with 1%nat by lia. done.
  - by rewrite length_insert.
  - by rewrite length_insert.
  - intros k s Hk. rewrite list_lookup_insert_ne by (apply not_eq_sym, (id_ne L R x k s); auto).
    apply Hl. by apply lookup_app_l_Some.
  - intros [|k] s Hk; cbn in Hk.
    + injection Hk as <-. rewrite list_lookup_insert_eq by lia. f_equal. lia.
    + rewrite list_lookup_insert_ne by (apply not_eq_sym, (id_ne L R x k s); auto).
      rewrite (Hr k s Hk), length_app. cbn. do 2 f_equal. lia.
Qed.

Lemma hole_next (L R : list vmrun_memory_slot) (x : vmrun_memory_slot) (i : nat)
    (ms : list vmrun_memory_slot) (ix : list Z) :
  hole L (x :: R) i ms ix → ms !!! S i = x ∧ Z.of_nat i < VMRUN_MEM_SLOTS_NUM - 1.
Proof.
  intros [[y ->] -> Hlen _ _ _ _ _]. split.
  - rewrite lookup_total_app_r by lia. by replace (S (length L) - length L)%nat with 1%nat by lia.
  - rewrite length_app in Hlen. cbn in Hlen. lia.
Qed.

Lemma hole_prev (L R : list vmrun_memory_slot) (x : vmrun_memory_slot) (i : nat)
    (ms : list vmrun_memory_slot) (ix : list Z) :
  hole (L ++ [x]) R (S i) ms ix → ms !!! i = x.
Proof.
  intros [[y ->] Hi _ _ _ _ _ _]. rewrite length_app in Hi. cbn in Hi.
  assert (i = length L) as -> by lia. rewrite <- app_assoc, lookup_total_app_r by lia.
  by rewrite Nat.sub_diag.
Qed.

(** ** The two loops *)

Lemma shift_down_spec (fuel : nat) (new : vmrun_memory_slot) (L R : list vmrun_memory_slot)
    (i : nat) (ms : list vmrun_memory_slot) (ix : list Z) :
  hole L R i ms ix → (length R <= fuel)%nat →
  ∃ M R' i' ms' ix', R = M ++ R' ∧ shift_down fuel new i ms ix = (i', ms', ix') ∧
    hole (L ++ M) R' i' ms' ix' ∧
    Forall (λ x, x.(npages) ≠ 0 ∧ new.(base_gfn) <= x.(base_gfn)) M ∧
    match R' with [] => True | x :: _ => x.(npages) = 0 ∨ x.(base_gfn) < new.(base_gfn) end.
Proof.
  revert L R i ms ix. induction fuel as [|fuel IH]; intros L R i ms ix Hh Hf.
  - destruct R; [|cbn in Hf; lia]. exists [], [], i, ms, ix. rewrite (app_nil_r L).
    split_and!; first [done|by apply Forall_nil_2|auto].
  - destruct R as [|x R].
    { exists [], [], i, ms, ix. rewrite (app_nil_r L). split_and!; first [done|by apply Forall_nil_2|auto]. cbn.
      pose proof Hh as [[y ->] -> Hlen _ _ _ _ _]. rewrite length_app in Hlen. cbn in Hlen.
      replace (Z.of_nat (length L) <? VMRUN_MEM_SLOTS_NUM - 1) with false by lia. done. }
    destruct (hole_next _ _ _ _ _ _ Hh) as [Hx Hi]. cbn [shift_down]. rewrite Hx.
    replace (Z.of_nat i <? VMRUN_MEM_SLOTS_NUM - 1) with true by lia. cbn [andb].
    destruct (Z.leb_spec (base_gfn new) (base_gfn x)); [destruct (Z.eqb_spec (npages x) 0)|].
    + exists [], (x :: R), i, ms, ix. rewrite (app_nil_r L).
      split_and!; first [done|by apply Forall_nil_2|auto].
    + destruct (IH (L ++ [x]) R (S i) _ _ (hole_down _ _ _ _ _ _ Hh) ltac:(cbn in Hf; lia))
        as (M & R' & i' & ms' & ix' & -> & He & Hh' & HM & HR').
      exists (x :: M), R', i', ms', ix'. rewrite <- app_assoc in Hh'. auto 10.
    + exists [], (x :: R), i, ms, ix. rewrite (app_nil_r L).
      split_and!; first [done|by apply Forall_nil_2|auto].
Qed.

Lemma shift_up_spec (new : vmrun_memory_slot) (L R : list vmrun_memory_slot)
    (i : nat) (ms : list vmrun_memory_slot) (ix : list Z) :
  hole L R i ms ix →
  ∃ L' M i' ms' ix', L = L' ++ M ∧ shift_up new i ms ix = (i', ms', ix') ∧
    hole L' (M ++ R) i' ms' ix' ∧
    Forall (λ x, x.(base_gfn) <= new.(base_gfn)) M ∧
    match last L' with None => True | Some x => new.(base_gfn) < x.(base_gfn) end.
Proof.
  revert R i ms ix. induction L as [|x L IH] using rev_ind; intros R i ms ix Hh.
  - exists [], [], i, ms, ix. destruct Hh as [? -> ? ? ? ? ? ?]. by split_and!.
  - destruct i as [|i]; [pose proof (ho_i _ _ _ _ _ Hh) as E; rewrite length_app in E; cbn in E; lia|].
    pose proof (hole_prev _ _ _ _ _ _ Hh) as Hx. cbn [shift_up]. rewrite Hx, Z.geb_leb.
    destruct (Z.leb_spec (base_gfn x) (base_gfn new)).
    + destruct (IH _ _ _ _ (hole_up _ _ _ _ _ _ Hh)) as (L' & M & i' & ms' & ix' & -> & He & Hh' & HM & HL').
      exists L', (M ++ [x]), i', ms', ix'. rewrite <- !app_assoc. split_and!; try done.
      apply Forall_app. auto.
    + exists (L ++ [x]), [], (S i), ms, ix. rewrite app_nil_r, last_snoc.
      split_and!; first [done|by apply Forall_nil_2|auto].
Qed.

(** ** Opening and closing the hole *)

Lemma wf_length (slots : vmrun_memslots) :
  memslots_wf slots → Z.of_nat (length slots.(memslots)) = VMRUN_MEM_SLOTS_NUM.
Proof.
  intros Hwf. pose proof (Permutation_length (wf_ids _ Hwf)) as Hl.
  rewrite length_fmap, length_seqZ in Hl. unfold VMRUN_MEM_SLOTS_NUM, VMRUN_USER_MEM_SLOTS,
    VMRUN_PRIVATE_MEM_SLOTS in *. lia.
Qed.

Lemma wf_nodup (slots : vmrun_memslots) : memslots_wf slots → NoDup (id <$> slots.(memslots)).
Proof. intros Hwf. rewrite (wf_ids _ Hwf). apply NoDup_seqZ. Qed.

Lemma wf_range (slots : vmrun_memslots) :
  memslots_wf slots → Forall (λ s, 0 <= s.(id) < VMRUN_MEM_SLOTS_NUM) slots.(memslots).
Proof.
  intros Hwf. apply Forall_forall. intros s Hs.
  apply (list_elem_of_fmap_2 id) in Hs. rewrite (wf_ids _ Hwf), elem_of_seqZ in Hs. lia.
Qed.

(** The slot of an id, and the hole it leaves. *)
Lemma wf_hole (slots : vmrun_memslots) (i : Z) :
  memslots_wf slots → 0 <= i < VMRUN_MEM_SLOTS_NUM →
  ∃ L y R, slots.(memslots) = L ++ y :: R ∧ y.(id) = i ∧ id_to_memslot slots i = y ∧
           hole L R (slot_index slots i) slots.(memslots) slots.(id_to_index).
Proof.
  intros Hwf Hi. assert (Hin : i ∈ id <$> slots.(memslots))
    by (rewrite (wf_ids _ Hwf), elem_of_seqZ; lia).
  apply list_elem_of_fmap in Hin as (y & -> & [k Hk]%list_elem_of_lookup_1).
  pose proof (wf_index _ Hwf k y Hk) as Hix.
  assert (Hsi : slot_index slots (id y) = k)
    by (unfold slot_index; rewrite (list_lookup_total_correct _ _ _ Hix); lia).
  apply list_elem_of_split_length in Hk as (L & R & Hms & Hlen).
  exists L, y, R. split_and!; [done|done| |].
  - unfold id_to_memslot. rewrite Hsi, Hms, Hlen.
    rewrite lookup_total_app_r by lia. by rewrite Nat.sub_diag.
  - pose proof (wf_nodup _ Hwf) as Hnd. pose proof (wf_range _ Hwf) as Hra.
    pose proof (wf_index _ Hwf) as Hall. rewrite Hms in Hnd, Hra, Hall.
    rewrite fmap_app, fmap_cons in Hnd. rewrite Forall_app, Forall_cons in Hra.
    split.
    + by exists y.
    + congruence.
    + by apply wf_length.
    + by apply wf_index_len.
    + intros j s Hj. apply Hall. by apply lookup_app_l_Some.
    + intros j s Hj. apply Hall. rewrite lookup_app_r by lia.
      by replace (S (length L) + j - length L)%nat with (S j) by lia.
    + rewrite fmap_app. apply NoDup_app in Hnd as (? & Hd & [? ?]%NoDup_cons).
      apply NoDup_app. split_and!; [done|set_solver|done].
    + apply Forall_app. tauto.
Qed.

Lemma hole_fill (L R : list vmrun_memory_slot) (i : nat) (ms : list vmrun_memory_slot)
    (ix : list Z) (new : vmrun_memory_slot) :
  hole L R i ms ix → 0 <= new.(id) < VMRUN_MEM_SLOTS_NUM → new.(id) ∉ id <$> L ++ R →
  <[i := new]> ms = L ++ new :: R ∧
  index_ok (L ++ new :: R) (<[Z.to_nat new.(id) := Z.of_nat i]> ix) ∧
  Z.of_nat (length (<[Z.to_nat new.(id) := Z.of_nat i]> ix)) = VMRUN_MEM_SLOTS_NUM.
Proof.
  intros [[y ->] -> Hlen Hix Hl Hr Hnd Hra] Hid Hfresh. split_and!.
  - rewrite insert_app_r_alt by lia. by rewrite Nat.sub_diag.
  - assert (Hne : ∀ s, s ∈ L ++ R → Z.to_nat new.(id) ≠ Z.to_nat s.(id)).
    { intros s Hs E. apply Hfresh. rewrite Forall_forall in Hra. specialize (Hra s Hs).
      assert (id new = id s) as -> by lia. by apply list_elem_of_fmap_2. }
    intros k s Hk. apply lookup_app_Some in Hk as [Hk|[Hge Hk]].
    + rewrite list_lookup_insert_ne by (apply Hne, elem_of_app; left; by eapply list_elem_of_lookup_2).
      by apply Hl.
    + destruct (k - length L)%nat as [|j] eqn:E; cbn in Hk.
      * injection Hk as <-. rewrite list_lookup_insert_eq by lia. do 2 f_equal. lia.
      * rewrite list_lookup_insert_ne by (apply Hne, elem_of_app; right; by eapply list_elem_of_lookup_2).
        rewrite (Hr j s Hk). do 2 f_equal. lia.
  - by rewrite length_insert.
Qed.

(** ** Where the new slot goes *)

Lemma desc_app (U E : list vmrun_memory_slot) :
  Forall used U → Forall empty_slot E → StronglySorted base_ge U → StronglySorted base_ge (U ++ E).
Proof.
  intros HU HE HS. induction HS as [|x U HS IH Hx]; cbn.
  - induction HE as [|y E [_ Hy] HE IH]; constructor; [done|].
    eapply Forall_impl; [exact HE|]. intros z [_ Hz]. unfold base_ge. lia.
  - apply Forall_cons in HU as [[_ Hb] HU]. constructor; [by apply IH|].
    apply Forall_app. split; [done|]. eapply Forall_impl; [exact HE|].
    intros z [_ Hz]. unfold base_ge. lia.
Qed.

Lemma desc_app_inv (l1 l2 : list vmrun_memory_slot) :
  StronglySorted base_ge (l1 ++ l2) →
  StronglySorted base_ge l1 ∧ StronglySorted base_ge l2 ∧
  ∀ x y, x ∈ l1 → y ∈ l2 → base_ge x y.
Proof.
  induction l1 as [|x l1 IH]; cbn; intros HS; [split_and!; [constructor|done|set_solver]|].
  apply StronglySorted_inv in HS as [HS Hx]. destruct (IH HS) as (H1 & H2 & H3).
  apply Forall_app in Hx as [Hx1 Hx2]. rewrite Forall_forall in Hx2.
  split_and!; [by constructor|done|]. intros a b [->|Ha]%elem_of_cons Hb; auto.
Qed.

Lemma desc_remove (l1 l2 : list vmrun_memory_slot) (y : vmrun_memory_slot) :
  StronglySorted base_ge (l1 ++ y :: l2) → StronglySorted base_ge (l1 ++ l2).
Proof.
  induction l1 as [|x l1 IH]; cbn; intros HS; apply StronglySorted_inv in HS as [HS Hx]; [done|].
  constructor; [by apply IH|]. apply Forall_app in Hx as [? Hx]. apply Forall_cons in Hx as [_ ?].
  by apply Forall_app.
Qed.

(** Removing one slot from the array. *)
Lemma remove_split (U E L R : list vmrun_memory_slot) (y : vmrun_memory_slot) :
  U ++ E = L ++ y :: R → Forall used U → Forall empty_slot E →
  (∃ U2, U = L ++ y :: U2 ∧ R = U2 ++ E ∧ y.(npages) ≠ 0) ∨
  (∃ E1, L = U ++ E1 ∧ E = E1 ++ y :: R ∧ y.(npages) = 0).
Proof.
  intros Heq HU HE. apply app_eq_inv in Heq as [(k & -> & Hk)|(k & -> & Hk)].
  - destruct k as [|z k]; cbn in Hk.
    + right. exists []. rewrite !app_nil_r. rewrite <- Hk in HE.
      apply Forall_cons in HE as [[? _] _]. done.
    + left. injection Hk as <- ->. exists k. apply Forall_app in HU as [_ HU].
      apply Forall_cons in HU as [[? _] _]. done.
  - right. exists k. rewrite Hk in HE. apply Forall_app in HE as [_ HE].
    apply Forall_cons in HE as [[? _] _]. done.
Qed.

Lemma insert_position (U E L R : list vmrun_memory_slot) (new : vmrun_memory_slot) :
  L ++ R = U ++ E → Forall used U → Forall empty_slot E → StronglySorted base_ge U → used new →
  match last L with None => True | Some x => new.(base_gfn) < x.(base_gfn) end →
  match R with [] => True | x :: _ => x.(npages) = 0 ∨ x.(base_gfn) <= new.(base_gfn) end →
  ∃ k, U = L ++ k ∧ R = k ++ E ∧ StronglySorted base_ge (L ++ new :: k).
Proof.
  intros Heq HU HE HS [Hn Hb] HL HR.
  pose proof (desc_app U E HU HE HS) as HUE. rewrite <- Heq in HUE.
  destruct (desc_app_inv _ _ HUE) as (HSL & HSR & HLR).
  assert (HLall : ∀ x, x ∈ L → base_gfn new < base_gfn x).
  { intros x Hx. destruct L as [|z L'] using rev_ind; [set_solver|]. clear IHL'.
    rewrite last_snoc in HL. destruct (desc_app_inv _ _ HSL) as (_ & _ & H1).
    apply elem_of_app in Hx as [Hx|Hx%list_elem_of_singleton]; [|by subst].
    specialize (H1 x z Hx ltac:(set_solver)). unfold base_ge in H1. lia. }
  assert (HRall : ∀ x, x ∈ R → base_gfn x <= base_gfn new).
  { destruct R as [|z R']; [set_solver|]. intros x Hx.
    assert (Hz : base_gfn z <= base_gfn new).
    { destruct HR as [Hz|]; [|done]. assert (z ∈ U ++ E) as [Hu|He]%elem_of_app by (rewrite <- Heq; set_solver).
      - rewrite Forall_forall in HU. by destruct (HU z Hu).
      - rewrite Forall_forall in HE. destruct (HE z He). lia. }
    apply StronglySorted_inv in HSR as [_ Hf]. rewrite Forall_forall in Hf.
    apply elem_of_cons in Hx as [->|Hx]; [done|]. specialize (Hf x Hx). unfold base_ge in Hf. lia. }
  assert (Hk : ∃ k, U = L ++ k ∧ R = k ++ E).
  { apply app_eq_inv in Heq as [(k & -> & Hk)|(k & -> & Hk)]; [|by exists k].
    destruct k as [|z k]; [exists []; by rewrite !app_nil_r|]. exfalso.
    rewrite Hk in HE. apply Forall_cons in HE as [[_ Hz] _].
    specialize (HLall z ltac:(set_solver)). lia. }
  destruct Hk as (k & -> & ->). exists k. split_and!; [done..|].
  apply desc_app_inv in HS as (H1 & H2 & H3).
  clear HSL HSR HLR HUE Heq HL HR HU. induction L as [|z L IH]; cbn.
  - constructor; [done|]. apply Forall_forall. intros x Hx. apply HRall. set_solver.
  - apply StronglySorted_inv in H1 as [H1 Hz]. constructor.
    + apply IH; try done; intros; [apply H3|apply HLall]; set_solver.
    + apply Forall_app. split; [done|]. constructor.
      * specialize (HLall z ltac:(set_solver)). unfold base_ge. lia.
      * apply Forall_forall. intros x Hx. apply H3; set_solver.
Qed.

(** The loops on an array with a hole, for a used and for an empty new slot. *)
Lemma update_loops_used (new : vmrun_memory_slot) (U E L R : list vmrun_memory_slot)
    (i : nat) (ms : list vmrun_memory_slot) (ix : list Z) (fuel : nat) :
  hole L R i ms ix → (length R <= fuel)%nat → used new →
  L ++ R = U ++ E → Forall used U → Forall empty_slot E → StronglySorted base_ge U →
  ∃ i1 ms1 ix1 i2 ms2 ix2 L' R' k,
    shift_down fuel new i ms ix = (i1, ms1, ix1) ∧ shift_up new i1 ms1 ix1 = (i2, ms2, ix2) ∧
    hole L' R' i2 ms2 ix2 ∧ L' ++ R' = L ++ R ∧ U = L' ++ k ∧ R' = k ++ E ∧
    StronglySorted base_ge (L' ++ new :: k).
Proof.
  intros Hh Hf Hn Heq HU HE HS.
  destruct (shift_down_spec fuel new _ _ _ _ _ Hh Hf) as (M & R1 & i1 & ms1 & ix1 & -> & E1 & Hh1 & HM & HR1).
  destruct (shift_up_spec new _ _ _ _ _ Hh1) as (L' & M' & i2 & ms2 & ix2 & HL & E2 & Hh2 & HM' & HL').
  assert (Hsame : L' ++ M' ++ R1 = L ++ M ++ R1) by (by rewrite !app_assoc, HL).
  destruct (insert_position U E L' (M' ++ R1) new) as (k & HU' & HR' & HS'); try done.
  - by rewrite Hsame.
  - destruct M' as [|x M']; cbn; [destruct R1; [done|lia]|].
    right. by apply Forall_cons in HM' as [? _].
  - eexists i1, ms1, ix1, i2, ms2, ix2, L', (M' ++ R1), k. split_and!; done.
Qed.

Lemma update_loops_empty (new : vmrun_memory_slot) (U2 E L : list vmrun_memory_slot)
    (i : nat) (ms : list vmrun_memory_slot) (ix : list Z) (fuel : nat) :
  hole L (U2 ++ E) i ms ix → (length (U2 ++ E) <= fuel)%nat → new.(base_gfn) = 0 →
  Forall used U2 → Forall empty_slot E →
  ∃ i1 ms1 ix1, shift_down fuel new i ms ix = (i1, ms1, ix1) ∧ hole (L ++ U2) E i1 ms1 ix1.
Proof.
  intros Hh Hf Hn HU HE.
  destruct (shift_down_spec fuel new _ _ _ _ _ Hh Hf) as (M & R1 & i1 & ms1 & ix1 & Heq & E1 & Hh1 & HM & HR1).
  exists i1, ms1, ix1. split; [done|].
  apply app_eq_inv in Heq as [(k & -> & ->)|(k & -> & ->)].
  - destruct k as [|x k]; [by rewrite app_nil_r|]. exfalso. cbn in HR1.
    apply Forall_app in HU as [_ HU]. apply Forall_cons in HU as [[Hx Hb] _]. lia.
  - destruct k as [|x k]; [by rewrite app_nil_r in Hh1|]. exfalso.
    apply Forall_app in HE as [HE _]. apply Forall_cons in HE as [[Hx _] _].
    apply Forall_app in HM as [_ HM]. apply Forall_cons in HM as [[Hx' _] _]. done.
Qed.

(** ** The updated array *)

(** What [vmrun_update_memslots] computes: the old slot of the id is taken out
    and the new one put in, the others keeping their order. *)
Record updated (slots : vmrun_memslots) (new : vmrun_memory_slot) (slots' : vmrun_memslots) : Prop := {
  up_lists : ∃ L y R L' R', slots.(memslots) = L ++ y :: R ∧ y.(id) = new.(id) ∧
      L' ++ R' = L ++ R ∧ slots'.(memslots) = L' ++ new :: R';
  up_gen : slots'.(generation) = slots.(generation);
  up_wf : memslots_wf slots'
}.

Lemma perm_move {A} (L R L' R' : list A) (x : A) : L' ++ R' = L ++ R → L' ++ x :: R' ≡ₚ x :: L ++ R.
Proof. intros E. rewrite <- Permutation_middle. by rewrite E. Qed.

Lemma fill_wf (slots slots' : vmrun_memslots) (L R L' R' : list vmrun_memory_slot)
    (y new : vmrun_memory_slot) (i : nat) (ms : list vmrun_memory_slot) (ix : list Z)
    (U E : list vmrun_memory_slot) :
  memslots_wf slots → slots.(memslots) = L ++ y :: R → y.(id) = new.(id) →
  hole L' R' i ms ix → L' ++ R' = L ++ R →
  slots' = {| generation := slots.(generation); memslots := <[i := new]> ms;
              id_to_index := <[Z.to_nat new.(id) := Z.of_nat i]> ix; used_slots := used_slots slots' |} →
  L' ++ new :: R' = U ++ E → Forall used U → Forall empty_slot E → StronglySorted base_ge U →
  Z.of_nat (length U) = used_slots slots' →
  updated slots new slots'.
Proof.
  intros Hwf Hms Hid Hh Heq Hs' HUE HU HE HS Hlen.
  pose proof (wf_range _ Hwf) as Hra. pose proof (wf_nodup _ Hwf) as Hnd. rewrite Hms in Hra, Hnd.
  assert (Hi : 0 <= id new < VMRUN_MEM_SLOTS_NUM)
    by (rewrite Forall_app, Forall_cons, Hid in Hra; tauto).
  assert (Hfresh : id new ∉ id <$> L' ++ R').
  { rewrite Heq, <- Hid, fmap_app, elem_of_app. rewrite fmap_app, fmap_cons, NoDup_app, NoDup_cons in Hnd.
    set_solver. }
  destruct (hole_fill _ _ _ _ _ _ Hh Hi Hfresh) as (Hf1 & Hf2 & Hf3). rewrite Hs'. split; cbn.
  - exists L, y, R, L', R'. auto.
  - done.
  - split; cbn; rewrite ?Hf1; try done.
    + exists U, E. auto.
    + rewrite <- (wf_ids _ Hwf), Hms, !fmap_app, !fmap_cons.
      rewrite (perm_move (id <$> L) (id <$> R)), <- Hid by (by rewrite <- !fmap_app, Heq).
      apply Permutation_middle.
Qed.

Lemma fuel_enough (slots : vmrun_memslots) (L R : list vmrun_memory_slot) (y : vmrun_memory_slot) :
  memslots_wf slots → slots.(memslots) = L ++ y :: R →
  (length R <= Z.to_nat VMRUN_MEM_SLOTS_NUM)%nat.
Proof.
  intros Hwf Hms. pose proof (wf_length _ Hwf) as Hl. rewrite Hms, length_app in Hl. cbn in Hl. lia.
Qed.

Lemma update_memslots_updated (slots : vmrun_memslots) (new : vmrun_memory_slot) :
  memslots_wf slots → 0 <= new.(id) < VMRUN_MEM_SLOTS_NUM →
  used new ∨ empty_slot new ∧ (id_to_memslot slots new.(id)).(npages) ≠ 0 →
  updated slots new (vmrun_update_memslots slots new).
Proof.
  intros Hwf Hi Hnew.
  destruct (wf_hole slots _ Hwf Hi) as (L & y & R & Hms & Hid & Hget & Hh).
  pose proof (fuel_enough _ _ _ _ Hwf Hms) as Hfuel.
  destruct (wf_split _ Hwf) as (U & E & HUE & HU & HE & HS & Hlen).
  rewrite Hms in HUE. symmetry in HUE.
  assert (Hcur : slots.(memslots) !!! slot_index slots new.(id) = y) by exact Hget.
  rewrite Hget in Hnew. unfold vmrun_update_memslots, update_used_slots. rewrite Hcur.
  destruct (remove_split U E L R y HUE HU HE) as [(U2 & -> & -> & Hy)|(E1 & -> & -> & Hy)].
  - (* the slot was in use *)
    apply Forall_app in HU as [HU1 HU2]. apply Forall_cons in HU2 as [_ HU2].
    assert (HU0 : Forall used (L ++ U2)) by (apply Forall_app; auto).
    assert (HS0 : StronglySorted base_ge (L ++ U2)) by (eapply desc_remove; exact HS).
    destruct Hnew as [Hn|[Hn _]].
    + destruct (update_loops_used new (L ++ U2) E L (U2 ++ E) _ _ _ _ Hh Hfuel Hn)
        as (i1 & ms1 & ix1 & i2 & ms2 & ix2 & L' & R' & k & E1 & E2 & Hh2 & Heq & HL & HR & HSk);
        try done; [by rewrite app_assoc|].
      replace (npages new =? 0) with false by (destruct Hn; lia).
      replace (npages y =? 0) with false by lia. rewrite E1. cbn [negb]. rewrite E2.
      eapply (fill_wf slots _ L (U2 ++ E) L' R' y new i2 ms2 ix2 (L' ++ new :: k) E); try done.
      * subst R'. by rewrite <- app_assoc.
      * rewrite HL in HU0. apply Forall_app in HU0 as [? ?]. apply Forall_app; auto.
      * cbn. rewrite <- Hlen. apply (f_equal length) in HL. rewrite !length_app in *. cbn in *. lia.
    + destruct (update_loops_empty new U2 E L _ _ _ _ Hh Hfuel) as (i1 & ms1 & ix1 & E1 & Hh1);
        [by destruct Hn|done..|].
      replace (npages new =? 0) with true by (destruct Hn; lia).
      replace (npages y =? 0) with false by lia. rewrite E1. cbn [negb].
      eapply (fill_wf slots _ L (U2 ++ E) (L ++ U2) E y new i1 ms1 ix1 (L ++ U2) (new :: E)); try done.
      * by rewrite app_assoc.
      * by constructor.
      * cbn. rewrite <- Hlen. rewrite !length_app. cbn. lia.
  - (* the slot was empty *)
    destruct Hnew as [Hn|[_ ?]]; [|done].
    apply Forall_app in HE as [HE1 HE2]. apply Forall_cons in HE2 as [_ HE2].
    assert (HE0 : Forall empty_slot (E1 ++ R)) by (apply Forall_app; auto).
    destruct (update_loops_used new U (E1 ++ R) (U ++ E1) R _ _ _ _ Hh Hfuel Hn)
      as (i1 & ms1 & ix1 & i2 & ms2 & ix2 & L' & R' & k & Ea & Eb & Hh2 & Heq & HL & HR & HSk);
      try done; [by rewrite app_assoc|].
    replace (npages new =? 0) with false by (destruct Hn; lia).
    replace (npages y =? 0) with true by lia. rewrite Ea. cbn [negb]. rewrite Eb.
    eapply (fill_wf slots _ (U ++ E1) R L' R' y new i2 ms2 ix2 (L' ++ new :: k) (E1 ++ R)); try done.
    + subst R'. by rewrite <- app_assoc.
    + rewrite HL in HU. apply Forall_app in HU as [? ?]. apply Forall_app; auto.
    + cbn. rewrite <- Hlen, HL, !length_app. cbn. lia.
Qed.

(** ** Lookup by id *)

Lemma id_to_memslot_in (slots : vmrun_memslots) (i : Z) :
  memslots_wf slots → 0 <= i < VMRUN_MEM_SLOTS_NUM →
  id_to_memslot slots i ∈ slots.(memslots) ∧ (id_to_memslot slots i).(id) = i.
Proof.
  intros Hwf Hi. destruct (wf_hole slots i Hwf Hi) as (L & y & R & Hms & Hid & -> & _).
  rewrite Hms. set_solver.
Qed.

Lemma id_to_memslot_unique (slots : vmrun_memslots) (s : vmrun_memory_slot) :
  memslots_wf slots → s ∈ slots.(memslots) → id_to_memslot slots s.(id) = s.
Proof.
  intros Hwf Hs. pose proof (wf_range _ Hwf) as Hr. rewrite Forall_forall in Hr. specialize (Hr s Hs).
  apply list_elem_of_lookup_1 in Hs as [k Hk].
  unfold id_to_memslot, slot_index. rewrite (list_lookup_total_correct _ _ _ (wf_index _ Hwf k s Hk)).
  rewrite Nat2Z.id. by apply list_lookup_total_correct.
Qed.

Lemma updated_lookup (slots slots' : vmrun_memslots) (new : vmrun_memory_slot) (i : Z) :
  memslots_wf slots → updated slots new slots' → 0 <= i < VMRUN_MEM_SLOTS_NUM →
  id_to_memslot slots' i = if decide (i = new.(id)) then new else id_to_memslot slots i.
Proof.
  intros Hwf [(L & y & R & L' & R' & Hms & Hid & Heq & Hms') _ Hwf'] Hi. case_decide as Hd.
  - subst i. apply id_to_memslot_unique; [done|]. rewrite Hms'. set_solver.
  - destruct (id_to_memslot_in slots i Hwf Hi) as [Hin Hin'].
    rewrite <- Hin' at 1. apply id_to_memslot_unique; [done|].
    rewrite Hms in Hin. rewrite Hms'. 
    assert (id_to_memslot slots i ∈ L ++ R) as H.
    { apply elem_of_app. apply elem_of_app in Hin as [?|[Hy|?]%elem_of_cons]; [by left| |by right].
      exfalso. apply Hd. by rewrite <- Hin', Hy, Hid. }
    rewrite <- Heq in H. set_solver.
Qed.

(** C12: [vmrun_update_memslots] keeps the slot array in order.  From a
    well-formed array (used slots first by descending base, each id once, the
    index right, [used_slots] their number), replacing the slot of an id by a
    used one (create, move, change flags) or deleting a used one gives a
    well-formed array again, in which the id finds the new slot and every
    other id finds the slot it found before. *)
Theorem update_memslots_correct (slots : vmrun_memslots) (new : vmrun_memory_slot) :
  memslots_wf slots → 0 <= new.(id) < VMRUN_MEM_SLOTS_NUM →
  used new ∨ empty_slot new ∧ (id_to_memslot slots new.(id)).(npages) ≠ 0 →
  memslots_wf (vmrun_update_memslots slots new) ∧
  ∀ i, 0 <= i < VMRUN_MEM_SLOTS_NUM →
    id_to_memslot (vmrun_update_memslots slots new) i
    = if decide (i = new.(id)) then new else id_to_memslot slots i.
Proof.
  intros Hwf Hi Hn. pose proof (update_memslots_updated slots new Hwf Hi Hn) as Hu.
  split; [apply Hu|]. intros i Hi'. by apply updated_lookup.
Qed.

(** The array [vmrun_alloc_memslots] returns. *)
Lemma alloc_memslots_wf : memslots_wf vmrun_alloc_memslots.
Proof.
  split; cbn [memslots id_to_index used_slots vmrun_alloc_memslots].
  - exists [], ((λ i, null_slot <| id := i |>) <$> seqZ 0 VMRUN_MEM_SLOTS_NUM).
    split_and!; [done|constructor| |constructor|done].
    apply Forall_forall. intros s (i & -> & _)%list_elem_of_fmap. done.
  - rewrite <- list_fmap_compose. apply reflexive_eq. 
    transitivity ((λ i : Z, i) <$> seqZ 0 VMRUN_MEM_SLOTS_NUM); [done|]. by rewrite list_fmap_id.
  - intros k s Hk. apply list_lookup_fmap_Some in Hk as (i & -> & Hi). cbn.
    apply lookup_seqZ in Hi as [-> Hk]. rewrite Z.add_0_l, Nat2Z.id. apply lookup_seqZ. lia.
  - by rewrite length_seqZ.
Qed.

Definition example_slot (i base n : Z) : vmrun_memory_slot :=
  null_slot <| id := i |> <| base_gfn := base |> <| npages := n |>.

Lemma update_memslots_correct_witness :
  let slots := vmrun_update_memslots vmrun_alloc_memslots (example_slot 3 0x100 16) in
  memslots_wf slots ∧ id_to_memslot slots 3 = example_slot 3 0x100 16.
Proof.
  destruct (update_memslots_correct vmrun_alloc_memslots (example_slot 3 0x100 16)) as [H1 H2].
  - apply alloc_memslots_wf.
  - cbn. unfold VMRUN_MEM_SLOTS_NUM, VMRUN_USER_MEM_SLOTS, VMRUN_PRIVATE_MEM_SLOTS. lia.
  - left. split; cbn; lia.
  - split; [exact H1|]. rewrite H2.
    + reflexivity.
    + unfold VMRUN_MEM_SLOTS_NUM, VMRUN_USER_MEM_SLOTS, VMRUN_PRIVATE_MEM_SLOTS. lia.
Defined.
