(* ===== verification/MemRegion.v ===== *)
(** * Memory regions of a virtual machine

    VMRUN_SET_USER_MEMORY_REGION of kernel/vmrun.c: the checks, the per-slot
    arrays ([vmrun_arch_create_memslot], with the page-track array of
    kernel/page_track.c), the two-phase installation of a new slot array, and
    the release of what is no longer used.

    Allocations go through a heap with an oracle that decides which of them
    fail; a block is an array of integers.  Calls into kernel/mmu.c are
    recorded in a log. *)

From S2P Require Import Prelude.
From S2P Require Import Spte.
From S2P Require Import Memslots.

Unset Primitive Projections.


Definition VMRUN_MEM_LOG_DIRTY_PAGES : Z := BIT 0.
Definition VMRUN_MEM_READONLY : Z := BIT 1.
Definition VMRUN_MEM_MAX_NR_PAGES : Z := BIT 31 - 1.

Definition VMRUN_HPAGE_GFN_SHIFT (level : Z) : Z := (level - 1) * 9.
Definition VMRUN_HPAGE_SHIFT (level : Z) : Z := PAGE_SHIFT + VMRUN_HPAGE_GFN_SHIFT level.
Definition VMRUN_HPAGE_SIZE (level : Z) : Z := BIT (VMRUN_HPAGE_SHIFT level).
Definition VMRUN_PAGES_PER_HPAGE (level : Z) : Z := VMRUN_HPAGE_SIZE level / PAGE_SIZE.

(** [struct vmrun_userspace_memory_region] (user/vmrun.h). *)
Record memory_region := {
  m_slot : Z;
  m_flags : Z;
  m_guest_phys_addr : Z;
  m_memory_size : Z;
  m_userspace_addr : Z
}.
#[export] Instance eta_memory_region : Eta memory_region := λ r,
  {| m_slot := r.(m_slot); m_flags := r.(m_flags); m_guest_phys_addr := r.(m_guest_phys_addr);
     m_memory_size := r.(m_memory_size); m_userspace_addr := r.(m_userspace_addr) |}.

Inductive vmrun_mr_change := VMRUN_MR_CREATE | VMRUN_MR_DELETE | VMRUN_MR_MOVE | VMRUN_MR_FLAGS_ONLY.

#[export] Instance mr_change_eq_dec : EqDecision vmrun_mr_change.
Proof. solve_decision. Defined.

(** ** The heap *)

Record heap := {
  blocks : gmap Z (list Z);
  next_ptr : Z;
  oracle : list bool   (* [false]: the next allocation fails *)
}.
#[export] Instance eta_heap : Eta heap := λ r,
  {| blocks := r.(blocks); next_ptr := r.(next_ptr); oracle := r.(oracle) |}.

(** [vmrun_kvzalloc], [kvzalloc]: a zeroed array of [n] elements. *)
Definition kvzalloc (n : Z) (h : heap) : Z * heap :=
  let '(ok, rest) := match h.(oracle) with [] => (true, []) | b :: rest => (b, rest) end in
  if ok : bool then
    (h.(next_ptr),
     {| blocks := <[h.(next_ptr) := replicate (Z.to_nat n) 0]> h.(blocks);
        next_ptr := h.(next_ptr) + 1; oracle := rest |})
  else (0, {| blocks := h.(blocks); next_ptr := h.(next_ptr); oracle := rest |}).

Definition kvfree (p : Z) (h : heap) : heap :=
  if p =? 0 then h
  else {| blocks := delete p h.(blocks); next_ptr := h.(next_ptr); oracle := h.(oracle) |}.

Definition write_block (p : Z) (f : list Z → list Z) (h : heap) : heap :=
  {| blocks := alter f p h.(blocks); next_ptr := h.(next_ptr); oracle := h.(oracle) |}.

(** ** The slot's arrays *)

Definition gfn_to_index (gfn base level : Z) : Z :=
  u64 (Z.shiftr gfn (VMRUN_HPAGE_GFN_SHIFT level) - Z.shiftr base (VMRUN_HPAGE_GFN_SHIFT level)).

Definition set_rmap (i : nat) (p : Z) (s : vmrun_memory_slot) : vmrun_memory_slot :=
  s <| arch ::= λ a, a <| rmap ::= <[i := p]> |> |>.
Definition set_lpage_info (i : nat) (p : Z) (s : vmrun_memory_slot) : vmrun_memory_slot :=
  s <| arch ::= λ a, a <| lpage_info ::= <[i := p]> |> |>.
Definition set_gfn_track (i : nat) (p : Z) (s : vmrun_memory_slot) : vmrun_memory_slot :=
  s <| arch ::= λ a, a <| gfn_track ::= <[i := p]> |> |>.

(** [!dont || free->p != dont->p] *)
Definition unshared (p : Z) (q : option Z) : bool :=
  match q with None => true | Some q => negb (p =? q) end.

Definition slot_state : Type := vmrun_memory_slot * heap.

Definition vmrun_destroy_dirty_bitmap (st : slot_state) : slot_state :=
  let '(s, h) := st in
  if s.(dirty_bitmap) =? 0 then (s, h)
  else (s <| dirty_bitmap := 0 |>, kvfree s.(dirty_bitmap) h).

Definition free_gfn_track (dont : option vmrun_memory_slot) (st : slot_state) (i : nat) : slot_state :=
  let '(s, h) := st in
  let p := s.(arch).(gfn_track) !!! i in
  if unshared p ((λ d, d.(arch).(gfn_track) !!! i) <$> dont)
  then (set_gfn_track i 0 s, kvfree p h) else (s, h).

Definition vmrun_page_track_free_memslot (dont : option vmrun_memory_slot) (st : slot_state) : slot_state :=
  foldl (free_gfn_track dont) st (seq 0 (Z.to_nat VMRUN_PAGE_TRACK_MAX)).

Definition free_rmap (dont : option vmrun_memory_slot) (st : slot_state) (i : nat) : slot_state :=
  let '(s, h) := st in
  let p := s.(arch).(rmap) !!! i in
  if unshared p ((λ d, d.(arch).(rmap) !!! i) <$> dont) then (set_rmap i 0 s, kvfree p h) else (s, h).

Definition free_lpage_info (dont : option vmrun_memory_slot) (st : slot_state) (i : nat) : slot_state :=
  let '(s, h) := st in
  let p := s.(arch).(lpage_info) !!! i in
  if unshared p ((λ d, d.(arch).(lpage_info) !!! i) <$> dont)
  then (set_lpage_info i 0 s, kvfree p h) else (s, h).

(** One pass of the loop of [vmrun_arch_free_memslot]. *)
Definition free_level (dont : option vmrun_memory_slot) (st : slot_state) (i : nat) : slot_state :=
  let st := free_rmap dont st i in
  match i with O => st | S j => free_lpage_info dont st j end.

Definition page_sizes : list nat := seq 0 (Z.to_nat VMRUN_NR_PAGE_SIZES).

Definition vmrun_arch_free_memslot (dont : option vmrun_memory_slot) (st : slot_state) : slot_state :=
  vmrun_page_track_free_memslot dont (foldl (free_level dont) st page_sizes).

Definition vmrun_free_memslot (dont : option vmrun_memory_slot) (st : slot_state) : slot_state :=
  let st := if unshared st.1.(dirty_bitmap) (dirty_bitmap <$> dont)
            then vmrun_destroy_dirty_bitmap st else st in
  let '(s, h) := vmrun_arch_free_memslot dont st in
  (s <| npages := 0 |>, h).

(** [vmrun_page_track_create_memslot]; [false]: -ENOMEM. *)
Fixpoint track_create (n : Z) (todo : list nat) (st : slot_state) : bool * slot_state :=
  match todo with
  | [] => (true, st)
  | i :: todo =>
      let '(s, h) := st in
      let '(p, h) := kvzalloc n h in
      let st := (set_gfn_track i p s, h) in
      if p =? 0 then (false, vmrun_page_track_free_memslot None st) else track_create n todo st
  end.

Definition vmrun_page_track_create_memslot (n : Z) (st : slot_state) : bool * slot_state :=
  track_create n (seq 0 (Z.to_nat VMRUN_PAGE_TRACK_MAX)) st.

Section Create.
Context (largepages_enabled : bool).

(** The stores into a fresh [linfo] array. *)
Definition init_lpage_info (s : vmrun_memory_slot) (n level lpages : Z) (l : list Z) : list Z :=
  let mask := VMRUN_PAGES_PER_HPAGE level - 1 in
  let l := if truth (Z.land s.(base_gfn) mask) then <[0%nat := 1]> l else l in
  let l := if truth (Z.land (u64 (s.(base_gfn) + n)) mask)
           then <[Z.to_nat (lpages - 1) := 1]> l else l in
  let ugfn := Z.shiftr s.(userspace_addr) PAGE_SHIFT in
  if truth (Z.land (Z.lxor s.(base_gfn) ugfn) mask) || negb largepages_enabled
  then replicate (Z.to_nat lpages) 1 else l.

(** One pass of the loop of [vmrun_arch_create_memslot]; [false]: out_free. *)
Definition create_level (n : Z) (i : nat) (st : slot_state) : bool * slot_state :=
  let '(s, h) := st in
  let level := Z.of_nat i + 1 in
  let lpages := s32 (u64 (gfn_to_index (u64 (s.(base_gfn) + n - 1)) s.(base_gfn) level + 1)) in
  let '(p, h) := kvzalloc lpages h in
  let s := set_rmap i p s in
  if p =? 0 then (false, (s, h))
  else match i with
       | O => (true, (s, h))
       | S j =>
           let '(q, h) := kvzalloc lpages h in
           if q =? 0 then (false, (s, h))
           else (true, (set_lpage_info j q s, write_block q (init_lpage_info s n level lpages) h))
       end.

Fixpoint create_levels (n : Z) (todo : list nat) (st : slot_state) : bool * slot_state :=
  match todo with
  | [] => (true, st)
  | i :: todo =>
      let '(ok, st) := create_level n i st in
      if ok : bool then create_levels n todo st else (false, st)
  end.

(** Result: the returned int. *)
Definition vmrun_arch_create_memslot (n : Z) (st : slot_state) : Z * slot_state :=
  let '(ok, st) := create_levels n page_sizes st in
  let '(ok, st) := if ok : bool then vmrun_page_track_create_memslot n st else (false, st) in
  if ok : bool then (0, st) else (- ENOMEM, foldl (free_level None) st page_sizes).
End Create.

(* ------------------------------------------------------------------ *)
(** ** The virtual machine's memory *)

Class KvmMmuPages := { KVM_PERMILLE_MMU_PAGES : Z; KVM_MIN_ALLOC_MMU_PAGES : Z }.

(** Calls into kernel/mmu.c. *)
Inductive mmu_call :=
| InvalidateZapAllPages
| FlushSlot (s : vmrun_memory_slot)
| ChangeMmuPages (n : Z)
| ZapCollapsible (s : vmrun_memory_slot).

(** [spaces]: per address space the pointer [vmrun->memslots[as_id]] and the
    array it points to.  [published]: every array made visible to readers, at
    the moment it is, latest first. *)
Record vm_mem := {
  mem_heap : heap;
  spaces : list (Z * vmrun_memslots);
  published : list (Z * vmrun_memslots);
  mmu_log : list mmu_call;
  n_requested_mmu_pages : Z
}.
#[export] Instance eta_vm_mem : Eta vm_mem := λ r,
  {| mem_heap := r.(mem_heap); spaces := r.(spaces); published := r.(published);
     mmu_log := r.(mmu_log); n_requested_mmu_pages := r.(n_requested_mmu_pages) |}.

#[export] Instance memslots_inhabited : Inhabited vmrun_memslots := populate vmrun_alloc_memslots.

Definition __vmrun_memslots (vm : vm_mem) (as_id : Z) : vmrun_memslots :=
  (vm.(spaces) !!! Z.to_nat as_id).2.

(** ** Checks *)

Definition vmrun_check_memory_region_flags (have_readonly : bool) (mem : memory_region) : Z :=
  let valid_flags := if have_readonly then Z.lor VMRUN_MEM_LOG_DIRTY_PAGES VMRUN_MEM_READONLY
                     else VMRUN_MEM_LOG_DIRTY_PAGES in
  if truth (Z.land mem.(m_flags) (not32 valid_flags)) then - EINVAL else 0.

Definition overlaps (base n : Z) (s : vmrun_memory_slot) : bool :=
  negb ((u64 (base + n) <=? s.(base_gfn)) || (base >=? u64 (s.(base_gfn) + s.(npages)))).

(** The loop over the slots: is there an overlap with another user slot? *)
Definition check_overlap (slots : vmrun_memslots) (i base n : Z) : bool :=
  existsb (λ s, negb ((s.(id) >=? VMRUN_USER_MEM_SLOTS) || (s.(id) =? i)) && overlaps base n s)
          (each_memslot slots.(memslots)).

(** ** Installing a slot array *)

Definition vmrun_mmu_invalidate_mmio_sptes (slots : vmrun_memslots) (vm : vm_mem) : vm_mem :=
  if Z.land slots.(generation) MMIO_GEN_MASK =? 0
  then vm <| mmu_log ::= cons InvalidateZapAllPages |> else vm.

(** Result: the old pointer and array. *)
Definition vmrun_install_new_memslots (as_id : Z) (ptr : Z) (slots : vmrun_memslots) (vm : vm_mem)
    : (Z * vmrun_memslots) * vm_mem :=
  let old := vm.(spaces) !!! Z.to_nat as_id in
  let slots := slots <| generation := u64 (old.2.(generation) + 1) |> in
  let vm := vm <| spaces ::= <[Z.to_nat as_id := (ptr, slots)]> |>
               <| published ::= cons (as_id, slots) |> in
  let slots := slots <| generation ::= λ g, u64 (g + (VMRUN_ADDRESS_SPACE_NUM * 2 - 1)) |> in
  let vm := vm <| spaces ::= <[Z.to_nat as_id := (ptr, slots)]> |> in
  (old, vmrun_mmu_invalidate_mmio_sptes slots vm).

Section Region.
Context `{K : KvmMmuPages}.
(** [have_readonly]: the build option __VMRUN_HAVE_READONLY_MEM; [access_ok]:
    the kernel's check of a user range. *)
Context (have_readonly largepages_enabled : bool) (access_ok : Z → Z → bool).

Definition vmrun_mmu_calculate_mmu_pages (vm : vm_mem) : Z :=
  let pages := foldl (λ acc sp, foldl (λ acc s, u32 (acc + s.(npages))) acc
                                      (each_memslot sp.2.(memslots))) 0 vm.(spaces) in
  Z.max (u32 (pages * KVM_PERMILLE_MMU_PAGES) / 1000) KVM_MIN_ALLOC_MMU_PAGES.

Definition vmrun_arch_commit_memory_region (old new : vmrun_memory_slot) (change : vmrun_mr_change)
    (vm : vm_mem) : vm_mem :=
  let nr := if vm.(n_requested_mmu_pages) =? 0 then vmrun_mmu_calculate_mmu_pages vm else 0 in
  let vm := if negb (nr =? 0) then vm <| mmu_log ::= cons (ChangeMmuPages nr) |> else vm in
  if bool_decide (change ≠ VMRUN_MR_DELETE)
     && truth (Z.land old.(flags) VMRUN_MEM_LOG_DIRTY_PAGES)
     && negb (truth (Z.land new.(flags) VMRUN_MEM_LOG_DIRTY_PAGES))
  then vm <| mmu_log ::= cons (ZapCollapsible new) |> else vm.

(** The classification of a request; [inl r]: return [r] at once. *)
Definition mr_classify (mem : memory_region) (old new : vmrun_memory_slot) (base n : Z)
    : Z + vmrun_mr_change * vmrun_memory_slot :=
  if negb (n =? 0) then
    if old.(npages) =? 0 then inr (VMRUN_MR_CREATE, new)
    else if negb (mem.(m_userspace_addr) =? old.(userspace_addr))
            || negb (n =? old.(npages))
            || truth (Z.land (Z.lxor new.(flags) old.(flags)) VMRUN_MEM_READONLY)
         then inl (- EINVAL)
    else if negb (base =? old.(base_gfn)) then inr (VMRUN_MR_MOVE, new)
    else if negb (new.(flags) =? old.(flags)) then inr (VMRUN_MR_FLAGS_ONLY, new)
    else inl 0
  else
    if old.(npages) =? 0 then inl (- EINVAL)
    else inr (VMRUN_MR_DELETE, new <| base_gfn := 0 |> <| flags := 0 |>).

(** The checks of [__vmrun_set_memory_region] up to the classification:
    [inl r]: return [r]; [inr (old, new, change)]: go on. *)
Definition mr_checks (mem : memory_region) (vm : vm_mem)
    : Z + (vmrun_memory_slot * vmrun_memory_slot * vmrun_mr_change) :=
  let r := vmrun_check_memory_region_flags have_readonly mem in
  if truth r then inl r
  else
    let as_id := Z.shiftr mem.(m_slot) 16 in
    let i := u16 mem.(m_slot) in
    if truth (Z.land mem.(m_memory_size) (PAGE_SIZE - 1)) then inl (- EINVAL)
    else if truth (Z.land mem.(m_guest_phys_addr) (PAGE_SIZE - 1)) then inl (- EINVAL)
    else if (i <? VMRUN_USER_MEM_SLOTS)
            && (truth (Z.land mem.(m_userspace_addr) (PAGE_SIZE - 1))
                || negb (access_ok mem.(m_userspace_addr) mem.(m_memory_size)))
         then inl (- EINVAL)
    else if (as_id >=? VMRUN_ADDRESS_SPACE_NUM) || (i >=? VMRUN_MEM_SLOTS_NUM) then inl (- EINVAL)
    else if u64 (mem.(m_guest_phys_addr) + mem.(m_memory_size)) <? mem.(m_guest_phys_addr)
         then inl (- EINVAL)
    else
      let old := id_to_memslot (__vmrun_memslots vm as_id) i in
      let base := Z.shiftr mem.(m_guest_phys_addr) PAGE_SHIFT in
      let n := Z.shiftr mem.(m_memory_size) PAGE_SHIFT in
      if n >? VMRUN_MEM_MAX_NR_PAGES then inl (- EINVAL)
      else
        let new := old <| id := s16 i |> <| base_gfn := base |> <| npages := n |>
                       <| flags := mem.(m_flags) |> in
        match mr_classify mem old new base n with
        | inl r => inl r
        | inr (change, new) =>
            if bool_decide (change = VMRUN_MR_CREATE ∨ change = VMRUN_MR_MOVE)
               && check_overlap (__vmrun_memslots vm as_id) i base n
            then inl (- EEXIST)
            else
              let new := if negb (truth (Z.land new.(flags) VMRUN_MEM_LOG_DIRTY_PAGES))
                         then new <| dirty_bitmap := 0 |> else new in
              inr (old, new, change)
        end.

(** From the second allocation on, when it succeeded: [ptr] is the new array. *)
Definition mr_install (as_id i ptr : Z) (old new : vmrun_memory_slot) (change : vmrun_mr_change)
    (vm : vm_mem) : vm_mem :=
  let slots := __vmrun_memslots vm as_id in      (* memcpy *)
  let '(ptr, slots, vm) :=
    if bool_decide (change = VMRUN_MR_DELETE ∨ change = VMRUN_MR_MOVE) then
      let k := slot_index slots i in
      let flagged := (slots.(memslots) !!! k) <| flags ::= λ f, Z.lor f VMRUN_MEMSLOT_INVALID |> in
      let slots := slots <| memslots ::= <[k := flagged]> |> in
      let '(old_memslots, vm) := vmrun_install_new_memslots as_id ptr slots vm in
      let vm := vm <| mmu_log ::= cons (FlushSlot flagged) |> in
      (old_memslots.1, old_memslots.2, vm)
    else (ptr, slots, vm) in
  let new := if bool_decide (change = VMRUN_MR_DELETE)
             then new <| dirty_bitmap := 0 |> <| arch := null_arch |> else new in
  let slots := vmrun_update_memslots slots new in
  let '(old_memslots, vm) := vmrun_install_new_memslots as_id ptr slots vm in
  let vm := vmrun_arch_commit_memory_region old new change vm in
  let '(_, h) := vmrun_free_memslot (Some new) (old, vm.(mem_heap)) in
  vm <| mem_heap := kvfree old_memslots.1 h |>.

Definition __vmrun_set_memory_region (mem : memory_region) (vm : vm_mem) : Z * vm_mem :=
  match mr_checks mem vm with
  | inl r => (r, vm)
  | inr (old, new, change) =>
      let as_id := Z.shiftr mem.(m_slot) 16 in
      let '(r, (new, h)) :=
        if bool_decide (change = VMRUN_MR_CREATE) then
          vmrun_arch_create_memslot largepages_enabled new.(npages)
            (new <| userspace_addr := mem.(m_userspace_addr) |>, vm.(mem_heap))
        else (0, (new, vm.(mem_heap))) in
      if truth r then
        let '(_, h) := vmrun_free_memslot (Some old) (new, h) in
        (- ENOMEM, vm <| mem_heap := h |>)
      else
        let '(ptr, h) := kvzalloc 0 h in
        if ptr =? 0 then
          let '(_, h) := vmrun_free_memslot (Some old) (new, h) in
          (- ENOMEM, vm <| mem_heap := h |>)
        else (0, mr_install as_id (u16 mem.(m_slot)) ptr old new change (vm <| mem_heap := h |>))
  end.

(** [vmrun_set_memory_region] takes and releases [slots_lock] around it. *)
Definition vmrun_set_memory_region := __vmrun_set_memory_region.

Definition vmrun_vm_ioctl_set_memory_region (mem : memory_region) (vm : vm_mem) : Z * vm_mem :=
  if u16 mem.(m_slot) >=? VMRUN_USER_MEM_SLOTS then (- EINVAL, vm)
  else vmrun_set_memory_region mem vm.

(** [mmap]: the result of [vm_mmap], [inl] an error. *)
Definition __vmrun_set_memory_region_vm_destroy (vm_mmap : Z + Z) (i gpa sz : Z) (vm : vm_mem)
    : Z * vm_mem :=
  if i >=? VMRUN_MEM_SLOTS_NUM then (- EINVAL, vm)
  else
    let slot := id_to_memslot (__vmrun_memslots vm 0) i in
    let region as_id hva :=
      {| m_slot := Z.lor i (Z.shiftl as_id 16); m_flags := 0; m_guest_phys_addr := gpa;
         m_memory_size := sz; m_userspace_addr := hva |} in
    let loop hva :=
      let '(r, vm) := __vmrun_set_memory_region (region 0 hva) vm in
      if r <? 0 then (r, vm)
      else
        let '(r, vm) := __vmrun_set_memory_region (region 1 hva) vm in
        if r <? 0 then (r, vm) else (0, vm) in
    if negb (sz =? 0) then
      if negb (slot.(npages) =? 0) then (- EEXIST, vm)
      else match vm_mmap with inl e => (e, vm) | inr hva => loop hva end
    else if slot.(npages) =? 0 then (0, vm) else loop 0.

Fixpoint free_slots (ms : list vmrun_memory_slot) (h : heap) : heap :=
  match ms with
  | [] => h
  | s :: ms => free_slots ms (vmrun_free_memslot None (s, h)).2
  end.

(** [None]: the pointer is NULL. *)
Definition vmrun_free_memslots (sp : option (Z * vmrun_memslots)) (h : heap) : heap :=
  match sp with
  | None => h
  | Some (ptr, slots) => kvfree ptr (free_slots (each_memslot slots.(memslots)) h)
  end.

End Region.

(** The memory of a VM that [vmrun_create_vm] has just set up: the loop over
    the address spaces.  The arrays are at addresses 1 and 2. *)
Definition fresh_space (i : Z) : Z * vmrun_memslots :=
  (i + 1, vmrun_alloc_memslots <| generation := u64 (i * 2 - 150) |>).

Definition fresh_vm (h : heap) (n_requested : Z) : vm_mem :=
  {| mem_heap := h; spaces := fresh_space <$> seqZ 0 VMRUN_ADDRESS_SPACE_NUM; published := [];
     mmu_log := []; n_requested_mmu_pages := n_requested |}.
