(* ===== verification/MemRegionProps.v ===== *)
(** * Memory regions: disjointness, generations, error paths *)

From S2P Require Import Prelude.
From S2P Require Import Spte.
From S2P Require Import Memslots.
From S2P Require Import MemslotsProps.
From S2P Require Import MemRegion.

(* ------------------------------------------------------------------ *)
(** ** The invariant of a VM's memory *)

(** Guest frame [g] belongs to slot [s]. *)
Definition contains (s : vmrun_memory_slot) (g : Z) : Prop :=
  s.(base_gfn) <= g < s.(base_gfn) + s.(npages).

Definition user_slot (s : vmrun_memory_slot) : Prop := s.(id) < VMRUN_USER_MEM_SLOTS.

(** No guest frame is in two user slots. *)
Definition slots_disjoint (ms : list vmrun_memory_slot) : Prop :=
  ∀ g s t, s ∈ ms → t ∈ ms → user_slot s → user_slot t → contains s g → contains t g → s = t.

(** A slot within the guest-physical address space; an unused one owns nothing. *)
Record slot_ok (s : vmrun_memory_slot) : Prop := {
  so_base : 0 <= s.(base_gfn);
  so_npages : 0 <= s.(npages) <= VMRUN_MEM_MAX_NR_PAGES;
  so_end : s.(base_gfn) + s.(npages) <= 2 ^ 52;
  so_unused : s.(npages) = 0 → s.(base_gfn) = 0 ∧ s.(arch) = null_arch ∧ s.(dirty_bitmap) = 0
}.

Record space_ok (slots : vmrun_memslots) : Prop := {
  sp_wf : memslots_wf slots;
  sp_slots : Forall slot_ok slots.(memslots);
  sp_disjoint : slots_disjoint slots.(memslots)
}.

Record heap_ok (h : heap) : Prop := {
  hp_next : 0 < h.(next_ptr);
  hp_fresh : ∀ p, is_Some (h.(blocks) !! p) → p < h.(next_ptr)
}.

Record vm_ok (vm : vm_mem) : Prop := {
  vm_spaces : length vm.(spaces) = 2%nat;
  vm_space : Forall (λ sp, space_ok sp.2) vm.(spaces);
  vm_heap : heap_ok vm.(mem_heap)
}.

(** The request as the C structure's types allow it. *)
Record region_typed (mem : memory_region) : Prop := {
  rt_slot : is_u 32 mem.(m_slot);
  rt_flags : is_u 32 mem.(m_flags);
  rt_gpa : is_u 64 mem.(m_guest_phys_addr);
  rt_size : is_u 64 mem.(m_memory_size);
  rt_uaddr : is_u 64 mem.(m_userspace_addr)
}.

(* ------------------------------------------------------------------ *)
(** ** The overlap check *)

Lemma each_memslot_used (slots : vmrun_memslots) (s : vmrun_memory_slot) :
  memslots_wf slots → s ∈ slots.(memslots) → s.(npages) ≠ 0 → s ∈ each_memslot slots.(memslots).
Proof.
  intros Hwf Hs Hn. destruct (wf_split _ Hwf) as (U & E & HUE & HU & HE & _ & _).
  assert (Hall : each_memslot (memslots slots) = U).
  { rewrite HUE. clear -HU HE. induction HU as [|x U [Hx _] HU IH]; cbn.
    - destruct HE as [|y E [Hy _] _]; [done|]. cbn. by rewrite Hy.
    - replace (npages x =? 0) with false by lia. by rewrite IH. }
  rewrite Hall. rewrite HUE in Hs. apply elem_of_app in Hs as [?|Hs]; [done|].
  rewrite Forall_forall in HE. by destruct (HE s Hs).
Qed.

Lemma overlaps_spec (base n : Z) (s : vmrun_memory_slot) (g : Z) :
  slot_ok s → 0 <= base → 0 <= n → base + n <= 2 ^ 52 →
  overlaps base n s = false → contains s g → ¬ (base <= g < base + n).
Proof.
  intros [Hb Hn He _] Hb' Hn' He'. unfold overlaps, contains. rewrite negb_false_iff, orb_true_iff.
  rewrite !wrap_id by (split; lia). lia.
Qed.

(** A request that passes the check overlaps no other user slot. *)
Lemma check_overlap_spec (slots : vmrun_memslots) (i base n g : Z) (s : vmrun_memory_slot) :
  space_ok slots → 0 <= base → 0 <= n → base + n <= 2 ^ 52 →
  check_overlap slots i base n = false →
  s ∈ slots.(memslots) → user_slot s → s.(id) ≠ i → contains s g → ¬ (base <= g < base + n).
Proof.
  intros [Hwf Hok _] Hb Hn He Hch Hs Hu Hi Hc. rewrite Forall_forall in Hok.
  assert (Hnp : npages s ≠ 0) by (unfold contains in Hc; lia).
  apply (overlaps_spec base n s g); auto.
  unfold check_overlap in Hch. rewrite <- not_true_iff_false, existsb_exists in Hch.
  apply not_true_is_false. intros Ho. apply Hch. exists s.
  rewrite <- list_elem_of_In. split; [by apply each_memslot_used|].
  unfold user_slot in Hu. rewrite Ho, andb_true_r, Z.geb_leb. apply negb_true_iff, orb_false_iff.
  split; lia.
Qed.

(* ------------------------------------------------------------------ *)
(** ** What a classified request looks like *)

(** The accepted requests, as the code after the checks relies on them. *)
Record accepted (slots : vmrun_memslots) (i : Z) (old new : vmrun_memory_slot)
    (change : vmrun_mr_change) : Prop := {
  ac_i : 0 <= i < VMRUN_MEM_SLOTS_NUM;
  ac_old : id_to_memslot slots i = old;
  ac_id : new.(id) = i;
  ac_base : 0 <= new.(base_gfn);
  ac_npages : 0 <= new.(npages) <= VMRUN_MEM_MAX_NR_PAGES;
  ac_end : new.(base_gfn) + new.(npages) <= 2 ^ 52;
  ac_arch : new.(arch) = old.(arch);
  ac_dirty : new.(dirty_bitmap) = old.(dirty_bitmap) ∨ new.(dirty_bitmap) = 0;
  ac_change : match change with
    | VMRUN_MR_CREATE => old.(npages) = 0 ∧ new.(npages) ≠ 0
    | VMRUN_MR_DELETE => old.(npages) ≠ 0 ∧ new.(npages) = 0 ∧ new.(base_gfn) = 0
    | VMRUN_MR_MOVE => old.(npages) ≠ 0 ∧ new.(npages) = old.(npages) ∧ new.(base_gfn) ≠ old.(base_gfn)
    | VMRUN_MR_FLAGS_ONLY => old.(npages) ≠ 0 ∧ new.(npages) = old.(npages) ∧
                             new.(base_gfn) = old.(base_gfn)
    end;
  ac_overlap : change = VMRUN_MR_CREATE ∨ change = VMRUN_MR_MOVE →
               check_overlap slots i new.(base_gfn) new.(npages) = false
}.

Lemma s16_small (i : Z) : 0 <= i < VMRUN_MEM_SLOTS_NUM → s16 i = i.
Proof.
  unfold swrap, VMRUN_MEM_SLOTS_NUM, VMRUN_USER_MEM_SLOTS, VMRUN_PRIVATE_MEM_SLOTS.
  intros Hi. rewrite Z.mod_small; lia.
Qed.

(** Page-aligned, non-wrapping byte ranges as page ranges. *)
Lemma page_range (gpa sz : Z) :
  is_u 64 gpa → is_u 64 sz → Z.land gpa (PAGE_SIZE - 1) = 0 → Z.land sz (PAGE_SIZE - 1) = 0 →
  gpa <= u64 (gpa + sz) →
  0 <= Z.shiftr gpa PAGE_SHIFT ∧ 0 <= Z.shiftr sz PAGE_SHIFT ∧
  Z.shiftr gpa PAGE_SHIFT + Z.shiftr sz PAGE_SHIFT <= 2 ^ 52.
Proof.
  unfold is_u, PAGE_SHIFT. intros Hg Hs Hga Hsa Hw.
  change (PAGE_SIZE - 1) with (Z.ones 12) in *. rewrite Z.land_ones in Hga, Hsa by lia.
  rewrite !Z.shiftr_div_pow2 by lia. change (2 ^ 12) with 4096 in *.
  assert (gpa + sz < 2 ^ 64).
  { destruct (Z.lt_ge_cases (gpa + sz) (2 ^ 64)) as [|Hge]; [done|]. exfalso.
    unfold wrap in Hw. replace (gpa + sz) with ((gpa + sz - 2 ^ 64) + 1 * 2 ^ 64) in Hw by lia.
    rewrite Z.mod_add, Z.mod_small in Hw by lia. lia. }
  pose proof (Z.div_mod gpa 4096 ltac:(lia)). pose proof (Z.div_mod sz 4096 ltac:(lia)). lia.
Qed.

Section Checks.
Context (have_readonly : bool) (access_ok : Z → Z → bool).

(** Every result of the checks that stops the call is 0 (nothing to change),
    -EINVAL or -EEXIST; otherwise the request is one the rest relies on. *)
Lemma mr_checks_spec (mem : memory_region) (vm : vm_mem) :
  region_typed mem →
  match mr_checks have_readonly access_ok mem vm with
  | inl r => r = 0 ∨ r = - EINVAL ∨ r = - EEXIST
  | inr (old, new, change) =>
      0 <= Z.shiftr mem.(m_slot) 16 < VMRUN_ADDRESS_SPACE_NUM ∧
      accepted (__vmrun_memslots vm (Z.shiftr mem.(m_slot) 16)) (u16 mem.(m_slot)) old new change
  end.
Proof using Type.
  intros [Hslot Hflags Hgpa Hsz Huaddr]. unfold mr_checks.
  assert (Hfl : vmrun_check_memory_region_flags have_readonly mem = 0 ∨
                vmrun_check_memory_region_flags have_readonly mem = - EINVAL)
    by (unfold vmrun_check_memory_region_flags; case_match; auto).
  destruct (truth (vmrun_check_memory_region_flags _ _)) eqn:E0; [by destruct Hfl as [->| ->]; auto|].
  cbv zeta. set (as_id := Z.shiftr (m_slot mem) 16). set (i := u16 (m_slot mem)).
  destruct (truth (Z.land (m_memory_size mem) _)) eqn:E1; [auto|].
  destruct (truth (Z.land (m_guest_phys_addr mem) _)) eqn:E2; [auto|].
  destruct (_ && (_ || _)); [auto|].
  destruct ((as_id >=? VMRUN_ADDRESS_SPACE_NUM) || (i >=? VMRUN_MEM_SLOTS_NUM)) eqn:E3; [auto|].
  destruct (Z.ltb_spec (u64 (m_guest_phys_addr mem + m_memory_size mem)) (m_guest_phys_addr mem))
    as [|Hnowrap]; [auto|].
  set (old := id_to_memslot (__vmrun_memslots vm as_id) i).
  destruct (page_range _ _ Hgpa Hsz (truth_false _ E2) (truth_false _ E1) Hnowrap) as (Hb & Hn & He).
  set (base := Z.shiftr (m_guest_phys_addr mem) PAGE_SHIFT) in *.
  set (n := Z.shiftr (m_memory_size mem) PAGE_SHIFT) in *.
  destruct (n >? VMRUN_MEM_MAX_NR_PAGES) eqn:E4; [auto|]. rewrite Z.gtb_ltb, Z.ltb_ge in E4.
  apply orb_false_iff in E3 as [Ha Hi]. rewrite Z.geb_leb, Z.leb_gt in Ha, Hi.
  assert (Hi0 : 0 <= i < VMRUN_MEM_SLOTS_NUM) by (pose proof (is_u_wrap 16 (m_slot mem)); unfold is_u in *; lia).
  assert (Ha0 : 0 <= as_id < VMRUN_ADDRESS_SPACE_NUM)
    by (split; [apply Z.shiftr_nonneg; apply Hslot|done]).
  set (new := old <| id := s16 i |> <| base_gfn := base |> <| npages := n |> <| flags := m_flags mem |>).
  assert (Hid : id new = i) by (by apply s16_small).
  assert (Hcl : match mr_classify mem old new base n with
    | inl r => r = 0 ∨ r = - EINVAL ∨ r = - EEXIST
    | inr (change, new') =>
        (check_overlap (__vmrun_memslots vm as_id) i base n = false ∨
         ¬ (change = VMRUN_MR_CREATE ∨ change = VMRUN_MR_MOVE)) →
        accepted (__vmrun_memslots vm as_id) i old new' change
    end).
  { unfold mr_classify.
    destruct (Z.eqb_spec n 0), (Z.eqb_spec (npages old) 0); cbn [negb]; auto.
    - intros Hov. split; cbn; auto; try lia. by intros [|].
    - intros Hov. split; cbn; auto; intros; tauto.
    - destruct (_ || _ || _) eqn:E5; [auto|]. apply orb_false_iff in E5 as [[_ E5]%orb_false_iff _].
      apply negb_false_iff, Z.eqb_eq in E5.
      destruct (Z.eqb_spec base (base_gfn old)); cbn [negb]; [destruct (negb _); [|auto]|];
        intros Hov; split; cbn; auto; intros; tauto. }
  destruct (mr_classify mem old new base n) as [r|[change new']]; [done|].
  destruct (bool_decide _ && _) eqn:Eo; [auto|]. split; [done|].
  assert (Hacc : accepted (__vmrun_memslots vm as_id) i old new' change).
  { apply Hcl. apply andb_false_iff in Eo as [Eo%bool_decide_eq_false|Eo]; auto. }
  destruct (negb _); [|done]. destruct Hacc. split; cbn; auto.
Qed.
End Checks.

(* ------------------------------------------------------------------ *)
(** ** What makes a request valid *)

(** The rules for a request of user space, with [old] the slot it names. *)
Record region_valid (hr : bool) (access_ok : Z → Z → bool) (old : vmrun_memory_slot) (mem : memory_region) : Prop := {
  rv_flags : mem.(m_flags) < if hr then 4 else 2;
  rv_size : mem.(m_memory_size) mod 4096 = 0;
  rv_gpa : mem.(m_guest_phys_addr) mod 4096 = 0;
  rv_uaddr : mem.(m_userspace_addr) mod 4096 = 0;
  rv_access : access_ok mem.(m_userspace_addr) mem.(m_memory_size) = true;
  rv_space : mem.(m_slot) / 2 ^ 16 < 2;
  rv_slot : mem.(m_slot) mod 2 ^ 16 < VMRUN_USER_MEM_SLOTS;
  rv_end : mem.(m_guest_phys_addr) + mem.(m_memory_size) < 2 ^ 64;
  rv_pages : mem.(m_memory_size) / 4096 <= VMRUN_MEM_MAX_NR_PAGES;
  (* only a slot that is in use can be deleted, and its memory and whether it
     is read-only cannot change *)
  rv_delete : mem.(m_memory_size) / 4096 = 0 → old.(npages) ≠ 0;
  rv_change : mem.(m_memory_size) / 4096 ≠ 0 → old.(npages) ≠ 0 →
    mem.(m_userspace_addr) = old.(userspace_addr) ∧ mem.(m_memory_size) / 4096 = old.(npages) ∧
    Z.testbit mem.(m_flags) 1 = Z.testbit old.(flags) 1
}.

(** A created or moved slot would share a frame with another user slot. *)
Definition region_clash (slots : vmrun_memslots) (i : Z) (old : vmrun_memory_slot) (mem : memory_region) : Prop :=
  let base := mem.(m_guest_phys_addr) / 4096 in let n := mem.(m_memory_size) / 4096 in
  n ≠ 0 ∧ (old.(npages) = 0 ∨ base ≠ old.(base_gfn)) ∧
  ∃ s g, s ∈ slots.(memslots) ∧ user_slot s ∧ s.(id) ≠ i ∧ contains s g ∧ base <= g < base + n.

Lemma each_memslot_in (ms : list vmrun_memory_slot) (s : vmrun_memory_slot) :
  s ∈ each_memslot ms → s ∈ ms ∧ s.(npages) ≠ 0.
Proof.
  induction ms as [|x ms IH]; cbn; [by intros ?%elem_of_nil|]. destruct (Z.eqb_spec (npages x) 0); [by intros ?%elem_of_nil|].
  intros [->|[? ?]%IH]%elem_of_cons; split; try done; [left|by right].
Qed.

(** The overlap check finds exactly the frames that are shared. *)
Lemma check_overlap_exact (slots : vmrun_memslots) (i base n : Z) :
  space_ok slots → 0 <= base → 0 < n → base + n <= 2 ^ 52 →
  check_overlap slots i base n = true ↔
  ∃ s g, s ∈ slots.(memslots) ∧ user_slot s ∧ s.(id) ≠ i ∧ contains s g ∧ base <= g < base + n.
Proof.
  intros Hsp Hb Hn He. split.
  - unfold check_overlap. rewrite existsb_exists. intros (s & Hs & Hc). rewrite <- list_elem_of_In in Hs.
    destruct (each_memslot_in _ _ Hs) as [Hin H0]. apply andb_true_iff in Hc as [Hid Ho].
    apply negb_true_iff, orb_false_iff in Hid as [Hu Hne]. rewrite Z.geb_leb, Z.leb_gt in Hu. apply Z.eqb_neq in Hne.
    pose proof (sp_slots _ Hsp) as Hall. rewrite Forall_forall in Hall. destruct (Hall s Hin) as [B1 B2 B3 _].
    unfold overlaps in Ho. rewrite !wrap_id in Ho by (split; lia). rewrite Z.geb_leb in Ho.
    apply negb_true_iff, orb_false_iff in Ho as [H1 H2]. rewrite Z.leb_gt in H1, H2.
    exists s, (Z.max base s.(base_gfn)). split_and!; try done; unfold contains; lia.
  - intros (s & g & Hs & Hu & Hne & Hc & Hg). destruct (check_overlap slots i base n) eqn:E; [done|].
    by destruct (check_overlap_spec slots i base n g s Hsp Hb ltac:(lia) He E Hs Hu Hne Hc).
Qed.

Lemma low_bits_mod (x : Z) : truth (Z.land x (PAGE_SIZE - 1)) = negb (x mod 4096 =? 0).
Proof. change (PAGE_SIZE - 1) with (Z.ones 12). rewrite Z.land_ones by lia. done. Qed.

Lemma flags_valid (hr : bool) (mem : memory_region) :
  is_u 32 mem.(m_flags) →
  vmrun_check_memory_region_flags hr mem = if mem.(m_flags) <? (if hr then 4 else 2) then 0 else - EINVAL.
Proof.
  intros [H0 H1]. unfold vmrun_check_memory_region_flags. set (f := m_flags mem) in *.
  assert (E : ∀ k, 0 <= k → truth (Z.land f (not32 (Z.ones k))) = negb (f <? 2 ^ k)).
  { intros k Hk. destruct (Z.ltb_spec f (2 ^ k)) as [Hf|Hf]; cbn [negb].
    - replace (Z.land f (not32 (Z.ones k))) with 0; [done|]. symmetry. apply Z.bits_inj'. intros j Hj. rewrite Z.bits_0, Z.land_spec.
      destruct (Z.lt_ge_cases j k) as [Hjk|Hjk].
      + unfold not32. rewrite wrap_testbit, Z.lnot_spec, Z.ones_spec_low by lia. by rewrite !andb_false_r.
      + rewrite (is_u_testbit k f j); [done|split; lia|lia].
    - apply truth_nonzero. intros E. assert (Hlt : f < 2 ^ k); [|lia].
      assert (Ef : f = Z.land f (Z.ones k)).
      { apply Z.bits_inj'. intros j Hj. assert (Hb : Z.testbit (Z.land f (not32 (Z.ones k))) j = false) by by rewrite E, Z.bits_0.
        rewrite Z.land_spec in Hb. rewrite Z.land_spec. destruct (Z.lt_ge_cases j 32) as [Hj32|Hj32].
        - unfold not32 in Hb. rewrite wrap_testbit, Z.lnot_spec in Hb by lia. replace (j <? 32) with true in Hb by lia. rewrite andb_true_l in Hb.
          destruct (Z.testbit f j); [|done]. cbn in Hb. by apply negb_false_iff in Hb as ->.
        - rewrite (is_u_testbit 32 f j); [done|by split|lia]. }
      rewrite Ef, Z.land_ones by lia. apply Z.mod_pos_bound. lia. }
  destruct hr; [change (Z.lor _ _) with (Z.ones 2); rewrite (E 2) by lia; change (2 ^ 2) with 4
               |change VMRUN_MEM_LOG_DIRTY_PAGES with (Z.ones 1); rewrite (E 1) by lia; change (2 ^ 1) with 2]; by destruct (_ <? _).
Qed.

Section Exact.
Context (hr : bool) (access_ok : Z → Z → bool) (mem : memory_region) (vm : vm_mem).
Notation as_id := (Z.shiftr mem.(m_slot) 16).
Notation i := (u16 mem.(m_slot)).
Notation slots := (__vmrun_memslots vm as_id).
Notation old := (id_to_memslot slots i).
Notation valid := (region_valid hr access_ok old mem).
Notation clash := (region_clash slots i old mem).

Definition verdict (r : Z) : Prop :=
  r = - EINVAL ∧ ¬ valid ∨ r = - EEXIST ∧ valid ∧ clash ∨ r = 0 ∧ valid ∧ ¬ clash.

Lemma refuse : ¬ valid → verdict (- EINVAL).
Proof using Type. intros H. by left. Qed.

(** The checks up to the classification accept exactly the valid requests. *)
Lemma mr_classify_exact (base n : Z) (new : vmrun_memory_slot) :
  base = mem.(m_guest_phys_addr) / 4096 → n = mem.(m_memory_size) / 4096 → new.(flags) = mem.(m_flags) →
  match mr_classify mem old new base n with
  | inl r => r = - EINVAL ∧ ¬ valid ∨
             r = 0 ∧ ¬ clash ∧ n ≠ 0 ∧ old.(npages) ≠ 0 ∧ mem.(m_userspace_addr) = old.(userspace_addr) ∧ n = old.(npages) ∧
             Z.testbit mem.(m_flags) 1 = Z.testbit old.(flags) 1
  | inr (change, _) =>
      (n = 0 → old.(npages) ≠ 0) ∧
      (n ≠ 0 → old.(npages) ≠ 0 → mem.(m_userspace_addr) = old.(userspace_addr) ∧ n = old.(npages) ∧
         Z.testbit mem.(m_flags) 1 = Z.testbit old.(flags) 1) ∧
      (change = VMRUN_MR_CREATE ∨ change = VMRUN_MR_MOVE ↔ n ≠ 0 ∧ (old.(npages) = 0 ∨ base ≠ old.(base_gfn)))
  end.
Proof using Type.
  intros Eb En Ef. unfold mr_classify. destruct (Z.eqb_spec n 0) as [Hn|Hn]; cbn [negb].
  - destruct (Z.eqb_spec (npages old) 0) as [Ho|Ho].
    + left. split; [done|]. intros V. apply (rv_delete _ _ _ _ V); [by rewrite <- En|done].
    + split; [done|]. split; [done|]. split; [intros [|]; done|tauto].
  - destruct (Z.eqb_spec (npages old) 0) as [Ho|Ho].
    + split; [done|]. split; [done|]. split; [intros _; tauto|by left].
    + destruct (negb _ || negb _ || truth _) eqn:E.
      * left. split; [done|]. intros V. destruct (rv_change _ _ _ _ V) as (V1 & V2 & V3); [by rewrite <- En|done|].
        rewrite <- En in V2. rewrite V1, V2, !Z.eqb_refl in E. cbn [negb orb] in E. change VMRUN_MEM_READONLY with (BIT 1) in E.
        rewrite truth_land_BIT, Z.lxor_spec, Ef, V3 in E by lia. by destruct (Z.testbit _ 1).
      * apply orb_false_iff in E as [[E1 E2]%orb_false_iff E3]. apply negb_false_iff, Z.eqb_eq in E1, E2.
        change VMRUN_MEM_READONLY with (BIT 1) in E3. rewrite truth_land_BIT, Z.lxor_spec, Ef in E3 by lia.
        assert (E4 : Z.testbit (m_flags mem) 1 = Z.testbit (flags old) 1) by (by destruct (Z.testbit (m_flags mem) 1), (Z.testbit (flags old) 1)).
        destruct (Z.eqb_spec base (base_gfn old)) as [Hb|Hb]; cbn [negb]; [destruct (negb _)|].
        -- split; [done|]. split; [done|]. split; [by intros [|]|]. intros [_ [?|?]]; done.
        -- right. split; [done|]. split; [|by split_and!]. intros (_ & [?|Hc] & _); [done|]. apply Hc. by rewrite <- Eb.
        -- split; [done|]. split; [done|]. split; [intros _; tauto|by right].
Qed.

Lemma mr_checks_exact :
  vm_ok vm → region_typed mem → i < VMRUN_USER_MEM_SLOTS →
  match mr_checks hr access_ok mem vm with inl r => verdict r | inr _ => valid ∧ ¬ clash end.
Proof using Type.
  intros Hvm [Hslot Hflags Hgpa Hsz Huaddr] Hi. unfold mr_checks. rewrite flags_valid by done.
  destruct (Z.ltb_spec (m_flags mem) (if hr then 4 else 2)) as [V1|V1]; [|apply refuse; intros V; apply rv_flags in V; lia].
  change (truth 0) with false. cbv iota zeta. rewrite !low_bits_mod.
  destruct (Z.eqb_spec (m_memory_size mem mod 4096) 0) as [V2|V2]; cbn [negb]; [|apply refuse; by intros V%rv_size].
  destruct (Z.eqb_spec (m_guest_phys_addr mem mod 4096) 0) as [V3|V3]; cbn [negb]; [|apply refuse; by intros V%rv_gpa].
  replace (i <? VMRUN_USER_MEM_SLOTS) with true by lia. cbn [andb].
  destruct (Z.eqb_spec (m_userspace_addr mem mod 4096) 0) as [V4|V4]; cbn [negb orb]; [|apply refuse; by intros V%rv_uaddr].
  destruct (access_ok (m_userspace_addr mem) (m_memory_size mem)) eqn:V5; cbn [negb]; [|apply refuse; intros V%rv_access; congruence].
  assert (Eas : as_id = m_slot mem / 2 ^ 16) by (by rewrite Z.shiftr_div_pow2 by lia).
  destruct (Z.ltb_spec as_id 2) as [V6|V6].
  2: { change VMRUN_ADDRESS_SPACE_NUM with 2. rewrite Z.geb_leb. replace (2 <=? as_id) with true by lia. cbn [orb].
       apply refuse. intros V%rv_space. lia. }
  change VMRUN_ADDRESS_SPACE_NUM with 2. rewrite !Z.geb_leb. replace (2 <=? as_id) with false by lia.
  replace (VMRUN_MEM_SLOTS_NUM <=? i) with false by (unfold VMRUN_MEM_SLOTS_NUM, VMRUN_PRIVATE_MEM_SLOTS in *; lia). cbn [orb].
  destruct (Z.ltb_spec (u64 (m_guest_phys_addr mem + m_memory_size mem)) (m_guest_phys_addr mem)) as [V7|V7].
  { apply refuse. intros V%rv_end. rewrite wrap_id in V7 by (unfold is_u in *; lia). unfold is_u in *. lia. }
  assert (Vend : m_guest_phys_addr mem + m_memory_size mem < 2 ^ 64).
  { unfold is_u in *. destruct (Z.lt_ge_cases (m_guest_phys_addr mem + m_memory_size mem) (2 ^ 64)) as [?|Hge]; [done|]. exfalso. unfold wrap in V7.
    replace (m_guest_phys_addr mem + m_memory_size mem) with ((m_guest_phys_addr mem + m_memory_size mem - 2 ^ 64) + 1 * 2 ^ 64) in V7 by lia.
    rewrite Z.mod_add, Z.mod_small in V7 by lia. lia. }
  assert (L2 : Z.land (m_memory_size mem) (PAGE_SIZE - 1) = 0) by (apply truth_false; rewrite low_bits_mod, V2; done).
  assert (L3 : Z.land (m_guest_phys_addr mem) (PAGE_SIZE - 1) = 0) by (apply truth_false; rewrite low_bits_mod, V3; done).
  destruct (page_range _ _ Hgpa Hsz L3 L2 V7) as (Hb & Hn & He).
  assert (En : Z.shiftr (m_memory_size mem) PAGE_SHIFT = m_memory_size mem / 4096) by (unfold PAGE_SHIFT; by rewrite Z.shiftr_div_pow2 by lia).
  assert (Eb : Z.shiftr (m_guest_phys_addr mem) PAGE_SHIFT = m_guest_phys_addr mem / 4096) by (unfold PAGE_SHIFT; by rewrite Z.shiftr_div_pow2 by lia).
  rewrite Eb, En in *. rewrite Z.gtb_ltb.
  destruct (Z.ltb_spec VMRUN_MEM_MAX_NR_PAGES (m_memory_size mem / 4096)) as [V8|V8]; [apply refuse; intros V%rv_pages; lia|].
  pose proof (mr_classify_exact (m_guest_phys_addr mem / 4096) (m_memory_size mem / 4096)
    (old <| id := s16 i |> <| base_gfn := m_guest_phys_addr mem / 4096 |> <| npages := m_memory_size mem / 4096 |> <| flags := m_flags mem |>)
    eq_refl eq_refl eq_refl) as Hcl.
  assert (Hv : (m_memory_size mem / 4096 = 0 → npages old ≠ 0) →
    (m_memory_size mem / 4096 ≠ 0 → npages old ≠ 0 → m_userspace_addr mem = userspace_addr old ∧ m_memory_size mem / 4096 = npages old ∧
       Z.testbit (m_flags mem) 1 = Z.testbit (flags old) 1) → valid).
  { intros ? ?. split; try done. by rewrite <- Eas. }
  destruct (mr_classify _ _ _ _ _) as [r|[change new]].
  { destruct Hcl as [Hcl|(-> & Hnc & Hcl)]; [by left|]. right; right. split; [done|]. split; [|done]. apply Hv; tauto. }
  destruct Hcl as (Hc1 & Hc2 & Hc3). specialize (Hv Hc1 Hc2).
  assert (Hsp : space_ok slots).
  { destruct Hvm as [Hlen Hall _]. unfold __vmrun_memslots. assert (0 <= as_id) by (apply Z.shiftr_nonneg, Hslot).
    destruct (lookup_lt_is_Some_2 (spaces vm) (Z.to_nat as_id)) as [sp Hs]; [lia|].
    rewrite (list_lookup_total_correct _ _ _ Hs). by apply (Forall_lookup_1 _ _ _ _ Hall Hs). }
  destruct (bool_decide _) eqn:Ec; cbn [andb].
  - apply bool_decide_eq_true in Ec. apply Hc3 in Ec as [Hn0 Hmv].
    pose proof (check_overlap_exact slots i (m_guest_phys_addr mem / 4096) (m_memory_size mem / 4096) Hsp Hb ltac:(lia) He) as Ho.
    destruct (check_overlap _ _ _ _).
    + right; left. split; [done|]. split; [done|]. split; [done|]. split; [done|]. by apply Ho.
    + split; [done|]. intros (_ & _ & Hx). apply Ho in Hx. done.
  - apply bool_decide_eq_false in Ec. split; [done|]. intros (H1 & H2 & _). apply Ec, Hc3. by split.
Qed.
End Exact.

(* ------------------------------------------------------------------ *)
(** ** What an accepted request leaves behind *)

(** Slot [s] is what the request asks for. *)
Definition as_requested (mem : memory_region) (s : vmrun_memory_slot) : Prop :=
  s.(npages) = Z.shiftr mem.(m_memory_size) PAGE_SHIFT ∧
  (s.(npages) ≠ 0 →
   s.(base_gfn) = Z.shiftr mem.(m_guest_phys_addr) PAGE_SHIFT ∧
   s.(flags) = mem.(m_flags) ∧ s.(userspace_addr) = mem.(m_userspace_addr)).

(** The last assignment to [new] leaves its range alone. *)
Ltac requested :=
  destruct (negb (truth (Z.land _ VMRUN_MEM_LOG_DIRTY_PAGES)));
  (split; cbn; [done|intros; split_and!; first [done|lia]]).

(** A request that stops with 0 asks for what is there; one that goes on
    carries its arguments in [new]. *)
Lemma mr_checks_requested (hr : bool) (access_ok : Z → Z → bool) (mem : memory_region) (vm : vm_mem) :
  match mr_checks hr access_ok mem vm with
  | inl r => r = 0 →
      as_requested mem (id_to_memslot (__vmrun_memslots vm (Z.shiftr mem.(m_slot) 16)) (u16 mem.(m_slot)))
  | inr (old, new, change) =>
      as_requested mem (if bool_decide (change = VMRUN_MR_CREATE)
                        then new <| userspace_addr := mem.(m_userspace_addr) |> else new)
  end.
Proof.
  unfold mr_checks, vmrun_check_memory_region_flags, mr_classify. cbv zeta.
  set (old := id_to_memslot _ _). set (n := Z.shiftr (m_memory_size mem) PAGE_SHIFT).
  assert (Hrefuse : ∀ r, r = - EINVAL ∨ r = - EEXIST → r = 0 → as_requested mem old)
    by (by intros r [->| ->]).
  destruct (truth (Z.land (m_flags mem) _)); [exact (Hrefuse (- EINVAL) ltac:(by left))|].
  change (truth 0) with false.
  cbv iota. repeat match goal with
  | |- context [if ?b then inl (- EINVAL) else _] => destruct b; [exact (Hrefuse (- EINVAL) ltac:(by left))|]
  end.
  destruct (Z.eqb_spec n 0) as [Hn|Hn]; cbn [negb].
  - destruct (Z.eqb_spec (npages old) 0); [exact (Hrefuse (- EINVAL) ltac:(by left))|]. rewrite bool_decide_eq_false_2 by (by intros [|]).
    cbn [andb]. rewrite bool_decide_eq_false_2 by done.
    requested.
  - destruct (Z.eqb_spec (npages old) 0) as [Ho|Ho].
    + destruct (_ && _); [exact (Hrefuse (- EEXIST) ltac:(by right))|]. rewrite bool_decide_eq_true_2 by done.
      requested.
    + destruct (_ || _ || _) eqn:E5; [exact (Hrefuse (- EINVAL) ltac:(by left))|]. apply orb_false_iff in E5 as [[E6 E7]%orb_false_iff _].
      apply negb_false_iff, Z.eqb_eq in E6, E7.
      destruct (Z.eqb_spec (Z.shiftr (m_guest_phys_addr mem) PAGE_SHIFT) (base_gfn old)) as [Eb|Eb].
      * cbn [negb flags]. destruct (negb _) eqn:Ef.
        -- rewrite bool_decide_eq_false_2 by (by intros [|]). cbn [andb].
           rewrite bool_decide_eq_false_2 by done. requested.
        -- intros _. apply negb_false_iff, Z.eqb_eq in Ef. cbn in Ef. split; [done|]. by rewrite Eb.
      * cbn [negb]. destruct (_ && _); [exact (Hrefuse (- EEXIST) ltac:(by right))|]. rewrite bool_decide_eq_false_2 by done.
        requested.
Qed.

(* ------------------------------------------------------------------ *)
(** ** Installing an accepted request *)

(** [new'] is the accepted slot with its arrays filled in. *)
Record same_range (new new' : vmrun_memory_slot) : Prop := {
  sr_id : new'.(id) = new.(id);
  sr_base : new'.(base_gfn) = new.(base_gfn);
  sr_npages : new'.(npages) = new.(npages);
  sr_unused : new'.(npages) = 0 → new'.(arch) = null_arch ∧ new'.(dirty_bitmap) = 0
}.

Lemma accepted_updated (slots : vmrun_memslots) (i : Z) (old new new' : vmrun_memory_slot)
    (change : vmrun_mr_change) :
  space_ok slots → accepted slots i old new change → same_range new new' →
  updated slots new' (vmrun_update_memslots slots new').
Proof.
  intros [Hwf _ _] [Hi Hold Hid Hb Hn He _ _ Hch _] [Sid Sb Sn _].
  apply update_memslots_updated; [done|congruence|]. rewrite Sid, Hid, Hold.
  unfold used, empty_slot. rewrite Sb, Sn. destruct change; lia.
Qed.

Lemma updated_disjoint (slots : vmrun_memslots) (i : Z) (old new new' : vmrun_memory_slot)
    (change : vmrun_mr_change) (s : vmrun_memory_slot) (g : Z) :
  space_ok slots → accepted slots i old new change → same_range new new' →
  s ∈ slots.(memslots) → s.(id) ≠ i → user_slot s → user_slot new' →
  contains s g → contains new' g → False.
Proof.
  intros Hsp [Hi Hold Hid Hb Hn He _ _ Hch Hov] [Sid Sb Sn _] Hs Hne Hu Hu' Hc Hc'.
  assert (Hr : new.(base_gfn) <= g < new.(base_gfn) + new.(npages))
    by (unfold contains in Hc'; rewrite Sb, Sn in Hc'; done).
  destruct (decide (change = VMRUN_MR_CREATE ∨ change = VMRUN_MR_MOVE)) as [Hcm|Hncm].
  - by apply (check_overlap_spec slots i (base_gfn new) (npages new) g s Hsp); auto; lia.
  - destruct change; try tauto; [lia|]. destruct Hch as (_ & E1 & E2).
    destruct (id_to_memslot_in slots i (sp_wf _ Hsp) Hi) as [Hin Hio]. rewrite Hold in Hin, Hio.
    assert (s = old); [|congruence]. unfold user_slot in *.
    apply (sp_disjoint _ Hsp g); try done; unfold user_slot, contains; [congruence|].
    rewrite <- E1, <- E2. done.
Qed.

Lemma space_ok_update (slots : vmrun_memslots) (i : Z) (old new new' : vmrun_memory_slot)
    (change : vmrun_mr_change) :
  space_ok slots → accepted slots i old new change → same_range new new' →
  space_ok (vmrun_update_memslots slots new').
Proof.
  intros Hsp Hac Hsr. pose proof (accepted_updated _ _ _ _ _ _ Hsp Hac Hsr) as
    [(L & y & R & L' & R' & Hms & Hyid & Heq & Hms') _ Hwf'].
  assert (Hold : ∀ s, s ∈ L' ++ R' → s ∈ slots.(memslots) ∧ s.(id) ≠ i).
  { intros s. rewrite Heq. intros Hs. split; [rewrite Hms; set_solver|].
    pose proof (wf_nodup _ (sp_wf _ Hsp)) as Hnd. rewrite Hms, fmap_app, fmap_cons in Hnd.
    apply NoDup_app in Hnd as (_ & Hd & [Hny _]%NoDup_cons).
    assert (Hi : id y = i) by (rewrite Hyid, (sr_id _ _ Hsr); apply Hac). rewrite <- Hi.
    apply elem_of_app in Hs as [Hs|Hs]; apply (list_elem_of_fmap_2 id) in Hs.
    - intros E. apply (Hd (id s) Hs). rewrite E. set_solver.
    - intros E. apply Hny. by rewrite <- E. }
  split; [done| |].
  - rewrite Hms'. assert (Ho := sp_slots _ Hsp). rewrite Forall_forall in Ho |- *.
    intros s Hs. assert (s = new' ∨ s ∈ L' ++ R') as [->|Hs'] by set_solver; [|by apply Ho, Hold].
    destruct Hac, Hsr as [Sid Sb Sn Su]. split; rewrite ?Sb, ?Sn; auto.
    intros H0. rewrite <- Sn in H0. split; [|by apply Su]. destruct change; lia.
  - rewrite Hms'. intros g s t Hs Ht Hus Hut Hcs Hct.
    assert (s = new' ∨ s ∈ L' ++ R') as [->|Hs'] by set_solver;
    assert (t = new' ∨ t ∈ L' ++ R') as [->|Ht'] by set_solver; [done|exfalso..|].
    + destruct (Hold t Ht'). by eapply (updated_disjoint slots i old new new' change t g).
    + destruct (Hold s Hs'). by eapply (updated_disjoint slots i old new new' change s g).
    + by apply (sp_disjoint _ Hsp g); try done; apply Hold.
Qed.

(** Changing flags and generation does not matter to the invariant. *)
Lemma space_ok_generation (slots : vmrun_memslots) (g : Z) :
  space_ok slots → space_ok (slots <| generation := g |>).
Proof. intros [[] ? ?]. split; [split|..]; done. Qed.

(* ------------------------------------------------------------------ *)
(** ** Allocations of a slot *)

(** [h] is [h0] with the fresh blocks [ps] added, and some of the answers of the
    allocator used up. *)
Record extends (h0 : heap) (ps : gset Z) (h : heap) : Prop := {
  ex_same : ∀ p, p ∉ ps → h.(blocks) !! p = h0.(blocks) !! p;
  ex_range : ∀ p, p ∈ ps → h0.(next_ptr) <= p < h.(next_ptr);
  ex_next : h0.(next_ptr) <= h.(next_ptr);
  ex_ok : heap_ok h0;
  ex_live : ∀ p, p ∈ ps → is_Some (h.(blocks) !! p);
  ex_oracle : h.(oracle) `suffix_of` h0.(oracle)
}.

Lemma extends_refl (h : heap) : heap_ok h → extends h ∅ h.
Proof. intros H. split; [done|set_solver|lia|done|set_solver|done]. Qed.

Lemma extends_nil (h0 h : heap) :
  extends h0 ∅ h → h.(blocks) = h0.(blocks) ∧ heap_ok h ∧ h.(oracle) `suffix_of` h0.(oracle).
Proof.
  intros [Hs _ Hn [H0 Hf] _ Ho]. assert (E : blocks h = blocks h0) by (apply map_eq; intros p; apply Hs; set_solver).
  split; [done|]. split; [|done]. split; [lia|]. rewrite E. intros p Hp%Hf. lia.
Qed.

Lemma extends_heap_ok (h0 h : heap) (ps : gset Z) : extends h0 ps h → heap_ok h.
Proof.
  intros [Hs Hr Hn [H0 Hf]]. split; [lia|]. intros p Hp.
  destruct (decide (p ∈ ps)) as [Hin|Hin]; [specialize (Hr p Hin); lia|].
  rewrite Hs in Hp by done. apply Hf in Hp. lia.
Qed.

Lemma extends_alloc (h0 h : heap) (ps : gset Z) (n : Z) :
  extends h0 ps h →
  ∃ p h', kvzalloc n h = (p, h') ∧
    (p = 0 ∧ extends h0 ps h' ∧ false ∈ h0.(oracle) ∨ p ≠ 0 ∧ extends h0 ({[p]} ∪ ps) h').
Proof.
  intros Hx. pose proof Hx as [Hs Hr Hn [H0 Hf] Hl [used Ho]]. unfold kvzalloc.
  destruct (oracle h) as [|[] rest] eqn:Eo.
  3: { eexists _, _. split; [reflexivity|]. left. split; [done|]. split; [|rewrite Ho; set_solver].
       split; try done. exists (used ++ [false]). by rewrite <- app_assoc. }
  all: eexists _, _; (split; [reflexivity|]); right; (split; [lia|]).
  all: split; cbn; try lia; try done; try by split.
  all: try (intros p Hp; rewrite lookup_insert_ne by set_solver; apply Hs; set_solver).
  all: try (intros p [->%elem_of_singleton|Hp]%elem_of_union; [lia|]; specialize (Hr p Hp); lia).
  all: try (intros p [->%elem_of_singleton|Hp]%elem_of_union; apply lookup_insert_is_Some'; auto).
  - by exists used.
  - exists (used ++ [true]). by rewrite <- app_assoc.
Qed.

Lemma extends_free (h0 h : heap) (ps : gset Z) (p : Z) :
  extends h0 ps h → p = 0 ∨ p ∈ ps → extends h0 (ps ∖ {[p]}) (kvfree p h).
Proof.
  intros [Hs Hr Hn [H0 Hf] Hl Ho] Hp. unfold kvfree. destruct (Z.eqb_spec p 0) as [->|Hp0].
  - assert (0 ∉ ps) by (intros Hin%Hr; lia).
    split; [intros q Hq; apply Hs; set_solver|intros q Hq; apply Hr; set_solver|done|by split|set_solver|done].
  - destruct Hp as [?|Hp]; [done|]. specialize (Hr p Hp) as Hpr.
    split; cbn; [|intros q Hq; apply Hr; set_solver|lia|by split| |done].
    + intros q Hq. destruct (decide (q = p)) as [->|Hne].
      * rewrite lookup_delete_eq. destruct (blocks h0 !! p) as [b|] eqn:E; [|done].
        exfalso. specialize (Hf p ltac:(eauto)). lia.
      * rewrite lookup_delete_ne by done. apply Hs. set_solver.
    + intros q [Hq Hne%not_elem_of_singleton]%elem_of_difference. rewrite lookup_delete_ne by done. by apply Hl.
Qed.

(** Freeing all of them, and possibly null pointers, gives back the heap. *)
Lemma extends_free_all (h0 h : heap) (ps : gset Z) (l : list Z) :
  extends h0 ps h → ps ⊆ list_to_set l → Forall (λ p, p = 0 ∨ p ∈ ps) l → NoDup (filter (λ p, p ≠ 0) l) →
  extends h0 ∅ (foldl (λ h p, kvfree p h) h l).
Proof.
  revert ps h. induction l as [|p l IH]; intros ps h Hx Hsub Hall Hnd; cbn.
  - replace ∅ with ps by set_solver. done.
  - apply Forall_cons in Hall as [Hp Hall].
    assert (0 ∉ ps) by (intros Hin%(ex_range _ _ _ Hx); pose proof (hp_next _ (ex_ok _ _ _ Hx)); lia).
    apply (IH (ps ∖ {[p]})).
    + by apply extends_free.
    + set_solver.
    + rewrite Forall_forall in Hall |- *. intros q Hq. destruct (Hall q Hq) as [?|Hqp]; [by left|].
      right. rewrite elem_of_difference, elem_of_singleton. split; [done|]. intros ->.
      rewrite filter_cons_True in Hnd by set_solver. apply NoDup_cons in Hnd as [Hn _].
      apply Hn. apply list_elem_of_filter. set_solver.
    + destruct (decide (p ≠ 0)); [rewrite filter_cons_True in Hnd by done; by apply NoDup_cons in Hnd as [_ ?]
        |by rewrite filter_cons_False in Hnd].
Qed.

Lemma extends_write (h0 h : heap) (ps : gset Z) (p : Z) (f : list Z → list Z) :
  extends h0 ps h → p ∈ ps → extends h0 ps (write_block p f h).
Proof.
  intros [Hs Hr Hn H0 Hl Ho] Hp. split; cbn; try done; intros q Hq.
  - rewrite lookup_alter_ne by set_solver. by apply Hs.
  - apply lookup_alter_is_Some. by apply Hl.
Qed.

Lemma kvfree_null (h : heap) : kvfree 0 h = h.
Proof. done. Qed.

Definition mk_arch (p0 p1 p2 q0 q1 t : Z) : vmrun_arch_memory_slot :=
  {| rmap := [p0; p1; p2]; lpage_info := [q0; q1]; gfn_track := [t] |}.

(** Freeing all the levels of a slot. *)
Lemma free_levels_none (s : vmrun_memory_slot) (h : heap) (p0 p1 p2 q0 q1 t : Z) :
  s.(arch) = mk_arch p0 p1 p2 q0 q1 t →
  foldl (free_level None) (s, h) page_sizes
  = (s <| arch := mk_arch 0 0 0 0 0 t |>,
     kvfree q1 (kvfree p2 (kvfree q0 (kvfree p1 (kvfree p0 h))))).
Proof. destruct s as [? ? ? a ? ? ?]. cbn. by intros ->. Qed.

(** The pointers that [vmrun_free_memslot] frees, in order: those the slot does
    not share with [dont]. *)
Definition freed (dont : option vmrun_memory_slot) (s : vmrun_memory_slot) : list Z :=
  let some p (f : vmrun_memory_slot → Z) := if unshared p (f <$> dont) then [p] else [] in
  let rm i := some (s.(arch).(rmap) !!! i) (λ d, d.(arch).(rmap) !!! i) in
  let li i := some (s.(arch).(lpage_info) !!! i) (λ d, d.(arch).(lpage_info) !!! i) in
  some s.(dirty_bitmap) dirty_bitmap ++ rm 0%nat ++ rm 1%nat ++ li 0%nat ++ rm 2%nat ++ li 1%nat ++
  some (s.(arch).(gfn_track) !!! 0%nat) (λ d, d.(arch).(gfn_track) !!! 0%nat).

Definition free_all (h : heap) (l : list Z) : heap := foldl (λ h p, kvfree p h) h l.

Lemma free_all_app (h : heap) (l k : list Z) : free_all h (l ++ k) = free_all (free_all h l) k.
Proof. apply foldl_app. Qed.

Lemma free_memslot_heap (dont : option vmrun_memory_slot) (s : vmrun_memory_slot) (h : heap) (p0 p1 p2 q0 q1 t : Z) :
  s.(arch) = mk_arch p0 p1 p2 q0 q1 t → (vmrun_free_memslot dont (s, h)).2 = free_all h (freed dont s).
Proof.
  destruct s as [? ? db a ? ? ?]. cbn [arch]. intros ->.
  unfold vmrun_free_memslot, vmrun_arch_free_memslot, vmrun_page_track_free_memslot, vmrun_destroy_dirty_bitmap.
  change page_sizes with [0; 1; 2]%nat. change (seq 0 (Z.to_nat VMRUN_PAGE_TRACK_MAX)) with [0%nat].
  unfold freed, free_level, free_rmap, free_lpage_info, free_gfn_track.
  set (b := unshared db (dirty_bitmap <$> dont)). cbn -[Z.eqb kvfree unshared free_all]. fold b.
  match goal with |- context [if b then ?x else ?y] => set (st := if b then x else y) end.
  assert (Hst : st.1.(arch) = mk_arch p0 p1 p2 q0 q1 t ∧ st.2 = free_all h (if b then [db] else [])).
  { subst st. destruct b; [|done]. unfold free_all. cbn. unfold kvfree. by destruct (Z.eqb_spec db 0). }
  rewrite free_all_app. clearbody st. destruct st as [[? ? ? a ? ? ?] h1]. cbn [fst snd arch] in Hst. destruct Hst as [-> ->].
  clearbody b. generalize (free_all h (if b then [db] else [])). clear. intros h. unfold free_all. destruct dont as [d|].
  2: reflexivity.
  cbn -[Z.eqb kvfree unshared].
  repeat (match goal with |- context [unshared ?p ?q] => destruct (unshared p q) end; cbn -[Z.eqb kvfree unshared]); reflexivity.
Qed.

(** Nothing is shared with an unused slot. *)
Lemma free_memslot_new (s old : vmrun_memory_slot) (h : heap) (p0 p1 p2 q0 q1 t : Z) :
  s.(arch) = mk_arch p0 p1 p2 q0 q1 t → old.(arch) = null_arch → s.(dirty_bitmap) = old.(dirty_bitmap) →
  (vmrun_free_memslot (Some old) (s, h)).2 = free_all h [p0; p1; q0; p2; q1; t].
Proof.
  intros Ha Ho Hd. rewrite (free_memslot_heap _ _ _ p0 p1 p2 q0 q1 t Ha). unfold freed. rewrite Ha, Hd. cbn -[Z.eqb kvfree]. rewrite Ho. cbn -[Z.eqb kvfree].
  rewrite Z.eqb_refl. cbn [negb app].
  destruct (Z.eqb_spec p0 0), (Z.eqb_spec p1 0), (Z.eqb_spec q0 0), (Z.eqb_spec p2 0), (Z.eqb_spec q1 0), (Z.eqb_spec t 0); subst; reflexivity.
Qed.

(** Only the dirty bitmap is freed when the slots share their arrays. *)
Lemma freed_same (s old : vmrun_memory_slot) :
  s.(arch) = old.(arch) → freed (Some old) s = if s.(dirty_bitmap) =? old.(dirty_bitmap) then [] else [s.(dirty_bitmap)].
Proof.
  intros Ha. unfold freed. rewrite Ha. cbn -[Z.eqb]. rewrite !Z.eqb_refl. cbn [negb app]. by destruct (_ =? _).
Qed.

(** Nothing is freed when the slots share their arrays. *)
Lemma free_memslot_shared (s old : vmrun_memory_slot) (h : heap) :
  s.(arch) = old.(arch) → s.(dirty_bitmap) = old.(dirty_bitmap) ∨ s.(dirty_bitmap) = 0 →
  (vmrun_free_memslot (Some old) (s, h)).2 = h.
Proof.
  destruct s as [? ? db a ? ? ?], old as [? ? db' a' ? ? ?]. cbn. intros -> Hdb.
  unfold vmrun_free_memslot, vmrun_arch_free_memslot, vmrun_page_track_free_memslot.
  change page_sizes with [0; 1; 2]%nat. change (seq 0 (Z.to_nat VMRUN_PAGE_TRACK_MAX)) with [0%nat].
  set (st1 := if unshared _ _ then _ else _).
  assert (H1 : st1.2 = h ∧ st1.1.(arch) = a').
  { subst st1. cbn. unfold vmrun_destroy_dirty_bitmap. destruct Hdb as [->| ->]; cbn.
    - by rewrite Z.eqb_refl.
    - by destruct (negb _). }
  clearbody st1. destruct st1 as [[? ? ? a ? ? ?] h1]. cbn in H1. destruct H1 as [-> ->].
  cbn [foldl]. unfold free_level, free_rmap, free_lpage_info, free_gfn_track. cbn -[Z.eqb kvfree].
  by rewrite !Z.eqb_refl; cbn -[Z.eqb kvfree]; rewrite ?Z.eqb_refl; cbn -[Z.eqb kvfree];
     rewrite ?Z.eqb_refl; cbn -[Z.eqb kvfree]; rewrite ?Z.eqb_refl; cbn -[Z.eqb kvfree];
     rewrite ?Z.eqb_refl; cbn -[Z.eqb kvfree]; rewrite ?Z.eqb_refl.
Qed.

(** An allocation is fresh with respect to the blocks there. *)
Lemma alloc_fresh (h0 h h' : heap) (ps : gset Z) (n p : Z) :
  extends h0 ps h → kvzalloc n h = (p, h') → p ≠ 0 → p ∉ ps.
Proof.
  intros [_ Hr _ _]. unfold kvzalloc. destruct (oracle h) as [|[] ?]; intros [= <- <-] Hp; try done;
    intros Hin%Hr; lia.
Qed.

(** The pointers of a slot are exactly the blocks added, each once; a null
    pointer is there only after an allocation failed. *)
Record owns (h0 : heap) (l : list Z) (h : heap) : Prop := {
  ow_extends : extends h0 (list_to_set (filter (λ p, p ≠ 0) l)) h;
  ow_nodup : NoDup (filter (λ p, p ≠ 0) l);
  ow_failed : 0 ∈ l → false ∈ h0.(oracle)
}.

Lemma owns_alloc (h0 h : heap) (l : list Z) (n : Z) :
  owns h0 l h → ∃ p h', kvzalloc n h = (p, h') ∧ owns h0 (p :: l) h'.
Proof.
  intros [Hx Hnd Hf]. destruct (extends_alloc h0 h _ n Hx) as (p & h' & E & Hp). exists p, h'.
  split; [done|]. destruct Hp as [(-> & Hp & Ho)|[Hp0 Hp]].
  - split; [by rewrite filter_cons_False by auto..|done].
  - pose proof (alloc_fresh _ _ _ _ _ _ Hx E Hp0) as Hfr. rewrite elem_of_list_to_set in Hfr.
    split; [rewrite filter_cons_True by auto; cbn; done|rewrite filter_cons_True by auto; by constructor|].
    intros [?|?]%elem_of_cons; [done|by apply Hf].
Qed.

Lemma owns_perm (h0 h : heap) (l l' : list Z) : l ≡ₚ l' → owns h0 l h → owns h0 l' h.
Proof.
  intros Hp [Hx Hnd Hfl].
  assert (Hf : filter (λ p, p ≠ 0) l ≡ₚ filter (λ p, p ≠ 0) l') by by rewrite Hp.
  split; [|by rewrite <- Hf|by rewrite <- Hp].
  assert (Hs : (list_to_set (filter (λ p, p ≠ 0) l) : gset Z) = list_to_set (filter (λ p, p ≠ 0) l')).
  { apply set_eq. intros x. rewrite !elem_of_list_to_set. by rewrite Hf. }
  by rewrite <- Hs.
Qed.

(** Null pointers do not count, once there is one. *)
Lemma owns_null (h0 h : heap) (l : list Z) : owns h0 (0 :: l) h → owns h0 l h.
Proof. intros [Hx Hnd Hf]. split; [by rewrite filter_cons_False in * by auto..|]. intros ?. apply Hf. by right. Qed.

Lemma owns_more_null (h0 h : heap) (l : list Z) : 0 ∈ l → owns h0 l h → owns h0 (0 :: l) h.
Proof. intros H0 [Hx Hnd Hf]. split; [by rewrite filter_cons_False by auto..|]. intros _. by apply Hf. Qed.

Lemma owns_free (h0 h : heap) (l : list Z) :
  owns h0 l h → let h' := foldl (λ h p, kvfree p h) h l in
  h'.(blocks) = h0.(blocks) ∧ heap_ok h' ∧ h'.(oracle) `suffix_of` h0.(oracle).
Proof.
  intros [Hx Hnd _]. apply extends_nil. eapply extends_free_all; [exact Hx| | |done].
  - intros p. rewrite !elem_of_list_to_set, list_elem_of_filter. tauto.
  - apply Forall_forall. intros p Hp. destruct (decide (p = 0)); [by left|right].
    rewrite elem_of_list_to_set, list_elem_of_filter. done.
Qed.

Lemma owns_write (h0 h : heap) (l : list Z) (p : Z) (f : list Z → list Z) :
  owns h0 (p :: l) h → p ≠ 0 → owns h0 (p :: l) (write_block p f h).
Proof.
  intros [Hx Hnd Hf] Hp. split; [|done|done]. apply extends_write; [done|].
  rewrite filter_cons_True by done. set_solver.
Qed.

(** The pointers of a slot's arrays, in the order they are freed. *)
Definition arch_ptrs (a : vmrun_arch_memory_slot) : list Z :=
  match a with
  | {| rmap := [p0; p1; p2]; lpage_info := [q0; q1]; gfn_track := [t] |} => [p0; p1; q0; p2; q1; t]
  | _ => []
  end.

Section CreateSpec.
Context (lp : bool) (n : Z).

Lemma create_level_0 (s : vmrun_memory_slot) (h0 h : heap) (l : list Z) :
  owns h0 l h →
  ∃ p h', create_level lp n 0 (s, h) = (negb (p =? 0), (set_rmap 0 p s, h')) ∧ owns h0 (p :: l) h'.
Proof using Type.
  intros Hx. unfold create_level.
  match goal with |- context [kvzalloc ?k h] =>
    destruct (owns_alloc h0 h l k Hx) as (p & h' & E & Hp); rewrite E end.
  exists p, h'. split; [|done]. by destruct (p =? 0).
Qed.

Lemma create_level_S (j : nat) (s : vmrun_memory_slot) (h0 h : heap) (l : list Z) :
  owns h0 l h → (∀ p, set_lpage_info j 0 (set_rmap (S j) p s) = set_rmap (S j) p s) →
  ∃ ok p q h', create_level lp n (S j) (s, h)
               = (ok, (set_lpage_info j q (set_rmap (S j) p s), h')) ∧ owns h0 (q :: p :: l) h' ∧
               (ok = false → q = 0).
Proof using Type.
  intros Hx Hnull. unfold create_level.
  match goal with |- context [kvzalloc ?k h] => set (len := k) end.
  destruct (owns_alloc h0 h l len Hx) as (p & h' & E & Hp). rewrite E.
  destruct (Z.eqb_spec p 0) as [->|Hp0].
  { exists false, 0, 0, h'. rewrite Hnull. split; [done|]. split; [|done]. apply owns_more_null; [left|done]. }
  destruct (owns_alloc h0 h' (p :: l) len Hp) as (q & h2 & E2 & Hq). rewrite E2.
  destruct (Z.eqb_spec q 0) as [->|Hq0].
  { exists false, p, 0, h2. by rewrite Hnull. }
  eexists true, p, q, _. split; [reflexivity|]. split; [by apply owns_write|done].
Qed.

(** All levels, from an empty slot. *)
Lemma create_levels_spec (s : vmrun_memory_slot) (h : heap) :
  heap_ok h → s.(arch) = null_arch →
  ∃ ok p0 p1 p2 q0 q1 h', create_levels lp n page_sizes (s, h)
                          = (ok, (s <| arch := mk_arch p0 p1 p2 q0 q1 0 |>, h')) ∧
    owns h [q1; p2; q0; p1; p0] h' ∧ (ok = false → false ∈ h.(oracle)).
Proof using Type.
  intros Hok Ha. change page_sizes with [0; 1; 2]%nat. cbn [create_levels].
  assert (Hx : owns h [] h) by (split; [by apply extends_refl|constructor|by intros ?%elem_of_nil]).
  destruct (create_level_0 s h h [] Hx) as (p0 & h1 & -> & Hx1).
  assert (Hs1 : set_rmap 0 p0 s = s <| arch := mk_arch p0 0 0 0 0 0 |>)
    by (unfold set_rmap; by rewrite Ha).
  rewrite Hs1. destruct (Z.eqb_spec p0 0) as [->|Hp0]; cbn [negb].
  { exists false, 0, 0, 0, 0, 0, h1. split; [done|]. split; [|intros _; apply (ow_failed _ _ _ Hx1); left].
    do 4 (apply owns_more_null; [left|]). done. }
  destruct (create_level_S 0 (s <| arch := mk_arch p0 0 0 0 0 0 |>) h h1 [p0] Hx1)
    as (ok & p1 & q0 & h2 & -> & Hx2 & Hq0); [done|].
  change (set_lpage_info 0 q0 _) with (s <| arch := mk_arch p0 p1 0 q0 0 0 |>). destruct ok.
  2: { rewrite (Hq0 eq_refl) in *. exists false, p0, p1, 0, 0, 0, h2. split; [done|].
       split; [|intros _; apply (ow_failed _ _ _ Hx2); left]. do 2 (apply owns_more_null; [left|]). done. }
  destruct (create_level_S 1 (s <| arch := mk_arch p0 p1 0 q0 0 0 |>) h h2 [q0; p1; p0] Hx2)
    as (ok & p2 & q1 & h3 & -> & Hx3 & Hq1); [done|].
  change (set_lpage_info 1 q1 _) with (s <| arch := mk_arch p0 p1 p2 q0 q1 0 |>).
  eexists ok, p0, p1, p2, q0, q1, h3. split; [by destruct ok|]. split; [done|].
  intros Hno. apply (ow_failed _ _ _ Hx3). rewrite (Hq1 Hno). left.
Qed.

Lemma track_create_spec (s : vmrun_memory_slot) (h0 h : heap) (l : list Z) (p0 p1 p2 q0 q1 : Z) :
  owns h0 l h → s.(arch) = mk_arch p0 p1 p2 q0 q1 0 →
  ∃ t h', vmrun_page_track_create_memslot n (s, h)
          = (negb (t =? 0), (s <| arch := mk_arch p0 p1 p2 q0 q1 t |>, h')) ∧ owns h0 (t :: l) h'.
Proof using Type.
  intros Hx Ha. unfold vmrun_page_track_create_memslot.
  change (seq 0 (Z.to_nat VMRUN_PAGE_TRACK_MAX)) with [0%nat]. cbn [track_create].
  destruct (owns_alloc h0 h l n Hx) as (t & h' & E & Ht). rewrite E.
  assert (Hset : ∀ x, set_gfn_track 0 x s = s <| arch := mk_arch p0 p1 p2 q0 q1 x |>).
  { intros x. unfold set_gfn_track. by rewrite Ha. }
  rewrite Hset. exists t, h'. split; [|done]. destruct (Z.eqb_spec t 0) as [->|]; [|done]. done.
Qed.

(** [vmrun_arch_create_memslot] either fills in six fresh arrays, or fails
    and leaves the heap and the (empty) slot as they were. *)
Lemma arch_create_spec (s : vmrun_memory_slot) (h : heap) :
  heap_ok h → s.(arch) = null_arch →
  ∃ r s' h', vmrun_arch_create_memslot lp n (s, h) = (r, (s', h')) ∧ s' = s <| arch := s'.(arch) |> ∧
    (r = - ENOMEM ∧ s'.(arch) = null_arch ∧ h'.(blocks) = h.(blocks) ∧ heap_ok h' ∧ h'.(oracle) `suffix_of` h.(oracle) ∧
     false ∈ h.(oracle) ∨
     r = 0 ∧ ∃ p0 p1 p2 q0 q1 t, s'.(arch) = mk_arch p0 p1 p2 q0 q1 t ∧
             owns h [p0; p1; q0; p2; q1; t] h').
Proof using Type.
  intros Hok Ha. unfold vmrun_arch_create_memslot.
  destruct (create_levels_spec s h Hok Ha) as (ok & p0 & p1 & p2 & q0 & q1 & h1 & -> & Hx & Hfl).
  set (s1 := s <| arch := mk_arch p0 p1 p2 q0 q1 0 |>).
  assert (Hfail : ∀ h2, owns h [q1; p2; q0; p1; p0] h2 →
    let '(s', h') := foldl (free_level None) (s1, h2) page_sizes in
    s' = s <| arch := null_arch |> ∧ h'.(blocks) = h.(blocks) ∧ heap_ok h' ∧ h'.(oracle) `suffix_of` h.(oracle)).
  { intros h2 Hx2. rewrite (free_levels_none s1 h2 p0 p1 p2 q0 q1 0) by done. split; [done|].
    apply (owns_free h h2 [p0; p1; q0; p2; q1]). eapply owns_perm; [|exact Hx2].
    symmetry. apply (Permutation_rev [p0; p1; q0; p2; q1]). }
  destruct ok.
  - destruct (track_create_spec s1 h h1 _ p0 p1 p2 q0 q1 Hx eq_refl) as (t & h2 & -> & Hx2).
    destruct (Z.eqb_spec t 0) as [->|Ht]; cbn [negb].
    + specialize (Hfail h2 (owns_null _ _ _ Hx2)).
      change (s1 <| arch := mk_arch p0 p1 p2 q0 q1 0 |>) with s1.
      destruct (foldl _ _ _) as [s' h']. destruct Hfail as (-> & ? & ? & ?).
      eexists _, _, _. split; [reflexivity|]. split; [done|]. left. split_and!; try done. apply (ow_failed _ _ _ Hx2). left.
    + eexists _, _, _. split; [reflexivity|]. split; [done|]. right. split; [done|].
      exists p0, p1, p2, q0, q1, t. split; [done|]. eapply owns_perm; [|exact Hx2].
      symmetry. apply (Permutation_rev [p0; p1; q0; p2; q1; t]).
  - specialize (Hfail h1 Hx). destruct (foldl _ _ _) as [s' h']. destruct Hfail as (-> & ? & ? & ?).
    eexists _, _, _. split; [reflexivity|]. split; [done|]. left. split_and!; auto.
Qed.
End CreateSpec.

(* ------------------------------------------------------------------ *)
(** ** The whole call *)

Lemma heap_ok_kvfree (p : Z) (h : heap) : heap_ok h → heap_ok (kvfree p h).
Proof.
  intros [H0 Hf]. unfold kvfree. case_match; split; cbn; try done.
  intros q [x Hq]. apply lookup_delete_Some in Hq as [_ Hq]. eauto.
Qed.

(** Freeing a slot is a sequence of [kvfree]. *)
Lemma free_level_ind (P : heap → Prop) (dont : option vmrun_memory_slot) (st : slot_state) (i : nat) :
  (∀ p h, P h → P (kvfree p h)) → P st.2 → P (free_level dont st i).2.
Proof.
  destruct st as [s h]. intros HP Hh. unfold free_level, free_rmap, free_lpage_info.
  destruct i; repeat case_match; cbn; simplify_eq/=; auto.
Qed.

Lemma free_memslot_ind (P : heap → Prop) (dont : option vmrun_memory_slot) (st : slot_state) :
  (∀ p h, P h → P (kvfree p h)) → P st.2 → P (vmrun_free_memslot dont st).2.
Proof.
  intros HP Hh. unfold vmrun_free_memslot, vmrun_arch_free_memslot, vmrun_page_track_free_memslot.
  set (st1 := if unshared _ _ then _ else _).
  assert (H1 : P st1.2).
  { subst st1. destruct st as [s h]. unfold vmrun_destroy_dirty_bitmap.
    repeat case_match; cbn; simplify_eq/=; auto. }
  clearbody st1. assert (H2 : P (foldl (free_level dont) st1 page_sizes).2).
  { generalize page_sizes. intros l. revert st1 H1. induction l as [|i l IH]; intros st1 H1; [done|].
    cbn. by apply IH, free_level_ind. }
  set (st2 := foldl (free_level dont) st1 page_sizes) in *. clearbody st2.
  change (seq 0 (Z.to_nat VMRUN_PAGE_TRACK_MAX)) with [0%nat]. cbn [foldl].
  destruct st2 as [s h]. cbn in H2. unfold free_gfn_track.
  destruct (unshared _ _); cbn; auto.
Qed.

Lemma heap_ok_free_memslot (dont : option vmrun_memory_slot) (st : slot_state) :
  heap_ok st.2 → heap_ok (vmrun_free_memslot dont st).2.
Proof. apply free_memslot_ind, heap_ok_kvfree. Qed.

(** [vmrun_install_new_memslots] on the slot arrays. *)
Lemma install_spaces (as_id ptr : Z) (slots : vmrun_memslots) (vm : vm_mem) :
  let '(old, vm') := vmrun_install_new_memslots as_id ptr slots vm in
  old = vm.(spaces) !!! Z.to_nat as_id ∧
  vm'.(spaces) = <[Z.to_nat as_id :=
     (ptr, slots <| generation := u64 (u64 (old.2.(generation) + 1) + 3) |>)]> vm.(spaces) ∧
  vm'.(mem_heap) = vm.(mem_heap) ∧
  vm'.(published) = (as_id, slots <| generation := u64 (old.2.(generation) + 1) |>) :: vm.(published).
Proof.
  unfold vmrun_install_new_memslots, vmrun_mmu_invalidate_mmio_sptes. cbv zeta.
  case_match; cbn; rewrite list_insert_insert_eq; done.
Qed.

Lemma commit_frame `{KvmMmuPages} (old new : vmrun_memory_slot) (change : vmrun_mr_change) (vm : vm_mem) :
  let vm' := vmrun_arch_commit_memory_region old new change vm in
  vm'.(spaces) = vm.(spaces) ∧ vm'.(mem_heap) = vm.(mem_heap) ∧ vm'.(published) = vm.(published).
Proof. unfold vmrun_arch_commit_memory_region. cbv zeta. repeat case_match; done. Qed.

(** After the installation the address space holds the updated array.  A
    removal or a move publishes the new array with the slot marked invalid
    first, and then the old array again: the new one is freed. *)
Lemma mr_install_exact `{KvmMmuPages} (as_id i ptr : Z) (old new : vmrun_memory_slot)
    (change : vmrun_mr_change) (vm : vm_mem) :
  0 <= as_id < 2 → length vm.(spaces) = 2%nat →
  let new' := if bool_decide (change = VMRUN_MR_DELETE)
              then new <| dirty_bitmap := 0 |> <| arch := null_arch |> else new in
  let vm' := mr_install as_id i ptr old new change vm in
  let was := (vm.(spaces) !!! Z.to_nat as_id).1 in
  let twice := bool_decide (change = VMRUN_MR_DELETE ∨ change = VMRUN_MR_MOVE) in
  (∃ g, vm'.(spaces) = <[Z.to_nat as_id :=
     (if twice then was else ptr, (vmrun_update_memslots (__vmrun_memslots vm as_id) new') <| generation := g |>)]> vm.(spaces)) ∧
  vm'.(mem_heap) = kvfree (if twice then ptr else was) (vmrun_free_memslot (Some new') (old, vm.(mem_heap))).2.
Proof.
  intros Ha Hlen. cbv zeta. unfold mr_install.
  set (new' := if bool_decide (change = VMRUN_MR_DELETE) then _ else new).
  assert (Hlast : ∀ p q sq sl vm1, vm1.(mem_heap) = vm.(mem_heap) →
    vm1.(spaces) = <[Z.to_nat as_id := (q, sq)]> vm.(spaces) → sl = __vmrun_memslots vm as_id →
    let vm' := (let '(old_memslots, vm2) :=
                  vmrun_install_new_memslots as_id p (vmrun_update_memslots sl new') vm1 in
                let vm3 := vmrun_arch_commit_memory_region old new' change vm2 in
                let '(_, h) := vmrun_free_memslot (Some new') (old, vm3.(mem_heap)) in
                vm3 <| mem_heap := kvfree old_memslots.1 h |>) in
    (∃ g, vm'.(spaces) = <[Z.to_nat as_id :=
       (p, (vmrun_update_memslots (__vmrun_memslots vm as_id) new') <| generation := g |>)]> vm.(spaces)) ∧
    vm'.(mem_heap) = kvfree q (vmrun_free_memslot (Some new') (old, vm.(mem_heap))).2).
  { intros p q sq sl vm1 Hh1 Hs1 ->. cbv zeta.
    pose proof (install_spaces as_id p (vmrun_update_memslots (__vmrun_memslots vm as_id) new') vm1) as Hi.
    destruct (vmrun_install_new_memslots _ _ _ _) as [om vm2]. destruct Hi as (Eom & Hs2 & Hh2 & _).
    pose proof (commit_frame old new' change vm2) as (Hs3 & Hh3 & _).
    set (vm3 := vmrun_arch_commit_memory_region old new' change vm2) in *.
    rewrite Hh3, Hh2, Hh1. destruct (vmrun_free_memslot _ _) as [s4 h4]. cbn [spaces mem_heap]. split.
    - cbn. rewrite Hs3, Hs2, Hs1, list_insert_insert_eq. by eexists.
    - cbn. rewrite Eom, Hs1, list_lookup_total_insert_eq by lia. done. }
  destruct (bool_decide (change = VMRUN_MR_DELETE ∨ _)).
  - pose proof (install_spaces as_id ptr ((__vmrun_memslots vm as_id)
       <| memslots ::= <[slot_index (__vmrun_memslots vm as_id) i :=
            (memslots (__vmrun_memslots vm as_id) !!! slot_index (__vmrun_memslots vm as_id) i)
              <| flags ::= λ f, Z.lor f VMRUN_MEMSLOT_INVALID |>]> |>) vm) as Hi.
    destruct (vmrun_install_new_memslots _ _ _ _) as [om vm1]. destruct Hi as (-> & Hs1 & Hh1 & _).
    eapply (Hlast _ ptr _ _ (vm1 <| mmu_log ::= _ |>)); [exact Hh1|exact Hs1|done].
  - apply (Hlast ptr _ (spaces vm !!! Z.to_nat as_id).2 _ vm); try done. rewrite <- surjective_pairing.
    symmetry. apply list_insert_id'. intros Hl. by apply list_lookup_lookup_total_lt.
Qed.

Lemma mr_install_spaces `{KvmMmuPages} (as_id i ptr : Z) (old new : vmrun_memory_slot)
    (change : vmrun_mr_change) (vm : vm_mem) :
  0 <= as_id < 2 → length vm.(spaces) = 2%nat → heap_ok vm.(mem_heap) →
  let new' := if bool_decide (change = VMRUN_MR_DELETE)
              then new <| dirty_bitmap := 0 |> <| arch := null_arch |> else new in
  let vm' := mr_install as_id i ptr old new change vm in
  (∃ p g, vm'.(spaces) = <[Z.to_nat as_id :=
     (p, (vmrun_update_memslots (__vmrun_memslots vm as_id) new') <| generation := g |>)]> vm.(spaces)) ∧
  heap_ok vm'.(mem_heap).
Proof.
  intros Ha Hlen Hh. cbv zeta. destruct (mr_install_exact as_id i ptr old new change vm Ha Hlen) as [[g Hs] ->].
  split; [by eexists _, g|]. by apply heap_ok_kvfree, heap_ok_free_memslot.
Qed.

Section Whole.
Context `{K : KvmMmuPages} (hr lp : bool) (access_ok : Z → Z → bool).

(** What a call does: nothing but use up allocations, or install an accepted
    request whose arrays are in place. *)
Inductive region_outcome (mem : memory_region) (vm : vm_mem) : Z → vm_mem → Prop :=
| ro_unchanged r h :
    r = 0 ∨ r = - EINVAL ∨ r = - EEXIST ∨ r = - ENOMEM →
    (r = 0 → as_requested mem (id_to_memslot (__vmrun_memslots vm (Z.shiftr mem.(m_slot) 16))
                                             (u16 mem.(m_slot)))) →
    h.(blocks) = vm.(mem_heap).(blocks) → heap_ok h →
    (r = - ENOMEM → false ∈ vm.(mem_heap).(oracle)) → h.(oracle) `suffix_of` vm.(mem_heap).(oracle) →
    region_outcome mem vm r (vm <| mem_heap := h |>)
| ro_installed old new new1 change ptr h :
    accepted (__vmrun_memslots vm (Z.shiftr mem.(m_slot) 16)) (u16 mem.(m_slot)) old new change →
    0 <= Z.shiftr mem.(m_slot) 16 < 2 → heap_ok h → ptr ≠ 0 →
    new1.(id) = new.(id) → new1.(base_gfn) = new.(base_gfn) → new1.(npages) = new.(npages) →
    (change ≠ VMRUN_MR_CREATE → new1 = new) → as_requested mem new1 →
    owns vm.(mem_heap) (ptr :: if bool_decide (change = VMRUN_MR_CREATE) then arch_ptrs new1.(arch) else []) h →
    (change = VMRUN_MR_CREATE → new1.(dirty_bitmap) = old.(dirty_bitmap) ∧ ∃ p0 p1 p2 q0 q1 t, new1.(arch) = mk_arch p0 p1 p2 q0 q1 t) →
    region_outcome mem vm 0
      (mr_install (Z.shiftr mem.(m_slot) 16) (u16 mem.(m_slot)) ptr old new1 change
                  (vm <| mem_heap := h |>)).

Lemma accepted_create_null (slots : vmrun_memslots) (i : Z) (old new : vmrun_memory_slot) :
  space_ok slots → accepted slots i old new VMRUN_MR_CREATE →
  old.(arch) = null_arch ∧ new.(arch) = null_arch ∧ new.(dirty_bitmap) = old.(dirty_bitmap).
Proof using Type.
  intros Hsp [Hi Hold Hid Hb Hn He Ha Hd [H0 _] _].
  destruct (id_to_memslot_in slots i (sp_wf _ Hsp) Hi) as [Hin _]. rewrite Hold in Hin.
  pose proof (sp_slots _ Hsp) as Hall. rewrite Forall_forall in Hall.
  destruct (so_unused _ (Hall _ Hin) H0) as (_ & E1 & E2). rewrite Ha, E1, E2 in *.
  split_and!; try done. by destruct Hd.
Qed.

Lemma space_of_vm (vm : vm_mem) (as_id : Z) :
  vm_ok vm → 0 <= as_id < 2 → space_ok (__vmrun_memslots vm as_id).
Proof using Type.
  intros [Hlen Hall _] Ha. unfold __vmrun_memslots.
  destruct (lookup_lt_is_Some_2 (spaces vm) (Z.to_nat as_id)) as [sp Hsp]; [lia|].
  rewrite (list_lookup_total_correct _ _ _ Hsp). by apply (Forall_lookup_1 _ _ _ _ Hall Hsp).
Qed.

Lemma region_outcome_of (mem : memory_region) (vm : vm_mem) :
  vm_ok vm → region_typed mem →
  let '(r, vm') := __vmrun_set_memory_region hr lp access_ok mem vm in region_outcome mem vm r vm'.
Proof using Type.
  intros Hvm Hty. pose proof (vm_heap _ Hvm) as Hh. unfold __vmrun_set_memory_region.
  pose proof (mr_checks_spec hr access_ok mem vm Hty) as Hch.
  pose proof (mr_checks_requested hr access_ok mem vm) as Hrq.
  destruct (mr_checks hr access_ok mem vm) as [r|[[old new] change]].
  { replace vm with (vm <| mem_heap := mem_heap vm |>) at 2 by by destruct vm.
    apply ro_unchanged; [tauto|exact Hrq|done|done| |done]. intros ->. by destruct Hch as [|[|]]. }
  destruct Hch as [Has Hac]. change VMRUN_ADDRESS_SPACE_NUM with 2 in Has.
  pose proof (space_of_vm vm _ Hvm Has) as Hsp. cbv zeta.
  destruct (decide (change = VMRUN_MR_CREATE)) as [->|Hnc].
  - rewrite bool_decide_eq_true_2 by done. rewrite bool_decide_eq_true_2 in Hrq by done.
    destruct (accepted_create_null _ _ _ _ Hsp Hac) as (Hold & Hnew & Hdb).
    set (s0 := new <| userspace_addr := m_userspace_addr mem |>).
    destruct (arch_create_spec lp (npages new) s0 (mem_heap vm) Hh Hnew)
      as (r & s' & h' & -> & Hs' & [(-> & Ha & Hb & Hok & Hsuf & Hno)|(-> & p0 & p1 & p2 & q0 & q1 & t & Ha & Hx)]).
    + change (truth (- ENOMEM)) with true. cbv iota.
      assert (Hf : (vmrun_free_memslot (Some old) (s', h')).2 = h')
        by (apply (free_memslot_new s' old h' 0 0 0 0 0 0); [done|done|by rewrite Hs']).
      destruct (vmrun_free_memslot _ _) as [s2 h2]. cbn in Hf. subst h2. apply ro_unchanged; auto; done.
    + change (truth 0) with false. cbv iota.
      destruct (owns_alloc _ _ _ 0 Hx) as (ptr & h2 & -> & Hx2).
      destruct (Z.eqb_spec ptr 0) as [->|Hp].
      * pose proof (free_memslot_new s' old h2 p0 p1 p2 q0 q1 t Ha Hold ltac:(by rewrite Hs')) as Hf.
        destruct (vmrun_free_memslot _ _) as [s2 h3]. cbn in Hf. subst h3.
        destruct (owns_free _ _ _ (owns_null _ _ _ Hx2)) as (? & ? & ?). apply ro_unchanged; auto; [done|].
        intros _. apply (ow_failed _ _ _ Hx2). left.
      * eapply (ro_installed mem vm old new s' VMRUN_MR_CREATE ptr h2); try done; try by rewrite Hs'.
        -- eapply extends_heap_ok, Hx2.
        -- rewrite bool_decide_eq_true_2 by done. by rewrite Ha.
        -- intros _. split; [by rewrite Hs'|]. eauto 10.
  - rewrite bool_decide_eq_false_2 by done. rewrite bool_decide_eq_false_2 in Hrq by done.
    change (truth 0) with false. cbv iota.
    assert (Hx : owns (mem_heap vm) [] (mem_heap vm)) by (split; [by apply extends_refl|constructor|by intros ?%elem_of_nil]).
    destruct (owns_alloc _ _ _ 0 Hx) as (ptr & h2 & -> & Hx2).
    destruct (Z.eqb_spec ptr 0) as [->|Hp].
    + destruct (owns_free _ _ _ (owns_null _ _ _ Hx2)) as (Hb & Hok & Hsuf). cbn in Hb, Hok, Hsuf.
      pose proof (free_memslot_shared new old h2 (ac_arch _ _ _ _ _ Hac) (ac_dirty _ _ _ _ _ Hac)) as Hf.
      destruct (vmrun_free_memslot _ _) as [s2 h3]. cbn in Hf. subst h3. apply ro_unchanged; auto; [done|].
      intros _. apply (ow_failed _ _ _ Hx2). left.
    + eapply (ro_installed mem vm old new new change ptr h2); try done; [eapply extends_heap_ok, Hx2|by rewrite bool_decide_eq_false_2].
Qed.

Definition deleted_slot (change : vmrun_mr_change) (new : vmrun_memory_slot) : vmrun_memory_slot :=
  if bool_decide (change = VMRUN_MR_DELETE)
  then new <| dirty_bitmap := 0 |> <| arch := null_arch |> else new.

Lemma installed_same_range (slots : vmrun_memslots) (i : Z) (old new new1 : vmrun_memory_slot)
    (change : vmrun_mr_change) :
  accepted slots i old new change → new1.(id) = new.(id) → new1.(base_gfn) = new.(base_gfn) →
  new1.(npages) = new.(npages) → same_range new (deleted_slot change new1).
Proof using Type.
  intros Hac Hid Hba Hnp. unfold deleted_slot. case_bool_decide as Hd; split; cbn; try done.
  intros H0. exfalso. rewrite Hnp in H0. destruct Hac as [_ _ _ _ _ _ _ _ Hc _].
  destruct change; [lia|done|lia..].
Qed.

(** The invariant is kept. *)
Lemma region_outcome_ok (mem : memory_region) (vm vm' : vm_mem) (r : Z) :
  vm_ok vm → region_outcome mem vm r vm' → vm_ok vm'.
Proof using Type.
  intros Hvm Ho. destruct Ho as [r h _ _ Hb Hok|old new new1 change ptr h Hac Has Hok Hp Hid Hba Hnp Hcr _].
  - destruct Hvm. by split.
  - pose proof (space_of_vm vm _ Hvm Has) as Hsp. destruct Hvm as [Hlen Hall _].
    set (vm1 := vm <| mem_heap := h |>).
    destruct (mr_install_spaces (Z.shiftr (m_slot mem) 16) (u16 (m_slot mem)) ptr old new1 change
                vm1 Has Hlen Hok) as [(p & g & Hs) Hh].
    split; [by rewrite Hs, length_insert| |done]. rewrite Hs. apply Forall_insert; [done|].
    apply space_ok_generation. eapply space_ok_update; [done|exact Hac|].
    by eapply installed_same_range.
Qed.
End Whole.

(** The invariant is kept by every request. *)
Lemma set_memory_region_vm_ok `{K : KvmMmuPages} (hr lp : bool) (access_ok : Z → Z → bool)
    (mem : memory_region) (vm : vm_mem) :
  vm_ok vm → region_typed mem →
  vm_ok (vmrun_vm_ioctl_set_memory_region hr lp access_ok mem vm).2.
Proof.
  intros Hvm Hty. unfold vmrun_vm_ioctl_set_memory_region, vmrun_set_memory_region.
  case_match; [done|]. pose proof (region_outcome_of hr lp access_ok mem vm Hvm Hty) as Ho.
  destruct (__vmrun_set_memory_region _ _ _ _ _) as [r vm']. by eapply region_outcome_ok.
Qed.

(** The result of the call, by the rules for requests. *)
Lemma region_result `{K : KvmMmuPages} (hr lp : bool) (access_ok : Z → Z → bool) (mem : memory_region) (vm : vm_mem) :
  vm_ok vm → region_typed mem →
  let slots := __vmrun_memslots vm (Z.shiftr mem.(m_slot) 16) in
  let old := id_to_memslot slots (u16 mem.(m_slot)) in
  let r := (vmrun_vm_ioctl_set_memory_region hr lp access_ok mem vm).1 in
  let valid := region_valid hr access_ok old mem in let clash := region_clash slots (u16 mem.(m_slot)) old mem in
  r = - EINVAL ∧ ¬ valid ∨ r = - EEXIST ∧ valid ∧ clash ∨ (r = 0 ∨ r = - ENOMEM) ∧ valid ∧ ¬ clash.
Proof.
  intros Hvm Hty. cbv zeta. unfold vmrun_vm_ioctl_set_memory_region, vmrun_set_memory_region, __vmrun_set_memory_region.
  destruct (u16 (m_slot mem) >=? VMRUN_USER_MEM_SLOTS) eqn:Hi; rewrite Z.geb_leb in Hi.
  { left. split; [done|]. intros V%rv_slot. unfold wrap in Hi. lia. }
  pose proof (mr_checks_exact hr access_ok mem vm Hvm Hty ltac:(lia)) as Hc.
  destruct (mr_checks hr access_ok mem vm) as [r|[[old new] change]]; [destruct Hc as [?|[?|(? & ? & ?)]]; tauto|].
  right; right. split; [|done].
  destruct (if bool_decide _ then _ else _) as [r [new1 h]]. destruct (truth r); [destruct (vmrun_free_memslot _ _); by right|].
  destruct (kvzalloc 0 h) as [ptr h2]. destruct (ptr =? 0); [destruct (vmrun_free_memslot _ _); by right|by left].
Qed.

(** C5: which requests fail, with which error, and that a failure changes
    nothing.  -EINVAL is returned exactly for a request that breaks the rules
    of [region_valid]; -EEXIST exactly for a valid request that would create or
    move a slot onto a frame of another user slot; -ENOMEM only for a valid
    request without such a clash when an allocation failed.  There is no other
    error, and after an error the slot arrays, what readers can see, the calls
    into the MMU and the set of live allocations are as before: nothing leaks on
    any of the error paths. *)
Theorem set_memory_region_error `{K : KvmMmuPages} (hr lp : bool) (access_ok : Z → Z → bool)
    (mem : memory_region) (vm vm' : vm_mem) (r : Z) :
  vm_ok vm → region_typed mem →
  vmrun_vm_ioctl_set_memory_region hr lp access_ok mem vm = (r, vm') →
  let slots := __vmrun_memslots vm (Z.shiftr mem.(m_slot) 16) in
  let old := id_to_memslot slots (u16 mem.(m_slot)) in
  let valid := region_valid hr access_ok old mem in let clash := region_clash slots (u16 mem.(m_slot)) old mem in
  (r = - EINVAL ↔ ¬ valid) ∧ (r = - EEXIST ↔ valid ∧ clash) ∧
  (r = - ENOMEM → valid ∧ ¬ clash ∧ false ∈ vm.(mem_heap).(oracle)) ∧
  (r ≠ 0 → (r = - EINVAL ∨ r = - EEXIST ∨ r = - ENOMEM) ∧
    vm'.(spaces) = vm.(spaces) ∧ vm'.(published) = vm.(published) ∧ vm'.(mmu_log) = vm.(mmu_log) ∧
    vm'.(mem_heap).(blocks) = vm.(mem_heap).(blocks)).
Proof.
  intros Hvm Hty E. cbv zeta. pose proof (region_result hr lp access_ok mem vm Hvm Hty) as Hr. rewrite E in Hr. cbv zeta in Hr. cbn [fst] in Hr.
  assert (Ho : r = - EINVAL ∧ vm' = vm ∨ region_outcome mem vm r vm').
  { unfold vmrun_vm_ioctl_set_memory_region, vmrun_set_memory_region in E. case_match; [left; by injection E as <- <-|].
    right. pose proof (region_outcome_of hr lp access_ok mem vm Hvm Hty) as Ho. by rewrite E in Ho. }
  split; [|split; [|split]].
  - split; [|tauto]. intros ->. by destruct Hr as [?|[[? _]|[[?|?] _]]]; [tauto|..].
  - split; [|tauto]. intros ->. by destruct Hr as [[? _]|[?|[[?|?] _]]]; [|tauto|..].
  - intros ->. destruct Hr as [[? _]|[[? _]|[_ [? ?]]]]; [done..|]. split; [done|]. split; [done|].
    destruct Ho as [[? _]|Ho]; [done|]. inversion Ho; auto.
  - intros Hr0. split; [tauto|]. destruct Ho as [[_ ->]|Ho]; [done|]. inversion Ho; [done|congruence].
Qed.

Lemma region_outcome_frame `{K : KvmMmuPages} (mem : memory_region) (vm vm' : vm_mem) (r k : Z) :
  vm_ok vm → region_outcome mem vm r vm' → 0 <= k → k ≠ Z.shiftr mem.(m_slot) 16 →
  __vmrun_memslots vm' k = __vmrun_memslots vm k.
Proof.
  intros [Hlen _ _] Ho Hk Hne. destruct Ho as [|old new new1 change ptr h Hac Has Hok]; [done|].
  set (vm1 := vm <| mem_heap := h |>).
  destruct (mr_install_spaces (Z.shiftr (m_slot mem) 16) (u16 (m_slot mem)) ptr old new1 change
              vm1 Has Hlen Hok) as [(p & g & Hs) _].
  unfold __vmrun_memslots. rewrite Hs. by rewrite list_lookup_total_insert_ne by lia.
Qed.

Lemma id_to_memslot_generation (slots : vmrun_memslots) (g j : Z) :
  id_to_memslot (slots <| generation := g |>) j = id_to_memslot slots j.
Proof. done. Qed.

(** What an installed request leaves in the arrays. *)
Lemma region_outcome_lookup `{K : KvmMmuPages} (mem : memory_region) (vm vm' : vm_mem) (j : Z) :
  vm_ok vm → region_outcome mem vm 0 vm' → 0 <= u16 mem.(m_slot) < VMRUN_MEM_SLOTS_NUM →
  0 <= j < VMRUN_MEM_SLOTS_NUM →
  let as_id := Z.shiftr mem.(m_slot) 16 in
  let s := id_to_memslot (__vmrun_memslots vm' as_id) j in
  if decide (j = u16 mem.(m_slot)) then as_requested mem s
  else s = id_to_memslot (__vmrun_memslots vm as_id) j.
Proof.
  intros Hvm Ho Hi Hj. cbv zeta. inversion Ho as [r h _ Hrq _ _|]; subst.
  { change (__vmrun_memslots (vm <| mem_heap := h |>)) with (__vmrun_memslots vm).
    case_decide as Hd; [rewrite Hd; auto|done]. }
  rename H into Hac, H0 into Has, H1 into Hok, H3 into Hid, H4 into Hba, H5 into Hnp, H6 into Hcr, H7 into Hrq.
  pose proof (space_of_vm vm _ Hvm Has) as Hsp. destruct Hvm as [Hlen Hall _].
  set (vm1 := vm <| mem_heap := h |>).
  destruct (mr_install_spaces (Z.shiftr (m_slot mem) 16) (u16 (m_slot mem)) ptr old new1 change
              vm1 Has Hlen Hok) as [(p & g & Hs) _].
  fold (deleted_slot change new1) in Hs.
  pose proof (installed_same_range _ _ _ _ _ _ Hac Hid Hba Hnp) as Hsr.
  pose proof (updated_lookup _ _ _ j (sp_wf _ Hsp) (accepted_updated _ _ _ _ _ _ Hsp Hac Hsr) Hj) as Hl.
  rewrite (sr_id _ _ Hsr), (ac_id _ _ _ _ _ Hac) in Hl.
  replace (id_to_memslot (__vmrun_memslots (mr_install _ _ _ _ _ _ _) _) j)
    with (id_to_memslot (vmrun_update_memslots
      (__vmrun_memslots vm (Z.shiftr (m_slot mem) 16)) (deleted_slot change new1)) j).
  - rewrite Hl. case_decide as Hd; [|done]. unfold deleted_slot. by destruct (bool_decide (change = VMRUN_MR_DELETE)).
  - unfold __vmrun_memslots at 2. fold vm1. rewrite Hs, list_lookup_total_insert_eq by (cbn; lia).
    cbn [snd]. by rewrite id_to_memslot_generation.
Qed.

(** C4: what a successful request installs.  When the call returns 0,
    the slot the request names covers exactly the pages, host address and
    flags it asks for (or is empty, for size 0), every other slot of that
    address space is the one it was, and so is the whole other address space. *)
Theorem set_memory_region_success `{K : KvmMmuPages} (hr lp : bool) (access_ok : Z → Z → bool)
    (mem : memory_region) (vm vm' : vm_mem) :
  vm_ok vm → region_typed mem →
  vmrun_vm_ioctl_set_memory_region hr lp access_ok mem vm = (0, vm') →
  let as_id := Z.shiftr mem.(m_slot) 16 in
  as_requested mem (id_to_memslot (__vmrun_memslots vm' as_id) (u16 mem.(m_slot))) ∧
  (∀ j, 0 <= j < VMRUN_MEM_SLOTS_NUM → j ≠ u16 mem.(m_slot) →
        id_to_memslot (__vmrun_memslots vm' as_id) j = id_to_memslot (__vmrun_memslots vm as_id) j) ∧
  (∀ k, 0 <= k → k ≠ as_id → __vmrun_memslots vm' k = __vmrun_memslots vm k).
Proof.
  intros Hvm Hty. unfold vmrun_vm_ioctl_set_memory_region, vmrun_set_memory_region.
  destruct (u16 (m_slot mem) >=? VMRUN_USER_MEM_SLOTS) eqn:Hi; [by intros [= ?]|]. intros Heq.
  pose proof (region_outcome_of hr lp access_ok mem vm Hvm Hty) as Ho. rewrite Heq in Ho. cbv zeta.
  rewrite Z.geb_leb, Z.leb_gt in Hi.
  assert (Hb : 0 <= u16 (m_slot mem) < VMRUN_MEM_SLOTS_NUM).
  { pose proof (is_u_wrap 16 (m_slot mem)). unfold is_u, VMRUN_MEM_SLOTS_NUM, VMRUN_PRIVATE_MEM_SLOTS in *. lia. }
  split_and!.
  - pose proof (region_outcome_lookup mem vm vm' _ Hvm Ho Hb Hb) as Hl. cbv zeta in Hl.
    by rewrite decide_True in Hl.
  - intros j Hj Hne. pose proof (region_outcome_lookup mem vm vm' j Hvm Ho Hb Hj) as Hl. cbv zeta in Hl.
    by rewrite decide_False in Hl.
  - intros k Hk Hne. by eapply region_outcome_frame.
Qed.

(* ------------------------------------------------------------------ *)
(** ** A fresh VM *)

Lemma alloc_space_ok (g : Z) : space_ok (vmrun_alloc_memslots <| generation := g |>).
Proof.
  apply space_ok_generation. split; [apply alloc_memslots_wf|..].
  - apply Forall_forall. intros s (i & -> & _)%list_elem_of_fmap. split; cbn; try done; lia.
  - intros g' s t Hs _ _ _ Hc _. apply list_elem_of_fmap in Hs as (i & -> & _).
    unfold contains in Hc. cbn in Hc. lia.
Qed.

Lemma fresh_vm_ok (h : heap) (n : Z) : heap_ok h → vm_ok (fresh_vm h n).
Proof. intros Hh. split; [done| |done]. do 2 (constructor; [apply alloc_space_ok|]). constructor. Qed.

(** An empty heap in which the next allocations succeed as [o] says. *)
Definition start_heap (o : list bool) : heap := {| blocks := ∅; next_ptr := 0x1000; oracle := o |}.

Lemma start_heap_ok (o : list bool) : heap_ok (start_heap o).
Proof. split; [done|]. intros p [b Hb]. cbn in Hb. by rewrite lookup_empty in Hb. Qed.

(** 16 pages at guest address 1 MiB. *)
Definition example_region : memory_region :=
  {| m_slot := 0; m_flags := 0; m_guest_phys_addr := 0x100000; m_memory_size := 0x10000;
     m_userspace_addr := 0x7f0000000000 |}.

Lemma example_region_typed : region_typed example_region.
Proof. split; by split. Qed.

Definition kvm_mmu_pages : KvmMmuPages := {| KVM_PERMILLE_MMU_PAGES := 20; KVM_MIN_ALLOC_MMU_PAGES := 64 |}.

Lemma set_memory_region_success_witness :
  ∃ vm', vmrun_vm_ioctl_set_memory_region (K := kvm_mmu_pages) true true (λ _ _, true) example_region
           (fresh_vm (start_heap []) 0) = (0, vm') ∧
         as_requested example_region (id_to_memslot (__vmrun_memslots vm' 0) 0).
Proof.
  destruct (vmrun_vm_ioctl_set_memory_region (K := kvm_mmu_pages) true true (λ _ _, true) example_region
              (fresh_vm (start_heap []) 0)) as [r vm'] eqn:E.
  assert (r = 0) as -> by (change (r = 0) with ((r, vm').1 = 0); rewrite <- E; vm_compute; reflexivity).
  exists vm'. split; [reflexivity|].
  apply (set_memory_region_success (K := kvm_mmu_pages) true true (λ _ _, true) example_region
           (fresh_vm (start_heap []) 0) vm'); [apply fresh_vm_ok, start_heap_ok|apply example_region_typed|exact E].
Defined.

(** The third allocation fails; the same request again in another slot clashes. *)
Lemma set_memory_region_error_witness :
  (∃ vm', vmrun_vm_ioctl_set_memory_region (K := kvm_mmu_pages) true true (λ _ _, true) example_region
           (fresh_vm (start_heap [true; true; false]) 0) = (- ENOMEM, vm') ∧
         vm'.(mem_heap).(blocks) = ∅) ∧
  let vm1 := (vmrun_vm_ioctl_set_memory_region (K := kvm_mmu_pages) true true (λ _ _, true) example_region (fresh_vm (start_heap []) 0)).2 in
  region_clash (__vmrun_memslots vm1 0) 1 (id_to_memslot (__vmrun_memslots vm1 0) 1) (example_region <| m_slot := 1 |>).
Proof.
  split.
  - destruct (vmrun_vm_ioctl_set_memory_region (K := kvm_mmu_pages) true true (λ _ _, true) example_region
                (fresh_vm (start_heap [true; true; false]) 0)) as [r vm'] eqn:E.
    assert (r = - ENOMEM) as -> by (change (r = - ENOMEM) with ((r, vm').1 = - ENOMEM); rewrite <- E; vm_compute; reflexivity).
    exists vm'. split; [reflexivity|].
    destruct (set_memory_region_error (K := kvm_mmu_pages) true true (λ _ _, true) example_region
             (fresh_vm (start_heap [true; true; false]) 0) vm' (- ENOMEM)) as (_ & _ & _ & H);
      [apply fresh_vm_ok, start_heap_ok|apply example_region_typed|exact E|].
    apply H. discriminate.
  - cbv zeta. set (vm1 := (vmrun_vm_ioctl_set_memory_region _ _ _ example_region _).2).
    assert (Hok : vm_ok vm1).
    { pose proof (region_outcome_of (K := kvm_mmu_pages) true true (λ _ _, true) example_region (fresh_vm (start_heap []) 0)
                    (fresh_vm_ok _ 0 (start_heap_ok [])) example_region_typed) as Ho.
      unfold vm1. change (vmrun_vm_ioctl_set_memory_region true true (λ _ _, true) example_region (fresh_vm (start_heap []) 0))
        with (__vmrun_set_memory_region (K := kvm_mmu_pages) true true (λ _ _, true) example_region (fresh_vm (start_heap []) 0)).
      destruct (__vmrun_set_memory_region _ _ _ _ _) as [r vm2]. exact (region_outcome_ok _ _ _ _ (fresh_vm_ok _ 0 (start_heap_ok [])) Ho). }
    destruct (vmrun_vm_ioctl_set_memory_region (K := kvm_mmu_pages) true true (λ _ _, true) (example_region <| m_slot := 1 |>) vm1) as [r vm2] eqn:E.
    assert (r = - EEXIST) as -> by (change (r = - EEXIST) with ((r, vm2).1 = - EEXIST); rewrite <- E; vm_compute; reflexivity).
    destruct (set_memory_region_error (K := kvm_mmu_pages) true true (λ _ _, true) (example_region <| m_slot := 1 |>) vm1 vm2 (- EEXIST) Hok) as (_ & H & _);
      [split; by split|exact E|]. by apply H.
Defined.
