(* ===== verification/MemOwnProps.v ===== *)
(** * Memory regions: who owns the allocations

    Every block of the heap is owned exactly once: by an address space (the slot
    array itself), by one pointer of one slot, or by somebody else.  Requests
    keep this, so no array is leaked, freed twice or shared by two slots, and
    freeing all address spaces leaves exactly the blocks of the others. *)

From S2P Require Import Prelude.
From S2P Require Import Spte.
From S2P Require Import Memslots.
From S2P Require Import MemslotsProps.
From S2P Require Import MemRegion.
From S2P Require Import MemRegionProps.

(** ** Heaps and lists of pointers *)

(** The blocks of [h] are the pointers of [l] that are not null, each once. *)
Record holds (h : heap) (l : list Z) : Prop := {
  hd_null : h.(blocks) !! 0 = None;
  hd_once : ∀ p, p ≠ 0 → occ p l = b2z (bool_decide (is_Some (h.(blocks) !! p)))
}.

Lemma holds_ext (h : heap) (l k : list Z) : (∀ p, p ≠ 0 → occ p l = occ p k) → holds h l → holds h k.
Proof. intros E [H0 H]. split; [done|]. intros p Hp. rewrite <- E by done. by apply H. Qed.

Lemma b2z_range (b : bool) : 0 <= b2z b <= 1.
Proof. destruct b; cbn; lia. Qed.

Lemma holds_free (h : heap) (p : Z) (l : list Z) : holds h (p :: l) → holds (kvfree p h) l.
Proof.
  intros [H0 H]. unfold kvfree. destruct (Z.eqb_spec p 0) as [->|Hp].
  - split; [done|]. intros q Hq. rewrite <- H by done. rewrite occ_cons. replace (0 =? q) with false by lia. done.
  - split; cbn; [by rewrite lookup_delete_ne|]. intros q Hq. specialize (H q Hq) as Hc. rewrite occ_cons in Hc.
    destruct (Z.eqb_spec p q) as [->|Hne].
    + rewrite lookup_delete_eq. rewrite bool_decide_eq_false_2 by (by intros []). pose proof (b2z_range (bool_decide (is_Some (blocks h !! q)))).
      pose proof (occ_bounds q l). cbn in *. lia.
    + rewrite lookup_delete_ne by done. cbn in Hc. lia.
Qed.

Lemma holds_free_all (h : heap) (ps l : list Z) : holds h (ps ++ l) → holds (free_all h ps) l.
Proof. revert h. induction ps as [|p ps IH]; intros h H; [done|]. cbn. by apply IH, holds_free. Qed.

Lemma occ_filter (p : Z) (l : list Z) : p ≠ 0 → occ p (filter (λ q, q ≠ 0) l) = occ p l.
Proof.
  intros Hp. induction l as [|q l IH]; [done|]. rewrite occ_cons. destruct (decide (q ≠ 0)) as [Hq|Hq].
  - by rewrite filter_cons_True, occ_cons, IH.
  - rewrite filter_cons_False, IH by done. replace (q =? p) with false by lia. done.
Qed.

Lemma occ_nodup (p : Z) (l : list Z) : NoDup l → occ p l = b2z (bool_decide (p ∈ l)).
Proof.
  intros Hn. case_bool_decide as Hp.
  - induction Hn as [|q l Hq Hn IH]; [by apply elem_of_nil in Hp|]. rewrite occ_cons. apply elem_of_cons in Hp as [->|Hp].
    + rewrite Z.eqb_refl. rewrite <- occ_pos in Hq. pose proof (occ_bounds q l). cbn. lia.
    + rewrite IH by done. assert (q ≠ p) by (by intros ->). by replace (q =? p) with false by lia.
  - rewrite <- occ_pos in Hp. pose proof (occ_bounds p l). cbn. lia.
Qed.

(** What an allocation adds. *)
Lemma holds_owns (h0 h : heap) (l k : list Z) : owns h0 l h → holds h0 k → holds h (l ++ k).
Proof.
  intros [[Hs Hr _ [Hn Hf] Hl _] Hnd _] [H0 Hk]. set (ps := filter (λ p, p ≠ 0) l) in *. split.
  - rewrite Hs; [done|]. rewrite elem_of_list_to_set. unfold ps. rewrite list_elem_of_filter. tauto.
  - intros p Hp. rewrite occ_app, (Hk p Hp), <- (occ_filter p l Hp). fold ps. rewrite (occ_nodup p ps Hnd).
    destruct (bool_decide_reflect (p ∈ ps)) as [Hin|Hin].
    + rewrite <- (elem_of_list_to_set (C := gset Z)) in Hin. rewrite (bool_decide_eq_true_2 (is_Some (blocks h !! p))) by by apply Hl.
      rewrite bool_decide_eq_false_2; [done|]. intros Hb%Hf. specialize (Hr p Hin). lia.
    + rewrite Hs by (by rewrite elem_of_list_to_set). done.
Qed.

(** ** The pointers of a virtual machine *)

Definition slot_ptrs (s : vmrun_memory_slot) : list Z :=
  s.(arch).(rmap) ++ s.(arch).(lpage_info) ++ s.(arch).(gfn_track) ++ [s.(dirty_bitmap)].
Definition slots_ptrs (ms : list vmrun_memory_slot) : list Z := concat (slot_ptrs <$> ms).
Definition space_ptrs (sp : Z * vmrun_memslots) : list Z := sp.1 :: slots_ptrs sp.2.(memslots).
Definition vm_ptrs (vm : vm_mem) : list Z := concat (space_ptrs <$> vm.(spaces)).

(** The arrays of [struct vmrun_arch_memory_slot] have their lengths. *)
Definition arch_shape (s : vmrun_memory_slot) : Prop :=
  length s.(arch).(rmap) = 3%nat ∧ length s.(arch).(lpage_info) = 2%nat ∧ length s.(arch).(gfn_track) = 1%nat.

(** The blocks on the heap are those of [F] and those the virtual machine
    points to; no block has two owners. *)
Record vm_owns (F : list Z) (vm : vm_mem) : Prop := {
  vo_shape : Forall (λ sp, Forall arch_shape sp.2.(memslots)) vm.(spaces);
  vo_arrays : Forall (λ sp, sp.1 ≠ 0) vm.(spaces);
  vo_holds : holds vm.(mem_heap) (F ++ vm_ptrs vm)
}.

Lemma arch_shape_mk (s : vmrun_memory_slot) :
  arch_shape s → ∃ p0 p1 p2 q0 q1 t, s.(arch) = mk_arch p0 p1 p2 q0 q1 t.
Proof.
  unfold arch_shape. destruct (arch s) as [r l g]. cbn. intros (H1 & H2 & H3).
  destruct r as [|p0 [|p1 [|p2 [|]]]], l as [|q0 [|q1 [|]]], g as [|t [|]]; try done. by eexists _, _, _, _, _, _.
Qed.

Lemma shape_mk (s : vmrun_memory_slot) (p0 p1 p2 q0 q1 t : Z) : s.(arch) = mk_arch p0 p1 p2 q0 q1 t → arch_shape s.
Proof. unfold arch_shape. by intros ->. Qed.

#[export] Hint Rewrite occ_nil occ_cons occ_app : occ.
Ltac occ_count := autorewrite with occ in *; lia.

(** What is freed of a slot: everything; nothing but the dirty bitmap. *)
Lemma freed_all (dont : option vmrun_memory_slot) (s : vmrun_memory_slot) (p : Z) :
  arch_shape s → match dont with None => True | Some d => d.(arch) = null_arch ∧ d.(dirty_bitmap) = 0 end → p ≠ 0 →
  occ p (freed dont s) = occ p (slot_ptrs s).
Proof.
  intros Hs Hd Hp. destruct (arch_shape_mk s Hs) as (p0 & p1 & p2 & q0 & q1 & t & E). unfold freed, slot_ptrs. rewrite E.
  assert (Hz : ∀ q, occ p (if negb (q =? 0) then [q] else []) = occ p [q]).
  { intros q. destruct (Z.eqb_spec q 0) as [->|]; [|done]. rewrite occ_cons. by replace (0 =? p) with false by lia. }
  destruct dont as [d|].
  - destruct Hd as [Ha Hb]. cbn -[Z.eqb]. rewrite Ha, Hb. cbn -[Z.eqb]. rewrite !occ_app, !Hz. occ_count.
  - cbn. occ_count.
Qed.

Lemma freed_unused (dont : option vmrun_memory_slot) (s : vmrun_memory_slot) (p : Z) :
  s.(arch) = null_arch → s.(dirty_bitmap) = 0 → p ≠ 0 → occ p (freed dont s) = 0.
Proof.
  intros Ha Hd Hp. unfold freed. rewrite Ha, Hd. cbn -[unshared].
  assert (Hz : ∀ b : bool, occ p (if b then [0] else []) = 0) by (intros []; [rewrite occ_cons; by replace (0 =? p) with false by lia|done]).
  rewrite !occ_app, !Hz. lia.
Qed.

(** ** Replacing a slot *)

Lemma slots_ptrs_app (l k : list vmrun_memory_slot) : slots_ptrs (l ++ k) = slots_ptrs l ++ slots_ptrs k.
Proof. unfold slots_ptrs. by rewrite fmap_app, concat_app. Qed.

Lemma occ_slots (p : Z) (L R : list vmrun_memory_slot) (s : vmrun_memory_slot) :
  occ p (slots_ptrs (L ++ s :: R)) = occ p (slots_ptrs (L ++ R)) + occ p (slot_ptrs s).
Proof.
  rewrite !slots_ptrs_app. change (slots_ptrs (s :: R)) with (slot_ptrs s ++ slots_ptrs R). rewrite !occ_app. lia.
Qed.

Lemma occ_spaces (p : Z) (l : list (Z * vmrun_memslots)) (k : nat) (x y : Z * vmrun_memslots) :
  l !! k = Some x →
  occ p (concat (space_ptrs <$> <[k := y]> l)) + occ p (space_ptrs x) = occ p (concat (space_ptrs <$> l)) + occ p (space_ptrs y).
Proof.
  intros Hk. rewrite (insert_take_drop l k y) by (by eapply lookup_lt_Some).
  pose proof (f_equal (λ l, occ p (concat (space_ptrs <$> l))) (take_drop_middle l k x Hk)) as E. cbv beta in E. revert E.
  rewrite !fmap_app, !concat_app, !fmap_cons, !concat_cons, !occ_app. intros <-. lia.
Qed.

Lemma occ_update (p : Z) (l : list (Z * vmrun_memslots)) (k : nat) (x : Z * vmrun_memslots) (ptr : Z) (slots : vmrun_memslots) (g : Z) :
  l !! k = Some x →
  occ p (concat (space_ptrs <$> <[k := (ptr, slots <| generation := g |>)]> l)) + occ p (x.1 :: slots_ptrs x.2.(memslots)) =
  occ p (concat (space_ptrs <$> l)) + occ p (ptr :: slots_ptrs slots.(memslots)).
Proof. apply occ_spaces. Qed.

Section Own.
Context `{K : KvmMmuPages}.

(** The slot that an update replaces is the old one. *)
Lemma updated_old (slots slots' : vmrun_memslots) (new : vmrun_memory_slot) (p : Z) :
  memslots_wf slots → 0 <= new.(id) < VMRUN_MEM_SLOTS_NUM → updated slots new slots' →
  occ p (slots_ptrs slots'.(memslots)) + occ p (slot_ptrs (id_to_memslot slots new.(id))) =
  occ p (slots_ptrs slots.(memslots)) + occ p (slot_ptrs new).
Proof using Type.
  intros Hwf Hi [(L & y & R & L' & R' & E & Ey & EL & E') _ _].
  assert (Hy : id_to_memslot slots (id new) = y).
  { destruct (id_to_memslot_in slots (id new) Hwf Hi) as [Hin Hid]. rewrite E in Hin.
    pose proof (wf_nodup _ Hwf) as Hnd. rewrite E in Hnd.
    apply elem_of_app in Hin as [Hin|[?|Hin]%elem_of_cons]; [|done|].
    - exfalso. rewrite fmap_app, fmap_cons in Hnd. apply NoDup_app in Hnd as (_ & Hd & _).
      apply (Hd (id (id_to_memslot slots (id new)))); [by apply list_elem_of_fmap_2|]. rewrite Hid, <- Ey. left.
    - exfalso. rewrite fmap_app, fmap_cons in Hnd. apply NoDup_app in Hnd as (_ & _ & [Hn _]%NoDup_cons).
      apply Hn. rewrite Ey, <- Hid. by apply list_elem_of_fmap_2. }
  rewrite Hy, E, E', !occ_slots, EL. lia.
Qed.

Lemma updated_shape (slots slots' : vmrun_memslots) (new : vmrun_memory_slot) (ptr g : Z) :
  updated slots new slots' → Forall arch_shape slots.(memslots) → arch_shape new →
  Forall arch_shape (ptr, slots' <| generation := g |>).2.(memslots).
Proof using Type.
  intros [(L & y & R & L' & R' & E & _ & EL & E') _ _] Hall Hn. change (Forall arch_shape (memslots slots')). rewrite E', Forall_app, Forall_cons. rewrite E in Hall.
  assert (H : Forall arch_shape (L' ++ R')) by (rewrite EL; apply Forall_app in Hall as [? [_ ?]%Forall_cons]; by apply Forall_app).
  apply Forall_app in H as [? ?]. by split_and!.
Qed.

(** What an installation frees is what the new slot does not take over. *)
Lemma freed_balance (slots : vmrun_memslots) (i : Z) (old new new1 : vmrun_memory_slot) (change : vmrun_mr_change) (p : Z) :
  space_ok slots → accepted slots i old new change → arch_shape old → (change ≠ VMRUN_MR_CREATE → new1 = new) →
  (change = VMRUN_MR_CREATE → new1.(dirty_bitmap) = old.(dirty_bitmap) ∧ ∃ p0 p1 p2 q0 q1 t, new1.(arch) = mk_arch p0 p1 p2 q0 q1 t) → p ≠ 0 →
  let new' := deleted_slot change new1 in
  arch_shape new' ∧
  occ p (freed (Some new') old) + occ p (slot_ptrs new') =
  occ p (slot_ptrs old) + occ p (if bool_decide (change = VMRUN_MR_CREATE) then arch_ptrs new1.(arch) else []).
Proof using Type.
  intros Hsp Hac Hs Hnc Hc Hp. cbv zeta. unfold deleted_slot. assert (E0 : (0 =? p) = false) by lia.
  destruct (decide (change = VMRUN_MR_CREATE)) as [->|Hch].
  { rewrite bool_decide_eq_false_2 by done. rewrite bool_decide_eq_true_2 by done.
    destruct (Hc eq_refl) as (Hd & p0 & p1 & p2 & q0 & q1 & t & Ha). split; [by eapply shape_mk|].
    destruct (accepted_create_null _ _ _ _ Hsp Hac) as (Hold & _ & _).
    assert (Hdb : dirty_bitmap old = 0).
    { destruct (id_to_memslot_in slots i (sp_wf _ Hsp) (ac_i _ _ _ _ _ Hac)) as [Hin _]. rewrite (ac_old _ _ _ _ _ Hac) in Hin.
      pose proof (sp_slots _ Hsp) as Hall. rewrite Forall_forall in Hall. apply (so_unused _ (Hall _ Hin)). apply (ac_change _ _ _ _ _ Hac). }
    rewrite freed_unused by done. unfold slot_ptrs. rewrite Ha, Hold, Hd, Hdb. cbn [rmap lpage_info gfn_track mk_arch null_arch arch_ptrs app].
    autorewrite with occ. rewrite E0. cbn [b2z]. lia. }
  rewrite (Hnc Hch), (bool_decide_eq_false_2 (change = VMRUN_MR_CREATE)) by done. rewrite occ_nil.
  destruct (decide (change = VMRUN_MR_DELETE)) as [->|Hdel].
  - rewrite bool_decide_eq_true_2 by done. split; [done|]. rewrite freed_all by done.
    change (slot_ptrs (new <| dirty_bitmap := 0 |> <| arch := null_arch |>)) with [0; 0; 0; 0; 0; 0; 0]. autorewrite with occ. rewrite E0. cbn [b2z]. lia.
  - rewrite bool_decide_eq_false_2 by done. pose proof (ac_arch _ _ _ _ _ Hac) as Ha. split; [unfold arch_shape in *; by rewrite Ha|].
    rewrite freed_same by done. unfold slot_ptrs. rewrite Ha, !occ_app.
    destruct (ac_dirty _ _ _ _ _ Hac) as [->| ->]; [rewrite Z.eqb_refl; autorewrite with occ; lia|].
    destruct (Z.eqb_spec (dirty_bitmap old) 0) as [->|]; autorewrite with occ; rewrite ?E0; cbn [b2z]; lia.
Qed.

(** Every outcome of a request keeps the owners right. *)
Lemma region_outcome_owns (F : list Z) (mem : memory_region) (vm vm' : vm_mem) (r : Z) :
  vm_ok vm → vm_owns F vm → region_outcome mem vm r vm' → vm_owns F vm'.
Proof using Type.
  intros Hvm [Ho1 Ho2 Ho3] Ho. destruct Ho as [r h _ _ Hb _ _ _|old new new1 change ptr h Hac Has Hok Hp Hid Hba Hnp Hcr _ Hown Hc].
  { split; [done|done|]. destruct Ho3 as [H0 H]. split; cbn; by rewrite Hb. }
  pose proof (space_of_vm vm _ Hvm Has) as Hsp. pose proof (vm_spaces _ Hvm) as Hlen. set (k := Z.shiftr (m_slot mem) 16) in *.
  destruct (lookup_lt_is_Some_2 (spaces vm) (Z.to_nat k)) as [sp Hk]; [lia|].
  assert (Es : __vmrun_memslots vm k = sp.2) by (unfold __vmrun_memslots; by rewrite (list_lookup_total_correct _ _ _ Hk)).
  assert (Hshape : Forall arch_shape sp.2.(memslots)) by (by apply (Forall_lookup_1 _ _ _ _ Ho1 Hk)).
  destruct (id_to_memslot_in _ _ (sp_wf _ Hsp) (ac_i _ _ _ _ _ Hac)) as [Hin _]. rewrite (ac_old _ _ _ _ _ Hac), Es in Hin.
  assert (Hold : arch_shape old) by (rewrite Forall_forall in Hshape; by apply Hshape).
  pose proof (installed_same_range _ _ _ _ _ _ Hac Hid Hba Hnp) as Hsr. set (new' := deleted_slot change new1) in *.
  pose proof (accepted_updated _ _ _ _ _ _ Hsp Hac Hsr) as Hup.
  set (vm1 := vm <| mem_heap := h |>) in *. change (vm_owns F (mr_install k (u16 (m_slot mem)) ptr old new1 change vm1)).
  destruct (mr_install_exact k (u16 (m_slot mem)) ptr old new1 change vm1 Has Hlen) as [[g Hs] Hh].
  generalize dependent (mr_install k (u16 (m_slot mem)) ptr old new1 change vm1). intros vm' Hs Hh.
  fold (deleted_slot change new1) in Hs, Hh. fold new' in Hs, Hh.
  assert (E1 : spaces vm1 = spaces vm) by done.
  assert (E2 : __vmrun_memslots vm1 k = __vmrun_memslots vm k) by done. assert (E3 : mem_heap vm1 = h) by done.
  rewrite E1, E2, (list_lookup_total_correct _ _ _ Hk) in Hs. rewrite E1, E3, (list_lookup_total_correct _ _ _ Hk) in Hh. clear E1 E2 E3.
  set (twice := bool_decide (change = VMRUN_MR_DELETE ∨ change = VMRUN_MR_MOVE)) in *.
  assert (Hn' : arch_shape new') by (by destruct (freed_balance _ _ _ _ _ _ 1 Hsp Hac Hold Hcr Hc)).
  split; [rewrite Hs|rewrite Hs|].
  - apply Forall_insert; [done|]. apply (updated_shape _ _ new' _ g Hup); [by rewrite Es|done].
  - apply Forall_insert; [done|]. cbn [fst]. destruct twice; [by apply (Forall_lookup_1 _ _ _ _ Ho2 Hk)|done].
  - rewrite Hh. destruct (arch_shape_mk old Hold) as (p0 & p1 & p2 & q0 & q1 & t & Ea).
    rewrite (free_memslot_heap _ _ _ _ _ _ _ _ _ Ea). apply holds_free, holds_free_all.
    eapply holds_ext; [|exact (holds_owns _ _ _ _ Hown Ho3)]. intros p Hp0. unfold vm_ptrs. rewrite Hs.
    pose proof (occ_update p (spaces vm) (Z.to_nat k) sp (if twice then sp.1 else ptr) (vmrun_update_memslots (__vmrun_memslots vm k) new') g Hk) as E1.
    destruct (freed_balance _ _ _ _ _ _ p Hsp Hac Hold Hcr Hc Hp0) as [_ E2]. fold new' in E2.
    assert (Hin' : id new' = u16 (m_slot mem)) by (rewrite (sr_id _ _ Hsr); apply Hac).
    pose proof (updated_old _ _ new' p (sp_wf _ Hsp) ltac:(rewrite Hin'; apply Hac) Hup) as E3.
    rewrite Hin', (ac_old _ _ _ _ _ Hac) in E3. rewrite Es in E1, E3. rewrite Es.
    rewrite !occ_app, !occ_cons, ?occ_app in *. destruct twice; lia.
Qed.
End Own.

(** Every request keeps the invariant and the owners. *)
Lemma request_keeps `{K : KvmMmuPages} (hr lp : bool) (access_ok : Z → Z → bool) (F : list Z) (mem : memory_region) (vm : vm_mem) :
  vm_ok vm → vm_owns F vm → region_typed mem →
  let vm' := (vmrun_vm_ioctl_set_memory_region hr lp access_ok mem vm).2 in vm_ok vm' ∧ vm_owns F vm'.
Proof.
  intros Hvm Ho Hty. cbv zeta. unfold vmrun_vm_ioctl_set_memory_region, vmrun_set_memory_region.
  case_match; [done|]. pose proof (region_outcome_of hr lp access_ok mem vm Hvm Hty) as Hr.
  destruct (__vmrun_set_memory_region _ _ _ _ _) as [r vm']. cbn [snd].
  split; [by eapply region_outcome_ok|by eapply region_outcome_owns].
Qed.

(** C3: the invariant of guest memory.  From a virtual machine whose slot arrays
    are well formed, with user slots covering disjoint guest frames inside the
    52-bit frame space, and where every block of the heap that is not one of
    [F] is owned by exactly one slot array or one pointer of one slot, every
    VMRUN_SET_USER_MEMORY_REGION request, whatever its arguments and whichever
    allocations fail, leaves such a virtual machine.  So a request that deletes a
    slot frees its arrays, one that moves a slot or changes its flags keeps
    them, the array that is replaced is freed, a failing request frees what it
    allocated, and nothing is freed that is still used. *)
Theorem set_memory_region_invariant `{K : KvmMmuPages} (hr lp : bool) (access_ok : Z → Z → bool)
    (F : list Z) (mem : memory_region) (vm : vm_mem) :
  vm_ok vm → vm_owns F vm → region_typed mem →
  let vm' := (vmrun_vm_ioctl_set_memory_region hr lp access_ok mem vm).2 in vm_ok vm' ∧ vm_owns F vm'.
Proof. exact (request_keeps hr lp access_ok F mem vm). Qed.

(* ------------------------------------------------------------------ *)
(** ** Freeing all slots *)

Lemma each_memslot_all (slots : vmrun_memslots) :
  memslots_wf slots → ∃ E, slots.(memslots) = each_memslot slots.(memslots) ++ E ∧ Forall (λ s, s.(npages) = 0) E.
Proof.
  intros Hwf. destruct (wf_split _ Hwf) as (U & E & HUE & HU & HE & _ & _). exists E.
  split; [|eapply Forall_impl; [exact HE|by intros s [? _]]]. rewrite HUE at 1. f_equal. rewrite HUE. symmetry.
  clear -HU HE. induction HU as [|x U [Hx _] HU IH]; cbn.
  - destruct HE as [|y E [Hy _] _]; [done|]. cbn. by rewrite Hy.
  - replace (npages x =? 0) with false by lia. by rewrite IH.
Qed.

Lemma free_slots_holds (ms : list vmrun_memory_slot) (h : heap) (l : list Z) :
  Forall arch_shape ms → holds h (slots_ptrs ms ++ l) → holds (free_slots ms h) l.
Proof.
  intros Hs. revert h. induction Hs as [|s ms Hs _ IH]; intros h H; [done|]. cbn [free_slots]. apply IH.
  destruct (arch_shape_mk s Hs) as (p0 & p1 & p2 & q0 & q1 & t & Ea). rewrite (free_memslot_heap _ _ _ _ _ _ _ _ _ Ea).
  apply holds_free_all. eapply holds_ext; [|exact H]. intros p Hp. rewrite !occ_app, (freed_all None s p Hs I Hp).
  change (slots_ptrs (s :: ms)) with (slot_ptrs s ++ slots_ptrs ms). rewrite occ_app. lia.
Qed.

Lemma slots_ptrs_unused (ms : list vmrun_memory_slot) (p : Z) :
  Forall slot_ok ms → Forall (λ s, s.(npages) = 0) ms → p ≠ 0 → occ p (slots_ptrs ms) = 0.
Proof.
  intros Hok. induction Hok as [|s ms Hs _ IH]; intros Hn Hp; [done|]. apply Forall_cons in Hn as [H0 Hn].
  change (slots_ptrs (s :: ms)) with (slot_ptrs s ++ slots_ptrs ms). rewrite occ_app, IH by done.
  destruct (so_unused _ Hs H0) as (_ & Ea & Ed). unfold slot_ptrs. rewrite Ea, Ed. cbn [rmap lpage_info gfn_track null_arch app].
  autorewrite with occ. replace (0 =? p) with false by lia. cbn [b2z]. lia.
Qed.

Lemma free_memslots_holds (sp : Z * vmrun_memslots) (h : heap) (l : list Z) :
  space_ok sp.2 → Forall arch_shape sp.2.(memslots) → holds h (space_ptrs sp ++ l) → holds (vmrun_free_memslots (Some sp) h) l.
Proof.
  destruct sp as [ptr slots]. cbn [snd]. intros Hsp Hs H. destruct (each_memslot_all slots (sp_wf _ Hsp)) as (E & Em & HE).
  cbn [vmrun_free_memslots]. apply holds_free, free_slots_holds; [rewrite Em in Hs; by apply Forall_app in Hs as [? _]|].
  eapply holds_ext; [|exact H]. intros p Hp. unfold space_ptrs. cbn [fst snd app]. rewrite !occ_app, !occ_cons, occ_app.
  assert (E1 : occ p (slots_ptrs (memslots slots)) = occ p (slots_ptrs (each_memslot (memslots slots)))); [|lia].
  rewrite Em at 1. rewrite slots_ptrs_app, occ_app, (slots_ptrs_unused E p); [lia| |done|done].
  pose proof (sp_slots _ Hsp) as Hall. rewrite Em in Hall. by apply Forall_app in Hall as [_ ?].
Qed.

(** Freeing all address spaces leaves the blocks of the others. *)
Lemma free_all_spaces (spaces : list (Z * vmrun_memslots)) (h : heap) (l : list Z) :
  Forall (λ sp, space_ok sp.2) spaces → Forall (λ sp, Forall arch_shape sp.2.(memslots)) spaces →
  holds h (concat (space_ptrs <$> spaces) ++ l) → holds (foldl (λ h sp, vmrun_free_memslots (Some sp) h) h spaces) l.
Proof.
  intros Hok. revert h. induction Hok as [|sp spaces Hsp _ IH]; intros h Hs H; [done|]. apply Forall_cons in Hs as [Hs Hss].
  cbn [foldl]. apply IH; [done|]. apply free_memslots_holds; [done|done|]. by rewrite app_assoc.
Qed.

(* ------------------------------------------------------------------ *)
(** ** Examples *)

(** A heap that holds the two slot arrays of [fresh_vm]; the next allocations
    succeed as [o] says. *)
Definition array_heap (o : list bool) : heap := {| blocks := {[1 := []; 2 := []]}; next_ptr := 0x1000; oracle := o |}.

Lemma array_heap_ok (o : list bool) : heap_ok (array_heap o).
Proof.
  split; [done|]. intros p [b Hb]. cbn in *. rewrite lookup_insert_Some, lookup_singleton_Some in Hb. destruct Hb as [[<- _]|[_ [<- _]]]; done.
Qed.

Lemma null_slots_ptrs (l : list Z) (p : Z) : p ≠ 0 → occ p (slots_ptrs ((λ i, null_slot <| id := i |>) <$> l)) = 0.
Proof.
  intros Hp. induction l as [|i l IH]; [done|]. rewrite fmap_cons.
  change (slots_ptrs (?s :: ?ms)) with (slot_ptrs s ++ slots_ptrs ms). rewrite occ_app, IH.
  change (slot_ptrs (null_slot <| id := i |>)) with [0; 0; 0; 0; 0; 0; 0]. autorewrite with occ. replace (0 =? p) with false by lia. cbn [b2z]. lia.
Qed.

Lemma alloc_shape (g : Z) : Forall arch_shape (vmrun_alloc_memslots <| generation := g |>).(memslots).
Proof. apply Forall_forall. intros s (i & -> & _)%list_elem_of_fmap. done. Qed.

Lemma fresh_vm_owns (o : list bool) (n : Z) : vm_owns [] (fresh_vm (array_heap o) n).
Proof.
  split.
  - do 2 (constructor; [apply alloc_shape|]). constructor.
  - do 2 (constructor; [done|]). constructor.
  - split; [done|]. intros p Hp. cbn [app]. unfold vm_ptrs.
    change (concat (space_ptrs <$> spaces (fresh_vm (array_heap o) n)))
      with (1 :: slots_ptrs ((λ i, null_slot <| id := i |>) <$> seqZ 0 VMRUN_MEM_SLOTS_NUM) ++
            2 :: slots_ptrs ((λ i, null_slot <| id := i |>) <$> seqZ 0 VMRUN_MEM_SLOTS_NUM) ++ []).
    autorewrite with occ. rewrite null_slots_ptrs by done. cbn [blocks fresh_vm mem_heap array_heap].
    destruct (Z.eqb_spec 1 p) as [<-|]; [done|]. destruct (Z.eqb_spec 2 p) as [<-|]; [done|].
    by rewrite lookup_insert_ne, lookup_singleton_ne.
Qed.

(** A slot is created and deleted again. *)
Lemma set_memory_region_invariant_witness :
  let create := vmrun_vm_ioctl_set_memory_region (K := kvm_mmu_pages) true true (λ _ _, true) example_region in
  let delete := vmrun_vm_ioctl_set_memory_region (K := kvm_mmu_pages) true true (λ _ _, true) (example_region <| m_memory_size := 0 |>) in
  let vm1 := (create (fresh_vm (array_heap []) 0)).2 in let vm2 := (delete vm1).2 in
  vm_owns [] vm1 ∧ size vm1.(mem_heap).(blocks) = 8%nat ∧ vm_owns [] vm2 ∧ size vm2.(mem_heap).(blocks) = 2%nat.
Proof.
  cbv zeta.
  destruct (set_memory_region_invariant (K := kvm_mmu_pages) true true (λ _ _, true) [] example_region (fresh_vm (array_heap []) 0)) as [Hok Ho].
  - apply fresh_vm_ok, array_heap_ok.
  - apply fresh_vm_owns.
  - apply example_region_typed.
  - split; [exact Ho|]. split; [vm_compute; reflexivity|]. split; [|vm_compute; reflexivity].
    apply (set_memory_region_invariant (K := kvm_mmu_pages) true true (λ _ _, true) [] (example_region <| m_memory_size := 0 |>)); [exact Hok|exact Ho|].
    split; by split.
Defined.
