(* ===== verification/MemGeneration.v ===== *)
(** * Generations of the slot arrays

    Every installation of a slot array moves its generation on, in two steps:
    odd while readers may still see the old array, even afterwards.  Cached
    MMIO sptes record the generation and are used only while it is current
    (MmioSpte). *)

From S2P Require Import Prelude.
From S2P Require Import Spte.
From S2P Require Import Memslots.
From S2P Require Import MemslotsProps.
From S2P Require Import MemRegion.
From S2P Require Import MemRegionProps.

(** The residue modulo 4 the generations of an address space have. *)
Definition gen_class (as_id : Z) : Z := (2 + 2 * as_id) mod 4.

Record gen_ok (vm : vm_mem) : Prop := {
  go_spaces : ∀ k, 0 <= k < 2 → (__vmrun_memslots vm k).(generation) mod 4 = gen_class k;
  go_published : ∀ k slots, (k, slots) ∈ vm.(published) →
                 0 <= k < 2 ∧ slots.(generation) mod 4 = gen_class k + 1
}.

Lemma gen_class_range (k : Z) : 0 <= k < 2 → gen_class k = 2 - 2 * k.
Proof. intros Hk. assert (k = 0 ∨ k = 1) as [-> | ->] by lia; done. Qed.

Lemma u64_mod4 (x : Z) : u64 x mod 4 = x mod 4.
Proof. apply Z.mod_mod_divide. by exists (2 ^ 62). Qed.

Lemma u64_add_u64 (x y : Z) : u64 (u64 x + y) = u64 (x + y).
Proof. apply Z.add_mod_idemp_l. lia. Qed.

Lemma gen_ok_frame (vm vm' : vm_mem) :
  vm'.(spaces) = vm.(spaces) → vm'.(published) = vm.(published) → gen_ok vm → gen_ok vm'.
Proof.
  intros Hs Hp [H1 H2]. split; [|by rewrite Hp].
  intros k Hk. unfold __vmrun_memslots. rewrite Hs. by apply H1.
Qed.

Lemma install_gen_ok (as_id ptr : Z) (slots : vmrun_memslots) (vm : vm_mem) :
  0 <= as_id < 2 → length vm.(spaces) = 2%nat → gen_ok vm →
  gen_ok (vmrun_install_new_memslots as_id ptr slots vm).2.
Proof.
  intros Ha Hlen [Hsp Hpub]. pose proof (install_spaces as_id ptr slots vm) as Hi.
  destruct (vmrun_install_new_memslots as_id ptr slots vm) as [old vm']. cbn [snd].
  destruct Hi as (-> & Hs & _ & Hp).
  pose proof (Hsp as_id Ha) as Hg. unfold __vmrun_memslots in Hg.
  set (g := generation (spaces vm !!! Z.to_nat as_id).2) in *.
  pose proof (gen_class_range as_id Ha) as Hc. split.
  - intros k Hk. unfold __vmrun_memslots. rewrite Hs. destruct (decide (k = as_id)) as [->|Hne].
    + rewrite list_lookup_total_insert_eq by lia. cbn [snd].
      refine (eq_trans (u64_mod4 _) _). rewrite Z.add_mod, u64_mod4, <- Z.add_mod by lia.
      Z.to_euclidean_division_equations; lia.
    + rewrite list_lookup_total_insert_ne by lia. by apply Hsp.
  - intros k sl. rewrite Hp. intros [[= -> ->]|?]%elem_of_cons; [|by apply Hpub].
    split; [done|]. refine (eq_trans (u64_mod4 _) _). Z.to_euclidean_division_equations; lia.
Qed.

Lemma install_length (as_id ptr : Z) (slots : vmrun_memslots) (vm : vm_mem) :
  length (vmrun_install_new_memslots as_id ptr slots vm).2.(spaces) = length vm.(spaces).
Proof.
  pose proof (install_spaces as_id ptr slots vm) as Hi.
  destruct (vmrun_install_new_memslots _ _ _ _) as [old vm']. destruct Hi as (_ & Hs & _).
  cbn [snd]. by rewrite Hs, length_insert.
Qed.

Lemma mr_install_gen_ok `{KvmMmuPages} (as_id i ptr : Z) (old new : vmrun_memory_slot)
    (change : vmrun_mr_change) (vm : vm_mem) :
  0 <= as_id < 2 → length vm.(spaces) = 2%nat → gen_ok vm →
  gen_ok (mr_install as_id i ptr old new change vm).
Proof.
  intros Ha Hlen Hg. unfold mr_install.
  set (new' := if bool_decide (change = VMRUN_MR_DELETE) then _ else new).
  assert (Hlast : ∀ p sl vm1, length vm1.(spaces) = 2%nat → gen_ok vm1 →
    gen_ok (let '(old_memslots, vm2) :=
              vmrun_install_new_memslots as_id p (vmrun_update_memslots sl new') vm1 in
            let vm3 := vmrun_arch_commit_memory_region old new' change vm2 in
            let '(_, h) := vmrun_free_memslot (Some new') (old, vm3.(mem_heap)) in
            vm3 <| mem_heap := kvfree old_memslots.1 h |>)).
  { intros p sl vm1 Hl1 Hg1.
    pose proof (install_gen_ok as_id p (vmrun_update_memslots sl new') vm1 Ha Hl1 Hg1) as Hi.
    destruct (vmrun_install_new_memslots _ _ _ _) as [om vm2]. cbv zeta.
    destruct (vmrun_free_memslot _ _) as [s3 h3].
    destruct (commit_frame old new' change vm2) as (Hs3 & _ & Hp3).
    by apply (gen_ok_frame vm2). }
  destruct (bool_decide (change = VMRUN_MR_DELETE ∨ _)); [|by apply Hlast].
  match goal with |- context [vmrun_install_new_memslots as_id ptr ?sl vm] =>
    pose proof (install_gen_ok as_id ptr sl vm Ha Hlen Hg) as Hi;
    pose proof (install_length as_id ptr sl vm) as Hl end.
  destruct (vmrun_install_new_memslots _ _ _ _) as [om vm1]. apply Hlast; [by rewrite <- Hlen|].
  by apply (gen_ok_frame vm1).
Qed.

Lemma region_gen_ok `{K : KvmMmuPages} (hr lp : bool) (access_ok : Z → Z → bool)
    (mem : memory_region) (vm : vm_mem) :
  vm_ok vm → gen_ok vm → region_typed mem →
  vm_ok (vmrun_vm_ioctl_set_memory_region hr lp access_ok mem vm).2 ∧
  gen_ok (vmrun_vm_ioctl_set_memory_region hr lp access_ok mem vm).2.
Proof.
  intros Hvm Hg Hty. unfold vmrun_vm_ioctl_set_memory_region, vmrun_set_memory_region.
  case_match; [done|]. pose proof (region_outcome_of hr lp access_ok mem vm Hvm Hty) as Ho.
  destruct (__vmrun_set_memory_region _ _ _ _ _) as [r vm']. cbn [snd].
  split; [by eapply region_outcome_ok|]. destruct Ho as [|old new new1 change ptr h Hac Has].
  - by apply (gen_ok_frame vm).
  - apply mr_install_gen_ok; [done|apply Hvm|]. by apply (gen_ok_frame vm).
Qed.

Lemma fresh_vm_gen_ok (h : heap) (n : Z) : gen_ok (fresh_vm h n).
Proof.
  split; [|by intros k slots Hk%elem_of_nil].
  intros k Hk. assert (k = 0 ∨ k = 1) as [-> | ->] by lia; reflexivity.
Qed.

(** A VM after a sequence of requests. *)
Definition after_requests `{K : KvmMmuPages} (hr lp : bool) (access_ok : Z → Z → bool)
    (mems : list memory_region) (vm : vm_mem) : vm_mem :=
  foldl (λ vm mem, (vmrun_vm_ioctl_set_memory_region hr lp access_ok mem vm).2) vm mems.

Lemma after_requests_ok `{K : KvmMmuPages} (hr lp : bool) (access_ok : Z → Z → bool)
    (mems : list memory_region) (vm : vm_mem) :
  Forall region_typed mems → vm_ok vm → gen_ok vm →
  vm_ok (after_requests hr lp access_ok mems vm) ∧ gen_ok (after_requests hr lp access_ok mems vm).
Proof.
  intros Ht. revert vm. induction Ht as [|mem mems Hm Ht IH]; intros vm Hvm Hg; [done|].
  cbn. apply IH; by apply region_gen_ok.
Qed.

(** The generations tell slot arrays apart.  After any sequence of
    requests on a fresh VM, every array that was made visible during an
    update carried an odd generation, the arrays in place carry even ones, and
    the two address spaces, whose generations stay in different residue
    classes modulo 4, never have the same one. *)
Theorem generations_distinct `{K : KvmMmuPages} (hr lp : bool) (access_ok : Z → Z → bool)
    (mems : list memory_region) (h : heap) (n : Z) :
  heap_ok h → Forall region_typed mems →
  let vm := after_requests hr lp access_ok mems (fresh_vm h n) in
  (∀ k slots, (k, slots) ∈ vm.(published) → Z.odd slots.(generation) = true) ∧
  (∀ k, 0 <= k < 2 → Z.even (__vmrun_memslots vm k).(generation) = true) ∧
  (__vmrun_memslots vm 0).(generation) ≠ (__vmrun_memslots vm 1).(generation) ∧
  (∀ k j slots, (k, slots) ∈ vm.(published) → 0 <= j < 2 →
     slots.(generation) ≠ (__vmrun_memslots vm j).(generation)).
Proof.
  intros Hh Ht. cbv zeta.
  destruct (after_requests_ok hr lp access_ok mems (fresh_vm h n) Ht (fresh_vm_ok h n Hh)
              (fresh_vm_gen_ok h n)) as [_ [Hsp Hpub]].
  set (vm := after_requests _ _ _ _ _) in *.
  pose proof (Hsp 0 ltac:(lia)) as H0. pose proof (Hsp 1 ltac:(lia)) as H1.
  change (gen_class 0) with 2 in H0. change (gen_class 1) with 0 in H1. split_and!.
  - intros k slots [Hk Hg]%Hpub. rewrite gen_class_range in Hg by done.
    apply Zodd_bool_iff, Zodd_ex_iff. exists (generation slots / 2).
    Z.to_euclidean_division_equations; lia.
  - intros k Hk. pose proof (Hsp k Hk) as Hg. rewrite gen_class_range in Hg by done.
    apply Zeven_bool_iff, Zeven_ex_iff. exists (generation (__vmrun_memslots vm k) / 2).
    Z.to_euclidean_division_equations; lia.
  - congruence.
  - intros k j slots [Hk Hg]%Hpub Hj E. pose proof (Hsp j Hj) as Hg'.
    rewrite E, Hg', !gen_class_range in Hg by done. lia.
Qed.

(** Two regions, one in each address space. *)
Lemma generations_distinct_witness :
  let vm := after_requests (K := kvm_mmu_pages) true true (λ _ _, true)
              [example_region; example_region <| m_slot := 0x10000 |>] (fresh_vm (start_heap []) 0) in
  length vm.(published) = 2%nat ∧
  (__vmrun_memslots vm 0).(generation) ≠ (__vmrun_memslots vm 1).(generation).
Proof.
  split; [vm_compute; reflexivity|].
  apply (generations_distinct (K := kvm_mmu_pages) true true (λ _ _, true)
           [example_region; example_region <| m_slot := 0x10000 |>] (start_heap []) 0).
  - apply start_heap_ok.
  - repeat constructor; cbn; lia.
Defined.

(* ------------------------------------------------------------------ *)
(** ** The wrap-around of MMIO generations *)

Lemma install_log (as_id ptr : Z) (slots : vmrun_memslots) (vm : vm_mem) :
  0 <= as_id → (Z.to_nat as_id < length vm.(spaces))%nat →
  let g := u64 ((__vmrun_memslots vm as_id).(generation) + 4) in
  let vm' := (vmrun_install_new_memslots as_id ptr slots vm).2 in
  (__vmrun_memslots vm' as_id).(generation) = g ∧
  vm'.(mmu_log) = if Z.land g MMIO_GEN_MASK =? 0 then InvalidateZapAllPages :: vm.(mmu_log) else vm.(mmu_log).
Proof.
  intros Ha Hl. cbv zeta. pose proof (install_spaces as_id ptr slots vm) as Hi. split.
  - destruct (vmrun_install_new_memslots _ _ _ _) as [old vm']. destruct Hi as (-> & Hs & _).
    cbn [snd]. unfold __vmrun_memslots at 1. rewrite Hs, list_lookup_total_insert_eq by lia.
    refine (eq_trans (u64_add_u64 _ _) _). by rewrite <- Z.add_assoc.
  - clear Hi. unfold vmrun_install_new_memslots, vmrun_mmu_invalidate_mmio_sptes. cbv zeta.
    cbn -[Z.eqb MMIO_GEN_MASK Z.land]. rewrite u64_add_u64, <- Z.add_assoc.
    change (1 + 3) with 4. unfold __vmrun_memslots. by destruct (_ =? 0).
Qed.

(** The generations of address space 0 never are 0 modulo 2^20. *)
Lemma class_2_seen (g : Z) : g mod 4 = 2 → Z.land g MMIO_GEN_MASK =? 0 = false.
Proof.
  intros Hg. apply Z.eqb_neq. change MMIO_GEN_MASK with (Z.ones 20). rewrite Z.land_ones by lia.
  intros E. assert (Hm : (g mod 2 ^ 20) mod 4 = 2) by (rewrite Z.mod_mod_divide; [done|by exists (2 ^ 18)]). by rewrite E in Hm.
Qed.

(** A call into the MMU that leaves the MMIO sptes alone. *)
Definition harmless (c : mmu_call) : Prop :=
  match c with ChangeMmuPages _ | ZapCollapsible _ => True | InvalidateZapAllPages | FlushSlot _ => False end.

Section Once.
Context `{K : KvmMmuPages}.

(** A creation or a change of flags installs one array. *)
Lemma mr_install_once (i ptr : Z) (old new : vmrun_memory_slot) (change : vmrun_mr_change) (vm : vm_mem) :
  change = VMRUN_MR_CREATE ∨ change = VMRUN_MR_FLAGS_ONLY → length vm.(spaces) = 2%nat →
  (__vmrun_memslots vm 0).(generation) mod 4 = 2 → Forall harmless vm.(mmu_log) →
  let vm' := mr_install 0 i ptr old new change vm in
  (__vmrun_memslots vm' 0).(generation) = u64 ((__vmrun_memslots vm 0).(generation) + 4) ∧ Forall harmless vm'.(mmu_log).
Proof using Type.
  intros Hc Hlen Hg Hl. cbv zeta. unfold mr_install.
  rewrite bool_decide_eq_false_2 by (destruct Hc as [->| ->]; by intros [|]). rewrite bool_decide_eq_false_2 by (by destruct Hc as [->| ->]).
  pose proof (install_log 0 ptr (vmrun_update_memslots (__vmrun_memslots vm 0) new) vm ltac:(lia) ltac:(change (Z.to_nat 0) with 0%nat; lia)) as [Eg El].
  destruct (vmrun_install_new_memslots _ _ _ _) as [om vm2]. cbn [snd] in Eg, El.
  rewrite class_2_seen in El by (rewrite u64_mod4; Z.to_euclidean_division_equations; lia).
  destruct (commit_frame old new change vm2) as (Hs & _ & _).
  assert (Hh : Forall harmless (vmrun_arch_commit_memory_region old new change vm2).(mmu_log)).
  { unfold vmrun_arch_commit_memory_region. cbv zeta.
    repeat match goal with |- context [if ?b then _ <| mmu_log ::= _ |> else _] => destruct b end; cbn [mmu_log put]; rewrite El;
      repeat (apply Forall_cons; split; [done|]); done. }
  generalize dependent (vmrun_arch_commit_memory_region old new change vm2). intros vm3 Hs Hh.
  destruct (vmrun_free_memslot _ _) as [s h]. split; [|done]. rewrite <- Eg. unfold __vmrun_memslots. cbn. by rewrite Hs.
Qed.

Lemma install_oracle (as_id i ptr : Z) (old new : vmrun_memory_slot) (change : vmrun_mr_change) (vm : vm_mem) :
  0 <= as_id < 2 → length vm.(spaces) = 2%nat → (mr_install as_id i ptr old new change vm).(mem_heap).(oracle) = vm.(mem_heap).(oracle).
Proof using Type.
  intros Ha Hlen. destruct (mr_install_exact as_id i ptr old new change vm Ha Hlen) as [_ ->].
  assert (Hk : ∀ p h, oracle (kvfree p h) = oracle h) by (intros p h; unfold kvfree; by destruct (_ =? 0)). rewrite Hk.
  apply (free_memslot_ind (λ h, oracle h = oracle (mem_heap vm))); [intros p h <-; apply Hk|done].
Qed.

End Once.

(** The [j]th request: slot 0 with dirty logging off and on. *)
Definition flag_request (j : Z) : memory_region := example_region <| m_flags := j mod 2 |>.
Definition flag_requests (n : nat) : list memory_region := flag_request ∘ Z.of_nat <$> seq 0 n.

Lemma flag_request_typed (j : Z) : region_typed (flag_request j).
Proof. pose proof (Z.mod_pos_bound j 2 ltac:(lia)). split; split; cbn; lia. Qed.

(** The virtual machine after [j] requests. *)
Record flagged (j : Z) (vm : vm_mem) : Prop := {
  fl_ok : vm_ok vm;
  fl_oracle : vm.(mem_heap).(oracle) = [];
  fl_slot : if decide (j = 0) then ∀ s, s ∈ (__vmrun_memslots vm 0).(memslots) → s.(npages) = 0
            else as_requested (flag_request (j - 1)) (id_to_memslot (__vmrun_memslots vm 0) 0);
  fl_generation : (__vmrun_memslots vm 0).(generation) = u64 (-150 + 4 * j);
  fl_log : Forall harmless vm.(mmu_log)
}.

Section Flags.
Context `{K : KvmMmuPages} (hr lp : bool) (access_ok : Z → Z → bool) (Hacc : access_ok 0x7f0000000000 0x10000 = true).

Lemma flag_request_valid (j : Z) (vm : vm_mem) :
  0 <= j → flagged j vm → let old := id_to_memslot (__vmrun_memslots vm 0) 0 in
  region_valid hr access_ok old (flag_request j) ∧ ¬ region_clash (__vmrun_memslots vm 0) 0 old (flag_request j) ∧
  (old.(npages) = 0 ∨ old.(npages) = 16 ∧ old.(base_gfn) = 0x100 ∧ old.(flags) ≠ j mod 2).
Proof using Hacc.
  intros Hj [Hok _ Hs _ _]. cbv zeta. set (old := id_to_memslot _ _). pose proof (Z.mod_pos_bound j 2 ltac:(lia)) as Hm.
  assert (Hbit : ∀ x, 0 <= x < 2 → Z.testbit x 1 = false) by (intros x Hx; apply (is_u_testbit 1); [split; lia|lia]).
  destruct (decide (j = 0)) as [->|Hj0].
  - assert (Hin : old ∈ (__vmrun_memslots vm 0).(memslots)).
    { apply id_to_memslot_in; [apply (sp_wf _ (space_of_vm vm 0 Hok ltac:(lia)))|done]. }
    pose proof (Hs old Hin) as H0. split; [|split; [|by left]].
    + split; try done; cbn; destruct hr; lia.
    + intros (_ & _ & s & g & Hss & _ & _ & Hg & _). unfold contains in Hg. rewrite (Hs s Hss) in Hg. lia.
  - destruct Hs as [Hn Hs]. fold old in Hn, Hs. cbn in Hn. rewrite Hn in Hs. destruct (Hs ltac:(done)) as (Hb & Hf & Hu). cbn in Hb, Hf, Hu.
    assert (Hf' : flags old ≠ j mod 2).
    { rewrite Hf. pose proof (Z.mod_pos_bound (j - 1) 2 ltac:(lia)). pose proof (Z.div_mod (j - 1) 2 ltac:(lia)). pose proof (Z.div_mod j 2 ltac:(lia)). lia. }
    split; [|split; [|right; by split_and!]].
    + split; try done; cbn -[Z.testbit Z.modulo]; [destruct hr; lia|]. intros _ _. rewrite Hu, Hn, Hf. split_and!; [done|done|].
      rewrite !Hbit; [done|apply Z.mod_pos_bound; lia|lia].
    + intros (_ & [H0|H0] & _); [by rewrite Hn in H0|]. apply H0. by rewrite Hb.
Qed.

Lemma flag_request_step (j : Z) (vm : vm_mem) :
  0 <= j → flagged j vm →
  let p := vmrun_vm_ioctl_set_memory_region hr lp access_ok (flag_request j) vm in p.1 = 0 ∧ flagged (j + 1) p.2.
Proof using Hacc.
  intros Hj Hfl. destruct (flag_request_valid j vm Hj Hfl) as (Hv & Hnc & Hold). destruct Hfl as [Hok Ho _ Hg Hl].
  pose proof (region_result hr lp access_ok (flag_request j) vm Hok (flag_request_typed j)) as Hr.
  pose proof (region_outcome_of hr lp access_ok (flag_request j) vm Hok (flag_request_typed j)) as Hout.
  change (vmrun_vm_ioctl_set_memory_region hr lp access_ok (flag_request j) vm) with (__vmrun_set_memory_region hr lp access_ok (flag_request j) vm) in *.
  destruct (__vmrun_set_memory_region _ _ _ _ _) as [r vm']. cbn [fst snd] in Hr |- *. cbv zeta in Hr.
  change (Z.shiftr (m_slot (flag_request j)) 16) with 0 in *. change (u16 (m_slot (flag_request j))) with 0 in *.
  assert (r = 0) as ->.
  { destruct Hr as [[_ H]|[(_ & _ & H)|[[H|H] _]]]; [by destruct H|by destruct Hnc|done|]. inversion Hout as [r1 h _ _ _ _ Hno _|]; [|done]. subst.
    specialize (Hno eq_refl). rewrite Ho in Hno. by apply elem_of_nil in Hno. }
  split; [done|]. pose proof (region_outcome_lookup _ vm vm' 0 Hok Hout ltac:(done) ltac:(done)) as Hreq. cbv zeta in Hreq.
  rewrite decide_True in Hreq by done. change (Z.shiftr (m_slot (flag_request j)) 16) with 0 in Hreq.
  pose proof (region_outcome_ok _ _ _ _ Hok Hout) as Hok'. revert Hreq Hok'.
  inversion Hout as [r1 h _ Hsame _ _ _ _|old new new1 change ptr h Hac Has Hh Hp Hid Hba Hnp Hcr Hrq Hown _]; subst; intros Hreq Hok'.
  { exfalso. destruct (Hsame eq_refl) as [Hn Hs]. change (Z.shiftr (m_slot (flag_request j)) 16) with 0 in *. change (u16 (m_slot (flag_request j))) with 0 in *.
    destruct Hold as [H0|(H16 & _ & Hf)]; [by rewrite H0 in Hn|]. rewrite H16 in Hs. by destruct (Hs ltac:(done)) as (_ & ? & _). }
  change (Z.shiftr (m_slot (flag_request j)) 16) with 0 in *. change (u16 (m_slot (flag_request j))) with 0 in *.
  assert (Hch : change = VMRUN_MR_CREATE ∨ change = VMRUN_MR_FLAGS_ONLY).
  { destruct Hrq as [Hn Hs]. change (Z.shiftr (m_memory_size (flag_request j)) PAGE_SHIFT) with 16 in Hn. rewrite Hn in Hs. destruct (Hs ltac:(done)) as (Hb & _ & _).
    change (Z.shiftr (m_guest_phys_addr (flag_request j)) PAGE_SHIFT) with 0x100 in Hb.
    destruct Hac as [_ Eo _ _ _ _ _ _ Hc _]. rewrite Eo in Hold. destruct change; [by left|lia|exfalso|by right].
    destruct Hc as (H1 & H2 & H3). destruct Hold as [?|(_ & H4 & _)]; [done|]. congruence. }
  set (vm1 := vm <| mem_heap := h |>) in *.
  assert (Hlen : length (spaces vm1) = 2%nat) by apply (vm_spaces _ Hok).
  destruct (mr_install_once 0 ptr old new1 change vm1 Hch Hlen) as [G1 G2].
  { change (__vmrun_memslots vm1 0) with (__vmrun_memslots vm 0). rewrite Hg, u64_mod4. Z.to_euclidean_division_equations; lia. }
  { exact Hl. }
  split; [exact Hok'| | | |exact G2].
  - rewrite install_oracle by done. destruct (ex_oracle _ _ _ (ow_extends _ _ _ Hown)) as [used E]. rewrite Ho in E. symmetry in E. apply app_eq_nil in E as [_ E]. exact E.
  - rewrite decide_False by lia. by replace (j + 1 - 1) with j by lia.
  - rewrite G1. change (__vmrun_memslots vm1 0) with (__vmrun_memslots vm 0). rewrite Hg, u64_add_u64. f_equal. lia.
Qed.

Lemma flag_requests_ok (h : heap) (req : Z) (n : nat) :
  heap_ok h → h.(oracle) = [] → flagged (Z.of_nat n) (after_requests hr lp access_ok (flag_requests n) (fresh_vm h req)).
Proof using Hacc.
  intros Hh Ho. induction n as [|n IH].
  - split; [by apply fresh_vm_ok|done| |done|constructor]. cbn. by intros s (i & -> & _)%list_elem_of_fmap.
  - unfold flag_requests. rewrite seq_S, fmap_app. unfold after_requests. rewrite foldl_app. cbn [fmap list_fmap foldl].
    destruct (flag_request_step (Z.of_nat n) _ ltac:(lia) IH) as [_ H]. by replace (Z.of_nat (S n)) with (Z.of_nat n + 1) by lia.
Qed.
End Flags.

(** C35: the generation of address space 0 wraps unnoticed.  On a fresh virtual
    machine user space creates a slot and then turns its dirty logging on and
    off 2^18 times.  Every request succeeds, and in the end the generation that
    MMIO sptes record is the one it was after the creation, although the
    generation of the slots is another and nothing on the way asked the MMU to
    zap its pages: [vmrun_mmu_invalidate_mmio_sptes] looks for a generation
    that is 0 modulo 2^20, while address space 0 starts at -150 and moves by 4.
    An MMIO spte from the time of the creation is then taken for a current
    one. *)
Theorem mmio_generation_wraps_unnoticed `{K : KvmMmuPages} (hr lp : bool) (access_ok : Z → Z → bool) (h : heap) (req : Z) :
  let vm n := after_requests hr lp access_ok (flag_requests n) (fresh_vm h req) in
  let last := S (Z.to_nat (2 ^ 18)) in
  access_ok 0x7f0000000000 0x10000 = true → heap_ok h → h.(oracle) = [] →
  (∀ n, (vmrun_vm_ioctl_set_memory_region hr lp access_ok (flag_request (Z.of_nat n)) (vm n)).1 = 0) ∧
  vmrun_current_mmio_generation (__vmrun_memslots (vm last) 0).(generation)
    = vmrun_current_mmio_generation (__vmrun_memslots (vm 1%nat) 0).(generation) ∧
  (__vmrun_memslots (vm last) 0).(generation) ≠ (__vmrun_memslots (vm 1%nat) 0).(generation) ∧
  Forall harmless (vm last).(mmu_log).
Proof.
  intros vm last Hacc Hh Ho.
  assert (Hn : ∀ n, flagged (Z.of_nat n) (vm n)) by (intros n; by apply flag_requests_ok).
  split; [intros n; by apply (flag_request_step hr lp access_ok Hacc (Z.of_nat n) (vm n) ltac:(lia) (Hn n))|].
  destruct (Hn 1%nat) as [_ _ _ G1 _]. destruct (Hn last) as [_ _ _ G2 L]. rewrite G1, G2.
  replace (Z.of_nat last) with (2 ^ 18 + 1) by (unfold last; lia). split; [reflexivity|]. split; [discriminate|done].
Qed.

Lemma mmio_generation_wraps_unnoticed_witness :
  let vm n := after_requests (K := kvm_mmu_pages) true true (λ _ _, true) (flag_requests n) (fresh_vm (start_heap []) 0) in
  vmrun_current_mmio_generation (__vmrun_memslots (vm (S (Z.to_nat (2 ^ 18)))) 0).(generation)
    = vmrun_current_mmio_generation (__vmrun_memslots (vm 1%nat) 0).(generation).
Proof.
  apply (mmio_generation_wraps_unnoticed (K := kvm_mmu_pages) true true (λ _ _, true) (start_heap []) 0); [reflexivity|apply start_heap_ok|reflexivity].
Defined.
