(* ===== verification/PteList.v ===== *)
(** * Reverse maps: chains of shadow entries

    The rmap of a guest frame lists the shadow entries that map it
    (kernel/mmu.c: [pte_list_add], [pte_list_remove], [rmap_get_first],
    [rmap_get_next]).  An rmap head is 0, the address of the only entry, or
    the address of a chain of descriptors with bit 0 set; a descriptor holds
    up to three entries.

    Descriptors live in a store from addresses to structs; a freed descriptor
    is removed from the store, so a use after free is a failure.  [None] is a
    [BUG], or an access outside the store. *)

From S2P Require Import Prelude.

Definition PTE_LIST_EXT : nat := 3.
Definition PTE_PREFETCH_NUM : Z := 8.

Record pte_list_desc := {
  sptes : list Z;
  more : Z
}.
#[export] Instance eta_pte_list_desc : Eta pte_list_desc := λ r,
  {| sptes := r.(sptes); more := r.(more) |}.

Definition zero_desc : pte_list_desc := {| sptes := replicate PTE_LIST_EXT 0; more := 0 |}.

(** The descriptors and the vcpu's [mmu_pte_list_desc_cache], top first. *)
Record desc_mem := {
  descs : gmap Z pte_list_desc;
  desc_cache : list Z
}.
#[export] Instance eta_desc_mem : Eta desc_mem := λ r,
  {| descs := r.(descs); desc_cache := r.(desc_cache) |}.

(** ** Object caches

    A cache is the list of its objects, the last one first.  [avail] is what
    the allocator will return: [None] is a failed allocation. *)
Section Cache.
Context (capacity : nat).   (* ARRAY_SIZE(cache->objects) *)

(** The [while] loop of [mmu_topup_memory_cache]; each pass adds one object. *)
Fixpoint topup_loop (room : nat) (avail : list (option Z)) (cache : list Z)
    : bool * list (option Z) * list Z :=
  match room with
  | O => (true, avail, cache)
  | S room =>
      match avail with
      | Some obj :: avail => topup_loop room avail (obj :: cache)
      | None :: avail => (false, avail, cache)
      | [] => (false, [], cache)
      end
  end.

(** Also [mmu_topup_memory_cache_page], which differs in the allocator. *)
Definition mmu_topup_memory_cache (min : nat) (avail : list (option Z)) (cache : list Z)
    : Z * list (option Z) * list Z :=
  if (min <=? length cache)%nat then (0, avail, cache)
  else
    let '(ok, avail, cache) := topup_loop (capacity - length cache) avail cache in
    (if ok : bool then 0 else - ENOMEM, avail, cache).
End Cache.

Definition mmu_memory_cache_free_objects (cache : list Z) : nat := length cache.

(** Result: the freed objects, in order, and the empty cache. *)
Definition mmu_free_memory_cache (cache : list Z) : list Z * list Z := (cache, []).

Definition mmu_memory_cache_alloc (cache : list Z) : option (Z * list Z) :=
  match cache with [] => None | p :: cache => Some (p, cache) end.

Definition mmu_alloc_pte_list_desc (m : desc_mem) : option (Z * desc_mem) :=
  '(p, cache) ← mmu_memory_cache_alloc m.(desc_cache);
  Some (p, m <| desc_cache := cache |>).

Definition mmu_free_pte_list_desc (p : Z) (m : desc_mem) : desc_mem :=
  m <| descs ::= delete p |>.

Definition store_desc (p : Z) (d : pte_list_desc) (m : desc_mem) : desc_mem :=
  m <| descs ::= <[p := d]> |>.

(** ** Adding an entry *)

(** The [while] loop: the first descriptor that is not full, or the last. *)
Fixpoint add_walk (fuel : nat) (m : desc_mem) (p : Z) (count : Z) : option (Z * Z) :=
  match fuel with
  | O => None
  | S fuel =>
      d ← m.(descs) !! p;
      if truth (d.(sptes) !!! (PTE_LIST_EXT - 1)%nat) && truth d.(more)
      then add_walk fuel m d.(more) (count + Z.of_nat PTE_LIST_EXT)
      else Some (p, count)
  end.

(** [for (i = 0; desc->sptes[i]; ++i)]; [None]: it runs off the array. *)
Fixpoint first_null (l : list Z) : option nat :=
  match l with
  | [] => None
  | x :: l => if truth x then S <$> first_null l else Some 0%nat
  end.

(** Result: the returned count, the new head and the store. *)
Definition pte_list_add (spte head : Z) (m : desc_mem) : option (Z * Z * desc_mem) :=
  if negb (truth head) then Some (0, spte, m)
  else if negb (truth (Z.land head 1)) then
    '(p, m) ← mmu_alloc_pte_list_desc m;
    d ← m.(descs) !! p;
    let d := d <| sptes ::= λ l, <[1%nat := spte]> (<[0%nat := head]> l) |> in
    Some (1, Z.lor p 1, store_desc p d m)
  else
    '(p, count) ← add_walk (S (size m.(descs))) m (Z.land head (not64 1)) 0;
    d ← m.(descs) !! p;
    '(p, m) ← (if truth (d.(sptes) !!! (PTE_LIST_EXT - 1)%nat) then
                 '(q, m) ← mmu_alloc_pte_list_desc m;
                 Some (q, store_desc p (d <| more := q |>) m)
               else Some (p, m));
    d ← m.(descs) !! p;
    i ← first_null d.(sptes);
    Some (count + Z.of_nat i, head, store_desc p (d <| sptes ::= <[i := spte]> |>) m).

(** ** Removing an entry *)

(** [for (j = PTE_LIST_EXT - 1; !desc->sptes[j] && j > i; --j)] *)
Fixpoint last_used (l : list Z) (i j : nat) : nat :=
  match j with
  | O => O
  | S j' => if negb (truth (l !!! j)) && (i <? j)%nat then last_used l i j' else j
  end.

(** Result: the new head and the store. *)
Definition pte_list_desc_remove_entry (head p : Z) (i : nat) (prev : Z) (m : desc_mem)
    : option (Z * desc_mem) :=
  d ← m.(descs) !! p;
  let j := last_used d.(sptes) i (PTE_LIST_EXT - 1) in
  let d := d <| sptes ::= λ l, <[i := l !!! j]> l |> in
  let d := d <| sptes ::= <[j := 0]> |> in
  let m := store_desc p d m in
  if negb (j =? 0)%nat then Some (head, m)
  else
    '(head, m) ← (if negb (truth prev) && negb (truth d.(more)) then Some (d.(sptes) !!! 0%nat, m)
                  else if truth prev then
                    pd ← m.(descs) !! prev;
                    Some (head, store_desc prev (pd <| more := d.(more) |>) m)
                  else Some (Z.lor d.(more) 1, m));
    Some (head, mmu_free_pte_list_desc p m).

(** The inner [for] loop: the index of [spte] among the used entries. *)
Fixpoint find_spte (spte : Z) (l : list Z) : option nat :=
  match l with
  | [] => None
  | x :: l => if negb (truth x) then None
              else if x =? spte then Some 0%nat else S <$> find_spte spte l
  end.

Fixpoint remove_walk (fuel : nat) (spte head p prev : Z) (m : desc_mem) : option (Z * desc_mem) :=
  match fuel with
  | O => None
  | S fuel =>
      if negb (truth p) then None     (* BUG *)
      else
        d ← m.(descs) !! p;
        match find_spte spte d.(sptes) with
        | Some i => pte_list_desc_remove_entry head p i prev m
        | None => remove_walk fuel spte head d.(more) p m
        end
  end.

Definition pte_list_remove (spte head : Z) (m : desc_mem) : option (Z * desc_mem) :=
  if negb (truth head) then None      (* BUG *)
  else if negb (truth (Z.land head 1)) then
    if negb (head =? spte) then None  (* BUG *)
    else Some (0, m)
  else remove_walk (S (S (size m.(descs)))) spte head (Z.land head (not64 1)) 0 m.

(** ** Iterating *)

Record rmap_iterator := { it_desc : Z; it_pos : nat }.

Section Iterate.
(** Is the entry at an address present?  The iterator stops the kernel on one
    that is not. *)
Context (m : desc_mem).

(** [desc->sptes[pos]] *)
Definition read_spte (p : Z) (pos : nat) : option Z :=
  d ← m.(descs) !! p; d.(sptes) !! pos.

(** Result: the sptep, 0 for NULL, and the iterator. *)
Definition rmap_get_first (present : Z → bool) (head : Z) : option (Z * rmap_iterator) :=
  if negb (truth head) then Some (0, {| it_desc := 0; it_pos := 0 |})
  else
    '(sptep, iter) ← (if negb (truth (Z.land head 1)) then Some (head, {| it_desc := 0; it_pos := 0 |})
                      else
                        let p := Z.land head (not64 1) in
                        sptep ← read_spte p 0; Some (sptep, {| it_desc := p; it_pos := 0 |}));
    if present sptep then Some (sptep, iter) else None.

(** From [iter->desc = iter->desc->more] on. *)
Definition next_desc (present : Z → bool) (iter : rmap_iterator) : option (Z * rmap_iterator) :=
  d ← m.(descs) !! iter.(it_desc);
  if truth d.(more) then
    sptep ← read_spte d.(more) 0;
    if present sptep then Some (sptep, {| it_desc := d.(more); it_pos := 0 |}) else None
  else Some (0, {| it_desc := 0; it_pos := iter.(it_pos) |}).

Definition rmap_get_next (present : Z → bool) (iter : rmap_iterator) : option (Z * rmap_iterator) :=
  if negb (truth iter.(it_desc)) then Some (0, iter)
  else if (iter.(it_pos) <? PTE_LIST_EXT - 1)%nat then
    let iter := {| it_desc := iter.(it_desc); it_pos := S iter.(it_pos) |} in
    sptep ← read_spte iter.(it_desc) iter.(it_pos);
    if truth sptep then (if present sptep then Some (sptep, iter) else None)
    else next_desc present iter
  else next_desc present iter.

(** [for_each_rmap_spte]: the body works on a state [S]; whether an entry is
    present is read from it. *)
Context {S : Type} (present : S → Z → bool) (body : S → Z → S).

Fixpoint rmap_loop (fuel : nat) (sptep : Z) (iter : rmap_iterator) (s : S) : option S :=
  match fuel with
  | O => None
  | Datatypes.S fuel =>
      if negb (truth sptep) then Some s
      else
        let s := body s sptep in
        '(sptep, iter) ← rmap_get_next (present s) iter;
        rmap_loop fuel sptep iter s
  end.

Definition for_each_rmap_spte (head : Z) (s : S) : option S :=
  '(sptep, iter) ← rmap_get_first (present s) head;
  rmap_loop (2 + PTE_LIST_EXT * size m.(descs)) sptep iter s.
End Iterate.
