(* ===== verification/PteListProps.v ===== *)
(** * Reverse maps: the chains hold what was added *)

From S2P Require Import Prelude.
From S2P Require Import PteList.

(* ------------------------------------------------------------------ *)
(** ** What a chain represents *)

(** Addresses: non-null, with bit 0 free for the tag. *)
Record is_ptr (p : Z) : Prop := {
  ptr_u64 : is_u 64 p;
  ptr_nonnull : p ≠ 0;
  ptr_even : Z.even p = true
}.

Definition pad (es : list Z) : list Z := es ++ replicate (PTE_LIST_EXT - length es) 0.

Record entries_ok (es : list Z) : Prop := {
  eo_some : (0 < length es)%nat;
  eo_fit : (length es <= PTE_LIST_EXT)%nat;
  eo_ptrs : Forall is_ptr es
}.

(** From [p] on, the descriptors [ds] (address and entries) are linked. *)
Fixpoint chain (m : gmap Z pte_list_desc) (p : Z) (ds : list (Z * list Z)) : Prop :=
  match ds with
  | [] => p = 0
  | (q, es) :: ds =>
      p = q ∧ is_ptr q ∧ entries_ok es ∧
      ∃ next, m !! q = Some {| sptes := pad es; more := next |} ∧ chain m next ds
  end.

Definition entries (ds : list (Z * list Z)) : list Z := mjoin ds.*2.

(** [head] represents the entries [l], using the descriptors at [ps]. *)
Inductive rmap_rep (m : gmap Z pte_list_desc) : Z → list Z → list Z → Prop :=
| rep_none : rmap_rep m 0 [] []
| rep_one spte : is_ptr spte → rmap_rep m spte [] [spte]
| rep_many p ds :
    ds ≠ [] → NoDup ds.*1 → chain m p ds → rmap_rep m (Z.lor p 1) ds.*1 (entries ds).

(** The cached descriptors are zeroed and used by nobody else. *)
Record cache_ok (m : desc_mem) (ps : list Z) : Prop := {
  co_nodup : NoDup (ps ++ m.(desc_cache));
  co_zero : ∀ p, p ∈ m.(desc_cache) → is_ptr p ∧ m.(descs) !! p = Some zero_desc
}.

(* ------------------------------------------------------------------ *)
(** ** Tagged addresses *)

Lemma even_testbit0 (p : Z) : Z.even p = true → Z.testbit p 0 = false.
Proof. intros He. by rewrite Z.bit0_odd, <- Z.negb_even, He. Qed.

Lemma untagged (p : Z) : is_ptr p → truth (Z.land p 1) = false.
Proof.
  intros [_ _ He]. change 1 with (BIT 0). rewrite truth_land_BIT by lia. by apply even_testbit0.
Qed.

Lemma tagged (p : Z) : truth (Z.land (Z.lor p 1) 1) = true ∧ truth (Z.lor p 1) = true.
Proof.
  assert (Hb : Z.testbit (Z.lor p 1) 0 = true) by (rewrite Z.lor_spec; apply orb_true_r).
  split; [exact (eq_trans (truth_land_BIT _ 0 ltac:(lia)) Hb)|].
  apply truth_nonzero. intros E. by rewrite E in Hb.
Qed.

Lemma untag (p : Z) : is_ptr p → Z.land (Z.lor p 1) (not64 1) = p.
Proof.
  intros [Hu _ He]. apply Z.bits_inj'; intros i Hi. rewrite Z.land_spec, Z.lor_spec, not64_testbit by done.
  change 1 with (BIT 0). rewrite !BIT_testbit by lia. destruct (Z.eqb_spec i 0) as [->|Hi0].
  - by rewrite even_testbit0, andb_false_r.
  - rewrite orb_false_r. cbn [negb]. destruct (Z.ltb_spec i 64); [by rewrite andb_true_r|].
    by rewrite (is_u_testbit 64 p).
Qed.

(* ------------------------------------------------------------------ *)
(** ** One descriptor *)

Ltac rewrite_bools := repeat match goal with H : truth _ = true |- _ => rewrite H; clear H end.

(** A descriptor has one, two or three entries. *)
Ltac entry_cases es :=
  destruct es as [|?a [|?b [|?c [|?d ?es]]]]; cbn [length] in *; try (unfold PTE_LIST_EXT in *; lia);
  repeat match goal with
  | H : Forall is_ptr (_ :: _) |- _ => apply Forall_cons in H as [? H]
  | H : is_ptr ?x |- _ =>
      lazymatch goal with
      | _ : truth x = true |- _ => fail
      | _ => pose proof (truth_nonzero x (ptr_nonnull _ H))
      end
  end.

Lemma pad_first_null (es : list Z) :
  Forall is_ptr es → (length es < PTE_LIST_EXT)%nat → first_null (pad es) = Some (length es).
Proof. intros Hp Hl. entry_cases es; cbn; by rewrite_bools. Qed.

Lemma pad_append (es : list Z) (x : Z) :
  (length es < PTE_LIST_EXT)%nat → <[length es := x]> (pad es) = pad (es ++ [x]).
Proof. intros Hl. entry_cases es; done. Qed.

Lemma pad_full (es : list Z) :
  entries_ok es → truth (pad es !!! (PTE_LIST_EXT - 1)%nat) = bool_decide (length es = PTE_LIST_EXT).
Proof. intros [H1 H2 H3]. entry_cases es; cbn; by rewrite_bools. Qed.

Lemma find_spte_pad (spte : Z) (es : list Z) :
  entries_ok es →
  match find_spte spte (pad es) with
  | Some i => es !! i = Some spte
  | None => spte ∉ es
  end.
Proof.
  intros [_ _ H3]. unfold pad. generalize (PTE_LIST_EXT - length es)%nat as k. intros k.
  induction H3 as [|x es Hx H3 IH]; cbn.
  - destruct k; cbn; set_solver.
  - rewrite (truth_nonzero x (ptr_nonnull _ Hx)). cbn. destruct (Z.eqb_spec x spte) as [->|Hne]; [done|].
    destruct (find_spte spte _); cbn; set_solver.
Qed.

(** Taking entry [i] out: the last entry takes its place. *)
Lemma pad_remove (es : list Z) (i : nat) (spte : Z) :
  entries_ok es → es !! i = Some spte →
  let l := pad es in
  let j := last_used l i (PTE_LIST_EXT - 1) in
  ∃ es', <[j := 0]> (<[i := l !!! j]> l) = pad es' ∧ es ≡ₚ spte :: es' ∧ j = length es' ∧ Forall is_ptr es'.
Proof.
  intros [H1 H2 H3] Hi. entry_cases es; destruct i as [|[|[|i]]]; cbn in Hi; simplify_eq; cbn; rewrite_bools; cbn;
    [exists []|exists [b]|exists [a]|exists [c; b]|exists [a; c]|exists [a; b]].
  all: (split; [done|]; split; [|split; [done|rewrite ?Forall_cons; done]]).
  all: solve_Permutation.
Qed.

(* ------------------------------------------------------------------ *)
(** ** Chains *)

Lemma chain_frame (m m' : gmap Z pte_list_desc) (p : Z) (ds : list (Z * list Z)) :
  chain m p ds → (∀ q, q ∈ ds.*1 → m' !! q = m !! q) → chain m' p ds.
Proof.
  revert p. induction ds as [|[q es] ds IH]; [done|]. cbn. intros p (-> & Hq & Hes & next & Hl & Hc) Hf.
  split_and!; try done. exists next. split; [by rewrite Hf by set_solver|].
  apply IH; [done|]. set_solver.
Qed.

(** A chain does not depend on the descriptors of others. *)
Lemma rmap_rep_frame (m m' : gmap Z pte_list_desc) (head : Z) (ps l : list Z) :
  rmap_rep m head ps l → (∀ q, q ∈ ps → m' !! q = m !! q) → rmap_rep m' head ps l.
Proof.
  intros [|e He|p ds Hds Hn Hc] Hf; [apply rep_none|by apply rep_one|].
  apply rep_many; [done|done|]. by eapply chain_frame.
Qed.

(** The descriptor after [ds1] in a chain. *)
Lemma chain_middle (m : gmap Z pte_list_desc) (p : Z) (ds1 ds2 : list (Z * list Z)) (q : Z) (es : list Z) :
  chain m p (ds1 ++ (q, es) :: ds2) → chain m q ((q, es) :: ds2).
Proof.
  revert p. induction ds1 as [|[r fs] ds1 IH]; intros p; cbn [app].
  - intros Hc. pose proof Hc as [-> _]. exact Hc.
  - cbn. intros (_ & _ & _ & next & _ & Hc). by eapply IH.
Qed.

(** Replacing the descriptor after [ds1] and what follows it. *)
Lemma chain_replace (m m' : gmap Z pte_list_desc) (p : Z) (ds1 ds2 ds2' : list (Z * list Z))
    (q : Z) (es es' : list Z) (next : Z) :
  chain m p (ds1 ++ (q, es) :: ds2) → (∀ r, r ∈ ds1.*1 → m' !! r = m !! r) →
  entries_ok es' → m' !! q = Some {| sptes := pad es'; more := next |} → chain m' next ds2' →
  chain m' p (ds1 ++ (q, es') :: ds2').
Proof.
  revert p. induction ds1 as [|[r fs] ds1 IH]; intros p; cbn.
  - intros (-> & Hq & _ & _) _ Hes Hm Hc. split_and!; try done. by exists next.
  - intros (-> & Hr & Hfs & n' & Hl & Hc) Hf Hes Hm Hc'. split_and!; try done. exists n'.
    split; [by rewrite Hf by set_solver|]. apply IH; try done. set_solver.
Qed.

Lemma chain_dom (m : gmap Z pte_list_desc) (p : Z) (ds : list (Z * list Z)) :
  chain m p ds → NoDup ds.*1 → (length ds <= size m)%nat.
Proof.
  intros Hc Hn. rewrite <- (length_fmap fst ds), <- (size_list_to_set (C := gset Z)) by done.
  rewrite <- size_dom. apply subseteq_size. intros q Hq%elem_of_list_to_set.
  apply elem_of_dom. clear Hn. revert p Hc Hq. induction ds as [|[r es] ds IH]; [set_solver|].
  cbn. intros p (_ & _ & _ & next & Hl & Hc) [->|Hq]%elem_of_cons; eauto.
Qed.

Lemma chain_ptrs (m : gmap Z pte_list_desc) (p : Z) (ds : list (Z * list Z)) :
  chain m p ds → Forall is_ptr ds.*1 ∧ Forall is_ptr (entries ds).
Proof.
  revert p. induction ds as [|[q es] ds IH]; [by repeat constructor|]. cbn.
  intros p (_ & Hq & [_ _ Hes] & next & _ & Hc). destruct (IH next Hc).
  split; [by constructor|]. by apply Forall_app.
Qed.

Lemma entries_app (ds1 ds2 : list (Z * list Z)) : entries (ds1 ++ ds2) = entries ds1 ++ entries ds2.
Proof. unfold entries. by rewrite fmap_app, join_app. Qed.

Lemma entries_cons (q : Z) (es : list Z) (ds : list (Z * list Z)) :
  entries ((q, es) :: ds) = es ++ entries ds.
Proof. done. Qed.

(* ------------------------------------------------------------------ *)
(** ** Adding *)

(** Where the walk stops, and the count it has by then. *)
Lemma add_walk_spec (m : desc_mem) (fuel : nat) (p count : Z) (ds : list (Z * list Z)) :
  chain m.(descs) p ds → ds ≠ [] → (length ds <= fuel)%nat →
  ∃ ds1 q es ds2, ds = ds1 ++ (q, es) :: ds2 ∧ ((length es < PTE_LIST_EXT)%nat ∨ ds2 = []) ∧
    Forall (λ d, length d.2 = PTE_LIST_EXT) ds1 ∧
    add_walk fuel m p count = Some (q, count + 3 * Z.of_nat (length ds1)).
Proof.
  revert p count ds. induction fuel as [|fuel IH]; intros p count ds Hc Hne Hf; [destruct ds; cbn in Hf; [done|lia]|].
  destruct ds as [|[q es] ds]; [done|]. pose proof Hc as (-> & Hq & Hes & next & Hl & Hc').
  cbn [add_walk]. rewrite Hl. cbn [mbind option_bind sptes more].
  rewrite (pad_full es Hes).
  destruct ds as [|[q' es'] ds].
  - cbn in Hc'. subst next. rewrite andb_false_r. exists [], q, es, [].
    split_and!; auto. by rewrite Z.add_0_r.
  - assert (truth next = true) as ->.
    { destruct Hc' as (-> & [_ Hn _] & _). by apply truth_nonzero. }
    rewrite andb_true_r. case_bool_decide as Hfull.
    + destruct (IH next (count + 3) ((q', es') :: ds)) as (ds1 & r & fs & ds2 & E & H1 & H2 & H3);
        [done|done|cbn in *; lia|].
      exists ((q, es) :: ds1), r, fs, ds2. split_and!; [by rewrite E|done|by constructor|].
      change (Z.of_nat PTE_LIST_EXT) with 3. rewrite H3. do 2 f_equal. cbn [length]. lia.
    + exists [], q, es, ((q', es') :: ds). split_and!; auto.
      * left. destruct Hes as [_ ? _]. lia.
      * by rewrite Z.add_0_r.
Qed.

(** What adding an entry leaves: the descriptors used and cached are the ones
    that were, no other one is touched, and the cache is still in order. *)
Record add_result (spte : Z) (m m' : desc_mem) (ps l : list Z) (head' : Z) : Prop := {
  ar_rep : ∃ ps' l', rmap_rep m'.(descs) head' ps' l' ∧ l' ≡ₚ spte :: l ∧ cache_ok m' ps' ∧
                     ps' ++ m'.(desc_cache) ≡ₚ ps ++ m.(desc_cache);
  ar_frame : ∀ p, p ∉ ps → p ∉ m.(desc_cache) → m'.(descs) !! p = m.(descs) !! p
}.

Lemma alloc_desc (m : desc_mem) (ps : list Z) :
  cache_ok m ps → m.(desc_cache) ≠ [] →
  ∃ q c, m.(desc_cache) = q :: c ∧ mmu_alloc_pte_list_desc m = Some (q, m <| desc_cache := c |>) ∧
         is_ptr q ∧ m.(descs) !! q = Some zero_desc ∧ q ∉ ps ∧ q ∉ c.
Proof.
  intros [Hn Hz] Hne. destruct m as [ds [|q c]]; [done|]. cbn in *. exists q, c.
  apply NoDup_app in Hn as (_ & Hd & Hn). apply NoDup_cons in Hn as [Hq _].
  destruct (Hz q); [set_solver|]. split_and!; try done. intros Hp. by destruct (Hd q Hp); left.
Qed.

Lemma cache_ok_store (m m' : desc_mem) (ps ps' : list Z) :
  cache_ok m ps → ps' ++ m'.(desc_cache) ≡ₚ ps ++ m.(desc_cache) →
  (∀ p, p ∈ m'.(desc_cache) → p ∈ m.(desc_cache) ∧ m'.(descs) !! p = m.(descs) !! p) →
  cache_ok m' ps'.
Proof.
  intros [Hn Hz] Hp Hs. split; [by rewrite Hp|]. intros p Hpc. destruct (Hs p Hpc) as [Hc ->]. auto.
Qed.

(** One entry becomes a chain of two. *)
Lemma add_to_one (spte e : Z) (m : desc_mem) :
  is_ptr spte → is_ptr e → cache_ok m [] → m.(desc_cache) ≠ [] →
  ∃ head' m', pte_list_add spte e m = Some (1, head', m') ∧ add_result spte m m' [] [e] head'.
Proof.
  intros Hs He Hc Hne. destruct (alloc_desc m [] Hc Hne) as (q & c & Ec & Ea & Hq & Hz & _ & Hqc).
  unfold pte_list_add. rewrite (truth_nonzero e (ptr_nonnull _ He)), (untagged e He). cbn [negb].
  rewrite Ea. cbn -[insert Z.lor]. rewrite Hz. cbn -[insert Z.lor].
  eexists _, _. split; [done|]. split.
  - exists [q], [e; spte]. split_and!.
    + apply (rep_many _ q [(q, [e; spte])]); [done|apply NoDup_singleton|].
      split_and!; [done..| |].
      * split; cbn; [lia|unfold PTE_LIST_EXT; lia|by rewrite !Forall_cons].
      * exists 0. split; [|done]. cbn. by rewrite lookup_insert_eq.
    + solve_Permutation.
    + eapply cache_ok_store; [exact Hc|cbn; by rewrite Ec|]. cbn. intros p Hp. rewrite Ec.
      split; [set_solver|]. rewrite lookup_insert_ne; [done|set_solver].
    + cbn. by rewrite Ec.
  - intros p _ Hp. cbn. rewrite lookup_insert_ne; [done|]. rewrite Ec in Hp. set_solver.
Qed.

Lemma entries_ok_append (es : list Z) (x : Z) :
  entries_ok es → is_ptr x → (length es < PTE_LIST_EXT)%nat → entries_ok (es ++ [x]).
Proof.
  intros [H1 H2 H3] Hx Hl. split; rewrite ?length_app; cbn; try lia. apply Forall_app. by rewrite Forall_singleton.
Qed.

Lemma fmap_fst_middle (ds1 ds2 : list (Z * list Z)) (q : Z) (es : list Z) :
  (ds1 ++ (q, es) :: ds2).*1 = ds1.*1 ++ q :: ds2.*1.
Proof. by rewrite fmap_app. Qed.

(** The addresses of a chain, split at one of them. *)
Lemma nodup_middle (ds1 ds2 : list (Z * list Z)) (q : Z) (es : list Z) :
  NoDup (ds1 ++ (q, es) :: ds2).*1 → q ∉ ds1.*1 ∧ q ∉ ds2.*1 ∧ (∀ r, r ∈ ds1.*1 → r ∉ ds2.*1) ∧
  NoDup ds1.*1 ∧ NoDup ds2.*1.
Proof.
  rewrite fmap_fst_middle. intros (H1 & H2 & H3)%NoDup_app. apply NoDup_cons in H3 as [H3 H4].
  split_and!; try done.
  - intros Hq. destruct (H2 q Hq). by left.
  - intros r Hr Hr2. destruct (H2 r Hr). by right.
Qed.

(** A descriptor with room takes the entry. *)
Lemma add_in_place (spte p : Z) (m : desc_mem) (ds1 ds2 : list (Z * list Z)) (q : Z) (es : list Z) :
  let ds := ds1 ++ (q, es) :: ds2 in
  is_ptr spte → chain m.(descs) p ds → NoDup ds.*1 → cache_ok m ds.*1 →
  (length es < PTE_LIST_EXT)%nat →
  ∃ d, m.(descs) !! q = Some d ∧ first_null d.(sptes) = Some (length es) ∧
    add_result spte m (store_desc q (d <| sptes ::= <[length es := spte]> |>) m) ds.*1 (entries ds) (Z.lor p 1).
Proof.
  intros ds Hs Hc Hn Hco Hl. destruct (chain_middle _ _ _ _ _ _ Hc) as (_ & Hq & Hes & next & Hm & Hc2).
  destruct (nodup_middle _ _ _ _ Hn) as (Hq1 & Hq2 & Hd & _).
  exists {| sptes := pad es; more := next |}. split_and!; [done|by apply pad_first_null; [apply Hes|]|].
  set (m' := store_desc _ _ _).
  assert (Hm' : m'.(descs) = <[q := {| sptes := pad (es ++ [spte]); more := next |}]> m.(descs))
    by (unfold m'; cbn -[insert]; by rewrite pad_append).
  assert (Hds : ds.*1 = (ds1 ++ (q, es ++ [spte]) :: ds2).*1) by (unfold ds; by rewrite !fmap_fst_middle).
  split.
  - exists ds.*1, (entries (ds1 ++ (q, es ++ [spte]) :: ds2)). split_and!.
    + rewrite Hds. apply rep_many; [by destruct ds1|by rewrite <- Hds|]. rewrite Hm'.
      eapply (chain_replace m.(descs)); [exact Hc| |by apply entries_ok_append|by rewrite lookup_insert_eq|].
      * intros r Hr. rewrite lookup_insert_ne; [done|]. by intros ->.
      * eapply chain_frame; [exact Hc2|]. intros r Hr. rewrite lookup_insert_ne; [done|]. by intros ->.
    + unfold ds. rewrite !entries_app, !entries_cons. solve_Permutation.
    + eapply cache_ok_store; [exact Hco|done|]. intros r Hr. split; [done|]. rewrite Hm', lookup_insert_ne; [done|].
      intros <-. destruct Hco as [Hnd _]. apply NoDup_app in Hnd as (_ & Hx & _). apply (Hx q); [|done].
      unfold ds. rewrite fmap_fst_middle. set_solver.
    + done.
  - intros r Hr _. rewrite Hm', lookup_insert_ne; [done|]. intros <-. apply Hr.
    unfold ds. rewrite fmap_fst_middle. set_solver.
Qed.

(** The last descriptor is full: a new one is linked behind it. *)
Lemma add_new_desc (spte p : Z) (m : desc_mem) (ds1 : list (Z * list Z)) (q : Z) (es : list Z) :
  let ds := ds1 ++ [(q, es)] in
  is_ptr spte → chain m.(descs) p ds → NoDup ds.*1 → cache_ok m ds.*1 → m.(desc_cache) ≠ [] →
  ∃ d r c, m.(descs) !! q = Some d ∧ mmu_alloc_pte_list_desc m = Some (r, m <| desc_cache := c |>) ∧
    let m1 := store_desc q (d <| more := r |>) (m <| desc_cache := c |>) in
    m1.(descs) !! r = Some zero_desc ∧
    add_result spte m (store_desc r (zero_desc <| sptes ::= <[0%nat := spte]> |>) m1)
               ds.*1 (entries ds) (Z.lor p 1).
Proof.
  intros ds Hs Hc Hn Hco Hne. destruct (chain_middle _ _ _ _ _ _ Hc) as (_ & Hq & Hes & next & Hm & Hc2).
  destruct (alloc_desc m _ Hco Hne) as (r & c & Ec & Ea & Hr & Hz & Hrds & Hrc).
  destruct (nodup_middle _ _ _ _ Hn) as (Hq1 & _ & _ & Hn1 & _).
  assert (Hqr : q ≠ r) by (intros ->; apply Hrds; unfold ds; rewrite fmap_fst_middle; set_solver).
  assert (Hr1 : r ∉ ds1.*1) by (intros ?; apply Hrds; unfold ds; rewrite fmap_fst_middle; set_solver).
  exists {| sptes := pad es; more := next |}, r, c. split_and!; [done|done|]. cbv zeta.
  set (m1 := store_desc q _ _). assert (Hm1 : m1.(descs) !! r = Some zero_desc)
    by (cbn; by rewrite lookup_insert_ne). split; [done|].
  set (m2 := store_desc r _ m1).
  assert (Hm2 : m2.(descs) = <[r := {| sptes := pad [spte]; more := 0 |}]>
                             (<[q := {| sptes := pad es; more := r |}]> m.(descs))) by done.
  assert (Hds : (ds1 ++ [(q, es); (r, [spte])]).*1 = ds.*1 ++ [r])
    by (unfold ds; by rewrite !fmap_app, <- (assoc_L (++))).
  split.
  - exists (ds.*1 ++ [r]), (entries (ds1 ++ [(q, es); (r, [spte])])). split_and!.
    + rewrite <- Hds. apply rep_many; [by destruct ds1| |].
      { rewrite Hds. apply NoDup_app. split_and!; [done| |apply NoDup_singleton]. set_solver. }
      eapply (chain_replace m.(descs)); [exact Hc| |done| |].
      * intros x Hx. rewrite Hm2, !lookup_insert_ne; [done|by intros ->|by intros ->].
      * rewrite Hm2, lookup_insert_ne by done. by rewrite lookup_insert_eq.
      * split_and!; [done..| |].
        -- split; cbn; [lia|unfold PTE_LIST_EXT; lia|by rewrite Forall_singleton].
        -- exists 0. split; [|done]. rewrite Hm2. by rewrite lookup_insert_eq.
    + unfold ds. rewrite !entries_app, !entries_cons. cbn. solve_Permutation.
    + eapply cache_ok_store; [exact Hco|cbn; rewrite Ec; solve_Permutation|].
      intros x Hx. change (x ∈ c) in Hx. rewrite Ec. split; [set_solver|].
      rewrite Hm2, !lookup_insert_ne; [done| |by intros ->].
      intros <-. destruct Hco as [Hnd _]. apply NoDup_app in Hnd as (_ & Hy & _). apply (Hy q).
      * unfold ds. rewrite fmap_fst_middle. set_solver.
      * rewrite Ec. by right.
    + cbn. rewrite Ec. solve_Permutation.
  - intros x Hx Hxc. rewrite Hm2, !lookup_insert_ne; [done| |].
    + intros <-. apply Hx. unfold ds. rewrite fmap_fst_middle. set_solver.
    + intros <-. apply Hxc. rewrite Ec. by left.
Qed.

Lemma add_to_many (spte p : Z) (m : desc_mem) (ds : list (Z * list Z)) :
  is_ptr spte → ds ≠ [] → NoDup ds.*1 → chain m.(descs) p ds → cache_ok m ds.*1 → m.(desc_cache) ≠ [] →
  ∃ count m', pte_list_add spte (Z.lor p 1) m = Some (count, Z.lor p 1, m') ∧
              add_result spte m m' ds.*1 (entries ds) (Z.lor p 1).
Proof.
  intros Hs Hne Hn Hc Hco Hcne. unfold pte_list_add. destruct (tagged p) as [-> ->]. cbn [negb].
  assert (Hp : is_ptr p) by (destruct ds as [|[q es] ds]; [done|]; by destruct Hc as (-> & ? & _)).
  rewrite (untag p Hp). pose proof (chain_dom _ _ _ Hc Hn).
  destruct (add_walk_spec m (S (size (descs m))) p 0 ds Hc Hne ltac:(lia))
    as (ds1 & q & es & ds2 & -> & Hstop & _ & ->). cbn [mbind option_bind].
  pose proof (chain_middle _ _ _ _ _ _ Hc) as (_ & _ & Hes & next & Hm & _).
  destruct (decide (length es = PTE_LIST_EXT)) as [Hf|Hf].
  - destruct Hstop as [| ->]; [lia|].
    destruct (add_new_desc spte p m ds1 q es Hs Hc Hn Hco Hcne) as (d & r & c & Hq & Ha & Hz & Hres).
    rewrite Hm in Hq. apply (inj Some) in Hq as <-. rewrite Hm. cbn [mbind option_bind sptes].
    rewrite pad_full, bool_decide_eq_true_2 by done. rewrite Ha. cbn [mbind option_bind].
    rewrite Hz. cbn [mbind option_bind]. eexists _, _. split; [reflexivity|exact Hres].
  - assert (Hl : (length es < PTE_LIST_EXT)%nat) by (destruct Hes; lia).
    destruct (add_in_place spte p m ds1 ds2 q es Hs Hc Hn Hco Hl) as (d & Hq & Hfn & Hres).
    rewrite Hq. cbn [mbind option_bind]. rewrite Hm in Hq. apply (inj Some) in Hq as <-.
    cbn [sptes] in *. rewrite pad_full, bool_decide_eq_false_2 by done. cbn [mbind option_bind].
    rewrite Hm. cbn [mbind option_bind sptes]. rewrite Hfn. cbn [mbind option_bind].
    eexists _, _. split; [reflexivity|exact Hres].
Qed.

Lemma pte_list_add_spec (spte head : Z) (m : desc_mem) (ps l : list Z) :
  is_ptr spte → rmap_rep m.(descs) head ps l → cache_ok m ps → m.(desc_cache) ≠ [] →
  ∃ count head' m', pte_list_add spte head m = Some (count, head', m') ∧
                    add_result spte m m' ps l head'.
Proof.
  intros Hs Hrep Hco Hne. destruct Hrep as [|e He|p ds Hds Hn Hc].
  - exists 0, spte, m. split; [done|]. split; [|done]. exists [], [spte]. split_and!; try done. by apply rep_one.
  - destruct (add_to_one spte e m Hs He Hco Hne) as (h & m' & ? & ?). by exists 1, h, m'.
  - destruct (add_to_many spte p m ds Hs Hds Hn Hc Hco Hne) as (n & m' & ? & ?). by eexists _, _, _.
Qed.

(** Adding an entry to a reverse map.  With a descriptor in the
    cache, [pte_list_add] succeeds on every well-formed rmap; the rmap then
    holds the new entry besides the ones it held, the descriptors it uses and
    the cached ones are the ones that were, and no other descriptor (that of
    another rmap, say) is touched. *)
Theorem pte_list_add_correct (spte head : Z) (m : desc_mem) (ps l : list Z) :
  is_ptr spte → rmap_rep m.(descs) head ps l → cache_ok m ps → m.(desc_cache) ≠ [] →
  ∃ count head' m', pte_list_add spte head m = Some (count, head', m') ∧
                    add_result spte m m' ps l head'.
Proof. exact (pte_list_add_spec spte head m ps l). Qed.

(* ------------------------------------------------------------------ *)
(** ** Removing *)

(** What removing an entry leaves: some of the descriptors are freed, no
    descriptor of another rmap and no cached one is touched. *)
Record remove_result (spte : Z) (m m' : desc_mem) (ps l : list Z) (head' : Z) : Prop := {
  rr_rep : ∃ ps' freed l', rmap_rep m'.(descs) head' ps' l' ∧ l ≡ₚ spte :: l' ∧ ps ≡ₚ freed ++ ps' ∧
                           (∀ p, p ∈ freed → m'.(descs) !! p = None);
  rr_frame : ∀ p, p ∉ ps → m'.(descs) !! p = m.(descs) !! p;
  rr_cache : m'.(desc_cache) = m.(desc_cache)
}.

(** The descriptor before the end of [ds1], or [prev]. *)
Definition last_ptr (prev : Z) (ds1 : list (Z * list Z)) : Z := default prev (last ds1.*1).

(** Where the search for an entry ends. *)
Lemma remove_walk_found (m : desc_mem) (spte head : Z) (fuel : nat) (p prev : Z) (ds : list (Z * list Z)) :
  chain m.(descs) p ds → spte ∈ entries ds → (length ds <= fuel)%nat →
  ∃ ds1 q es ds2 i, ds = ds1 ++ (q, es) :: ds2 ∧ es !! i = Some spte ∧
    remove_walk fuel spte head p prev m = pte_list_desc_remove_entry head q i (last_ptr prev ds1) m.
Proof.
  revert p prev ds. induction fuel as [|fuel IH]; intros p prev ds Hc Hin Hf.
  { destruct ds; [by apply elem_of_nil in Hin|cbn in Hf; lia]. }
  destruct ds as [|[q es] ds]; [by apply elem_of_nil in Hin|].
  pose proof Hc as (-> & Hq & Hes & next & Hl & Hc'). cbn [remove_walk].
  rewrite (truth_nonzero q (ptr_nonnull _ Hq)), Hl. cbn [negb mbind option_bind sptes more].
  pose proof (find_spte_pad spte es Hes) as Hfind. destruct (find_spte spte (pad es)) as [i|].
  - by exists [], q, es, ds, i.
  - rewrite entries_cons in Hin. apply elem_of_app in Hin as [?|Hin]; [done|].
    destruct (IH next q ds Hc' Hin) as (ds1 & r & fs & ds2 & i & -> & Hi & ->); [cbn in Hf; lia|].
    exists ((q, es) :: ds1), r, fs, ds2, i. split_and!; [done..|].
    unfold last_ptr. cbn [fmap list_fmap]. rewrite last_cons. f_equal. cbn. by destruct (last ds1.*1).
Qed.

Lemma remove_walk_absent (m : desc_mem) (spte head : Z) (fuel : nat) (p prev : Z) (ds : list (Z * list Z)) :
  chain m.(descs) p ds → spte ∉ entries ds → remove_walk fuel spte head p prev m = None.
Proof.
  revert p prev ds. induction fuel as [|fuel IH]; intros p prev ds Hc Hin; [done|].
  destruct ds as [|[q es] ds]; cbn [remove_walk].
  - cbn in Hc. by subst p.
  - pose proof Hc as (-> & Hq & Hes & next & Hl & Hc').
    rewrite (truth_nonzero q (ptr_nonnull _ Hq)), Hl. cbn [negb mbind option_bind sptes more].
    rewrite entries_cons in Hin. pose proof (find_spte_pad spte es Hes) as Hfind.
    destruct (find_spte spte (pad es)) as [i|].
    + apply list_elem_of_lookup_2 in Hfind. set_solver.
    + eapply IH; [done|]. set_solver.
Qed.

(** The descriptor keeps other entries. *)
Lemma remove_in_place (spte p prev : Z) (m : desc_mem) (ds1 ds2 : list (Z * list Z)) (q : Z) (es es' : list Z)
    (i : nat) :
  let ds := ds1 ++ (q, es) :: ds2 in
  let l := pad es in
  let j := last_used l i (PTE_LIST_EXT - 1) in
  chain m.(descs) p ds → NoDup ds.*1 → <[j := 0]> (<[i := l !!! j]> l) = pad es' → es ≡ₚ spte :: es' →
  entries_ok es' → j ≠ 0%nat →
  ∃ m', pte_list_desc_remove_entry (Z.lor p 1) q i prev m = Some (Z.lor p 1, m') ∧
        remove_result spte m m' ds.*1 (entries ds) (Z.lor p 1).
Proof.
  intros ds l j Hc Hn Hpad Hperm Hes' Hj.
  destruct (chain_middle _ _ _ _ _ _ Hc) as (_ & Hq & Hes & next & Hm & Hc2).
  destruct (nodup_middle _ _ _ _ Hn) as (Hq1 & Hq2 & Hd & _).
  unfold pte_list_desc_remove_entry. rewrite Hm. cbn [mbind option_bind sptes]. fold l. fold j.
  rewrite (proj2 (Nat.eqb_neq j 0) Hj). cbn [negb]. eexists. split; [reflexivity|].
  set (m' := store_desc _ _ _).
  assert (Hm' : m'.(descs) = <[q := {| sptes := pad es'; more := next |}]> m.(descs))
    by (unfold m'; rewrite <- Hpad; done).
  assert (Hds : (ds1 ++ (q, es') :: ds2).*1 = ds.*1) by (unfold ds; by rewrite !fmap_fst_middle).
  split; [|intros r Hr|done].
  - exists ds.*1, [], (entries (ds1 ++ (q, es') :: ds2)). split_and!.
    + rewrite <- Hds. apply rep_many; [by destruct ds1|by rewrite Hds|]. rewrite Hm'.
      eapply (chain_replace m.(descs)); [exact Hc| |done|by rewrite lookup_insert_eq|].
      * intros r Hr. rewrite lookup_insert_ne; [done|]. by intros ->.
      * eapply chain_frame; [exact Hc2|]. intros r Hr. rewrite lookup_insert_ne; [done|]. by intros ->.
    + unfold ds. rewrite !entries_app, !entries_cons, Hperm. solve_Permutation.
    + done.
    + intros r Hr. by apply elem_of_nil in Hr.
  - rewrite Hm', lookup_insert_ne; [done|]. intros <-. apply Hr.
    unfold ds. rewrite fmap_fst_middle. set_solver.
Qed.

(** The first descriptor becomes empty. *)
Lemma remove_first (spte : Z) (m : desc_mem) (ds : list (Z * list Z)) (q : Z) :
  chain m.(descs) q ((q, [spte]) :: ds) → NoDup ((q, [spte]) :: ds).*1 →
  ∃ head' m', pte_list_desc_remove_entry (Z.lor q 1) q 0 0 m = Some (head', m') ∧
              remove_result spte m m' ((q, [spte]) :: ds).*1 (entries ((q, [spte]) :: ds)) head'.
Proof.
  intros (_ & Hq & Hes & next & Hm & Hc) Hn. cbn [fmap list_fmap fst] in Hn. apply NoDup_cons in Hn as [Hq1 Hn].
  unfold pte_list_desc_remove_entry. rewrite Hm. cbn -[insert Z.lor truth delete].
  set (m' := mmu_free_pte_list_desc q (store_desc q {| sptes := pad []; more := next |} m)).
  assert (Hm' : ∀ r, r ≠ q → m'.(descs) !! r = m.(descs) !! r)
    by (intros r Hr; cbn; by rewrite lookup_delete_ne, lookup_insert_ne).
  assert (Hq' : m'.(descs) !! q = None) by (cbn; apply lookup_delete_eq).
  assert (Hfin : ∀ head', rmap_rep m'.(descs) head' ds.*1 (entries ds) →
    remove_result spte m m' (q :: ds.*1) (spte :: entries ds) head').
  { intros head' Hrep. split; [|intros r Hr; apply Hm'; set_solver|done].
    exists ds.*1, [q], (entries ds). split_and!; try done. by intros r ->%list_elem_of_singleton. }
  destruct ds as [|[r es] ds].
  - cbn in Hc. subst next. change (truth 0) with false. cbn [negb andb mbind option_bind].
    eexists _, _. split; [reflexivity|]. apply Hfin. apply rep_none.
  - assert (truth next = true) as Ht.
    { destruct Hc as (-> & [_ ? _] & _). by apply truth_nonzero. }
    rewrite Ht. change (truth 0) with false. cbn [negb andb mbind option_bind].
    eexists _, _. split; [reflexivity|]. apply Hfin. apply rep_many; [done|done|].
    eapply chain_frame; [exact Hc|]. intros x Hx. apply Hm'. by intros ->.
Qed.

(** A later descriptor becomes empty: it is unlinked from the one before. *)
Lemma remove_later (spte p : Z) (m : desc_mem) (ds0 ds2 : list (Z * list Z)) (r q : Z) (fs : list Z) :
  let ds := ds0 ++ (r, fs) :: (q, [spte]) :: ds2 in
  chain m.(descs) p ds → NoDup ds.*1 →
  ∃ m', pte_list_desc_remove_entry (Z.lor p 1) q 0 r m = Some (Z.lor p 1, m') ∧
        remove_result spte m m' ds.*1 (entries ds) (Z.lor p 1).
Proof.
  intros ds Hc Hn.
  destruct (chain_middle _ _ _ _ _ _ Hc) as (_ & Hr & Hfs & n1 & Hmr & -> & Hq & Hes & next & Hmq & Hc2).
  destruct (nodup_middle _ _ _ _ Hn) as (Hr1 & Hr2 & Hd & Hn0 & Hn2). cbn [fmap list_fmap fst] in *.
  apply NoDup_cons in Hn2 as [Hq2 Hn2].
  assert (Hrq : r ≠ q) by set_solver. assert (Hq0 : q ∉ ds0.*1) by set_solver.
  unfold pte_list_desc_remove_entry. rewrite Hmq. cbn -[insert Z.lor truth delete].
  rewrite (truth_nonzero r (ptr_nonnull _ Hr)). cbn [negb andb]. rewrite lookup_insert_ne, Hmr by done.
  cbn [mbind option_bind]. eexists. split; [reflexivity|]. set (m' := mmu_free_pte_list_desc _ _).
  assert (Hq' : m'.(descs) !! q = None) by (cbn; apply lookup_delete_eq).
  assert (Hr' : m'.(descs) !! r = Some {| sptes := pad fs; more := next |})
    by (cbn; rewrite lookup_delete_ne by done; by rewrite lookup_insert_eq).
  assert (Hm' : ∀ x, x ≠ q → x ≠ r → m'.(descs) !! x = m.(descs) !! x)
    by (intros x Hx Hx'; cbn; by rewrite lookup_delete_ne, !lookup_insert_ne).
  assert (Hds : ds.*1 = ds0.*1 ++ r :: q :: ds2.*1) by (unfold ds; by rewrite fmap_fst_middle).
  split; [|intros x Hx; apply Hm'; rewrite Hds in Hx; set_solver|done].
  exists (ds0 ++ (r, fs) :: ds2).*1, [q], (entries (ds0 ++ (r, fs) :: ds2)). split_and!.
  - apply rep_many; [by destruct ds0| |].
    { rewrite fmap_fst_middle. apply NoDup_app. split_and!; [done|set_solver|].
      apply NoDup_cons. split; [set_solver|done]. }
    eapply (chain_replace m.(descs)); [exact Hc| |done|exact Hr'|].
    + intros x Hx. apply Hm'; set_solver.
    + eapply chain_frame; [exact Hc2|]. intros x Hx. apply Hm'; set_solver.
  - unfold ds. rewrite !entries_app, !entries_cons. solve_Permutation.
  - rewrite Hds, fmap_fst_middle. solve_Permutation.
  - by intros x ->%list_elem_of_singleton.
Qed.

(** The entry is found and taken out. *)
Lemma pte_list_remove_spec (spte head : Z) (m : desc_mem) (ps l : list Z) :
  rmap_rep m.(descs) head ps l → spte ∈ l →
  ∃ head' m', pte_list_remove spte head m = Some (head', m') ∧ remove_result spte m m' ps l head'.
Proof.
  intros Hrep Hin. destruct Hrep as [|e He|p ds Hds Hn Hc]; [by apply elem_of_nil in Hin|..].
  - apply list_elem_of_singleton in Hin as ->. unfold pte_list_remove.
    rewrite (truth_nonzero e (ptr_nonnull _ He)), (untagged e He), Z.eqb_refl. cbn [negb].
    exists 0, m. split; [done|]. split; [|done..]. exists [], [], []. split_and!; try done; [apply rep_none|].
    intros x Hx. by apply elem_of_nil in Hx.
  - unfold pte_list_remove. destruct (tagged p) as [-> ->]. cbn [negb].
    assert (Hp : is_ptr p) by (destruct ds as [|[q es] ds]; [done|]; by destruct Hc as (-> & ? & _)).
    rewrite (untag p Hp). pose proof (chain_dom _ _ _ Hc Hn).
    destruct (remove_walk_found m spte (Z.lor p 1) (S (S (size (descs m)))) p 0 ds Hc Hin ltac:(lia))
      as (ds1 & q & es & ds2 & i & -> & Hi & ->).
    pose proof (chain_middle _ _ _ _ _ _ Hc) as (_ & _ & Hes & _).
    destruct (pad_remove es i spte Hes Hi) as (es' & Hpad & Hperm & Hj & Hptr).
    destruct es' as [|x es'].
    + assert (es = [spte]) as -> by (by apply Permutation_singleton_r).
      assert (i = 0%nat) as -> by (destruct i; [done|]; by destruct i).
      destruct ds1 as [|[r fs] ds0 _] using rev_ind.
      * pose proof Hc as [-> _]. by apply remove_first.
      * unfold last_ptr. rewrite fmap_app, last_app. cbn [last fmap list_fmap fst default].
        rewrite <- (assoc_L (++)) in *. cbn [app] in *.
        destruct (remove_later spte p m ds0 ds2 r q fs Hc Hn) as (m' & ? & ?). by exists (Z.lor p 1), m'.
    + destruct (remove_in_place spte p (last_ptr 0 ds1) m ds1 ds2 q es (x :: es') i Hc Hn Hpad Hperm)
        as (m' & ? & ?); [|by rewrite Hj|by exists (Z.lor p 1), m'].
      split; [cbn; lia| |done]. apply Permutation_length in Hperm. destruct Hes. cbn in *. lia.
Qed.

(** An entry that is not there stops the kernel. *)
Lemma pte_list_remove_absent (spte head : Z) (m : desc_mem) (ps l : list Z) :
  rmap_rep m.(descs) head ps l → spte ∉ l → pte_list_remove spte head m = None.
Proof.
  intros Hrep Hin. destruct Hrep as [|e He|p ds Hds Hn Hc]; unfold pte_list_remove; [done|..].
  - rewrite (truth_nonzero e (ptr_nonnull _ He)), (untagged e He). cbn [negb].
    destruct (Z.eqb_spec e spte); [set_solver|done].
  - destruct (tagged p) as [-> ->]. cbn [negb].
    assert (Hp : is_ptr p) by (destruct ds as [|[q es] ds]; [done|]; by destruct Hc as (-> & ? & _)).
    rewrite (untag p Hp). by apply (remove_walk_absent m spte _ _ p 0 ds).
Qed.

(** C24: removing an entry from a reverse map.  On a well-formed rmap
    that holds the entry, [pte_list_remove] does not hit a BUG and leaves the
    rmap with exactly the other entries; every descriptor that became empty is
    freed and not used any more, and no descriptor outside the rmap changes.
    Removing an entry that is not there hits the BUG, instead of removing
    another one. *)
Theorem pte_list_remove_correct (spte head : Z) (m : desc_mem) (ps l : list Z) :
  rmap_rep m.(descs) head ps l →
  match pte_list_remove spte head m with
  | Some (head', m') => spte ∈ l ∧ remove_result spte m m' ps l head'
  | None => spte ∉ l
  end.
Proof.
  intros Hrep. destruct (decide (spte ∈ l)) as [Hin|Hin].
  - by destruct (pte_list_remove_spec _ _ _ _ _ Hrep Hin) as (head' & m' & -> & Hr).
  - by rewrite (pte_list_remove_absent _ _ _ _ _ Hrep Hin).
Qed.

(* ------------------------------------------------------------------ *)
(** ** Iterating *)

Section Iterate.
Context (m : desc_mem) {S : Type} (present : S → Z → bool) (body : S → Z → S).
(** When an entry is reached, it is present. *)
Context (L : list Z) (s0 : S).
Context (Hpresent : ∀ l1 x l2, L = l1 ++ x :: l2 → present (foldl body s0 l1) x = true).

Lemma read_spte_pad (q : Z) (es : list Z) (next : Z) (pos : nat) :
  m.(descs) !! q = Some {| sptes := pad es; more := next |} → (length es <= PTE_LIST_EXT)%nat →
  (pos < PTE_LIST_EXT)%nat → read_spte m q pos = Some (default 0 (es !! pos)).
Proof.
  intros Hm Hl Hp. unfold read_spte. rewrite Hm. cbn [mbind option_bind sptes]. unfold pad.
  destruct (decide (pos < length es)%nat) as [Hlt|Hge].
  - rewrite lookup_app_l by done. destruct (lookup_lt_is_Some_2 es pos Hlt) as [x ->]. done.
  - rewrite lookup_app_r by lia. rewrite (lookup_ge_None_2 es) by lia. cbn [default].
    apply lookup_replicate_2. lia.
Qed.

(** The step from the last entry of a descriptor. *)
Lemma next_desc_spec (pr : Z → bool) (q : Z) (es : list Z) (ds : list (Z * list Z)) (pos : nat) :
  chain m.(descs) q ((q, es) :: ds) → (∀ y, head (entries ds) = Some y → pr y = true) →
  match ds with
  | [] => ∃ iter, next_desc m pr {| it_desc := q; it_pos := pos |} = Some (0, iter)
  | (r, fs) :: _ => ∃ y, fs !! 0%nat = Some y ∧
      next_desc m pr {| it_desc := q; it_pos := pos |} = Some (y, {| it_desc := r; it_pos := 0 |})
  end.
Proof using Type.
  intros (_ & Hq & Hes & next & Hm & Hc) Hpr. unfold next_desc. cbn [it_desc]. rewrite Hm.
  cbn [mbind option_bind more]. destruct ds as [|[r fs] ds].
  - cbn in Hc. subst next. by eexists.
  - destruct Hc as (-> & Hr & Hfs & n2 & Hmr & Hc). rewrite (truth_nonzero r (ptr_nonnull _ Hr)).
    rewrite (read_spte_pad r fs n2 0 Hmr) by (apply Hfs || (unfold PTE_LIST_EXT; lia)).
    destruct fs as [|y fs]; [destruct Hfs; cbn in *; lia|]. cbn [mbind option_bind lookup list_lookup default].
    exists y. split; [done|]. by rewrite Hpr.
Qed.

Lemma get_next_same (pr : Z → bool) (q : Z) (es : list Z) (ds : list (Z * list Z)) (pos : nat) (y : Z) :
  chain m.(descs) q ((q, es) :: ds) → pr y = true → es !! Datatypes.S pos = Some y →
  rmap_get_next m pr {| it_desc := q; it_pos := pos |}
  = Some (y, {| it_desc := q; it_pos := Datatypes.S pos |}).
Proof using Type.
  intros (_ & Hq & [_ Hfit Hptrs] & next & Hm & _) Hpr Hy. unfold rmap_get_next. cbn [it_desc it_pos].
  pose proof (lookup_lt_Some _ _ _ Hy). rewrite (truth_nonzero q (ptr_nonnull _ Hq)). cbn [negb].
  replace (pos <? PTE_LIST_EXT - 1)%nat with true by (symmetry; apply Nat.ltb_lt; lia).
  rewrite (read_spte_pad q es next (Datatypes.S pos) Hm) by lia. rewrite Hy.
  change (default 0 (Some y)) with y. cbn [mbind option_bind].
  rewrite (truth_nonzero y) by (apply ptr_nonnull; by eapply Forall_lookup_1). by rewrite Hpr.
Qed.

Lemma get_next_last (pr : Z → bool) (q : Z) (es : list Z) (ds : list (Z * list Z)) (pos : nat) :
  chain m.(descs) q ((q, es) :: ds) → es !! Datatypes.S pos = None → (pos < length es)%nat →
  ∃ pos', rmap_get_next m pr {| it_desc := q; it_pos := pos |}
          = next_desc m pr {| it_desc := q; it_pos := pos' |}.
Proof using Type.
  intros (_ & Hq & [_ Hfit _] & next & Hm & _) Hy Hp. apply lookup_ge_None_1 in Hy. unfold rmap_get_next.
  cbn [it_desc it_pos]. rewrite (truth_nonzero q (ptr_nonnull _ Hq)). cbn [negb].
  destruct (Nat.ltb_spec pos (PTE_LIST_EXT - 1)); [|by eexists].
  rewrite (read_spte_pad q es next (Datatypes.S pos) Hm) by lia.
  rewrite lookup_ge_None_2 by lia. by eexists.
Qed.

Lemma rmap_loop_spec (fuel : nat) (x q : Z) (es : list Z) (ds : list (Z * list Z)) (pos : nat) (l1 : list Z) :
  chain m.(descs) q ((q, es) :: ds) → es !! pos = Some x → L = l1 ++ drop pos es ++ entries ds →
  (length (drop pos es ++ entries ds) < fuel)%nat →
  rmap_loop m present body fuel x {| it_desc := q; it_pos := pos |} (foldl body s0 l1)
  = Some (foldl body s0 L).
Proof using Hpresent.
  revert x q es ds pos l1. induction fuel as [|fuel IH]; intros x q es ds pos l1 Hc Hx HL Hf; [lia|].
  pose proof Hc as (_ & Hq & [_ Hfit Hptrs] & next & Hm & Hc').
  pose proof (drop_S _ _ _ Hx) as Hd. rewrite Hd in HL, Hf. cbn [app rmap_loop length] in *.
  rewrite (truth_nonzero x) by (apply ptr_nonnull; by eapply Forall_lookup_1). cbn [negb].
  replace (body (foldl body s0 l1) x) with (foldl body s0 (l1 ++ [x])) by by rewrite foldl_app.
  replace (l1 ++ x :: drop (Datatypes.S pos) es ++ entries ds)
    with ((l1 ++ [x]) ++ drop (Datatypes.S pos) es ++ entries ds) in HL by by rewrite <- (assoc_L (++)).
  pose proof (lookup_lt_Some _ _ _ Hx).
  destruct (es !! Datatypes.S pos) as [y|] eqn:Hy.
  - pose proof (drop_S _ _ _ Hy) as Hd'.
    rewrite (get_next_same _ q es ds pos y); [|done|eapply Hpresent; by rewrite HL, Hd'|done].
    cbn [mbind option_bind]. apply (IH y q es ds (Datatypes.S pos)); [done|done|by rewrite HL|lia].
  - destruct (get_next_last (present (foldl body s0 (l1 ++ [x]))) q es ds pos Hc Hy) as [pos' ->]; [done|].
    pose proof (lookup_ge_None_1 _ _ Hy). rewrite drop_ge in HL, Hf by lia. cbn [app] in *.
    assert (Hpr : ∀ y, head (entries ds) = Some y → present (foldl body s0 (l1 ++ [x])) y = true).
    { intros y Hh. destruct (entries ds) as [|y' l2]; [done|]. injection Hh as ->. by eapply Hpresent. }
    pose proof (next_desc_spec _ q es ds pos' Hc Hpr) as Hnd. destruct ds as [|[r fs] ds].
    + destruct Hnd as [iter ->]. cbn [mbind option_bind]. rewrite HL, app_nil_r.
      by destruct fuel; [cbn in Hf; lia|].
    + destruct Hnd as (y & Hfs & ->). cbn [mbind option_bind]. destruct Hc' as [-> Hc'].
      rewrite entries_cons in HL, Hf. apply (IH y r fs ds 0%nat); rewrite ?drop_0; try done. lia.
Qed.

Lemma entries_length (p : Z) (ds : list (Z * list Z)) :
  chain m.(descs) p ds → (length (entries ds) <= PTE_LIST_EXT * length ds)%nat.
Proof using Type.
  revert p. induction ds as [|[q es] ds IH]; intros p; [cbn; lia|].
  cbn [chain]. intros (_ & _ & [_ Hl _] & next & _ & Hc). rewrite entries_cons, length_app.
  apply IH in Hc. cbn [length]. lia.
Qed.

End Iterate.

Lemma for_each_foldl {S : Type} (present : S → Z → bool) (body : S → Z → S)
    (m : desc_mem) (head : Z) (ps l : list Z) (s : S) :
  rmap_rep m.(descs) head ps l →
  (∀ l1 x l2, l = l1 ++ x :: l2 → present (foldl body s l1) x = true) →
  for_each_rmap_spte m present body head s = Some (foldl body s l).
Proof.
  intros Hrep Hpresent. unfold for_each_rmap_spte, rmap_get_first.
  destruct Hrep as [|e He|p ds Hne Hn Hc]; [done|..].
  - rewrite (truth_nonzero e (ptr_nonnull _ He)), (untagged e He). cbn [negb mbind option_bind].
    pose proof (Hpresent [] e [] eq_refl) as He'. cbn [foldl] in He'. rewrite He'. cbn -[truth].
    by rewrite (truth_nonzero e (ptr_nonnull _ He)).
  - destruct (tagged p) as [-> ->]. cbn [negb].
    destruct ds as [|[q es] ds]; [done|]. pose proof Hc as (-> & Hq & Hes & next & Hm & Hc').
    rewrite (untag q Hq), (read_spte_pad m q es next 0 Hm) by (apply Hes || (unfold PTE_LIST_EXT; lia)).
    destruct es as [|x es]; [destruct Hes; cbn in *; lia|]. 
    change (default 0 ((x :: es) !! 0%nat)) with x. cbn [mbind option_bind].
    pose proof (Hpresent [] x (es ++ entries ds) eq_refl) as Hx. cbn [foldl] in Hx. rewrite Hx.
    cbn [mbind option_bind].
    pose proof (entries_length m _ _ Hc). pose proof (chain_dom _ _ _ Hc Hn).
    apply (rmap_loop_spec m present body _ s Hpresent _ x q (x :: es) ds 0 []); try done.
    cbn [drop]. rewrite <- (entries_cons q). nia.
Qed.

(** Iterating over a reverse map visits every entry once.  When
    the entries of the rmap are present, a [for_each_rmap_spte] loop that
    collects what it visits ends with exactly the entries of the rmap, in chain
    order, never having read a descriptor that is not allocated. *)
Theorem rmap_walk_visits_all (present : Z → bool) (m : desc_mem) (head : Z) (ps l : list Z) :
  rmap_rep m.(descs) head ps l → Forall (λ x, present x = true) l →
  for_each_rmap_spte m (λ _, present) (λ seen x, seen ++ [x]) head [] = Some l.
Proof.
  intros Hrep Hp. rewrite Forall_forall in Hp.
  rewrite (for_each_foldl _ _ m head ps l) by (try done; intros l1 x l2 ->; apply Hp; set_solver).
  f_equal. clear. assert (H : ∀ acc, foldl (λ seen x, seen ++ [x]) acc l = acc ++ l); [|apply H].
  induction l as [|x l IH]; intros acc; cbn; [by rewrite app_nil_r|]. by rewrite IH, <- (assoc_L (++)).
Qed.

(* ------------------------------------------------------------------ *)
(** ** Examples *)

(** A store with three zeroed descriptors, all of them cached. *)
Definition example_mem : desc_mem :=
  {| descs := {[ 0x10 := zero_desc; 0x20 := zero_desc; 0x30 := zero_desc ]};
     desc_cache := [0x10; 0x20; 0x30] |}.

Lemma example_ptr (p : Z) : is_u 64 p ∧ p ≠ 0 ∧ Z.even p = true → is_ptr p.
Proof. intros (? & ? & ?). by split. Qed.

Lemma example_cache_ok : cache_ok example_mem [].
Proof.
  split; [by vm_compute; apply (bool_decide_unpack _); vm_compute|].
  cbn. intros p Hp.
  repeat (apply elem_of_cons in Hp as [->|Hp];
    [split; [apply example_ptr; (split; [split; lia|split; [lia|done]])|reflexivity]|]).
  by apply elem_of_nil in Hp.
Qed.

(** Adds the entries one after another. *)
Definition add_all (es : list Z) (st : Z * desc_mem) : option (Z * desc_mem) :=
  foldl (λ st e, '(head, m) ← st; '(_, head, m) ← pte_list_add e head m; Some (head, m)) (Some st) es.

(** Two entries in the descriptor at 0x10. *)
Definition example_many : desc_mem :=
  {| descs := {[ 0x10 := {| sptes := pad [0x100; 0x108]; more := 0 |}; 0x20 := zero_desc ]};
     desc_cache := [0x20] |}.

Lemma example_many_rep : rmap_rep example_many.(descs) 0x11 [0x10] [0x100; 0x108].
Proof.
  apply (rep_many _ 0x10 [(0x10, [0x100; 0x108])]); [done|apply NoDup_singleton|].
  split; [done|]. split; [by apply example_ptr|]. split; [|by exists 0].
  split; cbn; [lia|unfold PTE_LIST_EXT; lia|]. rewrite !Forall_cons. split_and!; try done; by apply example_ptr.
Qed.

Lemma pte_list_add_correct_witness :
  ∃ count head' m', pte_list_add 0x108 0x100 example_mem = Some (count, head', m') ∧
                    add_result 0x108 example_mem m' [] [0x100] head'.
Proof.
  apply pte_list_add_correct; [by apply example_ptr|apply rep_one; by apply example_ptr|apply example_cache_ok|done].
Defined.

Lemma pte_list_remove_correct_witness :
  ∃ head' m', pte_list_remove 0x100 0x11 example_many = Some (head', m') ∧
              remove_result 0x100 example_many m' [0x10] [0x100; 0x108] head'.
Proof.
  pose proof (pte_list_remove_correct 0x100 0x11 example_many _ _ example_many_rep) as H.
  destruct (pte_list_remove 0x100 0x11 example_many) as [[head' m']|] eqn:E.
  - exists head', m'. split; [reflexivity|apply H].
  - vm_compute in E. discriminate E.
Defined.

Lemma rmap_walk_visits_all_witness :
  for_each_rmap_spte example_many (λ _ _, true) (λ seen x, seen ++ [x]) 0x11 [] = Some [0x100; 0x108].
Proof. apply (rmap_walk_visits_all (λ _, true) _ _ _ _ example_many_rep). by rewrite !Forall_cons. Defined.

(** The count [pte_list_add] returns is not always the number of
    entries: a fourth entry added to three, which fill a descriptor, gets a
    descriptor of its own and the count 0, since the walk does not count the
    last full descriptor. *)
Theorem pte_list_add_undercounts :
  ∃ head m head' m',
    add_all [0x100; 0x108; 0x110] (0, example_mem) = Some (head, m) ∧
    for_each_rmap_spte m (λ _ _, true) (λ seen x, seen ++ [x]) head [] = Some [0x100; 0x108; 0x110] ∧
    pte_list_add 0x118 head m = Some (0, head', m') ∧
    for_each_rmap_spte m' (λ _ _, true) (λ seen x, seen ++ [x]) head' [] = Some [0x100; 0x108; 0x110; 0x118].
Proof. do 4 eexists. do 3 (split; [vm_compute; reflexivity|]). vm_compute. reflexivity. Qed.
