(* ===== verification/Rmap.v ===== *)
(** * Operations on the shadow entries of a guest frame

    kernel/mmu.c: adding and dropping entries, write protection, clearing and
    setting of dirty bits, aging and zapping, for all the entries of a reverse
    map (PteList).  The MMU lock is held throughout: an entry does not change
    between the read and the write of one operation (SpteTrack treats the
    writers that do not take the lock).

    Not in the repository, and so parameters here: [page_header] (which shadow
    page an entry's address is in) and the lookup of a memory slot by guest
    frame. *)

From S2P Require Import Prelude.
From S2P Require Import Spte.
From S2P Require Import Memslots.
From S2P Require Import MemRegion.
From S2P Require Import PteList.

Definition PT64_LEVEL_BITS : Z := 9.
Definition PT_MAX_HUGEPAGE_LEVEL : Z := PT_PAGE_TABLE_LEVEL + VMRUN_NR_PAGE_SIZES - 1.

(** The fields of a shadow page these operations use. *)
Record mmu_page := {
  sp_spt : Z;            (* address of the 512 entries *)
  sp_gfn : Z;
  sp_gfns : list Z;
  role_level : Z;
  role_direct : bool;
  role_smm : bool
}.
#[export] Instance eta_mmu_page : Eta mmu_page := λ r,
  {| sp_spt := r.(sp_spt); sp_gfn := r.(sp_gfn); sp_gfns := r.(sp_gfns);
     role_level := r.(role_level); role_direct := r.(role_direct); role_smm := r.(role_smm) |}.

(** An rmap head is element [idx] of an array. *)
Definition rmap_key : Type := Z * Z.

Record mmu_state := {
  ptes : Z → Z;
  heads : gmap rmap_key Z;
  dmem : desc_mem;
  pages : gmap Z mmu_page;
  events : list spte_event;
  stat_lpages : Z;
  remote_flushes : Z
}.
#[export] Instance eta_mmu_state : Eta mmu_state := λ r,
  {| ptes := r.(ptes); heads := r.(heads); dmem := r.(dmem); pages := r.(pages);
     events := r.(events); stat_lpages := r.(stat_lpages); remote_flushes := r.(remote_flushes) |}.

(** [*sptep = v] *)
Definition set_pte (p v : Z) (f : Z → Z) : Z → Z := λ q, if q =? p then v else f q.

(** ** Shadow pages and rmap heads *)

Definition vmrun_mmu_page_get_gfn (sp : mmu_page) (index : Z) : option Z :=
  if negb sp.(role_direct) then sp.(sp_gfns) !! Z.to_nat index
  else Some (u64 (sp.(sp_gfn) + s32 (Z.shiftl index ((sp.(role_level) - 1) * PT64_LEVEL_BITS)))).

Definition vmrun_mmu_page_set_gfn (sp : mmu_page) (index gfn : Z) : option mmu_page :=
  if sp.(role_direct) then
    g ← vmrun_mmu_page_get_gfn sp index;
    if negb (gfn =? g) then None else Some sp      (* BUG_ON *)
  else Some (sp <| sp_gfns ::= <[Z.to_nat index := gfn]> |>).

Definition __gfn_to_rmap (gfn level : Z) (slot : vmrun_memory_slot) : rmap_key :=
  let idx := gfn_to_index gfn slot.(base_gfn) level in
  (slot.(arch).(rmap) !!! Z.to_nat (level - PT_PAGE_TABLE_LEVEL), idx).

Section Rmap.
Context `{K : KvmPte} (g : shadow_masks).
Context (page_header : Z → Z).
(** [__gfn_to_memslot(vmrun_memslots_for_spte_role(vmrun, role), gfn)] *)
Context (gfn_to_memslot : bool → Z → vmrun_memory_slot).

Definition head_of (k : rmap_key) (st : mmu_state) : Z := default 0 (st.(heads) !! k).

Definition gfn_to_rmap (gfn : Z) (sp : mmu_page) : rmap_key :=
  __gfn_to_rmap gfn sp.(role_level) (gfn_to_memslot sp.(role_smm) gfn).

(** [spte - sp->spt] *)
Definition spte_index (sp : mmu_page) (sptep : Z) : Z := (sptep - sp.(sp_spt)) / 8.

Definition rmap_can_add (st : mmu_state) : bool :=
  truth (Z.of_nat (mmu_memory_cache_free_objects st.(dmem).(desc_cache))).

(** Result: the count [pte_list_add] returns. *)
Definition rmap_add (sptep gfn : Z) (st : mmu_state) : option (Z * mmu_state) :=
  let a := page_header sptep in
  sp ← st.(pages) !! a;
  sp ← vmrun_mmu_page_set_gfn sp (spte_index sp sptep) gfn;
  let st := st <| pages ::= <[a := sp]> |> in
  let k := gfn_to_rmap gfn sp in
  '(n, head, m) ← pte_list_add sptep (head_of k st) st.(dmem);
  Some (n, st <| heads ::= <[k := head]> |> <| dmem := m |>).

Definition rmap_remove (sptep : Z) (st : mmu_state) : option mmu_state :=
  sp ← st.(pages) !! page_header sptep;
  gfn ← vmrun_mmu_page_get_gfn sp (spte_index sp sptep);
  let k := gfn_to_rmap gfn sp in
  '(head, m) ← pte_list_remove sptep (head_of k st) st.(dmem);
  Some (st <| heads ::= <[k := head]> |> <| dmem := m |>).

Definition drop_spte (sptep : Z) (st : mmu_state) : option mmu_state :=
  let v := st.(ptes) sptep in
  let '(cell, r, ev) := mmu_spte_clear_track_bits g v v in
  let st := st <| ptes ::= set_pte sptep cell |> <| events ::= λ l, l ++ ev |> in
  if truth r then rmap_remove sptep st else Some st.

Definition __drop_large_spte (sptep : Z) (st : mmu_state) : option (bool * mmu_state) :=
  if is_large_pte (st.(ptes) sptep) then
    sp ← st.(pages) !! page_header sptep;
    let st := if sp.(role_level) =? PT_PAGE_TABLE_LEVEL
              then st <| events ::= λ l, l ++ [Warn] |> else st in
    st ← drop_spte sptep st;
    Some (true, st <| stat_lpages ::= λ n, n - 1 |>)
  else Some (false, st).

Definition drop_large_spte (sptep : Z) (st : mmu_state) : option mmu_state :=
  '(dropped, st) ← __drop_large_spte sptep st;
  Some (if dropped : bool then st <| remote_flushes ::= λ n, n + 1 |> else st).

(** ** Updates of one entry, by value: the new entry, the returned bool, the
    events *)

Definition spte_write_protect (pt_protect : bool) (spte : Z) : Z * bool * list spte_event :=
  if negb (is_writable_pte spte) && negb (pt_protect && spte_can_locklessly_be_made_writable spte)
  then (spte, false, [])
  else
    let new := if pt_protect then Z.land spte (not64 SPTE_MMU_WRITEABLE) else spte in
    let new := Z.land new (not64 PT_WRITABLE_MASK) in
    mmu_spte_update g spte spte new.

Definition spte_clear_dirty (spte : Z) : Z * bool * list spte_event :=
  mmu_spte_update g spte spte (Z.land spte (not64 g.(shadow_dirty_mask))).

(** [spte_to_pfn] reads the entry after the bit was cleared. *)
Definition wrprot_ad_disabled_spte (spte : Z) : Z * bool * list spte_event :=
  let was_writable := Z.testbit spte PT_WRITABLE_SHIFT in
  let new := Z.clearbit spte PT_WRITABLE_SHIFT in
  (new, was_writable, if was_writable then [SetPfnDirty (spte_to_pfn new)] else []).

Definition spte_set_dirty (spte : Z) : Z * bool * list spte_event :=
  mmu_spte_update g spte spte (Z.lor spte g.(shadow_dirty_mask)).

(** The body of the loop in [__rmap_clear_dirty]. *)
Definition clear_dirty_body (spte : Z) : Z * bool * list spte_event :=
  if spte_ad_enabled spte then spte_clear_dirty spte else wrprot_ad_disabled_spte spte.

Definition set_dirty_body (spte : Z) : Z * bool * list spte_event :=
  if spte_ad_enabled spte then spte_set_dirty spte else (spte, false, []).

(** ** Loops over a reverse map *)

(** [flush |= op(sptep)] *)
Definition apply_op (op : Z → Z * bool * list spte_event) (acc : mmu_state * bool) (sptep : Z)
    : mmu_state * bool :=
  let '(st, flush) := acc in
  let '(cell, b, ev) := op (st.(ptes) sptep) in
  (st <| ptes ::= set_pte sptep cell |> <| events ::= λ l, l ++ ev |>, flush || b).

Definition entry_present (acc : mmu_state * bool) (sptep : Z) : bool :=
  is_shadow_present_pte g (acc.1.(ptes) sptep).

Definition rmap_each (op : Z → Z * bool * list spte_event) (k : rmap_key) (st : mmu_state)
    : option (mmu_state * bool) :=
  for_each_rmap_spte st.(dmem) entry_present (apply_op op) (head_of k st) (st, false).

Definition __rmap_write_protect (pt_protect : bool) (k : rmap_key) (st : mmu_state)
    : option (mmu_state * bool) := rmap_each (spte_write_protect pt_protect) k st.

Definition __rmap_clear_dirty (k : rmap_key) (st : mmu_state) : option (mmu_state * bool) :=
  rmap_each clear_dirty_body k st.

Definition __rmap_set_dirty (k : rmap_key) (st : mmu_state) : option (mmu_state * bool) :=
  rmap_each set_dirty_body k st.

Definition vmrun_age_rmapp (k : rmap_key) (st : mmu_state) : option (mmu_state * bool) :=
  rmap_each (λ v, mmu_spte_age g v v) k st.

(** The loop returns 1 at the first accessed entry; from then on nothing is
    read. *)
Definition vmrun_test_age_rmapp (k : rmap_key) (st : mmu_state) : option bool :=
  for_each_rmap_spte st.(dmem) (λ found sptep, found || is_shadow_present_pte g (st.(ptes) sptep))
    (λ found sptep, found || is_accessed_spte g (st.(ptes) sptep)) (head_of k st) false.

(** [while ((sptep = rmap_get_first(rmap_head, &iter)))] *)
Fixpoint zap_loop (fuel : nat) (k : rmap_key) (flush : bool) (st : mmu_state)
    : option (mmu_state * bool) :=
  match fuel with
  | O => None
  | S fuel =>
      '(sptep, _) ← rmap_get_first st.(dmem) (λ p, is_shadow_present_pte g (st.(ptes) p)) (head_of k st);
      if negb (truth sptep) then Some (st, flush)
      else st ← drop_spte sptep st; zap_loop fuel k true st
  end.

Definition vmrun_zap_rmapp (k : rmap_key) (st : mmu_state) : option (mmu_state * bool) :=
  zap_loop (2 + PTE_LIST_EXT * size st.(dmem).(descs)) k false st.

Definition vmrun_unmap_rmapp := vmrun_zap_rmapp.

(** The body of [vmrun_set_pte_rmapp] when the new host page is read-only. *)
Definition set_pte_op (new_pfn : Z) (spte : Z) : Z * bool * list spte_event :=
  let new := Z.land spte (not64 PT64_BASE_ADDR_MASK) in
  let new := Z.lor new (u64 (Z.shiftl new_pfn PAGE_SHIFT)) in
  let new := Z.land new (not64 PT_WRITABLE_MASK) in
  let new := Z.land new (not64 SPTE_HOST_WRITEABLE) in
  let '(new, w) := mark_spte_for_access_track g new in
  let '(cell, _, ev) := mmu_spte_clear_track_bits g spte spte in
  let '(cell, ev') := mmu_spte_set g cell new in
  (cell, true, w ++ ev ++ ev').

(** [pte_write]: the host page may be written; then every entry is dropped,
    starting over after each. *)
Definition vmrun_set_pte_rmapp (pte_write : bool) (new_pfn : Z) (k : rmap_key) (st : mmu_state)
    : option mmu_state :=
  '(st, need_flush) ← (if pte_write then vmrun_zap_rmapp k st else rmap_each (set_pte_op new_pfn) k st);
  Some (if need_flush : bool then st <| remote_flushes ::= λ n, n + 1 |> else st).

(** ** Selected pages, and all levels, of a slot *)

(** [__ffs] *)
Definition __ffs (x : Z) : Z := Z.log2 (Z.land x (- x)).

(** [while (mask)]: one pass per set bit. *)
Fixpoint masked_loop (op : rmap_key → mmu_state → option (mmu_state * bool))
    (slot : vmrun_memory_slot) (gfn_offset : Z) (fuel : nat) (mask : Z) (st : mmu_state)
    : option mmu_state :=
  match fuel with
  | O => None
  | S fuel =>
      if negb (truth mask) then Some st
      else
        let k := __gfn_to_rmap (u64 (slot.(base_gfn) + gfn_offset + __ffs mask)) PT_PAGE_TABLE_LEVEL slot in
        '(st, _) ← op k st;
        masked_loop op slot gfn_offset fuel (Z.land mask (u64 (mask - 1))) st
  end.

Definition vmrun_mmu_write_protect_pt_masked (slot : vmrun_memory_slot) (gfn_offset mask : Z)
    (st : mmu_state) : option mmu_state :=
  masked_loop (__rmap_write_protect false) slot gfn_offset 65 mask st.

Definition vmrun_mmu_clear_dirty_pt_masked (slot : vmrun_memory_slot) (gfn_offset mask : Z)
    (st : mmu_state) : option mmu_state :=
  masked_loop __rmap_clear_dirty slot gfn_offset 65 mask st.

(** [for (i = PT_PAGE_TABLE_LEVEL; i <= PT_MAX_HUGEPAGE_LEVEL; ++i)] *)
Fixpoint protect_levels (levels : list Z) (slot : vmrun_memory_slot) (gfn : Z)
    (acc : mmu_state * bool) : option (mmu_state * bool) :=
  match levels with
  | [] => Some acc
  | i :: levels =>
      '(st, b) ← __rmap_write_protect true (__gfn_to_rmap gfn i slot) acc.1;
      protect_levels levels slot gfn (st, acc.2 || b)
  end.

Definition vmrun_mmu_slot_gfn_write_protect (slot : vmrun_memory_slot) (gfn : Z) (st : mmu_state)
    : option (mmu_state * bool) :=
  protect_levels (seqZ PT_PAGE_TABLE_LEVEL VMRUN_NR_PAGE_SIZES) slot gfn (st, false).

End Rmap.
