(* ===== verification/RmapProps.v ===== *)
(** * Operations on the shadow entries of a guest frame: what they achieve *)

From S2P Require Import Prelude.
From S2P Require Import Spte.
From S2P Require Import SpteTrack.
From S2P Require Import Memslots.
From S2P Require Import MemRegion.
From S2P Require Import PteList.
From S2P Require Import PteListProps.
From S2P Require Import Rmap.

(** The rmap [k] holds the entries [l], each once, in descriptors at [ps]. *)
Record rmap_holds (st : mmu_state) (k : rmap_key) (ps l : list Z) : Prop := {
  rh_rep : rmap_rep st.(dmem).(descs) (head_of k st) ps l;
  rh_nodup : NoDup l
}.

Lemma set_pte_eq (p v : Z) (f : Z → Z) : set_pte p v f p = v.
Proof. unfold set_pte. by rewrite Z.eqb_refl. Qed.

Lemma set_pte_ne (p q v : Z) (f : Z → Z) : q ≠ p → set_pte p v f q = f q.
Proof. intros Hq. unfold set_pte. by rewrite (proj2 (Z.eqb_neq q p) Hq). Qed.

Lemma existsb_ext_in {A} (f h : A → bool) (l : list A) :
  (∀ x, x ∈ l → f x = h x) → existsb f l = existsb h l.
Proof.
  intros Hf. induction l as [|x l IH]; [done|]. cbn. rewrite Hf by (by left). f_equal. apply IH. set_solver.
Qed.

(** ** A loop that updates every entry *)

(** [st'] is [st] with [op] applied to the entries [l]. *)
Record updated_entries (op : Z → Z * bool * list spte_event) (l : list Z) (st st' : mmu_state) (b : bool)
    : Prop := {
  ue_in : ∀ x, x ∈ l → st'.(ptes) x = (op (st.(ptes) x)).1.1;
  ue_out : ∀ x, x ∉ l → st'.(ptes) x = st.(ptes) x;
  ue_bool : b = existsb (λ x, (op (st.(ptes) x)).1.2) l;
  ue_events : st'.(events) = st.(events) ++ mjoin ((λ x, (op (st.(ptes) x)).2) <$> l);
  ue_frame : st'.(heads) = st.(heads) ∧ st'.(dmem) = st.(dmem) ∧ st'.(pages) = st.(pages) ∧
             st'.(remote_flushes) = st.(remote_flushes)
}.

Lemma foldl_apply_op (op : Z → Z * bool * list spte_event) (l : list Z) (st : mmu_state) (b : bool) :
  NoDup l →
  ∃ st' b', foldl (apply_op op) (st, b) l = (st', b || b') ∧ updated_entries op l st st' b'.
Proof.
  intros Hn. revert st b. induction Hn as [|x l Hx Hn IH]; intros st b.
  - exists st, false. split; [by rewrite orb_false_r|]. split; try done; [set_solver|by rewrite app_nil_r].
  - cbn [foldl]. destruct (op (ptes st x)) as [[cell b1] ev] eqn:E.
    set (st1 := st <| ptes ::= set_pte x cell |> <| events ::= λ l, l ++ ev |>).
    replace (apply_op op (st, b) x) with (st1, b || b1) by (unfold apply_op; by rewrite E).
    destruct (IH st1 (b || b1)) as (st' & b' & -> & [H1 H2 H3 H4 H5]).
    assert (Hst1 : ∀ y, y ∈ l → ptes st1 y = ptes st y)
      by (intros y Hy; unfold st1; cbn; apply set_pte_ne; by intros ->).
    exists st', (b1 || b'). split; [by rewrite orb_assoc|]. split.
    + intros y [->|Hy]%elem_of_cons.
      * rewrite (H2 x Hx), E. unfold st1. cbn. apply set_pte_eq.
      * by rewrite (H1 y Hy), Hst1.
    + intros y Hy. rewrite H2 by set_solver. unfold st1. cbn. apply set_pte_ne. set_solver.
    + cbn [existsb]. rewrite E. cbn. f_equal. rewrite H3. apply existsb_ext_in.
      intros y Hy. by rewrite Hst1.
    + rewrite H4. cbn [fmap list_fmap mjoin list_join]. rewrite E. cbn [snd].
      transitivity ((events st ++ ev) ++ mjoin ((λ x, (op (ptes st x)).2) <$> l)); [|by rewrite <- (assoc_L (++))].
      f_equal. apply (f_equal mjoin). apply list_fmap_ext. intros i y Hy. rewrite Hst1; [done|].
      by apply list_elem_of_lookup_2 in Hy.
    + exact H5.
Qed.

Section Each.
Context `{K : KvmPte} (g : shadow_masks).

(** The loop of [rmap_each]: every entry is updated once, provided the entries
    are present. *)
Lemma rmap_each_spec (op : Z → Z * bool * list spte_event) (k : rmap_key) (st : mmu_state) (ps l : list Z) :
  rmap_holds st k ps l → (∀ x, x ∈ l → is_shadow_present_pte g (st.(ptes) x) = true) →
  ∃ st' b, rmap_each g op k st = Some (st', b) ∧ updated_entries op l st st' b.
Proof using Type.
  intros [Hrep Hn] Hp. destruct (foldl_apply_op op l st false Hn) as (st' & b & Hf & Hu).
  exists st', b. split; [|done]. rewrite <- (orb_false_l b), <- Hf. unfold rmap_each.
  apply (for_each_foldl _ _ _ _ ps); [done|]. intros l1 x l2 ->.
  apply NoDup_app in Hn as (Hn1 & Hd & _).
  destruct (foldl_apply_op op l1 st false Hn1) as (st1 & b1 & -> & [_ H2 _ _ _]).
  unfold entry_present. cbn [fst]. rewrite H2; [apply Hp; set_solver|].
  intros Hx. destruct (Hd x Hx). by left.
Qed.

(** With the lock held, an update writes the new value. *)
Lemma update_value (v new : Z) : (mmu_spte_update g v v new).1.1 = new.
Proof using Type.
  unfold mmu_spte_update, mmu_spte_update_no_track, mmu_spte_set.
  destruct (is_shadow_present_pte g v) eqn:Hp; cbn [negb]; [|by rewrite Hp].
  destruct (spte_has_volatile_bits g v); cbn [negb]; by rewrite Hp.
Qed.

(** It asks for a flush when write access, or accessed or dirty state, goes. *)
Lemma update_flush (v new : Z) :
  is_shadow_present_pte g v = true →
  (mmu_spte_update g v v new).1.2 =
    (spte_can_locklessly_be_made_writable v && negb (is_writable_pte new))
    || (is_accessed_spte g v && negb (is_accessed_spte g new))
    || (is_dirty_spte g v && negb (is_dirty_spte g new)).
Proof using Type.
  intros Hp. unfold mmu_spte_update, mmu_spte_update_no_track. rewrite Hp. cbn [negb].
  destruct (spte_has_volatile_bits g v); cbn [negb]; by rewrite Hp.
Qed.

Lemma update_dirty_event (v new : Z) :
  is_shadow_present_pte g v = true → is_dirty_spte g v = true → is_dirty_spte g new = false →
  SetPfnDirty (spte_to_pfn v) ∈ (mmu_spte_update g v v new).2.
Proof using Type.
  intros Hp Hv Hn. unfold mmu_spte_update, mmu_spte_update_no_track. rewrite Hp. cbn [negb].
  destruct (spte_has_volatile_bits g v); cbn [negb]; rewrite Hp, Hv, Hn; cbn; set_solver.
Qed.
End Each.

(* ------------------------------------------------------------------ *)
(** ** Write protection *)

Lemma land_not64_testbit (v c i : Z) :
  0 <= i < 64 → Z.testbit (Z.land v (not64 c)) i = Z.testbit v i && negb (Z.testbit c i).
Proof. intros Hi. rewrite Z.land_spec, not64_testbit by lia. replace (i <? 64) with true by lia. done. Qed.

Lemma writable_bit (v : Z) : is_writable_pte v = Z.testbit v 1.
Proof. unfold is_writable_pte. change PT_WRITABLE_MASK with (BIT 1). by rewrite truth_land_BIT. Qed.

Lemma lockless_bits (v : Z) :
  spte_can_locklessly_be_made_writable v = Z.testbit v 10 && Z.testbit v 11.
Proof.
  unfold spte_can_locklessly_be_made_writable.
  change (Z.lor SPTE_HOST_WRITEABLE SPTE_MMU_WRITEABLE) with (Z.lor (BIT 10) (BIT 11)).
  destruct (Z.testbit v 10 && Z.testbit v 11) eqn:E.
  - apply Z.eqb_eq. apply andb_true_iff in E as [E1 E2]. apply Z.bits_inj'; intros i Hi.
    rewrite Z.land_spec, Z.lor_spec, !BIT_testbit by lia.
    destruct (Z.eqb_spec i 10) as [->|]; [by rewrite E1|].
    destruct (Z.eqb_spec i 11) as [->|]; [by rewrite E2|by rewrite andb_false_r].
  - apply Z.eqb_neq. intros H. apply andb_false_iff in E as [E|E].
    + apply (f_equal (λ x, Z.testbit x 10)) in H. cbn beta in H. by rewrite Z.land_spec, E in H.
    + apply (f_equal (λ x, Z.testbit x 11)) in H. cbn beta in H. by rewrite Z.land_spec, E in H.
Qed.

Section WriteProtect.
Context `{K : KvmPte} (g : shadow_masks).

(** One entry: the write bit goes, and with [pt_protect] the permission to set
    it again; no other bit changes. *)
Lemma write_protect_value (pt : bool) (v : Z) :
  let new := (spte_write_protect g pt v).1.1 in
  is_writable_pte new = false ∧
  (pt = true → spte_can_locklessly_be_made_writable new = false) ∧
  (∀ i, 0 <= i < 64 → i ≠ 1 → i ≠ 11 → Z.testbit new i = Z.testbit v i).
Proof using Type.
  unfold spte_write_protect. destruct (is_writable_pte v) eqn:Hw; cbn [negb andb].
  2: destruct (pt && spte_can_locklessly_be_made_writable v) eqn:Hl; cbn [negb].
  3: { cbn [fst]. split_and!; [done| |done]. intros ->. exact Hl. }
  all: rewrite update_value, writable_bit, lockless_bits, land_not64_testbit by lia;
    change PT_WRITABLE_MASK with (BIT 1); change SPTE_MMU_WRITEABLE with (BIT 11); rewrite BIT_testbit by lia;
    (split_and!; [by rewrite andb_false_r| |]).
  all: try (intros ->; rewrite !land_not64_testbit, !BIT_testbit by lia; by rewrite !andb_false_r).
  all: intros i Hi H1 H11; rewrite land_not64_testbit, BIT_testbit by lia;
    rewrite (proj2 (Z.eqb_neq i 1) H1), andb_true_r; destruct pt; [|done];
    rewrite land_not64_testbit, BIT_testbit by lia;
    by rewrite (proj2 (Z.eqb_neq i 11) H11), andb_true_r.
Qed.

(** The flush: exactly when a write permission went. *)
Lemma write_protect_flush (pt : bool) (v : Z) :
  is_shadow_present_pte g v = true →
  (is_writable_pte v = true → spte_can_locklessly_be_made_writable v = true) →
  (spte_write_protect g pt v).1.2 = is_writable_pte v || (pt && spte_can_locklessly_be_made_writable v).
Proof using Type.
  intros Hp Ht. pose proof (write_protect_value pt v) as [Hnew _]. revert Hnew. unfold spte_write_protect.
  destruct (is_writable_pte v); cbn [negb andb orb]; [specialize (Ht eq_refl)|].
  - rewrite update_value, update_flush, Ht by done. by intros ->.
  - destruct (pt && spte_can_locklessly_be_made_writable v) eqn:E; cbn [negb]; [|done].
    rewrite update_value, update_flush by done. apply andb_true_iff in E as [_ ->]. by intros ->.
Qed.

(** Write-protecting a guest frame.  On a reverse map whose entries
    are present, [__rmap_write_protect] runs to its end; no entry of the frame
    is writable afterwards, nor, when a page table is protected, can one be
    made writable without the lock; only the write and the MMU-writable bit of
    these entries changed, every other entry is untouched; and a TLB flush is
    requested exactly when an entry lost a permission. *)
Theorem rmap_write_protect_correct (pt : bool) (k : rmap_key) (st : mmu_state) (ps l : list Z) :
  rmap_holds st k ps l →
  (∀ x, x ∈ l → is_shadow_present_pte g (st.(ptes) x) = true ∧
     (is_writable_pte (st.(ptes) x) = true → spte_can_locklessly_be_made_writable (st.(ptes) x) = true)) →
  ∃ st' flush, __rmap_write_protect g pt k st = Some (st', flush) ∧
    (∀ x, x ∈ l → is_writable_pte (st'.(ptes) x) = false ∧
       (pt = true → spte_can_locklessly_be_made_writable (st'.(ptes) x) = false) ∧
       ∀ i, 0 <= i < 64 → i ≠ 1 → i ≠ 11 → Z.testbit (st'.(ptes) x) i = Z.testbit (st.(ptes) x) i) ∧
    (∀ x, x ∉ l → st'.(ptes) x = st.(ptes) x) ∧
    (flush = true ↔ ∃ x, x ∈ l ∧ (is_writable_pte (st.(ptes) x) = true ∨
                                  pt = true ∧ spte_can_locklessly_be_made_writable (st.(ptes) x) = true)) ∧
    st'.(heads) = st.(heads) ∧ st'.(dmem) = st.(dmem).
Proof using Type.
  intros Hh Hl. destruct (rmap_each_spec g (spte_write_protect g pt) k st ps l Hh) as (st' & b & E & Hu);
    [intros x Hx; by apply Hl|].
  exists st', b. destruct Hu as [H1 H2 H3 _ (H4 & H5 & _)]. split_and!; try done.
  - intros x Hx. rewrite (H1 x Hx). apply write_protect_value.
  - rewrite H3, existsb_exists. split.
    + intros (x & Hx%list_elem_of_In & Hb). exists x. split; [done|]. destruct (Hl x Hx) as [Hp Ht].
      rewrite write_protect_flush in Hb by done. apply orb_true_iff in Hb as [|[]%andb_true_iff]; auto.
    + intros (x & Hx & Hb). exists x. split; [by apply list_elem_of_In|]. destruct (Hl x Hx) as [Hp Ht].
      rewrite write_protect_flush by done. apply orb_true_iff. rewrite andb_true_iff. naive_solver.
Qed.
End WriteProtect.

(* ------------------------------------------------------------------ *)
(** ** Dirty logging *)

Section Dirty.
Context `{K : KvmPte, KO : !KvmPteOk K} (g : shadow_masks).

(** The dirty mask is a bit other than the special one. *)
Context (Hdm : Z.testbit g.(shadow_dirty_mask) 62 = false).

Lemma pfn_clear_writable (v : Z) : spte_to_pfn (Z.clearbit v PT_WRITABLE_SHIFT) = spte_to_pfn v.
Proof using KO.
  unfold spte_to_pfn. f_equal. apply Z.bits_inj'; intros i Hi. rewrite !Z.land_spec.
  destruct (decide (i = 1)) as [->|Hne].
  - assert (Z.testbit PT64_BASE_ADDR_MASK 1 = false) as ->; [|by rewrite !andb_false_r].
    unfold PT64_BASE_ADDR_MASK. destruct KO as [_ [m Hm]]. rewrite Hm by (by vm_compute).
    by rewrite !Z.land_spec.
  - by rewrite Z.clearbit_neq by (change PT_WRITABLE_SHIFT with 1; lia).
Qed.

(** One entry: it is not dirty afterwards; if it was, that is reported, and a
    flush requested. *)
Lemma clear_dirty_value (v : Z) :
  is_shadow_present_pte g v = true → (spte_ad_enabled v = true → truth g.(shadow_dirty_mask) = true) →
  let '(new, flush, ev) := clear_dirty_body g v in
  is_dirty_spte g new = false ∧
  (is_dirty_spte g v = true → flush = true ∧ SetPfnDirty (spte_to_pfn v) ∈ ev).
Proof using KO Hdm.
  intros Hp Hdirty. unfold clear_dirty_body. destruct (spte_ad_enabled v) eqn:Had.
  - specialize (Hdirty eq_refl). unfold spte_clear_dirty.
    assert (Hnd : is_dirty_spte g (Z.land v (not64 (shadow_dirty_mask g))) = false).
    { unfold is_dirty_spte, spte_shadow_dirty_mask. rewrite ad_enabled_bit62, land_not64_testbit by lia.
      rewrite Hdm, andb_true_r, <- ad_enabled_bit62, Had, Hdirty. unfold truth. apply negb_false_iff, Z.eqb_eq.
      apply Z.bits_inj'; intros i Hi. rewrite !Z.land_spec, not64_testbit, Z.bits_0 by done.
      destruct (Z.testbit (shadow_dirty_mask g) i); by rewrite !andb_false_r. }
    pose proof (update_value g v (Z.land v (not64 (shadow_dirty_mask g)))) as Hv.
    pose proof (update_flush g v (Z.land v (not64 (shadow_dirty_mask g))) Hp) as Hf.
    pose proof (update_dirty_event g v (Z.land v (not64 (shadow_dirty_mask g))) Hp) as He.
    destruct (mmu_spte_update _ _ _ _) as [[new flush] ev]. cbn [fst snd] in *. subst new.
    split; [done|]. intros Hd. split; [|by apply He]. rewrite Hf, Hd, Hnd. by rewrite orb_true_r.
  - unfold wrprot_ad_disabled_spte. cbn beta iota. change PT_WRITABLE_SHIFT with 1 at 1 2 3.
    assert (Hd : ∀ x, spte_ad_enabled x = false → is_dirty_spte g x = Z.testbit x 1).
    { intros x Hx. unfold is_dirty_spte, spte_shadow_dirty_mask. rewrite Hx. cbn.
      apply (truth_land_BIT x 1). lia. }
    rewrite (Hd v Had), Hd by (rewrite ad_enabled_bit62, Z.clearbit_neq, <- ad_enabled_bit62 by lia; done).
    split; [by apply Z.clearbit_eq|]. intros ->. split; [done|]. rewrite pfn_clear_writable. set_solver.
Qed.

(** One round of dirty logging loses no write.  On a reverse map whose
    entries are present, [__rmap_clear_dirty] leaves every entry of the frame
    clean (dirty bit or write bit cleared, as the entry tracks writes), has
    reported the page of every entry that was dirty, requests a TLB flush if
    there was one, and touches no other entry. *)
Theorem rmap_clear_dirty_correct (k : rmap_key) (st : mmu_state) (ps l : list Z) :
  rmap_holds st k ps l →
  (∀ x, x ∈ l → is_shadow_present_pte g (st.(ptes) x) = true ∧
     (spte_ad_enabled (st.(ptes) x) = true → truth g.(shadow_dirty_mask) = true)) →
  ∃ st' flush, __rmap_clear_dirty g k st = Some (st', flush) ∧
    (∀ x, x ∈ l → is_dirty_spte g (st'.(ptes) x) = false) ∧
    (∀ x, x ∈ l → is_dirty_spte g (st.(ptes) x) = true →
       flush = true ∧ SetPfnDirty (spte_to_pfn (st.(ptes) x)) ∈ st'.(events)) ∧
    (∀ x, x ∉ l → st'.(ptes) x = st.(ptes) x).
Proof using KO Hdm.
  intros Hh Hl. destruct (rmap_each_spec g (clear_dirty_body g) k st ps l Hh) as (st' & b & E & Hu);
    [intros x Hx; by apply Hl|].
  exists st', b. destruct Hu as [H1 H2 H3 H4 _]. split_and!; try done.
  - intros x Hx. destruct (Hl x Hx) as [Hp Hd]. pose proof (clear_dirty_value _ Hp Hd) as Hc.
    rewrite (H1 x Hx). destruct (clear_dirty_body g (ptes st x)) as [[new f] ev]. apply Hc.
  - intros x Hx Hdx. destruct (Hl x Hx) as [Hp Hd]. pose proof (clear_dirty_value _ Hp Hd) as Hc.
    destruct (clear_dirty_body g (ptes st x)) as [[new f] ev] eqn:Eb. destruct Hc as [_ Hc].
    destruct (Hc Hdx) as [-> Hev]. split.
    + rewrite H3. apply existsb_exists. exists x. split; [by apply list_elem_of_In|by rewrite Eb].
    + rewrite H4. apply elem_of_app. right. apply list_elem_of_join.
      exists ev. split; [done|]. apply list_elem_of_fmap. exists x. by rewrite Eb.
Qed.
End Dirty.

(* ------------------------------------------------------------------ *)
(** ** Aging *)

Section Age.
Context `{K : KvmPte, KO : !KvmPteOk K} (g : shadow_masks).

(** Aging a guest frame.  [vmrun_age_rmapp] returns whether any entry of
    the frame was accessed, and afterwards none is; [vmrun_test_age_rmapp]
    gives the same answer without changing an entry. *)
Theorem age_rmapp_correct (k : rmap_key) (st : mmu_state) (ps l : list Z) :
  ad_masks g → Z.testbit g.(shadow_acc_track_mask) 62 = false →
  rmap_holds st k ps l →
  (∀ x, x ∈ l → is_u 64 (st.(ptes) x) ∧ is_shadow_present_pte g (st.(ptes) x) = true ∧
     (spte_ad_enabled (st.(ptes) x) = true → truth g.(shadow_accessed_mask) = true)) →
  ∃ st' young, vmrun_age_rmapp g k st = Some (st', young) ∧
    vmrun_test_age_rmapp g k st = Some young ∧
    (young = true ↔ ∃ x, x ∈ l ∧ is_accessed_spte g (st.(ptes) x) = true) ∧
    (∀ x, x ∈ l → is_accessed_spte g (st'.(ptes) x) = false) ∧
    (∀ x, x ∉ l → st'.(ptes) x = st.(ptes) x).
Proof using KO.
  intros Ham H62 Hh Hl.
  destruct (rmap_each_spec g (λ v, mmu_spte_age g v v) k st ps l Hh) as (st' & b & E & Hu);
    [intros x Hx; by apply Hl|].
  assert (Hage : ∀ x, x ∈ l → (mmu_spte_age g (ptes st x) (ptes st x)).1.2 = is_accessed_spte g (ptes st x) ∧
                 is_accessed_spte g (mmu_spte_age g (ptes st x) (ptes st x)).1.1 = false).
  { intros x Hx. destruct (Hl x Hx) as (Hu64 & _ & Hacc).
    destruct (mmu_spte_age g (ptes st x) (ptes st x)) as [[cell y] ev] eqn:Ea.
    by destruct (spte_age_resets g _ cell y ev Hu64 Ham H62 Hacc Ea) as (-> & ? & _). }
  destruct Hu as [H1 H2 H3 _ _]. exists st', b. split_and!; try done.
  - rewrite H3. unfold vmrun_test_age_rmapp. destruct Hh as [Hrep Hn].
    rewrite (for_each_foldl _ _ _ _ ps l) by (try done; intros l1 x l2 ->;
      apply orb_true_iff; right; apply Hl; set_solver). f_equal.
    rewrite (existsb_ext_in _ (λ x, is_accessed_spte g (ptes st x)) l) by (intros x Hx; by apply Hage).
    rewrite <- (orb_false_l (existsb _ l)). generalize false as acc.
    clear. induction l as [|x l IH]; intros acc; cbn; [by rewrite orb_false_r|]. by rewrite IH, orb_assoc.
  - rewrite H3, existsb_exists. split; intros (x & Hx & Ha); exists x.
    + apply list_elem_of_In in Hx. split; [done|]. by rewrite (proj1 (Hage x Hx)) in Ha.
    + rewrite <- list_elem_of_In. split; [done|]. by rewrite (proj1 (Hage x Hx)).
  - intros x Hx. rewrite (H1 x Hx). by apply Hage.
Qed.
End Age.

(* ------------------------------------------------------------------ *)
(** ** Zapping *)

Lemma get_first_spec (m : desc_mem) (pr : Z → bool) (head : Z) (ps l : list Z) :
  rmap_rep m.(descs) head ps l → (∀ x, x ∈ l → pr x = true) →
  ∃ iter, rmap_get_first m pr head = Some (default 0 (hd_error l), iter) ∧ (∀ x, x ∈ l → is_ptr x).
Proof.
  intros Hrep Hpr. unfold rmap_get_first. destruct Hrep as [|e He|p ds Hne Hn Hc].
  - eexists. split; [done|]. intros x Hx. by apply elem_of_nil in Hx.
  - rewrite (truth_nonzero e (ptr_nonnull _ He)), (untagged e He). cbn [negb mbind option_bind].
    rewrite Hpr by (by left). eexists. split; [done|]. by intros x ->%list_elem_of_singleton.
  - destruct (tagged p) as [-> ->]. cbn [negb].
    destruct (chain_ptrs _ _ _ Hc) as [_ Hptr]. rewrite Forall_forall in Hptr.
    destruct ds as [|[q es] ds]; [done|]. pose proof Hc as (-> & Hq & Hes & next & Hm & Hc').
    rewrite (untag q Hq), (read_spte_pad m q es next 0 Hm) by (apply Hes || (unfold PTE_LIST_EXT; lia)).
    destruct es as [|x es]; [destruct Hes; cbn in *; lia|].
    change (default 0 ((x :: es) !! 0%nat)) with x. cbn [mbind option_bind].
    rewrite Hpr by (rewrite entries_cons; set_solver). by eexists.
Qed.

Lemma clear_track_events `{K : KvmPte} (g : shadow_masks) (v : Z) :
  is_shadow_present_pte g v = true →
  let ev := (mmu_spte_clear_track_bits g v v).2 in
  (is_accessed_spte g v = true → SetPfnAccessed (spte_to_pfn v) ∈ ev) ∧
  (is_dirty_spte g v = true → SetPfnDirty (spte_to_pfn v) ∈ ev).
Proof.
  intros Hp. unfold mmu_spte_clear_track_bits.
  assert (Ho : (if negb (spte_has_volatile_bits g v) then v else v) = v) by by destruct (negb _).
  rewrite Ho, Hp. cbn [negb snd]. split; intros ->; set_solver.
Qed.

Lemma rep_nil (m : gmap Z pte_list_desc) (head : Z) (ps : list Z) :
  rmap_rep m head ps [] → head = 0 ∧ ps = [].
Proof.
  intros Hrep. inversion Hrep as [|e He|p ds Hne Hn Hc]; subst; [done|].
  destruct ds as [|[q es] ds]; [done|]. destruct Hc as (_ & _ & [Hl _ _] & _).
  destruct es; [cbn in Hl; lia|done].
Qed.

Lemma rep_length (m : desc_mem) (head : Z) (ps l : list Z) :
  rmap_rep m.(descs) head ps l → (length l <= 1 + PTE_LIST_EXT * size m.(descs))%nat.
Proof.
  intros Hrep. destruct Hrep as [|e He|p ds Hne Hn Hc]; cbn [length]; [lia..|].
  pose proof (entries_length m _ _ Hc). pose proof (chain_dom _ _ _ Hc Hn). nia.
Qed.

Section Zap.
Context `{K : KvmPte} (g : shadow_masks).

(** What zapping the entries [l] of rmap [k] leaves. *)
Record zapped (k : rmap_key) (l ps : list Z) (st st' : mmu_state) : Prop := {
  za_empty : head_of k st' = 0;
  za_heads : ∀ k', k' ≠ k → st'.(heads) !! k' = st.(heads) !! k';
  za_in : ∀ x, x ∈ l → st'.(ptes) x = 0;
  za_out : ∀ x, x ∉ l → st'.(ptes) x = st.(ptes) x;
  za_freed : ∀ p, p ∈ ps → st'.(dmem).(descs) !! p = None;
  za_descs : ∀ p, p ∉ ps → st'.(dmem).(descs) !! p = st.(dmem).(descs) !! p;
  za_events : ∀ e, e ∈ st.(events) → e ∈ st'.(events);
  za_tracked : ∀ x, x ∈ l →
    (is_accessed_spte g (st.(ptes) x) = true → SetPfnAccessed (spte_to_pfn (st.(ptes) x)) ∈ st'.(events)) ∧
    (is_dirty_spte g (st.(ptes) x) = true → SetPfnDirty (spte_to_pfn (st.(ptes) x)) ∈ st'.(events))
}.

(** One pass and what follows it. *)
Lemma zapped_step (k : rmap_key) (x head' : Z) (m' : desc_mem) (l l' ps ps' freed : list Z) (st st' : mmu_state) :
  let ev := (mmu_spte_clear_track_bits g (st.(ptes) x) (st.(ptes) x)).2 in
  let st1 := st <| ptes ::= set_pte x 0 |> <| events ::= λ l, l ++ ev |>
                <| heads ::= <[k := head']> |> <| dmem := m' |> in
  is_shadow_present_pte g (st.(ptes) x) = true → NoDup (x :: l') → l ≡ₚ x :: l' →
  ps ≡ₚ freed ++ ps' → (∀ p, p ∈ freed → m'.(descs) !! p = None) →
  (∀ p, p ∉ ps → m'.(descs) !! p = st.(dmem).(descs) !! p) →
  zapped k l' ps' st1 st' → zapped k l ps st st'.
Proof using Type.
  intros ev st1 Hp Hn Hl Hps Hfr Hframe [Z1 Z2 Z3 Z4 Z5 Z6 Z7 Z8].
  apply NoDup_cons in Hn as [Hx Hn]. destruct (clear_track_events g _ Hp) as [Ha Hd].
  assert (Hev : ∀ e, e ∈ events st ++ ev → e ∈ events st') by exact Z7.
  assert (Hother : ∀ y, y ≠ x → ptes st1 y = ptes st y) by (intros y Hy; by apply set_pte_ne).
  split.
  - done.
  - intros k' Hk. rewrite Z2 by done. cbn. by rewrite lookup_insert_ne.
  - intros y. rewrite Hl. intros [->|Hy]%elem_of_cons; [|by apply Z3]. rewrite (Z4 x Hx). apply set_pte_eq.
  - intros y Hy. rewrite Hl in Hy. rewrite Z4 by set_solver. apply Hother. set_solver.
  - intros p Hpp. destruct (decide (p ∈ ps')) as [|Hp']; [by apply Z5|]. rewrite Z6 by done.
    apply Hfr. rewrite Hps in Hpp. set_solver.
  - intros p Hpp. rewrite Z6 by (rewrite Hps in Hpp; set_solver). by apply Hframe.
  - intros e He. apply Hev. set_solver.
  - intros y. rewrite Hl. intros [->|Hy]%elem_of_cons.
    + split; intros H; apply Hev; apply elem_of_app; right; auto.
    + destruct (Z8 y Hy) as [H1 H2]. rewrite Hother in H1, H2 by (by intros ->). done.
Qed.

Context (page_header : Z → Z) (gfn_to_memslot : bool → Z → vmrun_memory_slot).

(** The rmap the shadow page of an entry says the entry is in. *)
Definition spte_key (st : mmu_state) (sptep : Z) : option rmap_key :=
  sp ← st.(pages) !! page_header sptep;
  gfn ← vmrun_mmu_page_get_gfn sp (spte_index sp sptep);
  Some (gfn_to_rmap gfn_to_memslot gfn sp).

Lemma rmap_remove_key (st : mmu_state) (sptep : Z) (k : rmap_key) :
  spte_key st sptep = Some k →
  rmap_remove page_header gfn_to_memslot sptep st =
    '(head, m) ← pte_list_remove sptep (head_of k st) st.(dmem);
    Some (st <| heads ::= <[k := head]> |> <| dmem := m |>).
Proof using Type.
  unfold spte_key, rmap_remove. destruct (pages st !! page_header sptep) as [sp|]; [|done].
  cbn [mbind option_bind]. destruct (vmrun_mmu_page_get_gfn sp _) as [gfn|]; [|done].
  cbn [mbind option_bind]. by intros [= ->].
Qed.

(** Dropping one entry. *)
Lemma drop_spte_spec (k : rmap_key) (x : Z) (ps l : list Z) (st : mmu_state) :
  rmap_rep st.(dmem).(descs) (head_of k st) ps l → x ∈ l →
  is_shadow_present_pte g (st.(ptes) x) = true → spte_key st x = Some k →
  ∃ head' m', remove_result x st.(dmem) m' ps l head' ∧
    let ev := (mmu_spte_clear_track_bits g (st.(ptes) x) (st.(ptes) x)).2 in
    drop_spte g page_header gfn_to_memslot x st =
    Some (st <| ptes ::= set_pte x 0 |> <| events ::= λ l, l ++ ev |>
             <| heads ::= <[k := head']> |> <| dmem := m' |>).
Proof using Type.
  intros Hrep Hx Hp Hk. destruct (pte_list_remove_spec x _ _ ps l Hrep Hx) as (head' & m' & Hr & Hres).
  exists head', m'. split; [done|]. unfold drop_spte, mmu_spte_clear_track_bits.
  assert (Ho : (if negb (spte_has_volatile_bits g (ptes st x)) then ptes st x else ptes st x) = ptes st x)
    by by destruct (negb _).
  rewrite Ho, Hp. cbn [negb]. change (truth 1) with true. cbv iota zeta. cbn [snd].
  rewrite (rmap_remove_key _ x k) by exact Hk.
  match goal with |- context [head_of k ?s] => change (head_of k s) with (head_of k st) end.
  match goal with |- context [pte_list_remove x _ ?d] => change d with (dmem st) end.
  by rewrite Hr.
Qed.

Lemma zap_loop_spec (fuel : nat) (k : rmap_key) (ps l : list Z) (st : mmu_state) (flush : bool) :
  rmap_holds st k ps l →
  (∀ x, x ∈ l → is_shadow_present_pte g (st.(ptes) x) = true ∧ spte_key st x = Some k) →
  (length l < fuel)%nat →
  ∃ st', zap_loop g page_header gfn_to_memslot fuel k flush st = Some (st', flush || negb (bool_decide (l = [])))
         ∧ zapped k l ps st st'.
Proof using Type.
  revert ps l st flush. induction fuel as [|fuel IH]; intros ps l st flush [Hrep Hn] Hl Hf; [lia|].
  cbn [zap_loop]. destruct (get_first_spec st.(dmem) (λ p, is_shadow_present_pte g (st.(ptes) p)) _ ps l Hrep)
    as (iter & -> & Hptr); [intros x Hx; by apply Hl|]. cbn [mbind option_bind].
  destruct l as [|x l0].
  - destruct (rep_nil _ _ _ Hrep) as [H0 ->]. exists st. rewrite bool_decide_eq_true_2, orb_false_r by done.
    split; [done|]. split; try done; intros x Hx; by apply elem_of_nil in Hx.
  - change (default 0 (hd_error (x :: l0))) with x.
    rewrite (truth_nonzero x) by (apply ptr_nonnull, Hptr; by left). cbn [negb].
    destruct (Hl x ltac:(by left)) as [Hp Hk].
    destruct (drop_spte_spec k x ps (x :: l0) st Hrep ltac:(by left) Hp Hk) as (head' & m' & Hres & ->).
    cbn [mbind option_bind]. destruct Hres as [(ps' & freed & l' & Hrep' & Hperm & Hps & Hfreed) Hframe Hcache].
    match goal with |- context [zap_loop _ _ _ fuel k true ?s] => set (st1 := s) end.
    assert (Hh : head_of k st1 = head') by (unfold head_of; cbn; by rewrite lookup_insert_eq).
    assert (Hn' : NoDup (x :: l')) by by rewrite <- Hperm.
    destruct (IH ps' l' st1 true) as (st' & -> & Hz).
    + split; [by rewrite Hh|by apply NoDup_cons in Hn' as [_ ?]].
    + intros y Hy. apply NoDup_cons in Hn' as [Hx' _]. assert (y ∈ x :: l0) as Hy0 by (rewrite Hperm; by right).
      destruct (Hl y Hy0). split; [|done]. cbn. rewrite set_pte_ne; [done|]. by intros ->.
    + apply Permutation_length in Hperm. cbn in *. lia.
    + exists st'. split; [by rewrite orb_true_r|]. by eapply zapped_step.
Qed.

(** Unmapping a guest frame.  When every entry of the frame is present
    and its shadow page says it belongs to this reverse map, [vmrun_zap_rmapp]
    ends with the rmap empty, every one of these entries cleared and its
    accessed and dirty state reported, the descriptors of the rmap freed, and
    everything else (other entries, other rmaps, their descriptors) as it was;
    it asks for a flush exactly when there was an entry. *)
Theorem zap_rmapp_correct (k : rmap_key) (ps l : list Z) (st : mmu_state) :
  rmap_holds st k ps l →
  (∀ x, x ∈ l → is_shadow_present_pte g (st.(ptes) x) = true ∧ spte_key st x = Some k) →
  ∃ st', vmrun_zap_rmapp g page_header gfn_to_memslot k st = Some (st', negb (bool_decide (l = [])))
         ∧ zapped k l ps st st'.
Proof using Type.
  intros Hh Hl. pose proof (rep_length _ _ _ _ (rh_rep _ _ _ _ Hh)).
  by destruct (zap_loop_spec (2 + PTE_LIST_EXT * size st.(dmem).(descs)) k ps l st false Hh Hl ltac:(lia))
    as (st' & ? & ?); exists st'.
Qed.
End Zap.

(* ------------------------------------------------------------------ *)
(** ** An example: a frame mapped twice, writable and dirty *)

Definition example_key : rmap_key := (1, 0).
Definition example_page : mmu_page :=
  {| sp_spt := 0x100; sp_gfn := 0; sp_gfns := replicate 512 0; role_level := 1; role_direct := false;
     role_smm := false |}.
Definition example_memslot : vmrun_memory_slot :=
  null_slot <| arch := {| rmap := [1; 2; 3]; lpage_info := [4; 5]; gfn_track := [6] |} |>
            <| npages := 16 |>.
Definition example_state : mmu_state :=
  {| ptes := λ _, 0x5c63; heads := {[ example_key := 0x11 ]}; dmem := example_many;
     pages := {[ 0 := example_page ]}; events := []; stat_lpages := 0; remote_flushes := 0 |}.

Lemma example_holds : rmap_holds example_state example_key [0x10] [0x100; 0x108].
Proof. split; [exact example_many_rep|]. by apply (bool_decide_unpack _). Qed.

Lemma rmap_write_protect_correct_witness :
  ∃ st', __rmap_write_protect (K := kvm_pte_x86) x86_masks true example_key example_state = Some (st', true) ∧
         st'.(ptes) 0x108 = 0x5461.
Proof.
  destruct (rmap_write_protect_correct (K := kvm_pte_x86) x86_masks true example_key example_state
              [0x10] [0x100; 0x108] example_holds) as (st' & f & E & _ & _ & Hf & _).
  { intros x _. split; [reflexivity|intros _; reflexivity]. }
  assert (f = true) as -> by (apply Hf; exists 0x100; split; [set_solver|left; reflexivity]).
  exists st'. split; [exact E|]. vm_compute in E. injection E as <-. reflexivity.
Defined.

Lemma rmap_clear_dirty_correct_witness :
  ∃ st' flush, __rmap_clear_dirty (K := kvm_pte_x86) x86_masks example_key example_state = Some (st', flush) ∧
               SetPfnDirty 5 ∈ st'.(events).
Proof.
  destruct (rmap_clear_dirty_correct (K := kvm_pte_x86) (KO := kvm_pte_x86_ok) x86_masks eq_refl
              example_key example_state [0x10] [0x100; 0x108] example_holds) as (st' & f & E & _ & Hd & _).
  { intros x _. split; [reflexivity|intros _; reflexivity]. }
  exists st', f. split; [exact E|]. apply (Hd 0x100); [set_solver|reflexivity].
Defined.

Lemma age_rmapp_correct_witness :
  ∃ st', vmrun_age_rmapp (K := kvm_pte_x86) x86_masks example_key example_state = Some (st', true) ∧
         is_accessed_spte (K := kvm_pte_x86) x86_masks (st'.(ptes) 0x108) = false.
Proof.
  destruct (age_rmapp_correct (K := kvm_pte_x86) (KO := kvm_pte_x86_ok) x86_masks example_key example_state
              [0x10] [0x100; 0x108]) as (st' & y & E & _ & Hy & Hn & _).
  - exact x86_masks_ad.
  - reflexivity.
  - exact example_holds.
  - intros x _. split; [split; [cbn; lia|reflexivity]|split; [reflexivity|intros _; reflexivity]].
  - assert (y = true) as -> by (apply Hy; exists 0x100; split; [set_solver|reflexivity]).
    exists st'. split; [exact E|]. apply Hn. set_solver.
Defined.

Lemma zap_rmapp_correct_witness :
  ∃ st', vmrun_zap_rmapp (K := kvm_pte_x86) x86_masks (λ _, 0) (λ _ _, example_memslot) example_key example_state
         = Some (st', true) ∧
         zapped (K := kvm_pte_x86) x86_masks example_key [0x100; 0x108] [0x10] example_state st'.
Proof.
  apply (zap_rmapp_correct (K := kvm_pte_x86) x86_masks (λ _, 0) (λ _ _, example_memslot) example_key
           [0x10] [0x100; 0x108] example_state example_holds).
  intros x Hx. split; [reflexivity|].
  apply elem_of_cons in Hx as [->|Hx]; [reflexivity|].
  apply list_elem_of_singleton in Hx as ->. reflexivity.
Defined.
