(* ===== verification/SlotWalk.v ===== *)
(** * Walks over the reverse maps of a memory slot

    kernel/mmu.c: the iterator over the rmap heads of a range of guest frames,
    level by level; [slot_handle_level_range] and the operations on a whole
    slot built on it; the operations on a range of host addresses, which the
    MMU notifier of kernel/vmrun.c uses.

    [hva_to_gfn_memslot] is not in the repository and a parameter here. *)

From S2P Require Import Prelude.
From S2P Require Import Spte.
From S2P Require Import Memslots.
From S2P Require Import MemRegion.
From S2P Require Import PteList.
From S2P Require Import Rmap.

(** [struct slot_rmap_walk_iterator]; [w_rmap = None] is NULL. *)
Record slot_rmap_walk_iterator := {
  w_slot : vmrun_memory_slot;
  w_start_gfn : Z;
  w_end_gfn : Z;
  w_start_level : Z;
  w_end_level : Z;
  w_gfn : Z;
  w_rmap : option rmap_key;
  w_level : Z;
  w_end_rmap : rmap_key
}.
#[export] Instance eta_slot_rmap_walk_iterator : Eta slot_rmap_walk_iterator := λ r,
  {| w_slot := r.(w_slot); w_start_gfn := r.(w_start_gfn); w_end_gfn := r.(w_end_gfn);
     w_start_level := r.(w_start_level); w_end_level := r.(w_end_level); w_gfn := r.(w_gfn);
     w_rmap := r.(w_rmap); w_level := r.(w_level); w_end_rmap := r.(w_end_rmap) |}.

Definition rmap_walk_init_level (level : Z) (it : slot_rmap_walk_iterator) : slot_rmap_walk_iterator :=
  it <| w_level := level |>
     <| w_gfn := it.(w_start_gfn) |>
     <| w_rmap := Some (__gfn_to_rmap it.(w_start_gfn) level it.(w_slot)) |>
     <| w_end_rmap := __gfn_to_rmap it.(w_end_gfn) level it.(w_slot) |>.

Definition slot_rmap_walk_init (slot : vmrun_memory_slot) (start_level end_level start_gfn end_gfn : Z)
    : slot_rmap_walk_iterator :=
  rmap_walk_init_level start_level
    {| w_slot := slot; w_start_gfn := start_gfn; w_end_gfn := end_gfn; w_start_level := start_level;
       w_end_level := end_level; w_gfn := 0; w_rmap := None; w_level := 0; w_end_rmap := (0, 0) |}.

Definition slot_rmap_walk_okay (it : slot_rmap_walk_iterator) : bool := bool_decide (is_Some it.(w_rmap)).

(** [rmap] and [end_rmap] point into the same array: the comparison of the
    pointers is that of the indices. *)
Definition slot_rmap_walk_next (it : slot_rmap_walk_iterator) : slot_rmap_walk_iterator :=
  match it.(w_rmap) with
  | None => it
  | Some (arr, idx) =>
      if idx + 1 <=? it.(w_end_rmap).2 then
        it <| w_rmap := Some (arr, idx + 1) |>
           <| w_gfn ::= λ gfn, u64 (gfn + BIT (VMRUN_HPAGE_GFN_SHIFT it.(w_level))) |>
      else if it.(w_level) + 1 >? it.(w_end_level) then
        it <| w_level ::= λ l, l + 1 |> <| w_rmap := None |>
      else rmap_walk_init_level (it.(w_level) + 1) (it <| w_level ::= λ l, l + 1 |>)
  end.

Section Walk.
Context {S : Type} (body : rmap_key → Z → Z → S → option S).

(** [for_each_slot_rmap_range]; the body gets the rmap, the gfn and the level. *)
Fixpoint walk_loop (fuel : nat) (it : slot_rmap_walk_iterator) (s : S) : option S :=
  match fuel with
  | O => None
  | Datatypes.S fuel =>
      match it.(w_rmap) with
      | None => Some s
      | Some k => s ← body k it.(w_gfn) it.(w_level) s; walk_loop fuel (slot_rmap_walk_next it) s
      end
  end.

Definition for_each_slot_rmap_range (slot : vmrun_memory_slot) (start_level end_level start_gfn end_gfn : Z)
    (s : S) : option S :=
  walk_loop (Z.to_nat ((end_level - start_level + 1) * (end_gfn - start_gfn + 2) + 1))
    (slot_rmap_walk_init slot start_level end_level start_gfn end_gfn) s.
End Walk.

(** ** Whole slots *)

(** The state of a walk: the MMU, the pending flush, and for each pass whether
    the lock is given up ([need_resched() || spin_needbreak(...)]). *)
Record walk_state := { ws_mmu : mmu_state; ws_flush : bool; ws_resched : list bool }.
#[export] Instance eta_walk_state : Eta walk_state := λ r,
  {| ws_mmu := r.(ws_mmu); ws_flush := r.(ws_flush); ws_resched := r.(ws_resched) |}.

Definition flush_remote_tlbs (st : mmu_state) : mmu_state := st <| remote_flushes ::= λ n, n + 1 |>.

(** [if (flush && lock_flush_tlb) { flush; flush = false; }] *)
Definition flush_if (lock_flush_tlb : bool) (ws : walk_state) : walk_state :=
  if ws.(ws_flush) && lock_flush_tlb
  then ws <| ws_mmu ::= flush_remote_tlbs |> <| ws_flush := false |> else ws.

Definition slot_level_handler : Type := rmap_key → mmu_state → option (mmu_state * bool).

Definition handle_body (fn : slot_level_handler) (lock_flush_tlb : bool) (k : rmap_key) (gfn level : Z)
    (ws : walk_state) : option walk_state :=
  '(st, b) ← fn k ws.(ws_mmu);
  let ws := ws <| ws_mmu := st |> <| ws_flush ::= λ f, f || b |> in
  let ws' := ws <| ws_resched ::= tail |> in
  Some (if default false (head ws.(ws_resched)) then flush_if lock_flush_tlb ws' else ws').

Definition slot_handle_level_range (fn : slot_level_handler) (slot : vmrun_memory_slot)
    (start_level end_level start_gfn end_gfn : Z) (lock_flush_tlb : bool) (resched : list bool)
    (st : mmu_state) : option (mmu_state * bool) :=
  ws ← for_each_slot_rmap_range (handle_body fn lock_flush_tlb) slot start_level end_level start_gfn end_gfn
         {| ws_mmu := st; ws_flush := false; ws_resched := resched |};
  let ws := flush_if lock_flush_tlb ws in
  Some (ws.(ws_mmu), ws.(ws_flush)).

Definition slot_handle_level (fn : slot_level_handler) (slot : vmrun_memory_slot)
    (start_level end_level : Z) (lock_flush_tlb : bool) (resched : list bool) (st : mmu_state)
    : option (mmu_state * bool) :=
  slot_handle_level_range fn slot start_level end_level slot.(base_gfn)
    (u64 (slot.(base_gfn) + slot.(npages) - 1)) lock_flush_tlb resched st.

Definition slot_handle_all_level (fn : slot_level_handler) (slot : vmrun_memory_slot) :=
  slot_handle_level fn slot PT_PAGE_TABLE_LEVEL PT_MAX_HUGEPAGE_LEVEL.

Definition slot_handle_large_level (fn : slot_level_handler) (slot : vmrun_memory_slot) :=
  slot_handle_level fn slot (PT_PAGE_TABLE_LEVEL + 1) PT_MAX_HUGEPAGE_LEVEL.

Definition slot_handle_leaf (fn : slot_level_handler) (slot : vmrun_memory_slot) :=
  slot_handle_level fn slot PT_PAGE_TABLE_LEVEL PT_PAGE_TABLE_LEVEL.

(** [if (flush) vmrun_flush_remote_tlbs(vmrun)], after the lock is released. *)
Definition flush_after (r : option (mmu_state * bool)) : option mmu_state :=
  '(st, flush) ← r; Some (if flush : bool then flush_remote_tlbs st else st).

Section Slots.
Context `{K : KvmPte} (g : shadow_masks) (page_header : Z → Z)
        (gfn_to_memslot : bool → Z → vmrun_memory_slot).

Definition slot_rmap_write_protect : slot_level_handler := __rmap_write_protect g false.

Definition vmrun_mmu_slot_remove_write_access (slot : vmrun_memory_slot) (resched : list bool) (st : mmu_state) :=
  flush_after (slot_handle_all_level slot_rmap_write_protect slot false resched st).

Definition vmrun_mmu_slot_leaf_clear_dirty (slot : vmrun_memory_slot) (resched : list bool) (st : mmu_state) :=
  flush_after (slot_handle_leaf (__rmap_clear_dirty g) slot false resched st).

Definition vmrun_mmu_slot_largepage_remove_write_access (slot : vmrun_memory_slot) (resched : list bool)
    (st : mmu_state) :=
  flush_after (slot_handle_large_level slot_rmap_write_protect slot false resched st).

Definition vmrun_mmu_slot_set_dirty (slot : vmrun_memory_slot) (resched : list bool) (st : mmu_state) :=
  flush_after (slot_handle_all_level (__rmap_set_dirty g) slot false resched st).

(** One slot of [vmrun_zap_gfn_range]. *)
Definition zap_slot_range (gfn_start gfn_end : Z) (slot : vmrun_memory_slot) (resched : list bool)
    (st : mmu_state) : option mmu_state :=
  let start := Z.max gfn_start slot.(base_gfn) in
  let end_ := Z.min gfn_end (u64 (slot.(base_gfn) + slot.(npages))) in
  if start >=? end_ then Some st
  else fst <$> slot_handle_level_range (vmrun_zap_rmapp g page_header gfn_to_memslot) slot
                 PT_PAGE_TABLE_LEVEL PT_MAX_HUGEPAGE_LEVEL start (u64 (end_ - 1)) true resched st.

(** The loops over the address spaces and their slots. *)
Definition vmrun_zap_gfn_range (gfn_start gfn_end : Z) (resched : vmrun_memory_slot → list bool)
    (slots : list vmrun_memslots) (st : mmu_state) : option mmu_state :=
  foldl (λ r slot, st ← r; zap_slot_range gfn_start gfn_end slot (resched slot) st) (Some st)
        (slots ≫= λ sl, each_memslot sl.(memslots)).

(** ** Ranges of host addresses *)

Context (hva_to_gfn_memslot : Z → vmrun_memory_slot → Z).

(** The handlers use the rmap only; slot, frame and level go to a trace point. *)
Definition hva_handler : Type := rmap_key → mmu_state → option (mmu_state * bool).

(** One slot of [vmrun_handle_hva_range]: the range of frames to handle. *)
Definition hva_slot_range (start end_ : Z) (slot : vmrun_memory_slot) : option (Z * Z) :=
  let hva_start := Z.max start slot.(userspace_addr) in
  let hva_end := Z.min end_ (u64 (slot.(userspace_addr) + u64 (Z.shiftl slot.(npages) PAGE_SHIFT))) in
  if hva_start >=? hva_end then None
  else
    let gfn_start := hva_to_gfn_memslot hva_start slot in
    let gfn_end := hva_to_gfn_memslot (u64 (hva_end + PAGE_SIZE - 1)) slot in
    Some (gfn_start, u64 (gfn_end - 1)).

Definition handle_hva_slot (handler : hva_handler) (start end_ : Z) (acc : option (mmu_state * bool))
    (slot : vmrun_memory_slot) : option (mmu_state * bool) :=
  acc ← acc;
  match hva_slot_range start end_ slot with
  | None => Some acc
  | Some (gfn_start, gfn_last) =>
      for_each_slot_rmap_range
        (λ k gfn level acc, '(st, b) ← handler k acc.1; Some (st, acc.2 || b))
        slot PT_PAGE_TABLE_LEVEL PT_MAX_HUGEPAGE_LEVEL gfn_start gfn_last acc
  end.

Definition vmrun_handle_hva_range (handler : hva_handler) (start end_ : Z) (slots : list vmrun_memslots)
    (st : mmu_state) : option (mmu_state * bool) :=
  foldl (handle_hva_slot handler start end_) (Some (st, false))
        (slots ≫= λ sl, each_memslot sl.(memslots)).

Definition vmrun_handle_hva (handler : hva_handler) (hva : Z) :=
  vmrun_handle_hva_range handler hva (u64 (hva + 1)).

Definition vmrun_unmap_hva := vmrun_handle_hva (vmrun_unmap_rmapp g page_header gfn_to_memslot).

Definition vmrun_unmap_hva_range := vmrun_handle_hva_range (vmrun_unmap_rmapp g page_header gfn_to_memslot).

(** The host pte: whether it is writable, and its frame. *)
Definition vmrun_set_spte_hva (hva : Z) (pte_write : bool) (pfn : Z) (slots : list vmrun_memslots) (st : mmu_state)
    : option mmu_state :=
  fst <$> vmrun_handle_hva
    (λ k st, st ← vmrun_set_pte_rmapp g page_header gfn_to_memslot pte_write pfn k st; Some (st, false))
    hva slots st.

Definition vmrun_age_hva := vmrun_handle_hva_range (vmrun_age_rmapp g).

Definition vmrun_test_age_hva :=
  vmrun_handle_hva (λ k st, b ← vmrun_test_age_rmapp g k st; Some (st, b)).

End Slots.
