(* ===== verification/SlotWalkProps.v ===== *)
(** * Walks over the reverse maps of a memory slot: what they visit *)

From S2P Require Import Prelude.
From S2P Require Import Spte.
From S2P Require Import SpteTrack.
From S2P Require Import Memslots.
From S2P Require Import MemRegion.
From S2P Require Import PteList.
From S2P Require Import PteListProps.
From S2P Require Import Rmap.
From S2P Require Import RmapProps.
From S2P Require Import SlotWalk.

(* ------------------------------------------------------------------ *)
(** ** The iterator *)

(** A visit: the rmap, the first frame it stands for, the level. *)
Definition visit : Type := rmap_key * Z * Z.

Section Visits.
Context (slot : vmrun_memory_slot) (start_gfn end_gfn : Z).

Definition level_array (level : Z) : Z := slot.(arch).(rmap) !!! Z.to_nat (level - 1).
Definition level_shift (level : Z) : Z := (level - 1) * 9.
Definition first_index (level : Z) : Z :=
  Z.shiftr start_gfn (level_shift level) - Z.shiftr slot.(base_gfn) (level_shift level).
Definition last_index (level : Z) : Z :=
  Z.shiftr end_gfn (level_shift level) - Z.shiftr slot.(base_gfn) (level_shift level).

Definition visit_at (level j : Z) : visit :=
  ((level_array level, first_index level + j), u64 (start_gfn + j * 2 ^ level_shift level), level).

(** The heads of one level, from index [j] on. *)
Definition level_visits (level j : Z) : list visit :=
  visit_at level <$> seqZ j (last_index level - first_index level - j + 1).

(** All the heads a walk from [start_level] to [end_level] visits. *)
Definition visits (start_level end_level : Z) : list visit :=
  seqZ start_level (end_level - start_level + 1) ≫= λ level, level_visits level 0.

Record range_ok : Prop := {
  ro_base : 0 <= slot.(base_gfn) <= start_gfn;
  ro_order : start_gfn <= end_gfn;
  ro_end : end_gfn < 2 ^ 64
}.
Context (Hr : range_ok).

Lemma shiftr_mono (a b n : Z) : 0 <= n → a <= b → Z.shiftr a n <= Z.shiftr b n.
Proof using Type. intros Hn Hab. rewrite !Z.shiftr_div_pow2 by done. apply Z.div_le_mono; lia. Qed.

(** Coarser indices advance no faster than frames. *)
Lemma shiftr_lipschitz (a b n : Z) : 0 <= n → a <= b → Z.shiftr b n - Z.shiftr a n <= b - a.
Proof using Type.
  intros Hn Hab. rewrite !Z.shiftr_div_pow2 by done. set (m := 2 ^ n). assert (0 < m) by (unfold m; lia).
  assert (b / m <= (a + (b - a) * m) / m) by (apply Z.div_le_mono; nia).
  rewrite Z.div_add in H0 by lia. lia.
Qed.

Lemma index_of (gfn level : Z) :
  1 <= level → slot.(base_gfn) <= gfn < 2 ^ 64 →
  gfn_to_index gfn slot.(base_gfn) level
  = Z.shiftr gfn (level_shift level) - Z.shiftr slot.(base_gfn) (level_shift level).
Proof using Hr.
  intros Hl Hg. unfold gfn_to_index. change (VMRUN_HPAGE_GFN_SHIFT level) with (level_shift level).
  assert (0 <= level_shift level) by (unfold level_shift; lia).
  pose proof (shiftr_mono slot.(base_gfn) gfn _ H (proj1 Hg)).
  pose proof (shiftr_lipschitz slot.(base_gfn) gfn _ H (proj1 Hg)). destruct Hr. apply wrap_id. unfold is_u. lia.
Qed.

Lemma level_bounds (level : Z) :
  1 <= level → 0 <= last_index level - first_index level <= end_gfn - start_gfn.
Proof using Hr.
  intros Hl. assert (0 <= level_shift level) by (unfold level_shift; lia). destruct Hr.
  pose proof (shiftr_mono start_gfn end_gfn _ H). pose proof (shiftr_lipschitz start_gfn end_gfn _ H).
  unfold last_index, first_index. lia.
Qed.

Context {S : Type} (body : rmap_key → Z → Z → S → option S).

Fixpoint run_visits (l : list visit) (s : S) : option S :=
  match l with
  | [] => Some s
  | (k, gfn, level) :: l => s ← body k gfn level s; run_visits l s
  end.

Lemma run_visits_app (l1 l2 : list visit) (s : S) :
  run_visits (l1 ++ l2) s = run_visits l1 s ≫= run_visits l2.
Proof using Type.
  revert s. induction l1 as [|[[k gfn] level] l1 IH]; intros s; [done|]. cbn.
  destruct (body k gfn level s); cbn; auto.
Qed.

Section Levels.
Context (start_level end_level : Z).

(** The iterator at the [j]-th head of a level. *)
Definition iter_at (level j : Z) : slot_rmap_walk_iterator :=
  {| w_slot := slot; w_start_gfn := start_gfn; w_end_gfn := end_gfn; w_start_level := start_level;
     w_end_level := end_level; w_gfn := u64 (start_gfn + j * 2 ^ level_shift level);
     w_rmap := Some (level_array level, first_index level + j); w_level := level;
     w_end_rmap := (level_array level, last_index level) |}.

Lemma init_level (level : Z) (it : slot_rmap_walk_iterator) :
  1 <= level → it.(w_slot) = slot → it.(w_start_gfn) = start_gfn → it.(w_end_gfn) = end_gfn →
  it.(w_start_level) = start_level → it.(w_end_level) = end_level →
  rmap_walk_init_level level it = iter_at level 0.
Proof using Hr.
  intros Hl E1 E2 E3 E4 E5. destruct it. cbn in *. subst. unfold rmap_walk_init_level, iter_at. cbn -[Z.pow u64].
  destruct Hr. unfold __gfn_to_rmap. rewrite !index_of by lia.
  change (Z.to_nat (level - PT_PAGE_TABLE_LEVEL)) with (Z.to_nat (level - 1)).
  fold (level_array level). rewrite Z.add_0_r, Z.add_0_r, wrap_id by (split; lia). done.
Qed.

Lemma next_same_level (level j : Z) :
  1 <= level → 0 <= j → first_index level + j + 1 <= last_index level →
  slot_rmap_walk_next (iter_at level j) = iter_at level (j + 1).
Proof using Type.
  intros Hl Hj Hn. unfold slot_rmap_walk_next, iter_at. cbn -[Z.pow Z.leb u64 BIT].
  rewrite (proj2 (Z.leb_le _ _) Hn). cbn -[Z.pow Z.leb u64 BIT]. unfold BIT. rewrite Z.shiftl_1_l.
  change (VMRUN_HPAGE_GFN_SHIFT level) with (level_shift level).
  assert (E : u64 (u64 (start_gfn + j * 2 ^ level_shift level) + 2 ^ level_shift level)
              = u64 (start_gfn + (j + 1) * 2 ^ level_shift level))
    by (unfold wrap; rewrite Z.add_mod_idemp_l by lia; f_equal; lia).
  rewrite E. by rewrite <- Z.add_assoc.
Qed.

Lemma next_level (level j : Z) :
  1 <= level → first_index level + j = last_index level → level + 1 <= end_level →
  slot_rmap_walk_next (iter_at level j) = iter_at (level + 1) 0.
Proof using Hr.
  intros Hl Hj He. unfold slot_rmap_walk_next. unfold iter_at at 1. cbn [w_rmap].
  change (w_end_rmap (iter_at level j)).2 with (last_index level).
  rewrite (proj2 (Z.leb_gt _ _)) by lia.
  change (w_level (iter_at level j)) with level. change (w_end_level (iter_at level j)) with end_level.
  replace (level + 1 >? end_level) with false by lia. by apply init_level; try done; lia.
Qed.

Lemma next_done (level j : Z) :
  first_index level + j = last_index level → end_level < level + 1 →
  w_rmap (slot_rmap_walk_next (iter_at level j)) = None.
Proof using Type.
  intros Hj He. unfold slot_rmap_walk_next. unfold iter_at at 1. cbn [w_rmap].
  change (w_end_rmap (iter_at level j)).2 with (last_index level).
  rewrite (proj2 (Z.leb_gt _ _)) by lia.
  change (w_level (iter_at level j)) with level. change (w_end_level (iter_at level j)) with end_level.
  by replace (level + 1 >? end_level) with true by lia.
Qed.

Lemma walk_step (fuel : nat) (level j : Z) (s : S) :
  walk_loop body (Datatypes.S fuel) (iter_at level j) s
  = run_visits [visit_at level j] s ≫= walk_loop body fuel (slot_rmap_walk_next (iter_at level j)).
Proof using Type. cbn. by destruct (body _ _ _ s). Qed.

Lemma walk_level (n fuel : nat) (level j : Z) (s : S) :
  1 <= level → 0 <= j → Z.of_nat n = last_index level - first_index level - j → (n < fuel)%nat →
  walk_loop body fuel (iter_at level j) s
  = run_visits (level_visits level j) s ≫=
    walk_loop body (fuel - Datatypes.S n) (slot_rmap_walk_next (iter_at level (j + Z.of_nat n))).
Proof using Type.
  revert fuel j s. induction n as [|n IH]; intros fuel j s Hl Hj Hn Hf; (destruct fuel as [|fuel]; [lia|]);
    rewrite walk_step.
  - assert (Hv : level_visits level j = [visit_at level j])
      by (unfold level_visits; replace (last_index level - first_index level - j + 1) with 1 by lia; done).
    rewrite Hv, Z.add_0_r. by replace (Datatypes.S fuel - 1)%nat with fuel by lia.
  - assert (Hv : level_visits level j = [visit_at level j] ++ level_visits level (j + 1)).
    { unfold level_visits. rewrite (seqZ_cons j) by lia. rewrite fmap_cons. cbn [app]. do 3 f_equal. lia. }
    rewrite Hv, run_visits_app. destruct (run_visits [_] s) as [s'|]; [|done]. cbn [mbind option_bind].
    rewrite (next_same_level level j) by lia. rewrite (IH fuel (j + 1) s') by lia.
    by replace (j + 1 + Z.of_nat n) with (j + Z.of_nat (Datatypes.S n)) by lia.
Qed.

(** From the first head of a level to the end of the walk. *)
Lemma walk_levels (m fuel : nat) (level : Z) (s : S) :
  1 <= level → Z.of_nat m = end_level - level →
  (Z.of_nat (Datatypes.S m) * (end_gfn - start_gfn + 1) < Z.of_nat fuel) →
  walk_loop body fuel (iter_at level 0) s = run_visits (visits level end_level) s.
Proof using Hr.
  revert fuel level s. induction m as [|m IH]; intros fuel level s Hl Hm Hf;
    pose proof (level_bounds level Hl) as Hb;
    set (n := Z.to_nat (last_index level - first_index level));
    assert (Hn : Z.of_nat n = last_index level - first_index level) by (unfold n; lia);
    rewrite (walk_level n fuel level 0 s) by nia.
  - unfold visits. replace (end_level - level + 1) with 1 by lia. cbn [seqZ]. 
    change (seqZ level 1) with [level]. cbn [mbind list_bind]. rewrite app_nil_r.
    destruct (run_visits _ s) as [s'|]; [|done]. cbn [mbind option_bind].
    assert (E : ∃ fuel', (fuel - Datatypes.S n)%nat = Datatypes.S fuel') by (exists (fuel - n - 2)%nat; nia).
    destruct E as [fuel' ->]. cbn [walk_loop]. by rewrite next_done by lia.
  - unfold visits. rewrite seqZ_cons by lia. cbn [mbind list_bind]. rewrite run_visits_app.
    destruct (run_visits (level_visits level 0) s) as [s'|]; [|done]. cbn [mbind option_bind].
    rewrite next_level by lia. rewrite (IH _ (level + 1) s') by nia. unfold visits.
    do 3 f_equal; lia.
Qed.
End Levels.

(** The walk visits exactly the heads of [visits], level by level. *)
Lemma for_each_range_spec (start_level end_level : Z) (s : S) :
  1 <= start_level <= end_level →
  for_each_slot_rmap_range body slot start_level end_level start_gfn end_gfn s
  = run_visits (visits start_level end_level) s.
Proof using Hr.
  intros Hl. unfold for_each_slot_rmap_range, slot_rmap_walk_init.
  rewrite (init_level start_level end_level start_level) by (done || lia). destruct Hr.
  apply (walk_levels start_level end_level (Z.to_nat (end_level - start_level))); nia.
Qed.
End Visits.

(* ------------------------------------------------------------------ *)
(** ** Which heads a walk visits *)

Lemma run_visits_collect (l seen : list visit) :
  run_visits (λ k gfn level seen, Some (seen ++ [(k, gfn, level)])) l seen = Some (seen ++ l).
Proof.
  revert seen. induction l as [|[[k gfn] level] l IH]; intros seen; cbn; [by rewrite app_nil_r|].
  by rewrite IH, <- (assoc_L (++)).
Qed.

Section Complete.
Context (slot : vmrun_memory_slot) (start_gfn end_gfn : Z) (Hr : range_ok slot start_gfn end_gfn).

(** The frame that makes the walk visit the [j]-th head of a level. *)
Lemma visited_frame (level j : Z) :
  1 <= level → 0 <= j <= last_index slot end_gfn level - first_index slot start_gfn level →
  ∃ gfn, start_gfn <= gfn <= end_gfn ∧
         Z.shiftr gfn (level_shift level) = Z.shiftr start_gfn (level_shift level) + j.
Proof using Hr.
  intros Hl. assert (Hn : 0 <= level_shift level) by (unfold level_shift; lia). destruct Hr as [_ Ho _].
  unfold last_index, first_index. rewrite !Z.shiftr_div_pow2 by done.
  set (m := 2 ^ level_shift level) in *. assert (Hm : 0 < m) by (unfold m; lia). intros Hj.
  pose proof (Z.div_mod start_gfn m ltac:(lia)). pose proof (Z.mod_pos_bound start_gfn m Hm).
  pose proof (Z.div_mod end_gfn m ltac:(lia)). pose proof (Z.mod_pos_bound end_gfn m Hm).
  destruct (decide (j = 0)) as [->|Hj0].
  - exists start_gfn. split; [lia|]. rewrite Z.shiftr_div_pow2 by done. fold m. lia.
  - exists ((start_gfn / m + j) * m). split; [nia|].
    rewrite Z.shiftr_div_pow2 by done. fold m. by rewrite Z.div_mul by lia.
Qed.

Lemma elem_of_visits (start_level end_level : Z) (k : rmap_key) (level : Z) :
  1 <= start_level →
  (∃ gfn, (k, gfn, level) ∈ visits slot start_gfn end_gfn start_level end_level) ↔
  start_level <= level <= end_level ∧
  ∃ gfn, start_gfn <= gfn <= end_gfn ∧ k = __gfn_to_rmap gfn level slot.
Proof using Hr.
  intros Hs. unfold visits, level_visits.
  assert (Hkey : ∀ gfn l, 1 <= l → start_gfn <= gfn <= end_gfn → __gfn_to_rmap gfn l slot
            = (level_array slot l, first_index slot start_gfn l +
               (Z.shiftr gfn (level_shift l) - Z.shiftr start_gfn (level_shift l)))).
  { intros gfn l Hl Hg. unfold __gfn_to_rmap. destruct Hr. rewrite (index_of _ _ _ Hr) by lia.
    unfold level_array, first_index. change PT_PAGE_TABLE_LEVEL with 1. f_equal. lia. }
  split.
  - intros (gfn & (l & Hin & Hl)%list_elem_of_bind). apply list_elem_of_fmap in Hin as (j & [= -> -> ->] & Hj).
    apply elem_of_seqZ in Hl, Hj. split; [lia|].
    destruct (visited_frame l j) as (f & Hf & Hsh); [lia..|]. exists f. split; [done|].
    rewrite Hkey by lia. f_equal. lia.
  - intros (Hl & f & Hf & ->). assert (1 <= level) by lia.
    assert (0 <= level_shift level) by (unfold level_shift; lia).
    pose proof (shiftr_mono start_gfn f (level_shift level) ltac:(done) (proj1 Hf)).
    pose proof (shiftr_mono f end_gfn (level_shift level) ltac:(done) (proj2 Hf)).
    eexists. apply list_elem_of_bind. exists level. split; [|apply elem_of_seqZ; lia].
    apply list_elem_of_fmap.
    exists (Z.shiftr f (level_shift level) - Z.shiftr start_gfn (level_shift level)). split.
    + unfold visit_at. by rewrite Hkey.
    + apply elem_of_seqZ. unfold last_index, first_index. lia.
Qed.
End Complete.

(** A walk over a range of guest frames covers it.  For frames inside
    the slot, [for_each_slot_rmap_range] ends, and at each of the requested
    levels it has visited the reverse map of a frame exactly when the frame is
    in the range, or shares its large page with one that is. *)
Theorem slot_rmap_walk_complete (slot : vmrun_memory_slot) (start_level end_level start_gfn end_gfn : Z) :
  range_ok slot start_gfn end_gfn → 1 <= start_level <= end_level →
  ∃ seen, for_each_slot_rmap_range (λ k gfn level seen, Some (seen ++ [(k, gfn, level)]))
            slot start_level end_level start_gfn end_gfn [] = Some seen ∧
    ∀ k level, (∃ gfn, (k, gfn, level) ∈ seen) ↔
      start_level <= level <= end_level ∧
      ∃ gfn, start_gfn <= gfn <= end_gfn ∧ k = __gfn_to_rmap gfn level slot.
Proof.
  intros Hr Hl. rewrite (for_each_range_spec _ _ _ Hr) by done. rewrite run_visits_collect.
  eexists. split; [done|]. intros k level. apply elem_of_visits; [done|lia].
Qed.

Lemma slot_rmap_walk_complete_witness :
  let slot := example_memslot <| base_gfn := 0x1f0 |> <| npages := 0x40 |> in
  ∃ seen, for_each_slot_rmap_range (λ k gfn level seen, Some (seen ++ [(k, gfn, level)]))
            slot 1 3 0x1fe 0x201 [] = Some seen ∧
    (∃ gfn, ((2, 1), gfn, 2) ∈ seen) ∧ length seen = 7%nat.
Proof.
  intros slot. destruct (slot_rmap_walk_complete slot 1 3 0x1fe 0x201) as (seen & E & H).
  - split; cbn; lia.
  - lia.
  - exists seen. split; [exact E|]. split.
    + apply H. split; [lia|]. exists 0x200. split; [lia|reflexivity].
    + vm_compute in E. injection E as <-. reflexivity.
Defined.

(* ------------------------------------------------------------------ *)
(** ** Host address ranges *)

(** What [hva_to_gfn_memslot] is documented to return. *)
Definition hva_to_gfn_spec (hva_to_gfn : Z → vmrun_memory_slot → Z) : Prop :=
  ∀ hva s, s.(userspace_addr) <= hva →
           hva_to_gfn hva s = s.(base_gfn) + Z.shiftr (hva - s.(userspace_addr)) PAGE_SHIFT.

(** A slot backed by a page-aligned range of host addresses. *)
Record slot_hva_ok (s : vmrun_memory_slot) : Prop := {
  sh_base : 0 <= s.(base_gfn) ∧ s.(base_gfn) + s.(npages) <= 2 ^ 52;
  sh_npages : 0 <= s.(npages) < 2 ^ 52;
  sh_addr : 0 <= s.(userspace_addr) ∧ s.(userspace_addr) + s.(npages) * 4096 < 2 ^ 64 - 4096
}.

Definition page_hva (s : vmrun_memory_slot) (gfn : Z) : Z := s.(userspace_addr) + (gfn - s.(base_gfn)) * 4096.

Lemma hva_slot_range_spec (hva_to_gfn : Z → vmrun_memory_slot → Z) (s : vmrun_memory_slot)
    (start end_ gfn : Z) :
  hva_to_gfn_spec hva_to_gfn → slot_hva_ok s → 0 <= start → end_ < 2 ^ 64 →
  s.(base_gfn) <= gfn < s.(base_gfn) + s.(npages) →
  (∃ a b, hva_slot_range hva_to_gfn start end_ s = Some (a, b) ∧ a <= gfn <= b) ↔
  ∃ hva, start <= hva < end_ ∧ page_hva s gfn <= hva < page_hva s gfn + 4096.
Proof.
  intros Hspec [[Hb1 Hb2] Hn [Hu1 Hu2]] Hs He Hg. unfold hva_slot_range, page_hva.
  assert (Hsz : u64 (Z.shiftl (npages s) PAGE_SHIFT) = npages s * 4096).
  { rewrite Z.shiftl_mul_pow2 by done. change (2 ^ PAGE_SHIFT) with 4096. apply wrap_id. unfold is_u. lia. }
  rewrite Hsz, (wrap_id 64 (userspace_addr s + _)) by (unfold is_u; lia). cbv zeta.
  set (ua := userspace_addr s) in *. set (hs := Z.max start ua). set (he := Z.min end_ (ua + npages s * 4096)).
  change PAGE_SIZE with 4096. destruct (Z.geb_spec hs he) as [Hge|Hlt].
  - split; [by intros (a & b & ? & _)|]. intros (hva & H1 & H2). lia.
  - rewrite (wrap_id 64 (he + 4096 - 1)) by (unfold is_u; lia). rewrite !Hspec by (fold ua; lia). fold ua.
    rewrite !Z.shiftr_div_pow2 by done. change (2 ^ PAGE_SHIFT) with 4096.
    pose proof (Z.div_mod (hs - ua) 4096 ltac:(lia)). pose proof (Z.mod_pos_bound (hs - ua) 4096 ltac:(lia)).
    pose proof (Z.div_mod (he + 4096 - 1 - ua) 4096 ltac:(lia)).
    pose proof (Z.mod_pos_bound (he + 4096 - 1 - ua) 4096 ltac:(lia)).
    rewrite wrap_id by (unfold is_u; lia). split.
    + intros (a & b & [= <- <-] & Hab). exists (Z.max hs (ua + (gfn - base_gfn s) * 4096)). lia.
    + intros (hva & H5 & H6). eexists _, _. split; [done|]. lia.
Qed.

(** The range of frames is inside the slot. *)
Lemma hva_slot_range_inside (hva_to_gfn : Z → vmrun_memory_slot → Z) (s : vmrun_memory_slot) (start end_ a b : Z) :
  hva_to_gfn_spec hva_to_gfn → slot_hva_ok s → 0 <= start → end_ < 2 ^ 64 →
  hva_slot_range hva_to_gfn start end_ s = Some (a, b) → range_ok s a b ∧ b < s.(base_gfn) + s.(npages).
Proof.
  intros Hspec [[Hb1 Hb2] Hn [Hu1 Hu2]] Hs He. unfold hva_slot_range.
  assert (Hsz : u64 (Z.shiftl (npages s) PAGE_SHIFT) = npages s * 4096).
  { rewrite Z.shiftl_mul_pow2 by done. change (2 ^ PAGE_SHIFT) with 4096. apply wrap_id. unfold is_u. lia. }
  rewrite Hsz, (wrap_id 64 (userspace_addr s + _)) by (unfold is_u; lia). cbv zeta.
  set (ua := userspace_addr s) in *. set (hs := Z.max start ua). set (he := Z.min end_ (ua + npages s * 4096)).
  change PAGE_SIZE with 4096. destruct (Z.geb_spec hs he) as [Hge|Hlt]; [done|].
  rewrite (wrap_id 64 (he + 4096 - 1)) by (unfold is_u; lia). rewrite !Hspec by (fold ua; lia). fold ua.
  rewrite !Z.shiftr_div_pow2 by done. change (2 ^ PAGE_SHIFT) with 4096.
  pose proof (Z.div_mod (hs - ua) 4096 ltac:(lia)). pose proof (Z.mod_pos_bound (hs - ua) 4096 ltac:(lia)).
  pose proof (Z.div_mod (he + 4096 - 1 - ua) 4096 ltac:(lia)).
  pose proof (Z.mod_pos_bound (he + 4096 - 1 - ua) 4096 ltac:(lia)).
  rewrite wrap_id by (unfold is_u; lia). intros [= <- <-]. split; [split|]; lia.
Qed.

(** The frames behind a range of host addresses.  For a range of user
    addresses and a frame of the slot, [vmrun_handle_hva_range] handles the
    frame exactly when its host page intersects the range; so an unmap by the
    MMU notifier leaves no stale mapping and touches no other page. *)
Theorem hva_slot_range_exact (hva_to_gfn : Z → vmrun_memory_slot → Z) (s : vmrun_memory_slot)
    (start end_ gfn : Z) :
  hva_to_gfn_spec hva_to_gfn → slot_hva_ok s → 0 <= start → end_ < 2 ^ 64 →
  s.(base_gfn) <= gfn < s.(base_gfn) + s.(npages) →
  (∃ a b, hva_slot_range hva_to_gfn start end_ s = Some (a, b) ∧ a <= gfn <= b) ↔
  ∃ hva, start <= hva < end_ ∧ page_hva s gfn <= hva < page_hva s gfn + 4096.
Proof. exact (hva_slot_range_spec hva_to_gfn s start end_ gfn). Qed.

Lemma hva_slot_range_exact_witness :
  ∃ a b, hva_slot_range (λ hva s, s.(base_gfn) + Z.shiftr (hva - s.(userspace_addr)) PAGE_SHIFT)
           0x7001fff 0x7002001 (example_memslot <| userspace_addr := 0x7000000 |>) = Some (a, b) ∧ a <= 1 <= b.
Proof.
  apply (hva_slot_range_exact (λ hva s, s.(base_gfn) + Z.shiftr (hva - s.(userspace_addr)) PAGE_SHIFT)
           (example_memslot <| userspace_addr := 0x7000000 |>) 0x7001fff 0x7002001 1).
  - intros hva s _. reflexivity.
  - split; cbn; lia.
  - lia.
  - lia.
  - cbn. lia.
  - exists 0x7001fff. unfold page_hva. cbn. lia.
Defined.

(* ------------------------------------------------------------------ *)
(** ** Write-protecting a whole slot *)

Section Protect.
Context `{K : KvmPte} (g : shadow_masks) (pt : bool) (st : mmu_state).
(** The entries of every reverse map visited, and their descriptors. *)
Context (keys : list rmap_key) (L P : rmap_key → list Z).

Definition protected (v : Z) : Z := (spte_write_protect g pt v).1.1.

(** An entry that loses a permission. *)
Definition loses (v : Z) : bool := is_writable_pte v || (pt && spte_can_locklessly_be_made_writable v).

Record protectable (v : Z) : Prop := {
  pb_present : is_shadow_present_pte g v = true;
  pb_stays : is_shadow_present_pte g (protected v) = true;
  pb_tracked : is_writable_pte v = true → spte_can_locklessly_be_made_writable v = true
}.

Context (Hholds : ∀ k, k ∈ keys → rmap_holds st k (P k) (L k)).
Context (Hentries : ∀ k x, k ∈ keys → x ∈ L k → protectable (st.(ptes) x)).

(** After the maps [done] have been handled. *)
Record progress (done : list rmap_key) (st1 : mmu_state) (flush : bool) : Prop := {
  pg_done : ∀ k x, k ∈ done → x ∈ L k → st1.(ptes) x = protected (st.(ptes) x);
  pg_entry : ∀ x, st1.(ptes) x = st.(ptes) x ∨
    st1.(ptes) x = protected (st.(ptes) x) ∧ (loses (st.(ptes) x) = true → flush = true);
  pg_out : ∀ x, (∀ k, k ∈ done → x ∉ L k) → st1.(ptes) x = st.(ptes) x;
  pg_flush : flush = true → ∃ k x, k ∈ done ∧ x ∈ L k ∧ loses (st.(ptes) x) = true;
  pg_frame : st1.(heads) = st.(heads) ∧ st1.(dmem) = st.(dmem) ∧ st1.(remote_flushes) = st.(remote_flushes)
}.

Lemma protected_idem (v : Z) : spte_write_protect g pt (protected v) = (protected v, false, []).
Proof using Type.
  destruct (write_protect_value g pt v) as (Hw & Hl & _). fold (protected v) in Hw, Hl.
  unfold spte_write_protect. rewrite Hw. destruct pt; [by rewrite Hl|done].
Qed.

Lemma protected_flush (v : Z) : protectable v → (spte_write_protect g pt v).1.2 = loses v.
Proof using Type. intros [Hp _ Ht]. by rewrite write_protect_flush by done. Qed.

Lemma progress_step (done : list rmap_key) (k : rmap_key) (st1 : mmu_state) (flush : bool) :
  k ∈ keys → progress done st1 flush →
  ∃ st2 b, __rmap_write_protect g pt k st1 = Some (st2, b) ∧ progress (done ++ [k]) st2 (flush || b).
Proof using Hholds Hentries.
  intros Hk [Hdone Hent Hout Hfl (Hh & Hd & Hrf)]. destruct (Hholds k Hk) as [Hrep Hnd].
  destruct (rmap_each_spec g (spte_write_protect g pt) k st1 (P k) (L k)) as (st2 & b & E & [U1 U2 U3 _ U5]).
  { split; [|done]. unfold head_of. by rewrite Hd, Hh. }
  { intros x Hx. destruct (Hentries k x Hk Hx) as [Hp Hs _]. by destruct (Hent x) as [->|[-> _]]. }
  assert (Hval : ∀ x, x ∈ L k → st2.(ptes) x = protected (st.(ptes) x)).
  { intros x Hx. rewrite (U1 x Hx). destruct (Hent x) as [->|[-> _]]; [done|]. by rewrite protected_idem. }
  assert (Hb : ∀ x, x ∈ L k → loses (st.(ptes) x) = true → flush || b = true).
  { intros x Hx Hw. destruct (Hent x) as [Hx1|[_ Hf]]; [|by rewrite (Hf Hw)].
    apply orb_true_iff. right. rewrite U3. apply existsb_exists. exists x. split; [by apply list_elem_of_In|].
    rewrite Hx1, protected_flush by (by eapply Hentries). done. }
  exists st2, b. split; [exact E|]. split.
  - intros k' x Hk' Hx. apply elem_of_app in Hk' as [Hk'|Hk'%list_elem_of_singleton].
    + destruct (decide (x ∈ L k)) as [|Hxk]; [by apply Hval|]. rewrite (U2 x Hxk). by eapply Hdone.
    + subst k'. by apply Hval.
  - intros x. destruct (decide (x ∈ L k)) as [Hxk|Hxk].
    + right. split; [by apply Hval|by apply Hb].
    + rewrite (U2 x Hxk). destruct (Hent x) as [|[? Hf]]; [by left|right]. split; [done|]. intros Hw. by rewrite Hf.
  - intros x Hx. rewrite U2 by (apply Hx; set_solver). apply Hout. intros k' Hk'. apply Hx. set_solver.
  - intros [Hf|Hf]%orb_true_iff.
    + destruct (Hfl Hf) as (k' & x & ? & ? & ?). exists k', x. set_solver.
    + rewrite U3 in Hf. apply existsb_exists in Hf as (x & Hx%list_elem_of_In & Hf). exists k, x.
      destruct (Hent x) as [Hx1|[Hx1 _]]; rewrite Hx1 in Hf.
      * rewrite protected_flush in Hf by (by eapply Hentries). set_solver.
      * by rewrite protected_idem in Hf.
  - destruct U5 as (-> & -> & _ & ->). done.
Qed.

End Protect.

Section ProtectVisits.
Context `{K : KvmPte} (g : shadow_masks) (st : mmu_state) (keys : list rmap_key) (L P : rmap_key → list Z).
Context (Hholds : ∀ k, k ∈ keys → rmap_holds st k (P k) (L k)).
Context (Hentries : ∀ k x, k ∈ keys → x ∈ L k → protectable g false (st.(ptes) x)).

Lemma progress_visits (l : list visit) (done : list rmap_key) (ws : walk_state) :
  (∀ v, v ∈ l → v.1.1 ∈ keys) → progress g false st L done ws.(ws_mmu) ws.(ws_flush) →
  ∃ ws', run_visits (handle_body (slot_rmap_write_protect g) false) l ws = Some ws' ∧
         progress g false st L (done ++ l.*1.*1) ws'.(ws_mmu) ws'.(ws_flush).
Proof using Hholds Hentries.
  revert done ws. induction l as [|[[k gfn] level] l IH]; intros done ws Hl Hp.
  - exists ws. split; [done|]. cbn. by rewrite app_nil_r.
  - destruct (progress_step g false st keys L P Hholds Hentries done k ws.(ws_mmu) ws.(ws_flush)) as (st2 & b & E & Hp2);
      [exact (Hl (k, gfn, level) ltac:(by left))|done|].
    set (ws1 := {| ws_mmu := st2; ws_flush := ws.(ws_flush) || b; ws_resched := tail ws.(ws_resched) |}).
    assert (Hb : handle_body (slot_rmap_write_protect g) false k gfn level ws = Some ws1).
    { unfold handle_body, slot_rmap_write_protect. rewrite E. cbn [mbind option_bind]. unfold flush_if.
      rewrite andb_false_r. by destruct (default false _). }
    cbn [run_visits]. rewrite Hb. cbn [mbind option_bind]. destruct (IH (done ++ [k]) ws1) as (ws' & E' & Hp').
    + intros v Hv. apply Hl. by right.
    + exact Hp2.
    + exists ws'. split; [exact E'|]. cbn. by rewrite <- (assoc_L (++)) in Hp'.
Qed.
End ProtectVisits.

(** Write-protecting a slot, as dirty logging needs it.  With the
    reverse maps of the slot in order and the entries present,
    [vmrun_mmu_slot_remove_write_access] ends with no entry of any frame of the
    slot writable, at any level; entries of other slots are untouched; and the
    TLBs are flushed, once, exactly when there was a writable entry. *)
Theorem slot_remove_write_access_correct `{K : KvmPte} (g : shadow_masks) (slot : vmrun_memory_slot)
    (resched : list bool) (st : mmu_state) (L P : rmap_key → list Z) :
  let last_gfn := slot.(base_gfn) + slot.(npages) - 1 in
  let mapped x := ∃ gfn level, slot.(base_gfn) <= gfn <= last_gfn ∧ 1 <= level <= 3 ∧
                               x ∈ L (__gfn_to_rmap gfn level slot) in
  0 <= slot.(base_gfn) → 0 < slot.(npages) → last_gfn < 2 ^ 52 →
  (∀ gfn level, slot.(base_gfn) <= gfn <= last_gfn → 1 <= level <= 3 →
     let k := __gfn_to_rmap gfn level slot in rmap_holds st k (P k) (L k)) →
  (∀ x, mapped x → protectable g false (st.(ptes) x)) →
  ∃ st', vmrun_mmu_slot_remove_write_access g slot resched st = Some st' ∧
    (∀ x, mapped x → is_writable_pte (st'.(ptes) x) = false) ∧
    (∀ x, ¬ mapped x → st'.(ptes) x = st.(ptes) x) ∧
    (st'.(remote_flushes) = st.(remote_flushes) + 1 ↔
       ∃ x, mapped x ∧ is_writable_pte (st.(ptes) x) = true).
Proof.
  intros last_gfn mapped Hb Hn Hlast Hholds Hent.
  assert (Hr : range_ok slot (base_gfn slot) last_gfn) by (split; unfold last_gfn in *; lia).
  set (vs := visits slot (base_gfn slot) last_gfn 1 3).
  assert (Hkeys : ∀ k, k ∈ vs.*1.*1 ↔ ∃ gfn level, slot.(base_gfn) <= gfn <= last_gfn ∧ 1 <= level <= 3 ∧
                                              k = __gfn_to_rmap gfn level slot).
  { intros k. pose proof (λ level, elem_of_visits slot _ _ Hr 1 3 k level ltac:(lia)) as He. fold vs in He.
    rewrite list_elem_of_fmap. setoid_rewrite list_elem_of_fmap. split.
    - intros (v1 & Hk & ([[k1 gfn] level] & -> & Hv)). cbn in Hk. subst k1.
      destruct (proj1 (He level)) as (? & f & ? & ?); eauto.
    - intros (f & level & Hf & Hl & ->). destruct (proj2 (He level)) as (gfn & Hv); [eauto|].
      exists (__gfn_to_rmap f level slot, gfn). split; [done|]. exists (__gfn_to_rmap f level slot, gfn, level). done. }
  destruct (progress_visits g st vs.*1.*1 L P) with (l := vs) (done := @nil rmap_key)
    (ws := {| ws_mmu := st; ws_flush := false; ws_resched := resched |}) as (ws' & E & Hp).
  - intros k (gfn & level & ? & ? & ->)%Hkeys. by apply Hholds.
  - intros k x (gfn & level & ? & ? & ->)%Hkeys Hx. apply Hent. by exists gfn, level.
  - intros v Hv. apply list_elem_of_fmap. exists v.1. split; [done|]. apply list_elem_of_fmap. by exists v.
  - split; try done; [intros k x Hk; by apply elem_of_nil in Hk|by left].
  - unfold vmrun_mmu_slot_remove_write_access, slot_handle_all_level, slot_handle_level, slot_handle_level_range.
    rewrite wrap_id by (unfold is_u; unfold last_gfn in *; lia). fold last_gfn.
    change PT_PAGE_TABLE_LEVEL with 1. change PT_MAX_HUGEPAGE_LEVEL with 3.
    rewrite (for_each_range_spec _ _ _ Hr) by lia. fold vs. rewrite E. cbn [mbind option_bind].
    unfold flush_if. rewrite andb_false_r. unfold flush_after. cbn [mbind option_bind].
    cbn [app] in Hp. destruct Hp as [P1 P2 P3 P4 (_ & _ & P6)].
    set (st1 := ws_mmu ws') in *. set (flush := ws_flush ws') in *.
    assert (Hst : ∀ b : bool, ptes (if b then flush_remote_tlbs st1 else st1) = ptes st1) by by intros [].
    assert (Hval : ∀ x, mapped x → st1.(ptes) x = protected g false (st.(ptes) x)).
    { intros x (gfn & level & Hg & Hl & Hx). eapply P1; [|exact Hx]. apply Hkeys. by exists gfn, level. }
    eexists. split; [done|]. rewrite Hst. split_and!.
    + intros x Hx. rewrite (Hval x Hx). apply write_protect_value.
    + intros x Hx. apply P3. intros k (gfn & level & Hg & Hl & ->)%Hkeys Hxk. apply Hx. by exists gfn, level.
    + destruct flush eqn:Ef.
      * split; [|intros _; cbn; lia]. intros _. destruct (P4 eq_refl) as (k & x & Hk & Hx & Hw).
        unfold loses in Hw. rewrite orb_false_r in Hw.
        apply Hkeys in Hk as (gfn & level & Hg & Hl & ->). exists x. split; [|done]. by exists gfn, level.
      * split; [cbn; lia|]. intros (x & Hx & Hw). exfalso. pose proof (Hval x Hx) as Hv.
        destruct (P2 x) as [Hsame|[_ Hf]]; [|unfold loses in Hf; rewrite Hw in Hf; by specialize (Hf eq_refl)].
        rewrite Hsame in Hv. destruct (write_protect_value g false (ptes st x)) as [Hnw _].
        change (spte_write_protect g false (ptes st x)).1.1 with (protected g false (ptes st x)) in Hnw.
        rewrite <- Hv in Hnw. congruence.
Qed.

(** One page, mapped twice at the lowest level. *)
Lemma slot_remove_write_access_correct_witness :
  let slot := example_memslot <| npages := 1 |> in
  ∃ st', vmrun_mmu_slot_remove_write_access (K := kvm_pte_x86) x86_masks slot [] example_state = Some st' ∧
         is_writable_pte (st'.(ptes) 0x108) = false.
Proof.
  intros slot.
  set (L := λ k : rmap_key, if decide (k = example_key) then [0x100; 0x108] else []).
  set (P := λ k : rmap_key, if decide (k = example_key) then [0x10] else []).
  destruct (slot_remove_write_access_correct (K := kvm_pte_x86) x86_masks slot [] example_state L P)
    as (st' & E & H & _).
  - cbn. lia.
  - cbn. lia.
  - cbn. lia.
  - intros gfn level Hg Hl k. assert (gfn = 0) as -> by (cbn in Hg; lia). unfold L, P. case_decide as Hk.
    + rewrite Hk. exact example_holds.
    + split; [|constructor]. unfold head_of. cbn [heads example_state]. rewrite lookup_singleton_ne by done.
      apply rep_none.
  - intros x _. split; [reflexivity|reflexivity|intros _; reflexivity].
  - exists st'. split; [exact E|]. apply H. exists 0, 1.
    split; [cbn; lia|]. split; [lia|]. unfold L. rewrite decide_True by reflexivity. right. left.
Defined.
