(* ===== verification/GuestPaging.v ===== *)
(** * Checks on guest page tables

    kernel/mmu.c and kernel/mmu.h: the tables a vcpu's paging mode is compiled
    into (permission faults, protection keys, reserved bits, last levels), how
    a mode change fills them, and the checks that read them.

    The control bits of the x86 are the kernel's; [is_pse], [is_long_mode] and
    the like, the guest's CPUID and the physical address width are not in the
    repository and are parameters. *)

From S2P Require Import Prelude.
From S2P Require Import Spte.
From S2P Require Import Vcpu.
From S2P Require Import Vmcb.

Definition PFERR_PRESENT_BIT : Z := 0.
Definition PFERR_WRITE_BIT : Z := 1.
Definition PFERR_USER_BIT : Z := 2.
Definition PFERR_RSVD_BIT : Z := 3.
Definition PFERR_FETCH_BIT : Z := 4.
Definition PFERR_PRESENT_MASK : Z := BIT PFERR_PRESENT_BIT.
Definition PFERR_WRITE_MASK : Z := BIT PFERR_WRITE_BIT.
Definition PFERR_USER_MASK : Z := BIT PFERR_USER_BIT.
Definition PFERR_RSVD_MASK : Z := BIT PFERR_RSVD_BIT.
Definition PFERR_FETCH_MASK : Z := BIT PFERR_FETCH_BIT.

(** Control bits of the kernel's headers. *)
Class X86Paging := {
  X86_CR4_SMEP : Z; X86_CR4_SMAP : Z; X86_CR4_PKE : Z; EFER_NX : Z;
  X86_EFLAGS_AC_BIT : Z; X86_EFLAGS_AC : Z
}.

Class X86PagingOk (P : X86Paging) : Prop := {
  paging_cr4 : X86_CR4_SMEP = BIT 20 ∧ X86_CR4_SMAP = BIT 21 ∧ X86_CR4_PKE = BIT 22;
  paging_nx : EFER_NX = BIT 11;
  paging_ac : X86_EFLAGS_AC_BIT = 18 ∧ X86_EFLAGS_AC = BIT 18
}.

(** [struct rsvd_bits_validate]: the masks by bit 7 and level. *)
Record rsvd_bits_validate := {
  rsvd_mask0 : list Z;     (* rsvd_bits_mask[0], by level - 1 *)
  rsvd_mask1 : list Z;     (* rsvd_bits_mask[1] *)
  bad_mt_xwr : Z
}.
#[export] Instance eta_rsvd_bits_validate : Eta rsvd_bits_validate := λ r,
  {| rsvd_mask0 := r.(rsvd_mask0); rsvd_mask1 := r.(rsvd_mask1); bad_mt_xwr := r.(bad_mt_xwr) |}.

(** The bits of [base_role]. *)
Record base_role := {
  br_nxe : bool; br_cr4_pae : bool; br_cr0_wp : bool; br_smep_andnot_wp : bool; br_smap_andnot_wp : bool;
  br_smm : bool; br_ad_disabled : bool
}.
#[export] Instance eta_base_role : Eta base_role := λ r,
  {| br_nxe := r.(br_nxe); br_cr4_pae := r.(br_cr4_pae); br_cr0_wp := r.(br_cr0_wp);
     br_smep_andnot_wp := r.(br_smep_andnot_wp); br_smap_andnot_wp := r.(br_smap_andnot_wp);
     br_smm := r.(br_smm); br_ad_disabled := r.(br_ad_disabled) |}.

(** [base_role.word = 0] *)
Definition no_role : base_role :=
  {| br_nxe := false; br_cr4_pae := false; br_cr0_wp := false; br_smep_andnot_wp := false;
     br_smap_andnot_wp := false; br_smm := false; br_ad_disabled := false |}.

(** What the function pointers of [struct vmrun_mmu] are set to, by the prefix
    of the functions' names. *)
Inductive mmu_fns := nonpaging_fns | tdp_fns | paging64_fns | paging32_fns | ept_fns.
Inductive cr3_fn := set_cr3_fn | set_tdp_cr3_fn.

Record mmu_ops := {
  op_page_fault : option mmu_fns;
  op_gva_to_gpa : option mmu_fns;
  op_nested : bool;                (* gva_to_gpa is the function ..._nested *)
  op_sync_page : option mmu_fns;
  op_invlpg : option mmu_fns;
  op_update_pte : option mmu_fns;
  op_set_cr3 : option cr3_fn;
  op_guest : bool                  (* get_cr3, get_pdptr and inject_page_fault are set *)
}.
#[export] Instance eta_mmu_ops : Eta mmu_ops := λ r,
  {| op_page_fault := r.(op_page_fault); op_gva_to_gpa := r.(op_gva_to_gpa); op_nested := r.(op_nested);
     op_sync_page := r.(op_sync_page); op_invlpg := r.(op_invlpg); op_update_pte := r.(op_update_pte);
     op_set_cr3 := r.(op_set_cr3); op_guest := r.(op_guest) |}.

(** NULL pointers, as [kmem_cache_zalloc] leaves them. *)
Definition no_ops : mmu_ops :=
  {| op_page_fault := None; op_gva_to_gpa := None; op_nested := false; op_sync_page := None; op_invlpg := None;
     op_update_pte := None; op_set_cr3 := None; op_guest := false |}.

(** The five functions of one format. *)
Definition format_ops (f : mmu_fns) (o : mmu_ops) : mmu_ops :=
  o <| op_page_fault := Some f |> <| op_gva_to_gpa := Some f |> <| op_nested := false |>
    <| op_sync_page := Some f |> <| op_invlpg := Some f |> <| op_update_pte := Some f |>.

(** [struct vmrun_mmu] *)
Record mmu_context := {
  ctx_nx : bool;
  ctx_root_level : Z;
  ctx_shadow_root_level : Z;
  ctx_root_hpa : Z;
  ctx_direct_map : bool;
  ctx_permissions : list Z;
  ctx_pkru_mask : Z;
  ctx_last_nonleaf_level : Z;
  ctx_guest_rsvd : rsvd_bits_validate;
  ctx_shadow_zero : rsvd_bits_validate;
  ctx_base_role : base_role;
  ctx_ept_ad : bool;
  ctx_ops : mmu_ops
}.
#[export] Instance eta_mmu_context : Eta mmu_context := λ r,
  {| ctx_nx := r.(ctx_nx); ctx_root_level := r.(ctx_root_level);
     ctx_shadow_root_level := r.(ctx_shadow_root_level); ctx_root_hpa := r.(ctx_root_hpa);
     ctx_direct_map := r.(ctx_direct_map); ctx_permissions := r.(ctx_permissions);
     ctx_pkru_mask := r.(ctx_pkru_mask); ctx_last_nonleaf_level := r.(ctx_last_nonleaf_level);
     ctx_guest_rsvd := r.(ctx_guest_rsvd); ctx_shadow_zero := r.(ctx_shadow_zero);
     ctx_base_role := r.(ctx_base_role); ctx_ept_ad := r.(ctx_ept_ad); ctx_ops := r.(ctx_ops) |}.

(** ** Reserved bits *)

Definition rsvd_bits (s e : Z) : Z :=
  if e <? s then 0 else u64 (Z.shiftl (u64 (BIT (e - s + 1) - 1)) s).

Definition set0 (level : nat) (v : Z) (c : rsvd_bits_validate) : rsvd_bits_validate :=
  c <| rsvd_mask0 ::= <[level := v]> |>.
Definition set1 (level : nat) (v : Z) (c : rsvd_bits_validate) : rsvd_bits_validate :=
  c <| rsvd_mask1 ::= <[level := v]> |>.

Definition is_cpuid_PSE36 : bool := true.

Section Rsvd.
Context (maxphyaddr : Z) (nx gbpages pse amd : bool).

Definition exb_bit_rsvd : Z := if negb nx then rsvd_bits 63 63 else 0.
Definition gbpages_bit_rsvd : Z := if negb gbpages then rsvd_bits 7 7 else 0.
Definition nonleaf_bit8_rsvd : Z := if amd then rsvd_bits 8 8 else 0.

Definition rsvd_2level (c : rsvd_bits_validate) : rsvd_bits_validate :=
  let c := set0 1 0 c in
  let c := set0 0 0 c in
  let c := set1 0 (c.(rsvd_mask0) !!! 0%nat) c in
  if negb pse then set1 1 0 c
  else if is_cpuid_PSE36 then set1 1 (rsvd_bits 17 21) c
  else set1 1 (rsvd_bits 13 21) c.

Definition rsvd_pae (c : rsvd_bits_validate) : rsvd_bits_validate :=
  let c := set0 2 (Z.lor (Z.lor (rsvd_bits maxphyaddr 63) (rsvd_bits 5 8)) (rsvd_bits 1 2)) c in
  let c := set0 1 (Z.lor exb_bit_rsvd (rsvd_bits maxphyaddr 62)) c in
  let c := set0 0 (Z.lor exb_bit_rsvd (rsvd_bits maxphyaddr 62)) c in
  let c := set1 1 (Z.lor (Z.lor exb_bit_rsvd (rsvd_bits maxphyaddr 62)) (rsvd_bits 13 20)) c in
  set1 0 (c.(rsvd_mask0) !!! 0%nat) c.

Definition rsvd_5level (c : rsvd_bits_validate) : rsvd_bits_validate :=
  let c := set0 4 (Z.lor (Z.lor (Z.lor exb_bit_rsvd nonleaf_bit8_rsvd) (rsvd_bits 7 7))
                         (rsvd_bits maxphyaddr 51)) c in
  set1 4 (c.(rsvd_mask0) !!! 4%nat) c.

Definition rsvd_4level (c : rsvd_bits_validate) : rsvd_bits_validate :=
  let c := set0 3 (Z.lor (Z.lor (Z.lor exb_bit_rsvd nonleaf_bit8_rsvd) (rsvd_bits 7 7))
                         (rsvd_bits maxphyaddr 51)) c in
  let c := set0 2 (Z.lor (Z.lor (Z.lor exb_bit_rsvd nonleaf_bit8_rsvd) gbpages_bit_rsvd)
                         (rsvd_bits maxphyaddr 51)) c in
  let c := set0 1 (Z.lor exb_bit_rsvd (rsvd_bits maxphyaddr 51)) c in
  let c := set0 0 (Z.lor exb_bit_rsvd (rsvd_bits maxphyaddr 51)) c in
  let c := set1 3 (c.(rsvd_mask0) !!! 3%nat) c in
  let c := set1 2 (Z.lor (Z.lor (Z.lor exb_bit_rsvd gbpages_bit_rsvd) (rsvd_bits maxphyaddr 51))
                         (rsvd_bits 13 29)) c in
  let c := set1 1 (Z.lor (Z.lor exb_bit_rsvd (rsvd_bits maxphyaddr 51)) (rsvd_bits 13 20)) c in
  set1 0 (c.(rsvd_mask0) !!! 0%nat) c.

(** The [switch]: case PT64_ROOT_5LEVEL falls through. *)
Definition __reset_rsvds_bits_mask (level : Z) (c : rsvd_bits_validate) : rsvd_bits_validate :=
  let c := c <| bad_mt_xwr := 0 |> in
  if level =? PT32_ROOT_LEVEL then rsvd_2level c
  else if level =? PT32E_ROOT_LEVEL then rsvd_pae c
  else if level =? PT64_ROOT_5LEVEL then rsvd_4level (rsvd_5level c)
  else if level =? PT64_ROOT_4LEVEL then rsvd_4level c
  else c.
End Rsvd.

(** [REPEAT_BYTE(x)] *)
Definition REPEAT_BYTE (x : Z) : Z := u64 (Z.ones 64 / 255 * x).

Definition __reset_rsvds_bits_mask_ept (maxphyaddr : Z) (execonly : bool) (c : rsvd_bits_validate)
    : rsvd_bits_validate :=
  let top := rsvd_bits maxphyaddr 51 in
  let c := set0 4 (Z.lor top (rsvd_bits 3 7)) c in
  let c := set0 3 (Z.lor top (rsvd_bits 3 7)) c in
  let c := set0 2 (Z.lor top (rsvd_bits 3 6)) c in
  let c := set0 1 (Z.lor top (rsvd_bits 3 6)) c in
  let c := set0 0 top c in
  let c := set1 4 (c.(rsvd_mask0) !!! 4%nat) c in
  let c := set1 3 (c.(rsvd_mask0) !!! 3%nat) c in
  let c := set1 2 (Z.lor top (rsvd_bits 12 29)) c in
  let c := set1 1 (Z.lor top (rsvd_bits 12 20)) c in
  let c := set1 0 (c.(rsvd_mask0) !!! 0%nat) c in
  let bad := Z.shiftl 0xFF (2 * 8) in
  let bad := Z.lor bad (Z.shiftl 0xFF (3 * 8)) in
  let bad := Z.lor bad (Z.shiftl 0xFF (7 * 8)) in
  let bad := Z.lor bad (REPEAT_BYTE (BIT 2)) in
  let bad := Z.lor bad (REPEAT_BYTE (BIT 6)) in
  let bad := if negb execonly then Z.lor bad (REPEAT_BYTE (BIT 4)) else bad in
  c <| bad_mt_xwr := bad |>.

Definition __is_rsvd_bits_set (c : rsvd_bits_validate) (pte level : Z) : bool :=
  let bit7 := Z.land (Z.shiftr pte 7) 1 in
  let low6 := Z.land pte 0x3f in
  let masks := if bit7 =? 0 then c.(rsvd_mask0) else c.(rsvd_mask1) in
  truth (Z.lor (Z.land pte (masks !!! Z.to_nat (level - 1)))
               (b2z (truth (Z.land c.(bad_mt_xwr) (u64 (BIT low6)))))).

Definition is_rsvd_bits_set (m : mmu_context) (gpte level : Z) : bool :=
  __is_rsvd_bits_set m.(ctx_guest_rsvd) gpte level.

Definition is_shadow_zero_bits_set (m : mmu_context) (spte level : Z) : bool :=
  __is_rsvd_bits_set m.(ctx_shadow_zero) spte level.

(** [for (i = shadow_root_level; --i >= 0;)] over both rows. *)
Definition clear_me_bits (me_mask levels : Z) (c : rsvd_bits_validate) : rsvd_bits_validate :=
  foldl (λ c i, let c := set0 i (Z.land (c.(rsvd_mask0) !!! i) (not64 me_mask)) c in
                set1 i (Z.land (c.(rsvd_mask1) !!! i) (not64 me_mask)) c)
        c (rev (seq 0 (Z.to_nat levels))).

(** ** Permissions *)

(** [BYTE_MASK]: one bit per UWX value that intersects [access]. *)
Definition BYTE_MASK (access : Z) : Z :=
  foldl (λ acc i, Z.lor acc (if truth (Z.land i access) then BIT i else 0)) 0 (seqZ 1 7).

Section Permissions.
Context `{X : X86} `{P : X86Paging}.

Definition is_write_protection (v : vmrun_vcpu) : bool := truth (vmrun_read_cr0_bits v X86_CR0_WP).

Definition is_nx (v : vmrun_vcpu) : bool := truth (Z.land v.(efer) EFER_NX).

(** One byte of the bitmap. *)
Definition permission_byte (smep smap wp nx ept : bool) (byte : Z) : Z :=
  let x := BYTE_MASK ACC_EXEC_MASK in
  let w := BYTE_MASK ACC_WRITE_MASK in
  let u := BYTE_MASK ACC_USER_MASK in
  let pfec := Z.shiftl byte 1 in
  let wf := if truth (Z.land pfec PFERR_WRITE_MASK) then u8 (Z.lnot w) else 0 in
  let uf := if truth (Z.land pfec PFERR_USER_MASK) then u8 (Z.lnot u) else 0 in
  let ff := if truth (Z.land pfec PFERR_FETCH_MASK) then u8 (Z.lnot x) else 0 in
  if negb ept then
    let kf := if truth (Z.land pfec PFERR_USER_MASK) then 0 else u in
    let ff := if negb nx then 0 else ff in
    let wf := if negb wp then (if truth (Z.land pfec PFERR_USER_MASK) then wf else 0) else wf in
    let smepf := if smep then (if truth (Z.land pfec PFERR_FETCH_MASK) then kf else 0) else 0 in
    let smapf := if smap then (if truth (Z.land pfec (Z.lor PFERR_RSVD_MASK PFERR_FETCH_MASK))
                               then 0 else kf) else 0 in
    Z.lor (Z.lor (Z.lor (Z.lor ff uf) wf) smepf) smapf
  else Z.lor (Z.lor ff uf) wf.

Definition update_permission_bitmask (v : vmrun_vcpu) (ept : bool) (m : mmu_context) : mmu_context :=
  let smep := truth (vmrun_read_cr4_bits v X86_CR4_SMEP) in
  let smap := truth (vmrun_read_cr4_bits v X86_CR4_SMAP) in
  let wp := is_write_protection v in
  m <| ctx_permissions := permission_byte smep smap wp m.(ctx_nx) ept <$> seqZ 0 16 |>.

(** The result is the [u8] returned: 0, or the error code. *)
Definition permission_fault (v : vmrun_vcpu) (m : mmu_context) (pte_access pte_pkey pfec : Z) : Z :=
  let cpl := vmrun_get_cpl v in
  let rflags := vmrun_get_rflags v in
  let smap := Z.land (u64 (cpl - 3)) (Z.land rflags X86_EFLAGS_AC) in
  let index := Z.shiftr pfec 1 + Z.shiftr smap (X86_EFLAGS_AC_BIT - PFERR_RSVD_BIT + 1) in
  let fault := Z.land (Z.shiftr (m.(ctx_permissions) !!! Z.to_nat index) pte_access) 1 in
  Z.land (u32 (- fault)) PFERR_PRESENT_MASK.

(** ** Protection keys *)

(** One pass of the loop: the two bits for an error code. *)
Definition pkey_bits (wp : bool) (bit : Z) : Z :=
  let pfec := Z.shiftl bit 1 in
  let ff := truth (Z.land pfec PFERR_FETCH_MASK) in
  let uf := truth (Z.land pfec PFERR_USER_MASK) in
  let wf := truth (Z.land pfec PFERR_WRITE_MASK) in
  let pte_user := truth (Z.land pfec PFERR_RSVD_MASK) in
  let check_pkey := negb ff && pte_user in
  let check_write := check_pkey && wf && (uf || wp) in
  Z.lor (b2z check_pkey) (Z.shiftl (b2z check_write) 1).

Definition update_pkru_bitmask (is_long_mode : bool) (v : vmrun_vcpu) (ept : bool) (m : mmu_context)
    : mmu_context :=
  if ept then m <| ctx_pkru_mask := 0 |>
  else if negb (truth (vmrun_read_cr4_bits v X86_CR4_PKE)) || negb is_long_mode
       then m <| ctx_pkru_mask := 0 |>
  else
    m <| ctx_pkru_mask ::= λ mask,
      foldl (λ mask bit, u32 (Z.lor mask (Z.shiftl (Z.land (pkey_bits (is_write_protection v) bit) 3)
                                                   (Z.shiftl bit 1))))
            mask (seqZ 0 16) |>.

(** ** Levels *)

Definition update_last_nonleaf_level (is_pse : bool) (m : mmu_context) : mmu_context :=
  let m := m <| ctx_last_nonleaf_level := m.(ctx_root_level) |> in
  if (m.(ctx_root_level) =? PT32_ROOT_LEVEL) && is_pse
  then m <| ctx_last_nonleaf_level ::= λ l, u8 (l + 1) |> else m.

Definition is_last_gpte (m : mmu_context) (level gpte : Z) : bool :=
  let gpte := Z.lor (u32 gpte) (u32 (level - PT_PAGE_TABLE_LEVEL - 1)) in
  let gpte := Z.land gpte (u32 (level - m.(ctx_last_nonleaf_level))) in
  truth (Z.land gpte PT_PAGE_SIZE_MASK).

(** ** Entering a paging mode *)

(** What the mode depends on besides the vcpu's registers. *)
Record paging_env := {
  pe_pse : bool; pe_pae : bool; pe_long_mode : bool; pe_la57 : bool; pe_paging : bool;
  pe_maxphyaddr : Z; pe_gbpages : bool; pe_amd : bool;
  pe_host_phys_bits : Z; pe_host_gbpages : bool
}.
#[export] Instance eta_paging_env : Eta paging_env := λ r,
  {| pe_pse := r.(pe_pse); pe_pae := r.(pe_pae); pe_long_mode := r.(pe_long_mode);
     pe_la57 := r.(pe_la57); pe_paging := r.(pe_paging); pe_maxphyaddr := r.(pe_maxphyaddr);
     pe_gbpages := r.(pe_gbpages); pe_amd := r.(pe_amd);
     pe_host_phys_bits := r.(pe_host_phys_bits); pe_host_gbpages := r.(pe_host_gbpages) |}.

Context (e : paging_env).

Definition reset_rsvds_bits_mask (m : mmu_context) : mmu_context :=
  m <| ctx_guest_rsvd ::=
         __reset_rsvds_bits_mask e.(pe_maxphyaddr) m.(ctx_nx) e.(pe_gbpages) e.(pe_pse) e.(pe_amd)
           m.(ctx_root_level) |>.

Definition reset_shadow_zero_bits_mask (me_mask : Z) (m : mmu_context) : mmu_context :=
  let uses_nx := m.(ctx_nx) || m.(ctx_base_role).(br_smep_andnot_wp) in
  let m := m <| ctx_shadow_zero ::=
                  __reset_rsvds_bits_mask e.(pe_host_phys_bits) uses_nx e.(pe_gbpages) e.(pe_pse) true
                    m.(ctx_shadow_root_level) |> in
  if negb (truth me_mask) then m
  else m <| ctx_shadow_zero ::= clear_me_bits me_mask m.(ctx_shadow_root_level) |>.

Definition paging64_init_context_common (v : vmrun_vcpu) (level : Z) (m : mmu_context) : mmu_context :=
  let m := m <| ctx_nx := is_nx v |> <| ctx_root_level := level |> in
  let m := reset_rsvds_bits_mask m in
  let m := update_permission_bitmask v false m in
  let m := update_pkru_bitmask e.(pe_long_mode) v false m in
  let m := update_last_nonleaf_level e.(pe_pse) m in
  let m := m <| ctx_ops ::= format_ops paging64_fns |> in
  m <| ctx_shadow_root_level := level |> <| ctx_root_hpa := INVALID_PAGE |> <| ctx_direct_map := false |>.

Definition paging64_init_context (v : vmrun_vcpu) (m : mmu_context) : mmu_context :=
  paging64_init_context_common v (if e.(pe_la57) then PT64_ROOT_5LEVEL else PT64_ROOT_4LEVEL) m.

Definition paging32_init_context (v : vmrun_vcpu) (m : mmu_context) : mmu_context :=
  let m := m <| ctx_nx := false |> <| ctx_root_level := PT32_ROOT_LEVEL |> in
  let m := reset_rsvds_bits_mask m in
  let m := update_permission_bitmask v false m in
  let m := update_pkru_bitmask e.(pe_long_mode) v false m in
  let m := update_last_nonleaf_level e.(pe_pse) m in
  let m := m <| ctx_ops ::= format_ops paging32_fns |> in
  m <| ctx_shadow_root_level := PT32E_ROOT_LEVEL |> <| ctx_root_hpa := INVALID_PAGE |>
    <| ctx_direct_map := false |>.

Definition paging32E_init_context (v : vmrun_vcpu) (m : mmu_context) : mmu_context :=
  paging64_init_context_common v PT32E_ROOT_LEVEL m.

Definition nonpaging_init_context (m : mmu_context) : mmu_context :=
  m <| ctx_ops ::= format_ops nonpaging_fns |> <| ctx_root_level := 0 |> <| ctx_shadow_root_level := PT32E_ROOT_LEVEL |>
    <| ctx_root_hpa := INVALID_PAGE |> <| ctx_direct_map := true |> <| ctx_nx := false |>.

(** [MMU_WARN_ON] is empty without MMU_DEBUG. *)
Definition vmrun_init_shadow_mmu (me_mask : Z) (v : vmrun_vcpu) (m : mmu_context) : mmu_context :=
  let smep := truth (vmrun_read_cr4_bits v X86_CR4_SMEP) in
  let smap := truth (vmrun_read_cr4_bits v X86_CR4_SMAP) in
  let m := if negb e.(pe_paging) then nonpaging_init_context m
           else if e.(pe_long_mode) then paging64_init_context v m
           else if e.(pe_pae) then paging32E_init_context v m
           else paging32_init_context v m in
  let m := m <| ctx_base_role ::= λ b,
                  b <| br_nxe := is_nx v |> <| br_cr4_pae := e.(pe_pae) |> <| br_cr0_wp := is_write_protection v |>
                    <| br_smep_andnot_wp := smep && negb (is_write_protection v) |>
                    <| br_smap_andnot_wp := smap && negb (is_write_protection v) |>
                    <| br_smm := is_smm v |> |> in
  reset_shadow_zero_bits_mask me_mask m.
End Permissions.
