(* ===== verification/GuestPagingProps.v ===== *)
(** * Checks on guest page tables: they implement the architecture's rules *)

From S2P Require Import Prelude.
From S2P Require Import Spte.
From S2P Require Import Vcpu.
From S2P Require Import Vmcb.
From S2P Require Import VmcbProps.
From S2P Require Import GuestPaging.

(* ------------------------------------------------------------------ *)
(** ** Permission faults *)

(** The rules of the architecture, for an access to a present page.  [fetch],
    [user] and [write] describe the access, [X], [W] and [U] the page;
    [smap_off]: an explicit supervisor access with EFLAGS.AC set. *)
Definition arch_fault (nx wp smep smap smap_off fetch user write X W U : bool) : bool :=
  (fetch && nx && negb X)                                  (* no-execute page *)
  || (user && negb U)                                      (* supervisor page *)
  || (write && negb W && (user || wp))                     (* read-only page *)
  || (smep && fetch && negb user && U)                     (* SMEP *)
  || (smap && negb fetch && negb user && U && negb smap_off).  (* SMAP *)

(** The error codes with the reserved bit clear. *)
Definition pfecs : list Z := filter (λ p, Z.testbit p 3 = false) (seqZ 0 32).

(** One entry of the bitmap, looked up as [permission_fault] does. *)
Definition lookup_fault (smep smap wp nx smap_off : bool) (pfec access : Z) : Z :=
  let index := Z.shiftr pfec 1 + (if smap_off then 4 else 0) in
  Z.land (Z.shiftr (permission_byte smep smap wp nx false index) access) 1.

Definition all_bools : list bool := [true; false].

(** Every entry, by computation. *)
Lemma bitmap_entries :
  forallb (λ smep, forallb (λ smap, forallb (λ wp, forallb (λ nx, forallb (λ off,
    forallb (λ pfec, forallb (λ access,
      lookup_fault smep smap wp nx off pfec access =?
      b2z (arch_fault nx wp smep smap off
             (Z.testbit pfec 4) (Z.testbit pfec 2) (Z.testbit pfec 1)
             (Z.testbit access 0) (Z.testbit access 1) (Z.testbit access 2)))
    (seqZ 0 8)) pfecs) all_bools) all_bools) all_bools) all_bools) all_bools = true.
Proof. vm_compute. reflexivity. Qed.

Lemma forallb_elem {A} (f : A → bool) (l : list A) (x : A) : forallb f l = true → x ∈ l → f x = true.
Proof. intros Hf Hx. rewrite forallb_forall in Hf. apply Hf. by apply list_elem_of_In. Qed.

Lemma bool_in (b : bool) : b ∈ all_bools.
Proof. destruct b; set_solver. Qed.

Lemma lookup_fault_arch (smep smap wp nx off : bool) (pfec access : Z) :
  0 <= pfec < 32 → Z.testbit pfec 3 = false → 0 <= access < 8 →
  lookup_fault smep smap wp nx off pfec access =
  b2z (arch_fault nx wp smep smap off (Z.testbit pfec 4) (Z.testbit pfec 2) (Z.testbit pfec 1)
         (Z.testbit access 0) (Z.testbit access 1) (Z.testbit access 2)).
Proof.
  intros Hp H3 Ha. apply Z.eqb_eq.
  pose proof (forallb_elem _ _ smep bitmap_entries (bool_in _)) as H.
  pose proof (forallb_elem _ _ smap H (bool_in _)) as H1. pose proof (forallb_elem _ _ wp H1 (bool_in _)) as H2.
  pose proof (forallb_elem _ _ nx H2 (bool_in _)) as H4. pose proof (forallb_elem _ _ off H4 (bool_in _)) as H5.
  refine (forallb_elem _ _ access (forallb_elem _ _ pfec H5 _) _); [|apply elem_of_seqZ; lia].
  apply list_elem_of_filter. split; [done|]. apply elem_of_seqZ. lia.
Qed.

Lemma land_BIT (x n : Z) : 0 <= n → Z.land x (BIT n) = if Z.testbit x n then BIT n else 0.
Proof.
  intros Hn. apply Z.bits_inj'; intros i Hi. rewrite Z.land_spec, BIT_testbit by lia.
  destruct (Z.eqb_spec i n) as [->|Hne].
  - rewrite andb_true_r. destruct (Z.testbit x n); [by rewrite BIT_testbit, Z.eqb_refl|by rewrite Z.bits_0].
  - rewrite andb_false_r. destruct (Z.testbit x n); [rewrite BIT_testbit by lia; symmetry; by apply Z.eqb_neq|].
    by rewrite Z.bits_0.
Qed.

Lemma permission_fault_ok `{X : X86, XO : !X86Ok X, P : X86Paging, PO : !X86PagingOk P}
    (v : vmrun_vcpu) (m : mmu_context) (access pkey pfec : Z) :
  0 <= access < 8 → 0 <= pfec < 32 → Z.testbit pfec 3 = false →
  0 <= vmrun_get_cpl v <= 3 →
  permission_fault v (update_permission_bitmask v false m) access pkey pfec =
  b2z (arch_fault m.(ctx_nx) (Z.testbit v.(cr0) 16) (Z.testbit v.(cr4) 20) (Z.testbit v.(cr4) 21)
         ((vmrun_get_cpl v <? 3) && Z.testbit (vmrun_get_rflags v) 18)
         (Z.testbit pfec 4) (Z.testbit pfec 2) (Z.testbit pfec 1)
         (Z.testbit access 0) (Z.testbit access 1) (Z.testbit access 2)).
Proof.
  intros Ha Hp H3 Hcpl. rewrite <- lookup_fault_arch by done.
  unfold permission_fault, update_permission_bitmask, lookup_fault, is_write_protection,
    vmrun_read_cr4_bits, vmrun_read_cr0_bits.
  destruct PO as [(-> & -> & _) _ (-> & ->)].
  destruct (@cr0_bits _ XO) as (_ & _ & _ & _ & -> & _). rewrite !truth_land_BIT by lia.
  set (off := (vmrun_get_cpl v <? 3) && Z.testbit (vmrun_get_rflags v) 18).
  assert (Hs : Z.shiftr (Z.land (u64 (vmrun_get_cpl v - 3)) (Z.land (vmrun_get_rflags v) (BIT 18)))
                        (18 - PFERR_RSVD_BIT + 1) = if off then 4 else 0).
  { rewrite land_BIT by lia. unfold off. destruct (Z.testbit (vmrun_get_rflags v) 18).
    - assert (vmrun_get_cpl v = 0 ∨ vmrun_get_cpl v = 1 ∨ vmrun_get_cpl v = 2 ∨ vmrun_get_cpl v = 3)
        as [-> | [-> | [-> | ->]]] by lia; reflexivity.
    - by rewrite Z.land_0_r, andb_false_r. }
  rewrite Hs. cbn [ctx_permissions].
  set (index := Z.shiftr pfec 1 + (if off then 4 else 0)).
  assert (Hi : 0 <= index < 16).
  { unfold index. rewrite Z.shiftr_div_pow2 by lia. change (2 ^ 1) with 2.
    assert (pfec / 2 < 12); [|destruct off; Z.to_euclidean_division_equations; lia].
    assert (pfec ∈ pfecs) as Hin by (apply list_elem_of_filter; split; [done|apply elem_of_seqZ; lia]).
    vm_compute in Hin. repeat (apply elem_of_cons in Hin as [->|Hin]; [reflexivity|]). by apply elem_of_nil in Hin. }
  set (f := permission_byte _ _ _ _ _).
  match goal with |- context [ctx_permissions ?c !!! _] =>
    change (ctx_permissions c) with (f <$> seqZ 0 16) end.
  rewrite (list_lookup_total_correct _ _ (f index)).
  - assert (Hb : Z.land (Z.shiftr (f index) access) 1 = 0 ∨ Z.land (Z.shiftr (f index) access) 1 = 1).
    { pose proof (Z.land_ones (Z.shiftr (f index) access) 1 ltac:(lia)) as E. cbn [Z.ones] in E.
      change (Z.ones 1) with 1 in E. change (2 ^ 1) with 2 in E. rewrite E.
      pose proof (Z.mod_pos_bound (Z.shiftr (f index) access) 2 ltac:(lia)). lia. }
    destruct Hb as [-> | ->]; reflexivity.
  - rewrite list_lookup_fmap. apply fmap_Some. exists index. split; [|done].
    apply lookup_seqZ. lia.
Qed.

(** C30: a permission fault is what the architecture says without protection
    keys, for paging other than EPT.  With the bitmap
    built by [update_permission_bitmask] for the vcpu's CR0, CR4 and EFER, and
    any error code with the reserved bit clear, [permission_fault] reports a
    fault exactly when the access (fetch, user or supervisor, write) is not
    allowed to a page with these rights: no-execute, user/supervisor,
    read-only with CR0.WP, SMEP, and SMAP with its EFLAGS.AC override below
    CPL 3. *)
Theorem permission_fault_arch `{X : X86, XO : !X86Ok X, P : X86Paging, PO : !X86PagingOk P}
    (v : vmrun_vcpu) (m : mmu_context) (access pkey pfec : Z) :
  0 <= access < 8 → 0 <= pfec < 32 → Z.testbit pfec 3 = false →
  0 <= vmrun_get_cpl v <= 3 →
  permission_fault v (update_permission_bitmask v false m) access pkey pfec =
  b2z (arch_fault m.(ctx_nx) (Z.testbit v.(cr0) 16) (Z.testbit v.(cr4) 20) (Z.testbit v.(cr4) 21)
         ((vmrun_get_cpl v <? 3) && Z.testbit (vmrun_get_rflags v) 18)
         (Z.testbit pfec 4) (Z.testbit pfec 2) (Z.testbit pfec 1)
         (Z.testbit access 0) (Z.testbit access 1) (Z.testbit access 2)).
Proof. exact (permission_fault_ok v m access pkey pfec). Qed.

(** A supervisor write to a read-only user page with CR0.WP set. *)
Definition amd64_paging : X86Paging :=
  {| X86_CR4_SMEP := BIT 20; X86_CR4_SMAP := BIT 21; X86_CR4_PKE := BIT 22; EFER_NX := BIT 11;
     X86_EFLAGS_AC_BIT := 18; X86_EFLAGS_AC := BIT 18 |}.

Definition amd64_paging_ok : X86PagingOk amd64_paging.
Proof. by split. Qed.

Definition zero_rsvd : rsvd_bits_validate :=
  {| rsvd_mask0 := replicate 5 0; rsvd_mask1 := replicate 5 0; bad_mt_xwr := 0 |}.

Definition zero_context : mmu_context :=
  {| ctx_nx := true; ctx_root_level := 4; ctx_shadow_root_level := 4; ctx_root_hpa := 0; ctx_direct_map := false;
     ctx_permissions := replicate 16 0; ctx_pkru_mask := 0; ctx_last_nonleaf_level := 4;
     ctx_guest_rsvd := zero_rsvd; ctx_shadow_zero := zero_rsvd; ctx_base_role := no_role; ctx_ept_ad := false; ctx_ops := no_ops |}.

Lemma permission_fault_arch_witness :
  let v := zero_vcpu <| cr0 := BIT 16 |> in
  permission_fault (P := amd64_paging) v
    (update_permission_bitmask (X := amd64) (P := amd64_paging) v false zero_context) 5 0 2 = 1.
Proof.
  intros v.
  refine (eq_trans (permission_fault_arch (X := amd64) (XO := amd64_ok) (P := amd64_paging) (PO := amd64_paging_ok)
            v zero_context 5 0 2 _ _ _ _) _).
  - lia.
  - lia.
  - reflexivity.
  - cbn. lia.
  - reflexivity.
Defined.

(* ------------------------------------------------------------------ *)
(** ** Last levels *)

(** Where a guest page walk ends.  For every paging mode, with the last
    non-leaf level set by [update_last_nonleaf_level], the branch-free
    [is_last_gpte] ends the walk at the lowest level, and above it exactly when
    the entry has the page-size bit and large pages exist at that level: below
    the root, or at the root of 32-bit paging when CR4.PSE is set. *)
Theorem is_last_gpte_correct (is_pse : bool) (m : mmu_context) (level gpte : Z) :
  2 <= m.(ctx_root_level) <= 5 → 1 <= level <= m.(ctx_root_level) →
  is_last_gpte (update_last_nonleaf_level is_pse m) level gpte = true ↔
  level = 1 ∨ Z.testbit gpte 7 = true ∧
              (level < m.(ctx_root_level) ∨ m.(ctx_root_level) = 2 ∧ is_pse = true).
Proof.
  intros Hr Hl.
  assert (Hln : (update_last_nonleaf_level is_pse m).(ctx_last_nonleaf_level)
                = m.(ctx_root_level) + b2z ((m.(ctx_root_level) =? 2) && is_pse)).
  { unfold update_last_nonleaf_level. change PT32_ROOT_LEVEL with 2.
    change (ctx_root_level (m <| ctx_last_nonleaf_level := ctx_root_level m |>)) with (ctx_root_level m).
    destruct (Z.eqb_spec (ctx_root_level m) 2) as [E|E], is_pse; cbn; rewrite ?E; try done; lia. }
  unfold is_last_gpte. rewrite Hln. clear Hln. change PT_PAGE_SIZE_MASK with (BIT 7).
  rewrite truth_land_BIT, Z.land_spec, Z.lor_spec, (wrap_testbit 32 gpte) by lia.
  change (7 <? 32) with true. cbn [andb].
  generalize dependent (ctx_root_level m). intros r Hr Hl.
  assert (r = 2 ∨ r = 3 ∨ r = 4 ∨ r = 5) as [-> | [-> | [-> | ->]]] by lia;
  assert (level = 1 ∨ level = 2 ∨ level = 3 ∨ level = 4 ∨ level = 5) as [-> | [-> | [-> | [-> | ->]]]] by lia;
    try lia; destruct is_pse, (Z.testbit gpte 7); 
    (match goal with |- ?b = true ↔ _ => let x := eval vm_compute in b in change b with x end);
    (split; [intros Hb|intros [Hb|[Hb [Hb'|[Hb' Hb'']]]]]; try discriminate; try lia; try done);
    first [by left|right; split; [done|first [left; lia|by right]]].
Qed.

Lemma is_last_gpte_correct_witness :
  is_last_gpte (update_last_nonleaf_level true zero_context) 2 0x80 = true.
Proof.
  apply (is_last_gpte_correct true zero_context 2 0x80).
  - cbn. lia.
  - cbn. lia.
  - right. split; [reflexivity|left; cbn; lia].
Defined.

(* ------------------------------------------------------------------ *)
(** ** Reserved bits *)

Lemma rsvd_bits_testbit (s e i : Z) :
  0 <= s → e < 64 → 0 <= i → Z.testbit (rsvd_bits s e) i = (s <=? i) && (i <=? e).
Proof.
  intros Hs He Hi. unfold rsvd_bits. destruct (Z.ltb_spec e s).
  - rewrite Z.bits_0. symmetry. apply andb_false_iff. destruct (Z.leb_spec s i); [right|left]; lia.
  - rewrite wrap_testbit by lia. replace (BIT (e - s + 1) - 1) with (Z.ones (e - s + 1))
      by (unfold BIT, Z.ones; rewrite Z.shiftl_1_l; lia).
    rewrite shiftl_testbit by lia. destruct (Z.leb_spec s i) as [Hsi|Hsi].
    + rewrite wrap_testbit, ones_testbit by lia. destruct (Z.leb_spec i e).
      * replace (i <? 64) with true by lia. replace (i - s <? 64) with true by lia.
        replace (i - s <? e - s + 1) with true by lia. done.
      * replace (i - s <? e - s + 1) with false by lia. by rewrite !andb_false_r.
    + rewrite Z.testbit_neg_r by lia. by rewrite !andb_false_r.
Qed.

Lemma truth_land_exists (a b : Z) :
  is_u 64 a → truth (Z.land a b) = true ↔ ∃ i, 0 <= i < 64 ∧ Z.testbit a i = true ∧ Z.testbit b i = true.
Proof.
  intros Hu. unfold truth. rewrite negb_true_iff, Z.eqb_neq. split.
  - intros Hne. destruct (existsb (λ i, Z.testbit a i && Z.testbit b i) (seqZ 0 64)) eqn:E.
    + apply existsb_exists in E as (i & Hi%list_elem_of_In%elem_of_seqZ & [? ?]%andb_true_iff).
      exists i. split; [lia|done].
    + exfalso. apply Hne. apply Z.bits_inj'; intros i Hi. rewrite Z.land_spec, Z.bits_0.
      destruct (Z.lt_ge_cases i 64); [|by rewrite (is_u_testbit 64 a) by (done || lia)].
      apply not_true_iff_false. intros Hb. apply not_true_iff_false in E. apply E. apply existsb_exists.
      exists i. split; [|done]. apply list_elem_of_In, elem_of_seqZ. lia.
  - intros (i & Hi & Ha & Hb) E. apply (f_equal (λ x, Z.testbit x i)) in E. cbn beta in E.
    by rewrite Z.land_spec, Ha, Hb, Z.bits_0 in E.
Qed.

(** The bits the architecture reserves in an entry of 4- and 5-level paging:
    above the physical address width, bit 63 without EFER.NX, and by level the
    page-size bit, bit 8 (AMD, non-leaf) and the low address bits of a large
    page.  [ps]: the entry's page-size bit. *)
Definition arch_reserved (maxphyaddr : Z) (nx gbpages amd ps : bool) (level i : Z) : bool :=
  ((maxphyaddr <=? i) && (i <=? 51)) || ((i =? 63) && negb nx) ||
  (if (4 <=? level) then (i =? 7) || ((i =? 8) && amd)
   else if level =? 3 then
     if ps then ((i =? 7) && negb gbpages) || ((13 <=? i) && (i <=? 29)) else (i =? 8) && amd
   else if level =? 2 then ps && (13 <=? i) && (i <=? 20)
   else false).

Lemma bit7_select {A} (pte : Z) (a b : A) :
  (if Z.land (Z.shiftr pte 7) 1 =? 0 then a else b) = if Z.testbit pte 7 then b else a.
Proof.
  pose proof (truth_land_BIT (Z.shiftr pte 7) 0 ltac:(lia)) as H. change (BIT 0) with 1 in H.
  rewrite Z.shiftr_spec in H by lia. change (0 + 7) with 7 in H. rewrite <- H. unfold truth.
  by destruct (_ =? 0).
Qed.

Section Level4.
Context (nx gbpages amd : bool).

Lemma exb_testbit (i : Z) : 0 <= i → Z.testbit (exb_bit_rsvd nx) i = (i =? 63) && negb nx.
Proof using Type.
  intros Hi. unfold exb_bit_rsvd. destruct nx; cbn [negb]; [by rewrite Z.bits_0, andb_false_r|].
  rewrite rsvd_bits_testbit, andb_true_r by lia. destruct (Z.eqb_spec i 63); lia.
Qed.

Lemma gbpages_testbit (i : Z) : 0 <= i → Z.testbit (gbpages_bit_rsvd gbpages) i = (i =? 7) && negb gbpages.
Proof using Type.
  intros Hi. unfold gbpages_bit_rsvd. destruct gbpages; cbn [negb]; [by rewrite Z.bits_0, andb_false_r|].
  rewrite rsvd_bits_testbit, andb_true_r by lia. destruct (Z.eqb_spec i 7); lia.
Qed.

Lemma bit8_testbit (i : Z) : 0 <= i → Z.testbit (nonleaf_bit8_rsvd amd) i = (i =? 8) && amd.
Proof using Type.
  intros Hi. unfold nonleaf_bit8_rsvd. destruct amd; [|by rewrite Z.bits_0, andb_false_r].
  rewrite rsvd_bits_testbit, andb_true_r by lia. destruct (Z.eqb_spec i 8); lia.
Qed.

Lemma range1 (a i : Z) : (a <=? i) && (i <=? a) = (i =? a).
Proof using Type. destruct (Z.leb_spec a i), (Z.leb_spec i a), (Z.eqb_spec i a); try done; lia. Qed.
End Level4.

Lemma rsvd_4level_masks (maxphyaddr : Z) (nx gbpages amd : bool) (c : rsvd_bits_validate) :
  length c.(rsvd_mask0) = 5%nat → length c.(rsvd_mask1) = 5%nat →
  let top := rsvd_bits maxphyaddr 51 in
  let x := exb_bit_rsvd nx in
  let l4 := Z.lor (Z.lor (Z.lor x (nonleaf_bit8_rsvd amd)) (rsvd_bits 7 7)) top in
  let c' := rsvd_4level maxphyaddr nx gbpages amd c in
  c'.(rsvd_mask0) = [Z.lor x top; Z.lor x top;
     Z.lor (Z.lor (Z.lor x (nonleaf_bit8_rsvd amd)) (gbpages_bit_rsvd gbpages)) top; l4; c.(rsvd_mask0) !!! 4%nat] ∧
  c'.(rsvd_mask1) = [Z.lor x top; Z.lor (Z.lor x top) (rsvd_bits 13 20);
     Z.lor (Z.lor (Z.lor x (gbpages_bit_rsvd gbpages)) top) (rsvd_bits 13 29); l4; c.(rsvd_mask1) !!! 4%nat] ∧
  c'.(bad_mt_xwr) = c.(bad_mt_xwr).
Proof.
  destruct c as [m0 m1 bad]. cbn [rsvd_mask0 rsvd_mask1]. intros H0 H1.
  destruct m0 as [|a0 [|a1 [|a2 [|a3 [|a4 [|]]]]]]; try done.
  destruct m1 as [|b0 [|b1 [|b2 [|b3 [|b4 [|]]]]]]; done.
Qed.

(** The mask an entry of 4- or 5-level paging is checked against. *)
Lemma rsvd_mask_testbit (maxphyaddr : Z) (nx gbpages pse amd ps : bool) (root level : Z)
    (c : rsvd_bits_validate) (i : Z) :
  0 <= maxphyaddr → length c.(rsvd_mask0) = 5%nat → length c.(rsvd_mask1) = 5%nat →
  root = 4 ∨ root = 5 → 1 <= level <= root → 0 <= i < 64 → (i = 7 → ps = true) →
  let c' := __reset_rsvds_bits_mask maxphyaddr nx gbpages pse amd root c in
  Z.testbit ((if ps then c'.(rsvd_mask1) else c'.(rsvd_mask0)) !!! Z.to_nat (level - 1)) i
  = arch_reserved maxphyaddr nx gbpages amd ps level i.
Proof.
  intros Hm H0 H1 Hroot Hl Hi H7. cbv zeta.
  assert (Hc : ∃ c1, __reset_rsvds_bits_mask maxphyaddr nx gbpages pse amd root c
                     = rsvd_4level maxphyaddr nx gbpages amd c1 ∧
          length c1.(rsvd_mask0) = 5%nat ∧ length c1.(rsvd_mask1) = 5%nat ∧
          (root = 5 → c1.(rsvd_mask0) !!! 4%nat = Z.lor (Z.lor (Z.lor (exb_bit_rsvd nx) (nonleaf_bit8_rsvd amd))
                        (rsvd_bits 7 7)) (rsvd_bits maxphyaddr 51) ∧
                      c1.(rsvd_mask1) !!! 4%nat = c1.(rsvd_mask0) !!! 4%nat)).
  { unfold __reset_rsvds_bits_mask. destruct Hroot as [-> | ->]; cbn -[rsvd_4level rsvd_5level].
    - eexists. split; [done|]. cbn. split_and!; [done..|lia].
    - eexists. split; [done|]. unfold rsvd_5level. cbn. rewrite !length_insert. split_and!; [done..|].
      intros _. rewrite !list_lookup_total_insert_eq by (cbn; lia). done. }
  destruct Hc as (c1 & -> & L0 & L1 & H5).
  destruct (rsvd_4level_masks maxphyaddr nx gbpages amd c1 L0 L1) as (-> & -> & _).
  assert (level = 1 ∨ level = 2 ∨ level = 3 ∨ level = 4 ∨ level = 5 ∧ root = 5)
    as [-> | [-> | [-> | [-> | [-> Hr5]]]]] by lia.
  5: destruct (H5 Hr5) as [E0 E1].
  all: destruct ps;
    (match goal with |- context [_ !!! Z.to_nat ?n] =>
       let k := eval vm_compute in (Z.to_nat n) in change (Z.to_nat n) with k end);
    cbn [lookup_total list_lookup_total]; rewrite ?E1, ?E0;
    rewrite ?Z.lor_spec, ?exb_testbit, ?gbpages_testbit, ?bit8_testbit, ?rsvd_bits_testbit, ?range1 by lia;
    unfold arch_reserved;
    (repeat match goal with |- context [if ?b then _ else _] =>
       let x := eval vm_compute in b in
       lazymatch x with true => change b with true | false => change b with false end; cbv iota end);
    try (assert (E7 : (i =? 7) = false) by (apply Z.eqb_neq; intros E; by specialize (H7 E)); rewrite ?E7);
    rewrite ?andb_true_l;
    destruct ((maxphyaddr <=? i) && (i <=? 51)), ((i =? 63) && negb nx), (i =? 7), (i =? 8), amd, gbpages,
      ((13 <=? i) && (i <=? 20)), ((13 <=? i) && (i <=? 29)); done.
Qed.

Lemma rsvd_bits_ok (maxphyaddr : Z) (nx gbpages pse amd : bool) (root level : Z)
    (c : rsvd_bits_validate) (pte : Z) :
  0 <= maxphyaddr → length c.(rsvd_mask0) = 5%nat → length c.(rsvd_mask1) = 5%nat →
  root = 4 ∨ root = 5 → 1 <= level <= root → is_u 64 pte →
  __is_rsvd_bits_set (__reset_rsvds_bits_mask maxphyaddr nx gbpages pse amd root c) pte level = true ↔
  ∃ i, 0 <= i < 64 ∧ Z.testbit pte i = true ∧
       arch_reserved maxphyaddr nx gbpages amd (Z.testbit pte 7) level i = true.
Proof.
  intros Hm H0 H1 Hroot Hl Hu. unfold __is_rsvd_bits_set. rewrite bit7_select.
  assert (Hbad : (__reset_rsvds_bits_mask maxphyaddr nx gbpages pse amd root c).(bad_mt_xwr) = 0)
    by (by destruct Hroot as [-> | ->]).
  rewrite Hbad, Z.land_0_l. change (b2z (truth 0)) with 0. rewrite Z.lor_0_r, truth_land_exists by done.
  split; intros (i & Hi & Hb & Hr); exists i; (split_and!; [lia|lia|done|]).
  - by rewrite (rsvd_mask_testbit maxphyaddr nx gbpages pse amd _ root level c i) in Hr by (done || congruence).
  - by rewrite (rsvd_mask_testbit maxphyaddr nx gbpages pse amd _ root level c i) by (done || congruence).
Qed.

(** PAE and 32-bit paging.  A pointer entry of the third PAE level has no
    page-size bit: the row for entries with bit 7 is not set there. *)
Definition arch_reserved_pae (maxphyaddr : Z) (nx ps : bool) (level i : Z) : bool :=
  if level =? 3 then ((maxphyaddr <=? i) && (i <=? 63)) || ((5 <=? i) && (i <=? 8)) || ((1 <=? i) && (i <=? 2))
  else ((i =? 63) && negb nx) || ((maxphyaddr <=? i) && (i <=? 62)) || ((level =? 2) && ps && (13 <=? i) && (i <=? 20)).

Definition arch_reserved_32 (pse ps : bool) (level i : Z) : bool := (level =? 2) && ps && pse && (17 <=? i) && (i <=? 21).

Lemma rsvd_pae_masks (maxphyaddr : Z) (nx : bool) (c : rsvd_bits_validate) :
  length c.(rsvd_mask0) = 5%nat → length c.(rsvd_mask1) = 5%nat →
  let top := rsvd_bits maxphyaddr 62 in let x := exb_bit_rsvd nx in let c' := rsvd_pae maxphyaddr nx c in
  c'.(rsvd_mask0) = [Z.lor x top; Z.lor x top; Z.lor (Z.lor (rsvd_bits maxphyaddr 63) (rsvd_bits 5 8)) (rsvd_bits 1 2);
                     c.(rsvd_mask0) !!! 3%nat; c.(rsvd_mask0) !!! 4%nat] ∧
  c'.(rsvd_mask1) = [Z.lor x top; Z.lor (Z.lor x top) (rsvd_bits 13 20); c.(rsvd_mask1) !!! 2%nat; c.(rsvd_mask1) !!! 3%nat;
                     c.(rsvd_mask1) !!! 4%nat] ∧
  c'.(bad_mt_xwr) = c.(bad_mt_xwr).
Proof.
  destruct c as [m0 m1 bad]. cbn [rsvd_mask0 rsvd_mask1]. intros H0 H1.
  destruct m0 as [|a0 [|a1 [|a2 [|a3 [|a4 [|]]]]]]; try done.
  destruct m1 as [|b0 [|b1 [|b2 [|b3 [|b4 [|]]]]]]; done.
Qed.

Lemma rsvd_32_masks (pse : bool) (c : rsvd_bits_validate) :
  length c.(rsvd_mask0) = 5%nat → length c.(rsvd_mask1) = 5%nat →
  let c' := rsvd_2level pse c in
  take 2 c'.(rsvd_mask0) = [0; 0] ∧ take 2 c'.(rsvd_mask1) = [0; if pse then rsvd_bits 17 21 else 0] ∧
  c'.(bad_mt_xwr) = c.(bad_mt_xwr).
Proof.
  destruct c as [m0 m1 bad]. cbn [rsvd_mask0 rsvd_mask1]. intros H0 H1.
  destruct m0 as [|a0 [|a1 [|a2 [|a3 [|a4 [|]]]]]]; try done.
  destruct m1 as [|b0 [|b1 [|b2 [|b3 [|b4 [|]]]]]]; destruct pse; done.
Qed.

(** The mask is the architecture's, so the check is. *)
Lemma rsvd_by_mask (c : rsvd_bits_validate) (pte level : Z) (arch : Z → bool) :
  c.(bad_mt_xwr) = 0 → is_u 64 pte →
  (∀ i, 0 <= i < 64 → Z.testbit ((if Z.testbit pte 7 then c.(rsvd_mask1) else c.(rsvd_mask0)) !!! Z.to_nat (level - 1)) i = arch i) →
  __is_rsvd_bits_set c pte level = true ↔ ∃ i, 0 <= i < 64 ∧ Z.testbit pte i = true ∧ arch i = true.
Proof.
  intros Hbad Hu Hm. unfold __is_rsvd_bits_set. rewrite bit7_select.
  rewrite Hbad, Z.land_0_l. change (b2z (truth 0)) with 0. rewrite Z.lor_0_r, truth_land_exists by done.
  split; intros (i & Hi & Hb & Hr); exists i; (split_and!; [lia|lia|done|]); [by rewrite <- Hm|by rewrite Hm].
Qed.

Lemma rsvd_pae_ok (maxphyaddr : Z) (nx gbpages pse amd : bool) (level : Z) (c : rsvd_bits_validate) (pte : Z) :
  0 <= maxphyaddr → length c.(rsvd_mask0) = 5%nat → length c.(rsvd_mask1) = 5%nat →
  1 <= level <= 3 → (level = 3 → Z.testbit pte 7 = false) → is_u 64 pte →
  __is_rsvd_bits_set (__reset_rsvds_bits_mask maxphyaddr nx gbpages pse amd 3 c) pte level = true ↔
  ∃ i, 0 <= i < 64 ∧ Z.testbit pte i = true ∧ arch_reserved_pae maxphyaddr nx (Z.testbit pte 7) level i = true.
Proof.
  intros Hm H0 H1 Hl H3 Hu. change (__reset_rsvds_bits_mask _ _ _ _ _ 3 c) with (rsvd_pae maxphyaddr nx (c <| bad_mt_xwr := 0 |>)).
  set (c1 := c <| bad_mt_xwr := 0 |>).
  destruct (rsvd_pae_masks maxphyaddr nx c1 H0 H1) as (E0 & E1 & Eb).
  apply rsvd_by_mask; [done|done|]. intros i Hi.
  generalize dependent (rsvd_pae maxphyaddr nx c1). intros c2 -> -> _.
  assert (level = 1 ∨ level = 2 ∨ level = 3) as [-> | [-> | ->]] by lia; [| |rewrite H3 by done]; try destruct (Z.testbit pte 7);
    (match goal with |- context [_ !!! Z.to_nat ?n] =>
       let k := eval vm_compute in (Z.to_nat n) in change (Z.to_nat n) with k end);
    cbn [lookup_total list_lookup_total]; unfold arch_reserved_pae; rewrite ?Z.lor_spec, ?exb_testbit, ?rsvd_bits_testbit by lia; cbn [Z.eqb Pos.eqb andb orb];
    rewrite ?orb_false_r, ?andb_assoc; try done.
Qed.

Lemma rsvd_32_ok (maxphyaddr : Z) (nx gbpages pse amd : bool) (level : Z) (c : rsvd_bits_validate) (pte : Z) :
  length c.(rsvd_mask0) = 5%nat → length c.(rsvd_mask1) = 5%nat → 1 <= level <= 2 → is_u 64 pte →
  __is_rsvd_bits_set (__reset_rsvds_bits_mask maxphyaddr nx gbpages pse amd 2 c) pte level = true ↔
  ∃ i, 0 <= i < 64 ∧ Z.testbit pte i = true ∧ arch_reserved_32 pse (Z.testbit pte 7) level i = true.
Proof.
  intros H0 H1 Hl Hu. change (__reset_rsvds_bits_mask _ _ _ _ _ 2 c) with (rsvd_2level pse (c <| bad_mt_xwr := 0 |>)).
  set (c1 := c <| bad_mt_xwr := 0 |>). destruct (rsvd_32_masks pse c1 H0 H1) as (E0 & E1 & Eb).
  apply rsvd_by_mask; [done|done|]. intros i Hi.
  assert (Hk : ∀ (l : list Z) a b, take 2 l = [a; b] → l !!! Z.to_nat (level - 1) = if level =? 2 then b else a).
  { intros [|x [|y l]] a b [= -> ->]. by assert (level = 1 ∨ level = 2) as [-> | ->] by lia. }
  unfold arch_reserved_32. destruct (Z.testbit pte 7); [rewrite (Hk _ _ _ E1)|rewrite (Hk _ _ _ E0)];
    destruct (level =? 2), pse; cbn [andb]; rewrite ?Z.bits_0, ?rsvd_bits_testbit by lia; done.
Qed.

(** Reserved bits in 4- and 5-level paging.  With the masks that
    [__reset_rsvds_bits_mask] builds for a mode, [__is_rsvd_bits_set] flags an
    entry of any level exactly when it has a bit set that the architecture
    reserves there. *)
Theorem rsvd_bits_arch (maxphyaddr : Z) (nx gbpages pse amd : bool) (root level : Z)
    (c : rsvd_bits_validate) (pte : Z) :
  0 <= maxphyaddr → length c.(rsvd_mask0) = 5%nat → length c.(rsvd_mask1) = 5%nat →
  root = 4 ∨ root = 5 → 1 <= level <= root → is_u 64 pte →
  __is_rsvd_bits_set (__reset_rsvds_bits_mask maxphyaddr nx gbpages pse amd root c) pte level = true ↔
  ∃ i, 0 <= i < 64 ∧ Z.testbit pte i = true ∧
       arch_reserved maxphyaddr nx gbpages amd (Z.testbit pte 7) level i = true.
Proof. exact (rsvd_bits_ok maxphyaddr nx gbpages pse amd root level c pte). Qed.

(** A 2 MiB page that is not 2 MiB aligned. *)
Lemma rsvd_bits_arch_witness :
  __is_rsvd_bits_set (__reset_rsvds_bits_mask 40 true true true true 4 zero_rsvd) 0x2083 2 = true.
Proof.
  apply (rsvd_bits_arch 40 true true true true 4 2 zero_rsvd 0x2083).
  - lia.
  - reflexivity.
  - reflexivity.
  - left. reflexivity.
  - lia.
  - split; [lia|reflexivity].
  - exists 13. split; [lia|]. split; reflexivity.
Defined.

(* ------------------------------------------------------------------ *)
(** ** Reserved bits of EPT entries *)

Definition arch_reserved_ept (maxphyaddr : Z) (ps : bool) (level i : Z) : bool :=
  ((maxphyaddr <=? i) && (i <=? 51)) ||
  (if (4 <=? level) then (3 <=? i) && (i <=? 7)
   else if level =? 3 then (if ps then (12 <=? i) && (i <=? 29) else (3 <=? i) && (i <=? 6))
   else if level =? 2 then (if ps then (12 <=? i) && (i <=? 20) else (3 <=? i) && (i <=? 6))
   else false).

(** Memory types 2, 3 and 7 do not exist; write without read is not allowed,
    nor execute without read, unless the processor supports it. *)
Definition ept_misconfigured (execonly : bool) (pte : Z) : bool :=
  let mt := Z.land (Z.shiftr pte 3) 7 in
  let xwr := Z.land pte 7 in
  (mt =? 2) || (mt =? 3) || (mt =? 7) || (xwr =? 2) || (xwr =? 6) || ((xwr =? 4) && negb execonly).

Definition ept_bad (execonly : bool) : Z :=
  (__reset_rsvds_bits_mask_ept 0 execonly {| rsvd_mask0 := []; rsvd_mask1 := []; bad_mt_xwr := 0 |}).(bad_mt_xwr).

Lemma ept_bad_entries :
  forallb (λ x, forallb (λ low6, Bool.eqb (Z.testbit (ept_bad x) low6) (ept_misconfigured x low6)) (seqZ 0 64))
          all_bools = true.
Proof. vm_compute. reflexivity. Qed.

Lemma low6_bits (pte : Z) (execonly : bool) :
  ept_misconfigured execonly (Z.land pte 0x3f) = ept_misconfigured execonly pte.
Proof.
  unfold ept_misconfigured. change 0x3f with (Z.ones 6). change 7 with (Z.ones 3).
  rewrite Z.shiftr_land, <- !Z.land_assoc. reflexivity.
Qed.

Lemma truth_lor_b2z (a : Z) (b : bool) : truth (Z.lor a (b2z b)) = truth a || b.
Proof.
  destruct b; cbn [b2z]; [|by rewrite Z.lor_0_r, orb_false_r]. rewrite orb_true_r.
  unfold truth. apply negb_true_iff, Z.eqb_neq. intros E. apply Z.lor_eq_0_iff in E as [_ E]. done.
Qed.

Lemma ept_masks_testbit (maxphyaddr : Z) (execonly ps : bool) (level : Z) (c : rsvd_bits_validate) (i : Z) :
  0 <= maxphyaddr → length c.(rsvd_mask0) = 5%nat → length c.(rsvd_mask1) = 5%nat → 1 <= level <= 5 →
  0 <= i < 64 →
  let c' := __reset_rsvds_bits_mask_ept maxphyaddr execonly c in
  Z.testbit ((if ps then c'.(rsvd_mask1) else c'.(rsvd_mask0)) !!! Z.to_nat (level - 1)) i
  = arch_reserved_ept maxphyaddr ps level i.
Proof.
  intros Hm H0 H1 Hl Hi. destruct c as [m0 m1 bad]. cbn [rsvd_mask0 rsvd_mask1] in H0, H1.
  destruct m0 as [|a0 [|a1 [|a2 [|a3 [|a4 [|]]]]]]; try done.
  destruct m1 as [|b0 [|b1 [|b2 [|b3 [|b4 [|]]]]]]; try done. clear H0 H1. cbv zeta.
  set (top := rsvd_bits maxphyaddr 51).
  change (rsvd_mask0 (__reset_rsvds_bits_mask_ept _ _ _))
    with [top; Z.lor top (rsvd_bits 3 6); Z.lor top (rsvd_bits 3 6); Z.lor top (rsvd_bits 3 7); Z.lor top (rsvd_bits 3 7)].
  change (rsvd_mask1 (__reset_rsvds_bits_mask_ept _ _ _))
    with [top; Z.lor top (rsvd_bits 12 20); Z.lor top (rsvd_bits 12 29); Z.lor top (rsvd_bits 3 7); Z.lor top (rsvd_bits 3 7)].
  assert (level = 1 ∨ level = 2 ∨ level = 3 ∨ level = 4 ∨ level = 5) as [-> | [-> | [-> | [-> | ->]]]] by lia;
    destruct ps;
    (match goal with |- context [_ !!! Z.to_nat ?n] =>
       let k := eval vm_compute in (Z.to_nat n) in change (Z.to_nat n) with k end);
    cbn [lookup_total list_lookup_total]; unfold top; rewrite ?Z.lor_spec, ?rsvd_bits_testbit by lia;
    unfold arch_reserved_ept;
    (repeat match goal with |- context [if ?b then _ else _] =>
       let x := eval vm_compute in b in
       lazymatch x with true => change b with true | false => change b with false end; cbv iota end);
    by rewrite ?orb_false_r.
Qed.

(** Misconfigured EPT entries.  With the masks that
    [__reset_rsvds_bits_mask_ept] builds, [__is_rsvd_bits_set] flags an EPT
    entry exactly when it has a reserved bit for its level set, an undefined
    memory type, or a combination of read, write and execute that the
    processor rejects. *)
Theorem rsvd_bits_ept_arch (maxphyaddr : Z) (execonly : bool) (level : Z) (c : rsvd_bits_validate) (pte : Z) :
  0 <= maxphyaddr → length c.(rsvd_mask0) = 5%nat → length c.(rsvd_mask1) = 5%nat →
  1 <= level <= 5 → is_u 64 pte →
  __is_rsvd_bits_set (__reset_rsvds_bits_mask_ept maxphyaddr execonly c) pte level = true ↔
  (∃ i, 0 <= i < 64 ∧ Z.testbit pte i = true ∧
        arch_reserved_ept maxphyaddr (Z.testbit pte 7) level i = true) ∨
  ept_misconfigured execonly pte = true.
Proof.
  intros Hm H0 H1 Hl Hu. unfold __is_rsvd_bits_set. rewrite bit7_select, truth_lor_b2z, orb_true_iff.
  assert (Hlow : 0 <= Z.land pte 0x3f < 64).
  { change 0x3f with (Z.ones 6). rewrite Z.land_ones by lia. apply Z.mod_pos_bound. lia. }
  assert (Hbad : truth (Z.land (__reset_rsvds_bits_mask_ept maxphyaddr execonly c).(bad_mt_xwr)
                               (u64 (BIT (Z.land pte 0x3f)))) = ept_misconfigured execonly pte).
  { rewrite wrap_id by (unfold is_u, BIT; rewrite Z.shiftl_1_l; split;
      [lia|apply Z.pow_lt_mono_r; lia]). rewrite truth_land_BIT by lia.
    change (bad_mt_xwr (__reset_rsvds_bits_mask_ept _ _ _)) with (ept_bad execonly).
    rewrite <- low6_bits. apply eqb_prop.
    refine (forallb_elem _ _ (Z.land pte 0x3f) (forallb_elem _ _ execonly ept_bad_entries (bool_in _)) _).
    apply elem_of_seqZ. lia. }
  rewrite Hbad, truth_land_exists by done.
  pose proof (λ i, ept_masks_testbit maxphyaddr execonly (Z.testbit pte 7) level c i Hm H0 H1 Hl) as Ht.
  split; (intros [(i & Hi & Ha & Hb)|]; [left; exists i; (split; [lia|split; [done|]])|by right]).
  - by rewrite <- Ht.
  - by rewrite Ht.
Qed.

Lemma rsvd_bits_ept_arch_witness :
  __is_rsvd_bits_set (__reset_rsvds_bits_mask_ept 40 false zero_rsvd) 0x5002 1 = true.
Proof.
  apply (rsvd_bits_ept_arch 40 false 1 zero_rsvd 0x5002).
  - lia.
  - reflexivity.
  - reflexivity.
  - lia.
  - split; [lia|reflexivity].
  - right. reflexivity.
Defined.

(* ------------------------------------------------------------------ *)
(** ** Protection keys *)

(** The two bits for an error code (reserved bit: user page). *)
Definition pkru_entry (mask pfec : Z) : Z := Z.land (Z.shiftr mask (Z.land pfec (not32 1))) 3.

(** The protection-key bitmap keeps what an earlier mode put there.
    Filled from 0, the entry of a supervisor write to a user page lets PKRU.WD
    be ignored when CR0.WP is clear; but [update_pkru_bitmask] only adds to
    the bitmap, so after CR0.WP was set once the entry still says that WD
    applies. *)
Theorem pkru_bitmask_not_reset (m : mmu_context) :
  let upd := update_pkru_bitmask (X := amd64) (P := amd64_paging) true in
  let v := zero_vcpu <| cr4 := BIT 22 |> in
  let wp := v <| cr0 := BIT 16 |> in
  let fresh := m <| ctx_pkru_mask := 0 |> in
  let write_user := Z.lor PFERR_WRITE_MASK PFERR_RSVD_MASK in
  pkru_entry (upd v false fresh).(ctx_pkru_mask) write_user = 1 ∧
  pkru_entry (upd wp false fresh).(ctx_pkru_mask) write_user = 3 ∧
  pkru_entry (upd v false (upd wp false fresh)).(ctx_pkru_mask) write_user = 3.
Proof. vm_compute. auto. Qed.
