(* ===== verification/CpuEnable.v ===== *)
(** * Turning SVM on and off

    kernel/vmrun.c: SVM is enabled on every CPU while at least one virtual
    machine exists ([vmrun_usage_count]), and CPUs that come up or go down in
    between follow.  The EFER and HSAVE MSRs of a CPU are modelled by their low
    32 bits (the code reads and writes an [int]; the upper half of EFER is
    reserved).  Not in the repository: CPUID, the MSRs, [on_each_cpu], which
    runs a function on every online CPU. *)

From S2P Require Import Prelude.
From S2P Require Import Spte.
From S2P Require Import Vcpu.
From S2P Require Import Vmcb.
From S2P Require Import Run.

Definition CPUID_EXT_1_SVM_BIT : Z := 2.
Definition CPUID_EXT_A_SVM_LOCK_BIT : Z := 2.
Definition MSR_VM_CR_SVM_DIS_BIT : Z := 4.
Definition MSR_EFER_SVM_EN_BIT : Z := 12.

(** What a CPU reports: CPUID 0x80000001 ECX, CPUID 0x8000000a EBX, the VM_CR
    MSR and the type of its TSS descriptor. *)
Record cpu_hw := { hw_ext1_ecx : Z; hw_exta_ebx : Z; hw_vm_cr : Z; hw_tss_type : Z }.
#[export] Instance eta_cpu_hw : Eta cpu_hw := λ r,
  {| hw_ext1_ecx := r.(hw_ext1_ecx); hw_exta_ebx := r.(hw_exta_ebx); hw_vm_cr := r.(hw_vm_cr);
     hw_tss_type := r.(hw_tss_type) |}.

(** [struct vmrun_cpu_data] with its [save_area], as a page frame number. *)
Record cpu_area := { ca_data : vmrun_cpu_data; ca_save_pfn : Z }.
#[export] Instance eta_cpu_area : Eta cpu_area := λ r,
  {| ca_data := r.(ca_data); ca_save_pfn := r.(ca_save_pfn) |}.

Record svm_state := {
  cpus_online : list Z;
  cpus_enabled : gset Z;
  vmrun_usage_count : Z;
  cpu_enable_failed : Z;
  msr_efer : Z → Z;
  msr_hsave : Z → Z;
  local_cpu_data : gmap Z cpu_area
}.
#[export] Instance eta_svm_state : Eta svm_state := λ r,
  {| cpus_online := r.(cpus_online); cpus_enabled := r.(cpus_enabled);
     vmrun_usage_count := r.(vmrun_usage_count); cpu_enable_failed := r.(cpu_enable_failed);
     msr_efer := r.(msr_efer); msr_hsave := r.(msr_hsave); local_cpu_data := r.(local_cpu_data) |}.

Definition upd (cpu v : Z) (f : Z → Z) : Z → Z := λ c, if c =? cpu then v else f c.

Section Svm.
Context (hw : Z → cpu_hw).

Definition vmrun_svm_enable (cpu : Z) (s : svm_state) : svm_state :=
  s <| msr_efer ::= upd cpu (Z.lor (s.(msr_efer) cpu) (BIT MSR_EFER_SVM_EN_BIT)) |>.

Definition vmrun_svm_disable (cpu : Z) (s : svm_state) : svm_state :=
  s <| msr_efer ::= upd cpu (Z.land (s.(msr_efer) cpu) (not32 (BIT MSR_EFER_SVM_EN_BIT))) |>.

Definition vmrun_svm_check (cpu : Z) (s : svm_state) : bool :=
  truth (Z.land (s.(msr_efer) cpu) (BIT MSR_EFER_SVM_EN_BIT)).

(** The rest of the function only prints. *)
Definition vmrun_has_svm (cpu : Z) : bool :=
  if negb (truth (Z.land (Z.shiftr (hw cpu).(hw_ext1_ecx) CPUID_EXT_1_SVM_BIT) 1)) then false
  else if negb (truth (Z.land (hw cpu).(hw_vm_cr) (BIT MSR_VM_CR_SVM_DIS_BIT))) then true
  else false.

(** The path [err]. *)
Definition enable_err (cpu : Z) (s : svm_state) : svm_state :=
  s <| cpus_enabled ::= λ e, e ∖ {[ cpu ]} |> <| cpu_enable_failed ::= λ n, n + 1 |>.

(** On CPU [cpu]. *)
Definition vmrun_cpu_enable_nolock (cpu : Z) (s : svm_state) : svm_state :=
  if decide (cpu ∈ s.(cpus_enabled)) then s
  else
    let s := s <| cpus_enabled ::= λ e, {[ cpu ]} ∪ e |> in
    if vmrun_svm_check cpu s then enable_err cpu s
    else if negb (vmrun_has_svm cpu) then enable_err cpu s
    else match s.(local_cpu_data) !! cpu with
    | None => enable_err cpu s
    | Some a =>
        let max := u32 ((hw cpu).(hw_exta_ebx) - 1) in
        let cd := a.(ca_data) <| max_asid := max |> <| next_asid := u32 (max + 1) |>
                              <| cd_asid_generation := 1 |> <| tss_type := (hw cpu).(hw_tss_type) |> in
        let s := s <| local_cpu_data ::= <[cpu := a <| ca_data := cd |>]> |> in
        let s := vmrun_svm_enable cpu s in
        s <| msr_hsave ::= upd cpu (u32 (Z.shiftl a.(ca_save_pfn) PAGE_SHIFT)) |>
    end.

Definition vmrun_cpu_enable (cpu : Z) (s : svm_state) : Z * svm_state :=
  (0, if truth s.(vmrun_usage_count) then vmrun_cpu_enable_nolock cpu s else s).

Definition vmrun_cpu_disable_nolock (cpu : Z) (s : svm_state) : svm_state :=
  if decide (cpu ∈ s.(cpus_enabled)) then
    vmrun_svm_disable cpu (s <| cpus_enabled ::= λ e, e ∖ {[ cpu ]} |>)
  else s.

Definition vmrun_cpu_disable (cpu : Z) (s : svm_state) : Z * svm_state :=
  (0, if truth s.(vmrun_usage_count) then vmrun_cpu_disable_nolock cpu s else s).

Definition on_each_cpu (f : Z → svm_state → svm_state) (s : svm_state) : svm_state :=
  foldl (λ s cpu, f cpu s) s s.(cpus_online).

(** [None]: BUG_ON. *)
Definition vmrun_cpu_disable_all_nolock (s : svm_state) : option svm_state :=
  if negb (truth s.(vmrun_usage_count)) then None
  else
    let s := s <| vmrun_usage_count ::= λ n, n - 1 |> in
    Some (if negb (truth s.(vmrun_usage_count)) then on_each_cpu vmrun_cpu_disable_nolock s else s).

Definition vmrun_cpu_disable_all := vmrun_cpu_disable_all_nolock.

Definition vmrun_cpu_enable_all (s : svm_state) : option (Z * svm_state) :=
  let s := s <| vmrun_usage_count ::= λ n, n + 1 |> in
  if s.(vmrun_usage_count) =? 1 then
    let s := s <| cpu_enable_failed := 0 |> in
    let s := on_each_cpu vmrun_cpu_enable_nolock s in
    if truth s.(cpu_enable_failed) then
      s ← vmrun_cpu_disable_all_nolock s; Some (- EBUSY, s)
    else Some (0, s)
  else Some (0, s).

(** Hotplug: the CPU joins the online ones, or leaves them. *)
Inductive hotplug := CPU_STARTING | CPU_DYING.

Definition vmrun_cpu_hotplug (ev : hotplug) (cpu : Z) (s : svm_state) : svm_state :=
  match ev with
  | CPU_DYING => (vmrun_cpu_disable cpu s).2
  | CPU_STARTING => (vmrun_cpu_enable cpu s).2
  end.

(** ** Module load and unload: the per-CPU data *)

(** [alloc]: the results of [kzalloc] and [alloc_page], [None] a failure. *)
Definition vmrun_cpu_setup (cpu : Z) (kz : bool) (page : option Z) (s : svm_state) : Z * svm_state :=
  if negb kz then (- ENOMEM, s)
  else match page with
  | None => (- ENOMEM, s)
  | Some pfn =>
      let cd := {| cd_cpu := cpu; cd_asid_generation := 0; max_asid := 0; next_asid := 0; tss_type := 0 |} in
      (0, s <| local_cpu_data ::= <[cpu := {| ca_data := cd; ca_save_pfn := pfn |}]> |>)
  end.

(** [me] is [raw_smp_processor_id()]. *)
Definition vmrun_cpu_unsetup (me cpu : Z) (s : svm_state) : svm_state :=
  s <| local_cpu_data ::= delete me |>.

End Svm.
