(* ===== verification/CpuEnableProps.v ===== *)
(** * Turning SVM on and off: all CPUs or none *)

From S2P Require Import Prelude.
From S2P Require Import Spte.
From S2P Require Import Vcpu.
From S2P Require Import Vmcb.
From S2P Require Import Run.
From S2P Require Import CpuEnable.

#[local] Arguments Z.lor : simpl never.
#[local] Arguments Z.land : simpl never.
#[local] Arguments Z.testbit : simpl never.

(** EFER.SVME of a CPU. *)
Definition svme (s : svm_state) (c : Z) : bool := Z.testbit (s.(msr_efer) c) 12.

(** SVM is on exactly on the CPUs in the mask, which are online; without users
    there are none. *)
Record svm_inv (s : svm_state) : Prop := {
  sv_nodup : NoDup s.(cpus_online);
  sv_online : ∀ c, c ∈ s.(cpus_enabled) → c ∈ s.(cpus_online);
  sv_svme : ∀ c, c ∈ s.(cpus_online) → svme s c = true ↔ c ∈ s.(cpus_enabled);
  sv_usage : 0 <= s.(vmrun_usage_count);
  sv_unused : s.(vmrun_usage_count) = 0 → s.(cpus_enabled) = ∅
}.

Lemma svm_check_bit (s : svm_state) (c : Z) : vmrun_svm_check c s = svme s c.
Proof.
  unfold vmrun_svm_check, svme. change (BIT MSR_EFER_SVM_EN_BIT) with (BIT 12). by rewrite truth_land_BIT.
Qed.

Lemma upd_eq (c v : Z) (f : Z → Z) : upd c v f c = v.
Proof. unfold upd. by rewrite Z.eqb_refl. Qed.

Lemma upd_ne (c d v : Z) (f : Z → Z) : d ≠ c → upd c v f d = f d.
Proof. intros H. unfold upd. by rewrite (proj2 (Z.eqb_neq d c) H). Qed.

(** ** One CPU *)

(** What running a function on CPU [c] leaves of the rest. *)
Record only_cpu (c : Z) (s s' : svm_state) : Prop := {
  oc_online : s'.(cpus_online) = s.(cpus_online);
  oc_usage : s'.(vmrun_usage_count) = s.(vmrun_usage_count);
  oc_enabled : ∀ d, d ≠ c → d ∈ s'.(cpus_enabled) ↔ d ∈ s.(cpus_enabled);
  oc_svme : ∀ d, d ≠ c → svme s' d = svme s d;
  oc_data : ∀ d, is_Some (s'.(local_cpu_data) !! d) ↔ is_Some (s.(local_cpu_data) !! d)
}.

(** The same for a list of CPUs. *)
Record only_cpus (l : list Z) (s s' : svm_state) : Prop := {
  os_online : s'.(cpus_online) = s.(cpus_online);
  os_usage : s'.(vmrun_usage_count) = s.(vmrun_usage_count);
  os_enabled : ∀ d, d ∉ l → d ∈ s'.(cpus_enabled) ↔ d ∈ s.(cpus_enabled);
  os_svme : ∀ d, d ∉ l → svme s' d = svme s d;
  os_data : ∀ d, is_Some (s'.(local_cpu_data) !! d) ↔ is_Some (s.(local_cpu_data) !! d)
}.

Lemma only_cpus_nil (s : svm_state) : only_cpus [] s s.
Proof. by constructor. Qed.

Lemma only_cpus_cons (c : Z) (l : list Z) (s s1 s2 : svm_state) :
  only_cpu c s s1 → only_cpus l s1 s2 → only_cpus (c :: l) s s2.
Proof.
  intros H1 H2. constructor.
  - by rewrite (os_online _ _ _ H2), (oc_online _ _ _ H1).
  - by rewrite (os_usage _ _ _ H2), (oc_usage _ _ _ H1).
  - intros d [Hc Hl]%not_elem_of_cons. by rewrite (os_enabled _ _ _ H2), (oc_enabled _ _ _ H1).
  - intros d [Hc Hl]%not_elem_of_cons. by rewrite (os_svme _ _ _ H2), (oc_svme _ _ _ H1).
  - intros d. by rewrite (os_data _ _ _ H2), (oc_data _ _ _ H1).
Qed.

Lemma svme_upd_lor (s : svm_state) (c d : Z) :
  svme (vmrun_svm_enable c s) d = (d =? c) || svme s d.
Proof.
  unfold svme, vmrun_svm_enable. simpl. unfold upd.
  destruct (Z.eqb_spec d c) as [->|]; [|done]. rewrite Z.lor_spec. apply orb_true_r.
Qed.

Lemma svme_upd_land (s : svm_state) (c d : Z) :
  svme (vmrun_svm_disable c s) d = negb (d =? c) && svme s d.
Proof.
  unfold svme, vmrun_svm_disable. simpl. unfold upd.
  destruct (Z.eqb_spec d c) as [->|]; [|done]. rewrite Z.land_spec. apply andb_false_r.
Qed.

Lemma enable_err_only (c : Z) (s s0 : svm_state) :
  s0.(cpus_enabled) = {[ c ]} ∪ s.(cpus_enabled) → s0.(cpus_online) = s.(cpus_online) →
  s0.(vmrun_usage_count) = s.(vmrun_usage_count) → s0.(msr_efer) = s.(msr_efer) →
  s0.(local_cpu_data) = s.(local_cpu_data) → only_cpu c s (enable_err c s0).
Proof.
  intros He Ho Hu Hm Hd. constructor; simpl; [done|done| | |].
  - intros d Hd'. rewrite He. set_solver.
  - intros d _. unfold svme. simpl. by rewrite Hm.
  - intros d. by rewrite Hd.
Qed.

Lemma disable_one (c : Z) (s : svm_state) :
  (svme s c = true ↔ c ∈ s.(cpus_enabled)) →
  let s' := vmrun_cpu_disable_nolock c s in
  only_cpu c s s' ∧ c ∉ s'.(cpus_enabled) ∧ svme s' c = false.
Proof.
  intros Hs. cbv zeta. unfold vmrun_cpu_disable_nolock.
  destruct (decide (c ∈ s.(cpus_enabled))) as [Hc|Hc].
  - split_and!.
    + constructor; simpl; [done|done|set_solver| |done].
      intros d Hd. unfold svme. simpl. by rewrite upd_ne.
    + simpl. set_solver.
    + rewrite svme_upd_land, Z.eqb_refl. done.
  - split_and!; [constructor; done|done|]. apply not_true_is_false. tauto.
Qed.

Section Svm.
Context (hw : Z → cpu_hw).

(** A CPU that can be enabled. *)
Definition capable (s : svm_state) (c : Z) : bool :=
  vmrun_has_svm hw c && bool_decide (is_Some (s.(local_cpu_data) !! c)).

Lemma enable_one (c : Z) (s : svm_state) :
  c ∉ s.(cpus_enabled) → svme s c = false →
  let s' := vmrun_cpu_enable_nolock hw c s in
  only_cpu c s s' ∧ (c ∈ s'.(cpus_enabled) ↔ capable s c = true) ∧ svme s' c = capable s c ∧
  s'.(cpu_enable_failed) = s.(cpu_enable_failed) + b2z (negb (capable s c)).
Proof using hw.
  intros Hc Hs. cbv zeta. unfold vmrun_cpu_enable_nolock. rewrite decide_False by done.
  rewrite svm_check_bit. set (s0 := s <| cpus_enabled ::= _ |>).
  replace (svme s0 c) with false by (by rewrite <- Hs).
  assert (He : only_cpu c s (enable_err c s0)) by (by apply enable_err_only).
  assert (Hi : c ∉ (enable_err c s0).(cpus_enabled)) by (simpl; set_solver).
  unfold capable. destruct (vmrun_has_svm hw c); simpl negb; cbv iota; simpl andb.
  2: { split_and!; [done| |done|done]. split; [by intros ?%Hi|discriminate]. }
  change (s0.(local_cpu_data)) with (s.(local_cpu_data)).
  destruct (s.(local_cpu_data) !! c) as [a|] eqn:Ha.
  2: { split_and!; [done| |done|done]. split; [by intros ?%Hi|discriminate]. }
  split_and!.
  - constructor; simpl; [done|done|set_solver| |].
    + intros d Hd. unfold svme. simpl. by rewrite upd_ne.
    + intros d. destruct (decide (d = c)) as [->|Hd].
      * rewrite lookup_insert_eq, Ha. split; eauto.
      * by rewrite lookup_insert_ne by done.
  - simpl. set_solver.
  - unfold svme. simpl. rewrite upd_eq, Z.lor_spec. apply orb_true_r.
  - simpl. lia.
Qed.

Lemma only_cpu_capable (c d : Z) (s s' : svm_state) : only_cpu c s s' → capable s' d = capable s d.
Proof using hw. intros H. unfold capable. f_equal. apply bool_decide_ext, (oc_data _ _ _ H). Qed.

(** ** All CPUs *)

Lemma enable_fold (l : list Z) (s : svm_state) :
  NoDup l → (∀ c, c ∈ l → c ∉ s.(cpus_enabled) ∧ svme s c = false) →
  let s' := foldl (λ s cpu, vmrun_cpu_enable_nolock hw cpu s) s l in
  only_cpus l s s' ∧
  (∀ c, c ∈ l → (c ∈ s'.(cpus_enabled) ↔ capable s c = true) ∧ svme s' c = capable s c) ∧
  s'.(cpu_enable_failed) = s.(cpu_enable_failed) + Z.of_nat (length (filter (λ c, capable s c = false) l)).
Proof using hw.
  cbv zeta. revert s. induction l as [|c l IH]; intros s Hnd Hoff.
  { simpl. split_and!; [apply only_cpus_nil|by intros ? ?%not_elem_of_nil|lia]. }
  apply NoDup_cons in Hnd as [Hcl Hnd].
  destruct (Hoff c (list_elem_of_here _ _)) as [Hc Hs].
  destruct (enable_one c s Hc Hs) as (H1 & Hin & Hon & Hf). simpl foldl.
  set (s1 := vmrun_cpu_enable_nolock hw c s) in *.
  assert (Hcap : ∀ d, capable s1 d = capable s d) by (intros d; by apply (only_cpu_capable c)).
  destruct (IH s1 Hnd) as (H2 & Hl & Hf2).
  { intros d Hd. assert (d ≠ c) by (by intros ->). destruct (Hoff d (list_elem_of_further _ _ _ Hd)).
    by rewrite (oc_enabled _ _ _ H1), (oc_svme _ _ _ H1). }
  split_and!.
  - by apply (only_cpus_cons c l s s1).
  - intros d [->|Hd]%elem_of_cons.
    + rewrite (os_enabled _ _ _ H2), (os_svme _ _ _ H2) by done. by split.
    + rewrite <- Hcap. by apply Hl.
  - rewrite Hf2, Hf. rewrite (list_filter_iff _ (λ d, capable s d = false)) by (intros d; by rewrite Hcap).
    rewrite filter_cons. destruct (decide (capable s c = false)) as [Hx|Hx].
    + rewrite Hx. simpl. lia.
    + apply not_false_is_true in Hx. rewrite Hx. simpl. lia.
Qed.
End Svm.

Lemma disable_fold (l : list Z) (s : svm_state) :
  NoDup l → (∀ c, c ∈ l → svme s c = true ↔ c ∈ s.(cpus_enabled)) →
  let s' := foldl (λ s cpu, vmrun_cpu_disable_nolock cpu s) s l in
  only_cpus l s s' ∧ (∀ c, c ∈ l → c ∉ s'.(cpus_enabled) ∧ svme s' c = false).
Proof.
  cbv zeta. revert s. induction l as [|c l IH]; intros s Hnd Hon.
  { split; [apply only_cpus_nil|by intros ? ?%not_elem_of_nil]. }
  apply NoDup_cons in Hnd as [Hcl Hnd].
  destruct (disable_one c s (Hon c (list_elem_of_here _ _))) as (H1 & Hout & Hoff). simpl foldl.
  set (s1 := vmrun_cpu_disable_nolock c s) in *.
  destruct (IH s1 Hnd) as (H2 & Hl).
  { intros d Hd. assert (d ≠ c) by (by intros ->).
    rewrite (oc_enabled _ _ _ H1), (oc_svme _ _ _ H1) by done.
    apply Hon. by apply list_elem_of_further. }
  split; [by apply (only_cpus_cons c l s s1)|].
  intros d [->|Hd]%elem_of_cons; [|by apply Hl].
  by rewrite (os_enabled _ _ _ H2), (os_svme _ _ _ H2).
Qed.

Lemma enabled_empty (s : svm_state) :
  (∀ c, c ∈ s.(cpus_enabled) → c ∈ s.(cpus_online)) →
  (∀ c, c ∈ s.(cpus_online) → c ∉ s.(cpus_enabled)) → s.(cpus_enabled) = ∅.
Proof. intros Hon Hoff. apply set_eq. intros c. split; [|by intros ?%elem_of_empty]. firstorder. Qed.

(** Turning SVM off on every online CPU. *)
Lemma disable_online (s : svm_state) :
  NoDup s.(cpus_online) → (∀ c, c ∈ s.(cpus_enabled) → c ∈ s.(cpus_online)) →
  (∀ c, c ∈ s.(cpus_online) → svme s c = true ↔ c ∈ s.(cpus_enabled)) →
  let s' := on_each_cpu vmrun_cpu_disable_nolock s in
  s'.(cpus_online) = s.(cpus_online) ∧ s'.(vmrun_usage_count) = s.(vmrun_usage_count) ∧
  s'.(cpus_enabled) = ∅ ∧ (∀ c, c ∈ s.(cpus_online) → svme s' c = false) ∧
  (∀ d, is_Some (s'.(local_cpu_data) !! d) ↔ is_Some (s.(local_cpu_data) !! d)).
Proof.
  intros Hnd Hon Hs. cbv zeta. unfold on_each_cpu.
  destruct (disable_fold s.(cpus_online) s Hnd Hs) as (H1 & H2).
  set (s' := foldl _ _ _) in *.
  split_and!; [apply H1|apply H1| |intros c Hc; by apply H2|apply H1].
  apply enabled_empty; intros c Hc; rewrite (os_online _ _ _ H1) in *; [|by apply H2].
  destruct (decide (c ∈ s.(cpus_online))) as [|Hn]; [done|].
  apply Hon. by apply (os_enabled _ _ _ H1 c Hn).
Qed.

Lemma svm_inv_off (s : svm_state) :
  NoDup s.(cpus_online) → s.(cpus_enabled) = ∅ → 0 <= s.(vmrun_usage_count) →
  (∀ c, c ∈ s.(cpus_online) → svme s c = false) → svm_inv s.
Proof.
  intros Hnd He Hu Hoff. constructor; [done| | |done|done].
  - intros c. rewrite He. by intros ?%elem_of_empty.
  - intros c Hc. rewrite He, (Hoff c Hc). split; [discriminate|by intros ?%elem_of_empty].
Qed.

(** Two states that agree on what the invariant speaks of, but for the count. *)
Lemma svm_inv_usage (s : svm_state) (n : Z) :
  svm_inv s → 0 < n → svm_inv (s <| vmrun_usage_count := n |>).
Proof. intros [? ? ? ? ?] Hn. constructor; simpl; [done|done|done|lia|lia]. Qed.

Lemma svm_inv_all_off (s : svm_state) (c : Z) :
  svm_inv s → s.(vmrun_usage_count) = 0 → c ∈ s.(cpus_online) → c ∉ s.(cpus_enabled) ∧ svme s c = false.
Proof.
  intros I Hu Hc. pose proof (sv_svme s I c Hc) as Hs. rewrite (sv_unused s I Hu) in *.
  split; [apply not_elem_of_empty|]. apply not_true_is_false. intros H%Hs. by apply not_elem_of_empty in H.
Qed.

Section EnableAll.
Context (hw : Z → cpu_hw).

(** The first user, after the count: SVM is on exactly on the capable CPUs. *)
Lemma enable_online (s : svm_state) :
  svm_inv s → s.(vmrun_usage_count) = 0 →
  let s1 := s <| vmrun_usage_count := 1 |> <| cpu_enable_failed := 0 |> in
  let s' := on_each_cpu (vmrun_cpu_enable_nolock hw) s1 in
  s'.(cpus_online) = s.(cpus_online) ∧ s'.(vmrun_usage_count) = 1 ∧ svm_inv s' ∧
  (∀ c, c ∈ s.(cpus_online) → svme s' c = capable hw s c) ∧
  (∀ d, is_Some (s'.(local_cpu_data) !! d) ↔ is_Some (s.(local_cpu_data) !! d)) ∧
  (s'.(cpu_enable_failed) = 0 ↔ ∀ c, c ∈ s.(cpus_online) → capable hw s c = true).
Proof using hw.
  intros I Hu. cbv zeta. unfold on_each_cpu.
  set (s1 := s <| vmrun_usage_count := 1 |> <| cpu_enable_failed := 0 |>).
  destruct (enable_fold hw s1.(cpus_online) s1 (sv_nodup s I)) as (H1 & H2 & Hf).
  { intros c Hc. exact (svm_inv_all_off s c I Hu Hc). }
  change (s1.(cpus_online)) with (s.(cpus_online)) in *.
  set (s' := foldl _ _ _) in *.
  assert (Hout : ∀ c, c ∈ s'.(cpus_enabled) → c ∈ s.(cpus_online)).
  { intros c Hc. destruct (decide (c ∈ s.(cpus_online))) as [|Hn]; [done|].
    apply (sv_online s I). by apply (os_enabled _ _ _ H1 c Hn). }
  split_and!; [apply H1|apply H1| |intros c Hc; by apply H2|apply H1|].
  - constructor; rewrite ?(os_online _ _ _ H1), ?(os_usage _ _ _ H1); simpl;
      [apply I|done| |lia|lia].
    intros c Hc. destruct (H2 c Hc) as [-> ->]. done.
  - rewrite Hf. simpl. change (capable hw s1) with (capable hw s). split.
    + intros Hz c Hc. apply not_false_is_true. intros Hx.
      assert (c ∈ filter (λ c, capable hw s c = false) s.(cpus_online)) as Hin
        by (by apply list_elem_of_filter).
      destruct (filter _ _); [by apply not_elem_of_nil in Hin|simpl in Hz; lia].
    + intros Hall. destruct (filter _ _) as [|c l] eqn:E; [done|].
      pose proof (list_elem_of_here c l) as Hin. rewrite <- E in Hin.
      apply list_elem_of_filter in Hin as [Hx Hc]. change (capable hw s c = false) in Hx.
      specialize (Hall c Hc). congruence.
Qed.

(** What a caller of [vmrun_cpu_enable_all] sees. *)
Record enable_all_outcome (s : svm_state) (r : Z) (s' : svm_state) : Prop := {
  ea_inv : svm_inv s';
  ea_online : s'.(cpus_online) = s.(cpus_online);
  ea_data : ∀ d, is_Some (s'.(local_cpu_data) !! d) ↔ is_Some (s.(local_cpu_data) !! d);
  ea_result : r = 0 ∨ r = - EBUSY;
  ea_when : r = 0 ↔ s.(vmrun_usage_count) ≠ 0 ∨ ∀ c, c ∈ s.(cpus_online) → capable hw s c = true;
  ea_count : r = 0 → s'.(vmrun_usage_count) = s.(vmrun_usage_count) + 1;
  ea_more : r = 0 → s.(vmrun_usage_count) ≠ 0 → ∀ c, svme s' c = svme s c;
  ea_first : r = 0 → s.(vmrun_usage_count) = 0 → ∀ c, c ∈ s.(cpus_online) → svme s' c = true;
  ea_none : r = - EBUSY → s'.(vmrun_usage_count) = 0 ∧ s'.(cpus_enabled) = ∅ ∧
     ∀ c, c ∈ s.(cpus_online) → svme s' c = false
}.

Lemma enable_all_spec (s : svm_state) :
  svm_inv s → ∃ r s', vmrun_cpu_enable_all hw s = Some (r, s') ∧ enable_all_outcome s r s'.
Proof using hw.
  intros I. unfold vmrun_cpu_enable_all. pose proof (sv_usage s I) as Hu0.
  cbv zeta. set (s0 := s <| vmrun_usage_count ::= λ n, n + 1 |>).
  replace (s0.(vmrun_usage_count)) with (s.(vmrun_usage_count) + 1) by reflexivity.
  destruct (Z.eqb_spec (s.(vmrun_usage_count) + 1) 1) as [H1|H1].
  2: { exists 0, s0. split; [done|].
       constructor; [apply (svm_inv_usage s); [done|lia]|done|done|by left| |done|done|lia|by intros].
       split; [intros _; left; lia|done]. }
  assert (Hu : s.(vmrun_usage_count) = 0) by lia.
  destruct (enable_online s I Hu) as (Hon & Husage & I' & Hs & Hd & Hf).
  replace s0 with (s <| vmrun_usage_count := 1 |>) by (subst s0; simpl; by rewrite Hu).
  set (s' := on_each_cpu _ _) in *.
  destruct (decide (s'.(cpu_enable_failed) = 0)) as [Hz|Hz].
  - exists 0, s'. rewrite Hz. split; [done|]. pose proof (proj1 Hf Hz) as Hall.
    constructor; [done|done|done|by left| |lia|lia| |by intros].
    + split; [by right|done].
    + intros _ _ c Hc. by rewrite (Hs c Hc), (Hall c Hc).
  - rewrite (truth_nonzero _ Hz). unfold vmrun_cpu_disable_all_nolock. rewrite Husage. simpl.
    set (s2 := s' <| vmrun_usage_count := _ |>).
    destruct (disable_online s2 (sv_nodup s' I') (sv_online s' I') (sv_svme s' I')) as (D1 & D2 & D3 & D4 & D5).
    set (s3 := on_each_cpu _ s2) in *.
    assert (H3u : s3.(vmrun_usage_count) = 0) by (rewrite D2; simpl; lia).
    exists (- EBUSY), s3. split; [done|].
    constructor; [|by rewrite D1, <- Hon| |by right| |by intros|by intros|by intros|].
    + apply svm_inv_off; [rewrite D1; apply I'|done|lia|]. intros c. rewrite D1. apply D4.
    + intros d. by rewrite D5, <- Hd.
    + split; [by intros|]. intros [Hx|Hx]; [lia|]. by apply Hf in Hx.
    + intros _. split_and!; [done|done|]. intros c Hc. apply D4. simpl. by rewrite Hon.
Qed.

(** [vmrun_cpu_enable_all] is all or nothing and keeps the
    invariant.  It succeeds exactly when SVM was in use already or every online
    CPU can run it; the first user finds EFER.SVME set on every online CPU.
    When one CPU cannot, the result is -EBUSY, the count is back at zero, and
    SVM is off on every CPU, those enabled on the way included. *)
Theorem cpu_enable_all_atomic (s : svm_state) :
  svm_inv s → ∃ r s', vmrun_cpu_enable_all hw s = Some (r, s') ∧ enable_all_outcome s r s'.
Proof using hw. apply enable_all_spec. Qed.

(** ** Virtual machines and CPUs that come and go *)

(** [n] is the number of virtual machines: [vmrun_create_vm] calls
    [vmrun_cpu_enable_all], [vmrun_destroy_vm] calls [vmrun_cpu_disable_all].
    A CPU that comes up has been reset: its EFER.SVME is clear. *)
Inductive svm_step : Z * svm_state → Z * svm_state → Prop :=
  | step_create n s s' :
      vmrun_cpu_enable_all hw s = Some (0, s') → svm_step (n, s) (n + 1, s')
  | step_create_failed n s r s' :
      vmrun_cpu_enable_all hw s = Some (r, s') → r ≠ 0 → svm_step (n, s) (n, s')
  | step_destroy n s s' :
      0 < n → vmrun_cpu_disable_all s = Some s' → svm_step (n, s) (n - 1, s')
  | step_starting n s c :
      c ∉ s.(cpus_online) → svme s c = false →
      svm_step (n, s) (n, vmrun_cpu_hotplug hw CPU_STARTING c (s <| cpus_online ::= cons c |>))
  | step_dying n s c :
      c ∈ s.(cpus_online) →
      svm_step (n, s) (n, (vmrun_cpu_hotplug hw CPU_DYING c s) <| cpus_online ::= filter (λ d, d ≠ c) |>).

(** While there are [n] virtual machines. *)
Record svm_users (p : Z * svm_state) : Prop := {
  su_inv : svm_inv p.2;
  su_count : p.2.(vmrun_usage_count) = p.1;
  su_on : 0 < p.1 → ∀ c, c ∈ p.2.(cpus_online) → svme p.2 c = capable hw p.2 c
}.

Lemma capable_data (s s' : svm_state) (c : Z) :
  (∀ d, is_Some (s'.(local_cpu_data) !! d) ↔ is_Some (s.(local_cpu_data) !! d)) →
  capable hw s' c = capable hw s c.
Proof using hw. intros H. unfold capable. f_equal. apply bool_decide_ext, H. Qed.

Lemma create_users (n r : Z) (s s' : svm_state) :
  svm_users (n, s) → vmrun_cpu_enable_all hw s = Some (r, s') →
  svm_users (if decide (r = 0) then n + 1 else n, s').
Proof using hw.
  intros [I Hn Hon] He. simpl in *.
  destruct (enable_all_spec s I) as (r' & s'' & He' & O). rewrite He in He'. injection He' as <- <-.
  pose proof (sv_usage s I).
  destruct (decide (r = 0)) as [Hr|Hr].
  - constructor; simpl; [apply O|rewrite (ea_count _ _ _ O Hr); lia|].
    intros _ c. rewrite (ea_online _ _ _ O). intros Hc. rewrite (capable_data s) by apply O.
    destruct (decide (s.(vmrun_usage_count) = 0)) as [Hz|Hz].
    + rewrite (ea_first _ _ _ O Hr Hz c Hc). destruct (proj1 (ea_when _ _ _ O) Hr) as [|Hall]; [done|].
      by rewrite Hall.
    + rewrite (ea_more _ _ _ O Hr Hz). apply Hon; [lia|done].
  - assert (r = - EBUSY) as Hb by (destruct (ea_result _ _ _ O); tauto).
    assert (s.(vmrun_usage_count) = 0) as Hz.
    { destruct (decide (s.(vmrun_usage_count) = 0)) as [|Hx]; [done|].
      destruct Hr. apply (ea_when _ _ _ O). by left. }
    destruct (ea_none _ _ _ O Hb) as (Hu & _ & _). constructor; simpl; [apply O|lia|lia].
Qed.

Lemma destroy_users (n : Z) (s : svm_state) :
  svm_users (n, s) → 0 < n → ∃ s', vmrun_cpu_disable_all s = Some s' ∧ svm_users (n - 1, s').
Proof using hw.
  intros [I Hn Hon] Hp. simpl in *. unfold vmrun_cpu_disable_all, vmrun_cpu_disable_all_nolock.
  rewrite truth_nonzero by lia. cbn [negb]. cbv zeta.
  set (s1 := s <| vmrun_usage_count ::= λ n, n - 1 |>).
  assert (Hu : s1.(vmrun_usage_count) = n - 1) by (subst n; reflexivity).
  destruct (truth s1.(vmrun_usage_count)) eqn:Ht; cbn [negb].
  - exists s1. split; [done|].
    assert (n - 1 ≠ 0) by (intros Hz; by rewrite Hu, Hz in Ht).
    constructor; simpl; [|done|].
    + apply (svm_inv_usage s); [done|lia].
    + intros _ c Hc. apply (Hon Hp c Hc).
  - apply truth_false in Ht.
    destruct (disable_online s1 (sv_nodup s I) (sv_online s I) (sv_svme s I)) as (D1 & D2 & D3 & D4 & D5).
    eexists. split; [done|]. constructor; simpl; [|by rewrite D2|lia].
    apply svm_inv_off; [rewrite D1; apply I|done|lia|]. intros c. rewrite D1. apply D4.
Qed.

Lemma starting_users (n c : Z) (s : svm_state) :
  svm_users (n, s) → c ∉ s.(cpus_online) → svme s c = false →
  svm_users (n, vmrun_cpu_hotplug hw CPU_STARTING c (s <| cpus_online ::= cons c |>)).
Proof using hw.
  intros [I Hn Hon] Hc Hoff. simpl in *. unfold vmrun_cpu_enable. simpl snd.
  set (s1 := s <| cpus_online := c :: s.(cpus_online) |>).
  assert (Hce : c ∉ s.(cpus_enabled)) by (by intros ?%(sv_online s I)).
  assert (Hnd : NoDup (c :: s.(cpus_online))) by (constructor; [done|apply I]).
  destruct (truth s.(vmrun_usage_count)) eqn:Ht.
  2: { apply truth_false in Ht. constructor; simpl; [|done|lia].
       apply svm_inv_off; [done|by apply (sv_unused s I)|simpl; lia|].
       intros d [->|Hd]%elem_of_cons; [done|]. by apply (svm_inv_all_off s d I Ht Hd). }
  destruct (enable_one hw c s1 Hce Hoff) as (H1 & Hin & Hs & _).
  set (s' := vmrun_cpu_enable_nolock hw c s1) in *.
  assert (Hp : 0 < n).
  { pose proof (sv_usage s I). destruct (decide (n = 0)) as [Hz|]; [|lia]. by rewrite Hn, Hz in Ht. }
  assert (Hcap : capable hw s' c = capable hw s1 c) by apply capable_data, H1.
  constructor; [|exact (eq_trans (oc_usage _ _ _ H1) Hn)|]; simpl.
  - constructor; rewrite ?(oc_online _ _ _ H1), ?(oc_usage _ _ _ H1); [done| | |apply I|simpl; lia].
    + intros d Hd. simpl. destruct (decide (d = c)) as [->|Hne]; [apply list_elem_of_here|].
      apply list_elem_of_further, (sv_online s I). by apply (oc_enabled _ _ _ H1 d Hne).
    + intros d [->|Hd]%elem_of_cons; [by rewrite Hs, Hin|].
      assert (d ≠ c) by (by intros ->).
      rewrite (oc_svme _ _ _ H1), (oc_enabled _ _ _ H1) by done. by apply (sv_svme s I).
  - intros _ d. rewrite (oc_online _ _ _ H1). intros [->|Hd]%elem_of_cons; [by rewrite Hcap|].
    rewrite (oc_svme _ _ _ H1) by (by intros ->). rewrite (capable_data s) by apply H1.
    by apply Hon.
Qed.

Lemma dying_users (n c : Z) (s : svm_state) :
  svm_users (n, s) → c ∈ s.(cpus_online) →
  svm_users (n, (vmrun_cpu_hotplug hw CPU_DYING c s) <| cpus_online ::= filter (λ d, d ≠ c) |>).
Proof using hw.
  intros [I Hn Hon] Hc. simpl in *. unfold vmrun_cpu_disable. simpl snd.
  assert (Hnd : NoDup (filter (λ d, d ≠ c) s.(cpus_online))) by (apply NoDup_filter, I).
  destruct (truth s.(vmrun_usage_count)) eqn:Ht.
  2: { apply truth_false in Ht. constructor; simpl; [|done|lia].
       apply svm_inv_off; [done|by apply (sv_unused s I)|simpl; lia|].
       intros d [_ Hd]%list_elem_of_filter. by apply (svm_inv_all_off s d I Ht Hd). }
  destruct (disable_one c s (sv_svme s I c Hc)) as (H1 & Hout & Hs).
  set (s' := vmrun_cpu_disable_nolock c s) in *.
  assert (Hp : 0 < n).
  { pose proof (sv_usage s I). destruct (decide (n = 0)) as [Hz|]; [|lia]. by rewrite Hn, Hz in Ht. }
  constructor; [|exact (eq_trans (oc_usage _ _ _ H1) Hn)|]; simpl; rewrite (oc_online _ _ _ H1).
  - constructor; simpl; rewrite ?(oc_online _ _ _ H1), ?(oc_usage _ _ _ H1);
      [done| | |apply I|lia].
    + intros d Hd. assert (d ≠ c) as Hne by (by intros ->). apply list_elem_of_filter.
      split; [done|]. apply (sv_online s I). by apply (oc_enabled _ _ _ H1 d Hne).
    + intros d [Hne Hd]%list_elem_of_filter.
      change (svme s' d = true ↔ d ∈ s'.(cpus_enabled)).
      rewrite (oc_svme _ _ _ H1), (oc_enabled _ _ _ H1) by done. by apply (sv_svme s I).
  - intros _ d [Hne Hd]%list_elem_of_filter. change (svme s' d = capable hw s' d).
    rewrite (oc_svme _ _ _ H1) by done. rewrite (capable_data s) by apply H1. by apply Hon.
Qed.

Lemma svm_step_users (p q : Z * svm_state) : svm_step p q → svm_users p → svm_users q.
Proof using hw.
  intros Hstep U. destruct Hstep as [n s s' He|n s r s' He Hr|n s s' Hp Hd|n s c Hc Hs|n s c Hc].
  - by apply (create_users n 0 s s') in He.
  - apply (create_users n r s s') in He; [|done]. by rewrite decide_False in He.
  - destruct (destroy_users n s U Hp) as (s'' & Hd' & U'). rewrite Hd in Hd'. by injection Hd' as <-.
  - by apply starting_users.
  - by apply dying_users.
Qed.

(** C28. However virtual machines are created and destroyed and CPUs come
    and go, [vmrun_usage_count] is the number of virtual machines.  Without any,
    SVM is off on every online CPU; with some, it is on exactly on the online
    CPUs that can run it, and [vmrun_cpu_disable_all] does not hit its BUG_ON. *)
Theorem svm_usage_invariant (s0 s : svm_state) (n : Z) :
  svm_inv s0 → s0.(vmrun_usage_count) = 0 → rtc svm_step (0, s0) (n, s) →
  s.(vmrun_usage_count) = n ∧
  (n = 0 → ∀ c, c ∈ s.(cpus_online) → svme s c = false) ∧
  (0 < n → ∀ c, c ∈ s.(cpus_online) → svme s c = capable hw s c) ∧
  (0 < n → is_Some (vmrun_cpu_disable_all s)).
Proof using hw.
  intros I Hu Hrtc.
  assert (svm_users (n, s)) as U.
  { revert Hrtc. assert (svm_users (0, s0)) as U by (constructor; simpl; [done|done|lia]).
    intros Hrtc. remember (0, s0) as p. remember (n, s) as q. clear -U Hrtc. revert q Hrtc.
    intros q Hrtc. induction Hrtc; eauto using svm_step_users. }
  split_and!; [apply U| | |].
  - intros Hn c Hc. pose proof (su_count _ U) as Hu'. simpl in Hu'.
    by apply (svm_inv_all_off s c (su_inv _ U)); [lia|].
  - apply (su_on _ U).
  - intros Hp. destruct (destroy_users n s U Hp) as (s' & -> & _). by exists s'.
Qed.
End EnableAll.

(** ** Witnesses *)

Definition wit_hw (c : Z) : cpu_hw :=
  {| hw_ext1_ecx := if c =? 9 then 0 else 4; hw_exta_ebx := 64; hw_vm_cr := 0; hw_tss_type := 9 |}.

Definition wit_area (c : Z) : cpu_area :=
  {| ca_data := {| cd_cpu := c; cd_asid_generation := 0; max_asid := 0; next_asid := 0; tss_type := 0 |};
     ca_save_pfn := 256 + c |}.

(** Three CPUs with their data, two of them online; CPU 9 has no SVM. *)
Definition wit_svm (online : list Z) : svm_state :=
  {| cpus_online := online; cpus_enabled := ∅; vmrun_usage_count := 0; cpu_enable_failed := 0;
     msr_efer := λ _, 1280; msr_hsave := λ _, 0;
     local_cpu_data := {[ 0 := wit_area 0; 1 := wit_area 1; 9 := wit_area 9 ]} |}.

Lemma wit_svm_inv (online : list Z) : NoDup online → svm_inv (wit_svm online).
Proof. intros Hnd. by apply svm_inv_off; [| | |intros]. Qed.

Lemma cpu_enable_all_atomic_witness :
  (∃ r s', vmrun_cpu_enable_all wit_hw (wit_svm [0; 1]) = Some (r, s') ∧
     enable_all_outcome wit_hw (wit_svm [0; 1]) r s') ∧
  (∃ r s', vmrun_cpu_enable_all wit_hw (wit_svm [0; 9]) = Some (r, s') ∧
     enable_all_outcome wit_hw (wit_svm [0; 9]) r s').
Proof.
  split; apply cpu_enable_all_atomic, wit_svm_inv; apply (bool_decide_unpack _); reflexivity.
Defined.

(** One virtual machine, then CPU 1 comes up. *)
Definition wit_running : svm_state :=
  match vmrun_cpu_enable_all wit_hw (wit_svm [0]) with Some (_, s) => s | None => wit_svm [0] end.
Definition wit_hotplugged : svm_state :=
  vmrun_cpu_hotplug wit_hw CPU_STARTING 1 (wit_running <| cpus_online ::= cons 1 |>).

Lemma svm_usage_invariant_witness :
  wit_hotplugged.(vmrun_usage_count) = 1 ∧
  (1 = 0 → ∀ c, c ∈ wit_hotplugged.(cpus_online) → svme wit_hotplugged c = false) ∧
  (0 < 1 → ∀ c, c ∈ wit_hotplugged.(cpus_online) → svme wit_hotplugged c = capable wit_hw wit_hotplugged c) ∧
  (0 < 1 → is_Some (vmrun_cpu_disable_all wit_hotplugged)).
Proof.
  apply (svm_usage_invariant wit_hw (wit_svm [0])); [apply wit_svm_inv; apply (bool_decide_unpack _); reflexivity|done|].
  apply rtc_l with (1, wit_running); [by apply (step_create wit_hw 0)|].
  apply rtc_once, step_starting; [|reflexivity].
  apply (bool_decide_unpack _). reflexivity.
Defined.
