(* ===== verification/VcpuTable.v ===== *)
(** * VCPUs of a virtual machine: creation, lookup, release

    kernel/vmrun.c: [vmrun_vcpu_init] to [vmrun_vcpu_destroy], the table
    [vmrun->vcpus] with its two counters, [vmrun_vm_ioctl_create_vcpu] and the
    reference count of the virtual machine.

    [vmrun_vm_ioctl_create_vcpu] takes [vmrun->lock] twice (three times when it
    fails), so calls interleave; its critical sections are separate definitions
    here and the sequential function is their composition.  Memory is counted:
    VCPU structures and pages that are allocated and not freed. *)

From S2P Require Import Prelude.
From S2P Require Import Vcpu.
From S2P Require Import Vmcb.
From S2P Require Import VmcbProps.
From S2P Require Import Run.

Definition VMRUN_MAX_VCPUS : Z := 288.
Definition VMRUN_MAX_VCPU_ID : Z := 1023.

(** Allocations that are not freed. *)
Record resources := { live_vcpus : Z; live_pages : Z }.
#[export] Instance eta_resources : Eta resources := λ r,
  {| live_vcpus := r.(live_vcpus); live_pages := r.(live_pages) |}.

(** What the kernel's allocators and the surroundings give to one creation. *)
Record create_env := {
  ce_zalloc : bool;            (* kmem_cache_zalloc succeeds *)
  ce_run_page : bool;          (* alloc_page for vcpu->run *)
  ce_pae_page : bool;          (* alloc_page in alloc_mmu_pages *)
  ce_vmcb_page : option Z;     (* alloc_page for the VMCB: its frame number *)
  ce_hsave_page : bool;        (* alloc_page for hsave_page *)
  ce_cpu : Z;                  (* the CPU vmrun_vcpu_load runs on *)
  ce_segs : host_segs;
  ce_fd : Z                    (* anon_inode_getfd *)
}.
#[export] Instance eta_create_env : Eta create_env := λ r,
  {| ce_zalloc := r.(ce_zalloc); ce_run_page := r.(ce_run_page); ce_pae_page := r.(ce_pae_page);
     ce_vmcb_page := r.(ce_vmcb_page); ce_hsave_page := r.(ce_hsave_page); ce_cpu := r.(ce_cpu);
     ce_segs := r.(ce_segs); ce_fd := r.(ce_fd) |}.

(** [vmrun->vcpus], its counters and the reference count; [alive] is false
    once [vmrun_destroy_vm] has run. *)
Record vm_vcpus := {
  vcpus : list (option vmrun_vcpu);
  online_vcpus : Z;
  created_vcpus : Z;
  users_count : Z;
  alive : bool;
  res : resources
}.
#[export] Instance eta_vm_vcpus : Eta vm_vcpus := λ r,
  {| vcpus := r.(vcpus); online_vcpus := r.(online_vcpus); created_vcpus := r.(created_vcpus);
     users_count := r.(users_count); alive := r.(alive); res := r.(res) |}.

Definition get_pages (n : Z) (r : resources) : resources := r <| live_pages ::= λ k, k + n |>.

Section VcpuTable.
Context `{X : X86}.
Context (iopm_base : Z).
(** [vcpu->mmu] after [vmrun_mmu_reset_context] and after [vmrun_mmu_setup];
    the VCPU after [vmrun_mmu_unload] of a valid root. *)
Context (mmu_reset mmu_setup : vmrun_vcpu → vmrun_mmu) (mmu_free_valid_roots : vmrun_vcpu → vmrun_vcpu).

(** ** kernel/mmu.c *)

Definition alloc_mmu_pages (ok : bool) (r : resources) : Z * resources :=
  if negb ok then (- ENOMEM, r) else (0, get_pages 1 r).

(** [lm_root] is a second page, when it is there. *)
Definition free_mmu_pages (lm_root : bool) (r : resources) : resources :=
  let r := get_pages (- 1) r in if lm_root then get_pages (- 1) r else r.

Definition vmrun_mmu_create (ok : bool) (v : vmrun_vcpu) (r : resources) : Z * vmrun_vcpu * resources :=
  let v := v <| mmu ::= λ m, m <| root_hpa := INVALID_PAGE |> |> in
  let '(e, r) := alloc_mmu_pages ok r in (e, v, r).

Definition vmrun_mmu_unload (v : vmrun_vcpu) : vmrun_vcpu :=
  if v.(mmu).(root_hpa) =? INVALID_PAGE then v else mmu_free_valid_roots v.

Definition vmrun_mmu_destroy (lm_root : bool) (v : vmrun_vcpu) (r : resources) : resources :=
  free_mmu_pages lm_root r.

(** ** One VCPU *)

Definition vmrun_vcpu_init (env : create_env) (vid : Z) (v : vmrun_vcpu) (r : resources)
    : Z * vmrun_vcpu * resources :=
  let v := v <| mutex := false |> <| cpu := -1 |> <| vcpu_id := s32 vid |> in
  if negb env.(ce_run_page) then (- ENOMEM, v, r)
  else
    let r := get_pages 1 r in
    let v := v <| preempted := false |> in
    let '(e, v, r) := vmrun_mmu_create env.(ce_pae_page) v r in
    if e <? 0 then (e, v, get_pages (- 1) r) else (0, v, r).

Definition vmrun_vcpu_uninit (lm_root : bool) (v : vmrun_vcpu) (r : resources) : resources :=
  get_pages (- 1) (vmrun_mmu_destroy lm_root v r).

Definition vmrun_vcpu_free (lm_root : bool) (v : vmrun_vcpu) (r : resources) : resources :=
  let r := get_pages (- 1) r in
  let r := vmrun_vcpu_uninit lm_root v r in
  r <| live_vcpus ::= λ n, n - 1 |>.

(** [inl]: ERR_PTR.  A page that is not cleared by the allocator is cleared by
    [clear_page]. *)
Definition vmrun_vcpu_create (env : create_env) (vid : Z) (r : resources) : (Z + vmrun_vcpu) * resources :=
  if negb env.(ce_zalloc) then (inl (- ENOMEM), r)
  else
    let r := r <| live_vcpus ::= λ n, n + 1 |> in
    let free_vcpu r := r <| live_vcpus ::= λ n, n - 1 |> in
    let '(e, v, r) := vmrun_vcpu_init env vid zero_vcpu r in
    if truth e then (inl e, free_vcpu r)
    else match env.(ce_vmcb_page) with
    | None => (inl (- ENOMEM), free_vcpu (vmrun_vcpu_uninit false v r))
    | Some pfn =>
        let r := get_pages 1 r in
        if negb env.(ce_hsave_page) then
          (inl (- ENOMEM), free_vcpu (vmrun_vcpu_uninit false v (get_pages (- 1) r)))
        else
          let r := get_pages 1 r in
          let v := v <| vcpu_vmcb := zero_vmcb |> <| vmcb_pa := u64 (Z.shiftl pfn 12) |>
                     <| asid_generation := 0 |> in
          (inr (vmrun_vmcb_init iopm_base mmu_reset v), r)
    end.

Definition vmrun_vcpu_setup (env : create_env) (v : vmrun_vcpu) : option (Z * vmrun_vcpu) :=
  '(r, v) ← vmrun_vcpu_load false env.(ce_cpu) env.(ce_segs) v;
  if truth r then Some (r, v)
  else
    let v := vmrun_vcpu_reset iopm_base mmu_reset v in
    let v := v <| mmu := mmu_setup v |> in
    Some (r, vmrun_vcpu_put v).

(** [None]: the BUG_ON, or the mutex is never released. *)
Definition vmrun_vcpu_unload_mmu (env : create_env) (v : vmrun_vcpu) : option vmrun_vcpu :=
  '(r, v) ← vmrun_vcpu_load false env.(ce_cpu) env.(ce_segs) v;
  if truth r then None else Some (vmrun_vcpu_put (vmrun_mmu_unload v)).

Definition vmrun_vcpu_destroy (env : create_env) (lm_root : bool) (v : vmrun_vcpu) (r : resources)
    : option resources :=
  v ← vmrun_vcpu_unload_mmu env v; Some (vmrun_vcpu_free lm_root v r).

(** ** The table *)

Definition vmrun_get_vcpu (s : vm_vcpus) (i : Z) : option vmrun_vcpu :=
  match s.(vcpus) !! Z.to_nat i with Some (Some v) => Some v | _ => None end.

(** The VCPUs [vmrun_for_each_vcpu] goes through, in order: it stops at
    [online_vcpus] and at the first NULL. *)
Fixpoint each_vcpu (n : nat) (l : list (option vmrun_vcpu)) : list vmrun_vcpu :=
  match n, l with
  | S n, Some v :: l => v :: each_vcpu n l
  | _, _ => []
  end.

Definition vmrun_for_each_vcpu (s : vm_vcpus) : list vmrun_vcpu :=
  each_vcpu (Z.to_nat s.(online_vcpus)) s.(vcpus).

Definition vmrun_get_vcpu_by_id (s : vm_vcpus) (vid : Z) : option vmrun_vcpu :=
  if vid <? 0 then None
  else
    let vcpu := if vid <? VMRUN_MAX_VCPUS then vmrun_get_vcpu s vid else None in
    match vcpu with
    | Some v => if v.(vcpu_id) =? vid then Some v
                else find (λ v, v.(vcpu_id) =? vid) (vmrun_for_each_vcpu s)
    | None => find (λ v, v.(vcpu_id) =? vid) (vmrun_for_each_vcpu s)
    end.

(** [lm]: does the VCPU have an [lm_root] page? *)
Definition vmrun_free_vcpus (env : create_env) (lm : vmrun_vcpu → bool) (s : vm_vcpus) : option vm_vcpus :=
  vs ← mapM (vmrun_vcpu_unload_mmu env) (vmrun_for_each_vcpu s);
  let r := foldl (λ r v, vmrun_vcpu_free (lm v) v r) s.(res) vs in
  let n := Z.to_nat s.(online_vcpus) in
  Some (s <| res := r |> <| vcpus := replicate n None ++ drop n s.(vcpus) |> <| online_vcpus := 0 |>).

Definition vmrun_get_vmrun (s : vm_vcpus) : vm_vcpus := s <| users_count ::= λ n, n + 1 |>.

(** The part of [vmrun_destroy_vm] on the VCPUs. *)
Definition vmrun_put_vmrun (env : create_env) (lm : vmrun_vcpu → bool) (s : vm_vcpus) : option vm_vcpus :=
  let s := s <| users_count ::= λ n, n - 1 |> in
  if s.(users_count) =? 0 then
    s ← vmrun_free_vcpus env lm s; Some (s <| alive := false |>)
  else Some s.

(** ** [vmrun_vm_ioctl_create_vcpu] *)

(** Up to the first unlock; [inl]: return the error. *)
Definition create_begin (vid : Z) (s : vm_vcpus) : Z + vm_vcpus :=
  if vid >=? VMRUN_MAX_VCPU_ID then inl (- EINVAL)
  else if s.(created_vcpus) =? VMRUN_MAX_VCPUS then inl (- EINVAL)
  else inr (s <| created_vcpus ::= λ n, n + 1 |>).

(** Without the lock. *)
Definition create_build (env : create_env) (vid : Z) (r : resources) : option ((Z + vmrun_vcpu) * resources) :=
  match vmrun_vcpu_create env vid r with
  | (inl e, r) => Some (inl e, r)
  | (inr v, r) =>
      '(e, v) ← vmrun_vcpu_setup env v;
      if truth e then r ← vmrun_vcpu_destroy env false v r; Some (inl e, r) else Some (inr v, r)
  end.

(** The second critical section; [None]: the BUG_ON. *)
Definition create_commit (env : create_env) (lm : vmrun_vcpu → bool) (v : vmrun_vcpu) (vid : Z) (s : vm_vcpus)
    : option (Z * vm_vcpus) :=
  match vmrun_get_vcpu_by_id s vid with
  | Some _ => Some (- EEXIST, s)
  | None =>
      match vmrun_get_vcpu s s.(online_vcpus) with
      | Some _ => None
      | None =>
          let s := vmrun_get_vmrun s in
          let r := env.(ce_fd) in
          if r <? 0 then s ← vmrun_put_vmrun env lm s; Some (r, s)
          else Some (r, s <| vcpus ::= <[Z.to_nat s.(online_vcpus) := Some v]> |>
                          <| online_vcpus ::= λ n, n + 1 |>)
      end
  end.

(** The last critical section, after a failure. *)
Definition create_abort (s : vm_vcpus) : vm_vcpus := s <| created_vcpus ::= λ n, n - 1 |>.

Definition vmrun_vm_ioctl_create_vcpu (env : create_env) (lm : vmrun_vcpu → bool) (vid : Z) (s : vm_vcpus)
    : option (Z * vm_vcpus) :=
  match create_begin vid s with
  | inl e => Some (e, s)
  | inr s =>
      '(b, r) ← create_build env vid s.(res);
      let s := s <| res := r |> in
      match b with
      | inl e => Some (e, create_abort s)
      | inr v =>
          '(e, s) ← create_commit env lm v vid s;
          if e <? 0 then
            r ← vmrun_vcpu_destroy env false v s.(res);
            Some (e, create_abort (s <| res := r |>))
          else Some (e, s)
      end
  end.
End VcpuTable.

