(* ===== verification/VcpuTableProps.v ===== *)
(** * VCPUs of a virtual machine: the table under concurrent creations

    The table [vmrun->vcpus] represents a list of VCPUs; every interleaving of
    creations, uses and closed file descriptors keeps it that way. *)

From S2P Require Import Prelude.
From S2P Require Import Vcpu.
From S2P Require Import Vmcb.
From S2P Require Import VmcbProps.
From S2P Require Import Run.
From S2P Require Import VcpuTable.

(** ** The list a table stands for *)

Abbreviation max_vcpus := (Z.to_nat VMRUN_MAX_VCPUS).

Record table_of (vs : list vmrun_vcpu) (s : vm_vcpus) : Prop := {
  tb_vcpus : s.(vcpus) = (Some <$> vs) ++ replicate (max_vcpus - length vs) None;
  tb_online : s.(online_vcpus) = Z.of_nat (length vs);
  tb_bound : (length vs <= max_vcpus)%nat;
  tb_ids : NoDup (vcpu_id <$> vs);
  tb_range : Forall (λ v, 0 <= v.(vcpu_id) < VMRUN_MAX_VCPU_ID) vs
}.

Lemma each_vcpu_table (vs : list vmrun_vcpu) (l : list (option vmrun_vcpu)) :
  each_vcpu (length vs) ((Some <$> vs) ++ l) = vs.
Proof. induction vs as [|v vs IH]; [by destruct l|]. cbn. by f_equal. Qed.

Lemma for_each_table (vs : list vmrun_vcpu) (s : vm_vcpus) :
  table_of vs s → vmrun_for_each_vcpu s = vs.
Proof.
  intros T. unfold vmrun_for_each_vcpu. rewrite (tb_online _ _ T), (tb_vcpus _ _ T), Nat2Z.id.
  apply each_vcpu_table.
Qed.

Lemma get_vcpu_table (vs : list vmrun_vcpu) (s : vm_vcpus) (i : Z) :
  table_of vs s → vmrun_get_vcpu s i = vs !! Z.to_nat i.
Proof.
  intros T. unfold vmrun_get_vcpu. rewrite (tb_vcpus _ _ T).
  destruct (vs !! Z.to_nat i) as [v|] eqn:Hv.
  - rewrite lookup_app_l by (rewrite length_fmap; by eapply lookup_lt_Some).
    by rewrite list_lookup_fmap, Hv.
  - apply lookup_ge_None in Hv. rewrite lookup_app_r by (by rewrite length_fmap).
    destruct (replicate _ _ !! _) as [o|] eqn:Ho; [|done]. by apply lookup_replicate in Ho as [-> _].
Qed.

Lemma find_by_id (vs : list vmrun_vcpu) (v : vmrun_vcpu) (vid : Z) :
  NoDup (vcpu_id <$> vs) → v ∈ vs → v.(vcpu_id) = vid → find (λ v, v.(vcpu_id) =? vid) vs = Some v.
Proof.
  intros Hnd Hin <-. induction vs as [|w vs IH]; [by apply not_elem_of_nil in Hin|].
  cbn in *. apply NoDup_cons in Hnd as [Hw Hnd].
  destruct (Z.eqb_spec w.(vcpu_id) v.(vcpu_id)) as [He|He].
  - apply elem_of_cons in Hin as [->|Hin]; [done|]. destruct Hw. apply list_elem_of_fmap. by exists v.
  - apply elem_of_cons in Hin as [->|Hin]; [done|]. by apply IH.
Qed.

Lemma find_by_id_inv (vs : list vmrun_vcpu) (v : vmrun_vcpu) (vid : Z) :
  find (λ v, v.(vcpu_id) =? vid) vs = Some v → v ∈ vs ∧ v.(vcpu_id) = vid.
Proof.
  intros Hf. apply find_some in Hf as [Hin He]. apply list_elem_of_In in Hin. by apply Z.eqb_eq in He.
Qed.

(** The shortcut through [vcpus[id]] does not change what is found. *)
Lemma get_by_id_table (vs : list vmrun_vcpu) (s : vm_vcpus) (vid : Z) :
  table_of vs s → 0 <= vid → vmrun_get_vcpu_by_id s vid = find (λ v, v.(vcpu_id) =? vid) vs.
Proof.
  intros T Hv. unfold vmrun_get_vcpu_by_id. rewrite (proj2 (Z.ltb_ge vid 0) Hv).
  rewrite (for_each_table vs s T), (get_vcpu_table vs s _ T).
  destruct (if vid <? _ then _ else _) as [w|] eqn:Hw; [|done].
  destruct (Z.eqb_spec w.(vcpu_id) vid) as [He|]; [|done].
  symmetry. apply find_by_id; [apply T| |done].
  destruct (vid <? _); [by eapply list_elem_of_lookup_2|done].
Qed.

(** ** The operations on the list *)

Lemma table_insert (vs : list vmrun_vcpu) (s : vm_vcpus) (v : vmrun_vcpu) :
  table_of vs s → (length vs < max_vcpus)%nat → v.(vcpu_id) ∉ vcpu_id <$> vs →
  0 <= v.(vcpu_id) < VMRUN_MAX_VCPU_ID →
  table_of (vs ++ [v])
    (s <| vcpus ::= <[Z.to_nat s.(online_vcpus) := Some v]> |> <| online_vcpus ::= λ n, n + 1 |>).
Proof.
  intros T Hlt Hid Hr. destruct T as [Hv Ho Hb Hn Hf]. constructor; cbn [vcpus online_vcpus].
  - rewrite Hv, Ho, Nat2Z.id, length_app, fmap_app.
    rewrite insert_app_r_alt by (by rewrite length_fmap).
    rewrite length_fmap, Nat.sub_diag. replace (max_vcpus - length vs)%nat with (S (max_vcpus - length vs - 1)) by lia.
    rewrite <- app_assoc. cbn. do 3 f_equal. lia.
  - rewrite Ho, length_app. cbn. lia.
  - rewrite length_app. cbn. lia.
  - rewrite fmap_app. apply NoDup_app. split_and!; [done| |apply NoDup_singleton].
    intros x Hx Hx'. apply list_elem_of_singleton in Hx' as ->. done.
  - apply Forall_app. split; [done|]. by apply Forall_singleton.
Qed.

Lemma table_counters (vs : list vmrun_vcpu) (s s' : vm_vcpus) :
  table_of vs s → s'.(vcpus) = s.(vcpus) → s'.(online_vcpus) = s.(online_vcpus) → table_of vs s'.
Proof. intros [] Hv Ho. constructor; rewrite ?Hv, ?Ho; done. Qed.

(** ** Creations in flight *)

(** [flight]: the calls between their two critical sections, with the VCPU once
    it is built; [vm_open]: the VM's file descriptor is open; [vcpu_fds]: the
    number of open VCPU file descriptors. *)
Record table_sys := {
  ts_vm : vm_vcpus;
  flight : list (Z * option vmrun_vcpu);
  vm_open : bool;
  vcpu_fds : Z
}.
#[export] Instance eta_table_sys : Eta table_sys := λ r,
  {| ts_vm := r.(ts_vm); flight := r.(flight); vm_open := r.(vm_open); vcpu_fds := r.(vcpu_fds) |}.

(** After [vmrun_create_vm]. *)
Definition fresh_table : table_sys :=
  {| ts_vm := {| vcpus := replicate max_vcpus None; online_vcpus := 0; created_vcpus := 0;
                 users_count := 1; alive := true; res := {| live_vcpus := 0; live_pages := 0 |} |};
     flight := []; vm_open := true; vcpu_fds := 0 |}.

Section Table.
Context `{X : X86}.
Context (iopm_base : Z) (mmu_reset mmu_setup : vmrun_vcpu → vmrun_mmu).
Context (mmu_free_valid_roots : vmrun_vcpu → vmrun_vcpu) (lm : vmrun_vcpu → bool).

Abbreviation commit env v vid s := (create_commit mmu_free_valid_roots env lm v vid s).
Abbreviation put env s := (vmrun_put_vmrun mmu_free_valid_roots env lm s).
Abbreviation build env vid r := (create_build iopm_base mmu_reset mmu_setup mmu_free_valid_roots env vid r).

(** One critical section, or one stretch of code outside the lock. An ioctl
    pins the file descriptor it was called on. *)
Inductive table_step : table_sys → table_sys → Prop :=
  | ts_begin s vid vm :
      s.(vm_open) = true → 0 <= vid < 2 ^ 32 → create_begin vid s.(ts_vm) = inr vm →
      table_step s (s <| ts_vm := vm |> <| flight ::= cons (vid, None) |>)
  | ts_build s env i vid v r :
      s.(flight) !! i = Some (vid, None) → build env vid s.(ts_vm).(res) = Some (inr v, r) →
      table_step s (s <| ts_vm ::= λ vm, vm <| res := r |> |> <| flight ::= <[i := (vid, Some v)]> |>)
  | ts_build_failed s env i vid e r :
      s.(flight) !! i = Some (vid, None) → build env vid s.(ts_vm).(res) = Some (inl e, r) →
      table_step s (s <| ts_vm ::= λ vm, vm <| res := r |> |>)
  | ts_commit s env i vid v e vm :
      s.(flight) !! i = Some (vid, Some v) → commit env v vid s.(ts_vm) = Some (e, vm) → 0 <= e →
      table_step s (s <| ts_vm := vm |> <| flight ::= delete i |> <| vcpu_fds ::= λ n, n + 1 |>)
  | ts_commit_failed s env i vid v e vm r :
      s.(flight) !! i = Some (vid, Some v) → commit env v vid s.(ts_vm) = Some (e, vm) → e < 0 →
      vmrun_vcpu_destroy mmu_free_valid_roots env false v vm.(res) = Some r →
      table_step s (s <| ts_vm := vm <| res := r |> |> <| flight ::= <[i := (vid, None)]> |>)
  | ts_abort s i vid :
      s.(flight) !! i = Some (vid, None) →
      table_step s (s <| ts_vm ::= create_abort |> <| flight ::= delete i |>)
  | ts_use s i v v' :
      s.(ts_vm).(vcpus) !! i = Some (Some v) → v'.(vcpu_id) = v.(vcpu_id) →
      table_step s (s <| ts_vm ::= λ vm, vm <| vcpus ::= <[i := Some v']> |> |>)
  | ts_close_vm s env vm :
      s.(vm_open) = true → s.(flight) = [] → put env s.(ts_vm) = Some vm →
      table_step s (s <| ts_vm := vm |> <| vm_open := false |>)
  | ts_close_vcpu s env vm :
      0 < s.(vcpu_fds) → put env s.(ts_vm) = Some vm →
      table_step s (s <| ts_vm := vm |> <| vcpu_fds ::= λ n, n - 1 |>).

Definition flight_ok (p : Z * option vmrun_vcpu) : Prop :=
  0 <= p.1 < VMRUN_MAX_VCPU_ID ∧ (∀ v, p.2 = Some v → v.(vcpu_id) = p.1).

Record table_inv (s : table_sys) : Prop := {
  ti_table : s.(ts_vm).(alive) = true → ∃ vs, table_of vs s.(ts_vm);
  ti_created : s.(ts_vm).(alive) = true →
    s.(ts_vm).(created_vcpus) = s.(ts_vm).(online_vcpus) + Z.of_nat (length s.(flight)) ∧
    s.(ts_vm).(created_vcpus) <= VMRUN_MAX_VCPUS;
  ti_users : s.(ts_vm).(users_count) = b2z s.(vm_open) + s.(vcpu_fds);
  ti_fds : 0 <= s.(vcpu_fds);
  ti_alive : s.(ts_vm).(alive) = true ↔ s.(ts_vm).(users_count) ≠ 0;
  ti_pinned : s.(flight) ≠ [] → s.(vm_open) = true;
  ti_flight : Forall flight_ok s.(flight)
}.

Lemma fresh_table_inv : table_inv fresh_table.
Proof.
  constructor; cbn; [|done|done|done|done|done|by constructor].
  intros _. exists []. constructor; cbn; [done|done|lia|apply NoDup_nil_2|by constructor].
Qed.

Lemma vcpu_init_frame (env : create_env) (vid : Z) (v : vmrun_vcpu) (r : resources) :
  let '(_, v', _) := vmrun_vcpu_init env vid v r in
  v'.(vcpu_id) = s32 vid ∧ v'.(mutex) = false.
Proof using Type.
  unfold vmrun_vcpu_init, vmrun_mmu_create, alloc_mmu_pages.
  destruct (ce_run_page env); [|done]. by destruct (ce_pae_page env).
Qed.

(** A VCPU that is built has the id asked for. *)
Lemma build_id (env : create_env) (vid : Z) (r r' : resources) (v : vmrun_vcpu) :
  0 <= vid < VMRUN_MAX_VCPU_ID → build env vid r = Some (inr v, r') → v.(vcpu_id) = vid.
Proof using Type.
  intros Hv. unfold create_build, vmrun_vcpu_create.
  destruct (ce_zalloc env); cbn [negb]; [|done].
  pose proof (vcpu_init_frame env vid zero_vcpu (r <| live_vcpus ::= λ n, n + 1 |>)) as Hi.
  destruct (vmrun_vcpu_init _ _ _ _) as [[e w] r1]. destruct Hi as [Hid Hm].
  destruct (truth e); [done|]. destruct (ce_vmcb_page env) as [pfn|]; [|done].
  destruct (ce_hsave_page env); cbn [negb]; [|done].
  unfold vmrun_vcpu_setup, vmrun_vcpu_load, vmrun_svm_vcpu_load. cbn. rewrite Hm. cbn.
  assert (s32 vid = vid) as Hs.
  { unfold swrap, VMRUN_MAX_VCPU_ID in *. rewrite Z.mod_small; lia. }
  intros [= <- _]. destruct (negb _); cbn; by rewrite Hid.
Qed.

Lemma put_spec (env : create_env) (vm vm' : vm_vcpus) :
  put env vm = Some vm' →
  vm'.(users_count) = vm.(users_count) - 1 ∧
  (vm.(users_count) = 1 → vm'.(alive) = false) ∧
  (vm.(users_count) ≠ 1 → vm' = vm <| users_count ::= λ n, n - 1 |>).
Proof using Type.
  unfold vmrun_put_vmrun. set (vm1 := vm <| users_count ::= λ n, n - 1 |>).
  replace (vm1.(users_count)) with (vm.(users_count) - 1) by reflexivity.
  destruct (Z.eqb_spec (vm.(users_count) - 1) 0) as [Hz|Hz].
  - unfold vmrun_free_vcpus. destruct (mapM _ _) as [vs|]; cbn; [|done]. intros [= <-]. cbn.
    split_and!; [done|done|lia].
  - intros [= <-]. split_and!; [done|lia|done].
Qed.

Lemma get_put_users (vm : vm_vcpus) :
  (vm <| users_count ::= λ n, n + 1 |>) <| users_count ::= λ n, n - 1 |> = vm.
Proof using Type. cbn. replace (vm.(users_count) + 1 - 1) with (vm.(users_count)) by lia. by destruct vm. Qed.

(** The second critical section never hits its BUG_ON, and stores inside the
    table. *)
Lemma commit_spec (env : create_env) (vs : list vmrun_vcpu) (v : vmrun_vcpu) (vid : Z) (vm : vm_vcpus) :
  table_of vs vm → 0 <= vid → 0 < vm.(users_count) →
  commit env v vid vm =
  match find (λ w, w.(vcpu_id) =? vid) vs with
  | Some _ => Some (- EEXIST, vm)
  | None =>
      if env.(ce_fd) <? 0 then Some (env.(ce_fd), vm)
      else Some (env.(ce_fd), vm <| users_count ::= λ n, n + 1 |>
             <| vcpus ::= <[Z.to_nat vm.(online_vcpus) := Some v]> |> <| online_vcpus ::= λ n, n + 1 |>)
  end.
Proof using Type.
  intros T Hv Hu. unfold create_commit. rewrite (get_by_id_table vs vm vid T Hv).
  destruct (find _ vs); [done|]. rewrite (get_vcpu_table vs vm _ T).
  rewrite (tb_online _ _ T), Nat2Z.id, (proj2 (lookup_ge_None vs (length vs))) by lia.
  cbv zeta. unfold vmrun_get_vmrun. destruct (env.(ce_fd) <? 0).
  - unfold vmrun_put_vmrun.
    replace (_ =? 0) with false; [cbn [mbind option_bind]; by rewrite get_put_users|].
    symmetry. apply Z.eqb_neq. cbn. lia.
  - cbn. by rewrite (tb_online _ _ T), Nat2Z.id.
Qed.

Lemma flight_users (s : table_sys) (i : nat) (p : Z * option vmrun_vcpu) :
  table_inv s → s.(flight) !! i = Some p →
  0 < s.(ts_vm).(users_count) ∧ s.(ts_vm).(alive) = true ∧ flight_ok p ∧
  (length s.(flight) = S (length (delete i s.(flight))))%nat.
Proof using Type.
  intros I Hi. assert (s.(vm_open) = true) as Ho.
  { apply (ti_pinned s I). intros Hn. by rewrite Hn in Hi. }
  pose proof (ti_users s I) as Hu. rewrite Ho in Hu. pose proof (ti_fds s I). cbn in Hu.
  split_and!; [lia|apply (ti_alive s I); lia| |].
  - exact (proj1 (Forall_lookup _ _) (ti_flight s I) i p Hi).
  - rewrite length_delete by (by exists p). apply lookup_lt_Some in Hi. lia.
Qed.

(** Steps that change neither the table nor the counters. *)
Lemma table_inv_same (s s' : table_sys) :
  table_inv s → s'.(ts_vm).(vcpus) = s.(ts_vm).(vcpus) →
  s'.(ts_vm).(online_vcpus) = s.(ts_vm).(online_vcpus) →
  s'.(ts_vm).(created_vcpus) - Z.of_nat (length s'.(flight)) =
    s.(ts_vm).(created_vcpus) - Z.of_nat (length s.(flight)) →
  s'.(ts_vm).(created_vcpus) <= VMRUN_MAX_VCPUS →
  s'.(ts_vm).(users_count) = s.(ts_vm).(users_count) → s'.(ts_vm).(alive) = s.(ts_vm).(alive) →
  s'.(vm_open) = s.(vm_open) → s'.(vcpu_fds) = s.(vcpu_fds) →
  (s'.(flight) ≠ [] → s.(vm_open) = true) → Forall flight_ok s'.(flight) → table_inv s'.
Proof using Type.
  intros I Hv Hon Hc Hb Hu Ha Hvm Hf Hp Hfl.
  constructor; rewrite ?Ha, ?Hvm, ?Hf; [| |rewrite Hu; apply I|apply I|rewrite Hu; apply I|done|done].
  - intros H. destruct (ti_table s I H) as [vs T]. exists vs. by apply (table_counters vs s.(ts_vm)).
  - intros H. destruct (ti_created s I H). rewrite Hon. lia.
Qed.

Lemma step_begin (s : table_sys) (vid : Z) (vm : vm_vcpus) :
  table_inv s → s.(vm_open) = true → 0 <= vid < 2 ^ 32 → create_begin vid s.(ts_vm) = inr vm →
  table_inv (s <| ts_vm := vm |> <| flight ::= cons (vid, None) |>).
Proof using Type.
  intros I Ho Hv. unfold create_begin.
  destruct (Z.geb_spec vid VMRUN_MAX_VCPU_ID) as [|Hid]; [done|].
  destruct (Z.eqb_spec s.(ts_vm).(created_vcpus) VMRUN_MAX_VCPUS) as [|Hc]; [done|].
  intros [= <-].
  assert (s.(ts_vm).(alive) = true) as Ha.
  { apply (ti_alive s I). rewrite (ti_users s I), Ho. pose proof (ti_fds s I). cbn. lia. }
  destruct (ti_created s I Ha) as [_ Hb].
  apply (table_inv_same s); cbn; try done; [lia|lia|].
  apply Forall_cons. split; [|apply I]. split; [cbn; lia|done].
Qed.

Lemma step_commit (s : table_sys) (env : create_env) (i : nat) (vid e : Z) (v : vmrun_vcpu) (vm : vm_vcpus) :
  table_inv s → s.(flight) !! i = Some (vid, Some v) → commit env v vid s.(ts_vm) = Some (e, vm) → 0 <= e →
  table_inv (s <| ts_vm := vm |> <| flight ::= delete i |> <| vcpu_fds ::= λ n, n + 1 |>).
Proof using Type.
  intros I Hi Hc He. destruct (flight_users s i _ I Hi) as (Hu & Ha & [Hid Hvid] & Hlen).
  destruct (ti_table s I Ha) as [vs T]. cbn in Hid. specialize (Hvid v eq_refl). cbn in Hvid.
  rewrite (commit_spec env vs v vid _ T) in Hc by lia.
  destruct (find _ vs) eqn:Hfind; [injection Hc as <- _; done|].
  destruct (Z.ltb_spec env.(ce_fd) 0); [injection Hc as <- _; lia|].
  injection Hc as _ <-. destruct (ti_created s I Ha) as [Hcr Hb].
  constructor; cbn.
  - intros _. exists (vs ++ [v]). 
    eapply table_counters; [apply (table_insert vs s.(ts_vm) v T)|done|done].
    + rewrite (tb_online _ _ T) in Hcr. unfold VMRUN_MAX_VCPUS in *. lia.
    + intros (w & Hw & Hin)%list_elem_of_fmap.
      rewrite (find_by_id vs w vid (tb_ids _ _ T) Hin) in Hfind; [done|congruence].
    + by rewrite Hvid.
  - intros _. lia.
  - rewrite (ti_users s I). lia.
  - pose proof (ti_fds s I). lia.
  - split; [lia|done].
  - intros _. apply (ti_pinned s I). intros Hn. by rewrite Hn in Hi.
  - apply Forall_delete, I.
Qed.

Lemma step_failed (s : table_sys) (env : create_env) (i : nat) (vid e : Z) (v : vmrun_vcpu)
    (vm : vm_vcpus) (r : resources) :
  table_inv s → s.(flight) !! i = Some (vid, Some v) → commit env v vid s.(ts_vm) = Some (e, vm) → e < 0 →
  table_inv (s <| ts_vm := vm <| res := r |> |> <| flight ::= <[i := (vid, None)]> |>).
Proof using Type.
  intros I Hi Hc He. destruct (flight_users s i _ I Hi) as (Hu & Ha & [Hid _] & Hlen).
  destruct (ti_table s I Ha) as [vs T]. cbn in Hid.
  rewrite (commit_spec env vs v vid _ T) in Hc by lia.
  assert (vm = s.(ts_vm)) as ->.
  { destruct (find _ vs); [by injection Hc|].
    destruct (Z.ltb_spec env.(ce_fd) 0); [by injection Hc|injection Hc as <- _; lia]. }
  apply (table_inv_same s); cbn; try done; [by rewrite length_insert|by apply I| |].
  - intros _. apply (ti_pinned s I). intros Hn. by rewrite Hn in Hi.
  - apply Forall_insert; [apply I|by split].
Qed.

Lemma step_use (s : table_sys) (i : nat) (v v' : vmrun_vcpu) :
  table_inv s → s.(ts_vm).(vcpus) !! i = Some (Some v) → v'.(vcpu_id) = v.(vcpu_id) →
  table_inv (s <| ts_vm ::= λ vm, vm <| vcpus ::= <[i := Some v']> |> |>).
Proof using Type.
  intros I Hi Hid. destruct I as [It Ic Iu If Ia Ip Ifl]. constructor; cbn; try done.
  intros Ha. destruct (It Ha) as [vs T]. exists (<[i := v']> vs).
  rewrite (tb_vcpus _ _ T) in Hi. apply lookup_app_Some in Hi as [Hi|[_ Hi]].
  2: { by apply lookup_replicate in Hi as [? _]. }
  rewrite list_lookup_fmap in Hi. destruct (vs !! i) as [w|] eqn:Hw; cbn in Hi; [|done].
  injection Hi as ->.
  assert (vcpu_id <$> <[i := v']> vs = vcpu_id <$> vs) as Hids.
  { rewrite list_fmap_insert. apply list_insert_id.
    rewrite list_lookup_fmap, Hw. exact (f_equal Some (eq_sym Hid)). }
  destruct T as [Tv To Tb Tn Tr]. constructor; cbn; rewrite ?length_insert, ?Hids; [|done|done|done|].
  - rewrite Tv, list_fmap_insert, insert_app_l; [done|].
    rewrite length_fmap. by eapply lookup_lt_Some.
  - apply Forall_insert; [done|]. pose proof (proj1 (Forall_lookup _ _) Tr i v Hw) as Hv.
    cbv beta in Hv |- *. lia.
Qed.

Lemma put_inv (s : table_sys) (env : create_env) (vm : vm_vcpus) (s' : table_sys) :
  table_inv s → put env s.(ts_vm) = Some vm → s'.(ts_vm) = vm →
  b2z s'.(vm_open) + s'.(vcpu_fds) = b2z s.(vm_open) + s.(vcpu_fds) - 1 → 0 <= s'.(vcpu_fds) →
  s'.(flight) = s.(flight) → (s.(flight) ≠ [] → s'.(vm_open) = true) → table_inv s'.
Proof using Type.
  intros I Hp Hvm Hsum Hf Hfl Hpin. destruct (put_spec env _ _ Hp) as (Hu & H1 & Hn).
  pose proof (ti_users s I) as Hus.
  assert (0 <= b2z s'.(vm_open)) by (by destruct (vm_open s')).
  destruct (decide (s.(ts_vm).(users_count) = 1)) as [Hone|Hone].
  - constructor; rewrite ?Hvm, ?Hfl, ?(H1 Hone); try done; [lia| |apply I]. split; [done|lia].
  - rewrite (Hn Hone) in Hvm.
    assert (s.(ts_vm).(alive) = true) as Ha by (apply (ti_alive s I); lia).
    constructor; rewrite ?Hvm, ?Hfl; cbn; [| |lia|done|split; [lia|done]|done|apply I].
    + intros _. destruct (ti_table s I Ha) as [vs T]. exists vs. by apply (table_counters vs s.(ts_vm)).
    + intros _. apply (ti_created s I Ha).
Qed.

Lemma table_step_inv (s s' : table_sys) : table_step s s' → table_inv s → table_inv s'.
Proof using Type.
  intros Hstep I. destruct Hstep as [s vid vm Ho Hv Hb|s env i vid v r Hi Hb|s env i vid e r Hi Hb
    |s env i vid v e vm Hi Hc He|s env i vid v e vm r Hi Hc He Hd|s i vid Hi|s i v v' Hi Hid
    |s env vm Ho Hf Hp|s env vm Hf Hp].
  - by apply step_begin.
  - destruct (flight_users s i _ I Hi) as (_ & Ha & [Hid _] & _).
    apply (table_inv_same s); cbn; try done; [by rewrite length_insert|by apply I| |].
    + intros _. apply (ti_pinned s I). intros Hn. by rewrite Hn in Hi.
    + apply Forall_insert; [apply I|]. split; [done|]. intros w [= <-].
      exact (build_id env vid _ r v Hid Hb).
  - destruct (flight_users s i _ I Hi) as (_ & Ha & _ & _).
    apply (table_inv_same s); cbn; try done; [by apply I| |by apply I]. by apply I.
  - by apply (step_commit s env i vid e v vm).
  - by apply (step_failed s env i vid e v vm r).
  - destruct (flight_users s i _ I Hi) as (_ & Ha & _ & Hlen). destruct (ti_created s I Ha).
    apply (table_inv_same s); cbn; try done; [lia|lia| |by apply Forall_delete, I].
    intros _. apply (ti_pinned s I). intros Hn. by rewrite Hn in Hi.
  - by apply (step_use s i v v').
  - apply (put_inv s env vm); try done; cbn; [by rewrite Ho; cbn; lia|apply I].
  - apply (put_inv s env vm); try done; cbn; [lia|lia|apply I].
Qed.

(** C27. Whatever creations, uses and closed descriptors interleave: while
    the virtual machine is alive its table holds a list of at most
    VMRUN_MAX_VCPUS VCPUs with distinct ids in its first [online_vcpus] entries
    and NULL in the others; [vmrun_get_vcpu_by_id] finds exactly the VCPU with
    the id; [created_vcpus] counts those and the creations in flight, and the
    second half of a creation does not hit its BUG_ON.  The virtual machine is
    gone only when every descriptor is closed. *)
Theorem vcpu_table_invariant (s : table_sys) :
  rtc table_step fresh_table s →
  (s.(ts_vm).(alive) = true →
    (∃ vs, table_of vs s.(ts_vm) ∧
       ∀ vid v, 0 <= vid →
         vmrun_get_vcpu_by_id s.(ts_vm) vid = Some v ↔ v ∈ vs ∧ v.(vcpu_id) = vid) ∧
    s.(ts_vm).(created_vcpus) = s.(ts_vm).(online_vcpus) + Z.of_nat (length s.(flight)) ∧
    s.(ts_vm).(created_vcpus) <= VMRUN_MAX_VCPUS ∧
    (∀ env i vid v, s.(flight) !! i = Some (vid, Some v) → is_Some (commit env v vid s.(ts_vm)))) ∧
  (s.(ts_vm).(alive) = false → s.(vm_open) = false ∧ s.(vcpu_fds) = 0 ∧ s.(flight) = []).
Proof using Type.
  intros Hr. assert (table_inv s) as I.
  { remember fresh_table as s0 eqn:H0. assert (table_inv s0) as I0 by (subst; apply fresh_table_inv).
    clear H0. induction Hr; eauto using table_step_inv. }
  split.
  - intros Ha. destruct (ti_table s I Ha) as [vs T]. destruct (ti_created s I Ha).
    split_and!; [|done|done|].
    + exists vs. split; [done|]. intros vid v Hv. rewrite (get_by_id_table vs _ vid T Hv).
      split; [apply find_by_id_inv|]. intros [Hin Hid]. apply find_by_id; [apply T|done|done].
    + intros env i vid v Hi. destruct (flight_users s i _ I Hi) as (Hu & _ & [Hid _] & _). cbn in Hid.
      rewrite (commit_spec env vs v vid _ T) by lia. destruct (find _ vs); [by eexists|].
      destruct (_ <? 0); by eexists.
  - intros Ha. assert (s.(ts_vm).(users_count) = 0) as Hz.
    { destruct (decide (s.(ts_vm).(users_count) = 0)) as [|Hn]; [done|].
      apply (ti_alive s I) in Hn. congruence. }
    pose proof (ti_users s I) as Hu. pose proof (ti_fds s I). pose proof (ti_pinned s I) as Hp.
    destruct (vm_open s) eqn:Ho; cbn in Hu; [lia|]. split_and!; [done|lia|].
    destruct (flight s); [done|]. by specialize (Hp ltac:(done)).
Qed.
End Table.

(** ** What a creation allocates *)

Section Resources.
Context `{X : X86}.
Context (iopm_base : Z) (mmu_reset mmu_setup : vmrun_vcpu → vmrun_mmu).
Context (mmu_free_valid_roots : vmrun_vcpu → vmrun_vcpu).

(** A creation that fails on the way frees what it took.  One that succeeds
    takes four pages and the structure. *)
Lemma build_resources (env : create_env) (vid : Z) (r r' : resources) (b : Z + vmrun_vcpu) :
  create_build iopm_base mmu_reset mmu_setup mmu_free_valid_roots env vid r = Some (b, r') →
  match b with
  | inl _ => r'.(live_vcpus) = r.(live_vcpus) ∧ r'.(live_pages) = r.(live_pages)
  | inr v => r'.(live_vcpus) = r.(live_vcpus) + 1 ∧ r'.(live_pages) = r.(live_pages) + 4 ∧ v.(mutex) = false
  end.
Proof using Type.
  unfold create_build, vmrun_vcpu_create, vmrun_vcpu_init, vmrun_mmu_create, alloc_mmu_pages,
    vmrun_vcpu_uninit, vmrun_mmu_destroy, free_mmu_pages, get_pages.
  destruct (ce_zalloc env); cbn; [|by intros [= <- <-]].
  destruct (ce_run_page env); cbn; [|intros [= <- <-]; cbn; lia].
  destruct (ce_pae_page env); cbn; [|intros [= <- <-]; cbn; lia].
  destruct (ce_vmcb_page env); cbn; [|intros [= <- <-]; cbn; lia].
  destruct (ce_hsave_page env); cbn; [|intros [= <- <-]; cbn; lia].
  intros [= <- <-]. cbn. split_and!; [lia|lia|]. by repeat case_match.
Qed.

(** Destroying a VCPU right after its creation leaves one page behind, the one
    allocated as [hsave_page]. *)
Lemma create_destroy_leaks_page (env : create_env) (vid : Z) (r r1 r2 : resources) (v : vmrun_vcpu) :
  create_build iopm_base mmu_reset mmu_setup mmu_free_valid_roots env vid r = Some (inr v, r1) →
  vmrun_vcpu_destroy mmu_free_valid_roots env false v r1 = Some r2 →
  r2.(live_vcpus) = r.(live_vcpus) ∧ r2.(live_pages) = r.(live_pages) + 1.
Proof using Type.
  intros Hb. apply build_resources in Hb as (H1 & H2 & Hm).
  unfold vmrun_vcpu_destroy, vmrun_vcpu_unload_mmu, vmrun_vcpu_load. rewrite Hm. cbn.
  intros [= <-]. cbn. lia.
Qed.
End Resources.

(** ** Witness *)

Definition good_env : create_env :=
  {| ce_zalloc := true; ce_run_page := true; ce_pae_page := true; ce_vmcb_page := Some 300;
     ce_hsave_page := true; ce_cpu := 0;
     ce_segs := {| hs_fs := 0; hs_gs := 0; hs_ldt := 0; hs_gs_base := 0 |}; ce_fd := 5 |}.

Abbreviation keep_mmu := (λ v : vmrun_vcpu, v.(mmu)).
Abbreviation wit_build := (create_build (X := amd64) 0 keep_mmu keep_mmu id good_env 7
                             {| live_vcpus := 0; live_pages := 0 |}).

Definition wit_vcpu : vmrun_vcpu :=
  match wit_build with Some (inr v, _) => v | _ => zero_vcpu end.
Definition wit_res : resources := {| live_vcpus := 1; live_pages := 4 |}.

(** VCPU 7 is online, and a second creation with the same id is in flight. *)
Definition wit_table : table_sys :=
  {| ts_vm := {| vcpus := Some wit_vcpu :: replicate 287 None; online_vcpus := 1; created_vcpus := 2;
                 users_count := 2; alive := true; res := wit_res |};
     flight := [(7, None)]; vm_open := true; vcpu_fds := 1 |}.

Lemma vcpu_table_invariant_witness :
  ∃ vs, table_of vs wit_table.(ts_vm) ∧
    ∀ vid v, 0 <= vid →
      vmrun_get_vcpu_by_id wit_table.(ts_vm) vid = Some v ↔ v ∈ vs ∧ v.(vcpu_id) = vid.
Proof.
  destruct (vcpu_table_invariant (X := amd64) 0 keep_mmu keep_mmu id (λ _, false) wit_table) as [H _];
    [|exact (proj1 (H eq_refl))].
  eapply rtc_l; [apply (ts_begin _ _ _ _ _ _ 7); [done|done|reflexivity]|].
  eapply rtc_l; [apply (ts_build _ _ _ _ _ _ good_env 0%nat 7 wit_vcpu wit_res); [done|vm_compute; reflexivity]|].
  eapply rtc_l; [eapply (ts_commit _ _ _ _ _ _ good_env 0%nat 7 wit_vcpu 5); [done|reflexivity|done]|].
  eapply rtc_l; [apply (ts_begin _ _ _ _ _ _ 7); [done|done|reflexivity]|].
  exact (rtc_refl _ wit_table).
Defined.
