(* ===== verification/VcpuIoctl.v ===== *)
(** * The ioctls of a VCPU file descriptor

    [vmrun_vcpu_ioctl] (kernel/vmrun.c) loads the VCPU, which takes its mutex,
    dispatches, and puts it.  The state is the run state of the VCPU with the
    reference it holds on a [struct pid], the reference counts, the number of
    kernel buffers that are allocated and not freed, and what was copied to
    user space. *)

From S2P Require Import Prelude.
From S2P Require Import Vcpu.
From S2P Require Import Vmcb.
From S2P Require Import VmcbProps.
From S2P Require Import Run.
From S2P Require Import RunProps.

(** The command, with its argument; for the set commands the result of
    [memdup_user].  [OTHER]: any other number. *)
Inductive vcpu_cmd :=
| VMRUN_RUN (arg : Z)
| VMRUN_GET_REGS
| VMRUN_SET_REGS (arg : Z + vmrun_regs)
| VMRUN_GET_SREGS
| VMRUN_SET_SREGS (arg : Z + vmrun_sregs)
| OTHER.

Record ioctl_env := {
  io_same_mm : bool;            (* vcpu->vmrun->mm == current->mm *)
  io_type_ok : bool;            (* _IOC_TYPE(ioctl) == VMRUNIO *)
  io_killed : bool;
  io_cpu : Z;
  io_segs : host_segs;
  io_pid : Z;                   (* current's pid *)
  io_kzalloc : bool;            (* kzalloc succeeds *)
  io_copy : bool;               (* copy_to_user succeeds *)
  io_passes : list pass_env
}.
#[export] Instance eta_ioctl_env : Eta ioctl_env := λ r,
  {| io_same_mm := r.(io_same_mm); io_type_ok := r.(io_type_ok); io_killed := r.(io_killed);
     io_cpu := r.(io_cpu); io_segs := r.(io_segs); io_pid := r.(io_pid);
     io_kzalloc := r.(io_kzalloc); io_copy := r.(io_copy); io_passes := r.(io_passes) |}.

Record ioctl_state := {
  io_run : run_state;
  io_vpid : option Z;           (* vcpu->pid *)
  pid_refs : Z → Z;
  io_bufs : Z;
  user_regs : option vmrun_regs;
  user_sregs : option vmrun_sregs
}.
#[export] Instance eta_ioctl_state : Eta ioctl_state := λ r,
  {| io_run := r.(io_run); io_vpid := r.(io_vpid); pid_refs := r.(pid_refs); io_bufs := r.(io_bufs);
     user_regs := r.(user_regs); user_sregs := r.(user_sregs) |}.

(** [struct vmrun_sregs] as [kzalloc] gives it. *)
Definition zero_sregs : vmrun_sregs :=
  let seg := {| g_base := 0; g_limit := 0; g_selector := 0; g_type := 0; g_present := 0; g_dpl := 0;
                g_db := 0; g_s := 0; g_l := 0; g_g := 0; g_avl := 0; g_unusable := 0 |} in
  let dt := {| dt_base := 0; dt_limit := 0 |} in
  {| s_cs := seg; s_ds := seg; s_es := seg; s_fs := seg; s_gs := seg; s_ss := seg; s_tr := seg;
     s_ldt := seg; s_gdt := dt; s_idt := dt; s_cr0 := 0; s_cr2 := 0; s_cr3 := 0; s_cr4 := 0;
     s_cr8 := 0; s_efer := 0; s_apic_base := 0; s_interrupt_bitmap := replicate 4 0 |}.

Abbreviation io_vc st := (vc (io_run st)).
Definition set_vc (v : vmrun_vcpu) (st : ioctl_state) : ioctl_state :=
  st <| io_run ::= λ s, s <| vc := v |> |>.

Definition add_ref (p n : Z) (f : Z → Z) : Z → Z := λ q, if q =? p then f q + n else f q.

Inductive ioctl_outcome :=
| IoDone (r : Z) (st : ioctl_state)
| IoBlocked                         (* sleeps on the mutex *)
| IoUndefined                       (* an uninitialised variable is read *)
| IoBug                             (* BUG() *)
| IoRunning.                        (* the run loop has not returned *)

(** The switch: it goes to [out] with [r] and the local [vmrun_sregs], which
    [out] frees ([true]: not NULL), or it does not get there. *)
Inductive body_outcome :=
| BOut (r : Z) (sregs : bool) (st : ioctl_state)
| BReturn (r : Z) (st : ioctl_state)
| BStop (o : ioctl_outcome).

Section Ioctl.
Context `{X : X86, V : Svm}.
Context (npt_enabled : bool) (cr4_shadow : Z) (has_flushbyasid : bool).
Context (mmu_reset : vmrun_vcpu → vmrun_mmu).

Definition kmalloc (st : ioctl_state) : ioctl_state := st <| io_bufs ::= λ n, n + 1 |>.
Definition kfree (st : ioctl_state) : ioctl_state := st <| io_bufs ::= λ n, n - 1 |>.

(** The thread running this VCPU changed. *)
Definition switch_pid (env : ioctl_env) (st : ioctl_state) : ioctl_state :=
  if bool_decide (st.(io_vpid) = Some env.(io_pid)) then st
  else
    let old := st.(io_vpid) in
    let st := st <| pid_refs ::= add_ref env.(io_pid) 1 |> <| io_vpid := Some env.(io_pid) |> in
    match old with None => st | Some p => st <| pid_refs ::= add_ref p (- 1) |> end.

Definition ioctl_body (env : ioctl_env) (cmd : vcpu_cmd) (st : ioctl_state) : body_outcome :=
  match cmd with
  | VMRUN_RUN arg =>
      if truth arg then BOut (- EINVAL) false st
      else
        let st := switch_pid env st in
        match vmrun_vcpu_ioctl_run npt_enabled env.(io_passes) st.(io_run) with
        | Returned r s => BOut r false (st <| io_run := s |>)
        | Undefined _ => BStop IoUndefined
        | Bug _ => BStop IoBug
        | StillRunning _ => BStop IoRunning
        end
  | VMRUN_GET_REGS =>
      if negb env.(io_kzalloc) then BOut (- ENOMEM) false st
      else
        let st := kmalloc st in
        match vmrun_vcpu_ioctl_get_regs (io_vc st) with
        | None => BStop IoBug
        | Some (r, regs) =>
            if truth r then BOut r false (kfree st)
            else if negb env.(io_copy) then BOut (- EFAULT) false (kfree st)
            else BOut 0 false (kfree (st <| user_regs := Some regs |>))
        end
  | VMRUN_SET_REGS (inl e) => BOut e false st
  | VMRUN_SET_REGS (inr regs) =>
      let st := kmalloc st in
      let '(r, v) := vmrun_vcpu_ioctl_set_regs regs (io_vc st) in
      BOut r false (kfree (set_vc v st))
  | VMRUN_GET_SREGS =>
      if negb env.(io_kzalloc) then BOut (- ENOMEM) false st
      else
        let st := kmalloc st in
        let '(r, sregs) := vmrun_vcpu_ioctl_get_sregs (io_vc st) zero_sregs in
        if truth r then BOut r true st
        else if negb env.(io_copy) then BOut (- EFAULT) true st
        else BOut 0 true (st <| user_sregs := Some sregs |>)
  | VMRUN_SET_SREGS (inl e) => BOut e false st
  | VMRUN_SET_SREGS (inr sregs) =>
      let st := kmalloc st in
      let '(r, v) := vmrun_vcpu_ioctl_set_sregs npt_enabled cr4_shadow has_flushbyasid mmu_reset
                       sregs (io_vc st) in
      BOut r true (set_vc v st)
  | OTHER => BReturn (- EINVAL) st
  end.

Definition vmrun_vcpu_ioctl (env : ioctl_env) (cmd : vcpu_cmd) (st : ioctl_state) : ioctl_outcome :=
  if negb env.(io_same_mm) then IoDone (- EIO) st
  else if negb env.(io_type_ok) then IoDone (- EINVAL) st
  else match vmrun_vcpu_load env.(io_killed) env.(io_cpu) env.(io_segs) (io_vc st) with
  | None => IoBlocked
  | Some (r, v) =>
      let st := set_vc v st in
      if truth r then IoDone r st
      else match ioctl_body env cmd st with
      | BStop o => o
      | BReturn r st => IoDone r st
      | BOut r sregs st =>
          let st := set_vc (vmrun_vcpu_put (io_vc st)) st in
          IoDone r (if sregs then kfree st else st)
      end
  end.
End Ioctl.

(** ** The lock, the buffers and the references *)

(** The command is dispatched, and is none of those known. *)
Definition unknown_command (env : ioctl_env) (cmd : vcpu_cmd) : bool :=
  env.(io_same_mm) && env.(io_type_ok) && match cmd with OTHER => true | _ => false end.

(** References to [p] that the VCPU holds. *)
Definition holds (o : option Z) (p : Z) : Z := b2z (bool_decide (o = Some p)).

(** The references counted for [p], those of the VCPU apart. *)
Definition other_refs (st : ioctl_state) (p : Z) : Z := st.(pid_refs) p - holds st.(io_vpid) p.

Lemma switch_pid_spec (env : ioctl_env) (st : ioctl_state) :
  let st' := switch_pid env st in
  st'.(io_vpid) = Some env.(io_pid) ∧ st'.(io_bufs) = st.(io_bufs) ∧ st'.(io_run) = st.(io_run) ∧
  ∀ p, other_refs st' p = other_refs st p.
Proof.
  cbv zeta. unfold switch_pid, other_refs, holds.
  case_bool_decide as Hp; [done|].
  destruct st.(io_vpid) as [q|] eqn:Hq; cbn; (split_and!; [done|done|done|]); intros p; rewrite ?Hq;
    unfold add_ref.
  - destruct (Z.eqb_spec p env.(io_pid)), (Z.eqb_spec p q); repeat case_bool_decide; cbn;
      simplify_eq; try congruence; lia.
  - destruct (Z.eqb_spec p env.(io_pid)); repeat case_bool_decide; cbn; simplify_eq; try congruence; lia.
Qed.

Section Props.
Context `{X : X86, V : Svm}.
Context (npt_enabled : bool) (cr4_shadow : Z) (has_flushbyasid : bool).
Context (mmu_reset : vmrun_vcpu → vmrun_mmu).

Abbreviation body := (ioctl_body npt_enabled cr4_shadow has_flushbyasid mmu_reset).
Abbreviation ioctl := (vmrun_vcpu_ioctl npt_enabled cr4_shadow has_flushbyasid mmu_reset).

(** On the way to [out] the buffers are those [out] frees; only an unknown
    command returns at once. *)
Lemma body_spec (env : ioctl_env) (cmd : vcpu_cmd) (st : ioctl_state) :
  match body env cmd st with
  | BOut r sregs st' =>
      st'.(io_bufs) = st.(io_bufs) + b2z sregs ∧ (∀ p, other_refs st' p = other_refs st p) ∧ cmd ≠ OTHER
  | BReturn r st' => cmd = OTHER ∧ r = - EINVAL ∧ st' = st
  | BStop o => ∀ r st', o ≠ IoDone r st'
  end.
Proof using Type.
  unfold ioctl_body. destruct cmd as [arg| |[e|rg]| |[e|sg]|].
  - destruct (truth arg); [split_and!; [cbn; lia|done|done]|].
    destruct (switch_pid_spec env st) as (_ & Hb & _ & Hr).
    destruct (vmrun_vcpu_ioctl_run _ _ _); try done. split_and!; [cbn; lia|done|done].
  - destruct (io_kzalloc env); cbn [negb]; [|split_and!; [cbn; lia|done|done]].
    destruct (vmrun_vcpu_ioctl_get_regs _) as [[e rg]|]; [|done].
    destruct (truth e); [|destruct (io_copy env)]; (split_and!; [cbn; lia|done|done]).
  - split_and!; [cbn; lia|done|done].
  - destruct (vmrun_vcpu_ioctl_set_regs _ _). split_and!; [cbn; lia|done|done].
  - destruct (io_kzalloc env); cbn [negb]; [|split_and!; [cbn; lia|done|done]].
    destruct (vmrun_vcpu_ioctl_get_sregs _ _) as [e sg].
    destruct (truth e); [|destruct (io_copy env)]; (split_and!; [cbn; lia|done|done]).
  - split_and!; [cbn; lia|done|done].
  - destruct (vmrun_vcpu_ioctl_set_sregs _ _ _ _ _ _). split_and!; [cbn; lia|done|done].
  - done.
Qed.

Lemma blocked_by_mutex (env : ioctl_env) (cmd : vcpu_cmd) (st : ioctl_state) :
  (io_vc st).(mutex) = true → env.(io_same_mm) = true → env.(io_type_ok) = true → env.(io_killed) = false →
  ioctl env cmd st = IoBlocked.
Proof using Type.
  intros Hm H1 H2 H3. unfold vmrun_vcpu_ioctl, vmrun_vcpu_load. by rewrite H1, H2, Hm, H3.
Qed.

(** C29. An ioctl on a VCPU nobody uses that returns, with whatever
    result, leaves the mutex free, the preempt notifier unregistered, no buffer
    behind and one reference on the pid it stores; except that an unknown
    command returns -EINVAL with the mutex held, and then every further ioctl
    on that VCPU sleeps until it is killed. *)
Theorem vcpu_ioctl_lock (env : ioctl_env) (cmd : vcpu_cmd) (st st' : ioctl_state) (r : Z) :
  (io_vc st).(mutex) = false → (io_vc st).(notifier_registered) = false →
  ioctl env cmd st = IoDone r st' →
  st'.(io_bufs) = st.(io_bufs) ∧ (∀ p, other_refs st' p = other_refs st p) ∧
  (io_vc st').(mutex) = unknown_command env cmd ∧
  (io_vc st').(notifier_registered) = unknown_command env cmd ∧
  (unknown_command env cmd = true → r = - EINVAL ∧
     ∀ env' cmd', env'.(io_same_mm) = true → env'.(io_type_ok) = true → env'.(io_killed) = false →
       ioctl env' cmd' st' = IoBlocked).
Proof using Type.
  intros Hm Hn. unfold vmrun_vcpu_ioctl at 1, unknown_command.
  destruct (io_same_mm env); cbn [negb andb]; [|intros [= <- <-]; done].
  destruct (io_type_ok env); cbn [negb andb]; [|intros [= <- <-]; done].
  unfold vmrun_vcpu_load. rewrite Hm. cbn [truth negb Z.eqb].
  set (st1 := set_vc _ st).
  assert (H1 : (io_vc st1).(mutex) = true ∧ (io_vc st1).(notifier_registered) = true).
  { unfold st1, vmrun_svm_vcpu_load. cbn. by destruct (negb _). }
  pose proof (body_spec env cmd st1) as Hb.
  destruct (body env cmd st1) as [r' sregs st2|r' st2|o].
  - destruct Hb as (Hbuf & Hrefs & Hc). intros [= <- <-].
    replace (match cmd with OTHER => true | _ => false end) with false by (by destruct cmd).
    destruct sregs; cbn in *; (split_and!; [lia|done|done|done|done]).
  - destruct Hb as (-> & -> & ->). intros [= <- <-]. split_and!; [done|done|apply H1|apply H1|].
    intros _. split; [done|]. intros env' cmd' H2 H3 H4. apply blocked_by_mutex; [apply H1|done|done|done].
  - intros ->. by destruct (Hb r st').
Qed.
End Props.

(** ** Witness *)

Definition free_ioctl_state : ioctl_state :=
  {| io_run := ready_state; io_vpid := None; pid_refs := λ _, 1; io_bufs := 0; user_regs := None;
     user_sregs := None |}.

Definition plain_ioctl : ioctl_env :=
  {| io_same_mm := true; io_type_ok := true; io_killed := false; io_cpu := 0;
     io_segs := {| hs_fs := 0; hs_gs := 0; hs_ldt := 0; hs_gs_base := 0 |}; io_pid := 42;
     io_kzalloc := true; io_copy := true; io_passes := [] |}.

Abbreviation wit_ioctl := (vmrun_vcpu_ioctl (X := amd64) (V := amd_svm) false 0 false (λ w, w.(mmu))).

Definition after_unknown : ioctl_state :=
  match wit_ioctl plain_ioctl OTHER free_ioctl_state with IoDone _ st => st | _ => free_ioctl_state end.

Lemma vcpu_ioctl_lock_witness :
  (io_vc after_unknown).(mutex) = true ∧ wit_ioctl plain_ioctl VMRUN_GET_REGS after_unknown = IoBlocked.
Proof.
  destruct (vcpu_ioctl_lock (X := amd64) (V := amd_svm) false 0 false (λ w, w.(mmu))
              plain_ioctl OTHER free_ioctl_state after_unknown (- EINVAL)) as (_ & _ & Hm & _ & Hb);
    [reflexivity..|]. split; [exact Hm|]. by apply Hb.
Defined.
