(* ===== verification/PageTrack.v ===== *)
(** * Page tracking and large pages

    kernel/page_track.c: the counters of trackers per guest frame and the
    notifiers of tracked writes; and the part of kernel/mmu.c that counts why
    a large page may not be used ([disallow_lpage]) and chooses the level of a
    mapping.

    The counters are the blocks [gfn_track] and [lpage_info] of a slot on the
    heap of MemRegion; a read or write outside its block is [None].

    Not in the repository: the lookup of a slot by guest frame, the size of
    the host page behind a guest frame, the largest level of the processor,
    and three constants of Linux's KVM headers. *)

From S2P Require Import Prelude.
From S2P Require Import Spte.
From S2P Require Import Memslots.
From S2P Require Import MemRegion.
From S2P Require Import PteList.
From S2P Require Import Rmap.
From S2P Require Import SlotWalk.

(** [enum vmrun_page_track_mode] *)
Definition VMRUN_PAGE_TRACK_WRITE : Z := 0.

Definition USHRT_MAX : Z := 65535.

(** Linux's names that kernel/mmu.c uses here. *)
Class KvmTrack := {
  KVM_PAGE_TRACK_WRITE : Z;
  KVM_HPAGE_SIZE : Z → Z;
  KVM_MEMSLOT_INVALID : Z
}.

(** Their documented values: the tracking modes of both headers agree, and a
    huge page of a level has as many bytes. *)
Class KvmTrackOk (T : KvmTrack) : Prop := {
  track_write_mode : KVM_PAGE_TRACK_WRITE = VMRUN_PAGE_TRACK_WRITE;
  hpage_size : ∀ level, KVM_HPAGE_SIZE level = VMRUN_HPAGE_SIZE level
}.

(** ** Arrays *)

(** [p[i]] *)
Definition load (p i : Z) (h : heap) : option Z :=
  if i <? 0 then None else l ← h.(blocks) !! p; l !! Z.to_nat i.

(** [p[i] = v] *)
Definition store (p i v : Z) (h : heap) : option heap :=
  _ ← load p i h; Some (write_block p <[Z.to_nat i := v]> h).

Record track_state := {
  tk_heap : heap;
  tk_mmu : mmu_state;
  tk_warns : nat;                  (* how many WARN_ONs fired *)
  indirect_shadow_pages : Z
}.
#[export] Instance eta_track_state : Eta track_state := λ r,
  {| tk_heap := r.(tk_heap); tk_mmu := r.(tk_mmu); tk_warns := r.(tk_warns);
     indirect_shadow_pages := r.(indirect_shadow_pages) |}.

Definition warn_if (b : bool) (st : track_state) : track_state :=
  if b then st <| tk_warns ::= S |> else st.

(** ** Reasons not to use a large page *)

(** [&slot->arch.lpage_info[level - 2][idx]]: the array and the index. *)
Definition lpage_info_slot (gfn : Z) (slot : vmrun_memory_slot) (level : Z) : Z * Z :=
  (slot.(arch).(lpage_info) !!! Z.to_nat (level - 2), gfn_to_index gfn slot.(base_gfn) level).

(** One pass of the loop over the levels. *)
Definition update_disallow_level (slot : vmrun_memory_slot) (gfn count : Z) (st : track_state) (i : Z)
    : option track_state :=
  let '(p, idx) := lpage_info_slot gfn slot i in
  v ← load p idx st.(tk_heap);
  h ← store p idx (s32 (v + count)) st.(tk_heap);
  Some (warn_if (s32 (v + count) <? 0) (st <| tk_heap := h |>)).

(** The levels from [PT_DIRECTORY_LEVEL] to [PT_MAX_HUGEPAGE_LEVEL]. *)
Definition hugepage_levels : list Z :=
  seqZ PT_DIRECTORY_LEVEL (PT_MAX_HUGEPAGE_LEVEL - PT_DIRECTORY_LEVEL + 1).

Fixpoint update_disallow_levels (levels : list Z) (slot : vmrun_memory_slot) (gfn count : Z)
    (st : track_state) : option track_state :=
  match levels with
  | [] => Some st
  | i :: levels => st ← update_disallow_level slot gfn count st i;
                   update_disallow_levels levels slot gfn count st
  end.

Definition update_gfn_disallow_lpage_count (slot : vmrun_memory_slot) (gfn count : Z) (st : track_state)
    : option track_state := update_disallow_levels hugepage_levels slot gfn count st.

Definition vmrun_mmu_gfn_disallow_lpage (slot : vmrun_memory_slot) (gfn : Z) (st : track_state) :=
  update_gfn_disallow_lpage_count slot gfn 1 st.

Definition vmrun_mmu_gfn_allow_lpage (slot : vmrun_memory_slot) (gfn : Z) (st : track_state) :=
  update_gfn_disallow_lpage_count slot gfn (-1) st.

(** ** Trackers of a frame *)

Definition page_track_mode_is_valid (mode : Z) : bool :=
  negb ((mode <? 0) || (mode >=? VMRUN_PAGE_TRACK_MAX)).

(** [int index] *)
Definition track_index (slot : vmrun_memory_slot) (gfn : Z) : Z :=
  s32 (gfn_to_index gfn slot.(base_gfn) PT_PAGE_TABLE_LEVEL).

Definition update_gfn_track (slot : vmrun_memory_slot) (gfn mode count : Z) (st : track_state)
    : option track_state :=
  let index := track_index slot gfn in
  let p := slot.(arch).(gfn_track) !!! Z.to_nat mode in
  val ← load p index st.(tk_heap);
  if (val + count <? 0) || (USHRT_MAX <? val + count) then Some (warn_if true st)
  else h ← store p index (u16 (val + count)) st.(tk_heap); Some (st <| tk_heap := h |>).

Section PageTrack.
Context `{K : KvmPte} `{T : KvmTrack} (g : shadow_masks).

Definition vmrun_slot_page_track_add_page (slot : vmrun_memory_slot) (gfn mode : Z) (st : track_state)
    : option track_state :=
  if negb (page_track_mode_is_valid mode) then Some (warn_if true st)
  else
    st ← update_gfn_track slot gfn mode 1 st;
    st ← vmrun_mmu_gfn_disallow_lpage slot gfn st;
    if mode =? VMRUN_PAGE_TRACK_WRITE then
      '(mmu, protected) ← vmrun_mmu_slot_gfn_write_protect g slot gfn st.(tk_mmu);
      Some (st <| tk_mmu := if protected : bool then flush_remote_tlbs mmu else mmu |>)
    else Some st.

Definition vmrun_slot_page_track_remove_page (slot : vmrun_memory_slot) (gfn mode : Z) (st : track_state)
    : option track_state :=
  if negb (page_track_mode_is_valid mode) then Some (warn_if true st)
  else
    st ← update_gfn_track slot gfn mode (-1) st;
    vmrun_mmu_gfn_allow_lpage slot gfn st.

(** [vmrun_vcpu_gfn_to_memslot]; [None]: NULL. *)
Context (vcpu_gfn_to_memslot : Z → option vmrun_memory_slot).

(** Result: the bool, and the state with the WARN. *)
Definition vmrun_page_track_is_active (gfn mode : Z) (st : track_state) : option (bool * track_state) :=
  if negb (page_track_mode_is_valid mode) then Some (false, warn_if true st)
  else match vcpu_gfn_to_memslot gfn with
       | None => Some (false, st)
       | Some slot =>
           v ← load (slot.(arch).(gfn_track) !!! Z.to_nat mode) (track_index slot gfn) st.(tk_heap);
           Some (truth v, st)
       end.

(** ** Shadow pages and tracking *)

(** [__gfn_to_memslot(vmrun_memslots_for_spte_role(vmrun, sp->role), gfn)];
    the functions dereference the result. *)
Context (role_gfn_to_memslot : bool → Z → option vmrun_memory_slot).

Definition account_shadowed (sp : mmu_page) (st : track_state) : option track_state :=
  let st := st <| indirect_shadow_pages ::= λ n, n + 1 |> in
  slot ← role_gfn_to_memslot sp.(role_smm) sp.(sp_gfn);
  if sp.(role_level) >? PT_PAGE_TABLE_LEVEL
  then vmrun_slot_page_track_add_page slot sp.(sp_gfn) KVM_PAGE_TRACK_WRITE st
  else vmrun_mmu_gfn_disallow_lpage slot sp.(sp_gfn) st.

Definition unaccount_shadowed (sp : mmu_page) (st : track_state) : option track_state :=
  let st := st <| indirect_shadow_pages ::= λ n, n - 1 |> in
  slot ← role_gfn_to_memslot sp.(role_smm) sp.(sp_gfn);
  if sp.(role_level) >? PT_PAGE_TABLE_LEVEL
  then vmrun_slot_page_track_remove_page slot sp.(sp_gfn) KVM_PAGE_TRACK_WRITE st
  else vmrun_mmu_gfn_allow_lpage slot sp.(sp_gfn) st.

(** ** The level of a mapping *)

Definition __mmu_gfn_lpage_is_disallowed (gfn level : Z) (slot : option vmrun_memory_slot) (h : heap)
    : option bool :=
  match slot with
  | Some slot => let '(p, idx) := lpage_info_slot gfn slot level in
                 v ← load p idx h; Some (truth v)
  | None => Some true
  end.

Definition mmu_gfn_lpage_is_disallowed (gfn level : Z) (h : heap) : option bool :=
  __mmu_gfn_lpage_is_disallowed gfn level (vcpu_gfn_to_memslot gfn) h.

(** [vmrun_host_page_size(vmrun, gfn)] *)
Context (host_page_size : Z → Z).

(** [ret = i] for each level in turn, until one is too large. *)
Fixpoint host_levels (page_size : Z) (levels : list Z) (ret : Z) : Z :=
  match levels with
  | [] => ret
  | i :: levels => if page_size >=? KVM_HPAGE_SIZE i then host_levels page_size levels i else ret
  end.

Definition host_mapping_level (gfn : Z) : Z :=
  host_levels (host_page_size gfn) (seqZ PT_PAGE_TABLE_LEVEL VMRUN_NR_PAGE_SIZES) 0.

Definition memslot_valid_for_gpte (slot : option vmrun_memory_slot) (no_dirty_log : bool) : bool :=
  match slot with
  | None => false
  | Some s => if truth (Z.land s.(flags) KVM_MEMSLOT_INVALID) then false
              else if no_dirty_log && truth s.(dirty_bitmap) then false else true
  end.

Definition gfn_to_memslot_dirty_bitmap (gfn : Z) (no_dirty_log : bool) : option vmrun_memory_slot :=
  let slot := vcpu_gfn_to_memslot gfn in
  if negb (memslot_valid_for_gpte slot no_dirty_log) then None else slot.

(** [vmrun_x86_ops->get_lpage_level()] *)
Context (get_lpage_level : Z).

(** [for (level = PT_DIRECTORY_LEVEL; level <= max_level; ++level)]; the
    result is the value of [level] after the loop. *)
Fixpoint mapping_loop (gfn : Z) (slot : option vmrun_memory_slot) (h : heap) (n : nat) (level : Z)
    : option Z :=
  match n with
  | O => Some level
  | S n => b ← __mmu_gfn_lpage_is_disallowed gfn level slot h;
           if b : bool then Some level else mapping_loop gfn slot h n (level + 1)
  end.

(** Result: the level and [*force_pt_level]. *)
Definition mapping_level (large_gfn : Z) (force_pt_level : bool) (h : heap) : option (Z * bool) :=
  if force_pt_level then Some (PT_PAGE_TABLE_LEVEL, force_pt_level)
  else
    let slot := vcpu_gfn_to_memslot large_gfn in
    let force_pt_level := negb (memslot_valid_for_gpte slot true) in
    if force_pt_level then Some (PT_PAGE_TABLE_LEVEL, force_pt_level)
    else
      let host_level := host_mapping_level large_gfn in
      if host_level =? PT_PAGE_TABLE_LEVEL then Some (host_level, force_pt_level)
      else
        let max_level := Z.min get_lpage_level host_level in
        level ← mapping_loop large_gfn slot h (Z.to_nat (max_level - PT_DIRECTORY_LEVEL + 1)) PT_DIRECTORY_LEVEL;
        Some (level - 1, force_pt_level).
End PageTrack.

(* ------------------------------------------------------------------ *)
(** ** Notifiers of tracked writes *)

(** A callback changes a state [S] that is its own business. *)
Record notifier_node (S : Type) := {
  track_write : option (Z → list Z → Z → S → S);
  track_flush_slot : option (vmrun_memory_slot → S → S)
}.
Arguments track_write {S}.
Arguments track_flush_slot {S}.

(** [struct vmrun_page_track_notifier_head]: the list, by the nodes'
    addresses, and the readers inside the SRCU section. *)
Record notifier_head := { track_notifier_list : list Z; track_srcu : option Z }.
#[export] Instance eta_notifier_head : Eta notifier_head := λ r,
  {| track_notifier_list := r.(track_notifier_list); track_srcu := r.(track_srcu) |}.

Definition vmrun_page_track_init : notifier_head := {| track_notifier_list := []; track_srcu := Some 0 |}.

(** [cleanup_srcu_struct]: with readers inside, Linux warns and leaks it. *)
Definition vmrun_page_track_cleanup (hd : notifier_head) : notifier_head :=
  match hd.(track_srcu) with Some 0 => hd <| track_srcu := None |> | _ => hd end.

Definition vmrun_page_track_register_notifier (n : Z) (hd : notifier_head) : notifier_head :=
  hd <| track_notifier_list ::= λ l, n :: l |>.

(** [hlist_del_rcu], then [synchronize_srcu], which returns once the readers
    have left; [None]: it waits. *)
Definition vmrun_page_track_unregister_notifier (n : Z) (hd : notifier_head) : option notifier_head :=
  match hd.(track_srcu) with
  | Some 0 => Some (hd <| track_notifier_list ::= filter (λ m, m ≠ n) |>)
  | _ => None
  end.

Section Notify.
Context {S : Type} (nodes : Z → notifier_node S).

(** [hlist_for_each_entry_rcu] inside an SRCU read section, which is left as
    it was entered. *)
Definition notify (call : notifier_node S → option (S → S)) (hd : notifier_head) (s : S) : S :=
  if bool_decide (hd.(track_notifier_list) = []) then s
  else foldl (λ s n, match call (nodes n) with Some f => f s | None => s end) s hd.(track_notifier_list).

Definition vmrun_page_track_write (gpa : Z) (new : list Z) (bytes : Z) (hd : notifier_head) (s : S) : S :=
  notify (λ n, (λ f, f gpa new bytes) <$> n.(track_write)) hd s.

Definition vmrun_page_track_flush_slot (slot : vmrun_memory_slot) (hd : notifier_head) (s : S) : S :=
  notify (λ n, (λ f, f slot) <$> n.(track_flush_slot)) hd s.
End Notify.
