(* ===== verification/PageTrackProps.v ===== *)
(** * Page tracking: the counters refine a multiset of frames

    The arrays of a slot count, per frame and per huge page, the members of a
    multiset of guest frames (a list up to permutation). *)

From S2P Require Import Prelude.
From S2P Require Import Spte.
From S2P Require Import SpteTrack.
From S2P Require Import Memslots.
From S2P Require Import MemRegion.
From S2P Require Import MemRegionProps.
From S2P Require Import PteList.
From S2P Require Import PteListProps.
From S2P Require Import Rmap.
From S2P Require Import RmapProps.
From S2P Require Import SlotWalk.
From S2P Require Import SlotWalkProps.
From S2P Require Import PageTrack.

(* ------------------------------------------------------------------ *)
(** ** Arrays of counters *)

(** The array that counts, in cell [i], the frames of [T] with key [i]. *)
Definition counters (n : Z) (init key : Z → Z) (T : list Z) : list Z :=
  (λ i, init i + occ i (key <$> T)) <$> seqZ 0 n.

#[export] Instance counters_perm (n : Z) (init key : Z → Z) : Proper ((≡ₚ) ==> (=)) (counters n init key).
Proof.
  intros T T' H. unfold counters. apply list_fmap_ext. intros i x Hx. f_equal. apply occ_perm. by rewrite H.
Qed.

Lemma counters_lookup (n : Z) (init key : Z → Z) (T : list Z) (i : Z) :
  0 <= i < n → counters n init key T !! Z.to_nat i = Some (init i + occ i (key <$> T)).
Proof.
  intros Hi. unfold counters. rewrite list_lookup_fmap, lookup_seqZ_lt by lia. cbn [fmap option_fmap option_map].
  by replace (0 + Z.of_nat (Z.to_nat i)) with i by lia.
Qed.

Lemma counters_length (n : Z) (init key : Z → Z) (T : list Z) : length (counters n init key T) = Z.to_nat n.
Proof. unfold counters. by rewrite length_fmap, length_seqZ. Qed.

Lemma counters_nil (n : Z) (key : Z → Z) : counters n (λ _, 0) key [] = replicate (Z.to_nat n) 0.
Proof.
  apply list_eq_same_length with (n := Z.to_nat n); [apply length_replicate|apply counters_length|].
  intros i x y Hi. rewrite lookup_replicate_2 by done. rewrite <- (Nat2Z.id i), counters_lookup by lia.
  by intros <-%(inj Some) <-%(inj Some).
Qed.

(** Counting one more frame writes one cell. *)
Lemma counters_add (n : Z) (init key : Z → Z) (T : list Z) (gfn : Z) :
  0 <= key gfn < n →
  <[Z.to_nat (key gfn) := init (key gfn) + occ (key gfn) (key <$> T) + 1]> (counters n init key T)
  = counters n init key (gfn :: T).
Proof.
  intros Hk. apply list_eq_same_length with (n := Z.to_nat n).
  - apply counters_length.
  - by rewrite length_insert, counters_length.
  - intros i x y Hi. destruct (decide (i = Z.to_nat (key gfn))) as [->|Hne].
    + rewrite list_lookup_insert_eq by (by rewrite counters_length). rewrite counters_lookup by done.
      intros <-%(inj Some) <-%(inj Some). rewrite fmap_cons, occ_cons, Z.eqb_refl. unfold b2z. lia.
    + rewrite list_lookup_insert_ne by done. replace i with (Z.to_nat (Z.of_nat i)) by lia.
      rewrite !counters_lookup by lia. intros <-%(inj Some) <-%(inj Some). rewrite fmap_cons, occ_cons.
      rewrite (proj2 (Z.eqb_neq _ _)) by lia. unfold b2z. lia.
Qed.

(** Counting one less undoes it. *)
Lemma counters_remove (n : Z) (init key : Z → Z) (T : list Z) (gfn : Z) :
  0 <= key gfn < n →
  <[Z.to_nat (key gfn) := init (key gfn) + occ (key gfn) (key <$> T)]> (counters n init key (gfn :: T))
  = counters n init key T.
Proof.
  intros Hk. rewrite <- counters_add by done. rewrite list_insert_insert_eq. apply list_insert_id.
  by apply counters_lookup.
Qed.

(** ** Loads and stores *)

Lemma load_block (p i v : Z) (l : list Z) (h : heap) :
  h.(blocks) !! p = Some l → 0 <= i → l !! Z.to_nat i = Some v → load p i h = Some v.
Proof. intros Hp Hi Hl. unfold load. rewrite (proj2 (Z.ltb_ge i 0)) by done. by rewrite Hp. Qed.

Lemma store_block (p i v : Z) (l : list Z) (h : heap) :
  h.(blocks) !! p = Some l → 0 <= i → is_Some (l !! Z.to_nat i) →
  store p i v h = Some (write_block p <[Z.to_nat i := v]> h).
Proof. intros Hp Hi [w Hl]. unfold store. by rewrite (load_block p i w l) by done. Qed.

Lemma write_block_eq (p : Z) (f : list Z → list Z) (l : list Z) (h : heap) :
  h.(blocks) !! p = Some l → (write_block p f h).(blocks) !! p = Some (f l).
Proof. intros Hp. cbn. by rewrite lookup_alter_eq, Hp. Qed.

Lemma write_block_ne (p q : Z) (f : list Z → list Z) (h : heap) :
  p ≠ q → (write_block p f h).(blocks) !! q = h.(blocks) !! q.
Proof. intros Hp. cbn. by rewrite lookup_alter_ne. Qed.

(* ------------------------------------------------------------------ *)
(** ** The arrays of a slot *)

Lemma occ_fmap (key : Z → Z) `{!Inj (=) (=) key} (i : Z) (l : list Z) : occ (key i) (key <$> l) = occ i l.
Proof.
  induction l as [|j l IH]; [done|]. rewrite fmap_cons, !occ_cons, IH. f_equal. f_equal.
  destruct (Z.eqb_spec j i) as [->|Hne]; [apply Z.eqb_refl|]. apply Z.eqb_neq. by intros ?%(inj key).
Qed.

Lemma s32_id (x : Z) : - 2 ^ 31 <= x < 2 ^ 31 → s32 x = x.
Proof. intros Hx. unfold swrap. rewrite Z.mod_small; lia. Qed.

Section Slot.
Context (slot : vmrun_memory_slot).

Definition frame_key (gfn : Z) : Z := gfn - slot.(base_gfn).
(** Index, among the huge pages of [level] that meet the slot, of the one of a frame. *)
Definition huge_key (level gfn : Z) : Z :=
  Z.shiftr gfn (level_shift level) - Z.shiftr slot.(base_gfn) (level_shift level).
Definition huge_count (level : Z) : Z := huge_key level (slot.(base_gfn) + slot.(npages) - 1) + 1.

Definition track_ptr : Z := slot.(arch).(gfn_track) !!! Z.to_nat VMRUN_PAGE_TRACK_WRITE.
Definition lpage_ptr (level : Z) : Z := slot.(arch).(lpage_info) !!! Z.to_nat (level - 2).

(** The trackers of the frames are [T]. *)
Definition track_rep (T : list Z) (h : heap) : Prop :=
  h.(blocks) !! track_ptr = Some (counters slot.(npages) (λ _, 0) frame_key T).

(** [init] at first, and [X] the frames that forbid large pages around them. *)
Definition lpage_rep (init : Z → Z → Z) (X : list Z) (h : heap) : Prop :=
  ∀ level, 2 <= level <= 3 →
    h.(blocks) !! lpage_ptr level = Some (counters (huge_count level) (init level) (huge_key level) X).

(** A slot with memory of its own. *)
Record slot_arrays : Prop := {
  sa_ok : slot_ok slot;
  sa_used : slot.(npages) ≠ 0;
  sa_track : ∀ level, 2 <= level <= 3 → lpage_ptr level ≠ track_ptr;
  sa_lpage : lpage_ptr 2 ≠ lpage_ptr 3
}.
Context (Ha : slot_arrays).

#[local] Instance frame_key_inj : Inj (=) (=) frame_key.
Proof using Type. intros a b. unfold frame_key. lia. Qed.

Lemma level_cases (level : Z) : 2 <= level <= 3 → level = 2 ∨ level = 3.
Proof using Type. lia. Qed.

(** The index computed in C is the key, and lies in the array. *)
Lemma huge_key_spec (level gfn : Z) :
  1 <= level → contains slot gfn →
  gfn_to_index gfn slot.(base_gfn) level = huge_key level gfn ∧ 0 <= huge_key level gfn < huge_count level.
Proof using Ha.
  intros Hl Hg. destruct Ha as [[Hb Hn He _] _ _ _]. unfold contains in Hg.
  assert (Hr : range_ok slot slot.(base_gfn) (slot.(base_gfn) + slot.(npages) - 1)) by (split; lia).
  split.
  - rewrite (index_of _ _ _ Hr) by lia. done.
  - assert (0 <= level_shift level) by (unfold level_shift; lia). unfold huge_count, huge_key.
    pose proof (shiftr_mono slot.(base_gfn) gfn (level_shift level)).
    pose proof (shiftr_mono gfn (slot.(base_gfn) + slot.(npages) - 1) (level_shift level)). lia.
Qed.

Lemma track_index_spec (gfn : Z) :
  contains slot gfn → track_index slot gfn = frame_key gfn ∧ 0 <= frame_key gfn < slot.(npages).
Proof using Ha.
  intros Hg. destruct (huge_key_spec PT_PAGE_TABLE_LEVEL gfn) as [Hi _]; [done|done|].
  destruct Ha as [[Hb Hn He _] _ _ _]. unfold contains in Hg. change VMRUN_MEM_MAX_NR_PAGES with (2 ^ 31 - 1) in Hn.
  unfold track_index. rewrite Hi. unfold huge_key, frame_key. change (level_shift PT_PAGE_TABLE_LEVEL) with 0.
  rewrite !Z.shiftr_0_r, s32_id; lia.
Qed.

(** What changes when the array at [p] is written. *)
Definition only_writes (p : Z) (h h' : heap) : Prop := ∀ q, q ≠ p → h'.(blocks) !! q = h.(blocks) !! q.

Lemma only_writes_track (level : Z) (T : list Z) (h h' : heap) :
  2 <= level <= 3 → only_writes (lpage_ptr level) h h' → track_rep T h → track_rep T h'.
Proof using Ha. intros Hl Hw HT. unfold track_rep. rewrite Hw; [done|]. by apply not_eq_sym, Ha. Qed.

Lemma only_writes_lpage (init : Z → Z → Z) (X : list Z) (h h' : heap) :
  only_writes track_ptr h h' → lpage_rep init X h → lpage_rep init X h'.
Proof using Ha. intros Hw HX level Hl. rewrite Hw; [by apply HX|by apply Ha]. Qed.

(** *** [update_gfn_track] *)

Lemma track_load (gfn : Z) (T : list Z) (h : heap) :
  contains slot gfn → track_rep T h → load track_ptr (track_index slot gfn) h = Some (occ gfn T).
Proof using Ha.
  intros Hg HT. destruct (track_index_spec gfn Hg) as [-> Hk].
  apply (load_block _ _ _ _ _ HT); [lia|]. rewrite counters_lookup by done. by rewrite (occ_fmap frame_key).
Qed.

Lemma track_store (gfn v : Z) (T : list Z) (h : heap) :
  contains slot gfn → track_rep T h →
  store track_ptr (track_index slot gfn) v h = Some (write_block track_ptr <[Z.to_nat (frame_key gfn) := v]> h).
Proof using Ha.
  intros Hg HT. destruct (track_index_spec gfn Hg) as [-> Hk].
  apply (store_block _ _ _ _ _ HT); [lia|]. by rewrite counters_lookup by done.
Qed.

Lemma track_add (gfn : Z) (T : list Z) (st : track_state) :
  contains slot gfn → track_rep T st.(tk_heap) → occ gfn T < USHRT_MAX →
  ∃ h', update_gfn_track slot gfn VMRUN_PAGE_TRACK_WRITE 1 st = Some (st <| tk_heap := h' |>) ∧
        track_rep (gfn :: T) h' ∧ only_writes track_ptr st.(tk_heap) h'.
Proof using Ha.
  intros Hg HT Ho. pose proof (occ_bounds gfn T). unfold update_gfn_track. fold track_ptr.
  rewrite (track_load gfn T) by done. cbn [mbind option_bind].
  rewrite (proj2 (Z.ltb_ge _ 0)), (proj2 (Z.ltb_ge _ _)) by lia. cbn [orb].
  rewrite (track_store gfn _ T) by done. cbn [mbind option_bind].
  eexists. split; [done|]. split; [|intros q Hq; by apply write_block_ne].
  unfold track_rep. rewrite (write_block_eq _ _ _ _ HT). f_equal.
  rewrite wrap_id by (unfold is_u, USHRT_MAX in *; lia).
  rewrite <- counters_add by (by apply track_index_spec). by rewrite (occ_fmap frame_key).
Qed.

Lemma track_remove (gfn : Z) (T : list Z) (st : track_state) :
  contains slot gfn → track_rep (gfn :: T) st.(tk_heap) → occ gfn T <= USHRT_MAX - 1 →
  ∃ h', update_gfn_track slot gfn VMRUN_PAGE_TRACK_WRITE (-1) st = Some (st <| tk_heap := h' |>) ∧
        track_rep T h' ∧ only_writes track_ptr st.(tk_heap) h'.
Proof using Ha.
  intros Hg HT Ho. pose proof (occ_bounds gfn T). unfold update_gfn_track. fold track_ptr.
  rewrite (track_load gfn (gfn :: T)), occ_cons, Z.eqb_refl by done. unfold b2z. cbn [mbind option_bind].
  rewrite (proj2 (Z.ltb_ge _ 0)), (proj2 (Z.ltb_ge _ _)) by lia. cbn [orb].
  rewrite (track_store gfn _ (gfn :: T)) by done. cbn [mbind option_bind].
  eexists. split; [done|]. split; [|intros q Hq; by apply write_block_ne].
  unfold track_rep. rewrite (write_block_eq _ _ _ _ HT). f_equal.
  rewrite wrap_id by (unfold is_u, USHRT_MAX in *; lia).
  rewrite <- (counters_remove slot.(npages) (λ _, 0) frame_key T gfn) by (by apply track_index_spec).
  rewrite (occ_fmap frame_key). apply (f_equal (λ w, <[_ := w]> _)). lia.
Qed.

(** Without a tracker the counter stays at 0 and the kernel warns. *)
Lemma track_remove_warns (gfn : Z) (T : list Z) (st : track_state) :
  contains slot gfn → track_rep T st.(tk_heap) → gfn ∉ T →
  update_gfn_track slot gfn VMRUN_PAGE_TRACK_WRITE (-1) st = Some (st <| tk_warns ::= S |>).
Proof using Ha.
  intros Hg HT Ho. rewrite <- occ_pos in Ho. pose proof (occ_bounds gfn T).
  unfold update_gfn_track. fold track_ptr. rewrite (track_load gfn T) by done. cbn [mbind option_bind].
  by rewrite (proj2 (Z.ltb_lt _ 0)) by lia.
Qed.

(** *** [disallow_lpage] *)

(** [X'] has one frame more ([count] 1) or less ([count] -1) than [X]. *)
Inductive counted (gfn : Z) : Z → list Z → list Z → Prop :=
  | counted_up (X : list Z) : counted gfn 1 X (gfn :: X)
  | counted_down (X : list Z) : counted gfn (-1) (gfn :: X) X.

(** The counters of a created slot start at 0 or 1, and stay in an [int]. *)
Record lpage_bounds (init : Z → Z → Z) (X : list Z) : Prop := {
  lb_init : ∀ level i, 0 <= init level i <= 1;
  lb_frames : Z.of_nat (length X) < 2 ^ 31 - 1
}.

Lemma disallow_level (init : Z → Z → Z) (gfn count level : Z) (X X' : list Z) (st : track_state) :
  contains slot gfn → 2 <= level <= 3 → counted gfn count X X' → lpage_bounds init X → lpage_bounds init X' →
  st.(tk_heap).(blocks) !! lpage_ptr level
    = Some (counters (huge_count level) (init level) (huge_key level) X) →
  ∃ h', update_disallow_level slot gfn count st level = Some (st <| tk_heap := h' |>) ∧
        h'.(blocks) !! lpage_ptr level = Some (counters (huge_count level) (init level) (huge_key level) X') ∧
        only_writes (lpage_ptr level) st.(tk_heap) h'.
Proof using Ha.
  intros Hg Hl Hc [Hi HX] [_ HX'] Hb. destruct (huge_key_spec level gfn ltac:(lia) Hg) as [Hkey Hk].
  set (v := λ Y, init level (huge_key level gfn) + occ (huge_key level gfn) (huge_key level <$> Y)).
  assert (Hv : ∀ Y, 0 <= v Y <= Z.of_nat (length Y) + 1).
  { intros Y. unfold v. pose proof (occ_bounds (huge_key level gfn) (huge_key level <$> Y)) as Ho.
    rewrite length_fmap in Ho. specialize (Hi level (huge_key level gfn)). lia. }
  assert (Hvv : v X + count = v X' ∧
    <[Z.to_nat (huge_key level gfn) := v X']> (counters (huge_count level) (init level) (huge_key level) X)
    = counters (huge_count level) (init level) (huge_key level) X').
  { destruct Hc as [X|X]; unfold v; rewrite fmap_cons, occ_cons, Z.eqb_refl; unfold b2z; (split; [lia|]).
    - rewrite <- counters_add by done. apply (f_equal (λ w, <[_ := w]> _)). lia.
    - by apply counters_remove. }
  destruct Hvv as [Hvv Hins].
  unfold update_disallow_level, lpage_info_slot. fold (lpage_ptr level). rewrite Hkey.
  rewrite (load_block _ _ (v X) _ _ Hb) by (rewrite ?counters_lookup by done; (lia || done)).
  cbn [mbind option_bind]. rewrite Hvv, s32_id by (specialize (Hv X'); lia).
  rewrite (store_block _ _ _ _ _ Hb) by (rewrite ?counters_lookup by done; (lia || done)).
  cbn [mbind option_bind]. rewrite (proj2 (Z.ltb_ge _ 0)) by (apply Hv).
  eexists. split; [done|]. split; [|intros q Hq; by apply write_block_ne].
  by rewrite (write_block_eq _ _ _ _ Hb), Hins.
Qed.

Lemma disallow_spec (init : Z → Z → Z) (gfn count : Z) (X X' T : list Z) (st : track_state) :
  contains slot gfn → counted gfn count X X' → lpage_bounds init X → lpage_bounds init X' →
  lpage_rep init X st.(tk_heap) → track_rep T st.(tk_heap) →
  ∃ h', update_gfn_disallow_lpage_count slot gfn count st = Some (st <| tk_heap := h' |>) ∧
        lpage_rep init X' h' ∧ track_rep T h'.
Proof using Ha.
  intros Hg Hc HX HX' Hrep HT. unfold update_gfn_disallow_lpage_count.
  change hugepage_levels with [2; 3]. cbn [update_disallow_levels].
  destruct (disallow_level init gfn count 2 X X' st) as (h1 & -> & H1 & W1); try done; [by apply Hrep|].
  cbn [mbind option_bind]. pose proof (sa_lpage Ha) as Hne.
  destruct (disallow_level init gfn count 3 X X' (st <| tk_heap := h1 |>)) as (h2 & E2 & H2 & W2); try done.
  { cbn. rewrite W1 by (by apply not_eq_sym). by apply Hrep. }
  rewrite E2. cbn [mbind option_bind]. exists h2. split; [done|]. cbn in W2. split.
  - intros level Hl. destruct (level_cases level Hl) as [->| ->]; [|exact H2].
    rewrite W2 by done. exact H1.
  - apply (only_writes_track 3 T h1 h2); [done|done|].
    by apply (only_writes_track 2 T st.(tk_heap) h1).
Qed.

Lemma lpage_load (init : Z → Z → Z) (gfn level : Z) (X : list Z) (h : heap) :
  contains slot gfn → 2 <= level <= 3 → lpage_rep init X h →
  __mmu_gfn_lpage_is_disallowed gfn level (Some slot) h
  = Some (truth (init level (huge_key level gfn) + occ (huge_key level gfn) (huge_key level <$> X))).
Proof using Ha.
  intros Hg Hl HX. destruct (huge_key_spec level gfn ltac:(lia) Hg) as [Hkey Hk].
  unfold __mmu_gfn_lpage_is_disallowed, lpage_info_slot. fold (lpage_ptr level). rewrite Hkey.
  by rewrite (load_block _ _ _ _ _ (HX level Hl) (proj1 Hk) (counters_lookup _ _ _ _ _ Hk)).
Qed.
End Slot.

#[export] Instance track_rep_perm (slot : vmrun_memory_slot) : Proper ((≡ₚ) ==> (=) ==> iff) (track_rep slot).
Proof. intros T T' HT h h' <-. unfold track_rep. by rewrite HT. Qed.

#[export] Instance lpage_rep_perm (slot : vmrun_memory_slot) (init : Z → Z → Z) :
  Proper ((≡ₚ) ==> (=) ==> iff) (lpage_rep slot init).
Proof. intros X X' HX h h' <-. unfold lpage_rep. by setoid_rewrite HX. Qed.

(* ------------------------------------------------------------------ *)
(** ** Write protection of a tracked frame *)

Section Frames.
Context `{K : KvmPte} (g : shadow_masks) (slot : vmrun_memory_slot).
(** The entries, and descriptors, of the reverse maps of the slot. *)
Context (L P : rmap_key → list Z).

(** The entry at [x] maps the frame, at some level. *)
Definition maps (gfn x : Z) : Prop := ∃ level, 1 <= level <= 3 ∧ x ∈ L (__gfn_to_rmap gfn level slot).

(** The reverse maps are in order, and nobody can write to the frames of [T]. *)
Record mmu_rep (T : list Z) (st : mmu_state) : Prop := {
  mr_holds : ∀ gfn level, contains slot gfn → 1 <= level <= 3 →
    let k := __gfn_to_rmap gfn level slot in rmap_holds st k (P k) (L k);
  mr_entries : ∀ gfn x, contains slot gfn → maps gfn x → protectable g true (st.(ptes) x);
  mr_tracked : ∀ gfn x, gfn ∈ T → maps gfn x →
    is_writable_pte (st.(ptes) x) = false ∧ spte_can_locklessly_be_made_writable (st.(ptes) x) = false
}.

#[export] Instance mmu_rep_perm : Proper ((≡ₚ) ==> (=) ==> iff) mmu_rep.
Proof using Type.
  intros T T' HT st st' <-. split; intros [H1 H2 H3]; (split; [done|done|]); intros gfn x Hg;
    apply H3; [by rewrite HT|by rewrite <- HT].
Qed.

Lemma mmu_rep_remove (gfn : Z) (T : list Z) (st : mmu_state) : mmu_rep (gfn :: T) st → mmu_rep T st.
Proof using Type. intros [H1 H2 H3]. split; [done|done|]. intros f x Hf. apply H3. by right. Qed.

Lemma flush_mmu_rep (T : list Z) (st : mmu_state) : mmu_rep T st → mmu_rep T (flush_remote_tlbs st).
Proof using Type.
  intros [H1 H2 H3]. split; [|done|done]. intros f i Hf Hi. by destruct (H1 f i Hf Hi).
Qed.

(** The loop over the levels, with [progress] as its invariant. *)
Lemma protect_levels_spec (st : mmu_state) (keys : list rmap_key) (gfn : Z) (levels : list Z)
    (done : list rmap_key) (acc : mmu_state * bool) :
  (∀ k, k ∈ keys → rmap_holds st k (P k) (L k)) →
  (∀ k x, k ∈ keys → x ∈ L k → protectable g true (st.(ptes) x)) →
  (∀ i, i ∈ levels → __gfn_to_rmap gfn i slot ∈ keys) →
  progress g true st L done acc.1 acc.2 →
  ∃ acc', protect_levels g levels slot gfn acc = Some acc' ∧
          progress g true st L (done ++ ((λ i, __gfn_to_rmap gfn i slot) <$> levels)) acc'.1 acc'.2.
Proof using Type.
  intros Hh He. revert done acc. induction levels as [|i levels IH]; intros done acc Hl Hp.
  - exists acc. split; [done|]. by rewrite fmap_nil, app_nil_r.
  - destruct (progress_step g true st keys L P Hh He done (__gfn_to_rmap gfn i slot) acc.1 acc.2)
      as (st2 & b & E & Hp2); [apply Hl; by left|done|].
    cbn [protect_levels]. rewrite E. cbn [mbind option_bind].
    destruct (IH (done ++ [__gfn_to_rmap gfn i slot]) (st2, acc.2 || b)) as (acc' & E' & Hp').
    + intros j Hj. apply Hl. by right.
    + done.
    + exists acc'. split; [done|]. rewrite fmap_cons. by rewrite <- (assoc_L (++)) in Hp'.
Qed.

Lemma protected_protectable (v : Z) : protectable g true v → protectable g true (protected g true v).
Proof using Type.
  intros [Hp Hs Ht]. split; [done| |].
  - unfold protected at 1. by rewrite protected_idem.
  - intros Hw. pose proof (proj1 (write_protect_value g true v)) as Hn. unfold protected in Hw. congruence.
Qed.

Lemma gfn_write_protect_spec (gfn : Z) (T : list Z) (st : mmu_state) :
  contains slot gfn → mmu_rep T st →
  ∃ st' b, vmrun_mmu_slot_gfn_write_protect g slot gfn st = Some (st', b) ∧ mmu_rep (gfn :: T) st' ∧
    (∀ x, ¬ maps gfn x → st'.(ptes) x = st.(ptes) x) ∧
    st'.(remote_flushes) = st.(remote_flushes) ∧
    ((∃ x, maps gfn x ∧ is_writable_pte (st.(ptes) x) = true) → b = true).
Proof using Type.
  intros Hg [Hh He Ht]. unfold vmrun_mmu_slot_gfn_write_protect.
  change (seqZ PT_PAGE_TABLE_LEVEL VMRUN_NR_PAGE_SIZES) with [1; 2; 3].
  set (keys := (λ i, __gfn_to_rmap gfn i slot) <$> [1; 2; 3]).
  assert (Hkeys : ∀ k, k ∈ keys ↔ ∃ level, 1 <= level <= 3 ∧ k = __gfn_to_rmap gfn level slot).
  { intros k. unfold keys. rewrite list_elem_of_fmap. split.
    - intros (i & -> & Hi). exists i. split; [|done]. set_unfold. lia.
    - intros (i & Hi & ->). exists i. split; [done|]. set_unfold. lia. }
  destruct (protect_levels_spec st keys gfn [1; 2; 3] [] (st, false)) as ([st' b] & -> & [D1 D2 D3 D4 D5]).
  - intros k (i & Hi & ->)%Hkeys. by apply Hh.
  - intros k x (i & Hi & ->)%Hkeys Hx. apply (He gfn); [done|]. by exists i.
  - intros i Hi. apply Hkeys. exists i. split; [set_unfold; lia|done].
  - split; try done; [intros k x Hk; by apply elem_of_nil in Hk|by left].
  - cbn [app fst snd] in *. fold keys in D1, D3, D4. destruct D5 as (F1 & F2 & F3).
    assert (Hval : ∀ x, maps gfn x → st'.(ptes) x = protected g true (st.(ptes) x)).
    { intros x (i & Hi & Hx). eapply D1; [|exact Hx]. apply Hkeys. eauto. }
    exists st', b. split_and!; [done| |..].
    + split.
      * intros f i Hf Hi. destruct (Hh f i Hf Hi) as [R1 R2]. split; [|done].
        unfold head_of in *. by rewrite F1, F2.
      * intros f x Hf Hx. destruct (D2 x) as [->|[-> _]]; [by apply (He f)|].
        by apply protected_protectable, (He f).
      * intros f x Hf Hx. pose proof (write_protect_value g true (st.(ptes) x)) as (Hw & Hl & _).
        fold (protected g true (ptes st x)) in Hw, Hl.
        apply elem_of_cons in Hf as [->|Hf]; [rewrite (Hval x Hx); by auto|].
        destruct (D2 x) as [->|[-> _]]; [by apply (Ht f)|by auto].
    + intros x Hx. apply D3. intros k (i & Hi & ->)%Hkeys Hxk. apply Hx. by exists i.
    + done.
    + intros (x & Hx & Hw). destruct (D2 x) as [Hs|[_ Hf]].
      * rewrite (Hval x Hx) in Hs. pose proof (write_protect_value g true (st.(ptes) x)) as (Hn & _).
        change (is_writable_pte (protected g true (ptes st x)) = false) in Hn. congruence.
      * apply Hf. unfold loses. by rewrite Hw.
Qed.
End Frames.

(* ------------------------------------------------------------------ *)
(** ** The refinement *)

(** The calls that change what is tracked. *)
Inductive track_op :=
  | AddPage (gfn : Z)
  | RemovePage (gfn : Z)
  | Shadow (sp : mmu_page)
  | Unshadow (sp : mmu_page).

(** The abstract state: the tracked frames, and the frames shadowed by a page
    of the lowest level, which only forbid large pages. *)
Definition frames : Type := list Z * list Z.

Section Spec.
Context (slot : vmrun_memory_slot).

(** One more tracker: the counters must have room. *)
Inductive spec_add (gfn : Z) : frames → frames → Prop :=
  spec_add_intro (T D : list Z) :
    contains slot gfn → occ gfn T < USHRT_MAX → Z.of_nat (length (T ++ D)) < 2 ^ 31 - 2 →
    spec_add gfn (T, D) (gfn :: T, D).

Inductive spec_remove (gfn : Z) : frames → frames → Prop :=
  spec_remove_intro (T T' D : list Z) : T ≡ₚ gfn :: T' → spec_remove gfn (T, D) (T', D).

Inductive spec_step : track_op → frames → frames → Prop :=
  | spec_add_page (gfn : Z) (a b : frames) : spec_add gfn a b → spec_step (AddPage gfn) a b
  | spec_remove_page (gfn : Z) (a b : frames) : spec_remove gfn a b → spec_step (RemovePage gfn) a b
  | spec_shadow (sp : mmu_page) (a b : frames) :
      1 < sp.(role_level) → spec_add sp.(sp_gfn) a b → spec_step (Shadow sp) a b
  | spec_shadow_leaf (sp : mmu_page) (T D : list Z) :
      sp.(role_level) <= 1 → contains slot sp.(sp_gfn) → Z.of_nat (length (T ++ D)) < 2 ^ 31 - 2 →
      spec_step (Shadow sp) (T, D) (T, sp.(sp_gfn) :: D)
  | spec_unshadow (sp : mmu_page) (a b : frames) :
      1 < sp.(role_level) → spec_remove sp.(sp_gfn) a b → spec_step (Unshadow sp) a b
  | spec_unshadow_leaf (sp : mmu_page) (T D D' : list Z) :
      sp.(role_level) <= 1 → D ≡ₚ sp.(sp_gfn) :: D' → spec_step (Unshadow sp) (T, D) (T, D').

Inductive spec_run : list track_op → frames → frames → Prop :=
  | spec_nil (a : frames) : spec_run [] a a
  | spec_cons (op : track_op) (ops : list track_op) (a b c : frames) :
      spec_step op a b → spec_run ops b c → spec_run (op :: ops) a c.
End Spec.

Section Refine.
Context `{K : KvmPte} `{TK : KvmTrack, TO : !KvmTrackOk TK} (g : shadow_masks).
Context (slot : vmrun_memory_slot) (Ha : slot_arrays slot) (init : Z → Z → Z) (L P : rmap_key → list Z).
Context (vcpu_gfn_to_memslot : Z → option vmrun_memory_slot).
Context (role_gfn_to_memslot : bool → Z → option vmrun_memory_slot).
Context (Hvcpu : ∀ gfn, contains slot gfn → vcpu_gfn_to_memslot gfn = Some slot).
Context (Hrole : ∀ smm gfn, contains slot gfn → role_gfn_to_memslot smm gfn = Some slot).

Definition run_op (op : track_op) (st : track_state) : option track_state :=
  match op with
  | AddPage gfn => vmrun_slot_page_track_add_page g slot gfn VMRUN_PAGE_TRACK_WRITE st
  | RemovePage gfn => vmrun_slot_page_track_remove_page slot gfn VMRUN_PAGE_TRACK_WRITE st
  | Shadow sp => account_shadowed g role_gfn_to_memslot sp st
  | Unshadow sp => unaccount_shadowed role_gfn_to_memslot sp st
  end.

Fixpoint run_ops (ops : list track_op) (st : track_state) : option track_state :=
  match ops with [] => Some st | op :: ops => st ← run_op op st; run_ops ops st end.

Record refines (a : frames) (st : track_state) : Prop := {
  rf_frames : ∀ f, f ∈ a.1 ++ a.2 → contains slot f;
  rf_track : track_rep slot a.1 st.(tk_heap);
  rf_lpage : lpage_rep slot init (a.1 ++ a.2) st.(tk_heap);
  rf_mmu : mmu_rep g slot L P a.1 st.(tk_mmu);
  rf_bounds : lpage_bounds init (a.1 ++ a.2);
  rf_max : ∀ f, occ f a.1 <= USHRT_MAX
}.

Lemma refines_add (gfn : Z) (a b : frames) (st : track_state) :
  spec_add slot gfn a b → refines a st →
  ∃ st', vmrun_slot_page_track_add_page g slot gfn VMRUN_PAGE_TRACK_WRITE st = Some st' ∧ refines b st' ∧
         st'.(tk_warns) = st.(tk_warns) ∧ st'.(indirect_shadow_pages) = st.(indirect_shadow_pages).
Proof using Ha.
  intros [T D Hg Ho Hlen] [R1 R2 R3 R4 R5 R6]. cbn [fst snd] in *. unfold vmrun_slot_page_track_add_page.
  change (page_track_mode_is_valid VMRUN_PAGE_TRACK_WRITE) with true. cbn [negb].
  destruct (track_add slot Ha gfn T st Hg R2 Ho) as (h1 & -> & T1 & W1). cbn [mbind option_bind].
  assert (HB : lpage_bounds init (gfn :: T ++ D)) by (split; [apply R5|cbn [length]; lia]).
  destruct (disallow_spec slot Ha init gfn 1 (T ++ D) (gfn :: T ++ D) (gfn :: T) (st <| tk_heap := h1 |>))
    as (h2 & E & X2 & T2); try done; [constructor|by apply (only_writes_lpage slot Ha _ _ st.(tk_heap))|].
  unfold vmrun_mmu_gfn_disallow_lpage. rewrite E. cbn [mbind option_bind].
  destruct (gfn_write_protect_spec g slot L P gfn T st.(tk_mmu) Hg R4) as (m & fl & Em & M & _).
  change (VMRUN_PAGE_TRACK_WRITE =? VMRUN_PAGE_TRACK_WRITE) with true. cbn [tk_mmu put]. rewrite Em.
  cbn [mbind option_bind]. eexists. split; [done|]. split_and!; [|done|done]. split; cbn [fst snd]; try done.
  - intros f [->|Hf]%elem_of_cons; [done|by apply R1].
  - destruct fl; [by apply flush_mmu_rep|done].
  - intros f. rewrite occ_cons. destruct (Z.eqb_spec gfn f) as [->|]; unfold b2z; [lia|].
    rewrite Z.add_0_l. apply R6.
Qed.

Lemma refines_remove (gfn : Z) (a b : frames) (st : track_state) :
  spec_remove gfn a b → refines a st →
  ∃ st', vmrun_slot_page_track_remove_page slot gfn VMRUN_PAGE_TRACK_WRITE st = Some st' ∧ refines b st' ∧
         st'.(tk_warns) = st.(tk_warns) ∧ st'.(indirect_shadow_pages) = st.(indirect_shadow_pages).
Proof using Ha.
  intros [T T' D HT] [R1 R2 R3 R4 R5 R6]. cbn [fst snd] in *. setoid_rewrite HT in R1.
  rewrite HT in R2. rewrite HT in R3. rewrite HT in R4. setoid_rewrite HT in R6.
  assert (Hg : contains slot gfn) by (apply R1; by left).
  unfold vmrun_slot_page_track_remove_page. change (page_track_mode_is_valid VMRUN_PAGE_TRACK_WRITE) with true.
  cbn [negb]. destruct (track_remove slot Ha gfn T' st Hg R2) as (h1 & -> & T1 & W1).
  { specialize (R6 gfn). rewrite occ_cons, Z.eqb_refl in R6. unfold b2z in R6. lia. }
  cbn [mbind option_bind]. destruct R5 as [R5 R7]. rewrite HT in R7. cbn [app length] in R7.
  assert (HB : lpage_bounds init (T' ++ D)) by (split; [done|lia]).
  assert (lpage_bounds init (gfn :: T' ++ D)) by (split; [done|cbn [length]; lia]).
  destruct (disallow_spec slot Ha init gfn (-1) (gfn :: T' ++ D) (T' ++ D) T' (st <| tk_heap := h1 |>))
    as (h2 & E & X2 & T2); [done|constructor|done|done|by apply (only_writes_lpage slot Ha _ _ st.(tk_heap))|done|].
  eexists. split; [exact E|]. split_and!; [|done|done]. split; cbn [fst snd]; try done.
  - intros f Hf. apply R1. by right.
  - by eapply mmu_rep_remove.
  - intros f. specialize (R6 f). rewrite occ_cons in R6. unfold b2z in R6. destruct (gfn =? f); lia.
Qed.

(** Only [disallow_lpage] moves for a page table of the lowest level. *)
Lemma refines_leaf (gfn count : Z) (T D D' X X' : list Z) (st : track_state) :
  counted gfn count X X' → T ++ D ≡ₚ X → T ++ D' ≡ₚ X' →
  contains slot gfn → (∀ f, f ∈ T ++ D' → contains slot f) → lpage_bounds init (T ++ D') →
  refines (T, D) st →
  ∃ st', update_gfn_disallow_lpage_count slot gfn count st = Some st' ∧ refines (T, D') st' ∧
         st'.(tk_warns) = st.(tk_warns) ∧ st'.(indirect_shadow_pages) = st.(indirect_shadow_pages).
Proof using Ha.
  intros Hc HX HX' Hg Hf HB [R1 R2 R3 R4 R5 R6]. cbn [fst snd] in *. rewrite HX in R3.
  destruct (disallow_spec slot Ha init gfn count X X' T st) as (h1 & E & X1 & T1); try done.
  - destruct R5 as [? R5]. split; [done|]. by rewrite HX in R5.
  - destruct HB as [? HB]. split; [done|]. by rewrite HX' in HB.
  - eexists. split; [exact E|]. split_and!; [|done|done]. split; cbn [fst snd]; try done.
    by rewrite HX'.
Qed.

(** Shadow pages gained. *)
Definition shadow_delta (op : track_op) : Z :=
  match op with Shadow _ => 1 | Unshadow _ => -1 | _ => 0 end.

Lemma refines_counter (n : Z) (a : frames) (st : track_state) :
  refines a st → refines a (st <| indirect_shadow_pages := n |>).
Proof using Type. intros []. by split. Qed.

(** The operations after the counter has moved. *)
Ltac counted_op H :=
  let st' := fresh "st" in let E := fresh "E" in let R := fresh "R" in let W := fresh "W" in let I := fresh "I" in
  destruct H as (st' & E & R & W & I);
  [..|exists st'; split; [exact E|]; split; [exact R|]; split; [exact W|]; rewrite I; cbn; lia].

Lemma refines_step (op : track_op) (a b : frames) (st : track_state) :
  spec_step slot op a b → refines a st →
  ∃ st', run_op op st = Some st' ∧ refines b st' ∧ st'.(tk_warns) = st.(tk_warns) ∧
         st'.(indirect_shadow_pages) = st.(indirect_shadow_pages) + shadow_delta op.
Proof using Ha TO Hrole.
  clear Hvcpu vcpu_gfn_to_memslot. intros Hs Hr. destruct Hs as [gfn a b Hs|gfn a b Hs|sp a b Hl Hs|sp T D Hl Hg Hlen|sp a b Hl Hs|sp T D D' Hl Hd];
    cbn [run_op shadow_delta]; rewrite ?Z.add_0_r.
  - by apply (refines_add gfn a b).
  - by apply (refines_remove gfn a b).
  - unfold account_shadowed. assert (Hg : contains slot sp.(sp_gfn)) by by destruct Hs.
    rewrite Hrole by done. cbn [mbind option_bind]. rewrite track_write_mode.
    rewrite Z.gtb_ltb, (proj2 (Z.ltb_lt _ _)) by done.
    counted_op (refines_add sp.(sp_gfn) a b (st <| indirect_shadow_pages ::= λ n, n + 1 |>)); [done|].
    by apply refines_counter.
  - unfold account_shadowed. rewrite Hrole by done. cbn [mbind option_bind].
    rewrite Z.gtb_ltb, (proj2 (Z.ltb_ge _ _)) by done.
    counted_op (refines_leaf sp.(sp_gfn) 1 T D (sp.(sp_gfn) :: D) (T ++ D) (sp.(sp_gfn) :: T ++ D)
             (st <| indirect_shadow_pages ::= λ n, n + 1 |>)).
    + constructor.
    + done.
    + by rewrite Permutation_middle.
    + done.
    + intros f Hf. destruct Hr as [R1 _ _ _ _ _]. cbn in R1. set_solver.
    + split; [apply Hr|]. rewrite <- Permutation_middle. cbn [length]. lia.
    + by apply refines_counter.
  - unfold unaccount_shadowed. assert (Hg : contains slot sp.(sp_gfn)).
    { destruct Hs as [T T' D HT], Hr as [R1 _ _ _ _ _]. apply R1. cbn. rewrite HT. set_solver. }
    rewrite Hrole by done. cbn [mbind option_bind]. rewrite track_write_mode.
    rewrite Z.gtb_ltb, (proj2 (Z.ltb_lt _ _)) by done.
    counted_op (refines_remove sp.(sp_gfn) a b (st <| indirect_shadow_pages ::= λ n, n - 1 |>)); [done|].
    by apply refines_counter.
  - unfold unaccount_shadowed. assert (Hall : ∀ f, f ∈ sp.(sp_gfn) :: T ++ D' → contains slot f).
    { intros f Hf. destruct Hr as [R1 _ _ _ _ _]. apply R1. cbn. rewrite Hd. set_solver. }
    rewrite Hrole by (apply Hall; by left). cbn [mbind option_bind].
    rewrite Z.gtb_ltb, (proj2 (Z.ltb_ge _ _)) by done.
    counted_op (refines_leaf sp.(sp_gfn) (-1) T D D' (sp.(sp_gfn) :: T ++ D') (T ++ D')
             (st <| indirect_shadow_pages ::= λ n, n - 1 |>)).
    + constructor.
    + by rewrite Hd, Permutation_middle.
    + done.
    + apply Hall. by left.
    + intros f Hf. apply Hall. by right.
    + destruct Hr as [_ _ _ _ [? R5] _]. split; [done|]. cbn in R5. rewrite Hd, <- Permutation_middle in R5.
      cbn [length] in R5. lia.
    + by apply refines_counter.
Qed.

Lemma refines_run (ops : list track_op) (a b : frames) (st : track_state) :
  spec_run slot ops a b → refines a st →
  ∃ st', run_ops ops st = Some st' ∧ refines b st' ∧ st'.(tk_warns) = st.(tk_warns).
Proof using Ha TO Hrole.
  intros Hs. revert st. induction Hs as [a|op ops a b c Hs Hr IH]; intros st HR; [by exists st|].
  destruct (refines_step op a b st Hs HR) as (st1 & E & R1 & W1 & _). cbn [run_ops]. rewrite E.
  cbn [mbind option_bind]. destruct (IH st1 R1) as (st' & E' & R' & W'). exists st'. by rewrite W'.
Qed.

(** What the rest of the MMU reads. *)
Lemma refines_active (a : frames) (st : track_state) (gfn : Z) :
  refines a st → contains slot gfn →
  vmrun_page_track_is_active vcpu_gfn_to_memslot gfn VMRUN_PAGE_TRACK_WRITE st
  = Some (bool_decide (gfn ∈ a.1), st).
Proof using Ha Hvcpu.
  intros [_ R2 _ _ _ _] Hg. unfold vmrun_page_track_is_active.
  change (page_track_mode_is_valid VMRUN_PAGE_TRACK_WRITE) with true. cbn [negb]. rewrite Hvcpu by done.
  fold (track_ptr slot). rewrite (track_load slot Ha gfn a.1) by done. cbn [mbind option_bind]. by rewrite occ_truth.
Qed.

Lemma refines_disallowed (a : frames) (st : track_state) (gfn level : Z) :
  refines a st → contains slot gfn → 2 <= level <= 3 →
  ∃ b, mmu_gfn_lpage_is_disallowed vcpu_gfn_to_memslot gfn level st.(tk_heap) = Some b ∧
       (b = true ↔ init level (huge_key slot level gfn) ≠ 0 ∨
                   ∃ f, f ∈ a.1 ++ a.2 ∧ huge_key slot level f = huge_key slot level gfn).
Proof using Ha Hvcpu.
  intros [_ _ R3 _ [R5 _] _] Hg Hl. unfold mmu_gfn_lpage_is_disallowed. rewrite Hvcpu by done.
  rewrite (lpage_load slot Ha init gfn level _ _ Hg Hl R3). eexists. split; [done|].
  set (X := a.1 ++ a.2) in *. set (i := huge_key slot level gfn). specialize (R5 level i).
  pose proof (occ_bounds i (huge_key slot level <$> X)) as Hb.
  assert (Hin : 0 < occ i (huge_key slot level <$> X) ↔ ∃ f, f ∈ X ∧ huge_key slot level f = i).
  { rewrite occ_pos, list_elem_of_fmap. clear. naive_solver. }
  unfold truth. rewrite negb_true_iff, Z.eqb_neq, <- Hin. lia.
Qed.
End Refine.

(** C25: page tracking implements a multiset of guest frames.  Every sequence
    of registrations and removals of trackers, and of shadow pages appearing
    and going, that the abstract state allows runs without a warning and
    without an access outside the arrays; afterwards a frame is reported as
    tracked exactly when it has a tracker, a large page is refused exactly when
    the slot's layout refuses it or a tracked or shadowed frame lies in it, and
    no entry that maps a tracked frame is writable or can be made writable
    without the lock. *)
Theorem page_track_refinement `{K : KvmPte} `{TK : KvmTrack, TO : !KvmTrackOk TK} (g : shadow_masks)
    (slot : vmrun_memory_slot) (init : Z → Z → Z) (L P : rmap_key → list Z)
    (vcpu_gfn_to_memslot : Z → option vmrun_memory_slot)
    (role_gfn_to_memslot : bool → Z → option vmrun_memory_slot)
    (ops : list track_op) (a b : frames) (st : track_state) :
  slot_arrays slot →
  (∀ gfn, contains slot gfn → vcpu_gfn_to_memslot gfn = Some slot) →
  (∀ smm gfn, contains slot gfn → role_gfn_to_memslot smm gfn = Some slot) →
  refines g slot init L P a st → spec_run slot ops a b →
  ∃ st', run_ops g slot role_gfn_to_memslot ops st = Some st' ∧
    refines g slot init L P b st' ∧ st'.(tk_warns) = st.(tk_warns) ∧
    (∀ gfn, contains slot gfn →
       vmrun_page_track_is_active vcpu_gfn_to_memslot gfn VMRUN_PAGE_TRACK_WRITE st'
       = Some (bool_decide (gfn ∈ b.1), st')) ∧
    (∀ gfn level, contains slot gfn → 2 <= level <= 3 →
       ∃ d, mmu_gfn_lpage_is_disallowed vcpu_gfn_to_memslot gfn level st'.(tk_heap) = Some d ∧
            (d = true ↔ init level (huge_key slot level gfn) ≠ 0 ∨
                        ∃ f, f ∈ b.1 ++ b.2 ∧ huge_key slot level f = huge_key slot level gfn)) ∧
    (∀ gfn x, gfn ∈ b.1 → maps slot L gfn x →
       is_writable_pte (st'.(tk_mmu).(ptes) x) = false ∧
       spte_can_locklessly_be_made_writable (st'.(tk_mmu).(ptes) x) = false).
Proof.
  intros Ha Hv Hr HR Hs. destruct (refines_run g slot Ha init L P _ Hr ops a b st Hs HR) as (st' & E & R & W).
  exists st'. split_and!; try done.
  - intros gfn Hg. by apply (refines_active g slot Ha init L P).
  - intros gfn level Hg Hl. by apply (refines_disallowed g slot Ha init L P _ Hv b).
  - apply R.
Qed.

(* ------------------------------------------------------------------ *)
(** ** A created slot *)

Lemma alloc_some (n : Z) (h h' : heap) (p : Z) :
  kvzalloc n h = (p, h') → p ≠ 0 →
  p = h.(next_ptr) ∧ h'.(blocks) = <[p := replicate (Z.to_nat n) 0]> h.(blocks) ∧ h'.(next_ptr) = p + 1.
Proof. unfold kvzalloc. destruct (oracle h) as [|[] ?]; intros [= <- <-] Hp; done. Qed.

(** The frames of a huge page of the level. *)
Definition huge_pages (level : Z) : Z := 2 ^ level_shift level.

(** The reasons to refuse a large page that come from the layout of the slot. *)
Definition layout_refuses (lp : bool) (slot : vmrun_memory_slot) (level i : Z) : bool :=
  (i =? 0) && negb (slot.(base_gfn) mod huge_pages level =? 0)
  || (i =? huge_count slot level - 1) && negb ((slot.(base_gfn) + slot.(npages)) mod huge_pages level =? 0)
  || negb (slot.(base_gfn) mod huge_pages level =? (slot.(userspace_addr) / 2 ^ 12) mod huge_pages level)
  || negb lp.

Lemma pages_per_hpage (level : Z) : 1 <= level → VMRUN_PAGES_PER_HPAGE level = huge_pages level.
Proof.
  intros Hl. unfold VMRUN_PAGES_PER_HPAGE, VMRUN_HPAGE_SIZE, VMRUN_HPAGE_SHIFT, BIT, huge_pages.
  change (VMRUN_HPAGE_GFN_SHIFT level) with (level_shift level). change PAGE_SIZE with (2 ^ 12).
  change PAGE_SHIFT with 12. assert (0 <= level_shift level) by (unfold level_shift; lia).
  rewrite Z.shiftl_1_l, Z.pow_add_r by lia. rewrite Z.mul_comm. apply Z.div_mul. lia.
Qed.

(** Masking with the size of a huge page less one. *)
Lemma land_hpage_mask (x level : Z) :
  1 <= level → Z.land x (VMRUN_PAGES_PER_HPAGE level - 1) = x mod huge_pages level.
Proof.
  intros Hl. rewrite pages_per_hpage by done. unfold huge_pages.
  assert (0 <= level_shift level) by (unfold level_shift; lia).
  rewrite <- Z.land_ones, Z.ones_equiv by done. f_equal.
Qed.

Lemma truth_lxor_mask (x y level : Z) :
  1 <= level →
  truth (Z.land (Z.lxor x y) (VMRUN_PAGES_PER_HPAGE level - 1))
  = negb (x mod huge_pages level =? y mod huge_pages level).
Proof.
  intros Hl. rewrite <- !land_hpage_mask by done. set (m := VMRUN_PAGES_PER_HPAGE level - 1).
  assert (E : Z.land (Z.lxor x y) m = Z.lxor (Z.land x m) (Z.land y m)).
  { apply Z.bits_inj'; intros i Hi. autorewrite with bits.
    by destruct (Z.testbit x i), (Z.testbit y i), (Z.testbit m i). }
  rewrite E. unfold truth. f_equal. apply eq_true_iff_eq. by rewrite !Z.eqb_eq, Z.lxor_eq_0_iff.
Qed.

Lemma lookup_insert_if (a : bool) (k i : nat) (v w : Z) (l : list Z) :
  l !! i = Some w → (if a then <[k := v]> l else l) !! i = Some (if a && bool_decide (i = k) then v else w).
Proof.
  intros Hl. destruct a; [|done]. cbn [andb]. case_bool_decide as Hk.
  - subst k. rewrite list_lookup_insert_eq; [done|]. by apply lookup_lt_Some in Hl.
  - by rewrite list_lookup_insert_ne.
Qed.

Section Created.
Context (lp : bool) (slot : vmrun_memory_slot) (Hok : slot_ok slot) (Hn : slot.(npages) ≠ 0).

(** The length of the arrays as the loop computes it. *)
Lemma create_length (level : Z) :
  1 <= level →
  s32 (u64 (gfn_to_index (u64 (slot.(base_gfn) + slot.(npages) - 1)) slot.(base_gfn) level + 1))
  = huge_count slot level ∧ 0 < huge_count slot level.
Proof using Hok Hn.
  intros Hl. pose proof Hok as [Hb Hnp He _]. change VMRUN_MEM_MAX_NR_PAGES with (2 ^ 31 - 1) in Hnp.
  assert (Hr : range_ok slot slot.(base_gfn) (slot.(base_gfn) + slot.(npages) - 1)) by (split; lia).
  assert (0 <= level_shift level) by (unfold level_shift; lia).
  pose proof (shiftr_mono slot.(base_gfn) (slot.(base_gfn) + slot.(npages) - 1) (level_shift level)) as H1.
  pose proof (shiftr_lipschitz slot.(base_gfn) (slot.(base_gfn) + slot.(npages) - 1) (level_shift level)) as H2.
  rewrite (wrap_id 64 (_ - 1)) by (unfold is_u; lia). rewrite (index_of _ _ _ Hr) by lia.
  unfold huge_count, huge_key. rewrite wrap_id by (unfold is_u; lia). rewrite s32_id; lia.
Qed.

(** The stores of the loop give the array of the layout's reasons. *)
Lemma init_lpage_counters (level : Z) :
  1 <= level → 0 < huge_count slot level →
  init_lpage_info lp slot slot.(npages) level (huge_count slot level)
    (replicate (Z.to_nat (huge_count slot level)) 0)
  = counters (huge_count slot level) (λ i, b2z (layout_refuses lp slot level i)) (huge_key slot level) [].
Proof using Hok Hn.
  intros Hl Hc. pose proof Hok as [Hb Hnp He _]. change VMRUN_MEM_MAX_NR_PAGES with (2 ^ 31 - 1) in Hnp.
  unfold init_lpage_info. rewrite truth_lxor_mask, !land_hpage_mask by done.
  rewrite (wrap_id 64) by (unfold is_u; lia). rewrite Z.shiftr_div_pow2 by done. change PAGE_SHIFT with 12.
  unfold layout_refuses, truth. set (m := huge_pages level). set (c := huge_count slot level) in *.
  set (a1 := negb (base_gfn slot mod m =? 0)). set (a2 := negb ((base_gfn slot + npages slot) mod m =? 0)).
  set (a3 := negb (base_gfn slot mod m =? _)).
  apply list_eq_same_length with (n := Z.to_nat c).
  - apply counters_length.
  - destruct (a3 || negb lp); [by rewrite length_replicate|]. by destruct a1, a2; rewrite ?length_insert, length_replicate.
  - intros i x y Hi. rewrite <- (Nat2Z.id i) at 2. rewrite counters_lookup by lia. fold m a1 a2 a3.
    assert (Hz : replicate (Z.to_nat c) 0 !! i = Some 0) by (by apply lookup_replicate).
    pose proof (lookup_insert_if a1 0 i 1 0 _ Hz) as H1.
    pose proof (lookup_insert_if a2 (Z.to_nat (c - 1)) i 1 _ _ H1) as H2. intros Hx <-%(inj Some).
    change (occ (Z.of_nat i) (huge_key slot level <$> [])) with 0. rewrite Z.add_0_r. revert Hx.
    destruct (a3 || negb lp) eqn:E3.
    + rewrite lookup_replicate_2 by done. intros <-%(inj Some).
      rewrite <- orb_assoc, E3, orb_true_r. done.
    + rewrite H2. intros <-%(inj Some). rewrite <- orb_assoc, E3, orb_false_r.
      rewrite (bool_decide_ext (i = Z.to_nat (c - 1)) (Z.of_nat i = c - 1)) by lia.
      rewrite (bool_decide_ext (i = 0%nat) (Z.of_nat i = 0)) by lia.
      destruct (Z.eqb_spec (Z.of_nat i) 0), (Z.eqb_spec (Z.of_nat i) (c - 1)), a1, a2;
        cbn [andb orb]; repeat case_bool_decide; (done || lia).
Qed.
End Created.

(** A pass of the loop that does not fail: two fresh arrays, the second with
    the layout's reasons. *)
Lemma create_level_some (lp : bool) (j : nat) (s slot : vmrun_memory_slot) (h h' : heap) :
  0 < h.(next_ptr) → slot_ok s → s.(npages) ≠ 0 → create_level lp s.(npages) (S j) (s, h) = (true, (slot, h')) →
  let p := h.(next_ptr) in let level := Z.of_nat j + 2 in
  slot = set_lpage_info j (p + 1) (set_rmap (S j) p s) ∧ h'.(next_ptr) = p + 2 ∧
  ∃ l, h'.(blocks) = <[p + 1 := counters (huge_count s level) (λ i, b2z (layout_refuses lp s level i))
                                   (huge_key s level) []]> (<[p := l]> h.(blocks)).
Proof.
  intros Hnext Hok Hn E. set (p := next_ptr h). set (level := Z.of_nat j + 2). unfold create_level in E.
  replace (Z.of_nat (S j) + 1) with level in E by (unfold level; lia).
  destruct (create_length s Hok Hn level ltac:(lia)) as [Hlen Hpos]. rewrite Hlen in E.
  destruct (kvzalloc _ h) as [p' h1] eqn:E1. destruct (Z.eqb_spec p' 0) as [|Hp]; [done|].
  destruct (alloc_some _ _ _ _ E1 Hp) as (-> & B1 & N1). fold p in Hp, B1, N1, E.
  destruct (kvzalloc _ h1) as [q h2] eqn:E2. destruct (Z.eqb_spec q 0) as [|Hq]; [done|].
  destruct (alloc_some _ _ _ _ E2 Hq) as (-> & B2 & N2). rewrite N1 in *. injection E as <- <-.
  split; [done|]. split; [cbn; lia|]. eexists. cbn [write_block blocks]. rewrite B2, B1.
  rewrite alter_insert_eq. f_equal. exact (init_lpage_counters lp s Hok Hn level ltac:(lia) Hpos).
Qed.

(** The arrays of a created slot count no frame yet. *)
Lemma created_reps (lp : bool) (s slot : vmrun_memory_slot) (h h' : heap) :
  heap_ok h → slot_ok s → s.(npages) ≠ 0 → s.(arch) = null_arch →
  vmrun_arch_create_memslot lp s.(npages) (s, h) = (0, (slot, h')) →
  slot = s <| arch := slot.(arch) |> ∧ slot_arrays slot ∧ track_rep slot [] h' ∧
  lpage_rep slot (λ level i, b2z (layout_refuses lp slot level i)) [] h'.
Proof.
  intros [Hnext _] Hok Hn Ha E. unfold vmrun_arch_create_memslot in E.
  change page_sizes with [0; 1; 2]%nat in E. cbn [create_levels] in E.
  destruct (create_level lp (npages s) 0 (s, h)) as [[] [s0 h0]] eqn:E0; [|done].
  assert (H0 : s0 = set_rmap 0 (next_ptr h) s ∧ next_ptr h0 = next_ptr h + 1).
  { unfold create_level in E0. destruct (kvzalloc _ h) as [p h1] eqn:E1.
    destruct (Z.eqb_spec p 0) as [|Hp]; [done|]. injection E0 as <- <-.
    by destruct (alloc_some _ _ _ _ E1 Hp) as (-> & _ & ->). }
  destruct H0 as [-> N0]. set (p := next_ptr h) in *.
  assert (Hs : ∀ a, slot_ok (s <| arch := a |>)) by (intros a; destruct Hok; split; try done; cbn; lia).
  destruct (create_level lp (npages s) 1 _) as [[] [s1 h1]] eqn:E1; [|done].
  destruct (create_level_some lp 0 (set_rmap 0 p s) s1 h0 h1) as (-> & N1 & l1 & B1); [lia|apply Hs|done|exact E1|].
  destruct (create_level lp (npages s) 2 _) as [[] [s2 h2]] eqn:E2; [|done].
  destruct (create_level_some lp 1 (set_lpage_info 0 (next_ptr h0 + 1) (set_rmap 1 (next_ptr h0) (set_rmap 0 p s)))
              s2 h1 h2) as (-> & N2 & l2 & B2); [lia|apply Hs|done|exact E2|].
  rewrite N1, N0 in *. destruct (vmrun_page_track_create_memslot _ _) as [[] [s3 h3]] eqn:E3; [|done].
  injection E as <- <-. unfold vmrun_page_track_create_memslot in E3.
  change (seq 0 (Z.to_nat VMRUN_PAGE_TRACK_MAX)) with [0%nat] in E3. cbn [track_create] in E3.
  destruct (kvzalloc _ h2) as [t h4] eqn:E4. destruct (Z.eqb_spec t 0) as [|Ht]; [done|].
  destruct (alloc_some _ _ _ _ E4 Ht) as (-> & B4 & _). rewrite N2 in *. injection E3 as <- <-.
  unfold set_gfn_track, set_lpage_info, set_rmap. rewrite Ha. split; [done|].
  match goal with |- slot_arrays ?s ∧ _ => set (slot := s) end.
  assert (Ht1 : track_ptr slot = p + 1 + 2 + 2) by done. assert (Hl2 : lpage_ptr slot 2 = p + 1 + 1) by done.
  assert (Hl3 : lpage_ptr slot 3 = p + 1 + 2 + 1) by done. split; [|split].
  - split; [apply Hs|done| |lia]. intros level [->| ->]%level_cases; lia.
  - unfold track_rep. rewrite Ht1, B4, lookup_insert_eq. f_equal. symmetry. apply counters_nil.
  - intros level [->| ->]%level_cases; rewrite ?Hl2, ?Hl3, B4, lookup_insert_ne by lia.
    + rewrite B2, !lookup_insert_ne by lia. rewrite B1, lookup_insert_eq. done.
    + rewrite B2, lookup_insert_eq. done.
Qed.

(* ------------------------------------------------------------------ *)
(** ** The level of a mapping *)

(** The huge page of [level] around [gfn] lies in the slot, is backed by
    memory aligned alike, and meets no frame of [X]. *)
Record huge_page_ok (slot : vmrun_memory_slot) (X : list Z) (level gfn : Z) : Prop := {
  hg_low : slot.(base_gfn) <= gfn - gfn mod huge_pages level;
  hg_high : gfn - gfn mod huge_pages level + huge_pages level <= slot.(base_gfn) + slot.(npages);
  hg_aligned : (slot.(userspace_addr) / 2 ^ 12 + (gfn - gfn mod huge_pages level - slot.(base_gfn)))
               mod huge_pages level = 0;
  hg_free : ∀ f, f ∈ X → ¬ (gfn - gfn mod huge_pages level <= f < gfn - gfn mod huge_pages level + huge_pages level)
}.

Lemma huge_key_div (slot : vmrun_memory_slot) (level gfn : Z) :
  1 <= level → huge_key slot level gfn = gfn / huge_pages level - slot.(base_gfn) / huge_pages level.
Proof.
  intros Hl. unfold huge_key, huge_pages. rewrite !Z.shiftr_div_pow2 by (unfold level_shift; lia). done.
Qed.

Lemma layout_allows (lp : bool) (slot : vmrun_memory_slot) (X : list Z) (level gfn : Z) :
  1 <= level → contains slot gfn → layout_refuses lp slot level (huge_key slot level gfn) = false →
  (∀ f, f ∈ X → huge_key slot level f ≠ huge_key slot level gfn) →
  huge_page_ok slot X level gfn.
Proof.
  intros Hl [Hg1 Hg2] Hr HX. unfold layout_refuses in Hr. unfold huge_count in Hr.
  assert (HX' : ∀ f, f ∈ X → f / huge_pages level ≠ gfn / huge_pages level)
    by (intros f Hf E; apply (HX f Hf); rewrite !huge_key_div by done; by rewrite E).
  rewrite !huge_key_div in Hr by done.
  set (m := huge_pages level) in *. assert (Hm : 0 < m) by (apply Z.pow_pos_nonneg; unfold level_shift; lia).
  set (b := base_gfn slot) in *. set (e := b + npages slot) in *.
  apply orb_false_iff in Hr as [Hr _]. apply orb_false_iff in Hr as [Hr H3]. apply orb_false_iff in Hr as [H1 H2].
  apply negb_false_iff, Z.eqb_eq in H3.
  pose proof (Z.div_mod b m ltac:(lia)). pose proof (Z.mod_pos_bound b m Hm).
  pose proof (Z.div_mod gfn m ltac:(lia)). pose proof (Z.mod_pos_bound gfn m Hm).
  pose proof (Z.div_mod (e - 1) m ltac:(lia)). pose proof (Z.mod_pos_bound (e - 1) m Hm).
  assert (Hb : b / m < gfn / m ∨ gfn / m = b / m ∧ b mod m = 0).
  { pose proof (Z.div_le_mono b gfn m Hm Hg1). apply andb_false_iff in H1 as [H1|H1]; [lia|].
    apply negb_false_iff in H1. lia. }
  assert (He : gfn / m < (e - 1) / m ∨ gfn / m = (e - 1) / m ∧ e mod m = 0).
  { pose proof (Z.div_le_mono gfn (e - 1) m Hm ltac:(lia)). apply andb_false_iff in H2 as [H2|H2]; [lia|].
    apply negb_false_iff in H2. lia. }
  split; fold b e m.
  - destruct Hb as [Hb|[Hb Hb0]]; nia.
  - destruct He as [He|[He He0]]; [nia|]. apply Z.div_exact in He0; [|lia].
    assert (Hq : e / m = (e - 1) / m + 1); [|nia].
    assert ((e - 1) / m < e / m) by (apply Z.div_lt_upper_bound; lia).
    assert (e / m < (e - 1) / m + 2) by (apply Z.div_lt_upper_bound; nia). lia.
  - replace (gfn - gfn mod m - b) with (- b + (gfn / m) * m) by lia.
    rewrite Z.add_assoc, Z.mod_add by lia.
    replace (userspace_addr slot / 2 ^ 12 + - b) with (userspace_addr slot / 2 ^ 12 - b) by lia.
    rewrite Zminus_mod, <- H3, Z.sub_diag. apply Z.mod_0_l. lia.
  - intros f Hf Hin. apply (HX' f Hf).
    symmetry. apply (Z.div_unique f m (gfn / m) (f - (gfn - gfn mod m))); [left; lia|lia].
Qed.

(** The converse: a huge page that is all right is refused by no layout. *)
Lemma layout_refuses_not (slot : vmrun_memory_slot) (X : list Z) (level gfn : Z) :
  1 <= level → contains slot gfn → huge_page_ok slot X level gfn →
  layout_refuses true slot level (huge_key slot level gfn) = false ∧
  ∀ f, f ∈ X → huge_key slot level f ≠ huge_key slot level gfn.
Proof.
  intros Hl [Hg1 Hg2] [H1 H2 H3 H4]. unfold layout_refuses, huge_count. rewrite !huge_key_div by done.
  set (m := huge_pages level) in *. assert (Hm : 0 < m) by (apply Z.pow_pos_nonneg; unfold level_shift; lia).
  set (b := base_gfn slot) in *. set (e := b + npages slot) in *.
  pose proof (Z.div_mod b m ltac:(lia)). pose proof (Z.mod_pos_bound b m Hm).
  pose proof (Z.div_mod gfn m ltac:(lia)). pose proof (Z.mod_pos_bound gfn m Hm).
  split.
  - rewrite orb_false_r. apply orb_false_iff. split; [apply orb_false_iff; split|].
    + destruct (Z.eqb_spec (gfn / m - b / m) 0) as [E|]; [|done]. apply negb_false_iff, Z.eqb_eq. nia.
    + destruct (Z.eqb_spec (gfn / m - b / m) ((e - 1) / m - b / m + 1 - 1)) as [E|]; [|done]. apply negb_false_iff, Z.eqb_eq. cbn [andb].
      assert (Eq : (e - 1) / m = gfn / m) by lia. pose proof (Z.div_mod (e - 1) m ltac:(lia)). pose proof (Z.mod_pos_bound (e - 1) m Hm).
      assert (Ee : e = (gfn / m + 1) * m) by nia. rewrite Ee. by apply Z.mod_mul; lia.
    + apply negb_false_iff, Z.eqb_eq. replace (gfn - gfn mod m - b) with (- b + (gfn / m) * m) in H3 by lia.
      rewrite Z.add_assoc, Z.mod_add in H3 by lia. apply Z.div_exact in H3; [|lia]. set (u := userspace_addr slot / 2 ^ 12) in *.
      set (q := (u + - b) / m) in *. assert (Eu : u = b + q * m) by lia. rewrite Eu. by rewrite Z.mod_add by lia.
  - intros f Hf E. rewrite !huge_key_div in E by done. fold m b in E. apply (H4 f Hf).
    pose proof (Z.div_mod f m ltac:(lia)). pose proof (Z.mod_pos_bound f m Hm). assert (f / m = gfn / m) as Ef by lia. rewrite Ef in *. lia.
Qed.

Section Mapping.
Context `{TK : KvmTrack, TO : !KvmTrackOk TK}.
Context (lp : bool) (slot : vmrun_memory_slot) (Ha : slot_arrays slot) (X : list Z) (h : heap).
Context (Hrep : lpage_rep slot (λ level i, b2z (layout_refuses lp slot level i)) X h).

(** The loop stops at the first level that is refused. *)
Lemma mapping_loop_spec (gfn : Z) (n : nat) (level : Z) :
  contains slot gfn → 2 <= level → level + Z.of_nat n <= 4 →
  ∃ l, mapping_loop gfn (Some slot) h n level = Some l ∧ level <= l <= level + Z.of_nat n ∧
    (∀ j, level <= j < l → __mmu_gfn_lpage_is_disallowed gfn j (Some slot) h = Some false) ∧
    (l < level + Z.of_nat n → __mmu_gfn_lpage_is_disallowed gfn l (Some slot) h = Some true).
Proof using Ha Hrep.
  intros Hg. revert level. induction n as [|n IH]; intros level Hl Hmax.
  - exists level. split; [done|]. split; [lia|]. split; [lia|lia].
  - cbn [mapping_loop]. pose proof (lpage_load slot Ha _ gfn level X h Hg ltac:(lia) Hrep) as E.
    rewrite E. cbn [mbind option_bind]. destruct (truth _).
    + exists level. split; [done|]. split; [lia|]. split; [lia|done].
    + destruct (IH (level + 1)) as (l & -> & Hb & Hall & Hstop); [lia|lia|]. exists l.
      split; [done|]. split; [lia|]. split; [|intros; apply Hstop; lia].
      intros j Hj. destruct (decide (j = level)) as [->|]; [done|]. apply Hall. lia.
Qed.

Lemma disallowed_exact (gfn level : Z) :
  contains slot gfn → 2 <= level <= 3 →
  ∃ b, __mmu_gfn_lpage_is_disallowed gfn level (Some slot) h = Some b ∧ (b = false ↔ lp = true ∧ huge_page_ok slot X level gfn).
Proof using Ha Hrep.
  intros Hg Hl. eexists. split; [exact (lpage_load slot Ha _ gfn level X h Hg Hl Hrep)|]. 
  pose proof (occ_bounds (huge_key slot level gfn) (huge_key slot level <$> X)) as Ho. split.
  - intros Ht%truth_false. destruct (layout_refuses lp slot level (huge_key slot level gfn)) eqn:E; unfold b2z in Ht; [lia|].
    split; [unfold layout_refuses in E; destruct lp; [done|by rewrite orb_true_r in E]|].
    apply (layout_allows lp); [lia|done|done|]. intros f Hf Hk.
    assert (0 < occ (huge_key slot level gfn) (huge_key slot level <$> X)); [|lia].
    apply occ_pos, list_elem_of_fmap. by exists f.
  - intros [-> Hok]. destruct (layout_refuses_not slot X level gfn ltac:(lia) Hg Hok) as [-> HX]. change (b2z false) with 0.
    destruct (Z.le_gt_cases (occ (huge_key slot level gfn) (huge_key slot level <$> X)) 0) as [Hz|Hpos].
    { replace (_ + _) with 0 by lia. done. }
    apply occ_pos, list_elem_of_fmap in Hpos as (f & Ef & Hf). by destruct (HX f Hf).
Qed.

Lemma host_level_spec (size : Z → Z) (gfn : Z) :
  0 <= host_mapping_level size gfn <= 3 ∧
  (∀ level, 1 <= level <= host_mapping_level size gfn → VMRUN_HPAGE_SIZE level <= size gfn).
Proof using TO.
  unfold host_mapping_level. change (seqZ PT_PAGE_TABLE_LEVEL VMRUN_NR_PAGE_SIZES) with [1; 2; 3].
  cbn [host_levels]. rewrite !hpage_size. rewrite !Z.geb_leb.
  destruct (Z.leb_spec (VMRUN_HPAGE_SIZE 1) (size gfn)); [|split; lia].
  destruct (Z.leb_spec (VMRUN_HPAGE_SIZE 2) (size gfn)); [|split; [lia|]; intros level Hl; by replace level with 1 by lia].
  destruct (Z.leb_spec (VMRUN_HPAGE_SIZE 3) (size gfn)); (split; [lia|]); intros level Hl.
  - assert (level = 1 ∨ level = 2 ∨ level = 3) as [->|[->| ->]] by lia; done.
  - assert (level = 1 ∨ level = 2) as [->| ->] by lia; done.
Qed.
Lemma host_level_top (size : Z → Z) (gfn level : Z) :
  1 <= level <= 3 → VMRUN_HPAGE_SIZE level <= size gfn → level <= host_mapping_level size gfn.
Proof using TO.
  unfold host_mapping_level. change (seqZ PT_PAGE_TABLE_LEVEL VMRUN_NR_PAGE_SIZES) with [1; 2; 3].
  cbn [host_levels]. rewrite !hpage_size. rewrite !Z.geb_leb. intros Hl Hs.
  assert (VMRUN_HPAGE_SIZE 1 <= VMRUN_HPAGE_SIZE 2 <= VMRUN_HPAGE_SIZE 3) by by vm_compute.
  assert (level = 1 ∨ level = 2 ∨ level = 3) as [->|[->| ->]] by lia;
    repeat match goal with |- context [?a <=? ?b] => destruct (Z.leb_spec a b) end; lia.
Qed.
End Mapping.

(** A page of [level] may be used for [gfn]: the processor has the level, the
    host page is large enough, large pages are enabled, and the huge page is
    all right in the slot. *)
Definition level_allowed (lp : bool) (slot : vmrun_memory_slot) (X : list Z) (host_page_size : Z → Z) (get_lpage_level gfn level : Z) : Prop :=
  level <= get_lpage_level ∧ VMRUN_HPAGE_SIZE level <= host_page_size gfn ∧ lp = true ∧ huge_page_ok slot X level gfn.

(** C26: choosing the level of a mapping.  For a frame of a slot that was created
    by [vmrun_arch_create_memslot], with the frames [X] tracked or shadowed
    since, [mapping_level] forces a 4K page exactly when it was told so, or the
    slot is marked invalid or logs dirty pages; otherwise it returns the
    largest level such that it and all levels below are allowed: the processor
    supports it, the host page has at least that size, large pages are enabled,
    the whole huge page lies in the slot, its host memory is aligned the same
    way, and no frame of [X] is in it. *)
Theorem mapping_level_correct `{TK : KvmTrack, TO : !KvmTrackOk TK} (lp : bool) (slot : vmrun_memory_slot)
    (X : list Z) (h : heap) (vcpu_gfn_to_memslot : Z → option vmrun_memory_slot) (host_page_size : Z → Z)
    (get_lpage_level gfn : Z) (force_pt_level : bool) :
  slot_arrays slot → lpage_rep slot (λ level i, b2z (layout_refuses lp slot level i)) X h →
  vcpu_gfn_to_memslot gfn = Some slot → contains slot gfn → 1 <= get_lpage_level <= 3 →
  ∃ level force, mapping_level vcpu_gfn_to_memslot host_page_size get_lpage_level gfn force_pt_level h = Some (level, force) ∧
    (force = true ↔ force_pt_level = true ∨ Z.land slot.(flags) KVM_MEMSLOT_INVALID ≠ 0 ∨ slot.(dirty_bitmap) ≠ 0) ∧
    (force = true → level = 1) ∧
    (force = false → 1 <= level <= 3 ∧ ∀ l, 2 <= l <= 3 →
       l <= level ↔ ∀ j, 2 <= j <= l → level_allowed lp slot X host_page_size get_lpage_level gfn j).
Proof.
  intros Ha Hrep Hslot Hg Hmax. unfold mapping_level. destruct force_pt_level.
  { exists 1, true. split; [done|]. split; [split; [by left|done]|]. done. }
  rewrite Hslot. destruct (memslot_valid_for_gpte (Some slot) true) eqn:Ev; cbn [negb].
  2: { exists 1, true. split; [done|]. split; [|done]. split; [intros _; right|done]. cbn in Ev.
       destruct (truth (Z.land _ _)) eqn:E1; [left; by intros E; rewrite E in E1|]. destruct (truth (dirty_bitmap slot)) eqn:E2; [right; by intros E; rewrite E in E2|done]. }
  assert (Hv : ∀ b : bool, b = false → b = true ↔ false = true ∨ Z.land (flags slot) KVM_MEMSLOT_INVALID ≠ 0 ∨ dirty_bitmap slot ≠ 0).
  { intros b ->. split; [done|]. cbn in Ev. intros [?|[H|H]]; [done| |]; rewrite (truth_nonzero _ H) in Ev; [done|]. by destruct (truth _). }
  destruct (host_level_spec host_page_size gfn) as [Hh Hsize]. pose proof (host_level_top host_page_size gfn) as Htop. set (host := host_mapping_level host_page_size gfn) in *.
  destruct (Z.eqb_spec host PT_PAGE_TABLE_LEVEL) as [Hh1|Hh1].
  { change PT_PAGE_TABLE_LEVEL with 1 in Hh1. exists host, false. split; [done|]. split; [by apply Hv|]. split; [done|]. intros _. split; [lia|].
    intros l Hl. split; [lia|]. intros Hall. destruct (Hall l ltac:(lia)) as (_ & Hs & _). apply (Htop l) in Hs; lia. }
  change PT_DIRECTORY_LEVEL with 2. change PT_PAGE_TABLE_LEVEL with 1 in Hh1.
  set (max := Z.min get_lpage_level host).
  destruct (mapping_loop_spec lp slot Ha X h Hrep gfn (Z.to_nat (max - 2 + 1)) 2 Hg) as (l & -> & Hl & Hbelow & Hstop);
    [lia|lia|].
  cbn [mbind option_bind]. exists (l - 1), false. split; [done|]. split; [by apply Hv|]. split; [done|]. intros _. split; [lia|].
  intros j Hj. split.
  - intros Hjl i Hi. destruct (disallowed_exact lp slot Ha X h Hrep gfn i Hg ltac:(lia)) as (b & Eb & Hb).
    rewrite (Hbelow i ltac:(lia)) in Eb. injection Eb as <-. destruct Hb as [Hb _]. destruct (Hb eq_refl).
    split; [lia|]. split; [apply Hsize; lia|]. by split.
  - intros Hall. destruct (Z.le_gt_cases j (l - 1)) as [?|Hgt]; [done|]. exfalso.
    destruct (Z.le_gt_cases l max) as [Hlm|Hlm].
    + destruct (disallowed_exact lp slot Ha X h Hrep gfn l Hg ltac:(lia)) as (b & Eb & Hb). rewrite Hstop in Eb by lia. injection Eb as <-.
      destruct (Hall l ltac:(lia)) as (_ & _ & Hok). apply Hb in Hok. done.
    + destruct (Hall l ltac:(lia)) as (Hp & Hs & _). apply (Htop l) in Hs; lia.
Qed.

(* ------------------------------------------------------------------ *)
(** ** An example: a slot of two large pages *)

Definition kvm_track : KvmTrack :=
  {| KVM_PAGE_TRACK_WRITE := 0; KVM_HPAGE_SIZE := VMRUN_HPAGE_SIZE; KVM_MEMSLOT_INVALID := BIT 16 |}.
Definition kvm_track_ok : KvmTrackOk kvm_track.
Proof. by split. Qed.

Definition big_region : vmrun_memory_slot := null_slot <| npages := 1024 |>.
Definition big_create : Z * slot_state := vmrun_arch_create_memslot true 1024 (big_region, start_heap []).
Definition big_slot : vmrun_memory_slot := big_create.2.1.
Definition big_heap : heap := big_create.2.2.
Definition big_layout (level i : Z) : Z := b2z (layout_refuses true big_slot level i).

Lemma big_region_ok : slot_ok big_region.
Proof. split; cbn; try done; lia. Qed.

Lemma big_reps : slot_arrays big_slot ∧ track_rep big_slot [] big_heap ∧ lpage_rep big_slot big_layout [] big_heap.
Proof.
  apply (created_reps true big_region big_slot (start_heap []) big_heap);
    [apply start_heap_ok|exact big_region_ok|done|done|vm_compute; reflexivity].
Qed.

(** Frame 0 is mapped twice. *)
Definition big_key : rmap_key := (0x1000, 0).
Definition big_mmu : mmu_state := example_state <| heads := {[ big_key := 0x11 ]} |>.
Definition big_L (k : rmap_key) : list Z := if decide (k = big_key) then [0x100; 0x108] else [].
Definition big_P (k : rmap_key) : list Z := if decide (k = big_key) then [0x10] else [].
Definition big_state : track_state :=
  {| tk_heap := big_heap; tk_mmu := big_mmu; tk_warns := 0; indirect_shadow_pages := 0 |}.

Lemma big_refines : refines (K := kvm_pte_x86) x86_masks big_slot big_layout big_L big_P ([], []) big_state.
Proof.
  destruct big_reps as (_ & Ht & Hl). split; try done.
  - intros f Hf. by apply elem_of_nil in Hf.
  - split; [|intros gfn x _ _; split; [reflexivity|reflexivity|intros _; reflexivity]|intros gfn x Hx; by apply elem_of_nil in Hx].
    intros gfn level _ _ k. unfold big_L, big_P. case_decide as Hk.
    + rewrite Hk. destruct example_holds as [H1 H2]. by split.
    + split; [|constructor]. unfold head_of.
      replace (heads (tk_mmu big_state) !! k) with (@None Z); [apply rep_none|].
      symmetry. by apply (lookup_singleton_ne (M := gmap rmap_key)).
  - split; [|cbn; lia]. intros level i. unfold big_layout, b2z. destruct (layout_refuses _ _ _ _); lia.
Qed.

(** A tracker is registered for frame 0, a page directory at frame 3 is
    shadowed, and the tracker goes again. *)
Definition big_dir : mmu_page := example_page <| role_level := 2 |> <| sp_gfn := 3 |>.

Lemma page_track_refinement_witness :
  ∃ st', run_ops (K := kvm_pte_x86) (TK := kvm_track) x86_masks big_slot (λ _ _, Some big_slot)
           [AddPage 0; Shadow big_dir; AddPage 0; RemovePage 0] big_state = Some st' ∧
    vmrun_page_track_is_active (λ _, Some big_slot) 0 VMRUN_PAGE_TRACK_WRITE st' = Some (true, st') ∧
    is_writable_pte (st'.(tk_mmu).(ptes) 0x108) = false.
Proof.
  destruct big_reps as (Ha & _).
  destruct (page_track_refinement (K := kvm_pte_x86) (TO := kvm_track_ok) x86_masks big_slot big_layout
              big_L big_P (λ _, Some big_slot) (λ _ _, Some big_slot)
              [AddPage 0; Shadow big_dir; AddPage 0; RemovePage 0] ([], []) ([3; 0], []) big_state Ha)
    as (st' & E & _ & _ & Hact & _ & Hw).
  - reflexivity.
  - reflexivity.
  - exact big_refines.
  - assert (H0 : contains big_slot 0) by (vm_compute; split; congruence).
    assert (H3 : contains big_slot 3) by (vm_compute; split; congruence).
    eapply spec_cons; [apply spec_add_page, spec_add_intro; [exact H0|done|cbn; lia]|].
    eapply spec_cons; [apply spec_shadow; [cbn; lia|]; apply spec_add_intro; [exact H3|done|cbn; lia]|].
    eapply spec_cons; [apply spec_add_page, spec_add_intro; [exact H0|vm_compute; done|cbn; lia]|].
    eapply spec_cons; [apply spec_remove_page, spec_remove_intro; reflexivity|]. apply spec_nil.
  - exists st'. split; [exact E|]. split.
    + rewrite Hact by (vm_compute; split; congruence). reflexivity.
    + destruct (Hw 0 0x108) as [Hro _]; [by right; left| |exact Hro]. exists 1. split; [lia|].
      assert (Hk : __gfn_to_rmap 0 1 big_slot = big_key) by (vm_compute; reflexivity).
      rewrite Hk. unfold big_L. rewrite decide_True by reflexivity. right. left.
Defined.

(** A large page for a frame of the second half. *)
Lemma mapping_level_correct_witness :
  mapping_level (T := kvm_track) (λ _, Some big_slot) (λ _, 2 ^ 21) 3 600 false big_heap = Some (2, false) ∧
  huge_page_ok big_slot [] 2 600.
Proof.
  destruct big_reps as (Ha & _ & Hl).
  destruct (mapping_level_correct (TO := kvm_track_ok) true big_slot [] big_heap (λ _, Some big_slot) (λ _, 2 ^ 21) 3 600 false)
    as (level & force & E & _ & _ & Hbig).
  - exact Ha.
  - exact Hl.
  - reflexivity.
  - vm_compute. split; congruence.
  - lia.
  - assert (E' : mapping_level (T := kvm_track) (λ _, Some big_slot) (λ _, 2 ^ 21) 3 600 false big_heap
                 = Some (2, false)) by (vm_compute; reflexivity).
    rewrite E' in E. injection E as <- <-. split; [exact E'|]. destruct (Hbig eq_refl) as [_ H].
    destruct (H 2 ltac:(lia)) as [H2 _]. by destruct (H2 ltac:(lia) 2 ltac:(lia)) as (_ & _ & _ & ?).
Defined.
