(* ===== verification/FastFault.v ===== *)
(** * The shadow walk and the faults fixed without the lock

    kernel/mmu.c: [for_each_shadow_entry] and its lockless variant,
    [fast_page_fault], and the fault on an MMIO entry.

    Nothing here takes the MMU lock: the entries change between two accesses.
    The memory is therefore a function of time, one tick per access, and says
    what each access finds; what other processors and the hardware do in
    between is arbitrary.  An access beyond what the C program initialised is
    [None].

    Not in the repository: [__va], [page_header] and [__pa], which lead from a
    physical address to the entries of a shadow page and back, and the MMIO
    cache of a VCPU. *)

From S2P Require Import Prelude.
From S2P Require Import Spte.
From S2P Require Import Vcpu.
From S2P Require Import Memslots.
From S2P Require Import MemRegion.
From S2P Require Import PteList.
From S2P Require Import Rmap.
From S2P Require Import GuestPaging.
From S2P Require Import PageTrack.

Definition INVALID_PAGE : Z := not64 0.
Definition VALID_PAGE (x : Z) : bool := negb (x =? INVALID_PAGE).

Definition PT64_LEVEL_SHIFT (level : Z) : Z := PAGE_SHIFT + (level - 1) * PT64_LEVEL_BITS.
Definition PT64_INDEX (address level : Z) : Z :=
  Z.land (Z.shiftr address (PT64_LEVEL_SHIFT level)) (BIT PT64_LEVEL_BITS - 1).
Definition SHADOW_PT_INDEX (addr level : Z) : Z := PT64_INDEX addr level.

(** ** The walk *)

(** [struct vmrun_shadow_walk_iterator]; [sptep] and [index] are set by
    [shadow_walk_okay]. *)
Record shadow_walk_iterator := {
  it_addr : Z;
  it_shadow_addr : Z;
  it_sptep : option Z;
  it_level : Z;
  it_index : option Z
}.
#[export] Instance eta_shadow_walk_iterator : Eta shadow_walk_iterator := λ r,
  {| it_addr := r.(it_addr); it_shadow_addr := r.(it_shadow_addr); it_sptep := r.(it_sptep);
     it_level := r.(it_level); it_index := r.(it_index) |}.

(** What a walk sees. *)
Record walk_env := {
  we_mmu : mmu_context;           (* vcpu->arch.mmu *)
  we_pae_root : list Z;           (* vcpu->arch.mmu.pae_root *)
  we_va : Z → Z;                  (* __va *)
  we_page : Z → mmu_page;         (* page_header(__pa(p)) *)
  we_mem : nat → Z → Z            (* what a read at that time finds *)
}.

(** [vcpu->mode] and the local interrupts while the tables are read. *)
Record lockless_ctx := { lc_mode : vcpu_mode; lc_irqs : bool }.

Definition walk_shadow_page_lockless_begin (c : lockless_ctx) : lockless_ctx :=
  {| lc_mode := READING_SHADOW_PAGE_TABLES; lc_irqs := false |}.

Definition walk_shadow_page_lockless_end (c : lockless_ctx) : lockless_ctx :=
  {| lc_mode := OUTSIDE_GUEST_MODE; lc_irqs := true |}.

(** A state of the walk: the iterator, the last entry read, the time. *)
Record entry_walk := { wk_it : shadow_walk_iterator; wk_spte : Z; wk_time : nat }.
#[export] Instance eta_entry_walk : Eta entry_walk := λ r,
  {| wk_it := r.(wk_it); wk_spte := r.(wk_spte); wk_time := r.(wk_time) |}.

Section Walk.
Context `{K : KvmPte} (env : walk_env).

Definition shadow_walk_init (addr : Z) : shadow_walk_iterator :=
  let m := env.(we_mmu) in
  let it := {| it_addr := addr; it_shadow_addr := m.(ctx_root_hpa); it_sptep := None;
               it_level := m.(ctx_shadow_root_level); it_index := None |} in
  let it := if (it.(it_level) =? PT64_ROOT_4LEVEL) && (m.(ctx_root_level) <? PT64_ROOT_4LEVEL)
               && negb m.(ctx_direct_map)
            then it <| it_level ::= λ l, l - 1 |> else it in
  if it.(it_level) =? PT32E_ROOT_LEVEL then
    let r := env.(we_pae_root) !!! Z.to_nat (Z.land (Z.shiftr addr 30) 3) in
    let it := it <| it_shadow_addr := Z.land r PT64_BASE_ADDR_MASK |> <| it_level ::= λ l, l - 1 |> in
    if negb (truth it.(it_shadow_addr)) then it <| it_level := 0 |> else it
  else it.

(** [None]: false. *)
Definition shadow_walk_okay (it : shadow_walk_iterator) : option shadow_walk_iterator :=
  if it.(it_level) <? PT_PAGE_TABLE_LEVEL then None
  else
    let index := SHADOW_PT_INDEX it.(it_addr) it.(it_level) in
    Some (it <| it_index := Some index |>
             <| it_sptep := Some (env.(we_va) it.(it_shadow_addr) + 8 * index) |>).

Definition __shadow_walk_next (spte : Z) (it : shadow_walk_iterator) : shadow_walk_iterator :=
  if is_last_spte spte it.(it_level) then it <| it_level := 0 |>
  else it <| it_shadow_addr := Z.land spte PT64_BASE_ADDR_MASK |> <| it_level ::= λ l, l - 1 |>.

Definition shadow_walk_next (t : nat) (it : shadow_walk_iterator) : option shadow_walk_iterator :=
  p ← it.(it_sptep); Some (__shadow_walk_next (env.(we_mem) t p) it).

(** [for_each_shadow_entry_lockless]; the body may change [acc] and says
    whether it breaks. *)
Fixpoint walk_lockless {A : Type} (body : shadow_walk_iterator → Z → A → A * bool) (fuel : nat)
    (w : entry_walk) (acc : A) : option (entry_walk * A) :=
  match fuel with
  | O => None
  | S fuel =>
      match shadow_walk_okay w.(wk_it) with
      | None => Some (w, acc)
      | Some it =>
          p ← it.(it_sptep);
          let spte := env.(we_mem) w.(wk_time) p in
          let '(acc, stop) := body it spte acc in
          let w := {| wk_it := it; wk_spte := spte; wk_time := S w.(wk_time) |} in
          if stop : bool then Some (w, acc)
          else walk_lockless body fuel (w <| wk_it ::= __shadow_walk_next spte |>) acc
      end
  end.

(** The level falls by one or to 0 in every pass. *)
Definition walk_fuel (it : shadow_walk_iterator) : nat := S (Z.to_nat it.(it_level)).

Definition for_each_shadow_entry_lockless {A : Type} (body : shadow_walk_iterator → Z → A → A * bool)
    (addr spte : Z) (t : nat) (acc : A) : option (entry_walk * A) :=
  let it := shadow_walk_init addr in
  walk_lockless body (walk_fuel it) {| wk_it := it; wk_spte := spte; wk_time := t |} acc.
End Walk.

(** ** Faults fixed without the lock *)

(** A store to an entry. *)
Record spte_write := { sw_sptep : Z; sw_old : Z; sw_new : Z; sw_time : nat }.

(** What a fault leaves behind. *)
Record fault_result := {
  fr_handled : bool;
  fr_write : option spte_write;
  fr_dirty : option Z;             (* vmrun_vcpu_mark_page_dirty(vcpu, gfn) *)
  fr_warns : list spte_event;
  fr_attempts : nat                (* how many cmpxchg64 were tried *)
}.

#[export] Instance eta_fault_result : Eta fault_result := λ r,
  {| fr_handled := r.(fr_handled); fr_write := r.(fr_write); fr_dirty := r.(fr_dirty); fr_warns := r.(fr_warns);
     fr_attempts := r.(fr_attempts) |}.

Section Fault.
Context `{K : KvmPte} (g : shadow_masks) (env : walk_env).

Definition page_fault_can_be_fast (error_code : Z) : bool :=
  if truth (Z.land error_code PFERR_RSVD_MASK) then false
  else
    let fetch_present := Z.lor PFERR_FETCH_MASK PFERR_PRESENT_MASK in
    let write_present := Z.lor PFERR_WRITE_MASK PFERR_PRESENT_MASK in
    if Z.land error_code fetch_present =? fetch_present then false
    else negb (g.(shadow_acc_track_mask) =? 0) || (Z.land error_code write_present =? write_present).

Definition is_access_allowed (fault_err_code spte : Z) : bool :=
  if truth (Z.land fault_err_code PFERR_FETCH_MASK) then is_executable_pte g spte
  else if truth (Z.land fault_err_code PFERR_WRITE_MASK) then is_writable_pte spte
  else truth (Z.land spte PT_PRESENT_MASK).

(** Result: the returned bool, the write, the page marked dirty, the warnings. *)
Definition fast_pf_fix_direct_spte (t : nat) (sp : mmu_page) (sptep old_spte new_spte : Z)
    : option (bool * option spte_write * option Z * list spte_event) :=
  let w := if negb sp.(role_direct) then [Warn] else [] in
  if negb (env.(we_mem) t sptep =? old_spte) then Some (false, None, None, w)
  else
    let write := Some {| sw_sptep := sptep; sw_old := old_spte; sw_new := new_spte; sw_time := t |} in
    if is_writable_pte new_spte && negb (is_writable_pte old_spte) then
      gfn ← vmrun_mmu_page_get_gfn sp (spte_index sp sptep);
      Some (true, write, Some gfn, w)
    else Some (true, write, None, w).

(** What the loop decides to store, from the entry and the level of its page;
    [None]: break. *)
Definition fast_new_spte (error_code spte role_level : Z) : option Z * list spte_event :=
  let '(new_spte, w) := if is_access_track_spte g spte then restore_acc_track_spte g spte else (spte, []) in
  let makes_writable := truth (Z.land error_code PFERR_WRITE_MASK) && spte_can_locklessly_be_made_writable spte in
  let new_spte := if makes_writable then Z.lor new_spte PT_WRITABLE_MASK else new_spte in
  if makes_writable && (role_level >? PT_PAGE_TABLE_LEVEL) then (None, w)
  else if (new_spte =? spte) || negb (is_access_allowed error_code new_spte) then (None, w)
  else (Some new_spte, w).

(** [do ... while (true)]; [spte] keeps its value when a walk reads nothing. *)
Fixpoint fast_fault_loop (gva level error_code : Z) (fuel : nat) (retry_count spte : Z) (t : nat)
    (warns : list spte_event) (attempts : nat) : option fault_result :=
  match fuel with
  | O => None
  | S fuel =>
      '(w, _) ← for_each_shadow_entry_lockless env
        (λ it spte (_ : unit), (tt, negb (is_shadow_present_pte g spte) || (it.(it_level) <? level))) gva spte t tt;
      let spte := w.(wk_spte) in
      sptep ← w.(wk_it).(it_sptep);
      let sp := env.(we_page) sptep in
      let no_retry := λ warns, {| fr_handled := false; fr_write := None; fr_dirty := None; fr_warns := warns;
                                 fr_attempts := attempts |} in
      if negb (is_last_spte spte sp.(role_level)) then Some (no_retry warns)
      else if is_access_allowed error_code spte then Some ((no_retry warns) <| fr_handled := true |>)
      else
        let '(new, w1) := fast_new_spte error_code spte sp.(role_level) in
        match new with
        | None => Some (no_retry (warns ++ w1))
        | Some new_spte =>
            '(handled, write, dirty, w2) ← fast_pf_fix_direct_spte w.(wk_time) sp sptep spte new_spte;
            let warns := warns ++ w1 ++ w2 in
            if handled : bool then
              Some {| fr_handled := true; fr_write := write; fr_dirty := dirty; fr_warns := warns;
                      fr_attempts := S attempts |}
            else if retry_count + 1 >? 4 then
              Some {| fr_handled := false; fr_write := None; fr_dirty := None; fr_warns := warns;
                      fr_attempts := S attempts |}
            else fast_fault_loop gva level error_code fuel (retry_count + 1) spte (S w.(wk_time)) warns (S attempts)
        end
  end.

Definition no_fix : fault_result :=
  {| fr_handled := false; fr_write := None; fr_dirty := None; fr_warns := []; fr_attempts := 0 |}.

(** At most five passes: the fifth failed exchange leaves the loop. *)
Definition fast_page_fault (gva level error_code : Z) (c : lockless_ctx) : option (fault_result * lockless_ctx) :=
  if negb (VALID_PAGE env.(we_mmu).(ctx_root_hpa)) then Some (no_fix, c)
  else if negb (page_fault_can_be_fast error_code) then Some (no_fix, c)
  else
    let c := walk_shadow_page_lockless_begin c in
    r ← fast_fault_loop gva level error_code 5 0 0 0 [] 0;
    Some (r, walk_shadow_page_lockless_end c).

(** ** Faults on MMIO entries *)

(** Result: the entry read last, and whether a reserved bit was seen; the dump
    of the hierarchy is not modelled. *)
Definition walk_shadow_page_get_mmio_spte (addr : Z) (c : lockless_ctx) : option (Z * bool * lockless_ctx) :=
  if negb (VALID_PAGE env.(we_mmu).(ctx_root_hpa)) then Some (0, false, c)
  else
    let c := walk_shadow_page_lockless_begin c in
    '(w, reserved) ← for_each_shadow_entry_lockless env
      (λ it spte reserved,
        if negb (is_shadow_present_pte g spte) then (reserved, true)
        else (reserved || is_shadow_zero_bits_set env.(we_mmu) spte it.(it_level), false)) addr 0 0 false;
    Some (w.(wk_spte), reserved, walk_shadow_page_lockless_end c).

Definition RET_MMIO_PF_EMULATE : Z := 1.
Definition RET_MMIO_PF_INVALID : Z := 2.
Definition RET_MMIO_PF_RETRY : Z := 0.
Definition RET_MMIO_PF_BUG : Z := -1.

(** [mmu_is_nested], [vcpu_match_mmio_gpa], [vcpu_match_mmio_gva]. *)
Context (mmu_is_nested : bool) (match_mmio_gpa match_mmio_gva : Z → bool).

Definition mmio_info_in_cache (addr : Z) (direct : bool) : bool :=
  if mmu_is_nested then false
  else if direct then match_mmio_gpa addr else match_mmio_gva addr.

(** Result: the returned int, and the arguments of [vcpu_cache_mmio_info]. *)
Definition handle_mmio_page_fault (slots_generation addr : Z) (direct : bool) (c : lockless_ctx)
    : option (Z * option (Z * Z * Z) * lockless_ctx) :=
  if mmio_info_in_cache addr direct then Some (RET_MMIO_PF_EMULATE, None, c)
  else
    '(spte, reserved, c) ← walk_shadow_page_get_mmio_spte addr c;
    if reserved : bool then Some (RET_MMIO_PF_BUG, None, c)
    else if is_mmio_spte g spte then
      let gfn := get_mmio_spte_gfn g spte in
      let access := get_mmio_spte_access g spte in
      if negb (check_mmio_spte g slots_generation spte) then Some (RET_MMIO_PF_INVALID, None, c)
      else
        let addr := if direct then 0 else addr in
        Some (RET_MMIO_PF_EMULATE, Some (addr, gfn, access), c)
    else Some (RET_MMIO_PF_RETRY, None, c).

(** [set_mmio_spte]: the value stored for a frame without a slot;
    [is_noslot_pfn] is the caller's. *)
Definition set_mmio_spte (slots_generation gfn : Z) (is_noslot_pfn : bool) (access : Z) : option Z :=
  if is_noslot_pfn then Some (mark_mmio_spte g slots_generation gfn access) else None.

(** ** Faults on tracked pages *)

Context `{T : KvmTrack} (vcpu_gfn_to_memslot : Z → option vmrun_memory_slot).

Definition page_fault_handle_page_track (error_code gfn : Z) (st : track_state) : option (bool * track_state) :=
  if truth (Z.land error_code PFERR_RSVD_MASK) then Some (false, st)
  else if negb (truth (Z.land error_code PFERR_PRESENT_MASK)) || negb (truth (Z.land error_code PFERR_WRITE_MASK))
       then Some (false, st)
  else
    '(b, st) ← vmrun_page_track_is_active vcpu_gfn_to_memslot gfn KVM_PAGE_TRACK_WRITE st;
    if b : bool then Some (true, st) else Some (false, st).

(** [clear_sp_write_flooding_count(iterator.sptep)] for each entry of the
    walk: the entries whose page's count is reset. *)
Definition shadow_page_table_clear_flood (addr : Z) (c : lockless_ctx) : option (list Z * lockless_ctx) :=
  if negb (VALID_PAGE env.(we_mmu).(ctx_root_hpa)) then Some ([], c)
  else
    let c := walk_shadow_page_lockless_begin c in
    '(_, cleared) ← for_each_shadow_entry_lockless env
      (λ it spte cleared, (cleared ++ option_list it.(it_sptep), negb (is_shadow_present_pte g spte))) addr 0 0 [];
    Some (cleared, walk_shadow_page_lockless_end c).
End Fault.
