(* ===== verification/FastFaultProps.v ===== *)
(** * The shadow walk and the faults fixed without the lock: properties *)

From S2P Require Import Prelude.
From S2P Require Import Spte.
From S2P Require Import MmioSpte.
From S2P Require Import SpteTrack.
From S2P Require Import Vcpu.
From S2P Require Import Memslots.
From S2P Require Import MemRegion.
From S2P Require Import PteList.
From S2P Require Import Rmap.
From S2P Require Import RmapProps.
From S2P Require Import GuestPaging.
From S2P Require Import PageTrack.
From S2P Require Import FastFault.

(* ------------------------------------------------------------------ *)
(** ** The walk ends *)

Section Walk.
Context `{K : KvmPte} (env : walk_env).

(** The walk has read the entry its iterator points to, at [t] or later. *)
Definition has_read (t : nat) (w : entry_walk) : Prop :=
  ∃ p t', w.(wk_it).(it_sptep) = Some p ∧ w.(wk_spte) = env.(we_mem) t' p ∧ (t <= t')%nat ∧ w.(wk_time) = S t'.

Lemma walk_next_level (spte : Z) (it : shadow_walk_iterator) :
  1 <= it.(it_level) → (__shadow_walk_next spte it).(it_level) < it.(it_level) ∧
  0 <= (__shadow_walk_next spte it).(it_level).
Proof using Type. intros Hl. unfold __shadow_walk_next. destruct (is_last_spte _ _); cbn; lia. Qed.

Section Body.
Context {A : Type} (body : shadow_walk_iterator → Z → A → A * bool).
(** An invariant of the body, which may use what has been read. *)
Context (I : entry_walk → A → Prop).
Context (Hstep : ∀ it p t acc w,
  I w acc → shadow_walk_okay env w.(wk_it) = Some it → it.(it_sptep) = Some p → t = w.(wk_time) →
  let spte := env.(we_mem) t p in
  let w' := {| wk_it := it; wk_spte := spte; wk_time := S t |} in
  let '(acc', stop) := body it spte acc in
  if stop : bool then I w' acc' else I (w' <| wk_it ::= __shadow_walk_next spte |>) acc').

Lemma walk_lockless_inv (t : nat) (fuel : nat) (w : entry_walk) (acc : A) :
  (Z.to_nat w.(wk_it).(it_level) < fuel)%nat → I w acc →
  1 <= w.(wk_it).(it_level) ∧ (t <= w.(wk_time))%nat ∨ has_read t w →
  ∃ w' acc', walk_lockless env body fuel w acc = Some (w', acc') ∧ I w' acc' ∧ has_read t w'.
Proof using Hstep.
  revert w acc. induction fuel as [|fuel IH]; intros w acc Hf HI Hw; [lia|]. cbn [walk_lockless].
  destruct (shadow_walk_okay env (wk_it w)) as [it|] eqn:Eok.
  - assert (Hit : ∃ p, it.(it_sptep) = Some p ∧ it.(it_level) = w.(wk_it).(it_level) ∧ 1 <= it.(it_level)).
    { unfold shadow_walk_okay in Eok. destruct (Z.ltb_spec (it_level (wk_it w)) PT_PAGE_TABLE_LEVEL) as [|Hl]; [done|].
      injection Eok as <-. change PT_PAGE_TABLE_LEVEL with 1 in Hl. eexists. cbn. done. }
    destruct Hit as (p & Hp & Hl & Hl1). rewrite Hp. cbn [mbind option_bind].
    pose proof (Hstep it p (wk_time w) acc w HI Eok Hp eq_refl) as HI'. cbn zeta in HI'.
    destruct (body it _ acc) as [acc' stop].
    assert (Ht : (t <= wk_time w)%nat) by (destruct Hw as [[_ ?]|(? & ? & _ & _ & ? & ?)]; lia).
    assert (Hr : has_read t {| wk_it := it; wk_spte := we_mem env (wk_time w) p; wk_time := S (wk_time w) |})
      by (exists p, (wk_time w); done).
    destruct stop; [by eexists _, _|]. apply IH.
    + cbn. pose proof (walk_next_level (we_mem env (wk_time w) p) it Hl1). lia.
    + done.
    + right. destruct Hr as (q & t' & H1 & H2 & H3). exists q, t'. split; [|done]. cbn in H1 |- *.
      unfold __shadow_walk_next. by destruct (is_last_spte _ _).
  - exists w, acc. split; [done|]. split; [done|]. destruct Hw as [[Hl _]|?]; [|done].
    unfold shadow_walk_okay in Eok. change PT_PAGE_TABLE_LEVEL with 1 in Eok.
    by rewrite (proj2 (Z.ltb_ge _ _)) in Eok.
Qed.
End Body.

(** A walk that starts above level 0 ends, having read an entry. *)
Lemma walk_reads {A : Type} (body : shadow_walk_iterator → Z → A → A * bool) (addr spte : Z) (t : nat) (acc : A) :
  1 <= (shadow_walk_init env addr).(it_level) →
  ∃ w acc', for_each_shadow_entry_lockless env body addr spte t acc = Some (w, acc') ∧ has_read t w.
Proof using Type.
  intros Hl. unfold for_each_shadow_entry_lockless.
  destruct (walk_lockless_inv body (λ _ _, True)) with (t := t) (fuel := walk_fuel (shadow_walk_init env addr))
    (w := {| wk_it := shadow_walk_init env addr; wk_spte := spte; wk_time := t |}) (acc := acc)
    as (w & acc' & E & _ & Hr).
  - intros it p t' acc0 w _ _ _ _. cbn zeta. destruct (body _ _ _) as [? []]; done.
  - cbn. unfold walk_fuel. lia.
  - done.
  - left. cbn. lia.
  - by exists w, acc'.
Qed.
End Walk.

(* ------------------------------------------------------------------ *)
(** ** The new entry *)

Section NewSpte.
Context `{K : KvmPte} (g : shadow_masks).

(** Restoring an access-tracked entry sets no write bit. *)
Lemma restore_not_writable (spte : Z) :
  is_writable_pte spte = false → is_writable_pte (restore_acc_track_spte g spte).1 = false.
Proof using Type.
  rewrite !writable_bit. intros Hw. unfold restore_acc_track_spte. cbn [fst].
  rewrite Z.lor_spec, !Z.land_spec, Hw. cbn [andb orb].
  change (Z.testbit shadow_acc_track_saved_bits_mask 1) with false. by rewrite andb_false_r.
Qed.

(** What [fast_page_fault] may store, and for which entries. *)
Record fast_fix (error_code role_level old new : Z) : Prop := {
  ff_allowed : is_access_allowed g error_code new = true;
  ff_changed : new ≠ old;
  ff_step : is_shadow_present_pte g old = true → lockless_step g old new;
  ff_write : is_writable_pte old = false → is_writable_pte new = true →
    role_level <= PT_PAGE_TABLE_LEVEL ∧ truth (Z.land error_code PFERR_WRITE_MASK) = true ∧
    spte_can_locklessly_be_made_writable old = true
}.

Lemma fast_new_spte_spec (error_code spte level new : Z) (w : list spte_event) :
  fast_new_spte g error_code spte level = (Some new, w) → fast_fix error_code level spte new.
Proof using Type.
  unfold fast_new_spte.
  set (mw := truth (Z.land error_code PFERR_WRITE_MASK) && spte_can_locklessly_be_made_writable spte).
  destruct (is_access_track_spte g spte) eqn:Et.
  - destruct (restore_acc_track_spte g spte) as [r wr] eqn:Er.
    assert (Hr : r = (restore_acc_track_spte g spte).1) by by rewrite Er.
    destruct (mw && (level >? PT_PAGE_TABLE_LEVEL)) eqn:El; [done|].
    destruct (_ || _) eqn:Eo; [done|]. intros [= <- <-]. apply orb_false_iff in Eo as [Hne Ha].
    apply negb_false_iff in Ha. apply Z.eqb_neq in Hne. destruct mw eqn:Em.
    + apply andb_true_iff in Em as [Em1 Em2]. split; [done|done| |].
      * intros Hp. rewrite Hr. by apply fast_restore_write.
      * intros _ _. cbn [andb] in El. split; [lia|done].
    + split; [done|done| |].
      * intros Hp. rewrite Hr. by apply fast_restore.
      * intros Hw. rewrite Hr. by rewrite restore_not_writable.
  - destruct (mw && (level >? PT_PAGE_TABLE_LEVEL)) eqn:El; [done|].
    destruct (_ || _) eqn:Eo; [done|]. intros [= <- <-]. apply orb_false_iff in Eo as [Hne Ha].
    apply negb_false_iff in Ha. apply Z.eqb_neq in Hne. destruct mw eqn:Em; [|done].
    apply andb_true_iff in Em as [Em1 Em2]. split; [done|done| |].
    + intros Hp. by apply fast_write.
    + intros _ _. cbn [andb] in El. split; [lia|done].
Qed.
End NewSpte.

(* ------------------------------------------------------------------ *)
(** ** The loop *)

Section Loop.
Context `{K : KvmPte} (g : shadow_masks) (env : walk_env) (gva level error_code : Z).

(** A direct map: every shadow page is direct, and the walk starts at a table. *)
Context (Hdirect : ∀ p, (env.(we_page) p).(role_direct) = true).
Context (Hlevel : 1 <= (shadow_walk_init env gva).(it_level)).

(** The frame of a direct entry. *)
Definition entry_gfn (p : Z) : Z :=
  let sp := env.(we_page) p in
  u64 (sp.(sp_gfn) + s32 (Z.shiftl (spte_index sp p) ((sp.(role_level) - 1) * PT64_LEVEL_BITS))).

Lemma direct_gfn (p : Z) :
  vmrun_mmu_page_get_gfn (env.(we_page) p) (spte_index (env.(we_page) p) p) = Some (entry_gfn p).
Proof using Hdirect. unfold vmrun_mmu_page_get_gfn. by rewrite Hdirect. Qed.

(** The store of a fault that was fixed, and the page it dirties. *)
Record fixed (wr : spte_write) (dirty : option Z) : Prop := {
  fx_found : env.(we_mem) wr.(sw_time) wr.(sw_sptep) = wr.(sw_old);
  fx_last : is_last_spte wr.(sw_old) (env.(we_page) wr.(sw_sptep)).(role_level) = true;
  fx_fix : fast_fix g error_code (env.(we_page) wr.(sw_sptep)).(role_level) wr.(sw_old) wr.(sw_new);
  fx_dirty : dirty = if is_writable_pte wr.(sw_new) && negb (is_writable_pte wr.(sw_old))
                     then Some (entry_gfn wr.(sw_sptep)) else None
}.

(** The access is allowed by an entry the walk found. *)
Definition found_allowed : Prop :=
  ∃ t p, is_last_spte (env.(we_mem) t p) (env.(we_page) p).(role_level) = true ∧
         is_access_allowed g error_code (env.(we_mem) t p) = true.

Definition fault_outcome (r : fault_result) : Prop :=
  match r.(fr_write) with
  | Some wr => r.(fr_handled) = true ∧ fixed wr r.(fr_dirty)
  | None => r.(fr_dirty) = None ∧ (r.(fr_handled) = true → found_allowed)
  end.

(** One exchange. *)
Lemma fix_spec (t : nat) (p old new : Z) :
  is_last_spte old (env.(we_page) p).(role_level) = true →
  fast_fix g error_code (env.(we_page) p).(role_level) old new →
  ∃ handled write dirty, fast_pf_fix_direct_spte env t (env.(we_page) p) p old new = Some (handled, write, dirty, []) ∧
    match write with
    | Some wr => handled = true ∧ fixed wr dirty
    | None => handled = false ∧ dirty = None
    end.
Proof using Hdirect.
  intros Hl Hf. unfold fast_pf_fix_direct_spte. rewrite Hdirect. cbn [negb].
  destruct (Z.eqb_spec (we_mem env t p) old) as [He|He]; cbn [negb]; [|by exists false, None, None].
  set (wr := {| sw_sptep := p; sw_old := old; sw_new := new; sw_time := t |}).
  destruct (is_writable_pte new && negb (is_writable_pte old)) eqn:Ew.
  - rewrite direct_gfn. cbn [mbind option_bind]. exists true, (Some wr), (Some (entry_gfn p)).
    split; [done|]. split; [done|]. split; try done. cbn. by rewrite Ew.
  - exists true, (Some wr), None. split; [done|]. split; [done|]. split; try done. cbn. by rewrite Ew.
Qed.

Lemma fast_fault_loop_spec (fuel : nat) (retry spte : Z) (t : nat) (warns : list spte_event) (attempts : nat) :
  0 <= retry → 5 <= retry + Z.of_nat fuel → (0 < fuel)%nat →
  ∃ r, fast_fault_loop g env gva level error_code fuel retry spte t warns attempts = Some r ∧
       fault_outcome r ∧ (r.(fr_attempts) <= attempts + fuel)%nat.
Proof using Hdirect Hlevel.
  revert retry spte t warns attempts. induction fuel as [|fuel IH]; intros retry spte t warns attempts Hr Hf Hpos; [lia|].
  cbn [fast_fault_loop].
  match goal with |- context [for_each_shadow_entry_lockless env ?body gva spte t tt] =>
    destruct (walk_reads env body gva spte t tt Hlevel) as (w & [] & -> & (p & t' & Hp & Hs & Ht & Htime)) end.
  cbn [mbind option_bind]. rewrite Hp. cbn [mbind option_bind]. rewrite Hs. set (v := we_mem env t' p).
  destruct (is_last_spte v _) eqn:Elast; cbn [negb].
  2: { eexists. split; [done|]. split; [by split|cbn; lia]. }
  destruct (is_access_allowed g error_code v) eqn:Eall.
  { eexists. split; [done|]. split; [|cbn; lia]. split; [done|]. intros _. by exists t', p. }
  destruct (fast_new_spte g error_code v _) as [[new|] w1] eqn:Enew.
  2: { eexists. split; [done|]. split; [by split|cbn; lia]. }
  apply fast_new_spte_spec in Enew.
  destruct (fix_spec (wk_time w) p v new Elast Enew) as (handled & write & dirty & -> & Hfix).
  cbn [mbind option_bind]. destruct write as [wr|]; destruct Hfix as [-> Hfix].
  - eexists. split; [done|]. split; [done|]. cbn. lia.
  - destruct (Z.gtb_spec (retry + 1) 4).
    + eexists. split; [done|]. split; [by split|cbn; lia].
    + destruct (IH (retry + 1) v (S (wk_time w)) (warns ++ w1 ++ []) (S attempts)) as (r & -> & Ho & Ha); [lia..|].
      exists r. split; [done|]. split; [done|lia].
Qed.
End Loop.

(** C31: the faults fixed without the MMU lock.  Whatever other processors and
    the hardware do to the entries meanwhile, on a direct map
    [fast_page_fault] returns after at most five exchanges and leaves the
    reader's mode.  When it stores, it replaces exactly the value it found, by
    one that allows the access; the store of a present entry is one of the
    lockless steps that the updates under the lock are proved to survive; write
    access is given only to a 4K page, for a write, when both the host and the
    MMU permit it, and then the page is marked dirty.  An entry that is not
    present is not excluded by the code: [fast_fault_rewrites_mmio_entry] shows
    a store into an MMIO entry.  When it reports the
    fault as handled without a store, an entry allows the access. *)
Theorem fast_page_fault_correct `{K : KvmPte} (g : shadow_masks) (env : walk_env) (gva level error_code : Z)
    (c : lockless_ctx) :
  (∀ p, (env.(we_page) p).(role_direct) = true) →
  1 <= (shadow_walk_init env gva).(it_level) →
  ∃ r c', fast_page_fault g env gva level error_code c = Some (r, c') ∧
    (c' = c ∨ c' = {| lc_mode := OUTSIDE_GUEST_MODE; lc_irqs := true |}) ∧
    (r.(fr_attempts) <= 5)%nat ∧
    match r.(fr_write) with
    | Some wr =>
        let old := wr.(sw_old) in let new := wr.(sw_new) in let p := wr.(sw_sptep) in
        r.(fr_handled) = true ∧ env.(we_mem) wr.(sw_time) p = old ∧
        is_access_allowed g error_code new = true ∧
        (is_shadow_present_pte g old = true → lockless_step g old new) ∧
        (is_writable_pte old = false → is_writable_pte new = true →
           (env.(we_page) p).(role_level) <= PT_PAGE_TABLE_LEVEL ∧
           truth (Z.land error_code PFERR_WRITE_MASK) = true ∧
           spte_can_locklessly_be_made_writable old = true ∧
           r.(fr_dirty) = Some (entry_gfn env p))
    | None =>
        r.(fr_dirty) = None ∧
        (r.(fr_handled) = true → ∃ t p, is_access_allowed g error_code (env.(we_mem) t p) = true)
    end.
Proof.
  intros Hd Hl. unfold fast_page_fault.
  destruct (VALID_PAGE _); cbn [negb]; [|exists no_fix, c; cbn; split_and!; (done || auto || lia)].
  destruct (page_fault_can_be_fast _ _); cbn [negb]; [|exists no_fix, c; cbn; split_and!; (done || auto || lia)].
  destruct (fast_fault_loop_spec g env gva level error_code Hd Hl 5 0 0 0 [] 0) as (r & -> & Ho & Ha); [lia..|].
  cbn [mbind option_bind]. eexists _, _. split; [done|]. split; [by right|]. split; [lia|].
  unfold fault_outcome in Ho. destruct (fr_write r) as [wr|].
  - destruct Ho as [-> [F1 F2 [G1 G2 G3 G4] F4]]. split_and!; try done.
    intros H1 H2. destruct (G4 H1 H2) as (? & ? & ?). rewrite F4, H1, H2. done.
  - destruct Ho as [-> Hf]. split; [done|]. intros H. destruct (Hf H) as (t & p & _ & ?). eauto.
Qed.

(** A two-level map with a write-protected page whose permissions allow a
    lockless fix. *)
Definition two_level_mmu : mmu_context :=
  {| ctx_nx := false; ctx_root_level := 2; ctx_shadow_root_level := 2; ctx_root_hpa := 0x1000;
     ctx_direct_map := true; ctx_permissions := []; ctx_pkru_mask := 0; ctx_last_nonleaf_level := 0;
     ctx_guest_rsvd := {| rsvd_mask0 := []; rsvd_mask1 := []; bad_mt_xwr := 0 |};
     ctx_shadow_zero := {| rsvd_mask0 := [0; 0]; rsvd_mask1 := [0; 0]; bad_mt_xwr := 0 |};
     ctx_base_role := no_role; ctx_ept_ad := false; ctx_ops := no_ops |}.

Definition two_level_env (leaf : Z) : walk_env :=
  {| we_mmu := two_level_mmu; we_pae_root := []; we_va := λ x, x;
     we_page := λ p, {| sp_spt := if p <? 0x2000 then 0x1000 else 0x2000; sp_gfn := 0; sp_gfns := [];
                        role_level := if p <? 0x2000 then 2 else 1; role_direct := true; role_smm := false |};
     we_mem := λ _ p, if p =? 0x1000 then 0x2063 else if p =? 0x2018 then leaf else 0 |}.

Lemma fast_page_fault_correct_witness :
  ∃ r c', fast_page_fault (K := kvm_pte_x86) x86_masks (two_level_env 0x5c61) 0x3000 1 3
            {| lc_mode := OUTSIDE_GUEST_MODE; lc_irqs := true |} = Some (r, c') ∧
    r.(fr_dirty) = Some 3 ∧ r.(fr_write) = Some {| sw_sptep := 0x2018; sw_old := 0x5c61; sw_new := 0x5c63; sw_time := 2 |} ∧
    lockless_step (K := kvm_pte_x86) x86_masks 0x5c61 0x5c63.
Proof.
  destruct (fast_page_fault_correct (K := kvm_pte_x86) x86_masks (two_level_env 0x5c61) 0x3000 1 3
              {| lc_mode := OUTSIDE_GUEST_MODE; lc_irqs := true |}) as (r & c' & E & _ & _ & Hw).
  - reflexivity.
  - vm_compute. congruence.
  - exists r, c'. split; [exact E|]. vm_compute in E. injection E as <- <-.
    split; [reflexivity|]. split; [reflexivity|]. destruct Hw as (_ & _ & _ & Hs & _). by apply Hs.
Defined.

(* ------------------------------------------------------------------ *)
(** ** Tables that do not change *)

Section Static.
Context `{K : KvmPte} (g : shadow_masks) (env : walk_env) (m : Z → Z).
Context (Hmem : ∀ t p, env.(we_mem) t p = m p).

(** The hierarchy read from the top: the entry where the translation of
    [addr] ends, and whether one on the way has a bit that must be zero. *)
Fixpoint resolve (addr : Z) (n : nat) (table : Z) : Z * bool :=
  match n with
  | O => (0, false)
  | S n' =>
      let level := Z.of_nat n in
      let v := m (env.(we_va) table + 8 * SHADOW_PT_INDEX addr level) in
      if negb (is_shadow_present_pte g v) then (v, false)
      else
        let bad := is_shadow_zero_bits_set env.(we_mmu) v level in
        if is_last_spte v level then (v, bad)
        else let '(v', bad') := resolve addr n' (Z.land v PT64_BASE_ADDR_MASK) in (v', bad || bad')
  end.

(** The body of [walk_shadow_page_get_mmio_spte]. *)
Definition mmio_body (it : shadow_walk_iterator) (spte : Z) (reserved : bool) : bool * bool :=
  if negb (is_shadow_present_pte g spte) then (reserved, true)
  else (reserved || is_shadow_zero_bits_set env.(we_mmu) spte it.(it_level), false).

Lemma walk_resolve (addr : Z) (n : nat) (fuel : nat) (w : entry_walk) (acc : bool) :
  (0 < n < fuel)%nat → w.(wk_it).(it_level) = Z.of_nat n → w.(wk_it).(it_addr) = addr →
  ∃ w', walk_lockless env mmio_body fuel w acc
        = Some (w', acc || (resolve addr n w.(wk_it).(it_shadow_addr)).2) ∧
        w'.(wk_spte) = (resolve addr n w.(wk_it).(it_shadow_addr)).1.
Proof using Hmem.
  revert fuel w acc. induction n as [|n IH]; intros fuel w acc Hn Hl Ha; [lia|].
  destruct fuel as [|fuel]; [lia|]. cbn [walk_lockless]. unfold shadow_walk_okay. rewrite Hl.
  change PT_PAGE_TABLE_LEVEL with 1. rewrite (proj2 (Z.ltb_ge (Z.of_nat (S n)) 1)) by lia.
  cbn [it_sptep put mbind option_bind]. rewrite Hmem, Ha. cbn [resolve].
  set (v := m (we_va env (it_shadow_addr (wk_it w)) + 8 * SHADOW_PT_INDEX addr (Z.of_nat (S n)))).
  unfold mmio_body at 1. destruct (is_shadow_present_pte g v); cbn [negb].
  2: { eexists. split; [by rewrite orb_false_r|done]. }
  unfold __shadow_walk_next. cbn [it_level put wk_it]. rewrite Hl.
  destruct (is_last_spte v (Z.of_nat (S n))) eqn:Elast.
  - destruct fuel as [|fuel]; [lia|]. cbn [walk_lockless]. eexists. split; [done|]. done.
  - assert (n ≠ 0%nat) by (intros ->; by unfold is_last_spte in Elast).
    match goal with |- context [walk_lockless env mmio_body fuel ?w1 ?acc1] =>
      destruct (IH fuel w1 acc1) as (w' & E & Hv) end; [lia|cbn; lia|done|].
    rewrite E. cbn [wk_it it_shadow_addr put] in Hv |- *.
    destruct (resolve addr n _) as [v' bad']. exists w'. split; [|done]. cbn [snd fst].
    by rewrite orb_assoc.
Qed.

(** The reader of MMIO entries finds what the tables say. *)
Lemma get_mmio_spte_resolves (addr : Z) (c : lockless_ctx) :
  VALID_PAGE env.(we_mmu).(ctx_root_hpa) = true → 1 <= (shadow_walk_init env addr).(it_level) →
  let it := shadow_walk_init env addr in
  ∃ c', walk_shadow_page_get_mmio_spte g env addr c
        = Some (resolve addr (Z.to_nat it.(it_level)) it.(it_shadow_addr), c').
Proof using Hmem.
  intros Hv Hl it. unfold walk_shadow_page_get_mmio_spte. rewrite Hv. cbn [negb].
  unfold for_each_shadow_entry_lockless. fold it mmio_body.
  destruct (walk_resolve addr (Z.to_nat it.(it_level)) (walk_fuel it)
              {| wk_it := it; wk_spte := 0; wk_time := 0 |} false) as (w' & -> & Hw).
  - unfold walk_fuel. fold it in Hl. lia.
  - cbn. fold it in Hl. lia.
  - cbn. unfold it, shadow_walk_init. by repeat case_match.
  - cbn [mbind option_bind]. rewrite Hw. cbn [orb wk_it]. eexists. by destruct (resolve _ _ _).
Qed.
End Static.

(** C32: a fault on an MMIO address.  When the tables lead the address to the
    entry that [mark_mmio_spte] made for a frame under a generation of the
    memory slots, [handle_mmio_page_fault] emulates the access, with that frame
    and the permissions recorded, exactly while the entry's generation is the
    current one; after the slots changed it asks for a new entry. *)
Theorem handle_mmio_page_fault_correct `{K : KvmPte, KO : !KvmPteOk K} (g g' : shadow_masks)
    (mask value gen now gfn access addr : Z) (direct : bool) (env : walk_env) (m : Z → Z) (c : lockless_ctx)
    (in_cache : Z → bool) :
  vmrun_mmu_set_mmio_spte_mask mask value g = Some g' → mmio_mask_format mask →
  is_u 40 gfn → Z.land (Z.shiftl gfn PAGE_SHIFT) mask = 0 →
  (∀ t p, env.(we_mem) t p = m p) → in_cache addr = false →
  VALID_PAGE env.(we_mmu).(ctx_root_hpa) = true → 1 <= (shadow_walk_init env addr).(it_level) →
  let it := shadow_walk_init env addr in
  resolve g' env m addr (Z.to_nat it.(it_level)) it.(it_shadow_addr) = (mark_mmio_spte g' gen gfn access, false) →
  ∃ c', handle_mmio_page_fault g' env false in_cache in_cache now addr direct c =
    if Z.land now MMIO_GEN_MASK =? Z.land gen (MMIO_GEN_MASK - 1)
    then Some (RET_MMIO_PF_EMULATE,
               Some (if direct then 0 else addr, gfn, Z.land access (Z.lor ACC_WRITE_MASK ACC_USER_MASK)), c')
    else Some (RET_MMIO_PF_INVALID, None, c').
Proof.
  intros Hset Hfmt Hgfn Hdis Hmem Hc Hv Hl it Hres.
  unfold handle_mmio_page_fault, mmio_info_in_cache. rewrite Hc.
  replace (if direct then false else false) with false by by destruct direct.
  destruct (get_mmio_spte_resolves g' env m Hmem addr c Hv Hl) as (c' & E). fold it in E. rewrite E, Hres.
  cbn [mbind option_bind]. erewrite mark_mmio_spte_is_mmio by done.
  unfold check_mmio_spte, vmrun_current_mmio_generation. erewrite get_mmio_spte_generation_mark by done.
  erewrite get_mmio_spte_gfn_mark, get_mmio_spte_access_mark by done.
  exists c'. by destruct (_ =? _).
Qed.

(** The masks of an x86 host, with MMIO entries marked by bits 0 and 51. *)
Definition mmio_x86 : shadow_masks :=
  default zero_masks (vmrun_mmu_set_mmio_spte_mask (K := kvm_pte_x86) (Z.lor (BIT 0) (BIT 51)) (Z.lor (BIT 0) (BIT 51))
                        x86_masks).

Lemma handle_mmio_page_fault_correct_witness :
  ∃ c', handle_mmio_page_fault (K := kvm_pte_x86) mmio_x86
          (two_level_env (mark_mmio_spte mmio_x86 78 0xfee00 7)) false (λ _, false) (λ _, false)
          78 0x3000 false {| lc_mode := OUTSIDE_GUEST_MODE; lc_irqs := true |}
        = Some (RET_MMIO_PF_EMULATE, Some (0x3000, 0xfee00, 6), c').
Proof.
  set (leaf := mark_mmio_spte mmio_x86 78 0xfee00 7).
  destruct (handle_mmio_page_fault_correct (K := kvm_pte_x86) (KO := kvm_pte_x86_ok) x86_masks mmio_x86
              (Z.lor (BIT 0) (BIT 51)) (Z.lor (BIT 0) (BIT 51)) 78 78 0xfee00 7 0x3000 false (two_level_env leaf)
              (we_mem (two_level_env leaf) 0) {| lc_mode := OUTSIDE_GUEST_MODE; lc_irqs := true |} (λ _, false))
    as (c' & E).
  - reflexivity.
  - apply mmio_mask_format_bit0_51.
  - by vm_compute.
  - by vm_compute.
  - reflexivity.
  - reflexivity.
  - reflexivity.
  - by vm_compute.
  - reflexivity.
  - exists c'. exact E.
Defined.

(** The fast path does not ask whether the entry is present.  A write fault
    that was taken on a present page, and finds an MMIO entry in its place
    whose generation has bits 8 and 9 set, is "fixed": the entry then records
    a permission to write that it was not made with, and a page of the guest is
    marked dirty. *)
Lemma fast_fault_rewrites_mmio_entry :
  let K := kvm_pte_x86 in
  let leaf := mark_mmio_spte mmio_x86 0x300 0xfee00 ACC_USER_MASK in
  is_mmio_spte mmio_x86 leaf = true ∧ get_mmio_spte_access mmio_x86 leaf = ACC_USER_MASK ∧
  ∃ r c' wr, fast_page_fault mmio_x86 (two_level_env leaf) 0x3000 1 3
               {| lc_mode := OUTSIDE_GUEST_MODE; lc_irqs := true |} = Some (r, c') ∧
    r.(fr_handled) = true ∧ r.(fr_write) = Some wr ∧ r.(fr_dirty) = Some 3 ∧
    wr.(sw_old) = leaf ∧ get_mmio_spte_access mmio_x86 wr.(sw_new) = Z.lor ACC_USER_MASK ACC_WRITE_MASK.
Proof.
  intros K leaf. split; [reflexivity|]. split; [reflexivity|]. do 3 eexists. split; [vm_compute; reflexivity|].
  repeat split.
Qed.
