(* ===== verification/ShadowPage.v ===== *)
(** * Shadow pages that are out of sync

    kernel/mmu.c: the links from a shadow page to the entries that point to
    it, the marking of the parents of a page that is out of sync, and the walk
    that collects such pages.

    The struct of a shadow page is Linux's; its fields are those the code
    uses.  [Rmap.mmu_page] has the ones of the reverse maps, [page_ext] the
    others.  The entries of a page are at its address [sp_spt], and
    [page_header] leads from an entry, [page_of] from the physical address in
    an entry, to the page.

    The MMU lock is held throughout. *)

From S2P Require Import Prelude.
From S2P Require Import Spte.
From S2P Require Import Memslots.
From S2P Require Import MemRegion.
From S2P Require Import PteList.
From S2P Require Import Rmap.
From S2P Require Import PageTrack.

Definition PT64_ENT_PER_PAGE : Z := BIT PT64_LEVEL_BITS.

(** The rest of [union vmrun_mmu_page_role]. *)
Record page_role := {
  role_cr4_pae : bool;
  role_access : Z;
  role_quadrant : Z;
  role_ad_disabled : bool;
  role_other : Z
}.
#[export] Instance eta_page_role : Eta page_role := λ r,
  {| role_cr4_pae := r.(role_cr4_pae); role_access := r.(role_access); role_quadrant := r.(role_quadrant);
     role_ad_disabled := r.(role_ad_disabled); role_other := r.(role_other) |}.
#[export] Instance page_role_eq_dec : EqDecision page_role.
Proof. solve_decision. Defined.

Record page_ext := {
  px_unsync : bool;
  px_unsync_children : Z;
  px_bitmap : list bool;           (* unsync_child_bitmap *)
  px_parents : Z;                  (* parent_ptes.val *)
  px_root_count : Z;
  px_invalid : bool;               (* role.invalid *)
  px_valid_gen : Z;                (* mmu_valid_gen *)
  px_flooding : Z;                 (* write_flooding_count *)
  px_role : page_role
}.
#[export] Instance eta_page_ext : Eta page_ext := λ r,
  {| px_unsync := r.(px_unsync); px_unsync_children := r.(px_unsync_children); px_bitmap := r.(px_bitmap);
     px_parents := r.(px_parents); px_root_count := r.(px_root_count); px_invalid := r.(px_invalid);
     px_valid_gen := r.(px_valid_gen); px_flooding := r.(px_flooding); px_role := r.(px_role) |}.

Record shadow_state := {
  ss_track : track_state;          (* entries, reverse maps, trackers *)
  ss_ext : gmap Z page_ext;
  ss_active : list Z;              (* active_mmu_pages, from its head *)
  ss_hash : gmap Z (list Z);       (* mmu_page_hash *)
  ss_used : Z;                     (* n_used_mmu_pages *)
  ss_max : Z;                      (* n_max_mmu_pages *)
  ss_valid_gen : Z;                (* mmu_valid_gen *)
  ss_stat_unsync : Z;              (* stat.mmu_unsync *)
  ss_stat_zapped : Z;              (* stat.mmu_shadow_zapped *)
  ss_reloads : Z;                  (* vmrun_reload_remote_mmus calls *)
  ss_warns : nat
}.
#[export] Instance eta_shadow_state : Eta shadow_state := λ r,
  {| ss_track := r.(ss_track); ss_ext := r.(ss_ext); ss_active := r.(ss_active); ss_hash := r.(ss_hash);
     ss_used := r.(ss_used); ss_max := r.(ss_max); ss_valid_gen := r.(ss_valid_gen);
     ss_stat_unsync := r.(ss_stat_unsync); ss_stat_zapped := r.(ss_stat_zapped); ss_reloads := r.(ss_reloads);
     ss_warns := r.(ss_warns) |}.

Definition mmu (s : shadow_state) : mmu_state := s.(ss_track).(tk_mmu).
Definition set_mmu (m : mmu_state) (s : shadow_state) : shadow_state :=
  s <| ss_track ::= λ t, t <| tk_mmu := m |> |>.
Definition upd_ext (a : Z) (f : page_ext → page_ext) (s : shadow_state) : shadow_state :=
  s <| ss_ext ::= alter f a |>.
Definition sp_warn_if (b : bool) (s : shadow_state) : shadow_state := if b then s <| ss_warns ::= S |> else s.

Definition is_obsolete_sp (s : shadow_state) (x : page_ext) : bool := negb (x.(px_valid_gen) =? s.(ss_valid_gen)).

Definition sp_ad_disabled (x : page_ext) : bool := x.(px_role).(role_ad_disabled).

Section Shadow.
Context `{K : KvmPte} (g : shadow_masks) (page_header page_of : Z → Z).

(** ** Parents *)

(** [pte_list_add] takes a descriptor from the VCPU's cache. *)
Definition mmu_page_add_parent_pte (a parent_pte : Z) (s : shadow_state) : option shadow_state :=
  if negb (truth parent_pte) then Some s
  else
    x ← s.(ss_ext) !! a;
    '(_, head, m) ← pte_list_add parent_pte x.(px_parents) (mmu s).(dmem);
    Some (upd_ext a (λ x, x <| px_parents := head |>) (set_mmu ((mmu s) <| dmem := m |>) s)).

Definition mmu_page_remove_parent_pte (a parent_pte : Z) (s : shadow_state) : option shadow_state :=
  x ← s.(ss_ext) !! a;
  '(head, m) ← pte_list_remove parent_pte x.(px_parents) (mmu s).(dmem);
  Some (upd_ext a (λ x, x <| px_parents := head |>) (set_mmu ((mmu s) <| dmem := m |>) s)).

Definition drop_parent_pte (a parent_pte : Z) (s : shadow_state) : option shadow_state :=
  s ← mmu_page_remove_parent_pte a parent_pte s;
  Some (set_mmu ((mmu s) <| ptes ::= set_pte parent_pte (mmu_spte_clear_no_track ((mmu s).(ptes) parent_pte)) |>) s).

(** ** Marking the parents *)

(** [for_each_rmap_spte(&sp->parent_ptes, &iter, sptep) mark(sptep)] *)
Definition each_parent (mark : Z → shadow_state → option shadow_state) (a : Z) (s : shadow_state)
    : option shadow_state :=
  x ← s.(ss_ext) !! a;
  r ← for_each_rmap_spte (mmu s).(dmem)
        (λ acc p, match acc with Some s => is_shadow_present_pte g ((mmu s).(ptes) p) | None => true end)
        (λ acc p, s ← acc; mark p s) x.(px_parents) (Some s);
  r.

(** [index = spte - sp->spt], then the bit and the count. *)
Fixpoint mark_unsync (fuel : nat) (sptep : Z) (s : shadow_state) : option shadow_state :=
  match fuel with
  | O => None
  | S fuel =>
      let a := page_header sptep in
      sp ← (mmu s).(pages) !! a;
      x ← s.(ss_ext) !! a;
      let index := spte_index sp sptep in
      if index <? 0 then None
      else
        was_set ← x.(px_bitmap) !! Z.to_nat index;
        if was_set : bool then Some s
        else
          let s := upd_ext a (λ x, x <| px_bitmap ::= <[Z.to_nat index := true]> |>
                                     <| px_unsync_children := u32 (x.(px_unsync_children) + 1) |>) s in
          if truth x.(px_unsync_children) then Some s
          else each_parent (mark_unsync fuel) a s
  end.

(** Every nested call sets another bit. *)
Definition mark_fuel (s : shadow_state) : nat := S (Z.to_nat PT64_ENT_PER_PAGE * size s.(ss_ext)).

Definition vmrun_mmu_mark_parents_unsync (a : Z) (s : shadow_state) : option shadow_state :=
  each_parent (mark_unsync (mark_fuel s)) a s.

Definition vmrun_unsync_page (a : Z) (s : shadow_state) : option shadow_state :=
  let s := s <| ss_stat_unsync ::= λ n, n + 1 |> in
  let s := upd_ext a (λ x, x <| px_unsync := true |>) s in
  vmrun_mmu_mark_parents_unsync a s.

Definition vmrun_unlink_unsync_page (a : Z) (s : shadow_state) : option shadow_state :=
  x ← s.(ss_ext) !! a;
  let s := sp_warn_if (negb x.(px_unsync)) s in
  let s := upd_ext a (λ x, x <| px_unsync := false |>) s in
  Some (s <| ss_stat_unsync ::= λ n, n - 1 |>).

(** [__pa] of the entries of a page. *)
Context (pa : Z → Z).

Definition link_shadow_page (sptep a : Z) (s : shadow_state) : option shadow_state :=
  sp ← (mmu s).(pages) !! a;
  x ← s.(ss_ext) !! a;
  let spte := Z.lor (Z.lor (Z.lor (Z.lor (Z.lor (pa sp.(sp_spt)) g.(shadow_present_mask)) PT_WRITABLE_MASK)
                                  g.(shadow_user_mask)) g.(shadow_x_mask)) g.(shadow_me_mask) in
  let spte := if sp_ad_disabled x then Z.lor spte shadow_acc_track_value
              else Z.lor spte g.(shadow_accessed_mask) in
  let '(cell, ev) := mmu_spte_set g ((mmu s).(ptes) sptep) spte in
  let s := set_mmu ((mmu s) <| ptes ::= set_pte sptep cell |> <| events ::= λ l, l ++ ev |>) s in
  s ← mmu_page_add_parent_pte a sptep s;
  x ← s.(ss_ext) !! a;
  if truth x.(px_unsync_children) || x.(px_unsync) then mark_unsync (mark_fuel s) sptep s else Some s.

Definition validate_direct_spte (sptep direct_access : Z) (s : shadow_state) : option shadow_state :=
  let v := (mmu s).(ptes) sptep in
  if is_shadow_present_pte g v && negb (is_large_pte v) then
    let child := page_of (Z.land v PT64_BASE_ADDR_MASK) in
    x ← s.(ss_ext) !! child;
    if x.(px_role).(role_access) =? direct_access then Some s
    else
      s ← drop_parent_pte child sptep s;
      Some (set_mmu ((mmu s) <| remote_flushes ::= λ n, n + 1 |>) s)
  else Some s.

(** ** Collecting the pages out of sync *)

Definition KVM_PAGE_ARRAY_NR : nat := 16.
Definition INVALID_INDEX : Z := -1.

(** [struct vmrun_mmu_pages]: the pages and their index in the parent. *)
Definition mmu_pages : Type := list (Z * Z).

(** [pvec->page[pvec->nr]]: the array has [KVM_PAGE_ARRAY_NR] places. *)
Definition mmu_pages_add (pvec : mmu_pages) (a : Z) (unsync : bool) (idx : Z) : option (mmu_pages * bool) :=
  if unsync && existsb (λ e, e.1 =? a) pvec then Some (pvec, false)
  else if (length pvec <? KVM_PAGE_ARRAY_NR)%nat then
    let pvec := pvec ++ [(a, idx)] in
    Some (pvec, (length pvec =? KVM_PAGE_ARRAY_NR)%nat)
  else None.

Definition clear_unsync_child_bit (a idx : Z) (s : shadow_state) : option shadow_state :=
  x ← s.(ss_ext) !! a;
  let n := u32 (x.(px_unsync_children) - 1) in
  let s := sp_warn_if (s32 n <? 0) s in
  if (idx <? 0) || (Z.of_nat (length x.(px_bitmap)) <=? idx) then None
  else Some (upd_ext a (λ x, x <| px_unsync_children := n |> <| px_bitmap ::= <[Z.to_nat idx := false]> |>) s).

(** What the walk carries: the state, the vector, [nr_unsync_leaf]. *)
Record unsync_walk := { uw_state : shadow_state; uw_pvec : mmu_pages; uw_leaves : Z }.

(** The loop over the bits from [i] on; [n] of them are left.  [inl]: return
    an error. *)
Fixpoint unsync_bits (walk : Z → shadow_state → mmu_pages → option (shadow_state * mmu_pages * Z))
    (a spt : Z) (n : nat) (i : Z) (w : unsync_walk) : option (shadow_state * mmu_pages * Z) :=
  match n with
  | O => Some (w.(uw_state), w.(uw_pvec), w.(uw_leaves))
  | S n =>
      let '{| uw_state := s; uw_pvec := pvec; uw_leaves := leaves |} := w in
      x ← s.(ss_ext) !! a;
      if negb (default false (x.(px_bitmap) !! Z.to_nat i)) then unsync_bits walk a spt n (i + 1) w
      else
        let ent := (mmu s).(ptes) (spt + 8 * i) in
        let clear s pvec :=
          s ← clear_unsync_child_bit a i s;
          unsync_bits walk a spt n (i + 1) {| uw_state := s; uw_pvec := pvec; uw_leaves := leaves |} in
        if negb (is_shadow_present_pte g ent) || is_large_pte ent then clear s pvec
        else
          let child := page_of (Z.land ent PT64_BASE_ADDR_MASK) in
          c ← s.(ss_ext) !! child;
          if truth c.(px_unsync_children) then
            '(pvec, full) ← mmu_pages_add pvec child c.(px_unsync) i;
            if full : bool then Some (s, pvec, - ENOSPC)
            else
              '(s, pvec, ret) ← walk child s pvec;
              if ret =? 0 then clear s pvec
              else if ret >? 0 then
                unsync_bits walk a spt n (i + 1) {| uw_state := s; uw_pvec := pvec; uw_leaves := leaves + ret |}
              else Some (s, pvec, ret)
          else if c.(px_unsync) then
            '(pvec, full) ← mmu_pages_add pvec child c.(px_unsync) i;
            if full : bool then Some (s, pvec, - ENOSPC)
            else unsync_bits walk a spt n (i + 1) {| uw_state := s; uw_pvec := pvec; uw_leaves := leaves + 1 |}
          else clear s pvec
  end.

(** One level of the tree per unit of fuel. *)
Fixpoint __mmu_unsync_walk (fuel : nat) (a : Z) (s : shadow_state) (pvec : mmu_pages)
    : option (shadow_state * mmu_pages * Z) :=
  match fuel with
  | O => None
  | S fuel =>
      sp ← (mmu s).(pages) !! a;
      unsync_bits (__mmu_unsync_walk fuel) a sp.(sp_spt) (Z.to_nat PT64_ENT_PER_PAGE) 0
        {| uw_state := s; uw_pvec := pvec; uw_leaves := 0 |}
  end.

Definition mmu_unsync_walk (a : Z) (s : shadow_state) : option (shadow_state * mmu_pages * Z) :=
  x ← s.(ss_ext) !! a;
  sp ← (mmu s).(pages) !! a;
  if negb (truth x.(px_unsync_children)) then Some (s, [], 0)
  else
    '(pvec, _) ← mmu_pages_add [] a x.(px_unsync) INVALID_INDEX;
    __mmu_unsync_walk (Z.to_nat sp.(role_level)) a s pvec.
End Shadow.
