(* ===== verification/ShadowPageProps.v ===== *)
(** * Shadow pages that are out of sync: no such page is lost

    A page that is out of sync, or has such a page below it, is marked in
    every page that points to it.  The marking stops early where it finds a
    mark; that this loses nothing is the invariant proved here. *)

From S2P Require Import Prelude.
From S2P Require Import Spte.
From S2P Require Import SpteTrack.
From S2P Require Import Memslots.
From S2P Require Import MemRegion.
From S2P Require Import MemRegionProps.
From S2P Require Import PteList.
From S2P Require Import PteListProps.
From S2P Require Import Rmap.
From S2P Require Import RmapProps.
From S2P Require Import PageTrack.
From S2P Require Import ShadowPage.

(* ------------------------------------------------------------------ *)
(** ** Counting bits *)

Definition ones (l : list bool) : nat := length (filter (λ b, b = true) l).

Lemma ones_app (l1 l2 : list bool) : ones (l1 ++ l2) = (ones l1 + ones l2)%nat.
Proof. unfold ones. by rewrite filter_app, length_app. Qed.

Lemma ones_bound (l : list bool) : (ones l <= length l)%nat.
Proof. apply length_filter. Qed.

(** A list with one element singled out. *)
Lemma ones_split (l : list bool) (i : nat) (b : bool) :
  l !! i = Some b → ∀ c, (ones (<[i := c]> l) + Nat.b2n b = ones l + Nat.b2n c)%nat.
Proof.
  intros Hi c. pose proof (f_equal ones (take_drop_middle l i b Hi)) as E.
  rewrite insert_take_drop by (by eapply lookup_lt_Some).
  change (c :: drop (S i) l) with ([c] ++ drop (S i) l). change (b :: drop (S i) l) with ([b] ++ drop (S i) l) in E.
  assert (H1 : ∀ d, ones [d] = Nat.b2n d) by by intros []. rewrite !ones_app, !H1 in *. lia.
Qed.

Lemma ones_pos (l : list bool) : (0 < ones l)%nat ↔ ∃ i, l !! i = Some true.
Proof.
  unfold ones. split.
  - intros Hl. destruct (filter (λ b, b = true) l) as [|b l'] eqn:E; [cbn in Hl; lia|].
    assert (Hb : b ∈ filter (λ b, b = true) l) by (rewrite E; by left).
    apply list_elem_of_filter in Hb as [-> Hb]. by apply list_elem_of_lookup_1.
  - intros [i Hi%list_elem_of_lookup_2]. assert (H : true ∈ filter (λ b, b = true) l) by by apply list_elem_of_filter.
    destruct (filter (λ b, b = true) l); [by apply elem_of_nil in H|cbn; lia].
Qed.

(** A sum over the pages. *)
Definition total {A : Type} (f : A → nat) (m : gmap Z A) : nat := sum_list_with (λ e, f e.2) (map_to_list m).

Lemma total_delete {A : Type} (f : A → nat) (m : gmap Z A) (a : Z) (x : A) :
  m !! a = Some x → total f m = (f x + total f (delete a m))%nat.
Proof. intros Ha. unfold total. by rewrite <- (map_to_list_delete m a x Ha). Qed.

Lemma total_insert {A : Type} (f : A → nat) (m : gmap Z A) (a : Z) (x y : A) :
  m !! a = Some x → (total f (<[a := y]> m) + f x = total f m + f y)%nat.
Proof.
  intros Ha. rewrite (total_delete f m a x Ha), (total_delete f (<[a := y]> m) a y) by apply lookup_insert_eq.
  rewrite delete_insert_eq. lia.
Qed.

Lemma total_bound {A : Type} (f : A → nat) (m : gmap Z A) (n : nat) :
  (∀ a x, m !! a = Some x → (f x <= n)%nat) → (total f m <= n * size m)%nat.
Proof.
  induction m as [|a x m Ha IH] using map_ind; intros Hf.
  - unfold total. rewrite map_to_list_empty. cbn. lia.
  - unfold total. rewrite map_to_list_insert by done. cbn [sum_list_with snd]. fold (total f m).
    rewrite map_size_insert_None by done. specialize (Hf a x ltac:(apply lookup_insert_eq)) as Hx.
    assert (total f m <= n * size m)%nat; [|lia]. apply IH. intros b y Hb. apply (Hf b).
    rewrite lookup_insert_ne by (intros ->; congruence). done.
Qed.

(* ------------------------------------------------------------------ *)
(** ** The invariant *)

Section Unsync.
Context `{K : KvmPte} (g : shadow_masks) (page_header : Z → Z).
(** The entries that point to a page, and the descriptors that list them. *)
Context (PL DL : Z → list Z).

(** The page an entry is in knows the entry as one of its 512. *)
Definition entry_of (s : shadow_state) (p : Z) : Prop :=
  ∃ sp, (mmu s).(pages) !! page_header p = Some sp ∧ is_Some (s.(ss_ext) !! page_header p) ∧
        0 <= spte_index sp p < PT64_ENT_PER_PAGE.

(** Its bit is set. *)
Definition bit_set (s : shadow_state) (p : Z) : Prop :=
  ∃ sp x, (mmu s).(pages) !! page_header p = Some sp ∧ s.(ss_ext) !! page_header p = Some x ∧
          x.(px_bitmap) !! Z.to_nat (spte_index sp p) = Some true.

Record shape_ok (s : shadow_state) : Prop := {
  so_parents : ∀ a x, s.(ss_ext) !! a = Some x →
    rmap_rep (mmu s).(dmem).(descs) x.(px_parents) (DL a) (PL a);
  so_entries : ∀ a x p, s.(ss_ext) !! a = Some x → p ∈ PL a →
    is_shadow_present_pte g ((mmu s).(ptes) p) = true ∧ entry_of s p;
  so_count : ∀ a x, s.(ss_ext) !! a = Some x →
    length x.(px_bitmap) = Z.to_nat PT64_ENT_PER_PAGE ∧ x.(px_unsync_children) = Z.of_nat (ones x.(px_bitmap))
}.

(** A page that is out of sync itself, or above one that is. *)
Definition needs_mark (x : page_ext) : Prop := x.(px_unsync) = true ∨ x.(px_unsync_children) ≠ 0.

(** Except for the pages [E], whoever needs a mark has one in every parent. *)
Definition marked_except (E : Z → Prop) (s : shadow_state) : Prop :=
  ∀ a x p, ¬ E a → s.(ss_ext) !! a = Some x → needs_mark x → p ∈ PL a → bit_set s p.

(** [s'] is [s] with more marks. *)
Record more_marks (s s' : shadow_state) : Prop := {
  mm_same : s' = s <| ss_ext := s'.(ss_ext) |>;
  mm_page : ∀ a x, s.(ss_ext) !! a = Some x → ∃ b n,
    s'.(ss_ext) !! a = Some (x <| px_bitmap := b |> <| px_unsync_children := n |>) ∧
    (∀ i, x.(px_bitmap) !! i = Some true → b !! i = Some true);
  mm_dom : ∀ a, s.(ss_ext) !! a = None → s'.(ss_ext) !! a = None
}.

#[local] Instance more_marks_refl : Reflexive more_marks.
Proof using Type. intros s. split; [done| |done]. intros a x Hx. by exists x.(px_bitmap), x.(px_unsync_children). Qed.

#[local] Instance more_marks_trans : Transitive more_marks.
Proof using Type.
  intros s1 s2 s3 [H1 H2 H3] [G1 G2 G3]. split.
  - rewrite G1, H1. done.
  - intros a x Hx. destruct (H2 a x Hx) as (b & n & E & Hb). destruct (G2 a _ E) as (b' & n' & E' & Hb').
    exists b', n'. split; [exact E'|]. intros i Hi. apply Hb'. cbn. by apply Hb.
  - intros a Ha. auto.
Qed.

Lemma more_marks_track (s s' : shadow_state) : more_marks s s' → s'.(ss_track) = s.(ss_track).
Proof using Type. intros [H _ _]. by rewrite H. Qed.

Lemma more_marks_bit (s s' : shadow_state) (p : Z) : more_marks s s' → bit_set s p → bit_set s' p.
Proof using Type.
  intros Hm (sp & x & H1 & H2 & H3). destruct (mm_page _ _ Hm _ x H2) as (b & n & E & Hb).
  exists sp. eexists. unfold mmu. rewrite (more_marks_track s s' Hm). split_and!; [done|exact E|]. by apply Hb.
Qed.

(** What the marks keep of the shape. *)
Lemma more_marks_back (s s' : shadow_state) (a : Z) (x' : page_ext) :
  more_marks s s' → s'.(ss_ext) !! a = Some x' →
  ∃ x, s.(ss_ext) !! a = Some x ∧ x'.(px_parents) = x.(px_parents) ∧ x'.(px_unsync) = x.(px_unsync).
Proof using Type.
  intros [_ H2 H3] Ha. destruct (s.(ss_ext) !! a) as [x|] eqn:E; [|by rewrite H3 in Ha].
  destruct (H2 a x E) as (b & n & E' & _). rewrite E' in Ha. injection Ha as <-. by exists x.
Qed.

Lemma more_marks_shape (s s' : shadow_state) :
  more_marks s s' → shape_ok s →
  (∀ a x, s'.(ss_ext) !! a = Some x →
    length x.(px_bitmap) = Z.to_nat PT64_ENT_PER_PAGE ∧ x.(px_unsync_children) = Z.of_nat (ones x.(px_bitmap))) →
  shape_ok s'.
Proof using Type.
  intros Hm [S1 S2 S3] Hc. pose proof (more_marks_track s s' Hm) as Ht. split; [| |done].
  - intros a x' Hx'. destruct (more_marks_back s s' a x' Hm Hx') as (x & Hx & -> & _). unfold mmu. rewrite Ht. by apply S1.
  - intros a x' p Hx' Hp. destruct (more_marks_back s s' a x' Hm Hx') as (x & Hx & _).
    destruct (S2 a x p Hx Hp) as (H1 & sp & H2 & [y Hy] & H3). unfold mmu. rewrite Ht. split; [done|].
    exists sp. unfold mmu. rewrite Ht. split; [done|]. split; [|done].
    destruct (mm_page _ _ Hm _ y Hy) as (b & n & -> & _). done.
Qed.

(** The marks still missing. *)
Definition zeros (x : page_ext) : nat := (Z.to_nat PT64_ENT_PER_PAGE - ones x.(px_bitmap))%nat.
Definition missing (s : shadow_state) : nat := total zeros s.(ss_ext).

Lemma missing_fuel (s : shadow_state) : (missing s < mark_fuel s)%nat.
Proof using Type.
  unfold missing, mark_fuel. assert (H : ∀ a x, s.(ss_ext) !! a = Some x → (zeros x <= Z.to_nat PT64_ENT_PER_PAGE)%nat)
    by (intros; unfold zeros; lia).
  pose proof (total_bound zeros s.(ss_ext) _ H). lia.
Qed.

(** What one call of [mark_unsync], or a loop of them, achieves. *)
Record marking (E : Z → Prop) (s s' : shadow_state) : Prop := {
  mg_more : more_marks s s';
  mg_shape : shape_ok s';
  mg_marked : marked_except E s';
  mg_missing : (missing s' <= missing s)%nat
}.

Lemma marking_refl (E : Z → Prop) (s : shadow_state) : shape_ok s → marked_except E s → marking E s s.
Proof using Type. intros Hs Hm. by split. Qed.

Lemma marking_trans (E : Z → Prop) (s1 s2 s3 : shadow_state) : marking E s1 s2 → marking E s2 s3 → marking E s1 s3.
Proof using Type. intros [A1 _ _ A4] [B1 B2 B3 B4]. split; [by etrans|done|done|lia]. Qed.

(** The loop over the parents of a page. *)
Lemma each_parent_spec (mark : Z → shadow_state → option shadow_state) (E : Z → Prop) (a : Z) (x : page_ext)
    (s : shadow_state) :
  s.(ss_ext) !! a = Some x → shape_ok s → marked_except E s →
  (∀ s1 p, marking E s s1 → p ∈ PL a → ∃ s2, mark p s1 = Some s2 ∧ marking E s1 s2 ∧ bit_set s2 p) →
  ∃ s', each_parent g mark a s = Some s' ∧ marking E s s' ∧ ∀ p, p ∈ PL a → bit_set s' p.
Proof using Type.
  intros Hx Hs Hm Hmark. set (body := λ (acc : option shadow_state) p, s ← acc; mark p s).
  assert (Hfold : ∀ l, (∀ p, p ∈ l → p ∈ PL a) →
    ∃ s', foldl body (Some s) l = Some s' ∧ marking E s s' ∧ ∀ p, p ∈ l → bit_set s' p).
  { induction l as [|p l IH] using rev_ind; intros Hl.
    - exists s. split; [done|]. split; [by apply marking_refl|]. intros p Hp. by apply elem_of_nil in Hp.
    - destruct IH as (s1 & E1 & M1 & B1); [intros q Hq; apply Hl; set_solver|].
      destruct (Hmark s1 p M1) as (s2 & E2 & M2 & B2); [apply Hl; set_solver|].
      exists s2. rewrite foldl_app, E1. cbn [foldl]. split; [exact E2|]. split; [by eapply marking_trans|].
      intros q [Hq|Hq%list_elem_of_singleton]%elem_of_app; [|by subst q].
      eapply more_marks_bit; [apply M2|by apply B1]. }
  destruct (Hfold (PL a)) as (s' & E' & M' & B'); [done|]. exists s'. split; [|done].
  unfold each_parent. rewrite Hx. cbn [mbind option_bind].
  rewrite (for_each_foldl _ body _ _ (DL a) (PL a) (Some s) (so_parents s Hs a x Hx)).
  - by rewrite E'.
  - intros l1 p l2 Hl. destruct (Hfold l1) as (s1 & -> & M1 & _); [intros q Hq; rewrite Hl; set_solver|].
    unfold mmu. rewrite (more_marks_track s s1) by apply M1. apply (so_entries s Hs a x p Hx). rewrite Hl. set_solver.
Qed.

(** Setting one bit. *)
Definition set_bit (a : Z) (i : nat) (s : shadow_state) : shadow_state :=
  upd_ext a (λ x, x <| px_bitmap ::= <[i := true]> |>
                    <| px_unsync_children := u32 (x.(px_unsync_children) + 1) |>) s.

Lemma set_bit_spec (a : Z) (i : nat) (x : page_ext) (s : shadow_state) :
  shape_ok s → s.(ss_ext) !! a = Some x → x.(px_bitmap) !! i = Some false →
  let x1 := x <| px_bitmap := <[i := true]> x.(px_bitmap) |> <| px_unsync_children := x.(px_unsync_children) + 1 |> in
  (set_bit a i s).(ss_ext) = <[a := x1]> s.(ss_ext) ∧ more_marks s (set_bit a i s) ∧ shape_ok (set_bit a i s) ∧
  S (missing (set_bit a i s)) = missing s.
Proof using Type.
  intros Hs Hx Hi x1. destruct (so_count s Hs a x Hx) as [Hlen Hcnt].
  pose proof (ones_split _ _ _ Hi true) as Hones. cbn [Nat.b2n] in Hones.
  pose proof (ones_bound (<[i := true]> (px_bitmap x))) as Hb. rewrite length_insert, Hlen in Hb.
  change (Z.to_nat PT64_ENT_PER_PAGE) with 512%nat in Hb, Hlen.
  assert (Hext : (set_bit a i s).(ss_ext) = <[a := x1]> s.(ss_ext)).
  { unfold set_bit, upd_ext. cbn. apply map_eq. intros b. destruct (decide (b = a)) as [->|Hne].
    - rewrite lookup_alter_eq, Hx, lookup_insert_eq. cbn. unfold x1. rewrite wrap_id; [done|]. unfold is_u. lia.
    - by rewrite lookup_alter_ne, lookup_insert_ne. }
  assert (Hmore : more_marks s (set_bit a i s)).
  { split; [done| |].
    - intros b y Hy. rewrite Hext. destruct (decide (b = a)) as [->|Hne].
      + rewrite lookup_insert_eq. assert (y = x) as -> by congruence. eexists _, _. split; [reflexivity|].
        intros j Hj. destruct (decide (j = i)) as [->|Hji]; [congruence|]. cbn. by rewrite list_lookup_insert_ne.
      + rewrite lookup_insert_ne by done. by exists y.(px_bitmap), y.(px_unsync_children).
    - intros b Hb0. rewrite Hext, lookup_insert_ne by congruence. done. }
  split; [exact Hext|]. split; [exact Hmore|]. split.
  - apply (more_marks_shape s); [done|done|]. intros b y Hy. rewrite Hext in Hy.
    destruct (decide (b = a)) as [->|Hne].
    + rewrite lookup_insert_eq in Hy. injection Hy as <-.
      change (length (<[i := true]> (px_bitmap x)) = Z.to_nat PT64_ENT_PER_PAGE ∧
              px_unsync_children x + 1 = Z.of_nat (ones (<[i := true]> (px_bitmap x)))).
      rewrite length_insert. split; [done|lia].
    + rewrite lookup_insert_ne in Hy by done. by apply (so_count s Hs b).
  - unfold missing. rewrite Hext. pose proof (total_insert zeros s.(ss_ext) a x x1 Hx) as Ht.
    change (zeros x1) with (512 - ones (<[i := true]> (px_bitmap x)))%nat in Ht.
    change (zeros x) with (512 - ones (px_bitmap x))%nat in Ht. lia.
Qed.

(** [mark_unsync] ends, the entry's bit is set, and the invariant is kept for
    all pages but those [E] that are being handled by the callers. *)
Lemma mark_unsync_spec (fuel : nat) (E : Z → Prop) (s : shadow_state) (p : Z) :
  (missing s < fuel)%nat → shape_ok s → marked_except E s → entry_of s p →
  ∃ s', mark_unsync g page_header fuel p s = Some s' ∧ marking E s s' ∧ bit_set s' p.
Proof using Type.
  revert E s p. induction fuel as [|fuel IH]; intros E s p Hf Hs Hm (sp & Hsp & [x Hx] & Hidx); [lia|].
  cbn [mark_unsync]. rewrite Hsp. cbn [mbind option_bind]. rewrite Hx. cbn [mbind option_bind].
  rewrite (proj2 (Z.ltb_ge _ 0)) by lia. set (i := Z.to_nat (spte_index sp p)). set (a := page_header p) in *.
  destruct (so_count s Hs a x Hx) as [Hlen Hcnt].
  destruct (lookup_lt_is_Some_2 x.(px_bitmap) i) as [[] Hb];
    [unfold i; rewrite Hlen; change PT64_ENT_PER_PAGE with 512 in *; lia|..]; rewrite Hb; cbn [mbind option_bind].
  { exists s. split; [done|]. split; [by apply marking_refl|]. by exists sp, x. }
  fold (set_bit a i s). destruct (set_bit_spec a i x s Hs Hx Hb) as (Hext & Hmore & Hs1 & Hmiss).
  set (s1 := set_bit a i s) in *. set (x1 := x <| px_bitmap := _ |> <| px_unsync_children := _ |>) in Hext.
  assert (Hbit : bit_set s1 p).
  { exists sp, x1. unfold mmu. rewrite (more_marks_track s s1) by done. fold a. rewrite Hext, lookup_insert_eq.
    split_and!; [done|done|]. cbn. fold i. apply list_lookup_insert_eq. by eapply lookup_lt_Some. }
  assert (Hkeep : ∀ b y q, ¬ E b → b ≠ a → s1.(ss_ext) !! b = Some y → needs_mark y → q ∈ PL b → bit_set s1 q).
  { intros b y q HE Hne Hy Hn Hq. rewrite Hext, lookup_insert_ne in Hy by done.
    eapply more_marks_bit; [exact Hmore|]. by eapply Hm. }
  destruct (truth (px_unsync_children x)) eqn:Et.
  - exists s1. split; [done|]. split; [|done]. split; [done|done| |lia]. intros b y q HE Hy Hn Hq.
    destruct (decide (b = a)) as [->|Hne]; [|by eapply Hkeep]. eapply more_marks_bit; [exact Hmore|].
    eapply (Hm a x); [done|done| |done]. right. unfold truth in Et. by apply negb_true_iff, Z.eqb_neq in Et.
  - set (E' := λ b, E b ∨ b = a).
    destruct (each_parent_spec (mark_unsync g page_header fuel) E' a x1 s1) as (s' & E1 & M1 & B1).
    + by rewrite Hext, lookup_insert_eq.
    + done.
    + intros b y q HE Hy Hn Hq. apply (Hkeep b y); try done; [intros ?; apply HE; by left|intros ->; apply HE; by right].
    + intros s2 q M2 Hq. apply IH.
      * pose proof (mg_missing _ _ _ M2). lia.
      * apply M2.
      * apply M2.
      * assert (Hx2 : ∃ x2, s2.(ss_ext) !! a = Some x2).
        { destruct (mm_page _ _ (mg_more _ _ _ M2) a x1) as (b2 & n2 & -> & _); [by rewrite Hext, lookup_insert_eq|eauto]. }
        destruct Hx2 as [x2 Hx2]. by apply (so_entries s2 (mg_shape _ _ _ M2) a x2 q Hx2).
    + exists s'. split; [exact E1|]. destruct M1 as [A1 A2 A3 A4]. split.
      * split; [by etrans|done| |lia]. intros b y q HE Hy Hn Hq. destruct (decide (b = a)) as [->|Hne]; [by apply B1|].
        apply (A3 b y q); try done. by intros [?| ->].
      * by eapply more_marks_bit.
Qed.

(** The invariant without exceptions. *)
Definition unsync_ok (s : shadow_state) : Prop := marked_except (λ _, False) s.

Lemma unsync_bit (s : shadow_state) (a p : Z) (x : page_ext) :
  unsync_ok s → s.(ss_ext) !! a = Some x → needs_mark x → p ∈ PL a → bit_set s p.
Proof using Type. intros Hu. by apply Hu; intros []. Qed.

(** Page [b] has an entry that points to page [a]. *)
Definition parent_of (a b : Z) : Prop := ∃ p, p ∈ PL a ∧ page_header p = b.

(** A set bit is counted. *)
Lemma bit_set_counted (s : shadow_state) (p : Z) :
  shape_ok s → bit_set s p → ∃ x, s.(ss_ext) !! page_header p = Some x ∧ x.(px_unsync_children) ≠ 0.
Proof using Type.
  intros Hs (sp & x & _ & Hx & Hb). exists x. split; [done|]. destruct (so_count s Hs _ x Hx) as [_ ->].
  assert (0 < ones (px_bitmap x))%nat; [|lia]. apply ones_pos. eauto.
Qed.

(** Every page above one that is out of sync counts children out of sync. *)
Lemma unsync_reaches (s : shadow_state) (a b : Z) (x : page_ext) :
  shape_ok s → unsync_ok s → s.(ss_ext) !! a = Some x → needs_mark x → tc parent_of a b →
  ∃ y, s.(ss_ext) !! b = Some y ∧ y.(px_unsync_children) ≠ 0.
Proof using Type.
  intros Hs Hu Hx Hn Hab. revert x Hx Hn. induction Hab as [a b [p [Hp <-]]|a b c [p [Hp <-]] _ IH]; intros x Hx Hn.
  - apply bit_set_counted; [done|]. by eapply unsync_bit.
  - destruct (bit_set_counted s p Hs) as (y & Hy & Hc); [by eapply unsync_bit|]. apply (IH y Hy). by right.
Qed.

Lemma mark_parents_spec (E : Z → Prop) (a : Z) (x : page_ext) (s : shadow_state) :
  s.(ss_ext) !! a = Some x → shape_ok s → marked_except E s →
  ∃ s', vmrun_mmu_mark_parents_unsync g page_header a s = Some s' ∧ marking E s s' ∧ ∀ p, p ∈ PL a → bit_set s' p.
Proof using Type.
  intros Hx Hs Hm. apply (each_parent_spec _ E a x s Hx Hs Hm). intros s1 p M1 Hp.
  apply mark_unsync_spec; [|apply M1|apply M1|].
  - pose proof (mg_missing _ _ _ M1). pose proof (missing_fuel s). lia.
  - destruct (mm_page _ _ (mg_more _ _ _ M1) a x Hx) as (b & n & Hx1 & _).
    by apply (so_entries s1 (mg_shape _ _ _ M1) a _ p Hx1).
Qed.

(** Statistics do not matter. *)
Lemma shape_same (s s' : shadow_state) :
  s'.(ss_track) = s.(ss_track) → s'.(ss_ext) = s.(ss_ext) → shape_ok s → shape_ok s'.
Proof using Type.
  intros Ht He [S1 S2 S3]. unfold mmu in S1. split; [unfold mmu; by rewrite Ht, He| |by rewrite He].
  intros a x p. rewrite He. intros Hx Hp. destruct (S2 a x p Hx Hp) as (H1 & sp & H2).
  split; [unfold mmu; by rewrite Ht|]. exists sp. unfold mmu. by rewrite Ht, He.
Qed.

Lemma unsync_same (s s' : shadow_state) :
  s'.(ss_track) = s.(ss_track) → s'.(ss_ext) = s.(ss_ext) → unsync_ok s → unsync_ok s'.
Proof using Type.
  intros Ht He Hu a x p Hf Hx Hn Hp. rewrite He in Hx. destruct (Hu a x p Hf Hx Hn Hp) as (sp & y & H).
  exists sp, y. unfold mmu. by rewrite Ht, He.
Qed.

(** A change of a page that keeps bitmap, count and parents keeps the shape. *)
Lemma shape_upd (a : Z) (f : page_ext → page_ext) (s : shadow_state) :
  (∀ x, (f x).(px_bitmap) = x.(px_bitmap) ∧ (f x).(px_unsync_children) = x.(px_unsync_children) ∧
        (f x).(px_parents) = x.(px_parents)) →
  shape_ok s → shape_ok (upd_ext a f s).
Proof using Type.
  intros Hf [S1 S2 S3].
  assert (Hback : ∀ b y, (upd_ext a f s).(ss_ext) !! b = Some y → ∃ x, s.(ss_ext) !! b = Some x ∧
    y.(px_bitmap) = x.(px_bitmap) ∧ y.(px_unsync_children) = x.(px_unsync_children) ∧ y.(px_parents) = x.(px_parents)).
  { intros b y. cbn. destruct (decide (b = a)) as [->|Hne]; [rewrite lookup_alter_eq|rewrite lookup_alter_ne by done; eauto].
    destruct (ss_ext s !! a) as [x|]; [|done]. cbn. intros <-%(inj Some). exists x. split; [done|apply Hf]. }
  split.
  - intros b y (x & Hx & _ & _ & ->)%Hback. by apply (S1 b).
  - intros b y p (x & Hx & _)%Hback Hp. destruct (S2 b x p Hx Hp) as (H1 & sp & H2 & [z Hz] & H3).
    split; [done|]. exists sp. split; [done|]. split; [|done]. cbn.
    destruct (decide (page_header p = a)) as [<-|Hne]; [rewrite lookup_alter_eq, Hz; by eexists|].
    rewrite lookup_alter_ne by done. by eexists.
  - intros b y (x & Hx & -> & -> & _)%Hback. by apply (S3 b).
Qed.

Lemma bit_set_upd (a : Z) (f : page_ext → page_ext) (s : shadow_state) (p : Z) :
  (∀ x, (f x).(px_bitmap) = x.(px_bitmap)) → bit_set s p → bit_set (upd_ext a f s) p.
Proof using Type.
  intros Hf (sp & x & H1 & H2 & H3). exists sp. cbn. destruct (decide (page_header p = a)) as [<-|Hne].
  - exists (f x). rewrite lookup_alter_eq, H2, Hf. done.
  - exists x. by rewrite lookup_alter_ne.
Qed.
End Unsync.

(** [sp->unsync = 1], before the parents are marked. *)
Definition out_of_sync (a : Z) (s : shadow_state) : shadow_state :=
  upd_ext a (λ x, x <| px_unsync := true |>) (s <| ss_stat_unsync ::= λ n, n + 1 |>).

Lemma unsync_page_spec `{K : KvmPte} (g : shadow_masks) (page_header : Z → Z) (PL DL : Z → list Z)
    (s : shadow_state) (a : Z) (x : page_ext) :
  shape_ok g page_header PL DL s → unsync_ok page_header PL s → s.(ss_ext) !! a = Some x →
  ∃ s', vmrun_unsync_page g page_header a s = Some s' ∧ shape_ok g page_header PL DL s' ∧
    unsync_ok page_header PL s' ∧ more_marks (out_of_sync a s) s'.
Proof.
  intros Hs Hu Hx. unfold vmrun_unsync_page. set (s0 := s <| ss_stat_unsync ::= λ n, n + 1 |>).
  fold (out_of_sync a s). set (s1 := out_of_sync a s).
  assert (Hs1 : shape_ok g page_header PL DL s1) by (apply shape_upd; [done|by apply (shape_same _ _ _ _ s)]).
  assert (Hu0 : unsync_ok page_header PL s0) by (by apply (unsync_same _ _ s)).
  assert (Hx1 : s1.(ss_ext) !! a = Some (x <| px_unsync := true |>)) by (cbn; by rewrite lookup_alter_eq, Hx).
  assert (Hm1 : marked_except page_header PL (λ b, b = a) s1).
  { intros b y p Hb Hy Hn Hp. cbn in Hy. rewrite lookup_alter_ne in Hy by done.
    apply bit_set_upd; [done|]. by eapply (unsync_bit page_header PL s0 b p y). }
  destruct (mark_parents_spec g page_header PL DL _ a _ s1 Hx1 Hs1 Hm1) as (s' & E & [M1 M2 M3 _] & B).
  exists s'. split_and!; [exact E|done| |done].
  intros b y p _ Hy Hn Hp. destruct (decide (b = a)) as [->|Hne]; [by apply B|by apply (M3 b y p)].
Qed.

(** A page that goes out of sync is found from every root.  With the links
    between the shadow pages in order, [vmrun_unsync_page] ends, without
    touching an entry or a link, and keeps the invariant that a page which is
    out of sync, or lies above one, is marked in every page that points to it;
    so every page above the one that went out of sync counts a child out of
    sync, however many paths lead there and wherever the marking stopped
    early. *)
Theorem unsync_page_marks `{K : KvmPte} (g : shadow_masks) (page_header : Z → Z) (PL DL : Z → list Z)
    (s : shadow_state) (a : Z) (x : page_ext) :
  shape_ok g page_header PL DL s → unsync_ok page_header PL s → s.(ss_ext) !! a = Some x →
  ∃ s', vmrun_unsync_page g page_header a s = Some s' ∧
    shape_ok g page_header PL DL s' ∧ unsync_ok page_header PL s' ∧ s'.(ss_track) = s.(ss_track) ∧
    (∃ x', s'.(ss_ext) !! a = Some x' ∧ x'.(px_unsync) = true) ∧
    (∀ b, tc (parent_of page_header PL) a b → ∃ y, s'.(ss_ext) !! b = Some y ∧ y.(px_unsync_children) ≠ 0).
Proof.
  intros Hs Hu Hx. destruct (unsync_page_spec g page_header PL DL s a x Hs Hu Hx) as (s' & E & Hs' & Hu' & M).
  assert (Hx1 : (out_of_sync a s).(ss_ext) !! a = Some (x <| px_unsync := true |>)) by (cbn; by rewrite lookup_alter_eq, Hx).
  destruct (mm_page _ _ M a _ Hx1) as (bm & n & Hx' & _). exists s'. split_and!; [exact E|done|done| |by eexists|].
  - by rewrite (more_marks_track _ s' M).
  - intros b Hb. eapply (unsync_reaches g page_header PL DL s' a b _ Hs' Hu' Hx'); [by left|done].
Qed.

(* ------------------------------------------------------------------ *)
(** ** Linking a page *)

Section Link.
Context `{K : KvmPte} (g : shadow_masks) (page_header pa : Z → Z).

(** The links between the shadow pages: the invariant of the marks, and
    descriptors that no two pages share. *)
Record links_ok (PL DL : Z → list Z) (s : shadow_state) : Prop := {
  lk_shape : shape_ok g page_header PL DL s;
  lk_unsync : unsync_ok page_header PL s;
  lk_disjoint : ∀ a b q, a ≠ b → is_Some (s.(ss_ext) !! a) → is_Some (s.(ss_ext) !! b) → q ∈ DL a → q ∉ DL b;
  lk_cache : ∀ a, is_Some (s.(ss_ext) !! a) → cache_ok (mmu s).(dmem) (DL a)
}.

(** The value [link_shadow_page] stores. *)
Definition link_value (sp : mmu_page) (x : page_ext) : Z :=
  let spte := Z.lor (Z.lor (Z.lor (Z.lor (Z.lor (pa sp.(sp_spt)) g.(shadow_present_mask)) PT_WRITABLE_MASK)
                                  g.(shadow_user_mask)) g.(shadow_x_mask)) g.(shadow_me_mask) in
  if sp_ad_disabled x then Z.lor spte shadow_acc_track_value else Z.lor spte g.(shadow_accessed_mask).

Definition with_entry {A : Type} (f : Z → A) (a : Z) (v : A) (b : Z) : A := if decide (b = a) then v else f b.

Lemma with_entry_eq {A : Type} (f : Z → A) (a : Z) (v : A) : with_entry f a v a = v.
Proof using Type. unfold with_entry. by rewrite decide_True. Qed.

Lemma with_entry_ne {A : Type} (f : Z → A) (a b : Z) (v : A) : b ≠ a → with_entry f a v b = f b.
Proof using Type. intros Hb. unfold with_entry. by rewrite decide_False. Qed.

(** A new parent of page [a] in the descriptors [m'], head [head']. *)
Definition new_parent (a sptep v head' : Z) (m' : desc_mem) (ev : list spte_event) (s : shadow_state) : shadow_state :=
  upd_ext a (λ x, x <| px_parents := head' |>)
    (set_mmu ((mmu s) <| ptes ::= set_pte sptep v |> <| events ::= λ l, l ++ ev |> <| dmem := m' |>) s).

Lemma new_parent_ext (a sptep v head' b : Z) (m' : desc_mem) (ev : list spte_event) (s : shadow_state) (y : page_ext) :
  (new_parent a sptep v head' m' ev s).(ss_ext) !! b = Some y →
  ∃ x, s.(ss_ext) !! b = Some x ∧ y.(px_bitmap) = x.(px_bitmap) ∧ y.(px_unsync_children) = x.(px_unsync_children) ∧
       y.(px_unsync) = x.(px_unsync) ∧ y.(px_parents) = (if decide (b = a) then head' else x.(px_parents)).
Proof using Type.
  cbn. destruct (decide (b = a)) as [->|Hne]; [rewrite lookup_alter_eq|rewrite lookup_alter_ne by done].
  - destruct (ss_ext s !! a) as [x|]; [|done]. cbn. intros <-%(inj Some). by exists x.
  - intros Hy. by exists y.
Qed.

Lemma new_parent_dom (a sptep v head' b : Z) (m' : desc_mem) (ev : list spte_event) (s : shadow_state) :
  is_Some ((new_parent a sptep v head' m' ev s).(ss_ext) !! b) ↔ is_Some (s.(ss_ext) !! b).
Proof using Type.
  cbn. destruct (decide (b = a)) as [->|Hne]; [rewrite lookup_alter_eq|by rewrite lookup_alter_ne].
  destruct (ss_ext s !! a); cbn; split; by intros [].
Qed.

Lemma new_parent_bit (a sptep v head' p : Z) (m' : desc_mem) (ev : list spte_event) (s : shadow_state) :
  bit_set page_header s p → bit_set page_header (new_parent a sptep v head' m' ev s) p.
Proof using Type.
  intros (sp & x & H1 & H2 & H3). exists sp. cbn. destruct (decide (page_header p = a)) as [<-|Hne].
  - eexists. rewrite lookup_alter_eq, H2. done.
  - exists x. by rewrite lookup_alter_ne.
Qed.

Section Add.
Context (PL DL : Z → list Z) (s : shadow_state) (a sptep v head' : Z) (m' : desc_mem) (ev : list spte_event).
Context (x : page_ext) (l' ds' : list Z).
Context (Hok : links_ok PL DL s) (Hx : s.(ss_ext) !! a = Some x).
Context (Hentry : entry_of page_header s sptep) (Hfresh : ∀ b, is_Some (s.(ss_ext) !! b) → sptep ∉ PL b).
Context (Hpres : is_shadow_present_pte g v = true).
Context (Hrep : rmap_rep m'.(descs) head' ds' l') (Hl : l' ≡ₚ sptep :: PL a) (Hco : cache_ok m' ds').
Context (Hds : ds' ++ m'.(desc_cache) ≡ₚ DL a ++ (mmu s).(dmem).(desc_cache)).
Context (Hframe : ∀ p, p ∉ DL a → p ∉ (mmu s).(dmem).(desc_cache) → m'.(descs) !! p = (mmu s).(dmem).(descs) !! p).

Let s' := new_parent a sptep v head' m' ev s.
Let PL' := with_entry PL a l'.
Let DL' := with_entry DL a ds'.

(** The descriptors of another page are not touched. *)
Lemma other_descs (b q : Z) :
  b ≠ a → is_Some (s.(ss_ext) !! b) → q ∈ DL b →
  m'.(descs) !! q = (mmu s).(dmem).(descs) !! q ∧ q ∉ ds' ∧ q ∉ m'.(desc_cache).
Proof using Hok Hx Hds Hframe.
  intros Hb HbS Hq. assert (Ha : is_Some (ss_ext s !! a)) by (rewrite Hx; by eexists).
  assert (Hqa : q ∉ DL a) by (intros ?; by eapply (lk_disjoint _ _ _ Hok a b q)).
  assert (Hqc : q ∉ (mmu s).(dmem).(desc_cache)).
  { destruct (lk_cache _ _ _ Hok b HbS) as [Hnd _]. apply NoDup_app in Hnd as (_ & Hd & _). by apply Hd. }
  split; [by apply Hframe|]. assert (Hn : q ∉ ds' ++ m'.(desc_cache)) by (rewrite Hds; by intros [?|?]%elem_of_app).
  split; intros Hq'; apply Hn, elem_of_app; auto.
Qed.

Lemma add_shape : shape_ok g page_header PL' DL' s'.
Proof using Hok Hx Hentry Hfresh Hpres Hrep Hl Hds Hframe.
  destruct Hok as [[S1 S2 S3] _ _ _]. split.
  - intros b y (z & Hz & _ & _ & _ & ->)%new_parent_ext. unfold PL', DL'.
    destruct (decide (b = a)) as [->|Hne]; [by rewrite !with_entry_eq|]. rewrite !with_entry_ne by done.
    apply (rmap_rep_frame (mmu s).(dmem).(descs)); [by apply S1|]. intros q Hq. by apply (other_descs b).
  - assert (He : ∀ p, entry_of page_header s p → entry_of page_header s' p).
    { intros p (sp & H1 & H2 & H3). exists sp. split; [done|]. split; [by apply new_parent_dom|done]. }
    assert (Hold : ∀ b z p, s.(ss_ext) !! b = Some z → p ∈ PL b →
      is_shadow_present_pte g ((mmu s').(ptes) p) = true ∧ entry_of page_header s' p).
    { intros b z p Hz Hp. destruct (S2 b z p Hz Hp) as [H1 H2]. split; [|by apply He]. cbn.
      rewrite set_pte_ne; [done|]. intros ->. by eapply Hfresh. }
    intros b y p (z & Hz & _)%new_parent_ext. unfold PL'. destruct (decide (b = a)) as [->|Hne].
    + rewrite with_entry_eq, Hl. intros [->|Hp]%elem_of_cons; [|by eapply Hold].
      split; [cbn; by rewrite set_pte_eq|by apply He].
    + rewrite with_entry_ne by done. by apply Hold with (z := z).
  - intros b y (z & Hz & -> & -> & _)%new_parent_ext. by apply (S3 b).
Qed.

Lemma add_marked : marked_except page_header PL' (λ b, b = a) s'.
Proof using Hok.
  intros b y p Hb (z & Hz & _ & Hc & Hu & _)%new_parent_ext Hn. unfold PL'. rewrite with_entry_ne by done. intros Hp.
  apply new_parent_bit. eapply unsync_bit; [apply Hok|exact Hz| |done]. unfold needs_mark in *. by rewrite <- Hc, <- Hu.
Qed.

(** The marks of the old parents of [a]. *)
Lemma add_old_parents (y : page_ext) (p : Z) : s'.(ss_ext) !! a = Some y → needs_mark y → p ∈ PL a → bit_set page_header s' p.
Proof using Hok.
  intros (z & Hz & _ & Hc & Hu & _)%new_parent_ext Hn Hp. apply new_parent_bit.
  eapply unsync_bit; [apply Hok|exact Hz| |done]. unfold needs_mark in *. by rewrite <- Hc, <- Hu.
Qed.

(** The descriptors stay apart, whatever marks are added afterwards. *)
Lemma add_descs (s2 : shadow_state) :
  more_marks s' s2 →
  (∀ b c q, b ≠ c → is_Some (s2.(ss_ext) !! b) → is_Some (s2.(ss_ext) !! c) → q ∈ DL' b → q ∉ DL' c) ∧
  (∀ b, is_Some (s2.(ss_ext) !! b) → cache_ok (mmu s2).(dmem) (DL' b)).
Proof using Hok Hx Hds Hframe Hco.
  intros Hm. assert (Hdom : ∀ b, is_Some (s2.(ss_ext) !! b) → is_Some (s.(ss_ext) !! b)).
  { intros b [y Hy]. destruct (more_marks_back s' s2 b y Hm Hy) as (z & Hz & _). apply (new_parent_dom a sptep v head' b m' ev).
    by eexists. }
  assert (Hmem : (mmu s2).(dmem) = m') by (unfold mmu; by rewrite (more_marks_track s' s2 Hm)).
  split.
  - intros b c q Hbc Hb%Hdom Hc%Hdom. unfold DL'. destruct (decide (b = a)) as [->|Hba].
    + rewrite with_entry_eq, with_entry_ne by done. intros Hq Hqc. by destruct (other_descs c q) as (_ & ? & _).
    + rewrite with_entry_ne by done. intros Hq. destruct (decide (c = a)) as [->|Hca].
      * rewrite with_entry_eq. by apply (other_descs b q).
      * rewrite with_entry_ne by done. by eapply (lk_disjoint _ _ _ Hok b c).
  - intros b Hb%Hdom. rewrite Hmem. unfold DL'. destruct (decide (b = a)) as [->|Hne]; [by rewrite with_entry_eq|].
    rewrite with_entry_ne by done. destruct Hco as [Hn1 Hz]. destruct (lk_cache _ _ _ Hok b Hb) as [Hn2 _].
    split; [|exact Hz]. apply NoDup_app in Hn1 as (_ & _ & Hn1). apply NoDup_app in Hn2 as (Hn2 & _ & _).
    apply NoDup_app. split_and!; [done| |done]. intros q Hq. by apply (other_descs b q).
Qed.
End Add.
End Link.

(** Linking a shadow page.  [link_shadow_page] stores an entry that points
    to the page, adds the entry to the page's parents, changes nothing else in
    the tables, and keeps the links in order: when the page is out of sync, or
    above one that is, the new parent and every page above it are marked. *)
Theorem link_shadow_page_correct `{K : KvmPte} (g : shadow_masks) (page_header pa : Z → Z) (PL DL : Z → list Z)
    (s : shadow_state) (sptep a : Z) (sp : mmu_page) (x : page_ext) :
  links_ok g page_header PL DL s → s.(ss_ext) !! a = Some x → (mmu s).(pages) !! a = Some sp →
  is_ptr sptep → entry_of page_header s sptep → (∀ b, is_Some (s.(ss_ext) !! b) → sptep ∉ PL b) →
  is_shadow_present_pte g (link_value g pa sp x) = true → (mmu s).(dmem).(desc_cache) ≠ [] →
  ∃ s' PL' DL', link_shadow_page g page_header pa sptep a s = Some s' ∧ links_ok g page_header PL' DL' s' ∧
    PL' a ≡ₚ sptep :: PL a ∧ (∀ b, b ≠ a → PL' b = PL b) ∧
    (mmu s').(ptes) sptep = link_value g pa sp x ∧ (∀ p, p ≠ sptep → (mmu s').(ptes) p = (mmu s).(ptes) p) ∧
    (mmu s').(pages) = (mmu s).(pages) ∧ (mmu s').(heads) = (mmu s).(heads).
Proof.
  intros Hok Hx Hsp Hptr Hentry Hfresh Hpres Hcache. set (v := link_value g pa sp x).
  destruct (pte_list_add_spec sptep x.(px_parents) (mmu s).(dmem) (DL a) (PL a) Hptr
              (so_parents _ _ _ _ s (lk_shape _ _ _ _ _ Hok) a x Hx) (lk_cache _ _ _ _ _ Hok a ltac:(by eexists)) Hcache)
    as (n & head' & m' & Eadd & [(ds' & l' & Hrep & Hl & Hco & Hds) Hframe]).
  set (ev := (mmu_spte_set g ((mmu s).(ptes) sptep) v).2). set (s1 := new_parent a sptep v head' m' ev s).
  assert (Hx1 : s1.(ss_ext) !! a = Some (x <| px_parents := head' |>)) by (cbn; by rewrite lookup_alter_eq, Hx).
  assert (E1 : link_shadow_page g page_header pa sptep a s =
    if truth x.(px_unsync_children) || x.(px_unsync) then mark_unsync g page_header (mark_fuel s1) sptep s1 else Some s1).
  { unfold link_shadow_page. rewrite Hsp. cbn [mbind option_bind]. rewrite Hx. cbn [mbind option_bind].
    fold (link_value g pa sp x) v. unfold mmu_spte_set. unfold mmu_page_add_parent_pte.
    rewrite (truth_nonzero sptep) by apply Hptr. cbn [negb].
    match goal with |- context [ss_ext (set_mmu ?m s) !! a] => change (ss_ext (set_mmu m s)) with (ss_ext s) end. rewrite Hx.
    cbn [mbind option_bind].
    match goal with |- context [pte_list_add sptep ?h ?m] => change m with (mmu s).(dmem) end.
    rewrite Eadd. cbn [mbind option_bind]. fold (mmu s).
    match goal with |- context [mark_unsync g page_header (mark_fuel ?st) sptep ?st] => change st with s1 end.
    rewrite Hx1. done. }
  pose proof (add_shape g page_header PL DL s a sptep v head' m' ev x l' ds' Hok Hx Hentry Hfresh Hpres Hrep Hl Hds Hframe)
    as Hshape. fold s1 in Hshape.
  pose proof (add_marked g page_header PL DL s a sptep v head' m' ev l' Hok) as Hmarked. fold s1 in Hmarked.
  assert (Hfin : ∃ s2, link_shadow_page g page_header pa sptep a s = Some s2 ∧ more_marks s1 s2 ∧
    shape_ok g page_header (with_entry PL a l') (with_entry DL a ds') s2 ∧ unsync_ok page_header (with_entry PL a l') s2).
  { rewrite E1. destruct (truth (px_unsync_children x) || px_unsync x) eqn:En.
    - destruct (mark_unsync_spec g page_header (with_entry PL a l') (with_entry DL a ds') (mark_fuel s1) (λ b, b = a) s1 sptep)
        as (s2 & E2 & [M1 M2 M3 _] & B).
      { apply missing_fuel. } { done. } { done. }
      { destruct Hentry as (sp' & H1 & H2 & H3). exists sp'. split; [done|]. split; [by apply new_parent_dom|done]. }
      exists s2. split_and!; try done. intros b y p _ Hy Hn Hp. destruct (decide (b = a)) as [->|Hne].
      + rewrite with_entry_eq, Hl in Hp. apply elem_of_cons in Hp as [->|Hp]; [done|].
        eapply more_marks_bit; [exact M1|]. eapply (add_old_parents g page_header PL DL s a); [done|exact Hx1| |done].
        apply orb_true_iff in En as [En|En]; [right|left; done]. unfold truth in En. cbn.
        by apply negb_true_iff, Z.eqb_neq in En.
      + by apply (M3 b y p).
    - exists s1. split_and!; [done|apply more_marks_refl|done|]. intros b y p _ Hy Hn Hp. destruct (decide (b = a)) as [->|Hne].
      + rewrite Hx1 in Hy. injection Hy as <-. apply orb_false_iff in En as [En1 En2]. apply truth_false in En1.
        destruct Hn as [Hn|Hn]; cbn in Hn; congruence.
      + by apply (Hmarked b y p). }
  destruct Hfin as (s2 & E2 & M & Hs2 & Hu2).
  destruct (add_descs g page_header PL DL s a sptep v head' m' ev x ds' Hok Hx Hco Hds Hframe s2 M) as [Hd1 Hd2].
  exists s2, (with_entry PL a l'), (with_entry DL a ds'). pose proof (more_marks_track s1 s2 M) as Ht.
  split; [exact E2|]. split; [by split|]. rewrite with_entry_eq. split; [done|].
  split; [intros b Hb; by rewrite with_entry_ne|]. unfold mmu. rewrite Ht. cbn.
  split; [apply set_pte_eq|]. split; [|done]. intros p Hp. by apply set_pte_ne.
Qed.

(* ------------------------------------------------------------------ *)
(** ** An example: a root, a directory and a leaf *)

Definition tree_page (a level : Z) : mmu_page :=
  {| sp_spt := 0x1000 * a; sp_gfn := 0; sp_gfns := []; role_level := level; role_direct := true; role_smm := false |}.
Definition tree_role : page_role :=
  {| role_cr4_pae := true; role_access := 7; role_quadrant := 0; role_ad_disabled := false; role_other := 0 |}.
Definition tree_ext (parents : Z) (unsync : bool) : page_ext :=
  {| px_unsync := unsync; px_unsync_children := 0; px_bitmap := replicate 512 false; px_parents := parents;
     px_root_count := 0; px_invalid := false; px_valid_gen := 0; px_flooding := 0; px_role := tree_role |}.

(** The leaf, page 3, is linked below page 2 or, out of sync, still apart. *)
Definition tree_state (linked : bool) : shadow_state :=
  {| ss_track := {| tk_heap := start_heap []; tk_warns := 0; indirect_shadow_pages := 0; tk_mmu :=
       {| ptes := λ p, if p =? 0x1000 then 0x2007 else if (p =? 0x2000) && linked then 0x3007 else 0;
          heads := ∅; dmem := {| descs := {[ 0x10 := zero_desc ]}; desc_cache := [0x10] |};
          pages := {[ 1 := tree_page 1 3; 2 := tree_page 2 2; 3 := tree_page 3 1 ]};
          events := []; stat_lpages := 0; remote_flushes := 0 |} |};
     ss_ext := {[ 1 := tree_ext 0 false; 2 := tree_ext 0x1000 false;
                  3 := tree_ext (if linked then 0x2000 else 0) (negb linked) ]};
     ss_active := [1; 2; 3]; ss_hash := ∅; ss_used := 3; ss_max := 64; ss_valid_gen := 0; ss_stat_unsync := 0;
     ss_stat_zapped := 0; ss_reloads := 0; ss_warns := 0 |}.
Definition tree_header (p : Z) : Z := p / 0x1000.
Definition tree_parents (linked : bool) (a : Z) : list Z :=
  if a =? 2 then [0x1000] else if (a =? 3) && linked then [0x2000] else [].

Lemma tree_pages (linked : bool) (a : Z) (x : page_ext) :
  (tree_state linked).(ss_ext) !! a = Some x →
  (a = 1 ∧ x = tree_ext 0 false) ∨ (a = 2 ∧ x = tree_ext 0x1000 false) ∨
  (a = 3 ∧ x = tree_ext (if linked then 0x2000 else 0) (negb linked)).
Proof.
  unfold tree_state. cbn [ss_ext].
  intros [[<- <-]|[? [[<- <-]|[? [<- <-]%lookup_singleton_Some]]%lookup_insert_Some]]%lookup_insert_Some; auto.
Qed.

Lemma tree_shape (linked : bool) :
  shape_ok x86_masks tree_header (tree_parents linked) (λ _, []) (tree_state linked).
Proof.
  split.
  - intros a x [[-> ->]|[[-> ->]|[-> ->]]]%tree_pages; [apply rep_none|by apply rep_one|].
    destruct linked; [by apply rep_one|apply rep_none].
  - intros a x p [[-> ->]|[[-> ->]|[-> ->]]]%tree_pages; destruct linked; cbn -[entry_of tree_state]; intros Hp;
      try (by apply elem_of_nil in Hp); apply list_elem_of_singleton in Hp as ->;
      (split; [reflexivity|]); [exists (tree_page 1 3)|exists (tree_page 1 3)|exists (tree_page 2 2)];
      (split; [reflexivity|]; split; [by eexists|by apply (bool_decide_unpack _)]).
  - intros a x Hx. assert (∃ p u, x = tree_ext p u) as (p & u & ->).
    { apply tree_pages in Hx as [[_ ->]|[[_ ->]|[_ ->]]]; by eexists _, _. }
    split; reflexivity.
Qed.

Lemma tree_unsync (linked : bool) : unsync_ok tree_header (tree_parents linked) (tree_state linked).
Proof.
  intros a x p _ [[-> ->]|[[-> ->]|[-> ->]]]%tree_pages [Hn|Hn]; cbn in Hn; try done.
  destruct linked; [done|]. cbn. by intros ?%elem_of_nil.
Qed.

(** Page 3 goes out of sync: the root, two levels up, counts a child. *)
Lemma unsync_page_marks_witness :
  ∃ s', vmrun_unsync_page x86_masks tree_header 3 (tree_state true) = Some s' ∧
        ∃ y, s'.(ss_ext) !! 1 = Some y ∧ y.(px_unsync_children) ≠ 0.
Proof.
  destruct (unsync_page_marks (K := kvm_pte_x86) x86_masks tree_header (tree_parents true) (λ _, []) (tree_state true) 3
              (tree_ext 0x2000 false) (tree_shape true) (tree_unsync true) eq_refl)
    as (s' & E & _ & _ & _ & _ & H).
  exists s'. split; [exact E|]. apply H. eapply tc_l; [|apply tc_once].
  - exists 0x2000. split; [by left|reflexivity].
  - exists 0x1000. split; [by left|reflexivity].
Defined.

(** Page 3, out of sync, is linked by the first entry of page 2. *)
Lemma link_shadow_page_correct_witness :
  ∃ s' PL' DL', link_shadow_page (K := kvm_pte_x86) x86_masks tree_header (λ p, p) 0x2000 3 (tree_state false) = Some s' ∧
    links_ok x86_masks tree_header PL' DL' s' ∧ PL' 3 ≡ₚ [0x2000].
Proof.
  destruct (link_shadow_page_correct (K := kvm_pte_x86) x86_masks tree_header (λ p, p) (tree_parents false) (λ _, [])
              (tree_state false) 0x2000 3 (tree_page 3 1) (tree_ext 0 true)) as (s' & PL' & DL' & E & H & HP & _).
  - split; [apply tree_shape|apply tree_unsync|by intros ? ? ? ? ? ? ?%elem_of_nil|].
    intros a _. split; [by apply (bool_decide_unpack _)|]. intros p ->%list_elem_of_singleton. split; done.
  - reflexivity.
  - reflexivity.
  - split; [by apply (bool_decide_unpack _)|done|reflexivity].
  - exists (tree_page 2 2). split; [reflexivity|]. split; [by eexists|by apply (bool_decide_unpack _)].
  - intros b [x [[-> _]|[[-> _]|[-> _]]]%tree_pages]; cbn; [apply not_elem_of_nil| |apply not_elem_of_nil].
    by intros ?%list_elem_of_singleton.
  - reflexivity.
  - discriminate.
  - exists s', PL', DL'. split; [exact E|]. split; [exact H|exact HP].
Defined.
