(* ===== verification/MmuInv.v ===== *)
(** * The invariant of the shadow page tables

    Two kinds of lists record who maps what: the reverse map of a guest frame
    has the leaf entries that map it, the parents of a shadow page have the
    entries that point to it.  Both are lists of PteList in one store of
    descriptors.  The invariant: every present entry of a shadow page is in
    exactly the list it belongs to, by its value; a list holds nothing else;
    no entry points to a page that does not exist; no two lists share a
    descriptor.

    The lemmas say what the primitive steps do to it: an entry is added to a
    list or taken out of one, and its value changes to match. *)

From S2P Require Import Prelude.
From S2P Require Import Spte.
From S2P Require Import SpteTrack.
From S2P Require Import Memslots.
From S2P Require Import MemRegion.
From S2P Require Import MemRegionProps.
From S2P Require Import PteList.
From S2P Require Import PteListProps.
From S2P Require Import Rmap.
From S2P Require Import RmapProps.
From S2P Require Import PageTrack.
From S2P Require Import ShadowPage.
From S2P Require Import ShadowPageProps.

(** Who keeps a list: the reverse map of a frame, or a shadow page. *)
Inductive owner := Rm (k : rmap_key) | Pg (a : Z).
#[export] Instance owner_eq_dec : EqDecision owner.
Proof. solve_decision. Defined.

Definition owner_head (s : shadow_state) (o : owner) : Z :=
  match o with Rm k => head_of k (mmu s) | Pg a => from_option px_parents 0 (s.(ss_ext) !! a) end.

Definition owner_live (s : shadow_state) (o : owner) : Prop :=
  match o with Rm _ => True | Pg a => is_Some (s.(ss_ext) !! a) end.

(** A list with its new head and the store after the change. *)
Definition put_list (o : owner) (h : Z) (m : desc_mem) (s : shadow_state) : shadow_state :=
  match o with
  | Rm k => set_mmu ((mmu s) <| heads ::= <[k := h]> |> <| dmem := m |>) s
  | Pg a => upd_ext a (λ x, x <| px_parents := h |>) (set_mmu ((mmu s) <| dmem := m |>) s)
  end.

Definition upd_owner {A : Type} (f : owner → A) (o : owner) (v : A) (o' : owner) : A := if decide (o' = o) then v else f o'.

Lemma upd_owner_eq {A : Type} (f : owner → A) (o : owner) (v : A) : upd_owner f o v o = v.
Proof. unfold upd_owner. by rewrite decide_True. Qed.

Lemma upd_owner_ne {A : Type} (f : owner → A) (o o' : owner) (v : A) : o' ≠ o → upd_owner f o v o' = f o'.
Proof. intros H. unfold upd_owner. by rewrite decide_False. Qed.

(* ------------------------------------------------------------------ *)
(** ** The lists *)

Record lists_ok (LL DD : owner → list Z) (s : shadow_state) : Prop := {
  lo_rep : ∀ o, owner_live s o → rmap_rep (mmu s).(dmem).(descs) (owner_head s o) (DD o) (LL o);
  lo_disjoint : ∀ o o' q, o ≠ o' → owner_live s o → owner_live s o' → q ∈ DD o → q ∉ DD o';
  lo_cache : ∀ o, owner_live s o → cache_ok (mmu s).(dmem) (DD o)
}.

(** What the lists depend on. *)
Lemma lists_same (LL DD : owner → list Z) (s s' : shadow_state) :
  lists_ok LL DD s → (mmu s').(dmem) = (mmu s).(dmem) →
  (∀ o, owner_live s' o → owner_live s o ∧ owner_head s' o = owner_head s o) → lists_ok LL DD s'.
Proof.
  intros [L1 L2 L3] Hm Ho. split.
  - intros o Hl. destruct (Ho o Hl) as [? ->]. rewrite Hm. by apply L1.
  - intros o o' q Hne Hl Hl'. apply L2; [done|by apply Ho|by apply Ho].
  - intros o Hl. rewrite Hm. apply L3. by apply Ho.
Qed.

Lemma put_live (o o' : owner) (h : Z) (m : desc_mem) (s : shadow_state) :
  owner_live (put_list o h m s) o' ↔ owner_live s o'.
Proof.
  destruct o as [k|a], o' as [k'|b]; try done. cbn. destruct (decide (b = a)) as [->|Hne].
  - rewrite lookup_alter_eq. destruct (ss_ext s !! a); cbn; split; by intros [].
  - by rewrite lookup_alter_ne.
Qed.

Lemma put_head_eq (o : owner) (h : Z) (m : desc_mem) (s : shadow_state) :
  owner_live s o → owner_head (put_list o h m s) o = h.
Proof.
  destruct o as [k|a]; cbn.
  - intros _. unfold head_of. cbn. by rewrite lookup_insert_eq.
  - intros [x Hx]. by rewrite lookup_alter_eq, Hx.
Qed.

Lemma put_head_ne (o o' : owner) (h : Z) (m : desc_mem) (s : shadow_state) :
  o' ≠ o → owner_head (put_list o h m s) o' = owner_head s o'.
Proof.
  destruct o as [k|a], o' as [k'|b]; cbn; intros Hne; try done.
  - unfold head_of. cbn. rewrite lookup_insert_ne; [done|congruence].
  - rewrite lookup_alter_ne; [done|congruence].
Qed.

Lemma put_dmem (o : owner) (h : Z) (m : desc_mem) (s : shadow_state) : (mmu (put_list o h m s)).(dmem) = m.
Proof. by destruct o. Qed.

Section Lists.
Context (LL DD : owner → list Z) (s : shadow_state) (Hok : lists_ok LL DD s) (o : owner) (Ho : owner_live s o).

(** The list of [o] and the store change; the descriptors of the others do not. *)
Lemma lists_put (h : Z) (m' : desc_mem) (l' ds' : list Z) :
  rmap_rep m'.(descs) h ds' l' → cache_ok m' ds' →
  (∀ q, q ∈ ds' ++ m'.(desc_cache) → q ∈ DD o ++ (mmu s).(dmem).(desc_cache)) →
  (∀ q, q ∉ DD o → q ∉ (mmu s).(dmem).(desc_cache) → m'.(descs) !! q = (mmu s).(dmem).(descs) !! q) →
  lists_ok (upd_owner LL o l') (upd_owner DD o ds') (put_list o h m' s).
Proof using Hok Ho.
  intros Hrep Hco Hsub Hframe.
  assert (Hother : ∀ o' q, o' ≠ o → owner_live s o' → q ∈ DD o' →
    q ∉ DD o ∧ q ∉ (mmu s).(dmem).(desc_cache) ∧ q ∉ ds' ∧ q ∉ m'.(desc_cache)).
  { intros o' q Hne Hl Hq. assert (H1 : q ∉ DD o) by (by apply (lo_disjoint _ _ _ Hok o' o)).
    assert (H2 : q ∉ (mmu s).(dmem).(desc_cache)).
    { destruct (lo_cache _ _ _ Hok o' Hl) as [Hn _]. apply NoDup_app in Hn as (_ & Hd & _). by apply Hd. }
    assert (H3 : q ∉ ds' ++ m'.(desc_cache)) by (by intros [?|?]%Hsub%elem_of_app).
    split_and!; [done|done| |]; intros Hc; apply H3, elem_of_app; auto. }
  split.
  - intros o' Hl%put_live. rewrite put_dmem. destruct (decide (o' = o)) as [->|Hne].
    + by rewrite put_head_eq, !upd_owner_eq.
    + rewrite put_head_ne, !upd_owner_ne by done. eapply rmap_rep_frame; [by apply (lo_rep _ _ _ Hok)|].
      intros q Hq. destruct (Hother o' q Hne Hl Hq) as (? & ? & _). by apply Hframe.
  - intros o1 o2 q Hne H1%put_live H2%put_live. destruct (decide (o1 = o)) as [->|Hn1].
    + rewrite upd_owner_eq, upd_owner_ne by done. intros Hq Hq2.
      by destruct (Hother o2 q) as (_ & _ & ? & _).
    + rewrite upd_owner_ne by done. intros Hq. destruct (decide (o2 = o)) as [->|Hn2].
      * rewrite upd_owner_eq. by apply (Hother o1 q).
      * rewrite upd_owner_ne by done. by apply (lo_disjoint _ _ _ Hok o1 o2).
  - intros o' Hl%put_live. rewrite put_dmem. destruct (decide (o' = o)) as [->|Hne]; [by rewrite upd_owner_eq|].
    rewrite upd_owner_ne by done. destruct Hco as [Hn Hz]. split; [|done].
    destruct (lo_cache _ _ _ Hok o' Hl) as [Hn' _]. apply NoDup_app in Hn' as (Hn' & _ & _).
    apply NoDup_app in Hn as (_ & _ & Hn). apply NoDup_app. split_and!; [done| |done].
    intros q Hq. by apply (Hother o' q).
Qed.

Lemma lists_add (p : Z) :
  is_ptr p → (mmu s).(dmem).(desc_cache) ≠ [] →
  ∃ n h m' l' ds', pte_list_add p (owner_head s o) (mmu s).(dmem) = Some (n, h, m') ∧ l' ≡ₚ p :: LL o ∧
    lists_ok (upd_owner LL o l') (upd_owner DD o ds') (put_list o h m' s).
Proof using Hok Ho.
  intros Hp Hc.
  destruct (pte_list_add_spec p _ _ _ _ Hp (lo_rep _ _ _ Hok o Ho) (lo_cache _ _ _ Hok o Ho) Hc)
    as (n & h & m' & E & [(ds' & l' & Hrep & Hl & Hco & Hds) Hframe]).
  exists n, h, m', l', ds'. split; [done|]. split; [done|]. apply lists_put; [done|done| |done].
  intros q. by rewrite Hds.
Qed.

Lemma lists_remove (p : Z) :
  p ∈ LL o →
  ∃ h m' l' ds', pte_list_remove p (owner_head s o) (mmu s).(dmem) = Some (h, m') ∧ LL o ≡ₚ p :: l' ∧
    m'.(desc_cache) = (mmu s).(dmem).(desc_cache) ∧
    lists_ok (upd_owner LL o l') (upd_owner DD o ds') (put_list o h m' s).
Proof using Hok Ho.
  intros Hp. destruct (pte_list_remove_spec p _ _ _ _ (lo_rep _ _ _ Hok o Ho) Hp)
    as (h & m' & E & [(ds' & freed & l' & Hrep & Hl & Hds & _) Hframe Hcache]).
  exists h, m', l', ds'. split; [done|]. split; [done|]. split; [done|].
  assert (Hsub : ∀ q, q ∈ ds' → q ∈ DD o) by (intros q Hq; rewrite Hds; apply elem_of_app; by right).
  destruct (lo_cache _ _ _ Hok o Ho) as [Hn Hz]. apply NoDup_app in Hn as (Hn1 & Hn2 & Hn3).
  apply lists_put; [done| | |].
  - split.
    + rewrite Hcache. apply NoDup_app. split_and!; [|intros q Hq; by apply Hn2, Hsub|done].
      rewrite Hds in Hn1. by apply NoDup_app in Hn1 as (_ & _ & ?).
    + intros q Hq. rewrite Hcache in Hq. destruct (Hz q Hq) as [? <-]. split; [done|]. apply Hframe.
      intros Hd. by apply (Hn2 q).
  - intros q. rewrite Hcache, !elem_of_app. intros [?|?]; auto.
  - intros q Hq _. by apply Hframe.
Qed.
End Lists.

(** Adding takes at most one descriptor from the cache. *)
Lemma alloc_desc_tail (m m' : desc_mem) (q : Z) :
  mmu_alloc_pte_list_desc m = Some (q, m') → m'.(desc_cache) = tail m.(desc_cache).
Proof.
  unfold mmu_alloc_pte_list_desc, mmu_memory_cache_alloc. destruct m as [ds [|r c]]; [done|]. cbn. by intros [= _ <-].
Qed.

Lemma pte_list_add_cache (p head n h : Z) (m m' : desc_mem) :
  pte_list_add p head m = Some (n, h, m') →
  m'.(desc_cache) = m.(desc_cache) ∨ m'.(desc_cache) = tail m.(desc_cache).
Proof.
  unfold pte_list_add. destruct (negb (truth head)); [intros [= _ _ <-]; by left|].
  destruct (negb (truth (Z.land head 1))).
  - destruct (mmu_alloc_pte_list_desc m) as [[q m1]|] eqn:Ea; [|done]. cbn [mbind option_bind].
    destruct (descs m1 !! q); [|done]. intros [= _ _ <-]. right. by apply alloc_desc_tail in Ea.
  - destruct (add_walk _ _ _ _) as [[q c]|]; [|done]. cbn [mbind option_bind].
    destruct (descs m !! q) as [d|]; [|done]. cbn [mbind option_bind]. destruct (truth _).
    + destruct (mmu_alloc_pte_list_desc m) as [[r m1]|] eqn:Ea; [|done]. cbn [mbind option_bind].
      destruct (_ !! r); [|done]. cbn [mbind option_bind]. destruct (first_null _); [|done].
      intros [= _ _ <-]. right. by apply alloc_desc_tail in Ea.
    + cbn [mbind option_bind]. destruct (descs m !! q); [|done]. cbn [mbind option_bind].
      destruct (first_null _); [|done]. intros [= _ _ <-]. by left.
Qed.

(* ------------------------------------------------------------------ *)
(** ** The entries *)

Section Entries.
Context `{K : KvmPte} (g : shadow_masks) (page_header page_of : Z → Z)
        (gfn_to_memslot : bool → Z → vmrun_memory_slot).

(** [p] is the address of one of the entries of the page. *)
Definition entry_in (sp : mmu_page) (p : Z) : bool :=
  (sp.(sp_spt) <=? p) && (p <? sp.(sp_spt) + 8 * PT64_ENT_PER_PAGE) && ((p - sp.(sp_spt)) mod 8 =? 0).

(** The list a leaf value at [p] belongs to, and any present value. *)
Definition value_owner (s : shadow_state) (sp : mmu_page) (p v : Z) : option owner :=
  if negb (is_shadow_present_pte g v) then None
  else if is_last_spte v sp.(role_level) then Rm <$> spte_key page_header gfn_to_memslot (mmu s) p
  else Some (Pg (page_of (Z.land v PT64_BASE_ADDR_MASK))).

Definition owner_of (s : shadow_state) (p : Z) : option owner :=
  sp ← (mmu s).(pages) !! page_header p;
  if entry_in sp p then value_owner s sp p ((mmu s).(ptes) p) else None.

(** A shadow page is where its entries say: [page_header] leads back to it. *)
Record page_ok (a : Z) (sp : mmu_page) : Prop := {
  po_spt : is_ptr sp.(sp_spt) ∧ sp.(sp_spt) + 8 * PT64_ENT_PER_PAGE <= 2 ^ 64;
  po_header : ∀ p, entry_in sp p = true → page_header p = a;
  po_gfns : sp.(role_direct) = false → length sp.(sp_gfns) = Z.to_nat PT64_ENT_PER_PAGE
}.

Record entries_ok (LL : owner → list Z) (s : shadow_state) : Prop := {
  en_pages : ∀ a sp, (mmu s).(pages) !! a = Some sp → page_ok a sp;
  en_dom : ∀ a, is_Some ((mmu s).(pages) !! a) ↔ is_Some (s.(ss_ext) !! a);
  en_member : ∀ o p, owner_live s o → (p ∈ LL o ↔ owner_of s p = Some o);
  en_live : ∀ o p, owner_of s p = Some o → owner_live s o;
  en_nodup : ∀ o, owner_live s o → NoDup (LL o)
}.

Lemma entry_index (sp : mmu_page) (p : Z) :
  entry_in sp p = true → 0 <= spte_index sp p < PT64_ENT_PER_PAGE ∧ p = sp.(sp_spt) + 8 * spte_index sp p.
Proof using Type.
  unfold entry_in, spte_index. rewrite !andb_true_iff. intros [[H1%Z.leb_le H2%Z.ltb_lt] H3%Z.eqb_eq].
  pose proof (Z.div_mod (p - sp_spt sp) 8 ltac:(lia)). lia.
Qed.

Lemma entry_at (sp : mmu_page) (i : Z) : 0 <= i < PT64_ENT_PER_PAGE → entry_in sp (sp.(sp_spt) + 8 * i) = true.
Proof using Type.
  intros Hi. unfold entry_in. rewrite !andb_true_iff, Z.leb_le, Z.ltb_lt, Z.eqb_eq. split_and!; [lia|lia|].
  replace (sp_spt sp + 8 * i - sp_spt sp) with (i * 8) by lia. apply Z.mod_mul. lia.
Qed.

Lemma entry_ptr (a : Z) (sp : mmu_page) (p : Z) : page_ok a sp → entry_in sp p = true → is_ptr p.
Proof using Type.
  intros [[[H1 H2 H3] H4] _ _] Hp. destruct (entry_index sp p Hp) as [Hi ->]. unfold is_u in *. split.
  - unfold is_u. lia.
  - lia.
  - rewrite Z.even_add, H3. by rewrite Z.even_mul.
Qed.

(** A key exists for every entry of a good page. *)
Lemma key_exists (s : shadow_state) (sp : mmu_page) (a p : Z) :
  (mmu s).(pages) !! a = Some sp → page_header p = a → page_ok a sp → entry_in sp p = true →
  is_Some (spte_key page_header gfn_to_memslot (mmu s) p).
Proof using Type.
  intros Hsp <- Hok Hp. unfold spte_key. rewrite Hsp. cbn [mbind option_bind].
  unfold vmrun_mmu_page_get_gfn. destruct (role_direct sp) eqn:Ed; cbn [negb]; [by eexists|].
  destruct (lookup_lt_is_Some_2 sp.(sp_gfns) (Z.to_nat (spte_index sp p))) as [gfn ->]; [|by eexists].
  rewrite (po_gfns _ _ Hok Ed). destruct (entry_index sp p Hp). lia.
Qed.

(** The owner of an entry of a known page. *)
Lemma owner_at (s : shadow_state) (sp : mmu_page) (a p : Z) :
  (mmu s).(pages) !! a = Some sp → page_header p = a → entry_in sp p = true →
  owner_of s p = value_owner s sp p ((mmu s).(ptes) p).
Proof using Type. intros Hsp <- Hp. unfold owner_of. rewrite Hsp. cbn. by rewrite Hp. Qed.

Lemma owner_elim (s : shadow_state) (p : Z) (o : owner) :
  owner_of s p = Some o → ∃ sp, (mmu s).(pages) !! page_header p = Some sp ∧ entry_in sp p = true ∧
    is_shadow_present_pte g ((mmu s).(ptes) p) = true ∧ value_owner s sp p ((mmu s).(ptes) p) = Some o.
Proof using Type.
  unfold owner_of. destruct (pages (mmu s) !! page_header p) as [sp|]; [|done]. cbn.
  destruct (entry_in sp p) eqn:Hp; [|done]. intros Hv. exists sp. split_and!; try done.
  unfold value_owner in Hv. by destruct (is_shadow_present_pte g _).
Qed.

(** What the entries depend on. *)
Record same_entries (s s' : shadow_state) : Prop := {
  se_ptes : ∀ p, (mmu s').(ptes) p = (mmu s).(ptes) p;
  se_pages : (mmu s').(pages) = (mmu s).(pages);
  se_live : ∀ a, is_Some (s'.(ss_ext) !! a) ↔ is_Some (s.(ss_ext) !! a)
}.

Lemma owner_of_same (s s' : shadow_state) (p : Z) :
  (mmu s').(ptes) p = (mmu s).(ptes) p → (mmu s').(pages) = (mmu s).(pages) → owner_of s' p = owner_of s p.
Proof using Type. intros H1 H2. unfold owner_of, value_owner, spte_key. by rewrite H1, H2. Qed.

Lemma entries_same (LL : owner → list Z) (s s' : shadow_state) :
  same_entries s s' → entries_ok LL s → entries_ok LL s'.
Proof using Type.
  intros [S1 S2 S3] [E1 E2 E3 E4 E5].
  assert (Ho : ∀ p, owner_of s' p = owner_of s p) by (intros p; by apply owner_of_same).
  assert (Hl : ∀ o, owner_live s' o ↔ owner_live s o) by (intros [k|a]; [done|apply S3]).
  split.
  - rewrite S2. done.
  - intros a. rewrite S2, S3. apply E2.
  - intros o p Hlive. rewrite Ho. apply E3. by apply Hl.
  - intros o p. rewrite Ho. intros H%E4. by apply Hl.
  - intros o Hlive. apply E5. by apply Hl.
Qed.

(** One entry changes: the lists change at that entry, and nowhere else. *)
Lemma entries_change (LL LL' : owner → list Z) (s s' : shadow_state) (p : Z) :
  entries_ok LL s →
  (∀ a sp, (mmu s').(pages) !! a = Some sp → page_ok a sp) →
  (∀ a, is_Some ((mmu s').(pages) !! a) ↔ is_Some ((mmu s).(pages) !! a)) →
  (∀ a, is_Some (s'.(ss_ext) !! a) ↔ is_Some (s.(ss_ext) !! a)) →
  (∀ q, q ≠ p → owner_of s' q = owner_of s q) →
  (∀ o q, owner_live s o → q ≠ p → (q ∈ LL' o ↔ q ∈ LL o)) →
  (∀ o, owner_live s o → (p ∈ LL' o ↔ owner_of s' p = Some o)) →
  (∀ o, owner_of s' p = Some o → owner_live s o) →
  (∀ o, owner_live s o → NoDup (LL' o)) →
  entries_ok LL' s'.
Proof using Type.
  intros [E1 E2 E3 E4 E5] Hpg Hdom Hlv Hother Hq Hp Hpl Hnd.
  assert (Hl : ∀ o, owner_live s' o ↔ owner_live s o) by (intros [k|a]; [done|apply Hlv]).
  split.
  - done.
  - intros a. rewrite Hdom, Hlv. apply E2.
  - intros o q Hlive%Hl. destruct (decide (q = p)) as [->|Hne]; [by apply Hp|]. rewrite Hother, Hq by done. by apply E3.
  - intros o q Ho. apply Hl. destruct (decide (q = p)) as [->|Hne]; [by apply Hpl|].
    rewrite Hother in Ho by done. by eapply E4.
  - intros o Hlive%Hl. by apply Hnd.
Qed.
End Entries.

(** Entries keep their value or are cleared; the pages are as they were. *)
Record only_clears (st st' : mmu_state) : Prop := {
  oc_ptes : ∀ p, st'.(ptes) p = st.(ptes) p ∨ st'.(ptes) p = 0;
  oc_pages : st'.(pages) = st.(pages)
}.

#[export] Instance only_clears_refl : Reflexive only_clears.
Proof. intros st. split; [by left|done]. Qed.

#[export] Instance only_clears_trans : Transitive only_clears.
Proof.
  intros s1 s2 s3 [A1 A2] [B1 B2]. split; [|by rewrite B2]. intros p. destruct (B1 p) as [->| ->]; [apply A1|by right].
Qed.

(* ------------------------------------------------------------------ *)
(** ** The whole invariant *)

Section Shadow.
Context `{K : KvmPte} (g : shadow_masks) (page_header page_of : Z → Z)
        (gfn_to_memslot : bool → Z → vmrun_memory_slot).

Notation owner_of := (owner_of g page_header page_of gfn_to_memslot).
Notation value_owner := (value_owner g page_header page_of gfn_to_memslot).
Notation entries_ok := (entries_ok g page_header page_of gfn_to_memslot).

(** The lists, the entries, and the marks of the pages out of sync. *)
Record shadow_ok (LL DD : owner → list Z) (s : shadow_state) : Prop := {
  sk_lists : lists_ok LL DD s;
  sk_entries : entries_ok LL s;
  sk_counts : ∀ a x, s.(ss_ext) !! a = Some x →
    length x.(px_bitmap) = Z.to_nat PT64_ENT_PER_PAGE ∧ x.(px_unsync_children) = Z.of_nat (ones x.(px_bitmap));
  sk_unsync : unsync_ok page_header (λ a, LL (Pg a)) s
}.

Lemma owner_entry (LL : owner → list Z) (s : shadow_state) (p : Z) (o : owner) :
  entries_ok LL s → owner_of s p = Some o → entry_of page_header s p.
Proof using Type.
  intros Hok Ho. destruct (owner_elim _ _ _ _ s p o Ho) as (sp & Hsp & Hp & _). exists sp.
  split; [done|]. split; [|by apply entry_index]. apply (en_dom _ _ _ _ _ _ Hok). by eexists.
Qed.

Lemma shadow_shape (LL DD : owner → list Z) (s : shadow_state) :
  lists_ok LL DD s → entries_ok LL s →
  (∀ a x, s.(ss_ext) !! a = Some x →
    length x.(px_bitmap) = Z.to_nat PT64_ENT_PER_PAGE ∧ x.(px_unsync_children) = Z.of_nat (ones x.(px_bitmap))) →
  shape_ok g page_header (λ a, LL (Pg a)) (λ a, DD (Pg a)) s.
Proof using Type.
  intros HL HE HC. split; [| |done].
  - intros a x Hx. pose proof (lo_rep _ _ _ HL (Pg a)) as Hr. cbn in Hr. rewrite Hx in Hr. cbn in Hr. apply Hr. by eexists.
  - intros a x p Hx Hp. apply (en_member _ _ _ _ _ _ HE (Pg a) p) in Hp; [|by eexists].
    split; [by destruct (owner_elim _ _ _ _ s p _ Hp) as (? & _ & _ & ? & _)|by eapply owner_entry].
Qed.

(** Nothing the invariant depends on changes. *)
Record same_tables (s s' : shadow_state) : Prop := {
  st_ptes : ∀ p, (mmu s').(ptes) p = (mmu s).(ptes) p;
  st_pages : (mmu s').(pages) = (mmu s).(pages);
  st_heads : (mmu s').(heads) = (mmu s).(heads);
  st_dmem : (mmu s').(dmem) = (mmu s).(dmem);
  st_ext : s'.(ss_ext) = s.(ss_ext)
}.

Lemma same_tables_refl (s : shadow_state) : same_tables s s.
Proof using Type. done. Qed.

Lemma shadow_same (LL DD : owner → list Z) (s s' : shadow_state) :
  same_tables s s' → shadow_ok LL DD s → shadow_ok LL DD s'.
Proof using Type.
  intros [H1 H2 H3 H4 H5] [L E C U]. split.
  - apply (lists_same LL DD s); [done|done|]. intros o Hl. destruct o as [k|a]; cbn in *; unfold head_of; by rewrite ?H3, ?H5 in *.
  - apply (entries_same _ _ _ _ LL s); [|done]. split; [done|done|]. by rewrite H5.
  - by rewrite H5.
  - intros a x p Ha Hx Hn Hp. rewrite H5 in Hx. destruct (U a x p Ha Hx Hn Hp) as (sp & y & Hs & Hy & Hb).
    exists sp, y. by rewrite H2, H5.
Qed.

(** Marks of pages out of sync are set. *)
Lemma shadow_marks (LL DD : owner → list Z) (s s' : shadow_state) :
  lists_ok LL DD s → entries_ok LL s → more_marks s s' →
  shape_ok g page_header (λ a, LL (Pg a)) (λ a, DD (Pg a)) s' → unsync_ok page_header (λ a, LL (Pg a)) s' →
  shadow_ok LL DD s'.
Proof using Type.
  intros L E M S U. pose proof (more_marks_track s s' M) as Ht. split; [| |apply S|done].
  - apply (lists_same LL DD s); [done|unfold mmu; by rewrite Ht|]. intros [k|a]; cbn.
    + intros _. split; [done|]. unfold mmu. by rewrite Ht.
    + intros [x' Hx']. destruct (more_marks_back s s' a x' M Hx') as (x & Hx & Hp & _). rewrite Hx', Hx. cbn. eauto.
  - apply (entries_same _ _ _ _ LL s); [|done]. split; [by unfold mmu; rewrite Ht|by unfold mmu; rewrite Ht|].
    intros a. split.
    + intros [x' Hx']. destruct (more_marks_back s s' a x' M Hx') as (x & Hx & _). by eexists.
    + intros [x Hx]. destruct (mm_page _ _ M a x Hx) as (b & n & -> & _). by eexists.
Qed.

(** ** Dropping entries *)

(** The entries [P] are cleared; everything but the tables and the lists is as
    it was. *)
Record dropped (P : Z → Prop) (s s' : shadow_state) : Prop := {
  dr_in : ∀ p, P p → (mmu s').(ptes) p = 0;
  dr_out : ∀ p, ¬ P p → (mmu s').(ptes) p = (mmu s).(ptes) p;
  dr_pages : (mmu s').(pages) = (mmu s).(pages);
  dr_cache : (mmu s').(dmem).(desc_cache) = (mmu s).(dmem).(desc_cache);
  dr_ext : ∀ a, s'.(ss_ext) !! a = (λ x, x <| px_parents := from_option px_parents 0 (s'.(ss_ext) !! a) |>) <$> s.(ss_ext) !! a;
  dr_track : s'.(ss_track) = s.(ss_track) <| tk_mmu := mmu s' |>;
  dr_rest : s' = s <| ss_track := s'.(ss_track) |> <| ss_ext := s'.(ss_ext) |>
}.

Lemma dropped_refl (s : shadow_state) : dropped (λ _, False) s s.
Proof using Type.
  split; try done. intros a. destruct (ss_ext s !! a) as [x|]; [|done]. by destruct x.
Qed.

Lemma dropped_trans (P Q : Z → Prop) (s1 s2 s3 : shadow_state) :
  (∀ p, P p ∨ ¬ P p) → (∀ p, Q p ∨ ¬ Q p) →
  dropped P s1 s2 → dropped Q s2 s3 → dropped (λ p, P p ∨ Q p) s1 s3.
Proof using Type.
  intros HP HQ [A1 A2 A3 A4 A5 A6 A7] [B1 B2 B3 B4 B5 B6 B7]. split.
  - intros p Hp. destruct (HQ p) as [?|Hq]; [by apply B1|]. rewrite B2 by done. apply A1. by destruct Hp.
  - intros p Hp. rewrite B2, A2; [done| |]; intros ?; apply Hp; auto.
  - by rewrite B3.
  - by rewrite B4.
  - intros a. specialize (B5 a). specialize (A5 a). destruct (ss_ext s1 !! a) as [x|]; cbn in *.
    + rewrite A5 in B5. cbn in B5. rewrite B5. done.
    + by rewrite A5 in B5.
  - rewrite B6, A6. done.
  - rewrite B7, A7. done.
Qed.

Lemma dropped_iff (P Q : Z → Prop) (s s' : shadow_state) : (∀ p, P p ↔ Q p) → dropped P s s' → dropped Q s s'.
Proof using Type.
  intros H [A1 A2 A3 A4 A5 A6 A7]. split; try done.
  - intros p Hp%H. by apply A1.
  - intros p Hp. apply A2. by rewrite H.
Qed.

Lemma dropped_live (P : Z → Prop) (s s' : shadow_state) (a : Z) :
  dropped P s s' → is_Some (s'.(ss_ext) !! a) ↔ is_Some (s.(ss_ext) !! a).
Proof using Type. intros [_ _ _ _ A5 _ _]. rewrite A5. apply fmap_is_Some. Qed.

Lemma dropped_back (P : Z → Prop) (s s' : shadow_state) (a : Z) (x' : page_ext) :
  dropped P s s' → s'.(ss_ext) !! a = Some x' →
  ∃ x, s.(ss_ext) !! a = Some x ∧ x' = x <| px_parents := x'.(px_parents) |>.
Proof using Type.
  intros [_ _ _ _ A5 _ _] Hx. specialize (A5 a). rewrite Hx in A5. cbn in A5.
  destruct (ss_ext s !! a) as [x|]; [|done]. cbn in A5. injection A5 as ->. by exists x.
Qed.

(** Marks survive a drop. *)
Lemma dropped_unsync (LL LL' : owner → list Z) (P : Z → Prop) (s s' : shadow_state) :
  dropped P s s' → (∀ a p, is_Some (s.(ss_ext) !! a) → p ∈ LL' (Pg a) → p ∈ LL (Pg a)) →
  unsync_ok page_header (λ a, LL (Pg a)) s → unsync_ok page_header (λ a, LL' (Pg a)) s'.
Proof using Type.
  intros D Hsub U a x' p _ Hx' Hn Hp. destruct (dropped_back P s s' a x' D Hx') as (x & Hx & Ex).
  destruct (U a x p) as (sp & y & Hs & Hy & Hb); [by intros []|done| |apply Hsub; [by eexists|done]|].
  { unfold needs_mark in *. by rewrite Ex in Hn. }
  pose proof (dr_ext _ _ _ D (page_header p)) as E. rewrite Hy in E. cbn in E.
  eexists sp, _. rewrite (dr_pages _ _ _ D). split; [done|]. split; [exact E|done].
Qed.

Lemma dropped_counts (P : Z → Prop) (s s' : shadow_state) :
  dropped P s s' →
  (∀ a x, s.(ss_ext) !! a = Some x →
    length x.(px_bitmap) = Z.to_nat PT64_ENT_PER_PAGE ∧ x.(px_unsync_children) = Z.of_nat (ones x.(px_bitmap))) →
  ∀ a x, s'.(ss_ext) !! a = Some x →
    length x.(px_bitmap) = Z.to_nat PT64_ENT_PER_PAGE ∧ x.(px_unsync_children) = Z.of_nat (ones x.(px_bitmap)).
Proof using Type.
  intros D H a x' Hx'. destruct (dropped_back P s s' a x' D Hx') as (x & Hx & E). rewrite E. exact (H a x Hx).
Qed.

(** One entry leaves its list and is cleared. *)
Lemma drop_one (LL DD : owner → list Z) (s s' : shadow_state) (p h : Z) (m' : desc_mem) (o : owner) (l' ds' : list Z) :
  shadow_ok LL DD s → owner_of s p = Some o → LL o ≡ₚ p :: l' →
  lists_ok (upd_owner LL o l') (upd_owner DD o ds') (put_list o h m' s) →
  dropped (λ q, q = p) s s' → (mmu s').(dmem) = m' →
  (∀ o', owner_live s o' → owner_head s' o' = owner_head (put_list o h m' s) o') →
  shadow_ok (upd_owner LL o l') (upd_owner DD o ds') s'.
Proof using Type.
  intros [L E C U] Ho Hl HL D Hm Hh.
  pose proof (en_live _ _ _ _ _ _ E o p Ho) as Hlive. pose proof (en_nodup _ _ _ _ _ _ E o Hlive) as Hnd.
  rewrite Hl in Hnd. apply NoDup_cons in Hnd as [Hpl Hnd].
  assert (Hmem : ∀ o' q, q ≠ p → q ∈ upd_owner LL o l' o' ↔ q ∈ LL o').
  { intros o' q Hq. destruct (decide (o' = o)) as [->|Hne]; [|by rewrite upd_owner_ne].
    rewrite upd_owner_eq, Hl, elem_of_cons. split; [by right|by intros [?|?]]. }
  assert (Hpn : ∀ o', owner_live s o' → p ∉ upd_owner LL o l' o').
  { intros o' Hl'. destruct (decide (o' = o)) as [->|Hne]; [by rewrite upd_owner_eq|]. rewrite upd_owner_ne by done.
    rewrite (en_member _ _ _ _ _ _ E o' p Hl'). congruence. }
  assert (H0 : owner_of s' p = None).
  { destruct (owner_of s' p) as [o'|] eqn:E'; [|done]. destruct (owner_elim _ _ _ _ s' p o' E') as (_ & _ & _ & Hpr & _).
    rewrite (dr_in _ _ _ D p eq_refl) in Hpr. done. }
  split.
  - apply (lists_same _ _ _ s' HL); [by rewrite put_dmem|]. intros o' Hlo.
    assert (Hso : owner_live s o') by (destruct o'; [done|by apply (dropped_live _ _ _ _ D)]).
    split; [by apply put_live|by apply Hh].
  - apply (entries_change _ _ _ _ LL _ s s' p E).
    + rewrite (dr_pages _ _ _ D). apply E.
    + intros a. by rewrite (dr_pages _ _ _ D).
    + intros a. by apply (dropped_live _ _ _ _ D).
    + intros q Hq. apply owner_of_same; [by apply (dr_out _ _ _ D)|apply (dr_pages _ _ _ D)].
    + intros o' q _. apply Hmem.
    + intros o' Hl'. rewrite H0. split; [|done]. intros Hin. by destruct (Hpn o' Hl').
    + intros o'. by rewrite H0.
    + intros o' Hl'. destruct (decide (o' = o)) as [->|Hne]; [by rewrite upd_owner_eq|]. rewrite upd_owner_ne by done.
      by apply (en_nodup _ _ _ _ _ _ E).
  - by eapply dropped_counts.
  - eapply dropped_unsync; [exact D| |exact U]. intros a q Ha Hq. apply (Hmem (Pg a) q); [|done].
    intros ->. by apply (Hpn (Pg a)).
Qed.

Lemma value_leaf (s : shadow_state) (sp : mmu_page) (p v : Z) (k : rmap_key) :
  value_owner s sp p v = Some (Rm k) →
  is_last_spte v sp.(role_level) = true ∧ spte_key page_header gfn_to_memslot (mmu s) p = Some k.
Proof using Type.
  unfold MmuInv.value_owner. destruct (negb _); [done|]. destruct (is_last_spte _ _); [|done].
  destruct (spte_key _ _ _ _); [|done]. cbn. intros [= ->]. done.
Qed.

Lemma value_table (s : shadow_state) (sp : mmu_page) (p v a : Z) :
  value_owner s sp p v = Some (Pg a) →
  is_last_spte v sp.(role_level) = false ∧ page_of (Z.land v PT64_BASE_ADDR_MASK) = a.
Proof using Type.
  unfold MmuInv.value_owner. destruct (negb _); [done|]. destruct (is_last_spte _ _).
  - by destruct (spte_key _ _ _ _).
  - intros [= ->]. done.
Qed.

(** An entry whose value is replaced by 0 while its list changes. *)
Lemma dropped_put (s : shadow_state) (st : mmu_state) (p h : Z) (m' : desc_mem) (o : owner) :
  m'.(desc_cache) = (mmu s).(dmem).(desc_cache) → st.(ptes) = set_pte p 0 (mmu s).(ptes) → st.(pages) = (mmu s).(pages) →
  dropped (λ q, q = p) s (put_list o h m' (set_mmu st s)).
Proof using Type.
  intros Hc Hp Hg. destruct o as [k|a]; split; try done; cbn; rewrite ?Hp.
  - intros q ->. apply set_pte_eq.
  - intros q Hq. by apply set_pte_ne.
  - intros b. destruct (ss_ext s !! b) as [x|]; [|done]. by destruct x.
  - intros q ->. apply set_pte_eq.
  - intros q Hq. by apply set_pte_ne.
  - intros b. destruct (decide (b = a)) as [->|Hne].
    + rewrite lookup_alter_eq. by destruct (ss_ext s !! a).
    + rewrite lookup_alter_ne by done. destruct (ss_ext s !! b) as [x|]; [|done]. by destruct x.
Qed.

Lemma put_head_after (s : shadow_state) (st : mmu_state) (h : Z) (m' : desc_mem) (o o' : owner) :
  st.(heads) = (mmu s).(heads) →
  owner_head (put_list o h m' (set_mmu st s)) o' = owner_head (put_list o h m' s) o'.
Proof using Type. intros Hh. destruct o, o'; try done; cbn; unfold head_of; cbn; by rewrite Hh. Qed.

(** Dropping a leaf entry. *)
Lemma drop_spte_ok (LL DD : owner → list Z) (s : shadow_state) (p : Z) (k : rmap_key) :
  shadow_ok LL DD s → owner_of s p = Some (Rm k) →
  ∃ st' l' ds', drop_spte g page_header gfn_to_memslot p (mmu s) = Some st' ∧ LL (Rm k) ≡ₚ p :: l' ∧
    shadow_ok (upd_owner LL (Rm k) l') (upd_owner DD (Rm k) ds') (set_mmu st' s) ∧
    dropped (λ q, q = p) s (set_mmu st' s).
Proof using Type.
  intros Hok Ho. pose proof (proj2 (en_member _ _ _ _ _ _ (sk_entries _ _ _ Hok) (Rm k) p I) Ho) as Hin.
  destruct (owner_elim _ _ _ _ s p _ Ho) as (sp & Hsp & Hp & Hpr & Hv). destruct (value_leaf s sp p _ k Hv) as [_ Hk].
  destruct (lists_remove LL DD s (sk_lists _ _ _ Hok) (Rm k) I p Hin) as (h & m' & l' & ds' & Er & Hl & Hc & HL).
  cbn [owner_head] in Er.
  set (ev := (mmu_spte_clear_track_bits g ((mmu s).(ptes) p) ((mmu s).(ptes) p)).2).
  set (st := (mmu s) <| ptes ::= set_pte p 0 |> <| events ::= λ l, l ++ ev |>).
  set (s' := put_list (Rm k) h m' (set_mmu st s)).
  exists (mmu s'), l', ds'.
  assert (E : drop_spte g page_header gfn_to_memslot p (mmu s) = Some (mmu s')).
  { unfold drop_spte, mmu_spte_clear_track_bits.
    assert (Hd : (if negb (spte_has_volatile_bits g (ptes (mmu s) p)) then ptes (mmu s) p else ptes (mmu s) p) = ptes (mmu s) p)
      by by destruct (negb _).
    rewrite Hd, Hpr. cbn [negb]. change (truth 1) with true. cbv iota zeta.
    rewrite (rmap_remove_key page_header gfn_to_memslot _ p k) by exact Hk.
    match goal with |- context [head_of k ?st] => change (head_of k st) with (head_of k (mmu s)) end.
    match goal with |- context [pte_list_remove p _ ?d] => change d with (dmem (mmu s)) end.
    rewrite Er. cbn [mbind option_bind]. unfold s', st, ev, mmu_spte_clear_track_bits. rewrite Hd, Hpr. done. }
  split; [exact E|]. split; [done|].
  assert (Es : set_mmu (mmu s') s = s') by done. rewrite Es.
  assert (D : dropped (λ q, q = p) s s') by by apply dropped_put. split; [|done].
  by apply (drop_one LL DD s s' p h m' (Rm k)).
Qed.

(** Dropping an entry that points to a page. *)
Lemma drop_parent_ok (LL DD : owner → list Z) (s : shadow_state) (p a : Z) :
  shadow_ok LL DD s → owner_of s p = Some (Pg a) →
  ∃ s' l' ds', drop_parent_pte a p s = Some s' ∧ LL (Pg a) ≡ₚ p :: l' ∧
    shadow_ok (upd_owner LL (Pg a) l') (upd_owner DD (Pg a) ds') s' ∧ dropped (λ q, q = p) s s'.
Proof using Type.
  intros Hok Ho. pose proof (en_live _ _ _ _ _ _ (sk_entries _ _ _ Hok) (Pg a) p Ho) as Hlive.
  pose proof (proj2 (en_member _ _ _ _ _ _ (sk_entries _ _ _ Hok) (Pg a) p Hlive) Ho) as Hin.
  destruct (lists_remove LL DD s (sk_lists _ _ _ Hok) (Pg a) Hlive p Hin) as (h & m' & l' & ds' & Er & Hl & Hc & HL).
  cbn [owner_head] in Er. destruct Hlive as [x Hx].
  set (s' := put_list (Pg a) h m' (set_mmu ((mmu s) <| ptes ::= set_pte p 0 |>) s)). exists s', l', ds'.
  split; [|split; [done|]].
  { assert (E : pte_list_remove p x.(px_parents) (mmu s).(dmem) = Some (h, m')) by (rewrite Hx in Er; exact Er).
    unfold drop_parent_pte, mmu_page_remove_parent_pte. rewrite Hx. cbn [mbind option_bind]. by rewrite E. }
  assert (D : dropped (λ q, q = p) s s') by by apply dropped_put. split; [|done].
  by apply (drop_one LL DD s s' p h m' (Pg a)).
Qed.

(** ** Emptying a list *)

Lemma shadow_ext (LL LL' DD DD' : owner → list Z) (s : shadow_state) :
  (∀ o, LL' o = LL o) → (∀ o, DD' o = DD o) → shadow_ok LL DD s → shadow_ok LL' DD' s.
Proof using Type.
  intros HL HD [[L1 L2 L3] [E1 E2 E3 E4 E5] C U]. split; [split|split| |]; try done.
  - intros o Ho. rewrite HL, HD. by apply L1.
  - intros o o' q. rewrite !HD. apply L2.
  - intros o Ho. rewrite HD. by apply L3.
  - intros o p Ho. rewrite HL. by apply E3.
  - intros o Ho. rewrite HL. by apply E5.
  - intros a x p Ha Hx Hn. rewrite HL. by apply (U a x p).
Qed.

Lemma upd_owner_twice {A : Type} (f : owner → A) (o o' : owner) (u v : A) :
  upd_owner f o v o' = upd_owner (upd_owner f o u) o v o'.
Proof using Type. unfold upd_owner. by destruct (decide _). Qed.

(** The first entry of a list. *)
Lemma first_entry (LL DD : owner → list Z) (s : shadow_state) (o : owner) :
  shadow_ok LL DD s → owner_live s o →
  ∃ iter, rmap_get_first (mmu s).(dmem) (λ p, is_shadow_present_pte g ((mmu s).(ptes) p)) (owner_head s o)
          = Some (default 0 (hd_error (LL o)), iter) ∧
    (∀ p, p ∈ LL o → is_ptr p ∧ owner_of s p = Some o).
Proof using Type.
  intros Hok Ho. pose proof (en_member _ _ _ _ _ _ (sk_entries _ _ _ Hok) o) as Hm.
  destruct (get_first_spec (mmu s).(dmem) (λ p, is_shadow_present_pte g ((mmu s).(ptes) p)) _ _ _
              (lo_rep _ _ _ (sk_lists _ _ _ Hok) o Ho)) as (iter & E & Hp).
  { intros p Hp%Hm; [|done]. by destruct (owner_elim _ _ _ _ s p o Hp) as (_ & _ & _ & ? & _). }
  exists iter. split; [done|]. intros p Hin. split; [by apply Hp|by apply Hm].
Qed.

Lemma zap_loop_ok (fuel : nat) (LL DD : owner → list Z) (s : shadow_state) (k : rmap_key) (flush : bool) :
  shadow_ok LL DD s → (length (LL (Rm k)) < fuel)%nat →
  ∃ st' ds', zap_loop g page_header gfn_to_memslot fuel k flush (mmu s)
             = Some (st', flush || negb (bool_decide (LL (Rm k) = []))) ∧
    shadow_ok (upd_owner LL (Rm k) []) (upd_owner DD (Rm k) ds') (set_mmu st' s) ∧
    dropped (λ p, p ∈ LL (Rm k)) s (set_mmu st' s).
Proof using Type.
  revert LL DD s flush. induction fuel as [|fuel IH]; intros LL DD s flush Hok Hf; [lia|].
  destruct (first_entry LL DD s (Rm k) Hok I) as (iter & E & Hp). cbn [zap_loop]. cbn [owner_head] in E. rewrite E.
  cbn [mbind option_bind]. destruct (LL (Rm k)) as [|p l] eqn:El.
  - exists (mmu s), (DD (Rm k)). rewrite bool_decide_eq_true_2, orb_false_r by done. split; [done|].
    assert (Es : set_mmu (mmu s) s = s) by by destruct s as [[] ? ? ? ? ? ? ? ? ? ?]. rewrite Es. split.
    + apply (shadow_ext LL _ DD); [|intros o|done].
      * intros o. unfold upd_owner. by destruct (decide (o = Rm k)) as [->|].
      * unfold upd_owner. by destruct (decide (o = Rm k)) as [->|].
    + eapply dropped_iff; [|apply dropped_refl]. intros p. split; [done|]. by intros ?%elem_of_nil.
  - destruct (Hp p ltac:(by left)) as [Hptr Ho]. change (default 0 (hd_error (p :: l))) with p.
    rewrite (truth_nonzero p) by apply Hptr. cbn [negb]. destruct (drop_spte_ok LL DD s p k Hok Ho) as (st1 & l' & ds' & -> & Hl & Hok1 & D1). cbn [mbind option_bind].
    rewrite El in Hl. pose proof (Permutation_length Hl) as Hlen. cbn [length] in Hlen, Hf.
    destruct (IH _ _ (set_mmu st1 s) true Hok1) as (st' & ds'' & E' & Hok' & D'); [rewrite upd_owner_eq; lia|].
    change (mmu (set_mmu st1 s)) with st1 in E'. rewrite E'. exists st', ds''. split; [by rewrite orb_true_r|].
    rewrite upd_owner_eq in D'. split.
    + apply (shadow_ext _ _ _ _ _) with (3 := Hok'); intros o; apply upd_owner_twice.
    + apply (dropped_iff (λ q, q = p ∨ q ∈ l')); [intros q; rewrite Hl, elem_of_cons; done|].
      apply (dropped_trans _ _ s (set_mmu st1 s)); [intros q; destruct (decide (q = p)); auto| |done|done].
      intros q. destruct (decide (q ∈ l')); auto.
Qed.

Lemma zap_rmapp_ok (LL DD : owner → list Z) (s : shadow_state) (k : rmap_key) :
  shadow_ok LL DD s →
  ∃ st' ds', vmrun_zap_rmapp g page_header gfn_to_memslot k (mmu s)
             = Some (st', negb (bool_decide (LL (Rm k) = []))) ∧
    shadow_ok (upd_owner LL (Rm k) []) (upd_owner DD (Rm k) ds') (set_mmu st' s) ∧
    dropped (λ p, p ∈ LL (Rm k)) s (set_mmu st' s).
Proof using Type.
  intros Hok. apply (zap_loop_ok _ LL DD s k false Hok).
  pose proof (rep_length _ _ _ _ (lo_rep _ _ _ (sk_lists _ _ _ Hok) (Rm k) I)). lia.
Qed.

(** ** A new leaf entry *)

(** [*p = v]; everything else of the tables as it was. *)
Record stored (p v : Z) (s s' : shadow_state) : Prop := {
  so_ptes : (mmu s').(ptes) = set_pte p v (mmu s).(ptes);
  so_pages : (mmu s').(pages) = (mmu s).(pages);
  so_heads : (mmu s').(heads) = (mmu s).(heads);
  so_dmem : (mmu s').(dmem) = (mmu s).(dmem);
  so_ext : s'.(ss_ext) = s.(ss_ext)
}.

(** A value that belongs to the same list. *)
Lemma store_same_owner (LL DD : owner → list Z) (s s' : shadow_state) (p v : Z) :
  shadow_ok LL DD s → stored p v s s' → owner_of s' p = owner_of s p → shadow_ok LL DD s'.
Proof using Type.
  intros [L E C U] [S1 S2 S3 S4 S5] Ho.
  assert (Hlv : ∀ a, is_Some (ss_ext s' !! a) ↔ is_Some (ss_ext s !! a)) by (intros a; by rewrite S5).
  split.
  - apply (lists_same LL DD s s' L S4). intros [k|a]; cbn; unfold head_of; by rewrite ?S3, ?S5.
  - apply (entries_change _ _ _ _ LL LL s s' p E); try done.
    + rewrite S2. apply E.
    + by rewrite S2.
    + intros q Hq. apply owner_of_same; [|done]. rewrite S1. by apply set_pte_ne.
    + intros o Hl. rewrite Ho. by apply (en_member _ _ _ _ _ _ E).
    + intros o. rewrite Ho. apply (en_live _ _ _ _ _ _ E).
    + apply (en_nodup _ _ _ _ _ _ E).
  - by rewrite S5.
  - intros a x q Ha. rewrite S5. intros Hx Hn Hq. destruct (U a x q Ha Hx Hn Hq) as (sp & y & Hs & Hy & Hb).
    exists sp, y. by rewrite S2, S5.
Qed.

(** [vmrun_mmu_page_set_gfn] on an entry of the page. *)
Lemma set_gfn_spec (sp : mmu_page) (a p gfn : Z) :
  page_ok page_header a sp → entry_in sp p = true →
  (sp.(role_direct) = true → vmrun_mmu_page_get_gfn sp (spte_index sp p) = Some gfn) →
  ∃ sp', vmrun_mmu_page_set_gfn sp (spte_index sp p) gfn = Some sp' ∧ page_ok page_header a sp' ∧
    sp'.(sp_spt) = sp.(sp_spt) ∧ sp'.(role_level) = sp.(role_level) ∧ sp'.(role_smm) = sp.(role_smm) ∧
    vmrun_mmu_page_get_gfn sp' (spte_index sp p) = Some gfn ∧
    (∀ q, entry_in sp q = true → q ≠ p →
      vmrun_mmu_page_get_gfn sp' (spte_index sp q) = vmrun_mmu_page_get_gfn sp (spte_index sp q)).
Proof using Type.
  intros Hok Hp Hd. destruct (entry_index sp p Hp) as [Hi Ep]. unfold vmrun_mmu_page_set_gfn.
  destruct (role_direct sp) eqn:Ed.
  - rewrite (Hd eq_refl). cbn [mbind option_bind]. rewrite Z.eqb_refl. exists sp. split_and!; try done. by apply Hd.
  - eexists. split; [reflexivity|]. pose proof (po_gfns _ _ _ Hok Ed) as Hlen. split.
    { destruct Hok as [H1 H2 H3]. split; [done|exact H2|]. intros _. cbn. by rewrite length_insert. }
    split_and!; try done.
    + unfold vmrun_mmu_page_get_gfn. cbn. rewrite Ed. cbn. apply list_lookup_insert_eq. rewrite Hlen. lia.
    + intros q Hq Hne. unfold vmrun_mmu_page_get_gfn. cbn. rewrite Ed. cbn. destruct (entry_index sp q Hq) as [Hj Eq].
      apply list_lookup_insert_ne. intros Hc. apply Hne. rewrite Ep, Eq. lia.
Qed.

(** [rmap_add] after the entry was written: [s] is the state before. *)
Lemma rmap_add_ok (LL DD : owner → list Z) (s s1 : shadow_state) (sp : mmu_page) (p v gfn : Z) :
  shadow_ok LL DD s → stored p v s s1 → (mmu s).(pages) !! page_header p = Some sp → entry_in sp p = true →
  owner_of s p = None → is_shadow_present_pte g v = true → is_last_spte v sp.(role_level) = true →
  (sp.(role_direct) = true → vmrun_mmu_page_get_gfn sp (spte_index sp p) = Some gfn) →
  (mmu s).(dmem).(desc_cache) ≠ [] →
  let k := gfn_to_rmap gfn_to_memslot gfn sp in
  ∃ n sp' h m' l' ds',
    let st' := (mmu s1) <| pages ::= <[page_header p := sp']> |> <| heads ::= <[k := h]> |> <| dmem := m' |> in
    rmap_add page_header gfn_to_memslot p gfn (mmu s1) = Some (n, st') ∧ l' ≡ₚ p :: LL (Rm k) ∧
    shadow_ok (upd_owner LL (Rm k) l') (upd_owner DD (Rm k) ds') (set_mmu st' s1) ∧
    vmrun_mmu_page_set_gfn sp (spte_index sp p) gfn = Some sp' ∧
    owner_of (set_mmu st' s1) p = Some (Rm k) ∧
    (m'.(desc_cache) = (mmu s).(dmem).(desc_cache) ∨ m'.(desc_cache) = tail (mmu s).(dmem).(desc_cache)).
Proof using Type.
  intros [L E C U] [S1 S2 S3 S4 S5] Hsp Hp Hno Hpr Hlast Hd Hcache k.
  pose proof (en_pages _ _ _ _ _ _ E _ _ Hsp) as Hpg.
  destruct (set_gfn_spec sp (page_header p) p gfn Hpg Hp Hd) as (sp' & Eset & Hpg' & Hspt & Hlv & Hsmm & Hget & Hother).
  destruct (lists_add LL DD s L (Rm k) I p (entry_ptr _ _ _ _ Hpg Hp) Hcache) as (n & h & m' & l' & ds' & Ea & Hl & HL).
  exists n, sp', h, m', l', ds'. set (st' := _ <| dmem := m' |>).
  assert (Ek : gfn_to_rmap gfn_to_memslot gfn sp' = k) by (unfold k, gfn_to_rmap; by rewrite Hlv, Hsmm).
  assert (Hin : ∀ q, entry_in sp' q = entry_in sp q) by (intros q; unfold entry_in; by rewrite Hspt).
  assert (Hidx : ∀ q, spte_index sp' q = spte_index sp q) by (intros q; unfold spte_index; by rewrite Hspt).
  assert (Hpages : ∀ b, pages (mmu (set_mmu st' s1)) !! b = if decide (b = page_header p) then Some sp' else pages (mmu s) !! b).
  { intros b. cbn. rewrite S2. destruct (decide (b = page_header p)) as [->|Hne]; [apply lookup_insert_eq|by apply lookup_insert_ne]. }
  assert (Hownp : owner_of (set_mmu st' s1) p = Some (Rm k)).
  { unfold MmuInv.owner_of, MmuInv.value_owner, spte_key. rewrite Hpages, decide_True by done. cbn [mbind option_bind].
    rewrite Hin, Hp. cbn. rewrite S1, set_pte_eq, Hpr, Hlv, Hlast, Hidx, Hget. cbn. by rewrite Ek. }
  assert (Hownq : ∀ q, q ≠ p → owner_of (set_mmu st' s1) q = owner_of s q).
  { intros q Hq. unfold MmuInv.owner_of, MmuInv.value_owner, spte_key. rewrite Hpages. destruct (decide (page_header q = page_header p)) as [Hh|Hh].
    - rewrite Hh, Hsp. cbn [mbind option_bind]. rewrite Hin. destruct (entry_in sp q) eqn:Hqi; [|done]. cbn.
      rewrite S1, set_pte_ne by done. rewrite Hlv, Hidx, (Hother q Hqi Hq). cbn.
      unfold gfn_to_rmap. by rewrite Hlv, Hsmm.
    - cbn. by rewrite S1, set_pte_ne. }
  split.
  { unfold rmap_add. rewrite S2, Hsp. cbn [mbind option_bind]. rewrite Eset. cbn [mbind option_bind]. rewrite Ek.
    match goal with |- context [head_of k ?st] => replace (head_of k st) with (owner_head s (Rm k))
      by (cbn; unfold head_of; cbn; by rewrite S3) end.
    match goal with |- context [pte_list_add p _ ?d] => change d with (dmem (mmu s1)) end. rewrite S4, Ea. cbn [mbind option_bind]. unfold st'. by rewrite <- S2. }
  split; [done|]. split; [|split; [done|split; [done|by eapply pte_list_add_cache]]].
  assert (Hmem : ∀ o q, q ≠ p → q ∈ upd_owner LL (Rm k) l' o ↔ q ∈ LL o).
  { intros o q Hq. destruct (decide (o = Rm k)) as [->|Hne]; [|by rewrite upd_owner_ne].
    rewrite upd_owner_eq, Hl, elem_of_cons. split; [by intros [?|?]|by right]. }
  assert (Hpn : ∀ o, owner_live s o → p ∉ LL o).
  { intros o Ho. rewrite (en_member _ _ _ _ _ _ E o p Ho). congruence. }
  split.
  - apply (lists_same _ _ _ _ HL); [by rewrite put_dmem|]. intros [k'|b]; cbn; rewrite ?S5; [|done].
    intros _. split; [done|]. unfold head_of. cbn. by rewrite S3.
  - apply (entries_change _ _ _ _ LL _ s _ p E).
    + intros b spb. rewrite Hpages. destruct (decide _) as [->|]; [by intros [= <-]|apply E].
    + intros b. rewrite Hpages. destruct (decide _) as [->|]; [|done]. rewrite Hsp. done.
    + intros b. cbn. by rewrite S5.
    + exact Hownq.
    + intros o q _. apply Hmem.
    + intros o Ho. rewrite Hownp. destruct (decide (o = Rm k)) as [->|Hne].
      * rewrite upd_owner_eq, Hl. split; [done|]. intros _. by left.
      * rewrite upd_owner_ne by done. split; [|congruence]. intros Hx. by destruct (Hpn o Ho).
    + intros o. rewrite Hownp. by intros [= <-].
    + intros o Ho. destruct (decide (o = Rm k)) as [->|Hne].
      * rewrite upd_owner_eq, Hl. apply NoDup_cons. split; [by apply Hpn|by apply (en_nodup _ _ _ _ _ _ E)].
      * rewrite upd_owner_ne by done. by apply (en_nodup _ _ _ _ _ _ E).
  - cbn. by rewrite S5.
  - intros b x q Hb. cbn. rewrite S5. intros Hx Hn Hq. rewrite upd_owner_ne in Hq by done.
    destruct (U b x q Hb Hx Hn Hq) as (sq & y & Hs & Hy & Hbit).
    destruct (decide (page_header q = page_header p)) as [Hh|Hh].
    + exists sp', y. rewrite Hpages, Hh, decide_True by done. cbn. rewrite S5, <- Hh. rewrite Hh, Hsp in Hs. injection Hs as <-.
      by rewrite Hidx.
    + exists sq, y. rewrite Hpages, decide_False by done. cbn. by rewrite S5.
Qed.
End Shadow.

Lemma dropped_clears (P : Z → Prop) `{HP : !∀ p, Decision (P p)} (s s' : shadow_state) :
  dropped P s s' → only_clears (mmu s) (mmu s').
Proof.
  intros [D1 D2 D3 _ _ _ _]. split; [|done]. intros p. destruct (decide (P p)) as [Hp|Hp]; [right; by apply D1|left; by apply D2].
Qed.
