(* ===== verification/SetSpte.v ===== *)
(** * Mapping a guest frame

    kernel/mmu.c: the value of a leaf entry and the decision whether it may be
    writable ([set_spte], [mmu_need_write_protect]), its installation together
    with the reverse map ([mmu_set_spte]), and the prefetch of neighbouring
    entries.

    The MMU lock is held throughout.  What the code asks the host and Linux's
    KVM is a parameter: the kind of a host frame, its memory type, the frames
    behind a range of guest frames, the hash of a guest frame. *)

From S2P Require Import Prelude.
From S2P Require Import Spte.
From S2P Require Import Memslots.
From S2P Require Import MemRegion.
From S2P Require Import PteList.
From S2P Require Import Rmap.
From S2P Require Import PageTrack.
From S2P Require Import ShadowPage.

Definition RMAP_RECYCLE_THRESHOLD : Z := 1000.
Definition PTE_PREFETCH_NUM : Z := 8.

(** The host's side of a mapping. *)
Record map_env := {
  me_pfn_valid : Z → bool;
  me_zero_pfn : Z → bool;
  me_reserved : Z → bool;                      (* PageReserved(pfn_to_page(pfn)) *)
  me_noslot : Z → bool;                        (* is_noslot_pfn *)
  me_tdp : bool;                               (* tdp_enabled *)
  me_mt_mask : Z → bool → Z;                   (* vmrun_x86_ops->get_mt_mask *)
  me_generation : Z;                           (* vmrun_vcpu_memslots(vcpu)->generation *)
  me_hashfn : Z → Z;                           (* hash_64(gfn, KVM_MMU_HASH_SHIFT) *)
  me_pages : vmrun_memory_slot → Z → Z → option (list Z)   (* gfn_to_page_many_atomic, as frames *)
}.

(** The shadow pages, and what a mapping reports: frames marked dirty, flush
    requests to the VCPU, host frames released. *)
Record map_state := {
  ms_shadow : shadow_state;
  ms_dirty : list Z;
  ms_requests : Z;
  ms_released : list Z
}.
#[export] Instance eta_map_state : Eta map_state := λ r,
  {| ms_shadow := r.(ms_shadow); ms_dirty := r.(ms_dirty); ms_requests := r.(ms_requests);
     ms_released := r.(ms_released) |}.

Definition ms_mmu (m : map_state) : mmu_state := mmu m.(ms_shadow).
Definition upd_mmu (f : mmu_state → mmu_state) (s : shadow_state) : shadow_state := set_mmu (f (mmu s)) s.
Definition remote_flush (s : shadow_state) : shadow_state := upd_mmu (λ m, m <| remote_flushes ::= λ n, n + 1 |>) s.

Section SetSpte.
Context `{K : KvmPte} `{T : KvmTrack} (g : shadow_masks) (env : map_env).
Context (page_header page_of : Z → Z).
Context (gfn_to_memslot : bool → Z → vmrun_memory_slot) (vcpu_gfn_to_memslot : Z → option vmrun_memory_slot).

Definition vmrun_page_table_hashfn (gfn : Z) : Z := env.(me_hashfn) gfn.

(** ** Write protection of guest page tables *)

(** The conditions of [for_each_gfn_indirect_valid_sp] on one page of the
    hash chain. *)
Definition gfn_indirect_valid (gfn : Z) (s : shadow_state) (sp : mmu_page) (x : page_ext) : bool :=
  negb (is_obsolete_sp s x || x.(px_invalid)) && negb (negb (sp.(sp_gfn) =? gfn) || sp.(role_direct)).

(** The loop over the hash chain. *)
Fixpoint need_write_protect_loop (gfn : Z) (can_unsync : bool) (l : list Z) (s : shadow_state)
    : option (bool * shadow_state) :=
  match l with
  | [] => Some (false, s)
  | a :: l =>
      sp ← (mmu s).(pages) !! a;
      x ← s.(ss_ext) !! a;
      if negb (gfn_indirect_valid gfn s sp x) then need_write_protect_loop gfn can_unsync l s
      else if negb can_unsync then Some (true, s)
      else if x.(px_unsync) then need_write_protect_loop gfn can_unsync l s
      else
        let s := sp_warn_if (negb (sp.(role_level) =? PT_PAGE_TABLE_LEVEL)) s in
        s ← vmrun_unsync_page g page_header a s;
        need_write_protect_loop gfn can_unsync l s
  end.

Definition mmu_need_write_protect (gfn : Z) (can_unsync : bool) (s : shadow_state) : option (bool * shadow_state) :=
  '(active, t) ← vmrun_page_track_is_active vcpu_gfn_to_memslot gfn KVM_PAGE_TRACK_WRITE s.(ss_track);
  let s := s <| ss_track := t |> in
  if active : bool then Some (true, s)
  else need_write_protect_loop gfn can_unsync (default [] (s.(ss_hash) !! vmrun_page_table_hashfn gfn)) s.

Definition vmrun_is_mmio_pfn (pfn : Z) : bool :=
  if env.(me_pfn_valid) pfn then negb (env.(me_zero_pfn) pfn) && env.(me_reserved) pfn else true.

(** ** The value of a leaf entry *)

(** The entry without write permission. *)
Definition leaf_spte (ad_disabled : bool) (pte_access level gfn pfn : Z) (speculative host_writable : bool) : Z :=
  let spte := if ad_disabled then shadow_acc_track_value else 0 in
  let spte := Z.lor spte g.(shadow_present_mask) in
  let spte := if negb speculative then Z.lor spte (spte_shadow_accessed_mask g spte) else spte in
  let spte := Z.lor spte (if truth (Z.land pte_access ACC_EXEC_MASK) then g.(shadow_x_mask) else g.(shadow_nx_mask)) in
  let spte := if truth (Z.land pte_access ACC_USER_MASK) then Z.lor spte g.(shadow_user_mask) else spte in
  let spte := if level >? PT_PAGE_TABLE_LEVEL then Z.lor spte PT_PAGE_SIZE_MASK else spte in
  let spte := if env.(me_tdp) then Z.lor spte (env.(me_mt_mask) gfn (vmrun_is_mmio_pfn pfn)) else spte in
  let spte := if host_writable then Z.lor spte SPTE_HOST_WRITEABLE else spte in
  let spte := Z.lor spte (u64 (Z.shiftl pfn PAGE_SHIFT)) in
  Z.lor spte g.(shadow_me_mask).

(** [set_pte:] *)
Definition store_spte (sptep spte : Z) (w : list spte_event) (s : shadow_state) : shadow_state :=
  let v := (mmu s).(ptes) sptep in
  let '(cell, flush, ev) := mmu_spte_update g v v spte in
  let s := upd_mmu (λ m, m <| ptes ::= set_pte sptep cell |> <| events ::= λ l, l ++ w ++ ev |>) s in
  if flush : bool then remote_flush s else s.

(** The rest of the function once it is decided whether the page is
    writable. *)
Definition finish_spte (sptep gfn spte : Z) (writable speculative : bool) (m : map_state) : map_state :=
  let m := if writable then m <| ms_dirty ::= λ l, l ++ [gfn] |> else m in
  let spte := if writable then Z.lor spte (spte_shadow_dirty_mask g spte) else spte in
  let '(spte, w) := if speculative then mark_spte_for_access_track g spte else (spte, []) in
  m <| ms_shadow ::= store_spte sptep spte w |>.

Definition set_spte (sptep pte_access level gfn pfn : Z) (speculative can_unsync host_writable : bool)
    (m : map_state) : option (Z * map_state) :=
  if env.(me_noslot) pfn then
    let '(cell, ev) := mmu_spte_set g ((ms_mmu m).(ptes) sptep) (mark_mmio_spte g env.(me_generation) gfn pte_access) in
    Some (0, m <| ms_shadow ::= upd_mmu (λ st, st <| ptes ::= set_pte sptep cell |> <| events ::= λ l, l ++ ev |>) |>)
  else
    x ← m.(ms_shadow).(ss_ext) !! page_header sptep;
    let spte := leaf_spte (sp_ad_disabled x) pte_access level gfn pfn speculative host_writable in
    let pte_access := if host_writable then pte_access else Z.land pte_access (not32 ACC_WRITE_MASK) in
    if truth (Z.land pte_access ACC_WRITE_MASK) then
      disallowed ← (if level >? PT_PAGE_TABLE_LEVEL
                    then mmu_gfn_lpage_is_disallowed vcpu_gfn_to_memslot gfn level m.(ms_shadow).(ss_track).(tk_heap)
                    else Some false);
      if disallowed : bool then Some (0, m)
      else
        let writable := Z.lor spte (Z.lor PT_WRITABLE_MASK SPTE_MMU_WRITEABLE) in
        if negb can_unsync && is_writable_pte ((ms_mmu m).(ptes) sptep)
        then Some (0, m <| ms_shadow ::= store_spte sptep writable [] |>)
        else
          '(protect, s) ← mmu_need_write_protect gfn can_unsync m.(ms_shadow);
          let m := m <| ms_shadow := s |> in
          if protect : bool
          then Some (1, finish_spte sptep gfn (Z.land writable (not64 (Z.lor PT_WRITABLE_MASK SPTE_MMU_WRITEABLE)))
                          false speculative m)
          else Some (0, finish_spte sptep gfn writable true speculative m)
    else Some (0, finish_spte sptep gfn spte false speculative m).

(** ** Installing the entry *)

Definition rmap_recycle (sptep gfn : Z) (s : shadow_state) : option shadow_state :=
  sp ← (mmu s).(pages) !! page_header sptep;
  '(st, _) ← vmrun_unmap_rmapp g page_header gfn_to_memslot (gfn_to_rmap gfn_to_memslot gfn sp) (mmu s);
  Some (remote_flush (set_mmu st s)).

(** The entry that was there before: result [was_rmapped]. *)
Definition drop_old_spte (sptep level pfn : Z) (s : shadow_state) : option (bool * shadow_state) :=
  let v := (mmu s).(ptes) sptep in
  if is_shadow_present_pte g v then
    if (level >? PT_PAGE_TABLE_LEVEL) && negb (is_large_pte v) then
      s ← drop_parent_pte (page_of (Z.land v PT64_BASE_ADDR_MASK)) sptep s;
      Some (false, remote_flush s)
    else if negb (pfn =? spte_to_pfn v) then
      st ← drop_spte g page_header gfn_to_memslot sptep (mmu s);
      Some (false, remote_flush (set_mmu st s))
    else Some (true, s)
  else Some (false, s).

(** The new entry in the reverse map of its frame. *)
Definition rmap_new_spte (sptep gfn : Z) (s : shadow_state) : option shadow_state :=
  '(rmap_count, st) ← rmap_add page_header gfn_to_memslot sptep gfn (mmu s);
  let s := set_mmu st s in
  if rmap_count >? RMAP_RECYCLE_THRESHOLD then rmap_recycle sptep gfn s else Some s.

Definition mmu_set_spte (sptep pte_access : Z) (write_fault : bool) (level gfn pfn : Z)
    (speculative host_writable : bool) (m : map_state) : option (bool * map_state) :=
  '(was_rmapped, s) ← drop_old_spte sptep level pfn m.(ms_shadow);
  '(ret, m) ← set_spte sptep pte_access level gfn pfn speculative true host_writable (m <| ms_shadow := s |>);
  let emulate := truth ret && write_fault in
  let m := if truth ret then m <| ms_requests ::= λ n, n + 1 |> else m in
  let v := (ms_mmu m).(ptes) sptep in
  let emulate := emulate || is_mmio_spte g v in
  let m := if negb was_rmapped && is_large_pte v
           then m <| ms_shadow ::= upd_mmu (λ st, st <| stat_lpages ::= λ n, n + 1 |>) |> else m in
  s ← (if is_shadow_present_pte g v && negb was_rmapped then rmap_new_spte sptep gfn m.(ms_shadow)
       else Some m.(ms_shadow));
  Some (emulate, m <| ms_shadow := s |> <| ms_released ::= λ l, l ++ [pfn] |>).

(** ** Prefetching *)

Definition pte_prefetch_gfn_to_pfn (KVM_PFN_ERR_FAULT : Z) (pfn_atomic : vmrun_memory_slot → Z → Z)
    (gfn : Z) (no_dirty_log : bool) : Z :=
  match gfn_to_memslot_dirty_bitmap vcpu_gfn_to_memslot gfn no_dirty_log with
  | None => KVM_PFN_ERR_FAULT
  | Some slot => pfn_atomic slot gfn
  end.

(** [for (i = 0; i < ret; i++, gfn++, start++)] *)
Fixpoint prefetch_pages (access level gfn start : Z) (pfns : list Z) (m : map_state) : option map_state :=
  match pfns with
  | [] => Some m
  | pfn :: pfns =>
      '(_, m) ← mmu_set_spte start access false level gfn pfn true true m;
      prefetch_pages access level (u64 (gfn + 1)) (start + 8) pfns m
  end.

(** Result: whether it returned 0 rather than -1. *)
Definition direct_pte_prefetch_many (sp : mmu_page) (access start end_ : Z) (m : map_state)
    : option (bool * map_state) :=
  gfn ← vmrun_mmu_page_get_gfn sp (spte_index sp start);
  match gfn_to_memslot_dirty_bitmap vcpu_gfn_to_memslot gfn (truth (Z.land access ACC_WRITE_MASK)) with
  | None => Some (false, m)
  | Some slot =>
      match env.(me_pages) slot gfn ((end_ - start) / 8) with
      | None | Some [] => Some (false, m)
      | Some pfns => m ← prefetch_pages access sp.(role_level) gfn start pfns m; Some (true, m)
      end
  end.

(** The loop over the aligned group of entries; [start = None] is NULL. *)
Fixpoint prefetch_loop (sp : mmu_page) (access sptep : Z) (n : nat) (spte : Z) (start : option Z) (m : map_state)
    : option map_state :=
  match n with
  | O => Some m
  | S n =>
      if is_shadow_present_pte g ((ms_mmu m).(ptes) spte) || (spte =? sptep) then
        match start with
        | None => prefetch_loop sp access sptep n (spte + 8) None m
        | Some first =>
            '(ok, m) ← direct_pte_prefetch_many sp access first spte m;
            if ok : bool then prefetch_loop sp access sptep n (spte + 8) None m else Some m
        end
      else prefetch_loop sp access sptep n (spte + 8) (Some (default spte start)) m
  end.

Definition __direct_pte_prefetch (a sptep : Z) (m : map_state) : option map_state :=
  sp ← (ms_mmu m).(pages) !! a;
  x ← m.(ms_shadow).(ss_ext) !! a;
  let m := m <| ms_shadow ::= sp_warn_if (negb sp.(role_direct)) |> in
  let i := Z.land (spte_index sp sptep) (- PTE_PREFETCH_NUM) in
  prefetch_loop sp x.(px_role).(role_access) sptep (Z.to_nat PTE_PREFETCH_NUM) (sp.(sp_spt) + 8 * i) None m.

Definition direct_pte_prefetch (sptep : Z) (m : map_state) : option map_state :=
  let a := page_header sptep in
  sp ← (ms_mmu m).(pages) !! a;
  x ← m.(ms_shadow).(ss_ext) !! a;
  if sp_ad_disabled x then Some m
  else if sp.(role_level) >? PT_PAGE_TABLE_LEVEL then Some m
  else __direct_pte_prefetch a sptep m.
End SetSpte.
