(* ===== verification/SetSpteProps.v ===== *)
(** * Mapping a guest frame: correctness

    The value [set_spte] stores, when it may be writable, and that
    [mmu_set_spte] keeps the invariant of the tables. *)

From S2P Require Import Prelude.
From S2P Require Import Spte.
From S2P Require Import SpteTrack.
From S2P Require Import Memslots.
From S2P Require Import MemRegion.
From S2P Require Import MemRegionProps.
From S2P Require Import PteList.
From S2P Require Import PteListProps.
From S2P Require Import Rmap.
From S2P Require Import RmapProps.
From S2P Require Import PageTrack.
From S2P Require Import PageTrackProps.
From S2P Require Import ShadowPage.
From S2P Require Import ShadowPageProps.
From S2P Require Import MmuInv.
From S2P Require Import SetSpte.

(* ------------------------------------------------------------------ *)
(** ** Leaf values, bit by bit *)

Section Values.
Context `{K : KvmPte, KO : !KvmPteOk K} (g : shadow_masks) (env : map_env).

(** The bits with a meaning of their own: writable, large, the two software
    bits, the special bit, the frame. *)
Definition own_bit (i : Z) : bool :=
  (i =? 1) || (i =? 7) || (i =? 10) || (i =? 11) || (i =? 62) || Z.testbit PT64_BASE_ADDR_MASK i.

Definition keeps_off (m : Z) : Prop := ∀ i, 0 <= i → own_bit i = true → Z.testbit m i = false.

(** The masks keep off these bits; an entry without the accessed bits is not
    0; MMIO entries have the special bit. *)
Record leaf_masks : Prop := {
  lm_present : keeps_off g.(shadow_present_mask);
  lm_accessed : keeps_off g.(shadow_accessed_mask);
  lm_dirty : keeps_off g.(shadow_dirty_mask);
  lm_x : keeps_off g.(shadow_x_mask);
  lm_nx : keeps_off g.(shadow_nx_mask);
  lm_user : keeps_off g.(shadow_user_mask);
  lm_me : keeps_off g.(shadow_me_mask);
  lm_mt : ∀ gfn b, keeps_off (env.(me_mt_mask) gfn b);
  lm_nonzero : ∃ i, 0 <= i < 64 ∧ Z.testbit g.(shadow_present_mask) i = true ∧ Z.testbit g.(shadow_accessed_mask) i = false;
  lm_mmio : Z.testbit g.(shadow_mmio_value) 62 = true
}.

(** A host frame the entry has room for. *)
Definition frame_ok (pfn : Z) : Prop :=
  0 <= pfn < 2 ^ 40 ∧ Z.land (Z.shiftl pfn PAGE_SHIFT) PT64_BASE_ADDR_MASK = Z.shiftl pfn PAGE_SHIFT.

(** A value that maps [pfn] at [level]. *)
Record leaf_entry (level pfn : Z) (host_writable writable : bool) (v : Z) : Prop := {
  le_bits : ∀ i, 0 <= i → own_bit i = true → Z.testbit v i =
    ((level >? PT_PAGE_TABLE_LEVEL) && (i =? 7)) || (host_writable && (i =? 10))
    || (writable && ((i =? 1) || (i =? 11))) || Z.testbit (Z.shiftl pfn PAGE_SHIFT) i;
  le_nonzero : ∃ i, 0 <= i < 64 ∧ own_bit i = false ∧ Z.testbit v i = true ∧ Z.testbit g.(shadow_accessed_mask) i = false
}.

Lemma base_mask_bits (i : Z) : 0 <= i → Z.testbit PT64_BASE_ADDR_MASK i = true → 12 <= i < 52.
Proof using KO.
  intros Hi. unfold PT64_BASE_ADDR_MASK. destruct sme_clr_mask as [m Hm].
  rewrite Hm by (unfold is_u; split; [by apply Z.leb_le|by vm_compute]).
  rewrite !Z.land_spec, !andb_true_iff. intros [[H1 H2] _].
  change (BIT 52 - 1) with (Z.ones 52) in H1. rewrite ones_testbit in H1 by lia. apply Z.ltb_lt in H1.
  split; [|lia]. destruct (Z.le_gt_cases 12 i); [done|].
  assert (Hc : i ∈ seqZ 0 12) by (apply elem_of_seqZ; lia).
  exfalso. revert H2. change PAGE_SIZE with 4096.
  repeat (apply elem_of_cons in Hc as [->|Hc]; [by vm_compute|]). by apply elem_of_nil in Hc.
Qed.

Lemma frame_bits (pfn i : Z) : frame_ok pfn → 0 <= i → Z.testbit (Z.shiftl pfn PAGE_SHIFT) i = true → 12 <= i < 52.
Proof using KO.
  intros [_ Hf] Hi Hb. rewrite <- Hf, Z.land_spec, andb_true_iff in Hb. destruct Hb. by apply base_mask_bits.
Qed.

(** What a leaf value is to the rest of the code. *)
Lemma leaf_present (level pfn : Z) (hw w : bool) (v : Z) :
  leaf_masks → frame_ok pfn → leaf_entry level pfn hw w v → is_shadow_present_pte g v = true.
Proof using KO.
  intros LM Hf [Hb (i & Hi & _ & Hv & _)]. unfold is_shadow_present_pte, is_mmio_spte. apply andb_true_iff. split.
  - apply negb_true_iff, Z.eqb_neq. intros ->. by rewrite Z.bits_0 in Hv.
  - apply negb_true_iff, Z.eqb_neq. intros He. apply (f_equal (λ x, Z.testbit x 62)) in He.
    rewrite (lm_mmio LM), Z.land_spec, andb_true_iff in He. destruct He as [He _].
    rewrite Hb in He by (try done; by rewrite !orb_true_r). cbn in He. rewrite !andb_false_r in He. cbn in He.
    pose proof (frame_bits pfn 62 Hf ltac:(lia) He). lia.
Qed.

Lemma leaf_flag (level pfn : Z) (hw w : bool) (v i : Z) :
  frame_ok pfn → leaf_entry level pfn hw w v → own_bit i = true → 0 <= i < 12 →
  Z.testbit v i = ((level >? PT_PAGE_TABLE_LEVEL) && (i =? 7)) || (hw && (i =? 10)) || (w && ((i =? 1) || (i =? 11))).
Proof using KO.
  intros Hf [Hb _] Ho Hi. rewrite Hb by (done || lia).
  destruct (Z.testbit (Z.shiftl pfn PAGE_SHIFT) i) eqn:E; [|by rewrite orb_false_r].
  pose proof (frame_bits pfn i Hf ltac:(lia) E). lia.
Qed.

Lemma leaf_large (level pfn : Z) (hw w : bool) (v : Z) :
  frame_ok pfn → leaf_entry level pfn hw w v → is_large_pte v = (level >? PT_PAGE_TABLE_LEVEL).
Proof using KO.
  intros Hf Hl. unfold is_large_pte, PT_PAGE_SIZE_MASK. rewrite truth_land_BIT by lia.
  rewrite (leaf_flag _ _ _ _ _ 7 Hf Hl) by (done || lia). cbn. by rewrite !andb_false_r, !orb_false_r, andb_true_r.
Qed.

Lemma leaf_last (level pfn : Z) (hw w : bool) (v : Z) :
  1 <= level → frame_ok pfn → leaf_entry level pfn hw w v → is_last_spte v level = true.
Proof using KO.
  intros Hlv Hf Hl. unfold is_last_spte. rewrite (leaf_large _ _ _ _ _ Hf Hl). unfold PT_PAGE_TABLE_LEVEL.
  destruct (Z.eqb_spec level 1); [done|]. by rewrite (proj2 (Z.gtb_lt level 1)) by lia.
Qed.

Lemma leaf_writable (level pfn : Z) (hw w : bool) (v : Z) :
  frame_ok pfn → leaf_entry level pfn hw w v →
  is_writable_pte v = w ∧ spte_can_locklessly_be_made_writable v = hw && w.
Proof using KO.
  intros Hf Hl. split.
  - rewrite writable_bit, (leaf_flag _ _ _ _ _ 1 Hf Hl) by (done || lia). cbn. by rewrite !andb_false_r, andb_true_r.
  - rewrite lockless_bits, (leaf_flag _ _ _ _ _ 10 Hf Hl), (leaf_flag _ _ _ _ _ 11 Hf Hl) by (done || lia).
    cbn. by rewrite !andb_false_r, !andb_true_r, !orb_false_r.
Qed.

Lemma leaf_pfn (level pfn : Z) (hw w : bool) (v : Z) :
  frame_ok pfn → leaf_entry level pfn hw w v → spte_to_pfn v = pfn.
Proof using KO.
  intros Hf [Hb _]. unfold spte_to_pfn. replace (Z.land v PT64_BASE_ADDR_MASK) with (Z.shiftl pfn PAGE_SHIFT).
  - rewrite Z.shiftr_shiftl_l by done. by rewrite Z.sub_diag, Z.shiftl_0_r.
  - destruct Hf as [_ Hm]. rewrite <- Hm. apply Z.bits_inj'. intros i Hi. rewrite !Z.land_spec.
    destruct (Z.testbit PT64_BASE_ADDR_MASK i) eqn:E; [|by rewrite !andb_false_r]. rewrite !andb_true_r.
    rewrite Hb by (try done; unfold own_bit; by rewrite E, orb_true_r).
    pose proof (base_mask_bits i Hi E) as Hr.
    rewrite (proj2 (Z.eqb_neq i 7)), (proj2 (Z.eqb_neq i 10)), (proj2 (Z.eqb_neq i 1)), (proj2 (Z.eqb_neq i 11)) by lia.
    cbn. by rewrite !andb_false_r.
Qed.

(** Adding a mask that keeps off. *)
Lemma lor_off (m v i : Z) : keeps_off m → 0 <= i → own_bit i = true → Z.testbit (Z.lor v m) i = Z.testbit v i.
Proof using Type. intros Hm Hi Ho. by rewrite Z.lor_spec, (Hm i Hi Ho), orb_false_r. Qed.

Lemma off_ad_enabled (v : Z) : Z.testbit v 62 = false → spte_ad_enabled v = true.
Proof using KO. intros H. by rewrite ad_enabled_bit62, H. Qed.

Lemma own_62 : own_bit 62 = true.
Proof using Type. unfold own_bit. by rewrite !orb_true_r. Qed.

Lemma leaf_spte_entry (pte_access level gfn pfn : Z) (speculative hw : bool) :
  leaf_masks → frame_ok pfn →
  leaf_entry level pfn hw false (leaf_spte g env false pte_access level gfn pfn speculative hw).
Proof using KO.
  intros LM Hf. unfold leaf_spte.
  assert (Had : spte_shadow_accessed_mask g (Z.lor 0 (shadow_present_mask g)) = shadow_accessed_mask g).
  { unfold spte_shadow_accessed_mask. rewrite off_ad_enabled; [done|]. rewrite (lor_off _ _ _ (lm_present LM)); [done|lia|apply own_62]. }
  rewrite Had. destruct LM as [L1 L2 L3 L4 L5 L6 L7 L8 (j & Hj & Hj1 & Hj2) L10].
  assert (Hpfn : u64 (Z.shiftl pfn PAGE_SHIFT) = Z.shiftl pfn PAGE_SHIFT).
  { apply wrap_id. destruct Hf as [[H1 H2] _]. unfold is_u. rewrite Z.shiftl_mul_pow2 by done. change PAGE_SHIFT with 12. lia. }
  rewrite Hpfn. split.
  - intros i Hi Ho. rewrite (lor_off _ _ _ L7) by done. rewrite Z.lor_spec. rewrite orb_false_r. f_equal.
    set (v0 := if negb speculative then Z.lor (Z.lor 0 (shadow_present_mask g)) (shadow_accessed_mask g) else Z.lor 0 (shadow_present_mask g)). assert (H0 : Z.testbit v0 i = false).
    { unfold v0. destruct speculative; cbn [negb]; rewrite ?(lor_off _ _ _ L2), (lor_off _ _ _ L1) by done; apply Z.bits_0. }
    set (v1 := Z.lor v0 (if truth (Z.land pte_access ACC_EXEC_MASK) then shadow_x_mask g else shadow_nx_mask g)). assert (H1 : Z.testbit v1 i = false).
    { unfold v1. destruct (truth (Z.land pte_access ACC_EXEC_MASK)); [rewrite (lor_off _ _ _ L4)|rewrite (lor_off _ _ _ L5)]; done. }
    set (v2 := if truth (Z.land pte_access ACC_USER_MASK) then Z.lor v1 (shadow_user_mask g) else v1). assert (H2 : Z.testbit v2 i = false).
    { unfold v2. destruct (truth (Z.land pte_access ACC_USER_MASK)); [by rewrite (lor_off _ _ _ L6)|done]. }
    set (v3 := if level >? PT_PAGE_TABLE_LEVEL then Z.lor v2 PT_PAGE_SIZE_MASK else v2). assert (H3 : Z.testbit v3 i = (level >? PT_PAGE_TABLE_LEVEL) && (i =? 7)).
    { unfold v3. destruct (level >? _); [|done]. rewrite Z.lor_spec, H2. unfold PT_PAGE_SIZE_MASK.
      by rewrite BIT_testbit by lia. }
    set (v4 := if me_tdp env then Z.lor v3 (me_mt_mask env gfn (vmrun_is_mmio_pfn env pfn)) else v3). assert (H4 : Z.testbit v4 i = Z.testbit v3 i).
    { unfold v4. destruct (me_tdp env); [|done]. by rewrite (lor_off _ _ _ (L8 _ _)) by done. }
    destruct hw; [|by rewrite H4, H3, orb_false_r].
    rewrite Z.lor_spec, H4, H3. unfold SPTE_HOST_WRITEABLE. by rewrite BIT_testbit by lia.
  - exists j. split; [done|]. split; [|split; [|done]].
    { destruct (own_bit j) eqn:Eo; [|done]. rewrite (L1 j) in Hj1; [done|lia|done]. }
    repeat first [rewrite Z.lor_spec | rewrite Hj1 | match goal with |- context [Z.testbit (if ?b then _ else _) _] => destruct b end];
      by rewrite ?orb_true_r.
Qed.

(** The later steps of [set_spte] on a leaf value. *)
Lemma leaf_grant (level pfn v : Z) (hw : bool) :
  leaf_entry level pfn hw false v → leaf_entry level pfn hw true (Z.lor v (Z.lor PT_WRITABLE_MASK SPTE_MMU_WRITEABLE)).
Proof using Type.
  intros [Hb (j & Hj & Ho & H1 & H2)]. split.
  - intros i Hi Hoi. rewrite !Z.lor_spec, (Hb i Hi Hoi). unfold PT_WRITABLE_MASK, PT_WRITABLE_SHIFT, SPTE_MMU_WRITEABLE.
    rewrite !BIT_testbit by lia. destruct ((level >? PT_PAGE_TABLE_LEVEL) && (i =? 7)), (hw && (i =? 10)),
      (Z.testbit (Z.shiftl pfn PAGE_SHIFT) i), (i =? 1), (i =? 11); done.
  - exists j. split_and!; [lia|lia|done|by rewrite Z.lor_spec, H1|done].
Qed.

Lemma leaf_revoke (level pfn v : Z) (hw : bool) :
  frame_ok pfn → leaf_entry level pfn hw true v →
  leaf_entry level pfn hw false (Z.land v (not64 (Z.lor PT_WRITABLE_MASK SPTE_MMU_WRITEABLE))).
Proof using KO.
  intros Hf [Hb (j & Hj & Ho & H1 & H2)]. unfold PT_WRITABLE_MASK, PT_WRITABLE_SHIFT, SPTE_MMU_WRITEABLE. split.
  - intros i Hi Hoi. rewrite Z.land_spec, not64_testbit, Z.lor_spec, !BIT_testbit, (Hb i Hi Hoi) by lia.
    assert (H64 : i < 64). { unfold own_bit in Hoi. destruct (Z.lt_ge_cases i 64); [done|].
      rewrite !orb_true_iff, !Z.eqb_eq in Hoi. destruct Hoi as [Hoi|Hoi]; [lia|]. pose proof (base_mask_bits i Hi Hoi). lia. }
    rewrite (proj2 (Z.ltb_lt i 64)) by done.
    destruct (Z.testbit (Z.shiftl pfn PAGE_SHIFT) i) eqn:E.
    + pose proof (frame_bits pfn i Hf Hi E). rewrite (proj2 (Z.eqb_neq i 1)), (proj2 (Z.eqb_neq i 11)) by lia. cbn.
      by rewrite !orb_true_r.
    + destruct (Z.eqb_spec i 1) as [->|]; [cbn; by rewrite !andb_false_r|].
      destruct (Z.eqb_spec i 11) as [->|]; [cbn; by rewrite !andb_false_r|]. cbn. by rewrite andb_true_r.
  - exists j. split; [done|]. split; [done|]. split; [|done]. rewrite Z.land_spec, H1, not64_testbit, Z.lor_spec, !BIT_testbit by lia.
    unfold own_bit in Ho. rewrite !orb_false_iff in Ho. destruct Ho as [[[[[-> _] _] ->] _] _].
    by rewrite (proj2 (Z.ltb_lt j 64)) by lia.
Qed.

Lemma leaf_dirty (level pfn v : Z) (hw w : bool) :
  leaf_masks → leaf_entry level pfn hw w v → leaf_entry level pfn hw w (Z.lor v (spte_shadow_dirty_mask g v)).
Proof using Type.
  intros LM [Hb (j & Hj & Hoj & H1 & H2)]. split.
  - intros i Hi Ho. unfold spte_shadow_dirty_mask. destruct (spte_ad_enabled v).
    + rewrite (lor_off _ _ _ (lm_dirty LM)) by done. by apply Hb.
    + rewrite Z.lor_0_r. by apply Hb.
  - exists j. split_and!; [lia|lia|done|by rewrite Z.lor_spec, H1|done].
Qed.

Lemma leaf_speculative (level pfn v : Z) (hw w : bool) :
  leaf_masks → frame_ok pfn → leaf_entry level pfn hw w v →
  ∃ v', mark_spte_for_access_track g v = (v', []) ∧ leaf_entry level pfn hw w v'.
Proof using KO.
  intros LM Hf [Hb (j & Hj & Hoj & H1 & H2)].
  assert (H62 : Z.testbit v 62 = false).
  { rewrite Hb by (lia || apply own_62). cbn. rewrite !andb_false_r. cbn.
    destruct (Z.testbit (Z.shiftl pfn PAGE_SHIFT) 62) eqn:E; [|done]. pose proof (frame_bits pfn 62 Hf ltac:(lia) E). lia. }
  unfold mark_spte_for_access_track. rewrite off_ad_enabled by done. eexists. split; [reflexivity|]. split.
  - intros i Hi Ho. rewrite Z.land_spec, not64_testbit, (lm_accessed LM i Hi Ho) by lia. cbn [negb].
    rewrite andb_true_r. rewrite (Hb i Hi Ho). assert (H64 : i < 64).
    { unfold own_bit in Ho. destruct (Z.lt_ge_cases i 64); [done|].
      rewrite !orb_true_iff, !Z.eqb_eq in Ho. destruct Ho as [Ho|Ho]; [lia|]. pose proof (base_mask_bits i Hi Ho). lia. }
    rewrite (proj2 (Z.ltb_lt i 64)) by done. by rewrite andb_true_r.
  - exists j. split; [done|]. split; [done|]. split; [|done]. rewrite Z.land_spec, H1, not64_testbit, H2 by lia.
    by rewrite (proj2 (Z.ltb_lt j 64)) by lia.
Qed.
End Values.

(* ------------------------------------------------------------------ *)
(** ** Guest page tables *)

(** The pages that are out of sync in [s] are so in [s']; nothing else of a
    page changes but its marks. *)
Record unsyncs (s s' : shadow_state) : Prop := {
  us_track : s'.(ss_track) = s.(ss_track);
  us_hash : s'.(ss_hash) = s.(ss_hash);
  us_gen : s'.(ss_valid_gen) = s.(ss_valid_gen);
  us_page : ∀ a x, s.(ss_ext) !! a = Some x → ∃ x', s'.(ss_ext) !! a = Some x' ∧
    x'.(px_invalid) = x.(px_invalid) ∧ x'.(px_valid_gen) = x.(px_valid_gen) ∧ x'.(px_role) = x.(px_role) ∧
    (x.(px_unsync) = true → x'.(px_unsync) = true)
}.

#[export] Instance unsyncs_refl : Reflexive unsyncs.
Proof. intros s. split; try done. intros a x Hx. by exists x. Qed.

#[export] Instance unsyncs_trans : Transitive unsyncs.
Proof.
  intros s1 s2 s3 [A1 A2 A3 A4] [B1 B2 B3 B4]. split; [by rewrite B1|by rewrite B2|by rewrite B3|].
  intros a x Hx. destruct (A4 a x Hx) as (y & Hy & H1 & H2 & H3 & H4). destruct (B4 a y Hy) as (z & Hz & G1 & G2 & G3 & G4).
  exists z. split; [done|]. rewrite G1, G2, G3. split_and!; auto.
Qed.

Lemma unsyncs_same (s s' : shadow_state) :
  s'.(ss_track) = s.(ss_track) → s'.(ss_hash) = s.(ss_hash) → s'.(ss_valid_gen) = s.(ss_valid_gen) →
  s'.(ss_ext) = s.(ss_ext) → unsyncs s s'.
Proof. intros H1 H2 H3 H4. split; try done. intros a x Hx. rewrite H4. by exists x. Qed.

Lemma more_marks_unsyncs (a : Z) (s s' : shadow_state) : more_marks (out_of_sync a s) s' → unsyncs s s'.
Proof.
  intros M. pose proof (mm_same _ _ M) as Hs. split; [by rewrite Hs|by rewrite Hs|by rewrite Hs|].
  intros b x Hx. destruct (decide (b = a)) as [->|Hne].
  - destruct (mm_page _ _ M a (x <| px_unsync := true |>)) as (bm & n & E & _); [cbn; by rewrite lookup_alter_eq, Hx|].
    eexists. split; [exact E|done].
  - destruct (mm_page _ _ M b x) as (bm & n & E & _); [cbn; by rewrite lookup_alter_ne|].
    eexists. split; [exact E|done].
Qed.

Section Protect.
Context `{K : KvmPte} `{T : KvmTrack} (g : shadow_masks) (env : map_env) (page_header page_of : Z → Z)
        (gfn_to_memslot : bool → Z → vmrun_memory_slot) (vcpu_gfn_to_memslot : Z → option vmrun_memory_slot).
Context (LL DD : owner → list Z).

Notation shadow_ok := (shadow_ok g page_header page_of gfn_to_memslot).

(** A page goes out of sync. *)
Lemma unsync_page_ok (a : Z) (s : shadow_state) :
  shadow_ok LL DD s → is_Some (s.(ss_ext) !! a) →
  ∃ s', vmrun_unsync_page g page_header a s = Some s' ∧ shadow_ok LL DD s' ∧ unsyncs s s' ∧
    ∃ x', s'.(ss_ext) !! a = Some x' ∧ x'.(px_unsync) = true.
Proof using Type.
  intros [L E C U] [x Hx].
  destruct (unsync_page_spec g page_header _ _ s a x (shadow_shape _ _ _ _ _ _ _ L E C) U Hx) as (s' & Es & S' & U' & M).
  exists s'. split; [done|]. split; [|split; [by eapply more_marks_unsyncs|]].
  - assert (Hlive : ∀ b, is_Some ((out_of_sync a s).(ss_ext) !! b) ↔ is_Some (s.(ss_ext) !! b)).
    { intros b. cbn. destruct (decide (b = a)) as [->|Hne]; [rewrite lookup_alter_eq|by rewrite lookup_alter_ne].
      apply fmap_is_Some. }
    apply (shadow_marks g page_header page_of gfn_to_memslot LL DD (out_of_sync a s)); [| |done|done|done].
    + apply (lists_same LL DD s); [done|done|]. intros [k|b]; [done|]. intros Hl. split; [by apply Hlive|]. cbn.
      destruct (decide (b = a)) as [->|Hne]; [rewrite lookup_alter_eq|by rewrite lookup_alter_ne]. by destruct (ss_ext s !! a).
    + apply (entries_same _ _ _ _ LL s); [|done]. split; [done|done|apply Hlive].
  - destruct (mm_page _ _ M a (x <| px_unsync := true |>)) as (bm & n & Ex & _); [cbn; by rewrite lookup_alter_eq, Hx|].
    eexists. split; [exact Ex|done].
Qed.

(** Every shadow page of a guest page table at [gfn] is out of sync. *)
Definition tables_unsync (gfn : Z) (l : list Z) (s : shadow_state) : Prop :=
  ∀ a sp x, a ∈ l → (mmu s).(pages) !! a = Some sp → s.(ss_ext) !! a = Some x →
    gfn_indirect_valid gfn s sp x = true → x.(px_unsync) = true.

Lemma need_write_protect_loop_ok (gfn : Z) (can_unsync : bool) (l : list Z) (s : shadow_state) :
  shadow_ok LL DD s → (∀ a, a ∈ l → is_Some (s.(ss_ext) !! a)) →
  ∃ b s', need_write_protect_loop g page_header gfn can_unsync l s = Some (b, s') ∧ shadow_ok LL DD s' ∧ unsyncs s s' ∧
    (b = false → tables_unsync gfn l s').
Proof using Type.
  revert s. induction l as [|a l IH]; intros s Hok Hl.
  { exists false, s. split_and!; try done. intros _ a sp x Ha. by apply elem_of_nil in Ha. }
  cbn [need_write_protect_loop]. destruct (Hl a ltac:(by left)) as [x Hx].
  destruct (proj2 (en_dom _ _ _ _ _ _ (sk_entries _ _ _ _ _ _ _ Hok) a) ltac:(by eexists)) as [sp Hsp].
  rewrite Hsp. cbn [mbind option_bind]. rewrite Hx. cbn [mbind option_bind].
  (** the rest of the chain, from a state [s1] in which page [a] is settled *)
  assert (Hrest : ∀ s1, shadow_ok LL DD s1 → unsyncs s s1 →
    (∀ x1, s1.(ss_ext) !! a = Some x1 → gfn_indirect_valid gfn s1 sp x1 = true → x1.(px_unsync) = true) →
    ∃ b s', need_write_protect_loop g page_header gfn can_unsync l s1 = Some (b, s') ∧ shadow_ok LL DD s' ∧ unsyncs s s' ∧
      (b = false → tables_unsync gfn (a :: l) s')).
  { intros s1 Hok1 U1 Hset. destruct (IH s1 Hok1) as (b & s' & E & Hok' & U' & Ht).
    { intros c Hc. destruct (Hl c ltac:(by right)) as [y Hy]. destruct (us_page _ _ U1 c y Hy) as (y' & -> & _). by eexists. }
    exists b, s'. split_and!; [done|done|by etrans|]. intros Hb c sq y Hc Hsq Hy Hv.
    apply elem_of_cons in Hc as [->|Hc]; [|by apply (Ht Hb c sq y)].
    destruct (us_page _ _ U1 a x Hx) as (x1 & Hx1 & _). destruct (us_page _ _ U' a x1 Hx1) as (x2 & Hx2 & I1 & I2 & _ & I4).
    rewrite Hx2 in Hy. injection Hy as <-. apply I4, (Hset x1 Hx1).
    assert (sq = sp) as -> by (unfold mmu in *; rewrite (us_track _ _ U'), (us_track _ _ U1) in Hsq; congruence).
    unfold gfn_indirect_valid, is_obsolete_sp in *. by rewrite <- I1, <- I2, <- (us_gen _ _ U'). }
  destruct (gfn_indirect_valid gfn s sp x) eqn:Hv; cbn [negb].
  - destruct can_unsync; cbn [negb]; [|by exists true, s].
    destruct (px_unsync x) eqn:Eu.
    + apply Hrest; [done|done|]. intros x1 Hx1 _. congruence.
    + set (s1 := sp_warn_if _ s). assert (Hsame : shadow_ok LL DD s1).
      { apply (shadow_same g page_header page_of gfn_to_memslot LL DD s); [|done]. unfold s1, sp_warn_if. by destruct (negb _). }
      assert (U1 : unsyncs s s1) by (unfold s1, sp_warn_if; destruct (negb _); [by apply unsyncs_same|done]).
      destruct (unsync_page_ok a s1 Hsame) as (s2 & -> & Hok2 & U2 & x2 & Hx2 & Hu2).
      { unfold s1, sp_warn_if. destruct (negb _); cbn; by eexists. }
      cbn [mbind option_bind]. apply Hrest; [done|by etrans|]. intros x1 Hx1 _. congruence.
  - apply Hrest; [done|done|]. intros x1 Hx1 Hv1. congruence.
Qed.

(** The pages on the hash chain of a frame. *)
Definition hash_chain (gfn : Z) (s : shadow_state) : list Z := default [] (s.(ss_hash) !! env.(me_hashfn) gfn).

Lemma need_write_protect_ok (gfn : Z) (can_unsync active : bool) (s : shadow_state) :
  shadow_ok LL DD s → (∀ a, a ∈ hash_chain gfn s → is_Some (s.(ss_ext) !! a)) →
  vmrun_page_track_is_active vcpu_gfn_to_memslot gfn KVM_PAGE_TRACK_WRITE s.(ss_track) = Some (active, s.(ss_track)) →
  ∃ b s', mmu_need_write_protect g env page_header vcpu_gfn_to_memslot gfn can_unsync s = Some (b, s') ∧
    shadow_ok LL DD s' ∧ unsyncs s s' ∧ (b = false → active = false ∧ tables_unsync gfn (hash_chain gfn s') s').
Proof using Type.
  intros Hok Hl Ha. unfold mmu_need_write_protect. rewrite Ha. cbn [mbind option_bind].
  assert (Es : s <| ss_track := s.(ss_track) |> = s) by by destruct s. rewrite Es.
  destruct active; [by exists true, s|].
  destruct (need_write_protect_loop_ok gfn can_unsync _ s Hok Hl) as (b & s' & E & Hok' & U & Ht).
  exists b, s'. split_and!; try done. intros Hb. split; [done|]. unfold hash_chain. rewrite (us_hash _ _ U). by apply Ht.
Qed.
End Protect.

(* ------------------------------------------------------------------ *)
(** ** [set_spte] *)

Section SetEntry.
Context `{K : KvmPte, KO : !KvmPteOk K} `{T : KvmTrack} (g : shadow_masks) (env : map_env) (page_header page_of : Z → Z)
        (gfn_to_memslot : bool → Z → vmrun_memory_slot) (vcpu_gfn_to_memslot : Z → option vmrun_memory_slot).
Context (LM : leaf_masks g env).

Notation shadow_ok := (shadow_ok g page_header page_of gfn_to_memslot).
Notation owner_of := (owner_of g page_header page_of gfn_to_memslot).
Notation leaf_entry := (leaf_entry g).

(** [stored], and the fields besides the tables. *)
Record written (p v : Z) (s s' : shadow_state) : Prop := {
  wr_stored : stored p v s s';
  wr_hash : s'.(ss_hash) = s.(ss_hash);
  wr_gen : s'.(ss_valid_gen) = s.(ss_valid_gen);
  wr_heap : s'.(ss_track).(tk_heap) = s.(ss_track).(tk_heap)
}.

Lemma store_spte_written (p v : Z) (w : list spte_event) (s : shadow_state) : written p v s (store_spte g p v w s).
Proof using Type.
  unfold store_spte. pose proof (update_value g (ptes (mmu s) p) v) as E.
  destruct (mmu_spte_update g (ptes (mmu s) p) (ptes (mmu s) p) v) as [[cell flush] ev]. cbn [fst] in E. subst cell.
  by destruct flush.
Qed.

(** A state in which a frame may be mapped writable: it is not tracked, and
    its shadow pages are out of sync. *)
Definition may_write (gfn : Z) (active : bool) (s : shadow_state) : Prop :=
  active = false ∧ tables_unsync gfn (hash_chain env gfn s) s.

Lemma may_write_written (gfn p v : Z) (active : bool) (s s' : shadow_state) :
  written p v s s' → may_write gfn active s → may_write gfn active s'.
Proof using Type.
  intros [[S1 S2 S3 S4 S5] H1 H2 _] [Ha Ht]. split; [done|]. intros a sp x. unfold hash_chain. rewrite H1, S2, S5.
  intros Hin Hsp Hx Hv. apply (Ht a sp x Hin Hsp Hx). unfold gfn_indirect_valid, is_obsolete_sp in *. by rewrite <- H2.
Qed.

Context (LL DD : owner → list Z).

(** What one call leaves: the state [s1] is the old one with pages taken out
    of sync; then the entry is written, or nothing when a large page turned
    out not to be allowed. *)
Inductive set_result (p pte_access level gfn pfn : Z) (can_unsync hw active disallowed : bool) (m : map_state)
    (ret : Z) (m' : map_state) : Prop :=
| set_refused :
    m' = m → ret = 0 → disallowed = true → level > PT_PAGE_TABLE_LEVEL →
    set_result p pte_access level gfn pfn can_unsync hw active disallowed m ret m'
| set_done (s1 : shadow_state) (v : Z) (w : bool) :
    shadow_ok LL DD s1 → unsyncs m.(ms_shadow) s1 → written p v s1 m'.(ms_shadow) → leaf_entry level pfn hw w v →
    (w = true → hw = true ∧ truth (Z.land pte_access ACC_WRITE_MASK) = true ∧
      ((can_unsync = false ∧ is_writable_pte ((ms_mmu m).(ptes) p) = true) ∨
       (may_write gfn active m'.(ms_shadow) ∧ gfn ∈ m'.(ms_dirty)))) →
    (w = false → hw = true → truth (Z.land pte_access ACC_WRITE_MASK) = true → ret = 1) →
    (ret = 1 ∨ ret = 0) → m'.(ms_requests) = m.(ms_requests) → m'.(ms_released) = m.(ms_released) →
    set_result p pte_access level gfn pfn can_unsync hw active disallowed m ret m'.

(** The end of the function, for a value with or without write permission. *)
Lemma finish_spte_written (p gfn v level pfn : Z) (hw w speculative : bool) (m : map_state) :
  frame_ok pfn → leaf_entry level pfn hw w v →
  let m' := finish_spte g p gfn v w speculative m in
  ∃ v', written p v' m.(ms_shadow) m'.(ms_shadow) ∧ leaf_entry level pfn hw w v' ∧ (w = true → gfn ∈ m'.(ms_dirty)) ∧
    m'.(ms_requests) = m.(ms_requests) ∧ m'.(ms_released) = m.(ms_released).
Proof using KO LM.
  intros Hf Hv. unfold finish_spte. set (m1 := if w then _ else m). set (v1 := if w then _ else v).
  assert (Hv1 : leaf_entry level pfn hw w v1) by (unfold v1; destruct w; [by apply (leaf_dirty g env)|done]).
  assert (Hm1 : ms_shadow m1 = ms_shadow m ∧ (w = true → gfn ∈ ms_dirty m1) ∧ ms_requests m1 = ms_requests m ∧ ms_released m1 = ms_released m).
  { unfold m1. destruct w; cbn; split_and!; try done. intros _. apply elem_of_app. right. by left. }
  destruct Hm1 as (E1 & E2 & E3 & E4). destruct speculative.
  - destruct (leaf_speculative g env level pfn v1 hw w LM Hf Hv1) as (v' & -> & Hv'). exists v'. cbn. rewrite E1.
    split; [apply store_spte_written|]. auto.
  - exists v1. cbn. rewrite E1. split; [apply store_spte_written|]. auto.
Qed.

Lemma set_spte_ok (p pte_access level gfn pfn : Z) (speculative can_unsync hw active disallowed : bool)
    (m : map_state) (x : page_ext) :
  shadow_ok LL DD m.(ms_shadow) → m.(ms_shadow).(ss_ext) !! page_header p = Some x → sp_ad_disabled x = false →
  env.(me_noslot) pfn = false → frame_ok pfn →
  (∀ a, a ∈ hash_chain env gfn m.(ms_shadow) → is_Some (m.(ms_shadow).(ss_ext) !! a)) →
  vmrun_page_track_is_active vcpu_gfn_to_memslot gfn KVM_PAGE_TRACK_WRITE m.(ms_shadow).(ss_track)
    = Some (active, m.(ms_shadow).(ss_track)) →
  (level > PT_PAGE_TABLE_LEVEL →
    mmu_gfn_lpage_is_disallowed vcpu_gfn_to_memslot gfn level m.(ms_shadow).(ss_track).(tk_heap) = Some disallowed) →
  ∃ ret m', set_spte g env page_header vcpu_gfn_to_memslot p pte_access level gfn pfn speculative can_unsync hw m
            = Some (ret, m') ∧
    set_result p pte_access level gfn pfn can_unsync hw active disallowed m ret m'.
Proof using KO LM.
  intros Hok Hx Had Hns Hf Hhash Hact Hdis. unfold set_spte. rewrite Hns, Hx. cbn [mbind option_bind]. rewrite Had.
  pose proof (leaf_spte_entry g env pte_access level gfn pfn speculative hw LM Hf) as Hv0.
  set (v0 := leaf_spte _ _ _ _ _ _ _ _ _) in *. set (acc := if hw then pte_access else _).
  destruct (truth (Z.land acc ACC_WRITE_MASK)) eqn:Hw.
  - assert (hw = true) as ->.
    { destruct hw; [done|]. unfold acc in Hw. exfalso. revert Hw.
      replace (Z.land (Z.land pte_access (not32 ACC_WRITE_MASK)) ACC_WRITE_MASK) with 0; [done|].
      symmetry. apply Z.bits_inj'. intros i Hi. unfold ACC_WRITE_MASK, PT_WRITABLE_MASK, PT_WRITABLE_SHIFT.
      autorewrite with bits. destruct (i =? 1) eqn:Ei; [|by rewrite andb_false_r]. cbn. by rewrite !andb_false_r. }
    unfold acc in Hw. set (d := if level >? _ then _ else _).
    assert (Hd : ∃ b, d = Some b ∧ (b = true → disallowed = true ∧ level > PT_PAGE_TABLE_LEVEL)).
    { unfold d. destruct (level >? PT_PAGE_TABLE_LEVEL) eqn:El; [|by exists false].
      apply Z.gtb_lt in El. rewrite Hdis by lia. exists disallowed. split; [done|]. intros ->. split; [done|lia]. }
    destruct Hd as (b & -> & Hb). cbn [mbind option_bind]. destruct b.
    { exists 0, m. split; [done|]. destruct (Hb eq_refl). by apply set_refused. }
    pose proof (leaf_grant g level pfn v0 true Hv0) as Hv1.
    destruct (negb can_unsync && is_writable_pte (ptes (ms_mmu m) p)) eqn:Eo.
    + apply andb_true_iff in Eo as [Eo1%negb_true_iff Eo2]. eexists _, _. split; [reflexivity|].
      eapply (set_done _ _ _ _ _ _ _ _ _ _ _ _ m.(ms_shadow) _ true); try done; [apply store_spte_written| |by right].
      intros _. split_and!; [done|done|by left].
    + destruct (need_write_protect_ok g env page_header page_of gfn_to_memslot vcpu_gfn_to_memslot LL DD gfn can_unsync active
                  _ Hok Hhash Hact) as (b & s1 & -> & Hok1 & U1 & Hmay). cbn [mbind option_bind]. destruct b.
      * pose proof (leaf_revoke g level pfn _ true Hf Hv1) as Hv2.
        destruct (finish_spte_written p gfn _ level pfn true false speculative (m <| ms_shadow := s1 |>) Hf Hv2)
          as (v' & W & Hv' & _ & R1 & R2). eexists _, _. split; [reflexivity|].
        apply (set_done _ _ _ _ _ _ _ _ _ _ _ _ s1 v' false); auto. done.
      * destruct (finish_spte_written p gfn _ level pfn true true speculative (m <| ms_shadow := s1 |>) Hf Hv1)
          as (v' & W & Hv' & Hdirty & R1 & R2). eexists _, _. split; [reflexivity|].
        apply (set_done _ _ _ _ _ _ _ _ _ _ _ _ s1 v' true); auto; [|done].
        intros _. split_and!; [done|done|]. right. split; [|by apply Hdirty].
        eapply may_write_written; [exact W|]. by apply Hmay.
  - destruct (finish_spte_written p gfn v0 level pfn hw false speculative m Hf Hv0) as (v' & W & Hv' & _ & R1 & R2).
    eexists _, _. split; [reflexivity|].
    apply (set_done _ _ _ _ _ _ _ _ _ _ _ _ m.(ms_shadow) v' false); try done; [|by right].
    intros _ Hhw Hacc. unfold acc in Hw. rewrite Hhw in Hw. congruence.
Qed.

(** ** The entry that was there *)

Lemma owner_none_absent (s : shadow_state) (p : Z) (sp : mmu_page) :
  entries_ok g page_header page_of gfn_to_memslot LL s → (mmu s).(pages) !! page_header p = Some sp → entry_in sp p = true →
  owner_of s p = None → is_shadow_present_pte g ((mmu s).(ptes) p) = false.
Proof using Type.
  intros E Hsp Hp Ho. rewrite (owner_at _ _ _ _ s sp _ p Hsp eq_refl Hp) in Ho. unfold value_owner in Ho.
  destruct (is_shadow_present_pte g _) eqn:Hpr; [|done]. cbn [negb] in Ho. destruct (is_last_spte _ _); [|done].
  destruct (key_exists page_header gfn_to_memslot s sp _ p Hsp eq_refl (en_pages _ _ _ _ _ _ E _ _ Hsp) Hp) as [k Hk].
  rewrite Hk in Ho. done.
Qed.

(** What stays when an entry is dropped. *)
Record kept (s s' : shadow_state) : Prop := {
  kp_pages : (mmu s').(pages) = (mmu s).(pages);
  kp_cache : (mmu s').(dmem).(desc_cache) = (mmu s).(dmem).(desc_cache);
  kp_ext : ∀ a, ∃ h, s'.(ss_ext) !! a = (λ x, x <| px_parents := h |>) <$> s.(ss_ext) !! a;
  kp_track : s'.(ss_track) = s.(ss_track) <| tk_mmu := mmu s' |>;
  kp_hash : s'.(ss_hash) = s.(ss_hash);
  kp_gen : s'.(ss_valid_gen) = s.(ss_valid_gen)
}.

Lemma dropped_kept (P : Z → Prop) (s s' : shadow_state) : dropped P s s' → kept s (remote_flush s').
Proof using Type.
  intros [D1 D2 D3 D4 D5 D6 D7]. split; try done.
  - intros a. eexists. apply D5.
  - cbn. by rewrite D6.
  - by rewrite D7.
  - by rewrite D7.
Qed.

Lemma flush_same (LL' DD' : owner → list Z) (s : shadow_state) : shadow_ok LL' DD' s → shadow_ok LL' DD' (remote_flush s).
Proof using Type. apply shadow_same. done. Qed.

Lemma drop_old_spte_ok (p level pfn : Z) (sp : mmu_page) (s : shadow_state) :
  shadow_ok LL DD s → (mmu s).(pages) !! page_header p = Some sp → entry_in sp p = true →
  sp.(role_level) = level → 1 <= level →
  ∃ was s1 LL1 DD1, drop_old_spte g page_header page_of gfn_to_memslot p level pfn s = Some (was, s1) ∧
    shadow_ok LL1 DD1 s1 ∧ kept s s1 ∧
    (((mmu s1).(ptes) p = (mmu s).(ptes) p ∨ (mmu s1).(ptes) p = 0) ∧ ∀ q, q ≠ p → (mmu s1).(ptes) q = (mmu s).(ptes) q) ∧
    (was = true → s1 = s ∧ LL1 = LL ∧ DD1 = DD ∧ ∃ k, owner_of s p = Some (Rm k)) ∧
    (was = false → owner_of s1 p = None).
Proof using Type.
  intros Hok Hsp Hp Hlv Hlv1. pose proof (sk_entries _ _ _ _ _ _ _ Hok) as E. unfold drop_old_spte.
  set (v := ptes (mmu s) p). pose proof (owner_at g page_header page_of gfn_to_memslot s sp _ p Hsp eq_refl Hp) as Ho. fold v in Ho.
  assert (Hkeep : kept s s).
  { split; try done. intros a. destruct (ss_ext s !! a) as [x|] eqn:Ex.
    - exists x.(px_parents). by destruct x.
    - by exists 0. }
  assert (Habs : ∀ P s1, dropped P s s1 → P p → owner_of (remote_flush s1) p = None).
  { intros P s1 D HP. destruct (owner_of (remote_flush s1) p) as [o|] eqn:Eo; [|done].
    destruct (owner_elim _ _ _ _ _ _ _ Eo) as (_ & _ & _ & Hpr & _). cbn in Hpr. rewrite (dr_in _ _ _ D p HP) in Hpr. done. }
  destruct (is_shadow_present_pte g v) eqn:Hpr.
  assert (Hclear : ∀ s1, dropped (λ q, q = p) s s1 →
    (ptes (mmu (remote_flush s1)) p = ptes (mmu s) p ∨ ptes (mmu (remote_flush s1)) p = 0) ∧
    ∀ q, q ≠ p → ptes (mmu (remote_flush s1)) q = ptes (mmu s) q).
  { intros s1 D. split; [right; exact (dr_in _ _ _ D p eq_refl)|]. exact (dr_out _ _ _ D). }
  2:{ exists false, s, LL, DD. split; [done|]. split; [done|]. split; [done|]. split; [split; [by left|done]|]. split; [done|]. intros _. rewrite Ho. unfold value_owner. by rewrite Hpr. }
  unfold value_owner in Ho. rewrite Hpr, Hlv in Ho. cbn [negb] in Ho.
  destruct ((level >? PT_PAGE_TABLE_LEVEL) && negb (is_large_pte v)) eqn:El.
  - apply andb_true_iff in El as [El1%Z.gtb_lt El2%negb_true_iff]. unfold PT_PAGE_TABLE_LEVEL in El1.
    unfold is_last_spte in Ho. rewrite (proj2 (Z.eqb_neq level PT_PAGE_TABLE_LEVEL)), El2 in Ho by (unfold PT_PAGE_TABLE_LEVEL; lia).
    destruct (drop_parent_ok g page_header page_of gfn_to_memslot LL DD s p _ Hok Ho) as (s1 & l' & ds' & -> & _ & Hok1 & D).
    cbn [mbind option_bind]. eexists false, (remote_flush s1), _, _. split; [reflexivity|].
    split; [by apply flush_same|]. split; [by eapply dropped_kept|]. split; [by apply Hclear|]. split; [done|]. intros _. by apply (Habs _ _ D).
  - assert (Hlast : is_last_spte v level = true).
    { unfold is_last_spte. destruct (Z.eqb_spec level PT_PAGE_TABLE_LEVEL) as [|Hne]; [done|].
      rewrite (proj2 (Z.gtb_lt level PT_PAGE_TABLE_LEVEL)) in El by (unfold PT_PAGE_TABLE_LEVEL in *; lia). cbn in El.
      apply negb_false_iff in El. by rewrite El. }
    rewrite Hlast in Ho. destruct (key_exists page_header gfn_to_memslot s sp _ p Hsp eq_refl (en_pages _ _ _ _ _ _ E _ _ Hsp) Hp) as [k Hk].
    rewrite Hk in Ho. cbn in Ho. destruct (negb (pfn =? spte_to_pfn v)).
    + destruct (drop_spte_ok g page_header page_of gfn_to_memslot LL DD s p k Hok Ho) as (st1 & l' & ds' & -> & _ & Hok1 & D).
      cbn [mbind option_bind]. eexists false, (remote_flush (set_mmu st1 s)), _, _. split; [reflexivity|].
      split; [by apply flush_same|]. split; [by eapply dropped_kept|]. split; [by apply Hclear|]. split; [done|]. intros _. by apply (Habs _ _ D).
    + exists true, s, LL, DD. split; [done|]. split; [done|]. split; [done|]. split; [split; [by left|done]|]. split; [|done].
      intros _. split_and!; try done. by exists k.
Qed.
End SetEntry.

(* ------------------------------------------------------------------ *)
(** ** [mmu_set_spte] *)

Lemma is_active_mmu `{T : KvmTrack} (slot_of : Z → option vmrun_memory_slot) (gfn mode : Z) (active : bool)
    (t : track_state) (st : mmu_state) :
  vmrun_page_track_is_active slot_of gfn mode t = Some (active, t) →
  vmrun_page_track_is_active slot_of gfn mode (t <| tk_mmu := st |>) = Some (active, t <| tk_mmu := st |>).
Proof.
  unfold vmrun_page_track_is_active. destruct (negb (page_track_mode_is_valid mode)).
  - intros [= _ H]. apply (f_equal tk_warns) in H. cbn in H. lia.
  - destruct (slot_of gfn) as [slot|]; [|by intros [= <-]]. cbn. destruct (load _ _ _); [|done]. cbn. by intros [= <-].
Qed.

Section Map.
Context `{K : KvmPte, KO : !KvmPteOk K} `{T : KvmTrack} (g : shadow_masks) (env : map_env) (page_header page_of : Z → Z)
        (gfn_to_memslot : bool → Z → vmrun_memory_slot) (vcpu_gfn_to_memslot : Z → option vmrun_memory_slot).
Context (LM : leaf_masks g env).

Notation shadow_ok := (shadow_ok g page_header page_of gfn_to_memslot).
Notation owner_of := (owner_of g page_header page_of gfn_to_memslot).
Notation leaf_entry := (leaf_entry g).

(** The calls [mmu_set_spte] is made for: the entry is one of a shadow page of
    the right level, the frame of the entry of a direct page is [gfn], and a
    descriptor is in the cache. *)
Record map_request (sptep level gfn pfn : Z) (sp : mmu_page) (x : page_ext) (active disallowed : bool)
    (s : shadow_state) : Prop := {
  rq_page : (mmu s).(pages) !! page_header sptep = Some sp;
  rq_ext : s.(ss_ext) !! page_header sptep = Some x;
  rq_entry : entry_in sp sptep = true;
  rq_level : sp.(role_level) = level ∧ 1 <= level;
  rq_ad : sp_ad_disabled x = false;
  rq_gfn : sp.(role_direct) = true → vmrun_mmu_page_get_gfn sp (spte_index sp sptep) = Some gfn;
  rq_frame : env.(me_noslot) pfn = false ∧ frame_ok pfn;
  rq_cache : (mmu s).(dmem).(desc_cache) ≠ [];
  rq_hash : ∀ a, a ∈ hash_chain env gfn s → is_Some (s.(ss_ext) !! a);
  rq_active : vmrun_page_track_is_active vcpu_gfn_to_memslot gfn KVM_PAGE_TRACK_WRITE s.(ss_track) = Some (active, s.(ss_track));
  rq_lpage : level > PT_PAGE_TABLE_LEVEL →
    mmu_gfn_lpage_is_disallowed vcpu_gfn_to_memslot gfn level s.(ss_track).(tk_heap) = Some disallowed
}.

Lemma request_kept (sptep level gfn pfn : Z) (sp : mmu_page) (x : page_ext) (active disallowed : bool) (s s1 : shadow_state) :
  kept s s1 → map_request sptep level gfn pfn sp x active disallowed s →
  ∃ x1, map_request sptep level gfn pfn sp x1 active disallowed s1.
Proof using Type.
  intros [P1 P2 P3 P4 P5 P6] [R1 R2 R3 R4 R5 R6 R7 R8 R9 R10 R11].
  destruct (P3 (page_header sptep)) as [h Hx]. rewrite R2 in Hx. cbn in Hx. exists (x <| px_parents := h |>). split; try done; [by rewrite P1|by rewrite P2| | |].
  - intros a. unfold hash_chain. rewrite P5. intros Ha. destruct (P3 a) as [h' ->]. apply fmap_is_Some. by apply R9.
  - rewrite P4. by apply is_active_mmu.
  - intros Hl. rewrite P4. cbn. by apply R11.
Qed.

(** Whether the result is the entry mapped, refused or given up again. *)
Inductive map_result (sptep pte_access level gfn pfn : Z) (sp : mmu_page) (write_fault hw active disallowed emulate : bool)
    (old : Z) (LL' : owner → list Z) (m' : map_state) : Prop :=
| map_refused :
    disallowed = true → level > PT_PAGE_TABLE_LEVEL → (ms_mmu m').(ptes) sptep = old ∨ (ms_mmu m').(ptes) sptep = 0 →
    map_result sptep pte_access level gfn pfn sp write_fault hw active disallowed emulate old LL' m'
| map_recycled :
    LL' (Rm (gfn_to_rmap gfn_to_memslot gfn sp)) = [] → (ms_mmu m').(ptes) sptep = 0 →
    map_result sptep pte_access level gfn pfn sp write_fault hw active disallowed emulate old LL' m'
| map_done (w : bool) (k : rmap_key) :
    leaf_entry level pfn hw w ((ms_mmu m').(ptes) sptep) →
    sptep ∈ LL' (Rm k) → (sp.(role_direct) = true → k = gfn_to_rmap gfn_to_memslot gfn sp) →
    (w = true → hw = true ∧ truth (Z.land pte_access ACC_WRITE_MASK) = true ∧
                may_write env gfn active m'.(ms_shadow) ∧ gfn ∈ m'.(ms_dirty)) →
    (w = false → hw = true → truth (Z.land pte_access ACC_WRITE_MASK) = true → write_fault = true → emulate = true) →
    map_result sptep pte_access level gfn pfn sp write_fault hw active disallowed emulate old LL' m'.

(** The owner of a stored leaf value. *)
Lemma stored_owner (s s' : shadow_state) (p v level pfn : Z) (hw w : bool) (sp : mmu_page) (k : rmap_key) :
  stored p v s s' → (mmu s).(pages) !! page_header p = Some sp → entry_in sp p = true → sp.(role_level) = level → 1 <= level →
  frame_ok pfn → leaf_entry level pfn hw w v → spte_key page_header gfn_to_memslot (mmu s) p = Some k →
  owner_of s' p = Some (Rm k).
Proof using KO LM.
  intros [S1 S2 _ _ _] Hsp Hp Hlv Hlv1 Hf Hv Hk. rewrite (owner_at _ _ _ _ s' sp _ p) by (rewrite ?S2; done).
  unfold value_owner. rewrite S1, set_pte_eq, (leaf_present g env _ _ _ _ _ LM Hf Hv), Hlv, (leaf_last g _ _ _ _ _ Hlv1 Hf Hv).
  cbn [negb]. unfold spte_key in *. rewrite S2. rewrite Hk. done.
Qed.

Lemma written_trans_stats (p v : Z) (b : bool) (s s' : shadow_state) :
  written p v s s' →
  written p v s (if b then upd_mmu (λ st, st <| stat_lpages ::= λ n, n + 1 |>) s' else s').
Proof using Type. intros [[S1 S2 S3 S4 S5] H1 H2 H3]. by destruct b. Qed.

Lemma may_write_same (gfn : Z) (active : bool) (s s' : shadow_state) :
  (∀ a sp', (mmu s').(pages) !! a = Some sp' → ∃ sp, (mmu s).(pages) !! a = Some sp ∧
     sp'.(sp_gfn) = sp.(sp_gfn) ∧ sp'.(role_direct) = sp.(role_direct)) →
  s'.(ss_ext) = s.(ss_ext) → s'.(ss_hash) = s.(ss_hash) → s'.(ss_valid_gen) = s.(ss_valid_gen) →
  may_write env gfn active s → may_write env gfn active s'.
Proof using Type.
  intros Hp He Hh Hg [Ha Ht]. split; [done|]. intros a sp' x. unfold hash_chain. rewrite Hh, He. intros Hin Hsp' Hx Hv.
  destruct (Hp a sp' Hsp') as (sp & Hsp & E1 & E2). apply (Ht a sp x Hin Hsp Hx).
  unfold gfn_indirect_valid, is_obsolete_sp in *. by rewrite <- E1, <- E2, <- Hg.
Qed.

Lemma set_gfn_fields (sp sp' : mmu_page) (i gfn : Z) :
  vmrun_mmu_page_set_gfn sp i gfn = Some sp' → sp'.(sp_gfn) = sp.(sp_gfn) ∧ sp'.(role_direct) = sp.(role_direct).
Proof using Type.
  unfold vmrun_mmu_page_set_gfn. destruct (role_direct sp) eqn:Ed.
  - destruct (vmrun_mmu_page_get_gfn sp i); [|done]. cbn. destruct (negb _); [done|]. by intros [= <-].
  - intros [= <-]. done.
Qed.

(** The new entry in its reverse map. *)
Lemma rmap_new_spte_ok (LL DD : owner → list Z) (s2 s3 : shadow_state) (p v gfn level pfn : Z) (hw w : bool) (sp : mmu_page) :
  shadow_ok LL DD s2 → written p v s2 s3 → owner_of s2 p = None →
  (mmu s2).(pages) !! page_header p = Some sp → entry_in sp p = true → sp.(role_level) = level → 1 <= level →
  (sp.(role_direct) = true → vmrun_mmu_page_get_gfn sp (spte_index sp p) = Some gfn) →
  frame_ok pfn → leaf_entry level pfn hw w v → (mmu s2).(dmem).(desc_cache) ≠ [] →
  let k := gfn_to_rmap gfn_to_memslot gfn sp in
  ∃ s4 LL' DD', rmap_new_spte g page_header gfn_to_memslot p gfn s3 = Some s4 ∧ shadow_ok LL' DD' s4 ∧
    (∀ q, q ≠ p → (mmu s4).(ptes) q = (mmu s3).(ptes) q ∨ ((mmu s4).(ptes) q = 0 ∧ owner_of s2 q = Some (Rm k))) ∧
    (sp.(role_direct) = true → (mmu s4).(pages) = (mmu s3).(pages)) ∧
    ((LL' (Rm k) = [] ∧ (mmu s4).(ptes) p = 0) ∨
     ((mmu s4).(ptes) p = v ∧ p ∈ LL' (Rm k) ∧ (∀ active, may_write env gfn active s3 → may_write env gfn active s4))).
Proof using KO LM.
  intros Hok [W H1 H2 H3] Hno Hsp Hp Hlv Hlv1 Hd Hf Hv Hc k.
  destruct (rmap_add_ok g page_header page_of gfn_to_memslot LL DD s2 s3 sp p v gfn Hok W Hsp Hp Hno
              (leaf_present g env _ _ _ _ _ LM Hf Hv) ltac:(rewrite Hlv; by eapply leaf_last) Hd Hc)
    as (n & sp' & h & m' & l' & ds' & E & Hl & Hok4 & Eset & Hown & _).
  cbv zeta in E, Hok4, Hown. fold k in E, Hl, Hok4, Hown. set (st4 := _ <| dmem := m' |>) in E, Hok4, Hown.
  unfold rmap_new_spte. rewrite E. cbn [mbind option_bind]. fold st4.
  assert (Hsame : role_direct sp = true → pages st4 = pages (mmu s3)).
  { intros Hdir. cbn. apply insert_id. rewrite (so_pages _ _ _ _ W), Hsp. revert Eset. unfold vmrun_mmu_page_set_gfn.
    rewrite Hdir, (Hd Hdir). cbn. destruct (negb _); [done|]. by intros [= <-]. }
  destruct (n >? RMAP_RECYCLE_THRESHOLD).
  - unfold rmap_recycle. assert (Hsp4 : (mmu (set_mmu st4 s3)).(pages) !! page_header p = Some sp') by (cbn; apply lookup_insert_eq).
    rewrite Hsp4. cbn [mbind option_bind].
    assert (Ek : gfn_to_rmap gfn_to_memslot gfn sp' = k).
    { unfold k, gfn_to_rmap. assert (role_level sp' = role_level sp ∧ role_smm sp' = role_smm sp) as [-> ->]; [|done].
      revert Eset. unfold vmrun_mmu_page_set_gfn. destruct (role_direct sp); [|by intros [= <-]].
      destruct (vmrun_mmu_page_get_gfn _ _); [|done]. cbn. destruct (negb _); [done|]. by intros [= <-]. }
    rewrite Ek. destruct (zap_rmapp_ok g page_header page_of gfn_to_memslot _ _ (set_mmu st4 s3) k Hok4) as (st5 & ds5 & E5 & Hok5 & D5).
    unfold vmrun_unmap_rmapp. rewrite E5. cbn [mbind option_bind]. eexists _, _, _. split; [reflexivity|].
    split; [by apply flush_same|].
    destruct (dropped_clears (λ q, q ∈ upd_owner LL (Rm k) l' (Rm k)) _ _ D5) as [O1 O2].
    split.
    { intros q Hq. destruct (decide (q ∈ upd_owner LL (Rm k) l' (Rm k))) as [Hin|Hin]; [right|left; exact (dr_out _ _ _ D5 q Hin)].
      split; [exact (dr_in _ _ _ D5 q Hin)|]. rewrite upd_owner_eq, Hl in Hin. apply elem_of_cons in Hin as [?|Hin]; [done|].
      by apply (en_member _ _ _ _ _ _ (sk_entries _ _ _ _ _ _ _ Hok) (Rm k) q I). }
    split; [intros Hdir; change (pages st5 = pages (mmu s3)); rewrite <- (Hsame Hdir); exact O2|].
    left. split; [apply upd_owner_eq|]. cbn. apply (dr_in _ _ _ D5 p).
    rewrite upd_owner_eq, Hl. by left.
  - eexists _, _, _. split; [reflexivity|]. split; [exact Hok4|]. split; [by left|]. split; [exact Hsame|]. right. split_and!.
    + cbn. rewrite (so_ptes _ _ _ _ W). apply set_pte_eq.
    + rewrite upd_owner_eq, Hl. by left.
    + intros active. apply may_write_same; try done. intros a sp1. cbn. destruct (decide (a = page_header p)) as [->|Hne].
      * rewrite lookup_insert_eq. intros [= <-]. exists sp. rewrite (so_pages _ _ _ _ W). split; [done|by eapply set_gfn_fields].
      * rewrite lookup_insert_ne by done. intros Ha. by exists sp1.
Qed.

Lemma unsyncs_request (sptep level gfn pfn : Z) (sp : mmu_page) (x : page_ext) (active disallowed : bool) (s s1 : shadow_state) :
  unsyncs s s1 → map_request sptep level gfn pfn sp x active disallowed s →
  (mmu s1).(pages) !! page_header sptep = Some sp ∧ (mmu s1).(dmem).(desc_cache) ≠ [] ∧
  ∀ q, owner_of s1 q = owner_of s q.
Proof using Type.
  intros [U1 _ _ _] [R1 _ _ _ _ _ _ R8 _ _ _]. unfold mmu. rewrite U1. split_and!; [done|done|].
  intros q. apply owner_of_same; unfold mmu; by rewrite U1.
Qed.

(** The rest of [mmu_set_spte] after [set_spte] wrote the entry. *)
Lemma map_written (LL DD : owner → list Z) (s1 : shadow_state) (m2 : map_state) (sptep pte_access level gfn pfn v : Z)
    (sp : mmu_page) (x : page_ext) (was write_fault hw active disallowed w emulate : bool) (old : Z) :
  map_request sptep level gfn pfn sp x active disallowed s1 → shadow_ok LL DD s1 →
  (if was then ∃ k, owner_of s1 sptep = Some (Rm k) else owner_of s1 sptep = None) →
  written sptep v s1 m2.(ms_shadow) → leaf_entry level pfn hw w v →
  (w = true → hw = true ∧ truth (Z.land pte_access ACC_WRITE_MASK) = true ∧
              may_write env gfn active m2.(ms_shadow) ∧ gfn ∈ m2.(ms_dirty)) →
  (w = false → hw = true → truth (Z.land pte_access ACC_WRITE_MASK) = true → write_fault = true → emulate = true) →
  ∃ s4 LL' DD', (if is_shadow_present_pte g v && negb was then rmap_new_spte g page_header gfn_to_memslot sptep gfn m2.(ms_shadow)
                 else Some m2.(ms_shadow)) = Some s4 ∧ shadow_ok LL' DD' s4 ∧
    (∀ q, q ≠ sptep → (mmu s4).(ptes) q = (mmu m2.(ms_shadow)).(ptes) q ∨
       ((mmu s4).(ptes) q = 0 ∧ owner_of s1 q = Some (Rm (gfn_to_rmap gfn_to_memslot gfn sp)))) ∧
    (sp.(role_direct) = true → (mmu s4).(pages) = (mmu m2.(ms_shadow)).(pages)) ∧
    map_result sptep pte_access level gfn pfn sp write_fault hw active disallowed emulate old LL' (m2 <| ms_shadow := s4 |>).
Proof using KO LM.
  intros [R1 R2 R3 [R4 R4'] R5 R6 [_ R7] R8 R9 R10 R11] Hok Hwas W Hv Hw1 Hw0.
  rewrite (leaf_present g env _ _ _ _ _ LM R7 Hv). cbn [andb]. destruct was; cbn [negb].
  - destruct Hwas as [k Ho]. exists m2.(ms_shadow), LL, DD. split; [done|].
    destruct (owner_elim _ _ _ _ s1 sptep _ Ho) as (sp1 & Hsp1 & _ & _ & Hv1). rewrite R1 in Hsp1. injection Hsp1 as <-.
    destruct (value_leaf _ _ _ _ _ _ _ _ _ Hv1) as [_ Hk].
    assert (Hok' : shadow_ok LL DD m2.(ms_shadow)).
    { eapply store_same_owner; [exact Hok|apply W|]. rewrite Ho. eapply stored_owner; [apply W|done..]. }
    split; [done|]. split; [by left|]. split; [done|]. apply (map_done _ _ _ _ _ _ _ _ _ _ _ _ _ _ w k).
    + change (leaf_entry level pfn hw w (ptes (mmu m2.(ms_shadow)) sptep)).
      rewrite (so_ptes _ _ _ _ (wr_stored _ _ _ _ W)), set_pte_eq. done.
    + apply (en_member _ _ _ _ _ _ (sk_entries _ _ _ _ _ _ _ Hok') (Rm k) sptep I). eapply stored_owner; [apply W|done..].
    + intros Hd. unfold spte_key in Hk. rewrite R1 in Hk. cbn in Hk. rewrite (R6 Hd) in Hk. by injection Hk.
    + exact Hw1.
    + exact Hw0.
  - destruct (rmap_new_spte_ok LL DD s1 m2.(ms_shadow) sptep v gfn level pfn hw w sp Hok W Hwas R1 R3 R4 R4' R6 R7 Hv R8)
      as (s4 & LL' & DD' & E & Hok4 & Ho & Hpg & Hres). exists s4, LL', DD'. split; [done|]. split; [done|]. split; [done|]. split; [done|].
    destruct Hres as [[Hl Hz]|(Hv4 & Hin & Hmay)]; [by apply map_recycled|].
    apply (map_done _ _ _ _ _ _ _ _ _ _ _ _ _ _ w (gfn_to_rmap gfn_to_memslot gfn sp)); try done.
    + change (leaf_entry level pfn hw w (ptes (mmu s4) sptep)). by rewrite Hv4.
    + intros Hw. destruct (Hw1 Hw) as (? & ? & ? & ?). split_and!; [done|done|by apply Hmay|done].
Qed.

Lemma mmu_set_spte_spec (LL DD : owner → list Z) (m : map_state) (sptep pte_access level gfn pfn : Z)
    (write_fault speculative hw active disallowed : bool) (sp : mmu_page) (x : page_ext) :
  shadow_ok LL DD m.(ms_shadow) →
  map_request sptep level gfn pfn sp x active disallowed m.(ms_shadow) →
  ∃ emulate m' LL' DD',
    mmu_set_spte g env page_header page_of gfn_to_memslot vcpu_gfn_to_memslot sptep pte_access write_fault level gfn pfn
      speculative hw m = Some (emulate, m') ∧
    shadow_ok LL' DD' m'.(ms_shadow) ∧ m'.(ms_released) = m.(ms_released) ++ [pfn] ∧
    map_result sptep pte_access level gfn pfn sp write_fault hw active disallowed emulate ((ms_mmu m).(ptes) sptep) LL' m' ∧
    (∀ q, q ≠ sptep → (ms_mmu m').(ptes) q = (ms_mmu m).(ptes) q ∨
       ((ms_mmu m').(ptes) q = 0 ∧ owner_of m.(ms_shadow) q = Some (Rm (gfn_to_rmap gfn_to_memslot gfn sp)))) ∧
    (sp.(role_direct) = true → (ms_mmu m').(pages) = (ms_mmu m).(pages)).
Proof using KO LM.
  intros Hok Hrq. pose proof Hrq as [R1 R2 R3 [R4 R4'] _ _ [_ R7] _ _ _ _].
  destruct (drop_old_spte_ok g page_header page_of gfn_to_memslot LL DD sptep level pfn sp _ Hok R1 R3 R4 R4')
    as (was & s1 & LL1 & DD1 & E1 & Hok1 & Hkept & [C1 C3] & Hwas & Hnot). pose proof (kp_pages _ _ Hkept) as C2.
  destruct (request_kept _ _ _ _ _ _ _ _ _ _ Hkept Hrq) as [x1 Hrq1].
  unfold mmu_set_spte. rewrite E1. cbn [mbind option_bind].
  assert (Howner : if was then ∃ k, owner_of s1 sptep = Some (Rm k) else owner_of s1 sptep = None).
  { destruct was; [|by apply Hnot]. by destruct (Hwas eq_refl) as (-> & _ & _ & ?). }
  pose proof Hrq1 as [Q1 Q2 Q3 Q4 Q5 Q6 [Q7 _] Q8 Q9 Q10 Q11].
  set (m1 := m <| ms_shadow := s1 |>).
  destruct (set_spte_ok g env page_header page_of gfn_to_memslot vcpu_gfn_to_memslot LM LL1 DD1 sptep pte_access level gfn pfn
              speculative true hw active disallowed m1 x1 Hok1 Q2 Q5 Q7 R7 Q9 Q10 Q11)
    as (ret & m2 & -> & Hres). cbn [mbind option_bind].
  set (m3 := if truth ret then _ else m2).
  assert (Hm3 : m3.(ms_shadow) = m2.(ms_shadow) ∧ m3.(ms_dirty) = m2.(ms_dirty) ∧ m3.(ms_released) = m2.(ms_released))
    by (unfold m3; by destruct (truth ret)). destruct Hm3 as (M1 & M2 & M3).
  set (v := ptes (ms_mmu m3) sptep). set (emulate := truth ret && write_fault || is_mmio_spte g v).
  set (m4 := if negb was && is_large_pte v then _ else m3).
  assert (Hm4 : m4.(ms_shadow) = (if negb was && is_large_pte v then upd_mmu (λ st, st <| stat_lpages ::= λ n, n + 1 |>) m3.(ms_shadow)
                                  else m3.(ms_shadow)) ∧ m4.(ms_dirty) = m3.(ms_dirty) ∧ m4.(ms_released) = m3.(ms_released))
    by (unfold m4; by destruct (negb was && is_large_pte v)). destruct Hm4 as (N1 & N2 & N3).
  destruct Hres as [-> -> Hdis Hlv|s2 v2 w Hok2 U2 W2 Hv2 Hw1 Hw0 Hret _ Hrel].
  - assert (Habs : is_shadow_present_pte g v && negb was = false).
    { destruct was; [apply andb_false_r|]. rewrite andb_true_r. unfold v, ms_mmu. rewrite M1. cbn.
      by apply (owner_none_absent g page_header page_of gfn_to_memslot LL1 s1 sptep sp (sk_entries _ _ _ _ _ _ _ Hok1)). }
    rewrite Habs. cbn [mbind option_bind]. eexists emulate, _, LL1, DD1. split; [reflexivity|].
    assert (Hm : (ms_mmu m4).(ptes) = (mmu s1).(ptes) ∧ (ms_mmu m4).(pages) = (mmu s1).(pages)).
    { unfold ms_mmu. rewrite N1, M1. by destruct (negb was && is_large_pte v). } destruct Hm as [Hm1 Hm2].
    split; [|split; [|split; [|split]]].
    + cbn. rewrite N1, M1. cbn. destruct (negb was && is_large_pte v); [|done]. eapply shadow_same; [|exact Hok1]. done.
    + cbn. rewrite N3, M3. done.
    + apply map_refused; [done|done|]. change (ptes (ms_mmu m4) sptep = ptes (ms_mmu m) sptep ∨ ptes (ms_mmu m4) sptep = 0).
      rewrite Hm1. apply C1.
    + intros q Hq. left. change (ptes (ms_mmu m4) q = ptes (ms_mmu m) q). rewrite Hm1. by apply C3.
    + intros _. change (pages (ms_mmu m4) = pages (ms_mmu m)). by rewrite Hm2.
  - assert (Ev : v = v2) by (unfold v, ms_mmu; rewrite M1, (so_ptes _ _ _ _ (wr_stored _ _ _ _ W2)); apply set_pte_eq).
    pose proof (unsyncs_request _ _ _ _ _ _ _ _ _ _ U2 Hrq1) as (P1 & P2 & P3). cbn [ms_shadow] in U2.
    assert (Hrq2 : ∃ x2, map_request sptep level gfn pfn sp x2 active disallowed s2).
    { destruct (us_page _ _ U2 _ _ Q2) as (x2 & Hx2 & _ & _ & Hr & _). exists x2. destruct U2 as [U1 U3 U4 U5].
      split; try done; unfold sp_ad_disabled, hash_chain, mmu; rewrite ?Hr, ?U1, ?U3; try done.
      intros a Ha. destruct (Q9 a Ha) as [y Hy]. destruct (U5 a y Hy) as (y' & -> & _). by eexists. }
    destruct Hrq2 as [x2 Hrq2].
    destruct (map_written LL1 DD1 s2 m4 sptep pte_access level gfn pfn v sp x2 was write_fault hw active disallowed w emulate ((ms_mmu m).(ptes) sptep) Hrq2 Hok2)
      as (s4 & LL' & DD' & E4 & Hok4 & Ho4 & Hp4 & Hmap).
    + destruct was; [destruct Howner as [k Hk]; exists k|]; by rewrite P3.
    + rewrite N1, M1, Ev. by apply written_trans_stats.
    + by rewrite Ev.
    + intros Hw. destruct (Hw1 Hw) as (H1 & H2 & [[H3 _]|[H3 H4]]); [done|]. split_and!; [done|done| |by rewrite N2, M2].
      rewrite N1, M1. destruct (negb was && is_large_pte v); [|done]. revert H3. apply may_write_same; try done.
      intros a sp'. cbn. intros Ha. by exists sp'.
    + intros Hw Hh Ha Hf. unfold emulate. rewrite (Hw0 Hw Hh Ha), Hf. done.
    + assert (Hm : (∀ q, q ≠ sptep → (mmu m4.(ms_shadow)).(ptes) q = (mmu s1).(ptes) q) ∧ (mmu m4.(ms_shadow)).(pages) = (mmu s1).(pages)).
      { destruct W2 as [[S1 S2 _ _ _] _ _ _]. rewrite N1, M1.
        assert (Ht : mmu s2 = mmu s1) by (unfold mmu; by rewrite (us_track _ _ U2)).
        destruct (negb was && is_large_pte v); cbn; rewrite S1, S2, Ht; (split; [intros q Hq; by apply set_pte_ne|done]). }
      destruct Hm as [Hm1 Hm2].
      rewrite E4. cbn [mbind option_bind]. eexists emulate, _, LL', DD'. split; [reflexivity|]. split; [done|].
      split; [cbn; by rewrite N3, M3, Hrel|]. split; [|split].
      * destruct Hmap as [H1 H2 H3|H1 H2|w' k H1 H2 H3 H4 H5];
          [by apply map_refused|by apply map_recycled|by apply (map_done _ _ _ _ _ _ _ _ _ _ _ _ _ _ w' k)].
      * intros q Hq. change (ptes (mmu s4) q = ptes (ms_mmu m) q ∨
          (ptes (mmu s4) q = 0 ∧ owner_of (ms_shadow m) q = Some (Rm (gfn_to_rmap gfn_to_memslot gfn sp)))).
        destruct (Ho4 q Hq) as [->|[-> Ho]]; [left; rewrite Hm1 by done; by apply C3|]. right. split; [done|].
        rewrite <- Ho, P3. symmetry. apply owner_of_same; [by apply C3|done].
      * intros Hdir. change (pages (mmu s4) = pages (ms_mmu m)). rewrite (Hp4 Hdir), Hm2. exact C2.
Qed.

End Map.

(* ------------------------------------------------------------------ *)
(** ** An example: frame 1 is mapped in the tree of ShadowPageProps *)

Definition map_x86 : map_env :=
  {| me_pfn_valid := λ _, true; me_zero_pfn := λ _, false; me_reserved := λ _, false; me_noslot := λ _, false;
     me_tdp := true; me_mt_mask := λ _ _, 0; me_generation := 0; me_hashfn := λ gfn, gfn mod 4096;
     me_pages := λ _ _ _, None |}.

Lemma kept_off_bits (m : Z) : Forall (λ i, Z.testbit m i = false) ([1; 7; 10; 11; 62] ++ seqZ 12 40) →
  keeps_off (K := kvm_pte_x86) m.
Proof.
  intros Hm i Hi Ho. rewrite Forall_forall in Hm. apply Hm. apply elem_of_app. unfold own_bit in Ho.
  rewrite !orb_true_iff, !Z.eqb_eq in Ho. destruct Ho as [Ho|Ho].
  - left. destruct Ho as [[[[->| ->]| ->]| ->]| ->]; set_solver.
  - right. apply elem_of_seqZ. pose proof (base_mask_bits (KO := kvm_pte_x86_ok) i Hi Ho). lia.
Qed.

Lemma x86_leaf_masks : leaf_masks (K := kvm_pte_x86) x86_masks map_x86.
Proof.
  split; try (intros; apply kept_off_bits, (bool_decide_unpack _); vm_compute; exact I); [|reflexivity].
  exists 0. split; [lia|]. split; reflexivity.
Qed.

Definition map_tree : shadow_state := (tree_state true) <| ss_track ::= λ t, t <| tk_heap := big_heap |> |>.
Definition map_lists (o : owner) : list Z := match o with Rm _ => [] | Pg a => tree_parents true a end.

Lemma tree_entry (a l p : Z) : entry_in (tree_page a l) p = true → tree_header p = a.
Proof.
  intros [Hi ->]%entry_index. unfold tree_header. change (sp_spt (tree_page a l)) with (0x1000 * a).
  change PT64_ENT_PER_PAGE with 512 in Hi. symmetry. apply (Z.div_unique _ _ _ (8 * spte_index (tree_page a l) p)); lia.
Qed.

Lemma tree_sps (a : Z) (sp : mmu_page) :
  (mmu map_tree).(pages) !! a = Some sp → (a = 1 ∧ sp = tree_page 1 3) ∨ (a = 2 ∧ sp = tree_page 2 2) ∨ (a = 3 ∧ sp = tree_page 3 1).
Proof.
  change (pages (mmu map_tree)) with ({[ 1 := tree_page 1 3; 2 := tree_page 2 2; 3 := tree_page 3 1 ]} : gmap Z mmu_page).
  intros [[<- <-]|[? [[<- <-]|[? [<- <-]%lookup_singleton_Some]]%lookup_insert_Some]]%lookup_insert_Some; auto.
Qed.

Definition tree_page_of (pa : Z) : Z := pa / 0x1000.
Definition tree_slot (smm : bool) (gfn : Z) : vmrun_memory_slot := big_slot.

(** The two entries of the tree and the lists they are in. *)
Lemma tree_owner (p : Z) (o : owner) :
  owner_of (K := kvm_pte_x86) x86_masks tree_header tree_page_of tree_slot map_tree p = Some o ↔
  (p = 0x1000 ∧ o = Pg 2) ∨ (p = 0x2000 ∧ o = Pg 3).
Proof.
  split.
  - intros Ho. destruct (owner_elim _ _ _ _ _ _ _ Ho) as (sp & Hsp & Hp & Hpr & Hv).
    change (ptes (mmu map_tree) p) with (if p =? 0x1000 then 0x2007 else if (p =? 0x2000) && true then 0x3007 else 0) in Hpr, Hv.
    destruct (Z.eqb_spec p 0x1000) as [->|H1]; [left; split; [done|]|].
    + apply tree_sps in Hsp as [[_ ->]|[[Hc _]|[Hc _]]]; [|by vm_compute in Hc|by vm_compute in Hc].
      vm_compute in Hv. by injection Hv as <-.
    + destruct (Z.eqb_spec p 0x2000) as [->|H2]; [right; split; [done|]|done].
      apply tree_sps in Hsp as [[Hc _]|[[_ ->]|[Hc _]]]; [by vm_compute in Hc| |by vm_compute in Hc].
      vm_compute in Hv. by injection Hv as <-.
  - intros [[-> ->]|[-> ->]]; vm_compute; reflexivity.
Qed.

Lemma map_tree_ok : shadow_ok (K := kvm_pte_x86) x86_masks tree_header tree_page_of tree_slot map_lists (λ _, []) map_tree.
Proof.
  assert (Hext : map_tree.(ss_ext) = (tree_state true).(ss_ext)) by done.
  split.
  - split.
    + intros [k|a]; cbn [owner_live owner_head].
      * intros _. unfold head_of. change (heads (mmu map_tree)) with (∅ : gmap rmap_key Z). rewrite lookup_empty. apply rep_none.
      * intros [x Hx]. rewrite Hx. cbn. rewrite Hext in Hx.
        apply tree_pages in Hx as [[-> ->]|[[-> ->]|[-> ->]]]; [apply rep_none|by apply rep_one|by apply rep_one].
    + intros o o' q _ _ _ Hq. by apply elem_of_nil in Hq.
    + intros o _. split; [by apply (bool_decide_unpack _)|]. intros q ->%list_elem_of_singleton. split; done.
  - split.
    + intros a sp Hsp. assert (∃ l, sp = tree_page a l ∧ 1 <= a <= 3) as (l & -> & Ha).
      { apply tree_sps in Hsp as [[-> ->]|[[-> ->]|[-> ->]]]; eexists; (split; [reflexivity|lia]). }
      split; [split|intros p; apply tree_entry|done].
      * split; [unfold is_u; cbn; lia|cbn; lia|]. change (sp_spt (tree_page a l)) with (0x1000 * a). by rewrite Z.even_mul.
      * cbn. change PT64_ENT_PER_PAGE with 512. lia.
    + intros a. change (pages (mmu map_tree)) with ({[ 1 := tree_page 1 3; 2 := tree_page 2 2; 3 := tree_page 3 1 ]} : gmap Z mmu_page).
      unfold map_tree, tree_state. cbn [put ss_ext]. rewrite <- !elem_of_dom, !dom_insert, !dom_singleton. done.
    + intros o p Hl. rewrite tree_owner. destruct o as [k|a]; cbn.
      * split; [by intros ?%elem_of_nil|]. by intros [[_ ?]|[_ ?]].
      * unfold tree_parents. destruct (Z.eqb_spec a 2) as [->|H2]; [|destruct (Z.eqb_spec a 3) as [->|H3]]; cbn.
        -- rewrite list_elem_of_singleton. split; [by left|]. by intros [[-> _]|[_ ?]].
        -- rewrite list_elem_of_singleton. split; [by right|]. by intros [[_ ?]|[-> _]].
        -- split; [by intros ?%elem_of_nil|]. intros [[_ [= ->]]|[_ [= ->]]]; done.
    + intros o p [[_ ->]|[_ ->]]%tree_owner; by eexists.
    + intros [k|a] _; cbn; [constructor|]. unfold tree_parents. destruct (a =? 2); [apply NoDup_singleton|].
      destruct ((a =? 3) && true); [apply NoDup_singleton|constructor].
  - rewrite Hext. apply (so_count _ _ _ _ _ (tree_shape true)).
  - intros a x p Ha Hx Hn Hp. exact (tree_unsync true a x p Ha Hx Hn Hp).
Qed.

Definition map_start : map_state := {| ms_shadow := map_tree; ms_dirty := []; ms_requests := 0; ms_released := [] |}.

