(* ===== verification/Notifier.v ===== *)
(** * The MMU notifier

    kernel/vmrun.c: what the host's memory management calls when it changes
    the page tables of the process behind a virtual machine.  A change of a
    range is bracketed by [invalidate_range_start] and [invalidate_range_end];
    page faults read [mmu_notifier_seq] before they ask for a host frame and
    check it, and [mmu_notifier_count], under the MMU lock before they map it
    (kernel/mmu.c).

    Each handler takes the MMU lock for its work, so it is one step of the
    state the lock protects.  [mmu_notifier_retry] is Linux's. *)

From S2P Require Import Prelude.
From S2P Require Import Spte.
From S2P Require Import Memslots.
From S2P Require Import PteList.
From S2P Require Import Rmap.
From S2P Require Import SlotWalk.
From S2P Require Import PageTrack.
From S2P Require Import ShadowPage.

(** The fields of [struct vmrun] the handlers use: [srcu] is the number of
    read sections that are open, [mmu_lock] whether the lock is held. *)
Record notifier_vm := {
  nv_shadow : shadow_state;
  mmu_notifier_seq : Z;
  mmu_notifier_count : Z;
  tlbs_dirty : Z;
  nv_srcu : Z;
  nv_mmu_lock : bool
}.
#[export] Instance eta_notifier_vm : Eta notifier_vm := λ r,
  {| nv_shadow := r.(nv_shadow); mmu_notifier_seq := r.(mmu_notifier_seq);
     mmu_notifier_count := r.(mmu_notifier_count); tlbs_dirty := r.(tlbs_dirty); nv_srcu := r.(nv_srcu);
     nv_mmu_lock := r.(nv_mmu_lock) |}.

(** [None]: the lock is held and the caller waits. *)
Definition spin_lock (vm : notifier_vm) : option notifier_vm :=
  if vm.(nv_mmu_lock) then None else Some (vm <| nv_mmu_lock := true |>).
Definition spin_unlock (vm : notifier_vm) : notifier_vm := vm <| nv_mmu_lock := false |>.
Definition nv_srcu_lock (vm : notifier_vm) : notifier_vm := vm <| nv_srcu ::= λ n, n + 1 |>.
Definition nv_srcu_unlock (vm : notifier_vm) : notifier_vm := vm <| nv_srcu ::= λ n, n - 1 |>.

(** The request to the VCPUs is commented out; what is left clears the count
    of pending flushes, unless it changed since it was read. *)
Definition vmrun_flush_remote_tlbs (vm : notifier_vm) : notifier_vm :=
  let dirty_count := vm.(tlbs_dirty) in
  if vm.(tlbs_dirty) =? dirty_count then vm <| tlbs_dirty := 0 |> else vm.

Section Notifier.
Context `{K : KvmPte} (g : shadow_masks) (page_header : Z → Z) (gfn_to_memslot : bool → Z → vmrun_memory_slot).
Context (hva_to_gfn_memslot : Z → vmrun_memory_slot → Z).
(** The slot arrays of the address spaces, read inside the SRCU section. *)
Context (slots : list vmrun_memslots).

Definition upd_nv_mmu (st : mmu_state) (vm : notifier_vm) : notifier_vm := vm <| nv_shadow ::= set_mmu st |>.

Definition vmrun_mmu_notifier_change_pte (address : Z) (pte_write : bool) (pte_pfn : Z) (vm : notifier_vm)
    : option notifier_vm :=
  let vm := nv_srcu_lock vm in
  vm ← spin_lock vm;
  let vm := vm <| mmu_notifier_seq ::= λ n, u64 (n + 1) |> in
  st ← vmrun_set_spte_hva g page_header gfn_to_memslot hva_to_gfn_memslot address pte_write pte_pfn slots
         (mmu vm.(nv_shadow));
  Some (nv_srcu_unlock (spin_unlock (upd_nv_mmu st vm))).

Definition vmrun_mmu_notifier_invalidate_range_start (start end_ : Z) (vm : notifier_vm) : option notifier_vm :=
  let vm := nv_srcu_lock vm in
  vm ← spin_lock vm;
  let vm := vm <| mmu_notifier_count ::= λ n, n + 1 |> in
  '(st, need_tlb_flush) ← vmrun_unmap_hva_range g page_header gfn_to_memslot hva_to_gfn_memslot start end_ slots
                            (mmu vm.(nv_shadow));
  let vm := upd_nv_mmu st vm in
  let vm := if need_tlb_flush || truth vm.(tlbs_dirty) then vmrun_flush_remote_tlbs vm else vm in
  Some (nv_srcu_unlock (spin_unlock vm)).

(** [BUG_ON(vmrun->mmu_notifier_count < 0)] *)
Definition vmrun_mmu_notifier_invalidate_range_end (vm : notifier_vm) : option notifier_vm :=
  vm ← spin_lock vm;
  let vm := vm <| mmu_notifier_seq ::= λ n, u64 (n + 1) |> in
  let vm := vm <| mmu_notifier_count ::= λ n, n - 1 |> in
  let vm := spin_unlock vm in
  if vm.(mmu_notifier_count) <? 0 then None else Some vm.

Definition vmrun_mmu_notifier_clear_flush_young (start end_ : Z) (vm : notifier_vm) : option (bool * notifier_vm) :=
  let vm := nv_srcu_lock vm in
  vm ← spin_lock vm;
  '(st, young) ← vmrun_age_hva g hva_to_gfn_memslot start end_ slots (mmu vm.(nv_shadow));
  let vm := upd_nv_mmu st vm in
  let vm := if young : bool then vmrun_flush_remote_tlbs vm else vm in
  Some (young, nv_srcu_unlock (spin_unlock vm)).

Definition vmrun_mmu_notifier_clear_young (start end_ : Z) (vm : notifier_vm) : option (bool * notifier_vm) :=
  let vm := nv_srcu_lock vm in
  vm ← spin_lock vm;
  '(st, young) ← vmrun_age_hva g hva_to_gfn_memslot start end_ slots (mmu vm.(nv_shadow));
  Some (young, nv_srcu_unlock (spin_unlock (upd_nv_mmu st vm))).

Definition vmrun_mmu_notifier_test_young (address : Z) (vm : notifier_vm) : option (bool * notifier_vm) :=
  let vm := nv_srcu_lock vm in
  vm ← spin_lock vm;
  '(st, young) ← vmrun_test_age_hva g hva_to_gfn_memslot address slots (mmu vm.(nv_shadow));
  Some (young, nv_srcu_unlock (spin_unlock (upd_nv_mmu st vm))).
End Notifier.
