(* ===== verification/NotifierProps.v ===== *)
(** * The MMU notifier: no guest frame is mapped to memory the host took back

    First the unmapping of a range of host addresses under the invariant of
    the tables.  Then the protocol between the handlers and page faults, over
    every interleaving: a fault that looked up a host frame before or during
    an invalidation of it does not map it afterwards. *)

From S2P Require Import Prelude.
From S2P Require Import Spte.
From S2P Require Import SpteTrack.
From S2P Require Import Memslots.
From S2P Require Import MemRegion.
From S2P Require Import MemRegionProps.
From S2P Require Import PteList.
From S2P Require Import PteListProps.
From S2P Require Import Rmap.
From S2P Require Import RmapProps.
From S2P Require Import SlotWalk.
From S2P Require Import SlotWalkProps.
From S2P Require Import PageTrack.
From S2P Require Import PageTrackProps.
From S2P Require Import ShadowPage.
From S2P Require Import ShadowPageProps.
From S2P Require Import MmuInv.
From S2P Require Import SetSpte.
From S2P Require Import SetSpteProps.
From S2P Require Import Notifier.

(** Lists keep their entries or are emptied. *)
Definition only_empties (LL LL' : owner → list Z) : Prop := ∀ o, LL' o = LL o ∨ LL' o = [].

Lemma only_empties_trans (L1 L2 L3 : owner → list Z) : only_empties L1 L2 → only_empties L2 L3 → only_empties L1 L3.
Proof. intros A B o. destruct (B o) as [->| ->]; [apply A|by right]. Qed.

Lemma empty_stays (L1 L2 : owner → list Z) (o : owner) : only_empties L1 L2 → L1 o = [] → L2 o = [].
Proof. intros A H. by destruct (A o) as [->| ->]. Qed.

(* ------------------------------------------------------------------ *)
(** ** Unmapping a range of host addresses *)

Section Unmap.
Context `{K : KvmPte} (g : shadow_masks) (page_header page_of : Z → Z)
        (gfn_to_memslot : bool → Z → vmrun_memory_slot) (hva_to_gfn : Z → vmrun_memory_slot → Z).
Context (Hspec : hva_to_gfn_spec hva_to_gfn).

Notation shadow_ok := (shadow_ok g page_header page_of gfn_to_memslot).

(** The result of a walk that started in [s]: the rmaps [ks] are empty. *)
Record unmapped (LL : owner → list Z) (s : shadow_state) (ks : rmap_key → Prop) (st' : mmu_state) : Prop := {
  um_ok : ∃ LL' DD', shadow_ok LL' DD' (set_mmu st' s) ∧ only_empties LL LL' ∧ ∀ k, ks k → LL' (Rm k) = [];
  um_clears : only_clears (mmu s) st'
}.

Let body : rmap_key → Z → Z → mmu_state * bool → option (mmu_state * bool) :=
  λ k gfn level acc, '(st, b) ← vmrun_unmap_rmapp g page_header gfn_to_memslot k acc.1; Some (st, acc.2 || b).

Lemma set_mmu_twice (st1 st2 : mmu_state) (s : shadow_state) : set_mmu st2 (set_mmu st1 s) = set_mmu st2 s.
Proof using Type. done. Qed.

Lemma unmap_visits (l : list visit) (LL DD : owner → list Z) (s : shadow_state) (b : bool) :
  shadow_ok LL DD s →
  ∃ st' b', run_visits body l (mmu s, b) = Some (st', b') ∧
            unmapped LL s (λ k, ∃ gfn level, (k, gfn, level) ∈ l) st'.
Proof using Type.
  revert LL DD s b. induction l as [|[[k gfn] level] l IH]; intros LL DD s b Hok.
  - exists (mmu s), b. split; [done|]. split; [|done]. exists LL, DD.
    assert (Es : set_mmu (mmu s) s = s) by by destruct s as [[] ? ? ? ? ? ? ? ? ? ?]. rewrite Es.
    split; [done|]. split; [by left|]. intros k (? & ? & H). by apply elem_of_nil in H.
  - destruct (zap_rmapp_ok g page_header page_of gfn_to_memslot LL DD s k Hok) as (st1 & ds1 & E1 & Hok1 & D1).
    destruct (IH _ _ (set_mmu st1 s) (b || negb (bool_decide (LL (Rm k) = []))) Hok1) as (st' & b' & E & [(LL' & DD' & H1 & H2 & H3) C]).
    exists st', b'. split.
    { assert (Eb : body k gfn level (mmu s, b) = Some (st1, b || negb (bool_decide (LL (Rm k) = [])))).
      { unfold body, vmrun_unmap_rmapp. cbn [fst]. by rewrite E1. }
      cbn [run_visits]. rewrite Eb. exact E. }
    assert (He : only_empties LL (upd_owner LL (Rm k) [])).
    { intros o. destruct (decide (o = Rm k)) as [->|Hne]; [right; apply upd_owner_eq|left; by apply upd_owner_ne]. }
    split.
    + exists LL', DD'. split; [exact H1|]. split; [by eapply only_empties_trans|].
      intros k' (gfn' & level' & [[= -> -> ->]|Hin]%elem_of_cons); [|apply H3; eauto].
      eapply empty_stays; [exact H2|apply upd_owner_eq].
    + etrans; [|exact C]. exact (dropped_clears (λ p, p ∈ LL (Rm k)) _ _ D1).
Qed.

(** The rmaps of the frames of a slot whose host page intersects the range. *)
Definition range_keys (start end_ : Z) (slot : vmrun_memory_slot) (k : rmap_key) : Prop :=
  ∃ gfn level, slot.(base_gfn) <= gfn < slot.(base_gfn) + slot.(npages) ∧
    PT_PAGE_TABLE_LEVEL <= level <= PT_MAX_HUGEPAGE_LEVEL ∧ k = __gfn_to_rmap gfn level slot ∧
    ∃ hva, start <= hva < end_ ∧ page_hva slot gfn <= hva < page_hva slot gfn + 4096.

Lemma unmap_slot (start end_ : Z) (slot : vmrun_memory_slot) (LL DD : owner → list Z) (s : shadow_state) (b : bool) :
  shadow_ok LL DD s → slot_hva_ok slot → 0 <= start → end_ < 2 ^ 64 →
  ∃ st' b', handle_hva_slot hva_to_gfn (vmrun_unmap_rmapp g page_header gfn_to_memslot) start end_ (Some (mmu s, b)) slot
            = Some (st', b') ∧ unmapped LL s (range_keys start end_ slot) st'.
Proof using Hspec.
  intros Hok Hs H0 H1. unfold handle_hva_slot. cbn [mbind option_bind].
  assert (Hex : ∀ gfn, base_gfn slot <= gfn < base_gfn slot + npages slot → _)
    by exact (λ gfn, hva_slot_range_spec hva_to_gfn slot start end_ gfn Hspec Hs H0 H1).
  destruct (hva_slot_range hva_to_gfn start end_ slot) as [[a c]|] eqn:Er.
  - destruct (hva_slot_range_inside hva_to_gfn slot start end_ a c Hspec Hs H0 H1 Er) as [Hr Hc].
    rewrite (for_each_range_spec slot a c Hr) by (split; by apply Z.leb_le).
    destruct (unmap_visits (visits slot a c PT_PAGE_TABLE_LEVEL PT_MAX_HUGEPAGE_LEVEL) LL DD s b Hok)
      as (st' & b' & E & [(LL' & DD' & G1 & G2 & G3) C]).
    exists st', b'. split; [exact E|]. split; [|done]. exists LL', DD'. split; [done|]. split; [done|].
    intros k (gfn & level & Hg & Hl & -> & Hv). apply G3.
    apply Hex in Hv as (a' & c' & [= <- <-] & Hac); [|done].
    destruct (proj2 (elem_of_visits slot a c Hr PT_PAGE_TABLE_LEVEL PT_MAX_HUGEPAGE_LEVEL (__gfn_to_rmap gfn level slot) level
                ltac:(unfold PT_PAGE_TABLE_LEVEL; lia))) as [gfn' Hin]; [split; [done|by exists gfn]|]. eauto.
  - exists (mmu s), b. split; [done|]. split; [|done]. exists LL, DD.
    assert (Es : set_mmu (mmu s) s = s) by by destruct s as [[] ? ? ? ? ? ? ? ? ? ?]. rewrite Es.
    split; [done|]. split; [by left|]. intros k (gfn & level & Hg & Hl & -> & Hv).
    apply Hex in Hv as (a' & c' & ? & _); done.
Qed.

Lemma unmap_slots (start end_ : Z) (l : list vmrun_memory_slot) (LL DD : owner → list Z) (s : shadow_state) (b : bool) :
  shadow_ok LL DD s → (∀ slot, slot ∈ l → slot_hva_ok slot) → 0 <= start → end_ < 2 ^ 64 →
  ∃ st' b', foldl (handle_hva_slot hva_to_gfn (vmrun_unmap_rmapp g page_header gfn_to_memslot) start end_)
              (Some (mmu s, b)) l = Some (st', b') ∧
    unmapped LL s (λ k, ∃ slot, slot ∈ l ∧ range_keys start end_ slot k) st'.
Proof using Hspec.
  revert LL DD s b. induction l as [|slot l IH]; intros LL DD s b Hok Hl H0 H1.
  - destruct (unmap_visits [] LL DD s b Hok) as (st' & b' & [= <- <-] & [(LL' & DD' & G1 & G2 & G3) C]). exists (mmu s), b.
    split; [done|]. split; [|done]. exists LL', DD'. split; [done|]. split; [done|]. intros k (slot & Hin & _). by apply elem_of_nil in Hin.
  - cbn [foldl]. destruct (unmap_slot start end_ slot LL DD s b Hok ltac:(apply Hl; by left) H0 H1)
      as (st1 & b1 & E1 & [(L1 & D1 & G1 & G2 & G3) C1]). rewrite E1.
    destruct (IH L1 D1 (set_mmu st1 s) b1 G1) as (st' & b' & E & [(L2 & D2 & F1 & F2 & F3) C2]); [intros; apply Hl; by right|done|done|].
    exists st', b'. split; [exact E|]. split.
    + exists L2, D2. split; [exact F1|]. split; [by eapply only_empties_trans|].
      intros k (slot' & [->|Hin]%elem_of_cons & Hk); [eapply empty_stays; [exact F2|by apply G3]|apply F3; eauto].
    + etrans; [exact C1|exact C2].
Qed.

Lemma unmap_hva_range_ok (start end_ : Z) (slots : list vmrun_memslots) (LL DD : owner → list Z) (s : shadow_state) :
  let l := slots ≫= λ sl, each_memslot sl.(memslots) in
  shadow_ok LL DD s → (∀ slot, slot ∈ l → slot_hva_ok slot) → 0 <= start → end_ < 2 ^ 64 →
  ∃ st' flush, vmrun_unmap_hva_range g page_header gfn_to_memslot hva_to_gfn start end_ slots (mmu s) = Some (st', flush) ∧
    unmapped LL s (λ k, ∃ slot, slot ∈ l ∧ range_keys start end_ slot k) st'.
Proof using Hspec. intros l Hok Hl H0 H1. by apply (unmap_slots start end_ l LL DD s false Hok Hl). Qed.
End Unmap.

(* ------------------------------------------------------------------ *)
(** ** Leaf entries and what they map *)

Record leaf := { lf_gfn : Z; lf_level : Z; lf_pfn : Z; lf_smm : bool }.

Section Leaves.
Context `{K : KvmPte} (g : shadow_masks) (page_header page_of : Z → Z)
        (gfn_to_memslot : bool → Z → vmrun_memory_slot).

Definition leaf_of (st : mmu_state) (p : Z) : option leaf :=
  sp ← st.(pages) !! page_header p;
  if entry_in sp p && is_shadow_present_pte g (st.(ptes) p) && is_last_spte (st.(ptes) p) sp.(role_level) then
    gfn ← vmrun_mmu_page_get_gfn sp (spte_index sp p);
    Some {| lf_gfn := gfn; lf_level := sp.(role_level); lf_pfn := spte_to_pfn (st.(ptes) p); lf_smm := sp.(role_smm) |}
  else None.

Definition leaf_slot (lf : leaf) : vmrun_memory_slot := gfn_to_memslot lf.(lf_smm) lf.(lf_gfn).
Definition leaf_key (lf : leaf) : rmap_key := __gfn_to_rmap lf.(lf_gfn) lf.(lf_level) (leaf_slot lf).
Definition leaf_frames (lf : leaf) : Z := 2 ^ level_shift lf.(lf_level).

Lemma leaf_owner (s : shadow_state) (p : Z) (lf : leaf) :
  leaf_of (mmu s) p = Some lf → owner_of g page_header page_of gfn_to_memslot s p = Some (Rm (leaf_key lf)).
Proof using Type.
  unfold leaf_of, owner_of. destruct (pages (mmu s) !! page_header p) as [sp|] eqn:Hsp; [|done]. cbn [mbind option_bind].
  destruct (entry_in sp p); [|done]. cbn [andb]. unfold value_owner. destruct (is_shadow_present_pte g _); [|done]. cbn [andb negb].
  destruct (is_last_spte _ _); [|done]. unfold spte_key. rewrite Hsp. cbn [mbind option_bind].
  destruct (vmrun_mmu_page_get_gfn sp (spte_index sp p)) as [gfn|]; [|done]. cbn. intros [= <-]. done.
Qed.

Lemma leaf_of_clears (st st' : mmu_state) (p : Z) :
  only_clears st st' → leaf_of st' p = leaf_of st p ∨ leaf_of st' p = None.
Proof using Type.
  intros [O1 O2]. unfold leaf_of. rewrite O2. destruct (O1 p) as [->| ->]; [by left|right].
  destruct (pages st !! page_header p) as [sp|]; [|done]. cbn [mbind option_bind].
  assert (H0 : is_shadow_present_pte g 0 = false) by done. rewrite H0. by rewrite andb_false_r.
Qed.

(** A large page has one rmap head for all its frames. *)
Lemma leaf_key_frame (lf : leaf) (i : Z) :
  1 <= lf.(lf_level) → lf.(lf_gfn) mod leaf_frames lf = 0 → 0 <= lf.(lf_gfn) → 0 <= i < leaf_frames lf →
  __gfn_to_rmap (lf.(lf_gfn) + i) lf.(lf_level) (leaf_slot lf) = leaf_key lf.
Proof using Type.
  intros Hl Ha Hg Hi. unfold leaf_key, __gfn_to_rmap, gfn_to_index. change (VMRUN_HPAGE_GFN_SHIFT (lf_level lf)) with (level_shift (lf_level lf)).
  assert (E : Z.shiftr (lf_gfn lf + i) (level_shift (lf_level lf)) = Z.shiftr (lf_gfn lf) (level_shift (lf_level lf))); [|by rewrite E].
  rewrite !Z.shiftr_div_pow2 by (unfold level_shift; lia). fold (leaf_frames lf).
  pose proof (Z.div_mod (lf_gfn lf) (leaf_frames lf) ltac:(lia)). symmetry.
  apply (Z.div_unique _ _ _ i); lia.
Qed.
End Leaves.

(* ------------------------------------------------------------------ *)
(** ** The protocol *)

(** A page fault between reading [mmu_notifier_seq] and taking the lock; the
    host frame once it is looked up. *)
Record fault := { f_gfn : Z; f_smm : bool; f_seq : Z; f_pfn : option Z }.

(** The machine: the VM, the host's page table (page number to frame), the
    ranges being invalidated, the faults under way. *)
Record nsys := {
  ns_vm : notifier_vm;
  ns_host : Z → option Z;
  ns_ranges : list (Z * Z);
  ns_faults : gmap nat fault
}.

Section Protocol.
Context `{K : KvmPte, KO : !KvmPteOk K} `{T : KvmTrack} (g : shadow_masks) (env : map_env) (page_header page_of : Z → Z)
        (gfn_to_memslot : bool → Z → vmrun_memory_slot) (vcpu_gfn_to_memslot : Z → option vmrun_memory_slot)
        (hva_to_gfn : Z → vmrun_memory_slot → Z) (slots : list vmrun_memslots)
        (mmu_notifier_retry : Z → Z → Z → bool).
Context (LM : leaf_masks g env) (Hspec : hva_to_gfn_spec hva_to_gfn).

(** Linux: the fault is retried while an invalidation is under way, and when
    one ended since the sequence number was read. *)
Definition retry_spec : Prop :=
  ∀ count seq mmu_seq, mmu_notifier_retry count seq mmu_seq = negb ((count =? 0) && (seq =? mmu_seq)).
Context (Hretry : retry_spec).

Definition all_slots : list vmrun_memory_slot := slots ≫= λ sl, each_memslot sl.(memslots).
Context (Hslots : ∀ slot, slot ∈ all_slots → slot_hva_ok slot ∧ slot.(userspace_addr) mod 4096 = 0).

Notation shadow_ok := (shadow_ok g page_header page_of gfn_to_memslot).
Notation leaf_of := (leaf_of g page_header).
Notation leaf_slot := (leaf_slot gfn_to_memslot).
Notation leaf_key := (leaf_key gfn_to_memslot).

Definition shadow_of (s : nsys) : shadow_state := s.(ns_vm).(nv_shadow).

(** The host page behind a guest frame. *)
Definition host_page (smm : bool) (base gfn : Z) : Z := page_hva (gfn_to_memslot smm base) gfn / 4096.
Definition leaf_page (lf : leaf) (i : Z) : Z := host_page lf.(lf_smm) lf.(lf_gfn) (lf.(lf_gfn) + i).

(** The host has every frame of the leaf where the leaf says. *)
Definition backed (host : Z → option Z) (lf : leaf) : Prop :=
  ∀ i, 0 <= i < leaf_frames lf → host (leaf_page lf i) = Some (lf.(lf_pfn) + i).

Definition touches (r : Z * Z) (page : Z) : Prop := ∃ hva, r.1 <= hva < r.2 ∧ page * 4096 <= hva < page * 4096 + 4096.

(** The leaf lies in its slot. *)
Record fits (lf : leaf) : Prop := {
  fi_slot : leaf_slot lf ∈ all_slots;
  fi_level : PT_PAGE_TABLE_LEVEL <= lf.(lf_level) <= PT_MAX_HUGEPAGE_LEVEL;
  fi_aligned : lf.(lf_gfn) mod leaf_frames lf = 0;
  fi_inside : (leaf_slot lf).(base_gfn) <= lf.(lf_gfn) ∧
              lf.(lf_gfn) + leaf_frames lf <= (leaf_slot lf).(base_gfn) + (leaf_slot lf).(npages)
}.

(** What a fault for [gfn], looked up as [pfn], maps at a level: the page
    itself, or a huge page that the host maps as a whole. *)
Definition maps_for (host : Z → option Z) (f : fault) (pfn : Z) (lf : leaf) : Prop :=
  if lf.(lf_level) =? PT_PAGE_TABLE_LEVEL then lf.(lf_gfn) = f.(f_gfn) ∧ lf.(lf_pfn) = pfn
  else host (host_page f.(f_smm) f.(f_gfn) f.(f_gfn)) = Some pfn → backed host lf.

Inductive nstep (s : nsys) : nsys → Prop :=
| step_fault t gfn smm :
    nstep s {| ns_vm := s.(ns_vm); ns_host := s.(ns_host); ns_ranges := s.(ns_ranges);
               ns_faults := <[t := {| f_gfn := gfn; f_smm := smm; f_seq := s.(ns_vm).(mmu_notifier_seq); f_pfn := None |}]>
                              s.(ns_faults) |}
| step_lookup t f pfn :
    s.(ns_faults) !! t = Some f → s.(ns_host) (host_page f.(f_smm) f.(f_gfn) f.(f_gfn)) = Some pfn →
    nstep s {| ns_vm := s.(ns_vm); ns_host := s.(ns_host); ns_ranges := s.(ns_ranges);
               ns_faults := <[t := {| f_gfn := f.(f_gfn); f_smm := f.(f_smm); f_seq := f.(f_seq); f_pfn := Some pfn |}]>
                              s.(ns_faults) |}
| step_map t f pfn lf sptep pte_access write_fault speculative hw sp x active disallowed m emulate m' :
    s.(ns_faults) !! t = Some f → f.(f_pfn) = Some pfn →
    mmu_notifier_retry s.(ns_vm).(mmu_notifier_count) s.(ns_vm).(mmu_notifier_seq) f.(f_seq) = false →
    map_request env page_header vcpu_gfn_to_memslot sptep lf.(lf_level) lf.(lf_gfn) lf.(lf_pfn) sp x active disallowed (shadow_of s) →
    sp.(role_direct) = true → sp.(role_smm) = lf.(lf_smm) → f.(f_smm) = lf.(lf_smm) →
    fits lf → maps_for s.(ns_host) f pfn lf → m.(ms_shadow) = shadow_of s →
    mmu_set_spte g env page_header page_of gfn_to_memslot vcpu_gfn_to_memslot sptep pte_access write_fault lf.(lf_level)
      lf.(lf_gfn) lf.(lf_pfn) speculative hw m = Some (emulate, m') →
    nstep s {| ns_vm := s.(ns_vm) <| nv_shadow := m'.(ms_shadow) |>; ns_host := s.(ns_host); ns_ranges := s.(ns_ranges);
               ns_faults := delete t s.(ns_faults) |}
| step_drop t :
    nstep s {| ns_vm := s.(ns_vm); ns_host := s.(ns_host); ns_ranges := s.(ns_ranges); ns_faults := delete t s.(ns_faults) |}
| step_start start end_ vm' :
    0 <= start → end_ < 2 ^ 64 →
    vmrun_mmu_notifier_invalidate_range_start g page_header gfn_to_memslot hva_to_gfn slots start end_ s.(ns_vm) = Some vm' →
    nstep s {| ns_vm := vm'; ns_host := s.(ns_host); ns_ranges := (start, end_) :: s.(ns_ranges); ns_faults := s.(ns_faults) |}
| step_host r page v :
    r ∈ s.(ns_ranges) → touches r page →
    nstep s {| ns_vm := s.(ns_vm); ns_host := λ h, if h =? page then v else s.(ns_host) h; ns_ranges := s.(ns_ranges);
               ns_faults := s.(ns_faults) |}
| step_end r l vm' :
    s.(ns_ranges) ≡ₚ r :: l → s.(ns_vm).(mmu_notifier_seq) + 1 < 2 ^ 64 →
    vmrun_mmu_notifier_invalidate_range_end s.(ns_vm) = Some vm' →
    nstep s {| ns_vm := vm'; ns_host := s.(ns_host); ns_ranges := l; ns_faults := s.(ns_faults) |}
| step_tables sh' LL' DD' :
    shadow_ok LL' DD' sh' → (∀ p, leaf_of (mmu sh') p = leaf_of (mmu (shadow_of s)) p ∨ leaf_of (mmu sh') p = None) →
    nstep s {| ns_vm := s.(ns_vm) <| nv_shadow := sh' |>; ns_host := s.(ns_host); ns_ranges := s.(ns_ranges);
               ns_faults := s.(ns_faults) |}.

(** The invariant. *)
Record nsys_ok (s : nsys) : Prop := {
  no_tables : ∃ LL DD, shadow_ok LL DD (shadow_of s);
  no_vm : s.(ns_vm).(nv_mmu_lock) = false ∧ 0 <= s.(ns_vm).(mmu_notifier_seq) < 2 ^ 64 ∧
          s.(ns_vm).(mmu_notifier_count) = Z.of_nat (length s.(ns_ranges));
  no_ranges : ∀ r, r ∈ s.(ns_ranges) → 0 <= r.1 ∧ r.2 < 2 ^ 64;
  no_leaves : ∀ p lf, leaf_of (mmu (shadow_of s)) p = Some lf →
    fits lf ∧ backed s.(ns_host) lf ∧
    ∀ r i, r ∈ s.(ns_ranges) → 0 <= i < leaf_frames lf → ¬ touches r (leaf_page lf i);
  no_faults : ∀ t f pfn, s.(ns_faults) !! t = Some f → f.(f_pfn) = Some pfn →
    f.(f_seq) = s.(ns_vm).(mmu_notifier_seq) →
    s.(ns_host) (host_page f.(f_smm) f.(f_gfn) f.(f_gfn)) = Some pfn ∨
    ∃ r, r ∈ s.(ns_ranges) ∧ touches r (host_page f.(f_smm) f.(f_gfn) f.(f_gfn));
  no_begun : ∀ t f, s.(ns_faults) !! t = Some f → f.(f_seq) <= s.(ns_vm).(mmu_notifier_seq)
}.

(** A page of a leaf and the address of its frame. *)
Lemma leaf_page_addr (lf : leaf) (i : Z) :
  fits lf → leaf_page lf i * 4096 = page_hva (leaf_slot lf) (lf.(lf_gfn) + i).
Proof using Hslots.
  intros [F1 _ _ _]. destruct (Hslots _ F1) as [_ Ha]. unfold leaf_page, host_page. fold (leaf_slot lf). unfold page_hva.
  pose proof (Z.div_mod (userspace_addr (leaf_slot lf)) 4096 ltac:(lia)). rewrite Ha, Z.add_0_r in H. rewrite H.
  replace (4096 * (userspace_addr (leaf_slot lf) / 4096) + (lf_gfn lf + i - base_gfn (leaf_slot lf)) * 4096)
    with ((userspace_addr (leaf_slot lf) / 4096 + (lf_gfn lf + i - base_gfn (leaf_slot lf))) * 4096) by lia.
  by rewrite Z.div_mul by lia.
Qed.

(** What the handler does besides unmapping. *)
Lemma range_start_vm (start end_ : Z) (vm : notifier_vm) (st' : mmu_state) (flush : bool) :
  vm.(nv_mmu_lock) = false →
  vmrun_unmap_hva_range g page_header gfn_to_memslot hva_to_gfn start end_ slots (mmu vm.(nv_shadow)) = Some (st', flush) →
  ∃ vm', vmrun_mmu_notifier_invalidate_range_start g page_header gfn_to_memslot hva_to_gfn slots start end_ vm = Some vm' ∧
    vm'.(nv_shadow) = set_mmu st' vm.(nv_shadow) ∧ vm'.(mmu_notifier_seq) = vm.(mmu_notifier_seq) ∧
    vm'.(mmu_notifier_count) = vm.(mmu_notifier_count) + 1 ∧ vm'.(nv_mmu_lock) = false ∧ vm'.(nv_srcu) = vm.(nv_srcu).
Proof using Type.
  intros Hl E. destruct vm as [sh seq cnt tlbs srcu lock]. cbn in Hl, E. subst lock.
  unfold vmrun_mmu_notifier_invalidate_range_start, spin_lock, nv_srcu_lock. cbn -[vmrun_unmap_hva_range mmu set_mmu]. rewrite E.
  cbn -[mmu set_mmu]. eexists. split; [reflexivity|]. unfold vmrun_flush_remote_tlbs. cbn -[mmu set_mmu]. rewrite Z.eqb_refl.
  destruct (flush || truth tlbs); cbn -[mmu set_mmu]; split_and!; try done; lia.
Qed.

(** The start of an invalidation. *)
Lemma start_ok (s : nsys) (start end_ : Z) :
  nsys_ok s → 0 <= start → end_ < 2 ^ 64 →
  ∃ vm', vmrun_mmu_notifier_invalidate_range_start g page_header gfn_to_memslot hva_to_gfn slots start end_ s.(ns_vm) = Some vm' ∧
    nsys_ok {| ns_vm := vm'; ns_host := s.(ns_host); ns_ranges := (start, end_) :: s.(ns_ranges); ns_faults := s.(ns_faults) |}.
Proof using Hspec Hslots.
  intros [(LL & DD & Hok) (Hlock & Hseq & Hcnt) Hr Hlf Hft Hbg] H0 H1.
  destruct (unmap_hva_range_ok g page_header page_of gfn_to_memslot hva_to_gfn Hspec start end_ slots LL DD (shadow_of s) Hok)
    as (st' & flush & E & [(LL' & DD' & Hok' & _ & Hempty) Hclear]); [intros slot Hs; by apply Hslots|done|done|].
  destruct (range_start_vm start end_ s.(ns_vm) st' flush Hlock E) as (vm' & Ev & V1 & V2 & V3 & V4 & _).
  exists vm'. split; [exact Ev|]. split; unfold shadow_of; cbn [ns_vm ns_host ns_ranges ns_faults]; rewrite ?V1, ?V2, ?V3.
  - eauto.
  - split_and!; [done|lia|lia|]. rewrite Hcnt. cbn [length]. lia.
  - intros r [->|Hin]%elem_of_cons; [done|by apply Hr].
  - intros p lf Hp. change (leaf_of st' p = Some lf) in Hp.
    assert (Hp0 : leaf_of (mmu (shadow_of s)) p = Some lf)
      by (destruct (leaf_of_clears g page_header _ _ p Hclear) as [Hc|Hc]; congruence).
    destruct (Hlf p lf Hp0) as (Hfit & Hb & Ht). split; [done|]. split; [done|].
    intros r i [->|Hin]%elem_of_cons Hi; [|by apply Ht]. intros (hva & Hh1 & Hh2). rewrite (leaf_page_addr lf i Hfit) in Hh2.
    pose proof Hfit as [F1 F2 F3 [F4 F5]].
    assert (Hk : LL' (Rm (leaf_key lf)) = []).
    { apply Hempty. exists (leaf_slot lf). split; [done|]. exists (lf_gfn lf + i), (lf_level lf). split_and!; [lia|lia|apply F2|apply F2| |].
      - symmetry. apply leaf_key_frame; [unfold PT_PAGE_TABLE_LEVEL in F2; lia|done| |done].
        destruct (Hslots _ F1) as [[[Hb0 _] _ _] _]. lia.
      - exists hva. done. }
    assert (Hin : p ∈ LL' (Rm (leaf_key lf))).
    { apply (en_member _ _ _ _ _ _ (sk_entries _ _ _ _ _ _ _ Hok') (Rm (leaf_key lf)) p I). by apply leaf_owner. }
    rewrite Hk in Hin. by apply elem_of_nil in Hin.
  - intros t f pfn Hf Hpf Hs. destruct (Hft t f pfn Hf Hpf Hs) as [?|(r & Hin & Hto)]; [by left|]. right. exists r. split; [by right|done].
  - done.
Qed.

(** The end of one. *)
Lemma end_ok (s : nsys) (r : Z * Z) (l : list (Z * Z)) :
  nsys_ok s → s.(ns_ranges) ≡ₚ r :: l → s.(ns_vm).(mmu_notifier_seq) + 1 < 2 ^ 64 →
  ∃ vm', vmrun_mmu_notifier_invalidate_range_end s.(ns_vm) = Some vm' ∧
    nsys_ok {| ns_vm := vm'; ns_host := s.(ns_host); ns_ranges := l; ns_faults := s.(ns_faults) |}.
Proof using Type.
  intros [Htb (Hlock & Hseq & Hcnt) Hr Hlf Hft Hbg] Hl Hw. unfold shadow_of in *.
  destruct s as [[sh seq cnt tlbs srcu lock] host ranges faults]. cbn -[mmu] in *. subst lock.
  unfold vmrun_mmu_notifier_invalidate_range_end, spin_lock. cbn -[mmu u64].
  assert (Hlen : cnt = Z.of_nat (S (length l))) by (rewrite Hcnt; f_equal; exact (Permutation_length Hl)).
  rewrite (proj2 (Z.ltb_ge (cnt - 1) 0)) by lia. rewrite wrap_id by (unfold is_u; lia). eexists. split; [reflexivity|].
  assert (Hsub : ∀ q, q ∈ l → q ∈ ranges) by (intros q Hq; rewrite Hl; by right).
  split; unfold shadow_of; cbn -[mmu].
  - exact Htb.
  - split_and!; [done|lia|lia|lia].
  - intros q Hq. by apply Hr, Hsub.
  - intros p lf Hp. destruct (Hlf p lf Hp) as (F & B & Ht). split; [done|]. split; [done|]. intros q i Hq. by apply Ht, Hsub.
  - intros t f pfn Hf _ Hs. pose proof (Hbg t f Hf). lia.
  - intros t f Hf. pose proof (Hbg t f Hf). lia.
Qed.

(** Mapping: no invalidation is under way and none ended since the look-up, so
    the host still has the frame there. *)
Lemma map_ok (s : nsys) (t : nat) (f : fault) (pfn : Z) (lf : leaf) (sptep pte_access : Z)
    (write_fault speculative hw active disallowed emulate : bool) (sp : mmu_page) (x : page_ext) (m m' : map_state) :
  nsys_ok s → s.(ns_faults) !! t = Some f → f.(f_pfn) = Some pfn →
  mmu_notifier_retry s.(ns_vm).(mmu_notifier_count) s.(ns_vm).(mmu_notifier_seq) f.(f_seq) = false →
  map_request env page_header vcpu_gfn_to_memslot sptep lf.(lf_level) lf.(lf_gfn) lf.(lf_pfn) sp x active disallowed (shadow_of s) →
  sp.(role_direct) = true → sp.(role_smm) = lf.(lf_smm) → f.(f_smm) = lf.(lf_smm) →
  fits lf → maps_for s.(ns_host) f pfn lf → m.(ms_shadow) = shadow_of s →
  mmu_set_spte g env page_header page_of gfn_to_memslot vcpu_gfn_to_memslot sptep pte_access write_fault lf.(lf_level)
    lf.(lf_gfn) lf.(lf_pfn) speculative hw m = Some (emulate, m') →
  nsys_ok {| ns_vm := s.(ns_vm) <| nv_shadow := m'.(ms_shadow) |>; ns_host := s.(ns_host); ns_ranges := s.(ns_ranges);
             ns_faults := delete t s.(ns_faults) |}.
Proof using KO LM Hretry.
  intros [(LL & DD & Hok) (Hlock & Hseq & Hcnt) Hr Hlf Hft Hbg] Hf Hpf Hre Hrq Hdir Hsmm Hfs Hfit Hmaps Em Eset.
  rewrite Hretry in Hre. apply negb_false_iff, andb_true_iff in Hre as [Hc%Z.eqb_eq Hs%Z.eqb_eq].
  assert (Hnil : ns_ranges s = []) by (destruct (ns_ranges s); [done|cbn in Hcnt; lia]).
  assert (Hhost : s.(ns_host) (host_page f.(f_smm) f.(f_gfn) f.(f_gfn)) = Some pfn).
  { destruct (Hft t f pfn Hf Hpf) as [?|(r & Hin & _)]; [done|done|]. rewrite Hnil in Hin. by apply elem_of_nil in Hin. }
  assert (Hb : backed s.(ns_host) lf).
  { unfold maps_for in Hmaps. destruct (Z.eqb_spec (lf_level lf) PT_PAGE_TABLE_LEVEL) as [E1|E1]; [|by apply Hmaps].
    destruct Hmaps as [Eg Ep]. intros i Hi. unfold leaf_frames in Hi. rewrite E1 in Hi. change (2 ^ level_shift PT_PAGE_TABLE_LEVEL) with 1 in Hi.
    assert (i = 0) as -> by lia. unfold leaf_page. rewrite !Z.add_0_r, Eg, Ep, <- Hfs. done. }
  rewrite <- Em in Hok, Hrq.
  destruct (mmu_set_spte_spec g env page_header page_of gfn_to_memslot vcpu_gfn_to_memslot LM LL DD m sptep pte_access
              lf.(lf_level) lf.(lf_gfn) lf.(lf_pfn) write_fault speculative hw active disallowed sp x Hok Hrq)
    as (em & m1 & LL' & DD' & E & Hok' & _ & Hres & Hother & Hpages). rewrite Eset in E. injection E as <- <-.
  specialize (Hpages Hdir). unfold ms_mmu in Hres, Hother, Hpages. rewrite Em in Hother, Hpages.
  assert (Hleaf : ∀ p l, leaf_of (mmu m'.(ms_shadow)) p = Some l → leaf_of (mmu (shadow_of s)) p = Some l ∨ l = lf).
  { assert (Hz : ∀ p, ptes (mmu m'.(ms_shadow)) p = 0 → leaf_of (mmu m'.(ms_shadow)) p = None).
    { intros p Hz. unfold NotifierProps.leaf_of. rewrite Hz. destruct (_ !! page_header p) as [q|]; [|done]. cbn [mbind option_bind].
      assert (H0 : is_shadow_present_pte g 0 = false) by done. by rewrite H0, andb_false_r. }
    assert (Hsame : ∀ p, ptes (mmu m'.(ms_shadow)) p = ptes (mmu (shadow_of s)) p → leaf_of (mmu m'.(ms_shadow)) p = leaf_of (mmu (shadow_of s)) p).
    { intros p Hp. unfold NotifierProps.leaf_of. by rewrite Hp, Hpages. }
    intros p l Hl. destruct (decide (p = sptep)) as [->|Hne].
    - destruct Hres as [_ _ [Ho|Ho]|_ Ho|w k Hv _ _ _ _].
      + left. unfold ms_mmu in Ho. rewrite Em in Ho. by rewrite <- (Hsame _ Ho).
      + rewrite (Hz _ Ho) in Hl. done.
      + unfold ms_mmu in Ho. rewrite (Hz _ Ho) in Hl. done.
      + right. unfold ms_mmu in Hv. rewrite Em in Hrq. destruct Hrq as [R1 _ _ [R4 _] _ R6 [_ R7] _ _ _ _].
        unfold NotifierProps.leaf_of in Hl. rewrite Hpages, R1 in Hl. cbn [mbind option_bind] in Hl. destruct (_ && _ && _); [|done].
        rewrite (R6 Hdir) in Hl. cbn in Hl. rewrite (leaf_pfn g _ _ _ _ _ R7 Hv), R4, Hsmm in Hl. injection Hl as <-. by destruct lf.
    - destruct (Hother p Hne) as [Hp|[Hp _]]; [left; by rewrite <- (Hsame _ Hp)|]. rewrite (Hz _ Hp) in Hl. done. }
  split; unfold shadow_of in *; cbn [ns_vm ns_host ns_ranges ns_faults].
  - exists LL', DD'. exact Hok'.
  - done.
  - done.
  - intros p l Hl. change (leaf_of (mmu m'.(ms_shadow)) p = Some l) in Hl. destruct (Hleaf p l Hl) as [Ho| ->]; [by apply (Hlf p)|].
    split; [done|]. split; [done|]. intros r i Hin. rewrite Hnil in Hin. by apply elem_of_nil in Hin.
  - intros t' f' p' (_ & Hf')%lookup_delete_Some. by apply (Hft t').
  - intros t' f' (_ & Hf')%lookup_delete_Some. by apply (Hbg t').
Qed.

Lemma nstep_ok (s s' : nsys) : nsys_ok s → nstep s s' → nsys_ok s'.
Proof using KO LM Hspec Hretry Hslots.
  intros Hok Hst. pose proof Hok as [Htb Hvm Hr Hlf Hft Hbg].
  destruct Hst as [t gfn smm|t f pfn Hf Hh|t f pfn lf sptep acc wf spec hw sp x act dis m em m' Hf Hpf Hre Hrq Hd Hsm Hfs Hfit Hmp Em Es
                  |t|start end_ vm' H0 H1 E|r page v Hin Hto|r l vm' Hl Hw E|sh' LL' DD' Hsh Hle].
  - split; try done; cbn [ns_faults ns_vm ns_host ns_ranges].
    + intros t' f' p' [[<- <-]|[_ Hf']]%lookup_insert_Some; [done|by apply (Hft t')].
    + intros t' f' [[<- <-]|[_ Hf']]%lookup_insert_Some; [cbn; lia|by apply (Hbg t')].
  - split; try done; cbn [ns_faults ns_vm ns_host ns_ranges].
    + intros t' f' p' [[<- <-]|[_ Hf']]%lookup_insert_Some; [|by apply (Hft t')]. cbn. intros [= <-] _. by left.
    + intros t' f' [[<- <-]|[_ Hf']]%lookup_insert_Some; [cbn; by apply (Hbg t)|by apply (Hbg t')].
  - by eapply map_ok.
  - split; try done; cbn [ns_faults ns_vm ns_host ns_ranges].
    + intros t' f' p' (_ & Hf')%lookup_delete_Some. by apply (Hft t').
    + intros t' f' (_ & Hf')%lookup_delete_Some. by apply (Hbg t').
  - destruct (start_ok s start end_ Hok H0 H1) as (vm1 & E1 & Hok1). rewrite E in E1. by injection E1 as <-.
  - split; try done; unfold shadow_of; cbn [ns_faults ns_vm ns_host ns_ranges].
    + intros p lf Hp. destruct (Hlf p lf Hp) as (F & B & Ht). split; [done|]. split; [|done].
      intros i Hi. destruct (Z.eqb_spec (leaf_page lf i) page) as [Ep|_]; [|by apply B]. destruct (Ht r i Hin Hi). by rewrite Ep.
    + intros t f pfn Hf Hpf Hs. destruct (Z.eqb_spec (host_page f.(f_smm) f.(f_gfn) f.(f_gfn)) page) as [Ep|_].
      * right. exists r. split; [done|]. by rewrite Ep.
      * by apply (Hft t f pfn).
  - destruct (end_ok s r l Hok Hl Hw) as (vm1 & E1 & Hok1). rewrite E in E1. by injection E1 as <-.
  - split; try done; unfold shadow_of; cbn [ns_faults ns_vm ns_host ns_ranges].
    + by exists LL', DD'.
    + intros p lf Hp. change (leaf_of (mmu sh') p = Some lf) in Hp. apply (Hlf p). by destruct (Hle p) as [<-|Hn]; [|congruence].
Qed.

(** A machine at rest: no guest frame is mapped yet, nothing is under way. *)
Record at_rest (s : nsys) : Prop := {
  ar_tables : ∃ LL DD, shadow_ok LL DD (shadow_of s);
  ar_leaves : ∀ p, leaf_of (mmu (shadow_of s)) p = None;
  ar_vm : s.(ns_vm).(nv_mmu_lock) = false ∧ s.(ns_vm).(mmu_notifier_count) = 0 ∧ 0 <= s.(ns_vm).(mmu_notifier_seq) < 2 ^ 64;
  ar_idle : s.(ns_ranges) = [] ∧ s.(ns_faults) = ∅
}.

Lemma at_rest_ok (s : nsys) : at_rest s → nsys_ok s.
Proof using Type.
  intros [Ht Hl (V1 & V2 & V3) [I1 I2]]. split; rewrite ?I1, ?I2.
  - done.
  - by rewrite V2.
  - by intros r ?%elem_of_nil.
  - intros p lf Hp. by rewrite Hl in Hp.
  - by intros t f pfn ?%lookup_empty_Some.
  - by intros t f ?%lookup_empty_Some.
Qed.

Lemma nsteps_ok (s s' : nsys) : rtc nstep s s' → nsys_ok s → nsys_ok s'.
Proof using KO LM Hspec Hretry Hslots. induction 1 as [|s1 s2 s3 Hst _ IH]; [done|]. intros Hok. apply IH. by apply (nstep_ok s1). Qed.

(** C6: no stale mapping.  In every state that faults, invalidations and
    changes of the host's page table reach from rest, in whatever order they
    interleave, every leaf entry of the shadow pages maps its guest frames to
    the host frames that the host has behind them at that moment, and no range
    that is being invalidated touches it; and the handlers that open and close
    an invalidation return: the walk does not fail and
    [BUG_ON(mmu_notifier_count < 0)] does not fire. *)
Theorem no_stale_mapping (s0 s : nsys) :
  at_rest s0 → rtc nstep s0 s →
  (∀ p lf, leaf_of (mmu (shadow_of s)) p = Some lf →
     backed s.(ns_host) lf ∧ ∀ r i, r ∈ s.(ns_ranges) → 0 <= i < leaf_frames lf → ¬ touches r (leaf_page lf i)) ∧
  (∀ start end_, 0 <= start → end_ < 2 ^ 64 →
     is_Some (vmrun_mmu_notifier_invalidate_range_start g page_header gfn_to_memslot hva_to_gfn slots start end_ s.(ns_vm))) ∧
  (∀ r, r ∈ s.(ns_ranges) → s.(ns_vm).(mmu_notifier_seq) + 1 < 2 ^ 64 →
     is_Some (vmrun_mmu_notifier_invalidate_range_end s.(ns_vm))).
Proof using KO LM Hspec Hretry Hslots.
  intros Hr Hst. pose proof (nsteps_ok s0 s Hst (at_rest_ok s0 Hr)) as Hok. split_and!.
  - intros p lf Hp. by destruct (no_leaves s Hok p lf Hp) as (_ & ? & ?).
  - intros start end_ H0 H1. destruct (start_ok s start end_ Hok H0 H1) as (vm' & E & _). by exists vm'.
  - intros r (l & Hl)%elem_of_Permutation Hs. destruct (end_ok s r l Hok Hl Hs) as (vm' & E & _). by exists vm'.
Qed.
End Protocol.

(* ------------------------------------------------------------------ *)
(** ** A run: a fault of guest frame 1 maps host frame 5 *)

Definition run_hva_to_gfn (hva : Z) (s : vmrun_memory_slot) : Z := s.(base_gfn) + Z.shiftr (hva - s.(userspace_addr)) PAGE_SHIFT.
Definition run_retry (count seq mmu_seq : Z) : bool := negb ((count =? 0) && (seq =? mmu_seq)).
Definition run_slots : list vmrun_memslots := [{| generation := 0; memslots := [big_slot]; id_to_index := []; used_slots := 1 |}].
Definition run_host (page : Z) : option Z := if page =? host_page tree_slot false 1 1 then Some 5 else None.
Definition run_vm : notifier_vm :=
  {| nv_shadow := map_tree; mmu_notifier_seq := 7; mmu_notifier_count := 0; tlbs_dirty := 0; nv_srcu := 0; nv_mmu_lock := false |}.
Definition run_start : nsys := {| ns_vm := run_vm; ns_host := run_host; ns_ranges := []; ns_faults := ∅ |}.
Definition run_leaf : leaf := {| lf_gfn := 1; lf_level := 1; lf_pfn := 5; lf_smm := false |}.

Lemma run_at_rest : at_rest (K := kvm_pte_x86) x86_masks tree_header tree_page_of tree_slot run_start.
Proof.
  split; [by eexists _, _; apply map_tree_ok| |done|done].
  intros p. destruct (leaf_of (K := kvm_pte_x86) x86_masks tree_header (mmu (shadow_of run_start)) p) as [lf|] eqn:E; [|done].
  apply (leaf_owner x86_masks tree_header tree_page_of tree_slot map_tree) in E.
  by apply tree_owner in E as [[_ ?]|[_ ?]].
Qed.

Definition run_map : option (bool * map_state) :=
  mmu_set_spte (K := kvm_pte_x86) (T := kvm_track) x86_masks map_x86 tree_header tree_page_of tree_slot (λ _, Some big_slot)
    0x3008 ACC_ALL true 1 1 5 false true map_start.
Definition run_mapped : map_state := match run_map with Some (_, m) => m | None => map_start end.
Definition run_end : nsys :=
  {| ns_vm := run_vm <| nv_shadow := run_mapped.(ms_shadow) |>; ns_host := run_host; ns_ranges := []; ns_faults := ∅ |}.

Lemma run_map_some : run_map = Some (false, run_mapped).
Proof. vm_compute. reflexivity. Qed.

Lemma run_fits : fits tree_slot run_slots run_leaf.
Proof.
  split; [by left|unfold PT_PAGE_TABLE_LEVEL, PT_MAX_HUGEPAGE_LEVEL; vm_compute; split; congruence|done|].
  vm_compute. split; congruence.
Qed.

Lemma run_request :
  map_request (K := kvm_pte_x86) (T := kvm_track) map_x86 tree_header (λ _, Some big_slot) 0x3008 1 1 5 (tree_page 3 1) (tree_ext 0x2000 false) false false map_tree.
Proof.
  split; [reflexivity|reflexivity|reflexivity|split; [reflexivity|lia]|reflexivity|intros _; reflexivity| |done| |reflexivity|].
  - split; [reflexivity|]. split; [lia|reflexivity].
  - intros a. change (hash_chain map_x86 1 map_tree) with (@nil Z). by intros ?%elem_of_nil.
  - unfold PT_PAGE_TABLE_LEVEL. lia.
Qed.

Lemma run_steps :
  rtc (nstep (K := kvm_pte_x86) (T := kvm_track) x86_masks map_x86 tree_header tree_page_of tree_slot (λ _, Some big_slot)
         run_hva_to_gfn run_slots run_retry) run_start run_end.
Proof.
  eapply rtc_l; [apply (step_fault _ _ _ _ _ _ _ _ _ _ 0 1 false)|].
  eapply rtc_l; [eapply (step_lookup _ _ _ _ _ _ _ _ _ _ 0 _ 5); [apply lookup_insert_eq|reflexivity]|].
  apply rtc_once. set (s := {| ns_vm := _ |}).
  assert (E : run_end = {| ns_vm := s.(ns_vm) <| nv_shadow := run_mapped.(ms_shadow) |>; ns_host := s.(ns_host);
                           ns_ranges := s.(ns_ranges); ns_faults := delete 0%nat s.(ns_faults) |}) by reflexivity.
  rewrite E. eapply (step_map _ _ _ _ _ _ _ _ _ s 0 _ 5 run_leaf 0x3008 ACC_ALL true false true _ _ false false map_start).
  - apply lookup_insert_eq.
  - reflexivity.
  - reflexivity.
  - exact run_request.
  - reflexivity.
  - reflexivity.
  - reflexivity.
  - exact run_fits.
  - split; reflexivity.
  - reflexivity.
  - exact run_map_some.
Qed.

Lemma no_stale_mapping_witness :
  leaf_of (K := kvm_pte_x86) x86_masks tree_header (mmu (shadow_of run_end)) 0x3008 = Some run_leaf ∧
  backed tree_slot run_host run_leaf ∧
  is_Some (vmrun_mmu_notifier_invalidate_range_start (K := kvm_pte_x86) x86_masks tree_header tree_slot run_hva_to_gfn
             run_slots 0x1000 0x2000 run_end.(ns_vm)).
Proof.
  assert (Hl : leaf_of (K := kvm_pte_x86) x86_masks tree_header (mmu (shadow_of run_end)) 0x3008 = Some run_leaf)
    by (vm_compute; reflexivity).
  destruct (no_stale_mapping (K := kvm_pte_x86) (KO := kvm_pte_x86_ok) (T := kvm_track) x86_masks map_x86 tree_header
              tree_page_of tree_slot (λ _, Some big_slot) run_hva_to_gfn run_slots run_retry x86_leaf_masks) with (s0 := run_start) (s := run_end)
    as (Hb & Hs & _).
  - intros hva s _. reflexivity.
  - intros count seq mmu_seq. reflexivity.
  - intros slot ->%list_elem_of_singleton. split; [split|]; vm_compute; repeat split; congruence.
  - exact run_at_rest.
  - exact run_steps.
  - split; [exact Hl|]. split; [by destruct (Hb 0x3008 run_leaf Hl)|apply Hs; lia].
Defined.
