(* ===== verification/ZapPage.v ===== *)
(** * Zapping shadow pages

    kernel/mmu.c: a page is unlinked from its children and its parents, taken
    off the account of its guest frame and put on a list; the pages of the
    list are freed after a flush ([vmrun_mmu_prepare_zap_page],
    [vmrun_mmu_commit_zap_page]).  A page with pages out of sync below it has
    them zapped first.  The callers zap the oldest page, all pages of a guest
    frame, or all pages of old generations.

    The lists of the kernel are the lists of the state: [list_move] takes a
    page from the list it is on.  The MMU lock is held throughout, except
    where [vmrun_zap_obsolete_pages] lets go of it. *)

From S2P Require Import Prelude.
From S2P Require Import Spte.
From S2P Require Import Memslots.
From S2P Require Import MemRegion.
From S2P Require Import PteList.
From S2P Require Import Rmap.
From S2P Require Import SlotWalk.
From S2P Require Import PageTrack.
From S2P Require Import ShadowPage.
From S2P Require Import SetSpte.
From S2P Require Import Notifier.

(** A page that was given back: the header, the page of the entries, and
    whether there was a page of guest frames. *)
Record freed_page := { fp_header : Z; fp_spt : Z; fp_gfns : bool }.

(** The shadow pages of a virtual machine with the list under construction
    ([invalid_list]), [zapped_obsolete_pages], what it added to the counter
    [vmrun_total_used_mmu_pages], and the pages given back. *)
Record zap_state := {
  zs_shadow : shadow_state;
  zs_invalid : list Z;
  zs_obsolete : list Z;
  zs_total : Z;
  zs_freed : list freed_page
}.
#[export] Instance eta_zap_state : Eta zap_state := λ r,
  {| zs_shadow := r.(zs_shadow); zs_invalid := r.(zs_invalid); zs_obsolete := r.(zs_obsolete);
     zs_total := r.(zs_total); zs_freed := r.(zs_freed) |}.

(** ** Lists of pages *)

Definition list_del (a : Z) (l : list Z) : list Z := filter (λ b, b ≠ a) l.

(** Off the list it is on. *)
Definition unlink_page (a : Z) (zs : zap_state) : zap_state :=
  zs <| zs_shadow ::= λ s, s <| ss_active ::= list_del a |> |> <| zs_invalid ::= list_del a |> <| zs_obsolete ::= list_del a |>.

Definition vmrun_mod_used_mmu_pages (nr : Z) (zs : zap_state) : zap_state :=
  zs <| zs_shadow ::= λ s, s <| ss_used ::= λ n, u32 (n + nr) |> |> <| zs_total ::= λ n, n + nr |>.

(** [hlist_del] and [list_del], then the three blocks are freed. *)
Definition vmrun_mmu_free_page (a : Z) (zs : zap_state) : option zap_state :=
  sp ← (mmu zs.(zs_shadow)).(pages) !! a;
  let zs := zs <| zs_shadow ::= λ s, s <| ss_hash ::= fmap (list_del a) |> |> in
  let zs := unlink_page a zs in
  Some (zs <| zs_shadow ::= λ s, set_mmu ((mmu s) <| pages ::= delete a |>) (s <| ss_ext ::= delete a |>) |>
           <| zs_freed ::= λ l, l ++ [{| fp_header := a; fp_spt := sp.(sp_spt); fp_gfns := negb sp.(role_direct) |}] |>).

(** ** The path to a page out of sync *)

(** [struct mmu_page_path]; 0: NULL, [None]: not yet written. *)
Record mmu_page_path := { mp_parent : list (option Z); mp_idx : list (option Z) }.
#[export] Instance eta_mmu_page_path : Eta mmu_page_path := λ r,
  {| mp_parent := r.(mp_parent); mp_idx := r.(mp_idx) |}.

Definition write_at {A : Type} (i : Z) (v : A) (l : list A) : option (list A) :=
  if (0 <=? i) && (i <? Z.of_nat (length l)) then Some (<[Z.to_nat i := v]> l) else None.

Definition read_at {A : Type} (i : Z) (l : list (option A)) : option A :=
  if i <? 0 then None else v ← l !! Z.to_nat i; v.

Section Zap.
Context `{K : KvmPte} `{T : KvmTrack} (g : shadow_masks) (page_header page_of : Z → Z).
Context (gfn_to_memslot : bool → Z → vmrun_memory_slot) (role_gfn_to_memslot : bool → Z → option vmrun_memory_slot).
Context (PT64_ROOT_MAX_LEVEL : nat).

(** The loop of [mmu_pages_next] from [n] on. *)
Fixpoint pages_next_loop (fuel : nat) (pvec : mmu_pages) (n : nat) (st : mmu_state) (path : mmu_page_path)
    : option (nat * mmu_page_path) :=
  match fuel with
  | O => None
  | S fuel =>
      match pvec !! n with
      | None => Some (n, path)
      | Some (a, idx) =>
          sp ← st.(pages) !! a;
          let level := sp.(role_level) in
          idxs ← write_at (level - 1) (Some idx) path.(mp_idx);
          let path := path <| mp_idx := idxs |> in
          if level =? PT_PAGE_TABLE_LEVEL then Some (n, path)
          else
            parents ← write_at (level - 2) (Some a) path.(mp_parent);
            pages_next_loop fuel pvec (S n) st (path <| mp_parent := parents |>)
      end
  end.

Definition mmu_pages_next (pvec : mmu_pages) (i : nat) (st : mmu_state) (path : mmu_page_path)
    : option (nat * mmu_page_path) :=
  pages_next_loop (S (length pvec)) pvec (S i) st path.

Definition mmu_pages_first (pvec : mmu_pages) (s : shadow_state) (path : mmu_page_path)
    : option (nat * mmu_page_path * shadow_state) :=
  match pvec with
  | [] => Some (O, path, s)
  | (a, idx) :: _ =>
      let s := sp_warn_if (negb (idx =? INVALID_INDEX)) s in
      sp ← (mmu s).(pages) !! a;
      let level := sp.(role_level) in
      let s := sp_warn_if (level =? PT_PAGE_TABLE_LEVEL) s in
      parents ← write_at (level - 2) (Some a) path.(mp_parent);
      parents ← write_at (level - 1) (Some 0) parents;
      '(n, path) ← mmu_pages_next pvec 0 (mmu s) (path <| mp_parent := parents |>);
      Some (n, path, s)
  end.

(** [do ... while (!sp->unsync_children)], one level per unit of fuel. *)
Fixpoint clear_parents_loop (fuel : nat) (level : Z) (path : mmu_page_path) (s : shadow_state) : option shadow_state :=
  match fuel with
  | O => None
  | S fuel =>
      a ← read_at level path.(mp_parent);
      if a =? 0 then Some s
      else
        idx ← read_at level path.(mp_idx);
        let s := sp_warn_if (idx =? INVALID_INDEX) s in
        s ← clear_unsync_child_bit a idx s;
        x ← s.(ss_ext) !! a;
        if truth x.(px_unsync_children) then Some s else clear_parents_loop fuel (level + 1) path s
  end.

Definition mmu_pages_clear_parents (path : mmu_page_path) (s : shadow_state) : option shadow_state :=
  clear_parents_loop (S PT64_ROOT_MAX_LEVEL) 0 path s.

(** ** Unlinking a page *)

Definition mmu_page_zap_pte (a p : Z) (s : shadow_state) : option (shadow_state * bool) :=
  let pte := (mmu s).(ptes) p in
  if is_shadow_present_pte g pte then
    sp ← (mmu s).(pages) !! a;
    if is_last_spte pte sp.(role_level) then
      st ← drop_spte g page_header gfn_to_memslot p (mmu s);
      Some (set_mmu (if is_large_pte pte then st <| stat_lpages ::= λ n, n - 1 |> else st) s, true)
    else
      s ← drop_parent_pte (page_of (Z.land pte PT64_BASE_ADDR_MASK)) p s;
      Some (s, true)
  else if is_mmio_spte g pte then
    Some (set_mmu ((mmu s) <| ptes ::= set_pte p (mmu_spte_clear_no_track pte) |>) s, false)
  else Some (s, false).

(** The entries from [i] on; [n] are left. *)
Fixpoint unlink_children_loop (a spt : Z) (n : nat) (i : Z) (s : shadow_state) : option shadow_state :=
  match n with
  | O => Some s
  | S n => '(s, _) ← mmu_page_zap_pte a (spt + 8 * i) s; unlink_children_loop a spt n (i + 1) s
  end.

Definition vmrun_mmu_page_unlink_children (a : Z) (s : shadow_state) : option shadow_state :=
  sp ← (mmu s).(pages) !! a;
  unlink_children_loop a sp.(sp_spt) (Z.to_nat PT64_ENT_PER_PAGE) 0 s.

(** [while ((sptep = rmap_get_first(&sp->parent_ptes, &iter)))] *)
Fixpoint unlink_parents_loop (fuel : nat) (a : Z) (s : shadow_state) : option shadow_state :=
  match fuel with
  | O => None
  | S fuel =>
      x ← s.(ss_ext) !! a;
      '(sptep, _) ← rmap_get_first (mmu s).(dmem) (λ p, is_shadow_present_pte g ((mmu s).(ptes) p)) x.(px_parents);
      if negb (truth sptep) then Some s
      else s ← drop_parent_pte a sptep s; unlink_parents_loop fuel a s
  end.

Definition vmrun_mmu_unlink_parents (a : Z) (s : shadow_state) : option shadow_state :=
  unlink_parents_loop (2 + PTE_LIST_EXT * size (mmu s).(dmem).(descs)) a s.

(** ** Zapping *)

(** [vmrun_reload_remote_mmus] asks every VCPU to load its tables again. *)
Definition vmrun_reload_remote_mmus (s : shadow_state) : shadow_state := s <| ss_reloads ::= λ n, n + 1 |>.

(** The account of the guest frame and the flag of a page out of sync. *)
Definition settle (a : Z) (sp : mmu_page) (x : page_ext) (s : shadow_state) : option shadow_state :=
  s ← (if negb x.(px_invalid) && negb sp.(role_direct)
       then tk ← unaccount_shadowed role_gfn_to_memslot sp s.(ss_track); Some (s <| ss_track := tk |>)
       else Some s);
  if x.(px_unsync) then vmrun_unlink_unsync_page a s else Some s.

(** The list a zapped page goes to: a root stays in use. *)
Definition requeue (a : Z) (x : page_ext) (ret : Z) (zs : zap_state) : zap_state * Z :=
  if negb (truth x.(px_root_count)) then
    (vmrun_mod_used_mmu_pages (-1) ((unlink_page a zs) <| zs_invalid ::= cons a |>), ret + 1)
  else
    let zs := (unlink_page a zs) <| zs_shadow ::= λ s, s <| ss_active ::= cons a |> |> in
    (if negb x.(px_invalid) && negb (is_obsolete_sp zs.(zs_shadow) x)
     then zs <| zs_shadow ::= vmrun_reload_remote_mmus |> else zs, ret).

(** What [vmrun_mmu_prepare_zap_page] does after the pages below. *)
Definition zap_self (a : Z) (ret : Z) (zs : zap_state) : option (zap_state * Z) :=
  s ← vmrun_mmu_page_unlink_children a zs.(zs_shadow);
  s ← vmrun_mmu_unlink_parents a s;
  sp ← (mmu s).(pages) !! a;
  x ← s.(ss_ext) !! a;
  s ← settle a sp x s;
  let '(zs, ret) := requeue a x ret (zs <| zs_shadow := s |>) in
  Some (zs <| zs_shadow ::= upd_ext a (λ x, x <| px_invalid := true |>) |>, ret).

(** [for_each_sp(pages, sp, parents, i)] with the body of
    [mmu_zap_unsync_children]; [i] is the position after a step. *)
Fixpoint zap_vector (zap : Z → zap_state → option (zap_state * Z)) (fuel : nat) (pvec : mmu_pages) (i : nat)
    (path : mmu_page_path) (zapped : Z) (zs : zap_state) : option (zap_state * Z * mmu_page_path) :=
  match fuel with
  | O => None
  | S fuel =>
      match pvec !! i with
      | None => Some (zs, zapped, path)
      | Some (a, _) =>
          '(zs, _) ← zap a zs;
          s ← mmu_pages_clear_parents path zs.(zs_shadow);
          let zs := zs <| zs_shadow := s |> in
          '(i, path) ← mmu_pages_next pvec i (mmu s) path;
          zap_vector zap fuel pvec i path (zapped + 1) zs
      end
  end.

(** [while (mmu_unsync_walk(parent, &pages))]; [path] is the local variable. *)
Fixpoint zap_unsync_loop (zap : Z → zap_state → option (zap_state * Z)) (fuel : nat) (a : Z) (path : mmu_page_path)
    (zapped : Z) (zs : zap_state) : option (zap_state * Z) :=
  match fuel with
  | O => None
  | S fuel =>
      '(s, pvec, ret) ← mmu_unsync_walk g page_of a zs.(zs_shadow);
      let zs := zs <| zs_shadow := s |> in
      if ret =? 0 then Some (zs, zapped)
      else
        '(i, path, s) ← mmu_pages_first pvec zs.(zs_shadow) path;
        '(zs, zapped, path) ← zap_vector zap (S (length pvec)) pvec i path zapped (zs <| zs_shadow := s |>);
        zap_unsync_loop zap fuel a path zapped zs
  end.

Definition new_path : mmu_page_path :=
  {| mp_parent := replicate PT64_ROOT_MAX_LEVEL None; mp_idx := replicate PT64_ROOT_MAX_LEVEL None |}.

(** Every pass clears a mark. *)
Definition mmu_zap_unsync_children (zap : Z → zap_state → option (zap_state * Z)) (a : Z) (zs : zap_state)
    : option (zap_state * Z) :=
  sp ← (mmu zs.(zs_shadow)).(pages) !! a;
  if sp.(role_level) =? PT_PAGE_TABLE_LEVEL then Some (zs, 0)
  else zap_unsync_loop zap (mark_fuel zs.(zs_shadow)) a new_path 0 zs.

(** The pages [mmu_zap_unsync_children] zaps are of the last level and have no
    pages below them: two levels of calls. *)
Fixpoint prepare_zap (fuel : nat) (a : Z) (zs : zap_state) : option (zap_state * Z) :=
  match fuel with
  | O => None
  | S fuel =>
      let zs := zs <| zs_shadow ::= λ s, s <| ss_stat_zapped ::= λ n, n + 1 |> |> in
      '(zs, ret) ← mmu_zap_unsync_children (prepare_zap fuel) a zs;
      zap_self a ret zs
  end.

Definition vmrun_mmu_prepare_zap_page : Z → zap_state → option (zap_state * Z) := prepare_zap 2.

Fixpoint free_pages (l : list Z) (zs : zap_state) : option zap_state :=
  match l with
  | [] => Some zs
  | a :: l =>
      x ← zs.(zs_shadow).(ss_ext) !! a;
      let zs := zs <| zs_shadow ::= sp_warn_if (negb x.(px_invalid) || truth x.(px_root_count)) |> in
      zs ← vmrun_mmu_free_page a zs;
      free_pages l zs
  end.

Definition vmrun_mmu_commit_zap_page (zs : zap_state) : option zap_state :=
  match zs.(zs_invalid) with
  | [] => Some zs
  | l => free_pages l (zs <| zs_shadow ::= upd_mmu flush_remote_tlbs |>)
  end.

(** ** The callers *)

Definition prepare_zap_oldest_mmu_page (zs : zap_state) : option (zap_state * bool) :=
  match last zs.(zs_shadow).(ss_active) with
  | None => Some (zs, false)
  | Some a => '(zs, ret) ← vmrun_mmu_prepare_zap_page a zs; Some (zs, truth ret)
  end.

(** A local [LIST_HEAD(invalid_list)], and a call that is given
    [&vmrun->arch.zapped_obsolete_pages] as the list. *)
Definition local_list (zs : zap_state) : zap_state := zs <| zs_invalid := [] |>.
Definition swap_lists (zs : zap_state) : zap_state := zs <| zs_invalid := zs.(zs_obsolete) |> <| zs_obsolete := zs.(zs_invalid) |>.
Definition on_obsolete {A : Type} (f : zap_state → option (zap_state * A)) (zs : zap_state) : option (zap_state * A) :=
  '(zs, r) ← f (swap_lists zs); Some (swap_lists zs, r).

(** [while (n_used_mmu_pages > goal_nr_mmu_pages)] *)
Fixpoint shrink_to (fuel : nat) (goal : Z) (zs : zap_state) : option zap_state :=
  match fuel with
  | O => None
  | S fuel =>
      if zs.(zs_shadow).(ss_used) >? goal then
        '(zs, more) ← prepare_zap_oldest_mmu_page zs;
        if more : bool then shrink_to fuel goal zs else Some zs
      else Some zs
  end.

(** Every pass but the last takes a page off [active_mmu_pages]. *)
Definition vmrun_mmu_change_mmu_pages (goal_nr_mmu_pages : Z) (zs : zap_state) : option zap_state :=
  let zs := local_list zs in
  '(zs, goal) ← (if zs.(zs_shadow).(ss_used) >? goal_nr_mmu_pages then
                   zs ← shrink_to (S (length zs.(zs_shadow).(ss_active))) goal_nr_mmu_pages zs;
                   zs ← vmrun_mmu_commit_zap_page zs;
                   Some (zs, zs.(zs_shadow).(ss_used))
                 else Some (zs, goal_nr_mmu_pages));
  Some (zs <| zs_shadow ::= λ s, s <| ss_max := goal |> |>).

(** The loop over the hash chain: zapping leaves the pages on their chain. *)
Fixpoint unprotect_loop (gfn : Z) (l : list Z) (r : Z) (zs : zap_state) : option (zap_state * Z) :=
  match l with
  | [] => Some (zs, r)
  | a :: l =>
      sp ← (mmu zs.(zs_shadow)).(pages) !! a;
      x ← zs.(zs_shadow).(ss_ext) !! a;
      if gfn_indirect_valid gfn zs.(zs_shadow) sp x then
        '(zs, _) ← vmrun_mmu_prepare_zap_page a zs; unprotect_loop gfn l 1 zs
      else unprotect_loop gfn l r zs
  end.

Definition vmrun_mmu_unprotect_page (env : map_env) (gfn : Z) (zs : zap_state) : option (zap_state * Z) :=
  let zs := local_list zs in
  '(zs, r) ← unprotect_loop gfn (default [] (zs.(zs_shadow).(ss_hash) !! vmrun_page_table_hashfn env gfn)) 0 zs;
  zs ← vmrun_mmu_commit_zap_page zs;
  Some (zs, r).

(** ** Pages of old generations *)

Definition BATCH_ZAP_PAGES : Z := 10.

(** The page before [a] on the list: the next one of a reverse walk. *)
Fixpoint page_before (a : Z) (l : list Z) : option Z :=
  match l with
  | b :: l' => match l' with
               | c :: _ => if c =? a then Some b else page_before a l'
               | [] => None
               end
  | [] => None
  end.

(** [cond_resched_lock]: [None] when the lock is kept, else the state that
    others left when it is taken again. *)
Context (cond_resched_lock : zap_state → option zap_state).

(** The reverse walk at [cur]; [restart] begins again at the tail. *)
Fixpoint zap_obsolete_loop (fuel : nat) (cur : option Z) (batch : Z) (zs : zap_state) : option zap_state :=
  match fuel with
  | O => None
  | S fuel =>
      match cur with
      | None => Some zs
      | Some a =>
          let node := page_before a zs.(zs_shadow).(ss_active) in
          let restart batch zs := zap_obsolete_loop fuel (last zs.(zs_shadow).(ss_active)) batch zs in
          let zap zs :=
            '(zs, ret) ← vmrun_mmu_prepare_zap_page a zs;
            let batch := batch + ret in
            if truth ret then restart batch zs else zap_obsolete_loop fuel node batch zs in
          x ← zs.(zs_shadow).(ss_ext) !! a;
          if negb (is_obsolete_sp zs.(zs_shadow) x) then Some zs
          else if x.(px_invalid) then zap_obsolete_loop fuel node batch zs
          else if batch >=? BATCH_ZAP_PAGES then
            match cond_resched_lock zs with
            | Some zs' => restart 0 zs'
            | None => zap zs
            end
          else zap zs
      end
  end.

Definition vmrun_zap_obsolete_pages (fuel : nat) (zs : zap_state) : option zap_state :=
  '(zs, _) ← on_obsolete (λ zs,
     zs ← zap_obsolete_loop fuel (last zs.(zs_shadow).(ss_active)) 0 zs;
     zs ← vmrun_mmu_commit_zap_page zs;
     Some (zs, tt)) zs;
  Some zs.

Definition vmrun_mmu_invalidate_zap_all_pages (fuel : nat) (zs : zap_state) : option zap_state :=
  let zs := zs <| zs_shadow ::= λ s, vmrun_reload_remote_mmus (s <| ss_valid_gen ::= λ n, u64 (n + 1) |>) |> in
  vmrun_zap_obsolete_pages fuel zs.

(** The notifier's [release]: the process behind the virtual machine goes. *)
Definition vmrun_mmu_notifier_release (fuel : nat) (vm : notifier_vm) (zs : zap_state) : option (notifier_vm * zap_state) :=
  let vm := nv_srcu_lock vm in
  vm ← spin_lock vm;
  zs ← vmrun_mmu_invalidate_zap_all_pages fuel (zs <| zs_shadow := vm.(nv_shadow) |>);
  Some (nv_srcu_unlock (spin_unlock (vm <| nv_shadow := zs.(zs_shadow) |>)), zs).

(** ** The shrinker *)

Definition vmrun_has_zapped_obsolete_pages (zs : zap_state) : bool := negb (bool_decide (zs.(zs_obsolete) = [])).

(** The work on one virtual machine, under its lock. *)
Definition shrink_vm (zs : zap_state) : option (zap_state * Z) :=
  if vmrun_has_zapped_obsolete_pages zs then
    on_obsolete (λ zs, zs ← vmrun_mmu_commit_zap_page zs; Some (zs, 0)) zs
  else
    '(zs, zapped) ← prepare_zap_oldest_mmu_page (local_list zs);
    zs ← vmrun_mmu_commit_zap_page zs;
    Some (zs, b2z zapped).

(** [vm_list]: the machine that was shrunk goes to the tail. *)
Fixpoint shrink_scan (nr_to_scan : Z) (l done : list zap_state) : option (list zap_state * Z) :=
  match l with
  | [] => Some (done, 0)
  | zs :: l =>
      if nr_to_scan =? 0 then Some (done ++ zs :: l, 0)
      else if negb (truth zs.(zs_shadow).(ss_used)) && negb (vmrun_has_zapped_obsolete_pages zs)
      then shrink_scan (nr_to_scan - 1) l (done ++ [zs])
      else '(zs, freed) ← shrink_vm zs; Some (done ++ l ++ [zs], freed)
  end.

Definition mmu_shrink_scan (nr_to_scan : Z) (vm_list : list zap_state) : option (list zap_state * Z) :=
  shrink_scan nr_to_scan vm_list [].

Definition mmu_shrink_count (vm_list : list zap_state) : Z := Z.max 0 (foldr Z.add 0 (zs_total <$> vm_list)).
End Zap.
