(* ===== verification/ZapPageProps.v ===== *)
(** * Zapping shadow pages: a zapped page is detached

    Unlinking a page keeps the invariant of the tables (MmuInv) and leaves no
    entry in it and none that points to it; only such pages are freed. *)

From S2P Require Import Prelude.
From S2P Require Import Spte.
From S2P Require Import SpteTrack.
From S2P Require Import Memslots.
From S2P Require Import MemRegion.
From S2P Require Import MemRegionProps.
From S2P Require Import PteList.
From S2P Require Import PteListProps.
From S2P Require Import Rmap.
From S2P Require Import RmapProps.
From S2P Require Import SlotWalk.
From S2P Require Import PageTrack.
From S2P Require Import PageTrackProps.
From S2P Require Import ShadowPage.
From S2P Require Import ShadowPageProps.
From S2P Require Import MmuInv.
From S2P Require Import SetSpte.
From S2P Require Import ZapPage.

(* ------------------------------------------------------------------ *)
(** ** The account of a guest frame *)

(** The same array elements exist. *)
Definition same_shape (h h' : heap) : Prop := ∀ p i, is_Some (load p i h') ↔ is_Some (load p i h).

Lemma store_shape (p i v : Z) (h h' : heap) : store p i v h = Some h' → same_shape h h'.
Proof.
  unfold store. destruct (load p i h) as [w|] eqn:E; [|done]. cbn. intros [= <-] q j. unfold load. cbn.
  destruct (j <? 0) eqn:Ej; [done|]. destruct (decide (q = p)) as [->|Hne]; [|by rewrite lookup_alter_ne].
  rewrite lookup_alter_eq. destruct (blocks h !! p) as [l|]; [|done]. cbn. rewrite !lookup_lt_is_Some. by rewrite length_insert.
Qed.

Lemma load_store (p i v : Z) (h : heap) : is_Some (load p i h) → ∃ h', store p i v h = Some h'.
Proof. intros [w Hw]. unfold store. rewrite Hw. by eexists. Qed.

Lemma same_shape_trans (h1 h2 h3 : heap) : same_shape h1 h2 → same_shape h2 h3 → same_shape h1 h3.
Proof. intros A B p i. rewrite (B p i). apply A. Qed.

(** A change of the counters: the tables are as they were. *)
Record counted (st st' : track_state) : Prop := {
  ct_shape : same_shape st.(tk_heap) st'.(tk_heap);
  ct_mmu : st'.(tk_mmu) = st.(tk_mmu)
}.

Lemma counted_trans (s1 s2 s3 : track_state) : counted s1 s2 → counted s2 s3 → counted s1 s3.
Proof. intros [A1 A2] [B1 B2]. split; [by eapply same_shape_trans|congruence]. Qed.

Lemma disallow_level_counted (slot : vmrun_memory_slot) (gfn count i : Z) (st : track_state) :
  (∀ st', update_disallow_level slot gfn count st i = Some st' → counted st st') ∧
  (is_Some (update_disallow_level slot gfn count st i) ↔
   is_Some (load (lpage_info_slot gfn slot i).1 (lpage_info_slot gfn slot i).2 st.(tk_heap))).
Proof.
  unfold update_disallow_level. destruct (lpage_info_slot gfn slot i) as [p idx]. cbn [fst snd].
  destruct (load p idx (tk_heap st)) as [v|] eqn:E; cbn [mbind option_bind]; [|split; [done|by split; intros []]].
  destruct (load_store p idx (s32 (v + count)) (tk_heap st)) as [h' Eh]; [by eexists|]. rewrite Eh. cbn [mbind option_bind].
  split; [|split; intros _; by eexists]. intros st' [= <-]. split; [|by unfold warn_if; destruct (_ <? 0)].
  assert (E' : ∀ b s, tk_heap (warn_if b s) = tk_heap s) by (intros [] ?; done). rewrite E'. by eapply store_shape.
Qed.

Lemma disallow_levels_counted (levels : list Z) (slot : vmrun_memory_slot) (gfn count : Z) (st : track_state) :
  (∀ st', update_disallow_levels levels slot gfn count st = Some st' → counted st st') ∧
  (is_Some (update_disallow_levels levels slot gfn count st) ↔
   ∀ i, i ∈ levels → is_Some (load (lpage_info_slot gfn slot i).1 (lpage_info_slot gfn slot i).2 st.(tk_heap))).
Proof.
  revert st. induction levels as [|i levels IH]; intros st; cbn [update_disallow_levels].
  - split; [intros st' [= <-]; done|]. split; [by intros _ i ?%elem_of_nil|by eexists].
  - destruct (disallow_level_counted slot gfn count i st) as [H1 H2].
    destruct (update_disallow_level slot gfn count st i) as [st1|] eqn:E; cbn [mbind option_bind].
    + specialize (H1 st1 eq_refl). destruct (IH st1) as [H3 H4]. split.
      * intros st' Hs. eapply counted_trans; [exact H1|by apply H3].
      * rewrite H4. split.
        -- intros H j [->|Hj]%elem_of_cons; [apply H2; by eexists|]. apply (ct_shape _ _ H1). by apply H.
        -- intros H j Hj. apply (ct_shape _ _ H1). apply H. by right.
    + split; [done|]. split; [by intros []|]. intros H. destruct H2 as [_ H2]. apply H2. apply H. by left.
Qed.

Lemma gfn_track_counted (slot : vmrun_memory_slot) (gfn mode count : Z) (st : track_state) :
  (∀ st', update_gfn_track slot gfn mode count st = Some st' → counted st st') ∧
  (is_Some (update_gfn_track slot gfn mode count st) ↔
   is_Some (load (slot.(arch).(gfn_track) !!! Z.to_nat mode) (track_index slot gfn) st.(tk_heap))).
Proof.
  unfold update_gfn_track. cbv zeta. destruct (load _ _ _) as [v|] eqn:E; cbn [mbind option_bind]; [|split; [done|by split; intros []]].
  destruct (_ || _); [split; [intros st' [= <-]; done|split; intros _; by eexists]|].
  destruct (load_store (slot.(arch).(gfn_track) !!! Z.to_nat mode) (track_index slot gfn) (u16 (v + count)) (tk_heap st)) as [h' Eh];
    [by eexists|]. rewrite Eh. cbn [mbind option_bind]. split; [|split; intros _; by eexists].
  intros st' [= <-]. split; [by eapply store_shape|done].
Qed.

Section Account.
Context `{T : KvmTrack} (role_gfn_to_memslot : bool → Z → option vmrun_memory_slot).

Lemma track_remove_counted (slot : vmrun_memory_slot) (gfn mode : Z) (st st' : track_state) :
  vmrun_slot_page_track_remove_page slot gfn mode st = Some st' → counted st st'.
Proof using Type.
  unfold vmrun_slot_page_track_remove_page. destruct (negb _); [intros [= <-]; done|].
  destruct (update_gfn_track _ _ _ _ _) as [s1|] eqn:E1; [|done]. cbn [mbind option_bind]. intros E2.
  eapply counted_trans; [by eapply (proj1 (gfn_track_counted _ _ _ _ _))|by eapply (proj1 (disallow_levels_counted _ _ _ _ _))].
Qed.

Lemma unaccount_counted (sp : mmu_page) (st st' : track_state) :
  unaccount_shadowed role_gfn_to_memslot sp st = Some st' → counted st st'.
Proof using Type.
  unfold unaccount_shadowed. destruct (role_gfn_to_memslot _ _) as [slot|]; [|done]. cbn [mbind option_bind].
  destruct (_ >? _); intros E.
  - destruct (track_remove_counted _ _ _ _ _ E) as [C1 C2]. split; [exact C1|exact C2].
  - destruct (proj1 (disallow_levels_counted _ _ _ _ _) _ E) as [C1 C2]. split; [exact C1|exact C2].
Qed.

(** Whether a page can be taken off the account depends on the arrays only. *)
Lemma unaccount_shape (sp : mmu_page) (st1 st2 : track_state) :
  same_shape st1.(tk_heap) st2.(tk_heap) → is_Some (unaccount_shadowed role_gfn_to_memslot sp st1) →
  is_Some (unaccount_shadowed role_gfn_to_memslot sp st2).
Proof using Type.
  intros Hs. unfold unaccount_shadowed. destruct (role_gfn_to_memslot _ _) as [slot|]; [|by intros []]. cbn [mbind option_bind].
  set (t1 := st1 <| indirect_shadow_pages ::= λ n, n - 1 |>). set (t2 := st2 <| indirect_shadow_pages ::= λ n, n - 1 |>).
  assert (Ht : same_shape (tk_heap t1) (tk_heap t2)) by exact Hs. clearbody t1 t2. destruct (_ >? _).
  - unfold vmrun_slot_page_track_remove_page. destruct (negb _); [done|]. intros H.
    destruct (update_gfn_track slot (sp_gfn sp) KVM_PAGE_TRACK_WRITE (-1) t1) as [s1|] eqn:E1; [|by destruct H].
    destruct (proj1 (gfn_track_counted _ _ _ _ _) _ E1) as [C1 _].
    destruct (update_gfn_track slot (sp_gfn sp) KVM_PAGE_TRACK_WRITE (-1) t2) as [s2|] eqn:E2.
    + cbn [mbind option_bind] in *. destruct (proj1 (gfn_track_counted _ _ _ _ _) _ E2) as [C2 _].
      apply (proj2 (disallow_levels_counted _ _ _ _ _)). intros i Hi. apply C2, Ht, C1.
      by apply (proj1 (proj2 (disallow_levels_counted hugepage_levels slot (sp_gfn sp) (-1) s1)) H).
    + exfalso. assert (is_Some (update_gfn_track slot (sp_gfn sp) KVM_PAGE_TRACK_WRITE (-1) t2)) as [? ?]; [|congruence].
      apply gfn_track_counted, Ht. apply (gfn_track_counted slot (sp_gfn sp) KVM_PAGE_TRACK_WRITE (-1) t1). by eexists.
  - intros H. apply (proj2 (disallow_levels_counted _ _ _ _ _)). intros i Hi. apply Ht.
    by apply (proj1 (proj2 (disallow_levels_counted hugepage_levels slot (sp_gfn sp) (-1) t1)) H).
Qed.
End Account.

(* ------------------------------------------------------------------ *)
(** ** Tables with less in them *)

Lemma ones_mono (l' l : list bool) :
  length l' = length l → (∀ i : nat, l' !! i = Some true → l !! i = Some true) → (ones l' <= ones l)%nat.
Proof.
  revert l. induction l' as [|b l' IH]; intros [|c l] Hlen H; try done. injection Hlen as Hlen.
  specialize (IH l Hlen (λ i, H (S i))). pose proof (H O) as H0. unfold ones in *. cbn [filter] in *.
  rewrite !filter_cons. repeat case_decide; cbn; try lia. subst b. cbn in H0. specialize (H0 eq_refl). congruence.
Qed.

(** Marks and flags of a page that work on its tables may take away. *)
Record lighter_ext (x x' : page_ext) : Prop := {
  le_length : length x'.(px_bitmap) = length x.(px_bitmap);
  le_bits : ∀ i : nat, x'.(px_bitmap) !! i = Some true → x.(px_bitmap) !! i = Some true;
  le_unsync : x'.(px_unsync) = true → x.(px_unsync) = true;
  le_invalid : x.(px_invalid) = true → x'.(px_invalid) = true;
  le_root : x'.(px_root_count) = x.(px_root_count);
  le_gen : x'.(px_valid_gen) = x.(px_valid_gen);
  le_role : x'.(px_role) = x.(px_role)
}.

#[export] Instance lighter_ext_refl : Reflexive lighter_ext.
Proof. intros x. by split. Qed.

#[export] Instance lighter_ext_trans : Transitive lighter_ext.
Proof. intros x y z [A1 A2 A3 A4 A5 A6 A7] [B1 B2 B3 B4 B5 B6 B7]. split; try congruence; eauto. Qed.

(** Entries are cleared, marks and flags taken away; the pages stay. *)
Record lighter (s s' : shadow_state) : Prop := {
  lt_ptes : ∀ p, (mmu s').(ptes) p = (mmu s).(ptes) p ∨ (mmu s').(ptes) p = 0;
  lt_pages : (mmu s').(pages) = (mmu s).(pages);
  lt_ext : ∀ a x, s.(ss_ext) !! a = Some x → ∃ x', s'.(ss_ext) !! a = Some x' ∧ lighter_ext x x';
  lt_back : ∀ a, is_Some (s'.(ss_ext) !! a) → is_Some (s.(ss_ext) !! a);
  lt_shape : same_shape s.(ss_track).(tk_heap) s'.(ss_track).(tk_heap);
  lt_hash : s'.(ss_hash) = s.(ss_hash);
  lt_gen : s'.(ss_valid_gen) = s.(ss_valid_gen);
  lt_warns : s'.(ss_warns) = s.(ss_warns)
}.

#[export] Instance lighter_refl : Reflexive lighter.
Proof. intros s. split; try done; [by left|]. intros a x Hx. by exists x. Qed.

#[export] Instance lighter_trans : Transitive lighter.
Proof.
  intros s1 s2 s3 [A1 A2 A3 A4 A5 A6 A7 A8] [B1 B2 B3 B4 B5 B6 B7 B8]. split.
  - intros p. destruct (B1 p) as [->| ->]; [apply A1|by right].
  - congruence.
  - intros a x Hx. destruct (A3 a x Hx) as (x2 & Hx2 & L1). destruct (B3 a x2 Hx2) as (x3 & Hx3 & L2). exists x3. split; [done|by etrans].
  - auto.
  - by eapply same_shape_trans.
  - congruence.
  - congruence.
  - congruence.
Qed.

Lemma lighter_lookup (s s' : shadow_state) (a : Z) (x' : page_ext) :
  lighter s s' → s'.(ss_ext) !! a = Some x' → ∃ x, s.(ss_ext) !! a = Some x ∧ lighter_ext x x'.
Proof.
  intros L Hx'. destruct (lt_back _ _ L a) as [x Hx]; [by eexists|]. exists x. split; [done|].
  destruct (lt_ext _ _ L a x Hx) as (y & Hy & HL). congruence.
Qed.

Lemma dropped_lighter (P : Z → Prop) `{HP : !∀ p, Decision (P p)} (s s' : shadow_state) : dropped P s s' → lighter s s'.
Proof.
  intros D. pose proof (dropped_clears P s s' D) as [O1 O2]. destruct D as [D1 D2 D3 D4 D5 D6 D7]. split; try done.
  - intros a x Hx. rewrite D5, Hx. eexists. split; [reflexivity|]. by split.
  - intros a. rewrite D5. by intros [? ?]%fmap_is_Some.
  - by rewrite D6.
  - by rewrite D7.
  - by rewrite D7.
  - by rewrite D7.
Qed.

(** Nothing but the marks that the invariant counts. *)
Definition total_marks (s : shadow_state) : nat := total (λ x, ones x.(px_bitmap)) s.(ss_ext).

Section Zap.
Context `{K : KvmPte} `{T : KvmTrack} (g : shadow_masks) (page_header page_of : Z → Z)
        (gfn_to_memslot : bool → Z → vmrun_memory_slot) (role_gfn_to_memslot : bool → Z → option vmrun_memory_slot)
        (PT64_ROOT_MAX_LEVEL : nat).

Notation owner_of := (owner_of g page_header page_of gfn_to_memslot).
Notation value_owner := (value_owner g page_header page_of gfn_to_memslot).
Notation shadow_ok := (shadow_ok g page_header page_of gfn_to_memslot).
Notation drop_spte := (drop_spte g page_header gfn_to_memslot).
Notation mmu_page_zap_pte := (mmu_page_zap_pte g page_header page_of gfn_to_memslot).
Notation unlink_children_loop := (unlink_children_loop g page_header page_of gfn_to_memslot).
Notation vmrun_mmu_page_unlink_children := (vmrun_mmu_page_unlink_children g page_header page_of gfn_to_memslot).
Notation zap_self := (zap_self g page_header page_of gfn_to_memslot role_gfn_to_memslot).

Lemma lighter_owner (s s' : shadow_state) (p : Z) (o : owner) : lighter s s' → owner_of s' p = Some o → owner_of s p = Some o.
Proof using Type.
  intros L. unfold MmuInv.owner_of, MmuInv.value_owner, spte_key. rewrite (lt_pages _ _ L).
  destruct (lt_ptes _ _ L p) as [->| ->]; [done|]. destruct (pages (mmu s) !! page_header p); [|done]. cbn [mbind option_bind].
  destruct (entry_in _ p); [|done]. assert (H0 : is_shadow_present_pte g 0 = false) by done. by rewrite H0.
Qed.

(** No entry in the page, none that points to it. *)
Record detached (s : shadow_state) (a : Z) : Prop := {
  dt_entries : ∀ sp p, (mmu s).(pages) !! a = Some sp → entry_in sp p = true → owner_of s p = None;
  dt_parents : ∀ p, owner_of s p ≠ Some (Pg a)
}.

Lemma lighter_detached (s s' : shadow_state) (a : Z) : lighter s s' → detached s a → detached s' a.
Proof using Type.
  intros L [D1 D2]. split.
  - intros sp p Hsp Hp. rewrite (lt_pages _ _ L) in Hsp. destruct (owner_of s' p) as [o|] eqn:E; [|done].
    apply (lighter_owner s s') in E; [|done]. by rewrite (D1 sp p Hsp Hp) in E.
  - intros p Ho. apply (D2 p). by eapply lighter_owner.
Qed.

(** The levels of the tables: an entry points one level down; only pages of
    the last level are out of sync and only those above have marks and are
    roots.  And every page of a guest's tables can be taken off its account. *)
Record levels_ok (s : shadow_state) : Prop := {
  lv_range : ∀ a sp, (mmu s).(pages) !! a = Some sp → a ≠ 0 ∧ 1 <= sp.(role_level) <= Z.of_nat PT64_ROOT_MAX_LEVEL;
  lv_child : ∀ p a sp sc, owner_of s p = Some (Pg a) → (mmu s).(pages) !! page_header p = Some sp →
    (mmu s).(pages) !! a = Some sc → sc.(role_level) = sp.(role_level) - 1;
  lv_ext : ∀ a sp x, (mmu s).(pages) !! a = Some sp → s.(ss_ext) !! a = Some x →
    (x.(px_unsync) = true → sp.(role_level) = 1) ∧ (x.(px_unsync_children) ≠ 0 → sp.(role_level) ≠ 1) ∧
    (x.(px_root_count) ≠ 0 → sp.(role_level) ≠ 1);
  lv_account : ∀ a sp, (mmu s).(pages) !! a = Some sp → sp.(role_direct) = false →
    is_Some (unaccount_shadowed role_gfn_to_memslot sp s.(ss_track))
}.

Lemma counts_bits (LL DD : owner → list Z) (s : shadow_state) (a : Z) (x : page_ext) :
  shadow_ok LL DD s → s.(ss_ext) !! a = Some x →
  length x.(px_bitmap) = Z.to_nat PT64_ENT_PER_PAGE ∧ x.(px_unsync_children) = Z.of_nat (ones x.(px_bitmap)).
Proof using Type. intros Hok. apply (sk_counts _ _ _ _ _ _ _ Hok). Qed.

Lemma lighter_levels (LL DD LL' DD' : owner → list Z) (s s' : shadow_state) :
  shadow_ok LL DD s → shadow_ok LL' DD' s' → lighter s s' → levels_ok s → levels_ok s'.
Proof using Type.
  intros Hok Hok' L [V1 V2 V3 V4]. pose proof (lt_pages _ _ L) as Hpg. split; rewrite ?Hpg.
  - done.
  - intros p a sp sc Ho. apply V2. by eapply lighter_owner.
  - intros a sp x' Hsp Hx'. destruct (lighter_lookup s s' a x' L Hx') as (x & Hx & [E1 E2 E3 _ E5 _ _]).
    destruct (V3 a sp x Hsp Hx) as (W1 & W2 & W3). rewrite E5. split; [auto|]. split; [|done].
    destruct (counts_bits _ _ _ a x Hok Hx) as [_ C]. destruct (counts_bits _ _ _ a x' Hok' Hx') as [_ C'].
    intros Hn. apply W2. pose proof (ones_mono _ _ E1 E2). lia.
  - intros a sp Hsp Hd. eapply unaccount_shape; [apply L|by eapply V4].
Qed.

Lemma lighter_marks (s s' : shadow_state) : lighter s s' → (total_marks s' <= total_marks s)%nat.
Proof using Type.
  intros L. unfold total_marks. assert (H : ∀ a, is_Some (ss_ext s' !! a) ↔ is_Some (ss_ext s !! a)).
  { intros a. split; [apply L|]. intros [x Hx]. destruct (lt_ext _ _ L a x Hx) as (x' & ? & _). by eexists. }
  assert (H2 : ∀ a x x', ss_ext s !! a = Some x → ss_ext s' !! a = Some x' → (ones (px_bitmap x') <= ones (px_bitmap x))%nat).
  { intros a x x' Hx Hx'. destruct (lt_ext _ _ L a x Hx) as (y & Hy & [E1 E2 _ _ _ _ _]). rewrite Hx' in Hy. injection Hy as <-. by apply ones_mono. }
  clear L. generalize dependent (ss_ext s'). generalize (ss_ext s). clear.
  intros m. induction m as [|a x m Ha IH] using map_ind; intros m' Hd Hle.
  - assert (m' = ∅) as ->; [|done]. apply map_eq. intros a. rewrite lookup_empty. destruct (m' !! a) eqn:E; [|done].
    assert (Hs : is_Some (m' !! a)) by by eexists. apply Hd in Hs as [? Hs]. by rewrite lookup_empty in Hs.
  - assert (Hs : is_Some (m' !! a)) by (apply Hd; rewrite lookup_insert_eq; by eexists). destruct Hs as [x' Hx'].
    rewrite (total_delete _ m' a x' Hx'), (total_delete _ (<[a:=x]> m) a x) by apply lookup_insert_eq.
    rewrite delete_insert_id by done. specialize (IH (delete a m')).
    pose proof (Hle a x x' ltac:(apply lookup_insert_eq) Hx') as H1.
    assert (H2 : (total (λ x, ones (px_bitmap x)) (delete a m') <= total (λ x, ones (px_bitmap x)) m)%nat); [|lia]. apply IH.
    + intros b. destruct (decide (b = a)) as [->|Hne]; [rewrite lookup_delete_eq, Ha; done|].
      rewrite lookup_delete_ne by done. rewrite (Hd b), lookup_insert_ne by done. done.
    + intros b y y' Hy Hy'. assert (b ≠ a) by (intros ->; by rewrite lookup_delete_eq in Hy').
      rewrite lookup_delete_ne in Hy' by done. apply (Hle b); [by rewrite lookup_insert_ne|done].
Qed.

(* ------------------------------------------------------------------ *)
(** ** Unlinking *)

Lemma not_present_cases (v : Z) : is_shadow_present_pte g v = false → is_mmio_spte g v = true ∨ v = 0.
Proof using Type.
  unfold is_shadow_present_pte. destruct (Z.eqb_spec v 0); [by right|]. cbn. destruct (is_mmio_spte g v); [by left|done].
Qed.

(** A value that is not present is replaced by 0. *)
Lemma clear_absent (LL DD : owner → list Z) (s : shadow_state) (p : Z) :
  shadow_ok LL DD s → is_shadow_present_pte g ((mmu s).(ptes) p) = false →
  let s' := set_mmu ((mmu s) <| ptes ::= set_pte p 0 |>) s in
  shadow_ok LL DD s' ∧ dropped (λ q, q = p) s s'.
Proof using Type.
  intros Hok Hpr s'. split.
  - apply (store_same_owner _ _ _ _ LL DD s s' p 0 Hok); [done|].
    unfold MmuInv.owner_of, MmuInv.value_owner, s'. cbn. rewrite set_pte_eq.
    assert (H0 : is_shadow_present_pte g 0 = false) by done. rewrite H0, Hpr. done.
  - split; try done; cbn.
    + intros q ->. apply set_pte_eq.
    + intros q Hq. by apply set_pte_ne.
    + intros a. destruct (ss_ext s !! a) as [x|]; [|done]. by destruct x.
Qed.

Lemma zap_pte_ok (LL DD : owner → list Z) (s : shadow_state) (a p : Z) (sp : mmu_page) :
  shadow_ok LL DD s → (mmu s).(pages) !! a = Some sp → entry_in sp p = true →
  ∃ s' b LL' DD', mmu_page_zap_pte a p s = Some (s', b) ∧ shadow_ok LL' DD' s' ∧ dropped (λ q, q = p) s s'.
Proof using Type.
  intros Hok Hsp Hp. pose proof (en_pages _ _ _ _ _ _ (sk_entries _ _ _ _ _ _ _ Hok) a sp Hsp) as Hpg.
  pose proof (po_header _ _ _ Hpg p Hp) as Hh.
  pose proof (owner_at g page_header page_of gfn_to_memslot s sp a p Hsp Hh Hp) as Ho.
  unfold ZapPage.mmu_page_zap_pte. destruct (is_shadow_present_pte g (ptes (mmu s) p)) eqn:Hpr.
  - rewrite Hsp. cbn [mbind option_bind]. unfold MmuInv.value_owner in Ho. rewrite Hpr in Ho. cbn [negb] in Ho.
    destruct (is_last_spte _ _) eqn:El.
    + destruct (key_exists page_header gfn_to_memslot s sp a p Hsp Hh Hpg Hp) as [k Hk]. rewrite Hk in Ho. cbn in Ho.
      destruct (drop_spte_ok _ _ _ _ LL DD s p k Hok Ho) as (st' & l' & ds' & -> & _ & Hok' & D). cbn [mbind option_bind].
      eexists _, true, _, _. split; [reflexivity|]. destruct (is_large_pte _); [|done]. split.
      * eapply shadow_same; [|exact Hok']. done.
      * destruct D as [D1 D2 D3 D4 D5 D6 D7]. split; done.
    + destruct (drop_parent_ok _ _ _ _ LL DD s p _ Hok Ho) as (s' & l' & ds' & -> & _ & Hok' & D). cbn [mbind option_bind].
      by eexists _, true, _, _.
  - destruct (clear_absent LL DD s p Hok Hpr) as [Hok' D]. destruct (is_mmio_spte g _) eqn:Em.
    + by eexists _, false, LL, DD.
    + assert (E0 : ptes (mmu s) p = 0) by (destruct (not_present_cases _ Hpr); [congruence|done]).
      eexists s, false, LL, DD. split; [done|]. split; [done|]. eapply dropped_iff with (P := λ q, q = p); [done|].
      destruct (dropped_refl s) as [D1 D2 D3 D4 D5 D6 D7]. split; try done. intros q ->. done.
Qed.

(** The entries of the page from number [i] on. *)
Definition entries_from (sp : mmu_page) (i : Z) (p : Z) : Prop := entry_in sp p = true ∧ i <= spte_index sp p.

#[local] Instance entries_from_dec (sp : mmu_page) (i p : Z) : Decision (entries_from sp i p).
Proof using Type. unfold entries_from. apply _. Defined.

Lemma entries_from_split (sp : mmu_page) (i : Z) (p : Z) :
  0 <= i < PT64_ENT_PER_PAGE → entries_from sp i p ↔ p = sp.(sp_spt) + 8 * i ∨ entries_from sp (i + 1) p.
Proof using Type.
  intros Hi. unfold entries_from. pose proof (entry_at sp i Hi) as He.
  assert (Hidx : spte_index sp (sp_spt sp + 8 * i) = i).
  { unfold spte_index. replace (sp_spt sp + 8 * i - sp_spt sp) with (i * 8) by lia. apply Z.div_mul. lia. }
  split.
  - intros [Hp Hge]. destruct (entry_index sp p Hp) as [_ Ep]. destruct (decide (spte_index sp p = i)) as [<-|Hne]; [by left|].
    right. split; [done|lia].
  - intros [->|[Hp Hge]]; [|split; [done|lia]]. split; [done|]. lia.
Qed.

Lemma unlink_loop_ok (n : nat) (i : Z) (LL DD : owner → list Z) (s : shadow_state) (a : Z) (sp : mmu_page) :
  shadow_ok LL DD s → (mmu s).(pages) !! a = Some sp → 0 <= i → i + Z.of_nat n = PT64_ENT_PER_PAGE →
  ∃ s' LL' DD', unlink_children_loop a sp.(sp_spt) n i s = Some s' ∧ shadow_ok LL' DD' s' ∧ dropped (entries_from sp i) s s'.
Proof using Type.
  revert i LL DD s. induction n as [|n IH]; intros i LL DD s Hok Hsp Hi Hn; cbn [ZapPage.unlink_children_loop].
  - exists s, LL, DD. split; [done|]. split; [done|]. eapply dropped_iff; [|apply dropped_refl]. intros p. split; [done|].
    intros [Hp Hge]. destruct (entry_index sp p Hp) as [? _]. lia.
  - assert (Hr : 0 <= i < PT64_ENT_PER_PAGE) by lia.
    destruct (zap_pte_ok LL DD s a (sp.(sp_spt) + 8 * i) sp Hok Hsp (entry_at sp i Hr)) as (s1 & b & LL1 & DD1 & E1 & Hok1 & D1).
    rewrite E1. cbn [mbind option_bind]. destruct (IH (i + 1) LL1 DD1 s1 Hok1) as (s' & LL' & DD' & E & Hok' & D);
      [by rewrite (dr_pages _ _ _ D1)|lia|lia|].
    exists s', LL', DD'. split; [exact E|]. split; [done|]. eapply dropped_iff; [intros p; symmetry; by apply entries_from_split|].
    apply (dropped_trans _ _ s s1); [intros p; destruct (decide (p = sp_spt sp + 8 * i)); auto| |done|done].
    intros p. destruct (decide (entries_from sp (i + 1) p)); auto.
Qed.

Lemma unlink_children_ok (LL DD : owner → list Z) (s : shadow_state) (a : Z) (sp : mmu_page) :
  shadow_ok LL DD s → (mmu s).(pages) !! a = Some sp →
  ∃ s' LL' DD', vmrun_mmu_page_unlink_children a s = Some s' ∧ shadow_ok LL' DD' s' ∧ dropped (entries_from sp 0) s s'.
Proof using Type.
  intros Hok Hsp. unfold ZapPage.vmrun_mmu_page_unlink_children. rewrite Hsp. cbn [mbind option_bind].
  by apply (unlink_loop_ok _ _ LL DD).
Qed.

Lemma unlink_parents_loop_ok (fuel : nat) (LL DD : owner → list Z) (s : shadow_state) (a : Z) :
  shadow_ok LL DD s → is_Some (s.(ss_ext) !! a) → (length (LL (Pg a)) < fuel)%nat →
  ∃ s' LL' DD', unlink_parents_loop g fuel a s = Some s' ∧ shadow_ok LL' DD' s' ∧ LL' (Pg a) = [] ∧
    dropped (λ p, p ∈ LL (Pg a)) s s'.
Proof using Type.
  revert LL DD s. induction fuel as [|fuel IH]; intros LL DD s Hok Hlv Hf; [lia|].
  destruct (first_entry _ _ _ _ LL DD s (Pg a) Hok Hlv) as (iter & E & Hp). pose proof Hlv as [x Hx].
  cbn [unlink_parents_loop]. rewrite Hx. cbn [mbind option_bind]. 
  assert (E0 : rmap_get_first (mmu s).(dmem) (λ p, is_shadow_present_pte g ((mmu s).(ptes) p)) x.(px_parents)
               = Some (default 0 (hd_error (LL (Pg a))), iter)) by (cbn [owner_head] in E; rewrite Hx in E; exact E).
  rewrite E0. cbn [mbind option_bind]. destruct (LL (Pg a)) as [|p l] eqn:El.
  - exists s, LL, DD. split; [done|]. split; [done|]. split; [done|].
    eapply dropped_iff; [|apply dropped_refl]. intros p. split; [done|]. by intros ?%elem_of_nil.
  - destruct (Hp p ltac:(by left)) as [Hptr Ho]. change (default 0 (hd_error (p :: l))) with p.
    rewrite (truth_nonzero p) by apply Hptr. cbn [negb].
    destruct (drop_parent_ok _ _ _ _ LL DD s p a Hok Ho) as (s1 & l' & ds' & -> & Hl & Hok1 & D1). cbn [mbind option_bind].
    rewrite El in Hl. pose proof (Permutation_length Hl) as Hlen. cbn [length] in Hlen, Hf.
    destruct (IH _ _ s1 Hok1) as (s' & LL' & DD' & E' & Hok' & Hnil & D'); [by apply (dropped_live _ _ _ _ D1)|rewrite upd_owner_eq; lia|].
    exists s', LL', DD'. split; [exact E'|]. split; [done|]. split; [done|]. rewrite upd_owner_eq in D'.
    apply (dropped_iff (λ q, q = p ∨ q ∈ l')); [intros q; rewrite Hl, elem_of_cons; done|].
    apply (dropped_trans _ _ s s1); [intros q; destruct (decide (q = p)); auto| |done|done].
    intros q. destruct (decide (q ∈ l')); auto.
Qed.

Lemma unlink_parents_ok (LL DD : owner → list Z) (s : shadow_state) (a : Z) :
  shadow_ok LL DD s → is_Some (s.(ss_ext) !! a) →
  ∃ s' LL' DD', vmrun_mmu_unlink_parents g a s = Some s' ∧ shadow_ok LL' DD' s' ∧ LL' (Pg a) = [] ∧
    dropped (λ p, p ∈ LL (Pg a)) s s'.
Proof using Type.
  intros Hok Hlv. apply (unlink_parents_loop_ok _ LL DD); [done|done|].
  pose proof (rep_length _ _ _ _ (lo_rep _ _ _ (sk_lists _ _ _ _ _ _ _ Hok) (Pg a) Hlv)). lia.
Qed.

(* ------------------------------------------------------------------ *)
(** ** Flags of a page *)

(** Only flags change, and out of sync only to in sync. *)
Record flags_only (s s' : shadow_state) : Prop := {
  fo_ptes : ∀ p, (mmu s').(ptes) p = (mmu s).(ptes) p;
  fo_pages : (mmu s').(pages) = (mmu s).(pages);
  fo_heads : (mmu s').(heads) = (mmu s).(heads);
  fo_dmem : (mmu s').(dmem) = (mmu s).(dmem);
  fo_shape : same_shape s.(ss_track).(tk_heap) s'.(ss_track).(tk_heap);
  fo_hash : s'.(ss_hash) = s.(ss_hash);
  fo_gen : s'.(ss_valid_gen) = s.(ss_valid_gen);
  fo_warns : s'.(ss_warns) = s.(ss_warns);
  fo_ext : ∀ a x, s.(ss_ext) !! a = Some x → ∃ x', s'.(ss_ext) !! a = Some x' ∧ lighter_ext x x' ∧
    x'.(px_parents) = x.(px_parents) ∧ x'.(px_bitmap) = x.(px_bitmap) ∧ x'.(px_unsync_children) = x.(px_unsync_children);
  fo_back : ∀ a, is_Some (s'.(ss_ext) !! a) → is_Some (s.(ss_ext) !! a)
}.

Lemma flags_lookup (s s' : shadow_state) (a : Z) (x' : page_ext) :
  flags_only s s' → s'.(ss_ext) !! a = Some x' → ∃ x, s.(ss_ext) !! a = Some x ∧ lighter_ext x x' ∧
    x'.(px_parents) = x.(px_parents) ∧ x'.(px_bitmap) = x.(px_bitmap) ∧ x'.(px_unsync_children) = x.(px_unsync_children).
Proof using Type.
  intros F Hx'. destruct (fo_back _ _ F a) as [x Hx]; [by eexists|]. exists x. split; [done|].
  destruct (fo_ext _ _ F a x Hx) as (y & Hy & HL). rewrite Hx' in Hy. by injection Hy as <-.
Qed.

Lemma flags_lighter (s s' : shadow_state) : flags_only s s' → lighter s s'.
Proof using Type.
  intros F. pose proof F as [F1 F2 F3 F4 F5 F6 F7 FW F8 F9]. split; try done.
  - intros p. left. apply F1.
  - intros a x Hx. destruct (F8 a x Hx) as (x' & ? & ? & _). eauto.
Qed.

Lemma flags_ok (LL DD : owner → list Z) (s s' : shadow_state) : flags_only s s' → shadow_ok LL DD s → shadow_ok LL DD s'.
Proof using Type.
  intros F [L E C U]. pose proof F as [F1 F2 F3 F4 F5 F6 F7 FW F8 F9]. split.
  - apply (lists_same LL DD s); [done|done|]. intros [k|a]; cbn; unfold head_of; [by rewrite F3|].
    intros [x' Hx']. destruct (flags_lookup s s' a x' F Hx') as (x & Hx & _ & Hp & _). rewrite Hx', Hx. cbn. by split; [eexists|].
  - apply (entries_same _ _ _ _ LL s); [|done]. split; [done|done|]. intros a. split; [apply F9|].
    intros [x Hx]. destruct (F8 a x Hx) as (x' & ? & _). by eexists.
  - intros a x' Hx'. destruct (flags_lookup s s' a x' F Hx') as (x & Hx & _ & _ & -> & ->). by apply (C a).
  - intros a x' p _ Hx' Hn Hp. destruct (flags_lookup s s' a x' F Hx') as (x & Hx & HL & _ & _ & Hc).
    destruct (U a x p) as (sp & y & Hs & Hy & Hb); [by intros []|done| |done|].
    { destruct Hn as [Hn|Hn]; [left; by apply HL|right; congruence]. }
    destruct (F8 _ y Hy) as (y' & Hy' & _ & _ & Hbm & _). exists sp, y'. rewrite F2, Hbm. done.
Qed.

Lemma flags_upd (s : shadow_state) (a : Z) (f : page_ext → page_ext) :
  (∀ x, lighter_ext x (f x) ∧ px_parents (f x) = px_parents x ∧ px_bitmap (f x) = px_bitmap x ∧
        px_unsync_children (f x) = px_unsync_children x) → flags_only s (upd_ext a f s).
Proof using Type.
  intros Hf. split; try done; cbn.
  - intros b x Hx. destruct (decide (b = a)) as [->|Hne].
    + rewrite lookup_alter_eq, Hx. exists (f x). split; [done|apply Hf].
    + rewrite lookup_alter_ne by done. exists x. split; [done|]. split; [done|done].
  - intros b. rewrite lookup_alter. destruct (decide _) as [->|]; [|done]. by destruct (ss_ext s !! _); [eexists|intros []].
Qed.

Lemma flags_same (s s' : shadow_state) :
  same_tables s s' → same_shape s.(ss_track).(tk_heap) s'.(ss_track).(tk_heap) → s'.(ss_hash) = s.(ss_hash) →
  s'.(ss_valid_gen) = s.(ss_valid_gen) → s'.(ss_warns) = s.(ss_warns) → flags_only s s'.
Proof using Type.
  intros [S1 S2 S3 S4 S5] Hs Hh Hg Hw. split; try done; [|by rewrite S5].
  intros a x Hx. rewrite S5. exists x. done.
Qed.

Lemma flags_trans (s1 s2 s3 : shadow_state) : flags_only s1 s2 → flags_only s2 s3 → flags_only s1 s3.
Proof using Type.
  intros [A1 A2 A3 A4 A5 A6 A7 AW A8 A9] [B1 B2 B3 B4 B5 B6 B7 BW B8 B9]. split; try congruence.
  - intros p. by rewrite B1.
  - by eapply same_shape_trans.
  - intros a x Hx. destruct (A8 a x Hx) as (x2 & Hx2 & L2 & P2 & Q2 & R2). destruct (B8 a x2 Hx2) as (x3 & Hx3 & L3 & P3 & Q3 & R3).
    exists x3. split; [done|]. split; [by etrans|]. split_and!; congruence.
  - auto.
Qed.

(* ------------------------------------------------------------------ *)
(** ** One page *)

(** What happens to the lists: off its list, and on the list of pages to free
    unless it is a root. *)
Definition moved (a : Z) (root : bool) (zs zs' : zap_state) : Prop :=
  zs'.(zs_invalid) = (if root then [] else [a]) ++ list_del a zs.(zs_invalid) ∧
  zs'.(zs_shadow).(ss_active) = (if root then [a] else []) ++ list_del a zs.(zs_shadow).(ss_active) ∧
  zs'.(zs_obsolete) = list_del a zs.(zs_obsolete) ∧
  zs'.(zs_shadow).(ss_used) = (if root then zs.(zs_shadow).(ss_used) else u32 (zs.(zs_shadow).(ss_used) - 1)) ∧
  zs'.(zs_total) = zs.(zs_total) - b2z (negb root) ∧ zs'.(zs_freed) = zs.(zs_freed).

Record self_zapped (a : Z) (zs zs' : zap_state) : Prop := {
  sz_lighter : lighter zs.(zs_shadow) zs'.(zs_shadow);
  sz_detached : detached zs'.(zs_shadow) a;
  sz_kept : ∀ sp p, (mmu zs.(zs_shadow)).(pages) !! a = Some sp → entry_in sp p = false → owner_of zs.(zs_shadow) p ≠ Some (Pg a) →
    (mmu zs'.(zs_shadow)).(ptes) p = (mmu zs.(zs_shadow)).(ptes) p;
  sz_marks : ∀ b x, zs.(zs_shadow).(ss_ext) !! b = Some x → ∃ x', zs'.(zs_shadow).(ss_ext) !! b = Some x' ∧
    x'.(px_bitmap) = x.(px_bitmap) ∧ x'.(px_unsync_children) = x.(px_unsync_children) ∧
    (b = a → x'.(px_unsync) = false ∧ x'.(px_invalid) = true) ∧
    (b ≠ a → x'.(px_unsync) = x.(px_unsync) ∧ x'.(px_invalid) = x.(px_invalid));
  sz_moved : ∀ x, zs.(zs_shadow).(ss_ext) !! a = Some x → moved a (truth x.(px_root_count)) zs zs'
}.

Lemma settle_ok (a : Z) (sp : mmu_page) (x : page_ext) (s : shadow_state) :
  s.(ss_ext) !! a = Some x → (sp.(role_direct) = false → is_Some (unaccount_shadowed role_gfn_to_memslot sp s.(ss_track))) →
  ∃ s', settle role_gfn_to_memslot a sp x s = Some s' ∧ flags_only s s' ∧ s'.(ss_ext) = alter (λ x, x <| px_unsync := false |>) a s.(ss_ext) ∧
    s'.(ss_active) = s.(ss_active) ∧ s'.(ss_used) = s.(ss_used).
Proof using Type.
  intros Hx Ha. unfold settle.
  assert (H1 : ∃ s1, (if negb x.(px_invalid) && negb sp.(role_direct)
       then tk ← unaccount_shadowed role_gfn_to_memslot sp s.(ss_track); Some (s <| ss_track := tk |>)
       else Some s) = Some s1 ∧ flags_only s s1 ∧ s1.(ss_ext) = s.(ss_ext) ∧ s1.(ss_active) = s.(ss_active) ∧ s1.(ss_used) = s.(ss_used)).
  { destruct (negb (px_invalid x) && negb (role_direct sp)) eqn:E.
    - apply andb_true_iff in E as [_ Ed%negb_true_iff]. destruct (Ha Ed) as [tk Etk]. rewrite Etk. cbn [mbind option_bind].
      destruct (unaccount_counted _ _ _ _ Etk) as [C1 C2]. eexists. split; [reflexivity|]. split_and!; try done.
      assert (Em : mmu (s <| ss_track := tk |>) = mmu s) by exact C2. apply flags_same; try done. split; by rewrite ?Em.
    - exists s. split; [done|]. split_and!; try done. by apply flags_same. }
  destruct H1 as (s1 & -> & F1 & E1 & A1 & U1). cbn [mbind option_bind]. destruct (px_unsync x) eqn:Eu.
  - unfold vmrun_unlink_unsync_page. rewrite E1, Hx. cbn [mbind option_bind]. rewrite Eu. cbn [negb sp_warn_if].
    eexists. split; [reflexivity|]. split_and!; [|by rewrite <- E1|done|done].
    eapply flags_trans; [exact F1|]. set (s2 := upd_ext a (λ x, x <| px_unsync := false |>) s1).
    apply (flags_trans _ s2); [|by apply flags_same]. apply flags_upd. intros y. split; [|done]. by split.
  - exists s1. split; [done|]. split_and!; try done. rewrite E1. symmetry. apply map_eq. intros b.
    rewrite lookup_alter. destruct (decide (a = b)) as [<-|]; [|done]. rewrite Hx. cbn. f_equal.
    revert Eu. destruct x; cbn. by intros ->.
Qed.

Lemma requeue_moved (a : Z) (x : page_ext) (ret : Z) (zs : zap_state) :
  let '(zs', ret') := requeue a x ret zs in
  moved a (truth x.(px_root_count)) zs zs' ∧ ret' = ret + b2z (negb (truth x.(px_root_count))) ∧
  zs'.(zs_shadow).(ss_ext) = zs.(zs_shadow).(ss_ext) ∧ flags_only zs.(zs_shadow) zs'.(zs_shadow).
Proof using Type.
  unfold requeue, moved. destruct (truth (px_root_count x)) eqn:E; cbn [negb].
  - match goal with |- context [if ?c then _ else _] => destruct c end;
      (split; [split_and!; try done; cbn; lia|]; split; [cbn; lia|]; split; [done|]; by apply flags_same).
  - split; [split_and!; done|]. split; [done|]. split; [done|]. by apply flags_same.
Qed.

Lemma detached_of (LL DD : owner → list Z) (s : shadow_state) (a : Z) (sp : mmu_page) :
  shadow_ok LL DD s → (mmu s).(pages) !! a = Some sp → is_Some (s.(ss_ext) !! a) → LL (Pg a) = [] →
  (∀ p, entry_in sp p = true → (mmu s).(ptes) p = 0) → detached s a.
Proof using Type.
  intros Hok Hsp Hl Hnil H0. split.
  - intros sp' p Hsp' Hp. rewrite Hsp in Hsp'. injection Hsp' as <-. destruct (owner_of s p) as [o|] eqn:E; [|done].
    destruct (owner_elim _ _ _ _ s p o E) as (_ & _ & _ & Hpr & _). by rewrite (H0 p Hp) in Hpr.
  - intros p Ho. apply (en_member _ _ _ _ _ _ (sk_entries _ _ _ _ _ _ _ Hok) (Pg a) p Hl) in Ho. rewrite Hnil in Ho. by apply elem_of_nil in Ho.
Qed.

Lemma moved_shadow (a : Z) (r : bool) (zs zs' zs'' : zap_state) (s : shadow_state) :
  s.(ss_active) = zs.(zs_shadow).(ss_active) → s.(ss_used) = zs.(zs_shadow).(ss_used) →
  moved a r (zs <| zs_shadow := s |>) zs' → zs''.(zs_invalid) = zs'.(zs_invalid) → zs''.(zs_obsolete) = zs'.(zs_obsolete) →
  zs''.(zs_total) = zs'.(zs_total) → zs''.(zs_freed) = zs'.(zs_freed) →
  zs''.(zs_shadow).(ss_active) = zs'.(zs_shadow).(ss_active) → zs''.(zs_shadow).(ss_used) = zs'.(zs_shadow).(ss_used) →
  moved a r zs zs''.
Proof using Type.
  unfold moved. cbn. intros -> -> (M1 & M2 & M3 & M4 & M5 & M6) -> -> -> -> -> ->. by split_and!.
Qed.

Lemma zap_self_ok (LL DD : owner → list Z) (zs : zap_state) (a ret : Z) (sp : mmu_page) (x : page_ext) :
  shadow_ok LL DD zs.(zs_shadow) → levels_ok zs.(zs_shadow) → (mmu zs.(zs_shadow)).(pages) !! a = Some sp →
  zs.(zs_shadow).(ss_ext) !! a = Some x →
  ∃ zs' LL' DD', zap_self a ret zs = Some (zs', ret + b2z (negb (truth x.(px_root_count)))) ∧
    shadow_ok LL' DD' zs'.(zs_shadow) ∧ self_zapped a zs zs'.
Proof using Type.
  set (s := zs.(zs_shadow)). intros Hok Hlv Hsp Hx. unfold ZapPage.zap_self. fold s.
  destruct (unlink_children_ok LL DD s a sp Hok Hsp) as (s1 & L1 & D1 & -> & Hok1 & R1). cbn [mbind option_bind].
  assert (Hlv1 : is_Some (s1.(ss_ext) !! a)) by (apply (dropped_live _ _ _ _ R1); by eexists).
  destruct (unlink_parents_ok L1 D1 s1 a Hok1 Hlv1) as (s2 & L2 & D2 & -> & Hok2 & Hnil & R2). cbn [mbind option_bind].
  assert (Hsp2 : (mmu s2).(pages) !! a = Some sp) by (by rewrite (dr_pages _ _ _ R2), (dr_pages _ _ _ R1)). rewrite Hsp2. cbn [mbind option_bind].
  pose proof (dropped_lighter _ _ _ R1) as T1. pose proof (dropped_lighter _ _ _ R2) as T2.
  assert (T12 : lighter s s2) by by etrans.
  assert (Hxx : ∀ b y, s.(ss_ext) !! b = Some y → ∃ h, s2.(ss_ext) !! b = Some (y <| px_parents := h |>)).
  { intros b y Hy. eexists. rewrite (dr_ext _ _ _ R2 b), (dr_ext _ _ _ R1 b), Hy. reflexivity. }
  destruct (Hxx a x Hx) as [h Hx2]. rewrite Hx2. cbn [mbind option_bind].
  destruct (settle_ok a sp (x <| px_parents := h |>) s2 Hx2) as (s3 & -> & F3 & E3 & A3 & U3).
  { intros Hd. eapply unaccount_shape; [apply T12|by apply (lv_account _ Hlv a)]. }
  cbn [mbind option_bind]. pose proof (requeue_moved a (x <| px_parents := h |>) ret (zs <| zs_shadow := s3 |>)) as Q.
  destruct (requeue _ _ _ _) as [zs4 ret4]. destruct Q as (Q1 & -> & Q3 & F4).
  set (zs5 := zs4 <| zs_shadow ::= upd_ext a (λ x, x <| px_invalid := true |>) |>).
  assert (F5 : flags_only s2 zs5.(zs_shadow)).
  { eapply flags_trans; [exact F3|]. eapply flags_trans; [exact F4|]. apply flags_upd. intros y. split; [|done]. by split. }
  exists zs5, L2, D2. split; [done|]. pose proof (flags_ok _ _ _ _ F5 Hok2) as Hok5. split; [exact Hok5|].
  pose proof (flags_lighter _ _ F5) as T5.
  assert (Hcl : ∀ p, entry_in sp p = true → ptes (mmu s2) p = 0).
  { intros p Hp. assert (H1 : ptes (mmu s1) p = 0) by (apply (dr_in _ _ _ R1); split; [done|by apply entry_index]).
    by destruct (lt_ptes _ _ T2 p) as [->|?]. }
  split.
  - fold s. by etrans.
  - eapply lighter_detached; [exact T5|]. eapply detached_of; [exact Hok2|exact Hsp2|by eexists|done|done].
  - intros sp' p Hsp' Hp Ho. fold s in Hsp', Ho. rewrite Hsp in Hsp'. injection Hsp' as <-. rewrite (fo_ptes _ _ F5).
    rewrite (dr_out _ _ _ R2); [apply (dr_out _ _ _ R1); intros [Hc _]; congruence|].
    intros Hin. apply (en_member _ _ _ _ _ _ (sk_entries _ _ _ _ _ _ _ Hok1) (Pg a) p Hlv1) in Hin.
    exact (Ho (lighter_owner s s1 p _ T1 Hin)).
  - intros b y Hy. fold s in Hy. destruct (Hxx b y Hy) as [hb Hb]. unfold zs5. cbn [zs_shadow put upd_ext ss_ext].
    rewrite Q3. cbn [zs_shadow put]. rewrite E3. destruct (decide (b = a)) as [->|Hne].
    + rewrite !lookup_alter_eq, Hb. cbn. eexists. split; [reflexivity|]. cbn. split_and!; try done.
    + rewrite !lookup_alter_ne by done. rewrite Hb. eexists. split; [reflexivity|]. cbn. split_and!; try done.
  - intros y Hy. fold s in Hy. rewrite Hx in Hy. injection Hy as <-.
    assert (Ha2 : s2.(ss_active) = s.(ss_active) ∧ s2.(ss_used) = s.(ss_used)).
    { rewrite (dr_rest _ _ _ R2), (dr_rest _ _ _ R1). done. }
    destruct Ha2 as [Ha2 Hu2]. eapply (moved_shadow _ _ zs zs4 zs5 s3); try done; [by rewrite A3|by rewrite U3].
Qed.

(* ------------------------------------------------------------------ *)
(** ** Clearing a mark *)

Definition without_mark (idx : Z) (x : page_ext) : page_ext :=
  x <| px_unsync_children := x.(px_unsync_children) - 1 |> <| px_bitmap ::= <[Z.to_nat idx := false]> |>.

Lemma without_mark_lighter (idx : Z) (x : page_ext) : lighter_ext x (without_mark idx x).
Proof using Type.
  split; try done; cbn; [apply length_insert|]. intros i [(_ & [= ?] & _)|[_ ?]]%list_lookup_insert_Some; done.
Qed.

(** [p] is entry [idx] of page [b]. *)
Definition entry_num (sp : mmu_page) (idx : Z) : Z := sp.(sp_spt) + 8 * idx.

Lemma entry_num_index (sp : mmu_page) (idx : Z) : spte_index sp (entry_num sp idx) = idx.
Proof using Type.
  unfold spte_index, entry_num. replace (sp_spt sp + 8 * idx - sp_spt sp) with (idx * 8) by lia. apply Z.div_mul. lia.
Qed.

Lemma upd_ext_at (a : Z) (f f' : page_ext → page_ext) (s : shadow_state) :
  (∀ x, s.(ss_ext) !! a = Some x → f x = f' x) → upd_ext a f s = upd_ext a f' s.
Proof using Type.
  intros H. unfold upd_ext. assert (E : alter f a (ss_ext s) = alter f' a (ss_ext s)); [|by rewrite E].
  apply map_eq. intros c. rewrite !lookup_alter. destruct (decide (a = c)) as [<-|]; [|done].
  destruct (ss_ext s !! a) as [x|] eqn:Hx; [|done]. cbn. by rewrite H.
Qed.

Lemma clear_bit_ok (LL DD : owner → list Z) (s : shadow_state) (b idx : Z) (sp : mmu_page) (y : page_ext) :
  shadow_ok LL DD s → (mmu s).(pages) !! b = Some sp → s.(ss_ext) !! b = Some y → 0 <= idx →
  y.(px_bitmap) !! Z.to_nat idx = Some true →
  (∀ c x, owner_of s (entry_num sp idx) = Some (Pg c) → s.(ss_ext) !! c = Some x → ¬ needs_mark x) →
  let s' := upd_ext b (without_mark idx) s in
  clear_unsync_child_bit b idx s = Some s' ∧ shadow_ok LL DD s' ∧ lighter s s' ∧ S (total_marks s') = total_marks s.
Proof using Type.
  intros Hok Hsp Hy Hi Hbit Hsafe s'. destruct (counts_bits LL DD s b y Hok Hy) as [Hlen Hc].
  pose proof (ones_split _ _ _ Hbit false) as Ho. cbn in Ho. pose proof (ones_bound (px_bitmap y)) as Hob. change PT64_ENT_PER_PAGE with 512 in *.
  pose proof (lookup_lt_Some _ _ _ Hbit) as Hlt.
  assert (Hu : u32 (px_unsync_children y - 1) = px_unsync_children y - 1) by (apply wrap_id; unfold is_u; lia).
  assert (Hext : ∀ c, s'.(ss_ext) !! c = if decide (c = b) then Some (without_mark idx y) else s.(ss_ext) !! c).
  { intros c. cbn. destruct (decide (c = b)) as [->|Hne]; [by rewrite lookup_alter_eq, Hy|by rewrite lookup_alter_ne]. }
  assert (Hex : ∀ c x, s.(ss_ext) !! c = Some x → ∃ x', s'.(ss_ext) !! c = Some x' ∧ lighter_ext x x' ∧ x'.(px_parents) = x.(px_parents) ∧
                  x'.(px_unsync) = x.(px_unsync) ∧ (c ≠ b → x' = x)).
  { intros c x Hx. rewrite Hext. destruct (decide (c = b)) as [->|Hne].
    - rewrite Hy in Hx. injection Hx as <-. eexists. split; [done|]. split; [apply without_mark_lighter|]. done.
    - exists x. done. }
  assert (Hback : ∀ c, is_Some (s'.(ss_ext) !! c) → is_Some (s.(ss_ext) !! c)).
  { intros c. rewrite Hext. destruct (decide (c = b)) as [->|]; [by rewrite Hy; eexists|done]. }
  split; [|split; [|split]].
  - unfold clear_unsync_child_bit. rewrite Hy. cbn [mbind option_bind]. cbv zeta. rewrite Hu.
    assert (Hs : s32 (px_unsync_children y - 1) <? 0 = false) by (apply Z.ltb_ge; rewrite s32_id; lia). rewrite Hs. cbn [sp_warn_if].
    destruct (Z.ltb_spec idx 0); [lia|]. destruct (Z.leb_spec (Z.of_nat (length (px_bitmap y))) idx); [lia|]. cbn [orb].
    f_equal. apply upd_ext_at. intros x Hx. rewrite Hy in Hx. by injection Hx as <-.
  - destruct Hok as [L E C U]. split.
    + apply (lists_same LL DD s); [done|done|]. intros [k|a]; [done|]. cbn [owner_live owner_head]. intros Hl.
      destruct (Hback a Hl) as [x Hx]. split; [by eexists|]. destruct (Hex a x Hx) as (x' & -> & _ & Hp & _). by rewrite Hx.
    + apply (entries_same _ _ _ _ LL s); [|done]. split; [done|done|]. intros a. split; [apply Hback|].
      intros [x Hx]. destruct (Hex a x Hx) as (x' & -> & _). by eexists.
    + intros a x'. rewrite Hext. destruct (decide (a = b)) as [->|]; [|apply C]. intros [= <-]. split; [etrans; [apply length_insert|exact Hlen]|].
      change (px_unsync_children y - 1 = Z.of_nat (ones (<[Z.to_nat idx:=false]> (px_bitmap y)))). lia.
    + intros a x' p _ Hx' Hn Hp. destruct (Hback a) as [x Hx]; [by eexists|]. destruct (Hex a x Hx) as (x2 & Hx2 & HL & _ & Hun & Hsame).
      rewrite Hx' in Hx2. injection Hx2 as <-.
      assert (Hn0 : needs_mark x).
      { destruct Hn as [Hn|Hn]; [left; congruence|right]. destruct (decide (a = b)) as [->|Hne]; [|by rewrite <- (Hsame Hne)].
        rewrite Hext, decide_True in Hx' by done. injection Hx' as <-. rewrite Hy in Hx. injection Hx as <-. cbn in Hn. lia. }
      destruct (U a x p) as (sq & z & Hs & Hz & Hb); [by intros []|done|done|done|].
      destruct (Hex _ z Hz) as (z' & Hz' & _ & _ & _ & Hzs). exists sq, z'. split; [exact Hs|]. split; [done|].
      destruct (decide (page_header p = b)) as [Hpb|Hne]; [|by rewrite (Hzs Hne)].
      rewrite Hext, decide_True in Hz' by done. injection Hz' as <-. rewrite Hpb, Hsp in Hs. injection Hs as <-.
      rewrite Hpb, Hy in Hz. injection Hz as <-. cbn. rewrite list_lookup_insert_ne; [done|]. intros Heq.
      apply (en_member _ _ _ _ _ _ E (Pg a) p) in Hp; [|by eexists].
      apply (Hsafe a x); [|done|done]. destruct (owner_elim _ _ _ _ s p _ Hp) as (sq & Hsq & Hin & _).
      rewrite Hpb, Hsp in Hsq. injection Hsq as <-. destruct (entry_index sp p Hin) as [Hr Ep].
      assert (Ei : spte_index sp p = idx) by lia. unfold entry_num. rewrite <- Ei, <- Ep. done.
  - split; try done; [by left|]. intros a x Hx. destruct (Hex a x Hx) as (x' & ? & ? & _). eauto.
  - unfold total_marks. cbn. assert (Ealt : alter (without_mark idx) b (ss_ext s) = <[b := without_mark idx y]> (ss_ext s)).
    { apply map_eq. intros c. rewrite lookup_alter, lookup_insert. destruct (decide (b = c)) as [<-|]; [|done]. by rewrite Hy. }
    rewrite Ealt. pose proof (total_insert (λ x, ones (px_bitmap x)) (ss_ext s) b y (without_mark idx y) Hy) as Ht.
    cbv beta in Ht. change (px_bitmap (without_mark idx y)) with (<[Z.to_nat idx:=false]> (px_bitmap y)) in Ht. lia.
Qed.
End Zap.
