(* ===== verification/ZapUnsyncProps.v ===== *)
(** * Zapping the pages out of sync below a page

    [mmu_unsync_walk] collects pages in a vector of sixteen places in the
    order it meets them; [mmu_pages_next] rebuilds from the vector the path
    from each page out of sync up to the page the walk started from, along
    which the marks are cleared.  The path is right because the vector is a
    depth-first order; the passes end because each clears a mark. *)

From S2P Require Import Prelude.
From S2P Require Import Spte.
From S2P Require Import SpteTrack.
From S2P Require Import Memslots.
From S2P Require Import MemRegion.
From S2P Require Import MemRegionProps.
From S2P Require Import PteList.
From S2P Require Import PteListProps.
From S2P Require Import Rmap.
From S2P Require Import RmapProps.
From S2P Require Import SlotWalk.
From S2P Require Import PageTrack.
From S2P Require Import PageTrackProps.
From S2P Require Import ShadowPage.
From S2P Require Import ShadowPageProps.
From S2P Require Import MmuInv.
From S2P Require Import SetSpte.
From S2P Require Import ZapPage.
From S2P Require Import ZapPageProps.

(** The page of each level on the way down, with its index in the one above. *)
Definition cursor : Type := Z → option (Z * Z).
Definition push (cur : cursor) (level : Z) (e : Z * Z) : cursor := λ j, if j =? level then Some e else cur j.

Lemma push_eq (cur : cursor) (level : Z) (e : Z * Z) : push cur level e level = Some e.
Proof. unfold push. by rewrite Z.eqb_refl. Qed.

Lemma push_ne (cur : cursor) (level j : Z) (e : Z * Z) : j ≠ level → push cur level e j = cur j.
Proof. intros H. unfold push. by destruct (Z.eqb_spec j level). Qed.

(** ** Lists without some pages *)

Definition del_all (Zs l : list Z) : list Z := filter (λ b, b ∉ Zs) l.

Lemma del_all_snoc (Zs l : list Z) (c : Z) : list_del c (del_all Zs l) = del_all (Zs ++ [c]) l.
Proof.
  unfold list_del, del_all. rewrite list_filter_filter. apply list_filter_iff. intros b.
  rewrite elem_of_app, list_elem_of_singleton. tauto.
Qed.

Lemma list_del_notin (l : list Z) (c : Z) : c ∉ l → list_del c l = l.
Proof.
  unfold list_del. induction l as [|b l IH]; intros Hn; [done|]. rewrite not_elem_of_cons in Hn. rewrite filter_cons_True by (destruct Hn; done).
  f_equal. apply IH. by destruct Hn.
Qed.

Lemma del_all_nil (l : list Z) : del_all [] l = l.
Proof. unfold del_all. induction l as [|b l IH]; [done|]. rewrite filter_cons_True by apply not_elem_of_nil. by rewrite IH. Qed.

Lemma elem_of_del_all (Zs l : list Z) (b : Z) : b ∈ del_all Zs l ↔ b ∈ l ∧ b ∉ Zs.
Proof. unfold del_all. rewrite list_elem_of_filter. split; intros [? ?]; done. Qed.

Lemma del_all_disjoint (Zs l : list Z) : (∀ b, b ∈ l → b ∉ Zs) → del_all Zs l = l.
Proof.
  unfold del_all. induction l as [|b l IH]; intros H; [done|]. rewrite filter_cons_True by (apply H; by left). f_equal. apply IH.
  intros c Hc. apply H. by right.
Qed.

Lemma del_all_length (Zs l : list Z) :
  NoDup Zs → NoDup l → (∀ b, b ∈ Zs → b ∈ l) → (length (del_all Zs l) + length Zs = length l)%nat.
Proof.
  intros HZ Hl Hsub. assert (Hp : l ≡ₚ Zs ++ del_all Zs l); [|rewrite Hp at 2; rewrite length_app; lia].
  apply NoDup_Permutation; [done| |].
  - apply NoDup_app. split; [done|]. split; [|by apply NoDup_filter]. by intros b Hb [_ ?]%elem_of_del_all.
  - intros b. rewrite elem_of_app, elem_of_del_all. split; [|intros [?|[? _]]; auto]. intros Hb. destruct (decide (b ∈ Zs)); auto.
Qed.

Lemma list_del_all (c : Z) (l : list Z) : list_del c l = del_all [c] l.
Proof. unfold list_del, del_all. apply list_filter_iff. intros b. by rewrite list_elem_of_singleton. Qed.
Section Walk.
Context `{K : KvmPte} `{T : KvmTrack} (g : shadow_masks) (page_header page_of : Z → Z)
        (gfn_to_memslot : bool → Z → vmrun_memory_slot) (role_gfn_to_memslot : bool → Z → option vmrun_memory_slot)
        (PT64_ROOT_MAX_LEVEL : nat).

Notation owner_of := (owner_of g page_header page_of gfn_to_memslot).
Notation shadow_ok := (shadow_ok g page_header page_of gfn_to_memslot).
Notation levels_ok := (levels_ok g page_header page_of gfn_to_memslot role_gfn_to_memslot PT64_ROOT_MAX_LEVEL).

Definition lev (s : shadow_state) (a : Z) : Z := from_option role_level 0 ((mmu s).(pages) !! a).

(** Entry [idx] of page [b] points to page [c]. *)
Definition child (s : shadow_state) (b idx c : Z) : Prop :=
  ∃ sp, (mmu s).(pages) !! b = Some sp ∧ 0 <= idx < PT64_ENT_PER_PAGE ∧ owner_of s (entry_num sp idx) = Some (Pg c).

Definition is_unsync (s : shadow_state) (a : Z) : Prop := ∃ x, s.(ss_ext) !! a = Some x ∧ x.(px_unsync) = true.

Context (top : Z).

(** From [level] up to the top the cursor is a path of the tables. *)
Definition linked (s : shadow_state) (cur : cursor) (level : Z) : Prop :=
  ∀ j, level <= j < top → ∃ c i b i', cur j = Some (c, i) ∧ cur (j + 1) = Some (b, i') ∧ child s b i c ∧ lev s c = j.

(** The vector from a position on, with the cursor there. *)
Fixpoint vec_ok (s : shadow_state) (cur : cursor) (l : list (Z * Z)) : Prop :=
  match l with
  | [] => True
  | (a, i) :: l =>
      let cur := push cur (lev s a) (a, i) in
      1 <= lev s a < top ∧ linked s cur (lev s a) ∧ (lev s a = 1 → is_unsync s a) ∧ vec_ok s cur l
  end.

Fixpoint after (s : shadow_state) (cur : cursor) (l : list (Z * Z)) : cursor :=
  match l with [] => cur | (a, i) :: l => after s (push cur (lev s a) (a, i)) l end.

Lemma vec_ok_app (s : shadow_state) (cur : cursor) (l1 l2 : list (Z * Z)) :
  vec_ok s cur (l1 ++ l2) ↔ vec_ok s cur l1 ∧ vec_ok s (after s cur l1) l2.
Proof using Type.
  revert cur. induction l1 as [|[a i] l1 IH]; intros cur; cbn; [tauto|]. rewrite IH. tauto.
Qed.

Lemma after_app (s : shadow_state) (cur : cursor) (l1 l2 : list (Z * Z)) : after s cur (l1 ++ l2) = after s (after s cur l1) l2.
Proof using Type. revert cur. induction l1 as [|[a i] l1 IH]; intros cur; cbn; [done|]. by rewrite IH. Qed.

Definition below (s : shadow_state) (level : Z) (l : list (Z * Z)) : Prop := ∀ e, e ∈ l → lev s e.1 < level.

Lemma after_above (s : shadow_state) (cur : cursor) (l : list (Z * Z)) (level j : Z) :
  below s level l → level <= j → after s cur l j = cur j.
Proof using Type.
  revert cur. induction l as [|[a i] l IH]; intros cur Hb Hj; cbn; [done|]. rewrite IH; [|intros e He; apply Hb; by right|done].
  apply push_ne. specialize (Hb (a, i) ltac:(by left)). cbn in Hb. lia.
Qed.

Lemma linked_agree (s : shadow_state) (cur cur' : cursor) (level : Z) :
  (∀ j, level <= j → cur' j = cur j) → linked s cur level → linked s cur' level.
Proof using Type. intros H Hl j Hj. rewrite !H by lia. by apply Hl. Qed.

Lemma linked_push (s : shadow_state) (cur : cursor) (level a i c i' : Z) :
  linked s cur level → cur level = Some (a, i') → child s a i c → lev s c = level - 1 →
  linked s (push cur (level - 1) (c, i)) (level - 1).
Proof using Type.
  intros Hl Ha Hc Hlc j Hj. destruct (decide (j = level - 1)) as [->|Hne].
  - exists c, i, a, i'. rewrite push_eq, push_ne by lia. replace (level - 1 + 1) with level by lia. done.
  - rewrite !push_ne by lia. apply Hl. lia.
Qed.

Definition leaf_entry (s : shadow_state) (e : Z * Z) : Prop := lev s e.1 = 1.
#[local] Instance leaf_entry_dec (s : shadow_state) (e : Z * Z) : Decision (leaf_entry s e).
Proof using Type. unfold leaf_entry. apply _. Defined.

Definition has_leaf (s : shadow_state) (v : list (Z * Z)) : Prop := ∃ e, e ∈ v ∧ leaf_entry s e.
Definition distinct (s : shadow_state) (v : list (Z * Z)) : Prop := NoDup ((filter (leaf_entry s) v).*1).

Lemma has_leaf_app (s : shadow_state) (v l : list (Z * Z)) : has_leaf s v → has_leaf s (v ++ l).
Proof using Type. intros (e & He & Hl). exists e. split; [apply elem_of_app; by left|done]. Qed.

Lemma distinct_snoc (s : shadow_state) (v : list (Z * Z)) (e : Z * Z) :
  distinct s v → (leaf_entry s e → e.1 ∉ v.*1) → distinct s (v ++ [e]).
Proof using Type.
  intros Hd Hn. unfold distinct in *. rewrite filter_app, fmap_app, filter_cons. case_decide as Hl; cbn; [|by rewrite app_nil_r].
  apply NoDup_app. split; [done|]. split; [|apply NoDup_singleton]. intros a Ha ->%list_elem_of_singleton.
  apply list_elem_of_fmap in Ha as (e' & He & [_ Hin]%list_elem_of_filter). apply (Hn Hl). apply list_elem_of_fmap. eauto.
Qed.

(** What a step of the walk may change: marks. *)
Record walked (LL DD : owner → list Z) (s s' : shadow_state) : Prop := {
  wk_same : s' = s <| ss_ext := s'.(ss_ext) |>;
  wk_ext : ∀ a x, s.(ss_ext) !! a = Some x →
    ∃ bm n, s'.(ss_ext) !! a = Some (x <| px_bitmap := bm |> <| px_unsync_children := n |>);
  wk_lighter : lighter s s';
  wk_ok : shadow_ok LL DD s'
}.

Lemma walked_refl (LL DD : owner → list Z) (s : shadow_state) : shadow_ok LL DD s → walked LL DD s s.
Proof using Type. intros Hok. split; try done. intros a x Hx. exists x.(px_bitmap), x.(px_unsync_children). rewrite Hx. by destruct x. Qed.

Lemma walked_trans (LL DD : owner → list Z) (s1 s2 s3 : shadow_state) :
  walked LL DD s1 s2 → walked LL DD s2 s3 → walked LL DD s1 s3.
Proof using Type.
  intros [A1 A2 A3 A4] [B1 B2 B3 B4]. split; [by rewrite B1, A1| |by etrans|done].
  intros a x Hx. destruct (A2 a x Hx) as (bm & n & Hx2). destruct (B2 a _ Hx2) as (bm' & n' & Hx3). exists bm', n'. exact Hx3.
Qed.

Lemma walked_mmu (LL DD : owner → list Z) (s s' : shadow_state) : walked LL DD s s' → mmu s' = mmu s.
Proof using Type. intros W. by rewrite (wk_same _ _ _ _ W). Qed.

Lemma walked_lev (LL DD : owner → list Z) (s s' : shadow_state) (a : Z) : walked LL DD s s' → lev s' a = lev s a.
Proof using Type. intros W. unfold lev. by rewrite (walked_mmu _ _ _ _ W). Qed.

Lemma walked_child (LL DD : owner → list Z) (s s' : shadow_state) (b i c : Z) :
  walked LL DD s s' → child s b i c ↔ child s' b i c.
Proof using Type.
  intros W. pose proof (walked_mmu _ _ _ _ W) as Hm. unfold child, MmuInv.owner_of, MmuInv.value_owner, spte_key. by rewrite Hm.
Qed.

Lemma walked_unsync (LL DD : owner → list Z) (s s' : shadow_state) (a : Z) : walked LL DD s s' → is_unsync s a ↔ is_unsync s' a.
Proof using Type.
  intros W. split; intros (x & Hx & Hu).
  - destruct (wk_ext _ _ _ _ W a x Hx) as (bm & n & Hx'). eexists. split; [exact Hx'|done].
  - destruct (lt_back _ _ (wk_lighter _ _ _ _ W) a) as [y Hy]; [by eexists|]. destruct (wk_ext _ _ _ _ W a y Hy) as (bm & n & Hy').
    rewrite Hx in Hy'. injection Hy' as ->. by exists y.
Qed.

Lemma walked_invalid (LL DD : owner → list Z) (s s' : shadow_state) (b : Z) (x' : page_ext) :
  walked LL DD s s' → s'.(ss_ext) !! b = Some x' → ∃ x, s.(ss_ext) !! b = Some x ∧ x'.(px_invalid) = x.(px_invalid).
Proof using Type.
  intros W Hx'. destruct (lt_back _ _ (wk_lighter _ _ _ _ W) b) as [x Hx]; [by eexists|]. exists x. split; [done|].
  destruct (wk_ext _ _ _ _ W b x Hx) as (bm & n & Hy). rewrite Hx' in Hy. by injection Hy as ->.
Qed.

Lemma walked_linked (LL DD : owner → list Z) (s s' : shadow_state) (cur : cursor) (level : Z) :
  walked LL DD s s' → linked s cur level ↔ linked s' cur level.
Proof using Type.
  intros W. unfold linked. split; intros H j Hj; destruct (H j Hj) as (c & i & b & i' & H1 & H2 & H3 & H4); exists c, i, b, i'.
  - split_and!; try done; [by apply (walked_child _ _ _ _ _ _ _ W)|by rewrite (walked_lev _ _ _ _ _ W)].
  - split_and!; try done; [by apply (walked_child _ _ _ _ _ _ _ W)|by rewrite <- (walked_lev _ _ _ _ _ W)].
Qed.

Lemma walked_vec (LL DD : owner → list Z) (s s' : shadow_state) (cur : cursor) (l : list (Z * Z)) :
  walked LL DD s s' → vec_ok s' cur l ↔ vec_ok s cur l.
Proof using Type.
  intros W. revert cur. induction l as [|[a i] l IH]; intros cur; cbn; [done|].
  rewrite (walked_lev _ _ _ _ a W), IH, <- (walked_linked _ _ _ _ _ _ W), <- (walked_unsync _ _ _ _ _ W). done.
Qed.

Lemma walked_after (LL DD : owner → list Z) (s s' : shadow_state) (cur : cursor) (l : list (Z * Z)) :
  walked LL DD s s' → after s' cur l = after s cur l.
Proof using Type.
  intros W. revert cur. induction l as [|[a i] l IH]; intros cur; cbn; [done|]. by rewrite (walked_lev _ _ _ _ a W), IH.
Qed.

(* ------------------------------------------------------------------ *)
(** ** The walk *)

(** What a walk of a page at [level] leaves: [l] is what it added to the
    vector [v]. *)
Record walk_result (LL DD : owner → list Z) (level a : Z) (cur : cursor) (s : shadow_state) (v : list (Z * Z))
    (s' : shadow_state) (l : list (Z * Z)) (ret : Z) : Prop := {
  wr_walked : walked LL DD s s';
  wr_vec : vec_ok s cur l;
  wr_below : below s level l;
  wr_distinct : distinct s v → distinct s (v ++ l);
  wr_above : ∀ b, level < lev s b → s'.(ss_ext) !! b = s.(ss_ext) !! b;
  wr_none : ret = 0 → ∀ x, s'.(ss_ext) !! a = Some x → x.(px_unsync_children) = 0;
  wr_some : 0 < ret → has_leaf s (v ++ l);
  wr_room : 0 <= ret → (length (v ++ l) < KVM_PAGE_ARRAY_NR)%nat;
  wr_full : ret < 0 → has_leaf s (v ++ l) ∨ (total_marks s' < total_marks s)%nat ∨
              (Z.of_nat (length l) <= level - 1 ∧ length (v ++ l) = KVM_PAGE_ARRAY_NR)
}.

(** The loop over the marks, before mark [i]. *)
Record walking (LL DD : owner → list Z) (level a : Z) (cur : cursor) (s0 : shadow_state) (v : list (Z * Z)) (i : Z)
    (s : shadow_state) (l : list (Z * Z)) (leaves : Z) : Prop := {
  wi_walked : walked LL DD s0 s;
  wi_vec : vec_ok s0 cur l;
  wi_below : below s0 level l;
  wi_distinct : distinct s0 v → distinct s0 (v ++ l);
  wi_above : ∀ b, level < lev s0 b → s.(ss_ext) !! b = s0.(ss_ext) !! b;
  wi_bits : leaves = 0 → ∀ x j, s.(ss_ext) !! a = Some x → 0 <= j < i → x.(px_bitmap) !! Z.to_nat j ≠ Some true;
  wi_leaves : 0 <= leaves ∧ (0 < leaves → has_leaf s0 (v ++ l));
  wi_room : (length (v ++ l) < KVM_PAGE_ARRAY_NR)%nat;
  wi_progress : l = [] ∨ has_leaf s0 (v ++ l) ∨ (total_marks s < total_marks s0)%nat
}.

Lemma lev_some (s : shadow_state) (a : Z) (sp : mmu_page) : (mmu s).(pages) !! a = Some sp → lev s a = sp.(role_level).
Proof using Type. intros H. unfold lev. by rewrite H. Qed.

Lemma clear_walked (LL DD : owner → list Z) (s : shadow_state) (a i : Z) (sp : mmu_page) (x : page_ext) :
  shadow_ok LL DD s → (mmu s).(pages) !! a = Some sp → s.(ss_ext) !! a = Some x → 0 <= i →
  x.(px_bitmap) !! Z.to_nat i = Some true →
  (∀ c y, owner_of s (entry_num sp i) = Some (Pg c) → s.(ss_ext) !! c = Some y → ¬ needs_mark y) →
  let s' := upd_ext a (without_mark i) s in
  clear_unsync_child_bit a i s = Some s' ∧ walked LL DD s s' ∧ (total_marks s' < total_marks s)%nat ∧
  (∀ b, b ≠ a → s'.(ss_ext) !! b = s.(ss_ext) !! b).
Proof using Type.
  intros Hok Hsp Hx Hi Hbit Hsafe s'.
  destruct (clear_bit_ok g page_header page_of gfn_to_memslot LL DD s a i sp x Hok Hsp Hx Hi Hbit Hsafe) as (E & Hok' & L & Ht).
  fold s' in E, Hok', L, Ht. split; [exact E|]. split; [|split; [lia|]].
  - split; [done| |done|done]. intros b y Hy. destruct (decide (b = a)) as [->|Hne].
    + eexists _, _. cbn. rewrite lookup_alter_eq, Hy. cbn. unfold without_mark. reflexivity.
    + exists y.(px_bitmap), y.(px_unsync_children). cbn. rewrite lookup_alter_ne, Hy by done. by destruct y.
  - intros b Hne. cbn. by rewrite lookup_alter_ne.
Qed.

(** One mark further: [l2] is added to the vector and [d] leaves are counted. *)
Lemma walking_step (LL DD : owner → list Z) (level a : Z) (cur : cursor) (s0 s s2 : shadow_state) (v l l2 : list (Z * Z))
    (i leaves d : Z) :
  walking LL DD level a cur s0 v i s l leaves → walked LL DD s s2 → vec_ok s0 (after s0 cur l) l2 → below s0 level l2 →
  (distinct s0 (v ++ l) → distinct s0 (v ++ l ++ l2)) → (∀ b, level < lev s0 b → s2.(ss_ext) !! b = s.(ss_ext) !! b) →
  0 <= d → (d = 0 → ∀ y, s2.(ss_ext) !! a = Some y → y.(px_bitmap) !! Z.to_nat i ≠ Some true) →
  (0 < d → has_leaf s0 (v ++ l ++ l2)) → (length (v ++ l ++ l2) < KVM_PAGE_ARRAY_NR)%nat →
  l2 = [] ∨ has_leaf s0 (v ++ l ++ l2) ∨ (total_marks s2 < total_marks s)%nat →
  walking LL DD level a cur s0 v (i + 1) s2 (l ++ l2) (leaves + d).
Proof using Type.
  intros [W V B D A Bi [L0 L1] R P] W2 V2 B2 D2 A2 Hd Hbit Hleaf Hroom Hprog.
  pose proof lighter_marks as HM.
  split.
  - by eapply walked_trans.
  - by apply vec_ok_app.
  - intros e [?|?]%elem_of_app; auto.
  - auto.
  - intros b Hb. by rewrite A2, A.
  - intros Hz y j Hy Hj. destruct (decide (j = i)) as [->|Hne]; [apply Hbit; [lia|done]|].
    destruct (lighter_lookup s s2 a y (wk_lighter _ _ _ _ W2) Hy) as (y1 & Hy1 & LE). intros Hc%(le_bits _ _ LE).
    apply (Bi ltac:(lia) y1 j Hy1); [lia|done].
  - split; [lia|]. intros Hpos. destruct (decide (0 < d)); [auto|]. rewrite app_assoc. apply has_leaf_app. apply L1. lia.
  - done.
  - pose proof (HM s s2 (wk_lighter _ _ _ _ W2)) as H1. pose proof (HM s0 s (wk_lighter _ _ _ _ W)) as H2.
    destruct Hprog as [->|[?|?]]; [|auto|right; right; lia]. rewrite app_nil_r in *. destruct P as [->|[?|?]]; [by left|auto|right; right; lia].
Qed.

(** The vector is full. *)
Lemma walking_full (LL DD : owner → list Z) (level a : Z) (cur : cursor) (s0 s s2 : shadow_state) (v l l2 : list (Z * Z))
    (i leaves ret : Z) :
  walking LL DD level a cur s0 v i s l leaves → walked LL DD s s2 → vec_ok s0 (after s0 cur l) l2 → below s0 level l2 →
  (distinct s0 (v ++ l) → distinct s0 (v ++ l ++ l2)) → (∀ b, level < lev s0 b → s2.(ss_ext) !! b = s.(ss_ext) !! b) →
  ret < 0 → has_leaf s0 (v ++ l ++ l2) ∨ (total_marks s2 < total_marks s)%nat ∨
            (Z.of_nat (length l2) <= level - 1 ∧ length (v ++ l ++ l2) = KVM_PAGE_ARRAY_NR) →
  walk_result LL DD level a cur s0 v s2 (l ++ l2) ret.
Proof using Type.
  intros [W V B D A Bi [L0 L1] R P] W2 V2 B2 D2 A2 Hret Hprog.
  pose proof lighter_marks as HM.
  split; try lia.
  - by eapply walked_trans.
  - by apply vec_ok_app.
  - intros e [?|?]%elem_of_app; auto.
  - auto.
  - intros b Hb. by rewrite A2, A.
  - intros _. pose proof (HM s s2 (wk_lighter _ _ _ _ W2)) as H1. pose proof (HM s0 s (wk_lighter _ _ _ _ W)) as H2.
    destruct Hprog as [?|[?|?]]; [auto|right; left; lia|]. destruct P as [->|[Hl|?]]; [by right; right| |right; left; lia].
    left. rewrite app_assoc. by apply has_leaf_app.
Qed.

(** All marks are done. *)
Lemma walking_end (LL DD : owner → list Z) (level a : Z) (cur : cursor) (s0 s : shadow_state) (v l : list (Z * Z)) (leaves : Z) :
  walking LL DD level a cur s0 v PT64_ENT_PER_PAGE s l leaves → walk_result LL DD level a cur s0 v s l leaves.
Proof using Type.
  intros [W V B D A Bi [L0 L1] R P]. split; try done; [|lia]. intros Hz x Hx.
  destruct (counts_bits g page_header page_of gfn_to_memslot LL DD s a x (wk_ok _ _ _ _ W) Hx) as [Hlen ->].
  destruct (decide (ones (px_bitmap x) = 0%nat)) as [->|Hne]; [done|]. exfalso.
  destruct (proj1 (ones_pos (px_bitmap x)) ltac:(lia)) as [j Hj]. apply (Bi Hz x (Z.of_nat j) Hx); [|by rewrite Nat2Z.id].
  pose proof (lookup_lt_Some _ _ _ Hj). lia.
Qed.

Definition walk_spec (LL DD : owner → list Z) (level : Z)
    (walk : Z → shadow_state → list (Z * Z) → option (shadow_state * list (Z * Z) * Z)) : Prop :=
  ∀ a s v cur i, shadow_ok LL DD s → levels_ok s → is_Some ((mmu s).(pages) !! a) → lev s a = level →
    2 <= level <= top → (length v < KVM_PAGE_ARRAY_NR)%nat → cur level = Some (a, i) → linked s cur level →
    ∃ s' l ret, walk a s v = Some (s', v ++ l, ret) ∧ walk_result LL DD level a cur s v s' l ret.

(** An entry that the walk follows. *)
Lemma followed (LL DD : owner → list Z) (s : shadow_state) (a i : Z) (sp : mmu_page) :
  shadow_ok LL DD s → levels_ok s → (mmu s).(pages) !! a = Some sp → sp.(role_level) ≠ 1 → 0 <= i < PT64_ENT_PER_PAGE →
  let ent := (mmu s).(ptes) (entry_num sp i) in
  if negb (is_shadow_present_pte g ent) || is_large_pte ent then ∀ c, owner_of s (entry_num sp i) ≠ Some (Pg c)
  else let c := page_of (Z.land ent PT64_BASE_ADDR_MASK) in
       child s a i c ∧ owner_of s (entry_num sp i) = Some (Pg c) ∧ lev s c = sp.(role_level) - 1 ∧
       is_Some ((mmu s).(pages) !! c) ∧ ∃ y, s.(ss_ext) !! c = Some y ∧
         (y.(px_unsync) = true → lev s c = 1) ∧ (y.(px_unsync_children) ≠ 0 → lev s c ≠ 1).
Proof using Type.
  intros Hok Hlv Hsp Hl1 Hi ent. pose proof (entry_at sp i Hi) as Hin. fold (entry_num sp i) in Hin.
  pose proof (sk_entries _ _ _ _ _ _ _ Hok) as E. pose proof (en_pages _ _ _ _ _ _ E a sp Hsp) as Hpg.
  pose proof (po_header _ _ _ Hpg _ Hin) as Hh.
  pose proof (owner_at g page_header page_of gfn_to_memslot s sp a _ Hsp Hh Hin) as Ho. fold ent in Ho. unfold MmuInv.value_owner in Ho.
  destruct (is_shadow_present_pte g ent) eqn:Hpr; cbn [negb orb] in *; [|intros c; by rewrite Ho].
  assert (Hlast : is_last_spte ent sp.(role_level) = is_large_pte ent).
  { unfold is_last_spte. destruct (Z.eqb_spec (role_level sp) PT_PAGE_TABLE_LEVEL) as [Hc|_]; [done|]. by destruct (is_large_pte ent). }
  rewrite Hlast in Ho. destruct (is_large_pte ent).
  - intros c. rewrite Ho. by destruct (spte_key _ _ _ _).
  - cbv zeta. set (c := page_of _) in *. assert (Hlive : is_Some (s.(ss_ext) !! c)) by exact (en_live _ _ _ _ _ _ E (Pg c) _ Ho).
    pose proof (proj2 (en_dom _ _ _ _ _ _ E c) Hlive) as Hpc. destruct Hlive as [y Hy]. destruct Hpc as [sc Hsc].
    assert (Hlc : lev s c = sp.(role_level) - 1).
    { rewrite (lev_some s c sc Hsc). apply (lv_child _ _ _ _ _ _ _ Hlv (entry_num sp i) c); [done|by rewrite Hh|done]. }
    destruct (lv_ext _ _ _ _ _ _ _ Hlv c sc y Hsc Hy) as (W1 & W2 & _). rewrite <- (lev_some s c sc Hsc) in W1, W2.
    split; [by exists sp|]. split; [done|]. split; [done|]. split; [by eexists|]. by exists y.
Qed.

Lemma pages_add_plain (v : list (Z * Z)) (c i : Z) :
  (length v < KVM_PAGE_ARRAY_NR)%nat →
  mmu_pages_add v c false i = Some (v ++ [(c, i)], (S (length v) =? KVM_PAGE_ARRAY_NR)%nat).
Proof using Type.
  intros H. unfold mmu_pages_add. cbn [andb]. rewrite (proj2 (Nat.ltb_lt _ _) H), length_app. cbn [length]. by rewrite Nat.add_1_r.
Qed.

(** The walk changed nothing above: the mark is still there. *)
Lemma still_marked (LL DD : owner → list Z) (s s' : shadow_state) (a : Z) (x : page_ext) (level : Z) :
  (∀ b, level < lev s b → s'.(ss_ext) !! b = s.(ss_ext) !! b) → level < lev s a → s.(ss_ext) !! a = Some x → s'.(ss_ext) !! a = Some x.
Proof using Type. intros H Ha Hx. by rewrite H. Qed.

Section Bits.
Context (LL DD : owner → list Z) (level a : Z) (cur : cursor) (s0 : shadow_state) (v : list (Z * Z)) (sp : mmu_page) (i0 : Z)
        (walk : Z → shadow_state → list (Z * Z) → option (shadow_state * list (Z * Z) * Z)).
Context (Hok0 : shadow_ok LL DD s0) (Hlv0 : levels_ok s0) (Hsp0 : (mmu s0).(pages) !! a = Some sp) (Hlev : sp.(role_level) = level)
        (Hrange : 2 <= level <= top) (Hcur : cur level = Some (a, i0)) (Hlink : linked s0 cur level)
        (Hwalk : 2 < level → walk_spec LL DD (level - 1) walk).

Notation walking := (walking LL DD level a cur s0 v).
Notation walk_result := (walk_result LL DD level a cur s0 v).
Notation bits := (unsync_bits g page_of walk a sp.(sp_spt)).

(** The cursor where the child [c] of entry [i] is pushed. *)
Lemma cursor_child (i : Z) (s : shadow_state) (l : list (Z * Z)) (leaves c : Z) :
  walking i s l leaves → child s a i c → lev s c = level - 1 →
  let cur' := push (after s0 cur l) (level - 1) (c, i) in
  linked s0 cur' (level - 1) ∧ child s0 a i c ∧ lev s0 c = level - 1.
Proof using Hcur Hlink.
  intros Wi Hc Hl cur'. pose proof (wi_walked _ _ _ _ _ _ _ _ _ _ _ Wi) as W.
  assert (Hc0 : child s0 a i c) by (by apply (walked_child _ _ _ _ _ _ _ W)).
  assert (Hl0 : lev s0 c = level - 1) by (by rewrite <- (walked_lev _ _ _ _ _ W)).
  split; [|done]. apply (linked_push s0 _ level a i c i0); [|by rewrite (after_above s0 cur l level level (wi_below _ _ _ _ _ _ _ _ _ _ _ Wi)) by lia|done|done].
  apply (linked_agree s0 cur); [|done]. intros j Hj. by apply (after_above s0 cur l level j (wi_below _ _ _ _ _ _ _ _ _ _ _ Wi)).
Qed.

(** The child [c] of entry [i], in a vector: [l1] is what its own walk adds. *)
Lemma vec_child (i : Z) (s : shadow_state) (l l1 : list (Z * Z)) (leaves c : Z) :
  walking i s l leaves → child s a i c → lev s c = level - 1 → (lev s c = 1 → is_unsync s c) →
  vec_ok s (push (after s0 cur l) (level - 1) (c, i)) l1 → below s (level - 1) l1 →
  vec_ok s0 (after s0 cur l) ((c, i) :: l1) ∧ below s0 level ((c, i) :: l1).
Proof using Hcur Hlink Hrange.
  intros Wi Hc Hl Hu Hv Hb. pose proof (wi_walked _ _ _ _ _ _ _ _ _ _ _ Wi) as W.
  destruct (cursor_child i s l leaves c Wi Hc Hl) as (Hlk & _ & Hl0). split.
  - cbn [vec_ok]. rewrite Hl0. split; [lia|]. split; [done|]. split.
    + intros H1. apply (walked_unsync _ _ _ _ _ W), Hu. lia.
    + by apply (walked_vec _ _ _ _ _ _ W).
  - intros e [->|He]%elem_of_cons; [cbn; lia|]. specialize (Hb e He). rewrite (walked_lev _ _ _ _ _ W) in Hb. lia.
Qed.

(** The four ways a mark is handled, as one step of the loop. *)
Definition bits_next (i : Z) (n : nat) (r : option (shadow_state * list (Z * Z) * Z)) : Prop :=
  ∃ s l leaves, walking (i + 1) s l leaves ∧
    r = bits n (i + 1) {| uw_state := s; uw_pvec := v ++ l; uw_leaves := leaves |}.

Definition bits_full (r : option (shadow_state * list (Z * Z) * Z)) : Prop :=
  ∃ s l ret, r = Some (s, v ++ l, ret) ∧ walk_result s l ret.

(** Clearing mark [i] after [l2] was added. *)
Lemma step_clear (i : Z) (s s1 : shadow_state) (l l2 : list (Z * Z)) (leaves : Z) (x : page_ext) (n : nat) :
  walking i s l leaves → walked LL DD s s1 → s1.(ss_ext) !! a = Some x → 0 <= i → x.(px_bitmap) !! Z.to_nat i = Some true →
  (∀ c y, owner_of s1 (entry_num sp i) = Some (Pg c) → s1.(ss_ext) !! c = Some y → ¬ needs_mark y) →
  (∀ b, level < lev s0 b → s1.(ss_ext) !! b = s.(ss_ext) !! b) →
  vec_ok s0 (after s0 cur l) l2 → below s0 level l2 → (distinct s0 (v ++ l) → distinct s0 (v ++ l ++ l2)) →
  (length (v ++ l ++ l2) < KVM_PAGE_ARRAY_NR)%nat →
  ∃ s2, clear_unsync_child_bit a i s1 = Some s2 ∧ walking (i + 1) s2 (l ++ l2) leaves.
Proof using Hsp0 Hlev.
  intros Wi W1 Hx Hi Hbit Hsafe Habove V2 B2 D2 R2. pose proof (wi_walked _ _ _ _ _ _ _ _ _ _ _ Wi) as W.
  assert (Hsp1 : (mmu s1).(pages) !! a = Some sp) by (by rewrite (walked_mmu _ _ _ _ W1), (walked_mmu _ _ _ _ W)).
  destruct (clear_walked LL DD s1 a i sp x (wk_ok _ _ _ _ W1) Hsp1 Hx Hi Hbit Hsafe) as (E & W2 & Ht & Ho).
  set (s2 := upd_ext a (without_mark i) s1) in *. exists s2. split; [exact E|].
  assert (El : lev s0 a = level) by (by rewrite (lev_some s0 a sp Hsp0)).
  rewrite <- (Z.add_0_r leaves). apply (walking_step LL DD level a cur s0 s s2 v l l2 i leaves 0 Wi).
  - by eapply walked_trans.
  - done.
  - done.
  - done.
  - intros b Hb. rewrite Ho by (intros ->; lia). by apply Habove.
  - lia.
  - intros _ y Hy. unfold s2 in Hy. cbn in Hy. rewrite lookup_alter_eq, Hx in Hy. injection Hy as <-. cbn.
    intros [(_ & [=] & _)|[Hc _]]%list_lookup_insert_Some. done.
  - lia.
  - done.
  - right. right. pose proof (lighter_marks s s1 (wk_lighter _ _ _ _ W1)). lia.
Qed.

Lemma enospc_neg : - ENOSPC < 0.
Proof using Type. done. Qed.

(** A page out of sync. *)
Lemma step_leaf (n : nat) (i : Z) (s : shadow_state) (l : list (Z * Z)) (leaves c : Z) :
  walking i s l leaves → child s a i c → lev s c = level - 1 → lev s c = 1 → is_unsync s c →
  let r := '(pvec, full) ← mmu_pages_add (v ++ l) c true i;
           if full : bool then Some (s, pvec, - ENOSPC)
           else bits n (i + 1) {| uw_state := s; uw_pvec := pvec; uw_leaves := leaves + 1 |} in
  bits_next i n r ∨ bits_full r.
Proof using Hcur Hlink Hrange.
  intros Wi Hch Hlc Hy1 Hu r. pose proof (wi_walked _ _ _ _ _ _ _ _ _ _ _ Wi) as W. pose proof (wk_ok _ _ _ _ W) as Hok.
  pose proof (wi_room _ _ _ _ _ _ _ _ _ _ _ Wi) as Hroom. unfold r, mmu_pages_add. cbn [andb].
  destruct (existsb (λ e, e.1 =? c) (v ++ l)) eqn:Hex.
  - cbn [mbind option_bind]. left. exists s, l, (leaves + 1). split; [|done]. rewrite <- (app_nil_r l) at 1.
    apply existsb_exists in Hex as (e & He%list_elem_of_In & Hec%Z.eqb_eq).
    assert (Hleaf : has_leaf s0 (v ++ l)) by (exists e; split; [done|]; unfold leaf_entry; rewrite Hec, <- (walked_lev _ _ _ _ _ W); done).
    apply (walking_step LL DD level a cur s0 s s v l [] i leaves 1 Wi); rewrite ?app_nil_r; try done; [by apply walked_refl|by intros e' ?%elem_of_nil|by left].
  - destruct (vec_child i s l [] leaves c Wi Hch Hlc) as [V2 B2]; [done|done|by intros e ?%elem_of_nil|].
    assert (D2 : distinct s0 (v ++ l) → distinct s0 (v ++ l ++ [(c, i)])).
    { intros Hd. rewrite app_assoc. apply distinct_snoc; [done|]. cbn. intros _ (e & Hec & He)%list_elem_of_fmap.
      assert (Hc : existsb (λ e, e.1 =? c) (v ++ l) = true); [|congruence]. apply existsb_exists. exists e. split; [by apply list_elem_of_In|by apply Z.eqb_eq]. }
    assert (Hleaf : has_leaf s0 (v ++ l ++ [(c, i)])).
    { exists (c, i). split; [rewrite app_assoc; apply elem_of_app; right; by left|]. unfold leaf_entry. cbn. rewrite <- (walked_lev _ _ _ _ _ W). done. }
    rewrite (proj2 (Nat.ltb_lt _ _) Hroom). cbn [mbind option_bind]. rewrite <- app_assoc.
    destruct (Nat.eqb_spec (length (v ++ l ++ [(c, i)])) KVM_PAGE_ARRAY_NR) as [Hfull|Hnf].
    + right. exists s, (l ++ [(c, i)]), (- ENOSPC). split; [done|].
      eapply (walking_full LL DD level a cur s0 s s v l [(c, i)]); [exact Wi|by apply walked_refl|done|done|done|done|apply enospc_neg|by left].
    + left. exists s, (l ++ [(c, i)]), (leaves + 1). split; [|done].
      apply (walking_step LL DD level a cur s0 s s v l [(c, i)] i leaves 1 Wi); try done; [by apply walked_refl| |by right; left].
      rewrite app_assoc, length_app in Hnf |- *. cbn in *. lia.
Qed.

(** A page with marks: its own walk. *)
Lemma step_descend (n : nat) (i : Z) (s : shadow_state) (l : list (Z * Z)) (leaves c : Z) (x y : page_ext) :
  walking i s l leaves → 0 <= i < PT64_ENT_PER_PAGE → s.(ss_ext) !! a = Some x → x.(px_bitmap) !! Z.to_nat i = Some true →
  child s a i c → owner_of s (entry_num sp i) = Some (Pg c) → lev s c = level - 1 → lev s c ≠ 1 →
  is_Some ((mmu s).(pages) !! c) → s.(ss_ext) !! c = Some y → y.(px_unsync) = false →
  let r := '(pvec, full) ← mmu_pages_add (v ++ l) c false i;
           if full : bool then Some (s, pvec, - ENOSPC)
           else
             '(s, pvec, ret) ← walk c s pvec;
             if ret =? 0 then
               s ← clear_unsync_child_bit a i s;
               bits n (i + 1) {| uw_state := s; uw_pvec := pvec; uw_leaves := leaves |}
             else if ret >? 0 then bits n (i + 1) {| uw_state := s; uw_pvec := pvec; uw_leaves := leaves + ret |}
             else Some (s, pvec, ret) in
  bits_next i n r ∨ bits_full r.
Proof using Hok0 Hlv0 Hsp0 Hlev Hrange Hcur Hlink Hwalk.
  intros Wi Hi Hx Hbit Hch Ho Hlc Hn1 Hpc Hy Hu r. pose proof (wi_walked _ _ _ _ _ _ _ _ _ _ _ Wi) as W. pose proof (wk_ok _ _ _ _ W) as Hok.
  pose proof (wi_room _ _ _ _ _ _ _ _ _ _ _ Wi) as Hroom.
  assert (Hlv : levels_ok s) by (eapply lighter_levels; [exact Hok0|exact Hok|apply W|done]).
  assert (Dc : distinct s0 (v ++ l) → distinct s0 (v ++ l ++ [(c, i)])).
  { intros Hd. rewrite app_assoc. apply distinct_snoc; [done|]. unfold leaf_entry. cbn. rewrite <- (walked_lev _ _ _ _ _ W). done. }
  unfold r. rewrite (pages_add_plain (v ++ l) c i Hroom). cbn [mbind option_bind]. rewrite <- app_assoc.
  destruct (Nat.eqb_spec (S (length (v ++ l))) KVM_PAGE_ARRAY_NR) as [Hfull|Hnf].
  { right. exists s, (l ++ [(c, i)]), (- ENOSPC). split; [done|].
    destruct (vec_child i s l [] leaves c Wi Hch Hlc) as [V2 B2]; [done|done|by intros e ?%elem_of_nil|].
    eapply (walking_full LL DD level a cur s0 s s v l [(c, i)]); [exact Wi|by apply walked_refl|done|done|done|done|apply enospc_neg|].
    right. right. rewrite app_assoc, length_app. cbn [length]. split; lia. }
  destruct (cursor_child i s l leaves c Wi Hch Hlc) as (Hlk & _ & Hl0).
  destruct (Hwalk ltac:(lia) c s (v ++ l ++ [(c, i)]) (push (after s0 cur l) (level - 1) (c, i)) i Hok Hlv Hpc Hlc)
    as (s1 & l1 & ret & -> & R); [lia|rewrite app_assoc, length_app; cbn; lia|apply push_eq|by apply (walked_linked _ _ _ _ _ _ W)|].
  cbn [mbind option_bind].
  destruct R as [W1 V1 B1 D1 A1 N1 S1 M1 F1].
  destruct (vec_child i s l l1 leaves c Wi Hch Hlc ltac:(done) V1 B1) as [V2 B2].
  assert (Eapp : (v ++ l ++ [(c, i)]) ++ l1 = v ++ l ++ (c, i) :: l1) by (by rewrite <- !app_assoc). rewrite Eapp in *.
  assert (Elv : ∀ b, lev s b = lev s0 b) by (intros b; by apply (walked_lev _ _ _ _ _ W)).
  assert (Hleaf : has_leaf s (v ++ l ++ (c, i) :: l1) → has_leaf s0 (v ++ l ++ (c, i) :: l1)).
  { intros (e & He & Hle). exists e. split; [done|]. unfold leaf_entry in *. by rewrite <- Elv. }
  assert (Hdis : ∀ u, distinct s u ↔ distinct s0 u).
  { intros u. unfold distinct. rewrite (list_filter_iff (leaf_entry s) (leaf_entry s0)); [done|]. intros e. unfold leaf_entry. by rewrite Elv. }
  assert (D2 : distinct s0 (v ++ l) → distinct s0 (v ++ l ++ (c, i) :: l1)) by (intros Hd; apply Hdis, D1, Hdis, Dc, Hd).
  assert (A2 : ∀ b, level < lev s0 b → s1.(ss_ext) !! b = s.(ss_ext) !! b) by (intros b Hb; apply A1; rewrite Elv; lia).
  assert (El : lev s0 a = level) by (by rewrite (lev_some s0 a sp Hsp0)).
  destruct (Z.eqb_spec ret 0) as [->|Hr0]; [|destruct (Z.gtb_spec ret 0) as [Hpos|Hneg]].
  - assert (Hx1 : s1.(ss_ext) !! a = Some x) by (rewrite A1; [done|rewrite Elv; lia]).
    destruct (step_clear i s s1 l ((c, i) :: l1) leaves x n Wi W1 Hx1) as (s2 & -> & W2); try done; [lia| |by apply M1|].
    { intros c' y' Hc' Hy'. apply (lighter_owner g page_header page_of gfn_to_memslot s s1) in Hc'; [|apply W1].
      rewrite Ho in Hc'. injection Hc' as <-. destruct (wk_ext _ _ _ _ W1 c y Hy) as (bm & k & Hy1). intros [Hun|Hun].
      - rewrite Hy1 in Hy'. injection Hy' as <-. cbn in Hun. congruence.
      - by apply Hun, (N1 eq_refl). }
    left. exists s2, (l ++ (c, i) :: l1), leaves. by split.
  - left. exists s1, (l ++ (c, i) :: l1), (leaves + ret). split; [|done].
    apply (walking_step LL DD level a cur s0 s s1 v l ((c, i) :: l1) i leaves ret Wi W1 V2 B2 D2 A2).
    + lia.
    + lia.
    + intros _. by apply Hleaf, S1.
    + apply M1. lia.
    + right. left. by apply Hleaf, S1.
  - right. exists s1, (l ++ (c, i) :: l1), ret. split; [done|].
    eapply (walking_full LL DD level a cur s0 s s1 v l ((c, i) :: l1)); [exact Wi|done|done|done|done|done|lia|].
    destruct (F1 ltac:(lia)) as [Hl|[Ht|[Hlen Hf]]]; [left; by apply Hleaf|by right; left|]. right. right. cbn [length]. split; [lia|done].
Qed.

Lemma bits_step (n : nat) (i : Z) (s : shadow_state) (l : list (Z * Z)) (leaves : Z) :
  walking i s l leaves → 0 <= i < PT64_ENT_PER_PAGE →
  let r := bits (S n) i {| uw_state := s; uw_pvec := v ++ l; uw_leaves := leaves |} in bits_next i n r ∨ bits_full r.
Proof using Hok0 Hlv0 Hsp0 Hlev Hrange Hcur Hlink Hwalk.
  intros Wi Hi r. pose proof (wi_walked _ _ _ _ _ _ _ _ _ _ _ Wi) as W. pose proof (wk_ok _ _ _ _ W) as Hok.
  pose proof (wi_room _ _ _ _ _ _ _ _ _ _ _ Wi) as Hroom.
  assert (Hlv : levels_ok s) by (eapply lighter_levels; [exact Hok0|exact Hok|apply W|done]).
  assert (Hsp : (mmu s).(pages) !! a = Some sp) by (by rewrite (walked_mmu _ _ _ _ W)).
  assert (Hx : is_Some (s.(ss_ext) !! a)) by (apply (en_dom _ _ _ _ _ _ (sk_entries _ _ _ _ _ _ _ Hok)); by eexists).
  destruct Hx as [x Hx]. unfold r. cbn [unsync_bits]. rewrite Hx. cbn [mbind option_bind].
  destruct (default false (x.(px_bitmap) !! Z.to_nat i)) eqn:Hb; cbn [negb]; cycle 1.
  { left. exists s, (l ++ []), (leaves + 0). split; [|by rewrite app_nil_r, Z.add_0_r].
    apply (walking_step LL DD level a cur s0 s s v l [] i leaves 0 Wi); rewrite ?app_nil_r; try done; [by apply walked_refl|by intros e ?%elem_of_nil| |by left].
    intros _ y Hy. rewrite Hx in Hy. injection Hy as <-. intros Hc. by rewrite Hc in Hb. }
  assert (Hbit : x.(px_bitmap) !! Z.to_nat i = Some true) by (destruct (x.(px_bitmap) !! Z.to_nat i) as [[]|]; done).
  clear Hb. pose proof (followed LL DD s a i sp Hok Hlv Hsp ltac:(lia) Hi) as Hf. cbv zeta in Hf.
  change (sp_spt sp + 8 * i) with (entry_num sp i).
  destruct (negb (is_shadow_present_pte g _) || is_large_pte _).
  { destruct (step_clear i s s l [] leaves x n Wi) as (s2 & -> & W2); rewrite ?app_nil_r; try done;
      [by apply walked_refl|lia|intros c y Hc; by destruct (Hf c)|by intros e ?%elem_of_nil|].
    left. exists s2, l, leaves. rewrite app_nil_r in W2. by split. }
  cbv zeta in Hf. set (c := page_of _) in *. destruct Hf as (Hch & Ho & Hlc & Hpc & y & Hy & Hy1 & Hy2). rewrite Hy. cbn [mbind option_bind].
  rewrite Hlev in Hlc. destruct (Z.eqb_spec (px_unsync_children y) 0) as [Hz|Hnz].
  - assert (Et : truth (px_unsync_children y) = false) by (by rewrite Hz). rewrite Et. destruct (px_unsync y) eqn:Hu.
    + exact (step_leaf n i s l leaves c Wi Hch Hlc (Hy1 eq_refl) ltac:(by exists y)).
    + destruct (step_clear i s s l [] leaves x n Wi) as (s2 & -> & W2); rewrite ?app_nil_r; try done;
        [by apply walked_refl|lia| |by intros e ?%elem_of_nil|].
      { intros c' y' Hc' Hy'. rewrite Ho in Hc'. injection Hc' as <-. rewrite Hy in Hy'. injection Hy' as <-. intros [?|?]; congruence. }
      left. exists s2, l, leaves. rewrite app_nil_r in W2. by split.
  - rewrite (truth_nonzero (px_unsync_children y) Hnz). specialize (Hy2 Hnz).
    assert (Hu : px_unsync y = false) by (destruct (px_unsync y); [by specialize (Hy1 eq_refl)|done]). rewrite Hu.
    exact (step_descend n i s l leaves c x y Wi Hi Hx Hbit Hch Ho Hlc Hy2 Hpc Hy Hu).
Qed.

Lemma bits_ok (n : nat) (i : Z) (s : shadow_state) (l : list (Z * Z)) (leaves : Z) :
  walking i s l leaves → 0 <= i → i + Z.of_nat n = PT64_ENT_PER_PAGE →
  bits_full (bits n i {| uw_state := s; uw_pvec := v ++ l; uw_leaves := leaves |}).
Proof using Hok0 Hlv0 Hsp0 Hlev Hrange Hcur Hlink Hwalk.
  revert i s l leaves. induction n as [|n IH]; intros i s l leaves Wi Hi Hn.
  - exists s, l, leaves. split; [done|]. apply walking_end. by replace PT64_ENT_PER_PAGE with i by lia.
  - destruct (bits_step n i s l leaves Wi) as [(s1 & l1 & lv1 & W1 & ->)|Hf]; [lia| |exact Hf]. apply IH; [done|lia|lia].
Qed.
End Bits.

Lemma walk_ok (LL DD : owner → list Z) (fuel : nat) (level : Z) :
  Z.of_nat fuel = level → walk_spec LL DD level (__mmu_unsync_walk g page_of fuel).
Proof using Type.
  revert level. induction fuel as [|fuel IH]; intros level Hf a s v cur i Hok Hlv [sp Hsp] Hl Hr Hlen Hcur Hlink; [lia|].
  cbn [__mmu_unsync_walk]. rewrite Hsp. cbn [mbind option_bind]. rewrite (lev_some s a sp Hsp) in Hl.
  assert (W0 : walking LL DD level a cur s v 0 s [] 0).
  { split; rewrite ?app_nil_r; try done; [by apply walked_refl|by intros e ?%elem_of_nil|intros _ x j _ Hj; lia|by left]. }
  destruct (bits_ok LL DD level a cur s v sp i (__mmu_unsync_walk g page_of fuel) Hok Hlv Hsp Hl Hr Hcur Hlink
              ltac:(intros _; apply IH; lia) (Z.to_nat PT64_ENT_PER_PAGE) 0 s [] 0 W0) as (s' & l & ret & E & R); [lia|done|].
  exists s', l, ret. rewrite app_nil_r in E. split; [exact E|done].
Qed.

Definition start_cursor (a : Z) : cursor := λ j, if j =? top then Some (a, INVALID_INDEX) else None.

(** The walk from the top. *)
Lemma unsync_walk_ok (LL DD : owner → list Z) (a : Z) (s : shadow_state) (sp : mmu_page) :
  (PT64_ROOT_MAX_LEVEL < KVM_PAGE_ARRAY_NR)%nat → shadow_ok LL DD s → levels_ok s →
  (mmu s).(pages) !! a = Some sp → sp.(role_level) = top → top ≠ 1 →
  ∃ s' v ret, mmu_unsync_walk g page_of a s = Some (s', v, ret) ∧ walked LL DD s s' ∧
    (ret = 0 → ∀ x, s'.(ss_ext) !! a = Some x → x.(px_unsync_children) = 0) ∧
    (ret ≠ 0 → ∃ l, v = (a, INVALID_INDEX) :: l ∧ vec_ok s (start_cursor a) l ∧ distinct s l ∧
                (has_leaf s l ∨ (total_marks s' < total_marks s)%nat)).
Proof using Type.
  intros Hmax Hok Hlv Hsp Htop Hn1. destruct (lv_range _ _ _ _ _ _ _ Hlv a sp Hsp) as [_ Hr].
  assert (Hx : is_Some (s.(ss_ext) !! a)) by (apply (en_dom _ _ _ _ _ _ (sk_entries _ _ _ _ _ _ _ Hok)); by eexists).
  destruct Hx as [x Hx]. unfold mmu_unsync_walk. rewrite Hx, Hsp. cbn [mbind option_bind].
  destruct (Z.eqb_spec (px_unsync_children x) 0) as [Hz|Hnz].
  { rewrite Hz. cbn. exists s, [], 0. split; [done|]. split; [by apply walked_refl|]. split; [|done].
    intros _ y Hy. rewrite Hx in Hy. by injection Hy as <-. }
  rewrite (truth_nonzero _ Hnz). cbn [negb].
  assert (Ea : mmu_pages_add [] a (px_unsync x) INVALID_INDEX = Some ([(a, INVALID_INDEX)], false)) by (by destruct (px_unsync x)).
  rewrite Ea. cbn [mbind option_bind].
  destruct (walk_ok LL DD (Z.to_nat (role_level sp)) (role_level sp) ltac:(lia) a s [(a, INVALID_INDEX)] (start_cursor a) INVALID_INDEX
              Hok Hlv ltac:(by eexists) (lev_some s a sp Hsp)) as (s' & l & ret & E & R); [lia|cbn; unfold KVM_PAGE_ARRAY_NR; lia| |intros j Hj; lia|].
  { unfold start_cursor. by rewrite Htop, Z.eqb_refl. }
  exists s', ([(a, INVALID_INDEX)] ++ l), ret. split; [exact E|]. destruct R as [W V B D A N S1 M F]. split; [done|]. split; [done|].
  intros Hret. exists l. split; [done|]. split; [done|].
  assert (Hna : ¬ leaf_entry s (a, INVALID_INDEX)) by (unfold leaf_entry; cbn; rewrite (lev_some s a sp Hsp); lia).
  assert (Hl : has_leaf s ([(a, INVALID_INDEX)] ++ l) → has_leaf s l).
  { intros (e & [->%list_elem_of_singleton|He]%elem_of_app & Hle); [done|]. by exists e. }
  split.
  - assert (Hd : distinct s ([(a, INVALID_INDEX)] ++ l)); [apply D|].
    + unfold distinct. rewrite filter_cons_False by done. constructor.
    + unfold distinct in Hd. by rewrite filter_app, filter_cons_False in Hd.
  - destruct (decide (0 < ret)); [left; by apply Hl, S1|]. destruct (F ltac:(lia)) as [?|[?|[Hc Hf]]]; [left; by apply Hl|by right|].
    exfalso. cbn [length app] in Hf. unfold KVM_PAGE_ARRAY_NR in *. lia.
Qed.

(* ------------------------------------------------------------------ *)
(** ** The path *)

Lemma write_at_ok {A : Type} (i : Z) (v : A) (l : list A) :
  0 <= i < Z.of_nat (length l) → write_at i v l = Some (<[Z.to_nat i := v]> l).
Proof using Type. intros Hi. unfold write_at. destruct (Z.leb_spec 0 i); [|lia]. by destruct (Z.ltb_spec i (Z.of_nat (length l))); [|lia]. Qed.

(** The arrays hold the cursor, and NULL above the top. *)
Record path_ok (path : mmu_page_path) (cur : cursor) : Prop := {
  pt_parents : length path.(mp_parent) = PT64_ROOT_MAX_LEVEL;
  pt_idxs : length path.(mp_idx) = PT64_ROOT_MAX_LEVEL;
  pt_idx : ∀ j c i, 1 <= j < top → cur j = Some (c, i) → read_at (j - 1) path.(mp_idx) = Some i;
  pt_parent : ∀ j c i, 2 <= j <= top → cur j = Some (c, i) → read_at (j - 2) path.(mp_parent) = Some c;
  pt_null : read_at (top - 1) path.(mp_parent) = Some 0
}.

Lemma read_write_eq {A : Type} (i : Z) (v : A) (l : list (option A)) :
  0 <= i < Z.of_nat (length l) → read_at i (<[Z.to_nat i := Some v]> l) = Some v.
Proof using Type. intros Hi. unfold read_at. destruct (Z.ltb_spec i 0); [lia|]. rewrite list_lookup_insert_eq by lia. done. Qed.

Lemma read_write_ne {A : Type} (i j : Z) (v : option A) (l : list (option A)) :
  0 <= i → i ≠ j → read_at j (<[Z.to_nat i := v]> l) = read_at j l.
Proof using Type. intros Hi Hne. unfold read_at. destruct (Z.ltb_spec j 0); [done|]. by rewrite list_lookup_insert_ne by lia. Qed.

(** One element of the vector. *)
Lemma path_push (path : mmu_page_path) (cur : cursor) (level c i : Z) :
  path_ok path cur → 2 <= level < top → top <= Z.of_nat PT64_ROOT_MAX_LEVEL →
  path_ok {| mp_parent := <[Z.to_nat (level - 2) := Some c]> path.(mp_parent);
             mp_idx := <[Z.to_nat (level - 1) := Some i]> path.(mp_idx) |} (push cur level (c, i)).
Proof using Type.
  intros [P1 P2 P3 P4 P5] Hl Ht. split; cbn [mp_parent mp_idx]; rewrite ?length_insert; try done.
  - intros j c' i' Hj. destruct (decide (j = level)) as [->|Hne].
    + rewrite push_eq. intros [= <- <-]. apply read_write_eq. lia.
    + rewrite push_ne by done. intros H. rewrite read_write_ne by lia. by eapply P3.
  - intros j c' i' Hj. destruct (decide (j = level)) as [->|Hne].
    + rewrite push_eq. intros [= <- <-]. apply read_write_eq. lia.
    + rewrite push_ne by done. intros H. rewrite read_write_ne by lia. by eapply P4.
  - rewrite read_write_ne by lia. done.
Qed.

Lemma path_push_leaf (path : mmu_page_path) (cur : cursor) (c i : Z) :
  path_ok path cur → 1 < top → top <= Z.of_nat PT64_ROOT_MAX_LEVEL →
  path_ok (path <| mp_idx := <[Z.to_nat (1 - 1) := Some i]> path.(mp_idx) |>) (push cur 1 (c, i)).
Proof using Type.
  intros [P1 P2 P3 P4 P5] Hl Ht. split; cbn; rewrite ?length_insert; try done.
  - intros j c' i' Hj. destruct (decide (j = 1)) as [->|Hne].
    + rewrite push_eq. intros [= <- <-]. apply (read_write_eq (1 - 1)). lia.
    + rewrite push_ne by done. intros H. change 0%nat with (Z.to_nat 0). rewrite read_write_ne by lia. by eapply P3.
  - intros j c' i' Hj. rewrite push_ne by lia. apply P4. lia.
Qed.

(** What [mmu_pages_next] finds: the next page out of sync, or the end. *)
Definition next_leaf (s : shadow_state) (cur : cursor) (pre l : list (Z * Z)) (n : nat) (path : mmu_page_path) : Prop :=
  (n = length (pre ++ l) ∧ ¬ has_leaf s l ∧ length path.(mp_parent) = PT64_ROOT_MAX_LEVEL ∧ length path.(mp_idx) = PT64_ROOT_MAX_LEVEL) ∨
  ∃ l1 c i l2, l = l1 ++ (c, i) :: l2 ∧ n = length (pre ++ l1) ∧ lev s c = 1 ∧ ¬ has_leaf s l1 ∧
    path_ok path (push (after s cur l1) 1 (c, i)).

Lemma next_loop_ok (fuel : nat) (s : shadow_state) (cur : cursor) (pre l : list (Z * Z)) (path : mmu_page_path) :
  vec_ok s cur l → path_ok path cur → top <= Z.of_nat PT64_ROOT_MAX_LEVEL → (length l < fuel)%nat →
  ∃ n path', pages_next_loop fuel (pre ++ l) (length pre) (mmu s) path = Some (n, path') ∧ next_leaf s cur pre l n path'.
Proof using Type.
  intros Hv Hp Ht Hf. revert fuel cur pre path Hv Hp Hf. induction l as [|[c i] l IH]; intros fuel cur pre path Hv Hp Hf.
  - exists (length pre), path. split; [|left; rewrite app_nil_r; split; [done|]; split; [by intros (e & ?%elem_of_nil & _)|by split; apply Hp]].
    rewrite app_nil_r. destruct fuel; [cbn in Hf; lia|]. assert (En : (pre : mmu_pages) !! length pre = None) by by apply lookup_ge_None_2.
    unfold pages_next_loop; fold pages_next_loop. by rewrite En.
  - destruct fuel as [|fuel]; [cbn in Hf; lia|]. 
    assert (Em : (pre ++ (c, i) :: l : mmu_pages) !! length pre = Some (c, i)) by by apply list_lookup_middle.
    unfold pages_next_loop; fold pages_next_loop. rewrite Em.
    destruct Hv as (Hr & Hlk & Hu & Hv). assert (Hsc : ∃ sp, (mmu s).(pages) !! c = Some sp ∧ lev s c = sp.(role_level)).
    { unfold lev in *. destruct (pages (mmu s) !! c) as [sp|]; [by exists sp|cbn in Hr; lia]. }
    destruct Hsc as (sp & Hsp & El). rewrite Hsp. cbn [mbind option_bind]. rewrite <- El. cbv zeta.
    rewrite write_at_ok by (rewrite (pt_idxs _ _ Hp); lia). cbn [mbind option_bind].
    destruct (Z.eqb_spec (lev s c) PT_PAGE_TABLE_LEVEL) as [H1|Hn1].
    + eexists _, _. split; [reflexivity|]. right. exists [], c, i, l. split; [done|]. split; [by rewrite app_nil_r|].
      split; [done|]. split; [by intros (e & ?%elem_of_nil & _)|]. rewrite H1. apply path_push_leaf; [done|lia|done].
    + change PT_PAGE_TABLE_LEVEL with 1 in Hn1. rewrite write_at_ok by (cbn; rewrite (pt_parents _ _ Hp); lia). cbn [mbind option_bind].
      destruct (IH fuel (push cur (lev s c) (c, i)) (pre ++ [(c, i)])
                  {| mp_parent := <[Z.to_nat (lev s c - 2) := Some c]> path.(mp_parent);
                     mp_idx := <[Z.to_nat (lev s c - 1) := Some i]> path.(mp_idx) |} Hv) as (n & path' & E & Hn);
        [apply path_push; [done|lia|done]|cbn in Hf; lia|].
      rewrite <- app_assoc, length_app, Nat.add_1_r in E. exists n, path'. split; [exact E|].
      assert (Hnc : ¬ leaf_entry s (c, i)) by done.
      assert (Hcons : ∀ l', ¬ has_leaf s l' → ¬ has_leaf s ((c, i) :: l')).
      { intros l' Hl' (e & [->|He]%elem_of_cons & Hle); [done|]. apply Hl'. by exists e. }
      destruct Hn as [(-> & Hnl & Hlens)|(l1 & c' & i' & l2 & -> & -> & Hc' & Hnl & Hpo)].
      * left. rewrite <- app_assoc. split; [done|]. split; [by apply Hcons|done].
      * right. exists ((c, i) :: l1), c', i', l2. rewrite <- app_assoc. split; [done|]. split; [done|]. split; [done|]. split; [by apply Hcons|done].
Qed.

Lemma first_ok (s : shadow_state) (a : Z) (l : list (Z * Z)) (path : mmu_page_path) :
  vec_ok s (start_cursor a) l → lev s a = top → 1 < top → top <= Z.of_nat PT64_ROOT_MAX_LEVEL →
  length path.(mp_parent) = PT64_ROOT_MAX_LEVEL → length path.(mp_idx) = PT64_ROOT_MAX_LEVEL →
  ∃ n path', mmu_pages_first ((a, INVALID_INDEX) :: l) s path = Some (n, path', s) ∧
    next_leaf s (start_cursor a) [(a, INVALID_INDEX)] l n path'.
Proof using Type.
  intros Hv Hl H1 Ht P1 P2. unfold mmu_pages_first. cbn [negb Z.eqb]. change (INVALID_INDEX =? INVALID_INDEX) with true. cbn [negb sp_warn_if].
  assert (Hsc : ∃ sp, (mmu s).(pages) !! a = Some sp ∧ sp.(role_level) = top).
  { unfold lev in Hl. destruct (pages (mmu s) !! a) as [sp|]; [by exists sp|cbn in Hl; lia]. }
  destruct Hsc as (sp & Hsp & El). rewrite Hsp. cbn [mbind option_bind]. cbv zeta. rewrite El.
  destruct (Z.eqb_spec top PT_PAGE_TABLE_LEVEL) as [Hc|_]; [unfold PT_PAGE_TABLE_LEVEL in Hc; lia|]. cbn [sp_warn_if].
  rewrite write_at_ok by lia. cbn [mbind option_bind]. rewrite write_at_ok by (rewrite length_insert; lia). cbn [mbind option_bind].
  set (path0 := path <| mp_parent := _ |>).
  assert (Hp0 : path_ok path0 (start_cursor a)).
  { unfold path0. split; cbn; rewrite ?length_insert; try done.
    - intros j c i Hj. unfold start_cursor. destruct (Z.eqb_spec j top); [lia|done].
    - intros j c i Hj. unfold start_cursor. destruct (Z.eqb_spec j top) as [->|]; [|done]. intros [= <- _].
      rewrite read_write_ne by lia. apply read_write_eq. lia.
    - apply read_write_eq. rewrite length_insert. lia. }
  destruct (next_loop_ok (S (length ((a, INVALID_INDEX) :: l))) s (start_cursor a) [(a, INVALID_INDEX)] l path0 Hv Hp0 Ht ltac:(cbn; lia)) as (n & path' & E & Hn).
  unfold mmu_pages_next. exists n, path'. split; [|done]. cbn [app length] in E. cbn [length]. rewrite E. done.
Qed.

(** ** Clearing the marks along the path *)

Lemma child_lev (LL DD : owner → list Z) (s : shadow_state) (b i c : Z) :
  shadow_ok LL DD s → levels_ok s → child s b i c → lev s b = lev s c + 1.
Proof using Type.
  intros Hok Hlv (sp & Hsp & Hi & Ho). pose proof (entry_at sp i Hi) as Hin. fold (entry_num sp i) in Hin.
  pose proof (sk_entries _ _ _ _ _ _ _ Hok) as E. pose proof (po_header _ _ _ (en_pages _ _ _ _ _ _ E b sp Hsp) _ Hin) as Hh.
  destruct (proj2 (en_dom _ _ _ _ _ _ E c) (en_live _ _ _ _ _ _ E (Pg c) _ Ho)) as [sc Hsc].
  rewrite (lev_some s b sp Hsp), (lev_some s c sc Hsc).
  pose proof (lv_child _ _ _ _ _ _ _ Hlv (entry_num sp i) c sp sc Ho ltac:(by rewrite Hh) Hsc). lia.
Qed.

(** The mark of a page that needs it. *)
Lemma child_marked (LL DD : owner → list Z) (s : shadow_state) (b i c : Z) (sp : mmu_page) (y : page_ext) :
  shadow_ok LL DD s → child s b i c → (mmu s).(pages) !! b = Some sp → s.(ss_ext) !! c = Some y → needs_mark y →
  ∃ z, s.(ss_ext) !! b = Some z ∧ z.(px_bitmap) !! Z.to_nat i = Some true.
Proof using Type.
  intros Hok (sp' & Hsp' & Hi & Ho) Hsp Hy Hn. rewrite Hsp in Hsp'. injection Hsp' as <-.
  pose proof (sk_entries _ _ _ _ _ _ _ Hok) as E. pose proof (entry_at sp i Hi) as Hin. fold (entry_num sp i) in Hin.
  pose proof (po_header _ _ _ (en_pages _ _ _ _ _ _ E b sp Hsp) _ Hin) as Hh.
  assert (Hp : entry_num sp i ∈ LL (Pg c)) by (apply (en_member _ _ _ _ _ _ E (Pg c)); [by eexists|done]).
  destruct (unsync_bit page_header (λ a, LL (Pg a)) s c (entry_num sp i) y (sk_unsync _ _ _ _ _ _ _ Hok) Hy Hn Hp) as (sq & z & Hq & Hz & Hb).
  rewrite Hh in Hq, Hz. rewrite Hsp in Hq. injection Hq as <-. rewrite entry_num_index in Hb. by exists z.
Qed.

(** At level [k] of the loop the mark of the page of level [k + 1] is there
    and not needed. *)
Definition clearable (s : shadow_state) (cur : cursor) (k : Z) : Prop :=
  ∃ c i b i' sp y, cur (k + 1) = Some (c, i) ∧ cur (k + 2) = Some (b, i') ∧ (mmu s).(pages) !! b = Some sp ∧
    s.(ss_ext) !! b = Some y ∧ 0 <= i ∧ y.(px_bitmap) !! Z.to_nat i = Some true ∧ lev s b = k + 2 ∧
    ∀ d z, owner_of s (entry_num sp i) = Some (Pg d) → s.(ss_ext) !! d = Some z → ¬ needs_mark z.

Lemma clear_parents_ok (LL DD : owner → list Z) (fuel : nat) (k : Z) (s : shadow_state) (path : mmu_page_path) (cur : cursor) :
  shadow_ok LL DD s → levels_ok s → path_ok path cur → linked s cur (k + 2) → clearable s cur k → 0 <= k →
  k + 1 < top → top - k <= Z.of_nat fuel →
  ∃ s', clear_parents_loop fuel k path s = Some s' ∧ walked LL DD s s' ∧ (total_marks s' < total_marks s)%nat.
Proof using Type.
  revert k s. induction fuel as [|fuel IH]; intros k s Hok Hlv Hp Hlk Hcl Hk Hkt Hf; [lia|].
  destruct Hcl as (c & i & b & i' & sp & y & Hc & Hb & Hsp & Hy & Hi & Hbit & Hlev & Hsafe). cbn [clear_parents_loop].
  pose proof (pt_parent _ _ Hp (k + 2) b i' ltac:(lia) Hb) as Rb. replace (k + 2 - 2) with k in Rb by lia. rewrite Rb. cbn [mbind option_bind].
  destruct (lv_range _ _ _ _ _ _ _ Hlv b sp Hsp) as [Hb0 _]. destruct (Z.eqb_spec b 0); [done|].
  pose proof (pt_idx _ _ Hp (k + 1) c i ltac:(lia) Hc) as Ri. replace (k + 1 - 1) with k in Ri by lia. rewrite Ri. cbn [mbind option_bind].
  assert (Hw : (i =? INVALID_INDEX) = false) by (apply Z.eqb_neq; unfold INVALID_INDEX; lia). rewrite Hw. cbn [sp_warn_if].
  destruct (clear_walked LL DD s b i sp y Hok Hsp Hy Hi Hbit Hsafe) as (E & W & Ht & Hother).
  set (s1 := upd_ext b (without_mark i) s) in *. rewrite E. cbn [mbind option_bind].
  assert (Hy1 : s1.(ss_ext) !! b = Some (without_mark i y)) by (unfold s1; cbn; by rewrite lookup_alter_eq, Hy). rewrite Hy1. cbn [mbind option_bind].
  destruct (truth (px_unsync_children (without_mark i y))) eqn:Etr; [by exists s1|].
  assert (Hz : px_unsync_children (without_mark i y) = 0) by (destruct (decide (px_unsync_children (without_mark i y) = 0)); [done|by rewrite truth_nonzero in Etr]).
  destruct (decide (k + 2 = top)) as [Htop|Hnt].
  { destruct fuel as [|fuel]; [lia|]. cbn [clear_parents_loop]. pose proof (pt_null _ _ Hp) as Rn. replace (top - 1) with (k + 1) in Rn by lia.
    rewrite Rn. cbn. by exists s1. }
  (* the page above *)
  destruct (Hlk (k + 2) ltac:(lia)) as (c2 & i2 & b3 & i3 & Hc2 & Hb3 & (sp3 & Hsp3 & Hi2 & Ho3) & Hl2).
  rewrite Hb in Hc2. injection Hc2 as <- <-. replace (k + 2 + 1) with (k + 3) in Hb3 by lia.
  pose proof (wk_ok _ _ _ _ W) as Hok1. assert (Hlv1 : levels_ok s1) by (eapply lighter_levels; [exact Hok|exact Hok1|apply W|done]).
  assert (Hch : child s b3 i' b) by by exists sp3. pose proof (child_lev LL DD s b3 i' b Hok Hlv Hch) as Hlv3.
  assert (Hne : b3 ≠ b) by (intros ->; lia).
  destruct (IH (k + 1) s1 Hok1 Hlv1 Hp) as (s2 & E2 & W2 & Ht2); [| |lia|lia|lia|].
  - apply (walked_linked _ _ _ _ _ _ W). intros j Hj. apply Hlk. lia.
  - assert (Hnm : needs_mark y).
    { right. destruct (counts_bits _ _ _ _ LL DD s b y Hok Hy) as [_ Hcnt].
      pose proof (proj2 (ones_pos (px_bitmap y)) ltac:(by eexists)). lia. }
    destruct (child_marked LL DD s b3 i' b sp3 y Hok Hch Hsp3 Hy Hnm) as (z & Hzz & Hbz).
    exists b, i', b3, i3, sp3, z. replace (k + 1 + 1) with (k + 2) by lia. replace (k + 1 + 2) with (k + 3) by lia.
    split_and!; try done; [by rewrite Hother|lia|change (lev s b3 = k + 3); lia|]. intros d w Hd Hw1.
    apply (lighter_owner g page_header page_of gfn_to_memslot s s1) in Hd; [|apply W]. rewrite Ho3 in Hd. injection Hd as <-.
    rewrite Hy1 in Hw1. injection Hw1 as <-. intros [Hu|Hu]; [|done]. cbn in Hu.
    destruct (lv_ext _ _ _ _ _ _ _ Hlv b sp y Hsp Hy) as (Hu1 & _ & _). specialize (Hu1 Hu). rewrite (lev_some s b sp Hsp) in Hlev. lia.
  - exists s2. split; [exact E2|]. split; [by eapply walked_trans|lia].
Qed.

(* ------------------------------------------------------------------ *)
(** ** Zapping the pages of the vector *)

Notation prepare_zap := (prepare_zap g page_header page_of gfn_to_memslot role_gfn_to_memslot PT64_ROOT_MAX_LEVEL).
Notation self_zapped := (self_zapped g page_header page_of gfn_to_memslot).
Notation detached := (detached g page_header page_of gfn_to_memslot).

Lemma prepare_leaf_ok (LL DD : owner → list Z) (zs : zap_state) (c : Z) :
  shadow_ok LL DD zs.(zs_shadow) → levels_ok zs.(zs_shadow) → lev zs.(zs_shadow) c = 1 →
  ∃ zs' LL' DD', prepare_zap 1 c zs = Some (zs', 1) ∧ shadow_ok LL' DD' zs'.(zs_shadow) ∧ self_zapped c zs zs' ∧
    moved c false zs zs'.
Proof using Type.
  intros Hok Hlv Hl. set (s := zs.(zs_shadow)) in *.
  assert (Hsc : ∃ sp, (mmu s).(pages) !! c = Some sp ∧ sp.(role_level) = 1).
  { unfold lev in Hl. destruct (pages (mmu s) !! c) as [sp|]; [by exists sp|done]. }
  destruct Hsc as (sp & Hsp & El).
  assert (Hx : is_Some (s.(ss_ext) !! c)) by (apply (en_dom _ _ _ _ _ _ (sk_entries _ _ _ _ _ _ _ Hok)); by eexists). destruct Hx as [x Hx].
  destruct (lv_ext _ _ _ _ _ _ _ Hlv c sp x Hsp Hx) as (_ & _ & Hroot).
  assert (Hr0 : px_root_count x = 0) by (destruct (decide (px_root_count x = 0)); [done|by destruct Hroot]).
  set (zs1 := zs <| zs_shadow ::= λ s, s <| ss_stat_zapped ::= λ n, n + 1 |> |>).
  assert (F : flags_only s zs1.(zs_shadow)) by by apply flags_same.
  assert (Hok1 : shadow_ok LL DD zs1.(zs_shadow)) by (by apply (flags_ok _ _ _ _ _ _ s)).
  assert (Hlv1 : levels_ok zs1.(zs_shadow)) by (eapply lighter_levels; [exact Hok|exact Hok1|by apply flags_lighter|done]).
  destruct (zap_self_ok g page_header page_of gfn_to_memslot role_gfn_to_memslot PT64_ROOT_MAX_LEVEL LL DD zs1 c 0 sp x Hok1 Hlv1 Hsp Hx)
    as (zs' & LL' & DD' & E & Hok' & Z). rewrite Hr0 in E. cbn in E.
  exists zs', LL', DD'. split; [|split; [done|]].
  - cbn [ZapPage.prepare_zap]. fold zs1. unfold mmu_zap_unsync_children.
    assert (Hsp1 : (mmu zs1.(zs_shadow)).(pages) !! c = Some sp) by exact Hsp. rewrite Hsp1. cbn [mbind option_bind].
    rewrite El. cbn [Z.eqb]. cbn [mbind option_bind]. exact E.
  - destruct Z as [Z1 Z2 Z3 Z4 Z5]. pose proof (Z5 x Hx) as M. rewrite Hr0 in M. split; [|exact M].
    split; [exact (lighter_trans _ _ _ (flags_lighter _ _ F) Z1)|done|exact Z3|exact Z4|]. intros y Hy.
    assert (y = x) as -> by (unfold s in Hx; congruence). rewrite Hr0. exact M.
Qed.

(** Other pages keep their place in the tables. *)
Lemma zapped_child (LL DD : owner → list Z) (zs zs' : zap_state) (c b i d : Z) :
  shadow_ok LL DD zs.(zs_shadow) → levels_ok zs.(zs_shadow) → self_zapped c zs zs' → lev zs.(zs_shadow) c = 1 →
  child zs.(zs_shadow) b i d → d ≠ c → child zs'.(zs_shadow) b i d.
Proof using Type.
  intros Hok Hlv Z Hl1 Hch Hd. pose proof (child_lev LL DD _ b i d Hok Hlv Hch) as Hlb.
  pose proof Hch as (sp & Hsp & Hi & Ho). exists sp. rewrite (lt_pages _ _ (sz_lighter _ _ _ _ _ _ _ Z)). split; [done|]. split; [done|].
  rewrite <- Ho. apply owner_of_same; [|apply (sz_lighter _ _ _ _ _ _ _ Z)].
  pose proof (sk_entries _ _ _ _ _ _ _ Hok) as E. pose proof (entry_at sp i Hi) as Hin. fold (entry_num sp i) in Hin.
  pose proof (po_header _ _ _ (en_pages _ _ _ _ _ _ E b sp Hsp) _ Hin) as Hh.
  assert (Hd1 : 1 <= lev zs.(zs_shadow) d).
  { destruct (proj2 (en_dom _ _ _ _ _ _ E d) (en_live _ _ _ _ _ _ E (Pg d) _ Ho)) as [sd Hsd].
    rewrite (lev_some _ d sd Hsd). by apply (lv_range _ _ _ _ _ _ _ Hlv d). }
  assert (Hsc : ∃ sc, (mmu zs.(zs_shadow)).(pages) !! c = Some sc).
  { unfold lev in Hl1. destruct (pages (mmu (zs_shadow zs)) !! c) as [sc|]; [by exists sc|done]. }
  destruct Hsc as [sc Hsc]. apply (sz_kept _ _ _ _ _ _ _ Z sc); [done| |congruence].
  destruct (entry_in sc (entry_num sp i)) eqn:Hc; [|done].
  pose proof (po_header _ _ _ (en_pages _ _ _ _ _ _ E c sc Hsc) _ Hc) as Hh'. rewrite Hh in Hh'. rewrite Hh', Hl1 in Hlb. revert Hd1 Hlb. generalize (lev (zs_shadow zs) d). lia.
Qed.

Lemma zapped_vec (LL DD : owner → list Z) (zs zs' : zap_state) (c : Z) (cur : cursor) (l : list (Z * Z)) :
  shadow_ok LL DD zs.(zs_shadow) → levels_ok zs.(zs_shadow) → self_zapped c zs zs' → lev zs.(zs_shadow) c = 1 →
  (∀ e, e ∈ l → e.1 ≠ c) → vec_ok zs.(zs_shadow) cur l → vec_ok zs'.(zs_shadow) cur l.
Proof using Type.
  intros Hok Hlv Z Hl1. revert cur. induction l as [|[a i] l IH]; intros cur Hn; cbn [vec_ok]; [done|].
  assert (El : ∀ b, lev zs'.(zs_shadow) b = lev zs.(zs_shadow) b) by (intros b; unfold lev; by rewrite (lt_pages _ _ (sz_lighter _ _ _ _ _ _ _ Z))).
  rewrite !El. intros (Hr & Hlk & Hu & Hv). specialize (Hn (a, i) ltac:(by left)) as Hna. cbn in Hna. split; [done|]. split; [|split].
  - intros j Hj. destruct (Hlk j Hj) as (d & i1 & b & i' & H1 & H2 & H3 & H4). exists d, i1, b, i'. rewrite El.
    split_and!; try done. eapply zapped_child; [exact Hok|done|exact Z|done|done|]. intros ->.
    assert (j = 1) as -> by lia. assert (Ea : lev (zs_shadow zs) a = 1) by lia. rewrite Ea, push_eq in H1. by injection H1.
  - intros H1. destruct (Hu H1) as (x & Hx & Hxu). destruct (sz_marks _ _ _ _ _ _ _ Z a x Hx) as (x' & Hx' & _ & _ & _ & Hs).
    exists x'. split; [done|]. by destruct (Hs Hna) as [-> _].
  - apply IH; [|done]. intros e He. apply Hn. by right.
Qed.

(** The pages [Zs], none of them a root, are zapped and wait to be freed. *)
Record purged (Zs : list Z) (zs zs' : zap_state) : Prop := {
  pu_ok : ∃ LL DD, shadow_ok LL DD zs'.(zs_shadow);
  pu_levels : levels_ok zs'.(zs_shadow);
  pu_lighter : lighter zs.(zs_shadow) zs'.(zs_shadow);
  pu_nodup : NoDup Zs;
  pu_active : zs'.(zs_shadow).(ss_active) = del_all Zs zs.(zs_shadow).(ss_active);
  pu_invalid : zs'.(zs_invalid) = reverse Zs ++ del_all Zs zs.(zs_invalid);
  pu_obsolete : zs'.(zs_obsolete) = del_all Zs zs.(zs_obsolete);
  pu_used : zs'.(zs_shadow).(ss_used) = u32 (zs.(zs_shadow).(ss_used) - Z.of_nat (length Zs));
  pu_total : zs'.(zs_total) = zs.(zs_total) - Z.of_nat (length Zs);
  pu_freed : zs'.(zs_freed) = zs.(zs_freed);
  pu_zapped : ∀ b, b ∈ Zs → detached zs'.(zs_shadow) b ∧ ¬ detached zs.(zs_shadow) b ∧ ∃ x, zs'.(zs_shadow).(ss_ext) !! b = Some x ∧
    x.(px_invalid) = true ∧ x.(px_root_count) = 0;
  pu_leaves : ∀ b, b ∈ Zs → lev zs.(zs_shadow) b = 1 ∧ is_unsync zs.(zs_shadow) b;
  pu_flags : ∀ b x', zs'.(zs_shadow).(ss_ext) !! b = Some x' → x'.(px_invalid) = true →
    b ∈ Zs ∨ ∃ x, zs.(zs_shadow).(ss_ext) !! b = Some x ∧ x.(px_invalid) = true
}.

Lemma purged_nil (LL DD : owner → list Z) (zs : zap_state) :
  shadow_ok LL DD zs.(zs_shadow) → levels_ok zs.(zs_shadow) → is_u 32 zs.(zs_shadow).(ss_used) → purged [] zs zs.
Proof using Type.
  intros Hok Hlv Hu. split; rewrite ?del_all_nil; try done.
  - by eexists _, _.
  - constructor.
  - rewrite Z.sub_0_r. symmetry. by apply wrap_id.
  - cbn. lia.
  - intros b Hb. by apply elem_of_nil in Hb.
  - intros b Hb. by apply elem_of_nil in Hb.
  - intros b x Hx Hi. right. by exists x.
Qed.

Lemma u32_sub (n k : Z) : u32 (u32 (n - k) - 1) = u32 (n - (k + 1)).
Proof using Type. unfold wrap. rewrite Zminus_mod_idemp_l. f_equal. lia. Qed.

Lemma self_zapped_mark (c : Z) (zs zs' : zap_state) (x : page_ext) :
  self_zapped c zs zs' → zs.(zs_shadow).(ss_ext) !! c = Some x →
  ∃ x', zs'.(zs_shadow).(ss_ext) !! c = Some x' ∧ x'.(px_invalid) = true ∧ x'.(px_root_count) = x.(px_root_count).
Proof using Type.
  intros Z Hx. destruct (sz_marks _ _ _ _ _ _ _ Z c x Hx) as (x' & Hx' & _ & _ & Hs & _). exists x'. split; [done|].
  split; [by apply Hs|]. destruct (lt_ext _ _ (sz_lighter _ _ _ _ _ _ _ Z) c x Hx) as (y & Hy & LE). rewrite Hx' in Hy. injection Hy as <-. apply LE.
Qed.

(** One more page. *)
Lemma purged_snoc (Zs : list Z) (LL DD : owner → list Z) (zs zs1 zs2 : zap_state) (s3 : shadow_state) (c : Z) (x : page_ext) :
  purged Zs zs zs1 → self_zapped c zs1 zs2 → moved c false zs1 zs2 → levels_ok zs2.(zs_shadow) → walked LL DD zs2.(zs_shadow) s3 →
  ¬ detached zs1.(zs_shadow) c → zs1.(zs_shadow).(ss_ext) !! c = Some x → x.(px_root_count) = 0 → lev zs1.(zs_shadow) c = 1 →
  x.(px_unsync) = true → shadow_ok LL DD zs2.(zs_shadow) → purged (Zs ++ [c]) zs (zs2 <| zs_shadow := s3 |>).
Proof using Type.
  intros [P1 P2 P3 P4 P5 P6 P7 P8 P9 P10 P11 P12 P13] Z (M1 & M2 & M3 & M4 & M5 & M6) Hlv2 W Hnd Hx Hr Hl1 Hun Hok2.
  assert (Hc : c ∉ Zs) by (intros Hc; apply Hnd; by apply P11).
  assert (L13 : lighter zs1.(zs_shadow) s3) by (etrans; [apply (sz_lighter _ _ _ _ _ _ _ Z)|apply W]).
  assert (Hsame : s3.(ss_active) = zs2.(zs_shadow).(ss_active) ∧ s3.(ss_used) = zs2.(zs_shadow).(ss_used)) by (by rewrite (wk_same _ _ _ _ W)).
  destruct Hsame as [Ha Hu]. split; cbn [zs_shadow zs_invalid zs_obsolete zs_total zs_freed put].
  - exists LL, DD. apply W.
  - eapply lighter_levels; [exact Hok2|apply W|apply W|done].
  - etrans; [exact P3|exact L13].
  - apply NoDup_app. split; [done|]. split; [|apply NoDup_singleton]. by intros b Hb ->%list_elem_of_singleton.
  - change (s3.(ss_active) = del_all (Zs ++ [c]) (ss_active (zs_shadow zs))). rewrite Ha, M2, P5. cbn [app]. apply del_all_snoc.
  - change (zs2.(zs_invalid) = reverse (Zs ++ [c]) ++ del_all (Zs ++ [c]) (zs_invalid zs)). rewrite M1, P6. cbn [app].
    rewrite reverse_snoc. cbn [app]. f_equal. unfold list_del at 1. rewrite filter_app. f_equal; [|apply del_all_snoc].
    apply list_del_notin. by rewrite elem_of_reverse.
  - change (zs2.(zs_obsolete) = del_all (Zs ++ [c]) (zs_obsolete zs)). rewrite M3, P7. apply del_all_snoc.
  - change (s3.(ss_used) = u32 (ss_used (zs_shadow zs) - Z.of_nat (length (Zs ++ [c])))). rewrite Hu, M4, P8, u32_sub, length_app.
    cbn [length]. f_equal. lia.
  - change (zs2.(zs_total) = zs_total zs - Z.of_nat (length (Zs ++ [c]))). rewrite M5, P9, length_app. cbn. lia.
  - change (zs2.(zs_freed) = zs_freed zs). by rewrite M6.
  - intros b [Hb| ->%list_elem_of_singleton]%elem_of_app.
    + destruct (P11 b Hb) as (D1 & D2 & y & Hy & Hy1 & Hy2). split; [by eapply lighter_detached|]. split; [done|].
      destruct (lt_ext _ _ L13 b y Hy) as (y' & Hy' & LE). exists y'. split; [exact Hy'|]. split; [by apply LE|]. by rewrite (le_root _ _ LE).
    + split; [eapply lighter_detached; [apply W|apply Z]|]. split.
      * intros Hd. apply Hnd. by eapply lighter_detached.
      * destruct (self_zapped_mark c zs1 zs2 x Z Hx) as (y & Hy & Hy1 & Hy2). destruct (lt_ext _ _ (wk_lighter _ _ _ _ W) c y Hy) as (y' & Hy' & LE).
        exists y'. split; [exact Hy'|]. split; [by apply LE|]. rewrite (le_root _ _ LE). congruence.
  - intros b [Hb| ->%list_elem_of_singleton]%elem_of_app; [by apply P12|]. split.
    + rewrite <- Hl1. unfold lev. by rewrite (lt_pages _ _ P3).
    + destruct (lighter_lookup _ _ c x P3 Hx) as (y & Hy & LE). exists y. split; [done|]. by apply LE.
  - intros b x' Hx' Hi. destruct (walked_invalid _ _ _ _ b x' W Hx') as (x2 & Hx2 & E2). rewrite elem_of_app.
    destruct (lt_back _ _ (sz_lighter _ _ _ _ _ _ _ Z) b) as [x1 Hx1]; [by eexists|].
    destruct (sz_marks _ _ _ _ _ _ _ Z b x1 Hx1) as (x3 & Hx3 & _ & _ & _ & Hs). rewrite Hx2 in Hx3. injection Hx3 as <-.
    destruct (decide (b = c)) as [->|Hne]; [left; right; by left|]. destruct (Hs Hne) as [_ Hs'].
    destruct (P13 b x1 Hx1) as [?|?]; [congruence|by left; left|by right].
Qed.

Notation zap_vector := (zap_vector PT64_ROOT_MAX_LEVEL).

(** The loop over the vector stands at a page out of sync, or at the end. *)
Definition vector_at (s : shadow_state) (v : list (Z * Z)) (n : nat) (path : mmu_page_path) : Prop :=
  (n = length v ∧ length path.(mp_parent) = PT64_ROOT_MAX_LEVEL ∧ length path.(mp_idx) = PT64_ROOT_MAX_LEVEL) ∨
  ∃ pre c i l cur, v = pre ++ (c, i) :: l ∧ n = length pre ∧ lev s c = 1 ∧ is_unsync s c ∧ path_ok path cur ∧
    cur 1 = Some (c, i) ∧ linked s cur 1 ∧ vec_ok s cur l ∧ distinct s ((c, i) :: l).

Lemma distinct_app_r (s : shadow_state) (l1 l2 : list (Z * Z)) : distinct s (l1 ++ l2) → distinct s l2.
Proof using Type. unfold distinct. rewrite filter_app, fmap_app. by intros (_ & _ & ?)%NoDup_app. Qed.

Lemma next_vector (s : shadow_state) (cur : cursor) (pre l : list (Z * Z)) (n : nat) (path : mmu_page_path) :
  vec_ok s cur l → distinct s l → next_leaf s cur pre l n path → vector_at s (pre ++ l) n path.
Proof using Type.
  intros Hv Hd [(-> & _ & Hlen)|(l1 & c & i & l2 & -> & -> & Hc & Hnl & Hp)]; [by left|right].
  apply vec_ok_app in Hv as [_ (Hr & Hlk & Hu & Hv)]. rewrite Hc in *.
  exists (pre ++ l1), c, i, l2, (push (after s cur l1) 1 (c, i)). rewrite <- app_assoc. split_and!; try done; [by apply Hu|].
  by apply (distinct_app_r s l1).
Qed.

(** A page out of sync on the path is attached. *)
Lemma linked_child (s : shadow_state) (cur : cursor) (c i : Z) :
  linked s cur 1 → cur 1 = Some (c, i) → 1 < top → ∃ b i', cur 2 = Some (b, i') ∧ child s b i c.
Proof using Type.
  intros Hl Hc Ht. destruct (Hl 1 ltac:(lia)) as (c' & i1 & b & i' & H1 & H2 & H3 & _). rewrite Hc in H1. injection H1 as <- <-. by exists b, i'.
Qed.

Lemma child_attached (s : shadow_state) (b i c : Z) : child s b i c → ¬ detached s c.
Proof using Type. intros (sp & _ & _ & Ho) [_ Hd]. exact (Hd _ Ho). Qed.

(** One round of the loop: the page at the cursor is zapped and its marks are
    cleared. *)
Lemma vector_round (LL DD : owner → list Z) (zs : zap_state) (pre l : list (Z * Z)) (c i : Z) (path : mmu_page_path) (cur : cursor) :
  shadow_ok LL DD zs.(zs_shadow) → levels_ok zs.(zs_shadow) → 1 < top → top <= Z.of_nat PT64_ROOT_MAX_LEVEL →
  lev zs.(zs_shadow) c = 1 → is_unsync zs.(zs_shadow) c → path_ok path cur → cur 1 = Some (c, i) → linked zs.(zs_shadow) cur 1 →
  vec_ok zs.(zs_shadow) cur l → distinct zs.(zs_shadow) ((c, i) :: l) →
  ∃ zs2 s3 LL2 DD2, prepare_zap 1 c zs = Some (zs2, 1) ∧ mmu_pages_clear_parents PT64_ROOT_MAX_LEVEL path zs2.(zs_shadow) = Some s3 ∧
    shadow_ok LL2 DD2 zs2.(zs_shadow) ∧ levels_ok zs2.(zs_shadow) ∧ self_zapped c zs zs2 ∧ moved c false zs zs2 ∧
    walked LL2 DD2 zs2.(zs_shadow) s3 ∧ (total_marks s3 < total_marks zs.(zs_shadow))%nat ∧ vec_ok s3 cur l ∧ distinct s3 l.
Proof using Type.
  set (s := zs.(zs_shadow)). intros Hok Hlv Ht1 Ht2 Hc Hu Hp Hc1 Hlk Hv Hd.
  destruct (prepare_leaf_ok LL DD zs c Hok Hlv Hc) as (zs2 & LL2 & DD2 & E & Hok2 & Z & M). set (s2 := zs2.(zs_shadow)) in *.
  pose proof (sz_lighter _ _ _ _ _ _ _ Z) as L. fold s s2 in L.
  assert (Hlv2 : levels_ok s2) by (eapply lighter_levels; [exact Hok|exact Hok2|done|done]).
  assert (El : ∀ b, lev s2 b = lev s b) by (intros b; unfold lev; by rewrite (lt_pages _ _ L)).
  destruct (linked_child s cur c i Hlk Hc1 Ht1) as (b & i' & Hc2 & Hch). destruct Hu as (x & Hx & Hxu).
  pose proof (child_lev LL DD s b i c Hok Hlv Hch) as Hlb.
  pose proof Hch as (sp & Hsp & Hi & Ho). destruct (child_marked LL DD s b i c sp x Hok Hch Hsp Hx (or_introl Hxu)) as (z & Hz & Hbz).
  destruct (sz_marks _ _ _ _ _ _ _ Z b z Hz) as (z2 & Hz2 & Hbm & _). fold s2 in Hz2.
  assert (Hcl : clearable s2 cur 0).
  { exists c, i, b, i', sp, z2. split; [done|]. split; [done|]. split; [by rewrite (lt_pages _ _ L)|]. split; [done|]. split; [lia|].
    split; [by rewrite Hbm|]. split; [rewrite El; lia|].
    intros d w Hd1 _. pose proof (lighter_owner _ _ _ _ s s2 _ _ L Hd1) as Hd0. rewrite Ho in Hd0. injection Hd0 as <-.
    destruct (sz_detached _ _ _ _ _ _ _ Z) as [_ Hdp]. by destruct (Hdp (entry_num sp i)). }
  assert (Hlk2 : linked s2 cur (0 + 2)).
  { intros j Hj. destruct (Hlk j ltac:(lia)) as (d & i1 & b1 & i1' & H1 & H2 & H3 & H4). exists d, i1, b1, i1'. rewrite El.
    split_and!; try done. eapply (zapped_child LL DD zs zs2 c); [exact Hok|done|done|done|done|]. intros ->. fold s in Hc. lia. }
  destruct (clear_parents_ok LL2 DD2 (S PT64_ROOT_MAX_LEVEL) 0 s2 path cur Hok2 Hlv2 Hp Hlk2 Hcl ltac:(lia) ltac:(lia) ltac:(lia)) as (s3 & E3 & W & Ht).
  exists zs2, s3, LL2, DD2. split; [exact E|]. split; [exact E3|]. split_and!; try done.
  - pose proof (lighter_marks s s2 L). lia.
  - apply (walked_vec _ _ _ _ _ _ W). eapply (zapped_vec LL DD zs zs2 c); [exact Hok|done|done|done| |done].
    intros e He Hec. unfold distinct in Hd. rewrite filter_cons_True in Hd by done. apply NoDup_cons in Hd as [Hd _]. apply Hd.
    apply list_elem_of_fmap. exists e. split; [done|]. apply list_elem_of_filter. split; [|done]. unfold leaf_entry. rewrite Hec. done.
  - unfold distinct in *. rewrite filter_cons_True in Hd by done. apply NoDup_cons in Hd as [_ Hd].
    rewrite (list_filter_iff (leaf_entry s3) (leaf_entry s)); [done|]. intros e. unfold leaf_entry. by rewrite (walked_lev _ _ _ _ _ W), El.
Qed.

Lemma vector_loop_ok (fuel : nat) (zs0 zs : zap_state) (Zs : list Z) (v : list (Z * Z)) (n : nat) (path : mmu_page_path) (zapped : Z) :
  purged Zs zs0 zs → vector_at zs.(zs_shadow) v n path → 1 < top → top <= Z.of_nat PT64_ROOT_MAX_LEVEL →
  (length v < n + fuel)%nat →
  ∃ zs' Zs' path', zap_vector (prepare_zap 1) fuel v n path zapped zs = Some (zs', zapped + Z.of_nat (length Zs'), path') ∧
    purged (Zs ++ Zs') zs0 zs' ∧ length path'.(mp_parent) = PT64_ROOT_MAX_LEVEL ∧ length path'.(mp_idx) = PT64_ROOT_MAX_LEVEL ∧
    (total_marks zs'.(zs_shadow) <= total_marks zs.(zs_shadow))%nat ∧
    ((n < length v)%nat → (total_marks zs'.(zs_shadow) < total_marks zs.(zs_shadow))%nat) ∧
    lighter zs.(zs_shadow) zs'.(zs_shadow).
Proof using Type.
  revert zs Zs n path zapped. induction fuel as [|fuel IH]; intros zs Zs n path zapped P V Ht1 Ht2 Hf.
  { exfalso. destruct V as [(-> & _)|(pre & c & i & l & cur & -> & -> & _)]; [lia|]. rewrite length_app in Hf. cbn in Hf. lia. }
  destruct V as [(-> & H1 & H2)|(pre & c & i & l & cur & -> & -> & Hc & Hu & Hp & Hc1 & Hlk & Hv & Hd)].
  { assert (En : (v : mmu_pages) !! length v = None) by by apply lookup_ge_None_2. unfold ZapPage.zap_vector; fold ZapPage.zap_vector. rewrite En.
    exists zs, [], path. rewrite app_nil_r. split; [do 3 f_equal; cbn; lia|]. split_and!; try done; lia. }
  destruct (pu_ok _ _ _ P) as (LL & DD & Hok). pose proof (pu_levels _ _ _ P) as Hlv.
  assert (Em : (pre ++ (c, i) :: l : mmu_pages) !! length pre = Some (c, i)) by by apply list_lookup_middle.
  unfold ZapPage.zap_vector; fold ZapPage.zap_vector. rewrite Em.
  destruct (vector_round LL DD zs pre l c i path cur Hok Hlv Ht1 Ht2 Hc Hu Hp Hc1 Hlk Hv Hd)
    as (zs2 & s3 & LL2 & DD2 & -> & E3 & Hok2 & Hlv2 & Z & M & W & Ht & Hv3 & Hd3).
  cbn [mbind option_bind]. rewrite E3. cbn [mbind option_bind]. set (zs3 := zs2 <| zs_shadow := s3 |>).
  destruct (linked_child _ cur c i Hlk Hc1 Ht1) as (b & i' & Hc2 & Hch). destruct Hu as (x & Hx & Hxu).
  assert (Hx0 : px_root_count x = 0).
  { destruct (decide (px_root_count x = 0)); [done|]. exfalso. unfold lev in Hc. destruct (pages (mmu (zs_shadow zs)) !! c) as [sp|] eqn:Hsp; [|done].
    destruct (lv_ext _ _ _ _ _ _ _ Hlv c sp x Hsp Hx) as (_ & _ & Hr). cbn in Hc. by apply Hr. }
  assert (P3 : purged (Zs ++ [c]) zs0 zs3) by (eapply purged_snoc; [exact P|exact Z|done|done|exact W|by eapply child_attached|exact Hx|done|done|done|done]).
  destruct (next_loop_ok (S (length (pre ++ (c, i) :: l))) s3 cur (pre ++ [(c, i)]) l path Hv3 Hp Ht2) as (n' & path' & En & Hn);
    [rewrite length_app; cbn; lia|].
  rewrite <- app_assoc, (length_app pre [(c, i)]), Nat.add_1_r in En. cbn [app] in En.
  unfold mmu_pages_next. rewrite En. cbn [mbind option_bind].
  pose proof (next_vector s3 cur (pre ++ [(c, i)]) l n' path' Hv3 Hd3 Hn) as V3. rewrite <- app_assoc in V3.
  assert (Hn' : (length pre < n')%nat).
  { destruct Hn as [(-> & _)|(l1 & ? & ? & l2 & _ & -> & _)]; rewrite !length_app; cbn; lia. }
  destruct (IH zs3 (Zs ++ [c]) n' path' (zapped + 1) P3 V3 Ht1 Ht2 ltac:(lia)) as (zs' & Zs' & path'' & E & P' & H1 & H2 & Hle & _ & L').
  exists zs', (c :: Zs'), path''. rewrite <- app_assoc in P'. split; [|split; [exact P'|]].
  { etrans; [exact E|]. do 3 f_equal. cbn [length]. lia. }
  split_and!; try done.
  - change (total_marks s3) with (total_marks (zs_shadow zs3)) in Ht. lia.
  - intros _. change (total_marks s3) with (total_marks (zs_shadow zs3)) in Ht. lia.
  - etrans; [|exact L']. etrans; [apply (sz_lighter _ _ _ _ _ _ _ Z)|apply W].
Qed.

(** Marks alone change. *)
Lemma purged_walked (LL DD : owner → list Z) (Zs : list Z) (zs0 zs : zap_state) (s1 : shadow_state) :
  purged Zs zs0 zs → shadow_ok LL DD zs.(zs_shadow) → walked LL DD zs.(zs_shadow) s1 → purged Zs zs0 (zs <| zs_shadow := s1 |>).
Proof using Type.
  intros [Q1 Q2 Q3 Q4 Q5 Q6 Q7 Q8 Q9 Q10 Q11 Q12 Q13] Hok W. pose proof (wk_lighter _ _ _ _ W) as L.
  assert (Hsame : s1.(ss_active) = zs.(zs_shadow).(ss_active) ∧ s1.(ss_used) = zs.(zs_shadow).(ss_used)) by (by rewrite (wk_same _ _ _ _ W)).
  destruct Hsame as [Ha Hu]. split; try done.
  - exists LL, DD. apply W.
  - eapply lighter_levels; [exact Hok|apply W|done|done].
  - by etrans.
  - change (s1.(ss_active) = del_all Zs (ss_active (zs_shadow zs0))). by rewrite Ha.
  - change (s1.(ss_used) = u32 (ss_used (zs_shadow zs0) - Z.of_nat (length Zs))). by rewrite Hu.
  - intros b Hb. destruct (Q11 b Hb) as (D1 & D2 & y & Hy & Hy1 & Hy2). split; [by eapply lighter_detached|]. split; [done|].
    destruct (lt_ext _ _ L b y Hy) as (y' & Hy' & LE). exists y'. split; [exact Hy'|]. split; [by apply LE|]. by rewrite (le_root _ _ LE).
  - intros b x' Hx' Hi. destruct (walked_invalid _ _ _ _ b x' W Hx') as (x1 & Hx1 & E1). apply (Q13 b x1 Hx1). congruence.
Qed.

(** The passes end: each clears a mark. *)
Lemma unsync_loop_ok (fuel : nat) (zs0 zs : zap_state) (Zs : list Z) (a : Z) (sp : mmu_page) (path : mmu_page_path) (zapped : Z) :
  (PT64_ROOT_MAX_LEVEL < KVM_PAGE_ARRAY_NR)%nat → purged Zs zs0 zs → (mmu zs.(zs_shadow)).(pages) !! a = Some sp →
  sp.(role_level) = top → top ≠ 1 → length path.(mp_parent) = PT64_ROOT_MAX_LEVEL → length path.(mp_idx) = PT64_ROOT_MAX_LEVEL →
  (total_marks zs.(zs_shadow) < fuel)%nat →
  ∃ zs' Zs', zap_unsync_loop g page_of PT64_ROOT_MAX_LEVEL (prepare_zap 1) fuel a path zapped zs = Some (zs', zapped + Z.of_nat (length Zs')) ∧
    purged (Zs ++ Zs') zs0 zs' ∧ lighter zs.(zs_shadow) zs'.(zs_shadow) ∧
    ∀ x, zs'.(zs_shadow).(ss_ext) !! a = Some x → x.(px_unsync_children) = 0.
Proof using Type.
  intros Hmax P Hsp Hl Hn1 P1 P2 Hf. revert zs Zs path zapped P Hsp P1 P2 Hf. induction fuel as [|fuel IH]; intros zs Zs path zapped P Hsp P1 P2 Hf; [lia|].
  destruct (pu_ok _ _ _ P) as (LL & DD & Hok). pose proof (pu_levels _ _ _ P) as Hlv. destruct (lv_range _ _ _ _ _ _ _ Hlv a sp Hsp) as [_ Hr].
  cbn [zap_unsync_loop]. destruct (unsync_walk_ok LL DD a (zs_shadow zs) sp Hmax Hok Hlv Hsp Hl Hn1) as (s1 & v & ret & -> & W & H0 & Hret).
  cbn [mbind option_bind]. set (zs1 := zs <| zs_shadow := s1 |>).
  assert (Pw : purged Zs zs0 zs1) by by eapply purged_walked.
  destruct (Z.eqb_spec ret 0) as [->|Hnz].
  { exists zs1, []. rewrite app_nil_r. split; [do 2 f_equal; cbn; lia|]. split; [done|]. split; [apply W|]. by apply H0. }
  destruct (Hret Hnz) as (l & -> & Hv & Hd & Hprog).
  assert (Hv1 : vec_ok s1 (start_cursor a) l) by (by apply (walked_vec _ _ _ _ _ _ W)).
  assert (El : ∀ b, lev s1 b = lev (zs_shadow zs) b) by (intros b; by apply (walked_lev _ _ _ _ _ W)).
  assert (Hd1 : distinct s1 l).
  { unfold distinct in *. rewrite (list_filter_iff (leaf_entry s1) (leaf_entry (zs_shadow zs))); [done|]. intros e. unfold leaf_entry. by rewrite El. }
  destruct (first_ok s1 a l path Hv1) as (n & path1 & E1 & Hn); [by rewrite El, (lev_some _ a sp Hsp)|lia|lia|done|done|].
  change (zs_shadow zs1) with s1. rewrite E1. cbn [mbind option_bind].
  pose proof (next_vector s1 (start_cursor a) [(a, INVALID_INDEX)] l n path1 Hv1 Hd1 Hn) as V1.
  destruct (vector_loop_ok (S (length ((a, INVALID_INDEX) :: l))) zs0 zs1 Zs ((a, INVALID_INDEX) :: l) n path1 zapped Pw V1 ltac:(lia) ltac:(lia) ltac:(lia))
    as (zs2 & Zs2 & path2 & E2 & Pz & P3 & P4 & Hle & Hlt & L2).
  change (zs1 <| zs_shadow := s1 |>) with zs1. rewrite E2. cbn [mbind option_bind].
  assert (Hsp2 : (mmu zs2.(zs_shadow)).(pages) !! a = Some sp).
  { rewrite (lt_pages _ _ L2). change (zs_shadow zs1) with s1. by rewrite (walked_mmu _ _ _ _ W). }
  destruct (IH zs2 (Zs ++ Zs2) path2 (zapped + Z.of_nat (length Zs2)) Pz Hsp2 P3 P4) as (zs' & Zs' & E & P' & L' & Hx).
  - change (total_marks (zs_shadow zs1)) with (total_marks s1) in Hle, Hlt. pose proof (lighter_marks _ _ (wk_lighter _ _ _ _ W)) as Hw.
    destruct Hprog as [Hleaf|Hdec]; [|lia]. assert (Hn2 : (n < length ((a, INVALID_INDEX) :: l))%nat); [|specialize (Hlt Hn2); lia].
    destruct Hn as [(_ & Hnl & _)|(l1 & c & i & l2 & -> & -> & _)]; [|rewrite !length_app; cbn; rewrite length_app; cbn; lia].
    exfalso. apply Hnl. destruct Hleaf as (e & He & Hle1). exists e. split; [done|]. unfold leaf_entry in *. by rewrite El.
  - exists zs', (Zs2 ++ Zs'). rewrite <- app_assoc in P'. split; [|split; [exact P'|split; [|done]]].
    + rewrite E. do 2 f_equal. rewrite length_app. lia.
    + etrans; [apply W|]. etrans; [exact L2|exact L'].
Qed.
End Walk.
