(* ===== verification/ZapProps.v ===== *)
(** * Zapping shadow pages: the pages of a virtual machine

    The lists of pages, the count of pages in use and the tables together:
    what zapping and freeing do to them, for one page, for the oldest pages
    and for all pages of old generations. *)

From S2P Require Import Prelude.
From S2P Require Import Spte.
From S2P Require Import SpteTrack.
From S2P Require Import Memslots.
From S2P Require Import MemRegion.
From S2P Require Import MemRegionProps.
From S2P Require Import PteList.
From S2P Require Import PteListProps.
From S2P Require Import Rmap.
From S2P Require Import RmapProps.
From S2P Require Import SlotWalk.
From S2P Require Import PageTrack.
From S2P Require Import PageTrackProps.
From S2P Require Import ShadowPage.
From S2P Require Import ShadowPageProps.
From S2P Require Import MmuInv.
From S2P Require Import SetSpte.
From S2P Require Import SetSpteProps.
From S2P Require Import Notifier.
From S2P Require Import ZapPage.
From S2P Require Import ZapPageProps.
From S2P Require Import ZapUnsyncProps.

Lemma none_cons {A : Type} (a b : Z) (l : list Z) (o : option A) :
  (if decide (b ∈ l) then None else if decide (b ∈ [a]) then None else o) = if decide (b ∈ a :: l) then None else o.
Proof.
  destruct (decide (b ∈ a :: l)) as [[->|Hl]%elem_of_cons|Hc].
  - rewrite (decide_True (P := a ∈ [a])) by by left. by destruct (decide _).
  - by rewrite decide_True.
  - rewrite not_elem_of_cons in Hc. destruct Hc as [H1 H2]. rewrite !decide_False; [done| |done]. by rewrite list_elem_of_singleton.
Qed.

Section Pools.
Context `{K : KvmPte} `{T : KvmTrack} (g : shadow_masks) (page_header page_of : Z → Z)
        (gfn_to_memslot : bool → Z → vmrun_memory_slot) (role_gfn_to_memslot : bool → Z → option vmrun_memory_slot)
        (PT64_ROOT_MAX_LEVEL : nat).

Notation owner_of := (owner_of g page_header page_of gfn_to_memslot).
Notation shadow_ok := (shadow_ok g page_header page_of gfn_to_memslot).
Notation levels_ok := (levels_ok g page_header page_of gfn_to_memslot role_gfn_to_memslot PT64_ROOT_MAX_LEVEL).
Notation detached := (detached g page_header page_of gfn_to_memslot).
Notation purged := (purged g page_header page_of gfn_to_memslot role_gfn_to_memslot PT64_ROOT_MAX_LEVEL).
Notation self_zapped := (self_zapped g page_header page_of gfn_to_memslot).
Notation prepare_zap := (prepare_zap g page_header page_of gfn_to_memslot role_gfn_to_memslot PT64_ROOT_MAX_LEVEL).
Notation vmrun_mmu_prepare_zap_page := (vmrun_mmu_prepare_zap_page g page_header page_of gfn_to_memslot role_gfn_to_memslot PT64_ROOT_MAX_LEVEL).

(** ** One page and the pages out of sync below it *)

Lemma marks_fuel (LL DD : owner → list Z) (s : shadow_state) : shadow_ok LL DD s → (total_marks s < mark_fuel s)%nat.
Proof using Type.
  intros Hok. unfold total_marks, mark_fuel.
  assert (H : (total (λ x, ones (px_bitmap x)) (ss_ext s) <= Z.to_nat PT64_ENT_PER_PAGE * size (ss_ext s))%nat); [|lia].
  apply total_bound. intros a x Hx. destruct (counts_bits _ _ _ _ LL DD s a x Hok Hx) as [<- _]. apply ones_bound.
Qed.

(** The vector has room for a path. *)
Context (Hmax : (PT64_ROOT_MAX_LEVEL < KVM_PAGE_ARRAY_NR)%nat).

(** Another number in the statistics. *)
Definition zap_counted (zs : zap_state) : zap_state := zs <| zs_shadow ::= λ s, s <| ss_stat_zapped ::= λ n, n + 1 |> |>.

Lemma zap_children_ok (LL DD : owner → list Z) (zs : zap_state) (a : Z) (sp : mmu_page) :
  shadow_ok LL DD zs.(zs_shadow) → levels_ok zs.(zs_shadow) → is_u 32 zs.(zs_shadow).(ss_used) →
  (mmu zs.(zs_shadow)).(pages) !! a = Some sp →
  ∃ zs' Zs, mmu_zap_unsync_children g page_of PT64_ROOT_MAX_LEVEL (prepare_zap 1) a zs = Some (zs', Z.of_nat (length Zs)) ∧
    purged Zs zs zs' ∧ a ∉ Zs ∧ ∀ x, zs'.(zs_shadow).(ss_ext) !! a = Some x → x.(px_unsync_children) = 0.
Proof using Hmax.
  intros Hok Hlv Hu Hsp. unfold mmu_zap_unsync_children. rewrite Hsp. cbn [mbind option_bind].
  pose proof (purged_nil g page_header page_of gfn_to_memslot role_gfn_to_memslot PT64_ROOT_MAX_LEVEL LL DD zs Hok Hlv Hu) as P0.
  destruct (Z.eqb_spec (role_level sp) PT_PAGE_TABLE_LEVEL) as [H1|Hn].
  - exists zs, []. split; [done|]. split; [done|]. split; [apply not_elem_of_nil|]. intros x Hx. destruct (lv_ext _ _ _ _ _ _ _ Hlv a sp x Hsp Hx) as (_ & H2 & _).
    destruct (decide (px_unsync_children x = 0)); [done|]. by destruct H2.
  - destruct (unsync_loop_ok g page_header page_of gfn_to_memslot role_gfn_to_memslot PT64_ROOT_MAX_LEVEL (role_level sp)
                (mark_fuel (zs_shadow zs)) zs zs [] a sp (new_path PT64_ROOT_MAX_LEVEL) 0 Hmax P0 Hsp eq_refl Hn)
      as (zs' & Zs & E & P & _ & Hx); [apply length_replicate|apply length_replicate|by eapply marks_fuel|].
    exists zs', Zs. split; [exact E|]. split; [done|]. split; [|done].
    intros [Ha _]%(pu_leaves _ _ _ _ _ _ _ _ _ P). by rewrite (lev_some _ a sp Hsp) in Ha.
Qed.

Lemma prepare_zap_ok (LL DD : owner → list Z) (zs : zap_state) (a : Z) (sp : mmu_page) (x : page_ext) :
  shadow_ok LL DD zs.(zs_shadow) → levels_ok zs.(zs_shadow) → is_u 32 zs.(zs_shadow).(ss_used) →
  (mmu zs.(zs_shadow)).(pages) !! a = Some sp → zs.(zs_shadow).(ss_ext) !! a = Some x →
  ∃ zs1 zs' Zs, vmrun_mmu_prepare_zap_page a zs = Some (zs', Z.of_nat (length Zs) + b2z (negb (truth x.(px_root_count)))) ∧
    purged Zs (zap_counted zs) zs1 ∧ a ∉ Zs ∧ self_zapped a zs1 zs' ∧ moved a (truth x.(px_root_count)) zs1 zs' ∧
    (∃ LL' DD', shadow_ok LL' DD' zs'.(zs_shadow)) ∧ levels_ok zs'.(zs_shadow) ∧
    ∀ y, zs'.(zs_shadow).(ss_ext) !! a = Some y → y.(px_unsync_children) = 0.
Proof using Hmax.
  intros Hok Hlv Hu Hsp Hx. unfold ZapPage.vmrun_mmu_prepare_zap_page. cbn [ZapPage.prepare_zap]. fold (zap_counted zs).
  assert (F : flags_only zs.(zs_shadow) (zap_counted zs).(zs_shadow)) by by apply flags_same.
  assert (Hok1 : shadow_ok LL DD (zap_counted zs).(zs_shadow)) by (by apply (flags_ok _ _ _ _ _ _ (zs_shadow zs))).
  assert (Hlv1 : levels_ok (zap_counted zs).(zs_shadow)) by (eapply lighter_levels; [exact Hok|exact Hok1|by apply flags_lighter|done]).
  destruct (zap_children_ok LL DD (zap_counted zs) a sp Hok1 Hlv1 Hu Hsp) as (zs1 & Zs & E & P & Ha & Hz).
  cbn [ZapPage.prepare_zap] in E. rewrite E. cbn [mbind option_bind].
  destruct (pu_ok _ _ _ _ _ _ _ _ _ P) as (LL1 & DD1 & Hok2). pose proof (pu_levels _ _ _ _ _ _ _ _ _ P) as Hlv2.
  pose proof (pu_lighter _ _ _ _ _ _ _ _ _ P) as L. destruct (lt_ext _ _ L a x Hx) as (x1 & Hx1 & LE).
  assert (Hsp1 : (mmu zs1.(zs_shadow)).(pages) !! a = Some sp) by (by rewrite (lt_pages _ _ L)).
  destruct (zap_self_ok g page_header page_of gfn_to_memslot role_gfn_to_memslot PT64_ROOT_MAX_LEVEL LL1 DD1 zs1 a (Z.of_nat (length Zs)) sp x1 Hok2 Hlv2 Hsp1 Hx1)
    as (zs' & LL' & DD' & E' & Hok' & Z). rewrite (le_root _ _ LE) in E'.
  exists zs1, zs', Zs. split; [exact E'|]. split; [done|]. split; [done|]. split; [done|].
  split; [rewrite <- (le_root _ _ LE); by apply (sz_moved _ _ _ _ _ _ _ Z)|]. split; [by eexists _, _|].
  split; [eapply lighter_levels; [exact Hok2|exact Hok'|apply Z|done]|].
  intros y Hy. destruct (sz_marks _ _ _ _ _ _ _ Z a x1 Hx1) as (y' & Hy' & _ & Hc & _). rewrite Hy in Hy'. injection Hy' as <-.
  rewrite Hc. by apply Hz.
Qed.

(* ------------------------------------------------------------------ *)
(** ** The lists of pages *)

(** Every page is on one list; the pages that wait to be freed are detached,
    and the pages in use are counted. *)
Record pools_ok (zs : zap_state) : Prop := {
  pl_tables : ∃ LL DD, shadow_ok LL DD zs.(zs_shadow);
  pl_levels : levels_ok zs.(zs_shadow);
  pl_nodup : NoDup (zs.(zs_shadow).(ss_active) ++ zs.(zs_invalid) ++ zs.(zs_obsolete));
  pl_dom : ∀ a, is_Some (zs.(zs_shadow).(ss_ext) !! a) ↔ a ∈ zs.(zs_shadow).(ss_active) ++ zs.(zs_invalid) ++ zs.(zs_obsolete);
  pl_waiting : ∀ a, a ∈ zs.(zs_invalid) ++ zs.(zs_obsolete) → detached zs.(zs_shadow) a ∧
    ∃ x, zs.(zs_shadow).(ss_ext) !! a = Some x ∧ x.(px_invalid) = true ∧ x.(px_root_count) = 0;
  pl_used : zs.(zs_shadow).(ss_used) = Z.of_nat (length zs.(zs_shadow).(ss_active)) ∧ is_u 32 zs.(zs_shadow).(ss_used)
}.


(** What zapping page [a] does: [Zs] are the pages out of sync below it. *)
Record zapped (a : Z) (root : bool) (Zs : list Z) (zs zs' : zap_state) : Prop := {
  za_lighter : lighter zs.(zs_shadow) zs'.(zs_shadow);
  za_detached : detached zs'.(zs_shadow) a;
  za_page : ∃ x, zs'.(zs_shadow).(ss_ext) !! a = Some x ∧ x.(px_invalid) = true ∧ x.(px_unsync) = false ∧ x.(px_unsync_children) = 0;
  za_below : NoDup (Zs ++ [a]) ∧ ∀ b, b ∈ Zs → b ∈ zs.(zs_shadow).(ss_active) ∧ detached zs'.(zs_shadow) b ∧ lev zs.(zs_shadow) b = 1 ∧ is_unsync zs.(zs_shadow) b;
  za_active : zs'.(zs_shadow).(ss_active) = (if root then [a] else []) ++ del_all (Zs ++ [a]) zs.(zs_shadow).(ss_active);
  za_invalid : zs'.(zs_invalid) = (if root then [] else [a]) ++ reverse Zs ++ zs.(zs_invalid);
  za_obsolete : zs'.(zs_obsolete) = zs.(zs_obsolete);
  za_total : zs'.(zs_total) = zs.(zs_total) - (Z.of_nat (length Zs) + b2z (negb root));
  za_freed : zs'.(zs_freed) = zs.(zs_freed);
  za_flags : ∀ b x', zs'.(zs_shadow).(ss_ext) !! b = Some x' → x'.(px_invalid) = true →
    b ∈ Zs ++ [a] ∨ ∃ x, zs.(zs_shadow).(ss_ext) !! b = Some x ∧ x.(px_invalid) = true
}.

Lemma waiting_not (zs : zap_state) (b : Z) :
  pools_ok zs → b ∈ zs.(zs_shadow).(ss_active) → b ∉ zs.(zs_invalid) ∧ b ∉ zs.(zs_obsolete).
Proof using Type.
  intros P Hb. pose proof (pl_nodup _ P) as (_ & H & _)%NoDup_app. specialize (H b Hb). by rewrite not_elem_of_app in H.
Qed.

Lemma prepare_zapped (zs : zap_state) (a : Z) (x : page_ext) :
  pools_ok zs → a ∈ zs.(zs_shadow).(ss_active) → zs.(zs_shadow).(ss_ext) !! a = Some x →
  ∃ zs' Zs, vmrun_mmu_prepare_zap_page a zs = Some (zs', Z.of_nat (length Zs) + b2z (negb (truth x.(px_root_count)))) ∧
    zapped a (truth x.(px_root_count)) Zs zs zs' ∧ (∃ LL DD, shadow_ok LL DD zs'.(zs_shadow)) ∧ levels_ok zs'.(zs_shadow) ∧
    zs'.(zs_shadow).(ss_used) = u32 (zs.(zs_shadow).(ss_used) - (Z.of_nat (length Zs) + b2z (negb (truth x.(px_root_count))))) ∧
    ∀ b, b ∈ Zs → ∃ y, zs'.(zs_shadow).(ss_ext) !! b = Some y ∧ y.(px_invalid) = true ∧ y.(px_root_count) = 0.
Proof using Hmax.
  intros P Ha Hx. destruct (pl_tables _ P) as (LL & DD & Hok). pose proof (pl_levels _ P) as Hlv. destruct (pl_used _ P) as [Hu Hu32].
  destruct (proj2 (en_dom _ _ _ _ _ _ (sk_entries _ _ _ _ _ _ _ Hok) a) ltac:(by eexists)) as [sp Hsp].
  destruct (prepare_zap_ok LL DD zs a sp x Hok Hlv Hu32 Hsp Hx) as (zs1 & zs' & Zs & E & P1 & Hna & Z & M & Hok' & Hlv' & Hc).
  assert (F : flags_only zs.(zs_shadow) (zap_counted zs).(zs_shadow)) by by apply flags_same.
  destruct P1 as [_ _ Q3 Q4 Q5 Q6 Q7 Q8 Q9 Q10 Q11 Q12 Q13]. pose proof (sz_lighter _ _ _ _ _ _ _ Z) as L2.
  assert (L01 : lighter zs.(zs_shadow) zs1.(zs_shadow)) by (etrans; [by apply flags_lighter|exact Q3]).
  assert (Hact : ∀ b, b ∈ Zs → b ∈ zs.(zs_shadow).(ss_active)).
  { intros b Hb. destruct (Q11 b Hb) as (_ & Hnd & y & Hy & _). assert (Hl : is_Some (zs.(zs_shadow).(ss_ext) !! b)) by (apply (lt_back _ _ L01); by eexists).
    apply (pl_dom _ P) in Hl as [?|Hw]%elem_of_app; [done|]. exfalso. apply Hnd.
    exact (lighter_detached _ _ _ _ _ _ _ (flags_lighter _ _ F) (proj1 (pl_waiting _ P b Hw))). }
  assert (Hdj : ∀ l, l = zs.(zs_invalid) ∨ l = zs.(zs_obsolete) → del_all Zs l = l ∧ list_del a l = l).
  { intros l Hl. split; [apply del_all_disjoint; intros b Hb Hz; apply Hact in Hz|apply list_del_notin].
    - destruct (waiting_not zs b P Hz). by destruct Hl as [-> | ->].
    - destruct (waiting_not zs a P Ha). by destruct Hl as [-> | ->]. }
  destruct (Hdj _ (or_introl eq_refl)) as [I1 I2]. destruct (Hdj _ (or_intror eq_refl)) as [O1 O2].
  destruct M as (M1 & M2 & M3 & M4 & M5 & M6). exists zs', Zs. split; [exact E|]. split; [|split; [done|split; [done|split]]].
  - split.
    + by etrans.
    + apply Z.
    + destruct (lt_ext _ _ L01 a x Hx) as (x1 & Hx1 & _). destruct (sz_marks _ _ _ _ _ _ _ Z a x1 Hx1) as (x' & Hx' & _ & _ & Hs & _).
      destruct (Hs eq_refl) as [? ?]. exists x'. split; [done|]. split; [done|]. split; [done|]. by apply Hc.
    + split; [apply NoDup_app; split; [done|]; split; [by intros b Hb ->%list_elem_of_singleton|apply NoDup_singleton]|].
      intros b Hb. destruct (Q11 b Hb) as (D1 & _). split; [by apply Hact|]. split; [by eapply lighter_detached|by apply Q12].
    + rewrite M2, Q5. f_equal. apply del_all_snoc.
    + rewrite M1, Q6. cbn [zs_invalid zap_counted put]. change (zs_invalid (zap_counted zs)) with (zs_invalid zs). rewrite I1. f_equal.
      unfold list_del. rewrite filter_app. f_equal; [apply list_del_notin; by rewrite elem_of_reverse|exact I2].
    + rewrite M3, Q7. change (zs_obsolete (zap_counted zs)) with (zs_obsolete zs). by rewrite O1.
    + rewrite M5, Q9. change (zs_total (zap_counted zs)) with (zs_total zs). lia.
    + by rewrite M6, Q10.
    + intros b x' Hx' Hi. destruct (lt_back _ _ L2 b) as [x1 Hx1]; [by eexists|]. rewrite elem_of_app, list_elem_of_singleton.
      destruct (sz_marks _ _ _ _ _ _ _ Z b x1 Hx1) as (x3 & Hx3 & _ & _ & _ & Hs). rewrite Hx' in Hx3. injection Hx3 as <-.
      destruct (decide (b = a)) as [->|Hne]; [by left; right|]. destruct (Hs Hne) as [_ Hs'].
      destruct (Q13 b x1 Hx1) as [?|?]; [congruence|by left; left|by right].
  - rewrite M4, Q8. change (ss_used (zs_shadow (zap_counted zs))) with (ss_used (zs_shadow zs)).
    destruct (truth (px_root_count x)); [f_equal; cbn; lia|]. rewrite u32_sub. f_equal.
  - intros b Hb. destruct (Q11 b Hb) as (_ & _ & y & Hy & Hy1 & Hy2). destruct (lt_ext _ _ L2 b y Hy) as (y' & Hy' & LE).
    exists y'. split; [done|]. split; [by apply LE|]. by rewrite (le_root _ _ LE).
Qed.

(** Permutation of the lists of a zap. *)
Lemma zapped_perm (zs zs' : zap_state) (a : Z) (root : bool) (Zs : list Z) :
  pools_ok zs → a ∈ zs.(zs_shadow).(ss_active) → zapped a root Zs zs zs' →
  zs'.(zs_shadow).(ss_active) ++ zs'.(zs_invalid) ++ zs'.(zs_obsolete) ≡ₚ
  zs.(zs_shadow).(ss_active) ++ zs.(zs_invalid) ++ zs.(zs_obsolete) ∧
  Z.of_nat (length zs'.(zs_shadow).(ss_active)) = Z.of_nat (length zs.(zs_shadow).(ss_active)) - (Z.of_nat (length Zs) + b2z (negb root)).
Proof using Type.
  clear Hmax.
  intros P Ha Z. destruct (za_below _ _ _ _ _ Z) as [Hnd Hin]. set (act := zs.(zs_shadow).(ss_active)) in *.
  assert (Hact : NoDup act) by (pose proof (pl_nodup _ P) as (? & _ & _)%NoDup_app; done).
  assert (Hsub : ∀ b, b ∈ Zs ++ [a] → b ∈ act) by (intros b [Hb| ->%list_elem_of_singleton]%elem_of_app; [by apply Hin|done]).
  pose proof (del_all_length (Zs ++ [a]) act Hnd Hact Hsub) as Hlen. rewrite length_app in Hlen. cbn [length] in Hlen.
  assert (Hp : act ≡ₚ (Zs ++ [a]) ++ del_all (Zs ++ [a]) act).
  { apply NoDup_Permutation; [done| |].
    - apply NoDup_app. split; [done|]. split; [|by apply NoDup_filter]. by intros b Hb [_ ?]%elem_of_del_all.
    - intros b. rewrite (elem_of_app (Zs ++ [a])), elem_of_del_all. split; [|intros [?|[? _]]; auto]. intros Hb. destruct (decide (b ∈ Zs ++ [a])); auto. }
  rewrite (za_active _ _ _ _ _ Z), (za_invalid _ _ _ _ _ Z), (za_obsolete _ _ _ _ _ Z). fold act. split.
  - set (d := del_all (Zs ++ [a]) act) in *. rewrite Hp, reverse_Permutation, <- !app_assoc. destruct root; cbn [app].
    + rewrite <- (Permutation_middle Zs), !app_assoc. by rewrite (Permutation_app_comm d Zs).
    + rewrite <- !(Permutation_middle _ _ a), !app_assoc. by rewrite (Permutation_app_comm d Zs).
  - rewrite length_app. destruct root; cbn; lia.
Qed.

Lemma zapped_pools (zs zs' : zap_state) (a : Z) (root : bool) (Zs : list Z) (x : page_ext) :
  pools_ok zs → a ∈ zs.(zs_shadow).(ss_active) → zs.(zs_shadow).(ss_ext) !! a = Some x → root = truth x.(px_root_count) →
  zapped a root Zs zs zs' → (∃ LL DD, shadow_ok LL DD zs'.(zs_shadow)) → levels_ok zs'.(zs_shadow) →
  zs'.(zs_shadow).(ss_used) = u32 (zs.(zs_shadow).(ss_used) - (Z.of_nat (length Zs) + b2z (negb root))) →
  (∀ b, b ∈ Zs → ∃ y, zs'.(zs_shadow).(ss_ext) !! b = Some y ∧ y.(px_invalid) = true ∧ y.(px_root_count) = 0) →
  pools_ok zs'.
Proof using Type.
  clear Hmax.
  intros P Ha Hx Hr Z Hok Hlv Hu HZs. destruct (zapped_perm zs zs' a root Zs P Ha Z) as [Hp Hl].
  pose proof (za_lighter _ _ _ _ _ Z) as L. destruct (pl_used _ P) as [Hu0 Hu1]. split.
  - done.
  - done.
  - rewrite Hp. apply P.
  - intros b. rewrite Hp. rewrite <- (pl_dom _ P). split; [apply L|]. intros [y Hy]. destruct (lt_ext _ _ L b y Hy) as (y' & ? & _). by eexists.
  - intros b. rewrite (za_invalid _ _ _ _ _ Z), (za_obsolete _ _ _ _ _ Z).
    assert (Hold : b ∈ zs.(zs_invalid) ++ zs.(zs_obsolete) → detached zs'.(zs_shadow) b ∧
              ∃ x, zs'.(zs_shadow).(ss_ext) !! b = Some x ∧ x.(px_invalid) = true ∧ x.(px_root_count) = 0).
    { intros Hb. destruct (pl_waiting _ P b Hb) as (D & y & Hy & Hy1 & Hy2). split; [by eapply lighter_detached|].
      destruct (lt_ext _ _ L b y Hy) as (y' & Hy' & LE). exists y'. split; [done|]. split; [by apply LE|]. by rewrite (le_root _ _ LE). }
    intros [[H1|[H2|H3]%elem_of_app]%elem_of_app|H4]%elem_of_app.
    + destruct root; [by apply elem_of_nil in H1|]. apply list_elem_of_singleton in H1 as ->. split; [apply Z|].
      destruct (za_page _ _ _ _ _ Z) as (x' & Hx' & Hi & _). exists x'. split; [done|]. split; [done|].
      destruct (lt_ext _ _ L a x Hx) as (y & Hy & LE). rewrite Hx' in Hy. injection Hy as <-. rewrite (le_root _ _ LE).
      symmetry in Hr. by apply truth_false in Hr.
    + rewrite elem_of_reverse in H2. split; [|exact (HZs b H2)]. by destruct (proj2 (za_below _ _ _ _ _ Z) b H2) as (_ & ? & _).
    + apply Hold, elem_of_app. by left.
    + apply Hold, elem_of_app. by right.
  - assert (Hlen : 0 <= Z.of_nat (length (ss_active (zs_shadow zs'))) <= ss_used (zs_shadow zs)) by (destruct root; cbn in *; lia).
    rewrite Hu, wrap_id; [|unfold is_u in *; lia]. split; [lia|]. unfold is_u in *. lia.
Qed.

(* ------------------------------------------------------------------ *)
(** ** Freeing *)

(** The tables without page [a]. *)
Definition without_page (a : Z) (s : shadow_state) : shadow_state :=
  set_mmu ((mmu s) <| pages ::= delete a |>) (s <| ss_ext ::= delete a |>).

Lemma without_owner (LL DD : owner → list Z) (s : shadow_state) (a p : Z) :
  shadow_ok LL DD s → detached s a → owner_of (without_page a s) p = owner_of s p.
Proof using Type.
  intros Hok [D1 _]. unfold MmuInv.owner_of at 1. cbn. destruct (decide (page_header p = a)) as [Ha|Hne].
  - rewrite Ha, lookup_delete_eq. cbn. unfold MmuInv.owner_of. rewrite Ha. destruct (pages (mmu s) !! a) as [sp|] eqn:Hsp; [|done]. cbn.
    destruct (entry_in sp p) eqn:Hp; [|done]. specialize (D1 sp p eq_refl Hp). unfold MmuInv.owner_of in D1. rewrite Ha, Hsp in D1. cbn in D1.
    by rewrite Hp in D1.
  - rewrite lookup_delete_ne by done. unfold MmuInv.owner_of. destruct (pages (mmu s) !! page_header p) as [sp|] eqn:Hsp; [|done]. cbn.
    destruct (entry_in sp p); [|done]. unfold MmuInv.value_owner, spte_key. cbn. by rewrite lookup_delete_ne.
Qed.

Lemma without_shadow (LL DD : owner → list Z) (s : shadow_state) (a : Z) :
  shadow_ok LL DD s → detached s a → shadow_ok LL DD (without_page a s).
Proof using Type.
  intros Hok Hd. pose proof (without_owner LL DD s a) as Ho. destruct Hok as [L E C U].
  assert (Hext : ∀ b y, delete a s.(ss_ext) !! b = Some y ↔ b ≠ a ∧ s.(ss_ext) !! b = Some y) by (intros b y; rewrite lookup_delete_Some; split; intros [? ?]; auto).
  assert (Hlive : ∀ o, owner_live (without_page a s) o → owner_live s o) by (intros [k|b]; [done|]; cbn; intros [y [_ Hy]%Hext]; by eexists).
  split.
  - apply (lists_same LL DD s); [done|done|]. intros o Hl. split; [by apply Hlive|]. destruct o as [k|b]; [done|]. cbn in *.
    destruct Hl as [y Hy]. rewrite Hy. apply Hext in Hy as [_ Hy]. by rewrite Hy.
  - split.
    + intros b sp. cbn. intros [_ Hb]%lookup_delete_Some. by apply (en_pages _ _ _ _ _ _ E).
    + intros b. cbn. destruct (decide (b = a)) as [->|Hne]; [by rewrite !lookup_delete_eq|]. rewrite !lookup_delete_ne by done. apply E.
    + intros o p Hl. rewrite Ho by done. apply (en_member _ _ _ _ _ _ E). by apply Hlive.
    + intros o p. rewrite Ho by done. intros Hp. pose proof (en_live _ _ _ _ _ _ E o p Hp) as Hl. destruct o as [k|b]; [done|]. cbn in *.
      rewrite lookup_delete_ne; [done|]. intros ->. by destruct (dt_parents _ _ _ _ _ _ Hd p).
    + intros o Hl. apply (en_nodup _ _ _ _ _ _ E). by apply Hlive.
  - intros b y [_ Hy]%Hext. by apply (C b).
  - intros b y p _ [Hba Hy]%Hext Hn Hp. destruct (U b y p) as (sp & z & Hs & Hz & Hb); [by intros []|done|done|done|].
    assert (Hne : page_header p ≠ a).
    { intros <-. assert (Hop : owner_of s p = Some (Pg b)) by (apply (en_member _ _ _ _ _ _ E (Pg b) p); [by eexists|done]).
      destruct (owner_elim _ _ _ _ s p _ Hop) as (sq & Hsq & Hin & _). by rewrite (dt_entries _ _ _ _ _ _ Hd sq p Hsq Hin) in Hop. }
    exists sp, z. cbn. by rewrite !lookup_delete_ne.
Qed.

Lemma without_levels (LL DD : owner → list Z) (s : shadow_state) (a : Z) :
  shadow_ok LL DD s → detached s a → levels_ok s → levels_ok (without_page a s).
Proof using Type.
  intros Hok Hd [V1 V2 V3 V4]. split; cbn.
  - intros b sp [_ Hb]%lookup_delete_Some. by apply (V1 b).
  - intros p b sp sc Ho [_ Hsp]%lookup_delete_Some [_ Hsc]%lookup_delete_Some. rewrite (without_owner LL DD) in Ho by done. by apply (V2 p b).
  - intros b sp x [_ Hsp]%lookup_delete_Some [_ Hx]%lookup_delete_Some. by apply (V3 b).
  - intros b sp [_ Hb]%lookup_delete_Some Hdir. eapply unaccount_shape; [|by apply (V4 b)]. done.
Qed.

Lemma without_detached (LL DD : owner → list Z) (s : shadow_state) (a b : Z) :
  shadow_ok LL DD s → detached s a → detached s b → detached (without_page a s) b.
Proof using Type.
  intros Hok Ha [D1 D2]. split.
  - cbn. intros sp p [_ Hsp]%lookup_delete_Some Hp. rewrite (without_owner LL DD) by done. by apply (D1 sp).
  - intros p. rewrite (without_owner LL DD) by done. apply D2.
Qed.

(** Other lists and numbers of the same tables. *)
Lemma same_pools (s s' : shadow_state) :
  mmu s' = mmu s → s'.(ss_ext) = s.(ss_ext) → s'.(ss_track).(tk_heap) = s.(ss_track).(tk_heap) →
  (∀ LL DD, shadow_ok LL DD s → shadow_ok LL DD s') ∧ (levels_ok s → levels_ok s') ∧ (∀ b, detached s b → detached s' b).
Proof using Type.
  intros Hm He Hh. assert (Ho : ∀ p, owner_of s' p = owner_of s p) by (intros p; unfold MmuInv.owner_of, MmuInv.value_owner, spte_key; by rewrite Hm).
  split_and!.
  - intros LL DD. apply shadow_same. split; by rewrite ?Hm.
  - intros [V1 V2 V3 V4]. split; rewrite ?Hm, ?He; try done.
    + intros p a sp sc. rewrite Ho. apply V2.
    + intros a sp Hsp Hd. eapply unaccount_shape; [|by apply (V4 a)]. by rewrite Hh.
  - intros b [D1 D2]. split; [intros sp p; rewrite Hm, Ho; apply D1|intros p; rewrite Ho; apply D2].
Qed.

(** The pages [l] are gone, from the tables and from the hash. *)
Record freed (l : list Z) (zs zs' : zap_state) : Prop := {
  fr_pages : ∀ b, (mmu zs'.(zs_shadow)).(pages) !! b = if decide (b ∈ l) then None else (mmu zs.(zs_shadow)).(pages) !! b;
  fr_ext : ∀ b, zs'.(zs_shadow).(ss_ext) !! b = if decide (b ∈ l) then None else zs.(zs_shadow).(ss_ext) !! b;
  fr_hash : zs'.(zs_shadow).(ss_hash) = del_all l <$> zs.(zs_shadow).(ss_hash);
  fr_ptes : (mmu zs'.(zs_shadow)).(ptes) = (mmu zs.(zs_shadow)).(ptes);
  fr_active : zs'.(zs_shadow).(ss_active) = zs.(zs_shadow).(ss_active);
  fr_lists : zs'.(zs_obsolete) = zs.(zs_obsolete) ∧ zs'.(zs_total) = zs.(zs_total);
  fr_rest : zs'.(zs_shadow).(ss_used) = zs.(zs_shadow).(ss_used) ∧ zs'.(zs_shadow).(ss_valid_gen) = zs.(zs_shadow).(ss_valid_gen) ∧
            zs'.(zs_shadow).(ss_warns) = zs.(zs_shadow).(ss_warns) ∧ zs'.(zs_shadow).(ss_max) = zs.(zs_shadow).(ss_max);
  fr_freed : fp_header <$> zs'.(zs_freed) = (fp_header <$> zs.(zs_freed)) ++ l
}.

Lemma freed_nil (zs : zap_state) : freed [] zs zs.
Proof using Type.
  split; try done.
  - apply map_eq. intros i. rewrite lookup_fmap. destruct (ss_hash (zs_shadow zs) !! i) as [l|]; [|done]. cbn. by rewrite del_all_nil.
  - by rewrite app_nil_r.
Qed.

Lemma freed_cons (a : Z) (l : list Z) (zs1 zs2 zs3 : zap_state) : freed [a] zs1 zs2 → freed l zs2 zs3 → freed (a :: l) zs1 zs3.
Proof using Type.
  clear. intros [A1 A2 A3 A4 A5 [A6 A6'] (A7 & A8 & A9 & A9') A10] [B1 B2 B3 B4 B5 [B6 B6'] (B7 & B8 & B9 & B9') B10]. split.
  - intros b. rewrite B1, A1. apply none_cons.
  - intros b. rewrite B2, A2. apply none_cons.
  - rewrite B3, A3, <- map_fmap_compose. apply map_fmap_ext. intros i c _. cbn. unfold del_all. rewrite list_filter_filter. apply list_filter_iff.
    intros b. rewrite !elem_of_cons, elem_of_nil. tauto.
  - congruence.
  - congruence.
  - split; congruence.
  - split_and!; congruence.
  - rewrite B10, A10, <- app_assoc. done.
Qed.

Lemma free_page_ok (zs : zap_state) (a : Z) (l : list Z) :
  pools_ok zs → zs.(zs_invalid) = a :: l →
  ∃ x zs', zs.(zs_shadow).(ss_ext) !! a = Some x ∧ negb x.(px_invalid) || truth x.(px_root_count) = false ∧
    vmrun_mmu_free_page a zs = Some zs' ∧ pools_ok zs' ∧ zs'.(zs_invalid) = l ∧ freed [a] zs zs' ∧
    (mmu zs'.(zs_shadow)).(remote_flushes) = (mmu zs.(zs_shadow)).(remote_flushes).
Proof using Type.
  clear Hmax. intros P Hi. destruct (pl_tables _ P) as (LL & DD & Hok).
  destruct (pl_waiting _ P a ltac:(rewrite Hi; by left)) as (Hd & x & Hx & Hinv & Hr).
  destruct (proj2 (en_dom _ _ _ _ _ _ (sk_entries _ _ _ _ _ _ _ Hok) a) ltac:(by eexists)) as [sp Hsp].
  unfold vmrun_mmu_free_page. rewrite Hsp. cbn [mbind option_bind]. exists x. eexists. split; [done|]. split; [by rewrite Hinv, Hr|].
  split; [reflexivity|]. match goal with |- pools_ok ?z ∧ _ => set (zs' := z) end.
  pose proof (pl_nodup _ P) as Hnd. rewrite Hi in Hnd.
  assert (Hda : a ∉ zs.(zs_shadow).(ss_active) ∧ a ∉ l ∧ a ∉ zs.(zs_obsolete)).
  { apply NoDup_app in Hnd as (_ & H1 & H2). cbn [app] in H2. apply NoDup_cons in H2 as [H2 _]. rewrite not_elem_of_app in H2.
    split; [|done]. intros Hc. apply (H1 a Hc). by left. }
  destruct Hda as (Ha1 & Ha2 & Ha3).
  assert (Eact : zs'.(zs_shadow).(ss_active) = zs.(zs_shadow).(ss_active)) by (by apply list_del_notin).
  assert (Einv : zs'.(zs_invalid) = l).
  { change (zs_invalid zs') with (list_del a (zs_invalid zs)). rewrite Hi. unfold list_del. rewrite filter_cons_False by auto. by apply list_del_notin. }
  assert (Eobs : zs'.(zs_obsolete) = zs.(zs_obsolete)) by (by apply list_del_notin).
  destruct (same_pools (without_page a zs.(zs_shadow)) zs'.(zs_shadow) eq_refl eq_refl eq_refl) as (S1 & S2 & S3).
  assert (Hext : ∀ b, zs'.(zs_shadow).(ss_ext) !! b = if decide (b ∈ [a]) then None else zs.(zs_shadow).(ss_ext) !! b).
  { intros b. change (ss_ext (zs_shadow zs')) with (delete a (ss_ext (zs_shadow zs))). destruct (decide (b ∈ [a])) as [->%list_elem_of_singleton|Hne].
    - apply lookup_delete_eq.
    - apply lookup_delete_ne. rewrite list_elem_of_singleton in Hne. auto. }
  split; [|split; [done|split; [|done]]].
  - split.
    + exists LL, DD. by apply S1, without_shadow.
    + eapply S2, without_levels; [exact Hok|done|apply P].
    + rewrite Eact, Einv, Eobs. apply NoDup_app in Hnd as (H1 & H2 & H3). cbn [app] in H3. apply NoDup_cons in H3 as [_ H3].
      apply NoDup_app. split; [done|]. split; [|done]. intros b Hb Hc. apply (H2 b Hb). by right.
    + intros b. rewrite Hext, Eact, Einv, Eobs. pose proof (pl_dom _ P b) as Hdom. rewrite Hi in Hdom.
      destruct (decide (b ∈ [a])) as [->%list_elem_of_singleton|Hne].
      * rewrite !elem_of_app. split; [by intros []|]. by intros [?|[?|?]].
      * rewrite Hdom, !elem_of_app, elem_of_cons. rewrite list_elem_of_singleton in Hne. split.
        -- intros [?|[[?|?]|?]]; auto. done.
        -- intros [?|[?|?]]; auto.
    + intros b. rewrite Einv, Eobs. intros Hb. destruct (pl_waiting _ P b) as (D & y & Hy & Hy2).
      { rewrite Hi. by right. }
      split; [by apply S3, (without_detached LL DD)|]. exists y. rewrite Hext, decide_False; [done|].
      rewrite list_elem_of_singleton. intros ->. apply elem_of_app in Hb as [?|?]; done.
    + rewrite Eact. apply (pl_used _ P).
  - split; try done.
    + intros b. change (pages (mmu (zs_shadow zs'))) with (delete a (pages (mmu (zs_shadow zs)))).
      destruct (decide (b ∈ [a])) as [->%list_elem_of_singleton|Hne]; [apply lookup_delete_eq|].
      apply lookup_delete_ne. rewrite list_elem_of_singleton in Hne. auto.
    + change (ss_hash (zs_shadow zs')) with (list_del a <$> ss_hash (zs_shadow zs)). apply map_fmap_ext. intros i c _. apply list_del_all.
    + change (zs_freed zs') with (zs_freed zs ++ [{| fp_header := a; fp_spt := sp.(sp_spt); fp_gfns := negb sp.(role_direct) |}]).
      by rewrite fmap_app.
Qed.

Lemma free_pages_ok (l : list Z) (zs : zap_state) :
  pools_ok zs → zs.(zs_invalid) = l →
  ∃ zs', free_pages l zs = Some zs' ∧ pools_ok zs' ∧ zs'.(zs_invalid) = [] ∧ freed l zs zs' ∧
    (mmu zs'.(zs_shadow)).(remote_flushes) = (mmu zs.(zs_shadow)).(remote_flushes).
Proof using Type.
  revert zs. induction l as [|a l IH]; intros zs P Hi; cbn [free_pages].
  - exists zs. split; [done|]. split; [done|]. split; [done|]. split; [apply freed_nil|done].
  - destruct (free_page_ok zs a l P Hi) as (x & zs1 & Hx & Hw & E & P1 & Hi1 & F1 & Hr1). rewrite Hx. cbn [mbind option_bind]. rewrite Hw.
    match goal with |- context [vmrun_mmu_free_page a ?z] => change z with zs end. rewrite E. cbn [mbind option_bind].
    destruct (IH zs1 P1 Hi1) as (zs' & E' & P' & Hn & F' & Hr'). exists zs'. split; [done|]. split; [done|]. split; [done|].
    split; [by eapply freed_cons|congruence].
Qed.

Lemma commit_ok (zs : zap_state) :
  pools_ok zs →
  ∃ zs', vmrun_mmu_commit_zap_page zs = Some zs' ∧ pools_ok zs' ∧ zs'.(zs_invalid) = [] ∧ freed zs.(zs_invalid) zs zs' ∧
    (zs.(zs_invalid) ≠ [] → (mmu zs'.(zs_shadow)).(remote_flushes) = (mmu zs.(zs_shadow)).(remote_flushes) + 1).
Proof using Type.
  intros P. unfold vmrun_mmu_commit_zap_page. destruct (zs_invalid zs) as [|a l] eqn:Hi.
  - exists zs. split; [done|]. split; [done|]. split; [done|]. split; [apply freed_nil|done].
  - set (zs1 := zs <| zs_shadow ::= upd_mmu flush_remote_tlbs |>).
    assert (P1 : pools_ok zs1).
    { destruct P as [(LL & DD & Hok) P2 P3 P4 P5 P6]. assert (F : flags_only zs.(zs_shadow) zs1.(zs_shadow)) by by apply flags_same.
      pose proof (flags_ok _ _ _ _ LL DD _ _ F Hok) as Hok1. split; try done.
      - by exists LL, DD.
      - eapply lighter_levels; [exact Hok|exact Hok1|by apply flags_lighter|done].
      - intros b Hb. destruct (P5 b Hb) as [D ?]. split; [|done]. eapply lighter_detached; [by apply flags_lighter|done]. }
    destruct (free_pages_ok (a :: l) zs1 P1 Hi) as (zs' & E & P' & Hn & F & Hfl). exists zs'. split; [exact E|]. split; [done|]. split; [done|].
    split; [|by intros _].
    destruct F as [F1 F2 F3 F4 F5 F6 F7 F8]. split; done.
Qed.

Lemma freed_owner (l : list Z) (zs zs' : zap_state) (p : Z) (o : owner) :
  freed l zs zs' → owner_of zs'.(zs_shadow) p = Some o → owner_of zs.(zs_shadow) p = Some o.
Proof using Type.
  intros F. unfold MmuInv.owner_of, MmuInv.value_owner, spte_key. rewrite (fr_pages _ _ _ F), (fr_ptes _ _ _ F). by destruct (decide _).
Qed.

Lemma freed_detached (l : list Z) (zs zs' : zap_state) (b : Z) : freed l zs zs' → detached zs.(zs_shadow) b → detached zs'.(zs_shadow) b.
Proof using Type.
  intros F [D1 D2]. split.
  - intros sp p Hsp Hp. rewrite (fr_pages _ _ _ F) in Hsp. destruct (decide _); [done|]. specialize (D1 sp p Hsp Hp).
    destruct (owner_of (zs_shadow zs') p) as [o|] eqn:Eo; [|done]. apply (freed_owner _ _ _ _ _ F) in Eo. congruence.
  - intros p Hp%(freed_owner _ _ _ _ _ F). exact (D2 p Hp).
Qed.


(* ------------------------------------------------------------------ *)
(** ** Fewer pages *)

Notation prepare_zap_oldest_mmu_page := (prepare_zap_oldest_mmu_page g page_header page_of gfn_to_memslot role_gfn_to_memslot PT64_ROOT_MAX_LEVEL).
Notation shrink_to := (shrink_to g page_header page_of gfn_to_memslot role_gfn_to_memslot PT64_ROOT_MAX_LEVEL).
Notation vmrun_mmu_change_mmu_pages := (vmrun_mmu_change_mmu_pages g page_header page_of gfn_to_memslot role_gfn_to_memslot PT64_ROOT_MAX_LEVEL).

(** Page [a] is a root. *)
Definition is_root (s : shadow_state) (a : Z) : Prop := ∃ x, s.(ss_ext) !! a = Some x ∧ x.(px_root_count) ≠ 0.

(** Several pages were zapped, one after the other. *)
Record shrunk (zs zs' : zap_state) : Prop := {
  sh_pools : pools_ok zs';
  sh_lighter : lighter zs.(zs_shadow) zs'.(zs_shadow);
  sh_count : Z.of_nat (length zs'.(zs_invalid)) = Z.of_nat (length zs.(zs_invalid)) + zs.(zs_shadow).(ss_used) - zs'.(zs_shadow).(ss_used);
  sh_less : zs'.(zs_shadow).(ss_used) <= zs.(zs_shadow).(ss_used);
  sh_freed : zs'.(zs_freed) = zs.(zs_freed)
}.

Lemma shrunk_refl (zs : zap_state) : pools_ok zs → shrunk zs zs.
Proof using Type. clear Hmax. intros P. split; [done|done|lia|lia|done]. Qed.

Lemma shrunk_trans (zs1 zs2 zs3 : zap_state) : shrunk zs1 zs2 → shrunk zs2 zs3 → shrunk zs1 zs3.
Proof using Type. clear Hmax. intros [A1 A2 A3 A4 A5] [B1 B2 B3 B4 B5]. split; [done|by etrans|lia|lia|congruence]. Qed.

(** The oldest page; the result is false when nothing could be freed. *)
Lemma zap_oldest_ok (zs : zap_state) :
  pools_ok zs → ∃ zs' more, prepare_zap_oldest_mmu_page zs = Some (zs', more) ∧ shrunk zs zs' ∧
    if more then zs'.(zs_shadow).(ss_used) < zs.(zs_shadow).(ss_used)
    else ∀ a, last zs.(zs_shadow).(ss_active) = Some a → is_root zs.(zs_shadow) a.
Proof using Hmax.
  intros P. unfold ZapPage.prepare_zap_oldest_mmu_page. destruct (last (ss_active (zs_shadow zs))) as [a|] eqn:El.
  - assert (Ha : a ∈ zs.(zs_shadow).(ss_active)) by (by apply last_Some_elem_of).
    destruct (proj2 (pl_dom _ P a)) as [x Hx]; [apply elem_of_app; by left|].
    destruct (prepare_zapped zs a x P Ha Hx) as (zs1 & Zs & -> & Z & Hok & Hlv & Hu & HZs). cbn [mbind option_bind].
    pose proof (zapped_pools zs zs1 a _ Zs x P Ha Hx eq_refl Z Hok Hlv Hu HZs) as P1.
    destruct (zapped_perm zs zs1 a _ Zs P Ha Z) as [_ Hl]. destruct (pl_used _ P) as [Hu0 _]. destruct (pl_used _ P1) as [Hu1 _].
    set (ret := Z.of_nat (length Zs) + b2z (negb (truth (px_root_count x)))) in *.
    assert (Hr : 0 <= ret) by (unfold ret; destruct (truth (px_root_count x)); cbn; lia).
    exists zs1, (truth ret). split; [done|]. split.
    + split; [done|apply Z| |lia|apply Z]. rewrite (za_invalid _ _ _ _ _ Z), !length_app, length_reverse. unfold ret in *.
      destruct (truth (px_root_count x)); cbn [negb b2z length] in *; lia.
    + destruct (truth ret) eqn:Et.
      * assert (ret ≠ 0) by (intros Hc; by rewrite Hc in Et). lia.
      * apply truth_false in Et. intros b [= <-]. exists x. split; [done|]. intros Hc. unfold ret in *. rewrite Hc in Et. cbn in Et. lia.
  - exists zs, false. split; [done|]. split; [by apply shrunk_refl|done].
Qed.

Lemma shrink_to_ok (fuel : nat) (goal : Z) (zs : zap_state) :
  pools_ok zs → 0 <= goal → (length zs.(zs_shadow).(ss_active) < fuel)%nat →
  ∃ zs' zs1, shrink_to fuel goal zs = Some zs' ∧ shrunk zs zs1 ∧ shrunk zs1 zs' ∧
    (zs'.(zs_shadow).(ss_used) <= goal ∨ ∀ a, last zs1.(zs_shadow).(ss_active) = Some a → is_root zs1.(zs_shadow) a).
Proof using Hmax.
  revert zs. induction fuel as [|fuel IH]; intros zs P Hg Hf; [lia|]. cbn [ZapPage.shrink_to].
  destruct (Z.gtb_spec (ss_used (zs_shadow zs)) goal) as [Hgt|Hle].
  - destruct (zap_oldest_ok zs P) as (zs1 & more & -> & S1 & Hm). cbn [mbind option_bind]. destruct more.
    + destruct (pl_used _ P) as [Hu0 _]. destruct (pl_used _ (sh_pools _ _ S1)) as [Hu1 _].
      destruct (IH zs1 (sh_pools _ _ S1) Hg ltac:(lia)) as (zs' & zs2 & E & S2 & S3 & Hend). exists zs', zs2.
      split; [exact E|]. split; [by eapply shrunk_trans|]. by split.
    + exists zs1, zs. split; [done|]. split; [by apply shrunk_refl|]. split; [done|]. by right.
  - exists zs, zs. split; [done|]. split; [by apply shrunk_refl|]. split; [by apply shrunk_refl|]. by left.
Qed.

(** The same tables and the same lists. *)
Lemma pools_same (z z' : zap_state) :
  mmu z'.(zs_shadow) = mmu z.(zs_shadow) → z'.(zs_shadow).(ss_ext) = z.(zs_shadow).(ss_ext) →
  z'.(zs_shadow).(ss_track).(tk_heap) = z.(zs_shadow).(ss_track).(tk_heap) →
  z'.(zs_shadow).(ss_active) = z.(zs_shadow).(ss_active) → z'.(zs_shadow).(ss_used) = z.(zs_shadow).(ss_used) →
  z'.(zs_invalid) ++ z'.(zs_obsolete) ≡ₚ z.(zs_invalid) ++ z.(zs_obsolete) → pools_ok z → pools_ok z'.
Proof using Type.
  intros Hm He Hh Ha Hu Hp [(LL & DD & H1) H2 H3 H4 H5 H6].
  destruct (same_pools z.(zs_shadow) z'.(zs_shadow) Hm He Hh) as (S1 & S2 & S3). split.
  - exists LL, DD. by apply S1.
  - by apply S2.
  - by rewrite Ha, Hp.
  - intros a. by rewrite He, Ha, Hp.
  - intros a. rewrite Hp, He. intros Hin. destruct (H5 a Hin) as [D ?]. split; [by apply S3|done].
  - by rewrite Ha, Hu.
Qed.

Lemma max_pools (z : zap_state) (m : Z) : pools_ok z → pools_ok (z <| zs_shadow ::= λ s, s <| ss_max := m |> |>).
Proof using Type. by apply pools_same. Qed.

(** The limit on shadow pages.  [vmrun_mmu_change_mmu_pages] ends.  When
    more pages are in use than the new limit it zaps the oldest ones until the
    limit is met, or until the oldest page is a root with nothing to free below
    it; everything zapped is freed, the invariants hold again, and the limit
    becomes the number of pages that are left in use (the new limit when there
    was nothing to do). *)
Theorem change_mmu_pages_correct (zs : zap_state) (goal : Z) :
  pools_ok zs → zs.(zs_invalid) = [] → 0 <= goal →
  ∃ zs', vmrun_mmu_change_mmu_pages goal zs = Some zs' ∧ pools_ok zs' ∧ zs'.(zs_invalid) = [] ∧
    let used := zs.(zs_shadow).(ss_used) in let used' := zs'.(zs_shadow).(ss_used) in
    Z.of_nat (length zs'.(zs_freed)) = Z.of_nat (length zs.(zs_freed)) + used - used' ∧ used' <= used ∧
    zs'.(zs_shadow).(ss_max) = (if used >? goal then used' else goal) ∧
    (used' <= goal ∨ ∃ zs1, shrunk (local_list zs) zs1 ∧ ∀ a, last zs1.(zs_shadow).(ss_active) = Some a → is_root zs1.(zs_shadow) a).
Proof using Hmax.
  intros P Hi Hg. unfold ZapPage.vmrun_mmu_change_mmu_pages. assert (El : local_list zs = zs) by (unfold local_list; rewrite <- Hi; done).
  rewrite El. cbv zeta.
  destruct (Z.gtb_spec (ss_used (zs_shadow zs)) goal) as [Hgt|Hle].
  - destruct (shrink_to_ok (S (length (ss_active (zs_shadow zs)))) goal zs P Hg ltac:(lia)) as (zs1 & zs0 & -> & S0 & S1 & Hend). cbn [mbind option_bind].
    destruct (commit_ok zs1 (sh_pools _ _ S1)) as (zs2 & -> & P2 & Hn & F & _). cbn [mbind option_bind].
    eexists. split; [reflexivity|]. split; [by apply max_pools|]. split; [done|]. destruct (fr_rest _ _ _ F) as (Hu & _).
    match goal with |- context [zs_freed ?z] => set (z' := z) end.
    change (ss_used (zs_shadow z')) with (ss_used (zs_shadow zs2)). change (zs_freed z') with (zs_freed zs2).
    change (ss_max (zs_shadow z')) with (ss_used (zs_shadow zs2)).
    pose proof (shrunk_trans _ _ _ S0 S1) as [_ _ Hc Hless Hfr]. rewrite Hu, Hi in *. cbn [length] in Hc.
    assert (Hfl : length zs2.(zs_freed) = (length zs1.(zs_freed) + length zs1.(zs_invalid))%nat).
    { pose proof (f_equal length (fr_freed _ _ _ F)) as Hlen. by rewrite length_app, !length_fmap in Hlen. }
    rewrite Hfr in Hfl. split; [lia|]. split; [lia|]. split; [done|]. destruct Hend as [?|Hroot]; [by left|right; by exists zs0].
  - cbn [mbind option_bind]. eexists. split; [reflexivity|]. split; [by apply max_pools|]. split; [done|].
    match goal with |- context [zs_freed ?z] => set (z' := z) end. change (ss_used (zs_shadow z')) with (ss_used (zs_shadow zs)).
    change (zs_freed z') with (zs_freed zs). split; [lia|]. split; [lia|]. split; [done|]. by left.
Qed.

(* ------------------------------------------------------------------ *)
(** ** The pages that shadow a guest frame *)

Notation unprotect_loop := (unprotect_loop g page_header page_of gfn_to_memslot role_gfn_to_memslot PT64_ROOT_MAX_LEVEL).
Notation vmrun_mmu_unprotect_page := (vmrun_mmu_unprotect_page g page_header page_of gfn_to_memslot role_gfn_to_memslot PT64_ROOT_MAX_LEVEL).

(** Page [a] shadows [gfn] and is in use. *)
Definition shadows (gfn : Z) (s : shadow_state) (a : Z) : bool :=
  match (mmu s).(pages) !! a, s.(ss_ext) !! a with
  | Some sp, Some x => gfn_indirect_valid gfn s sp x
  | _, _ => false
  end.

Lemma lighter_shadows (gfn : Z) (s s' : shadow_state) (a : Z) : lighter s s' → shadows gfn s' a = true → shadows gfn s a = true.
Proof using Type.
  intros L. unfold shadows. rewrite (lt_pages _ _ L). destruct ((mmu s).(pages) !! a) as [sp|]; [|done].
  destruct (s'.(ss_ext) !! a) as [x'|] eqn:Hx'; [|done]. destruct (lighter_lookup s s' a x' L Hx') as (x & -> & LE).
  unfold gfn_indirect_valid, is_obsolete_sp. rewrite (le_gen _ _ LE), (lt_gen _ _ L), !andb_true_iff, !negb_true_iff, !orb_false_iff.
  intros [[? Hi] ?]. split; [|done]. split; [done|]. destruct (px_invalid x) eqn:E; [|done]. by rewrite (le_invalid _ _ LE E) in Hi.
Qed.

Lemma unprotect_loop_ok (gfn : Z) (l : list Z) (r : Z) (zs : zap_state) :
  pools_ok zs → (∀ a, a ∈ l → is_Some (zs.(zs_shadow).(ss_ext) !! a)) →
  ∃ zs' r', unprotect_loop gfn l r zs = Some (zs', r') ∧ pools_ok zs' ∧ lighter zs.(zs_shadow) zs'.(zs_shadow) ∧
    (∀ a, a ∈ l → shadows gfn zs'.(zs_shadow) a = false) ∧
    r' = (if existsb (shadows gfn zs.(zs_shadow)) l then 1 else r).
Proof using Hmax.
  revert r zs. induction l as [|a l IH]; intros r zs P Hl; cbn [ZapPage.unprotect_loop existsb].
  - exists zs, r. split_and!; try done. by intros a ?%elem_of_nil.
  - destruct (Hl a) as [x Hx]; [by left|]. destruct (pl_tables _ P) as (LL & DD & Hok).
    destruct (proj2 (en_dom _ _ _ _ _ _ (sk_entries _ _ _ _ _ _ _ Hok) a) ltac:(by eexists)) as [sp Hsp].
    rewrite Hsp, Hx. cbn [mbind option_bind].
    assert (Hv : shadows gfn zs.(zs_shadow) a = gfn_indirect_valid gfn zs.(zs_shadow) sp x) by (unfold shadows; by rewrite Hsp, Hx).
    rewrite <- Hv. destruct (shadows gfn (zs_shadow zs) a) eqn:Hva; cbn [orb].
    + assert (Hinv : x.(px_invalid) = false).
      { symmetry in Hv. unfold gfn_indirect_valid in Hv. rewrite !andb_true_iff, !negb_true_iff, !orb_false_iff in Hv. apply Hv. }
      assert (Ha : a ∈ zs.(zs_shadow).(ss_active)).
      { pose proof (proj1 (pl_dom _ P a) ltac:(by eexists)) as Hd. apply elem_of_app in Hd as [?|Hw]; [done|].
        destruct (pl_waiting _ P a Hw) as (_ & y & Hy & Hi & _). rewrite Hx in Hy. injection Hy as <-. congruence. }
      destruct (prepare_zapped zs a x P Ha Hx) as (zs1 & Zs & -> & Z & Hok1 & Hlv & Hu & HZs). cbn [mbind option_bind].
      pose proof (zapped_pools zs zs1 a _ Zs x P Ha Hx eq_refl Z Hok1 Hlv Hu HZs) as P1. pose proof (za_lighter _ _ _ _ _ Z) as L1.
      destruct (IH 1 zs1 P1) as (zs' & r' & E & P' & L & Hn & Hr).
      { intros b Hb. destruct (Hl b) as [y Hy]; [by right|]. destruct (lt_ext _ _ L1 b y Hy) as (y' & -> & _). by eexists. }
      exists zs', r'. split; [exact E|]. split; [done|]. split; [by etrans|]. split; [|rewrite Hr; by case_match].
      intros b [->|Hb]%elem_of_cons; [|by apply Hn]. destruct (shadows gfn (zs_shadow zs') a) eqn:Hc; [|done]. exfalso.
      apply (lighter_shadows _ _ _ _ L) in Hc. unfold shadows in Hc. destruct (za_page _ _ _ _ _ Z) as (y & Hy & Hi & _).
      rewrite Hy in Hc. case_match; [|done]. unfold gfn_indirect_valid in Hc. by rewrite Hi, orb_true_r in Hc.
    + destruct (IH r zs P) as (zs' & r' & E & P' & L & Hn & Hr); [intros b Hb; apply Hl; by right|].
      exists zs', r'. split; [exact E|]. split; [done|]. split; [done|]. split; [|done].
      intros b [->|Hb]%elem_of_cons; [|by apply Hn]. destruct (shadows gfn (zs_shadow zs') a) eqn:Hc; [|done].
      apply (lighter_shadows _ _ _ _ L) in Hc. congruence.
Qed.

(** Dropping the shadow of a guest frame.  [vmrun_mmu_unprotect_page] ends
    and says whether a page in use shadowed the frame; afterwards none on the
    frame's hash chain does, what was zapped is freed, and the invariants hold. *)
Theorem unprotect_page_correct (env : map_env) (gfn : Z) (zs : zap_state) :
  let chain := default [] (zs.(zs_shadow).(ss_hash) !! vmrun_page_table_hashfn env gfn) in
  pools_ok zs → zs.(zs_invalid) = [] → (∀ a, a ∈ chain → is_Some (zs.(zs_shadow).(ss_ext) !! a)) →
  ∃ zs' r, vmrun_mmu_unprotect_page env gfn zs = Some (zs', r) ∧ pools_ok zs' ∧ zs'.(zs_invalid) = [] ∧
    r = b2z (existsb (shadows gfn zs.(zs_shadow)) chain) ∧
    (∀ a, a ∈ default [] (zs'.(zs_shadow).(ss_hash) !! vmrun_page_table_hashfn env gfn) → a ∈ chain ∧ shadows gfn zs'.(zs_shadow) a = false).
Proof using Hmax.
  intros chain P Hi Hc. unfold ZapPage.vmrun_mmu_unprotect_page. assert (El : local_list zs = zs) by (unfold local_list; rewrite <- Hi; done).
  rewrite El. cbv zeta. fold chain. destruct (unprotect_loop_ok gfn chain 0 zs P Hc) as (zs1 & r & -> & P1 & L & Hn & Hr). cbn [mbind option_bind].
  destruct (commit_ok zs1 P1) as (zs2 & -> & P2 & Hi2 & F & _). cbn [mbind option_bind]. exists zs2, r. split; [done|]. split; [done|]. split; [done|].
  split; [rewrite Hr; by destruct (existsb _ _)|]. intros a Ha. rewrite (fr_hash _ _ _ F), lookup_fmap, (lt_hash _ _ L) in Ha.
  assert (Hin : a ∈ chain).
  { unfold chain. destruct (ss_hash (zs_shadow zs) !! _) as [c|]; [|by apply elem_of_nil in Ha]. cbn in Ha. by apply elem_of_del_all in Ha as [? _]. }
  split; [done|]. specialize (Hn a Hin). unfold shadows, gfn_indirect_valid, is_obsolete_sp in *. destruct (fr_rest _ _ _ F) as (_ & -> & _).
  rewrite (fr_pages _ _ _ F), (fr_ext _ _ _ F). by destruct (decide _).
Qed.

(* ------------------------------------------------------------------ *)
(** ** Pages of old generations *)

(** An old generation; and one whose page was not zapped yet. *)
Definition old (s : shadow_state) (a : Z) : bool :=
  match s.(ss_ext) !! a with Some x => is_obsolete_sp s x | None => false end.
Definition stale (s : shadow_state) (a : Z) : bool :=
  match s.(ss_ext) !! a with Some x => is_obsolete_sp s x && negb x.(px_invalid) | None => false end.

(** New pages are put at the head: before a page that was not zapped yet and
    is old there are no newer ones... *)
Definition fifo (s : shadow_state) : Prop := StronglySorted (λ b c, stale s b = true → old s c = true) s.(ss_active).

(** ...and a root that was zapped stays empty. *)
Definition zapped_roots (s : shadow_state) : Prop :=
  ∀ a x, a ∈ s.(ss_active) → s.(ss_ext) !! a = Some x → x.(px_invalid) = true → detached s a.

Record good (gen : Z) (zs : zap_state) : Prop := {
  gd_gen : zs.(zs_shadow).(ss_valid_gen) = gen;
  gd_pools : pools_ok zs;
  gd_fifo : fifo zs.(zs_shadow);
  gd_roots : zapped_roots zs.(zs_shadow)
}.

Definition stale_pages (zs : zap_state) : nat := length (filter (λ a, stale zs.(zs_shadow) a = true) zs.(zs_shadow).(ss_active)).

Lemma lighter_stale (s s' : shadow_state) (a : Z) : lighter s s' → (stale s' a = true → stale s a = true) ∧ old s' a = old s a.
Proof using Type.
  intros L. unfold stale, old. destruct (s.(ss_ext) !! a) as [x|] eqn:Hx.
  - destruct (lt_ext _ _ L a x Hx) as (x' & -> & LE). unfold is_obsolete_sp. rewrite (le_gen _ _ LE), (lt_gen _ _ L).
    split; [|done]. rewrite !andb_true_iff, !negb_true_iff. intros [? Hi]. split; [done|].
    destruct (px_invalid x) eqn:E; [|done]. by rewrite (le_invalid _ _ LE E) in Hi.
  - destruct (s'.(ss_ext) !! a) as [x'|] eqn:Hx'; [|done]. destruct (lt_back _ _ L a) as [? ?]; [by eexists|congruence].
Qed.

Lemma sorted_filter {A : Type} (R : A → A → Prop) (P : A → Prop) `{!∀ x, Decision (P x)} (l : list A) :
  StronglySorted R l → StronglySorted R (filter P l).
Proof using Type.
  induction 1 as [|x l Hl IH Hx]; [constructor|]. rewrite filter_cons. case_decide; [|done]. constructor; [done|].
  apply Forall_forall. intros y [_ Hy]%list_elem_of_filter. by apply (proj1 (Forall_forall _ _) Hx).
Qed.

Lemma sorted_weaken {A : Type} (R R' : A → A → Prop) (l : list A) :
  (∀ x y, R x y → R' x y) → StronglySorted R l → StronglySorted R' l.
Proof using Type. intros H. induction 1; constructor; [done|]. eapply Forall_impl; [done|]. auto. Qed.

(** A stale page is zapped. *)
Lemma zapped_good (gen : Z) (zs zs' : zap_state) (a : Z) (root : bool) (Zs : list Z) :
  good gen zs → a ∈ zs.(zs_shadow).(ss_active) → stale zs.(zs_shadow) a = true → zapped a root Zs zs zs' → pools_ok zs' →
  good gen zs' ∧ (stale_pages zs' < stale_pages zs)%nat ∧ stale zs'.(zs_shadow) a = false.
Proof using Type.
  clear Hmax. intros [Eg P Ff Rr] Ha Hst Z P'. pose proof (za_lighter _ _ _ _ _ Z) as L.
  assert (Hna : stale zs'.(zs_shadow) a = false).
  { destruct (za_page _ _ _ _ _ Z) as (x & Hx & Hi & _). unfold stale. by rewrite Hx, Hi, andb_false_r. }
  split; [split; [by rewrite (lt_gen _ _ L)|done| |]|split; [|done]].
  - unfold fifo. rewrite (za_active _ _ _ _ _ Z).
    assert (Hs : StronglySorted (λ b c, stale zs'.(zs_shadow) b = true → old zs'.(zs_shadow) c = true) (del_all (Zs ++ [a]) (ss_active (zs_shadow zs)))).
    { apply sorted_filter. eapply sorted_weaken; [|exact Ff]. cbn. intros b c Hbc Hb. rewrite (proj2 (lighter_stale _ _ c L)).
      apply Hbc. by apply (proj1 (lighter_stale _ _ b L)). }
    destruct root; [|exact Hs]. cbn [app]. constructor; [exact Hs|]. apply Forall_forall. intros c _. by rewrite Hna.
  - intros b x Hb Hx Hi. destruct (decide (b = a)) as [->|Hne]; [apply Z|].
    assert (Hb0 : b ∈ zs.(zs_shadow).(ss_active)).
    { rewrite (za_active _ _ _ _ _ Z) in Hb. apply elem_of_app in Hb as [Hb|[? _]%elem_of_del_all]; [|done].
      destruct root; [by apply list_elem_of_singleton in Hb|by apply elem_of_nil in Hb]. }
    destruct (za_flags _ _ _ _ _ Z b x Hx Hi) as [[Hz|Hz%list_elem_of_singleton]%elem_of_app|(y & Hy & Hiy)].
    + by destruct (proj2 (za_below _ _ _ _ _ Z) b Hz) as (_ & ? & _).
    + done.
    + eapply lighter_detached; [exact L|]. by apply (Rr b y).
  - unfold stale_pages. assert (Hsub : filter (λ b, stale zs'.(zs_shadow) b = true) zs'.(zs_shadow).(ss_active) ++ [a] ⊆+
                                       filter (λ b, stale zs.(zs_shadow) b = true) zs.(zs_shadow).(ss_active)).
    { pose proof (pl_nodup _ P') as (Hnd & _ & _)%NoDup_app. apply NoDup_submseteq.
      - apply NoDup_app. split; [by apply NoDup_filter|]. split; [|apply NoDup_singleton].
        intros b [Hb _]%list_elem_of_filter ->%list_elem_of_singleton. congruence.
      - intros b [[Hb Hin]%list_elem_of_filter| ->%list_elem_of_singleton]%elem_of_app; apply list_elem_of_filter; [|done].
        split; [by apply (proj1 (lighter_stale _ _ b L))|]. rewrite (za_active _ _ _ _ _ Z) in Hin.
        apply elem_of_app in Hin as [Hin|[? _]%elem_of_del_all]; [|done].
        destruct root; [|by apply elem_of_nil in Hin]. apply list_elem_of_singleton in Hin as ->. done. }
    apply submseteq_length in Hsub. rewrite length_app in Hsub. cbn in Hsub. lia.
Qed.

Lemma sorted_forall {A : Type} (R : A → A → Prop) (l : list A) : (∀ x y, x ∈ l → y ∈ l → R x y) → StronglySorted R l.
Proof using Type.
  induction l as [|x l IH]; intros H; constructor.
  - apply IH. intros y z Hy Hz. apply H; by right.
  - apply Forall_forall. intros y Hy. apply H; [by left|by right].
Qed.

Lemma sorted_split {A : Type} (R : A → A → Prop) (l1 l2 : list A) :
  StronglySorted R (l1 ++ l2) → ∀ x y, x ∈ l1 → y ∈ l2 → R x y.
Proof using Type.
  induction l1 as [|z l1 IH]; intros HS x y Hx Hy; [by apply elem_of_nil in Hx|]. apply StronglySorted_inv in HS as [HS Hz].
  apply elem_of_cons in Hx as [->|Hx]; [|by apply IH]. apply (proj1 (Forall_forall _ _) Hz), elem_of_app. by right.
Qed.

Lemma page_before_none (a : Z) (l : list Z) : a ∉ tail l → page_before a l = None.
Proof using Type.
  induction l as [|b l IH]; intros Hn; [done|]. cbn [page_before]. destruct l as [|c l]; [done|]. cbn [tail] in Hn.
  destruct (Z.eqb_spec c a) as [->|Hne]; [by destruct Hn; left|]. apply IH. intros Hc. apply Hn. by right.
Qed.

Lemma page_before_last (a : Z) (l1 l2 : list Z) : NoDup (l1 ++ a :: l2) → page_before a (l1 ++ a :: l2) = last l1.
Proof using Type.
  induction l1 as [|b l1 IH]; intros Hn; cbn [app] in *.
  - apply NoDup_cons in Hn as [Hn _]. by apply page_before_none.
  - apply NoDup_cons in Hn as [Hb Hn]. specialize (IH Hn). destruct l1 as [|c l1]; cbn [app page_before] in *.
    + by rewrite Z.eqb_refl.
    + destruct (Z.eqb_spec c a) as [->|Hne]; [|exact IH]. exfalso. apply NoDup_cons in Hn as [Hn _]. apply Hn, elem_of_app. right. by left.
Qed.

(** The walk stands at [cur]; the pages behind it are done. *)
Definition walk_at (zs : zap_state) (cur : option Z) : Prop :=
  match cur with
  | None => ∀ b, b ∈ zs.(zs_shadow).(ss_active) → stale zs.(zs_shadow) b = false
  | Some a => ∃ l1 l2, zs.(zs_shadow).(ss_active) = l1 ++ a :: l2 ∧ ∀ b, b ∈ l2 → stale zs.(zs_shadow) b = false
  end.

Lemma walk_restart (zs : zap_state) : walk_at zs (last zs.(zs_shadow).(ss_active)).
Proof using Type.
  unfold walk_at. destruct (last (ss_active (zs_shadow zs))) as [a|] eqn:E.
  - apply last_Some in E as [l ->]. exists l, []. split; [done|]. by intros b ?%elem_of_nil.
  - apply last_None in E as ->. by intros b ?%elem_of_nil.
Qed.

(** Past a page that is done. *)
Lemma walk_next (zs : zap_state) (a : Z) (l1 l2 : list Z) :
  zs.(zs_shadow).(ss_active) = l1 ++ a :: l2 → stale zs.(zs_shadow) a = false → (∀ b, b ∈ l2 → stale zs.(zs_shadow) b = false) →
  walk_at zs (last l1).
Proof using Type.
  intros E Ha Hl2. unfold walk_at. destruct (last l1) as [b|] eqn:El.
  - apply last_Some in El as [l ->]. exists l, (a :: l2). rewrite E, <- app_assoc. split; [done|]. by intros c [->|?]%elem_of_cons; [|apply Hl2].
  - apply last_None in El as ->. rewrite E. by intros c [->|?]%elem_of_cons; [|apply Hl2].
Qed.

(** A root without pages out of sync below goes to the head. *)
Lemma walk_root (gen : Z) (zs zs' : zap_state) (a : Z) (l1 l2 : list Z) :
  good gen zs → zs.(zs_shadow).(ss_active) = l1 ++ a :: l2 → (∀ b, b ∈ l2 → stale zs.(zs_shadow) b = false) →
  zapped a true [] zs zs' → stale zs'.(zs_shadow) a = false → walk_at zs' (last l1).
Proof using Type.
  intros G E Hl2 Z Ha. pose proof (pl_nodup _ (gd_pools _ _ G)) as (Hnd & _ & _)%NoDup_app. rewrite E in Hnd.
  apply NoDup_app in Hnd as (_ & Hd1 & Hd2). apply NoDup_cons in Hd2 as [Hd2 _].
  assert (Ea : zs'.(zs_shadow).(ss_active) = a :: l1 ++ l2).
  { rewrite (za_active _ _ _ _ _ Z), E. cbn [app]. f_equal. rewrite <- list_del_all. unfold list_del. rewrite filter_app. f_equal.
    - apply list_del_notin. intros Hc. apply (Hd1 a Hc). by left.
    - rewrite filter_cons_False by auto. by apply list_del_notin. }
  assert (Hl2' : ∀ b, b ∈ l2 → stale zs'.(zs_shadow) b = false).
  { intros b Hb. destruct (stale (zs_shadow zs') b) eqn:Es; [|done]. apply (proj1 (lighter_stale _ _ b (za_lighter _ _ _ _ _ Z))) in Es. by rewrite Hl2 in Es. }
  unfold walk_at. destruct (last l1) as [b|] eqn:El.
  - apply last_Some in El as [l ->]. exists (a :: l), l2. rewrite Ea, <- app_assoc. by split.
  - apply last_None in El as ->. rewrite Ea. by intros c [->|?]%elem_of_cons; [|apply Hl2'].
Qed.

Section Obsolete.
Context (gen : Z) (cond_resched_lock : zap_state → option zap_state).

(** While the lock is away others keep the invariant, and no page becomes old. *)
Context (Hresched : ∀ zs zs', good gen zs → cond_resched_lock zs = Some zs' → good gen zs' ∧ (stale_pages zs' <= stale_pages zs)%nat).

Notation obsolete_loop := (zap_obsolete_loop g page_header page_of gfn_to_memslot role_gfn_to_memslot PT64_ROOT_MAX_LEVEL cond_resched_lock).

Definition ends (cur : option Z) (batch : Z) (zs : zap_state) : Prop :=
  ∃ fuel zs', obsolete_loop fuel cur batch zs = Some zs' ∧ good gen zs' ∧ ∀ b, b ∈ zs'.(zs_shadow).(ss_active) → stale zs'.(zs_shadow) b = false.

Lemma ends_none (batch : Z) (zs : zap_state) : good gen zs → walk_at zs None → ends None batch zs.
Proof using Type. intros G W. exists 1%nat, zs. split; [done|]. by split. Qed.

(** Zapping a stale page, with what follows. *)
Lemma ends_zap (a batch : Z) (zs : zap_state) (l1 l2 : list Z) (x : page_ext) :
  good gen zs → zs.(zs_shadow).(ss_active) = l1 ++ a :: l2 → (∀ b, b ∈ l2 → stale zs.(zs_shadow) b = false) →
  stale zs.(zs_shadow) a = true → zs.(zs_shadow).(ss_ext) !! a = Some x →
  (∀ cur batch' zs', good gen zs' → (stale_pages zs' < stale_pages zs)%nat → walk_at zs' cur → ends cur batch' zs') →
  ∃ zs1 ret, vmrun_mmu_prepare_zap_page a zs = Some (zs1, ret) ∧
    ends (if truth ret then last zs1.(zs_shadow).(ss_active) else last l1) (batch + ret) zs1.
Proof using Hmax.
  intros G E Hl2 Hst Hx IH. assert (Ha : a ∈ zs.(zs_shadow).(ss_active)) by (rewrite E; apply elem_of_app; right; by left).
  pose proof (gd_pools _ _ G) as P.
  destruct (prepare_zapped zs a x P Ha Hx) as (zs1 & Zs & Ez & Z & Hok & Hlv & Hu & HZs).
  pose proof (zapped_pools zs zs1 a _ Zs x P Ha Hx eq_refl Z Hok Hlv Hu HZs) as P1.
  destruct (zapped_good gen zs zs1 a _ Zs G Ha Hst Z P1) as (G1 & HN & Hna).
  exists zs1. eexists. split; [exact Ez|]. apply IH; [done|done|]. case_match eqn:Et; [apply walk_restart|].
  apply truth_false in Et. assert (Hroot : truth (px_root_count x) = true ∧ Zs = []).
  { destruct (truth (px_root_count x)); cbn in Et; [|lia]. split; [done|]. apply nil_length_inv. lia. }
  destruct Hroot as [Hroot ->]. rewrite Hroot in Z. by apply (walk_root gen zs zs1 a l1 l2).
Qed.

Lemma ends_step (a batch : Z) (zs : zap_state) (l1 l2 : list Z) :
  good gen zs → zs.(zs_shadow).(ss_active) = l1 ++ a :: l2 → (∀ b, b ∈ l2 → stale zs.(zs_shadow) b = false) →
  (∀ cur batch' zs', good gen zs' → (stale_pages zs' < stale_pages zs)%nat → walk_at zs' cur → ends cur batch' zs') →
  (batch < BATCH_ZAP_PAGES ∨ ∀ zs', good gen zs' → (stale_pages zs' <= stale_pages zs)%nat → ends (last zs'.(zs_shadow).(ss_active)) 0 zs') →
  (old zs.(zs_shadow) a = true → stale zs.(zs_shadow) a = false → ends (last l1) batch zs) →
  ends (Some a) batch zs.
Proof using Hmax Hresched.
  intros G E Hl2 IH Hy Hnext. pose proof (gd_pools _ _ G) as P.
  pose proof (pl_nodup _ P) as (Hnd & _ & _)%NoDup_app. rewrite E in Hnd. pose proof (page_before_last a l1 l2 Hnd) as Hpb.
  destruct (proj2 (pl_dom _ P a)) as [x Hx]; [rewrite E; apply elem_of_app; left; apply elem_of_app; right; by left|].
  assert (Hold : old zs.(zs_shadow) a = is_obsolete_sp zs.(zs_shadow) x) by (unfold old; by rewrite Hx).
  assert (Hsta : stale zs.(zs_shadow) a = is_obsolete_sp zs.(zs_shadow) x && negb x.(px_invalid)) by (unfold stale; by rewrite Hx).
  destruct (is_obsolete_sp (zs_shadow zs) x) eqn:Ho; [destruct (px_invalid x) eqn:Hinv|].
  - destruct (Hnext Hold Hsta) as (fuel & zs' & El & R). exists (S fuel), zs'. split; [|done]. cbn [zap_obsolete_loop].
    rewrite Hx. cbn [mbind option_bind]. rewrite Ho, Hinv. cbn [negb]. rewrite E, Hpb. exact El.
  - destruct (ends_zap a batch zs l1 l2 x G E Hl2 Hsta Hx IH) as (zs1 & ret & Ez & fuel & zs' & El & R).
    assert (Hcase : batch >=? BATCH_ZAP_PAGES = false ∨ cond_resched_lock zs = None ∨
                    batch >=? BATCH_ZAP_PAGES = true ∧ ∃ zs', cond_resched_lock zs = Some zs' ∧ ends (last zs'.(zs_shadow).(ss_active)) 0 zs').
    { destruct (Z.geb_spec batch BATCH_ZAP_PAGES) as [Hge|Hlt]; [|by left]. right. destruct Hy as [Hy|Hy]; [lia|].
      destruct (cond_resched_lock zs) as [zs0|] eqn:Er; [|by left]. right. split; [done|]. exists zs0. split; [done|].
      destruct (Hresched zs zs0 G Er) as [G0 H0]. by apply Hy. }
    assert (Hzap : (batch >=? BATCH_ZAP_PAGES = false ∨ cond_resched_lock zs = None) → ends (Some a) batch zs).
    { intros Hc. exists (S fuel), zs'. split; [|done]. cbn [zap_obsolete_loop].
      rewrite Hx. cbn [mbind option_bind]. rewrite Ho, Hinv. cbn [negb]. rewrite Ez. cbn [mbind option_bind]. rewrite E, Hpb.
      destruct Hc as [-> | ->]; [|destruct (batch >=? BATCH_ZAP_PAGES)]; by destruct (truth ret). }
    destruct Hcase as [Hc|[Hc|(Hb & zs0 & Er & fuel0 & zs0' & El0 & R0)]]; [apply Hzap; by left|apply Hzap; by right|].
    exists (S fuel0), zs0'. split; [|done]. cbn [zap_obsolete_loop]. rewrite Hx. cbn [mbind option_bind]. rewrite Ho, Hinv, Hb, Er. exact El0.
  - exists 1%nat, zs. split; [cbn [zap_obsolete_loop]; rewrite Hx; cbn [mbind option_bind]; by rewrite Ho|]. split; [done|].
    rewrite E. intros b [Hb|[->|Hb]%elem_of_cons]%elem_of_app; [|done|by apply Hl2].
    destruct (stale (zs_shadow zs) b) eqn:Hs; [|done]. exfalso.
    pose proof (gd_fifo _ _ G) as F. unfold fifo in F. rewrite E in F.
    apply (sorted_split _ l1 (a :: l2) F b a Hb ltac:(by left)) in Hs. congruence.
Qed.

Lemma ends_walk (n : nat) : ∀ cur batch zs, (stale_pages zs <= n)%nat → good gen zs → walk_at zs cur → ends cur batch zs.
Proof using Hmax Hresched.
  induction n as [n IH] using lt_wf_ind.
  assert (Hwalk : ∀ batch zs l1 l2, (stale_pages zs <= n)%nat → good gen zs → zs.(zs_shadow).(ss_active) = l1 ++ l2 →
    (∀ b, b ∈ l2 → stale zs.(zs_shadow) b = false) →
    (batch < BATCH_ZAP_PAGES ∨ ∀ zs', good gen zs' → (stale_pages zs' <= stale_pages zs)%nat → ends (last zs'.(zs_shadow).(ss_active)) 0 zs') →
    ends (last l1) batch zs).
  { intros batch zs l1. induction l1 as [|a l1 IHl] using rev_ind; intros l2 Hn G E Hl2 Hy.
    - apply ends_none; [done|]. intros b. rewrite E. apply Hl2.
    - rewrite last_snoc. rewrite <- app_assoc in E. cbn [app] in E. apply (ends_step a batch zs l1 l2); [done|done|done| |done|].
      + intros cur batch' zs' G' Hlt W. apply (IH (stale_pages zs')); [lia|lia|done|done].
      + intros _ Hna. apply (IHl (a :: l2)); [done|done|done| |done]. intros b [->|Hb]%elem_of_cons; [done|by apply Hl2]. }
  assert (Hrestart : ∀ zs, (stale_pages zs <= n)%nat → good gen zs → ends (last zs.(zs_shadow).(ss_active)) 0 zs).
  { intros zs Hn G. apply (Hwalk 0 zs _ []); [done|done|by rewrite app_nil_r|by intros b ?%elem_of_nil|by left]. }
  intros [a|] batch zs Hn G W; [|by apply ends_none]. destruct W as (l1 & l2 & E & Hl2).
  rewrite <- (last_snoc a l1). apply (Hwalk batch zs (l1 ++ [a]) l2); [done|done|by rewrite <- app_assoc|done|].
  right. intros zs' G' Hle. apply Hrestart; [lia|done].
Qed.
End Obsolete.

Lemma swap_pools (zs : zap_state) : pools_ok zs → pools_ok (swap_lists zs).
Proof using Type. intros P. apply (pools_same zs); [done..| |exact P]. apply Permutation_app_comm. Qed.

(** The invalidation begins: every page is of an old generation. *)
Lemma bumped_good (zs : zap_state) :
  pools_ok zs → zapped_roots zs.(zs_shadow) →
  (∀ a x, zs.(zs_shadow).(ss_ext) !! a = Some x → x.(px_valid_gen) ≠ u64 (zs.(zs_shadow).(ss_valid_gen) + 1)) →
  good (u64 (zs.(zs_shadow).(ss_valid_gen) + 1))
       (swap_lists (zs <| zs_shadow ::= λ s, vmrun_reload_remote_mmus (s <| ss_valid_gen ::= λ n, u64 (n + 1) |>) |>)).
Proof using Type.
  clear Hmax. intros P R Hfresh. match goal with |- good _ (swap_lists ?z) => set (z' := z) end.
  assert (P' : pools_ok z') by (by apply (pools_same zs)).
  split; [done|by apply swap_pools| |].
  - apply sorted_forall. intros b c _ Hc _. unfold old.
    destruct (proj2 (pl_dom _ P c)) as [x Hx]; [apply elem_of_app; by left|].
    change (ss_ext (zs_shadow (swap_lists z'))) with (ss_ext (zs_shadow zs)). rewrite Hx. unfold is_obsolete_sp.
    apply negb_true_iff, Z.eqb_neq. by apply (Hfresh c).
  - intros b x Hb Hx Hi. destruct (R b x Hb Hx Hi) as [D1 D2]. by split.
Qed.

(** C8: invalidating all shadow pages.  Whatever others do while
    [cond_resched_lock] gives the lock away (they keep the invariants and the
    generation, and make no page old), [vmrun_mmu_invalidate_zap_all_pages]
    ends.  Then the generation is the next one, nothing waits to be freed, the
    invariants hold, and every page that has an entry left is of that
    generation: an older page that is still there is an empty root that was
    marked invalid. *)
Theorem invalidate_zap_all_correct (cond_resched_lock : zap_state → option zap_state) (zs : zap_state) :
  let gen := u64 (zs.(zs_shadow).(ss_valid_gen) + 1) in
  (∀ z z', good gen z → cond_resched_lock z = Some z' → good gen z' ∧ (stale_pages z' <= stale_pages z)%nat) →
  pools_ok zs → zapped_roots zs.(zs_shadow) →
  (∀ a x, zs.(zs_shadow).(ss_ext) !! a = Some x → x.(px_valid_gen) ≠ gen) →
  ∃ fuel zs', vmrun_mmu_invalidate_zap_all_pages g page_header page_of gfn_to_memslot role_gfn_to_memslot PT64_ROOT_MAX_LEVEL
                cond_resched_lock fuel zs = Some zs' ∧
    zs'.(zs_shadow).(ss_valid_gen) = gen ∧ zs'.(zs_obsolete) = [] ∧ pools_ok zs' ∧
    ∀ b x, b ∈ zs'.(zs_shadow).(ss_active) → zs'.(zs_shadow).(ss_ext) !! b = Some x → x.(px_valid_gen) ≠ gen →
      x.(px_invalid) = true ∧ detached zs'.(zs_shadow) b.
Proof using Hmax.
  intros gen Hr P R Hfresh. pose proof (bumped_good zs P R Hfresh) as G. fold gen in G.
  unfold vmrun_mmu_invalidate_zap_all_pages, vmrun_zap_obsolete_pages, on_obsolete. cbv zeta.
  match type of G with good _ (swap_lists ?z) => set (z1 := swap_lists z) in *; change (swap_lists z) with z1 end.
  destruct (ends_walk gen cond_resched_lock Hr _ _ 0 z1 (le_n _) G (walk_restart z1)) as (fuel & z2 & E & G2 & Hs).
  destruct (commit_ok z2 (gd_pools _ _ G2)) as (z3 & Ec & P3 & Hn & F & _).
  exists fuel, (swap_lists z3). rewrite E. cbn [mbind option_bind]. rewrite Ec. cbn [mbind option_bind].
  destruct (fr_rest _ _ _ F) as (_ & Hg & _). split; [done|].
  split; [etrans; [exact Hg|apply G2]|]. split; [exact Hn|]. split; [by apply swap_pools|].
  intros b x Hb Hx Hne. change (ss_active (zs_shadow (swap_lists z3))) with (ss_active (zs_shadow z3)) in Hb.
  change (ss_ext (zs_shadow (swap_lists z3))) with (ss_ext (zs_shadow z3)) in Hx.
  rewrite (fr_active _ _ _ F) in Hb. rewrite (fr_ext _ _ _ F) in Hx. destruct (decide (b ∈ zs_invalid z2)); [done|].
  assert (Hi : x.(px_invalid) = true).
  { specialize (Hs b Hb). unfold stale in Hs. rewrite Hx in Hs. unfold is_obsolete_sp in Hs. rewrite (gd_gen _ _ G2) in Hs.
    apply Z.eqb_neq in Hne. rewrite Hne in Hs. by apply negb_false_iff in Hs. }
  split; [done|]. apply (freed_detached _ z2 z3 b F). by apply (gd_roots _ _ G2 b x).
Qed.
End Pools.

(* ------------------------------------------------------------------ *)
(** ** The example: a root, a directory and a leaf *)

Definition zap_tree : zap_state := {| zs_shadow := map_tree; zs_invalid := []; zs_obsolete := []; zs_total := 3; zs_freed := [] |}.
Definition tree_level : nat := 5.
Definition tree_role_slot (smm : bool) (gfn : Z) : option vmrun_memory_slot := Some big_slot.

Lemma tree_levels : levels_ok (K := kvm_pte_x86) (T := kvm_track) x86_masks tree_header tree_page_of tree_slot tree_role_slot tree_level map_tree.
Proof.
  split.
  - intros a sp [[-> ->]|[[-> ->]|[-> ->]]]%tree_sps; (split; [done|]); change (Z.of_nat tree_level) with 5; cbn [tree_page role_level]; lia.
  - intros p a sp sc [[-> [= ->]]|[-> [= ->]]]%tree_owner [[Ea ->]|[[Ea ->]|[Ea ->]]]%tree_sps [[Eb ->]|[[Eb ->]|[Eb ->]]]%tree_sps; vm_compute in Ea; done.
  - intros a sp x _ [[-> ->]|[[-> ->]|[-> ->]]]%tree_pages; by cbn.
  - intros a sp [[-> ->]|[[-> ->]|[-> ->]]]%tree_sps; by cbn.
Qed.

Lemma zap_tree_pools : pools_ok (K := kvm_pte_x86) (T := kvm_track) x86_masks tree_header tree_page_of tree_slot tree_role_slot tree_level zap_tree.
Proof.
  split.
  - eexists _, _. apply map_tree_ok.
  - apply tree_levels.
  - apply (bool_decide_unpack _). vm_compute. exact I.
  - intros a. change (ss_ext (zs_shadow zap_tree)) with (tree_state true).(ss_ext). cbn. rewrite <- elem_of_dom, !dom_insert, dom_singleton. set_solver.
  - intros a ?%elem_of_nil. done.
  - split; [done|]. unfold is_u. cbn. lia.
Qed.

Lemma tree_room : (tree_level < KVM_PAGE_ARRAY_NR)%nat.
Proof. unfold tree_level. vm_compute. lia. Qed.


Lemma change_mmu_pages_correct_witness :
  ∃ zs', vmrun_mmu_change_mmu_pages (K := kvm_pte_x86) (T := kvm_track) x86_masks tree_header tree_page_of tree_slot tree_role_slot tree_level 1 zap_tree = Some zs' ∧
    pools_ok (K := kvm_pte_x86) (T := kvm_track) x86_masks tree_header tree_page_of tree_slot tree_role_slot tree_level zs'.
Proof.
  destruct (change_mmu_pages_correct (K := kvm_pte_x86) (T := kvm_track) x86_masks tree_header tree_page_of tree_slot tree_role_slot tree_level tree_room
              zap_tree 1 zap_tree_pools eq_refl ltac:(lia)) as (zs' & E & P & _).
  exists zs'. split; [exact E|exact P].
Defined.

Lemma unprotect_page_correct_witness :
  ∃ zs' r, vmrun_mmu_unprotect_page (K := kvm_pte_x86) (T := kvm_track) x86_masks tree_header tree_page_of tree_slot tree_role_slot tree_level map_x86 0 zap_tree = Some (zs', r) ∧ r = 0.
Proof.
  destruct (unprotect_page_correct (K := kvm_pte_x86) (T := kvm_track) x86_masks tree_header tree_page_of tree_slot tree_role_slot tree_level tree_room
              map_x86 0 zap_tree zap_tree_pools eq_refl) as (zs' & r & E & _ & _ & Hr & _).
  - intros a. change (ss_hash (zs_shadow zap_tree)) with (∅ : gmap Z (list Z)). rewrite lookup_empty. intros ?%elem_of_nil. done.
  - exists zs', r. split; [exact E|]. rewrite Hr. reflexivity.
Defined.

(** The lock is kept. *)
Lemma invalidate_zap_all_correct_witness :
  ∃ fuel zs', vmrun_mmu_invalidate_zap_all_pages (K := kvm_pte_x86) (T := kvm_track) x86_masks tree_header tree_page_of tree_slot tree_role_slot tree_level
                (λ _, None) fuel zap_tree = Some zs' ∧ zs'.(zs_shadow).(ss_valid_gen) = 1 ∧ zs'.(zs_obsolete) = [].
Proof.
  destruct (invalidate_zap_all_correct (K := kvm_pte_x86) (T := kvm_track) x86_masks tree_header tree_page_of tree_slot tree_role_slot tree_level tree_room
              (λ _, None) zap_tree) as (fuel & zs' & E & Hg & Ho & _).
  - intros z z' _ [=].
  - apply zap_tree_pools.
  - intros a x _ [[-> ->]|[[-> ->]|[-> ->]]]%tree_pages [=].
  - intros a x [[-> ->]|[[-> ->]|[-> ->]]]%tree_pages; discriminate.
  - exists fuel, zs'. by split.
Defined.
