(* ===== verification/VmLifecycle.v ===== *)
(** * Virtual machines and the module: creation and release

    kernel/vmrun.c: [vmrun_create_vm] and [vmrun_destroy_vm], the reference
    count with the files that hold it, the ioctls of the device and of a
    virtual machine, [vmrun_init] and [vmrun_exit]; kernel/mmu.c: the set-up of
    the MMU of a virtual machine and of the module.

    The state is what the kernel keeps for the module: the virtual machines
    that are allocated, [vm_list], the references to address spaces, the
    registered notifiers, SRCU structures and open files.  Several of the
    functions leave a variable uninitialised: what it holds is an argument. *)

From S2P Require Import Prelude.
From S2P Require Import Spte.
From S2P Require Import Vcpu.
From S2P Require Import Vmcb.
From S2P Require Import Run.
From S2P Require Import Memslots.
From S2P Require Import MemRegion.
From S2P Require Import PageTrack.
From S2P Require Import CpuEnable.
From S2P Require Import VcpuTable.

(** [struct vmrun]: the address space, the VCPUs with the reference count, the
    memory slots, and the head of the page trackers. *)
Record vmrun_vm := {
  lv_mm : Z;
  lv_vcpus : vm_vcpus;
  lv_mem : vm_mem;
  lv_track : notifier_head
}.
#[export] Instance eta_vmrun_vm : Eta vmrun_vm := λ r,
  {| lv_mm := r.(lv_mm); lv_vcpus := r.(lv_vcpus); lv_mem := r.(lv_mem); lv_track := r.(lv_track) |}.

Record kernel := {
  k_svm : svm_state;
  k_mm : Z;                        (* current->mm *)
  mm_count : Z → Z;
  k_vms : gmap Z vmrun_vm;         (* allocated and not freed *)
  vm_list : list Z;
  mmu_notifiers : list (Z * Z);    (* virtual machine and address space *)
  preempt_users : Z;               (* preempt_notifier_inc - _dec *)
  srcu_structs : Z;                (* initialised and not cleaned up *)
  vm_files : gmap Z Z              (* descriptor to private_data *)
}.
#[export] Instance eta_kernel : Eta kernel := λ r,
  {| k_svm := r.(k_svm); k_mm := r.(k_mm); mm_count := r.(mm_count); k_vms := r.(k_vms); vm_list := r.(vm_list);
     mmu_notifiers := r.(mmu_notifiers); preempt_users := r.(preempt_users); srcu_structs := r.(srcu_structs);
     vm_files := r.(vm_files) |}.

(** What the kernel gives to one creation. *)
Record vm_env := {
  ve_vm : Z;             (* kzalloc of struct vmrun, 0 when it fails *)
  ve_r : Z;              (* what the uninitialised r holds *)
  ve_heap : heap;        (* allocations of the slot arrays *)
  ve_srcu : Z;           (* init_srcu_struct(&vmrun->srcu) *)
  ve_notifier : Z;       (* mmu_notifier_register *)
  ve_fd : Z;             (* get_unused_fd_flags *)
  ve_file : Z            (* anon_inode_getfile: 0 or an error *)
}.
#[export] Instance eta_vm_env : Eta vm_env := λ r,
  {| ve_vm := r.(ve_vm); ve_r := r.(ve_r); ve_heap := r.(ve_heap); ve_srcu := r.(ve_srcu); ve_notifier := r.(ve_notifier);
     ve_fd := r.(ve_fd); ve_file := r.(ve_file) |}.

Definition mm_ref (mm d : Z) (k : kernel) : kernel := k <| mm_count ::= λ f m, if m =? mm then f m + d else f m |>.
Definition srcu_ref (d : Z) (k : kernel) : kernel := k <| srcu_structs ::= λ n, n + d |>.

(** [ERR_PTR], [PTR_ERR] and [IS_ERR] on a 64-bit pointer. *)
Definition MAX_ERRNO : Z := 4095.
Definition ERR_PTR (e : Z) : Z := u64 e.
Definition PTR_ERR (p : Z) : Z := s32 p.
Definition IS_ERR (p : Z) : bool := p >=? u64 (- MAX_ERRNO).

Definition VMRUN_IDENTITY_PAGETABLE_PRIVATE_MEMSLOT : Z := VMRUN_USER_MEM_SLOTS + 2.

(** ** The MMU of a virtual machine *)

(** The address of [vmrun->arch.mmu_sp_tracker]. *)
Definition mmu_sp_tracker : Z := 1.

Definition vmrun_mmu_init_vm (hd : notifier_head) : notifier_head := vmrun_page_track_register_notifier mmu_sp_tracker hd.
Definition vmrun_mmu_uninit_vm (hd : notifier_head) : option notifier_head :=
  vmrun_page_track_unregister_notifier mmu_sp_tracker hd.

Section Lifecycle.
Context `{X : X86} `{KM : KvmMmuPages}.
Context (hw : Z → cpu_hw) (iopm_base : Z).
Context (mmu_reset mmu_setup : vmrun_vcpu → vmrun_mmu) (mmu_free_valid_roots : vmrun_vcpu → vmrun_vcpu).
Context (have_readonly largepages_enabled : bool) (access_ok : Z → Z → bool).

(** ** [vmrun_create_vm] *)

(** Freshly allocated, with the locks and the count set up. *)
Definition new_vmrun (mm : Z) (h : heap) : vmrun_vm :=
  {| lv_mm := mm;
     lv_vcpus := {| vcpus := replicate (Z.to_nat VMRUN_MAX_VCPUS) None; online_vcpus := 0; created_vcpus := 0;
                    users_count := 1; alive := true; res := {| live_vcpus := 0; live_pages := 0 |} |};
     lv_mem := {| mem_heap := h; spaces := []; published := []; mmu_log := []; n_requested_mmu_pages := 0 |};
     lv_track := {| track_notifier_list := []; track_srcu := None |} |}.

(** The labels.  [spaces] holds the pointers that are not NULL, those of the
    first address spaces. *)
Definition free_spaces (m : vm_mem) : vm_mem :=
  m <| mem_heap := foldl (λ h sp, vmrun_free_memslots (Some sp) h) m.(mem_heap) m.(spaces) |>.

Definition out_err_no_disable (vm : Z) (v : vmrun_vm) (r : Z) (k : kernel) : Z * vmrun_vm * kernel :=
  let v := v <| lv_vcpus ::= λ c, c <| users_count := 0 |> |> <| lv_mem ::= free_spaces |> in
  (ERR_PTR r, v, mm_ref k.(k_mm) (- 1) (k <| k_vms ::= delete vm |>)).

Definition out_err_no_srcu (vm : Z) (v : vmrun_vm) (r : Z) (k : kernel) : option (Z * vmrun_vm * kernel) :=
  svm ← vmrun_cpu_disable_all k.(k_svm);
  Some (out_err_no_disable vm v r (k <| k_svm := svm |>)).

Definition out_err (vm : Z) (v : vmrun_vm) (r : Z) (k : kernel) : option (Z * vmrun_vm * kernel) :=
  out_err_no_srcu vm v r (srcu_ref (- 1) k).

(** The loop over the address spaces; [false]: an allocation failed. *)
Fixpoint alloc_spaces (n : nat) (i : Z) (m : vm_mem) : bool * vm_mem :=
  match n with
  | O => (true, m)
  | S n =>
      let '(ptr, h) := kvzalloc 0 m.(mem_heap) in
      let m := m <| mem_heap := h |> in
      if ptr =? 0 then (false, m)
      else alloc_spaces n (i + 1)
             (m <| spaces ::= λ l, l ++ [(ptr, vmrun_alloc_memslots <| generation := u64 (i * 2 - 150) |>)] |>)
  end.

Definition vmrun_init_mmu_notifier (env : vm_env) (vm : Z) (k : kernel) : Z * kernel :=
  (env.(ve_notifier), if truth env.(ve_notifier) then k else k <| mmu_notifiers ::= cons (vm, k.(k_mm)) |>).

(** The statements after the check of [type].  As the code is written the [goto]
    before them is always taken: no call of [vmrun_create_vm] gets here. *)
Definition create_vm_rest (env : vm_env) (vm : Z) (v : vmrun_vm) (k : kernel) : option (Z * vmrun_vm * kernel) :=
  let v := v <| lv_track := vmrun_page_track_init |> in
  let k := srcu_ref 1 k in
  let v := v <| lv_track ::= vmrun_mmu_init_vm |> in
  '(r, svm) ← vmrun_cpu_enable_all hw k.(k_svm);
  let k := k <| k_svm := svm |> in
  if truth r then Some (out_err_no_disable vm v r k)
  else
    let r := - ENOMEM in
    let '(ok, m) := alloc_spaces (Z.to_nat VMRUN_ADDRESS_SPACE_NUM) 0 v.(lv_mem) in
    let v := v <| lv_mem := m |> in
    if negb ok then out_err_no_srcu vm v r k
    else if truth env.(ve_srcu) then out_err_no_srcu vm v r k
    else
      let k := srcu_ref 1 k in
      let '(r, k) := vmrun_init_mmu_notifier env vm k in
      if truth r then out_err vm v r k
      else
        let k := k <| vm_list ::= cons vm |> in
        let k := k <| preempt_users ::= λ n, n + 1 |> in
        Some (vm, v, k <| k_vms ::= <[vm := v]> |>).

(** The result is a pointer, or an error as a pointer.  The [goto] under
    [if (type)] has no braces around it: it is taken for every [type]. *)
Definition vmrun_create_vm (env : vm_env) (type : Z) (k : kernel) : option (Z * vmrun_vm * kernel) :=
  let vm := env.(ve_vm) in
  let v := new_vmrun k.(k_mm) env.(ve_heap) in
  if vm =? 0 then Some (ERR_PTR (- ENOMEM), v, k)
  else
    let k := k <| k_vms ::= <[vm := v]> |> in
    let k := mm_ref k.(k_mm) 1 k in
    let r := if truth type then - EINVAL else env.(ve_r) in
    Some (out_err_no_disable vm v r k).

(** ** [vmrun_destroy_vm] *)

(** [mmu_notifier_unregister] calls [vmrun_mmu_notifier_release], which zaps
    the shadow pages. *)
Definition mmu_notifier_unregister (vm mm : Z) (k : kernel) : kernel :=
  k <| mmu_notifiers ::= filter (λ p, p ≠ (vm, mm)) |>.

(** [None]: a BUG_ON, a lock that is never released, or a dangling pointer. *)
Definition vmrun_destroy_vm (cenv : create_env) (lm : vmrun_vcpu → bool) (vm : Z) (k : kernel) : option (vmrun_vm * kernel) :=
  v ← k.(k_vms) !! vm;
  let mm := v.(lv_mm) in
  let k := k <| vm_list ::= filter (λ a, a ≠ vm) |> in
  let k := mmu_notifier_unregister vm v.(lv_mm) k in
  let v := if k.(k_mm) =? v.(lv_mm)
           then v <| lv_mem ::= λ m, (__vmrun_set_memory_region_vm_destroy have_readonly largepages_enabled access_ok (inl 0)
                                        VMRUN_IDENTITY_PAGETABLE_PRIVATE_MEMSLOT 0 0 m).2 |>
           else v in
  c ← vmrun_free_vcpus mmu_free_valid_roots cenv lm v.(lv_vcpus);
  hd ← vmrun_mmu_uninit_vm v.(lv_track);
  let v := v <| lv_vcpus := c |> <| lv_track := vmrun_page_track_cleanup hd |> in
  let k := srcu_ref (- 1) k in
  let v := v <| lv_mem ::= free_spaces |> in
  let k := srcu_ref (- 1) k in
  let k := k <| k_vms ::= delete vm |> in
  let k := k <| preempt_users ::= λ n, n - 1 |> in
  svm ← vmrun_cpu_disable_all k.(k_svm);
  Some (v, mm_ref mm (- 1) (k <| k_svm := svm |>)).

(** [vmrun_put_vmrun]; the virtual machine as it was freed, if it was. *)
Definition put_vmrun (cenv : create_env) (lm : vmrun_vcpu → bool) (vm : Z) (k : kernel) : option (option vmrun_vm * kernel) :=
  v ← k.(k_vms) !! vm;
  let v := v <| lv_vcpus ::= λ c, c <| users_count ::= λ n, n - 1 |> |> in
  let k := k <| k_vms ::= <[vm := v]> |> in
  if v.(lv_vcpus).(users_count) =? 0 then '(v, k) ← vmrun_destroy_vm cenv lm vm k; Some (Some v, k)
  else Some (None, k).

Definition vmrun_vm_release (cenv : create_env) (lm : vmrun_vcpu → bool) (vm : Z) (k : kernel) : option (Z * kernel) :=
  '(_, k) ← put_vmrun cenv lm vm k; Some (0, k).

(** [vcpu->vmrun] is [vm]. *)
Definition vmrun_vcpu_release (cenv : create_env) (lm : vmrun_vcpu → bool) (vm : Z) (k : kernel) : option (Z * kernel) :=
  '(_, k) ← put_vmrun cenv lm vm k; Some (0, k).

(** ** The device *)

Definition vmrun_dev_ioctl_create_vm (cenv : create_env) (lm : vmrun_vcpu → bool) (env : vm_env) (type : Z) (k : kernel)
    : option (Z * kernel) :=
  '(vm, _, k) ← vmrun_create_vm env type k;
  if IS_ERR vm then Some (PTR_ERR vm, k)
  else
    let r := env.(ve_fd) in
    if r <? 0 then '(_, k) ← put_vmrun cenv lm vm k; Some (r, k)
    else if truth env.(ve_file) then '(_, k) ← put_vmrun cenv lm vm k; Some (env.(ve_file), k)
    else Some (r, k <| vm_files ::= <[r := vm]> |>).

Inductive dev_cmd := VMRUN_CREATE_VM | VMRUN_GET_VCPU_MMAP_SIZE | DEV_OTHER.

Definition vmrun_dev_ioctl (cenv : create_env) (lm : vmrun_vcpu → bool) (env : vm_env) (ioctl : dev_cmd) (arg : Z) (k : kernel)
    : option (Z * kernel) :=
  match ioctl with
  | VMRUN_CREATE_VM => vmrun_dev_ioctl_create_vm cenv lm env arg k
  | VMRUN_GET_VCPU_MMAP_SIZE => if truth arg then Some (- EINVAL, k) else Some (4096 + 4096, k)
  | DEV_OTHER => Some (- EINVAL, k)
  end.

(** ** The ioctls of a virtual machine *)

Inductive vm_cmd := VMRUN_CREATE_VCPU | VMRUN_SET_USER_MEMORY_REGION | VM_OTHER.

(** [r0] is what the uninitialised [r] holds, [mem] what [copy_from_user]
    gives. *)
Definition vmrun_vm_ioctl (cenv : create_env) (lm : vmrun_vcpu → bool) (r0 : Z) (mem : option memory_region)
    (vm : Z) (ioctl : vm_cmd) (arg : Z) (k : kernel) : option (Z * kernel) :=
  v ← k.(k_vms) !! vm;
  if negb (v.(lv_mm) =? k.(k_mm)) then Some (- EIO, k)
  else match ioctl with
  | VMRUN_CREATE_VCPU =>
      '(r, c) ← vmrun_vm_ioctl_create_vcpu iopm_base mmu_reset mmu_setup mmu_free_valid_roots cenv lm (u32 arg) v.(lv_vcpus);
      Some (r, k <| k_vms ::= <[vm := v <| lv_vcpus := c |>]> |>)
  | VMRUN_SET_USER_MEMORY_REGION =>
      match mem with
      | None => Some (- EFAULT, k)
      | Some mem =>
          let '(r, m) := vmrun_vm_ioctl_set_memory_region have_readonly largepages_enabled access_ok mem v.(lv_mem) in
          Some (r, k <| k_vms ::= <[vm := v <| lv_mem := m |>]> |>)
      end
  | VM_OTHER => Some (r0, k)
  end.
End Lifecycle.

(* ------------------------------------------------------------------ *)
(** ** The module *)

Record module_state := {
  md_svm : svm_state;
  md_cpumask : bool;               (* cpus_enabled is allocated *)
  md_iopm : Z;                     (* iopm_base *)
  md_iopm_pages : option (list Z); (* the I/O permission map, when allocated *)
  md_cpu_notifier : bool;
  md_misc : bool;                  (* the device is registered *)
  md_preempt_ops : bool            (* sched_in and sched_out are set *)
}.
#[export] Instance eta_module_state : Eta module_state := λ r,
  {| md_svm := r.(md_svm); md_cpumask := r.(md_cpumask); md_iopm := r.(md_iopm); md_iopm_pages := r.(md_iopm_pages);
     md_cpu_notifier := r.(md_cpu_notifier); md_misc := r.(md_misc); md_preempt_ops := r.(md_preempt_ops) |}.

(** What the kernel gives to [vmrun_init]. *)
Record init_env := {
  ie_cpumask : bool;               (* zalloc_cpumask_var *)
  ie_iopm : option Z;              (* alloc_pages: the frame number *)
  ie_kzalloc : Z → bool;           (* kzalloc of the data of a CPU *)
  ie_save : Z → option Z;          (* alloc_page of its save area *)
  ie_notifier : Z;                 (* register_cpu_notifier *)
  ie_misc : Z                      (* misc_register *)
}.

Definition IOPM_ALLOC_ORDER : Z := 2.

Section Module.
(** [cpu_possible_mask], and the CPU the code runs on. *)
Context (possible : list Z) (me : Z).

Definition vmrun_iopm_allocate (pages : option Z) (m : module_state) : Z * module_state :=
  match pages with
  | None => (- ENOMEM, m)
  | Some pfn =>
      (0, m <| md_iopm_pages := Some (replicate (Z.to_nat (4096 * Z.shiftl 1 IOPM_ALLOC_ORDER)) 0xff) |>
            <| md_iopm := u64 (Z.shiftl pfn 12) |>)
  end.

Definition vmrun_iopm_free (m : module_state) : module_state := m <| md_iopm_pages := None |> <| md_iopm := 0 |>.

(** [for_each_possible_cpu]: the result of the call that failed, or 0. *)
Fixpoint setup_cpus (env : init_env) (l : list Z) (s : svm_state) : Z * svm_state :=
  match l with
  | [] => (0, s)
  | cpu :: l =>
      let '(r, s) := vmrun_cpu_setup cpu (env.(ie_kzalloc) cpu) (env.(ie_save) cpu) s in
      if truth r then (r, s) else setup_cpus env l s
  end.

Definition unsetup_cpus (s : svm_state) : svm_state := foldl (λ s cpu, vmrun_cpu_unsetup me cpu s) s possible.

Definition free_cpumask (m : module_state) : module_state := m <| md_cpumask := false |>.
Definition init_free_iopm (m : module_state) : module_state := free_cpumask (vmrun_iopm_free m).
Definition init_free_cpus (m : module_state) : module_state := init_free_iopm (m <| md_svm ::= unsetup_cpus |>).
Definition init_free_hp (m : module_state) : module_state := init_free_cpus (m <| md_cpu_notifier := false |>).

Definition vmrun_init (env : init_env) (m : module_state) : Z * module_state :=
  if negb env.(ie_cpumask) then (- ENOMEM, m)
  else
    let m := m <| md_cpumask := true |> <| md_svm ::= λ s, s <| cpus_enabled := ∅ |> |> in
    let '(r, m) := vmrun_iopm_allocate env.(ie_iopm) m in
    if truth r then (r, free_cpumask m)
    else
      let '(r, svm) := setup_cpus env possible m.(md_svm) in
      let m := m <| md_svm := svm |> in
      if truth r then (r, init_free_iopm m)
      else
        let r := env.(ie_notifier) in
        if truth r then (r, init_free_cpus m)
        else
          let m := m <| md_cpu_notifier := true |> in
          let r := env.(ie_misc) in
          if truth r then (r, init_free_hp m)
          else (r, m <| md_misc := true |> <| md_preempt_ops := true |>).

Definition vmrun_exit (m : module_state) : module_state :=
  let m := m <| md_misc := false |> in
  let m := m <| md_cpu_notifier := false |> in
  let m := m <| md_svm ::= on_each_cpu vmrun_cpu_disable_nolock |> in
  let m := m <| md_svm ::= unsetup_cpus |> in
  let m := vmrun_iopm_free m in
  free_cpumask m.
End Module.

(** ** The MMU of the module *)

Record mmu_module := {
  mm_masks : shadow_masks;
  pte_list_desc_cache : bool;
  mmu_page_header_cache : bool;
  mm_counter : bool;               (* vmrun_total_used_mmu_pages is set up *)
  mm_shrinker : bool;
  mm_destroyed : Z                 (* calls of kmem_cache_destroy *)
}.
#[export] Instance eta_mmu_module : Eta mmu_module := λ r,
  {| mm_masks := r.(mm_masks); pte_list_desc_cache := r.(pte_list_desc_cache); mmu_page_header_cache := r.(mmu_page_header_cache);
     mm_counter := r.(mm_counter); mm_shrinker := r.(mm_shrinker); mm_destroyed := r.(mm_destroyed) |}.

(** The pointers are not cleared. *)
Definition mmu_destroy_caches (m : mmu_module) : mmu_module :=
  m <| mm_destroyed ::= λ n, n + b2z m.(pte_list_desc_cache) + b2z m.(mmu_page_header_cache) |>.

(** The two caches and the counter: does the allocation succeed? *)
Definition vmrun_mmu_module_init (desc header counter : bool) (m : mmu_module) : Z * mmu_module :=
  let m := m <| mm_masks ::= vmrun_mmu_clear_all_pte_masks |> in
  let m := m <| pte_list_desc_cache := desc |> in
  if negb desc then (- ENOMEM, mmu_destroy_caches m)
  else
    let m := m <| mmu_page_header_cache := header |> in
    if negb header then (- ENOMEM, mmu_destroy_caches m)
    else if negb counter then (- ENOMEM, mmu_destroy_caches m)
    else (0, m <| mm_counter := true |> <| mm_shrinker := true |>).

Definition vmrun_mmu_module_exit (m : mmu_module) : mmu_module :=
  let m := mmu_destroy_caches m in
  let m := m <| mm_counter := false |> in
  m <| mm_shrinker := false |>.
