(* ===== verification/VmLifecycleProps.v ===== *)
(** * Virtual machines and the module: properties

    What the creation of a virtual machine leaves in the kernel on each path,
    that its release undoes it, and what loading and unloading the module
    leave behind. *)

From S2P Require Import Prelude.
From S2P Require Import Spte.
From S2P Require Import Vcpu.
From S2P Require Import Vmcb.
From S2P Require Import VmcbProps.
From S2P Require Import Run.
From S2P Require Import Memslots.
From S2P Require Import MemRegion.
From S2P Require Import MemRegionProps.
From S2P Require Import MemOwnProps.
From S2P Require Import PageTrack.
From S2P Require Import CpuEnable.
From S2P Require Import CpuEnableProps.
From S2P Require Import VcpuTable.
From S2P Require Import VcpuTableProps.
From S2P Require Import VmLifecycle.

(** ** Error pointers *)

Lemma u64_neg (x : Z) : - 2 ^ 64 <= x < 0 → u64 x = x + 2 ^ 64.
Proof. intros H. unfold wrap. symmetry. apply (Z.mod_unique_pos _ _ (-1)); lia. Qed.

Lemma ptr_err_small (e : Z) : - 2 ^ 31 <= e < 2 ^ 31 → PTR_ERR (ERR_PTR e) = e.
Proof.
  intros H. unfold PTR_ERR, ERR_PTR, swrap. change (32 - 1) with 31. destruct (decide (0 <= e)) as [He|He].
  - rewrite wrap_id by (unfold is_u; lia). rewrite Z.mod_small; lia.
  - rewrite u64_neg by lia. assert (E : e + 2 ^ 64 + 2 ^ 31 = (e + 2 ^ 31) + 2 ^ 32 * 2 ^ 32) by lia.
    rewrite E, Z.mod_add by lia. rewrite Z.mod_small; lia.
Qed.

(** ** The slot arrays *)

(** The memory of a virtual machine on the way to its two address spaces. *)
Record mem_growing (F : list Z) (m : vm_mem) : Prop := {
  mg_heap : heap_ok m.(mem_heap);
  mg_space : Forall (λ sp, space_ok sp.2) m.(spaces);
  mg_owns : vm_owns F m
}.

(** Freeing the address spaces leaves the blocks of the others. *)
Lemma free_spaces_holds (F : list Z) (m : vm_mem) :
  Forall (λ sp, space_ok sp.2) m.(spaces) → vm_owns F m → holds (mem_heap (free_spaces m)) F.
Proof.
  intros Hsp [Hs _ Hh]. apply free_all_spaces; [done|done|]. eapply holds_ext; [|exact Hh].
  intros p _. unfold vm_ptrs. rewrite !occ_app. lia.
Qed.

(** The loop over the address spaces. *)
Lemma alloc_spaces_ok (F : list Z) (n : nat) : ∀ (i : Z) (m : vm_mem),
  mem_growing F m →
  ∃ ok m', alloc_spaces n i m = (ok, m') ∧ mem_growing F m' ∧ (ok = true → length m'.(spaces) = (length m.(spaces) + n)%nat).
Proof.
  induction n as [|n IH]; intros i m [Hh Hsp [Ho1 Ho2 Ho3]]; cbn [alloc_spaces].
  - exists true, m. split; [done|]. split; [by split|]. intros _. lia.
  - assert (Hx : owns (mem_heap m) [] (mem_heap m)) by (split; [by apply extends_refl|constructor|by intros ?%elem_of_nil]).
    destruct (owns_alloc _ _ _ 0 Hx) as (p & h & -> & Hx').
    pose proof (holds_owns _ _ _ _ Hx' Ho3) as Hh'. assert (Hk : heap_ok h) by (eapply extends_heap_ok, Hx').
    destruct (Z.eqb_spec p 0) as [->|Hp].
    { exists false. eexists. split; [reflexivity|]. split; [|done]. split; [done|done|]. split; [done|done|].
      eapply holds_ext; [|exact Hh']. intros q Hq. rewrite !occ_app, occ_cons, occ_nil. replace (0 =? q) with false by lia. cbn [b2z]. done. }
    match goal with |- context [alloc_spaces n (i + 1) ?x] => set (m1 := x) end.
    set (sl := vmrun_alloc_memslots <| generation := u64 (i * 2 - 150) |>).
    assert (Es : spaces m1 = spaces m ++ [(p, sl)]) by done. assert (Eh : mem_heap m1 = h) by done.
    destruct (IH (i + 1) m1) as (ok & m' & E & Hm & Hlen).
    + split; [by rewrite Eh|rewrite Es; apply Forall_app; split; [done|apply Forall_singleton, alloc_space_ok]|].
      split; [rewrite Es; apply Forall_app; split; [done|apply Forall_singleton, alloc_shape]
             |rewrite Es; apply Forall_app; split; [done|by apply Forall_singleton]|].
      rewrite Eh. eapply holds_ext; [|exact Hh']. intros q Hq. unfold vm_ptrs. rewrite Es, fmap_app, concat_app, !occ_app.
      rewrite occ_cons, occ_nil. change (concat (space_ptrs <$> [(p, sl)])) with ((p :: slots_ptrs (memslots sl)) ++ []).
      rewrite app_nil_r, occ_cons, (null_slots_ptrs _ q Hq : occ q (slots_ptrs (memslots sl)) = 0). lia.
    + exists ok, m'. split; [done|]. split; [done|]. intros Hok. rewrite (Hlen Hok), Es, length_app. cbn. lia.
Qed.

Lemma filter_id {A : Type} (P : A → Prop) `{!∀ x, Decision (P x)} (l : list A) : (∀ x, x ∈ l → P x) → filter P l = l.
Proof.
  induction l as [|x l IH]; intros Hl; [done|]. rewrite filter_cons_True by (apply Hl; by left). f_equal. apply IH. intros y Hy. apply Hl. by right.
Qed.

(* ------------------------------------------------------------------ *)
(** ** What a call leaves in the kernel *)

(** Everything but the CPUs is as it was; [leak] SRCU structures are lost. *)
Record left_as (leak : Z) (k k' : kernel) : Prop := {
  la_mm : k'.(k_mm) = k.(k_mm);
  la_count : ∀ mm, k'.(mm_count) mm = k.(mm_count) mm;
  la_vms : k'.(k_vms) = k.(k_vms);
  la_list : k'.(vm_list) = k.(vm_list);
  la_notifiers : k'.(mmu_notifiers) = k.(mmu_notifiers);
  la_preempt : k'.(preempt_users) = k.(preempt_users);
  la_srcu : k'.(srcu_structs) = k.(srcu_structs) + leak;
  la_files : k'.(vm_files) = k.(vm_files)
}.

(** The virtual machine [v] at [vm] was added. *)
Record added (vm : Z) (v : vmrun_vm) (k k' : kernel) : Prop := {
  ad_mm : k'.(k_mm) = k.(k_mm);
  ad_count : ∀ mm, k'.(mm_count) mm = k.(mm_count) mm + (if mm =? k.(k_mm) then 1 else 0);
  ad_vms : k'.(k_vms) = <[vm := v]> k.(k_vms);
  ad_list : k'.(vm_list) = vm :: k.(vm_list);
  ad_notifiers : k'.(mmu_notifiers) = (vm, k.(k_mm)) :: k.(mmu_notifiers);
  ad_preempt : k'.(preempt_users) = k.(preempt_users) + 1;
  ad_srcu : k'.(srcu_structs) = k.(srcu_structs) + 2;
  ad_files : k'.(vm_files) = k.(vm_files)
}.

(** A virtual machine with one user, without VCPUs. *)
Record fresh (mm : Z) (F : list Z) (v : vmrun_vm) : Prop := {
  fs_mm : v.(lv_mm) = mm;
  fs_users : v.(lv_vcpus).(users_count) = 1;
  fs_vcpus : v.(lv_vcpus).(online_vcpus) = 0;
  fs_mem : vm_ok v.(lv_mem);
  fs_owns : vm_owns F v.(lv_mem);
  fs_track : v.(lv_track) = {| track_notifier_list := [mmu_sp_tracker]; track_srcu := Some 0 |}
}.

Lemma mm_ref_count (mm d : Z) (k : kernel) (m : Z) : (mm_ref mm d k).(mm_count) m = k.(mm_count) m + (if m =? mm then d else 0).
Proof. cbn. destruct (m =? mm); lia. Qed.

(** The references that were taken before the first [goto] are given back. *)
Lemma undone (vm leak : Z) (v : vmrun_vm) (k k1 : kernel) :
  k.(k_vms) !! vm = None → left_as leak (mm_ref k.(k_mm) 1 (k <| k_vms ::= <[vm := v]> |>)) k1 →
  left_as leak k (mm_ref k1.(k_mm) (- 1) (k1 <| k_vms ::= delete vm |>)).
Proof.
  intros Hv [A1 A2 A3 A4 A5 A6 A7 A8]. cbn in A1, A3, A4, A5, A6, A7, A8. split; try done.
  - intros mm. rewrite mm_ref_count. change (mm_count (k1 <| k_vms ::= delete vm |>) mm) with (mm_count k1 mm). rewrite A2, mm_ref_count, A1.
    change (mm_count (k <| k_vms ::= <[vm:=v]> |>) mm) with (mm_count k mm). destruct (mm =? k_mm k); lia.
  - cbn. rewrite A3, delete_insert_id; done.
Qed.

Section Lifecycle.
Context `{X : X86} `{KM : KvmMmuPages}.
Context (hw : Z → cpu_hw) (iopm_base : Z).
Context (mmu_reset mmu_setup : vmrun_vcpu → vmrun_mmu) (mmu_free_valid_roots : vmrun_vcpu → vmrun_vcpu).
Context (have_readonly largepages_enabled : bool) (access_ok : Z → Z → bool).

Notation dev_ioctl := (vmrun_dev_ioctl_create_vm mmu_free_valid_roots have_readonly largepages_enabled access_ok).
Notation put := (put_vmrun mmu_free_valid_roots have_readonly largepages_enabled access_ok).

(** C18: no virtual machine can be created.  Whatever [type] is,
    [vmrun_create_vm] takes the error path, since the [goto] is not part of
    the [if]: it gives everything back and returns an error pointer made from
    -ENOMEM, -EINVAL or, for the only valid type 0, from an uninitialised
    variable.  When that variable holds no error number, the ioctl goes on and
    installs a file whose virtual machine is that number. *)
Theorem create_vm_never_succeeds (cenv : create_env) (lm : vmrun_vcpu → bool) (env : vm_env) (type : Z) (k : kernel) :
  k.(k_vms) !! env.(ve_vm) = None →
  ∃ v k', vmrun_create_vm env type k =
            Some (ERR_PTR (if env.(ve_vm) =? 0 then - ENOMEM else if truth type then - EINVAL else env.(ve_r)), v, k') ∧
    left_as 0 k k' ∧ k'.(k_svm) = k.(k_svm) ∧
    (env.(ve_vm) = 0 → dev_ioctl cenv lm env type k = Some (- ENOMEM, k')) ∧
    (env.(ve_vm) ≠ 0 → type ≠ 0 → dev_ioctl cenv lm env type k = Some (- EINVAL, k')) ∧
    (env.(ve_vm) ≠ 0 → type = 0 → - MAX_ERRNO <= env.(ve_r) < 0 → dev_ioctl cenv lm env type k = Some (env.(ve_r), k')) ∧
    (env.(ve_vm) ≠ 0 → type = 0 → 0 <= env.(ve_r) < 2 ^ 31 → 0 <= env.(ve_fd) → env.(ve_file) = 0 →
       ∃ k2, dev_ioctl cenv lm env type k = Some (env.(ve_fd), k2) ∧ k2.(vm_files) !! env.(ve_fd) = Some env.(ve_r) ∧
             k2.(k_vms) = k.(k_vms)).
Proof using Type.
  intros Hv. unfold vmrun_dev_ioctl_create_vm, vmrun_create_vm.
  destruct (Z.eqb_spec (ve_vm env) 0) as [H0|H0].
  - eexists _, _. split; [reflexivity|]. split; [split; try done; lia|]. split; [done|]. cbn [mbind option_bind].
    change (IS_ERR (ERR_PTR (- ENOMEM))) with true. change (PTR_ERR (ERR_PTR (- ENOMEM))) with (- ENOMEM). by split_and!.
  - eexists _, _. split; [reflexivity|]. split.
    { apply (undone _ _ (new_vmrun k.(k_mm) env.(ve_heap))); [done|]. split; try done. cbn. lia. }
    split; [done|]. split; [done|]. cbn [mbind option_bind]. split_and!.
    + intros _ Ht. rewrite truth_nonzero by done. change (IS_ERR (ERR_PTR (- EINVAL))) with true. done.
    + intros _ -> Hr. change (truth 0) with false. cbn iota. assert (E1 : IS_ERR (ERR_PTR (ve_r env)) = true).
      { unfold IS_ERR, ERR_PTR. rewrite Z.geb_le. unfold MAX_ERRNO in *. rewrite !u64_neg by lia. lia. }
      unfold out_err_no_disable. rewrite E1. assert (E2 : PTR_ERR (ERR_PTR (ve_r env)) = ve_r env).
      { apply ptr_err_small. unfold MAX_ERRNO in *. lia. }
      by rewrite E2.
    + intros _ -> Hr Hfd Hfile. change (truth 0) with false. cbn iota.
      assert (E1 : IS_ERR (ve_r env) = false) by (unfold IS_ERR; rewrite Z.geb_leb; apply Z.leb_gt; change (u64 (- MAX_ERRNO)) with (2^64 - 4095); lia).
      unfold out_err_no_disable, ERR_PTR. rewrite wrap_id by (unfold is_u; lia). rewrite E1. rewrite (proj2 (Z.ltb_ge _ _) Hfd), Hfile. change (truth 0) with false. cbn iota. eexists. split; [reflexivity|]. cbn. split; [apply lookup_insert_eq|].
      by rewrite delete_insert_id.
Qed.

(** ** The statements that are not reached *)

(** Those after the [goto] add a virtual machine, or give back all but the SRCU
    structure of the page trackers. *)
Definition create_outcome (n : Z) (F : list Z) (env : vm_env) (k : kernel) (p : Z) (v : vmrun_vm) (k' : kernel) : Prop :=
  (p = env.(ve_vm) ∧ added p v k k' ∧ fresh k.(k_mm) F v ∧ svm_users hw (n + 1, k'.(k_svm))) ∨
  ∃ r, p = ERR_PTR r ∧ r ≠ 0 ∧ left_as 1 k k' ∧ svm_users hw (n, k'.(k_svm)) ∧ holds (mem_heap v.(lv_mem)) F.

Lemma create_rest_ok (n : Z) (F : list Z) (env : vm_env) (k : kernel) :
  k.(k_vms) !! env.(ve_vm) = None → heap_ok env.(ve_heap) → holds env.(ve_heap) F → svm_users hw (n, k.(k_svm)) → 0 <= n →
  let v := new_vmrun k.(k_mm) env.(ve_heap) in
  ∃ p v' k', create_vm_rest hw env env.(ve_vm) v (mm_ref k.(k_mm) 1 (k <| k_vms ::= <[env.(ve_vm) := v]> |>)) = Some (p, v', k') ∧
    create_outcome n F env k p v' k'.
Proof using Type.
  intros Hv Hh HF Hu Hn v. set (k0 := mm_ref _ _ _). unfold create_vm_rest.
  destruct (enable_all_spec hw (k_svm k) (su_inv _ _ Hu)) as (r & svm & E & O).
  pose proof (create_users hw n r (k_svm k) svm Hu E) as Hu1.
  change (k_svm (srcu_ref 1 k0)) with (k_svm k). rewrite E. cbn [mbind option_bind].
  assert (HL : left_as 1 k0 (srcu_ref 1 k0 <| k_svm := svm |>)) by by split.
  destruct (truth r) eqn:Hr.
  { eexists _, _, _. split; [reflexivity|]. right. exists r. assert (r ≠ 0) by (intros ->; done).
    split; [done|]. split; [done|]. split; [apply (undone _ _ v k _ Hv HL)|].
    rewrite decide_False in Hu1 by done. split; [exact Hu1|]. exact HF. }
  apply truth_false in Hr as ->. rewrite decide_True in Hu1 by done.
  match goal with |- context [alloc_spaces ?n 0 ?m] => set (m0 := m); set (num := n) end.
  destruct (alloc_spaces_ok F num 0 m0) as (ok & m & -> & Hm & Hlen).
  { split; [done|constructor|]. split; [constructor|constructor|]. cbn. by rewrite app_nil_r. }
  destruct (destroy_users hw (n + 1) svm Hu1 ltac:(lia)) as (svm2 & Ed & Hu2). replace (n + 1 - 1) with n in Hu2 by lia.
  assert (Hno : ∀ r v' k1, r ≠ 0 → left_as 1 k0 k1 → k1.(k_svm) = svm → v'.(lv_mem) = m →
    ∃ p v2 k', out_err_no_srcu env.(ve_vm) v' r k1 = Some (p, v2, k') ∧ create_outcome n F env k p v2 k').
  { intros r v' k1 Hr HL1 Hs Em. unfold out_err_no_srcu. rewrite Hs, Ed. cbn [mbind option_bind]. eexists _, _, _. split; [reflexivity|]. right.
    exists r. split; [done|]. split; [done|]. split; [|split; [exact Hu2|]].
    - apply (undone _ _ v k _ Hv). by destruct HL1.
    - cbn. rewrite Em. apply free_spaces_holds; apply Hm. }
  destruct ok; cbn [negb]; [|by apply Hno]. destruct (truth (ve_srcu env)); [by apply Hno|].
  unfold vmrun_init_mmu_notifier. destruct (truth (ve_notifier env)) eqn:Hnt.
  { unfold out_err. apply Hno; [intros E0; by rewrite E0 in Hnt| |done|done]. split; try done. cbn. lia. }
  eexists _, _, _. split; [reflexivity|]. left. split; [done|]. split; [split; try done|split; [|exact Hu1]].
  - intros mm. exact (mm_ref_count (k_mm k) 1 (k <| k_vms ::= <[env.(ve_vm) := v]> |>) mm).
  - cbn. apply insert_insert_eq.
  - cbn. lia.
  - split; try done; [|apply Hm]. split; [exact (Hlen eq_refl)|apply Hm|apply Hm].
Qed.

(** ** The release *)

(** The private slot is deleted, when the process that created the virtual
    machine closes it; whatever comes of it, the slots stay in order. *)
Lemma destroy_region_ok (F : list Z) (m : vm_mem) :
  vm_ok m → vm_owns F m →
  let m' := (__vmrun_set_memory_region_vm_destroy have_readonly largepages_enabled access_ok (inl 0)
               VMRUN_IDENTITY_PAGETABLE_PRIVATE_MEMSLOT 0 0 m).2 in vm_ok m' ∧ vm_owns F m'.
Proof using Type.
  intros Hm Ho. cbv zeta. unfold __vmrun_set_memory_region_vm_destroy.
  change (VMRUN_IDENTITY_PAGETABLE_PRIVATE_MEMSLOT >=? VMRUN_MEM_SLOTS_NUM) with false. cbn iota zeta. change (negb (0 =? 0)) with false. cbn iota.
  assert (Hstep : ∀ mem vm, region_typed mem → vm_ok vm → vm_owns F vm →
    let vm' := (__vmrun_set_memory_region have_readonly largepages_enabled access_ok mem vm).2 in vm_ok vm' ∧ vm_owns F vm').
  { intros mem vm Ht H1 H2. pose proof (region_outcome_of have_readonly largepages_enabled access_ok mem vm H1 Ht) as Hr.
    destruct (__vmrun_set_memory_region _ _ _ _ _) as [r vm']. cbn [snd]. split; [by eapply region_outcome_ok|by eapply region_outcome_owns]. }
  destruct (_ =? 0); [done|].
  match goal with |- context [__vmrun_set_memory_region _ _ _ ?mem m] => pose proof (Hstep mem m) as H1 end.
  destruct (__vmrun_set_memory_region _ _ _ _ m) as [r1 m1]. cbn [snd] in H1. destruct H1 as [H1 H2]; [split; by split|done|done|].
  destruct (r1 <? 0); [done|].
  match goal with |- context [__vmrun_set_memory_region _ _ _ ?mem m1] => pose proof (Hstep mem m1) as H3 end.
  destruct (__vmrun_set_memory_region _ _ _ _ m1) as [r2 m2]. cbn [snd] in H3. destruct H3 as [H3 H4]; [split; by split|done|done|].
  by destruct (r2 <? 0).
Qed.

(** Freeing the VCPUs, none of which is in an ioctl. *)
Lemma free_vcpus_ok (cenv : create_env) (lm : vmrun_vcpu → bool) (vs : list vmrun_vcpu) (c : vm_vcpus) :
  table_of vs c → Forall (λ v, v.(mutex) = false) vs →
  ∃ vs' c', mapM (vmrun_vcpu_unload_mmu mmu_free_valid_roots cenv) vs = Some vs' ∧
    vmrun_free_vcpus mmu_free_valid_roots cenv lm c = Some c' ∧ c'.(users_count) = c.(users_count) ∧ table_of [] c' ∧
    c'.(res).(live_vcpus) = c.(res).(live_vcpus) - Z.of_nat (length vs) ∧
    c'.(res).(live_pages) = c.(res).(live_pages) - 3 * Z.of_nat (length vs) - Z.of_nat (length (filter (λ v, lm v = true) vs')).
Proof using Type.
  intros T Hm. unfold vmrun_free_vcpus. rewrite (for_each_table vs c T).
  assert (Hvs : ∃ vs', mapM (vmrun_vcpu_unload_mmu mmu_free_valid_roots cenv) vs = Some vs' ∧ length vs' = length vs).
  { clear T. induction Hm as [|v vs Hv _ (vs' & IH & Hl)]; [by exists []|].
    assert (Hone : ∃ v', vmrun_vcpu_unload_mmu mmu_free_valid_roots cenv v = Some v').
    { unfold vmrun_vcpu_unload_mmu, vmrun_vcpu_load. rewrite Hv. by eexists. }
    destruct Hone as [v' Ev]. exists (v' :: vs'). split; [|cbn; by rewrite Hl]. cbn [mapM]. by rewrite Ev, IH. }
  destruct Hvs as (vs' & E & Hl). rewrite E. cbn [mbind option_bind]. eexists _, _. split; [reflexivity|]. split; [reflexivity|].
  split; [done|]. split.
  - split; cbn; [|done|lia|constructor|constructor]. rewrite (tb_vcpus _ _ T), (tb_online _ _ T), Nat2Z.id, drop_app_length' by (by rewrite length_fmap).
    pose proof (tb_bound _ _ T). rewrite <- replicate_add. f_equal. lia.
  - cbn [res put]. rewrite <- Hl. clear E Hl T Hm. generalize (res c). induction vs' as [|v vs' IH]; intros r; cbn [foldl length]; [cbn; lia|].
    destruct (IH (vmrun_vcpu_free (lm v) v r)) as [H1 H2]. rewrite H1, H2. destruct (lm v) eqn:El.
    + rewrite filter_cons_True by done. cbn. lia.
    + rewrite filter_cons_False by (by rewrite El). cbn. lia.
Qed.

(** The kernel without the virtual machine [v] at [vm]. *)
Record removed (vm : Z) (v : vmrun_vm) (k k' : kernel) : Prop := {
  rm_mm : k'.(k_mm) = k.(k_mm);
  rm_count : ∀ mm, k'.(mm_count) mm = k.(mm_count) mm - (if mm =? v.(lv_mm) then 1 else 0);
  rm_vms : k'.(k_vms) = delete vm k.(k_vms);
  rm_list : k'.(vm_list) = filter (λ a, a ≠ vm) k.(vm_list);
  rm_notifiers : k'.(mmu_notifiers) = filter (λ p, p ≠ (vm, v.(lv_mm))) k.(mmu_notifiers);
  rm_preempt : k'.(preempt_users) = k.(preempt_users) - 1;
  rm_srcu : k'.(srcu_structs) = k.(srcu_structs) - 2;
  rm_files : k'.(vm_files) = k.(vm_files)
}.

(** C17: dropping a reference to a virtual machine.  While there are others,
    [vmrun_put_vmrun] only counts.  With the last one the virtual machine goes,
    and everything it had is given back: its entry among the machines, its
    place in the list, its notifier, the reference to its address space, its
    preemption notifier, both SRCU structures and its use of SVM; every slot
    array and every block of its slots is freed and nothing else, so that the
    heap holds exactly the blocks [F] of the others; and each VCPU is freed with
    three of its pages and the second root page it may have.  The VCPUs are in
    no ioctl, and nobody is inside the page trackers. *)
Theorem release_correct (cenv : create_env) (lm : vmrun_vcpu → bool) (n : Z) (F : list Z) (vm : Z) (v : vmrun_vm) (vs : list vmrun_vcpu) (k : kernel) :
  k.(k_vms) !! vm = Some v → vm_ok v.(lv_mem) → vm_owns F v.(lv_mem) → table_of vs v.(lv_vcpus) → Forall (λ c, c.(mutex) = false) vs →
  v.(lv_track).(track_srcu) = Some 0 → svm_users hw (n, k.(k_svm)) → 0 < n →
  if decide (v.(lv_vcpus).(users_count) = 1) then
    ∃ v' k' vs', put cenv lm vm k = Some (Some v', k') ∧ removed vm v k k' ∧ svm_users hw (n - 1, k'.(k_svm)) ∧
      holds (mem_heap v'.(lv_mem)) F ∧ table_of [] v'.(lv_vcpus) ∧
      v'.(lv_track) = {| track_notifier_list := filter (λ m, m ≠ mmu_sp_tracker) v.(lv_track).(track_notifier_list); track_srcu := None |} ∧
      mapM (vmrun_vcpu_unload_mmu mmu_free_valid_roots cenv) vs = Some vs' ∧
      let r := v.(lv_vcpus).(res) in let r' := v'.(lv_vcpus).(res) in
      r'.(live_vcpus) = r.(live_vcpus) - Z.of_nat (length vs) ∧
      r'.(live_pages) = r.(live_pages) - 3 * Z.of_nat (length vs) - Z.of_nat (length (filter (λ v, lm v = true) vs'))
  else put cenv lm vm k = Some (None, k <| k_vms ::= <[vm := v <| lv_vcpus ::= λ c, c <| users_count ::= λ n, n - 1 |> |>]> |>).
Proof using Type.
  intros Hv Hm Ho T Hmx Ht Hu Hn. unfold put_vmrun. rewrite Hv. cbn [mbind option_bind].
  match goal with |- context [users_count (lv_vcpus ?x)] => lazymatch x with v => fail | _ => set (v1 := x) end end.
  assert (Ec : users_count (lv_vcpus v1) = users_count (lv_vcpus v) - 1) by done.
  destruct (decide (users_count (lv_vcpus v) = 1)) as [E1|E1].
  2: { replace (users_count (lv_vcpus v1) =? 0) with false by lia. done. }
  replace (users_count (lv_vcpus v1) =? 0) with true by lia.
  unfold vmrun_destroy_vm. match goal with |- context [k_vms ?x !! _] => set (k1 := x) end.
  assert (Ek1 : k1.(k_vms) !! vm = Some v1) by (apply lookup_insert_eq). rewrite Ek1. cbn [mbind option_bind]. cbv zeta.
  match goal with |- context [vmrun_free_vcpus _ _ _ (lv_vcpus ?x)] => set (v2 := x) end.
  assert (H2 : vm_ok v2.(lv_mem) ∧ vm_owns F v2.(lv_mem) ∧ v2.(lv_vcpus) = v1.(lv_vcpus) ∧ v2.(lv_track) = v.(lv_track)).
  { unfold v2. destruct (_ =? _); [|done]. destruct (destroy_region_ok F v.(lv_mem) Hm Ho) as [A B]. by split_and!. }
  clearbody v2. destruct H2 as (Hm2 & Ho2 & Ev2 & Et2). rewrite Ev2.
  assert (T1 : table_of vs v1.(lv_vcpus)) by (by destruct T).
  destruct (free_vcpus_ok cenv lm vs v1.(lv_vcpus) T1 Hmx) as (vs' & c' & Em & -> & _ & T' & R1 & R2). cbn [mbind option_bind].
  unfold vmrun_mmu_uninit_vm, vmrun_page_track_unregister_notifier. rewrite Et2, Ht. cbn [mbind option_bind].
  destruct (destroy_users hw n _ Hu ltac:(lia)) as (svm & Ed & Hu2).
  match goal with |- context [vmrun_cpu_disable_all ?c] => change c with (k_svm k) end. rewrite Ed. cbn [mbind option_bind].
  eexists _, _, vs'. split; [reflexivity|]. split; [|split; [exact Hu2|split; [|split; [exact T'|split; [|by split_and!]]]]].
  - split; cbn; try done; try lia.
    + intros mm. destruct (mm =? lv_mm v); lia.
    + by rewrite delete_insert_eq.
  - apply (free_spaces_holds F v2.(lv_mem)); [apply Hm2|done].
  - cbn. unfold vmrun_page_track_cleanup. cbn. by rewrite Ht.
Qed.
End Lifecycle.

(* ------------------------------------------------------------------ *)
(** ** The module *)

(** Everything that [vmrun_init] takes, but the data of the CPUs, is free. *)
Record module_clean (m : module_state) : Prop := {
  mc_cpumask : m.(md_cpumask) = false;
  mc_iopm : m.(md_iopm) = 0;
  mc_pages : m.(md_iopm_pages) = None;
  mc_notifier : m.(md_cpu_notifier) = false;
  mc_misc : m.(md_misc) = false
}.

Section Module.
Context (possible : list Z) (me : Z).

(** The data of a CPU is there when it was before, or its two allocations
    succeeded. *)
Definition allocated (env : init_env) (cpu : Z) : bool := env.(ie_kzalloc) cpu && bool_decide (is_Some (env.(ie_save) cpu)).

Lemma setup_cpus_ok (env : init_env) (l : list Z) (s : svm_state) :
  ∃ r s', setup_cpus env l s = (r, s') ∧ (r = 0 ∨ r = - ENOMEM) ∧
    s' = s <| local_cpu_data := s'.(local_cpu_data) |> ∧
    if decide (r = 0) then (∀ c, c ∈ l → allocated env c = true) ∧ ∀ c, is_Some (s'.(local_cpu_data) !! c) ↔ c ∈ l ∨ is_Some (s.(local_cpu_data) !! c)
    else ∃ l1 cpu l2, l = l1 ++ cpu :: l2 ∧ (∀ c, c ∈ l1 → allocated env c = true) ∧ allocated env cpu = false ∧
         ∀ c, is_Some (s'.(local_cpu_data) !! c) ↔ c ∈ l1 ∨ is_Some (s.(local_cpu_data) !! c).
Proof using Type.
  revert s. induction l as [|cpu l IH]; intros s; cbn [setup_cpus].
  - exists 0, s. split; [done|]. split; [by left|]. split; [done|]. cbn. split; [by intros c ?%elem_of_nil|].
    intros c. rewrite elem_of_nil. tauto.
  - unfold vmrun_cpu_setup. destruct (ie_kzalloc env cpu) eqn:Ek; cbn [negb].
    2: { exists (- ENOMEM), s. split; [done|]. split; [by right|]. split; [done|]. cbn. exists [], cpu, l. split; [done|].
         split; [by intros c ?%elem_of_nil|]. split; [by unfold allocated; rewrite Ek|]. intros c. rewrite elem_of_nil. tauto. }
    destruct (ie_save env cpu) as [pfn|] eqn:Es.
    2: { exists (- ENOMEM), s. split; [done|]. split; [by right|]. split; [done|]. cbn. exists [], cpu, l. split; [done|].
         split; [by intros c ?%elem_of_nil|]. split; [unfold allocated; rewrite Ek, Es; reflexivity|]. intros c. rewrite elem_of_nil. tauto. }
    assert (Ha : allocated env cpu = true) by (unfold allocated; rewrite Ek, Es; reflexivity).
    change (truth 0) with false. cbn iota. match goal with |- context [setup_cpus env l ?x] => set (s1 := x) end.
    assert (Hs1 : ∀ c, is_Some (s1.(local_cpu_data) !! c) ↔ c = cpu ∨ is_Some (s.(local_cpu_data) !! c)).
    { intros c. cbn. rewrite lookup_insert_is_Some. split; [intros [->|[_ ?]]; auto|].
      intros [->|?]; [by left|]. destruct (decide (cpu = c)); auto. }
    destruct (IH s1) as (r & s' & E & Hr & Hf & H). exists r, s'. split; [done|]. split; [done|]. split; [exact Hf|].
    destruct (decide (r = 0)).
    + destruct H as [H1 H2]. split; [intros c [->|?]%elem_of_cons; auto|]. intros c. rewrite H2, Hs1, elem_of_cons. tauto.
    + destruct H as (l1 & cpu' & l2 & -> & H1 & H2 & H3). exists (cpu :: l1), cpu', l2. split; [done|].
      split; [intros c [->|?]%elem_of_cons; auto|]. split; [done|]. intros c. rewrite H3, Hs1, elem_of_cons. tauto.
Qed.

Lemma unsetup_cpus_ok (s : svm_state) :
  unsetup_cpus possible me s = if bool_decide (possible = []) then s else s <| local_cpu_data ::= delete me |>.
Proof using Type.
  unfold unsetup_cpus. destruct possible as [|c l]; [done|]. cbn [foldl bool_decide decide_rel]. rewrite bool_decide_eq_false_2 by done.
  unfold vmrun_cpu_unsetup at 2. set (s1 := s <| local_cpu_data ::= delete me |>).
  assert (H : vmrun_cpu_unsetup me c s1 = s1) by (unfold vmrun_cpu_unsetup, s1; cbn; by rewrite delete_delete_eq).
  clearbody s1. revert H. generalize c at 1. clear. intros c. induction l as [|d l IH]; intros H; cbn [foldl]; [done|].
  change (vmrun_cpu_unsetup me d s1) with (vmrun_cpu_unsetup me c s1). rewrite H. by apply IH.
Qed.

Lemma disable_data (l : list Z) (s : svm_state) :
  (foldl (λ s cpu, vmrun_cpu_disable_nolock cpu s) s l).(local_cpu_data) = s.(local_cpu_data).
Proof using Type.
  revert s. induction l as [|c l IH]; intros s; cbn [foldl]; [done|]. rewrite IH. unfold vmrun_cpu_disable_nolock. by destruct (decide _).
Qed.

(** C19: loading and unloading the module.  A load that succeeds has the data
    of every CPU, the I/O permission map with every bit set, the notifier and
    the device; a load that fails gives all that back, and an unload too,
    except the data of CPUs: a failing CPU leaves the data of the CPUs before
    it, and later failures and the unload free only the data of the CPU they
    run on, since [vmrun_cpu_unsetup] ignores its argument. *)
Theorem module_load_unload (env : init_env) (m : module_state) :
  module_clean m → m.(md_svm).(local_cpu_data) = ∅ → me ∈ possible →
  ∃ r m', vmrun_init possible me env m = (r, m') ∧
    let data (m : module_state) c := is_Some (m.(md_svm).(local_cpu_data) !! c) in
    if decide (r = 0) then
      m'.(md_misc) = true ∧ m'.(md_cpu_notifier) = true ∧ m'.(md_cpumask) = true ∧ (∀ c, data m' c ↔ c ∈ possible) ∧
      (∃ map, m'.(md_iopm_pages) = Some map ∧ Z.of_nat (length map) = 0x4000 ∧ Forall (λ b, b = 0xff) map) ∧
      module_clean (vmrun_exit possible me m') ∧ (∀ c, data (vmrun_exit possible me m') c ↔ c ∈ possible ∧ c ≠ me)
    else module_clean m' ∧
      ((env.(ie_cpumask) = false ∨ env.(ie_iopm) = None) ∧ (∀ c, ¬ data m' c) ∨
       (∃ l1 cpu l2, possible = l1 ++ cpu :: l2 ∧ allocated env cpu = false ∧ ∀ c, data m' c ↔ c ∈ l1) ∨
       (env.(ie_notifier) ≠ 0 ∨ env.(ie_misc) ≠ 0) ∧ ∀ c, data m' c ↔ c ∈ possible ∧ c ≠ me).
Proof using Type.
  intros [C1 C2 C3 C4 C5] H0 Hme. unfold vmrun_init.
  assert (Hp : bool_decide (possible = []) = false) by (apply bool_decide_eq_false_2; intros E; by rewrite E in Hme; apply elem_of_nil in Hme).
  destruct (ie_cpumask env) eqn:E1; cbn [negb].
  2: { exists (- ENOMEM), m. split; [done|]. cbn. split; [by split|]. left. split; [by left|]. rewrite H0. intros c [? Hc]. by rewrite lookup_empty in Hc. }
  unfold vmrun_iopm_allocate. destruct (ie_iopm env) as [pfn|] eqn:E2.
  2: { exists (- ENOMEM). eexists. split; [reflexivity|]. cbn. split; [by split|]. left. split; [by right|]. rewrite H0. intros c [? Hc]. by rewrite lookup_empty in Hc. }
  change (truth 0) with false. cbn iota.
  match goal with |- context [setup_cpus env possible ?x] => set (s0 := x) end.
  destruct (setup_cpus_ok env possible s0) as (r & s' & -> & Hr & Hf & H).
  assert (Hs0 : ∀ c, ¬ is_Some (s0.(local_cpu_data) !! c)) by (intros c; cbn; rewrite H0, lookup_empty; by intros []).
  destruct (decide (r = 0)) as [->|Hr0].
  2: { destruct H as (l1 & cpu & l2 & Ep & H1 & H2 & H3). rewrite truth_nonzero by done. exists r. eexists. split; [reflexivity|].
       rewrite decide_False by done. split; [by split|]. right. left. exists l1, cpu, l2. split; [done|]. split; [done|]. intros c.
       cbn. rewrite H3. split; [intros [?|Hc]; [done|by apply Hs0 in Hc]|by left]. }
  change (truth 0) with false. cbn iota. destruct H as [_ H].
  assert (Hd : ∀ c, is_Some ((delete me s'.(local_cpu_data)) !! c) ↔ c ∈ possible ∧ c ≠ me).
  { intros c. rewrite lookup_delete_is_Some, H. split; [intros [? [?|Hc]]; [done|by apply Hs0 in Hc]|]. intros [? ?]. split; [done|by left]. }
  destruct (truth (ie_notifier env)) eqn:E3.
  { exists (ie_notifier env). eexists. split; [reflexivity|]. assert (ie_notifier env ≠ 0) by (intros E; by rewrite E in E3).
    rewrite decide_False by done. split; [by split|]. right. right. split; [by left|]. intros c.
    unfold init_free_cpus. cbn. rewrite unsetup_cpus_ok, Hp. cbn. apply Hd. }
  destruct (truth (ie_misc env)) eqn:E4.
  { exists (ie_misc env). eexists. split; [reflexivity|]. assert (ie_misc env ≠ 0) by (intros E; by rewrite E in E4).
    rewrite decide_False by done. split; [by split|]. right. right. split; [by right|]. intros c.
    unfold init_free_hp, init_free_cpus. cbn. rewrite unsetup_cpus_ok, Hp. cbn. apply Hd. }
  apply truth_false in E4. rewrite E4. exists 0. eexists. split; [reflexivity|]. rewrite decide_True by done. cbv zeta.
  split; [done|]. split; [done|]. split; [done|]. split; [|split; [|split]].
  - intros c. cbn. rewrite H. split; [intros [?|Hc]; [done|by apply Hs0 in Hc]|by left].
  - eexists. split; [reflexivity|]. split; [by rewrite length_replicate|]. by apply Forall_replicate.
  - by split.
  - intros c. unfold vmrun_exit. cbn [md_svm free_cpumask vmrun_iopm_free]. cbn. rewrite unsetup_cpus_ok, Hp. cbn. unfold on_each_cpu.
    rewrite disable_data. apply Hd.
Qed.
End Module.

(** The MMU's part of the module.  [vmrun_mmu_module_init] gives 0 with
    both caches, the counter and the shrinker, or -ENOMEM with none: each cache
    that was created is destroyed again. *)
Theorem mmu_module_init_atomic (desc header counter : bool) (m : mmu_module) :
  m.(pte_list_desc_cache) = false → m.(mmu_page_header_cache) = false → m.(mm_counter) = false → m.(mm_shrinker) = false →
  ∃ r m', vmrun_mmu_module_init desc header counter m = (r, m') ∧
    let live m := b2z m.(pte_list_desc_cache) + b2z m.(mmu_page_header_cache) - m.(mm_destroyed) in
    if desc && header && counter
    then r = 0 ∧ live m' = live m + 2 ∧ m'.(mm_counter) = true ∧ m'.(mm_shrinker) = true ∧
         let m2 := vmrun_mmu_module_exit m' in live m2 = live m ∧ m2.(mm_counter) = false ∧ m2.(mm_shrinker) = false
    else r = - ENOMEM ∧ live m' = live m ∧ m'.(mm_counter) = false ∧ m'.(mm_shrinker) = false.
Proof.
  intros H1 H2 H3 H4. unfold vmrun_mmu_module_init, vmrun_mmu_module_exit, mmu_destroy_caches.
  destruct desc, header, counter; cbn [negb andb]; eexists _, _; (split; [reflexivity|]); cbn; rewrite ?H1, ?H2, ?H3, ?H4; cbn; repeat split; lia.
Qed.

(** ** Examples *)

Definition start_kernel : kernel :=
  {| k_svm := wit_svm [0; 1]; k_mm := 7; mm_count := λ _, 1; k_vms := ∅; vm_list := []; mmu_notifiers := []; preempt_users := 0;
     srcu_structs := 0; vm_files := ∅ |}.
Definition start_env (r : Z) : vm_env :=
  {| ve_vm := 0x1000; ve_r := r; ve_heap := start_heap []; ve_srcu := 0; ve_notifier := 0; ve_fd := 3; ve_file := 0 |}.

Lemma create_vm_never_succeeds_witness :
  ∃ k2, vmrun_dev_ioctl_create_vm (KM := kvm_mmu_pages) (λ v, v) true true (λ _ _, true) good_env (λ _, false) (start_env 0) 0 start_kernel = Some (3, k2) ∧
        k2.(vm_files) !! 3 = Some 0 ∧ k2.(k_vms) = ∅.
Proof.
  destruct (create_vm_never_succeeds (KM := kvm_mmu_pages) (λ v, v) true true (λ _ _, true) good_env (λ _, false) (start_env 0) 0 start_kernel)
    as (v & k' & _ & _ & _ & _ & _ & _ & H); [reflexivity|].
  exact (H ltac:(done) ltac:(done) ltac:(split; [done|reflexivity]) ltac:(done) ltac:(done)).
Defined.

(** A virtual machine with a slot of 16 pages and one VCPU, in a kernel where it
    is the only one. *)
Definition one_mem : vm_mem :=
  (vmrun_vm_ioctl_set_memory_region (K := kvm_mmu_pages) true true (λ _ _, true) example_region (fresh_vm (array_heap []) 0)).2.
Definition one_vm : vmrun_vm :=
  {| lv_mm := 7; lv_mem := one_mem;
     lv_vcpus := {| vcpus := Some wit_vcpu :: replicate (max_vcpus - 1) None; online_vcpus := 1; created_vcpus := 1; users_count := 1;
                    alive := true; res := wit_res |};
     lv_track := {| track_notifier_list := [mmu_sp_tracker]; track_srcu := Some 0 |} |}.
Definition one_kernel : kernel :=
  start_kernel <| k_svm := (default (0, wit_svm []) (vmrun_cpu_enable_all wit_hw (wit_svm [0; 1]))).2 |> <| k_vms := {[ 0x1000 := one_vm ]} |>
    <| vm_list := [0x1000] |> <| mmu_notifiers := [(0x1000, 7)] |> <| preempt_users := 1 |> <| srcu_structs := 2 |> <| mm_count := λ _, 2 |>
    <| vm_files := {[ 3 := 0x1000 ]} |>.

Lemma one_users : svm_users wit_hw (1, one_kernel.(k_svm)).
Proof.
  assert (H0 : svm_users wit_hw (0, wit_svm [0; 1])) by (split; [apply wit_svm_inv; apply (bool_decide_unpack _); reflexivity|done|done]).
  destruct (vmrun_cpu_enable_all wit_hw (wit_svm [0; 1])) as [[r svm]|] eqn:E; [|exfalso; revert E; vm_compute; discriminate].
  pose proof (create_users wit_hw 0 r _ svm H0 E) as H1. assert (r = 0) as -> by (revert E; vm_compute; congruence).
  rewrite decide_True in H1 by done. unfold one_kernel. rewrite E. exact H1.
Qed.

Lemma release_correct_witness :
  ∃ v' k', put_vmrun (KM := kvm_mmu_pages) (λ v, v) true true (λ _ _, true) good_env (λ _, false) 0x1000 one_kernel = Some (Some v', k') ∧
    k'.(k_vms) = ∅ ∧ length (map_to_list one_vm.(lv_mem).(mem_heap).(blocks)) = 8%nat ∧ holds v'.(lv_mem).(mem_heap) [] ∧ v'.(lv_vcpus).(res).(live_vcpus) = 0.
Proof.
  destruct (request_keeps (K := kvm_mmu_pages) true true (λ _ _, true) [] example_region (fresh_vm (array_heap []) 0)) as [Hok Ho];
    [apply fresh_vm_ok, array_heap_ok|apply fresh_vm_owns|apply example_region_typed|].
  pose proof (release_correct (KM := kvm_mmu_pages) wit_hw (λ v, v) true true (λ _ _, true) good_env (λ _, false) 1 [] 0x1000 one_vm [wit_vcpu] one_kernel) as H.
  destruct H as (v' & k' & vs' & E & R & _ & Hh & _ & _ & _ & Hl & _).
  - reflexivity.
  - exact Hok.
  - exact Ho.
  - split; cbn; try done; [unfold max_vcpus; apply Nat.leb_le; reflexivity|apply NoDup_singleton|by apply Forall_singleton].
  - by apply Forall_singleton.
  - reflexivity.
  - exact one_users.
  - lia.
  - exists v', k'. split; [exact E|]. split; [rewrite (rm_vms _ _ _ _ R); reflexivity|]. split; [vm_compute; reflexivity|]. split; [exact Hh|].
    rewrite Hl. reflexivity.
Defined.

Definition start_module : module_state :=
  {| md_svm := (wit_svm [0; 1]) <| local_cpu_data := ∅ |>; md_cpumask := false; md_iopm := 0; md_iopm_pages := None;
     md_cpu_notifier := false; md_misc := false; md_preempt_ops := false |}.
Definition start_init : init_env :=
  {| ie_cpumask := true; ie_iopm := Some 512; ie_kzalloc := λ _, true; ie_save := λ c, Some (256 + c); ie_notifier := 0; ie_misc := 0 |}.

Lemma module_load_unload_witness :
  ∃ m', vmrun_init [0; 1] 0 start_init start_module = (0, m') ∧ module_clean (vmrun_exit [0; 1] 0 m') ∧
        is_Some ((vmrun_exit [0; 1] 0 m').(md_svm).(local_cpu_data) !! 1).
Proof.
  destruct (module_load_unload [0; 1] 0 start_init start_module) as (r & m' & E & H).
  - by split.
  - reflexivity.
  - left.
  - assert (Hr : r = 0) by (change r with ((r, m').1); rewrite <- E; vm_compute; reflexivity). rewrite Hr in *. cbn in H.
    destruct H as (_ & _ & _ & _ & _ & Hc & Hd). exists m'. split; [exact E|]. split; [exact Hc|]. apply Hd. split; [|done]. right. left.
Defined.

Lemma mmu_module_init_atomic_witness :
  ∃ m', vmrun_mmu_module_init true false true
          {| mm_masks := zero_masks; pte_list_desc_cache := false; mmu_page_header_cache := false; mm_counter := false; mm_shrinker := false; mm_destroyed := 0 |}
        = (- ENOMEM, m') ∧ m'.(mm_destroyed) = 1.
Proof.
  destruct (mmu_module_init_atomic true false true
    {| mm_masks := zero_masks; pte_list_desc_cache := false; mmu_page_header_cache := false; mm_counter := false; mm_shrinker := false; mm_destroyed := 0 |})
    as (r & m' & E & Hr & Hl & _); [done..|].
  exists m'. rewrite Hr in E. split; [exact E|]. revert E. intros [= <-]. reflexivity.
Defined.
