(* ===== verification/GetPage.v ===== *)
(** * Shadow pages: allocation and syncing

    kernel/mmu.c: the memory caches of a VCPU, the search for a shadow page in
    the page hash and its allocation ([vmrun_mmu_get_page]), bringing pages
    that are out of sync up to date, and making room for new pages.

    [page_header] follows [page->private], which [vmrun_mmu_alloc_page] sets, so
    it is part of the state here and an argument of the operations of the other
    files; [va] is Linux's [__va].  The MMU lock is held. *)

From S2P Require Import Prelude.
From S2P Require Import Spte.
From S2P Require Import Memslots.
From S2P Require Import MemRegion.
From S2P Require Import PteList.
From S2P Require Import Rmap.
From S2P Require Import SlotWalk.
From S2P Require Import PageTrack.
From S2P Require Import ShadowPage.
From S2P Require Import SetSpte.
From S2P Require Import ZapPage.

Inductive vcpu_request := KVM_REQ_TLB_FLUSH | KVM_REQ_MMU_SYNC | KVM_REQ_TRIPLE_FAULT | KVM_REQ_APF_HALT.
#[export] Instance vcpu_request_eq_dec : EqDecision vcpu_request.
Proof. solve_decision. Defined.

(** The shadow pages with what a VCPU has at hand: its caches (that of the
    descriptors is in [dmem]) and its requests. *)
Record alloc_state := {
  al_zap : zap_state;
  al_header : Z → Z;               (* page->private, by virtual address *)
  al_pages : list Z;               (* mmu_page_cache *)
  al_headers : list Z;             (* mmu_page_header_cache *)
  al_requests : list vcpu_request;
  al_cache_miss : Z;               (* stat.mmu_cache_miss *)
  al_collisions : Z;               (* stat.max_mmu_page_hash_collisions *)
  al_recycled : Z                  (* stat.mmu_recycled *)
}.
#[export] Instance eta_alloc_state : Eta alloc_state := λ r,
  {| al_zap := r.(al_zap); al_header := r.(al_header); al_pages := r.(al_pages); al_headers := r.(al_headers);
     al_requests := r.(al_requests); al_cache_miss := r.(al_cache_miss); al_collisions := r.(al_collisions);
     al_recycled := r.(al_recycled) |}.

Definition al_shadow (st : alloc_state) : shadow_state := st.(al_zap).(zs_shadow).
Definition upd_shadow (f : shadow_state → shadow_state) (st : alloc_state) : alloc_state :=
  st <| al_zap ::= λ zs, zs <| zs_shadow ::= f |> |>.
Definition vmrun_make_request (r : vcpu_request) (st : alloc_state) : alloc_state := st <| al_requests ::= cons r |>.

(** ** The memory caches *)

Section Caches.
Context (capacity : nat).          (* ARRAY_SIZE(cache->objects) *)

Definition mmu_topup_memory_cache_page : nat → list (option Z) → list Z → Z * list (option Z) * list Z :=
  mmu_topup_memory_cache capacity.

Definition mmu_free_memory_cache_page (cache : list Z) : list Z * list Z := (cache, []).

(** New descriptors come zeroed. *)
Definition topup_descs (avail : list (option Z)) (m : desc_mem) : Z * desc_mem :=
  let '(r, _, cache) := mmu_topup_memory_cache capacity (Z.to_nat (8 + PTE_PREFETCH_NUM)) avail m.(desc_cache) in
  let fresh := take (length cache - length m.(desc_cache)) cache in
  (r, {| descs := foldr (λ q ds, <[q := zero_desc]> ds) m.(descs) fresh; desc_cache := cache |}).

(** [descs], [pages], [headers]: what the allocators give. *)
Definition mmu_topup_memory_caches (descs pages headers : list (option Z)) (st : alloc_state) : Z * alloc_state :=
  let '(r, m) := topup_descs descs (mmu (al_shadow st)).(dmem) in
  let st := upd_shadow (upd_mmu (λ s, s <| dmem := m |>)) st in
  if truth r then (r, st)
  else
    let '(r, _, cache) := mmu_topup_memory_cache_page 8 pages st.(al_pages) in
    let st := st <| al_pages := cache |> in
    if truth r then (r, st)
    else
      let '(r, _, cache) := mmu_topup_memory_cache capacity 4 headers st.(al_headers) in
      (r, st <| al_headers := cache |>).

(** The objects that are freed, of each kind. *)
Definition mmu_free_memory_caches (st : alloc_state) : list Z * list Z * list Z * alloc_state :=
  let '(descs, dc) := mmu_free_memory_cache (mmu (al_shadow st)).(dmem).(desc_cache) in
  let st := upd_shadow (upd_mmu (λ s, s <| dmem ::= λ m, foldr mmu_free_pte_list_desc (m <| desc_cache := dc |>) descs |>)) st in
  let '(pages, pc) := mmu_free_memory_cache_page st.(al_pages) in
  let '(headers, hc) := mmu_free_memory_cache st.(al_headers) in
  (descs, pages, headers, st <| al_pages := pc |> <| al_headers := hc |>).
End Caches.

(** ** Roles *)

(** [union vmrun_mmu_page_role] as a whole. *)
Record full_role := {
  fr_level : Z;
  fr_direct : bool;
  fr_smm : bool;
  fr_invalid : bool;
  fr_rest : page_role
}.
#[export] Instance eta_full_role : Eta full_role := λ r,
  {| fr_level := r.(fr_level); fr_direct := r.(fr_direct); fr_smm := r.(fr_smm); fr_invalid := r.(fr_invalid); fr_rest := r.(fr_rest) |}.
#[export] Instance full_role_eq_dec : EqDecision full_role.
Proof. solve_decision. Defined.

Definition sp_role (sp : mmu_page) (x : page_ext) : full_role :=
  {| fr_level := sp.(role_level); fr_direct := sp.(role_direct); fr_smm := sp.(role_smm); fr_invalid := x.(px_invalid);
     fr_rest := x.(px_role) |}.

(** What the VCPU's [arch.mmu] and its paging mode say. *)
Record vcpu_paging := {
  vp_base_role : full_role;
  vp_direct_map : bool;
  vp_root_level : Z;
  vp_shadow_root_level : Z;
  vp_pae : bool                    (* is_pae *)
}.

Definition PT32_PT_BITS : Z := 10.
Definition PT64_PT_BITS : Z := 9.

(** The role of the page that is asked for. *)
Definition wanted_role (vp : vcpu_paging) (gaddr level : Z) (direct : bool) (access : Z) : full_role :=
  let role := vp.(vp_base_role) in
  let role := role <| fr_level := level |> <| fr_direct := direct |> in
  let role := if direct then role <| fr_rest ::= λ r, r <| role_cr4_pae := false |> |> else role in
  let role := role <| fr_rest ::= λ r, r <| role_access := access |> |> in
  if negb vp.(vp_direct_map) && (vp.(vp_root_level) <=? PT32_ROOT_LEVEL) then
    let quadrant := Z.shiftr gaddr (PAGE_SHIFT + PT64_PT_BITS * level) in
    let quadrant := Z.land quadrant (Z.shiftl 1 ((PT32_PT_BITS - PT64_PT_BITS) * level) - 1) in
    role <| fr_rest ::= λ r, r <| role_quadrant := quadrant |> |>
  else role.

Section GetPage.
Context `{K : KvmPte} `{T : KvmTrack} (g : shadow_masks) (env : map_env) (va : Z → Z).
Context (gfn_to_memslot : bool → Z → vmrun_memory_slot) (role_gfn_to_memslot : bool → Z → option vmrun_memory_slot)
        (vcpu_gfn_to_memslot : Z → option vmrun_memory_slot).
Context (PT64_ROOT_MAX_LEVEL : nat).
(** [arch.mmu.sync_page]; the content of a page that was just allocated. *)
Context (vp : vcpu_paging) (sync_page : Z → alloc_state → option (Z * alloc_state)) (page_content : Z → list Z).

(** [page_header] of a physical address. *)
Definition al_page_of (st : alloc_state) (hpa : Z) : Z := st.(al_header) (va hpa).

Definition al_zap_page (a : Z) (st : alloc_state) : option (alloc_state * Z) :=
  '(zs, n) ← vmrun_mmu_prepare_zap_page g st.(al_header) (al_page_of st) gfn_to_memslot role_gfn_to_memslot
               PT64_ROOT_MAX_LEVEL a st.(al_zap);
  Some (st <| al_zap := zs |>, n).

Definition al_commit (st : alloc_state) : option alloc_state :=
  zs ← vmrun_mmu_commit_zap_page st.(al_zap); Some (st <| al_zap := zs |>).

(** ** Pages out of sync *)

Definition nonpaging_sync_page (a : Z) (st : alloc_state) : option (Z * alloc_state) := Some (0, st).

Definition __vmrun_sync_page (a : Z) (st : alloc_state) : option (bool * alloc_state) :=
  x ← (al_shadow st).(ss_ext) !! a;
  if negb (Bool.eqb x.(px_role).(role_cr4_pae) vp.(vp_pae)) then
    '(st, _) ← al_zap_page a st; Some (false, st)
  else
    '(r, st) ← sync_page a st;
    if r =? 0 then '(st, _) ← al_zap_page a st; Some (false, st) else Some (true, st).

Definition vmrun_mmu_flush_or_zap (remote_flush local_flush : bool) (st : alloc_state) : option alloc_state :=
  match st.(al_zap).(zs_invalid) with
  | _ :: _ => al_commit st
  | [] =>
      if remote_flush then Some (upd_shadow (upd_mmu flush_remote_tlbs) st)
      else if local_flush then Some (vmrun_make_request KVM_REQ_TLB_FLUSH st)
      else Some st
  end.

Definition vmrun_sync_page (a : Z) (st : alloc_state) : option (bool * alloc_state) :=
  s ← vmrun_unlink_unsync_page a (al_shadow st);
  __vmrun_sync_page a (upd_shadow (λ _, s) st).

(** [for_each_gfn_indirect_valid_sp]. *)
Fixpoint sync_pages_loop (gfn : Z) (l : list Z) (ret : bool) (st : alloc_state) : option (bool * alloc_state) :=
  match l with
  | [] => Some (ret, st)
  | a :: l =>
      sp ← (mmu (al_shadow st)).(pages) !! a;
      x ← (al_shadow st).(ss_ext) !! a;
      if negb (gfn_indirect_valid gfn (al_shadow st) sp x) then sync_pages_loop gfn l ret st
      else if negb x.(px_unsync) then sync_pages_loop gfn l ret st
      else
        let st := upd_shadow (sp_warn_if (negb (sp.(role_level) =? PT_PAGE_TABLE_LEVEL))) st in
        '(b, st) ← vmrun_sync_page a st;
        sync_pages_loop gfn l (ret || b) st
  end.

Definition hash_chain_of (gfn : Z) (st : alloc_state) : list Z :=
  default [] ((al_shadow st).(ss_hash) !! vmrun_page_table_hashfn env gfn).

Definition vmrun_sync_pages (gfn : Z) (st : alloc_state) : option (bool * alloc_state) :=
  sync_pages_loop gfn (hash_chain_of gfn st) false st.

Definition rmap_write_protect (gfn : Z) (st : alloc_state) : option (bool * alloc_state) :=
  slot ← vcpu_gfn_to_memslot gfn;
  '(m, b) ← vmrun_mmu_slot_gfn_write_protect g slot gfn (mmu (al_shadow st));
  Some (b, upd_shadow (set_mmu m) st).

(** The two loops over the vector in [mmu_sync_children]; the first walks the
    vector with the path too. *)
Fixpoint protect_vector (fuel : nat) (pvec : mmu_pages) (i : nat) (path : mmu_page_path) (protected : bool) (st : alloc_state)
    : option (alloc_state * bool * mmu_page_path) :=
  match fuel with
  | O => None
  | S fuel =>
      match pvec !! i with
      | None => Some (st, protected, path)
      | Some (a, _) =>
          sp ← (mmu (al_shadow st)).(pages) !! a;
          '(b, st) ← rmap_write_protect sp.(sp_gfn) st;
          '(i, path) ← mmu_pages_next pvec i (mmu (al_shadow st)) path;
          protect_vector fuel pvec i path (protected || b) st
      end
  end.

Fixpoint sync_vector (fuel : nat) (pvec : mmu_pages) (i : nat) (path : mmu_page_path) (flush : bool) (st : alloc_state)
    : option (alloc_state * bool * mmu_page_path) :=
  match fuel with
  | O => None
  | S fuel =>
      match pvec !! i with
      | None => Some (st, flush, path)
      | Some (a, _) =>
          '(b, st) ← vmrun_sync_page a st;
          s ← mmu_pages_clear_parents PT64_ROOT_MAX_LEVEL path (al_shadow st);
          let st := upd_shadow (λ _, s) st in
          '(i, path) ← mmu_pages_next pvec i (mmu s) path;
          sync_vector fuel pvec i path (flush || b) st
      end
  end.

(** [need_resched] or [spin_needbreak], then [cond_resched_lock]: [None] when
    neither asks for it. *)
Context (resched : alloc_state → option alloc_state).

Fixpoint sync_children_loop (fuel : nat) (parent : Z) (path : mmu_page_path) (flush : bool) (st : alloc_state) : option alloc_state :=
  match fuel with
  | O => None
  | S fuel =>
      '(s, pvec, ret) ← mmu_unsync_walk g (al_page_of st) parent (al_shadow st);
      let st := upd_shadow (λ _, s) st in
      if ret =? 0 then vmrun_mmu_flush_or_zap false flush st
      else
        '(i, path, s) ← mmu_pages_first pvec (al_shadow st) path;
        '(st, protected, path) ← protect_vector (S (length pvec)) pvec i path false (upd_shadow (λ _, s) st);
        let '(flush, st) := if protected : bool then (false, upd_shadow (upd_mmu flush_remote_tlbs) st) else (flush, st) in
        '(i, path, s) ← mmu_pages_first pvec (al_shadow st) path;
        '(st, flush, path) ← sync_vector (S (length pvec)) pvec i path flush (upd_shadow (λ _, s) st);
        match resched st with
        | Some _ =>
            st ← vmrun_mmu_flush_or_zap false flush st;
            st ← resched st;
            sync_children_loop fuel parent path false st
        | None => sync_children_loop fuel parent path flush st
        end
  end.

Definition mmu_sync_children (fuel : nat) (parent : Z) (st : alloc_state) : option alloc_state :=
  sync_children_loop fuel parent (new_path PT64_ROOT_MAX_LEVEL) false (st <| al_zap ::= local_list |>).

(** ** Allocation *)

(** Every field of a new header is zero. *)
Definition zero_ext : page_ext :=
  {| px_unsync := false; px_unsync_children := 0; px_bitmap := replicate (Z.to_nat PT64_ENT_PER_PAGE) false; px_parents := 0;
     px_root_count := 0; px_invalid := false; px_valid_gen := 0; px_flooding := 0;
     px_role := {| role_cr4_pae := false; role_access := 0; role_quadrant := 0; role_ad_disabled := false; role_other := 0 |} |}.

Definition set_page_private (spt a : Z) (header : Z → Z) : Z → Z :=
  λ p, if Z.shiftr p PAGE_SHIFT =? Z.shiftr spt PAGE_SHIFT then a else header p.

Definition vmrun_mmu_alloc_page (direct : bool) (st : alloc_state) : option (Z * alloc_state) :=
  '(a, headers) ← mmu_memory_cache_alloc st.(al_headers);
  '(spt, free) ← mmu_memory_cache_alloc st.(al_pages);
  '(gfns, free) ← (if direct then Some ([], free)
                    else '(p, free) ← mmu_memory_cache_alloc free; Some (page_content p, free));
  let st := st <| al_headers := headers |> <| al_pages := free |> in
  let sp := {| sp_spt := spt; sp_gfn := 0; sp_gfns := gfns; role_level := 0; role_direct := false; role_smm := false |} in
  let st := upd_shadow (λ s, upd_mmu (λ m, m <| pages ::= <[a := sp]> |>) (s <| ss_ext ::= <[a := zero_ext]> |>)) st in
  let st := st <| al_header ::= set_page_private spt a |> in
  let st := upd_shadow (λ s, s <| ss_active ::= cons a |>) st in
  Some (a, st <| al_zap ::= vmrun_mod_used_mmu_pages 1 |>).

Definition __clear_sp_write_flooding_count (a : Z) (s : shadow_state) : shadow_state :=
  upd_ext a (λ x, x <| px_flooding := 0 |>) s.

Definition clear_sp_write_flooding_count (sptep : Z) (st : alloc_state) : alloc_state :=
  upd_shadow (__clear_sp_write_flooding_count (st.(al_header) sptep)) st.

(** [sp->gfn = gfn; sp->role = role]. *)
Definition set_page_role (a gfn : Z) (role : full_role) (s : shadow_state) : shadow_state :=
  let s := upd_mmu (λ m, m <| pages ::= alter (λ sp, sp <| sp_gfn := gfn |> <| role_level := role.(fr_level) |>
                             <| role_direct := role.(fr_direct) |> <| role_smm := role.(fr_smm) |>) a |>) s in
  upd_ext a (λ x, x <| px_invalid := role.(fr_invalid) |> <| px_role := role.(fr_rest) |>) s.

(** [clear_page]. *)
Definition clear_page (spt : Z) (f : Z → Z) : Z → Z :=
  λ p, if (spt <=? p) && (p <? spt + 8 * PT64_ENT_PER_PAGE) then 0 else f p.

(** The loop over the hash chain: the page that was found, [need_sync] and the
    number of collisions.  [break] is [None] too. *)
Fixpoint get_page_loop (gfn : Z) (role : full_role) (l : list Z) (need_sync : bool) (collisions : Z) (st : alloc_state)
    : option (option Z * bool * Z * alloc_state) :=
  match l with
  | [] => Some (None, need_sync, collisions, st)
  | a :: l =>
      sp ← (mmu (al_shadow st)).(pages) !! a;
      x ← (al_shadow st).(ss_ext) !! a;
      if is_obsolete_sp (al_shadow st) x || x.(px_invalid) then get_page_loop gfn role l need_sync collisions st
      else if negb (sp.(sp_gfn) =? gfn) then get_page_loop gfn role l need_sync (collisions + 1) st
      else
        let need_sync := need_sync || x.(px_unsync) in
        if negb (bool_decide (sp_role sp x = role)) then get_page_loop gfn role l need_sync collisions st
        else
          '(ok, st) ← (if x.(px_unsync) then
                         '(ok, st) ← __vmrun_sync_page a st;
                         Some (ok, if ok : bool then
                                     vmrun_make_request KVM_REQ_TLB_FLUSH
                                       (upd_shadow (sp_warn_if (negb (bool_decide (st.(al_zap).(zs_invalid) = [])))) st)
                                   else st)
                       else Some (true, st));
          if negb ok then Some (None, need_sync, collisions, st)
          else
            x ← (al_shadow st).(ss_ext) !! a;
            let st := if truth x.(px_unsync_children) then vmrun_make_request KVM_REQ_MMU_SYNC st else st in
            Some (Some a, need_sync, collisions, upd_shadow (__clear_sp_write_flooding_count a) st)
  end.

Definition note_collisions (collisions : Z) (st : alloc_state) : alloc_state :=
  if collisions >? st.(al_collisions) then st <| al_collisions := collisions |> else st.

(** What is done for a page that has a guest page table behind it. *)
Definition shadow_guest_table (a gfn level : Z) (need_sync : bool) (st : alloc_state) : option (bool * alloc_state) :=
  sp ← (mmu (al_shadow st)).(pages) !! a;
  tk ← account_shadowed g role_gfn_to_memslot sp (al_shadow st).(ss_track);
  let st := upd_shadow (λ s, s <| ss_track := tk |>) st in
  st ← (if level =? PT_PAGE_TABLE_LEVEL then
          '(b, st) ← rmap_write_protect gfn st;
          Some (if b : bool then upd_shadow (upd_mmu flush_remote_tlbs) st else st)
        else Some st);
  if (level >? PT_PAGE_TABLE_LEVEL) && need_sync then vmrun_sync_pages gfn st else Some (false, st).

Definition vmrun_mmu_get_page (gfn gaddr level : Z) (direct : bool) (access : Z) (st : alloc_state) : option (Z * alloc_state) :=
  let role := wanted_role vp gaddr level direct access in
  let st := st <| al_zap ::= local_list |> in
  '(found, need_sync, collisions, st) ← get_page_loop gfn role (hash_chain_of gfn st) false 0 st;
  match found with
  | Some a => Some (a, note_collisions collisions st)
  | None =>
      let st := st <| al_cache_miss ::= λ n, n + 1 |> in
      '(a, st) ← vmrun_mmu_alloc_page direct st;
      let st := upd_shadow (set_page_role a gfn role) st in
      let st := upd_shadow (λ s, s <| ss_hash ::= partial_alter (λ c, Some (a :: default [] c)) (vmrun_page_table_hashfn env gfn) |>) st in
      '(flush, st) ← (if negb direct then shadow_guest_table a gfn level need_sync st else Some (false, st));
      let st := upd_shadow (λ s, upd_ext a (λ x, x <| px_valid_gen := s.(ss_valid_gen) |>) s) st in
      sp ← (mmu (al_shadow st)).(pages) !! a;
      let st := upd_shadow (upd_mmu (λ m, m <| ptes ::= clear_page sp.(sp_spt) |>)) st in
      st ← vmrun_mmu_flush_or_zap false flush st;
      Some (a, note_collisions collisions st)
  end.

(** ** Room for new pages *)

Context (KVM_MIN_FREE_MMU_PAGES KVM_REFILL_PAGES : Z).

Definition vmrun_mmu_available_pages (s : shadow_state) : Z :=
  if s.(ss_max) >? s.(ss_used) then u32 (s.(ss_max) - s.(ss_used)) else 0.

(** Every pass but the last takes a page off the list. *)
Fixpoint refill_loop (fuel : nat) (st : alloc_state) : option alloc_state :=
  match fuel with
  | O => None
  | S fuel =>
      if vmrun_mmu_available_pages (al_shadow st) <? KVM_REFILL_PAGES then
        '(zs, more) ← prepare_zap_oldest_mmu_page g st.(al_header) (al_page_of st) gfn_to_memslot role_gfn_to_memslot
                        PT64_ROOT_MAX_LEVEL st.(al_zap);
        let st := st <| al_zap := zs |> in
        if negb more then Some st else refill_loop fuel (st <| al_recycled ::= λ n, n + 1 |>)
      else Some st
  end.

Definition make_mmu_pages_available (st : alloc_state) : option (Z * alloc_state) :=
  let st := st <| al_zap ::= local_list |> in
  if vmrun_mmu_available_pages (al_shadow st) >=? KVM_MIN_FREE_MMU_PAGES then Some (0, st)
  else
    st ← refill_loop (S (length (al_shadow st).(ss_active))) st;
    st ← al_commit st;
    if negb (truth (vmrun_mmu_available_pages (al_shadow st))) then Some (- ENOSPC, st) else Some (0, st).
End GetPage.
