(* ===== verification/GetPageProps.v ===== *)
(** * Shadow pages: allocation, properties

    The invariant of the shadow pages of a virtual machine together with the
    caches of a VCPU; what filling the caches, finding or allocating a page of
    a direct map, and making room for new pages do to it. *)

From S2P Require Import Prelude.
From S2P Require Import Spte.
From S2P Require Import SpteTrack.
From S2P Require Import Memslots.
From S2P Require Import MemRegion.
From S2P Require Import MemRegionProps.
From S2P Require Import PteList.
From S2P Require Import PteListProps.
From S2P Require Import Rmap.
From S2P Require Import RmapProps.
From S2P Require Import SlotWalk.
From S2P Require Import PageTrack.
From S2P Require Import PageTrackProps.
From S2P Require Import ShadowPage.
From S2P Require Import ShadowPageProps.
From S2P Require Import MmuInv.
From S2P Require Import SetSpte.
From S2P Require Import SetSpteProps.
From S2P Require Import ZapPage.
From S2P Require Import ZapPageProps.
From S2P Require Import ZapUnsyncProps.
From S2P Require Import ZapProps.
From S2P Require Import GetPage.

(** The page of a table: aligned, in the address space. *)
Record good_table (q : Z) : Prop := {
  gt_ptr : is_ptr q;
  gt_aligned : q mod PAGE_SIZE = 0;
  gt_end : q + PAGE_SIZE <= 2 ^ 64
}.

Lemma table_bytes : 8 * PT64_ENT_PER_PAGE = PAGE_SIZE.
Proof. reflexivity. Qed.

(** Addresses inside a table have its page number. *)
Lemma same_table (q p : Z) : good_table q → Z.shiftr p PAGE_SHIFT = Z.shiftr q PAGE_SHIFT ↔ q <= p < q + PAGE_SIZE.
Proof.
  intros [_ Ha _]. rewrite !Z.shiftr_div_pow2 by done. change (2 ^ PAGE_SHIFT) with PAGE_SIZE in *.
  change PAGE_SIZE with 4096 in *. Z.div_mod_to_equations. lia.
Qed.

Lemma tables_apart (q q' p : Z) :
  good_table q → good_table q' → q ≠ q' → q <= p < q + PAGE_SIZE → ¬ q' <= p < q' + PAGE_SIZE.
Proof. intros [_ H1 _] [_ H2 _] Hne. change PAGE_SIZE with 4096 in *. Z.div_mod_to_equations. lia. Qed.

Lemma entry_range (sp : mmu_page) (p : Z) : entry_in sp p = true → sp.(sp_spt) <= p < sp.(sp_spt) + PAGE_SIZE.
Proof. unfold entry_in. rewrite table_bytes, !andb_true_iff, Z.leb_le, Z.ltb_lt. tauto. Qed.

Lemma private_eq (q a p : Z) (h : Z → Z) : good_table q → q <= p < q + PAGE_SIZE → set_page_private q a h p = a.
Proof. intros Hq Hp. unfold set_page_private. apply (same_table q p Hq), Z.eqb_eq in Hp. by rewrite Hp. Qed.

Lemma private_ne (q a p : Z) (h : Z → Z) : good_table q → ¬ q <= p < q + PAGE_SIZE → set_page_private q a h p = h p.
Proof.
  intros Hq Hp. unfold set_page_private. destruct (Z.eqb_spec (Z.shiftr p PAGE_SHIFT) (Z.shiftr q PAGE_SHIFT)) as [E|]; [|done].
  by apply (same_table q p Hq) in E.
Qed.

Lemma clear_page_in (q p : Z) (f : Z → Z) : q <= p < q + PAGE_SIZE → clear_page q f p = 0.
Proof.
  intros Hp. unfold clear_page. rewrite table_bytes. assert (E : (q <=? p) && (p <? q + PAGE_SIZE) = true); [|by rewrite E].
  rewrite andb_true_iff, Z.leb_le, Z.ltb_lt. lia.
Qed.

Lemma clear_page_out (q p : Z) (f : Z → Z) : ¬ q <= p < q + PAGE_SIZE → clear_page q f p = f p.
Proof.
  intros Hp. unfold clear_page. rewrite table_bytes. destruct (_ && _) eqn:E; [|done].
  rewrite andb_true_iff, Z.leb_le, Z.ltb_lt in E. lia.
Qed.

Section GetPage.
Context `{K : KvmPte} `{T : KvmTrack} (g : shadow_masks) (env : map_env) (va : Z → Z)
        (gfn_to_memslot : bool → Z → vmrun_memory_slot) (role_gfn_to_memslot : bool → Z → option vmrun_memory_slot)
        (vcpu_gfn_to_memslot : Z → option vmrun_memory_slot) (PT64_ROOT_MAX_LEVEL : nat).

Notation al_owner st := (owner_of g st.(al_header) (al_page_of va st) gfn_to_memslot (al_shadow st)).
Notation al_tables st LL DD := (shadow_ok g st.(al_header) (al_page_of va st) gfn_to_memslot LL DD (al_shadow st)).
Notation al_pools st :=
  (pools_ok g st.(al_header) (al_page_of va st) gfn_to_memslot role_gfn_to_memslot PT64_ROOT_MAX_LEVEL st.(al_zap)).

(** An entry that is not a leaf has the address of the table it points to. *)
Definition links_to_tables (st : alloc_state) : Prop :=
  ∀ p b sp, al_owner st p = Some (Pg b) → (mmu (al_shadow st)).(pages) !! b = Some sp →
    va (Z.land ((mmu (al_shadow st)).(ptes) p) PT64_BASE_ADDR_MASK) = sp.(sp_spt).

(** The objects in the caches are not in use. *)
Record caches_ok (st : alloc_state) : Prop := {
  ca_headers : NoDup st.(al_headers) ∧ ∀ a, a ∈ st.(al_headers) → a ≠ 0 ∧ (mmu (al_shadow st)).(pages) !! a = None;
  ca_pages : NoDup st.(al_pages) ∧ ∀ q, q ∈ st.(al_pages) → good_table q;
  ca_tables : ∀ b sp, (mmu (al_shadow st)).(pages) !! b = Some sp → good_table sp.(sp_spt) ∧ sp.(sp_spt) ∉ st.(al_pages)
}.

Record alloc_ok (st : alloc_state) : Prop := {
  ao_pools : al_pools st;
  ao_links : links_to_tables st;
  ao_caches : caches_ok st;
  ao_hash : ∀ i l a, (al_shadow st).(ss_hash) !! i = Some l → a ∈ l → is_Some ((mmu (al_shadow st)).(pages) !! a);
  ao_direct : ∀ a sp x, (mmu (al_shadow st)).(pages) !! a = Some sp → (al_shadow st).(ss_ext) !! a = Some x →
    sp.(role_direct) = true → x.(px_unsync) = false
}.

(* ------------------------------------------------------------------ *)
(** ** A new page *)

Record page_added (a : Z) (sp : mmu_page) (x : page_ext) (st st' : alloc_state) : Prop := {
  pa_header : st'.(al_header) = set_page_private sp.(sp_spt) a st.(al_header);
  pa_ptes : (mmu (al_shadow st')).(ptes) = clear_page sp.(sp_spt) (mmu (al_shadow st)).(ptes);
  pa_pages : (mmu (al_shadow st')).(pages) = <[a := sp]> (mmu (al_shadow st)).(pages);
  pa_ext : (al_shadow st').(ss_ext) = <[a := x]> (al_shadow st).(ss_ext);
  pa_heads : (mmu (al_shadow st')).(heads) = (mmu (al_shadow st)).(heads);
  pa_dmem : (mmu (al_shadow st')).(dmem) = (mmu (al_shadow st)).(dmem);
  pa_heap : (al_shadow st').(ss_track).(tk_heap) = (al_shadow st).(ss_track).(tk_heap);
  pa_active : (al_shadow st').(ss_active) = a :: (al_shadow st).(ss_active);
  pa_lists : st'.(al_zap).(zs_invalid) = st.(al_zap).(zs_invalid) ∧ st'.(al_zap).(zs_obsolete) = st.(al_zap).(zs_obsolete);
  pa_used : (al_shadow st').(ss_used) = u32 ((al_shadow st).(ss_used) + 1)
}.

(** The fields of a page without entries, parents or marks. *)
Record blank (x : page_ext) : Prop := {
  bk_unsync : x.(px_unsync) = false;
  bk_children : x.(px_unsync_children) = 0;
  bk_bitmap : x.(px_bitmap) = replicate (Z.to_nat PT64_ENT_PER_PAGE) false;
  bk_parents : x.(px_parents) = 0;
  bk_root : x.(px_root_count) = 0
}.

Section Added.
Context (a : Z) (sp : mmu_page) (x : page_ext) (st st' : alloc_state) (A : page_added a sp x st st').
Context (Hok : alloc_ok st) (Ha : a ≠ 0 ∧ (mmu (al_shadow st)).(pages) !! a = None) (Hq : good_table sp.(sp_spt)).
Context (Hfree : ∀ b spb, (mmu (al_shadow st)).(pages) !! b = Some spb → spb.(sp_spt) ≠ sp.(sp_spt)).

(** The entries of the pages that were there are elsewhere. *)
Lemma added_apart (b p : Z) (spb : mmu_page) :
  (mmu (al_shadow st)).(pages) !! b = Some spb → entry_in spb p = true → ¬ sp.(sp_spt) <= p < sp.(sp_spt) + PAGE_SIZE.
Proof using Hok Hq Hfree.
  intros Hb Hp. apply (tables_apart spb.(sp_spt)); [by apply (ca_tables _ (ao_caches _ Hok) b)|done|by apply (Hfree b)|by apply entry_range].
Qed.

Lemma added_value (spb : mmu_page) (b p : Z) :
  (mmu (al_shadow st)).(pages) !! b = Some spb → st.(al_header) p = b → entry_in spb p = true →
  value_owner g st'.(al_header) (al_page_of va st') gfn_to_memslot (al_shadow st') spb p ((mmu (al_shadow st')).(ptes) p) = al_owner st p.
Proof using A Hok Hq Hfree Ha.
  intros Hb Hh Hp. pose proof (added_apart b p spb Hb Hp) as Hout.
  pose proof (owner_at g st.(al_header) (al_page_of va st) gfn_to_memslot (al_shadow st) spb b p Hb Hh Hp) as Ho. rewrite Ho.
  assert (Hh' : st'.(al_header) p = b) by (rewrite (pa_header _ _ _ _ _ A), private_ne by done; done).
  assert (Hba : b ≠ a) by (intros ->; destruct Ha; congruence).
  assert (Hv : (mmu (al_shadow st')).(ptes) p = (mmu (al_shadow st)).(ptes) p) by (rewrite (pa_ptes _ _ _ _ _ A); by apply clear_page_out).
  rewrite Hv. unfold value_owner in *. destruct (is_shadow_present_pte g _) eqn:Hpr; [|done]. cbn [negb] in *.
  destruct (is_last_spte _ _) eqn:Hl.
  - f_equal. unfold spte_key. rewrite Hh', Hh, (pa_pages _ _ _ _ _ A), lookup_insert_ne by done. done.
  - do 2 f_equal. unfold al_page_of. rewrite (pa_header _ _ _ _ _ A).
    destruct (pl_tables _ _ _ _ _ _ _ (ao_pools _ Hok)) as (LL & DD & Hsh).
    destruct (en_live _ _ _ _ _ _ (sk_entries _ _ _ _ _ _ _ Hsh) _ _ Ho) as [y Hy].
    destruct (proj2 (en_dom _ _ _ _ _ _ (sk_entries _ _ _ _ _ _ _ Hsh) _) ltac:(by eexists)) as [spc Hc].
    apply private_ne; [done|]. rewrite (ao_links _ Hok p _ spc Ho Hc).
    apply (tables_apart spc.(sp_spt)); [by apply (ca_tables _ (ao_caches _ Hok) _ spc Hc)|done|by eapply Hfree|].
    change PAGE_SIZE with 4096. lia.
Qed.

Lemma added_owner (p : Z) : al_owner st' p = al_owner st p.
Proof using A Hok Hq Hfree Ha.
  destruct (decide (sp.(sp_spt) <= p < sp.(sp_spt) + PAGE_SIZE)) as [Hin|Hout].
  - assert (Hn : al_owner st p = None).
    { destruct (al_owner st p) as [o|] eqn:E; [|done]. destruct (owner_elim _ _ _ _ _ _ _ E) as (spb & Hb & Hp & _).
      by destruct (added_apart _ p spb Hb Hp). }
    rewrite Hn. unfold owner_of. rewrite (pa_header _ _ _ _ _ A), private_eq, (pa_pages _ _ _ _ _ A), lookup_insert_eq by done.
    cbn [mbind option_bind]. destruct (entry_in sp p); [|done]. unfold value_owner. rewrite (pa_ptes _ _ _ _ _ A), clear_page_in by done. done.
  - assert (Hh : st'.(al_header) p = st.(al_header) p) by (rewrite (pa_header _ _ _ _ _ A); by apply private_ne).
    destruct (decide (st.(al_header) p = a)) as [Hpa|Hpa].
    + unfold owner_of. rewrite Hh, Hpa, (pa_pages _ _ _ _ _ A), lookup_insert_eq. destruct Ha as [_ ->]. cbn [mbind option_bind].
      destruct (entry_in sp p) eqn:Hp; [|done]. by apply entry_range in Hp.
    + destruct ((mmu (al_shadow st)).(pages) !! st.(al_header) p) as [spb|] eqn:Hb.
      * unfold owner_of at 1. rewrite Hh, (pa_pages _ _ _ _ _ A), lookup_insert_ne, Hb by done. cbn [mbind option_bind].
        destruct (entry_in spb p) eqn:Hp; [by eapply added_value|]. unfold owner_of. rewrite Hb. cbn. by rewrite Hp.
      * unfold owner_of. by rewrite Hh, (pa_pages _ _ _ _ _ A), lookup_insert_ne, Hb.
Qed.

Context (Hx : blank x) (Hgfns : sp.(role_direct) = false → length sp.(sp_gfns) = Z.to_nat PT64_ENT_PER_PAGE).

Lemma added_live (o : owner) : owner_live (al_shadow st') o ↔ o = Pg a ∨ owner_live (al_shadow st) o.
Proof using A.
  destruct o as [k|b]; cbn; [split; [by right|done]|]. rewrite (pa_ext _ _ _ _ _ A). destruct (decide (b = a)) as [->|Hne].
  - rewrite lookup_insert_eq. split; [by left|by eexists].
  - rewrite lookup_insert_ne by done. split; [by right|]. by intros [[= ->]|?].
Qed.

Lemma added_head (o : owner) : o ≠ Pg a → owner_head (al_shadow st') o = owner_head (al_shadow st) o.
Proof using A.
  destruct o as [k|b]; cbn; intros Hne.
  - unfold head_of. by rewrite (pa_heads _ _ _ _ _ A).
  - rewrite (pa_ext _ _ _ _ _ A), lookup_insert_ne by congruence. done.
Qed.

Lemma added_tables (LL DD : owner → list Z) :
  al_tables st LL DD → al_tables st' (upd_owner LL (Pg a) []) (upd_owner DD (Pg a) []).
Proof using A Hok Hq Hfree Ha Hx Hgfns.
  intros [[L1 L2 L3] [E1 E2 E3 E4 E5] C U].
  assert (Hna : ¬ owner_live (al_shadow st) (Pg a)).
  { cbn. intros Hc%E2. destruct Ha as [_ Hn]. rewrite Hn in Hc. by destruct Hc. }
  assert (Hold : ∀ o, owner_live (al_shadow st') o → o ≠ Pg a → owner_live (al_shadow st) o) by (by intros o [->|?]%added_live).
  split.
  - split.
    + intros o Hl. rewrite (pa_dmem _ _ _ _ _ A). destruct (decide (o = Pg a)) as [->|Hne].
      * rewrite !upd_owner_eq. cbn. rewrite (pa_ext _ _ _ _ _ A), lookup_insert_eq. cbn.
        refine (eq_ind 0 (λ h, rmap_rep _ h [] []) _ _ (eq_sym (bk_parents _ Hx))). constructor.
      * rewrite !upd_owner_ne, added_head by done. apply L1. by apply Hold.
    + intros o o' q Hne Hl Hl'. destruct (decide (o = Pg a)) as [->|H1]; [rewrite upd_owner_eq; by intros ?%elem_of_nil|].
      rewrite upd_owner_ne by done. destruct (decide (o' = Pg a)) as [->|H2]; [rewrite upd_owner_eq; intros _; apply not_elem_of_nil|].
      rewrite upd_owner_ne by done. apply L2; auto.
    + intros o Hl. rewrite (pa_dmem _ _ _ _ _ A). destruct (decide (o = Pg a)) as [->|Hne].
      * rewrite upd_owner_eq. destruct (L3 (Rm (0, 0)) I) as [Hn Hz]. split; [|done]. by apply NoDup_app in Hn as (_ & _ & ?).
      * rewrite upd_owner_ne by done. apply L3. by apply Hold.
  - split.
    + intros b spb. rewrite (pa_pages _ _ _ _ _ A). intros [[<- <-]|[Hne Hb]]%lookup_insert_Some.
      * destruct Hq as [Q1 Q2 Q3]. split; [by rewrite table_bytes| |done].
        intros p Hp. rewrite (pa_header _ _ _ _ _ A). apply private_eq; [done|by apply entry_range].
      * destruct (E1 b spb Hb) as [P1 P2 P3]. split; [done| |done]. intros p Hp. rewrite (pa_header _ _ _ _ _ A), private_ne; [by apply P2|done|].
        by apply (added_apart b p spb).
    + intros b. rewrite (pa_pages _ _ _ _ _ A), (pa_ext _ _ _ _ _ A). destruct (decide (b = a)) as [->|Hne].
      * rewrite !lookup_insert_eq. split; intros _; by eexists.
      * rewrite !lookup_insert_ne by done. apply E2.
    + intros o p Hl. rewrite added_owner. destruct (decide (o = Pg a)) as [->|Hne].
      * rewrite upd_owner_eq. split; [by intros ?%elem_of_nil|]. intros Ho%E4. done.
      * rewrite upd_owner_ne by done. apply E3. by apply Hold.
    + intros o p. rewrite added_owner. intros Ho%E4. apply added_live. by right.
    + intros o Hl. destruct (decide (o = Pg a)) as [->|Hne]; [rewrite upd_owner_eq; constructor|].
      rewrite upd_owner_ne by done. apply E5. by apply Hold.
  - intros b y. rewrite (pa_ext _ _ _ _ _ A). intros [[<- <-]|[Hne Hb]]%lookup_insert_Some; [|by apply (C b)].
    rewrite (bk_bitmap _ Hx), (bk_children _ Hx). split; [apply length_replicate|]. by vm_compute.
  - intros b y p Hb. rewrite (pa_ext _ _ _ _ _ A). intros [[<- <-]|[Hne Hy]]%lookup_insert_Some Hn.
    + pose proof (bk_children _ Hx). pose proof (bk_unsync _ Hx). unfold needs_mark in Hn. destruct Hn; congruence.
    + rewrite upd_owner_ne by congruence. intros Hp. destruct (U b y p Hb Hy Hn Hp) as (spb & z & H1 & H2 & H3).
      assert (Hlv : owner_live (al_shadow st) (Pg b)) by by eexists.
      apply (E3 _ _ Hlv) in Hp. destruct (owner_elim _ _ _ _ _ _ _ Hp) as (spc & Hc & Hin & _).
      assert (Hh : st'.(al_header) p = st.(al_header) p).
      { rewrite (pa_header _ _ _ _ _ A). apply private_ne; [done|]. by eapply added_apart. }
      assert (Hpa : st.(al_header) p ≠ a) by (intros Ep; rewrite Ep in H1; destruct Ha; congruence).
      exists spb, z. by rewrite Hh, (pa_pages _ _ _ _ _ A), (pa_ext _ _ _ _ _ A), !lookup_insert_ne.
Qed.

Context (Hlevel : 1 <= sp.(role_level) <= Z.of_nat PT64_ROOT_MAX_LEVEL)
        (Hacc : sp.(role_direct) = false → is_Some (unaccount_shadowed role_gfn_to_memslot sp (al_shadow st').(ss_track)))
        (Hroom : (al_shadow st).(ss_used) + 1 < 2 ^ 32).

Lemma added_detached (b : Z) : b ≠ a → detached g st.(al_header) (al_page_of va st) gfn_to_memslot (al_shadow st) b →
  detached g st'.(al_header) (al_page_of va st') gfn_to_memslot (al_shadow st') b.
Proof using A Hok Hq Hfree Ha.
  intros Hb [D1 D2]. split.
  - intros spb p. rewrite (pa_pages _ _ _ _ _ A), lookup_insert_ne, added_owner by done. apply D1.
  - intros p. rewrite added_owner. apply D2.
Qed.

Lemma added_pools : al_pools st'.
Proof using A Hok Hq Hfree Ha Hx Hgfns Hlevel Hacc Hroom.
  destruct (ao_pools _ Hok) as [(LL & DD & Hsh) [V1 V2 V3 V4] P3 P4 P5 [P6 P6']].
  destruct (pa_lists _ _ _ _ _ A) as [Hi Hob]. pose proof (pa_active _ _ _ _ _ A) as Hac. pose proof (pa_ext _ _ _ _ _ A) as Hext.
  change (zs_shadow (al_zap st)) with (al_shadow st) in *.
  assert (Hna : (al_shadow st).(ss_ext) !! a = None).
  { apply eq_None_not_Some. intros Hc%(en_dom _ _ _ _ _ _ (sk_entries _ _ _ _ _ _ _ Hsh)). destruct Ha as [_ Hn]. rewrite Hn in Hc. by destruct Hc. }
  split; change (zs_shadow (al_zap st')) with (al_shadow st').
  - eexists _, _. apply added_tables, Hsh.
  - split.
    + intros b spb. rewrite (pa_pages _ _ _ _ _ A). intros [[<- <-]|[Hne Hb]]%lookup_insert_Some; [|by apply V1]. by destruct Ha.
    + intros p b spp spb Ho. rewrite added_owner in Ho.
      assert (Hp : st'.(al_header) p = st.(al_header) p).
      { destruct (owner_elim _ _ _ _ _ _ _ Ho) as (spc & Hc & Hin & _). rewrite (pa_header _ _ _ _ _ A). apply private_ne; [done|].
        by eapply added_apart. }
      assert (Hlv : is_Some (ss_ext (al_shadow st) !! b)) by (by apply (en_live _ _ _ _ _ _ (sk_entries _ _ _ _ _ _ _ Hsh) _ _ Ho)).
      assert (b ≠ a) by (intros ->; rewrite Hna in Hlv; by destruct Hlv).
      assert (st.(al_header) p ≠ a).
      { intros Ep. destruct (owner_elim _ _ _ _ _ _ _ Ho) as (spc & Hc & _). rewrite Ep in Hc. destruct Ha; congruence. }
      rewrite (pa_pages _ _ _ _ _ A), Hp, !lookup_insert_ne by done. by apply V2.
    + intros b spb y. rewrite (pa_pages _ _ _ _ _ A), Hext. destruct (decide (b = a)) as [->|Hne].
      * rewrite !lookup_insert_eq. intros [= <-] [= <-]. pose proof (bk_children _ Hx). pose proof (bk_unsync _ Hx). pose proof (bk_root _ Hx).
        split; [congruence|]. by split.
      * rewrite !lookup_insert_ne by done. apply V3.
    + intros b spb. rewrite (pa_pages _ _ _ _ _ A). intros [[<- <-]|[Hne Hb]]%lookup_insert_Some Hd; [by apply Hacc|].
      eapply unaccount_shape; [|by apply (V4 b)]. by rewrite (pa_heap _ _ _ _ _ A).
  - rewrite Hac, Hi, Hob. apply NoDup_cons. split; [|done]. intros Hc%P4. rewrite Hna in Hc. by destruct Hc.
  - intros b. rewrite Hac, Hi, Hob, Hext. cbn [app]. rewrite elem_of_cons, <- P4. destruct (decide (b = a)) as [->|Hne].
    + rewrite lookup_insert_eq. split; [by left|by eexists].
    + rewrite lookup_insert_ne by done. split; [by right|]. by intros [?|?].
  - intros b. rewrite Hi, Hob. intros Hb. destruct (P5 b Hb) as (Hd & y & Hy & ?).
    assert (b ≠ a) by (intros ->; congruence). split; [by apply added_detached|]. exists y. by rewrite Hext, lookup_insert_ne.
  - rewrite (pa_used _ _ _ _ _ A), Hac. cbn [length].
    rewrite wrap_id by (unfold is_u in *; lia). split; [lia|]. unfold is_u in *. lia.
Qed.

Lemma added_links : links_to_tables st'.
Proof using A Hok Hq Hfree Ha.
  intros p b spb. rewrite added_owner, (pa_pages _ _ _ _ _ A), (pa_ptes _ _ _ _ _ A). intros Ho Hb.
  destruct (owner_elim _ _ _ _ _ _ _ Ho) as (spc & Hc & Hin & _). rewrite clear_page_out by (by eapply added_apart).
  destruct (pl_tables _ _ _ _ _ _ _ (ao_pools _ Hok)) as (LL & DD & Hsh). change (zs_shadow (al_zap st)) with (al_shadow st) in Hsh.
  pose proof (en_live _ _ _ _ _ _ (sk_entries _ _ _ _ _ _ _ Hsh) _ _ Ho) as Hlv.
  apply (en_dom _ _ _ _ _ _ (sk_entries _ _ _ _ _ _ _ Hsh)) in Hlv. assert (b ≠ a).
  { intros ->. destruct Ha as [_ Hn]. destruct Hlv as [? Hlv]. congruence. }
  rewrite lookup_insert_ne in Hb by done. by apply (ao_links _ Hok p b).
Qed.
End Added.

(* ------------------------------------------------------------------ *)
(** ** Finding a page of a direct map *)

Context (vp : vcpu_paging) (sync_page : Z → alloc_state → option (Z * alloc_state)) (page_content : Z → list Z).

Notation vmrun_mmu_get_page := (vmrun_mmu_get_page g env va gfn_to_memslot role_gfn_to_memslot vcpu_gfn_to_memslot
                                  PT64_ROOT_MAX_LEVEL vp sync_page page_content).
Notation get_page_loop := (get_page_loop g va gfn_to_memslot role_gfn_to_memslot PT64_ROOT_MAX_LEVEL vp sync_page).

(** The page [a] is there for frame [gfn] with role [role], and in use. *)
Definition page_for (gfn : Z) (role : full_role) (a : Z) (s : shadow_state) : Prop :=
  ∃ sp x, (mmu s).(pages) !! a = Some sp ∧ s.(ss_ext) !! a = Some x ∧ sp.(sp_gfn) = gfn ∧ sp_role sp x = role ∧
    is_obsolete_sp s x = false ∧ x.(px_invalid) = false.

Lemma ext_of (st : alloc_state) (a : Z) (sp : mmu_page) :
  al_pools st → (mmu (al_shadow st)).(pages) !! a = Some sp → ∃ x, (al_shadow st).(ss_ext) !! a = Some x.
Proof using Type.
  intros P Ha. destruct (pl_tables _ _ _ _ _ _ _ P) as (LL & DD & Hsh).
  apply (en_dom _ _ _ _ _ _ (sk_entries _ _ _ _ _ _ _ Hsh)). by eexists.
Qed.

(** The caches and [page->private] as they were. *)
Definition same_caches (st st' : alloc_state) : Prop :=
  st'.(al_headers) = st.(al_headers) ∧ st'.(al_pages) = st.(al_pages) ∧ st'.(al_header) = st.(al_header).

(** Tables with less in them, on the same pages. *)
Lemma lighter_alloc (st st' : alloc_state) :
  alloc_ok st → al_pools st' → lighter (al_shadow st) (al_shadow st') → same_caches st st' → alloc_ok st'.
Proof using Type.
  intros [P L [C1 C2 C3] H D] P' Hl (S1 & S2 & S3). pose proof (lt_pages _ _ Hl) as Hp. split.
  - done.
  - intros p b sp Ho. rewrite Hp. intros Hb.
    assert (Ho' : owner_of g (al_header st) (al_page_of va st) gfn_to_memslot (al_shadow st') p = Some (Pg b)).
    { unfold al_page_of in *. by rewrite <- S3. }
    assert (Hv : (mmu (al_shadow st')).(ptes) p = (mmu (al_shadow st)).(ptes) p).
    { destruct (owner_elim _ _ _ _ _ _ _ Ho') as (_ & _ & _ & Hpr & _). destruct (lt_ptes _ _ Hl p) as [?|Hz]; [done|]. by rewrite Hz in Hpr. }
    rewrite Hv. apply (L p b sp); [|done]. eapply lighter_owner; [exact Hl|exact Ho'].
  - split; rewrite ?S1, ?S2, ?Hp; done.
  - rewrite Hp, (lt_hash _ _ Hl). exact H.
  - intros a sp x'. rewrite Hp. intros Hsp Hx' Hd. destruct (lighter_lookup _ _ a x' Hl Hx') as (x & Hx & LE).
    specialize (D a sp x Hsp Hx Hd). destruct (px_unsync x') eqn:E; [|done]. by rewrite (le_unsync _ _ LE E) in D.
Qed.

(** Other flags and counts of the same pages. *)
Record steady (st st' : alloc_state) : Prop := {
  sd_flags : flags_only (al_shadow st) (al_shadow st');
  sd_active : (al_shadow st').(ss_active) = (al_shadow st).(ss_active) ∧ (al_shadow st').(ss_used) = (al_shadow st).(ss_used);
  sd_lists : st'.(al_zap).(zs_invalid) = st.(al_zap).(zs_invalid) ∧ st'.(al_zap).(zs_obsolete) = st.(al_zap).(zs_obsolete);
  sd_caches : same_caches st st';
  sd_same : (∀ b x x', (al_shadow st).(ss_ext) !! b = Some x → (al_shadow st').(ss_ext) !! b = Some x' → px_invalid x' = px_invalid x) ∧
    (al_shadow st').(ss_track).(tk_heap) = (al_shadow st).(ss_track).(tk_heap)
}.

Lemma steady_refl (st : alloc_state) : steady st st.
Proof using Type. split; try done; [by apply flags_same|]. split; [|done]. intros; congruence. Qed.

(** Tables with less in them, the lists as they were. *)
Lemma lighter_pools (st st' : alloc_state) :
  al_pools st → (∃ LL DD, al_tables st' LL DD) → lighter (al_shadow st) (al_shadow st') → st'.(al_header) = st.(al_header) →
  (al_shadow st').(ss_active) = (al_shadow st).(ss_active) → (al_shadow st').(ss_used) = (al_shadow st).(ss_used) →
  st'.(al_zap).(zs_invalid) = st.(al_zap).(zs_invalid) → st'.(al_zap).(zs_obsolete) = st.(al_zap).(zs_obsolete) → al_pools st'.
Proof using Type.
  intros [(LL & DD & Hsh) P2 P3 P4 P5 P6] (LL' & DD' & Hsh') Hl S3 A1 A2 L1 L2.
  unfold al_page_of in *. rewrite S3 in *. unfold al_shadow in *. split.
  - by exists LL', DD'.
  - eapply lighter_levels; [exact Hsh|exact Hsh'|exact Hl|exact P2].
  - by rewrite A1, L1, L2.
  - intros a. rewrite A1, L1, L2, <- P4. split; [apply Hl|]. intros [x Hx]. destruct (lt_ext _ _ Hl a x Hx) as (x' & ? & _). by eexists.
  - intros a. rewrite L1, L2. intros Ha. destruct (P5 a Ha) as (Hd & x & Hx & Hi & Hr). split; [eapply lighter_detached; [exact Hl|exact Hd]|].
    destruct (lt_ext _ _ Hl a x Hx) as (x' & Hx' & LE). exists x'. split; [done|]. split; [by apply (le_invalid _ _ LE)|]. by rewrite (le_root _ _ LE).
  - by rewrite A1, A2.
Qed.

Lemma steady_pools (st st' : alloc_state) : steady st st' → al_pools st → al_pools st'.
Proof using Type.
  intros [F [A1 A2] [L1 L2] (_ & _ & S3) _] P. apply (lighter_pools st); try done; [|by apply flags_lighter].
  destruct (pl_tables _ _ _ _ _ _ _ P) as (LL & DD & Hsh). exists LL, DD. unfold al_page_of. rewrite S3.
  exact (flags_ok _ _ _ _ LL DD _ _ F Hsh).
Qed.

Lemma steady_alloc (st st' : alloc_state) : steady st st' → alloc_ok st → alloc_ok st'.
Proof using Type.
  intros S Hok. apply (lighter_alloc st); [done| |apply flags_lighter, S|apply S]. apply (steady_pools st); [done|apply Hok].
Qed.

Lemma get_loop_direct (gfn : Z) (role : full_role) (l : list Z) (need_sync : bool) (c : Z) (st : alloc_state) :
  alloc_ok st → (∀ a, a ∈ l → is_Some ((mmu (al_shadow st)).(pages) !! a)) → role.(fr_direct) = true →
  ∃ found need_sync' c' st', get_page_loop gfn role l need_sync c st = Some (found, need_sync', c', st') ∧
    steady st st' ∧
    match found with
    | Some a => a ∈ l ∧ page_for gfn role a (al_shadow st')
    | None => st' = st ∧ ∀ a, a ∈ l → ¬ page_for gfn role a (al_shadow st)
    end.
Proof using Type.
  intros Hok Hl Hd. revert need_sync c Hl. induction l as [|a l IH]; intros need_sync c Hl; cbn [GetPage.get_page_loop].
  - exists None, need_sync, c, st. split; [done|]. split.
    + apply steady_refl.
    + split; [done|]. by intros a ?%elem_of_nil.
  - destruct (Hl a ltac:(by left)) as [sp Hsp]. destruct (ext_of st a sp (ao_pools _ Hok) Hsp) as [x Hx].
    rewrite Hsp, Hx. cbn [mbind option_bind].
    assert (Hskip : ¬ page_for gfn role a (al_shadow st) → ∀ ns c0,
      ∃ found need_sync' c' st', get_page_loop gfn role l ns c0 st = Some (found, need_sync', c', st') ∧ steady st st' ∧
        match found with
        | Some b => b ∈ a :: l ∧ page_for gfn role b (al_shadow st')
        | None => st' = st ∧ ∀ b, b ∈ a :: l → ¬ page_for gfn role b (al_shadow st)
        end).
    { intros Hna ns c0. destruct (IH ns c0) as (found & ns' & c' & st' & E & S & Hf); [intros b Hb; apply Hl; by right|].
      exists found, ns', c', st'. split; [exact E|]. split; [done|]. destruct found as [b|].
      - destruct Hf. split; [by right|done].
      - destruct Hf as [-> Hf]. split; [done|]. intros b [->|Hb]%elem_of_cons; [done|by apply Hf]. }
    destruct (is_obsolete_sp (al_shadow st) x || px_invalid x) eqn:Ho.
    { apply Hskip. intros (sp' & x' & H1 & H2 & _ & _ & H3 & H4). assert (x' = x) as -> by congruence. by rewrite H3, H4 in Ho. }
    apply orb_false_iff in Ho as [Ho Hi]. destruct (Z.eqb_spec (sp_gfn sp) gfn) as [Hg|Hg]; cbn [negb].
    2: { apply Hskip. intros (sp' & x' & H1 & _ & H3 & _). assert (sp' = sp) as -> by congruence. done. }
    destruct (bool_decide (sp_role sp x = role)) eqn:Er; cbn [negb].
    2: { apply Hskip. apply bool_decide_eq_false in Er. intros (sp' & x' & H1 & H2 & _ & H4 & _). congruence. }
    apply bool_decide_eq_true in Er. assert (Hdir : sp.(role_direct) = true) by (rewrite <- Hd, <- Er; done).
    rewrite (ao_direct _ Hok a sp x Hsp Hx Hdir). cbn [mbind option_bind negb]. rewrite Hx. cbn [mbind option_bind].
    set (st1 := if truth _ then _ else _).
    assert (Hs1 : al_shadow st1 = al_shadow st) by (unfold st1; by destruct (truth _)).
    eexists (Some a), _, c, _. split; [reflexivity|]. split.
    + split; try (unfold st1; by destruct (truth _)); cbn; change (zs_shadow (al_zap st1)) with (al_shadow st1); rewrite Hs1.
      { apply flags_upd. intros y. by split. }
      split; [|done]. intros b y y' Hy. destruct (decide (b = a)) as [->|Hne]; [rewrite lookup_alter_eq|rewrite lookup_alter_ne by done].
      * rewrite Hy. by intros [= <-].
      * congruence.
    + split; [by left|]. eexists sp, _. cbn. change (zs_shadow (al_zap st1)) with (al_shadow st1). rewrite Hs1, lookup_alter_eq, Hx.
      split; [done|]. split; [reflexivity|]. split; [done|]. split; [exact Er|]. split; [|done].
      unfold st1. by destruct (truth _).
Qed.

(** What there was is still there: a page may have been added. *)
Record gained (st st' : alloc_state) : Prop := {
  gn_pages : ∀ b sp, (mmu (al_shadow st)).(pages) !! b = Some sp → (mmu (al_shadow st')).(pages) !! b = Some sp;
  gn_entries : ∀ b sp p, (mmu (al_shadow st)).(pages) !! b = Some sp → entry_in sp p = true →
    (mmu (al_shadow st')).(ptes) p = (mmu (al_shadow st)).(ptes) p ∧ st'.(al_header) p = st.(al_header) p;
  gn_ext : ∀ b x, (al_shadow st).(ss_ext) !! b = Some x → ∃ x', (al_shadow st').(ss_ext) !! b = Some x' ∧ lighter_ext x x' ∧
    (x'.(px_invalid) = x.(px_invalid));
  gn_owner : ∀ p, al_owner st' p = al_owner st p;
  gn_dmem : (mmu (al_shadow st')).(dmem) = (mmu (al_shadow st)).(dmem);
  gn_heap : (al_shadow st').(ss_track).(tk_heap) = (al_shadow st).(ss_track).(tk_heap);
  gn_gen : (al_shadow st').(ss_valid_gen) = (al_shadow st).(ss_valid_gen);
  gn_used : (al_shadow st).(ss_used) <= (al_shadow st').(ss_used) <= (al_shadow st).(ss_used) + 1;
  gn_caches : (length st.(al_headers) <= S (length st'.(al_headers)) ∧ length st.(al_pages) <= S (length st'.(al_pages)))%nat
}.

(** Only page [a] may be new, with a table from the cache. *)
Record grown (a : Z) (st st' : alloc_state) : Prop := {
  gw_back : ∀ b sp, (mmu (al_shadow st')).(pages) !! b = Some sp →
    (mmu (al_shadow st)).(pages) !! b = Some sp ∨ (b = a ∧ sp.(sp_spt) ∈ st.(al_pages) ∧ ∃ x, (al_shadow st').(ss_ext) !! a = Some x ∧ blank x);
  gw_tables : ∀ q, q ∈ st'.(al_pages) → q ∈ st.(al_pages);
  gw_obsolete : st'.(al_zap).(zs_obsolete) = st.(al_zap).(zs_obsolete)
}.

(** The state after the page [a] with the table [spt] was made. *)
Definition made_page (gfn : Z) (role : full_role) (spt : Z) : mmu_page :=
  {| sp_spt := spt; sp_gfn := gfn; sp_gfns := []; role_level := role.(fr_level); role_direct := role.(fr_direct); role_smm := role.(fr_smm) |}.

Definition made_ext (role : full_role) (gen : Z) : page_ext :=
  zero_ext <| px_invalid := role.(fr_invalid) |> <| px_role := role.(fr_rest) |> <| px_valid_gen := gen |>.

Lemma get_page_fresh (st : alloc_state) (gfn gaddr level access : Z) (a spt : Z) (hs ps : list Z) (c : Z) (ns : bool) :
  let role := wanted_role vp gaddr level true access in
  st.(al_zap).(zs_invalid) = [] → st.(al_headers) = a :: hs → st.(al_pages) = spt :: ps →
  get_page_loop gfn role (hash_chain_of env gfn st) false 0 st = Some (None, ns, c, st) →
  ∃ st', vmrun_mmu_get_page gfn gaddr level true access st = Some (a, st') ∧
    page_added a (made_page gfn role spt) (made_ext role (al_shadow st).(ss_valid_gen)) st st' ∧
    st'.(al_headers) = hs ∧ st'.(al_pages) = ps ∧ (al_shadow st').(ss_valid_gen) = (al_shadow st).(ss_valid_gen) ∧
    (al_shadow st').(ss_hash) = partial_alter (λ l, Some (a :: default [] l)) (vmrun_page_table_hashfn env gfn) (al_shadow st).(ss_hash).
Proof using Type.
  intros role Hi Hh Hp E. unfold GetPage.vmrun_mmu_get_page. cbv zeta. fold role.
  assert (El : st <| al_zap ::= local_list |> = st).
  { unfold local_list. destruct st as [zs ? ? ? ? ? ? ?]. cbn in *. rewrite <- Hi. by destruct zs. }
  rewrite !El. rewrite E. cbn [mbind option_bind]. unfold vmrun_mmu_alloc_page. cbn [al_headers al_pages].
  match goal with |- context [mmu_memory_cache_alloc ?l] => change l with (al_headers st) end. rewrite Hh. cbn [mmu_memory_cache_alloc mbind option_bind].
  match goal with |- context [mmu_memory_cache_alloc ?l] => change l with (al_pages st) end. rewrite Hp. cbn [mmu_memory_cache_alloc mbind option_bind].
  cbn [negb mbind option_bind]. 
  match goal with |- context [pages (mmu (al_shadow ?z)) !! a] => set (st1 := z) end.
  assert (Hsp : pages (mmu (al_shadow st1)) !! a = Some (made_page gfn role spt)).
  { cbn. rewrite lookup_alter_eq, lookup_insert_eq. done. }
  rewrite Hsp. cbn [mbind option_bind]. unfold vmrun_mmu_flush_or_zap.
  match goal with |- context [zs_invalid ?z] => change (zs_invalid z) with (zs_invalid (al_zap st)) end. rewrite Hi. cbn [mbind option_bind].
  match goal with |- ∃ st', Some (a, note_collisions c ?z) = _ ∧ _ => set (st2 := z) end.
  exists (note_collisions c st2). split; [done|].
  assert (Hn : ∀ (f : alloc_state → Prop), (∀ k, f (st2 <| al_collisions := k |>)) → f st2 → f (note_collisions c st2)).
  { intros f H1 H2. unfold note_collisions. destruct (_ >? _); auto. }
  assert (Hext : (al_shadow st2).(ss_ext) = <[a := made_ext role (al_shadow st).(ss_valid_gen)]> (al_shadow st).(ss_ext)).
  { unfold st2, st1. cbn. rewrite !alter_insert_eq. done. }
  assert (Hpg : (mmu (al_shadow st2)).(pages) = <[a := made_page gfn role spt]> (mmu (al_shadow st)).(pages)).
  { unfold st2, st1. cbn. rewrite alter_insert_eq. done. }
  apply Hn; intros; (split; [by split|done]).
Qed.

Lemma made_blank (role : full_role) (gen : Z) : blank (made_ext role gen).
Proof using Type. done. Qed.

Lemma made_role (gfn spt gen : Z) (role : full_role) : sp_role (made_page gfn role spt) (made_ext role gen) = role.
Proof using Type. by destruct role. Qed.

Lemma steady_gained (st st' : alloc_state) :
  steady st st' → gained st st'.
Proof using Type.
  intros [F [A1 A2] _ (S1 & S2 & S3) [Hinv Hheap]]. split.
  - intros b sp. by rewrite (fo_pages _ _ F).
  - intros b sp p _ _. split; [apply F|by rewrite S3].
  - intros b x Hx. destruct (fo_ext _ _ F b x Hx) as (x' & Hx' & LE & _). exists x'. split; [done|]. split; [done|]. by apply (Hinv b).
  - intros p. unfold al_page_of. rewrite S3. apply owner_of_same; apply F.
  - apply F.
  - done.
  - apply F.
  - rewrite A2. lia.
  - rewrite S1, S2. lia.
Qed.

(** The page of a direct map that is asked for is found or made. *)
Lemma get_page_direct_ok (st : alloc_state) (gfn gaddr level access : Z) :
  let role := wanted_role vp gaddr level true access in
  alloc_ok st → st.(al_zap).(zs_invalid) = [] → vp.(vp_base_role).(fr_invalid) = false →
  1 <= level <= Z.of_nat PT64_ROOT_MAX_LEVEL → (al_shadow st).(ss_used) + 1 < 2 ^ 32 →
  st.(al_headers) ≠ [] → st.(al_pages) ≠ [] →
  ∃ a st', vmrun_mmu_get_page gfn gaddr level true access st = Some (a, st') ∧ alloc_ok st' ∧
    st'.(al_zap).(zs_invalid) = [] ∧ page_for gfn role a (al_shadow st') ∧ a ∈ hash_chain_of env gfn st' ∧ gained st st' ∧ grown a st st' ∧
    (is_Some ((mmu (al_shadow st)).(pages) !! a) → a ∈ hash_chain_of env gfn st) ∧
    (¬ is_Some ((mmu (al_shadow st)).(pages) !! a) →
     (∀ b, b ∈ hash_chain_of env gfn st → ¬ page_for gfn role b (al_shadow st)) ∧ head st.(al_headers) = Some a ∧
     ∃ x, (al_shadow st').(ss_ext) !! a = Some x ∧ blank x).
Proof using Type.
  intros role Hok Hi Hvp Hlv Hroom Hh Hp.
  assert (Hdir : role.(fr_direct) = true) by (unfold role, wanted_role; by destruct (_ && _)).
  assert (Hrl : role.(fr_level) = level) by (unfold role, wanted_role; by destruct (_ && _)).
  assert (Hri : role.(fr_invalid) = false) by (unfold role, wanted_role; by destruct (_ && _)).
  destruct (get_loop_direct gfn role (hash_chain_of env gfn st) false 0 st Hok) as (found & ns & c & st1 & E & S & Hf); [|done|].
  { intros a Ha. unfold hash_chain_of in Ha. destruct ((al_shadow st).(ss_hash) !! _) as [l|] eqn:El; [|by apply elem_of_nil in Ha].
    exact (ao_hash _ Hok _ l a El Ha). }
  assert (El : st <| al_zap ::= local_list |> = st).
  { unfold local_list. destruct st as [zs ? ? ? ? ? ? ?]. cbn in *. rewrite <- Hi. by destruct zs. }
  destruct found as [a|].
  - destruct Hf as [Hin Hpf]. exists a, (note_collisions c st1).
    unfold GetPage.vmrun_mmu_get_page. cbv zeta. fold role. rewrite !El, E. cbn [mbind option_bind]. split; [done|].
    assert (Hn : ∀ (f : alloc_state → Prop), (∀ k, f (st1 <| al_collisions := k |>)) → f st1 → f (note_collisions c st1)).
    { intros f H1 H2. unfold note_collisions. destruct (_ >? _); auto. }
    assert (S' : steady st (note_collisions c st1)) by (apply Hn; [intros k; destruct S as [? ? ? ? ?]; by split|exact S]).
    assert (Hs : al_shadow (note_collisions c st1) = al_shadow st1) by (by apply Hn).
    split; [by apply (steady_alloc st)|]. split; [rewrite (proj1 (sd_lists _ _ S')); done|]. rewrite Hs. split; [done|].
    split; [unfold hash_chain_of; rewrite Hs, (fo_hash _ _ (sd_flags _ _ S)); exact Hin|].
    split; [by apply steady_gained|].
    split; [split; [intros b spb; left; by rewrite <- (fo_pages _ _ (sd_flags _ _ S'))|destruct (sd_caches _ _ S') as (_ & -> & _); done|apply S']|].
    split; [done|]. intros Hnp. destruct Hpf as (sp & x & Hsp & _). destruct Hnp.
    rewrite <- (fo_pages _ _ (sd_flags _ _ S)), Hsp. by eexists.
  - destruct Hf as [-> Hnone]. destruct st.(al_headers) as [|a hs] eqn:Eh; [done|]. destruct st.(al_pages) as [|spt ps] eqn:Ep; [done|].
    destruct (get_page_fresh st gfn gaddr level access a spt hs ps c ns Hi Eh Ep E) as (st' & E' & A & Hh' & Hp' & Hg' & Hhash).
    fold role in A. set (sp := made_page gfn role spt) in *. set (x := made_ext role (ss_valid_gen (al_shadow st))) in *.
    destruct (ao_caches _ Hok) as [[C1 C2] [C3 C4] C5]. rewrite Eh in C1, C2. rewrite Ep in C3, C4.
    apply NoDup_cons in C1 as [C1 C1']. apply NoDup_cons in C3 as [C3 C3'].
    destruct (C2 a ltac:(by left)) as [Ha0 Hna]. assert (Hq : good_table sp.(sp_spt)) by (apply C4; by left).
    assert (Hfree : ∀ b spb, (mmu (al_shadow st)).(pages) !! b = Some spb → spb.(sp_spt) ≠ sp.(sp_spt)).
    { intros b spb Hb Heq. destruct (C5 b spb Hb) as [_ Hnin]. apply Hnin. rewrite Ep, Heq. by left. }
    assert (Hgf : sp.(role_direct) = false → length sp.(sp_gfns) = Z.to_nat PT64_ENT_PER_PAGE) by (intros Hc; change (fr_direct role = false) in Hc; congruence).
    assert (Hacc : sp.(role_direct) = false → is_Some (unaccount_shadowed role_gfn_to_memslot sp (al_shadow st').(ss_track)))
      by (intros Hc; change (fr_direct role = false) in Hc; congruence).
    assert (Hrange : 1 <= sp.(role_level) <= Z.of_nat PT64_ROOT_MAX_LEVEL) by (change (role_level sp) with (fr_level role); lia).
    pose proof (added_owner a sp x st st' A Hok (conj Ha0 Hna) Hq Hfree) as Hown.
    pose proof (added_pools a sp x st st' A Hok (conj Ha0 Hna) Hq Hfree (made_blank _ _) Hgf Hrange Hacc Hroom) as P'.
    pose proof (added_links a sp x st st' A Hok (conj Ha0 Hna) Hq Hfree) as L'.
    assert (Hne : ∀ b spb, (mmu (al_shadow st)).(pages) !! b = Some spb → b ≠ a) by (intros b spb Hb ->; congruence).
    exists a, st'. split; [exact E'|]. split; [|split; [|split; [|split; [|split; [|split; [|split]]]]]].
    + split; [done|done| | |].
      * split.
        -- rewrite Hh'. split; [done|]. intros b Hb. destruct (C2 b ltac:(by right)) as [Hb0 Hbn]. split; [done|].
           rewrite (pa_pages _ _ _ _ _ A), lookup_insert_ne; [done|]. by intros ->.
        -- rewrite Hp'. split; [done|]. intros q Hqin. apply C4. by right.
        -- intros b spb. rewrite (pa_pages _ _ _ _ _ A), Hp'. intros [[<- <-]|[_ Hb]]%lookup_insert_Some; [done|].
           destruct (C5 b spb Hb) as [Hgt Hnin]. split; [done|]. rewrite Ep in Hnin. by apply not_elem_of_cons in Hnin as [_ ?].
      * intros i l b Hl Hb. rewrite (pa_pages _ _ _ _ _ A). destruct (decide (b = a)) as [->|Hba]; [rewrite lookup_insert_eq; by eexists|].
        rewrite lookup_insert_ne by done. rewrite Hhash in Hl. destruct (decide (i = vmrun_page_table_hashfn env gfn)) as [->|Hni].
        -- rewrite lookup_partial_alter_eq in Hl. injection Hl as <-. apply elem_of_cons in Hb as [?|Hb]; [done|].
           destruct ((al_shadow st).(ss_hash) !! _) as [l0|] eqn:El0; [|by apply elem_of_nil in Hb]. by apply (ao_hash _ Hok _ l0 b El0).
        -- rewrite lookup_partial_alter_ne in Hl by done. by apply (ao_hash _ Hok i l b).
      * intros b spb y. rewrite (pa_pages _ _ _ _ _ A), (pa_ext _ _ _ _ _ A). destruct (decide (b = a)) as [->|Hba].
        -- rewrite !lookup_insert_eq. by intros _ [= <-].
        -- rewrite !lookup_insert_ne by done. apply (ao_direct _ Hok).
    + by rewrite (proj1 (pa_lists _ _ _ _ _ A)).
    + exists sp, x. rewrite (pa_pages _ _ _ _ _ A), (pa_ext _ _ _ _ _ A), !lookup_insert_eq.
      split; [done|]. split; [done|]. split; [done|]. split; [exact (made_role _ _ _ _)|]. split; [|exact Hri].
      unfold is_obsolete_sp. rewrite Hg'. change (px_valid_gen x) with (ss_valid_gen (al_shadow st)). by rewrite Z.eqb_refl.
    + unfold hash_chain_of. rewrite Hhash, lookup_partial_alter_eq. by left.
    + split.
      * intros b spb Hb. rewrite (pa_pages _ _ _ _ _ A), lookup_insert_ne; [done|]. intros <-. by eapply Hne.
      * intros b spb p Hb Hin. pose proof (added_apart sp st Hok Hq Hfree b p spb Hb Hin) as Hout.
        rewrite (pa_ptes _ _ _ _ _ A), (pa_header _ _ _ _ _ A), clear_page_out, private_ne by done. done.
      * intros b y Hy. exists y. rewrite (pa_ext _ _ _ _ _ A), lookup_insert_ne; [done|]. intros <-.
        destruct (pl_tables _ _ _ _ _ _ _ (ao_pools _ Hok)) as (LL & DD & Hsh).
        destruct (proj2 (en_dom _ _ _ _ _ _ (sk_entries _ _ _ _ _ _ _ Hsh) a) ltac:(by eexists)) as [spa Hspa]. by apply (Hne a spa).
      * exact Hown.
      * apply A.
      * apply A.
      * exact Hg'.
      * rewrite (pa_used _ _ _ _ _ A). destruct (pl_used _ _ _ _ _ _ _ (ao_pools _ Hok)) as [_ Hu]. unfold is_u in Hu.
        change (zs_shadow (al_zap st)) with (al_shadow st) in Hu. rewrite wrap_id by (unfold is_u; lia). lia.
      * rewrite Hh', Hp', Eh, Ep. cbn [length]. lia.
    + split.
      * intros b spb. rewrite (pa_pages _ _ _ _ _ A). intros [[<- <-]|[_ Hb]]%lookup_insert_Some; [right|by left].
        split; [done|]. split; [rewrite Ep; by left|]. exists x. split; [by rewrite (pa_ext _ _ _ _ _ A), lookup_insert_eq|apply made_blank].
      * rewrite Hp', Ep. by right.
      * by destruct (pa_lists _ _ _ _ _ A).
    + rewrite Hna. by intros [].
    + intros _. split; [done|]. split; [done|]. exists x. split; [by rewrite (pa_ext _ _ _ _ _ A), lookup_insert_eq|apply made_blank].
Qed.

(** C13: a page of a direct map ([direct] is true: the accounting of shadowed
    frames and the synchronisation of pages are not taken).  Given room and full
    caches, [vmrun_mmu_get_page] returns a page in use for the guest frame that has the
    role that was asked for, on the frame's hash chain, and the invariants
    hold.  When there is such a page already nothing is allocated and the
    tables stay as they are; otherwise the page is new, all of its entries are
    clear, nothing points to it, and every entry of the other pages is as it
    was. *)
Theorem get_page_direct_correct (st : alloc_state) (gfn gaddr level access : Z) :
  let role := wanted_role vp gaddr level true access in
  alloc_ok st → st.(al_zap).(zs_invalid) = [] → vp.(vp_base_role).(fr_invalid) = false →
  1 <= level <= Z.of_nat PT64_ROOT_MAX_LEVEL → (al_shadow st).(ss_used) + 1 < 2 ^ 32 →
  st.(al_headers) ≠ [] → st.(al_pages) ≠ [] →
  ∃ a st', vmrun_mmu_get_page gfn gaddr level true access st = Some (a, st') ∧ alloc_ok st' ∧
    page_for gfn role a (al_shadow st') ∧ a ∈ hash_chain_of env gfn st' ∧ gained st st' ∧
    if decide (is_Some ((mmu (al_shadow st)).(pages) !! a)) then a ∈ hash_chain_of env gfn st
    else (∀ b, b ∈ hash_chain_of env gfn st → ¬ page_for gfn role b (al_shadow st)) ∧
         detached g st'.(al_header) (al_page_of va st') gfn_to_memslot (al_shadow st') a ∧ head st.(al_headers) = Some a.
Proof using Type.
  intros role Hok Hi Hvp Hlv Hroom Hh Hp.
  destruct (get_page_direct_ok st gfn gaddr level access Hok Hi Hvp Hlv Hroom Hh Hp) as (a & st' & E & Hok' & _ & Hpf & Hin & G & _ & Hfound & Hnew).
  fold role in Hpf, Hnew. exists a, st'. split; [exact E|]. split; [done|]. split; [done|]. split; [done|]. split; [done|].
  destruct (decide _) as [Hs|Hn]; [by apply Hfound|]. destruct (Hnew Hn) as (H1 & H2 & _). split; [done|]. split; [|done]. split.
  - intros sp p Hsp Hpin. destruct (al_owner st' p) as [o|] eqn:Eo; [|done]. exfalso. pose proof Eo as Eo'.
    rewrite (gn_owner _ _ G) in Eo. destruct (owner_elim _ _ _ _ _ _ _ Eo) as (spb & Hb & Hpb & _).
    pose proof (proj2 (gn_entries _ _ G _ spb p Hb Hpb)) as Hh'.
    destruct (pl_tables _ _ _ _ _ _ _ (ao_pools _ Hok')) as (LL & DD & Hsh).
    pose proof (po_header _ _ _ (en_pages _ _ _ _ _ _ (sk_entries _ _ _ _ _ _ _ Hsh) a sp Hsp) p Hpin) as Ha.
    apply Hn. rewrite <- Ha, Hh', Hb. by eexists.
  - intros p. rewrite (gn_owner _ _ G). intros Ho. destruct (pl_tables _ _ _ _ _ _ _ (ao_pools _ Hok)) as (LL & DD & Hsh).
    pose proof (en_live _ _ _ _ _ _ (sk_entries _ _ _ _ _ _ _ Hsh) _ _ Ho) as Hl.
    apply (en_dom _ _ _ _ _ _ (sk_entries _ _ _ _ _ _ _ Hsh)) in Hl. by apply Hn.
Qed.

(* ------------------------------------------------------------------ *)
(** ** Room for new pages *)

Context (KVM_MIN_FREE_MMU_PAGES KVM_REFILL_PAGES : Z) (Hmax : (PT64_ROOT_MAX_LEVEL < KVM_PAGE_ARRAY_NR)%nat).

Notation make_mmu_pages_available := (make_mmu_pages_available g va gfn_to_memslot role_gfn_to_memslot PT64_ROOT_MAX_LEVEL
                                        KVM_MIN_FREE_MMU_PAGES KVM_REFILL_PAGES).
Notation refill_loop := (refill_loop g va gfn_to_memslot role_gfn_to_memslot PT64_ROOT_MAX_LEVEL KVM_REFILL_PAGES).

(** A page that is not marked invalid is in use. *)
Lemma valid_active (st : alloc_state) (a : Z) (x : page_ext) :
  al_pools st → (al_shadow st).(ss_ext) !! a = Some x → x.(px_invalid) = false → a ∈ (al_shadow st).(ss_active).
Proof using Type.
  intros P Hx Hinv. pose proof (proj1 (pl_dom _ _ _ _ _ _ _ P a) ltac:(by eexists)) as Hd. apply elem_of_app in Hd as [?|Hw]; [done|].
  destruct (pl_waiting _ _ _ _ _ _ _ P a Hw) as (_ & y & Hy & Hi & _). unfold al_shadow in Hx. congruence.
Qed.

(** Zapping a page in use. *)
Lemma zap_alloc (st : alloc_state) (a : Z) (x : page_ext) :
  alloc_ok st → a ∈ (al_shadow st).(ss_active) → (al_shadow st).(ss_ext) !! a = Some x →
  ∃ st' n, al_zap_page g va gfn_to_memslot role_gfn_to_memslot PT64_ROOT_MAX_LEVEL a st = Some (st', n) ∧ alloc_ok st' ∧
    lighter (al_shadow st) (al_shadow st') ∧ same_caches st st' ∧
    (∃ y, (al_shadow st').(ss_ext) !! a = Some y ∧ y.(px_invalid) = true) ∧
    (a ∈ st'.(al_zap).(zs_invalid) ↔ x.(px_root_count) = 0).
Proof using Hmax.
  intros Hok Ha Hx. pose proof (ao_pools _ Hok) as P.
  destruct (prepare_zapped _ _ _ _ _ _ Hmax _ a x P Ha Hx) as (zs1 & Zs & E & Z & Hok1 & Hlv & Hu & HZs).
  pose proof (zapped_pools _ _ _ _ _ _ _ zs1 a _ Zs x P Ha Hx eq_refl Z Hok1 Hlv Hu HZs) as P1.
  exists (st <| al_zap := zs1 |>). eexists. unfold al_zap_page. rewrite E. cbn [mbind option_bind]. split; [reflexivity|].
  pose proof (za_lighter _ _ _ _ _ _ _ _ _ Z) as L1.
  split; [by apply (lighter_alloc st)|]. split; [exact L1|]. split; [done|].
  destruct (za_page _ _ _ _ _ _ _ _ _ Z) as (y & Hy & Hi & _). split; [by exists y|]. cbn.
  rewrite (za_invalid _ _ _ _ _ _ _ _ _ Z). destruct (waiting_not _ _ _ _ _ _ _ a P Ha) as [Hni _].
  destruct (za_below _ _ _ _ _ _ _ _ _ Z) as [(_ & Hnd & _)%NoDup_app _].
  assert (Hnz : a ∉ Zs) by (intros Hc; by destruct (Hnd a Hc); left).
  destruct (truth x.(px_root_count)) eqn:Er.
  - split; [|intros E0; by rewrite E0 in Er]. intros Hc. exfalso. cbn [app] in Hc. rewrite elem_of_app, elem_of_reverse in Hc. by destruct Hc.
  - split; [intros _; by apply truth_false|]. intros _. by left.
Qed.

Lemma commit_alloc (st : alloc_state) :
  alloc_ok st →
  ∃ st', al_commit st = Some st' ∧ alloc_ok st' ∧ st'.(al_zap).(zs_invalid) = [] ∧ freed st.(al_zap).(zs_invalid) st.(al_zap) st'.(al_zap) ∧
    same_caches st st'.
Proof using Type.
  clear Hmax. intros Hok. destruct (commit_ok _ _ _ _ _ _ _ (ao_pools _ Hok)) as (zs' & E & P & Hi & F & _).
  exists (st <| al_zap := zs' |>). unfold al_commit. rewrite E. cbn [mbind option_bind]. split; [done|].
  split; [|split; [done|]; by split]. destruct Hok as [_ L [C1 C2 C3] H D].
  assert (Hpg : ∀ b sp, (mmu zs'.(zs_shadow)).(pages) !! b = Some sp → (mmu (al_shadow st)).(pages) !! b = Some sp).
  { intros b sp. rewrite (fr_pages _ _ _ F). by destruct (decide _). }
  split; change (al_shadow (st <| al_zap := zs' |>)) with zs'.(zs_shadow).
  - exact P.
  - intros p b sp Ho Hb. change (al_shadow (st <| al_zap := zs' |>)) with zs'.(zs_shadow) in *. rewrite (fr_ptes _ _ _ F). apply (L p b sp); [|by apply Hpg].
    apply (freed_owner _ _ _ _ _ _ _ _ _ F Ho).
  - split; [|exact C2|]; change (al_shadow (st <| al_zap := zs' |>)) with zs'.(zs_shadow).
    + destruct C1 as [C1 C1']. split; [done|]. intros a Ha. destruct (C1' a Ha) as [Ha0 Hn]. split; [done|].
      destruct (pages (mmu zs'.(zs_shadow)) !! a) eqn:Ea; [|done]. apply Hpg in Ea. congruence.
    + intros b sp Hb. apply C3 with (b := b). by apply Hpg.
  - intros i l a Hl Ha. rewrite (fr_hash _ _ _ F), lookup_fmap in Hl. apply fmap_Some in Hl as (l0 & Hl0 & ->).
    apply elem_of_del_all in Ha as [Ha Hn]. rewrite (fr_pages _ _ _ F), decide_False by done. by apply (H i l0).
  - intros a sp x Hsp Hx. apply Hpg in Hsp. apply (D a sp x Hsp). rewrite (fr_ext _ _ _ F) in Hx. by destruct (decide _).
Qed.

(** The oldest page in use is a root, or there is no page: nothing to free. *)
Definition stuck (st : alloc_state) : Prop :=
  ∀ a, last (al_shadow st).(ss_active) = Some a → is_root (al_shadow st) a.

Lemma refill_loop_ok (fuel : nat) (st : alloc_state) :
  alloc_ok st → (length (al_shadow st).(ss_active) < fuel)%nat →
  ∃ st' st1, refill_loop fuel st = Some st' ∧ alloc_ok st' ∧ same_caches st st' ∧
    (al_shadow st').(ss_used) <= (al_shadow st).(ss_used) ∧ lighter (al_shadow st) (al_shadow st1) ∧ lighter (al_shadow st1) (al_shadow st') ∧
    (KVM_REFILL_PAGES <= vmrun_mmu_available_pages (al_shadow st') ∨ stuck st1).
Proof using Hmax.
  revert st. induction fuel as [|fuel IH]; intros st Hok Hf; [lia|]. cbn [GetPage.refill_loop].
  destruct (Z.ltb_spec (vmrun_mmu_available_pages (al_shadow st)) KVM_REFILL_PAGES) as [Hlt|Hge].
  2: { exists st, st. split; [done|]. split; [done|]. split; [done|]. split; [lia|]. split; [done|]. split; [done|]. left. lia. }
  destruct (zap_oldest_ok g st.(al_header) (al_page_of va st) gfn_to_memslot role_gfn_to_memslot PT64_ROOT_MAX_LEVEL Hmax
              st.(al_zap) (ao_pools _ Hok)) as (zs1 & more & E & S & Hm).
  rewrite E. cbn [mbind option_bind].
  assert (Hok1 : alloc_ok (st <| al_zap := zs1 |>)).
  { apply (lighter_alloc st); [done|apply S|apply S|done]. }
  destruct more; cbn [negb].
  - destruct (pl_used _ _ _ _ _ _ _ (ao_pools _ Hok)) as [Hu0 _]. destruct (pl_used _ _ _ _ _ _ _ (sh_pools _ _ _ _ _ _ _ _ S)) as [Hu1 _].
    unfold al_shadow in Hf.
    set (st1 := st <| al_zap := zs1 |> <| al_recycled ::= λ n, n + 1 |>).
    destruct (IH st1) as (st' & st2 & E' & Hok' & C & Hle & Hl1 & Hl2 & Hend).
    { apply (steady_alloc (st <| al_zap := zs1 |>)); [|done]. destruct (steady_refl (st <| al_zap := zs1 |>)) as [? ? ? ? ?]. by split. }
    { unfold al_shadow. cbn. lia. }
    exists st', st2. split; [exact E'|]. split; [done|]. split; [exact C|]. split; [|split; [|by split]].
    + change (ss_used (al_shadow st1)) with (ss_used (zs_shadow zs1)) in Hle. unfold al_shadow in *. lia.
    + etrans; [apply (sh_lighter _ _ _ _ _ _ _ _ S)|exact Hl1].
  - exists (st <| al_zap := zs1 |>), st. split; [done|]. split; [done|]. split; [done|]. split; [apply S|]. split; [done|]. split; [apply S|]. right. exact Hm.
Qed.

(** The states before and after, and the result. *)
Definition room_made (st : alloc_state) (e : Z) (st' : alloc_state) : Prop :=
    alloc_ok st' ∧ st'.(al_zap).(zs_invalid) = [] ∧ same_caches st st' ∧
    (al_shadow st').(ss_used) <= (al_shadow st).(ss_used) ∧
    (KVM_MIN_FREE_MMU_PAGES <= vmrun_mmu_available_pages (al_shadow st) → e = 0 ∧ st' = st) ∧
    (vmrun_mmu_available_pages (al_shadow st) < KVM_MIN_FREE_MMU_PAGES →
       e = (if truth (vmrun_mmu_available_pages (al_shadow st')) then 0 else - ENOSPC) ∧
       ∃ st0 st1, lighter (al_shadow st) (al_shadow st1) ∧ lighter (al_shadow st1) (al_shadow st0) ∧
         freed st0.(al_zap).(zs_invalid) st0.(al_zap) st'.(al_zap) ∧
         (KVM_REFILL_PAGES <= vmrun_mmu_available_pages (al_shadow st0) ∨ stuck st1)).

Lemma make_available_ok (st : alloc_state) :
  alloc_ok st → st.(al_zap).(zs_invalid) = [] → ∃ e st', make_mmu_pages_available st = Some (e, st') ∧ room_made st e st'.
Proof using Hmax.
  intros Hok Hi. unfold GetPage.make_mmu_pages_available.
  assert (El : st <| al_zap ::= local_list |> = st).
  { unfold local_list. destruct st as [zs ? ? ? ? ? ? ?]. cbn in *. rewrite <- Hi. by destruct zs. }
  rewrite !El. destruct (Z.geb_spec (vmrun_mmu_available_pages (al_shadow st)) KVM_MIN_FREE_MMU_PAGES) as [Hge|Hlt].
  { exists 0, st. split; [done|]. split; [done|]. split; [done|]. split; [done|]. split; [lia|]. split; [done|lia]. }
  destruct (refill_loop_ok (S (length (al_shadow st).(ss_active))) st Hok ltac:(lia)) as (st0 & st1 & E & Hok0 & C0 & Hle & Hl1 & Hl2 & Hend).
  rewrite E. cbn [mbind option_bind]. destruct (commit_alloc st0 Hok0) as (st' & -> & Hok' & Hi' & F & C). cbn [mbind option_bind].
  assert (Hu : (al_shadow st').(ss_used) = (al_shadow st0).(ss_used)) by (destruct (ZapProps.fr_rest _ _ _ F) as (Hu & _); exact Hu).
  exists (if truth (vmrun_mmu_available_pages (al_shadow st')) then 0 else - ENOSPC), st'.
  split; [by destruct (truth _)|]. split; [done|]. split; [done|].
  split; [destruct C0 as (? & ? & ?), C as (? & ? & ?); split_and!; congruence|]. split; [lia|]. split; [lia|]. intros _. split; [done|]. by exists st0, st1.
Qed.

(** C14: room for new pages.  [make_mmu_pages_available] ends, frees what it
    zaps and keeps the invariants.  It does nothing when enough pages are
    left; otherwise the oldest pages go until the refill mark is met, or until
    the oldest page is a root with nothing to free below it; and it reports an
    error exactly when no page is left then. *)
Theorem make_mmu_pages_available_correct (st : alloc_state) :
  alloc_ok st → st.(al_zap).(zs_invalid) = [] →
  ∃ e st', make_mmu_pages_available st = Some (e, st') ∧ alloc_ok st' ∧ st'.(al_zap).(zs_invalid) = [] ∧ same_caches st st' ∧
    (al_shadow st').(ss_used) <= (al_shadow st).(ss_used) ∧
    (KVM_MIN_FREE_MMU_PAGES <= vmrun_mmu_available_pages (al_shadow st) → e = 0 ∧ st' = st) ∧
    (vmrun_mmu_available_pages (al_shadow st) < KVM_MIN_FREE_MMU_PAGES →
       e = (if truth (vmrun_mmu_available_pages (al_shadow st')) then 0 else - ENOSPC) ∧
       ∃ st0 st1, lighter (al_shadow st) (al_shadow st1) ∧ lighter (al_shadow st1) (al_shadow st0) ∧
         freed st0.(al_zap).(zs_invalid) st0.(al_zap) st'.(al_zap) ∧
         (KVM_REFILL_PAGES <= vmrun_mmu_available_pages (al_shadow st0) ∨ stuck st1)).
Proof using Hmax. exact (make_available_ok st). Qed.
End GetPage.

(* ------------------------------------------------------------------ *)
(** ** The example tree, with full caches *)

Definition alloc_tree : alloc_state :=
  {| al_zap := zap_tree; al_header := tree_header; al_pages := [0x8000; 0x9000; 0xa000; 0xb000]; al_headers := [8; 9; 10; 11];
     al_requests := []; al_cache_miss := 0; al_collisions := 0; al_recycled := 0 |}.

Lemma small_table (n : Z) : 1 <= n < 1000 → good_table (0x1000 * n).
Proof.
  intros Hn. split.
  - split; [unfold is_u; lia|lia|by rewrite Z.even_mul].
  - change PAGE_SIZE with 0x1000. rewrite Z.mul_comm. by apply Z.mod_mul.
  - change PAGE_SIZE with 0x1000. lia.
Qed.

Lemma alloc_tree_ok : alloc_ok (K := kvm_pte_x86) (T := kvm_track) x86_masks (λ p, p) tree_slot tree_role_slot tree_level alloc_tree.
Proof.
  split.
  - exact zap_tree_pools.
  - intros p b sp Ho Hsp. change (mmu (al_shadow alloc_tree)) with (mmu map_tree) in *.
    apply (tree_owner p (Pg b)) in Ho as [[-> [= ->]]|[-> [= ->]]];
      apply tree_sps in Hsp as [[? ->]|[[? ->]|[? ->]]]; try done; vm_compute; reflexivity.
  - change (mmu (al_shadow alloc_tree)) with (mmu map_tree). split.
    + split; [by apply (bool_decide_unpack _)|]. intros a Ha. cbn in Ha. rewrite !elem_of_cons, elem_of_nil in Ha.
      destruct (pages (mmu map_tree) !! a) eqn:E; [|split; [lia|done]]. exfalso. apply tree_sps in E as [[-> _]|[[-> _]|[-> _]]]; lia.
    + split; [by apply (bool_decide_unpack _)|]. intros q Hq. cbn in Hq. rewrite !elem_of_cons, elem_of_nil in Hq.
      destruct Hq as [->|[->|[->|[->|[]]]]]; [apply (small_table 8)|apply (small_table 9)|apply (small_table 10)|apply (small_table 11)]; lia.
    + change (mmu (al_shadow alloc_tree)) with (mmu map_tree). intros b sp Hsp.
      apply tree_sps in Hsp as [[-> ->]|[[-> ->]|[-> ->]]]; (split; [apply small_table; lia|by apply (bool_decide_unpack _)]).
  - intros i l a Hl. change (ss_hash (al_shadow alloc_tree)) with (∅ : gmap Z (list Z)) in Hl. by rewrite lookup_empty in Hl.
  - intros a sp x _ Hx _. apply tree_pages in Hx as [[-> ->]|[[-> ->]|[-> ->]]]; done.
Qed.

(** A VCPU of a direct map with [n] levels. *)
Definition direct_vcpu (n : Z) : vcpu_paging :=
  {| vp_base_role := {| fr_level := 0; fr_direct := false; fr_smm := false; fr_invalid := false; fr_rest := tree_role |};
     vp_direct_map := true; vp_root_level := 0; vp_shadow_root_level := n; vp_pae := true |}.

Lemma get_page_direct_correct_witness :
  ∃ a st', vmrun_mmu_get_page (K := kvm_pte_x86) (T := kvm_track) x86_masks map_x86 (λ p, p) tree_slot tree_role_slot (λ _, None) tree_level
             (direct_vcpu 3) (nonpaging_sync_page) (λ _, []) 5 0x5000 1 true 7 alloc_tree = Some (a, st') ∧
    a ∈ hash_chain_of map_x86 5 st'.
Proof.
  destruct (get_page_direct_correct (K := kvm_pte_x86) (T := kvm_track) x86_masks map_x86 (λ p, p) tree_slot tree_role_slot (λ _, None) tree_level
              (direct_vcpu 3) nonpaging_sync_page (λ _, []) alloc_tree 5 0x5000 1 7 alloc_tree_ok eq_refl eq_refl)
    as (a & st' & E & _ & _ & Hin & _).
  - unfold tree_level. cbn. lia.
  - vm_compute. reflexivity.
  - discriminate.
  - discriminate.
  - exists a, st'. split; [exact E|exact Hin].
Defined.

(** Sixty-one pages are free, fewer than wanted: pages are zapped. *)
Lemma make_mmu_pages_available_correct_witness :
  ∃ e st', make_mmu_pages_available (K := kvm_pte_x86) (T := kvm_track) x86_masks (λ p, p) tree_slot tree_role_slot tree_level 62 63 alloc_tree
             = Some (e, st') ∧ st'.(al_zap).(zs_invalid) = [].
Proof.
  destruct (make_mmu_pages_available_correct (K := kvm_pte_x86) (T := kvm_track) x86_masks (λ p, p) tree_slot tree_role_slot tree_level
              62 63 tree_room alloc_tree alloc_tree_ok eq_refl) as (e & st' & E & _ & Hi & _).
  exists e, st'. split; [exact E|exact Hi].
Defined.
