(* ===== verification/TopupProps.v ===== *)
(** * The memory caches: properties

    [mmu_topup_memory_caches] takes objects the allocators give: it keeps the
    invariant of the shadow pages and, when it succeeds, the caches hold what
    the work under the lock needs. *)

From S2P Require Import Prelude.
From S2P Require Import Spte.
From S2P Require Import SpteTrack.
From S2P Require Import Memslots.
From S2P Require Import MemRegion.
From S2P Require Import MemRegionProps.
From S2P Require Import PteList.
From S2P Require Import PteListProps.
From S2P Require Import Rmap.
From S2P Require Import RmapProps.
From S2P Require Import SlotWalk.
From S2P Require Import PageTrack.
From S2P Require Import PageTrackProps.
From S2P Require Import ShadowPage.
From S2P Require Import ShadowPageProps.
From S2P Require Import MmuInv.
From S2P Require Import SetSpte.
From S2P Require Import SetSpteProps.
From S2P Require Import ZapPage.
From S2P Require Import ZapPageProps.
From S2P Require Import ZapUnsyncProps.
From S2P Require Import ZapProps.
From S2P Require Import GetPage.
From S2P Require Import GetPageProps.

(** What was added are the first objects of the allocator. *)
Lemma topup_loop_adds (room : nat) (avail : list (option Z)) (cache : list Z) :
  ∃ objs ok rest, topup_loop room avail cache = (ok, rest, reverse objs ++ cache) ∧ (Some <$> objs) `prefix_of` avail ∧
    (ok = true → length objs = room).
Proof.
  revert avail cache. induction room as [|room IH]; intros avail cache; cbn [topup_loop].
  - exists [], true, avail. split; [done|]. split; [apply prefix_nil|done].
  - destruct avail as [|[obj|] avail].
    + exists [], false, []. split; [done|]. split; [apply prefix_nil|done].
    + destruct (IH avail (obj :: cache)) as (objs & ok & rest & E & Hp & Hl). exists (obj :: objs), ok, rest.
      split; [rewrite E, reverse_cons, <- app_assoc; done|]. split; [by apply prefix_cons|]. intros H. cbn. by rewrite Hl.
    + exists [], false, avail. split; [done|]. split; [apply prefix_nil|done].
Qed.

Lemma topup_cache (capacity min : nat) (avail : list (option Z)) (cache : list Z) :
  ∃ objs r rest, mmu_topup_memory_cache capacity min avail cache = (r, rest, reverse objs ++ cache) ∧ (Some <$> objs) `prefix_of` avail ∧
    (r = 0 → (min <= capacity)%nat → (min <= length (reverse objs ++ cache))%nat).
Proof.
  unfold mmu_topup_memory_cache. destruct (Nat.leb_spec min (length cache)) as [Hle|Hgt].
  - exists [], 0, avail. split; [done|]. split; [apply prefix_nil|done].
  - destruct (topup_loop_adds (capacity - length cache) avail cache) as (objs & ok & rest & -> & Hp & Hl).
    exists objs, (if ok then 0 else - ENOMEM), rest. split; [done|]. split; [done|]. destruct ok; [|done]. intros _ Hc.
    rewrite length_app, length_reverse, Hl by done. lia.
Qed.

Lemma in_reverse (q : Z) (l : list Z) : q ∈ reverse l → q ∈ l.
Proof. by rewrite elem_of_reverse. Qed.

(** The objects of an allocator: distinct, each as [P] says. *)
Record fresh (P : Z → Prop) (avail : list (option Z)) : Prop := {
  fs_nodup : NoDup (omap (λ o, o) avail);
  fs_each : ∀ q, Some q ∈ avail → P q
}.

Lemma omap_some (objs : list Z) : omap (λ o, o) (Some <$> objs) = objs.
Proof. induction objs as [|o objs IH]; [done|]. cbn. by rewrite IH. Qed.

Lemma fresh_prefix (P : Z → Prop) (avail : list (option Z)) (objs : list Z) :
  fresh P avail → (Some <$> objs) `prefix_of` avail → NoDup objs ∧ ∀ q, q ∈ objs → P q.
Proof.
  intros [F1 F2] [rest ->]. split.
  - rewrite omap_app, omap_some in F1. by apply NoDup_app in F1 as [? _].
  - intros q Hq. apply F2, elem_of_app. left. apply list_elem_of_fmap. by exists q.
Qed.

(** The store with new descriptors. *)
Lemma insert_zero (objs : list Z) (m : gmap Z pte_list_desc) (q : Z) :
  foldr (λ q ds, <[q := zero_desc]> ds) m objs !! q = if decide (q ∈ objs) then Some zero_desc else m !! q.
Proof.
  induction objs as [|o objs IH]; [done|]. cbn [foldr]. destruct (decide (q = o)) as [->|Hne].
  - rewrite lookup_insert_eq, decide_True by by left. done.
  - rewrite lookup_insert_ne, IH by done. destruct (decide (q ∈ objs)).
    + by rewrite decide_True by by right.
    + rewrite decide_False; [done|]. rewrite not_elem_of_cons. by split.
Qed.

Lemma chain_lookup (m : gmap Z pte_list_desc) (p q : Z) (ds : list (Z * list Z)) :
  chain m p ds → q ∈ ds.*1 → is_Some (m !! q).
Proof.
  revert p. induction ds as [|[r es] ds IH]; intros p; cbn; [by intros _ ?%elem_of_nil|].
  intros (_ & _ & _ & next & Hl & Hc) [->|Hq]%elem_of_cons; [by eexists|by eapply IH].
Qed.

Lemma rep_lookup (m : gmap Z pte_list_desc) (h q : Z) (ps l : list Z) : rmap_rep m h ps l → q ∈ ps → is_Some (m !! q).
Proof. intros [|e He|p ds Hds Hn Hc] Hq; [by apply elem_of_nil in Hq|by apply elem_of_nil in Hq|]. exact (chain_lookup _ _ _ _ Hc Hq). Qed.

Lemma lists_more (LL DD : owner → list Z) (s s' : shadow_state) (objs : list Z) :
  lists_ok LL DD s → NoDup objs → (∀ q, q ∈ objs → is_ptr q ∧ (mmu s).(dmem).(descs) !! q = None) →
  (mmu s').(dmem) = {| descs := foldr (λ q ds, <[q := zero_desc]> ds) (mmu s).(dmem).(descs) (reverse objs);
                       desc_cache := reverse objs ++ (mmu s).(dmem).(desc_cache) |} →
  (∀ o, owner_live s' o → owner_live s o ∧ owner_head s' o = owner_head s o) → lists_ok LL DD s'.
Proof.
  intros [L1 L2 L3] Hn Hf Hm Ho.
  assert (Hold : ∀ q, q ∈ reverse objs → (mmu s).(dmem).(descs) !! q = None) by (intros q Hq; apply Hf; by rewrite elem_of_reverse in Hq).
  assert (Hd : ∀ o q, owner_live s o → q ∈ DD o → q ∉ reverse objs).
  { intros o q Hl Hq Hc. destruct (rep_lookup _ _ q _ _ (L1 o Hl) Hq) as [d Hd]. rewrite Hold in Hd; done. }
  split.
  - intros o Hl. destruct (Ho o Hl) as [Hl' ->]. rewrite Hm. cbn [descs]. eapply rmap_rep_frame; [by apply L1|].
    intros q Hq. rewrite insert_zero, decide_False; [done|]. by apply (Hd o).
  - intros o o' q Hne Hl Hl'. apply L2; [done|by apply Ho|by apply Ho].
  - intros o Hl. destruct (Ho o Hl) as [Hl' _]. destruct (L3 o Hl') as [N Z0]. rewrite Hm. split; cbn [desc_cache descs].
    + rewrite app_assoc, (Permutation_app_comm (DD o)), <- app_assoc. apply NoDup_app. split; [by rewrite reverse_Permutation|]. split; [|done].
      intros q Hq [Hc|Hc]%elem_of_app; [by apply (Hd o q Hl')|]. destruct (Z0 q Hc) as [_ Hz]. rewrite Hold in Hz; done.
    + intros q [Hq|Hq]%elem_of_app; rewrite insert_zero.
      * rewrite decide_True by done. split; [|done]. apply Hf. by rewrite elem_of_reverse in Hq.
      * destruct (Z0 q Hq) as [Hp Hz]. split; [done|]. by destruct (decide _).
Qed.

(** What the work under the lock may take. *)
Definition caches_full (st : alloc_state) : Prop :=
  (8 + Z.to_nat PTE_PREFETCH_NUM <= length (mmu (al_shadow st)).(dmem).(desc_cache) ∧ 8 <= length st.(al_pages) ∧
   4 <= length st.(al_headers))%nat.

Section Topup.
Context `{K : KvmPte} `{T : KvmTrack} (g : shadow_masks) (va : Z → Z)
        (gfn_to_memslot : bool → Z → vmrun_memory_slot) (role_gfn_to_memslot : bool → Z → option vmrun_memory_slot)
        (PT64_ROOT_MAX_LEVEL : nat).

Notation alloc_ok := (alloc_ok g va gfn_to_memslot role_gfn_to_memslot PT64_ROOT_MAX_LEVEL).

(** Memory that nobody uses. *)
Record fresh_memory (descs0 free headers : list (option Z)) (st : alloc_state) : Prop := {
  fm_descs : fresh (λ q, is_ptr q ∧ (mmu (al_shadow st)).(dmem).(descs) !! q = None) descs0;
  fm_pages : fresh (λ q, good_table q ∧ q ∉ st.(al_pages) ∧ ∀ b sp, (mmu (al_shadow st)).(pages) !! b = Some sp → sp.(sp_spt) ≠ q) free;
  fm_headers : fresh (λ a, a ≠ 0 ∧ a ∉ st.(al_headers) ∧ (mmu (al_shadow st)).(pages) !! a = None) headers
}.

(** Only the store of descriptors and the caches change. *)
Record topped_up (st st' : alloc_state) : Prop := {
  tu_mmu : ∃ m, mmu (al_shadow st') = (mmu (al_shadow st)) <| dmem := m |>;
  tu_shadow : al_shadow st' = (al_shadow st) <| ss_track ::= λ t, t <| tk_mmu := mmu (al_shadow st') |> |>;
  tu_lists : st'.(al_zap) = st.(al_zap) <| zs_shadow := al_shadow st' |>;
  tu_header : st'.(al_header) = st.(al_header)
}.

Lemma topped_refl (st : alloc_state) : topped_up st st.
Proof using Type.
  assert (E1 : ∀ s, s = s <| ss_track ::= λ t, t <| tk_mmu := mmu s |> |>) by (intros [[] ? ? ? ? ? ? ? ? ? ?]; done).
  split; [|apply E1| |done].
  - exists (mmu (al_shadow st)).(dmem). by destruct (mmu (al_shadow st)).
  - unfold al_shadow. by destruct (al_zap st).
Qed.

(** More descriptors. *)
Lemma more_descs (st st' : alloc_state) (objs : list Z) :
  alloc_ok st → NoDup objs → (∀ q, q ∈ objs → is_ptr q ∧ (mmu (al_shadow st)).(dmem).(descs) !! q = None) →
  st' = upd_shadow (upd_mmu (λ s, s <| dmem := {| descs := foldr (λ q ds, <[q := zero_desc]> ds) s.(dmem).(descs) (reverse objs);
                                                   desc_cache := reverse objs ++ s.(dmem).(desc_cache) |} |>)) st → alloc_ok st'.
Proof using Type.
  intros [P L [C1 C2 C3] H D] Hn Hf ->. destruct P as [(LL & DD & Hsh) P2 P3 P4 P5 P6]. split.
  - split; [| |exact P3|exact P4| |exact P6].
    + exists LL, DD. destruct Hsh as [HL [E1 E2 E3 E4 E5] HC HU]. split; [|by split|exact HC|exact HU].
      by apply (lists_more LL DD (zs_shadow (al_zap st)) _ objs HL).
    + destruct P2 as [V1 V2 V3 V4]. split; [exact V1|exact V2|exact V3|]. intros a sp Hsp Hd. eapply unaccount_shape; [|exact (V4 a sp Hsp Hd)]. done.
    + intros a Ha. destruct (P5 a Ha) as [[D1 D2] Hx]. split; [|exact Hx]. by split.
  - exact L.
  - by split.
  - exact H.
  - exact D.
Qed.

Lemma more_pages (st : alloc_state) (pgs hs : list Z) :
  alloc_ok st → NoDup pgs → NoDup hs →
  (∀ q, q ∈ pgs → good_table q ∧ q ∉ st.(al_pages) ∧ ∀ b sp, (mmu (al_shadow st)).(pages) !! b = Some sp → sp.(sp_spt) ≠ q) →
  (∀ a, a ∈ hs → a ≠ 0 ∧ a ∉ st.(al_headers) ∧ (mmu (al_shadow st)).(pages) !! a = None) →
  alloc_ok (st <| al_pages := reverse pgs ++ st.(al_pages) |> <| al_headers := reverse hs ++ st.(al_headers) |>).
Proof using Type.
  intros [P L [[C1 C1'] [C2 C2'] C3] H D] Hn1 Hn2 Hp Hh. split; [exact P|exact L| |exact H|exact D].
  split; cbn [al_headers al_pages].
  - change (al_headers (st <| al_pages := _ |> <| al_headers := ?l |>)) with l. split.
    + apply NoDup_app. split; [by rewrite reverse_Permutation|]. split; [|done]. intros a Ha%in_reverse. exact (proj1 (proj2 (Hh a Ha))).
    + intros a [Ha%in_reverse|Ha]%elem_of_app; [destruct (Hh a Ha) as (? & _ & ?); done|by apply C1'].
  - change (al_pages (st <| al_pages := ?l |> <| al_headers := _ |>)) with l. split.
    + apply NoDup_app. split; [by rewrite reverse_Permutation|]. split; [|done]. intros a Ha%in_reverse. exact (proj1 (proj2 (Hp a Ha))).
    + intros a [Ha%in_reverse|Ha]%elem_of_app; [by apply Hp|by apply C2'].
  - change (al_pages (st <| al_pages := ?l |> <| al_headers := _ |>)) with l.
    intros b sp Hb. destruct (C3 b sp Hb) as [G Hni]. split; [done|]. intros [Ha%in_reverse|Ha]%elem_of_app; [|done].
    destruct (Hp _ Ha) as (_ & _ & Hd). by apply (Hd b sp).
Qed.

Lemma topup_ok (capacity : nat) (descs0 free headers : list (option Z)) (st : alloc_state) :
  alloc_ok st → fresh_memory descs0 free headers st →
  (8 + Z.to_nat PTE_PREFETCH_NUM <= capacity)%nat →
  ∃ r st', mmu_topup_memory_caches capacity descs0 free headers st = (r, st') ∧ alloc_ok st' ∧ topped_up st st' ∧
    (r = 0 → caches_full st').
Proof using Type.
  intros Hok [Fd Fp Fh] Hc. unfold mmu_topup_memory_caches, topup_descs, mmu_topup_memory_cache_page.
  destruct (topup_cache capacity (Z.to_nat (8 + PTE_PREFETCH_NUM)) descs0 (mmu (al_shadow st)).(dmem).(desc_cache))
    as (objs & r & rest & -> & Hp & Hr).
  assert (Et : take (length (reverse objs ++ desc_cache (dmem (mmu (al_shadow st)))) - length (desc_cache (dmem (mmu (al_shadow st)))))
                 (reverse objs ++ desc_cache (dmem (mmu (al_shadow st)))) = reverse objs).
  { rewrite length_app, Nat.add_sub. apply take_app_length. }
  rewrite Et. destruct (fresh_prefix _ _ _ Fd Hp) as [Hn Hf].
  set (st1 := upd_shadow _ st). assert (Hok1 : alloc_ok st1) by (by apply (more_descs st st1 objs)).
  assert (Tu : topped_up st st1) by (split; [by eexists|done|done|done]).
  destruct (truth r) eqn:Er; [eexists r, st1; split; [done|]; split; [done|]; split; [done|]; intros ->; done|].
  apply truth_false in Er as ->. specialize (Hr eq_refl ltac:(lia)).
  destruct (topup_cache capacity 8 free (al_pages st1)) as (pgs & r & rest' & -> & Hp' & Hr').
  destruct (fresh_prefix _ _ _ Fp Hp') as [Hn' Hf'].
  set (st2 := st1 <| al_pages := reverse pgs ++ al_pages st1 |>).
  assert (Hok2 : alloc_ok st2).
  { assert (Eh : ∀ z l, z <| al_pages := l |> = z <| al_pages := l |> <| al_headers := reverse [] ++ al_headers z |>) by (intros [] ?; done).
    unfold st2. rewrite Eh. apply more_pages; [done|done|constructor|exact Hf'|]. by intros a ?%elem_of_nil. }
  destruct (truth r) eqn:Er; [eexists r, st2; split; [done|]; split; [done|]; split; [by destruct Tu|]; intros ->; done|].
  apply truth_false in Er as ->. specialize (Hr' eq_refl ltac:(lia)).
  destruct (topup_cache capacity 4 headers (al_headers st2)) as (hs & r & rest'' & -> & Hp'' & Hr'').
  destruct (fresh_prefix _ _ _ Fh Hp'') as [Hn'' Hf''].
  eexists r, _. split; [reflexivity|]. split; [by apply (more_pages st1 pgs hs)|]. split; [by destruct Tu|].
  intros ->. specialize (Hr'' eq_refl ltac:(lia)). split; [|split].
  - exact Hr.
  - exact Hr'.
  - exact Hr''.
Qed.

(** Filling the caches.  With memory nobody uses, whatever allocations
    fail, [mmu_topup_memory_caches] keeps the invariant of the shadow pages
    and changes nothing but the caches and the store of descriptors; when it
    succeeds, the caches hold what the work under the lock may take. *)
Theorem topup_caches_correct (capacity : nat) (descs0 free headers : list (option Z)) (st : alloc_state) :
  alloc_ok st → fresh_memory descs0 free headers st →
  (8 + Z.to_nat PTE_PREFETCH_NUM <= capacity)%nat →
  ∃ r st', mmu_topup_memory_caches capacity descs0 free headers st = (r, st') ∧ alloc_ok st' ∧ topped_up st st' ∧
    (r = 0 → caches_full st').
Proof using Type. exact (topup_ok capacity descs0 free headers st). Qed.
End Topup.

(** What the allocators give in the example. *)
Definition some_objects (base step : Z) : list (option Z) := (λ i, Some (base + step * i)) <$> seqZ 0 40.

Lemma some_objects_fresh (P : Z → Prop) (base step : Z) :
  step ≠ 0 → (∀ i, 0 <= i < 40 → P (base + step * i)) → fresh P (some_objects base step).
Proof.
  intros Hs HP. assert (E : omap (λ o, o) (some_objects base step) = (λ i, base + step * i) <$> seqZ 0 40).
  { unfold some_objects. rewrite <- (omap_some ((λ i, base + step * i) <$> seqZ 0 40)). by rewrite <- list_fmap_compose. }
  split.
  - rewrite E. apply NoDup_fmap_2; [|apply NoDup_seqZ]. intros i j Hij. nia.
  - intros q Hq. apply list_elem_of_fmap in Hq as (i & [= ->] & Hi%elem_of_seqZ). apply HP. lia.
Qed.

Lemma tree_fresh : fresh_memory (some_objects 0x100000 16) (some_objects 0x20000 0x1000) (some_objects 100 1) alloc_tree.
Proof.
  split.
  - apply some_objects_fresh; [lia|]. intros i Hi. split; [|].
    + split; [unfold is_u; lia|lia|]. rewrite Z.even_add, Z.even_mul. done.
    + change (descs (dmem (mmu (al_shadow alloc_tree)))) with ({[ 0x10 := zero_desc ]} : gmap Z pte_list_desc).
      apply lookup_singleton_None. lia.
  - apply some_objects_fresh; [lia|]. intros i Hi. replace (0x20000 + 0x1000 * i) with (0x1000 * (32 + i)) by lia. split_and!.
    + apply small_table. lia.
    + cbn [al_pages alloc_tree]. rewrite !elem_of_cons, elem_of_nil. lia.
    + change (mmu (al_shadow alloc_tree)) with (mmu map_tree). intros b sp [[-> ->]|[[-> ->]|[-> ->]]]%tree_sps; cbn [tree_page sp_spt]; lia.
  - apply some_objects_fresh; [lia|]. intros i Hi. split_and!.
    + lia.
    + cbn [al_headers alloc_tree]. rewrite !elem_of_cons, elem_of_nil. lia.
    + change (mmu (al_shadow alloc_tree)) with (mmu map_tree). destruct (pages (mmu map_tree) !! _) eqn:E; [|done].
      exfalso. apply tree_sps in E. lia.
Qed.

Lemma topup_caches_correct_witness :
  ∃ st', mmu_topup_memory_caches 40 (some_objects 0x100000 16) (some_objects 0x20000 0x1000) (some_objects 100 1) alloc_tree = (0, st') ∧
    caches_full st'.
Proof.
  destruct (topup_caches_correct (K := kvm_pte_x86) (T := kvm_track) x86_masks (λ p, p) tree_slot tree_role_slot tree_level 40
              (some_objects 0x100000 16) (some_objects 0x20000 0x1000) (some_objects 100 1) alloc_tree alloc_tree_ok tree_fresh)
    as (r & st' & E & _ & _ & Hf).
  - vm_compute. lia.
  - assert (r = 0) as -> by (change r with (fst (r, st')); rewrite <- E; vm_compute; reflexivity).
    exists st'. split; [exact E|by apply Hf].
Defined.
