(* ===== verification/MmuRoots.v ===== *)
(** * The roots of the shadow tables

    kernel/mmu.c: the root pages of a VCPU are looked up or allocated and
    counted ([mmu_alloc_roots]), synced, and given back ([mmu_free_roots]);
    [vmrun_mmu_load] and [vmrun_mmu_unload].

    A VCPU has one root page, or four in [pae_root]; a 32-bit guest shadowed by
    four-level tables has [lm_root] above them. *)

From S2P Require Import Prelude.
From S2P Require Import Spte.
From S2P Require Import Memslots.
From S2P Require Import MemRegion.
From S2P Require Import PteList.
From S2P Require Import Rmap.
From S2P Require Import GuestPaging.
From S2P Require Import PageTrack.
From S2P Require Import FastFault.
From S2P Require Import ShadowPage.
From S2P Require Import SetSpte.
From S2P Require Import ZapPage.
From S2P Require Import GetPage.

(** [vcpu->arch.mmu] as far as the roots go. *)
Record root_state := {
  ro_alloc : alloc_state;
  root_hpa : Z;
  pae_root : list Z;
  lm_root : option (Z * Z);        (* the page, and its entry 0 *)
  ro_mmio_cleared : Z;             (* vcpu_clear_mmio_info *)
  ro_cr3 : option Z                (* what set_cr3 was last given *)
}.
#[export] Instance eta_root_state : Eta root_state := λ r,
  {| ro_alloc := r.(ro_alloc); root_hpa := r.(root_hpa); pae_root := r.(pae_root); lm_root := r.(lm_root);
     ro_mmio_cleared := r.(ro_mmio_cleared); ro_cr3 := r.(ro_cr3) |}.

Definition upd_root_ext (a : Z) (f : page_ext → page_ext) (st : alloc_state) : alloc_state := upd_shadow (upd_ext a f) st.

(** [++sp->root_count], at the width of an int. *)
Definition get_root (a : Z) (st : alloc_state) : alloc_state := upd_root_ext a (λ x, x <| px_root_count ::= λ n, s32 (n + 1) |>) st.

Section Roots.
Context `{K : KvmPte} `{T : KvmTrack} (g : shadow_masks) (env : map_env) (va pa : Z → Z).
Context (gfn_to_memslot : bool → Z → vmrun_memory_slot) (role_gfn_to_memslot : bool → Z → option vmrun_memory_slot)
        (vcpu_gfn_to_memslot : Z → option vmrun_memory_slot).
Context (PT64_ROOT_MAX_LEVEL : nat).
Context (vp : vcpu_paging) (sync_page : Z → alloc_state → option (Z * alloc_state)) (page_content : Z → list Z).
Context (resched : alloc_state → option alloc_state).
Context (KVM_MIN_FREE_MMU_PAGES KVM_REFILL_PAGES : Z).

Notation al_zap_page := (al_zap_page g va gfn_to_memslot role_gfn_to_memslot PT64_ROOT_MAX_LEVEL).
Notation vmrun_mmu_get_page := (vmrun_mmu_get_page g env va gfn_to_memslot role_gfn_to_memslot vcpu_gfn_to_memslot
                                  PT64_ROOT_MAX_LEVEL vp sync_page page_content).
Notation make_mmu_pages_available := (make_mmu_pages_available g va gfn_to_memslot role_gfn_to_memslot PT64_ROOT_MAX_LEVEL
                                        KVM_MIN_FREE_MMU_PAGES KVM_REFILL_PAGES).
Notation mmu_sync_children := (mmu_sync_children g va gfn_to_memslot role_gfn_to_memslot vcpu_gfn_to_memslot
                                 PT64_ROOT_MAX_LEVEL vp sync_page resched).

(** ** Giving back *)

(** One root: [root] is its physical address. *)
Definition put_root (root : Z) (st : alloc_state) : option alloc_state :=
  let a := al_page_of va st root in
  let st := upd_root_ext a (λ x, x <| px_root_count ::= λ n, s32 (n - 1) |>) st in
  x ← (al_shadow st).(ss_ext) !! a;
  if negb (truth x.(px_root_count)) && x.(px_invalid) then '(st, _) ← al_zap_page a st; Some st else Some st.

(** The loop over [pae_root] from [i] on. *)
Fixpoint put_pae_roots (l : list Z) (st : alloc_state) : option alloc_state :=
  match l with
  | [] => Some st
  | root :: l =>
      st ← (if truth root then put_root (Z.land root PT64_BASE_ADDR_MASK) st else Some st);
      put_pae_roots l st
  end.

Definition mmu_free_roots (r : root_state) : option root_state :=
  if negb (VALID_PAGE r.(root_hpa)) then Some r
  else
    let st := r.(ro_alloc) <| al_zap ::= local_list |> in
    if (vp.(vp_shadow_root_level) >=? PT64_ROOT_4LEVEL) && ((vp.(vp_root_level) >=? PT64_ROOT_4LEVEL) || vp.(vp_direct_map)) then
      st ← put_root r.(root_hpa) st;
      st ← al_commit st;
      Some (r <| ro_alloc := st |> <| root_hpa := INVALID_PAGE |>)
    else
      st ← put_pae_roots r.(pae_root) st;
      st ← al_commit st;
      Some (r <| ro_alloc := st |> <| pae_root := replicate 4 INVALID_PAGE |> <| root_hpa := INVALID_PAGE |>).

(** ** Allocating *)

(** [vmrun_is_visible_gfn], [get_cr3], [get_pdptr]; the address of [pae_root];
    the page [get_zeroed_page] gives. *)
Context (visible : Z → bool) (get_cr3 : Z) (get_pdptr : Z → Z) (pae_root_va : Z) (zeroed_page : option Z).

Definition mmu_check_root (root_gfn : Z) (st : alloc_state) : Z * alloc_state :=
  if negb (visible root_gfn) then (1, vmrun_make_request KVM_REQ_TRIPLE_FAULT st) else (0, st).

(** One page with its count raised; [inl]: return 1. *)
Definition alloc_root (gfn gaddr level : Z) (direct : bool) (st : alloc_state) : option (alloc_state * option Z) :=
  '(e, st) ← make_mmu_pages_available st;
  if e <? 0 then Some (st, None)
  else
    '(a, st) ← vmrun_mmu_get_page gfn gaddr level direct ACC_ALL st;
    sp ← (mmu (al_shadow st)).(pages) !! a;
    Some (get_root a st, Some (pa sp.(sp_spt))).

(** [for (i = 0; i < 4; ++i)] of [mmu_alloc_direct_roots]; [n] are left. *)
Fixpoint direct_pae_loop (n : nat) (i : Z) (r : root_state) : option (Z * root_state) :=
  match n with
  | O => Some (0, r)
  | S n =>
      '(st, root) ← alloc_root (Z.shiftl i (30 - PAGE_SHIFT)) (Z.shiftl i 30) PT32_ROOT_LEVEL true r.(ro_alloc);
      let r := r <| ro_alloc := st |> in
      match root with
      | None => Some (1, r)
      | Some root => direct_pae_loop n (i + 1) (r <| pae_root ::= <[Z.to_nat i := Z.lor root PT_PRESENT_MASK]> |>)
      end
  end.

Definition mmu_alloc_direct_roots (r : root_state) : option (Z * root_state) :=
  if vp.(vp_shadow_root_level) >=? PT64_ROOT_4LEVEL then
    '(st, root) ← alloc_root 0 0 vp.(vp_shadow_root_level) true r.(ro_alloc);
    let r := r <| ro_alloc := st |> in
    match root with
    | None => Some (1, r)
    | Some root => Some (0, r <| root_hpa := root |>)
    end
  else if vp.(vp_shadow_root_level) =? PT32E_ROOT_LEVEL then
    '(e, r) ← direct_pae_loop 4 0 r;
    if truth e then Some (e, r) else Some (0, r <| root_hpa := pa pae_root_va |>)
  else None.

(** The loop of [mmu_alloc_shadow_roots]; [root_gfn] keeps its value. *)
Fixpoint shadow_pae_loop (n : nat) (i root_gfn pm_mask : Z) (r : root_state) : option (Z * root_state) :=
  match n with
  | O => Some (0, r)
  | S n =>
      let pdptr := get_pdptr i in
      if (vp.(vp_root_level) =? PT32E_ROOT_LEVEL) && negb (truth (Z.land pdptr PT_PRESENT_MASK))
      then shadow_pae_loop n (i + 1) root_gfn pm_mask (r <| pae_root ::= <[Z.to_nat i := 0]> |>)
      else
        let root_gfn := if vp.(vp_root_level) =? PT32E_ROOT_LEVEL then Z.shiftr pdptr PAGE_SHIFT else root_gfn in
        let '(e, st) := if vp.(vp_root_level) =? PT32E_ROOT_LEVEL then mmu_check_root root_gfn r.(ro_alloc) else (0, r.(ro_alloc)) in
        let r := r <| ro_alloc := st |> in
        if truth e then Some (1, r)
        else
          '(st, root) ← alloc_root root_gfn (Z.shiftl i 30) PT32_ROOT_LEVEL false r.(ro_alloc);
          let r := r <| ro_alloc := st |> in
          match root with
          | None => Some (1, r)
          | Some root => shadow_pae_loop n (i + 1) root_gfn pm_mask (r <| pae_root ::= <[Z.to_nat i := Z.lor root pm_mask]> |>)
          end
  end.

(** A 32-bit guest in four-level tables. *)
Definition set_lm_root (pm_mask : Z) (r : root_state) : Z * root_state :=
  if vp.(vp_shadow_root_level) =? PT64_ROOT_4LEVEL then
    match r.(lm_root) with
    | Some (p, _) => (0, r <| root_hpa := pa p |>)
    | None =>
        match zeroed_page with
        | None => (1, r)
        | Some p => (0, r <| lm_root := Some (p, Z.lor (pa pae_root_va) pm_mask) |> <| root_hpa := pa p |>)
        end
    end
  else (0, r).

Definition mmu_alloc_shadow_roots (r : root_state) : option (Z * root_state) :=
  let root_gfn := Z.shiftr get_cr3 PAGE_SHIFT in
  let '(e, st) := mmu_check_root root_gfn r.(ro_alloc) in
  let r := r <| ro_alloc := st |> in
  if truth e then Some (1, r)
  else if vp.(vp_root_level) >=? PT64_ROOT_4LEVEL then
    '(st, root) ← alloc_root root_gfn 0 vp.(vp_shadow_root_level) false r.(ro_alloc);
    let r := r <| ro_alloc := st |> in
    match root with
    | None => Some (1, r)
    | Some root => Some (0, r <| root_hpa := root |>)
    end
  else
    let pm_mask := if vp.(vp_shadow_root_level) =? PT64_ROOT_4LEVEL
                   then Z.lor PT_PRESENT_MASK (Z.lor (Z.lor PT_ACCESSED_MASK PT_WRITABLE_MASK) PT_USER_MASK)
                   else PT_PRESENT_MASK in
    '(e, r) ← shadow_pae_loop 4 0 root_gfn pm_mask r;
    if truth e then Some (e, r)
    else Some (set_lm_root pm_mask (r <| root_hpa := pa pae_root_va |>)).

Definition mmu_alloc_roots (r : root_state) : option (Z * root_state) :=
  if vp.(vp_direct_map) then mmu_alloc_direct_roots r else mmu_alloc_shadow_roots r.

(** ** Syncing, loading *)

Fixpoint sync_pae_roots (fuel : nat) (l : list Z) (st : alloc_state) : option alloc_state :=
  match l with
  | [] => Some st
  | root :: l =>
      st ← (if truth root && VALID_PAGE root then mmu_sync_children fuel (al_page_of va st (Z.land root PT64_BASE_ADDR_MASK)) st
            else Some st);
      sync_pae_roots fuel l st
  end.

(** [fuel] is for [mmu_sync_children], during which others may run. *)
Definition mmu_sync_roots (fuel : nat) (r : root_state) : option root_state :=
  if vp.(vp_direct_map) then Some r
  else if negb (VALID_PAGE r.(root_hpa)) then Some r
  else
    let r := r <| ro_mmio_cleared ::= λ n, n + 1 |> in
    st ← (if vp.(vp_root_level) >=? PT64_ROOT_4LEVEL
          then mmu_sync_children fuel (al_page_of va r.(ro_alloc) r.(root_hpa)) r.(ro_alloc)
          else sync_pae_roots fuel r.(pae_root) r.(ro_alloc));
    Some (r <| ro_alloc := st |>).

Definition vmrun_mmu_sync_roots : nat → root_state → option root_state := mmu_sync_roots.

Context (capacity : nat).

Definition vmrun_mmu_load (fuel : nat) (descs pages headers : list (option Z)) (r : root_state) : option (Z * root_state) :=
  let '(e, st) := mmu_topup_memory_caches capacity descs pages headers r.(ro_alloc) in
  let r := r <| ro_alloc := st |> in
  if truth e then Some (e, r)
  else
    '(e, r) ← mmu_alloc_roots r;
    r ← vmrun_mmu_sync_roots fuel r;
    if truth e then Some (e, r) else Some (e, r <| ro_cr3 := Some r.(root_hpa) |>).

Definition vmrun_mmu_unload (r : root_state) : option root_state :=
  r ← mmu_free_roots r;
  Some (r <| ro_alloc ::= upd_shadow (sp_warn_if (VALID_PAGE r.(root_hpa))) |>).

Definition vmrun_mmu_reload (fuel : nat) (descs pages headers : list (option Z)) (r : root_state) : option (Z * root_state) :=
  if negb (r.(root_hpa) =? INVALID_PAGE) then Some (0, r) else vmrun_mmu_load fuel descs pages headers r.
End Roots.
