(* ===== verification/MmuRootsProps.v ===== *)
(** * The roots of the shadow tables: properties

    The root of a direct map: loading it raises the count of its page, which
    keeps the page from being freed; unloading lowers the count, and a page
    that was zapped meanwhile goes with the last count. *)

From S2P Require Import Prelude.
From S2P Require Import Spte.
From S2P Require Import SpteTrack.
From S2P Require Import Memslots.
From S2P Require Import MemRegion.
From S2P Require Import MemRegionProps.
From S2P Require Import PteList.
From S2P Require Import PteListProps.
From S2P Require Import Rmap.
From S2P Require Import RmapProps.
From S2P Require Import SlotWalk.
From S2P Require Import GuestPaging.
From S2P Require Import PageTrack.
From S2P Require Import PageTrackProps.
From S2P Require Import FastFault.
From S2P Require Import ShadowPage.
From S2P Require Import ShadowPageProps.
From S2P Require Import MmuInv.
From S2P Require Import SetSpte.
From S2P Require Import SetSpteProps.
From S2P Require Import ZapPage.
From S2P Require Import ZapPageProps.
From S2P Require Import ZapUnsyncProps.
From S2P Require Import ZapProps.
From S2P Require Import GetPage.
From S2P Require Import GetPageProps.
From S2P Require Import TopupProps.
From S2P Require Import MmuRoots.

Section Roots.
Context `{K : KvmPte} `{T : KvmTrack} (g : shadow_masks) (env : map_env) (va pa : Z → Z)
        (gfn_to_memslot : bool → Z → vmrun_memory_slot) (role_gfn_to_memslot : bool → Z → option vmrun_memory_slot)
        (vcpu_gfn_to_memslot : Z → option vmrun_memory_slot) (PT64_ROOT_MAX_LEVEL : nat)
        (vp : vcpu_paging) (sync_page : Z → alloc_state → option (Z * alloc_state)) (page_content : Z → list Z)
        (KVM_MIN_FREE_MMU_PAGES KVM_REFILL_PAGES : Z).

Notation alloc_ok := (alloc_ok g va gfn_to_memslot role_gfn_to_memslot PT64_ROOT_MAX_LEVEL).
Notation al_owner st := (owner_of g st.(al_header) (al_page_of va st) gfn_to_memslot (al_shadow st)).

(** ** The count of a root *)

Definition recount (n : Z) (x : page_ext) : page_ext := x <| px_root_count := n |>.

Lemma recount_lookup (st : alloc_state) (a n b : Z) :
  (al_shadow (upd_root_ext a (recount n) st)).(ss_ext) !! b
  = if decide (b = a) then recount n <$> (al_shadow st).(ss_ext) !! b else (al_shadow st).(ss_ext) !! b.
Proof using Type.
  unfold upd_root_ext, upd_ext. cbn. destruct (decide (b = a)) as [->|Hne]; [apply lookup_alter_eq|by apply lookup_alter_ne].
Qed.

Lemma recount_back (st : alloc_state) (a n b : Z) (y : page_ext) :
  (al_shadow (upd_root_ext a (recount n) st)).(ss_ext) !! b = Some y →
  ∃ x, (al_shadow st).(ss_ext) !! b = Some x ∧ y = (if decide (b = a) then recount n x else x).
Proof using Type.
  rewrite recount_lookup. destruct (decide (b = a)).
  - intros (x & Hx & ->)%fmap_Some. by exists x.
  - intros Hy. by exists y.
Qed.

Lemma recount_dom (st : alloc_state) (a n b : Z) :
  is_Some ((al_shadow (upd_root_ext a (recount n) st)).(ss_ext) !! b) ↔ is_Some ((al_shadow st).(ss_ext) !! b).
Proof using Type. rewrite recount_lookup. destruct (decide (b = a)); [apply fmap_is_Some|done]. Qed.

Lemma recount_tables (LL DD : owner → list Z) (st : alloc_state) (a n : Z) :
  shadow_ok g st.(al_header) (al_page_of va st) gfn_to_memslot LL DD (al_shadow st) →
  shadow_ok g st.(al_header) (al_page_of va st) gfn_to_memslot LL DD (al_shadow (upd_root_ext a (recount n) st)).
Proof using Type.
  intros [L E C U]. split.
  - apply (lists_same LL DD (al_shadow st)); [done|done|]. intros [k|b]; [done|]. cbn [owner_live owner_head].
    intros [y Hy]. destruct (recount_back st a n b y Hy) as (x & Hx & ->). rewrite Hy, Hx. split; [by eexists|]. by destruct (decide _).
  - apply (entries_same _ _ _ _ LL (al_shadow st)); [|done]. split; [done|done|]. intros b. apply recount_dom.
  - intros b y Hy. destruct (recount_back st a n b y Hy) as (x & Hx & ->). destruct (C b x Hx). by destruct (decide _).
  - intros b y p Hb Hy Hn Hp. destruct (recount_back st a n b y Hy) as (x & Hx & Ey).
    destruct (U b x p Hb Hx) as (sp & z & H1 & H2 & H3); [|done|].
    { unfold needs_mark in *. subst y. by destruct (decide _). }
    exists sp, (if decide (al_header st p = a) then recount n z else z). split; [done|]. rewrite recount_lookup, H2.
    by destruct (decide (al_header st p = a)).
Qed.

(** Another count on a page in use that is not of the last level. *)
Lemma recount_alloc (st : alloc_state) (a n : Z) (sp : mmu_page) :
  alloc_ok st → (mmu (al_shadow st)).(pages) !! a = Some sp → sp.(role_level) ≠ 1 → a ∈ (al_shadow st).(ss_active) →
  alloc_ok (upd_root_ext a (recount n) st).
Proof using Type.
  intros Hok Hsp Hlv Ha. pose proof (ao_pools _ _ _ _ _ _ Hok) as P. destruct (waiting_not _ _ _ _ _ _ _ a P Ha) as [Hni Hno].
  destruct P as [(LL & DD & Hsh) [V1 V2 V3 V4] P3 P4 P5 P6]. destruct Hok as [_ L C H D]. split.
  - split.
    + exists LL, DD. exact (recount_tables LL DD st a n Hsh).
    + split; [exact V1|exact V2| |exact V4]. intros b spb y Hspb Hy.
      destruct (recount_back st a n b y Hy) as (x & Hx & ->). destruct (V3 b spb x Hspb Hx) as (W1 & W2 & W3).
      destruct (decide (b = a)) as [->|Hne]; [|done]. split; [exact W1|]. split; [exact W2|]. intros _. change (pages (mmu (al_shadow st)) !! a = Some spb) in Hspb. congruence.
    + exact P3.
    + intros b. rewrite <- P4. apply recount_dom.
    + intros b Hb. destruct (P5 b Hb) as ([D1 D2] & x & Hx & Hi). split; [split; [exact D1|exact D2]|]. exists x. split; [|done].
      etrans; [apply recount_lookup|]. rewrite decide_False; [exact Hx|]. intros ->. apply elem_of_app in Hb as [?|?]; done.
    + exact P6.
  - exact L.
  - destruct C as [C1 C2 C3]. split; [exact C1|exact C2|exact C3].
  - exact H.
  - intros b spb y Hspb Hy Hd. destruct (recount_back st a n b y Hy) as (x & Hx & ->). specialize (D b spb x Hspb Hx Hd). by destruct (decide _).
Qed.

Lemma recount_eq (st : alloc_state) (a m : Z) (x : page_ext) (f : page_ext → page_ext) :
  (al_shadow st).(ss_ext) !! a = Some x → f x = recount m x → upd_root_ext a f st = upd_root_ext a (recount m) st.
Proof using Type.
  intros Hx Hf. assert (E : alter f a (al_shadow st).(ss_ext) = alter (recount m) a (al_shadow st).(ss_ext)).
  { apply map_eq. intros b. destruct (decide (b = a)) as [->|Hne]; [by rewrite !lookup_alter_eq, Hx; cbn; rewrite Hf|by rewrite !lookup_alter_ne]. }
  unfold upd_root_ext, upd_shadow, upd_ext. unfold al_shadow in E. destruct st as [[s ? ? ? ?] ? ? ? ? ? ? ?]. destruct s. cbn in *. by rewrite E.
Qed.

Context (Hmax : (PT64_ROOT_MAX_LEVEL < KVM_PAGE_ARRAY_NR)%nat).

Notation alloc_root := (alloc_root g env va pa gfn_to_memslot role_gfn_to_memslot vcpu_gfn_to_memslot PT64_ROOT_MAX_LEVEL vp sync_page page_content
                          KVM_MIN_FREE_MMU_PAGES KVM_REFILL_PAGES).
Notation put_root := (put_root g va gfn_to_memslot role_gfn_to_memslot PT64_ROOT_MAX_LEVEL).

(** The count of a page, 0 when there is none. *)
Definition root_count_of (st : alloc_state) (a : Z) : Z := from_option px_root_count 0 ((al_shadow st).(ss_ext) !! a).

Lemma room_count (st st' : alloc_state) (e a : Z) :
  room_made g va gfn_to_memslot role_gfn_to_memslot PT64_ROOT_MAX_LEVEL KVM_MIN_FREE_MMU_PAGES KVM_REFILL_PAGES st e st' →
  is_Some ((al_shadow st').(ss_ext) !! a) → root_count_of st' a = root_count_of st a ∧ is_Some ((al_shadow st).(ss_ext) !! a).
Proof using Type.
  clear Hmax. intros (_ & _ & _ & _ & H1 & H2) [x' Hx'].
  destruct (Z.le_gt_cases KVM_MIN_FREE_MMU_PAGES (vmrun_mmu_available_pages (al_shadow st))) as [Hle|Hgt].
  - destruct (H1 Hle) as [_ ->]. split; [done|by eexists].
  - destruct (H2 Hgt) as (_ & st0 & st1 & L1 & L2 & F & _). unfold al_shadow in Hx' at 1. rewrite (fr_ext _ _ _ F) in Hx'.
    destruct (decide _); [done|]. destruct (lighter_lookup _ _ a x' L2 Hx') as (x1 & Hx1 & E1).
    destruct (lighter_lookup _ _ a x1 L1 Hx1) as (x & Hx & E2). split; [|by eexists]. unfold root_count_of. rewrite Hx. unfold al_shadow at 1.
    rewrite (fr_ext _ _ _ F), decide_False by done. unfold al_shadow in Hx'. rewrite Hx'. cbn. etrans; [exact (le_root _ _ E1)|exact (le_root _ _ E2)].
Qed.

(** A root of a direct map, its count raised. *)
Record rooted (gfn level a : Z) (gaddr : Z) (st st' : alloc_state) (sp : mmu_page) : Prop := {
  rt_page : (mmu (al_shadow st')).(pages) !! a = Some sp;
  rt_for : page_for gfn (wanted_role vp gaddr level true ACC_ALL) a (al_shadow st');
  rt_active : a ∈ (al_shadow st').(ss_active);
  rt_count : root_count_of st' a = s32 (root_count_of st a + 1)
}.

Lemma alloc_root_ok (st : alloc_state) (gfn gaddr level : Z) :
  alloc_ok st → st.(al_zap).(zs_invalid) = [] → vp.(vp_base_role).(fr_invalid) = false →
  2 <= level <= Z.of_nat PT64_ROOT_MAX_LEVEL → (al_shadow st).(ss_used) + 1 < 2 ^ 32 → st.(al_headers) ≠ [] → st.(al_pages) ≠ [] →
  ∃ st' root, alloc_root gfn gaddr level true st = Some (st', root) ∧ alloc_ok st' ∧ st'.(al_zap).(zs_invalid) = [] ∧
    match root with
    | None => vmrun_mmu_available_pages (al_shadow st') = 0
    | Some hpa => ∃ a sp, hpa = pa sp.(sp_spt) ∧ rooted gfn level a gaddr st st' sp
    end.
Proof using Hmax.
  intros Hok Hi Hvp Hlv Hroom Hh Hp. unfold MmuRoots.alloc_root.
  destruct (make_available_ok g va gfn_to_memslot role_gfn_to_memslot PT64_ROOT_MAX_LEVEL KVM_MIN_FREE_MMU_PAGES KVM_REFILL_PAGES Hmax st Hok Hi)
    as (e & st1 & E & R). rewrite E. cbn [mbind option_bind]. pose proof R as (Hok1 & Hi1 & (Ch & Cp & Chd) & Hu & R1 & R2).
  destruct (Z.ltb_spec e 0) as [Hneg|Hpos].
  { exists st1, None. split; [done|]. split; [done|]. split; [done|].
    destruct (Z.le_gt_cases KVM_MIN_FREE_MMU_PAGES (vmrun_mmu_available_pages (al_shadow st))) as [Hle|Hgt].
    - destruct (R1 Hle). lia.
    - destruct (R2 Hgt) as [He _]. destruct (truth (vmrun_mmu_available_pages (al_shadow st1))) eqn:Et; [lia|by apply truth_false]. }
  destruct (get_page_direct_ok g env va gfn_to_memslot role_gfn_to_memslot vcpu_gfn_to_memslot PT64_ROOT_MAX_LEVEL vp sync_page page_content
              st1 gfn gaddr level ACC_ALL Hok1 Hi1 Hvp ltac:(lia) ltac:(lia) ltac:(by rewrite Ch) ltac:(by rewrite Cp))
    as (a & st2 & E2 & Hok2 & Hi2 & Hpf & _ & G & _ & _ & Hnew).
  rewrite E2. cbn [mbind option_bind]. pose proof Hpf as (sp & x & Hsp & Hx & Hg & Hr & Ho & Hinv). rewrite Hsp. cbn [mbind option_bind].
  assert (Eg : get_root a st2 = upd_root_ext a (recount (s32 (px_root_count x + 1))) st2) by (by apply (recount_eq st2 a _ x)). rewrite Eg.
  pose proof (valid_active _ _ _ _ _ st2 a x (ao_pools _ _ _ _ _ _ Hok2) Hx Hinv) as Hact.
  assert (Hl : sp.(role_level) = level).
  { apply (f_equal fr_level) in Hr. cbn in Hr. rewrite Hr. unfold wanted_role. by destruct (_ && _). }
  eexists _, _. split; [reflexivity|]. split; [by apply (recount_alloc st2 a _ sp); [|done|lia|]|]. split; [done|].
  exists a, sp. split; [done|]. split.
  - exact Hsp.
  - exists sp, (recount (s32 (px_root_count x + 1)) x). split; [exact Hsp|]. split; [rewrite recount_lookup, decide_True, Hx by done; done|]. done.
  - exact Hact.
  - unfold root_count_of. rewrite recount_lookup, decide_True, Hx by done. cbn. do 2 f_equal. change (px_root_count x = root_count_of st a).
    destruct (pl_tables _ _ _ _ _ _ _ (ao_pools _ _ _ _ _ _ Hok1)) as (LL & DD & Hsh). change (zs_shadow (al_zap st1)) with (al_shadow st1) in Hsh.
    pose proof (en_dom _ _ _ _ _ _ (sk_entries _ _ _ _ _ _ _ Hsh) a) as Hdom.
    destruct (decide (is_Some ((mmu (al_shadow st1)).(pages) !! a))) as [Hold|Hn].
    + apply Hdom in Hold as [x1 Hx1]. destruct (gn_ext _ _ _ _ _ G a x1 Hx1) as (x' & Hx' & LE & _). assert (x' = x) as -> by congruence.
      destruct (room_count st st1 e a R) as [<- _]; [by eexists|]. unfold root_count_of. rewrite Hx1. cbn. apply LE.
    + destruct (Hnew Hn) as (_ & Hhd & x2 & Hx2 & Hb). assert (x2 = x) as -> by congruence. rewrite (bk_root _ Hb).
      assert (Hc : (mmu (al_shadow st)).(pages) !! a = None).
      { destruct (ca_headers _ (ao_caches _ _ _ _ _ _ Hok)) as [_ Hc]. apply Hc. rewrite Ch in Hhd. by apply head_Some_elem_of. }
      unfold root_count_of. destruct ((al_shadow st).(ss_ext) !! a) eqn:Ea; [|done]. exfalso.
      destruct (pl_tables _ _ _ _ _ _ _ (ao_pools _ _ _ _ _ _ Hok)) as (LL0 & DD0 & Hsh0). change (zs_shadow (al_zap st)) with (al_shadow st) in Hsh0.
      destruct (proj2 (en_dom _ _ _ _ _ _ (sk_entries _ _ _ _ _ _ _ Hsh0) a) ltac:(by eexists)) as [? Hc']. congruence.
Qed.

Notation mmu_free_roots := (mmu_free_roots g va gfn_to_memslot role_gfn_to_memslot PT64_ROOT_MAX_LEVEL vp).
Notation vmrun_mmu_unload := (vmrun_mmu_unload g va gfn_to_memslot role_gfn_to_memslot PT64_ROOT_MAX_LEVEL vp).

(** Lowering the count; the last count of an invalid page puts it on the list. *)
Lemma put_root_ok (st : alloc_state) (hpa a : Z) (sp : mmu_page) (x : page_ext) :
  alloc_ok st → st.(al_zap).(zs_invalid) = [] → al_page_of va st hpa = a → (mmu (al_shadow st)).(pages) !! a = Some sp → sp.(role_level) ≠ 1 →
  (al_shadow st).(ss_ext) !! a = Some x → a ∈ (al_shadow st).(ss_active) → 1 <= x.(px_root_count) < 2 ^ 31 →
  ∃ st', put_root hpa st = Some st' ∧ alloc_ok st' ∧ (al_shadow st').(ss_warns) = (al_shadow st).(ss_warns) ∧
    (mmu (al_shadow st')).(pages) = (mmu (al_shadow st)).(pages) ∧ (∃ y, (al_shadow st').(ss_ext) !! a = Some y ∧ y.(px_root_count) = x.(px_root_count) - 1) ∧
    (a ∈ st'.(al_zap).(zs_invalid) ↔ x.(px_root_count) = 1 ∧ x.(px_invalid) = true).
Proof using Hmax.
  intros Hok Hi Ea Hsp Hlv Hx Ha Hn. unfold MmuRoots.put_root. rewrite Ea.
  assert (En : s32 (px_root_count x - 1) = px_root_count x - 1).
  { unfold swrap. change (2 ^ (32 - 1)) with (2 ^ 31). rewrite Z.mod_small; lia. }
  assert (Eg : upd_root_ext a (λ x, x <| px_root_count ::= λ n, s32 (n - 1) |>) st = upd_root_ext a (recount (px_root_count x - 1)) st).
  { apply (recount_eq st a _ x); [done|]. unfold recount. by rewrite <- En at 2. }
  rewrite Eg. set (st1 := upd_root_ext a _ st).
  pose proof (recount_alloc st a (px_root_count x - 1) sp Hok Hsp Hlv Ha) as Hok1. fold st1 in Hok1.
  assert (Hx1 : (al_shadow st1).(ss_ext) !! a = Some (recount (px_root_count x - 1) x)).
  { unfold st1. rewrite recount_lookup, decide_True, Hx by done. done. }
  rewrite Hx1. cbn [mbind option_bind]. change (px_root_count (recount _ x)) with (px_root_count x - 1). change (px_invalid (recount _ x)) with (px_invalid x).
  destruct (truth (px_root_count x - 1)) eqn:Et; cbn [negb andb].
  - exists st1. split; [done|]. split; [done|]. split; [done|]. split; [done|]. split; [by eexists|].
    change (zs_invalid (al_zap st1)) with (zs_invalid (al_zap st)). rewrite Hi. split; [by intros ?%elem_of_nil|]. intros [E1 _]. by rewrite E1 in Et.
  - apply truth_false in Et. destruct (px_invalid x) eqn:Einv.
    + destruct (zap_alloc g va gfn_to_memslot role_gfn_to_memslot PT64_ROOT_MAX_LEVEL Hmax st1 a _ Hok1 Ha Hx1)
        as (st' & n & E & Hok' & L & _ & _ & Hin).
      rewrite E. cbn [mbind option_bind]. exists st'. split; [done|]. split; [done|]. split; [exact (lt_warns _ _ L)|]. split; [exact (lt_pages _ _ L)|].
      destruct (lt_ext _ _ L a _ Hx1) as (y & Hy & LE). split; [exists y; split; [done|apply LE]|]. rewrite Hin.
      change (px_root_count (recount _ x)) with (px_root_count x - 1). split; [intros _; split; [lia|done]|done].
    + exists st1. split; [done|]. split; [done|]. split; [done|]. split; [done|]. split; [by eexists|].
      change (zs_invalid (al_zap st1)) with (zs_invalid (al_zap st)). rewrite Hi. split; [by intros ?%elem_of_nil|by intros []].
Qed.

Lemma unload_root_ok (r : root_state) (a : Z) (sp : mmu_page) (x : page_ext) :
  let st := r.(ro_alloc) in
  alloc_ok st → st.(al_zap).(zs_invalid) = [] → VALID_PAGE r.(root_hpa) = true →
  (PT64_ROOT_4LEVEL <= vp.(vp_shadow_root_level) ∧ (vp.(vp_direct_map) = true ∨ PT64_ROOT_4LEVEL <= vp.(vp_root_level))) →
  al_page_of va st r.(root_hpa) = a → (mmu (al_shadow st)).(pages) !! a = Some sp → sp.(role_level) ≠ 1 →
  (al_shadow st).(ss_ext) !! a = Some x → a ∈ (al_shadow st).(ss_active) → 1 <= x.(px_root_count) < 2 ^ 31 →
  ∃ r', vmrun_mmu_unload r = Some r' ∧ r'.(root_hpa) = INVALID_PAGE ∧ alloc_ok r'.(ro_alloc) ∧
    (al_shadow r'.(ro_alloc)).(ss_warns) = (al_shadow st).(ss_warns) ∧
    if decide (x.(px_root_count) = 1 ∧ x.(px_invalid) = true) then (mmu (al_shadow r'.(ro_alloc))).(pages) !! a = None
    else (mmu (al_shadow r'.(ro_alloc))).(pages) !! a = Some sp ∧ root_count_of r'.(ro_alloc) a = x.(px_root_count) - 1.
Proof using Hmax.
  intros st Hok Hi Hv Hlev Ea Hsp Hlv Hx Ha Hn. unfold MmuRoots.vmrun_mmu_unload, MmuRoots.mmu_free_roots. rewrite Hv. cbn [negb].
  assert (Ec : (vp_shadow_root_level vp >=? PT64_ROOT_4LEVEL) && ((vp_root_level vp >=? PT64_ROOT_4LEVEL) || vp_direct_map vp) = true).
  { rewrite andb_true_iff, orb_true_iff, !Z.geb_le. destruct Hlev as [? [?|?]]; auto. }
  rewrite Ec. fold st. assert (El : st <| al_zap ::= local_list |> = st).
  { unfold local_list. destruct st as [zs ? ? ? ? ? ? ?]. cbn in *. rewrite <- Hi. by destruct zs. }
  rewrite El. destruct (put_root_ok st (root_hpa r) a sp x Hok Hi Ea Hsp Hlv Hx Ha Hn) as (st1 & E1 & Hok1 & Hw1 & Hp1 & (y & Hy & Hc) & Hin).
  rewrite E1. cbn [mbind option_bind].
  destruct (commit_alloc g va gfn_to_memslot role_gfn_to_memslot PT64_ROOT_MAX_LEVEL st1 Hok1) as (st2 & E2 & Hok2 & _ & F & _).
  rewrite E2. cbn [mbind option_bind]. eexists. split; [reflexivity|]. split; [done|].
  match goal with |- alloc_ok ?z ∧ _ => assert (Ez : z = st2) end.
  { change (upd_shadow (sp_warn_if (VALID_PAGE INVALID_PAGE)) st2 = st2). change (VALID_PAGE INVALID_PAGE) with false.
    unfold upd_shadow, sp_warn_if. by destruct st2 as [[] ? ? ? ? ? ? ?]. }
  rewrite Ez. split; [done|].
  split; [destruct (ZapProps.fr_rest _ _ _ F) as (_ & _ & Hw & _); unfold al_shadow in *; congruence|].
  rewrite <- Hp1 in Hsp. unfold root_count_of, al_shadow in *. rewrite (fr_pages _ _ _ F), (fr_ext _ _ _ F).
  destruct (decide (a ∈ _)) as [Hz|Hz]; destruct (decide (_ ∧ _)) as [Hd|Hd]; try done.
  - by apply Hin in Hz.
  - by apply Hin in Hd.
  - split; [done|]. by rewrite Hy.
Qed.

(** Giving a root back.  [vmrun_mmu_unload] of a VCPU with one root lowers
    the count of the root page by one and forgets the root, without a
    warning.  The page is freed exactly when this was the last count and the
    page had been zapped; the invariants hold. *)
Theorem unload_root_correct (r : root_state) (a : Z) (sp : mmu_page) (x : page_ext) :
  let st := r.(ro_alloc) in
  alloc_ok st → st.(al_zap).(zs_invalid) = [] → VALID_PAGE r.(root_hpa) = true →
  (PT64_ROOT_4LEVEL <= vp.(vp_shadow_root_level) ∧ (vp.(vp_direct_map) = true ∨ PT64_ROOT_4LEVEL <= vp.(vp_root_level))) →
  al_page_of va st r.(root_hpa) = a → (mmu (al_shadow st)).(pages) !! a = Some sp → sp.(role_level) ≠ 1 →
  (al_shadow st).(ss_ext) !! a = Some x → a ∈ (al_shadow st).(ss_active) → 1 <= x.(px_root_count) < 2 ^ 31 →
  ∃ r', vmrun_mmu_unload r = Some r' ∧ r'.(root_hpa) = INVALID_PAGE ∧ alloc_ok r'.(ro_alloc) ∧
    (al_shadow r'.(ro_alloc)).(ss_warns) = (al_shadow st).(ss_warns) ∧
    if decide (x.(px_root_count) = 1 ∧ x.(px_invalid) = true) then (mmu (al_shadow r'.(ro_alloc))).(pages) !! a = None
    else (mmu (al_shadow r'.(ro_alloc))).(pages) !! a = Some sp ∧ root_count_of r'.(ro_alloc) a = x.(px_root_count) - 1.
Proof using Hmax. exact (unload_root_ok r a sp x). Qed.

Context (resched : alloc_state → option alloc_state) (visible : Z → bool) (get_cr3 : Z) (get_pdptr : Z → Z) (pae_root_va : Z)
        (zeroed_page : option Z) (capacity : nat).

Notation vmrun_mmu_load := (vmrun_mmu_load g env va pa gfn_to_memslot role_gfn_to_memslot vcpu_gfn_to_memslot PT64_ROOT_MAX_LEVEL vp sync_page
  page_content resched KVM_MIN_FREE_MMU_PAGES KVM_REFILL_PAGES visible get_cr3 get_pdptr pae_root_va zeroed_page capacity).

(** C15: loading the root of a direct map of four or five levels.
    [vmrun_mmu_load] ends with the invariants in place.  On success the VCPU's root, which is also what the
    hardware gets, is the address of a page for guest frame 0 with the role of
    a root, in use and with its count raised by one; on an error the VCPU has
    the root it had.  With three levels a failure leaks counts, as
    [pae_roots_leak] shows. *)
Theorem load_root_correct (fuel : nat) (descs0 free headers : list (option Z)) (r : root_state) :
  let st := r.(ro_alloc) in let level := vp.(vp_shadow_root_level) in
  alloc_ok st → st.(al_zap).(zs_invalid) = [] → vp.(vp_direct_map) = true → vp.(vp_base_role).(fr_invalid) = false →
  PT64_ROOT_4LEVEL <= level <= Z.of_nat PT64_ROOT_MAX_LEVEL → (al_shadow st).(ss_used) + 1 < 2 ^ 32 →
  fresh_memory descs0 free headers st → (8 + Z.to_nat PTE_PREFETCH_NUM <= capacity)%nat →
  ∃ e r', vmrun_mmu_load fuel descs0 free headers r = Some (e, r') ∧ alloc_ok r'.(ro_alloc) ∧
    if e =? 0 then
      ∃ a sp, r'.(root_hpa) = pa sp.(sp_spt) ∧ r'.(ro_cr3) = Some r'.(root_hpa) ∧ rooted 0 level a 0 st r'.(ro_alloc) sp
    else r'.(root_hpa) = r.(root_hpa) ∧ r'.(ro_cr3) = r.(ro_cr3).
Proof using Hmax.
  intros st level Hok Hi Hd Hvp Hlv Hroom Hfr Hcap. unfold PT64_ROOT_4LEVEL in Hlv. unfold MmuRoots.vmrun_mmu_load. fold st.
  destruct (topup_ok g va gfn_to_memslot role_gfn_to_memslot PT64_ROOT_MAX_LEVEL capacity descs0 free headers st Hok Hfr Hcap)
    as (e & st1 & -> & Hok1 & Tu & Hfull). cbv beta iota zeta.
  destruct (truth e) eqn:Et.
  { eexists _, _. split; [reflexivity|]. split; [exact Hok1|]. unfold truth in Et. apply negb_true_iff in Et. rewrite Et. done. }
  apply truth_false in Et. destruct (Hfull Et) as (_ & Hf2 & Hf3). unfold mmu_alloc_roots. rewrite Hd. unfold mmu_alloc_direct_roots. fold level.
  assert (Eg : (level >=? PT64_ROOT_4LEVEL) = true) by (apply Z.geb_le; unfold PT64_ROOT_4LEVEL; lia). rewrite Eg.
  destruct (alloc_root_ok st1 0 0 level Hok1) as (st2 & root & E & Hok2 & _ & Hr).
  - rewrite (tu_lists _ _ Tu). exact Hi.
  - done.
  - lia.
  - rewrite (tu_shadow _ _ Tu). exact Hroom.
  - destruct (al_headers st1); [cbn in Hf3; lia|done].
  - destruct (al_pages st1); [cbn in Hf2; lia|done].
  - change (ro_alloc (r <| ro_alloc := st1 |>)) with st1. rewrite E. cbn [mbind option_bind]. unfold vmrun_mmu_sync_roots, mmu_sync_roots.
    destruct root as [hpa|]; rewrite Hd; cbn [mbind option_bind].
    + destruct Hr as (a & sp & -> & [R1 R2 R3 R4]). eexists _, _. split; [reflexivity|]. split; [exact Hok2|]. cbn. exists a, sp.
      split; [done|]. split; [done|]. split; [exact R1|exact R2|exact R3|]. etrans; [exact R4|]. unfold root_count_of. by rewrite (tu_shadow _ _ Tu).
    + eexists _, _. split; [reflexivity|]. split; [exact Hok2|]. done.
Qed.
End Roots.

(* ------------------------------------------------------------------ *)
(** ** Examples *)

Definition no_root (st : alloc_state) : root_state :=
  {| ro_alloc := st; root_hpa := INVALID_PAGE; pae_root := replicate 4 INVALID_PAGE; lm_root := None; ro_mmio_cleared := 0; ro_cr3 := None |}.

Lemma load_root_correct_witness :
  ∃ e r', vmrun_mmu_load (K := kvm_pte_x86) (T := kvm_track) x86_masks map_x86 (λ p, p) (λ p, p) tree_slot tree_role_slot (λ _, None) tree_level
            (direct_vcpu 4) nonpaging_sync_page (λ _, []) (λ _, None) 5 25 (λ _, true) 0 (λ _, 0) 0 None 40 0
            (some_objects 0x100000 16) (some_objects 0x20000 0x1000) (some_objects 100 1) (no_root alloc_tree) = Some (e, r').
Proof.
  destruct (load_root_correct (K := kvm_pte_x86) (T := kvm_track) x86_masks map_x86 (λ p, p) (λ p, p) tree_slot tree_role_slot (λ _, None) tree_level
            (direct_vcpu 4) nonpaging_sync_page (λ _, []) 5 25 tree_room (λ _, None) (λ _, true) 0 (λ _, 0) 0 None 40 0
            (some_objects 0x100000 16) (some_objects 0x20000 0x1000) (some_objects 100 1) (no_root alloc_tree)
            alloc_tree_ok eq_refl eq_refl eq_refl) as (e & r' & E & _).
  - unfold PT64_ROOT_4LEVEL, tree_level. cbn. lia.
  - vm_compute. reflexivity.
  - exact tree_fresh.
  - vm_compute. lia.
  - exists e, r'. exact E.
Defined.

(** Page 1 is a root with one count. *)
Definition one_root : root_state := (no_root (upd_root_ext 1 (recount 1) alloc_tree)) <| root_hpa := 0x1000 |>.

Lemma one_root_ok : alloc_ok (K := kvm_pte_x86) (T := kvm_track) x86_masks (λ p, p) tree_slot tree_role_slot tree_level one_root.(ro_alloc).
Proof. apply (recount_alloc _ _ _ _ _ _ _ _ (tree_page 1 3)); [exact alloc_tree_ok|reflexivity|done|left]. Qed.

Lemma unload_root_correct_witness :
  ∃ r', vmrun_mmu_unload (K := kvm_pte_x86) (T := kvm_track) x86_masks (λ p, p) tree_slot tree_role_slot tree_level (direct_vcpu 4) one_root
          = Some r' ∧ root_count_of r'.(ro_alloc) 1 = 0.
Proof.
  destruct (unload_root_correct (K := kvm_pte_x86) (T := kvm_track) x86_masks (λ p, p) tree_slot tree_role_slot tree_level (direct_vcpu 4) tree_room
              one_root 1 (tree_page 1 3) (recount 1 (tree_ext 0 false)) one_root_ok eq_refl) as (r' & E & _ & _ & _ & Hc).
  - reflexivity.
  - unfold PT64_ROOT_4LEVEL. cbn. split; [lia|by left].
  - reflexivity.
  - reflexivity.
  - discriminate.
  - reflexivity.
  - left.
  - cbn. lia.
  - exists r'. split; [exact E|]. rewrite decide_False in Hc; [apply Hc|]. intros [_ H]. discriminate.
Defined.

(** A virtual machine without shadow pages that may have one. *)
Definition one_page_vm : alloc_state :=
  alloc_tree <| al_zap ::= λ z, z <| zs_shadow := map_tree <| ss_track ::= λ t, t <| tk_mmu ::= λ m, m <| pages := ∅ |> <| ptes := λ _, 0 |> |> |>
                                     <| ss_ext := ∅ |> <| ss_active := [] |> <| ss_used := 0 |> <| ss_max := 1 |> |> |>.

(** The four roots of a direct map in 32-bit tables: when the second one cannot
    be allocated, [mmu_alloc_direct_roots] returns with the count of the first
    raised; the VCPU has no root then, so [mmu_free_roots] does nothing and the
    page keeps the count. *)
Theorem pae_roots_leak :
  ∃ r1, mmu_alloc_direct_roots (K := kvm_pte_x86) (T := kvm_track) x86_masks map_x86 (λ p, p) (λ p, p) tree_slot tree_role_slot (λ _, None) tree_level
          (direct_vcpu 3) nonpaging_sync_page (λ _, []) 1 1 0 (no_root one_page_vm) = Some (1, r1) ∧
    root_count_of r1.(ro_alloc) 8 = 1 ∧
    mmu_free_roots (K := kvm_pte_x86) (T := kvm_track) x86_masks (λ p, p) tree_slot tree_role_slot tree_level (direct_vcpu 3) r1 = Some r1.
Proof.
  match goal with |- ∃ r1, ?t = _ ∧ _ => destruct t as [[e r1]|] eqn:E end; [|vm_compute in E; discriminate].
  exists r1. assert (He : option_map (λ p, (p.1, root_count_of p.2.(ro_alloc) 8, root_hpa p.2)) (Some (e, r1)) = Some (1, 1, INVALID_PAGE)).
  { rewrite <- E. vm_compute. reflexivity. }
  injection He as -> Hc Hr. split; [done|]. split; [exact Hc|]. unfold mmu_free_roots. by rewrite Hr.
Qed.
