(* ===== verification/PteWrite.v ===== *)
(** * Writes to guest page tables

    kernel/mmu.c: an emulated write to a guest frame that shadow pages stand
    for.  [vmrun_mmu_pte_write] drops the shadow entries of the guest entry
    that was written, or the whole shadow page when the write does not look
    like one to a page table; [vmrun_mmu_zap_collapsible_sptes] drops small
    mappings where the host has a huge page.

    The update of an entry from the new guest entry ([arch.mmu.update_pte]) is
    generated from a file that is not in the repository; it and
    [vmrun_vcpu_read_guest] are parameters. *)

From S2P Require Import Prelude.
From S2P Require Import Spte.
From S2P Require Import MmioSpte.
From S2P Require Import Memslots.
From S2P Require Import MemRegion.
From S2P Require Import PteList.
From S2P Require Import Rmap.
From S2P Require Import SlotWalk.
From S2P Require Import PageTrack.
From S2P Require Import ShadowPage.
From S2P Require Import SetSpte.
From S2P Require Import ZapPage.
From S2P Require Import GetPage.

(** The shadow pages and the statistics of the virtual machine that count
    these writes. *)
Record write_state := {
  pw_alloc : alloc_state;
  pw_pte_write : Z;                (* stat.mmu_pte_write *)
  pw_flooded : Z;                  (* stat.mmu_flooded *)
  pw_pde_zapped : Z;               (* stat.mmu_pde_zapped *)
  pw_pte_updated : Z               (* stat.mmu_pte_updated *)
}.
#[export] Instance eta_write_state : Eta write_state := λ r,
  {| pw_alloc := r.(pw_alloc); pw_pte_write := r.(pw_pte_write); pw_flooded := r.(pw_flooded);
     pw_pde_zapped := r.(pw_pde_zapped); pw_pte_updated := r.(pw_pte_updated) |}.

Definition pw_shadow (pw : write_state) : shadow_state := al_shadow pw.(pw_alloc).
Definition upd_pw (f : shadow_state → shadow_state) (pw : write_state) : write_state := pw <| pw_alloc ::= upd_shadow f |>.

(** ** The write and the page *)

Definition offset_in_page (p : Z) : Z := Z.land p (not64 PAGE_MASK).

(** [*(const u32 * )new] and [*(const u64 * )new]: little endian; [None] past
    the end of the buffer. *)
Fixpoint le_value (l : list Z) : Z :=
  match l with
  | [] => 0
  | b :: l => b + 256 * le_value l
  end.

Definition load_le (n : nat) (new : list Z) : option Z :=
  if (n <=? length new)%nat then Some (le_value (take n new)) else None.

(** Counts and tells whether it is the third write in a row. *)
Definition detect_write_flooding (sp : mmu_page) (x : page_ext) : bool * page_ext :=
  if sp.(role_level) =? PT_PAGE_TABLE_LEVEL then (false, x)
  else
    let x := x <| px_flooding ::= λ n, s32 (n + 1) |> in
    (x.(px_flooding) >=? 3, x).

Definition detect_write_misaligned (x : page_ext) (gpa bytes : Z) : bool :=
  let offset := u32 (offset_in_page gpa) in
  let pte_size := if x.(px_role).(role_cr4_pae) then 8 else 4 in
  if negb (truth (Z.land offset (pte_size - 1))) && (bytes =? 1) then false
  else
    let misaligned := Z.land (Z.lxor offset (u32 (offset + bytes - 1))) (not32 (pte_size - 1)) in
    let misaligned := Z.lor misaligned (b2z (bytes <? 4)) in
    truth misaligned.

(** The index of the first entry and the number of entries; NULL is [None]. *)
Definition get_written_sptes (sp : mmu_page) (x : page_ext) (gpa : Z) : option (Z * nat) :=
  let page_offset := u32 (offset_in_page gpa) in
  let level := sp.(role_level) in
  if negb x.(px_role).(role_cr4_pae) then
    let page_offset := u32 (Z.shiftl page_offset 1) in
    let '(page_offset, nspte) :=
      if level =? PT32_ROOT_LEVEL then (u32 (Z.shiftl (Z.land page_offset (not32 7)) 1), 2%nat) else (page_offset, 1%nat) in
    let quadrant := Z.shiftr page_offset PAGE_SHIFT in
    let page_offset := Z.land page_offset (not64 PAGE_MASK) in
    if negb (quadrant =? x.(px_role).(role_quadrant)) then None else Some (page_offset / 8, nspte)
  else Some (page_offset / 8, 1%nat).

Section PteWrite.
Context `{K : KvmPte} `{T : KvmTrack} (g : shadow_masks) (env : map_env) (va : Z → Z).
Context (gfn_to_memslot : bool → Z → vmrun_memory_slot) (role_gfn_to_memslot : bool → Z → option vmrun_memory_slot).
Context (PT64_ROOT_MAX_LEVEL : nat) (vp : vcpu_paging) (capacity : nat).
(** [vmrun_vcpu_read_guest] of 8 bytes ([None]: an error);
    [arch.mmu.update_pte]; the bits of [nxe], [cr0_wp], [smep_andnot_wp] and
    [smap_andnot_wp] in [role_other]. *)
Context (read_guest : Z → option Z) (update_pte : Z → Z → Z → alloc_state → option alloc_state) (other_mask : Z).

Definition PT64_PERM_MASK : Z :=
  Z.lor (Z.lor (Z.lor (Z.lor (Z.lor PT_PRESENT_MASK PT_WRITABLE_MASK) g.(shadow_user_mask)) g.(shadow_x_mask))
               g.(shadow_nx_mask)) g.(shadow_me_mask).

Definition need_remote_flush (old new : Z) : bool :=
  if negb (is_shadow_present_pte g old) then false
  else if negb (is_shadow_present_pte g new) then true
  else if truth (Z.land (Z.lxor old new) PT64_BASE_ADDR_MASK) then true
  else
    let old := Z.lxor old g.(shadow_nx_mask) in
    let new := Z.lxor new g.(shadow_nx_mask) in
    negb (Z.land (Z.land old (not64 new)) PT64_PERM_MASK =? 0).

(** The guest entry after the write, with [gpa] and [bytes] widened to it. *)
Definition mmu_pte_write_fetch_gpte (gpa : Z) (new : list Z) (bytes : Z) : option (Z * Z * Z) :=
  if vp.(vp_pae) && (bytes =? 4) then
    let gpa := Z.land gpa (not64 7) in
    Some (default 0 (read_guest gpa), gpa, 8)
  else
    gentry ← (if bytes =? 4 then load_le 4 new else if bytes =? 8 then load_le 8 new else Some 0);
    Some (gentry, gpa, bytes).

Definition mmu_pte_write_new_pte (a spte gentry : Z) (pw : write_state) : option write_state :=
  sp ← (mmu (pw_shadow pw)).(pages) !! a;
  if negb (sp.(role_level) =? PT_PAGE_TABLE_LEVEL) then Some (pw <| pw_pde_zapped ::= λ n, n + 1 |>)
  else
    let pw := pw <| pw_pte_updated ::= λ n, n + 1 |> in
    st ← update_pte a spte gentry pw.(pw_alloc);
    Some (pw <| pw_alloc := st |>).

(** [!((sp->role.word ^ base_role.word) & mask.word)] *)
Definition same_mode (sp : mmu_page) (x : page_ext) : bool :=
  let b := vp.(vp_base_role) in
  Bool.eqb sp.(role_smm) b.(fr_smm) && Bool.eqb x.(px_role).(role_cr4_pae) b.(fr_rest).(role_cr4_pae) &&
  Bool.eqb x.(px_role).(role_ad_disabled) b.(fr_rest).(role_ad_disabled) &&
  (Z.land (Z.lxor x.(px_role).(role_other) b.(fr_rest).(role_other)) other_mask =? 0).

(** [while (npte--)] *)
Fixpoint write_sptes (npte : nat) (a spte gentry : Z) (remote_flush : bool) (pw : write_state) : option (bool * write_state) :=
  match npte with
  | O => Some (remote_flush, pw)
  | S npte =>
      let entry := (mmu (pw_shadow pw)).(ptes) spte in
      '(s, _) ← mmu_page_zap_pte g pw.(pw_alloc).(al_header) (al_page_of va pw.(pw_alloc)) gfn_to_memslot a spte (pw_shadow pw);
      let pw := upd_pw (λ _, s) pw in
      sp ← (mmu s).(pages) !! a;
      x ← s.(ss_ext) !! a;
      pw ← (if truth gentry && same_mode sp x && rmap_can_add (mmu s) then mmu_pte_write_new_pte a spte gentry pw else Some pw);
      let remote_flush := remote_flush || need_remote_flush entry ((mmu (pw_shadow pw)).(ptes) spte) in
      write_sptes npte a (spte + 8) gentry remote_flush pw
  end.

(** [for_each_gfn_indirect_valid_sp]: zapping leaves the pages on their chain. *)
Fixpoint pte_write_loop (gfn gpa bytes gentry : Z) (l : list Z) (remote_flush local_flush : bool) (pw : write_state)
    : option (bool * bool * write_state) :=
  match l with
  | [] => Some (remote_flush, local_flush, pw)
  | a :: l =>
      sp ← (mmu (pw_shadow pw)).(pages) !! a;
      x ← (pw_shadow pw).(ss_ext) !! a;
      if negb (gfn_indirect_valid gfn (pw_shadow pw) sp x) then pte_write_loop gfn gpa bytes gentry l remote_flush local_flush pw
      else
        let '(zap, pw) :=
          if detect_write_misaligned x gpa bytes then (true, pw)
          else let '(b, x) := detect_write_flooding sp x in (b, upd_pw (upd_ext a (λ _, x)) pw) in
        if zap : bool then
          '(st, _) ← al_zap_page g va gfn_to_memslot role_gfn_to_memslot PT64_ROOT_MAX_LEVEL a pw.(pw_alloc);
          pte_write_loop gfn gpa bytes gentry l remote_flush local_flush
            (pw <| pw_alloc := st |> <| pw_flooded ::= λ n, n + 1 |>)
        else
          match get_written_sptes sp x gpa with
          | None => pte_write_loop gfn gpa bytes gentry l remote_flush local_flush pw
          | Some (i, npte) =>
              '(remote_flush, pw) ← write_sptes npte a (sp.(sp_spt) + 8 * i) gentry remote_flush pw;
              pte_write_loop gfn gpa bytes gentry l remote_flush true pw
          end
  end.

(** [descs], [free], [headers]: what the allocators give. *)
Definition vmrun_mmu_pte_write (gpa : Z) (new : list Z) (bytes : Z) (descs free headers : list (option Z)) (pw : write_state)
    : option write_state :=
  let gfn := Z.shiftr gpa PAGE_SHIFT in
  let pw := pw <| pw_alloc ::= λ st, st <| al_zap ::= local_list |> |> in
  if negb (truth (pw_shadow pw).(ss_track).(indirect_shadow_pages)) then Some pw
  else
    '(gentry, gpa, bytes) ← mmu_pte_write_fetch_gpte gpa new bytes;
    let '(_, st) := mmu_topup_memory_caches capacity descs free headers pw.(pw_alloc) in
    let pw := pw <| pw_alloc := st |> <| pw_pte_write ::= λ n, n + 1 |> in
    '(remote_flush, local_flush, pw) ← pte_write_loop gfn gpa bytes gentry (hash_chain_of env gfn pw.(pw_alloc)) false false pw;
    st ← vmrun_mmu_flush_or_zap remote_flush local_flush pw.(pw_alloc);
    Some (pw <| pw_alloc := st |>).

(** [nonpaging_update_pte] only warns. *)
Definition nonpaging_update_pte (a spte gentry : Z) (st : alloc_state) : option alloc_state :=
  Some (upd_shadow (sp_warn_if true) st).

(** ** Entries of MMIO when a page is synced *)

(** Whether the entry was one of MMIO; the entry, [*nr_present]. *)
Definition sync_mmio_spte (generation spte gfn access nr_present : Z) : bool * Z * Z :=
  if is_mmio_spte g spte then
    if negb (gfn =? get_mmio_spte_gfn g spte) then (true, mmu_spte_clear_no_track spte, nr_present)
    else (true, mark_mmio_spte g generation gfn access, nr_present + 1)
  else (false, spte, nr_present).

(** ** Collapsible mappings *)

(** Linux's and KVM's parts: [vmrun_is_reserved_pfn], and
    [PageTransCompoundMap] of the page of a frame. *)
Context (page_header : Z → Z) (vmrun_is_reserved_pfn PageTransCompoundMap : Z → bool).

(** The entry the walk stops at: the first one that can be collapsed. *)
Definition collapsible (st : mmu_state) (sptep : Z) : option bool :=
  sp ← st.(pages) !! page_header sptep;
  let pfn := spte_to_pfn (st.(ptes) sptep) in
  Some (sp.(role_direct) && negb (vmrun_is_reserved_pfn pfn) && PageTransCompoundMap pfn).

(** [for_each_rmap_spte] up to the [goto]. *)
Fixpoint find_collapsible (fuel : nat) (sptep : Z) (iter : rmap_iterator) (st : mmu_state) : option (option Z) :=
  match fuel with
  | O => None
  | S fuel =>
      if negb (truth sptep) then Some None
      else
        b ← collapsible st sptep;
        if b : bool then Some (Some sptep)
        else
          '(sptep, iter) ← rmap_get_next st.(dmem) (λ p, is_shadow_present_pte g (st.(ptes) p)) iter;
          find_collapsible fuel sptep iter st
  end.

(** [restart]: every pass but the last takes an entry off the list. *)
Fixpoint collapse_loop (fuel : nat) (k : rmap_key) (need_tlb_flush : bool) (st : mmu_state) : option (mmu_state * bool) :=
  match fuel with
  | O => None
  | S fuel =>
      '(sptep, iter) ← rmap_get_first st.(dmem) (λ p, is_shadow_present_pte g (st.(ptes) p)) (head_of k st);
      found ← find_collapsible (2 + PTE_LIST_EXT * size st.(dmem).(descs)) sptep iter st;
      match found with
      | None => Some (st, need_tlb_flush)
      | Some sptep => st ← drop_spte g page_header gfn_to_memslot sptep st; collapse_loop fuel k true st
      end
  end.

Definition vmrun_mmu_zap_collapsible_spte (k : rmap_key) (st : mmu_state) : option (mmu_state * bool) :=
  collapse_loop (2 + PTE_LIST_EXT * size st.(dmem).(descs)) k false st.

Definition vmrun_mmu_zap_collapsible_sptes (slot : vmrun_memory_slot) (resched : list bool) (st : mmu_state)
    : option mmu_state :=
  fst <$> slot_handle_leaf vmrun_mmu_zap_collapsible_spte slot true resched st.
End PteWrite.
