(* ===== verification/PteWriteProps.v ===== *)
(** * Writes to guest page tables: properties

    Which shadow entries a write concerns, against the ranges of guest
    addresses that guest entries and shadow entries translate; which writes
    are taken for writes to one guest entry; that the write leaves no stale
    entry and the invariants of the tables hold afterwards. *)

From S2P Require Import Prelude.
From S2P Require Import Spte.
From S2P Require Import SpteTrack.
From S2P Require Import Memslots.
From S2P Require Import MemRegion.
From S2P Require Import MemRegionProps.
From S2P Require Import PteList.
From S2P Require Import PteListProps.
From S2P Require Import Rmap.
From S2P Require Import RmapProps.
From S2P Require Import SlotWalk.
From S2P Require Import PageTrack.
From S2P Require Import PageTrackProps.
From S2P Require Import ShadowPage.
From S2P Require Import ShadowPageProps.
From S2P Require Import MmuInv.
From S2P Require Import SetSpte.
From S2P Require Import SetSpteProps.
From S2P Require Import ZapPage.
From S2P Require Import ZapPageProps.
From S2P Require Import ZapUnsyncProps.
From S2P Require Import ZapProps.
From S2P Require Import GetPage.
From S2P Require Import GetPageProps.
From S2P Require Import TopupProps.
From S2P Require Import PteWrite.

(* ------------------------------------------------------------------ *)
(** ** Offsets *)

Lemma offset_in_page_mod (p : Z) : offset_in_page p = p mod 4096.
Proof. unfold offset_in_page. change (not64 PAGE_MASK) with (Z.ones 12). by rewrite Z.land_ones. Qed.

Lemma offset_bound (p : Z) : 0 <= p mod 4096 < 4096.
Proof. apply Z.mod_pos_bound. lia. Qed.

Lemma low_mask (w k y : Z) : 0 <= k <= w → is_u w y → Z.land y (wrap w (Z.lnot (2 ^ k - 1))) = y - y mod 2 ^ k.
Proof.
  intros Hk Hy. assert (E : y - y mod 2 ^ k = Z.shiftl (Z.shiftr y k) k).
  { rewrite Z.shiftr_div_pow2, Z.shiftl_mul_pow2 by lia. pose proof (Z.div_mod y (2 ^ k)). lia. }
  rewrite E. apply Z.bits_inj'; intros i Hi. rewrite Z.land_spec, wrap_testbit, Z.lnot_spec, shiftl_testbit by lia.
  replace (2 ^ k - 1) with (Z.ones k) by (rewrite Z.ones_equiv; lia). rewrite ones_testbit by lia.
  destruct (Z.ltb_spec i k), (Z.leb_spec k i); try lia; cbn; rewrite ?andb_false_r; try done.
  rewrite Z.shiftr_spec by lia. replace (i - k + k) with i by lia. destruct (Z.ltb_spec i w); cbn; [by rewrite andb_true_r|].
  rewrite (is_u_testbit w y i) by (try done; lia). done.
Qed.

Lemma truth_false_iff (x : Z) : truth x = false ↔ x = 0.
Proof. split; [apply truth_false|by intros ->]. Qed.

Lemma is_u_lxor (w a b : Z) : 0 <= w → is_u w a → is_u w b → is_u w (Z.lxor a b).
Proof.
  intros Hw Ha Hb. assert (E : wrap w (Z.lxor a b) = Z.lxor a b); [|rewrite <- E; by apply is_u_wrap].
  apply Z.bits_inj'; intros i Hi. rewrite wrap_testbit by lia. destruct (Z.ltb_spec i w); [done|]. cbn.
  rewrite Z.lxor_spec, !(is_u_testbit w) by (try done; lia). done.
Qed.

(* ------------------------------------------------------------------ *)
(** ** The entries of a write *)

(** The frames, counted from the start of the guest page table's range, that a
    guest entry and a shadow entry translate: from the first to before the
    last.  A guest entry of 4 bytes covers twice as much per level; the
    quadrant says which part of the guest table's range the shadow page has. *)
Definition guest_range (pae : bool) (level i : Z) : Z * Z :=
  let n := 2 ^ ((if pae then 9 else 10) * (level - 1)) in (i * n, (i + 1) * n).

Definition shadow_range (pae : bool) (level quadrant j : Z) : Z * Z :=
  let n := 2 ^ (9 * (level - 1)) in
  let j := if pae then j else quadrant * 512 + j in (j * n, (j + 1) * n).

Definition overlap (r r' : Z * Z) : Prop := r.1 < r'.2 ∧ r'.1 < r.2.

Definition pte_size (pae : bool) : Z := if pae then 8 else 4.

(** The entry [j] of the page shadows the guest entry at [gpa]. *)
Definition shadows_gpte (sp : mmu_page) (x : page_ext) (gpa j : Z) : Prop :=
  let r := x.(px_role) in
  overlap (guest_range r.(role_cr4_pae) sp.(role_level) (gpa mod PAGE_SIZE / pte_size r.(role_cr4_pae)))
          (shadow_range r.(role_cr4_pae) sp.(role_level) r.(role_quadrant) j).

Lemma overlap_same (n i j : Z) : 0 < n → overlap (i * n, (i + 1) * n) (j * n, (j + 1) * n) ↔ i = j.
Proof.
  intros Hn. unfold overlap. cbn. rewrite <- !Z.mul_lt_mono_pos_r by done. lia.
Qed.

Lemma overlap_double (i j : Z) : overlap (i * 1024, (i + 1) * 1024) (j * 512, (j + 1) * 512) ↔ 2 * i <= j < 2 * i + 2.
Proof. unfold overlap. cbn. lia. Qed.

Lemma get_written_exact (sp : mmu_page) (x : page_ext) (gpa j : Z) :
  1 <= sp.(role_level) → (x.(px_role).(role_cr4_pae) = false → sp.(role_level) <= PT32_ROOT_LEVEL) →
  0 <= j < PT64_ENT_PER_PAGE →
  match get_written_sptes sp x gpa with
  | None => ¬ shadows_gpte sp x gpa j
  | Some (i, n) => 0 <= i ∧ i + Z.of_nat n <= PT64_ENT_PER_PAGE ∧ (shadows_gpte sp x gpa j ↔ i <= j < i + Z.of_nat n)
  end.
Proof.
  intros Hl Hp Hj. change PT64_ENT_PER_PAGE with 512 in *. unfold get_written_sptes, shadows_gpte, guest_range, shadow_range.
  cbv zeta. rewrite offset_in_page_mod. change PAGE_SIZE with 4096. pose proof (offset_bound gpa) as Ho.
  set (off := gpa mod 4096) in *. clearbody off. rewrite (wrap_id 32 off) by (unfold is_u; lia).
  destruct (role_cr4_pae (px_role x)) eqn:Epae; cbn [negb pte_size].
  - rewrite overlap_same by (apply Z.pow_pos_nonneg; lia). change (Z.of_nat 1) with 1.
    assert (0 <= off / 8 < 512) by (split; [apply Z.div_pos|apply Z.div_lt_upper_bound]; lia). split_and!; lia.
  - specialize (Hp eq_refl). unfold PT32_ROOT_LEVEL, PAGE_SHIFT in *. set (q := role_quadrant _). change (not64 PAGE_MASK) with (Z.ones 12).
    assert (E2 : u32 (Z.shiftl off 1) = off * 2) by (rewrite Z.shiftl_mul_pow2 by lia; apply wrap_id; unfold is_u; lia). rewrite !E2. clear E2.
    assert (Hcase : role_level sp = 1 ∨ role_level sp = 2) by lia. destruct Hcase as [-> | ->]; cbn [Z.eqb Pos.eqb].
    + change (2 ^ (10 * (1 - 1))) with 1. change (2 ^ (9 * (1 - 1))) with 1.
      rewrite Z.shiftr_div_pow2, Z.land_ones by lia. change (2 ^ 12) with 4096.
      destruct (Z.eqb_spec (off * 2 / 4096) q) as [Hq|Hq]; cbn [negb]; rewrite overlap_same by lia.
      * change (Z.of_nat 1) with 1. split_and!; Z.div_mod_to_equations; lia.
      * Z.div_mod_to_equations; lia.
    + change (2 ^ (10 * (2 - 1))) with 1024. change (2 ^ (9 * (2 - 1))) with 512.
      assert (E2 : Z.land (off * 2) (not32 7) = off * 2 - (off * 2) mod 8).
      { change 7 with (2 ^ 3 - 1). change 8 with (2 ^ 3). apply low_mask; [lia|unfold is_u; lia]. }
      rewrite !E2. clear E2. pose proof (Z.mod_pos_bound (off * 2) 8 ltac:(lia)). set (po := off * 2 - (off * 2) mod 8).
      assert (E2 : u32 (Z.shiftl po 1) = po * 2) by (rewrite Z.shiftl_mul_pow2 by lia; apply wrap_id; unfold is_u, po; pose proof (Z.mod_le (off * 2) 8); lia).
      rewrite !E2. clear E2. unfold po. clear po.
      rewrite Z.shiftr_div_pow2, Z.land_ones by lia. change (2 ^ 12) with 4096.
      destruct (Z.eqb_spec ((off * 2 - (off * 2) mod 8) * 2 / 4096) q) as [Hq|Hq]; cbn [negb]; rewrite overlap_double.
      * change (Z.of_nat 2) with 2. split_and!; Z.div_mod_to_equations; lia.
      * Z.div_mod_to_equations; lia.
Qed.

(** The shadow entries of a written guest entry.  For a page of an 8-byte
    format at any level, and of the 4-byte format at its two levels, the
    entries [get_written_sptes] gives are inside the page, and they are exactly
    those that translate guest addresses the written guest entry translates:
    none when the page shadows another quadrant, two for a 4-byte directory
    entry. *)
Theorem get_written_sptes_exact (sp : mmu_page) (x : page_ext) (gpa j : Z) :
  1 <= sp.(role_level) → (x.(px_role).(role_cr4_pae) = false → sp.(role_level) <= PT32_ROOT_LEVEL) →
  0 <= j < PT64_ENT_PER_PAGE →
  match get_written_sptes sp x gpa with
  | None => ¬ shadows_gpte sp x gpa j
  | Some (i, n) => 0 <= i ∧ i + Z.of_nat n <= PT64_ENT_PER_PAGE ∧ (shadows_gpte sp x gpa j ↔ i <= j < i + Z.of_nat n)
  end.
Proof. exact (get_written_exact sp x gpa j). Qed.

(** Writes that concern one guest entry.  [detect_write_misaligned] lets a
    write pass exactly when it is one byte at the start of a guest entry, or
    four bytes or more inside a single guest entry. *)
Theorem write_misaligned_exact (x : page_ext) (gpa bytes : Z) :
  1 <= bytes < 2 ^ 31 →
  let size := pte_size x.(px_role).(role_cr4_pae) in
  let off := gpa mod PAGE_SIZE in
  detect_write_misaligned x gpa bytes = false ↔
    (bytes = 1 ∧ off mod size = 0) ∨ (4 <= bytes ∧ off / size = (off + bytes - 1) / size).
Proof.
  intros Hb size off. unfold detect_write_misaligned. rewrite offset_in_page_mod. change (gpa mod 4096) with off.
  pose proof (offset_bound gpa) as Ho. change (gpa mod 4096) with off in Ho. clearbody off.
  rewrite (wrap_id 32 off) by (unfold is_u; lia). rewrite (wrap_id 32 (off + bytes - 1)) by (unfold is_u; lia).
  change (if role_cr4_pae (px_role x) then 8 else 4) with size. set (e := off + bytes - 1).
  assert (He : is_u 32 e) by (unfold is_u, e; lia). assert (Hou : is_u 32 off) by (unfold is_u; lia).
  assert (Hs : ∃ k, 0 <= k <= 32 ∧ size = 2 ^ k).
  { unfold size. destruct (role_cr4_pae (px_role x)); [by exists 3|by exists 2]. }
  destruct Hs as (k & Hk & Hs). assert (Hk' : 0 < 2 ^ k) by (apply Z.pow_pos_nonneg; lia).
  assert (Hlow : Z.land off (size - 1) = off mod size).
  { rewrite Hs. replace (2 ^ k - 1) with (Z.ones k) by (rewrite Z.ones_equiv; lia). apply Z.land_ones. lia. }
  rewrite Hlow.
  assert (Hx : Z.land (Z.lxor off e) (not32 (size - 1)) = 0 ↔ off / size = e / size).
  { unfold not32. rewrite Hs, (low_mask 32 k (Z.lxor off e)) by (try lia; by apply is_u_lxor).
    rewrite <- !Z.shiftr_div_pow2 by lia. assert (Eq : Z.lxor off e - Z.lxor off e mod 2 ^ k = 2 ^ k * Z.shiftr (Z.lxor off e) k).
    { rewrite Z.shiftr_div_pow2 by lia. pose proof (Z.div_mod (Z.lxor off e) (2 ^ k)). lia. }
    rewrite Eq, Z.shiftr_lxor. rewrite Z.mul_eq_0, Z.lxor_eq_0_iff. lia. }
  destruct (Z.eqb_spec bytes 1) as [->|Hn]; destruct (truth (off mod size)) eqn:Et; cbn [negb andb].
  - assert (off mod size ≠ 0) by (intros E0; by rewrite E0 in Et). split; [|intros [[_ ?]|[? _]]; lia]. intros Hz. apply truth_false, Z.lor_eq_0_iff in Hz as [_ Hz]. done.
  - apply truth_false in Et. split; [intros _; by left|done].
  - rewrite truth_false_iff, Z.lor_eq_0_iff, Hx. destruct (Z.ltb_spec bytes 4); cbn; lia.
  - rewrite truth_false_iff, Z.lor_eq_0_iff, Hx. destruct (Z.ltb_spec bytes 4); cbn; lia.
Qed.

(* ------------------------------------------------------------------ *)
(** ** A write that clears a guest entry *)

Section Write.
Context `{K : KvmPte} `{T : KvmTrack} (g : shadow_masks) (env : map_env) (va : Z → Z)
        (gfn_to_memslot : bool → Z → vmrun_memory_slot) (role_gfn_to_memslot : bool → Z → option vmrun_memory_slot)
        (PT64_ROOT_MAX_LEVEL : nat) (vp : vcpu_paging)
        (read_guest : Z → option Z) (update_pte : Z → Z → Z → alloc_state → option alloc_state) (other_mask : Z).

Notation alloc_ok := (alloc_ok g va gfn_to_memslot role_gfn_to_memslot PT64_ROOT_MAX_LEVEL).
Notation al_owner st := (owner_of g st.(al_header) (al_page_of va st) gfn_to_memslot (al_shadow st)).
Notation write_sptes := (write_sptes g va gfn_to_memslot vp update_pte other_mask).
Notation pte_write_loop := (pte_write_loop g va gfn_to_memslot role_gfn_to_memslot PT64_ROOT_MAX_LEVEL vp update_pte other_mask).

(** Entries were cleared; those that were present are reported by [flush]. *)
Record cleared (st st' : alloc_state) (flush : bool) : Prop := {
  cl_ok : alloc_ok st';
  cl_lighter : lighter (al_shadow st) (al_shadow st');
  cl_caches : same_caches st st';
  cl_invalid : st'.(al_zap).(zs_invalid) = st.(al_zap).(zs_invalid);
  cl_flush : ∀ p, al_owner st p ≠ None → al_owner st' p = None → flush = true;
  cl_count : (mmu (al_shadow st')).(remote_flushes) = (mmu (al_shadow st)).(remote_flushes)
}.

Lemma cleared_refl (st : alloc_state) : alloc_ok st → cleared st st false.
Proof using Type. intros Hok. by split. Qed.

Lemma cleared_trans (st1 st2 st3 : alloc_state) (f f' : bool) : cleared st1 st2 f → cleared st2 st3 f' → cleared st1 st3 (f || f').
Proof using Type.
  intros [A1 A2 (A3 & A4 & A5) A6 A7 A8] [B1 B2 (B3 & B4 & B5) B6 B7 B8]. split; [done|by etrans|split_and!; congruence|congruence| |congruence].
  intros p H1 H3. apply orb_true_iff. destruct (al_owner st2 p) as [o|] eqn:E; [right; apply (B7 p); [congruence|done]|left; by apply (A7 p)].
Qed.

Lemma same_header_owner (st st' : alloc_state) (p : Z) :
  st'.(al_header) = st.(al_header) → lighter (al_shadow st) (al_shadow st') → al_owner st p = None → al_owner st' p = None.
Proof using Type.
  intros Hh Hl Hn. destruct (al_owner st' p) as [o|] eqn:E; [|done]. unfold al_page_of in *. rewrite Hh in E.
  apply (lighter_owner _ _ _ _ _ _ _ _ Hl) in E. congruence.
Qed.

(** Nothing is flushed on the way. *)
Lemma drop_spte_flushes (ph : Z → Z) (p : Z) (m m' : mmu_state) :
  drop_spte g ph gfn_to_memslot p m = Some m' → m'.(remote_flushes) = m.(remote_flushes).
Proof using Type.
  unfold drop_spte. destruct (mmu_spte_clear_track_bits g _ _) as [[cell r] ev]. destruct (truth r); [|by intros [= <-]].
  unfold rmap_remove. destruct (_ !! _) as [sp|]; [|done]. cbn [mbind option_bind].
  destruct (vmrun_mmu_page_get_gfn _ _) as [gfn|]; [|done]. cbn [mbind option_bind].
  destruct (pte_list_remove _ _ _) as [[h d]|]; [|done]. cbn [mbind option_bind]. by intros [= <-].
Qed.

Lemma zap_pte_flushes (ph po : Z → Z) (a p : Z) (s s' : shadow_state) (b : bool) :
  mmu_page_zap_pte g ph po gfn_to_memslot a p s = Some (s', b) → (mmu s').(remote_flushes) = (mmu s).(remote_flushes).
Proof using Type.
  unfold mmu_page_zap_pte. destruct (is_shadow_present_pte g _).
  - destruct (_ !! a) as [sp|]; [|done]. cbn [mbind option_bind]. destruct (is_last_spte _ _).
    + destruct (drop_spte _ _ _ _ _) as [m|] eqn:E; [|done]. cbn [mbind option_bind]. intros [= <- _].
      apply drop_spte_flushes in E. by destruct (is_large_pte _).
    + unfold drop_parent_pte, mmu_page_remove_parent_pte. destruct (_ !! _) as [x|]; [|done]. cbn [mbind option_bind].
      destruct (pte_list_remove _ _ _) as [[h d]|]; [|done]. cbn [mbind option_bind]. by intros [= <- _].
  - destruct (is_mmio_spte g _); by intros [= <- _].
Qed.

(** One entry. *)
Lemma clear_spte (st : alloc_state) (a p : Z) (sp : mmu_page) :
  alloc_ok st → (mmu (al_shadow st)).(pages) !! a = Some sp → entry_in sp p = true →
  ∃ s' b, mmu_page_zap_pte g st.(al_header) (al_page_of va st) gfn_to_memslot a p (al_shadow st) = Some (s', b) ∧
    (mmu s').(ptes) p = 0 ∧
    let st' := upd_shadow (λ _, s') st in
    cleared st st' (is_shadow_present_pte g ((mmu (al_shadow st)).(ptes) p)) ∧ al_owner st' p = None.
Proof using Type.
  intros Hok Hsp Hp. destruct (pl_tables _ _ _ _ _ _ _ (ao_pools _ _ _ _ _ _ Hok)) as (LL & DD & Hsh).
  destruct (zap_pte_ok g st.(al_header) (al_page_of va st) gfn_to_memslot LL DD (al_shadow st) a p sp Hsh Hsp Hp)
    as (s' & b & LL' & DD' & E & Hsh' & D).
  exists s', b. split; [done|]. pose proof (dropped_lighter _ _ _ D) as Hl. set (st' := upd_shadow (λ _, s') st).
  assert (Hz : (mmu s').(ptes) p = 0) by (by apply (dr_in _ _ _ D)). split; [done|]. cbv zeta.
  assert (Hn : al_owner st' p = None).
  { unfold owner_of. change (al_shadow st') with s'. destruct (pages (mmu s') !! _) as [m|]; [|done]. cbn [mbind option_bind].
    destruct (entry_in m p); [|done]. unfold value_owner. assert (H0 : is_shadow_present_pte g 0 = false) by done. by rewrite Hz, H0. }
  split; [|done]. split; [|done|done|done| |by apply zap_pte_flushes in E].
  - apply (lighter_alloc _ _ _ _ _ st); [done| |done|done].
    apply (lighter_pools _ _ _ _ _ st); [apply Hok|exists LL', DD'; exact Hsh'|exact Hl|done| | |done|done];
      change (al_shadow st') with s'; by rewrite (dr_rest _ _ _ D).
  - intros q H1 H2. destruct (decide (q = p)) as [->|Hne].
    + destruct (al_owner st p) as [o|] eqn:Eo; [|done]. by destruct (owner_elim _ _ _ _ _ _ _ Eo) as (_ & _ & _ & ? & _).
    + destruct H1. rewrite <- H2. symmetry. apply owner_of_same; [by apply (dr_out _ _ _ D)|apply (dr_pages _ _ _ D)].
Qed.

Lemma absent_flush (old : Z) : need_remote_flush g old 0 = is_shadow_present_pte g old.
Proof using Type. unfold need_remote_flush. by destruct (is_shadow_present_pte g old). Qed.

Lemma write_sptes_ok (npte : nat) (pw : write_state) (a i : Z) (sp : mmu_page) (f : bool) :
  alloc_ok pw.(pw_alloc) → (mmu (pw_shadow pw)).(pages) !! a = Some sp → 0 <= i → i + Z.of_nat npte <= PT64_ENT_PER_PAGE →
  ∃ f' pw', write_sptes npte a (sp.(sp_spt) + 8 * i) 0 f pw = Some (f || f', pw') ∧ cleared pw.(pw_alloc) pw'.(pw_alloc) f' ∧
    pw'.(pw_flooded) = pw.(pw_flooded) ∧
    ∀ j, i <= j < i + Z.of_nat npte → al_owner pw'.(pw_alloc) (sp.(sp_spt) + 8 * j) = None.
Proof using Type.
  revert pw i f. induction npte as [|npte IH]; intros pw i f Hok Hsp Hi Hn; cbn [PteWrite.write_sptes].
  - exists false, pw. split; [by rewrite orb_false_r|]. split; [by apply cleared_refl|]. split; [done|]. intros j. lia.
  - assert (Hp : entry_in sp (sp.(sp_spt) + 8 * i) = true) by (apply entry_at; lia).
    destruct (clear_spte pw.(pw_alloc) a _ sp Hok Hsp Hp) as (s' & b & E & Hz & C & Ho). change (pw_shadow pw) with (al_shadow (pw_alloc pw)) in *. rewrite E. cbn [mbind option_bind].
    set (pw1 := upd_pw (λ _, s') pw). pose proof (lt_pages _ _ (cl_lighter _ _ _ C)) as Hpg.
    change (al_shadow (upd_shadow (λ _, s') (pw_alloc pw))) with s' in Hpg. rewrite Hpg. rewrite Hsp. cbn [mbind option_bind].
    destruct (ext_of _ _ _ _ _ pw1.(pw_alloc) a sp (ao_pools _ _ _ _ _ _ (cl_ok _ _ _ C))) as [x Hx]; [by rewrite <- Hsp, <- Hpg|].
    change (al_shadow (pw_alloc pw1)) with s' in Hx. rewrite Hx. cbn [mbind option_bind]. change (truth 0) with false. cbn [andb mbind option_bind].
    change (ptes (mmu (pw_shadow pw1)) (sp_spt sp + 8 * i)) with (ptes (mmu s') (sp_spt sp + 8 * i)). rewrite Hz, absent_flush.
    replace (sp_spt sp + 8 * i + 8) with (sp_spt sp + 8 * (i + 1)) by lia.
    destruct (IH pw1 (i + 1) (f || is_shadow_present_pte g (ptes (mmu (al_shadow (pw_alloc pw))) (sp_spt sp + 8 * i)))) as (f' & pw' & E' & C' & Hfl & Hj);
      [apply C|by rewrite <- Hsp, <- Hpg|lia|lia|].
    exists (is_shadow_present_pte g (ptes (mmu (al_shadow (pw_alloc pw))) (sp_spt sp + 8 * i)) || f'), pw'.
    split; [by rewrite orb_assoc|]. split; [exact (cleared_trans _ _ _ _ _ C C')|]. split; [done|].
    intros j Hr. destruct (decide (j = i)) as [->|Hne]; [|apply Hj; lia].
    apply (same_header_owner (pw_alloc pw1)); [apply (cl_caches _ _ _ C')|apply C'|exact Ho].
Qed.

Context (Hmax : (PT64_ROOT_MAX_LEVEL < KVM_PAGE_ARRAY_NR)%nat).

(** The shadow entries of the guest entry at [gpa] are clear in page [a]. *)
Definition gpte_clear (gpa : Z) (st st' : alloc_state) (a : Z) : Prop :=
  ∀ sp x j, (mmu (al_shadow st)).(pages) !! a = Some sp → (al_shadow st).(ss_ext) !! a = Some x → 0 <= j < PT64_ENT_PER_PAGE →
    shadows_gpte sp x gpa j → al_owner st' (sp.(sp_spt) + 8 * j) = None.

(** The pages of the 4-byte format have two levels. *)
Definition formats_ok (l : list Z) (st : alloc_state) : Prop :=
  ∀ a sp x, a ∈ l → (mmu (al_shadow st)).(pages) !! a = Some sp → (al_shadow st).(ss_ext) !! a = Some x →
    x.(px_role).(role_cr4_pae) = false → sp.(role_level) <= PT32_ROOT_LEVEL.

Lemma formats_lighter (l : list Z) (st st' : alloc_state) :
  lighter (al_shadow st) (al_shadow st') → formats_ok l st → formats_ok l st'.
Proof using Type.
  intros L F a sp x' Ha Hsp Hx'. rewrite (lt_pages _ _ L) in Hsp. destruct (lighter_lookup _ _ a x' L Hx') as (x & Hx & LE).
  rewrite (le_role _ _ LE). by apply (F a sp x).
Qed.

Lemma gpte_clear_later (gpa a : Z) (st0 st1 st2 : alloc_state) :
  st2.(al_header) = st1.(al_header) → lighter (al_shadow st1) (al_shadow st2) → gpte_clear gpa st0 st1 a → gpte_clear gpa st0 st2 a.
Proof using Type.
  intros Hh L H sp x j Hsp Hx Hj Hs. apply (same_header_owner st1); [done|done|]. by apply (H sp x).
Qed.

Lemma gpte_clear_earlier (gpa a : Z) (st0 st1 st2 : alloc_state) :
  lighter (al_shadow st0) (al_shadow st1) → gpte_clear gpa st1 st2 a → gpte_clear gpa st0 st2 a.
Proof using Type.
  intros L H sp x j Hsp Hx Hj Hs. destruct (lt_ext _ _ L a x Hx) as (x' & Hx' & LE).
  apply (H sp x' j); [by rewrite (lt_pages _ _ L)|done|done|]. unfold shadows_gpte in *. by rewrite (le_role _ _ LE).
Qed.

(** The result of the loop over the pages [l]. *)
Record swept (gfn gpa : Z) (l : list Z) (pw pw' : write_state) (f : bool) : Prop := {
  sw_ok : alloc_ok pw'.(pw_alloc);
  sw_lighter : lighter (pw_shadow pw) (pw_shadow pw');
  sw_caches : same_caches pw.(pw_alloc) pw'.(pw_alloc);
  sw_flooded : pw.(pw_flooded) <= pw'.(pw_flooded);
  sw_cleared : pw'.(pw_flooded) = pw.(pw_flooded) → cleared pw.(pw_alloc) pw'.(pw_alloc) f;
  sw_clear : ∀ a, a ∈ l → shadows gfn (pw_shadow pw') a = true → gpte_clear gpa pw.(pw_alloc) pw'.(pw_alloc) a
}.

(** One page, then the others. *)
Lemma swept_cons (gfn gpa a : Z) (l : list Z) (pw pw1 pw' : write_state) (f f' : bool) :
  lighter (pw_shadow pw) (pw_shadow pw1) → same_caches pw.(pw_alloc) pw1.(pw_alloc) → pw.(pw_flooded) <= pw1.(pw_flooded) →
  (pw1.(pw_flooded) = pw.(pw_flooded) → cleared pw.(pw_alloc) pw1.(pw_alloc) f) →
  (shadows gfn (pw_shadow pw1) a = true → gpte_clear gpa pw.(pw_alloc) pw1.(pw_alloc) a) →
  swept gfn gpa l pw1 pw' f' → swept gfn gpa (a :: l) pw pw' (f || f').
Proof using Type.
  clear Hmax. intros L1 (C1 & C2 & C3) F1 Hc Hg [S1 S2 (S3 & S4 & S5) S6 S7 S8]. split.
  - done.
  - by etrans.
  - split_and!; congruence.
  - lia.
  - intros E. eapply cleared_trans; [apply Hc; lia|apply S7; lia].
  - intros b [->|Hb]%elem_of_cons Hs.
    + eapply gpte_clear_later; [exact S5|exact S2|]. apply Hg. by eapply lighter_shadows.
    + eapply gpte_clear_earlier; [exact L1|]. by apply S8.
Qed.

Lemma swept_nil (gfn gpa : Z) (pw : write_state) : alloc_ok pw.(pw_alloc) → swept gfn gpa [] pw pw false.
Proof using Type.
  clear Hmax. intros Hok. split; [done|done|done|lia|intros _; by apply cleared_refl|]. by intros a ?%elem_of_nil.
Qed.

(** The count of writes. *)
Lemma count_cleared (st : alloc_state) (a n : Z) (x : page_ext) :
  alloc_ok st → (al_shadow st).(ss_ext) !! a = Some x →
  cleared st (upd_shadow (upd_ext a (λ _, x <| px_flooding := n |>)) st) false.
Proof using Type.
  intros Hok Hx. set (st' := upd_shadow _ st).
  assert (F : flags_only (al_shadow st) (al_shadow st')).
  { replace (al_shadow st') with (upd_ext a (λ y, y <| px_flooding := n |>) (al_shadow st)); [apply flags_upd; by split|].
    unfold st', upd_ext. cbn. f_equal. apply map_eq. intros b. destruct (decide (b = a)) as [->|Hne]; [|by rewrite !lookup_alter_ne].
    rewrite !lookup_alter_eq. change (zs_shadow (al_zap st)) with (al_shadow st). rewrite !Hx. done. }
  assert (S : steady st st').
  { split; [exact F|by split|by split|by split|]. split; [|done]. intros b y y' Hy. cbn. destruct (decide (b = a)) as [->|Hne]; [rewrite lookup_alter_eq|rewrite lookup_alter_ne by done].
    - change (zs_shadow (al_zap st)) with (al_shadow st). rewrite Hx. intros [= <-]. assert (y = x) as -> by congruence. done.
    - change (zs_shadow (al_zap st)) with (al_shadow st). congruence. }
  split; [by apply (steady_alloc _ _ _ _ _ st)|by apply flags_lighter|done|done| |done]. intros p H1 H2. destruct H1. rewrite <- H2. symmetry.
  apply owner_of_same; done.
Qed.

Lemma flooding_cases (sp : mmu_page) (x : page_ext) : ∃ b n, detect_write_flooding sp x = (b, x <| px_flooding := n |>).
Proof using Type.
  unfold detect_write_flooding. destruct (_ =? _); [|by eexists _, _]. exists false, x.(px_flooding). by destruct x.
Qed.

Lemma pte_write_loop_ok (gfn gpa bytes : Z) (l : list Z) (rf lf : bool) (pw : write_state) :
  alloc_ok pw.(pw_alloc) → (∀ a, a ∈ l → is_Some ((mmu (pw_shadow pw)).(pages) !! a)) → formats_ok l pw.(pw_alloc) →
  ∃ f lf' pw', pte_write_loop gfn gpa bytes 0 l rf lf pw = Some (rf || f, lf', pw') ∧ swept gfn gpa l pw pw' f.
Proof using Hmax.
  revert rf lf pw. induction l as [|a l IH]; intros rf lf pw Hok Hl Hfmt; cbn [PteWrite.pte_write_loop].
  { exists false, lf, pw. split; [by rewrite orb_false_r|by apply swept_nil]. }
  destruct (Hl a ltac:(by left)) as [sp Hsp]. destruct (ext_of _ _ _ _ _ _ a sp (ao_pools _ _ _ _ _ _ Hok) Hsp) as [x Hx].
  change (al_shadow (pw_alloc pw)) with (pw_shadow pw) in Hx. rewrite Hsp, Hx. cbn [mbind option_bind].
  (* the rest of the list, from a later state *)
  assert (Hrest : ∀ pw1 rf1 lf1 f1, alloc_ok pw1.(pw_alloc) → lighter (pw_shadow pw) (pw_shadow pw1) →
    same_caches pw.(pw_alloc) pw1.(pw_alloc) → pw.(pw_flooded) <= pw1.(pw_flooded) →
    (pw1.(pw_flooded) = pw.(pw_flooded) → cleared pw.(pw_alloc) pw1.(pw_alloc) f1) →
    (shadows gfn (pw_shadow pw1) a = true → gpte_clear gpa pw.(pw_alloc) pw1.(pw_alloc) a) → rf1 = rf || f1 →
    ∃ f lf' pw', pte_write_loop gfn gpa bytes 0 l rf1 lf1 pw1 = Some (rf || f, lf', pw') ∧ swept gfn gpa (a :: l) pw pw' f).
  { intros pw1 rf1 lf1 f1 Hok1 L1 C1 Hf1 Hc1 Hg1 ->. destruct (IH (rf || f1) lf1 pw1 Hok1) as (f & lf' & pw' & E & S).
    - intros b Hb. rewrite (lt_pages _ _ L1). apply Hl. by right.
    - apply (formats_lighter _ pw.(pw_alloc)); [exact L1|]. intros b spb y Hb. apply Hfmt. by right.
    - exists (f1 || f), lf', pw'. rewrite orb_assoc. split; [exact E|]. by eapply swept_cons. }
  assert (Hself : shadows gfn (pw_shadow pw) a = gfn_indirect_valid gfn (pw_shadow pw) sp x).
  { unfold shadows. by rewrite Hsp, Hx. }
  destruct (gfn_indirect_valid gfn (pw_shadow pw) sp x) eqn:Hv; cbn [negb].
  2: { apply (Hrest pw rf lf false); [done|done|done|lia|intros _; by apply cleared_refl|congruence|by rewrite orb_false_r]. }
  assert (Hinv : x.(px_invalid) = false).
  { unfold gfn_indirect_valid in Hv. rewrite !andb_true_iff, !negb_true_iff, !orb_false_iff in Hv. apply Hv. }
  (* zapping the page *)
  assert (Hzap : ∀ pw1 x1, cleared pw.(pw_alloc) pw1.(pw_alloc) false → pw1.(pw_flooded) = pw.(pw_flooded) →
    (pw_shadow pw1).(ss_ext) !! a = Some x1 → x1.(px_invalid) = false →
    ∃ f lf' pw', ('(st, _) ← al_zap_page g va gfn_to_memslot role_gfn_to_memslot PT64_ROOT_MAX_LEVEL a pw1.(pw_alloc);
       pte_write_loop gfn gpa bytes 0 l rf lf (pw1 <| pw_alloc := st |> <| pw_flooded ::= λ n, n + 1 |>)) = Some (rf || f, lf', pw') ∧
      swept gfn gpa (a :: l) pw pw' f).
  { intros pw1 x1 C1 Hf1 Hx1 Hi1. pose proof (cl_lighter _ _ _ C1) as L1.
    destruct (zap_alloc g va gfn_to_memslot role_gfn_to_memslot PT64_ROOT_MAX_LEVEL Hmax pw1.(pw_alloc) a x1 (cl_ok _ _ _ C1))
      as (st & n & E & Hok2 & L2 & C2 & (y & Hy & Hi2) & _); [|done|].
    { exact (valid_active _ _ _ _ _ _ a x1 (ao_pools _ _ _ _ _ _ (cl_ok _ _ _ C1)) Hx1 Hi1). }
    rewrite E. cbn [mbind option_bind]. apply (Hrest _ rf lf false); [exact Hok2|by etrans| |cbn; lia|cbn; lia| |by rewrite orb_false_r].
    - destruct (cl_caches _ _ _ C1) as (? & ? & ?), C2 as (? & ? & ?). split_and!; cbn; congruence.
    - intros Hs. exfalso. unfold shadows in Hs. change (pw_shadow _) with (al_shadow st) in Hs. rewrite Hy in Hs. case_match; [|done].
      unfold gfn_indirect_valid in Hs. by rewrite Hi2, orb_true_r in Hs. }
  destruct (detect_write_misaligned x gpa bytes); [by apply (Hzap pw x); [apply cleared_refl| | |]|].
  destruct (flooding_cases sp x) as (b & n & ->).
  set (pw2 := upd_pw (upd_ext a (λ _, x <| px_flooding := n |>)) pw).
  pose proof (count_cleared pw.(pw_alloc) a n x Hok Hx) as C2. change (upd_shadow _ _) with pw2.(pw_alloc) in C2.
  assert (Hx2 : (pw_shadow pw2).(ss_ext) !! a = Some (x <| px_flooding := n |>)).
  { unfold pw2, upd_pw, upd_ext, pw_shadow, al_shadow. cbn. rewrite lookup_alter_eq. unfold pw_shadow, al_shadow in Hx. by rewrite Hx. }
  destruct b; [by apply (Hzap pw2 (x <| px_flooding := n |>))|].
  pose proof (lv_range _ _ _ _ _ _ _ (pl_levels _ _ _ _ _ _ _ (ao_pools _ _ _ _ _ _ Hok)) a sp Hsp) as [_ Hlev].
  assert (Hfm : x.(px_role).(role_cr4_pae) = false → sp.(role_level) <= PT32_ROOT_LEVEL) by (intros H; eapply Hfmt; [by left|done|done|done]).
  pose proof (λ j, get_written_exact sp x gpa j (proj1 Hlev) Hfm) as Hw.
  destruct (get_written_sptes sp x gpa) as [[i npte]|].
  2: { apply (Hrest pw2 rf lf false); [apply C2|apply C2|apply C2|cbn; lia|done| |by rewrite orb_false_r].
       intros _ sp' x' j Hsp' Hx' Hj Hg. assert (sp' = sp) as -> by (unfold pw_shadow in *; congruence).
       assert (x' = x) as -> by (unfold pw_shadow in *; congruence). by destruct (Hw j Hj). }
  destruct (Hw 0 ltac:(change PT64_ENT_PER_PAGE with 512; lia)) as (Hi & Hn & _).
  destruct (write_sptes_ok npte pw2 a i sp rf (cl_ok _ _ _ C2)) as (f' & pw' & E & C' & Hfl & Hj); [done|done|done|].
  rewrite E. cbn [mbind option_bind].
  pose proof (cleared_trans _ _ _ _ _ C2 C') as C. cbn [orb] in C.
  apply (Hrest pw' (rf || f') true f'); [apply C|apply C|apply C|rewrite Hfl; cbn; lia|done| |done].
  intros _ sp' x' j Hsp' Hx' Hjr Hg. assert (sp' = sp) as -> by (unfold pw_shadow in *; congruence).
  assert (x' = x) as -> by (unfold pw_shadow in *; congruence). apply Hj. by apply (Hw j Hjr).
Qed.

Lemma topped_owner (st st' : alloc_state) (p : Z) : topped_up st st' → al_owner st' p = al_owner st p.
Proof using Type.
  intros [[m Hm] _ _ Hh]. unfold al_page_of. rewrite Hh. apply owner_of_same; by rewrite Hm.
Qed.

Lemma topped_lighter (st st' : alloc_state) : topped_up st st' → lighter (al_shadow st) (al_shadow st').
Proof using Type.
  intros [[m Hm] Hs _ _]. assert (He : (al_shadow st').(ss_ext) = (al_shadow st).(ss_ext)) by (by rewrite Hs).
  split; [intros p; left; by rewrite Hm|by rewrite Hm|intros a x Hx; exists x; by rewrite He|intros a; by rewrite He|..]; by rewrite Hs.
Qed.

Context (capacity : nat).

(** C16: clearing a guest entry.  When the guest writes an entry of its page
    tables and the entry is zero afterwards, [vmrun_mmu_pte_write] ends with
    the invariants in place.  In every page that still shadows the guest's
    table no shadow entry is left for an address the guest entry translates;
    no shadow entry is new; and when no page was zapped for
    flooding, if any translation went, [vmrun_flush_remote_tlbs] is called once
    (it clears [tlbs_dirty] and sends no request). *)
Theorem pte_write_clears (gpa bytes gpa' bytes' : Z) (new : list Z) (descs0 free headers : list (option Z)) (pw : write_state) :
  let gfn := Z.shiftr gpa PAGE_SHIFT in
  alloc_ok pw.(pw_alloc) → pw.(pw_alloc).(al_zap).(zs_invalid) = [] →
  (pw_shadow pw).(ss_track).(indirect_shadow_pages) ≠ 0 →
  mmu_pte_write_fetch_gpte vp read_guest gpa new bytes = Some (0, gpa', bytes') →
  fresh_memory descs0 free headers pw.(pw_alloc) → (8 + Z.to_nat PTE_PREFETCH_NUM <= capacity)%nat →
  formats_ok (hash_chain_of env gfn pw.(pw_alloc)) pw.(pw_alloc) →
  ∃ pw', vmrun_mmu_pte_write g env va gfn_to_memslot role_gfn_to_memslot PT64_ROOT_MAX_LEVEL vp capacity read_guest update_pte other_mask
           gpa new bytes descs0 free headers pw = Some pw' ∧
    alloc_ok pw'.(pw_alloc) ∧ pw'.(pw_alloc).(al_zap).(zs_invalid) = [] ∧
    (∀ a, a ∈ hash_chain_of env gfn pw'.(pw_alloc) → shadows gfn (pw_shadow pw') a = true →
       gpte_clear gpa' pw.(pw_alloc) pw'.(pw_alloc) a) ∧
    (∀ p o, al_owner pw'.(pw_alloc) p = Some o → al_owner pw.(pw_alloc) p = Some o) ∧
    (pw'.(pw_flooded) = pw.(pw_flooded) → ∀ p, al_owner pw.(pw_alloc) p ≠ None → al_owner pw'.(pw_alloc) p = None →
       (mmu (pw_shadow pw')).(remote_flushes) = (mmu (pw_shadow pw)).(remote_flushes) + 1).
Proof using Hmax.
  intros gfn Hok Hi Hind Hfetch Hfr Hcap Hfmt. unfold vmrun_mmu_pte_write. cbv zeta. fold gfn.
  assert (El : pw <| pw_alloc ::= λ st, st <| al_zap ::= local_list |> |> = pw).
  { unfold local_list. destruct pw as [[zs ? ? ? ? ? ? ?] ? ? ? ?]. cbn in *. rewrite <- Hi. by destruct zs. }
  rewrite !El. rewrite (truth_nonzero _ Hind). cbn [negb]. rewrite Hfetch. cbn [mbind option_bind].
  destruct (topup_ok g va gfn_to_memslot role_gfn_to_memslot PT64_ROOT_MAX_LEVEL capacity descs0 free headers pw.(pw_alloc) Hok Hfr Hcap)
    as (r & st1 & -> & Hok1 & Tu & _). cbv beta iota zeta.
  match goal with |- context [_ false false ?z] => set (pw1 := z) end.
  pose proof (topped_lighter _ _ Tu) as L1. pose proof (λ p, topped_owner _ _ p Tu) as Ho1.
  assert (Hch : hash_chain_of env gfn st1 = hash_chain_of env gfn pw.(pw_alloc)) by (unfold hash_chain_of; by rewrite (lt_hash _ _ L1)).
  destruct (pte_write_loop_ok gfn gpa' bytes' (hash_chain_of env gfn st1) false false pw1 Hok1) as (f & lf & pw2 & E & S).
  { intros a Ha. unfold hash_chain_of in Ha. destruct ((al_shadow st1).(ss_hash) !! _) as [l|] eqn:Eh; [|by apply elem_of_nil in Ha].
    exact (ao_hash _ _ _ _ _ _ Hok1 _ l a Eh Ha). }
  { apply (formats_lighter _ pw.(pw_alloc)); [exact L1|]. by rewrite Hch. }
  change (pw_alloc pw1) with st1. rewrite E. cbn [mbind option_bind orb].
  assert (L2 : lighter (pw_shadow pw) (pw_shadow pw2)) by (etrans; [exact L1|apply S]).
  assert (Hh2 : al_header (pw_alloc pw2) = al_header (pw_alloc pw)).
  { destruct (sw_caches _ _ _ _ _ _ S) as (_ & _ & ->). apply Tu. }
  assert (Hhash2 : ss_hash (al_shadow (pw_alloc pw2)) = ss_hash (al_shadow st1)) by exact (lt_hash _ _ (sw_lighter _ _ _ _ _ _ S)).
  assert (Hg2 : ∀ a, a ∈ hash_chain_of env gfn st1 → shadows gfn (pw_shadow pw2) a = true → gpte_clear gpa' pw.(pw_alloc) pw2.(pw_alloc) a).
  { intros a Ha Hs. eapply gpte_clear_earlier; [exact L1|]. by apply (sw_clear _ _ _ _ _ _ S). }
  unfold vmrun_mmu_flush_or_zap. destruct (zs_invalid (al_zap (pw_alloc pw2))) as [|z zl] eqn:Ez.
  - set (fin := λ st, pw2 <| pw_alloc := st |>).
    assert (Hfin : ∀ st, steady pw2.(pw_alloc) st →
      (pw2.(pw_flooded) = pw.(pw_flooded) → ∀ p, al_owner pw.(pw_alloc) p ≠ None → al_owner pw2.(pw_alloc) p = None →
         (mmu (al_shadow st)).(remote_flushes) = (mmu (pw_shadow pw)).(remote_flushes) + 1) →
      alloc_ok st ∧ zs_invalid (al_zap st) = [] ∧
      (∀ a, a ∈ hash_chain_of env gfn st → shadows gfn (al_shadow st) a = true → gpte_clear gpa' pw.(pw_alloc) st a) ∧
      (∀ p o, al_owner st p = Some o → al_owner pw.(pw_alloc) p = Some o) ∧
      (pw2.(pw_flooded) = pw.(pw_flooded) → ∀ p, al_owner pw.(pw_alloc) p ≠ None → al_owner st p = None →
         (mmu (al_shadow st)).(remote_flushes) = (mmu (pw_shadow pw)).(remote_flushes) + 1)).
    { intros st Sd Hcount. pose proof (flags_lighter _ _ (sd_flags _ _ Sd)) as L3. destruct (sd_caches _ _ Sd) as (_ & _ & Hh3).
      assert (Ho3 : ∀ p, al_owner st p = al_owner pw2.(pw_alloc) p).
      { intros p. unfold al_page_of. rewrite Hh3. apply owner_of_same; apply (sd_flags _ _ Sd). }
      split; [apply (steady_alloc _ _ _ _ _ pw2.(pw_alloc)); [done|apply S]|]. split; [by rewrite (proj1 (sd_lists _ _ Sd))|].
      split; [|split].
      - intros a Ha Hs. eapply gpte_clear_later; [exact Hh3|exact L3|]. apply Hg2.
        + unfold hash_chain_of in *. by rewrite (lt_hash _ _ L3), Hhash2 in Ha.
        + by eapply lighter_shadows.
      - intros p o. rewrite Ho3. unfold al_page_of. rewrite Hh2. by apply lighter_owner.
      - intros Hf p. rewrite Ho3. by apply Hcount. }
    assert (Hfl : pw2.(pw_flooded) = pw.(pw_flooded) → ∀ p, al_owner pw.(pw_alloc) p ≠ None → al_owner pw2.(pw_alloc) p = None →
              f = true ∧ (mmu (pw_shadow pw2)).(remote_flushes) = (mmu (pw_shadow pw)).(remote_flushes)).
    { intros Hf p H1 H2. destruct (sw_cleared _ _ _ _ _ _ S Hf) as [_ _ _ _ Cf Cc]. split; [apply (Cf p); [|done]|].
      - change (pw_alloc pw1) with st1. by rewrite Ho1.
      - etrans; [exact Cc|]. destruct (tu_mmu _ _ Tu) as [m Hm]. change (pw_alloc pw1) with st1. by rewrite Hm. }
    destruct f.
    + exists (fin (upd_shadow (upd_mmu flush_remote_tlbs) pw2.(pw_alloc))). split; [done|]. apply Hfin.
      * split; [by apply flags_same|by split|by split|by split|]. split; [|done]. intros b y y' Hy Hy'. by rewrite (inj Some y y') by (by rewrite <- Hy).
      * intros Hf p H1 H2. destruct (Hfl Hf p H1 H2) as [_ Hc]. cbn. unfold pw_shadow, al_shadow in Hc. by rewrite Hc.
    + assert (Hno : pw2.(pw_flooded) = pw.(pw_flooded) → ∀ p, al_owner pw.(pw_alloc) p ≠ None → al_owner pw2.(pw_alloc) p = None → False)
        by (intros Hf p H1 H2; by destruct (Hfl Hf p H1 H2)).
      destruct lf; [exists (fin (vmrun_make_request KVM_REQ_TLB_FLUSH pw2.(pw_alloc)))|exists (fin pw2.(pw_alloc))]; (split; [done|]); apply Hfin.
      * split; [by apply flags_same|by split|by split|by split|]. split; [|done]. intros b y y' Hy Hy'. by rewrite (inj Some y y') by (by rewrite <- Hy).
      * intros Hf p H1 H2. by destruct (Hno Hf p H1 H2).
      * apply steady_refl.
      * intros Hf p H1 H2. by destruct (Hno Hf p H1 H2).
  - destruct (commit_alloc g va gfn_to_memslot role_gfn_to_memslot PT64_ROOT_MAX_LEVEL pw2.(pw_alloc) (sw_ok _ _ _ _ _ _ S))
      as (st & -> & Hok3 & Hi3 & F & (_ & _ & Hh3)). cbn [mbind option_bind].
    exists (pw2 <| pw_alloc := st |>). split; [done|]. change (pw_alloc (pw2 <| pw_alloc := st |>)) with st.
    change (pw_shadow (pw2 <| pw_alloc := st |>)) with (al_shadow st).
    assert (Hfo : ∀ p o, al_owner st p = Some o → al_owner pw2.(pw_alloc) p = Some o).
    { intros p o Ho. unfold al_page_of in *. rewrite Hh3 in Ho. exact (freed_owner _ _ _ _ _ _ _ _ _ F Ho). }
    split; [done|]. split; [done|]. split; [|split].
    + intros a Ha Hs sp x j Hsp Hx Hj Hg. destruct (al_owner st _) as [o|] eqn:Eo; [|done]. apply Hfo in Eo. exfalso.
      assert (Hin : a ∈ hash_chain_of env gfn pw2.(pw_alloc) ∧ a ∉ zs_invalid (al_zap (pw_alloc pw2))).
      { unfold hash_chain_of, al_shadow in *. rewrite (fr_hash _ _ _ F), lookup_fmap in Ha.
        destruct (ss_hash (zs_shadow (al_zap (pw_alloc pw2))) !! _) as [c|]; [|by apply elem_of_nil in Ha]. cbn in Ha. by apply elem_of_del_all in Ha. }
      enough (Hn : al_owner (pw_alloc pw2) (sp_spt sp + 8 * j) = None) by congruence. apply (Hg2 a) with (x := x); try done.
      * destruct Hin as [Hin _]. unfold hash_chain_of in *. by rewrite Hhash2 in Hin.
      * unfold shadows, gfn_indirect_valid, is_obsolete_sp, al_shadow, pw_shadow in *. destruct (ZapProps.fr_rest _ _ _ F) as (_ & Hgen & _).
        rewrite Hgen, (fr_pages _ _ _ F), (fr_ext _ _ _ F), !decide_False in Hs by apply Hin. exact Hs.
    + intros p o Ho%Hfo. unfold al_page_of in *. rewrite Hh2 in Ho. exact (lighter_owner _ _ _ _ _ _ _ _ L2 Ho).
    + intros Hf. change (pw_flooded (pw2 <| pw_alloc := st |>)) with (pw_flooded pw2) in Hf.
      pose proof (cl_invalid _ _ _ (sw_cleared _ _ _ _ _ _ S Hf)) as Hc. rewrite Ez in Hc. change (pw_alloc pw1) with st1 in Hc.
      rewrite (tu_lists _ _ Tu) in Hc. change (zs_invalid _) with (zs_invalid (al_zap (pw_alloc pw))) in Hc. rewrite Hi in Hc. done.
Qed.
End Write.

(* ------------------------------------------------------------------ *)
(** ** Examples *)

(** The second directory entry of a 32-bit guest, in the first quadrant. *)
Lemma get_written_sptes_exact_witness :
  match get_written_sptes (tree_page 2 2) (zero_ext) 0x5004 with
  | None => False
  | Some (i, n) => shadows_gpte (tree_page 2 2) zero_ext 0x5004 3 ↔ i <= 3 < i + Z.of_nat n
  end.
Proof.
  pose proof (get_written_sptes_exact (tree_page 2 2) zero_ext 0x5004 3) as H. cbn [get_written_sptes] in *.
  destruct (get_written_sptes (tree_page 2 2) zero_ext 0x5004) as [[i n]|] eqn:E.
  - apply H; [cbn; lia|intros _; vm_compute; discriminate|]. change PT64_ENT_PER_PAGE with 512. lia.
  - vm_compute in E. discriminate.
Defined.

Lemma write_misaligned_exact_witness : detect_write_misaligned zero_ext 0x5008 4 = false.
Proof. apply (write_misaligned_exact zero_ext 0x5008 4); [lia|]. right. split; [lia|]. reflexivity. Defined.

(** The example tree with the last page a table of the guest, at frame 5. *)
Definition guest_page : mmu_page :=
  {| sp_spt := 0x3000; sp_gfn := 5; sp_gfns := replicate 512 0; role_level := 1; role_direct := false; role_smm := false |}.

Definition guest_shadow : shadow_state :=
  map_tree <| ss_track ::= λ t, t <| tk_mmu ::= λ m, m <| pages ::= <[3 := guest_page]> |> |> <| indirect_shadow_pages := 1 |> |>
           <| ss_hash := {[ 5 := [3] ]} |>.

Definition guest_tree : alloc_state := alloc_tree <| al_zap ::= λ z, z <| zs_shadow := guest_shadow |> |>.

Lemma guest_sps (a : Z) (sp : mmu_page) :
  (mmu guest_shadow).(pages) !! a = Some sp → (a = 1 ∧ sp = tree_page 1 3) ∨ (a = 2 ∧ sp = tree_page 2 2) ∨ (a = 3 ∧ sp = guest_page).
Proof.
  change (pages (mmu guest_shadow)) with (<[3 := guest_page]> (pages (mmu map_tree))).
  intros [[<- <-]|[Hne [H|[H|[H _]]]%tree_sps]]%lookup_insert_Some; auto. by subst.
Qed.

Lemma guest_owner (p : Z) :
  owner_of (K := kvm_pte_x86) x86_masks tree_header tree_page_of tree_slot guest_shadow p
  = owner_of (K := kvm_pte_x86) x86_masks tree_header tree_page_of tree_slot map_tree p.
Proof.
  destruct (owner_of _ _ _ _ map_tree p) as [o|] eqn:E.
  - apply tree_owner in E as [[-> ->]|[-> ->]]; vm_compute; reflexivity.
  - destruct (owner_of _ _ _ _ guest_shadow p) as [o|] eqn:E'; [|done]. exfalso.
    destruct (owner_elim _ _ _ _ _ _ _ E') as (sp & Hsp & Hp & Hpr & Hv).
    change (ptes (mmu guest_shadow) p) with (if p =? 0x1000 then 0x2007 else if (p =? 0x2000) && true then 0x3007 else 0) in Hpr, Hv.
    destruct (Z.eqb_spec p 0x1000) as [->|H1]; [vm_compute in E; discriminate|].
    destruct (Z.eqb_spec p 0x2000) as [->|H2]; [vm_compute in E; discriminate|]. discriminate.
Qed.

Lemma guest_account : is_Some (unaccount_shadowed (T := kvm_track) tree_role_slot guest_page (ss_track guest_shadow)).
Proof. eexists. vm_compute. reflexivity. Qed.

Lemma guest_levels :
  levels_ok (K := kvm_pte_x86) (T := kvm_track) x86_masks tree_header tree_page_of tree_slot tree_role_slot tree_level guest_shadow.
Proof.
  destruct tree_levels as [V1 V2 V3 V4]. split.
  - intros a sp [[-> ->]|[[-> ->]|[-> ->]]]%guest_sps; (split; [done|]); change (Z.of_nat tree_level) with 5; cbn [tree_page guest_page role_level]; lia.
  - intros p a sp sc. rewrite guest_owner. intros [[-> [= ->]]|[-> [= ->]]]%tree_owner [[Ea ->]|[[Ea ->]|[Ea ->]]]%guest_sps [[Eb ->]|[[Eb ->]|[Eb ->]]]%guest_sps;
      vm_compute in Ea; done.
  - intros a sp x _ [[-> ->]|[[-> ->]|[-> ->]]]%tree_pages; by cbn.
  - intros a sp [[-> ->]|[[-> ->]|[-> ->]]]%guest_sps; [done|done|intros _; apply guest_account].
Qed.

Lemma guest_tables :
  shadow_ok (K := kvm_pte_x86) x86_masks tree_header tree_page_of tree_slot map_lists (λ _, []) guest_shadow.
Proof.
  destruct map_tree_ok as [L [E1 E2 E3 E4 E5] C U]. split; [apply (lists_same _ _ map_tree); done| |exact C|].
  - split.
    + intros a sp [[-> ->]|[[-> ->]|[-> ->]]]%guest_sps; [by apply (E1 1)|by apply (E1 2)|].
      destruct (E1 3 (tree_page 3 1) eq_refl) as [P1 P2 P3]. split; [exact P1|exact P2|by intros _].
    + intros a. change (ss_ext guest_shadow) with (ss_ext map_tree). rewrite <- E2.
      change (pages (mmu guest_shadow)) with (<[3 := guest_page]> (pages (mmu map_tree))). destruct (decide (a = 3)) as [->|Hne].
      * rewrite lookup_insert_eq. split; intros _; by eexists.
      * by rewrite lookup_insert_ne.
    + intros o p Hl. rewrite guest_owner. by apply E3.
    + intros o p. rewrite guest_owner. apply E4.
    + exact E5.
  - intros a x p Ha Hx Hn Hp. destruct (U a x p Ha Hx Hn Hp) as (sp & y & Hsp & Hy & Hb). exists sp, y. split; [|done].
    assert (Ho : owner_of (K := kvm_pte_x86) x86_masks tree_header tree_page_of tree_slot map_tree p = Some (Pg a)).
    { apply (E3 (Pg a) p); [by eexists|done]. }
    change (pages (mmu guest_shadow)) with (<[3 := guest_page]> (pages (mmu map_tree))).
    apply tree_owner in Ho as [[-> _]|[-> _]]; rewrite lookup_insert_ne; done.
Qed.

Lemma guest_tree_ok : alloc_ok (K := kvm_pte_x86) (T := kvm_track) x86_masks (λ p, p) tree_slot tree_role_slot tree_level guest_tree.
Proof.
  destruct alloc_tree_ok as [[_ _ P3 P4 P5 P6] L [C1 C2 C3] H D]. split.
  - split; [|exact guest_levels|exact P3|exact P4|intros a ?%elem_of_nil; done|exact P6]. exists map_lists, (λ _, []). exact guest_tables.
  - intros p b sp Ho Hsp. change (al_shadow guest_tree) with guest_shadow in *.
    assert (Ho' : owner_of (K := kvm_pte_x86) x86_masks tree_header tree_page_of tree_slot guest_shadow p = Some (Pg b)) by exact Ho.
    rewrite guest_owner in Ho'. apply tree_owner in Ho' as [[-> [= ->]]|[-> [= ->]]];
      apply guest_sps in Hsp as [[? ->]|[[? ->]|[? ->]]]; try done; vm_compute; reflexivity.
  - change (al_shadow guest_tree) with guest_shadow. split; change (al_shadow guest_tree) with guest_shadow; [|exact C2|].
    + split; [apply C1|]. intros a Ha. cbn in Ha. rewrite !elem_of_cons, elem_of_nil in Ha.
      destruct (pages (mmu guest_shadow) !! a) eqn:E; [|split; [lia|done]]. exfalso. apply guest_sps in E as [[-> _]|[[-> _]|[-> _]]]; lia.
    + intros b sp [[-> ->]|[[-> ->]|[-> ->]]]%guest_sps; (split; [|by apply (bool_decide_unpack _)]);
        [apply (small_table 1)|apply (small_table 2)|apply (small_table 3)]; lia.
  - intros i l a Hl Ha. change (ss_hash (al_shadow guest_tree)) with ({[ 5 := [3] ]} : gmap Z (list Z)) in Hl.
    apply lookup_singleton_Some in Hl as [_ <-]. apply list_elem_of_singleton in Ha as ->. by eexists.
  - intros a sp x _ Hx _. apply tree_pages in Hx as [[-> ->]|[[-> ->]|[-> ->]]]; done.
Qed.

Definition guest_write : write_state := {| pw_alloc := guest_tree; pw_pte_write := 0; pw_flooded := 0; pw_pde_zapped := 0; pw_pte_updated := 0 |}.

Lemma guest_fresh : fresh_memory (some_objects 0x100000 16) (some_objects 0x20000 0x1000) (some_objects 100 1) guest_tree.
Proof.
  destruct tree_fresh as [[F1 F1'] [F2 F2'] [F3 F3']]. split; split; try done.
  - intros q Hq. destruct (F2' q Hq) as (G1 & G2 & G3). split; [done|]. split; [done|]. intros b sp Hb.
    assert (∃ sp', pages (mmu (al_shadow alloc_tree)) !! b = Some sp' ∧ sp_spt sp' = sp_spt sp) as (sp' & Hb' & <-); [|by apply (G3 b)].
    apply guest_sps in Hb as [[-> ->]|[[-> ->]|[-> ->]]]; [by exists (tree_page 1 3)|by exists (tree_page 2 2)|by exists (tree_page 3 1)].
  - intros a Ha. destruct (F3' a Ha) as (G1 & G2 & G3). split; [done|]. split; [done|].
    destruct (pages (mmu (al_shadow guest_tree)) !! a) eqn:E; [|done]. exfalso.
    apply guest_sps in E as [[-> _]|[[-> _]|[-> _]]]; vm_compute in G3; discriminate.
Qed.

(** Eight zero bytes to the second entry of the guest's table. *)
Lemma pte_write_clears_witness :
  ∃ pw', vmrun_mmu_pte_write (K := kvm_pte_x86) (T := kvm_track) x86_masks map_x86 (λ p, p) tree_slot tree_role_slot tree_level (direct_vcpu 3) 40
           (λ _, None) (λ _ _ _ st, Some st) 0 0x5008 (replicate 8 0) 8
           (some_objects 0x100000 16) (some_objects 0x20000 0x1000) (some_objects 100 1) guest_write = Some pw' ∧
    pw'.(pw_alloc).(al_zap).(zs_invalid) = [].
Proof.
  destruct (pte_write_clears (K := kvm_pte_x86) (T := kvm_track) x86_masks map_x86 (λ p, p) tree_slot tree_role_slot tree_level (direct_vcpu 3)
              (λ _, None) (λ _ _ _ st, Some st) 0 tree_room 40 0x5008 8 0x5008 8 (replicate 8 0)
              (some_objects 0x100000 16) (some_objects 0x20000 0x1000) (some_objects 100 1) guest_write guest_tree_ok eq_refl)
    as (pw' & E & _ & Hi & _).
  - vm_compute. discriminate.
  - vm_compute. reflexivity.
  - exact guest_fresh.
  - vm_compute. lia.
  - intros a sp x _ _ Hx. apply tree_pages in Hx as [[-> ->]|[[-> ->]|[-> ->]]]; discriminate.
  - exists pw'. split; [exact E|exact Hi].
Defined.
