(* ===== verification/MmuFault.v ===== *)
(** * Page faults: the path with the lock

    kernel/mmu.c: [__direct_map] builds the tables down to the level of a
    mapping; [nonpaging_map] and [tdp_page_fault] look up the host frame
    without the lock and map it under the lock; [vmrun_mmu_page_fault] decides
    between mapping, MMIO and emulation.

    A fault runs in two sections: before the lock is taken it reads tables and
    host page tables that change; [others] is what happened to the shadow
    tables before the lock is taken.  Linux's and KVM's parts (the frame of a
    guest frame, asynchronous faults, the emulator) are the fields of
    [fault_env]. *)

From S2P Require Import Prelude.
From S2P Require Import Spte.
From S2P Require Import Memslots.
From S2P Require Import MemRegion.
From S2P Require Import PteList.
From S2P Require Import Rmap.
From S2P Require Import SlotWalk.
From S2P Require Import GuestPaging.
From S2P Require Import PageTrack.
From S2P Require Import FastFault.
From S2P Require Import ShadowPage.
From S2P Require Import SetSpte.
From S2P Require Import ZapPage.
From S2P Require Import GetPage.

(** The state of a VCPU in a fault. *)
Record fault_state := {
  fa_alloc : alloc_state;
  fa_dirty : list Z;                       (* frames marked dirty *)
  fa_released : list Z;                    (* vmrun_release_pfn_clean *)
  fa_got : list Z;                         (* vmrun_get_pfn *)
  fa_pf_fixed : Z;                         (* stat.pf_fixed *)
  fa_mmio : option (Z * Z * Z);            (* vcpu_cache_mmio_info *)
  fa_poison : list Z;                      (* addresses reported with SIGBUS *)
  fa_apf_id : Z;                           (* arch.apf.id *)
  fa_apf : list (Z * Z * bool * Z);        (* asynchronous faults set up: token, gfn, direct_map, cr3 *)
  fa_gpa : option Z;                       (* arch.gpa_val when gpa_available *)
  fa_mmio_exits : Z                        (* stat.mmio_exits *)
}.
#[export] Instance eta_fault_state : Eta fault_state := λ r,
  {| fa_alloc := r.(fa_alloc); fa_dirty := r.(fa_dirty); fa_released := r.(fa_released); fa_got := r.(fa_got);
     fa_pf_fixed := r.(fa_pf_fixed); fa_mmio := r.(fa_mmio); fa_poison := r.(fa_poison); fa_apf_id := r.(fa_apf_id);
     fa_apf := r.(fa_apf); fa_gpa := r.(fa_gpa); fa_mmio_exits := r.(fa_mmio_exits) |}.

Definition fa_shadow (fa : fault_state) : shadow_state := al_shadow fa.(fa_alloc).
Definition upd_alloc (f : alloc_state → alloc_state) (fa : fault_state) : fault_state := fa <| fa_alloc ::= f |>.

(** An operation of SetSpte on the state of a fault. *)
Definition on_map {A : Type} (f : map_state → option (A * map_state)) (fa : fault_state) : option (A * fault_state) :=
  '(r, m) ← f {| ms_shadow := fa_shadow fa; ms_dirty := fa.(fa_dirty); ms_requests := 0; ms_released := fa.(fa_released) |};
  let fa := fa <| fa_dirty := m.(ms_dirty) |> <| fa_released := m.(ms_released) |> in
  Some (r, upd_alloc (λ st, (upd_shadow (λ _, m.(ms_shadow)) st)
                              <| al_requests ::= λ l, replicate (Z.to_nat m.(ms_requests)) KVM_REQ_TLB_FLUSH ++ l |>) fa).

(** What [vmrun_gfn_to_pfn] gives: the frame, whether it may be written, and
    whether it has to be waited for. *)
Record host_frame := { hf_pfn : Z; hf_writable : bool; hf_async : bool }.

Record fault_env := {
  fe_frame : Z → bool → host_frame;        (* __gfn_to_pfn_memslot, asynchronous *)
  fe_frame_wait : Z → bool → host_frame;   (* the same, waiting *)
  fe_is_error : Z → bool;                  (* is_error_pfn *)
  fe_error_noslot : Z → bool;              (* is_error_noslot_pfn *)
  fe_reserved : Z → bool;                  (* vmrun_is_reserved_pfn *)
  fe_trans_compound : Z → bool;            (* PageTransCompoundMap *)
  fe_hva : Z → Z;                          (* vmrun_vcpu_gfn_to_hva *)
  fe_lapic_in_kernel : bool;
  fe_needs_reinjection : bool;             (* vmrun_event_needs_reinjection *)
  fe_delivery_as_vmexit : bool;
  fe_guest_mode : bool;                    (* is_guest_mode *)
  fe_interrupt_allowed : bool;
  fe_find_apf : Z → bool;                  (* vmrun_find_async_pf_gfn *)
  fe_setup_apf : bool;                     (* vmrun_setup_async_pf *)
  fe_vcpu_id : Z;
  fe_cr3 : Z;
  fe_mtrr : Z → Z → bool;                  (* vmrun_mtrr_check_gfn_range_consistency *)
  fe_retry : bool                          (* mmu_notifier_retry, under the lock *)
}.

(** The emulator's result, and the kind of emulation that is asked for. *)
Inductive emulation_result := EMULATE_DONE | EMULATE_USER_EXIT | EMULATE_FAIL.
Inductive emulation_type := EMULTYPE_RETRY | EMULTYPE_NONE.

Section Fault.
Context `{K : KvmPte} `{T : KvmTrack} (g : shadow_masks) (env : map_env) (va pa : Z → Z).
Context (gfn_to_memslot : bool → Z → vmrun_memory_slot) (role_gfn_to_memslot : bool → Z → option vmrun_memory_slot)
        (vcpu_gfn_to_memslot : Z → option vmrun_memory_slot).
Context (PT64_ROOT_MAX_LEVEL : nat).
Context (vp : vcpu_paging) (sync_page : Z → alloc_state → option (Z * alloc_state)) (page_content : Z → list Z).
Context (KVM_MIN_FREE_MMU_PAGES KVM_REFILL_PAGES KVM_PFN_ERR_RO_FAULT KVM_PFN_ERR_HWPOISON : Z).
(** [vcpu->arch.mmu] and its [pae_root]. *)
Context (ctx : mmu_context) (pae_root : list Z).

Notation vmrun_mmu_get_page := (vmrun_mmu_get_page g env va gfn_to_memslot role_gfn_to_memslot vcpu_gfn_to_memslot
                                  PT64_ROOT_MAX_LEVEL vp sync_page page_content).

(** The tables as the code with the lock reads them. *)
Definition locked_walk (fa : fault_state) : walk_env :=
  {| we_mmu := ctx; we_pae_root := pae_root; we_va := va;
     we_page := λ p, default {| sp_spt := 0; sp_gfn := 0; sp_gfns := []; role_level := 0; role_direct := false; role_smm := false |}
                             ((mmu (fa_shadow fa)).(pages) !! fa.(fa_alloc).(al_header) p);
     we_mem := λ _, (mmu (fa_shadow fa)).(ptes) |}.

(** ** Building the tables *)

(** The entry at the level of the mapping. *)
Definition direct_map_leaf (sptep : Z) (write map_writable : bool) (level gfn pfn : Z) (prefault : bool) (fa : fault_state)
    : option (bool * fault_state) :=
  let ph := fa.(fa_alloc).(al_header) in
  let po := al_page_of va fa.(fa_alloc) in
  '(emulate, fa) ← on_map (mmu_set_spte g env ph po gfn_to_memslot vcpu_gfn_to_memslot sptep ACC_ALL write level gfn pfn prefault map_writable) fa;
  '(_, fa) ← on_map (λ m, m ← direct_pte_prefetch g env ph po gfn_to_memslot vcpu_gfn_to_memslot sptep m; Some (tt, m)) fa;
  Some (emulate, fa <| fa_pf_fixed ::= λ n, n + 1 |>).

(** An entry above it: a table is there afterwards. *)
Definition direct_map_table (addr it_level sptep : Z) (fa : fault_state) : option fault_state :=
  let ph := fa.(fa_alloc).(al_header) in
  m ← drop_large_spte g ph gfn_to_memslot sptep (mmu (fa_shadow fa));
  let fa := upd_alloc (upd_shadow (set_mmu m)) fa in
  if is_shadow_present_pte g ((mmu (fa_shadow fa)).(ptes) sptep) then Some fa
  else
    let pseudo_gfn := Z.shiftr (Z.land addr (PT64_LVL_ADDR_MASK it_level)) PAGE_SHIFT in
    '(a, st) ← vmrun_mmu_get_page pseudo_gfn addr (it_level - 1) true ACC_ALL fa.(fa_alloc);
    s ← link_shadow_page g st.(al_header) pa sptep a (al_shadow st);
    Some (fa <| fa_alloc := upd_shadow (λ _, s) st |>).

(** [for_each_shadow_entry]; the level falls in every pass. *)
Fixpoint direct_map_loop (fuel : nat) (it : shadow_walk_iterator) (write map_writable : bool) (level gfn pfn : Z) (prefault : bool)
    (fa : fault_state) : option (bool * fault_state) :=
  match fuel with
  | O => None
  | S fuel =>
      match shadow_walk_okay (locked_walk fa) it with
      | None => Some (false, fa)
      | Some it =>
          sptep ← it.(it_sptep);
          if it.(it_level) =? level then direct_map_leaf sptep write map_writable level gfn pfn prefault fa
          else
            fa ← direct_map_table it.(it_addr) it.(it_level) sptep fa;
            let it := __shadow_walk_next ((mmu (fa_shadow fa)).(ptes) sptep) it in
            direct_map_loop fuel it write map_writable level gfn pfn prefault fa
      end
  end.

Definition __direct_map (write map_writable : bool) (level gfn pfn : Z) (prefault : bool) (fa : fault_state)
    : option (bool * fault_state) :=
  if negb (VALID_PAGE ctx.(ctx_root_hpa)) then Some (false, fa)
  else
    let it := shadow_walk_init (locked_walk fa) (u64 (Z.shiftl gfn PAGE_SHIFT)) in
    direct_map_loop (walk_fuel it) it write map_writable level gfn pfn prefault fa.

(** ** Host frames *)

Context (fe : fault_env).

Definition vmrun_send_hwpoison_signal (address : Z) (fa : fault_state) : fault_state := fa <| fa_poison ::= cons address |>.

Definition vmrun_handle_bad_page (gfn pfn : Z) (fa : fault_state) : Z * fault_state :=
  if pfn =? KVM_PFN_ERR_RO_FAULT then (1, fa)
  else if pfn =? KVM_PFN_ERR_HWPOISON then (0, vmrun_send_hwpoison_signal (fe.(fe_hva) gfn) fa)
  else (- EFAULT, fa).

(** [None]: the VM_BUG_ON.  The frame, the guest frame and the level change
    together. *)
Definition transparent_hugepage_adjust (gfn pfn level : Z) (fa : fault_state) : option (Z * Z * Z * fault_state) :=
  huge ← (if negb (fe.(fe_error_noslot) pfn) && negb (fe.(fe_reserved) pfn) && (level =? PT_PAGE_TABLE_LEVEL) && fe.(fe_trans_compound) pfn
          then disallowed ← mmu_gfn_lpage_is_disallowed vcpu_gfn_to_memslot gfn PT_DIRECTORY_LEVEL (fa_shadow fa).(ss_track).(tk_heap);
               Some (negb disallowed)
          else Some false);
  if huge : bool then
    let level := PT_DIRECTORY_LEVEL in
    let mask := VMRUN_PAGES_PER_HPAGE level - 1 in
    if negb (Z.land gfn mask =? Z.land pfn mask) then None
    else if truth (Z.land pfn mask) then
      let gfn := Z.land gfn (not64 mask) in
      let fa := fa <| fa_released ::= λ l, l ++ [pfn] |> in
      let pfn := Z.land pfn (not64 mask) in
      Some (gfn, pfn, level, fa <| fa_got ::= λ l, l ++ [pfn] |>)
    else Some (gfn, pfn, level, fa)
  else Some (gfn, pfn, level, fa).

(** [Some r]: the caller returns [r]. *)
Definition handle_abnormal_pfn (gva gfn pfn access : Z) (fa : fault_state) : option Z * fault_state :=
  if fe.(fe_is_error) pfn then let '(r, fa) := vmrun_handle_bad_page gfn pfn fa in (Some r, fa)
  else (None, if env.(me_noslot) pfn then fa <| fa_mmio := Some (gva, gfn, access) |> else fa).

Definition vmrun_arch_setup_async_pf (gfn : Z) (fa : fault_state) : bool * fault_state :=
  let token := Z.lor (u32 (Z.shiftl fa.(fa_apf_id) 12)) fe.(fe_vcpu_id) in
  let fa := fa <| fa_apf_id ::= λ n, u32 (n + 1) |> in
  (fe.(fe_setup_apf), fa <| fa_apf ::= cons (token, gfn, vp.(vp_direct_map), fe.(fe_cr3)) |>).

Definition vmrun_can_do_async_pf : bool :=
  if negb fe.(fe_lapic_in_kernel) || fe.(fe_needs_reinjection) then false
  else if negb fe.(fe_delivery_as_vmexit) && fe.(fe_guest_mode) then false
  else fe.(fe_interrupt_allowed).

(** The returned bool, the frame and whether it may be written. *)
Definition try_async_pf (prefault : bool) (gfn : Z) (write : bool) (fa : fault_state) : bool * Z * bool * fault_state :=
  let f := fe.(fe_frame) gfn write in
  if negb f.(hf_async) then (false, f.(hf_pfn), f.(hf_writable), fa)
  else
    let wait fa := let f := fe.(fe_frame_wait) gfn write in (false, f.(hf_pfn), f.(hf_writable), fa) in
    if negb prefault && vmrun_can_do_async_pf then
      if fe.(fe_find_apf) gfn then (true, f.(hf_pfn), f.(hf_writable), upd_alloc (vmrun_make_request KVM_REQ_APF_HALT) fa)
      else
        let '(ok, fa) := vmrun_arch_setup_async_pf gfn fa in
        if ok : bool then (true, f.(hf_pfn), f.(hf_writable), fa) else wait fa
    else wait fa.

(** ** The faults *)

(** The lockless walk before, what happens until the lock is taken, and the
    pages of the host. *)
Context (walk : walk_env) (others : fault_state → fault_state).
Context (host_page_size : Z → Z) (get_lpage_level : Z).

(** Under the lock. *)
Definition map_locked (write map_writable force_pt_level : bool) (level gfn pfn : Z) (prefault : bool) (fa : fault_state)
    : option (Z * fault_state) :=
  let out_unlock fa := Some (0, fa <| fa_released ::= λ l, l ++ [pfn] |>) in
  if fe.(fe_retry) then out_unlock fa
  else
    '(e, st) ← make_mmu_pages_available g va gfn_to_memslot role_gfn_to_memslot PT64_ROOT_MAX_LEVEL
                 KVM_MIN_FREE_MMU_PAGES KVM_REFILL_PAGES fa.(fa_alloc);
    let fa := fa <| fa_alloc := st |> in
    if e <? 0 then out_unlock fa
    else
      '(gfn, pfn, level, fa) ← (if negb force_pt_level then transparent_hugepage_adjust gfn pfn level fa
                                else Some (gfn, pfn, level, fa));
      '(emulate, fa) ← __direct_map write map_writable level gfn pfn prefault fa;
      Some (b2z emulate, fa).

(** What the fast path stored and reported. *)
Definition fast_done (r : fault_result) (fa : fault_state) : fault_state :=
  let fa := match r.(fr_write) with
            | Some w => upd_alloc (upd_shadow (upd_mmu (λ m, m <| ptes ::= set_pte w.(sw_sptep) w.(sw_new) |>))) fa
            | None => fa
            end in
  let fa := upd_alloc (upd_shadow (upd_mmu (λ m, m <| events ::= λ l, l ++ r.(fr_warns) |>))) fa in
  match r.(fr_dirty) with Some gfn => fa <| fa_dirty ::= λ l, l ++ [gfn] |> | None => fa end.

(** From the fast path on: [addr] is the address that is looked up without the
    lock, [gva] the one that is recorded for MMIO. *)
Definition map_frame (addr gva error_code : Z) (force_pt_level : bool) (level gfn : Z) (prefault : bool)
    (c : lockless_ctx) (fa : fault_state) : option (Z * fault_state) :=
  '(fast, _) ← fast_page_fault g walk addr level error_code c;
  let fa := fast_done fast fa in
  if fast.(fr_handled) then Some (0, fa)
  else
    let write := truth (Z.land error_code PFERR_WRITE_MASK) in
    let '(async, pfn, map_writable, fa) := try_async_pf prefault gfn write fa in
    if async : bool then Some (0, fa)
    else
      let '(r, fa) := handle_abnormal_pfn gva gfn pfn ACC_ALL fa in
      match r with
      | Some r => Some (r, fa)
      | None => map_locked write map_writable force_pt_level level gfn pfn prefault (others fa)
      end.

Definition nonpaging_map (v error_code gfn : Z) (prefault : bool) (c : lockless_ctx) (fa : fault_state) : option (Z * fault_state) :=
  '(level, force_pt_level) ← mapping_level vcpu_gfn_to_memslot host_page_size get_lpage_level gfn false (fa_shadow fa).(ss_track).(tk_heap);
  let '(level, gfn) := if negb force_pt_level then
                         let level := if level >? PT_DIRECTORY_LEVEL then PT_DIRECTORY_LEVEL else level in
                         (level, Z.land gfn (not64 (VMRUN_PAGES_PER_HPAGE level - 1)))
                       else (level, gfn) in
  map_frame v v error_code force_pt_level level gfn prefault c fa.

(** What [mmu_topup_memory_caches] finds. *)
Context (capacity : nat) (descs pages headers : list (option Z)).

Definition topup (fa : fault_state) : Z * fault_state :=
  let '(r, st) := mmu_topup_memory_caches capacity descs pages headers fa.(fa_alloc) in (r, fa <| fa_alloc := st |>).

Definition handle_page_track (error_code gfn : Z) (fa : fault_state) : option (bool * fault_state) :=
  '(b, tk) ← page_fault_handle_page_track vcpu_gfn_to_memslot error_code gfn (fa_shadow fa).(ss_track);
  Some (b, upd_alloc (upd_shadow (λ s, s <| ss_track := tk |>)) fa).

Definition nonpaging_page_fault (gva error_code : Z) (prefault : bool) (c : lockless_ctx) (fa : fault_state) : option (Z * fault_state) :=
  let gfn := Z.shiftr gva PAGE_SHIFT in
  '(tracked, fa) ← handle_page_track error_code gfn fa;
  if tracked : bool then Some (1, fa)
  else
    let '(r, fa) := topup fa in
    if truth r then Some (r, fa)
    else nonpaging_map (Z.land gva (not64 (PAGE_SIZE - 1))) error_code gfn prefault c fa.

Definition check_hugepage_cache_consistency (gfn level : Z) : bool :=
  let page_num := VMRUN_PAGES_PER_HPAGE level in
  fe.(fe_mtrr) (Z.land gfn (not64 (page_num - 1))) page_num.

Definition tdp_page_fault (gpa error_code : Z) (prefault : bool) (c : lockless_ctx) (fa : fault_state) : option (Z * fault_state) :=
  let gfn := Z.shiftr gpa PAGE_SHIFT in
  '(tracked, fa) ← handle_page_track error_code gfn fa;
  if tracked : bool then Some (1, fa)
  else
    let '(r, fa) := topup fa in
    if truth r then Some (r, fa)
    else
      let force_pt_level := negb (check_hugepage_cache_consistency gfn PT_DIRECTORY_LEVEL) in
      '(level, force_pt_level) ← mapping_level vcpu_gfn_to_memslot host_page_size get_lpage_level gfn force_pt_level (fa_shadow fa).(ss_track).(tk_heap);
      let '(level, gfn) := if negb force_pt_level then
                             let level := if (level >? PT_DIRECTORY_LEVEL) && negb (check_hugepage_cache_consistency gfn level)
                                          then PT_DIRECTORY_LEVEL else level in
                             (level, Z.land gfn (not64 (VMRUN_PAGES_PER_HPAGE level - 1)))
                           else (level, gfn) in
      map_frame gpa 0 error_code force_pt_level level gfn prefault c fa.

(** ** The dispatch *)

(** [arch.mmu.page_fault]; the emulator ([None]: it returns no known result,
    the BUG); [mmu_is_nested] and the MMIO cache of the VCPU. *)
Context (page_fault : Z → Z → bool → lockless_ctx → fault_state → option (Z * fault_state)).
Context (x86_emulate_instruction : Z → emulation_type → fault_state → option (emulation_result * fault_state)).
Context (mmu_is_nested : bool) (match_mmio_gpa match_mmio_gva : Z → bool) (PFERR_NESTED_GUEST_PAGE : Z).

Definition emulate (cr2 : Z) (type : emulation_type) (fa : fault_state) : option (Z * fault_state) :=
  '(er, fa) ← x86_emulate_instruction cr2 type fa;
  match er with
  | EMULATE_DONE => Some (1, fa)
  | EMULATE_USER_EXIT => Some (0, fa <| fa_mmio_exits ::= λ n, n + 1 |>)
  | EMULATE_FAIL => Some (0, fa)
  end.

Definition unprotect (gfn : Z) (fa : fault_state) : option (Z * fault_state) :=
  let st := fa.(fa_alloc) in
  '(zs, r) ← vmrun_mmu_unprotect_page g st.(al_header) (al_page_of va st) gfn_to_memslot role_gfn_to_memslot PT64_ROOT_MAX_LEVEL env gfn st.(al_zap);
  Some (r, fa <| fa_alloc := st <| al_zap := zs |> |>).

(** After the fault on an MMIO entry was ruled out. *)
Definition fault_or_emulate (cr2 error_code : Z) (direct : bool) (c : lockless_ctx) (fa : fault_state) : option (Z * fault_state) :=
  '(r, fa) ← page_fault cr2 (u32 error_code) false c fa;
  if r <? 0 then Some (r, fa)
  else if negb (truth r) then Some (1, fa)
  else if vp.(vp_direct_map) && (Z.land error_code PFERR_NESTED_GUEST_PAGE =? PFERR_NESTED_GUEST_PAGE) then
    '(_, fa) ← unprotect (Z.shiftr cr2 PAGE_SHIFT) fa; Some (1, fa)
  else
    emulate cr2 (if mmio_info_in_cache mmu_is_nested match_mmio_gpa match_mmio_gva cr2 direct then EMULTYPE_NONE else EMULTYPE_RETRY) fa.

Definition vmrun_mmu_page_fault (cr2 error_code : Z) (c : lockless_ctx) (fa : fault_state) : option (Z * fault_state) :=
  let direct := vp.(vp_direct_map) in
  let fa := if direct then fa <| fa_gpa := Some cr2 |> else fa in
  if truth (Z.land error_code PFERR_RSVD_MASK) then
    '(r, info, c) ← handle_mmio_page_fault g walk mmu_is_nested match_mmio_gpa match_mmio_gva env.(me_generation) cr2 direct c;
    let fa := match info with Some i => fa <| fa_mmio := Some i |> | None => fa end in
    if r =? RET_MMIO_PF_EMULATE then emulate cr2 EMULTYPE_NONE fa
    else if r =? RET_MMIO_PF_RETRY then Some (1, fa)
    else if r <? 0 then Some (r, fa)
    else fault_or_emulate cr2 error_code direct c fa
  else fault_or_emulate cr2 error_code direct c fa.

(** [vmrun_mmu_gva_to_gpa_read]. *)
Context (gva_to_gpa_read : Z → Z).

Definition vmrun_mmu_unprotect_page_virt (gva : Z) (fa : fault_state) : option (Z * fault_state) :=
  if vp.(vp_direct_map) then Some (0, fa) else unprotect (Z.shiftr (gva_to_gpa_read gva) PAGE_SHIFT) fa.

(** [arch.apf.host_apf_reason]; the two reasons of Linux's paravirtual
    interface, and what [vmrun_async_pf_task_wait] and [_wake] were called for. *)
Inductive apf_reason := APF_NONE | KVM_PV_REASON_PAGE_NOT_PRESENT | KVM_PV_REASON_PAGE_READY.
Record apf_state := { ap_reason : apf_reason; ap_waits : list Z; ap_wakes : list Z }.

Definition vmrun_handle_page_fault (error_code fault_address : Z) (need_unprotect : bool) (c : lockless_ctx) (ap : apf_state) (fa : fault_state)
    : option (Z * apf_state * fault_state) :=
  match ap.(ap_reason) with
  | APF_NONE =>
      fa ← (if need_unprotect && fe.(fe_needs_reinjection) then '(_, fa) ← vmrun_mmu_unprotect_page_virt fault_address fa; Some fa
            else Some fa);
      '(r, fa) ← vmrun_mmu_page_fault fault_address error_code c fa;
      Some (r, ap, fa)
  | KVM_PV_REASON_PAGE_NOT_PRESENT =>
      Some (1, {| ap_reason := APF_NONE; ap_waits := fault_address :: ap.(ap_waits); ap_wakes := ap.(ap_wakes) |}, fa)
  | KVM_PV_REASON_PAGE_READY =>
      Some (1, {| ap_reason := APF_NONE; ap_waits := ap.(ap_waits); ap_wakes := fault_address :: ap.(ap_wakes) |}, fa)
  end.
End Fault.
