(* ===== verification/DirectMapProps.v ===== *)
(** * Building a direct map: correctness

    A page fault of a guest with two-dimensional paging ends in
    [__direct_map], which goes down from the root, adds the tables that are
    missing and installs the leaf entry.  The invariant here is that of the
    tables of such a guest: besides everything of GetPageProps, a table covers
    the guest frames that the entry pointing to it stands for.  The theorem:
    the code's own walk, run afterwards, comes to an entry that maps the frame
    that was asked for. *)

From S2P Require Import Prelude.
From S2P Require Import Spte.
From S2P Require Import SpteTrack.
From S2P Require Import Memslots.
From S2P Require Import MemRegion.
From S2P Require Import MemRegionProps.
From S2P Require Import PteList.
From S2P Require Import PteListProps.
From S2P Require Import Rmap.
From S2P Require Import RmapProps.
From S2P Require Import SlotWalk.
From S2P Require Import GuestPaging.
From S2P Require Import PageTrack.
From S2P Require Import PageTrackProps.
From S2P Require Import FastFault.
From S2P Require Import ShadowPage.
From S2P Require Import ShadowPageProps.
From S2P Require Import MmuInv.
From S2P Require Import SetSpte.
From S2P Require Import SetSpteProps.
From S2P Require Import ZapPage.
From S2P Require Import ZapPageProps.
From S2P Require Import ZapUnsyncProps.
From S2P Require Import ZapProps.
From S2P Require Import GetPage.
From S2P Require Import GetPageProps.
From S2P Require Import MmuFault.

(* ------------------------------------------------------------------ *)
(** ** Frames and indexes *)

(** The first of the frames that a table of level [l] covers, [gfn] among them. *)
Definition table_gfn (gfn l : Z) : Z := Z.shiftl (Z.shiftr gfn (PT64_LEVEL_BITS * l)) (PT64_LEVEL_BITS * l).

(** The frame that entry [i] of a table stands for. *)
Definition child_gfn (sp : mmu_page) (i : Z) : Z := sp.(sp_gfn) + Z.shiftl i (PT64_LEVEL_BITS * (sp.(role_level) - 1)).

Lemma frame_index (gfn l : Z) :
  1 <= l → SHADOW_PT_INDEX (Z.shiftl gfn PAGE_SHIFT) l = Z.shiftr gfn (PT64_LEVEL_BITS * (l - 1)) mod PT64_ENT_PER_PAGE.
Proof.
  intros Hl. unfold SHADOW_PT_INDEX, PT64_INDEX, PT64_LEVEL_SHIFT. change (BIT PT64_LEVEL_BITS - 1) with (Z.ones 9).
  rewrite Z.land_ones by lia. change (2 ^ 9) with PT64_ENT_PER_PAGE. f_equal. change PT64_LEVEL_BITS with 9 in *. change PAGE_SHIFT with 12.
  apply Z.bits_inj'. intros i Hi. rewrite !Z.shiftr_spec, Z.shiftl_spec by lia. f_equal. lia.
Qed.

Lemma index_bound (addr l : Z) : 0 <= SHADOW_PT_INDEX addr l < PT64_ENT_PER_PAGE.
Proof.
  unfold SHADOW_PT_INDEX, PT64_INDEX. change (BIT PT64_LEVEL_BITS - 1) with (Z.ones 9). rewrite Z.land_ones by lia.
  apply Z.mod_pos_bound. done.
Qed.

(** Going down one level. *)
Lemma table_gfn_step (gfn l : Z) :
  1 <= l → table_gfn gfn l + Z.shiftl (SHADOW_PT_INDEX (Z.shiftl gfn PAGE_SHIFT) l) (PT64_LEVEL_BITS * (l - 1)) = table_gfn gfn (l - 1).
Proof.
  intros Hl. rewrite frame_index by done. unfold table_gfn. change PT64_LEVEL_BITS with 9 in *. change PT64_ENT_PER_PAGE with 512.
  rewrite !Z.shiftl_mul_pow2, !Z.shiftr_div_pow2 by lia. replace (2 ^ (9 * l)) with (2 ^ (9 * (l - 1)) * 512).
  - set (P := 2 ^ (9 * (l - 1))). assert (HP : 0 < P) by (apply Z.pow_pos_nonneg; lia).
    rewrite <- Z.div_div by lia. pose proof (Z.div_mod (gfn / P) 512 ltac:(lia)). nia.
  - change 512 with (2 ^ 9). rewrite <- Z.pow_add_r by lia. f_equal. lia.
Qed.

Lemma table_gfn_root (gfn l : Z) : 0 <= l → 0 <= gfn < 2 ^ (PT64_LEVEL_BITS * l) → table_gfn gfn l = 0.
Proof.
  intros Hl Hg. unfold table_gfn. change PT64_LEVEL_BITS with 9 in *. rewrite Z.shiftr_div_pow2, Z.div_small by lia. apply Z.shiftl_0_l.
Qed.

Lemma table_gfn_leaf (gfn l : Z) : 1 <= l → gfn mod 2 ^ (PT64_LEVEL_BITS * (l - 1)) = 0 → table_gfn gfn (l - 1) = gfn.
Proof.
  intros Hl Hg. unfold table_gfn. change PT64_LEVEL_BITS with 9 in *. rewrite Z.shiftl_mul_pow2, Z.shiftr_div_pow2 by lia.
  assert (0 < 2 ^ (9 * (l - 1))) by (apply Z.pow_pos_nonneg; lia).
  pose proof (Z.div_mod gfn (2 ^ (9 * (l - 1))) ltac:(lia)). lia.
Qed.

Section Frames.
Context `{K : KvmPte, KO : !KvmPteOk K}.

(** [pseudo_gfn] of [__direct_map]. *)
Lemma pseudo_gfn_eq (gfn l : Z) :
  1 <= l → frame_ok gfn → Z.shiftr (Z.land (Z.shiftl gfn PAGE_SHIFT) (PT64_LVL_ADDR_MASK l)) PAGE_SHIFT = table_gfn gfn (l - 1).
Proof using KO.
  intros Hl Hf. pose proof Hf as [_ Hm]. unfold PT64_LVL_ADDR_MASK. rewrite Z.land_assoc, Hm.
  replace (BIT (PAGE_SHIFT + (l - 1) * 9) - 1) with (Z.ones (PAGE_SHIFT + (l - 1) * 9))
    by (unfold BIT; rewrite Z.ones_equiv, Z.shiftl_1_l; lia).
  apply Z.bits_inj'. intros i Hi. unfold table_gfn. change PT64_LEVEL_BITS with 9.
  rewrite Z.shiftr_spec, Z.land_spec, not64_testbit, ones_testbit, !Z.shiftl_spec by (change PAGE_SHIFT with 12; lia).
  change PAGE_SHIFT with 12. replace (i + 12 - 12) with i by lia.
  destruct (Z.testbit gfn i) eqn:Eb; cbn [andb].
  - assert (Hr : 12 <= i + 12 < 52).
    { apply (frame_bits gfn); [done|lia|]. rewrite Z.shiftl_spec by lia. change PAGE_SHIFT with 12. by replace (i + 12 - 12) with i by lia. }
    rewrite (proj2 (Z.ltb_lt (i + 12) 64)) by lia. cbn [andb]. destruct (Z.ltb_spec (i + 12) (12 + (l - 1) * 9)) as [H|H]; cbn [negb].
    + symmetry. apply Z.testbit_neg_r. lia.
    + rewrite Z.shiftr_spec by lia. symmetry. rewrite <- Eb. f_equal. lia.
  - symmetry. destruct (Z.lt_ge_cases i (9 * (l - 1))); [apply Z.testbit_neg_r; lia|].
    rewrite Z.shiftr_spec by lia. rewrite <- Eb. f_equal. lia.
Qed.
End Frames.

(** The frame of a leaf entry of a direct page; the levels of leaves are at
    most 3, which keeps the shift inside an [int]. *)
Lemma leaf_gfn_eq (sp : mmu_page) (gfn l p : Z) :
  sp.(role_direct) = true → sp.(role_level) = l → 1 <= l <= 3 → 0 <= gfn < 2 ^ 40 → gfn mod 2 ^ (PT64_LEVEL_BITS * (l - 1)) = 0 →
  sp.(sp_gfn) = table_gfn gfn l → spte_index sp p = SHADOW_PT_INDEX (Z.shiftl gfn PAGE_SHIFT) l →
  vmrun_mmu_page_get_gfn sp (spte_index sp p) = Some gfn.
Proof.
  intros Hd Hlv Hl Hg Hm Hgfn Hi. unfold vmrun_mmu_page_get_gfn. rewrite Hd, Hlv, Hgfn, Hi. cbn [negb]. f_equal.
  pose proof (index_bound (Z.shiftl gfn PAGE_SHIFT) l) as Hb. change PT64_ENT_PER_PAGE with 512 in Hb.
  rewrite (Z.mul_comm (l - 1)). set (i := Z.shiftl _ (PT64_LEVEL_BITS * (l - 1))).
  assert (Hr : 0 <= i < 2 ^ 31).
  { unfold i. change PT64_LEVEL_BITS with 9. rewrite Z.shiftl_mul_pow2 by lia.
    assert (0 < 2 ^ (9 * (l - 1)) <= 2 ^ 18) by (split; [apply Z.pow_pos_nonneg; lia|apply Z.pow_le_mono_r; lia]). nia. }
  replace (s32 i) with i.
  - unfold i. rewrite table_gfn_step by lia. rewrite table_gfn_leaf by (done || lia). apply wrap_id. unfold is_u. lia.
  - symmetry. apply s32_id. lia.
Qed.

(* ------------------------------------------------------------------ *)
(** ** Linking a page to an entry that was clear *)

Section Link.
Context `{K : KvmPte, KO : !KvmPteOk K} (g : shadow_masks) (env : map_env) (page_header page_of pa : Z → Z)
        (gfn_to_memslot : bool → Z → vmrun_memory_slot) (LM : leaf_masks g env).

Notation shadow_ok := (shadow_ok g page_header page_of gfn_to_memslot).
Notation owner_of := (owner_of g page_header page_of gfn_to_memslot).

(** The value: the address of the table, not large, present. *)
Lemma link_value_own (sp : mmu_page) (x : page_ext) (i : Z) :
  sp_ad_disabled x = false → 0 <= i → own_bit i = true →
  Z.testbit (link_value g pa sp x) i = Z.testbit (pa sp.(sp_spt)) i || (i =? 1).
Proof using LM.
  intros Had Hi Ho. unfold link_value. rewrite Had. destruct LM as [L1 L2 _ L4 _ L6 L7 _ _ _].
  rewrite (lor_off _ _ _ L2), (lor_off _ _ _ L7), (lor_off _ _ _ L4), (lor_off _ _ _ L6), Z.lor_spec, (lor_off _ _ _ L1) by done.
  unfold PT_WRITABLE_MASK, PT_WRITABLE_SHIFT. by rewrite BIT_testbit by lia.
Qed.

Lemma table_address (q i : Z) : Z.land q PT64_BASE_ADDR_MASK = q → 0 <= i → Z.testbit q i = true → 12 <= i < 52.
Proof using KO. intros Hq Hi Hb. rewrite <- Hq, Z.land_spec, andb_true_iff in Hb. destruct Hb. by apply base_mask_bits. Qed.

Lemma link_value_table (sp : mmu_page) (x : page_ext) (l : Z) :
  sp_ad_disabled x = false → Z.land (pa sp.(sp_spt)) PT64_BASE_ADDR_MASK = pa sp.(sp_spt) → l ≠ PT_PAGE_TABLE_LEVEL →
  is_shadow_present_pte g (link_value g pa sp x) = true ∧ is_last_spte (link_value g pa sp x) l = false ∧
  Z.land (link_value g pa sp x) PT64_BASE_ADDR_MASK = pa sp.(sp_spt).
Proof using KO LM.
  intros Had Hq Hl. pose proof (link_value_own sp x) as Hb.
  assert (Hoff : ∀ i, 0 <= i < 12 ∨ 52 <= i → Z.testbit (pa sp.(sp_spt)) i = false).
  { intros i Hi. destruct (Z.testbit _ i) eqn:E; [|done]. pose proof (table_address _ i Hq ltac:(lia) E). lia. }
  split; [|split].
  - unfold is_shadow_present_pte, is_mmio_spte. apply andb_true_iff. split; apply negb_true_iff, Z.eqb_neq.
    + intros E. specialize (Hb 1 Had ltac:(lia) eq_refl). rewrite E, Z.bits_0, orb_true_r in Hb. done.
    + intros E. apply (f_equal (λ v, Z.testbit v 62)) in E. rewrite (lm_mmio _ _ LM), Z.land_spec, andb_true_iff in E. destruct E as [E _].
      rewrite Hb, (Hoff 62) in E by (done || lia || apply own_62). done.
  - unfold is_last_spte. rewrite (proj2 (Z.eqb_neq _ _) Hl). unfold is_large_pte, PT_PAGE_SIZE_MASK. rewrite truth_land_BIT by lia.
    rewrite Hb, (Hoff 7) by (done || lia). done.
  - rewrite <- Hq. apply Z.bits_inj'. intros i Hi. rewrite !Z.land_spec. destruct (Z.testbit PT64_BASE_ADDR_MASK i) eqn:E; [|by rewrite !andb_false_r].
    pose proof (base_mask_bits i Hi E). rewrite Hb by (done || (unfold own_bit; by rewrite E, orb_true_r)).
    by rewrite (proj2 (Z.eqb_neq i 1)), orb_false_r by lia.
Qed.

(** What stays of the state besides the tables. *)
Record same_rest (s s' : shadow_state) : Prop := {
  sr_ext : ∀ a, ∃ h, s'.(ss_ext) !! a = (λ x, x <| px_parents := h |>) <$> s.(ss_ext) !! a;
  sr_hash : s'.(ss_hash) = s.(ss_hash);
  sr_gen : s'.(ss_valid_gen) = s.(ss_valid_gen);
  sr_active : s'.(ss_active) = s.(ss_active);
  sr_used : s'.(ss_used) = s.(ss_used);
  sr_heap : s'.(ss_track).(tk_heap) = s.(ss_track).(tk_heap)
}.

Lemma link_ok (LL DD : owner → list Z) (s : shadow_state) (p a : Z) (sp spa : mmu_page) (x : page_ext) :
  shadow_ok LL DD s → (mmu s).(pages) !! page_header p = Some sp → entry_in sp p = true → owner_of s p = None →
  sp.(role_level) ≠ PT_PAGE_TABLE_LEVEL → (mmu s).(pages) !! a = Some spa → s.(ss_ext) !! a = Some x →
  x.(px_unsync) = false → x.(px_unsync_children) = 0 → sp_ad_disabled x = false →
  Z.land (pa spa.(sp_spt)) PT64_BASE_ADDR_MASK = pa spa.(sp_spt) → page_of (pa spa.(sp_spt)) = a → (mmu s).(dmem).(desc_cache) ≠ [] →
  ∃ s' LL' DD', link_shadow_page g page_header pa p a s = Some s' ∧ shadow_ok LL' DD' s' ∧ same_rest s s' ∧
    (mmu s').(ptes) = set_pte p (link_value g pa spa x) (mmu s).(ptes) ∧ (mmu s').(pages) = (mmu s).(pages) ∧
    owner_of s' p = Some (Pg a) ∧ (length (mmu s).(dmem).(desc_cache) <= S (length (mmu s').(dmem).(desc_cache)))%nat.
Proof using KO LM.
  intros Hok Hsp Hp Hno Hlv Hspa Hx Hun Hch Had Hq Hof Hc. pose proof Hok as [L E C U].
  destruct (link_value_table spa x sp.(role_level) Had Hq Hlv) as (Hpr & Hlast & Hbase). set (v := link_value g pa spa x) in *.
  assert (Hlive : owner_live s (Pg a)) by by eexists. pose proof (entry_ptr _ _ _ _ (en_pages _ _ _ _ _ _ E _ _ Hsp) Hp) as Hptr.
  destruct (lists_add LL DD s L (Pg a) Hlive p Hptr Hc) as (n & h & m' & l' & ds' & Ea & Hl & HL).
  set (ev := (mmu_spte_set g ((mmu s).(ptes) p) v).2).
  set (s' := put_list (Pg a) h m' (set_mmu ((mmu s) <| ptes ::= set_pte p v |> <| events ::= λ l, l ++ ev |>) s)).
  exists s', (upd_owner LL (Pg a) l'), (upd_owner DD (Pg a) ds').
  assert (Hown : owner_of s' p = Some (Pg a)).
  { rewrite (owner_at _ _ _ _ s' sp _ p Hsp eq_refl Hp). unfold value_owner. cbn. by rewrite set_pte_eq, Hpr, Hlast, Hbase, Hof. }
  assert (Hrest : same_rest s s').
  { split; try done. intros b. destruct (decide (b = a)) as [->|Hne].
    - exists h. cbn. by rewrite lookup_alter_eq.
    - exists (from_option px_parents 0 (s.(ss_ext) !! b)). cbn. rewrite lookup_alter_ne by done. destruct (ss_ext s !! b) as [y|]; [|done]. by destruct y. }
  split; [|split; [|split; [exact Hrest|split; [done|split; [done|split; [exact Hown|]]]]]].
  - unfold link_shadow_page. rewrite Hspa. cbn [mbind option_bind]. rewrite Hx. cbn [mbind option_bind].
    fold (link_value g pa spa x) v. unfold mmu_spte_set, mmu_page_add_parent_pte. rewrite (truth_nonzero p) by apply Hptr. cbn [negb].
    match goal with |- context [ss_ext (set_mmu ?m s) !! a] => change (ss_ext (set_mmu m s)) with (ss_ext s) end. rewrite Hx.
    cbn [mbind option_bind].
    assert (Ea' : pte_list_add p x.(px_parents) (mmu s).(dmem) = Some (n, h, m')) by (cbn [owner_head] in Ea; rewrite Hx in Ea; exact Ea).
    match goal with |- context [pte_list_add p ?h ?m] => change m with (mmu s).(dmem) end. rewrite Ea'. cbn [mbind option_bind].
    match goal with |- context [ss_ext ?z !! a] => change (ss_ext z) with (ss_ext s') end.
    assert (Hx' : ss_ext s' !! a = Some (x <| px_parents := h |>)) by (cbn; by rewrite lookup_alter_eq, Hx).
    rewrite Hx'. cbn [mbind option_bind]. cbn. rewrite Hch, Hun. done.
  - assert (Hmem : ∀ o q, q ≠ p → q ∈ upd_owner LL (Pg a) l' o ↔ q ∈ LL o).
    { intros o q Hq'. destruct (decide (o = Pg a)) as [->|Hne]; [|by rewrite upd_owner_ne].
      rewrite upd_owner_eq, Hl, elem_of_cons. split; [by intros [?|?]|by right]. }
    assert (Hpn : ∀ o, owner_live s o → p ∉ LL o) by (intros o Ho; rewrite (en_member _ _ _ _ _ _ E o p Ho); congruence).
    assert (Hdom : ∀ b, is_Some (ss_ext s' !! b) ↔ is_Some (ss_ext s !! b)) by (intros b; destruct (sr_ext _ _ Hrest b) as [? ->]; apply fmap_is_Some).
    split.
    + apply (lists_same _ _ _ s' HL); [by rewrite put_dmem|]. intros o Ho. split; [by apply put_live, (put_live (Pg a) o h m' (set_mmu _ s)) in Ho|].
      by apply put_head_after.
    + apply (entries_change _ _ _ _ LL _ s s' p E); [apply E|done|exact Hdom| |by intros o q _; apply Hmem| | |].
      * intros q Hne. apply owner_of_same; [cbn; by apply set_pte_ne|done].
      * intros o Ho. rewrite Hown. destruct (decide (o = Pg a)) as [->|Hne].
        -- rewrite upd_owner_eq, Hl. split; [done|]. intros _. by left.
        -- rewrite upd_owner_ne by done. split; [|congruence]. intros Hin. by destruct (Hpn o Ho).
      * intros o. rewrite Hown. by intros [= <-].
      * intros o Ho. destruct (decide (o = Pg a)) as [->|Hne]; [rewrite upd_owner_eq, Hl; apply NoDup_cons; split; [by apply Hpn|]|rewrite upd_owner_ne by done];
          by apply (en_nodup _ _ _ _ _ _ E).
    + intros b y Hy. destruct (sr_ext _ _ Hrest b) as [h' Hb]. rewrite Hb in Hy. apply fmap_Some in Hy as (z & Hz & ->). by apply (C b z).
    + intros b y q _ Hy Hn Hin. destruct (sr_ext _ _ Hrest b) as [h' Hb]. rewrite Hb in Hy. apply fmap_Some in Hy as (z & Hz & ->).
      assert (Hba : b ≠ a). { intros ->. assert (z = x) as -> by congruence. unfold needs_mark in Hn. cbn in Hn. destruct Hn; congruence. }
      rewrite upd_owner_ne in Hin by congruence. destruct (U b z q) as (spq & w & H1 & H2 & H3); [by intros []|done|exact Hn|done|].
      destruct (sr_ext _ _ Hrest (page_header q)) as [h2 Hw]. rewrite H2 in Hw. eexists spq, _. split; [done|]. split; [exact Hw|done].
  - cbn. destruct (pte_list_add_cache _ _ _ _ _ _ Ea) as [->| ->]; [lia|]. destruct (desc_cache (dmem (mmu s))); cbn; lia.
Qed.
End Link.

#[export] Instance same_rest_refl : Reflexive same_rest.
Proof.
  intros s. split; try done. intros a. exists (from_option px_parents 0 (s.(ss_ext) !! a)). destruct (ss_ext s !! a) as [x|]; [|done]. by destruct x.
Qed.

#[export] Instance same_rest_trans : Transitive same_rest.
Proof.
  intros s1 s2 s3 [A1 A2 A3 A4 A5 A6] [B1 B2 B3 B4 B5 B6]. split; try congruence. intros a. destruct (A1 a) as [h1 E1], (B1 a) as [h2 E2].
  exists h2. rewrite E2, E1. destruct (ss_ext s1 !! a); done.
Qed.

Lemma rest_set_mmu (m : mmu_state) (s s' : shadow_state) : same_rest s s' → same_rest s (set_mmu m s').
Proof. intros [R1 R2 R3 R4 R5 R6]. by split. Qed.

(** ** What mapping a frame leaves alone when all pages are direct *)

Section Rest.
Context `{K : KvmPte} `{T : KvmTrack} (g : shadow_masks) (env : map_env) (page_header page_of : Z → Z)
        (gfn_to_memslot : bool → Z → vmrun_memory_slot) (vcpu_gfn_to_memslot : Z → option vmrun_memory_slot).

Definition all_direct (s : shadow_state) : Prop := ∀ a sp, (mmu s).(pages) !! a = Some sp → sp.(role_direct) = true.

Lemma need_write_protect_direct (gfn : Z) (can_unsync b : bool) (l : list Z) (s s' : shadow_state) :
  all_direct s → need_write_protect_loop g page_header gfn can_unsync l s = Some (b, s') → s' = s.
Proof using Type.
  intros Hd. induction l as [|a l IH]; cbn [need_write_protect_loop]; [by intros [= _ <-]|].
  destruct (pages (mmu s) !! a) as [sp|] eqn:Hsp; [|done]. destruct (ss_ext s !! a) as [x|]; [|done]. cbn [mbind option_bind].
  unfold gfn_indirect_valid. rewrite (Hd a sp Hsp), orb_true_r, andb_false_r. exact IH.
Qed.

Lemma track_active_state (gfn mode : Z) (active : bool) (t t' : track_state) :
  vmrun_page_track_is_active vcpu_gfn_to_memslot gfn mode t = Some (active, t') → t'.(tk_mmu) = t.(tk_mmu) ∧ t'.(tk_heap) = t.(tk_heap).
Proof using Type.
  unfold vmrun_page_track_is_active. destruct (negb _); [by intros [= _ <-]|]. destruct (vcpu_gfn_to_memslot gfn) as [slot|]; [|by intros [= _ <-]].
  destruct (load _ _ _); [|done]. cbn. by intros [= _ <-].
Qed.

Lemma store_rest (p v : Z) (w : list spte_event) (s : shadow_state) : same_rest s (store_spte g p v w s).
Proof using Type. unfold store_spte. destruct (mmu_spte_update g _ _ v) as [[cell flush] ev]. destruct flush; unfold remote_flush, upd_mmu; repeat apply rest_set_mmu; done. Qed.

Lemma set_spte_rest (p pte_access level gfn pfn ret : Z) (speculative can_unsync hw : bool) (m m' : map_state) :
  all_direct m.(ms_shadow) → set_spte g env page_header vcpu_gfn_to_memslot p pte_access level gfn pfn speculative can_unsync hw m = Some (ret, m') →
  same_rest m.(ms_shadow) m'.(ms_shadow).
Proof using Type.
  intros Hd. unfold set_spte. destruct (me_noslot env pfn).
  { destruct (mmu_spte_set g _ _) as [cell ev]. intros [= _ <-]. by apply rest_set_mmu. }
  destruct (ss_ext (ms_shadow m) !! page_header p) as [x|]; [|done]. cbn [mbind option_bind].
  set (v0 := leaf_spte _ _ _ _ _ _ _ _ _).
  assert (Hfin : ∀ spte w m1, same_rest m.(ms_shadow) m1.(ms_shadow) → same_rest m.(ms_shadow) (finish_spte g p gfn spte w speculative m1).(ms_shadow)).
  { intros spte w m1 R. unfold finish_spte. destruct w, speculative; try destruct (mark_spte_for_access_track g _) as [v ev]; cbn; (etrans; [exact R|apply store_rest]). }
  destruct (truth _); [|intros [= _ <-]; by apply Hfin].
  destruct (if level >? PT_PAGE_TABLE_LEVEL then _ else _) as [[]|]; [by intros [= _ <-]| |done]. cbn [mbind option_bind].
  destruct (negb can_unsync && _); [intros [= _ <-]; cbn; apply store_rest|].
  unfold mmu_need_write_protect. destruct (vmrun_page_track_is_active _ _ _ _) as [[active t]|] eqn:Ea; [|done]. cbn [mbind option_bind].
  apply track_active_state in Ea as [Ht1 Ht2]. set (s0 := m.(ms_shadow) <| ss_track := t |>).
  assert (R0 : same_rest m.(ms_shadow) s0) by (destruct (same_rest_refl m.(ms_shadow)); by split).
  destruct active; cbn [mbind option_bind]; [intros [= _ <-]; by apply Hfin|].
  destruct (need_write_protect_loop _ _ _ _ _ _) as [[b s1]|] eqn:El; [|done]. apply need_write_protect_direct in El as ->.
  - cbn [mbind option_bind]. by destruct b; intros [= _ <-]; apply Hfin.
  - intros a sp. unfold s0, mmu. cbn. rewrite Ht1. apply Hd.
Qed.

Lemma drop_old_rest (p level pfn : Z) (was : bool) (s s' : shadow_state) :
  drop_old_spte g page_header page_of gfn_to_memslot p level pfn s = Some (was, s') → same_rest s s'.
Proof using Type.
  unfold drop_old_spte. destruct (is_shadow_present_pte g _); [|by intros [= _ <-]]. destruct (_ && _).
  - unfold drop_parent_pte, mmu_page_remove_parent_pte. set (a := page_of _). destruct (ss_ext s !! a) as [x|] eqn:Ex; [|done]. cbn [mbind option_bind].
    destruct (pte_list_remove p _ _) as [[h m]|]; [|done]. cbn [mbind option_bind]. intros [= _ <-]. unfold remote_flush, upd_mmu. do 2 apply rest_set_mmu.
    split; try done. intros b. destruct (decide (b = a)) as [->|Hne]; [exists h; cbn; by rewrite lookup_alter_eq|].
    destruct (sr_ext s s ltac:(done) b) as [h' Hh']. exists h'. cbn. by rewrite lookup_alter_ne.
  - destruct (negb _); [|by intros [= _ <-]]. destruct (drop_spte _ _ _ _ _) as [st|]; [|done]. cbn [mbind option_bind]. intros [= _ <-].
    unfold remote_flush, upd_mmu. by do 2 apply rest_set_mmu.
Qed.

Lemma rmap_new_rest (p gfn : Z) (s s' : shadow_state) : rmap_new_spte g page_header gfn_to_memslot p gfn s = Some s' → same_rest s s'.
Proof using Type.
  unfold rmap_new_spte. destruct (rmap_add _ _ _ _ _) as [[n st]|]; [|done]. cbn [mbind option_bind].
  destruct (n >? _); [|intros [= <-]; by apply rest_set_mmu]. unfold rmap_recycle. destruct (_ !! page_header p) as [sp|]; [|done]. cbn [mbind option_bind].
  destruct (vmrun_unmap_rmapp _ _ _ _ _) as [[st' b]|]; [|done]. cbn [mbind option_bind]. intros [= <-]. unfold remote_flush, upd_mmu. by repeat apply rest_set_mmu.
Qed.

Lemma mmu_set_spte_rest (p pte_access level gfn pfn : Z) (write_fault speculative hw e : bool) (m m' : map_state) (s1 : shadow_state) (was : bool) :
  drop_old_spte g page_header page_of gfn_to_memslot p level pfn m.(ms_shadow) = Some (was, s1) → all_direct s1 →
  mmu_set_spte g env page_header page_of gfn_to_memslot vcpu_gfn_to_memslot p pte_access write_fault level gfn pfn speculative hw m = Some (e, m') →
  same_rest m.(ms_shadow) m'.(ms_shadow).
Proof using Type.
  intros Hdrop Hd. unfold mmu_set_spte. rewrite Hdrop. cbn [mbind option_bind]. apply drop_old_rest in Hdrop.
  destruct (set_spte _ _ _ _ _ _ _ _ _ _ _ _ _) as [[ret m2]|] eqn:Es; [|done]. apply set_spte_rest in Es; [|done]. cbn [mbind option_bind].
  set (m3 := if truth ret then _ else m2). assert (E3 : ms_shadow m3 = ms_shadow m2) by (unfold m3; by destruct (truth ret)).
  set (m4 := if negb was && _ then _ else m3).
  assert (R4 : same_rest (ms_shadow m) (ms_shadow m4)).
  { etrans; [exact Hdrop|]. etrans; [exact Es|]. unfold m4. rewrite <- E3. destruct (negb was && _); [|done]. cbn. unfold upd_mmu. by apply rest_set_mmu. }
  destruct (_ && negb was).
  - destruct (rmap_new_spte _ _ _ _ _ _) as [s4|] eqn:En; [|done]. cbn [mbind option_bind]. intros [= _ <-]. cbn. etrans; [exact R4|by eapply rmap_new_rest].
  - cbn [mbind option_bind]. by intros [= _ <-].
Qed.
End Rest.

(* ------------------------------------------------------------------ *)
(** ** The tables of a direct map *)

Section Tree.
Context `{K : KvmPte} `{T : KvmTrack} (g : shadow_masks) (va pa : Z → Z)
        (gfn_to_memslot : bool → Z → vmrun_memory_slot) (role_gfn_to_memslot : bool → Z → option vmrun_memory_slot)
        (PT64_ROOT_MAX_LEVEL : nat).

Notation al_owner st := (owner_of g st.(al_header) (al_page_of va st) gfn_to_memslot (al_shadow st)).
Notation al_tables st LL DD := (shadow_ok g st.(al_header) (al_page_of va st) gfn_to_memslot LL DD (al_shadow st)).
Notation alloc_ok := (alloc_ok g va gfn_to_memslot role_gfn_to_memslot PT64_ROOT_MAX_LEVEL).
Notation al_mmu st := (mmu (al_shadow st)).

(** Every page is one of a direct map, with accessed bits; a table covers the
    frames of the entry that points to it; [__pa] and [__va] are inverse on
    the tables. *)
Record direct_tree (st : alloc_state) : Prop := {
  dt_alloc : alloc_ok st;
  dt_pages : ∀ a sp x, (al_mmu st).(pages) !! a = Some sp → (al_shadow st).(ss_ext) !! a = Some x →
    sp.(role_direct) = true ∧ x.(px_unsync_children) = 0 ∧ sp_ad_disabled x = false;
  dt_gfn : ∀ p b sp sc, al_owner st p = Some (Pg b) → (al_mmu st).(pages) !! st.(al_header) p = Some sp →
    (al_mmu st).(pages) !! b = Some sc → sc.(sp_gfn) = child_gfn sp (spte_index sp p);
  dt_phys : ∀ q, q ∈ st.(al_pages) ∨ (∃ b sp, (al_mmu st).(pages) !! b = Some sp ∧ sp.(sp_spt) = q) →
    Z.land (pa q) PT64_BASE_ADDR_MASK = pa q ∧ va (pa q) = q;
  dt_local : st.(al_zap).(zs_invalid) = []
}.

(** Not among the pages that wait to be freed. *)
Definition in_use (st : alloc_state) (a : Z) : Prop := a ∉ st.(al_zap).(zs_invalid) ++ st.(al_zap).(zs_obsolete).

(** Entry [p] is rewritten, and other leaf entries may have been cleared. *)
Record rewritten (p : Z) (st st' : alloc_state) : Prop := {
  rw_caches : same_caches st st';
  rw_lists : st'.(al_zap).(zs_invalid) = st.(al_zap).(zs_invalid) ∧ st'.(al_zap).(zs_obsolete) = st.(al_zap).(zs_obsolete);
  rw_rest : same_rest (al_shadow st) (al_shadow st');
  rw_pages : (al_mmu st').(pages) = (al_mmu st).(pages);
  rw_tables : ∃ LL DD, al_tables st' LL DD;
  rw_links : ∀ q b, q ≠ p → al_owner st q = Some (Pg b) ∨ al_owner st' q = Some (Pg b) → (al_mmu st').(ptes) q = (al_mmu st).(ptes) q;
  rw_none : ∀ q, q ≠ p → al_owner st q = None → al_owner st' q = None;
  rw_page : in_use st (st.(al_header) p);
  rw_new : ∀ b, al_owner st' p = Some (Pg b) → (al_mmu st').(ptes) p = (al_mmu st).(ptes) p ∨
    (in_use st b ∧ ∃ sp sb, (al_mmu st).(pages) !! st.(al_header) p = Some sp ∧ (al_mmu st).(pages) !! b = Some sb ∧
       sb.(role_level) = sp.(role_level) - 1 ∧ sb.(sp_gfn) = child_gfn sp (spte_index sp p) ∧
       va (Z.land ((al_mmu st').(ptes) p) PT64_BASE_ADDR_MASK) = sb.(sp_spt))
}.

Lemma same_value (st st' : alloc_state) (q : Z) :
  st'.(al_header) = st.(al_header) → (al_mmu st').(pages) = (al_mmu st).(pages) → (al_mmu st').(ptes) q = (al_mmu st).(ptes) q →
  al_owner st' q = al_owner st q.
Proof using Type. intros Hh Hp Hv. unfold al_page_of. rewrite Hh. by apply owner_of_same. Qed.

Section Rewritten.
Context (p : Z) (st st' : alloc_state) (T0 : direct_tree st) (R : rewritten p st st').

Lemma rw_header : st'.(al_header) = st.(al_header).
Proof using R. by destruct (rw_caches _ _ _ R) as (_ & _ & ?). Qed.

(** A link was there before, or it is the new one. *)
Lemma rw_link (q b : Z) :
  al_owner st' q = Some (Pg b) →
  ((al_mmu st').(ptes) q = (al_mmu st).(ptes) q ∧ al_owner st q = Some (Pg b)) ∨
  (q = p ∧ in_use st b ∧ ∃ sp sb, (al_mmu st).(pages) !! st.(al_header) p = Some sp ∧ (al_mmu st).(pages) !! b = Some sb ∧
       sb.(role_level) = sp.(role_level) - 1 ∧ sb.(sp_gfn) = child_gfn sp (spte_index sp p) ∧
       va (Z.land ((al_mmu st').(ptes) p) PT64_BASE_ADDR_MASK) = sb.(sp_spt)).
Proof using R.
  intros Ho. assert (Hsame : (al_mmu st').(ptes) q = (al_mmu st).(ptes) q → al_owner st q = Some (Pg b)).
  { intros Hv. rewrite <- Ho. symmetry. apply same_value; [apply rw_header|apply R|done]. }
  destruct (decide (q = p)) as [->|Hne].
  - destruct (rw_new _ _ _ R b Ho) as [Hv|Hn]; [left; auto|by right].
  - pose proof (rw_links _ _ _ R q b Hne (or_intror Ho)) as Hv. left. auto.
Qed.

Lemma rw_ext (a : Z) (x' : page_ext) :
  (al_shadow st').(ss_ext) !! a = Some x' → ∃ x, (al_shadow st).(ss_ext) !! a = Some x ∧ ∃ h, x' = x <| px_parents := h |>.
Proof using R.
  intros Hx. destruct (sr_ext _ _ (rw_rest _ _ _ R) a) as [h Hh]. rewrite Hh in Hx. apply fmap_Some in Hx as (x & Hx & ->). by eauto.
Qed.

Lemma rw_dom (a : Z) : is_Some ((al_shadow st').(ss_ext) !! a) ↔ is_Some ((al_shadow st).(ss_ext) !! a).
Proof using R. destruct (sr_ext _ _ (rw_rest _ _ _ R) a) as [h ->]. apply fmap_is_Some. Qed.

Lemma rw_detached (a : Z) :
  ¬ in_use st a → detached g st.(al_header) (al_page_of va st) gfn_to_memslot (al_shadow st) a →
  detached g st'.(al_header) (al_page_of va st') gfn_to_memslot (al_shadow st') a.
Proof using T0 R.
  intros Hw [D1 D2]. split.
  - intros sp q Hsp Hq. rewrite (rw_pages _ _ _ R) in Hsp. destruct (decide (q = p)) as [->|Hne].
    + destruct Hw. pose proof (rw_page _ _ _ R) as Hu. destruct (pl_tables _ _ _ _ _ _ _ (ao_pools _ _ _ _ _ _ (dt_alloc _ T0))) as (LL & DD & Hsh).
      by rewrite (po_header _ _ _ (en_pages _ _ _ _ _ _ (sk_entries _ _ _ _ _ _ _ Hsh) a sp Hsp) p Hq) in Hu.
    + apply (rw_none _ _ _ R q Hne). by apply (D1 sp).
  - intros q Ho. destruct (rw_link q a Ho) as [[_ Ho']|(_ & Hu & _)]; [by apply (D2 q)|done].
Qed.

Lemma rewritten_pools :
  pools_ok g st'.(al_header) (al_page_of va st') gfn_to_memslot role_gfn_to_memslot PT64_ROOT_MAX_LEVEL st'.(al_zap).
Proof using T0 R.
  destruct (ao_pools _ _ _ _ _ _ (dt_alloc _ T0)) as [(LL & DD & Hsh) [V1 V2 V3 V4] P3 P4 P5 P6].
  destruct (rw_lists _ _ _ R) as [Hi Ho]. pose proof (rw_rest _ _ _ R) as [_ _ _ Ha Hu Hh]. pose proof (rw_pages _ _ _ R) as Hp.
  change (zs_shadow (al_zap st)) with (al_shadow st) in *. split; change (zs_shadow (al_zap st')) with (al_shadow st').
  - apply R.
  - split; rewrite ?Hp.
    + exact V1.
    + intros q b sp sc Hq. rewrite rw_header. intros Hsp Hsc. destruct (rw_link q b Hq) as [[_ Hq']|(-> & _ & sp' & sb & H1 & H2 & H3 & _)].
      * by apply (V2 q b sp sc).
      * congruence.
    + intros a sp x' Hsp Hx'. destruct (rw_ext a x' Hx') as (x & Hx & h & ->). by apply (V3 a sp x).
    + intros a sp Hsp Hd. eapply unaccount_shape; [|by apply (V4 a)]. by rewrite Hh.
  - by rewrite Ha, Hi, Ho.
  - intros a. rewrite rw_dom, Ha, Hi, Ho. apply P4.
  - intros a. rewrite Hi, Ho. intros Hw. destruct (P5 a Hw) as (Hd & x & Hx & Hv & Hr). split; [apply rw_detached; [|done]; intros Hu'; by apply Hu'|].
    destruct (sr_ext _ _ (rw_rest _ _ _ R) a) as [h Ex]. rewrite Hx in Ex. eexists. split; [exact Ex|done].
  - by rewrite Ha, Hu.
Qed.

Lemma rewritten_tree : direct_tree st'.
Proof using T0 R.
  pose proof T0 as [[P L [C1 C2 C3] H D] Q G F N]. pose proof (rw_pages _ _ _ R) as Hp. destruct (rw_caches _ _ _ R) as (S1 & S2 & S3).
  split.
  - split.
    + exact rewritten_pools.
    + intros q b sp Ho Hsp. rewrite Hp in Hsp. destruct (rw_link q b Ho) as [[-> Ho']|(-> & _ & sp' & sb & _ & H2 & _ & _ & H5)]; [by apply (L q b)|].
      congruence.
    + split; rewrite ?S1, ?S2, ?Hp; done.
    + rewrite Hp, (sr_hash _ _ (rw_rest _ _ _ R)). exact H.
    + intros a sp x'. rewrite Hp. intros Hsp Hx' Hd. destruct (rw_ext a x' Hx') as (x & Hx & h & ->). by apply (D a sp x).
  - intros a sp x'. rewrite Hp. intros Hsp Hx'. destruct (rw_ext a x' Hx') as (x & Hx & h & ->). by apply (Q a sp x).
  - intros q b sp sc Ho. rewrite Hp, S3. intros Hsp Hsc. destruct (rw_link q b Ho) as [[_ Ho']|(-> & _ & sp' & sb & H1 & H2 & _ & H4 & _)].
    + by apply (G q b sp sc).
    + congruence.
  - rewrite S2, Hp. exact F.
  - by rewrite (proj1 (rw_lists _ _ _ R)).
Qed.
End Rewritten.

Lemma pg_tables (st : alloc_state) : direct_tree st → ∃ LL DD, al_tables st LL DD.
Proof using Type. intros T0. exact (pl_tables _ _ _ _ _ _ _ (ao_pools _ _ _ _ _ _ (dt_alloc _ T0))). Qed.

(** ** Dropping a large page *)

(** Entry [p] may be cleared. *)
Lemma clear_rewritten (st : alloc_state) (s' : shadow_state) (p : Z) (LL DD : owner → list Z) :
  in_use st (st.(al_header) p) → shadow_ok g st.(al_header) (al_page_of va st) gfn_to_memslot LL DD s' → same_rest (al_shadow st) s' →
  (mmu s').(pages) = (al_mmu st).(pages) → (mmu s').(ptes) p = (al_mmu st).(ptes) p ∨ (mmu s').(ptes) p = 0 →
  (∀ q, q ≠ p → (mmu s').(ptes) q = (al_mmu st).(ptes) q) → rewritten p st (upd_shadow (λ _, s') st).
Proof using Type.
  intros Hu Hsh Hr Hpg Hp Hq. split; try done.
  - by exists LL, DD.
  - intros q b Hne _. by apply Hq.
  - intros q Hne Ho. rewrite <- Ho. apply same_value; [done|done|by apply Hq].
  - intros b Ho. destruct Hp as [Hp|Hp]; [by left|]. exfalso. destruct (owner_elim _ _ _ _ _ _ _ Ho) as (_ & _ & _ & Hpr & _).
    change (al_shadow (upd_shadow (λ _, s') st)) with s' in Hpr. by rewrite Hp in Hpr.
Qed.

Lemma drop_large_ok (st : alloc_state) (p : Z) (sp : mmu_page) :
  direct_tree st → (al_mmu st).(pages) !! st.(al_header) p = Some sp → entry_in sp p = true → sp.(role_level) ≠ PT_PAGE_TABLE_LEVEL →
  in_use st (st.(al_header) p) →
  ∃ m, drop_large_spte g st.(al_header) gfn_to_memslot p (al_mmu st) = Some m ∧ rewritten p st (upd_shadow (set_mmu m) st) ∧
    is_large_pte (m.(ptes) p) = false ∧ m.(dmem).(desc_cache) = (al_mmu st).(dmem).(desc_cache) ∧
    (∀ q, q ≠ p → m.(ptes) q = (al_mmu st).(ptes) q).
Proof using Type.
  intros T0 Hsp Hp Hlv Hu. destruct (pg_tables st T0) as (LL & DD & Hsh). unfold drop_large_spte, __drop_large_spte.
  destruct (is_large_pte (ptes (al_mmu st) p)) eqn:El.
  2:{ exists (al_mmu st). split; [done|]. split; [|done]. apply (clear_rewritten st (set_mmu (al_mmu st) (al_shadow st)) p LL DD Hu); [|apply rest_set_mmu, same_rest_refl|done|by left|done].
      apply (shadow_same _ _ _ _ LL DD (al_shadow st)); [done|exact Hsh]. }
  rewrite Hsp. cbn [mbind option_bind]. rewrite (proj2 (Z.eqb_neq _ _) Hlv).
  assert (Hfin : ∀ m LL' DD', drop_spte g st.(al_header) gfn_to_memslot p (al_mmu st) = Some m →
    shadow_ok g st.(al_header) (al_page_of va st) gfn_to_memslot LL' DD' (set_mmu m (al_shadow st)) →
    m.(pages) = (al_mmu st).(pages) → m.(ptes) p = 0 → (∀ q, q ≠ p → m.(ptes) q = (al_mmu st).(ptes) q) →
    m.(dmem).(desc_cache) = (al_mmu st).(dmem).(desc_cache) →
    ∃ m, ('(dropped, st) ← (st ← drop_spte g st.(al_header) gfn_to_memslot p (al_mmu st); Some (true, st <| stat_lpages ::= λ n, n - 1 |>));
          Some (if dropped : bool then st <| remote_flushes ::= λ n, n + 1 |> else st)) = Some m ∧ rewritten p st (upd_shadow (set_mmu m) st) ∧
    is_large_pte (m.(ptes) p) = false ∧ m.(dmem).(desc_cache) = (al_mmu st).(dmem).(desc_cache) ∧
    (∀ q, q ≠ p → m.(ptes) q = (al_mmu st).(ptes) q)).
  { intros m LL' DD' -> Hok' Hpg Hz Hq Hc. cbn [mbind option_bind]. eexists. split; [reflexivity|].
    split; [|split; [cbn; by rewrite Hz|done]].
    match goal with |- rewritten p st (upd_shadow (set_mmu ?m') st) => apply (clear_rewritten st (set_mmu m' (al_shadow st)) p LL' DD' Hu); [|apply rest_set_mmu, same_rest_refl|done|by right|done] end.
    eapply shadow_same; [|exact Hok']. done. }
  pose proof (owner_at g st.(al_header) (al_page_of va st) gfn_to_memslot (al_shadow st) sp _ p Hsp eq_refl Hp) as Ho. unfold value_owner in Ho.
  destruct (is_shadow_present_pte g (ptes (al_mmu st) p)) eqn:Hpr; cbn [negb] in Ho.
  - unfold is_last_spte in Ho. rewrite El in Ho. cbn [negb] in Ho.
    assert (El' : (if role_level sp =? PT_PAGE_TABLE_LEVEL then true else true) = true) by (by destruct (_ =? _)).
    destruct (key_exists st.(al_header) gfn_to_memslot (al_shadow st) sp _ p Hsp eq_refl (en_pages _ _ _ _ _ _ (sk_entries _ _ _ _ _ _ _ Hsh) _ _ Hsp) Hp) as [k Hk].
    rewrite Hk in Ho.
    assert (Ho' : al_owner st p = Some (Rm k)) by (rewrite Ho; by destruct (_ =? _)).
    destruct (drop_spte_ok g _ _ gfn_to_memslot LL DD (al_shadow st) p k Hsh Ho') as (m & l' & ds' & Em & _ & Hok' & D).
    apply (Hfin m _ _ Em Hok'); [exact (dr_pages _ _ _ D)|by apply (dr_in _ _ _ D)|by apply (dr_out _ _ _ D)|exact (dr_cache _ _ _ D)].
  - set (ev := (mmu_spte_clear_track_bits g (ptes (al_mmu st) p) (ptes (al_mmu st) p)).2).
    set (m := (al_mmu st) <| ptes ::= set_pte p 0 |> <| events ::= λ l, l ++ ev |>).
    assert (Em : drop_spte g st.(al_header) gfn_to_memslot p (al_mmu st) = Some m).
    { unfold drop_spte, m, ev, mmu_spte_clear_track_bits.
      assert (Hd : (if negb (spte_has_volatile_bits g (ptes (al_mmu st) p)) then ptes (al_mmu st) p else ptes (al_mmu st) p) = ptes (al_mmu st) p)
        by by destruct (negb _).
      rewrite Hd, Hpr. done. }
    apply (Hfin m LL DD Em); try done; [|apply set_pte_eq|intros q Hq; by apply set_pte_ne].
    apply (store_same_owner _ _ _ _ LL DD (al_shadow st) _ p 0); [exact Hsh|done|]. rewrite Ho.
    rewrite (owner_at g st.(al_header) (al_page_of va st) gfn_to_memslot (set_mmu m (al_shadow st)) sp _ p Hsp eq_refl Hp).
    unfold value_owner. cbn. rewrite set_pte_eq. done.
Qed.
End Tree.

(* ------------------------------------------------------------------ *)
(** ** One level of [__direct_map] *)

Section DirectMap.
Context `{K : KvmPte, KO : !KvmPteOk K} `{T : KvmTrack} (g : shadow_masks) (env : map_env) (va pa : Z → Z)
        (gfn_to_memslot : bool → Z → vmrun_memory_slot) (role_gfn_to_memslot : bool → Z → option vmrun_memory_slot)
        (vcpu_gfn_to_memslot : Z → option vmrun_memory_slot) (PT64_ROOT_MAX_LEVEL : nat).
Context (vp : vcpu_paging) (sync_page : Z → alloc_state → option (Z * alloc_state)) (page_content : Z → list Z).
Context (LM : leaf_masks g env)
        (Hvp : vp.(vp_base_role).(fr_invalid) = false ∧ vp.(vp_base_role).(fr_rest).(role_ad_disabled) = false).

Notation al_owner st := (owner_of g st.(al_header) (al_page_of va st) gfn_to_memslot (al_shadow st)).
Notation alloc_ok := (alloc_ok g va gfn_to_memslot role_gfn_to_memslot PT64_ROOT_MAX_LEVEL).
Notation direct_tree := (direct_tree g va pa gfn_to_memslot role_gfn_to_memslot PT64_ROOT_MAX_LEVEL).
Notation rewritten := (rewritten g va gfn_to_memslot).
Notation al_mmu st := (mmu (al_shadow st)).

(** A page was found or made. *)
Lemma gained_tree (st st' : alloc_state) (a gfn : Z) (role : full_role) :
  direct_tree st → alloc_ok st' → st'.(al_zap).(zs_invalid) = [] → gained g va gfn_to_memslot st st' → grown a st st' →
  page_for gfn role a (al_shadow st') → role.(fr_direct) = true → role.(fr_rest).(role_ad_disabled) = false → direct_tree st'.
Proof using Type.
  intros T0 Hok' Hi G W (spa & xa & Hspa & Hxa & _ & Hr & _) Hdir Had. pose proof T0 as [Hok Q F P _].
  destruct (pg_tables _ _ _ _ _ _ _ T0) as (LL & DD & Hsh). pose proof (sk_entries _ _ _ _ _ _ _ Hsh) as E.
  destruct (pl_tables _ _ _ _ _ _ _ (ao_pools _ _ _ _ _ _ Hok')) as (LL' & DD' & Hsh'). change (zs_shadow (al_zap st')) with (al_shadow st') in Hsh'.
  split; try done.
  - intros b sp x' Hsp Hx'. destruct (gw_back _ _ _ W b sp Hsp) as [Hb|(-> & _ & x & Hx & Hblank)].
    + destruct (proj1 (en_dom _ _ _ _ _ _ E b) ltac:(by eexists)) as [x Hx]. destruct (gn_ext _ _ _ _ _ G b x Hx) as (y & Hy & LE & _).
      assert (y = x') as -> by congruence. destruct (Q b sp x Hb Hx) as (H1 & H2 & H3). split; [done|]. split.
      * destruct (sk_counts _ _ _ _ _ _ _ Hsh b x Hx) as [_ Hc]. destruct (sk_counts _ _ _ _ _ _ _ Hsh' b x' Hx') as [_ Hc'].
        pose proof (ones_mono _ _ (le_length _ _ LE) (le_bits _ _ LE)). lia.
      * unfold sp_ad_disabled. by rewrite (le_role _ _ LE).
    + assert (sp = spa) as -> by congruence. assert (x = xa) as -> by congruence. assert (x' = xa) as -> by congruence.
      split; [|split; [apply Hblank|]]; rewrite <- Hr in *; done.
  - intros p b sp sc Ho Hsp Hsc. rewrite (gn_owner _ _ _ _ _ G) in Ho. destruct (owner_elim _ _ _ _ _ _ _ Ho) as (sp0 & Hsp0 & Hp & _).
    destruct (proj2 (en_dom _ _ _ _ _ _ E b) (en_live _ _ _ _ _ _ E _ _ Ho)) as [sc0 Hsc0].
    rewrite (proj2 (gn_entries _ _ _ _ _ G _ sp0 p Hsp0 Hp)) in Hsp. pose proof (gn_pages _ _ _ _ _ G _ _ Hsp0). pose proof (gn_pages _ _ _ _ _ G _ _ Hsc0).
    assert (sp0 = sp) as -> by congruence. assert (sc0 = sc) as -> by congruence. by apply (F p b).
  - intros q [Hq|(b & sp & Hb & <-)]; [apply P; left; by apply (gw_tables _ _ _ W)|].
    destruct (gw_back _ _ _ W b sp Hb) as [Hb'|(_ & Hq & _)]; apply P; [right; by exists b, sp|by left].
Qed.

(** What a step at entry [p] leaves for the levels above, and what it takes
    from the caches. *)
Record deepened (p : Z) (st st' : alloc_state) : Prop := {
  dp_pages : ∀ b sp, (al_mmu st).(pages) !! b = Some sp → (al_mmu st').(pages) !! b = Some sp;
  dp_header : ∀ b sp q, (al_mmu st).(pages) !! b = Some sp → entry_in sp q = true → st'.(al_header) q = st.(al_header) q;
  dp_links : ∀ q b, q ≠ p → al_owner st q = Some (Pg b) → (al_mmu st').(ptes) q = (al_mmu st).(ptes) q ∧ al_owner st' q = Some (Pg b);
  dp_heap : (al_shadow st').(ss_track).(tk_heap) = (al_shadow st).(ss_track).(tk_heap);
  dp_used : (al_shadow st').(ss_used) <= (al_shadow st).(ss_used) + 1;
  dp_caches : (length st.(al_headers) <= S (length st'.(al_headers)) ∧ length st.(al_pages) <= S (length st'.(al_pages)) ∧
               length (al_mmu st).(dmem).(desc_cache) <= S (length (al_mmu st').(dmem).(desc_cache)))%nat
}.

Lemma rewritten_deepened (p : Z) (st st' : alloc_state) :
  rewritten p st st' → (length (al_mmu st).(dmem).(desc_cache) <= S (length (al_mmu st').(dmem).(desc_cache)))%nat → deepened p st st'.
Proof using Type.
  intros R Hd. destruct (rw_caches _ _ _ _ _ _ R) as (S1 & S2 & S3). pose proof (rw_rest _ _ _ _ _ _ R) as [_ _ _ _ Hu Hh]. split.
  - intros b sp. by rewrite (rw_pages _ _ _ _ _ _ R).
  - intros. by rewrite S3.
  - intros q b Hq Ho. pose proof (rw_links _ _ _ _ _ _ R q b Hq (or_introl Ho)) as Hv. split; [done|]. rewrite <- Ho.
    apply same_value; [done|apply R|done].
  - done.
  - lia.
  - rewrite S1, S2. lia.
Qed.

Lemma gained_deepened (p : Z) (st st' : alloc_state) : gained g va gfn_to_memslot st st' → deepened p st st'.
Proof using Type.
  intros G. split.
  - apply G.
  - intros b sp q Hb Hq. by apply (gn_entries _ _ _ _ _ G b sp q).
  - intros q b _ Ho. rewrite (gn_owner _ _ _ _ _ G). split; [|done]. destruct (owner_elim _ _ _ _ _ _ _ Ho) as (sp & Hsp & Hq & _).
    by apply (gn_entries _ _ _ _ _ G (al_header st q) sp q).
  - apply G.
  - apply (gn_used _ _ _ _ _ G).
  - destruct (gn_caches _ _ _ _ _ G). rewrite (gn_dmem _ _ _ _ _ G). lia.
Qed.

(** The page of a link is in use. *)
Lemma linked_in_use (st : alloc_state) (p b : Z) : direct_tree st → al_owner st p = Some (Pg b) → in_use st b.
Proof using Type.
  intros T0 Ho Hw. destruct (pl_waiting _ _ _ _ _ _ _ (ao_pools _ _ _ _ _ _ (dt_alloc _ _ _ _ _ _ _ T0)) b Hw) as [[_ D] _]. by apply (D p).
Qed.

Lemma active_in_use (st : alloc_state) (a : Z) : direct_tree st → a ∈ (al_shadow st).(ss_active) → in_use st a.
Proof using Type.
  intros T0 Ha. pose proof (pl_nodup _ _ _ _ _ _ _ (ao_pools _ _ _ _ _ _ (dt_alloc _ _ _ _ _ _ _ T0))) as (_ & H & _)%NoDup_app. exact (H a Ha).
Qed.

(** The table a link leads to. *)
Lemma link_child (st : alloc_state) (p b gfn l : Z) (sp : mmu_page) :
  direct_tree st → (al_mmu st).(pages) !! st.(al_header) p = Some sp → al_owner st p = Some (Pg b) → sp.(role_level) = l → 1 <= l →
  sp.(sp_gfn) = table_gfn gfn l → spte_index sp p = SHADOW_PT_INDEX (Z.shiftl gfn PAGE_SHIFT) l →
  ∃ sb, (al_mmu st).(pages) !! b = Some sb ∧ sb.(role_level) = l - 1 ∧ sb.(sp_gfn) = table_gfn gfn (l - 1).
Proof using Type.
  intros T0 Hsp Ho Hlv Hl Hg Hi. destruct (pg_tables _ _ _ _ _ _ _ T0) as (LL & DD & Hsh). pose proof (sk_entries _ _ _ _ _ _ _ Hsh) as E.
  destruct (proj2 (en_dom _ _ _ _ _ _ E b) (en_live _ _ _ _ _ _ E _ _ Ho)) as [sb Hsb]. exists sb. split; [done|]. split.
  - rewrite <- Hlv. exact (lv_child _ _ _ _ _ _ _ (pl_levels _ _ _ _ _ _ _ (ao_pools _ _ _ _ _ _ (dt_alloc _ _ _ _ _ _ _ T0))) p b sp sb Ho Hsp Hsb).
  - rewrite (dt_gfn _ _ _ _ _ _ _ T0 p b sp sb Ho Hsp Hsb). unfold child_gfn. rewrite Hg, Hi, Hlv. by apply table_gfn_step.
Qed.

Lemma in_table (st : alloc_state) (a : Z) (sp : mmu_page) :
  direct_tree st → (al_mmu st).(pages) !! a = Some sp → st.(al_header) sp.(sp_spt) = a.
Proof using Type.
  intros T0 Ha. destruct (pg_tables _ _ _ _ _ _ _ T0) as (LL & DD & Hsh).
  apply (po_header _ _ _ (en_pages _ _ _ _ _ _ (sk_entries _ _ _ _ _ _ _ Hsh) a sp Ha)).
  rewrite <- (Z.add_0_r (sp_spt sp)). apply (entry_at sp 0). change PT64_ENT_PER_PAGE with 512. lia.
Qed.

(** A page is linked to the clear entry [p]. *)
Lemma link_rewritten (st : alloc_state) (p a : Z) (sp spa : mmu_page) (x : page_ext) :
  direct_tree st → (al_mmu st).(pages) !! st.(al_header) p = Some sp → entry_in sp p = true → in_use st (st.(al_header) p) → al_owner st p = None →
  1 < sp.(role_level) → (al_mmu st).(pages) !! a = Some spa → (al_shadow st).(ss_ext) !! a = Some x → x.(px_invalid) = false →
  spa.(role_level) = sp.(role_level) - 1 → spa.(sp_gfn) = child_gfn sp (spte_index sp p) → (al_mmu st).(dmem).(desc_cache) ≠ [] →
  ∃ s', link_shadow_page g st.(al_header) pa p a (al_shadow st) = Some s' ∧ rewritten p st (upd_shadow (λ _, s') st) ∧
    al_owner (upd_shadow (λ _, s') st) p = Some (Pg a) ∧ (length (al_mmu st).(dmem).(desc_cache) <= S (length (mmu s').(dmem).(desc_cache)))%nat.
Proof using KO LM.
  intros T0 Hsp Hp Hu Hno Hlv Ha Hx Hinv Hl Hg Hc. destruct (pg_tables _ _ _ _ _ _ _ T0) as (LL & DD & Hsh).
  destruct (dt_pages _ _ _ _ _ _ _ T0 a spa x Ha Hx) as (Hd & Hch & Had).
  destruct (dt_phys _ _ _ _ _ _ _ T0 spa.(sp_spt)) as [Hq Hva]; [right; by exists a, spa|].
  destruct (link_ok g env st.(al_header) (al_page_of va st) pa gfn_to_memslot LM LL DD (al_shadow st) p a sp spa x Hsh Hsp Hp Hno) as
    (s' & LL' & DD' & E & Hok & Hr & Hpt & Hpg & Ho & Hdc); try done.
  - unfold PT_PAGE_TABLE_LEVEL. lia.
  - by apply (ao_direct _ _ _ _ _ _ (dt_alloc _ _ _ _ _ _ _ T0) a spa).
  - unfold al_page_of. rewrite Hva. by apply in_table.
  - exists s'. split; [exact E|]. split; [|done]. split; try done.
    + by exists LL', DD'.
    + intros q b Hne _. change (ptes (mmu s') q = ptes (al_mmu st) q). rewrite Hpt. by apply set_pte_ne.
    + intros q Hne Hq0. rewrite <- Hq0. apply same_value; [done|done|]. change (ptes (mmu s') q = ptes (al_mmu st) q). rewrite Hpt. by apply set_pte_ne.
    + intros b Hb. right. change (al_shadow (upd_shadow (λ _, s') st)) with s' in *. change (owner_of g (al_header st) (al_page_of va st) gfn_to_memslot s' p = Some (Pg b)) in Hb.
      assert (b = a) as -> by congruence. split; [apply active_in_use; [done|]|].
      * apply (valid_active g va gfn_to_memslot role_gfn_to_memslot PT64_ROOT_MAX_LEVEL st a x); [apply T0|done|done].
      * exists sp, spa. rewrite Hpt, set_pte_eq. destruct (link_value_table g env pa LM spa x sp.(role_level) Had Hq ltac:(unfold PT_PAGE_TABLE_LEVEL; lia)) as (_ & _ & ->).
        split_and!; done.
Qed.

Lemma direct_map_table_ok (fa : fault_state) (p gfn l : Z) (sp : mmu_page) :
  let st := fa.(fa_alloc) in
  direct_tree st → (al_mmu st).(pages) !! st.(al_header) p = Some sp → entry_in sp p = true → sp.(role_level) = l → 1 < l →
  in_use st (st.(al_header) p) → sp.(sp_gfn) = table_gfn gfn l → spte_index sp p = SHADOW_PT_INDEX (Z.shiftl gfn PAGE_SHIFT) l → frame_ok gfn →
  st.(al_headers) ≠ [] → st.(al_pages) ≠ [] → (al_mmu st).(dmem).(desc_cache) ≠ [] → (al_shadow st).(ss_used) + 1 < 2 ^ 32 →
  ∃ st' b, direct_map_table g env va pa gfn_to_memslot role_gfn_to_memslot vcpu_gfn_to_memslot PT64_ROOT_MAX_LEVEL vp sync_page page_content
             (Z.shiftl gfn PAGE_SHIFT) l p fa = Some (fa <| fa_alloc := st' |>) ∧
    direct_tree st' ∧ deepened p st st' ∧ al_owner st' p = Some (Pg b).
Proof using KO LM Hvp.
  intros st T0 Hsp Hp Hlv Hl Hu Hg Hi Hf Hh Hpg Hc Hroom.
  destruct (drop_large_ok g va pa gfn_to_memslot role_gfn_to_memslot PT64_ROOT_MAX_LEVEL st p sp T0 Hsp Hp) as (m & Em & R1 & Hlarge & Hdc & Hq);
    [unfold PT_PAGE_TABLE_LEVEL; lia|done|].
  unfold direct_map_table. fold st. change (mmu (fa_shadow fa)) with (al_mmu st). rewrite Em. cbn [mbind option_bind].
  set (st1 := upd_shadow (set_mmu m) st) in *. pose proof (rewritten_tree _ _ _ _ _ _ p st st1 T0 R1) as T1.
  assert (Hsp1 : (al_mmu st1).(pages) !! st1.(al_header) p = Some sp) by (rewrite (rw_pages _ _ _ _ _ _ R1); exact Hsp).
  assert (D1 : deepened p st st1) by (apply rewritten_deepened; [done|]; change (al_mmu st1) with m; rewrite Hdc; lia).
  match goal with |- context [is_shadow_present_pte g ?v] => change v with ((al_mmu st1).(ptes) p) end.
  pose proof (owner_at g st1.(al_header) (al_page_of va st1) gfn_to_memslot (al_shadow st1) sp _ p Hsp1 eq_refl Hp) as Ho1. unfold value_owner in Ho1.
  destruct (is_shadow_present_pte g (ptes (al_mmu st1) p)) eqn:Hpr; cbn [negb] in Ho1.
  { eexists st1, _. split; [reflexivity|]. split; [done|]. split; [done|]. rewrite Ho1. unfold is_last_spte.
    rewrite Hlv, (proj2 (Z.eqb_neq l PT_PAGE_TABLE_LEVEL)) by (unfold PT_PAGE_TABLE_LEVEL; lia). change (ptes (al_mmu st1) p) with (ptes m p). rewrite Hlarge. done. }
  destruct (rw_caches _ _ _ _ _ _ R1) as (C1 & C2 & C3).
  pose proof (lv_range _ _ _ _ _ _ _ (pl_levels _ _ _ _ _ _ _ (ao_pools _ _ _ _ _ _ (dt_alloc _ _ _ _ _ _ _ T0))) _ sp Hsp) as [_ Hrange].
  match goal with |- context [vmrun_mmu_get_page _ _ _ _ _ _ _ _ _ _ _ _ _ _ _ ?z] => change z with st1 end.
  match goal with |- context [Z.shiftr (Z.land ?x ?y) ?z] => replace (Z.shiftr (Z.land x y) z) with (table_gfn gfn (l - 1)) by (symmetry; apply pseudo_gfn_eq; [lia|done]) end.
  destruct (get_page_direct_ok g env va gfn_to_memslot role_gfn_to_memslot vcpu_gfn_to_memslot PT64_ROOT_MAX_LEVEL vp sync_page page_content
              st1 (table_gfn gfn (l - 1)) (Z.shiftl gfn PAGE_SHIFT) (l - 1) ACC_ALL (dt_alloc _ _ _ _ _ _ _ T1) (dt_local _ _ _ _ _ _ _ T1) (proj1 Hvp))
    as (a & st2 & E2 & Hok2 & Hi2 & Hpf & _ & G & W & _); [lia|by rewrite (sr_used _ _ (rw_rest _ _ _ _ _ _ R1))|by rewrite C1|by rewrite C2|].
  rewrite E2. cbn [mbind option_bind]. set (role := wanted_role vp _ _ _ _) in *.
  assert (Hrole : role.(fr_direct) = true ∧ role.(fr_level) = l - 1 ∧ role.(fr_rest).(role_ad_disabled) = false).
  { unfold role, wanted_role. destruct Hvp as [_ Had]. by destruct (_ && _). }
  destruct Hrole as (Hrd & Hrl & Hra).
  pose proof (gained_tree st1 st2 a _ role T1 Hok2 Hi2 G W Hpf Hrd Hra) as T2. pose proof (gained_deepened p st1 st2 G) as D2.
  destruct Hpf as (spa & x & Hspa & Hx & Hga & Hr & _ & Hinv).
  destruct (gn_entries _ _ _ _ _ G _ sp p Hsp1 Hp) as [_ Hh2].
  destruct (link_rewritten st2 p a sp spa x T2) as (s' & E3 & R3 & Ho3 & Hd3); try done.
  - rewrite Hh2. by apply (gn_pages _ _ _ _ _ G).
  - rewrite Hh2. unfold in_use. rewrite Hi2, (gw_obsolete _ _ _ W), <- (dt_local _ _ _ _ _ _ _ T1). destruct (rw_lists _ _ _ _ _ _ R1) as [-> ->].
    change (in_use st (al_header st1 p)). by rewrite C3.
  - rewrite (gn_owner _ _ _ _ _ G). exact Ho1.
  - lia.
  - rewrite Hlv, <- Hrl, <- Hr. done.
  - rewrite Hga. unfold child_gfn. rewrite Hg, Hi, Hlv. symmetry. apply table_gfn_step. lia.
  - rewrite (gn_dmem _ _ _ _ _ G). change (desc_cache (dmem m) ≠ []). by rewrite Hdc.
  - rewrite E3. cbn [mbind option_bind]. eexists _, a. split; [reflexivity|]. set (st3 := upd_shadow (λ _, s') st2) in *.
    split; [by apply (rewritten_tree _ _ _ _ _ _ p st2)|]. split; [|exact Ho3].
    assert (D3 : deepened p st2 st3) by by apply rewritten_deepened.
    destruct (rw_caches _ _ _ _ _ _ R3) as (B1 & B2 & B3). split.
    + intros b spb Hb. by apply D3, D2, D1.
    + intros b spb q Hb Hqb. pose proof (dp_pages _ _ _ D1 b spb Hb) as Hb1. pose proof (dp_pages _ _ _ D2 b spb Hb1) as Hb2.
      by rewrite (dp_header _ _ _ D3 b spb q Hb2 Hqb), (dp_header _ _ _ D2 b spb q Hb1 Hqb), (dp_header _ _ _ D1 b spb q Hb Hqb).
    + intros q b Hne Hob. destruct (dp_links _ _ _ D1 q b Hne Hob) as [V1 O1]. destruct (dp_links _ _ _ D2 q b Hne O1) as [V2 O2].
      destruct (dp_links _ _ _ D3 q b Hne O2) as [V3 O3]. split; [congruence|done].
    + by rewrite (dp_heap _ _ _ D3), (dp_heap _ _ _ D2), (dp_heap _ _ _ D1).
    + rewrite (sr_used _ _ (rw_rest _ _ _ _ _ _ R3)), <- (sr_used _ _ (rw_rest _ _ _ _ _ _ R1)). apply D2.
    + destruct (gn_caches _ _ _ _ _ G). rewrite B1, B2, <- C1, <- C2. split_and!; [done|done|]. rewrite <- Hdc.
      change m with (al_mmu st1). rewrite <- (gn_dmem _ _ _ _ _ G). exact Hd3.
Qed.

(** ** The leaf *)

Lemma on_map_nothing (fa : fault_state) : on_map (λ m, Some (tt, m)) fa = Some (tt, fa).
Proof using Type. unfold on_map. cbn. by destruct fa as [[[] ? ? ? ? ? ? ?] ? ? ? ? ? ? ? ? ? ?]. Qed.

Section Prefetch.
Context (page_header page_of : Z → Z).

(** Nothing is prefetched above the last level, or when the host has no pages. *)
Lemma prefetch_loop_nothing (sp : mmu_page) (access sptep : Z) (n : nat) (spte : Z) (start : option Z) (m : map_state) :
  sp.(role_direct) = true → (∀ slot gfn k, env.(me_pages) slot gfn k = None) →
  prefetch_loop g env page_header page_of gfn_to_memslot vcpu_gfn_to_memslot sp access sptep n spte start m = Some m.
Proof using Type.
  intros Hd Hn. revert spte start. induction n as [|n IH]; intros spte start; [done|]. cbn [prefetch_loop].
  destruct (_ || _); [|apply IH]. destruct start as [first|]; [|apply IH].
  unfold direct_pte_prefetch_many, vmrun_mmu_page_get_gfn. rewrite Hd. cbn [negb mbind option_bind].
  destruct (gfn_to_memslot_dirty_bitmap _ _ _) as [slot|]; [rewrite Hn|]; done.
Qed.

Lemma prefetch_nothing (p : Z) (sp : mmu_page) (x : page_ext) (m : map_state) :
  (ms_mmu m).(pages) !! page_header p = Some sp → m.(ms_shadow).(ss_ext) !! page_header p = Some x → sp.(role_direct) = true →
  (PT_PAGE_TABLE_LEVEL < sp.(role_level) ∨ ∀ slot gfn k, env.(me_pages) slot gfn k = None) →
  direct_pte_prefetch g env page_header page_of gfn_to_memslot vcpu_gfn_to_memslot p m = Some m.
Proof using Type.
  intros Hsp Hx Hd Hn. unfold direct_pte_prefetch. rewrite Hsp. cbn [mbind option_bind]. rewrite Hx. cbn [mbind option_bind].
  destruct (sp_ad_disabled x); [done|]. destruct (Z.gtb_spec (role_level sp) PT_PAGE_TABLE_LEVEL) as [|Hle]; [done|].
  destruct Hn as [?|Hn]; [lia|]. unfold __direct_pte_prefetch. rewrite Hsp. cbn [mbind option_bind]. rewrite Hx. cbn [mbind option_bind].
  rewrite Hd. assert (Em : m <| ms_shadow ::= sp_warn_if (negb true) |> = m) by by destruct m. rewrite Em. by apply prefetch_loop_nothing.
Qed.
End Prefetch.

(** What a walk finds at the entry of the frame. *)
Definition leaf_result (level gfn pfn : Z) (write hw active disallowed emulate : bool) (dirty : list Z) (st : alloc_state) (sp : mmu_page) (v : Z) : Prop :=
  (disallowed = true ∧ PT_PAGE_TABLE_LEVEL < level) ∨
  (v = 0 ∧ head_of (gfn_to_rmap gfn_to_memslot gfn sp) (al_mmu st) = 0) ∨
  ∃ w, SetSpteProps.leaf_entry g level pfn hw w v ∧ (w = true → hw = true ∧ active = false ∧ gfn ∈ dirty) ∧
    (w = false → hw = true → write = true → emulate = true).

(** The request at the last level. *)
Record leaf_request (level gfn pfn : Z) (active disallowed : bool) (s : shadow_state) : Prop := {
  lr_level : 1 <= level <= 3;
  lr_gfn : frame_ok gfn;
  lr_aligned : gfn mod 2 ^ (PT64_LEVEL_BITS * (level - 1)) = 0;
  lr_frame : env.(me_noslot) pfn = false ∧ frame_ok pfn;
  lr_active : vmrun_page_track_is_active vcpu_gfn_to_memslot gfn KVM_PAGE_TRACK_WRITE s.(ss_track) = Some (active, s.(ss_track));
  lr_lpage : level > PT_PAGE_TABLE_LEVEL → mmu_gfn_lpage_is_disallowed vcpu_gfn_to_memslot gfn level s.(ss_track).(tk_heap) = Some disallowed;
  lr_prefetch : PT_PAGE_TABLE_LEVEL < level ∨ ∀ slot gfn k, env.(me_pages) slot gfn k = None
}.

Lemma direct_all (st : alloc_state) : direct_tree st → all_direct (al_shadow st).
Proof using Type.
  intros T0 a sp Ha. destruct (ext_of g va gfn_to_memslot role_gfn_to_memslot PT64_ROOT_MAX_LEVEL st a sp) as [x Hx]; [apply T0|done|].
  by apply (dt_pages _ _ _ _ _ _ _ T0 a sp x).
Qed.

Lemma leaf_map_request (st : alloc_state) (p level gfn pfn : Z) (active disallowed : bool) (sp : mmu_page) (x : page_ext) :
  direct_tree st → (al_mmu st).(pages) !! st.(al_header) p = Some sp → (al_shadow st).(ss_ext) !! st.(al_header) p = Some x →
  entry_in sp p = true → sp.(role_level) = level → sp.(sp_gfn) = table_gfn gfn level →
  spte_index sp p = SHADOW_PT_INDEX (Z.shiftl gfn PAGE_SHIFT) level → (al_mmu st).(dmem).(desc_cache) ≠ [] →
  leaf_request level gfn pfn active disallowed (al_shadow st) →
  map_request env st.(al_header) vcpu_gfn_to_memslot p level gfn pfn sp x active disallowed (al_shadow st).
Proof using Type.
  intros T0 Hsp Hx Hp Hlv Hg Hi Hc [L1 L2 L3 L4 L5 L6 _]. destruct (dt_pages _ _ _ _ _ _ _ T0 _ sp x Hsp Hx) as (Hd & _ & Had).
  split; try done.
  - split; [done|lia].
  - intros _. apply (leaf_gfn_eq sp gfn level); try done. apply L2.
  - intros a Ha. unfold hash_chain in Ha. destruct (ss_hash (al_shadow st) !! _) as [l|] eqn:El; [|by apply elem_of_nil in Ha]. cbn in Ha.
    destruct (ao_hash _ _ _ _ _ _ (dt_alloc _ _ _ _ _ _ _ T0) _ l a El Ha) as [spa Hspa].
    apply (ext_of g va gfn_to_memslot role_gfn_to_memslot PT64_ROOT_MAX_LEVEL st a spa); [apply T0|done].
Qed.

(** The state after [mmu_set_spte] in a fault. *)
Definition mapped (m : map_state) (st : alloc_state) : alloc_state :=
  (upd_shadow (λ _, m.(ms_shadow)) st) <| al_requests ::= λ l, replicate (Z.to_nat m.(ms_requests)) KVM_REQ_TLB_FLUSH ++ l |>.

Notation mmu_set_spte st := (mmu_set_spte g env st.(al_header) (al_page_of va st) gfn_to_memslot vcpu_gfn_to_memslot).

Lemma map_rewritten (st : alloc_state) (p level gfn pfn : Z) (write prefault hw active disallowed : bool) (sp : mmu_page) (m : map_state) :
  direct_tree st → m.(ms_shadow) = al_shadow st → (al_mmu st).(pages) !! st.(al_header) p = Some sp → entry_in sp p = true → in_use st (st.(al_header) p) →
  sp.(role_level) = level → sp.(sp_gfn) = table_gfn gfn level → spte_index sp p = SHADOW_PT_INDEX (Z.shiftl gfn PAGE_SHIFT) level →
  (al_mmu st).(dmem).(desc_cache) ≠ [] → leaf_request level gfn pfn active disallowed (al_shadow st) →
  ∃ e m', mmu_set_spte st p ACC_ALL write level gfn pfn prefault hw m = Some (e, m') ∧ rewritten p st (mapped m' st) ∧
    m'.(ms_released) = m.(ms_released) ++ [pfn] ∧
    leaf_result level gfn pfn write hw active disallowed e m'.(ms_dirty) (mapped m' st) sp ((ms_mmu m').(ptes) p).
Proof using KO LM.
  intros T0 Em Hsp Hp Hu Hlv Hg Hi Hc Hrq. destruct (pg_tables _ _ _ _ _ _ _ T0) as (LL & DD & Hsh).
  destruct (ext_of g va gfn_to_memslot role_gfn_to_memslot PT64_ROOT_MAX_LEVEL st _ sp ltac:(apply T0) Hsp) as [x Hx].
  pose proof (leaf_map_request st p level gfn pfn active disallowed sp x T0 Hsp Hx Hp Hlv Hg Hi Hc Hrq) as Hmr.
  destruct (lr_frame _ _ _ _ _ _ Hrq) as [_ Hf]. pose proof (lr_level _ _ _ _ _ _ Hrq) as Hl. rewrite <- Em in Hsh, Hmr.
  destruct (mmu_set_spte_spec g env st.(al_header) (al_page_of va st) gfn_to_memslot vcpu_gfn_to_memslot LM LL DD m p ACC_ALL level gfn pfn
              write prefault hw active disallowed sp x Hsh Hmr) as (e & m' & LL' & DD' & E & Hok' & Hrel & Hres & Hother & Hpages).
  specialize (Hpages (direct_all st T0 _ sp Hsp)). unfold ms_mmu in *. rewrite Em in *.
  destruct (drop_old_spte_ok g st.(al_header) (al_page_of va st) gfn_to_memslot LL DD p level pfn sp _ Hsh Hsp Hp Hlv ltac:(lia))
    as (was & s1 & _ & _ & Ed & _ & Hkept & _).
  assert (Hrest : same_rest (al_shadow st) m'.(ms_shadow)).
  { rewrite <- Em. eapply mmu_set_spte_rest; [rewrite Em; exact Ed| |exact E]. intros a spa. rewrite (kp_pages _ _ Hkept). apply (direct_all st T0). }
  exists e, m'. split; [exact E|]. split; [|split; [done|]].
  - split; try done.
    + by exists LL', DD'.
    + intros q b Hne [Ho|Ho]; change (ptes (mmu m'.(ms_shadow)) q = ptes (al_mmu st) q).
      * destruct (Hother q Hne) as [?|[_ Ho']]; [done|congruence].
      * destruct (Hother q Hne) as [?|[Hz _]]; [done|]. destruct (owner_elim _ _ _ _ _ _ _ Ho) as (_ & _ & _ & Hpr & _).
        change (ptes (al_mmu (mapped m' st)) q) with (ptes (mmu m'.(ms_shadow)) q) in Hpr. by rewrite Hz in Hpr.
    + intros q Hne Ho. rewrite <- Ho. apply same_value; [done|done|]. change (ptes (mmu m'.(ms_shadow)) q = ptes (al_mmu st) q).
      destruct (Hother q Hne) as [?|[_ Ho']]; [done|congruence].
    + intros b Ho. left. change (ptes (mmu m'.(ms_shadow)) p = ptes (al_mmu st) p).
      assert (Hz : ptes (mmu m'.(ms_shadow)) p ≠ 0).
      { intros Hz. destruct (owner_elim _ _ _ _ _ _ _ Ho) as (_ & _ & _ & Hpr & _).
        change (ptes (al_mmu (mapped m' st)) p) with (ptes (mmu m'.(ms_shadow)) p) in Hpr. by rewrite Hz in Hpr. }
      destruct Hres as [_ _ [?|?]|_ ?|w k Hv _ _ _ _]; try done. exfalso. destruct (owner_elim _ _ _ _ _ _ _ Ho) as (sp' & Hsp' & _ & _ & Ht).
      change (pages (mmu m'.(ms_shadow)) !! st.(al_header) p = Some sp') in Hsp'. rewrite Hpages, Hsp in Hsp'. injection Hsp' as <-.
      apply value_table in Ht as [Hlast _]. change (ptes (al_mmu (mapped m' st)) p) with (ptes (mmu m'.(ms_shadow)) p) in Hlast.
      pose proof (leaf_last g level pfn hw w _ ltac:(lia) Hf Hv) as Hl'. unfold ms_mmu in Hl'. rewrite Hlv in Hlast. congruence.
  - destruct Hres as [Hd Hlt _|Hn Hz|w k Hv _ _ Hw1 Hw0].
    + left. split; [done|lia].
    + right; left. split; [done|]. change (al_mmu (mapped m' st)) with (mmu m'.(ms_shadow)).
      pose proof (lo_rep _ _ _ (sk_lists _ _ _ _ _ _ _ Hok') (Rm (gfn_to_rmap gfn_to_memslot gfn sp)) I) as Hrep. rewrite Hn in Hrep. by apply rep_nil in Hrep as [? _].
    + right; right. exists w. split; [exact Hv|]. split.
      * intros Hw. destruct (Hw1 Hw) as (? & _ & [Ha _] & Hd). done.
      * intros Hw Hh Hwr. by apply Hw0.
Qed.

(** The host frame is released, and no other reference changes hands. *)
Definition released_once (pfn : Z) (fa fa' : fault_state) : Prop :=
  fa'.(fa_released) = fa.(fa_released) ++ [pfn] ∧ fa'.(fa_got) = fa.(fa_got).

Lemma direct_map_leaf_ok (fa : fault_state) (p level gfn pfn : Z) (write prefault hw active disallowed : bool) (sp : mmu_page) :
  let st := fa.(fa_alloc) in
  direct_tree st → (al_mmu st).(pages) !! st.(al_header) p = Some sp → entry_in sp p = true → in_use st (st.(al_header) p) →
  sp.(role_level) = level → sp.(sp_gfn) = table_gfn gfn level → spte_index sp p = SHADOW_PT_INDEX (Z.shiftl gfn PAGE_SHIFT) level →
  (al_mmu st).(dmem).(desc_cache) ≠ [] → leaf_request level gfn pfn active disallowed (al_shadow st) →
  ∃ e fa', direct_map_leaf g env va gfn_to_memslot vcpu_gfn_to_memslot p write hw level gfn pfn prefault fa = Some (e, fa') ∧
    direct_tree fa'.(fa_alloc) ∧ rewritten p st fa'.(fa_alloc) ∧ released_once pfn fa fa' ∧
    leaf_result level gfn pfn write hw active disallowed e fa'.(fa_dirty) fa'.(fa_alloc) sp ((al_mmu fa'.(fa_alloc)).(ptes) p).
Proof using KO LM.
  intros st T0 Hsp Hp Hu Hlv Hg Hi Hc Hrq. unfold direct_map_leaf. fold st.
  set (m := {| ms_shadow := fa_shadow fa; ms_dirty := fa.(fa_dirty); ms_requests := 0; ms_released := fa.(fa_released) |}).
  destruct (map_rewritten st p level gfn pfn write prefault hw active disallowed sp m T0 eq_refl Hsp Hp Hu Hlv Hg Hi Hc Hrq)
    as (e & m' & E & R & Hrel & Hres).
  set (fa1 := upd_alloc (mapped m') (fa <| fa_dirty := m'.(ms_dirty) |> <| fa_released := m'.(ms_released) |>)).
  assert (E1 : on_map (mmu_set_spte st p ACC_ALL write level gfn pfn prefault hw) fa = Some (e, fa1)) by (unfold on_map; fold m; by rewrite E).
  rewrite E1. cbn [mbind option_bind].
  assert (Ealloc : fa1.(fa_alloc) = mapped m' st) by done.
  pose proof (rewritten_tree _ _ _ _ _ _ p st _ T0 R) as T1.
  assert (Epre : on_map (λ m, m ← direct_pte_prefetch g env (al_header st) (al_page_of va st) gfn_to_memslot vcpu_gfn_to_memslot p m; Some (tt, m)) fa1 = Some (tt, fa1)).
  { rewrite <- (on_map_nothing fa1). unfold on_map.
    assert (Hsp1 : (mmu (fa_shadow fa1)).(pages) !! st.(al_header) p = Some sp) by (change (fa_shadow fa1) with (al_shadow (mapped m' st)); by rewrite (rw_pages _ _ _ _ _ _ R)).
    destruct (ext_of g va gfn_to_memslot role_gfn_to_memslot PT64_ROOT_MAX_LEVEL (mapped m' st) (st.(al_header) p) sp ltac:(apply T1) Hsp1) as [x1 Hx1].
    rewrite (prefetch_nothing (al_header st) (al_page_of va st) p sp x1); [done|exact Hsp1|exact Hx1|by apply (direct_all _ T1 (al_header st p))|].
    rewrite Hlv. apply Hrq. }
  rewrite Epre. cbn [mbind option_bind]. eexists e, _. split; [reflexivity|]. split; [exact T1|]. split; [exact R|]. split; [split; [exact Hrel|done]|exact Hres].
Qed.

(** ** Down from the root *)

Context (ctx : mmu_context) (pae_root : list Z).

Notation direct_map_loop := (direct_map_loop g env va pa gfn_to_memslot role_gfn_to_memslot vcpu_gfn_to_memslot PT64_ROOT_MAX_LEVEL vp sync_page
                               page_content ctx pae_root).

(** A walk that stops at a level. *)
Definition stop_at (level : Z) (it : shadow_walk_iterator) (spte : Z) (u : unit) : unit * bool := (u, it.(it_level) =? level).

(** The walk from [it] over the tables of [fa] comes to entry [p] at [level]. *)
Definition reaches (fa : fault_state) (level : Z) (fuel : nat) (it : shadow_walk_iterator) (p : Z) : Prop :=
  ∀ spte t, ∃ w, walk_lockless (locked_walk va ctx pae_root fa) (stop_at level) fuel {| wk_it := it; wk_spte := spte; wk_time := t |} tt = Some (w, tt) ∧
    w.(wk_it).(it_sptep) = Some p ∧ w.(wk_it).(it_level) = level ∧ w.(wk_spte) = (mmu (fa_shadow fa)).(ptes) p.

(** The iterator is at table [a]. *)
Record at_table (gfn : Z) (st : alloc_state) (it : shadow_walk_iterator) (a : Z) (sp : mmu_page) : Prop := {
  ai_addr : it.(it_addr) = Z.shiftl gfn PAGE_SHIFT;
  ai_page : (al_mmu st).(pages) !! a = Some sp;
  ai_level : it.(it_level) = sp.(role_level);
  ai_table : va it.(it_shadow_addr) = sp.(sp_spt);
  ai_in_use : in_use st a;
  ai_gfn : sp.(sp_gfn) = table_gfn gfn sp.(role_level)
}.

(** The caches are good for [n] more tables and a leaf. *)
Record room_for (n : Z) (st : alloc_state) : Prop := {
  rf_headers : n <= Z.of_nat (length st.(al_headers));
  rf_pages : n <= Z.of_nat (length st.(al_pages));
  rf_descs : n < Z.of_nat (length (al_mmu st).(dmem).(desc_cache));
  rf_used : (al_shadow st).(ss_used) + n < 2 ^ 32
}.

Lemma room_deepened (p n : Z) (st st' : alloc_state) : deepened p st st' → room_for n st → room_for (n - 1) st'.
Proof using Type. intros [_ _ _ _ D5 (D6 & D7 & D8)] [R1 R2 R3 R4]. split; lia. Qed.

Lemma request_heap (level gfn pfn : Z) (active disallowed : bool) (s s' : shadow_state) :
  s'.(ss_track).(tk_heap) = s.(ss_track).(tk_heap) → leaf_request level gfn pfn active disallowed s → leaf_request level gfn pfn active disallowed s'.
Proof using Type.
  intros Hh [L1 L2 L3 L4 L5 L6 L7]. split; try done.
  - revert L5. unfold vmrun_page_track_is_active. destruct (negb _).
    + intros [= _ H]. apply (f_equal tk_warns) in H. cbn in H. lia.
    + destruct (vcpu_gfn_to_memslot gfn) as [slot|]; [|by intros [= <-]]. rewrite Hh. destruct (load _ _ _); [|done]. cbn. by intros [= <-].
  - by rewrite Hh.
Qed.

(** The entry of the walk in the table. *)
Lemma table_entry (gfn : Z) (st : alloc_state) (it : shadow_walk_iterator) (a : Z) (sp : mmu_page) :
  direct_tree st → at_table gfn st it a sp →
  let i := SHADOW_PT_INDEX it.(it_addr) it.(it_level) in
  let p := va it.(it_shadow_addr) + 8 * i in
  entry_in sp p = true ∧ st.(al_header) p = a ∧ spte_index sp p = SHADOW_PT_INDEX (Z.shiftl gfn PAGE_SHIFT) sp.(role_level).
Proof using Type.
  intros T0 [A1 A2 A3 A4 A5 A6] i p. pose proof (index_bound (it_addr it) (it_level it)) as Hi. fold i in Hi.
  assert (Hp : entry_in sp p = true) by (unfold p; rewrite A4; by apply entry_at).
  destruct (pg_tables _ _ _ _ _ _ _ T0) as (LL & DD & Hsh). split; [done|]. split.
  - by apply (po_header _ _ _ (en_pages _ _ _ _ _ _ (sk_entries _ _ _ _ _ _ _ Hsh) a sp A2)).
  - unfold p, spte_index. rewrite A4. replace (sp_spt sp + 8 * i - sp_spt sp) with (i * 8) by lia. rewrite Z.div_mul by lia.
    unfold i. by rewrite A1, A3.
Qed.

Lemma direct_map_loop_ok (gfn level pfn : Z) (write prefault hw active disallowed : bool) (fuel : nat) :
  ∀ (it : shadow_walk_iterator) (fa : fault_state) (a : Z) (sp : mmu_page),
  let st := fa.(fa_alloc) in
  direct_tree st → at_table gfn st it a sp → level <= sp.(role_level) → (Z.to_nat sp.(role_level) < fuel)%nat →
  room_for (sp.(role_level) - level) st → leaf_request level gfn pfn active disallowed (al_shadow st) →
  ∃ e fa' p spl, direct_map_loop fuel it write hw level gfn pfn prefault fa = Some (e, fa') ∧ direct_tree fa'.(fa_alloc) ∧
    released_once pfn fa fa' ∧ reaches fa' level fuel it p ∧
    leaf_result level gfn pfn write hw active disallowed e fa'.(fa_dirty) fa'.(fa_alloc) spl ((mmu (fa_shadow fa')).(ptes) p) ∧
    (∀ q b spq, al_owner st q = Some (Pg b) → (al_mmu st).(pages) !! st.(al_header) q = Some spq → sp.(role_level) < spq.(role_level) →
       (mmu (fa_shadow fa')).(ptes) q = (al_mmu st).(ptes) q).
Proof using KO LM Hvp.
  induction fuel as [|fuel IH]; intros it fa a sp st T0 A Hle Hfuel Hroom Hrq; [lia|].
  destruct (table_entry gfn st it a sp T0 A) as (Hp & Hh & Hidx). pose proof A as [A1 A2 A3 A4 A5 A6].
  pose proof (lr_level _ _ _ _ _ _ Hrq) as Hlv. pose proof (lr_gfn _ _ _ _ _ _ Hrq) as Hf. pose proof Hroom as [B1 B2 B3 B4].
  assert (Hok : shadow_walk_okay (locked_walk va ctx pae_root fa) it =
    Some (it <| it_index := Some (SHADOW_PT_INDEX it.(it_addr) it.(it_level)) |>
             <| it_sptep := Some (va it.(it_shadow_addr) + 8 * SHADOW_PT_INDEX it.(it_addr) it.(it_level)) |>)).
  { unfold shadow_walk_okay. destruct (Z.ltb_spec (it_level it) PT_PAGE_TABLE_LEVEL) as [Hlt|]; [unfold PT_PAGE_TABLE_LEVEL in Hlt; lia|done]. }
  cbn [MmuFault.direct_map_loop]. rewrite Hok. set (it1 := it <| it_index := _ |> <| it_sptep := _ |>).
  set (p := va it.(it_shadow_addr) + 8 * SHADOW_PT_INDEX it.(it_addr) it.(it_level)) in *.
  change (it_sptep it1) with (Some p). cbn [mbind option_bind]. change (it_level it1) with (it_level it). change (it_addr it1) with (it_addr it).
  assert (Hsp : (al_mmu st).(pages) !! st.(al_header) p = Some sp) by by rewrite Hh.
  assert (Hu : in_use st (st.(al_header) p)) by by rewrite Hh.
  destruct (Z.eqb_spec (it_level it) level) as [El|El].
  - destruct (direct_map_leaf_ok fa p level gfn pfn write prefault hw active disallowed sp T0 Hsp Hp Hu ltac:(lia)) as (e & fa' & E & T1 & R & Hrel & Hres); try done.
    + by rewrite A6, <- A3, El.
    + by rewrite Hidx, <- A3, El.
    + intros E0. fold st in E0. rewrite E0 in B3. cbn in B3. lia.
    + exists e, fa', p, sp. split; [exact E|]. split; [done|]. split; [done|]. split; [|split; [exact Hres|]].
      * intros spte t. cbn [walk_lockless wk_it]. change (shadow_walk_okay (locked_walk va ctx pae_root fa') it) with (shadow_walk_okay (locked_walk va ctx pae_root fa) it).
        rewrite Hok. fold it1. change (it_sptep it1) with (Some p). cbn [mbind option_bind]. unfold stop_at at 1. change (it_level it1) with (it_level it).
        rewrite (proj2 (Z.eqb_eq _ _) El). eexists. split; [reflexivity|]. split; [done|]. split; [exact El|done].
      * intros q b spq Ho Hq Hlt. apply (rw_links _ _ _ _ _ _ R q b); [|by left]. intros ->. assert (spq = sp) as -> by congruence. lia.
  - destruct (direct_map_table_ok fa p gfn sp.(role_level) sp T0 Hsp Hp eq_refl ltac:(lia) Hu A6 Hidx Hf) as (st1 & b & E & T1 & D & Ho1).
    { intros E0. fold st in E0. rewrite E0 in B1. cbn in B1. lia. } { intros E0. fold st in E0. rewrite E0 in B2. cbn in B2. lia. }
    { intros E0. fold st in E0. rewrite E0 in B3. cbn in B3. lia. } { fold st. lia. }
    rewrite A1, A3, E. cbn [mbind option_bind]. set (fa1 := fa <| fa_alloc := st1 |>).
    change (ptes (mmu (fa_shadow fa1)) p) with (ptes (al_mmu st1) p).
    assert (Hsp1 : (al_mmu st1).(pages) !! st1.(al_header) p = Some sp) by (rewrite (dp_header _ _ _ D a sp p A2 Hp); by apply (dp_pages _ _ _ D)).
    destruct (link_child st1 p b gfn sp.(role_level) sp T1 Hsp1 Ho1 eq_refl ltac:(lia) A6 Hidx) as (sb & Hsb & Hlb & Hgb).
    destruct (owner_elim _ _ _ _ _ _ _ Ho1) as (sp' & Hsp' & _ & _ & Hval). assert (sp' = sp) as -> by congruence.
    apply value_table in Hval as [Hlast _]. pose proof (ao_links _ _ _ _ _ _ (dt_alloc _ _ _ _ _ _ _ T1) p b sb Ho1 Hsb) as Hva.
    set (v := ptes (al_mmu st1) p) in *.
    set (it2 := __shadow_walk_next v it1).
    assert (Eit : it2 = it1 <| it_shadow_addr := Z.land v PT64_BASE_ADDR_MASK |> <| it_level ::= λ l, l - 1 |>).
    { unfold it2, __shadow_walk_next. change (it_level it1) with (it_level it). by rewrite A3, Hlast. }
    assert (A' : at_table gfn st1 it2 b sb).
    { rewrite Eit. split; cbn; [done|done|rewrite A3; lia|done|by apply (linked_in_use st1 p)|by rewrite Hgb, Hlb]. }
    destruct (IH it2 fa1 b sb T1 A') as (e & fa' & pl & spl & E' & T' & Hrel & Hreach & Hres & Hkeep); [lia|lia| | |].
    { rewrite Hlb. replace (role_level sp - 1 - level) with (role_level sp - level - 1) by lia. by apply (room_deepened p _ st). }
    { apply (request_heap _ _ _ _ _ (al_shadow st)); [apply D|done]. }
    exists e, fa', pl, spl. split; [exact E'|]. split; [done|]. split; [done|].
    assert (Hv : (mmu (fa_shadow fa')).(ptes) p = v) by (apply (Hkeep p b sp Ho1 Hsp1); lia).
    split; [|split; [exact Hres|]].
    + intros spte t. cbn [walk_lockless wk_it]. change (shadow_walk_okay (locked_walk va ctx pae_root fa') it) with (shadow_walk_okay (locked_walk va ctx pae_root fa) it).
      rewrite Hok. fold it1. change (it_sptep it1) with (Some p). cbn [mbind option_bind]. unfold stop_at at 1. change (it_level it1) with (it_level it).
      rewrite (proj2 (Z.eqb_neq _ _) El). cbn [wk_time].
      change (we_mem (locked_walk va ctx pae_root fa') t p) with (ptes (mmu (fa_shadow fa')) p). rewrite Hv. exact (Hreach v (S t)).
    + intros q c spq Ho Hq Hlt. assert (Hne : q ≠ p) by (intros ->; assert (spq = sp) as -> by congruence; lia).
      destruct (dp_links _ _ _ D q c Hne Ho) as [Hv1 Ho1']. fold st in Hv1. rewrite <- Hv1. apply (Hkeep q c spq Ho1'); [|lia].
      destruct (owner_elim _ _ _ _ _ _ _ Ho) as (spq' & Hq' & Hin & _). assert (spq' = spq) as -> by congruence.
      change (fa_alloc fa1) with st1. rewrite (dp_header _ _ _ D _ spq q Hq Hin). by apply (dp_pages _ _ _ D).
Qed.

(** The root of a direct map without PAE roots. *)
Record direct_root (st : alloc_state) (a : Z) (sp : mmu_page) : Prop := {
  ro_valid : VALID_PAGE ctx.(ctx_root_hpa) = true;
  ro_direct : ctx.(ctx_direct_map) = true;
  ro_level : sp.(role_level) = ctx.(ctx_shadow_root_level) ∧ ctx.(ctx_shadow_root_level) ≠ PT32E_ROOT_LEVEL;
  ro_page : (al_mmu st).(pages) !! a = Some sp;
  ro_table : va ctx.(ctx_root_hpa) = sp.(sp_spt);
  ro_gfn : sp.(sp_gfn) = 0;
  ro_in_use : a ∈ (al_shadow st).(ss_active)
}.

Lemma direct_map_ok (fa : fault_state) (a : Z) (sp : mmu_page) (level gfn pfn : Z) (write prefault hw active disallowed : bool) :
  let st := fa.(fa_alloc) in
  direct_tree st → direct_root st a sp → level <= sp.(role_level) → gfn < 2 ^ (PT64_LEVEL_BITS * sp.(role_level)) →
  room_for (sp.(role_level) - level) st → leaf_request level gfn pfn active disallowed (al_shadow st) →
  ∃ e fa' w p spl,
    __direct_map g env va pa gfn_to_memslot role_gfn_to_memslot vcpu_gfn_to_memslot PT64_ROOT_MAX_LEVEL vp sync_page page_content ctx pae_root
      write hw level gfn pfn prefault fa = Some (e, fa') ∧
    direct_tree fa'.(fa_alloc) ∧ released_once pfn fa fa' ∧
    for_each_shadow_entry_lockless (locked_walk va ctx pae_root fa') (stop_at level) (Z.shiftl gfn PAGE_SHIFT) 0 0 tt = Some (w, tt) ∧
    w.(wk_it).(it_sptep) = Some p ∧ w.(wk_it).(it_level) = level ∧
    leaf_result level gfn pfn write hw active disallowed e fa'.(fa_dirty) fa'.(fa_alloc) spl w.(wk_spte).
Proof using KO LM Hvp.
  intros st T0 [R1 R2 [R3 R3'] R4 R5 R6 R7] Hle Hg Hroom Hrq. pose proof (lr_gfn _ _ _ _ _ _ Hrq) as [Hr _]. pose proof (lr_level _ _ _ _ _ _ Hrq) as Hlv.
  assert (Haddr : u64 (Z.shiftl gfn PAGE_SHIFT) = Z.shiftl gfn PAGE_SHIFT).
  { apply wrap_id. unfold is_u. rewrite Z.shiftl_mul_pow2 by done. change PAGE_SHIFT with 12. lia. }
  assert (Hinit : ∀ f, shadow_walk_init (locked_walk va ctx pae_root f) (Z.shiftl gfn PAGE_SHIFT) =
    {| it_addr := Z.shiftl gfn PAGE_SHIFT; it_shadow_addr := ctx.(ctx_root_hpa); it_sptep := None; it_level := ctx.(ctx_shadow_root_level); it_index := None |}).
  { intros f. unfold shadow_walk_init, locked_walk. cbn [we_mmu]. rewrite R2. cbn [negb]. rewrite andb_false_r. cbn [it_level].
    by rewrite (proj2 (Z.eqb_neq _ _) R3'). }
  unfold MmuFault.__direct_map. rewrite R1. cbn [negb]. rewrite Haddr, Hinit. set (it := {| it_addr := _; it_level := _ |}).
  destruct (direct_map_loop_ok gfn level pfn write prefault hw active disallowed (walk_fuel it) it fa a sp T0)
    as (e & fa' & p & spl & E & T' & Hrel & Hreach & Hres & _); [|done| |done|done|].
  - split; cbn; try done. + by apply active_in_use. + rewrite R6. symmetry. apply table_gfn_root; lia.
  - unfold walk_fuel. cbn. lia.
  - destruct (Hreach 0 O) as (w & Ew & Ep & El & Ev). exists e, fa', w, p, spl. split; [exact E|]. split; [done|]. split; [done|].
    unfold for_each_shadow_entry_lockless. rewrite Hinit. fold it. split; [exact Ew|]. split; [done|]. split; [done|]. by rewrite Ev.
Qed.

End DirectMap.

(* ------------------------------------------------------------------ *)
(** ** An example: a root of four levels without entries *)

Definition bare_shadow : shadow_state :=
  {| ss_track := {| tk_heap := big_heap; tk_warns := 0; indirect_shadow_pages := 0; tk_mmu :=
       {| ptes := λ _, 0; heads := ∅;
          dmem := {| descs := {[ 0x10 := zero_desc; 0x20 := zero_desc; 0x30 := zero_desc; 0x40 := zero_desc ]}; desc_cache := [0x10; 0x20; 0x30; 0x40] |};
          pages := {[ 1 := tree_page 1 4 ]}; events := []; stat_lpages := 0; remote_flushes := 0 |} |};
     ss_ext := {[ 1 := (tree_ext 0 false) <| px_root_count := 1 |> ]};
     ss_active := [1]; ss_hash := ∅; ss_used := 1; ss_max := 64; ss_valid_gen := 0; ss_stat_unsync := 0;
     ss_stat_zapped := 0; ss_reloads := 0; ss_warns := 0 |}.

Definition bare_alloc : alloc_state :=
  {| al_zap := {| zs_shadow := bare_shadow; zs_invalid := []; zs_obsolete := []; zs_total := 1; zs_freed := [] |};
     al_header := tree_header; al_pages := [0x8000; 0x9000; 0xa000; 0xb000]; al_headers := [8; 9; 10; 11];
     al_requests := []; al_cache_miss := 0; al_collisions := 0; al_recycled := 0 |}.

Definition bare_fault : fault_state :=
  {| fa_alloc := bare_alloc; fa_dirty := []; fa_released := []; fa_got := []; fa_pf_fixed := 0; fa_mmio := None; fa_poison := [];
     fa_apf_id := 0; fa_apf := []; fa_gpa := None; fa_mmio_exits := 0 |}.

Definition no_rsvd : rsvd_bits_validate := {| rsvd_mask0 := replicate 5 0; rsvd_mask1 := replicate 5 0; bad_mt_xwr := 0 |}.
Definition tdp_ctx : mmu_context :=
  {| ctx_nx := true; ctx_root_level := 4; ctx_shadow_root_level := 4; ctx_root_hpa := 0x1000; ctx_direct_map := true;
     ctx_permissions := replicate 16 0; ctx_pkru_mask := 0; ctx_last_nonleaf_level := 0; ctx_guest_rsvd := no_rsvd; ctx_shadow_zero := no_rsvd;
     ctx_base_role := no_role; ctx_ept_ad := false; ctx_ops := no_ops |}.

Lemma bare_owner (p : Z) : owner_of (K := kvm_pte_x86) x86_masks tree_header (al_page_of (λ p, p) bare_alloc) tree_slot bare_shadow p = None.
Proof. unfold owner_of. destruct (_ !! tree_header p) as [sp|]; [|done]. cbn. by destruct (entry_in sp p). Qed.

Lemma bare_page (a : Z) (sp : mmu_page) : (mmu bare_shadow).(pages) !! a = Some sp → a = 1 ∧ sp = tree_page 1 4.
Proof. change (pages (mmu bare_shadow)) with ({[ 1 := tree_page 1 4 ]} : gmap Z mmu_page). by intros [<- <-]%lookup_singleton_Some. Qed.

Lemma bare_tables : shadow_ok (K := kvm_pte_x86) x86_masks tree_header (al_page_of (λ p, p) bare_alloc) tree_slot (λ _, []) (λ _, []) bare_shadow.
Proof.
  assert (Hx : ∀ a x, bare_shadow.(ss_ext) !! a = Some x → a = 1 ∧ x = (tree_ext 0 false) <| px_root_count := 1 |>).
  { intros a x. cbn [bare_shadow ss_ext]. by intros [<- <-]%lookup_singleton_Some. }
  split.
  - split.
    + intros [k|a]; cbn [owner_live owner_head].
      * intros _. unfold head_of. change (heads (mmu bare_shadow)) with (∅ : gmap rmap_key Z). rewrite lookup_empty. apply rep_none.
      * intros [x E]. rewrite E. destruct (Hx a x E) as [-> ->]. apply rep_none.
    + intros o o' q _ _ _ Hq. by apply elem_of_nil in Hq.
    + intros o _. split; [by apply (bool_decide_unpack _)|].
      intros q Hq. cbn in Hq. rewrite !elem_of_cons, elem_of_nil in Hq. destruct Hq as [->|[->|[->|[->|[]]]]]; (split; [split; done|reflexivity]).
  - split.
    + intros a sp [-> ->]%bare_page. split; [|intros p; apply tree_entry|done].
      split; [split; [unfold is_u; cbn; lia|cbn; lia|done]|]. cbn. change PT64_ENT_PER_PAGE with 512. lia.
    + intros a. change (pages (mmu bare_shadow)) with ({[ 1 := tree_page 1 4 ]} : gmap Z mmu_page). cbn [bare_shadow ss_ext].
      rewrite <- !elem_of_dom, !dom_singleton. done.
    + intros o p _. rewrite bare_owner. split; [by intros ?%elem_of_nil|done].
    + intros o p. by rewrite bare_owner.
    + intros o _. constructor.
  - intros a x [-> ->]%Hx. split; [apply length_replicate|]. by vm_compute.
  - intros a x p _ _ _ ?%elem_of_nil. done.
Qed.

Lemma bare_tree : direct_tree (K := kvm_pte_x86) (T := kvm_track) x86_masks (λ p, p) (λ p, p) tree_slot tree_role_slot tree_level bare_alloc.
Proof.
  assert (Hx : ∀ a x, bare_shadow.(ss_ext) !! a = Some x → a = 1 ∧ x = (tree_ext 0 false) <| px_root_count := 1 |>).
  { intros a x. cbn [bare_shadow ss_ext]. by intros [<- <-]%lookup_singleton_Some. }
  split; [split| | | |done]; change (al_shadow bare_alloc) with bare_shadow.
  - split.
    + eexists _, _. exact bare_tables.
    + split.
      * intros a sp [-> ->]%bare_page. split; [done|]. change (Z.of_nat tree_level) with 5. cbn [tree_page role_level]. lia.
      * intros p a sp sc. by rewrite bare_owner.
      * intros a sp x [-> ->]%bare_page [_ ->]%Hx. cbn. split; [done|]. by split.
      * intros a sp [-> ->]%bare_page. done.
    + by apply (bool_decide_unpack _).
    + intros a. cbn [zs_shadow al_zap bare_alloc bare_shadow ss_ext]. rewrite <- elem_of_dom, dom_singleton. cbn. set_solver.
    + intros a ?%elem_of_nil. done.
    + split; [done|]. unfold is_u. cbn. lia.
  - intros p b sp. by rewrite bare_owner.
  - split; change (al_shadow bare_alloc) with bare_shadow.
    + split; [by apply (bool_decide_unpack _)|]. intros a Ha. cbn in Ha. rewrite !elem_of_cons, elem_of_nil in Ha.
      destruct (pages (mmu bare_shadow) !! a) eqn:E; [|split; [lia|done]]. apply bare_page in E as [-> _]. lia.
    + split; [by apply (bool_decide_unpack _)|]. intros q Hq. cbn in Hq. rewrite !elem_of_cons, elem_of_nil in Hq.
      destruct Hq as [->|[->|[->|[->|[]]]]]; [apply (small_table 8)|apply (small_table 9)|apply (small_table 10)|apply (small_table 11)]; lia.
    + intros b sp [-> ->]%bare_page. split; [apply (small_table 1); lia|by apply (bool_decide_unpack _)].
  - intros i l a. cbn [bare_shadow ss_hash]. by rewrite lookup_empty.
  - intros a sp x [-> ->]%bare_page [_ ->]%Hx. done.
  - intros a sp x [-> ->]%bare_page [_ ->]%Hx. done.
  - intros p b sp sc. by rewrite bare_owner.
  - intros q Hq. assert (Hin : q ∈ [0x1000; 0x8000; 0x9000; 0xa000; 0xb000]).
    { destruct Hq as [Hq|(b & sp & [_ ->]%bare_page & <-)]; [by right|by left]. }
    rewrite !elem_of_cons, elem_of_nil in Hin. destruct Hin as [->|[->|[->|[->|[->|[]]]]]]; (split; [vm_compute; reflexivity|done]).
Qed.

(** What the walk finds after the fault on frame 5. *)
Definition bare_found : option (Z * bool * bool) :=
  '(e, fa') ← __direct_map (K := kvm_pte_x86) (T := kvm_track) x86_masks map_x86 (λ p, p) (λ p, p) tree_slot tree_role_slot (λ _, Some big_slot) tree_level
    (direct_vcpu 4) nonpaging_sync_page (λ _, []) tdp_ctx [] true true 1 5 7 false bare_fault;
  '(w, _) ← for_each_shadow_entry_lockless (K := kvm_pte_x86) (locked_walk (λ p, p) tdp_ctx [] fa') (stop_at 1) 0x5000 0 0 tt;
  Some (spte_to_pfn (K := kvm_pte_x86) w.(wk_spte), is_writable_pte w.(wk_spte), e).

