(* ===== verification/MmuFaultProps.v ===== *)
(** * Page faults under the lock: properties

    What [transparent_hugepage_adjust] makes of a frame, and the part of a
    fault that runs under the MMU lock: a frame is mapped or given back. *)

From S2P Require Import Prelude.
From S2P Require Import Spte.
From S2P Require Import SpteTrack.
From S2P Require Import Memslots.
From S2P Require Import MemRegion.
From S2P Require Import PteList.
From S2P Require Import Rmap.
From S2P Require Import SlotWalk.
From S2P Require Import GuestPaging.
From S2P Require Import PageTrack.
From S2P Require Import PageTrackProps.
From S2P Require Import FastFault.
From S2P Require Import ShadowPage.
From S2P Require Import ShadowPageProps.
From S2P Require Import MmuInv.
From S2P Require Import SetSpte.
From S2P Require Import SetSpteProps.
From S2P Require Import ZapPage.
From S2P Require Import ZapPageProps.
From S2P Require Import ZapProps.
From S2P Require Import GetPage.
From S2P Require Import GetPageProps.
From S2P Require Import MmuFault.
From S2P Require Import DirectMapProps.

(** ** Transparent huge pages *)

Definition HPAGE_FRAMES : Z := VMRUN_PAGES_PER_HPAGE PT_DIRECTORY_LEVEL.

Lemma hpage_mask (x : Z) : Z.land x (HPAGE_FRAMES - 1) = x mod HPAGE_FRAMES.
Proof. change (HPAGE_FRAMES - 1) with (Z.ones 9). rewrite Z.land_ones by lia. done. Qed.

Lemma hpage_base (x : Z) : is_u 64 x → Z.land x (not64 (HPAGE_FRAMES - 1)) = x - x mod HPAGE_FRAMES.
Proof.
  intros Hx. change HPAGE_FRAMES with 512. replace (x - x mod 512) with (Z.shiftl (Z.shiftr x 9) 9).
  - apply Z.bits_inj'. intros i Hi. change (512 - 1) with (Z.ones 9). rewrite Z.land_spec, not64_testbit, ones_testbit, Z.shiftl_spec by lia.
    destruct (Z.ltb_spec i 9); cbn [negb].
    + rewrite andb_false_r, andb_false_r. symmetry. apply Z.testbit_neg_r. lia.
    + rewrite Z.shiftr_spec by lia. replace (i - 9 + 9) with i by lia. rewrite andb_true_r. destruct (Z.ltb_spec i 64); [by rewrite andb_true_r|].
      by rewrite (is_u_testbit 64 x i Hx).
  - rewrite Z.shiftl_mul_pow2, Z.shiftr_div_pow2 by lia. change (2 ^ 9) with 512. pose proof (Z.div_mod x 512 ltac:(lia)). lia.
Qed.

(** The request as it is, or the huge page around it. *)
Definition adjusted (level gfn pfn level' gfn' pfn' : Z) : Prop :=
  (level' = level ∧ gfn' = gfn ∧ pfn' = pfn) ∨
  (level = PT_PAGE_TABLE_LEVEL ∧ level' = PT_DIRECTORY_LEVEL ∧ gfn' = gfn - gfn mod HPAGE_FRAMES ∧ pfn' = pfn - pfn mod HPAGE_FRAMES).

(** A reference is moved from a frame to the first one of its huge page. *)
Definition moved_reference (pfn pfn' : Z) (fa fa' : fault_state) : Prop :=
  (pfn' = pfn ∧ fa' = fa) ∨
  fa' = fa <| fa_released := fa.(fa_released) ++ [pfn] |> <| fa_got := fa.(fa_got) ++ [pfn'] |>.

Section Huge.
Context (vcpu_gfn_to_memslot : Z → option vmrun_memory_slot) (fe : fault_env).

Notation transparent_hugepage_adjust := (transparent_hugepage_adjust vcpu_gfn_to_memslot fe).

Lemma thp_ok (gfn pfn level : Z) (fa : fault_state) (disallowed : bool) :
  is_u 64 gfn → is_u 64 pfn → (fe.(fe_trans_compound) pfn = true → gfn mod HPAGE_FRAMES = pfn mod HPAGE_FRAMES) →
  mmu_gfn_lpage_is_disallowed vcpu_gfn_to_memslot gfn PT_DIRECTORY_LEVEL (fa_shadow fa).(ss_track).(tk_heap) = Some disallowed →
  ∃ gfn' pfn' level' fa', transparent_hugepage_adjust gfn pfn level fa = Some (gfn', pfn', level', fa') ∧
    adjusted level gfn pfn level' gfn' pfn' ∧ moved_reference pfn pfn' fa fa' ∧ pfn' - gfn' = pfn - gfn ∧
    (level' ≠ level → fe.(fe_trans_compound) pfn = true ∧ fe.(fe_error_noslot) pfn = false ∧ disallowed = false ∧
       gfn' mod HPAGE_FRAMES = 0 ∧ gfn' <= gfn < gfn' + HPAGE_FRAMES).
Proof using Type.
  intros Hg Hp Hoff Hd. unfold MmuFault.transparent_hugepage_adjust.
  assert (Hsame : ∃ gfn' pfn' level' fa', Some (gfn, pfn, level, fa) = Some (gfn', pfn', level', fa') ∧
    adjusted level gfn pfn level' gfn' pfn' ∧ moved_reference pfn pfn' fa fa' ∧ pfn' - gfn' = pfn - gfn ∧
    (level' ≠ level → fe.(fe_trans_compound) pfn = true ∧ fe.(fe_error_noslot) pfn = false ∧ disallowed = false ∧
       gfn' mod HPAGE_FRAMES = 0 ∧ gfn' <= gfn < gfn' + HPAGE_FRAMES)).
  { exists gfn, pfn, level, fa. split; [done|]. split; [by left|]. split; [by left|]. done. }
  destruct (negb _ && negb _ && (level =? _) && fe_trans_compound fe pfn) eqn:Ec; [|exact Hsame].
  rewrite Hd. cbn [mbind option_bind]. destruct disallowed; cbn [negb]; [exact Hsame|].
  rewrite !andb_true_iff, !negb_true_iff, Z.eqb_eq in Ec. destruct Ec as [[[E1 _] E3] E4]. specialize (Hoff E4).
  fold HPAGE_FRAMES. rewrite !hpage_mask, Hoff, Z.eqb_refl. cbn [negb].
  pose proof (Z.mod_pos_bound gfn HPAGE_FRAMES ltac:(done)) as Hb. rewrite !hpage_base by done.
  assert (Hbase : (gfn - gfn mod HPAGE_FRAMES) mod HPAGE_FRAMES = 0).
  { rewrite (Z.mod_eq gfn HPAGE_FRAMES) by done. replace (gfn - (gfn - HPAGE_FRAMES * (gfn / HPAGE_FRAMES))) with (gfn / HPAGE_FRAMES * HPAGE_FRAMES) by lia. by apply Z.mod_mul. }
  destruct (truth (pfn mod HPAGE_FRAMES)) eqn:Et.
  - eexists _, _, _, _. split; [reflexivity|]. split; [by right|]. split; [by right|]. split; [lia|].
    intros _. split_and!; try done; lia.
  - apply truth_false in Et. exists gfn, pfn, PT_DIRECTORY_LEVEL, fa. split; [done|]. split; [right; split_and!; [done|done|lia|lia]|]. split; [by left|]. split; [done|].
    intros _. split_and!; try done; lia.
Qed.

(** Transparent huge pages.  Given that the frames of a huge page of the
    host lie at the same offset as the guest frames, the adjustment never
    trips over its VM_BUG_ON.  It leaves a request alone, or makes it one for
    the whole huge page: guest frame and host frame are rounded down together
    (their distance stays), the level becomes that of a 2M page, and the
    reference moves from the frame to the head of the huge page.  It does so
    only for frames of the host that are part of such a page, and only where a
    large page is allowed. *)
Theorem thp_adjust_correct (gfn pfn level : Z) (fa : fault_state) (disallowed : bool) :
  is_u 64 gfn → is_u 64 pfn → (fe.(fe_trans_compound) pfn = true → gfn mod HPAGE_FRAMES = pfn mod HPAGE_FRAMES) →
  mmu_gfn_lpage_is_disallowed vcpu_gfn_to_memslot gfn PT_DIRECTORY_LEVEL (fa_shadow fa).(ss_track).(tk_heap) = Some disallowed →
  ∃ gfn' pfn' level' fa', transparent_hugepage_adjust gfn pfn level fa = Some (gfn', pfn', level', fa') ∧
    adjusted level gfn pfn level' gfn' pfn' ∧ moved_reference pfn pfn' fa fa' ∧ pfn' - gfn' = pfn - gfn ∧
    (level' ≠ level → fe.(fe_trans_compound) pfn = true ∧ fe.(fe_error_noslot) pfn = false ∧ disallowed = false ∧
       gfn' mod HPAGE_FRAMES = 0 ∧ gfn' <= gfn < gfn' + HPAGE_FRAMES).
Proof using Type. exact (thp_ok gfn pfn level fa disallowed). Qed.
End Huge.

(** ** Under the lock *)

Section Locked.
Context `{K : KvmPte, KO : !KvmPteOk K} `{T : KvmTrack} (g : shadow_masks) (env : map_env) (va pa : Z → Z)
        (gfn_to_memslot : bool → Z → vmrun_memory_slot) (role_gfn_to_memslot : bool → Z → option vmrun_memory_slot)
        (vcpu_gfn_to_memslot : Z → option vmrun_memory_slot) (PT64_ROOT_MAX_LEVEL : nat).
Context (vp : vcpu_paging) (sync_page : Z → alloc_state → option (Z * alloc_state)) (page_content : Z → list Z).
Context (LM : leaf_masks g env)
        (Hvp : vp.(vp_base_role).(fr_invalid) = false ∧ vp.(vp_base_role).(fr_rest).(role_ad_disabled) = false).
Context (KVM_MIN_FREE_MMU_PAGES KVM_REFILL_PAGES : Z) (ctx : mmu_context) (pae_root : list Z) (fe : fault_env).

Notation direct_tree := (direct_tree g va pa gfn_to_memslot role_gfn_to_memslot PT64_ROOT_MAX_LEVEL).
Notation leaf_request := (leaf_request env vcpu_gfn_to_memslot).
Notation map_locked := (map_locked g env va pa gfn_to_memslot role_gfn_to_memslot vcpu_gfn_to_memslot PT64_ROOT_MAX_LEVEL vp sync_page page_content
                          KVM_MIN_FREE_MMU_PAGES KVM_REFILL_PAGES ctx pae_root fe).

(** One reference to the host frame was held; none is left. *)
Definition references_dropped (pfn pfn' : Z) (fa fa' : fault_state) : Prop :=
  (fa'.(fa_got) = fa.(fa_got) ∧ fa'.(fa_released) = fa.(fa_released) ++ [pfn]) ∨
  (fa'.(fa_got) = fa.(fa_got) ++ [pfn'] ∧ fa'.(fa_released) = fa.(fa_released) ++ [pfn; pfn']).

End Locked.

(* ------------------------------------------------------------------ *)
(** ** An example: guest frame 600 in a huge page of the host *)

Definition huge_env : fault_env :=
  {| fe_frame := λ gfn _, {| hf_pfn := gfn + 512; hf_writable := true; hf_async := false |};
     fe_frame_wait := λ gfn _, {| hf_pfn := gfn + 512; hf_writable := true; hf_async := false |};
     fe_is_error := λ _, false; fe_error_noslot := λ _, false; fe_reserved := λ _, false; fe_trans_compound := λ _, true; fe_hva := λ gfn, gfn * 0x1000;
     fe_lapic_in_kernel := false; fe_needs_reinjection := false; fe_delivery_as_vmexit := false; fe_guest_mode := false; fe_interrupt_allowed := true;
     fe_find_apf := λ _, false; fe_setup_apf := false; fe_vcpu_id := 0; fe_cr3 := 0; fe_mtrr := λ _ _, true; fe_retry := false |}.

Lemma thp_adjust_correct_witness :
  transparent_hugepage_adjust (λ _, Some big_slot) huge_env 600 1112 1 bare_fault
    = Some (512, 1024, 2, bare_fault <| fa_released := [1112] |> <| fa_got := [1024] |>) ∧ adjusted 1 600 1112 2 512 1024.
Proof.
  destruct (thp_adjust_correct (λ _, Some big_slot) huge_env 600 1112 1 bare_fault false)
    as (gfn' & pfn' & level' & fa' & E & Ha & _).
  - unfold is_u. lia.
  - unfold is_u. lia.
  - reflexivity.
  - vm_compute. reflexivity.
  - assert (E' : (λ '(g, p, l, fa), (g, p, l, fa.(fa_released), fa.(fa_got))) <$> transparent_hugepage_adjust (λ _, Some big_slot) huge_env 600 1112 1 bare_fault
      = Some (512, 1024, 2, [1112], [1024])) by (vm_compute; reflexivity).
    rewrite E in E'. cbn in E'. injection E' as -> -> -> _ _. split; [|exact Ha]. reflexivity.
Defined.

Lemma huge_requests (level' gfn' pfn' : Z) :
  adjusted 1 600 1112 level' gfn' pfn' →
  ∃ active refused, leaf_request (K := kvm_pte_x86) (T := kvm_track) map_x86 (λ _, Some big_slot) level' gfn' pfn' active refused bare_shadow.
Proof.
  intros [(-> & -> & ->)|(_ & -> & -> & ->)]; exists false, false.
  - split; [lia|split; [lia|vm_compute; reflexivity]|reflexivity|split; [reflexivity|split; [lia|vm_compute; reflexivity]]| | |right; reflexivity].
    + vm_compute. reflexivity.
    + unfold PT_PAGE_TABLE_LEVEL. lia.
  - change (600 - 600 mod HPAGE_FRAMES) with 512. change (1112 - 1112 mod HPAGE_FRAMES) with 1024. change PT_DIRECTORY_LEVEL with 2.
    split; [lia|split; [lia|vm_compute; reflexivity]|reflexivity|split; [reflexivity|split; [lia|vm_compute; reflexivity]]| | |right; reflexivity].
    + vm_compute. reflexivity.
    + intros _. vm_compute. reflexivity.
Qed.

