(* ===== verification/MmuContext.v ===== *)
(** * The paging context of a VCPU

    kernel/mmu.c: what a change of the guest's paging mode does.
    [vmrun_mmu_reset_context] gives the roots back and initialises
    [struct vmrun_mmu] for two-dimensional paging, for shadow paging or for a
    nested guest; [vmrun_init_shadow_ept_mmu] is the context in which a guest
    that is a hypervisor has its own EPT shadowed.

    The levels of the tables, the guest's CPUID and the control bits are those
    of [GuestPaging]; the level of two-dimensional paging is the one
    [vmrun_x86_ops] gives, which is not in the repository, and so is
    [mmu_is_nested]. *)

From S2P Require Import Prelude.
From S2P Require Import Spte.
From S2P Require Import Vcpu.
From S2P Require Import Vmcb.
From S2P Require Import Memslots.
From S2P Require Import MemRegion.
From S2P Require Import PteList.
From S2P Require Import Rmap.
From S2P Require Import GuestPaging.
From S2P Require Import PageTrack.
From S2P Require Import FastFault.
From S2P Require Import ShadowPage.
From S2P Require Import SetSpte.
From S2P Require Import ZapPage.
From S2P Require Import GetPage.
From S2P Require Import MmuRoots.

(** [tdp_enabled], with [vmrun_enable_tdp] and [vmrun_disable_tdp]. *)
Record tdp_state := { tdp_enabled : bool; tdp_warned : bool }.
#[export] Instance eta_tdp_state : Eta tdp_state := λ r,
  {| tdp_enabled := r.(tdp_enabled); tdp_warned := r.(tdp_warned) |}.

Definition vmrun_enable_tdp (t : tdp_state) : tdp_state := t <| tdp_enabled := true |>.
Definition vmrun_disable_tdp (t : tdp_state) : tdp_state := t <| tdp_enabled := false |>.

(** [WARN_ON_ONCE(!tdp_enabled); return shadow_x_mask == 0;] *)
Definition boot_cpu_is_amd (g : shadow_masks) (t : tdp_state) : bool * tdp_state :=
  (g.(shadow_x_mask) =? 0, t <| tdp_warned ::= λ w, w || negb t.(tdp_enabled) |>).

Section Init.
Context `{X : X86} `{P : X86Paging} (g : shadow_masks) (e : paging_env) (tdp_level : Z).

Definition reset_rsvds_bits_mask_ept (execonly : bool) (m : mmu_context) : mmu_context :=
  m <| ctx_guest_rsvd ::= __reset_rsvds_bits_mask_ept e.(pe_maxphyaddr) execonly |>.

Definition reset_ept_shadow_zero_bits_mask (execonly : bool) (m : mmu_context) : mmu_context :=
  m <| ctx_shadow_zero ::= __reset_rsvds_bits_mask_ept e.(pe_host_phys_bits) execonly |>.

Definition reset_tdp_shadow_zero_bits_mask (t : tdp_state) (m : mmu_context) : mmu_context * tdp_state :=
  let '(amd, t) := boot_cpu_is_amd g t in
  let m := m <| ctx_shadow_zero ::=
                  if amd : bool
                  then __reset_rsvds_bits_mask e.(pe_host_phys_bits) false e.(pe_host_gbpages) true true
                         m.(ctx_shadow_root_level)
                  else __reset_rsvds_bits_mask_ept e.(pe_host_phys_bits) false |> in
  if negb (truth g.(shadow_me_mask)) then (m, t)
  else (m <| ctx_shadow_zero ::= clear_me_bits g.(shadow_me_mask) m.(ctx_shadow_root_level) |>, t).

(** The four branches on the guest's paging mode, which
    [init_vmrun_tdp_mmu] and [init_vmrun_nested_mmu] share but for the
    translation functions. *)
Definition guest_mode_tables (nested : bool) (v : vmrun_vcpu) (m : mmu_context) : mmu_context :=
  let gva f (m : mmu_context) := m <| ctx_ops ::= λ o, o <| op_gva_to_gpa := Some f |> <| op_nested := nested |> |> in
  if negb e.(pe_paging) then
    gva nonpaging_fns (m <| ctx_nx := false |> <| ctx_root_level := 0 |>)
  else if e.(pe_long_mode) then
    let m := m <| ctx_nx := is_nx v |>
               <| ctx_root_level := if e.(pe_la57) then PT64_ROOT_5LEVEL else PT64_ROOT_4LEVEL |> in
    gva paging64_fns (reset_rsvds_bits_mask e m)
  else if e.(pe_pae) then
    let m := m <| ctx_nx := is_nx v |> <| ctx_root_level := PT32E_ROOT_LEVEL |> in
    gva paging64_fns (reset_rsvds_bits_mask e m)
  else
    let m := m <| ctx_nx := false |> <| ctx_root_level := PT32_ROOT_LEVEL |> in
    gva paging32_fns (reset_rsvds_bits_mask e m).

(** The three updates both end with. *)
Definition update_tables (v : vmrun_vcpu) (m : mmu_context) : mmu_context :=
  let m := update_permission_bitmask v false m in
  let m := update_pkru_bitmask e.(pe_long_mode) v false m in
  update_last_nonleaf_level e.(pe_pse) m.

Definition init_vmrun_tdp_mmu (v : vmrun_vcpu) (t : tdp_state) (m : mmu_context) : mmu_context * tdp_state :=
  let m := m <| ctx_base_role := no_role <| br_smm := is_smm v |>
                                         <| br_ad_disabled := g.(shadow_accessed_mask) =? 0 |> |> in
  let m := m <| ctx_ops ::= λ o, o <| op_page_fault := Some tdp_fns |> <| op_sync_page := Some nonpaging_fns |>
                                   <| op_invlpg := Some nonpaging_fns |> <| op_update_pte := Some nonpaging_fns |> |> in
  let m := m <| ctx_shadow_root_level := tdp_level |> <| ctx_root_hpa := INVALID_PAGE |> <| ctx_direct_map := true |> in
  let m := m <| ctx_ops ::= λ o, o <| op_set_cr3 := Some set_tdp_cr3_fn |> <| op_guest := true |> |> in
  let m := guest_mode_tables false v m in
  let m := update_tables v m in
  reset_tdp_shadow_zero_bits_mask t m.

(** [update_last_nonleaf_level] is not called here. *)
Definition vmrun_init_shadow_ept_mmu (v : vmrun_vcpu) (execonly accessed_dirty : bool) (m : mmu_context) : mmu_context :=
  let m := m <| ctx_shadow_root_level := PT64_ROOT_4LEVEL |> <| ctx_nx := true |> <| ctx_ept_ad := accessed_dirty |> in
  let m := m <| ctx_ops ::= format_ops ept_fns |> in
  let m := m <| ctx_root_level := PT64_ROOT_4LEVEL |> <| ctx_root_hpa := INVALID_PAGE |> <| ctx_direct_map := false |> in
  let m := m <| ctx_base_role ::= λ b, b <| br_ad_disabled := negb accessed_dirty |> |> in
  let m := update_permission_bitmask v true m in
  let m := update_pkru_bitmask e.(pe_long_mode) v true m in
  let m := reset_rsvds_bits_mask_ept execonly m in
  reset_ept_shadow_zero_bits_mask execonly m.

Definition init_vmrun_softmmu (v : vmrun_vcpu) (m : mmu_context) : mmu_context :=
  let m := vmrun_init_shadow_mmu e g.(shadow_me_mask) v m in
  m <| ctx_ops ::= λ o, o <| op_set_cr3 := Some set_cr3_fn |> <| op_guest := true |> |>.

Definition init_vmrun_nested_mmu (v : vmrun_vcpu) (m : mmu_context) : mmu_context :=
  let m := m <| ctx_ops ::= λ o, o <| op_guest := true |> |> in
  let m := guest_mode_tables true v m in
  update_tables v m.

(** [arch.mmu] and [arch.nested_mmu]. *)
Record mmu_contexts := { mc_mmu : mmu_context; mc_nested : mmu_context; mc_tdp : tdp_state }.

Context (mmu_is_nested : bool).

Definition init_vmrun_mmu (v : vmrun_vcpu) (c : mmu_contexts) : mmu_contexts :=
  let '{| mc_mmu := m; mc_nested := n; mc_tdp := t |} := c in
  if mmu_is_nested then {| mc_mmu := m; mc_nested := init_vmrun_nested_mmu v n; mc_tdp := t |}
  else if t.(tdp_enabled) then
    let '(m, t) := init_vmrun_tdp_mmu v t m in {| mc_mmu := m; mc_nested := n; mc_tdp := t |}
  else {| mc_mmu := init_vmrun_softmmu v m; mc_nested := n; mc_tdp := t |}.

Definition vmrun_mmu_setup : vmrun_vcpu → mmu_contexts → mmu_contexts := init_vmrun_mmu.
End Init.

(** ** Addresses without paging *)

(** The exception, when there is one, has its error code cleared. *)
Definition nonpaging_gva_to_gpa (vaddr : Z) (error_code : option Z) : Z * option Z :=
  (vaddr, (λ _, 0) <$> error_code).

Definition nonpaging_gva_to_gpa_nested (translate_gpa : Z → option Z → Z * option Z) (vaddr : Z) (error_code : option Z)
    : Z * option Z :=
  translate_gpa vaddr ((λ _, 0) <$> error_code).

(** ** Changing the mode *)

(** What the allocation of shadow pages reads of the context.  The bits of the
    role that are only compared are packed in [role_other]. *)
Definition paging_of (e : paging_env) (m : mmu_context) : vcpu_paging :=
  let b := m.(ctx_base_role) in
  {| vp_base_role :=
       {| fr_level := 0; fr_direct := false; fr_smm := b.(br_smm); fr_invalid := false;
          fr_rest := {| role_cr4_pae := b.(br_cr4_pae); role_access := 0; role_quadrant := 0;
                        role_ad_disabled := b.(br_ad_disabled);
                        role_other := b2z b.(br_nxe) + 2 * b2z b.(br_cr0_wp) + 4 * b2z b.(br_smep_andnot_wp)
                                      + 8 * b2z b.(br_smap_andnot_wp) |} |};
     vp_direct_map := m.(ctx_direct_map); vp_root_level := m.(ctx_root_level);
     vp_shadow_root_level := m.(ctx_shadow_root_level); vp_pae := e.(pe_pae) |}.

(** The contexts of a VCPU and the roots of [arch.mmu]; [ctx_root_hpa] is where
    the root is, and [root_hpa] of the other record repeats it. *)
Record vcpu_mmu := { vm_contexts : mmu_contexts; vm_roots : root_state; vm_invlpg : Z }.
#[export] Instance eta_mmu_contexts : Eta mmu_contexts := λ r,
  {| mc_mmu := r.(mc_mmu); mc_nested := r.(mc_nested); mc_tdp := r.(mc_tdp) |}.
#[export] Instance eta_vcpu_mmu : Eta vcpu_mmu := λ r,
  {| vm_contexts := r.(vm_contexts); vm_roots := r.(vm_roots); vm_invlpg := r.(vm_invlpg) |}.

(** Code of the roots, run on [arch.mmu]. *)
Definition on_roots (f : vcpu_paging → root_state → option root_state) (e : paging_env) (vm : vcpu_mmu)
    : option vcpu_mmu :=
  let m := vm.(vm_contexts).(mc_mmu) in
  r ← f (paging_of e m) (vm.(vm_roots) <| root_hpa := m.(ctx_root_hpa) |>);
  Some (vm <| vm_roots := r |> <| vm_contexts ::= λ c, c <| mc_mmu := m <| ctx_root_hpa := r.(root_hpa) |> |> |>).

(** [arch.mmu.root_hpa], of which the record of the roots has a copy. *)
Definition keep_root (vm : vcpu_mmu) : vcpu_mmu :=
  vm <| vm_roots ::= λ r, r <| root_hpa := vm.(vm_contexts).(mc_mmu).(ctx_root_hpa) |> |>.

Section Reset.
Context `{K : KvmPte} `{T : KvmTrack} `{X : X86} `{P : X86Paging} (g : shadow_masks) (va : Z → Z).
Context (gfn_to_memslot : bool → Z → vmrun_memory_slot) (role_gfn_to_memslot : bool → Z → option vmrun_memory_slot).
Context (PT64_ROOT_MAX_LEVEL : nat).
Context (tdp_level : Z) (mmu_is_nested : bool).
(** [paging64_invlpg] and the like are in a file that is not in the repository. *)
Context (guest_invlpg : mmu_fns → Z → alloc_state → option alloc_state).

Definition vmrun_mmu_new_cr3 (e : paging_env) (vm : vcpu_mmu) : option vcpu_mmu :=
  on_roots (λ vp, mmu_free_roots g va gfn_to_memslot role_gfn_to_memslot PT64_ROOT_MAX_LEVEL vp) e vm.

Definition vmrun_mmu_reset_context (e : paging_env) (v : vmrun_vcpu) (vm : vcpu_mmu) : option vcpu_mmu :=
  vm ← on_roots (λ vp, vmrun_mmu_unload g va gfn_to_memslot role_gfn_to_memslot PT64_ROOT_MAX_LEVEL vp) e vm;
  Some (keep_root (vm <| vm_contexts ::= init_vmrun_mmu g e tdp_level mmu_is_nested v |>)).

(** [arch.mmu.invlpg]; [None]: the pointer is NULL. *)
Definition call_invlpg (f : option mmu_fns) (gva : Z) (st : alloc_state) : option alloc_state :=
  f ← f;
  match f with
  | nonpaging_fns => Some st          (* nonpaging_invlpg *)
  | f => guest_invlpg f gva st
  end.

Definition vmrun_mmu_invlpg (gva : Z) (vm : vcpu_mmu) : option vcpu_mmu :=
  st ← call_invlpg vm.(vm_contexts).(mc_mmu).(ctx_ops).(op_invlpg) gva vm.(vm_roots).(ro_alloc);
  let st := vmrun_make_request KVM_REQ_TLB_FLUSH st in
  Some (vm <| vm_roots ::= λ r, r <| ro_alloc := st |> |> <| vm_invlpg ::= λ n, n + 1 |>).
End Reset.
