(* ===== verification/MmuContextProps.v ===== *)
(** * The paging context: fields at their widths, a reset that leaves nothing
    behind, and the level that a shadowed EPT forgets to set *)

From S2P Require Import Prelude.
From S2P Require Import Spte.
From S2P Require Import SpteTrack.
From S2P Require Import Vcpu.
From S2P Require Import Vmcb.
From S2P Require Import VmcbProps.
From S2P Require Import Memslots.
From S2P Require Import MemRegion.
From S2P Require Import PteList.
From S2P Require Import Rmap.
From S2P Require Import GuestPaging.
From S2P Require Import GuestPagingProps.
From S2P Require Import PageTrack.
From S2P Require Import PageTrackProps.
From S2P Require Import FastFault.
From S2P Require Import ShadowPage.
From S2P Require Import ShadowPageProps.
From S2P Require Import MmuInv.
From S2P Require Import SetSpte.
From S2P Require Import SetSpteProps.
From S2P Require Import ZapPage.
From S2P Require Import ZapPageProps.
From S2P Require Import ZapUnsyncProps.
From S2P Require Import ZapProps.
From S2P Require Import GetPage.
From S2P Require Import GetPageProps.
From S2P Require Import MmuRoots.
From S2P Require Import MmuRootsProps.
From S2P Require Import MmuContext.

(* ------------------------------------------------------------------ *)
(** ** Widths *)

(** [u64 rsvd_bits_mask[2][5]; u64 bad_mt_xwr;] *)
Record rsvd_typed (c : rsvd_bits_validate) : Prop := {
  rt_len0 : length c.(rsvd_mask0) = 5%nat;
  rt_len1 : length c.(rsvd_mask1) = 5%nat;
  rt_row0 : Forall (is_u 64) c.(rsvd_mask0);
  rt_row1 : Forall (is_u 64) c.(rsvd_mask1);
  rt_bad : is_u 64 c.(bad_mt_xwr)
}.

(** The levels index the rows of [rsvd_bits_mask]; [u8 permissions[16]],
    [u32 pkru_mask], [u8 last_nonleaf_level], [hpa_t root_hpa]. *)
Record ctx_typed (m : mmu_context) : Prop := {
  ct_root : 0 <= m.(ctx_root_level) <= 5;
  ct_shadow : 0 <= m.(ctx_shadow_root_level) <= 5;
  ct_hpa : is_u 64 m.(ctx_root_hpa);
  ct_perms : length m.(ctx_permissions) = 16%nat;
  ct_perm : Forall (is_u 8) m.(ctx_permissions);
  ct_pkru : is_u 32 m.(ctx_pkru_mask);
  ct_last : is_u 8 m.(ctx_last_nonleaf_level);
  ct_guest : rsvd_typed m.(ctx_guest_rsvd);
  ct_zero : rsvd_typed m.(ctx_shadow_zero)
}.

Lemma rsvd_bits_u64 (s e : Z) : is_u 64 (rsvd_bits s e).
Proof. unfold rsvd_bits. destruct (e <? s); [by apply is_u_0|apply is_u_wrap; lia]. Qed.

Lemma exb_u64 (nx : bool) : is_u 64 (exb_bit_rsvd nx).
Proof. destruct nx; [by apply is_u_0|apply rsvd_bits_u64]. Qed.

Lemma gbpages_u64 (b : bool) : is_u 64 (gbpages_bit_rsvd b).
Proof. destruct b; [by apply is_u_0|apply rsvd_bits_u64]. Qed.

Lemma bit8_u64 (b : bool) : is_u 64 (nonleaf_bit8_rsvd b).
Proof. destruct b; [apply rsvd_bits_u64|by apply is_u_0]. Qed.

#[local] Hint Resolve rsvd_bits_u64 exb_u64 gbpages_u64 bit8_u64 : words.

Lemma total_u64 (l : list Z) (i : nat) : Forall (is_u 64) l → is_u 64 (l !!! i).
Proof.
  intros H. rewrite list_lookup_total_alt. destruct (l !! i) as [x|] eqn:E; cbn.
  - by eapply Forall_lookup_1.
  - done.
Qed.

Lemma set0_typed (i : nat) (v : Z) (c : rsvd_bits_validate) : is_u 64 v → rsvd_typed c → rsvd_typed (set0 i v c).
Proof. intros Hv []. unfold set0. split; cbn; rewrite ?length_insert; auto. by apply Forall_insert. Qed.

Lemma set1_typed (i : nat) (v : Z) (c : rsvd_bits_validate) : is_u 64 v → rsvd_typed c → rsvd_typed (set1 i v c).
Proof. intros Hv []. unfold set1. split; cbn; rewrite ?length_insert; auto. by apply Forall_insert. Qed.

Lemma bad_typed (b : Z) (c : rsvd_bits_validate) : is_u 64 b → rsvd_typed c → rsvd_typed (c <| bad_mt_xwr := b |>).
Proof. intros Hb []. by split. Qed.

(** A chain of assignments to the masks keeps their types. *)
Ltac masks_typed :=
  repeat match goal with
  | |- rsvd_typed (set0 _ _ _) => apply set0_typed
  | |- rsvd_typed (set1 _ _ _) => apply set1_typed
  | |- is_u 64 (rsvd_mask0 _ !!! _) => apply total_u64, rt_row0
  | |- is_u 64 (rsvd_mask1 _ !!! _) => apply total_u64, rt_row1
  | |- is_u 64 (Z.lor _ _) => apply is_u_lor; [lia| |]
  | |- is_u 64 0 => by apply is_u_0
  | |- _ => solve [assumption | auto with words nocore]
  end.

Lemma reset_rsvds_typed (maxphyaddr : Z) (nx gbpages pse amd : bool) (level : Z) (c : rsvd_bits_validate) :
  rsvd_typed c → rsvd_typed (__reset_rsvds_bits_mask maxphyaddr nx gbpages pse amd level c).
Proof.
  intros Hc. unfold __reset_rsvds_bits_mask, rsvd_2level, rsvd_pae, rsvd_4level, rsvd_5level.
  assert (Hc' : rsvd_typed (c <| bad_mt_xwr := 0 |>)) by (apply bad_typed; [by apply is_u_0|done]).
  revert Hc'. generalize (c <| bad_mt_xwr := 0 |>). clear c Hc. intros c Hc.
  repeat case_match; cbv zeta; masks_typed.
Qed.

Lemma reset_ept_typed (maxphyaddr : Z) (execonly : bool) (c : rsvd_bits_validate) :
  rsvd_typed c → rsvd_typed (__reset_rsvds_bits_mask_ept maxphyaddr execonly c).
Proof.
  intros Hc. unfold __reset_rsvds_bits_mask_ept. cbv zeta. apply bad_typed; [|masks_typed].
  destruct execonly; split; by vm_compute.
Qed.

Lemma not64_nonneg (x : Z) : 0 <= not64 x.
Proof. apply (is_u_wrap 64). lia. Qed.

Lemma clear_me_typed (mask levels : Z) (c : rsvd_bits_validate) : rsvd_typed c → rsvd_typed (clear_me_bits mask levels c).
Proof.
  unfold clear_me_bits. generalize (rev (seq 0 (Z.to_nat levels))). intros l. revert c.
  induction l as [|i l IH]; intros c Hc; [done|]. cbn [foldl]. apply IH. cbv zeta.
  assert (Hm : ∀ r, Forall (is_u 64) r → is_u 64 (Z.land (r !!! i) (not64 mask))).
  { intros r Hr. apply is_u_land; [lia|by apply total_u64|apply not64_nonneg]. }
  assert (H0 : rsvd_typed (set0 i (Z.land (rsvd_mask0 c !!! i) (not64 mask)) c)) by (apply set0_typed; [apply Hm, rt_row0, Hc|done]).
  apply set1_typed; [apply Hm, rt_row1, H0|done].
Qed.

(** The byte for an error code, by computation. *)
Lemma permission_bytes :
  forallb (λ smep, forallb (λ smap, forallb (λ wp, forallb (λ nx, forallb (λ ept, forallb (λ byte,
    let b := permission_byte smep smap wp nx ept byte in (0 <=? b) && (b <? 256))
    (seqZ 0 16)) all_bools) all_bools) all_bools) all_bools) all_bools = true.
Proof. vm_compute. reflexivity. Qed.

Lemma permission_byte_u8 (smep smap wp nx ept : bool) (byte : Z) :
  0 <= byte < 16 → is_u 8 (permission_byte smep smap wp nx ept byte).
Proof.
  intros Hb. pose proof (forallb_elem _ _ smep permission_bytes (bool_in _)) as H1.
  pose proof (forallb_elem _ _ smap H1 (bool_in _)) as H2. pose proof (forallb_elem _ _ wp H2 (bool_in _)) as H3.
  pose proof (forallb_elem _ _ nx H3 (bool_in _)) as H4. pose proof (forallb_elem _ _ ept H4 (bool_in _)) as H5.
  pose proof (forallb_elem _ _ byte H5 ltac:(apply elem_of_seqZ; lia)) as H. cbv beta zeta in H.
  apply andb_true_iff in H as [Ha Hc]. unfold is_u. change (2 ^ 8) with 256. lia.
Qed.

Section Typed.
Context `{X : X86} `{P : X86Paging}.

Lemma update_permission_typed (v : vmrun_vcpu) (ept : bool) (m : mmu_context) :
  ctx_typed m → ctx_typed (update_permission_bitmask v ept m).
Proof.
  intros []. unfold update_permission_bitmask. split; try done.
  apply Forall_fmap, Forall_forall. intros b Hb. apply permission_byte_u8. apply elem_of_seqZ in Hb. lia.
Qed.

Lemma update_pkru_typed (long : bool) (v : vmrun_vcpu) (ept : bool) (m : mmu_context) :
  ctx_typed m → ctx_typed (update_pkru_bitmask long v ept m).
Proof.
  intros Hm. assert (Hz : ctx_typed (m <| ctx_pkru_mask := 0 |>)) by (destruct Hm; split; try done; by apply is_u_0).
  unfold update_pkru_bitmask. destruct ept; [done|]. destruct (_ || _); [done|]. destruct Hm as [? ? ? ? ? Hp ? ? ?].
  split; try done. cbn. generalize (seqZ 0 16). intros l. revert Hp. generalize (ctx_pkru_mask m).
  induction l as [|b l IH]; intros mask Hp; [done|]. cbn. apply IH. apply is_u_wrap. lia.
Qed.

Lemma update_last_typed (pse : bool) (m : mmu_context) : ctx_typed m → ctx_typed (update_last_nonleaf_level pse m).
Proof.
  intros []. unfold update_last_nonleaf_level. destruct (_ && _); split; try done; cbn.
  - apply is_u_wrap. lia.
  - unfold is_u. lia.
Qed.

(** The assignments of single fields. *)
Lemma guest_rsvd_typed (c : rsvd_bits_validate) (m : mmu_context) :
  rsvd_typed c → ctx_typed m → ctx_typed (m <| ctx_guest_rsvd := c |>).
Proof. intros ? []. by split. Qed.

Lemma shadow_zero_typed (c : rsvd_bits_validate) (m : mmu_context) :
  rsvd_typed c → ctx_typed m → ctx_typed (m <| ctx_shadow_zero := c |>).
Proof. intros ? []. by split. Qed.

Lemma root_typed (l : Z) (m : mmu_context) : 0 <= l <= 5 → ctx_typed m → ctx_typed (m <| ctx_root_level := l |>).
Proof. intros ? []. by split. Qed.

Lemma shadow_typed (l : Z) (m : mmu_context) : 0 <= l <= 5 → ctx_typed m → ctx_typed (m <| ctx_shadow_root_level := l |>).
Proof. intros ? []. by split. Qed.

Lemma hpa_typed (hpa : Z) (m : mmu_context) : is_u 64 hpa → ctx_typed m → ctx_typed (m <| ctx_root_hpa := hpa |>).
Proof. intros ? []. by split. Qed.

(** Fields that have no range to keep. *)
Ltac free_field := intros []; by split.
Lemma nx_typed (b : bool) (m : mmu_context) : ctx_typed m → ctx_typed (m <| ctx_nx := b |>).
Proof. free_field. Qed.
Lemma direct_typed (b : bool) (m : mmu_context) : ctx_typed m → ctx_typed (m <| ctx_direct_map := b |>).
Proof. free_field. Qed.
Lemma ept_ad_typed (b : bool) (m : mmu_context) : ctx_typed m → ctx_typed (m <| ctx_ept_ad := b |>).
Proof. free_field. Qed.
Lemma role_typed (b : base_role) (m : mmu_context) : ctx_typed m → ctx_typed (m <| ctx_base_role := b |>).
Proof. free_field. Qed.
Lemma ops_typed (o : mmu_ops) (m : mmu_context) : ctx_typed m → ctx_typed (m <| ctx_ops := o |>).
Proof. free_field. Qed.

Lemma masks_of_typed (m : mmu_context) : ctx_typed m → rsvd_typed m.(ctx_guest_rsvd) ∧ rsvd_typed m.(ctx_shadow_zero).
Proof. by intros []. Qed.

End Typed.

(** A chain of assignments and updates keeps the types. *)
Ltac ctx_steps :=
  repeat match goal with
  | |- ctx_typed (@put _ _ ctx_nx _ _ _) => apply nx_typed
  | |- ctx_typed (@put _ _ ctx_direct_map _ _ _) => apply direct_typed
  | |- ctx_typed (@put _ _ ctx_ept_ad _ _ _) => apply ept_ad_typed
  | |- ctx_typed (@put _ _ ctx_base_role _ _ _) => apply role_typed
  | |- ctx_typed (@put _ _ ctx_ops _ _ _) => apply ops_typed
  | |- ctx_typed (@put _ _ ctx_root_level _ _ _) => apply root_typed
  | |- ctx_typed (@put _ _ ctx_shadow_root_level _ _ _) => apply shadow_typed
  | |- ctx_typed (@put _ _ ctx_root_hpa _ _ _) => apply hpa_typed
  | |- ctx_typed (@put _ _ ctx_guest_rsvd _ _ _) => apply guest_rsvd_typed
  | |- ctx_typed (@put _ _ ctx_shadow_zero _ _ _) => apply shadow_zero_typed
  | |- ctx_typed (update_permission_bitmask _ _ _) => apply update_permission_typed
  | |- ctx_typed (update_pkru_bitmask _ _ _ _) => apply update_pkru_typed
  | |- ctx_typed (update_last_nonleaf_level _ _) => apply update_last_typed
  | |- rsvd_typed (__reset_rsvds_bits_mask _ _ _ _ _ _ _) => apply reset_rsvds_typed
  | |- rsvd_typed (__reset_rsvds_bits_mask_ept _ _ _) => apply reset_ept_typed
  | |- rsvd_typed (clear_me_bits _ _ _) => apply clear_me_typed
  | |- rsvd_typed (ctx_guest_rsvd _) => apply masks_of_typed
  | |- rsvd_typed (ctx_shadow_zero _) => apply masks_of_typed
  | |- is_u 64 _ => by split
  | |- 0 <= (if ?b then _ else _) <= 5 => destruct b
  | |- 0 <= _ <= 5 => first [assumption | unfold PT64_ROOT_4LEVEL, PT64_ROOT_5LEVEL, PT32E_ROOT_LEVEL, PT32_ROOT_LEVEL; lia]
  | |- _ => assumption
  end.

Section Initialised.
Context `{X : X86} `{P : X86Paging} (g : shadow_masks) (e : paging_env) (tdp_level : Z).

Lemma init_context_typed (v : vmrun_vcpu) (m : mmu_context) :
  ctx_typed m →
  ctx_typed (nonpaging_init_context m) ∧ ctx_typed (paging64_init_context e v m) ∧
  ctx_typed (paging32E_init_context e v m) ∧ ctx_typed (paging32_init_context e v m).
Proof.
  intros Hm. unfold paging64_init_context, paging32E_init_context, paging64_init_context_common, paging32_init_context,
    nonpaging_init_context, reset_rsvds_bits_mask.
  split_and!; ctx_steps.
Qed.

Lemma tables_typed (nested : bool) (v : vmrun_vcpu) (m : mmu_context) :
  ctx_typed m → ctx_typed (update_tables e v (guest_mode_tables e nested v m)).
Proof.
  intros Hm. unfold update_tables, guest_mode_tables, reset_rsvds_bits_mask. cbv zeta.
  destruct (pe_paging e); cbn [negb]; [destruct (pe_long_mode e); [|destruct (pe_pae e)]|]; ctx_steps.
Qed.

Lemma softmmu_typed (v : vmrun_vcpu) (m : mmu_context) : ctx_typed m → ctx_typed (init_vmrun_softmmu g e v m).
Proof.
  intros Hm. destruct (init_context_typed v m Hm) as (H1 & H2 & H3 & H4).
  unfold init_vmrun_softmmu, vmrun_init_shadow_mmu, reset_shadow_zero_bits_mask. cbv zeta. apply ops_typed.
  destruct (pe_paging e); cbn [negb]; [destruct (pe_long_mode e); [|destruct (pe_pae e)]|];
    destruct (truth (shadow_me_mask g)); cbn [negb]; ctx_steps.
Qed.

Lemma tdp_mmu_typed (v : vmrun_vcpu) (t : tdp_state) (m : mmu_context) :
  0 <= tdp_level <= 5 → ctx_typed m → ctx_typed (init_vmrun_tdp_mmu g e tdp_level v t m).1.
Proof.
  intros Hl Hm. unfold init_vmrun_tdp_mmu, reset_tdp_shadow_zero_bits_mask, boot_cpu_is_amd. cbv zeta.
  match goal with |- context [update_tables _ _ (guest_mode_tables _ _ _ ?x)] => assert (H : ctx_typed x) by ctx_steps;
    pose proof (tables_typed false v x H) as H1; revert H1; generalize (update_tables e v (guest_mode_tables e false v x)) end.
  clear m Hm H. intros m Hm. destruct (shadow_x_mask g =? 0), (truth (shadow_me_mask g)); cbn [negb fst]; ctx_steps.
Qed.

Lemma ept_mmu_typed (v : vmrun_vcpu) (execonly ad : bool) (m : mmu_context) :
  ctx_typed m → ctx_typed (vmrun_init_shadow_ept_mmu e v execonly ad m).
Proof. intros Hm. unfold vmrun_init_shadow_ept_mmu, reset_rsvds_bits_mask_ept, reset_ept_shadow_zero_bits_mask. cbv zeta. ctx_steps. Qed.

End Initialised.

(** A context after [kmem_cache_zalloc]. *)
Definition blank_context : mmu_context :=
  {| ctx_nx := false; ctx_root_level := 0; ctx_shadow_root_level := 0; ctx_root_hpa := 0; ctx_direct_map := false;
     ctx_permissions := replicate 16 0; ctx_pkru_mask := 0; ctx_last_nonleaf_level := 0;
     ctx_guest_rsvd := zero_rsvd; ctx_shadow_zero := zero_rsvd; ctx_base_role := no_role; ctx_ept_ad := false; ctx_ops := no_ops |}.

Lemma blank_typed : ctx_typed blank_context.
Proof. repeat split; try done; repeat (apply Forall_cons; split; [by split|]); by apply Forall_nil. Qed.

(** A guest with 4-level paging, 48-bit physical addresses in guest and host. *)
Definition long_mode_env : paging_env :=
  {| pe_pse := true; pe_pae := true; pe_long_mode := true; pe_la57 := false; pe_paging := true; pe_maxphyaddr := 48;
     pe_gbpages := true; pe_amd := true; pe_host_phys_bits := 48; pe_host_gbpages := true |}.

Definition blank_contexts : mmu_contexts :=
  {| mc_mmu := blank_context; mc_nested := blank_context; mc_tdp := {| tdp_enabled := true; tdp_warned := false |} |}.

(* ------------------------------------------------------------------ *)
(** ** The tables of a mode *)

Section Mode.
Context `{X : X86} `{P : X86Paging} (g : shadow_masks) (e : paging_env) (tdp_level : Z).

(** The level that two-dimensional paging walks from, and the last non-leaf
    level. *)
Definition guest_levels : Z :=
  if negb e.(pe_paging) then 0
  else if e.(pe_long_mode) then if e.(pe_la57) then 5 else 4
  else if e.(pe_pae) then 3 else 2.

Lemma guest_tables_root (nested : bool) (v : vmrun_vcpu) (m : mmu_context) :
  (guest_mode_tables e nested v m).(ctx_root_level) = guest_levels.
Proof.
  unfold guest_mode_tables, guest_levels, reset_rsvds_bits_mask. cbv zeta.
  destruct (pe_paging e); cbn [negb]; [destruct (pe_long_mode e); [|destruct (pe_pae e)]|]; reflexivity.
Qed.

Lemma update_tables_keeps (v : vmrun_vcpu) (m : mmu_context) :
  let m' := update_tables e v m in
  m'.(ctx_root_level) = m.(ctx_root_level) ∧ m'.(ctx_nx) = m.(ctx_nx) ∧ m'.(ctx_guest_rsvd) = m.(ctx_guest_rsvd) ∧
  m'.(ctx_ops) = m.(ctx_ops) ∧ m'.(ctx_direct_map) = m.(ctx_direct_map) ∧ m'.(ctx_root_hpa) = m.(ctx_root_hpa) ∧
  m'.(ctx_shadow_root_level) = m.(ctx_shadow_root_level) ∧ m'.(ctx_base_role) = m.(ctx_base_role) ∧
  ∃ m1, m'.(ctx_permissions) = (update_permission_bitmask v false m).(ctx_permissions) ∧ m1.(ctx_root_level) = m.(ctx_root_level) ∧
        m'.(ctx_last_nonleaf_level) = (update_last_nonleaf_level e.(pe_pse) m1).(ctx_last_nonleaf_level).
Proof.
  cbv zeta. unfold update_tables. set (m1 := update_pkru_bitmask _ _ _ _).
  assert (E1 : m1.(ctx_root_level) = m.(ctx_root_level) ∧ m1.(ctx_nx) = m.(ctx_nx) ∧ m1.(ctx_guest_rsvd) = m.(ctx_guest_rsvd) ∧
    m1.(ctx_ops) = m.(ctx_ops) ∧ m1.(ctx_direct_map) = m.(ctx_direct_map) ∧ m1.(ctx_root_hpa) = m.(ctx_root_hpa) ∧
    m1.(ctx_shadow_root_level) = m.(ctx_shadow_root_level) ∧ m1.(ctx_base_role) = m.(ctx_base_role) ∧
    m1.(ctx_permissions) = (update_permission_bitmask v false m).(ctx_permissions)).
  { unfold m1, update_pkru_bitmask. destruct (_ || _); by split_and!. }
  clearbody m1. destruct E1 as (<- & <- & <- & <- & <- & <- & <- & <- & <-). unfold update_last_nonleaf_level.
  destruct (_ && _) eqn:E; (split_and!; try done); exists m1; (split_and!; try done); unfold update_last_nonleaf_level; by rewrite E.
Qed.

Lemma tdp_zero_keeps (t : tdp_state) (m : mmu_context) :
  ∃ c, (reset_tdp_shadow_zero_bits_mask g e t m).1 = m <| ctx_shadow_zero := c |>.
Proof.
  unfold reset_tdp_shadow_zero_bits_mask, boot_cpu_is_amd. cbv zeta. destruct (negb (truth _)); eexists; reflexivity.
Qed.

Lemma last_level (pse : bool) (m : mmu_context) :
  0 <= m.(ctx_root_level) <= 5 →
  (update_last_nonleaf_level pse m).(ctx_last_nonleaf_level) = m.(ctx_root_level) + b2z ((m.(ctx_root_level) =? 2) && pse).
Proof.
  intros Hr. unfold update_last_nonleaf_level. change PT32_ROOT_LEVEL with 2.
  change (ctx_root_level (m <| ctx_last_nonleaf_level := ctx_root_level m |>)) with (ctx_root_level m).
  destruct (Z.eqb_spec (ctx_root_level m) 2) as [E|E], pse; cbn; rewrite ?E; try done; lia.
Qed.

Lemma guest_levels_range : 0 <= guest_levels <= 5.
Proof. unfold guest_levels. repeat case_match; lia. Qed.

Lemma tdp_last_level (v : vmrun_vcpu) (t : tdp_state) (m : mmu_context) :
  (init_vmrun_tdp_mmu g e tdp_level v t m).1.(ctx_last_nonleaf_level) = guest_levels + b2z ((guest_levels =? 2) && e.(pe_pse)).
Proof.
  unfold init_vmrun_tdp_mmu. cbv zeta.
  match goal with |- context [update_tables e v ?x] => set (m0 := x); pose proof (guest_tables_root false v _ : ctx_root_level m0 = _) as Hr end.
  destruct (tdp_zero_keeps t (update_tables e v m0)) as [c ->].
  destruct (update_tables_keeps v m0) as (_ & _ & _ & _ & _ & _ & _ & _ & m1 & _ & H1 & H2).
  change (ctx_last_nonleaf_level (update_tables e v m0) = guest_levels + b2z ((guest_levels =? 2) && pe_pse e)).
  rewrite H2, last_level; rewrite H1, Hr; [done|apply guest_levels_range].
Qed.

End Mode.

(* ------------------------------------------------------------------ *)
(** ** The last level of a shadowed EPT *)

(** An EPT entry ends the walk at level 1, and with the page-size bit at the
    levels that have large pages. *)
Definition ept_leaf (level gpte : Z) : Prop := level = 1 ∨ Z.testbit gpte 7 = true ∧ (level = 2 ∨ level = 3).

(** The walk over valid entries ends where the architecture says. *)
Definition ends_walks (c : mmu_context) : Prop :=
  ∀ level gpte, 1 <= level <= 4 → is_u 64 gpte → is_rsvd_bits_set c gpte level = false →
    (is_last_gpte c level gpte = true ↔ ept_leaf level gpte).

(** [is_last_gpte] by the level and the bit, for a small last non-leaf level. *)
Lemma is_last_bit (c : mmu_context) (level gpte : Z) :
  1 <= level <= 5 → 0 <= c.(ctx_last_nonleaf_level) <= 5 →
  is_last_gpte c level gpte = (level =? 1) && (1 <? c.(ctx_last_nonleaf_level)) || Z.testbit gpte 7 && (level <? c.(ctx_last_nonleaf_level)).
Proof.
  intros Hl Hn. unfold is_last_gpte. change PT_PAGE_SIZE_MASK with (BIT 7).
  rewrite truth_land_BIT, Z.land_spec, Z.lor_spec, (wrap_testbit 32 gpte) by lia. change (7 <? 32) with true. cbn [andb].
  generalize dependent (ctx_last_nonleaf_level c). intros n Hn.
  assert (n = 0 ∨ n = 1 ∨ n = 2 ∨ n = 3 ∨ n = 4 ∨ n = 5) as [-> | [-> | [-> | [-> | [-> | ->]]]]] by lia;
  assert (level = 1 ∨ level = 2 ∨ level = 3 ∨ level = 4 ∨ level = 5) as [-> | [-> | [-> | [-> | ->]]]] by lia;
    destruct (Z.testbit gpte 7); reflexivity.
Qed.

Section EptLevel.
Context `{X : X86} `{P : X86Paging} (g : shadow_masks) (e : paging_env) (tdp_level : Z) (Haddr : 12 <= e.(pe_maxphyaddr)).

Lemma ept_init_rsvd (v : vmrun_vcpu) (execonly ad : bool) (m : mmu_context) (gpte level : Z) :
  ctx_typed m → 1 <= level <= 5 → is_u 64 gpte →
  is_rsvd_bits_set (vmrun_init_shadow_ept_mmu e v execonly ad m) gpte level = true ↔
  (∃ i, 0 <= i < 64 ∧ Z.testbit gpte i = true ∧ arch_reserved_ept e.(pe_maxphyaddr) (Z.testbit gpte 7) level i = true) ∨
  ept_misconfigured execonly gpte = true.
Proof using Haddr.
  intros [_ _ _ _ _ _ _ [] _] Hl Hu. unfold is_rsvd_bits_set.
  assert (E : ctx_guest_rsvd (vmrun_init_shadow_ept_mmu e v execonly ad m) =
              __reset_rsvds_bits_mask_ept (pe_maxphyaddr e) execonly (ctx_guest_rsvd m)) by done.
  rewrite E. apply rsvd_bits_ept_arch; first [done | lia].
Qed.

(** A page of 1 GiB at address 0 with all rights. *)
Lemma huge_page_valid (v : vmrun_vcpu) (execonly ad : bool) (m : mmu_context) :
  ctx_typed m → is_rsvd_bits_set (vmrun_init_shadow_ept_mmu e v execonly ad m) 0x87 3 = false.
Proof using Haddr.
  intros Hm. apply not_true_iff_false. rewrite ept_init_rsvd by (first [done | lia | by split]).
  intros [(i & Hi & Hb & Hr)|H]; [|by destruct execonly].
  assert (Hi7 : i ≤ 7).
  { destruct (Z.le_gt_cases i 7) as [?|Hgt]; [done|]. rewrite (is_u_testbit 8 0x87 i) in Hb; [done|by split|lia]. }
  unfold arch_reserved_ept in Hr. change (Z.testbit 0x87 7) with true in Hr. cbn in Hr. lia.
Qed.

Lemma ept_ends_walks (v : vmrun_vcpu) (execonly ad : bool) (m : mmu_context) :
  ctx_typed m → 0 <= m.(ctx_last_nonleaf_level) <= 5 →
  ends_walks (vmrun_init_shadow_ept_mmu e v execonly ad m) ↔ 4 <= m.(ctx_last_nonleaf_level).
Proof using Haddr.
  intros Hm Hl. assert (El : ctx_last_nonleaf_level (vmrun_init_shadow_ept_mmu e v execonly ad m) = ctx_last_nonleaf_level m) by done.
  split.
  - intros H. specialize (H 3 0x87 ltac:(lia) ltac:(by split) (huge_page_valid v execonly ad m Hm)).
    rewrite is_last_bit in H by (rewrite ?El; lia). rewrite El in H. change (Z.testbit 0x87 7) with true in H. cbn [andb orb Z.eqb] in H.
    assert (Hx : ept_leaf 3 0x87) by (right; auto). apply H, Z.ltb_lt in Hx. lia.
  - intros H4 level gpte Hlv Hu Hr. rewrite is_last_bit by (rewrite ?El; lia). rewrite El. unfold ept_leaf.
    destruct (Z.testbit gpte 7) eqn:E7; cbn [andb].
    2: { rewrite orb_false_r, andb_true_iff, Z.eqb_eq, Z.ltb_lt. split; [intros [H _]; by left|]. intros [H|[H _]]; [lia|done]. }
    assert (H3 : level ≤ 3).
    { destruct (Z.le_gt_cases level 3) as [?|Hgt]; [done|]. apply not_true_iff_false in Hr. exfalso. apply Hr.
      rewrite ept_init_rsvd by (first [done | lia]). left. exists 7. split; [lia|]. split; [done|]. rewrite E7. unfold arch_reserved_ept.
      replace (4 <=? level) with true by lia. cbn. by rewrite orb_true_r. }
    split; [intros _|intros _; apply orb_true_iff; right; lia]. assert (level = 1 ∨ level = 2 ∨ level = 3) as [?|[?|?]] by lia; [by left|right; auto..].
Qed.

(** C36: shadowing a guest's EPT after its paging mode.  [is_last_gpte] decides
    where the walk over an EPT entry ends, but [vmrun_init_shadow_ept_mmu]
    leaves the last non-leaf level of the mode that was in use before.  The
    walk ends where the architecture says, for every valid entry, exactly when
    the hypervisor in the guest ran in long mode with paging: after any other
    mode large pages are taken for tables. *)
Theorem ept_last_level_exact (v : vmrun_vcpu) (t : tdp_state) (execonly ad : bool) (m : mmu_context) :
  0 <= tdp_level <= 5 → ctx_typed m →
  ends_walks (vmrun_init_shadow_ept_mmu e v execonly ad (init_vmrun_tdp_mmu g e tdp_level v t m).1) ↔
  e.(pe_paging) = true ∧ e.(pe_long_mode) = true.
Proof using Haddr.
  intros Hl Hm. pose proof (tdp_last_level g e tdp_level v t m) as E. rewrite ept_ends_walks; [|by apply tdp_mmu_typed|]; rewrite E; unfold guest_levels.
  - destruct (pe_paging e), (pe_long_mode e), (pe_la57 e), (pe_pae e), (pe_pse e); cbn; split; intros H; try done; try lia; by destruct H.
  - destruct (pe_paging e), (pe_long_mode e), (pe_la57 e), (pe_pae e), (pe_pse e); cbn; lia.
Qed.
End EptLevel.

(** A hypervisor with 32-bit PAE paging. *)
Definition pae_env : paging_env := long_mode_env <| pe_long_mode := false |>.

Lemma ept_last_level_exact_witness :
  ¬ ends_walks (vmrun_init_shadow_ept_mmu (X := amd64) (P := amd64_paging) pae_env zero_vcpu false true
      (init_vmrun_tdp_mmu (X := amd64) (P := amd64_paging) x86_masks pae_env 4 zero_vcpu {| tdp_enabled := true; tdp_warned := false |} blank_context).1).
Proof.
  intros H. apply (ept_last_level_exact (X := amd64) (P := amd64_paging) x86_masks pae_env 4) in H.
  - destruct H as [_ H]. discriminate H.
  - cbn. lia.
  - lia.
  - exact blank_typed.
Defined.

(* ------------------------------------------------------------------ *)
(** ** A change of mode *)

(** The tables of a context implement the architecture's rules for the guest's
    mode: where a walk starts and ends, reserved bits of 4- and 5-level paging,
    and permissions. *)
Record mode_tables `{X : X86} `{P : X86Paging} (e : paging_env) (v : vmrun_vcpu) (m : mmu_context) : Prop := {
  mt_root : m.(ctx_root_level) = guest_levels e;
  mt_nx : m.(ctx_nx) = e.(pe_paging) && (e.(pe_long_mode) || e.(pe_pae)) && is_nx v;
  mt_gva : m.(ctx_ops).(op_gva_to_gpa) =
             Some (if negb e.(pe_paging) then nonpaging_fns else if e.(pe_long_mode) || e.(pe_pae) then paging64_fns else paging32_fns);
  mt_last (level gpte : Z) : e.(pe_paging) = true → 1 <= level <= guest_levels e →
    is_last_gpte m level gpte = true ↔
    level = 1 ∨ Z.testbit gpte 7 = true ∧ (level < guest_levels e ∨ guest_levels e = 2 ∧ e.(pe_pse) = true);
  mt_rsvd (level gpte : Z) : e.(pe_paging) = true → e.(pe_long_mode) = true → 1 <= level <= guest_levels e → is_u 64 gpte →
    is_rsvd_bits_set m gpte level = true ↔
    ∃ i, 0 <= i < 64 ∧ Z.testbit gpte i = true ∧
         arch_reserved e.(pe_maxphyaddr) m.(ctx_nx) e.(pe_gbpages) e.(pe_amd) (Z.testbit gpte 7) level i = true;
  mt_rsvd_pae (level gpte : Z) : e.(pe_paging) = true → e.(pe_long_mode) = false → e.(pe_pae) = true →
    1 <= level <= 3 → (level = 3 → Z.testbit gpte 7 = false) → is_u 64 gpte →
    is_rsvd_bits_set m gpte level = true ↔
    ∃ i, 0 <= i < 64 ∧ Z.testbit gpte i = true ∧ arch_reserved_pae e.(pe_maxphyaddr) m.(ctx_nx) (Z.testbit gpte 7) level i = true;
  mt_rsvd_32 (level gpte : Z) : e.(pe_paging) = true → e.(pe_long_mode) = false → e.(pe_pae) = false →
    1 <= level <= 2 → is_u 64 gpte →
    is_rsvd_bits_set m gpte level = true ↔
    ∃ i, 0 <= i < 64 ∧ Z.testbit gpte i = true ∧ arch_reserved_32 e.(pe_pse) (Z.testbit gpte 7) level i = true;
  mt_fault (access pkey pfec : Z) : 0 <= access < 8 → 0 <= pfec < 32 → Z.testbit pfec 3 = false → 0 <= vmrun_get_cpl v <= 3 →
    permission_fault v m access pkey pfec =
    b2z (arch_fault m.(ctx_nx) (Z.testbit v.(cr0) 16) (Z.testbit v.(cr4) 20) (Z.testbit v.(cr4) 21)
           ((vmrun_get_cpl v <? 3) && Z.testbit (vmrun_get_rflags v) 18)
           (Z.testbit pfec 4) (Z.testbit pfec 2) (Z.testbit pfec 1)
           (Z.testbit access 0) (Z.testbit access 1) (Z.testbit access 2))
}.

Section Fresh.
Context `{X : X86, XO : !X86Ok X} `{P : X86Paging, PO : !X86PagingOk P} (g : shadow_masks) (e : paging_env) (tdp_level : Z).
Context (Haddr : 0 <= e.(pe_maxphyaddr)).

(** [is_last_gpte] reads one field. *)
Lemma is_last_ext (m m' : mmu_context) (level gpte : Z) :
  m.(ctx_last_nonleaf_level) = m'.(ctx_last_nonleaf_level) → is_last_gpte m level gpte = is_last_gpte m' level gpte.
Proof. unfold is_last_gpte. by intros ->. Qed.

Lemma permission_fault_ext (v : vmrun_vcpu) (m m' : mmu_context) (access pkey pfec : Z) :
  m.(ctx_permissions) = m'.(ctx_permissions) → permission_fault v m access pkey pfec = permission_fault v m' access pkey pfec.
Proof. unfold permission_fault. by intros ->. Qed.

(** The masks after the four branches, with paging. *)
Lemma guest_tables_masks (nested : bool) (v : vmrun_vcpu) (m : mmu_context) :
  e.(pe_paging) = true →
  let m' := guest_mode_tables e nested v m in
  m'.(ctx_guest_rsvd) = __reset_rsvds_bits_mask e.(pe_maxphyaddr) m'.(ctx_nx) e.(pe_gbpages) e.(pe_pse) e.(pe_amd) m'.(ctx_root_level)
                          m.(ctx_guest_rsvd).
Proof. intros Hp. cbv zeta. unfold guest_mode_tables, reset_rsvds_bits_mask. rewrite Hp. destruct (pe_long_mode e), (pe_pae e); reflexivity. Qed.

Lemma guest_tables_rest (nested : bool) (v : vmrun_vcpu) (m : mmu_context) :
  let m' := guest_mode_tables e nested v m in
  m'.(ctx_nx) = e.(pe_paging) && (e.(pe_long_mode) || e.(pe_pae)) && is_nx v ∧
  m'.(ctx_ops) = m.(ctx_ops) <| op_gva_to_gpa := Some (if negb e.(pe_paging) then nonpaging_fns
                                   else if e.(pe_long_mode) || e.(pe_pae) then paging64_fns else paging32_fns) |> <| op_nested := nested |> ∧
  m'.(ctx_direct_map) = m.(ctx_direct_map) ∧ m'.(ctx_root_hpa) = m.(ctx_root_hpa) ∧
  m'.(ctx_shadow_root_level) = m.(ctx_shadow_root_level) ∧ m'.(ctx_base_role) = m.(ctx_base_role).
Proof.
  cbv zeta. unfold guest_mode_tables, reset_rsvds_bits_mask. cbv zeta.
  destruct (pe_paging e); cbn [negb andb]; [destruct (pe_long_mode e); cbn [orb andb]; [|destruct (pe_pae e); cbn [andb]]|]; by split_and!.
Qed.

Lemma tables_mode (nested : bool) (v : vmrun_vcpu) (m : mmu_context) :
  ctx_typed m → mode_tables e v (update_tables e v (guest_mode_tables e nested v m)).
Proof using XO PO Haddr.
  intros Hm. set (m0 := guest_mode_tables e nested v m).
  pose proof (guest_tables_root e nested v m) as Hr. pose proof (guest_tables_masks nested v m) as Hg.
  destruct (guest_tables_rest nested v m) as (Hnx & Hops & _). fold m0 in Hr, Hg, Hnx, Hops. pose proof (guest_levels_range e) as Hlr.
  destruct (update_tables_keeps e v m0) as (E1 & E2 & E3 & E4 & _ & _ & _ & _ & m1 & E5 & E6 & E7). split.
  - by rewrite E1.
  - by rewrite E2.
  - rewrite E4, Hops. reflexivity.
  - intros level gpte Hp Hl. rewrite (is_last_ext _ _ level gpte E7).
    assert (2 <= guest_levels e) by (unfold guest_levels in *; rewrite Hp; cbn [negb]; repeat case_match; lia).
    rewrite is_last_gpte_correct by (rewrite E6, Hr; lia). by rewrite E6, Hr.
  - intros level gpte Hp Hl Hlv Hu. unfold is_rsvd_bits_set. rewrite E3, E2, Hg, Hr by done. destruct (masks_of_typed m Hm) as [[] _].
    apply rsvd_bits_ok; try done. unfold guest_levels. rewrite Hp, Hl. cbn [negb]. destruct (pe_la57 e); auto.
  - intros level gpte Hp Hl Hpae Hlv H3 Hu. unfold is_rsvd_bits_set. rewrite E3, E2, Hg, Hr by done. destruct (masks_of_typed m Hm) as [[] _].
    assert (Eg : guest_levels e = 3) by (unfold guest_levels; by rewrite Hp, Hl, Hpae). rewrite Eg. by apply rsvd_pae_ok.
  - intros level gpte Hp Hl Hpae Hlv Hu. unfold is_rsvd_bits_set. rewrite E3, Hg, Hr by done. destruct (masks_of_typed m Hm) as [[] _].
    assert (Eg : guest_levels e = 2) by (unfold guest_levels; by rewrite Hp, Hl, Hpae). rewrite Eg. by apply rsvd_32_ok.
  - intros access pkey pfec Ha Hp H3 Hc. rewrite (permission_fault_ext _ _ _ _ _ _ E5), E2. by apply permission_fault_ok.
Qed.

Lemma tdp_mode (v : vmrun_vcpu) (t : tdp_state) (m : mmu_context) :
  0 <= tdp_level <= 5 → ctx_typed m →
  let m' := (init_vmrun_tdp_mmu g e tdp_level v t m).1 in
  mode_tables e v m' ∧ m'.(ctx_root_hpa) = INVALID_PAGE ∧ m'.(ctx_direct_map) = true ∧ m'.(ctx_shadow_root_level) = tdp_level ∧
  m'.(ctx_base_role) = no_role <| br_smm := is_smm v |> <| br_ad_disabled := g.(shadow_accessed_mask) =? 0 |> ∧
  m'.(ctx_ops).(op_page_fault) = Some tdp_fns ∧ m'.(ctx_ops).(op_set_cr3) = Some set_tdp_cr3_fn.
Proof using XO PO Haddr.
  intros Hl Hm. cbv zeta. unfold init_vmrun_tdp_mmu. cbv zeta.
  match goal with |- context [guest_mode_tables e false v ?x] => set (m0 := x); assert (H0 : ctx_typed m0) by (unfold m0; ctx_steps) end.
  pose proof (tables_mode false v m0 H0) as Hmode.
  destruct (guest_tables_rest false v m0) as (_ & Hops & G1 & G2 & G3 & G4).
  destruct (update_tables_keeps e v (guest_mode_tables e false v m0)) as (_ & _ & _ & E4 & E5 & E6 & E7 & E8 & _).
  rewrite Hops in E4. rewrite G1 in E5. rewrite G2 in E6. rewrite G3 in E7. rewrite G4 in E8.
  destruct (tdp_zero_keeps g e t (update_tables e v (guest_mode_tables e false v m0))) as [c ->].
  generalize dependent (update_tables e v (guest_mode_tables e false v m0)). intros m2 [] E4 E5 E6 E7 E8.
  split; [by split|]. cbn. rewrite E4, E5, E6, E7, E8. unfold m0. cbn. by split_and!.
Qed.
End Fresh.

Section ResetContext.
Context `{K : KvmPte} `{T : KvmTrack} `{X : X86, XO : !X86Ok X} `{P : X86Paging, PO : !X86PagingOk P} (g : shadow_masks) (va : Z → Z).
Context (gfn_to_memslot : bool → Z → vmrun_memory_slot) (role_gfn_to_memslot : bool → Z → option vmrun_memory_slot).
Context (PT64_ROOT_MAX_LEVEL : nat) (Hmax : (PT64_ROOT_MAX_LEVEL < KVM_PAGE_ARRAY_NR)%nat).
Context (tdp_level : Z) (e : paging_env).

Notation alloc_ok := (alloc_ok g va gfn_to_memslot role_gfn_to_memslot PT64_ROOT_MAX_LEVEL).

(** C20: a change of the guest's paging mode with two-dimensional paging, outside
    nested guests and from a root of at least four levels.
    [vmrun_mmu_reset_context] gives the root of the old context back (the page
    goes exactly when it was zapped before and this was its last count) and
    leaves a context that has no root, uses the functions of two-dimensional
    paging, and whose tables implement the architecture's rules for the new
    mode, whatever was in the context before: the levels that end a walk, the
    permission faults up to protection keys, and the reserved bits of long
    mode, PAE (except of a directory pointer with bit 7 set, for which there is
    no mask) and 32-bit paging.  A nested context is not touched. *)
Theorem reset_context_correct (v : vmrun_vcpu) (vm : vcpu_mmu) (a : Z) (sp : mmu_page) (x : page_ext) :
  let st := vm.(vm_roots).(ro_alloc) in let m := vm.(vm_contexts).(mc_mmu) in
  vm.(vm_contexts).(mc_tdp).(tdp_enabled) = true → 0 <= tdp_level <= 5 → 0 <= e.(pe_maxphyaddr) → ctx_typed m →
  alloc_ok st → st.(al_zap).(zs_invalid) = [] → VALID_PAGE m.(ctx_root_hpa) = true →
  (PT64_ROOT_4LEVEL <= m.(ctx_shadow_root_level) ∧ (m.(ctx_direct_map) = true ∨ PT64_ROOT_4LEVEL <= m.(ctx_root_level))) →
  al_page_of va st m.(ctx_root_hpa) = a → (mmu (al_shadow st)).(pages) !! a = Some sp → sp.(role_level) ≠ 1 →
  (al_shadow st).(ss_ext) !! a = Some x → a ∈ (al_shadow st).(ss_active) → 1 <= x.(px_root_count) < 2 ^ 31 →
  ∃ vm', vmrun_mmu_reset_context g va gfn_to_memslot role_gfn_to_memslot PT64_ROOT_MAX_LEVEL tdp_level false e v vm = Some vm' ∧
    let st' := vm'.(vm_roots).(ro_alloc) in let m' := vm'.(vm_contexts).(mc_mmu) in
    alloc_ok st' ∧ (al_shadow st').(ss_warns) = (al_shadow st).(ss_warns) ∧
    (if decide (x.(px_root_count) = 1 ∧ x.(px_invalid) = true) then (mmu (al_shadow st')).(pages) !! a = None
     else (mmu (al_shadow st')).(pages) !! a = Some sp ∧ root_count_of st' a = x.(px_root_count) - 1) ∧
    m'.(ctx_root_hpa) = INVALID_PAGE ∧ vm'.(vm_roots).(root_hpa) = INVALID_PAGE ∧ vm'.(vm_contexts).(mc_nested) = vm.(vm_contexts).(mc_nested) ∧
    m'.(ctx_direct_map) = true ∧ m'.(ctx_shadow_root_level) = tdp_level ∧
    m'.(ctx_base_role) = no_role <| br_smm := is_smm v |> <| br_ad_disabled := g.(shadow_accessed_mask) =? 0 |> ∧
    m'.(ctx_ops).(op_page_fault) = Some tdp_fns ∧ m'.(ctx_ops).(op_set_cr3) = Some set_tdp_cr3_fn ∧ mode_tables e v m'.
Proof using XO PO Hmax.
  destruct vm as [[m n t] r0 k]. cbn [vm_contexts vm_roots mc_mmu mc_nested mc_tdp]. cbv zeta.
  intros Htdp Hlevel Haddr Hm Hok Hi Hv Hlev Ea Hsp Hlv Hx Ha Hn. set (r := r0 <| root_hpa := ctx_root_hpa m |>).
  destruct (unload_root_ok g va gfn_to_memslot role_gfn_to_memslot PT64_ROOT_MAX_LEVEL (paging_of e m) Hmax r a sp x Hok Hi Hv Hlev Ea Hsp Hlv Hx Ha Hn)
    as (r' & E & Er & Hok' & Hw & Hc).
  set (m1 := m <| ctx_root_hpa := root_hpa r' |>). assert (H1 : ctx_typed m1) by (unfold m1; rewrite Er; ctx_steps).
  destruct (tdp_mode (XO := XO) (PO := PO) g e tdp_level Haddr v t m1 Hlevel H1) as (M0 & M1 & M2 & M3 & M4 & M5 & M6).
  set (c := init_vmrun_mmu g e tdp_level false v {| mc_mmu := m1; mc_nested := n; mc_tdp := t |}).
  assert (Ec : c.(mc_mmu) = (init_vmrun_tdp_mmu g e tdp_level v t m1).1 ∧ c.(mc_nested) = n).
  { unfold c, init_vmrun_mmu. rewrite Htdp. by destruct (init_vmrun_tdp_mmu _ _ _ _ _ _). }
  destruct Ec as [Ec En]. rewrite <- Ec in *.
  exists {| vm_contexts := c; vm_roots := r' <| root_hpa := c.(mc_mmu).(ctx_root_hpa) |>; vm_invlpg := k |}.
  split; [unfold vmrun_mmu_reset_context, on_roots; cbn [vm_contexts vm_roots mc_mmu]; fold r; rewrite E; reflexivity|].
  cbn [vm_contexts vm_roots ro_alloc]. by split_and!.
Qed.
End ResetContext.

(** The root of [one_root], with the context of a guest in long mode; the guest
    leaves long mode. *)
Definition long_context : mmu_context :=
  blank_context <| ctx_root_level := 4 |> <| ctx_shadow_root_level := 4 |> <| ctx_direct_map := true |> <| ctx_root_hpa := 0x1000 |>.
Definition long_vcpu : vcpu_mmu :=
  {| vm_contexts := blank_contexts <| mc_mmu := long_context |>; vm_roots := one_root; vm_invlpg := 0 |}.

Lemma reset_context_correct_witness :
  ∃ vm', vmrun_mmu_reset_context (K := kvm_pte_x86) (T := kvm_track) (X := amd64) (P := amd64_paging) x86_masks (λ p, p) tree_slot tree_role_slot
           tree_level 4 false pae_env zero_vcpu long_vcpu = Some vm' ∧
    root_count_of vm'.(vm_roots).(ro_alloc) 1 = 0 ∧ vm'.(vm_contexts).(mc_mmu).(ctx_root_level) = 3.
Proof.
  destruct (reset_context_correct (K := kvm_pte_x86) (T := kvm_track) (X := amd64) (XO := amd64_ok) (P := amd64_paging) (PO := amd64_paging_ok)
              x86_masks (λ p, p) tree_slot tree_role_slot tree_level tree_room 4 pae_env zero_vcpu long_vcpu 1 (tree_page 1 3) (recount 1 (tree_ext 0 false)))
    as (vm' & E & _ & _ & Hc & _ & _ & _ & _ & _ & _ & _ & _ & [Hr _ _ _ _ _]).
  - reflexivity.
  - lia.
  - cbn. lia.
  - destruct blank_typed. split; try done; cbn; lia.
  - exact one_root_ok.
  - reflexivity.
  - reflexivity.
  - unfold PT64_ROOT_4LEVEL. cbn. split; [lia|by left].
  - reflexivity.
  - reflexivity.
  - discriminate.
  - reflexivity.
  - left.
  - cbn. lia.
  - exists vm'. split; [exact E|]. split; [|exact Hr]. rewrite decide_False in Hc; [apply Hc|]. intros [_ H]. discriminate.
Defined.
