(* ===== verification/Demo.v ===== *)
(** * The demonstration program

    user/demo.c: a client of the device.  It creates a virtual machine with
    one memory region, loads a binary into it, creates a VCPU, sets its
    registers and runs it until the guest shuts down.

    The system calls the program makes are the operations of the class
    [DemoSys], over the state of the kernel and the files; what the kernel
    module does for them is in the other files.  Messages are not modelled.
    Memory the program gets from [malloc] holds what it held before. *)

From S2P Require Import Prelude.
From S2P Require Import Vmcb.
From S2P Require Import MemRegion.

Definition RAM_SIZE : Z := 8000000.
Definition CODE_START : Z := 0x1000.
Definition MAP_FAILED : Z := 2 ^ 64 - 1.

Definition VMRUN_EXIT_UNKNOWN : Z := 0.
Definition VMRUN_EXIT_IO : Z := 2.
Definition VMRUN_EXIT_HYPERCALL : Z := 3.
Definition VMRUN_EXIT_DEBUG : Z := 4.
Definition VMRUN_EXIT_MMIO : Z := 5.
Definition VMRUN_EXIT_SHUTDOWN : Z := 6.
Definition VMRUN_EXIT_INTR : Z := 8.

(** [struct vcpu] *)
Record vcpu := {
  vcpu_id : Z;
  vcpu_fd : Z;
  vmrun_run : Z;
  vmrun_run_mmap_size : Z;
  c_regs : vmrun_regs;
  c_sregs : vmrun_sregs
}.
#[export] Instance eta_vcpu : Eta vcpu := λ r,
  {| vcpu_id := r.(vcpu_id); vcpu_fd := r.(vcpu_fd); vmrun_run := r.(vmrun_run);
     vmrun_run_mmap_size := r.(vmrun_run_mmap_size); c_regs := r.(c_regs); c_sregs := r.(c_sregs) |}.

(** [struct vmrun]; [d_vcpus] is [None] for NULL. *)
Record demo := {
  dev_fd : Z;
  vm_fd : Z;
  ram_size : Z;
  ram_start : Z;
  d_mem : memory_region;
  d_vcpus : option vcpu;
  vcpu_number : Z
}.
#[export] Instance eta_demo : Eta demo := λ r,
  {| dev_fd := r.(dev_fd); vm_fd := r.(vm_fd); ram_size := r.(ram_size); ram_start := r.(ram_start);
     d_mem := r.(d_mem); d_vcpus := r.(d_vcpus); vcpu_number := r.(vcpu_number) |}.

(** The system calls.  A result is what the C library returns, -1 for an error;
    [None]: the kernel does not survive the call. *)
Class DemoSys (S : Type) := {
  sys_open_device : S → Z * S;
  sys_create_vm : Z → Z → S → option (Z * S);                       (* ioctl VMRUN_CREATE_VM *)
  sys_mmap_ram : Z → S → Z * S;
  sys_set_region : Z → memory_region → S → option (Z * S);          (* VMRUN_SET_USER_MEMORY_REGION *)
  sys_open_binary : S → Z * S;
  sys_read : Z → Z → Z → S → Z * list Z * S;                        (* fd, buffer, size; the result and the bytes stored *)
  sys_create_vcpu : Z → Z → S → option (Z * S);                     (* VMRUN_CREATE_VCPU *)
  sys_mmap_size : Z → Z → S → option (Z * S);                       (* VMRUN_GET_VCPU_MMAP_SIZE *)
  sys_mmap_run : Z → Z → S → Z * S;
  sys_get_sregs : Z → S → option (Z * option vmrun_sregs * S);      (* VMRUN_GET_SREGS, with what was copied *)
  sys_set_sregs : Z → vmrun_sregs → S → option (Z * S);
  sys_set_regs : Z → vmrun_regs → S → option (Z * S);
  sys_run : Z → Z → S → option (Z * S);                             (* VMRUN_RUN *)
  sys_exit_reason : Z → S → Z;                                      (* exit_reason of the mapped vmrun_run *)
  sys_thread : S → Z * S;                                           (* pthread_create *)
  sys_close : Z → S → S;
  sys_munmap : Z → Z → S → S
}.

(** The program: its allocations, the bytes of its memory, and the kernel. *)
Record world (S : Type) := {
  w_demo : demo;                   (* *vmrun *)
  w_bytes : Z → Z;
  w_freed : bool;
  w_sys : S
}.
Arguments w_demo {S}.
Arguments w_bytes {S}.
Arguments w_freed {S}.
Arguments w_sys {S}.
#[export] Instance eta_world (S : Type) : Eta (world S) := λ r,
  {| w_demo := r.(w_demo); w_bytes := r.(w_bytes); w_freed := r.(w_freed); w_sys := r.(w_sys) |}.

(** How a piece of the program ends. *)
Inductive result (A : Type) :=
| Done (a : A)
| Exit (status : Z)               (* exit() *)
| Segv                            (* a NULL pointer *)
| Oops                            (* the kernel *)
| Running.                        (* not yet *)
Arguments Done {A}.
Arguments Exit {A}.
Arguments Segv {A}.
Arguments Oops {A}.
Arguments Running {A}.

Section Demo.
Context {S : Type} `{D : !DemoSys S}.

Definition prog (A : Type) : Type := world S → result A * world S.

Definition ret {A} (a : A) : prog A := λ w, (Done a, w).
Definition stop {A} (r : result A) : prog A := λ w, (r, w).
Definition bind {A B} (m : prog A) (k : A → prog B) : prog B := λ w,
  match m w with
  | (Done a, w) => k a w
  | (Exit n, w) => (Exit n, w)
  | (Segv, w) => (Segv, w)
  | (Oops, w) => (Oops, w)
  | (Running, w) => (Running, w)
  end.
Definition get : prog demo := λ w, (Done w.(w_demo), w).
Definition modify (f : demo → demo) : prog unit := λ w, (Done tt, w <| w_demo ::= f |>).
(** A system call that returns, and one the kernel may not survive. *)
Definition call {A} (f : S → A * S) : prog A := λ w, let '(a, s) := f w.(w_sys) in (Done a, w <| w_sys := s |>).
Definition ioctl {A} (f : S → option (A * S)) : prog A := λ w,
  match f w.(w_sys) with
  | Some (a, s) => (Done a, w <| w_sys := s |>)
  | None => (Oops, w)
  end.

#[local] Notation "x <- m ;; k" := (bind m (λ x, k)) (at level 100, m at next level, right associativity).
#[local] Notation "m ;; k" := (bind m (λ _, k)) (at level 100, right associativity).

(** [vmrun->vcpus->...]: NULL is not checked. *)
Definition the_vcpu : prog vcpu := d <- get ;; match d.(d_vcpus) with Some c => ret c | None => stop Segv end.
Definition set_vcpu (f : vcpu → vcpu) : prog unit := modify (λ d, d <| d_vcpus ::= fmap f |>).

(** The segments of [vmrun_reset_vcpu]; [gs] keeps its base. *)
Definition code_segment (seg : vmrun_segment) : vmrun_segment := seg <| g_selector := CODE_START |> <| g_base := CODE_START * 16 |>.
Definition reset_sregs (s : vmrun_sregs) : vmrun_sregs :=
  s <| s_cs ::= code_segment |> <| s_ss ::= code_segment |> <| s_ds ::= code_segment |> <| s_es ::= code_segment |>
    <| s_fs ::= code_segment |> <| s_gs ::= λ seg, seg <| g_selector := CODE_START |> |>.
Definition reset_regs (r : vmrun_regs) : vmrun_regs :=
  r <| u_rflags := 2 |> <| u_rip := 0 |> <| u_rsp := 0xffffffff |> <| u_rbp := 0 |>.

Definition vmrun_reset_vcpu : prog unit :=
  c <- the_vcpu ;;
  p <- ioctl (sys_get_sregs c.(vcpu_fd)) ;;
  (let '(r, copied) := p in
   set_vcpu (λ c, match copied with Some s => c <| c_sregs := s |> | None => c end) ;;
   if r <? 0 then stop (Exit 1)
   else
     set_vcpu (λ c, c <| c_sregs ::= reset_sregs |>) ;;
     c <- the_vcpu ;;
     r <- ioctl (sys_set_sregs c.(vcpu_fd) c.(c_sregs)) ;;
     if r <? 0 then stop (Exit 1)
     else
       set_vcpu (λ c, c <| c_regs ::= reset_regs |>) ;;
       c <- the_vcpu ;;
       r <- ioctl (sys_set_regs c.(vcpu_fd) c.(c_regs)) ;;
       if r <? 0 then stop (Exit 1) else ret tt).

(** The exits after which the thread runs the VCPU again. *)
Definition goes_on (reason : Z) : bool :=
  existsb (Z.eqb reason)
    [VMRUN_EXIT_UNKNOWN; VMRUN_EXIT_HYPERCALL; VMRUN_EXIT_DEBUG; VMRUN_EXIT_IO; VMRUN_EXIT_MMIO; VMRUN_EXIT_INTR].

(** [while (1)]; [fuel] bounds the passes. *)
Fixpoint cpu_loop (fuel : nat) : prog Z :=
  match fuel with
  | O => stop Running
  | Datatypes.S fuel =>
      c <- the_vcpu ;;
      r <- ioctl (sys_run c.(vcpu_fd) 0) ;;
      if r <? 0 then stop (Exit 1)
      else
        reason <- (λ w, (Done (sys_exit_reason c.(vmrun_run) w.(w_sys)), w)) ;;
        if goes_on reason then cpu_loop fuel else ret 0     (* VMRUN_EXIT_SHUTDOWN, default *)
  end.

Definition vmrun_cpu_thread (fuel : nat) : prog Z := vmrun_reset_vcpu ;; cpu_loop fuel.

Definition store (p : Z) (l : list Z) (m : Z → Z) : Z → Z := λ a, default (m a) (l !! Z.to_nat (a - p) ≫= λ b, if p <=? a then Some b else None).

(** [while(1)] of [vmrun_load_binary]; [p] is not checked against the end of
    the memory, and an error of [read] ends the loop like the end of the
    file. *)
Fixpoint load_loop (fuel : nat) (fd p : Z) : prog unit :=
  match fuel with
  | O => stop Running
  | Datatypes.S fuel =>
      r <- call (sys_read fd p 4096) ;;
      (let '(n, bytes) := r in
       (λ w, (Done tt, w <| w_bytes ::= store p bytes |>)) ;;
       if n <=? 0 then ret tt else load_loop fuel fd (p + n))
  end.

Definition vmrun_load_binary (fuel : nat) : prog unit :=
  fd <- call sys_open_binary ;;
  if fd <? 0 then stop (Exit 1) else d <- get ;; load_loop fuel fd d.(ram_start).

(** [false]: NULL.  The structure is what [malloc] gave. *)
Definition vmrun_init : prog bool :=
  fd <- call sys_open_device ;;
  modify (λ d, d <| dev_fd := fd |>) ;;
  ret (negb (fd <? 0)).

Definition vmrun_clean : prog unit :=
  d <- get ;; call (λ s, (tt, sys_close d.(dev_fd) s)) ;; (λ w, (Done tt, w <| w_freed := true |>)).

(** The flags of the region are not set. *)
Definition vmrun_create_vm (size : Z) : prog Z :=
  d <- get ;;
  fd <- ioctl (sys_create_vm d.(dev_fd) 0) ;;
  modify (λ d, d <| vm_fd := fd |>) ;;
  if fd <? 0 then ret (- 1)
  else
    modify (λ d, d <| ram_size := size |>) ;;
    p <- call (sys_mmap_ram size) ;;
    modify (λ d, d <| ram_start := p |>) ;;
    if p =? MAP_FAILED then ret (- 1)
    else
      modify (λ d, d <| d_mem ::= λ m, m <| m_slot := 0 |> <| m_guest_phys_addr := 0 |>
                                         <| m_memory_size := d.(ram_size) |> <| m_userspace_addr := d.(ram_start) |> |>) ;;
      d <- get ;;
      ioctl (sys_set_region d.(vm_fd) d.(d_mem)).

Definition vmrun_clean_vm : prog unit :=
  d <- get ;; call (λ s, (tt, sys_munmap d.(ram_start) d.(ram_size) (sys_close d.(vm_fd) s))).

(** [None]: NULL; [c] is what [malloc] gave.  The id that was passed is not
    used. *)
Definition vmrun_init_vcpu (c : vcpu) : prog (option vcpu) :=
  d <- get ;;
  (let c := c <| vcpu_id := 0 |> in
   fd <- ioctl (sys_create_vcpu d.(vm_fd) c.(vcpu_id)) ;;
   let c := c <| vcpu_fd := fd |> in
   if fd <? 0 then ret None
   else
     size <- ioctl (sys_mmap_size d.(dev_fd) 0) ;;
     let c := c <| vmrun_run_mmap_size := size |> in
     if size <? 0 then ret None
     else
       p <- call (sys_mmap_run c.(vcpu_fd) size) ;;
       let c := c <| vmrun_run := p |> in
       if p =? MAP_FAILED then ret None else ret (Some c)).

Definition vmrun_clean_vcpu : prog unit :=
  c <- the_vcpu ;; call (λ s, (tt, sys_close c.(vcpu_fd) (sys_munmap c.(vmrun_run) c.(vmrun_run_mmap_size) s))).

(** The loop that starts the threads; all write [vcpus->vcpu_thread]. *)
Fixpoint start_threads (n : nat) : prog unit :=
  match n with
  | O => ret tt
  | Datatypes.S n =>
      the_vcpu ;;
      r <- call sys_thread ;;
      if negb (r =? 0) then stop (Exit 1) else start_threads n
  end.

(** [main] starts one thread, and waits for it. *)
Definition vmrun_run_vm (fuel : nat) : prog unit :=
  d <- get ;;
  start_threads (Z.to_nat d.(vcpu_number)) ;;
  the_vcpu ;;
  vmrun_cpu_thread fuel ;; ret tt.

Definition main (fuel : nat) (c : vcpu) : prog Z :=
  ok <- vmrun_init ;;
  if negb ok then ret (- 1)
  else
    r <- vmrun_create_vm RAM_SIZE ;;
    if r <? 0 then ret (- 1)
    else
      vmrun_load_binary fuel ;;
      modify (λ d, d <| vcpu_number := 1 |>) ;;
      c <- vmrun_init_vcpu c ;;
      modify (λ d, d <| d_vcpus := c |>) ;;
      vmrun_run_vm fuel ;;
      vmrun_clean_vm ;;
      vmrun_clean_vcpu ;;
      vmrun_clean ;;
      ret 0.
End Demo.
