(* ===== verification/DemoProps.v ===== *)
(** * The demonstration program: what it loads, where it would start, and why
    it does not get there

    What the program relies on is stated as classes over its system calls;
    the kernel model is an instance of both. *)

From S2P Require Import Prelude.
From S2P Require Import Spte.
From S2P Require Import Vcpu.
From S2P Require Import Vmcb.
From S2P Require Import VmcbProps.
From S2P Require Import Memslots.
From S2P Require Import MemRegion.
From S2P Require Import CpuEnable.
From S2P Require Import CpuEnableProps.
From S2P Require Import VcpuTable.
From S2P Require Import VcpuTableProps.
From S2P Require Import VcpuIoctl.
From S2P Require Import VmLifecycle.
From S2P Require Import VmLifecycleProps.
From S2P Require Import MemRegionProps.
From S2P Require Import Demo.

(** [ioctl] of the C library. *)
Definition libc (r : Z) : Z := if (- 4095 <=? r) && (r <? 0) then - 1 else r.

(** The kernel answers a request for a memory region as [MemRegion] does, or
    refuses it before. *)
Class RegionServer `{KM : KvmMmuPages} {S : Type} (D : DemoSys S) (have_readonly largepages : bool) (access_ok : Z → Z → bool) : Prop := {
  rs_region (fd : Z) (mem : memory_region) (s : S) (r : Z) (s' : S) :
    sys_set_region fd mem s = Some (r, s') →
    r = - 1 ∨ ∃ m : vm_mem, r = libc (vmrun_vm_ioctl_set_memory_region have_readonly largepages access_ok mem m).1
}.

(** [read] of a file whose unread bytes are [unread], into the buffer at [p]:
    the next bytes, in a piece of the size asked for or less, and 0 only at the
    end; or -1, and then some of the buffer may have been written. *)
Class FileReader {S : Type} (D : DemoSys S) (unread : S → list Z) : Prop := {
  fr_read (fd p n : Z) (s : S) : 0 < n →
    ∃ r bytes s', sys_read fd p n s = (r, bytes, s') ∧ Z.of_nat (length bytes) <= n ∧
      (r = - 1 ∨ r = Z.of_nat (length bytes) ∧ unread s = bytes ++ unread s' ∧ (r = 0 → unread s = []))
}.

(* ------------------------------------------------------------------ *)
(** ** Loading the binary *)

Lemma store_spec (p : Z) (l : list Z) (m : Z → Z) (a : Z) :
  store p l m a = if (p <=? a) && (a <? p + Z.of_nat (length l)) then l !!! Z.to_nat (a - p) else m a.
Proof.
  unfold store. destruct (Z.leb_spec p a) as [Hp|Hp]; cbn [andb].
  - destruct (Z.ltb_spec a (p + Z.of_nat (length l))) as [Hl|Hl].
    + destruct (l !! Z.to_nat (a - p)) as [b|] eqn:E; cbn; [by rewrite (list_lookup_total_correct _ _ _ E)|].
      apply lookup_ge_None in E. lia.
    + rewrite lookup_ge_None_2 by lia. done.
  - by destruct (l !! _).
Qed.

Lemma store_app (p : Z) (l1 l2 : list Z) (m : Z → Z) (a : Z) :
  store (p + Z.of_nat (length l1)) l2 (store p l1 m) a = store p (l1 ++ l2) m a.
Proof.
  rewrite !store_spec, length_app, Nat2Z.inj_add.
  destruct (Z.leb_spec p a), (Z.leb_spec (p + Z.of_nat (length l1)) a), (Z.ltb_spec a (p + Z.of_nat (length l1))),
    (Z.ltb_spec a (p + Z.of_nat (length l1) + Z.of_nat (length l2))), (Z.ltb_spec a (p + (Z.of_nat (length l1) + Z.of_nat (length l2))));
    cbn [andb]; try done; try lia.
  - rewrite lookup_total_app_r by lia. f_equal. lia.
  - by rewrite lookup_total_app_l by lia.
Qed.

Lemma store_nil (p : Z) (m : Z → Z) (a : Z) : store p [] m a = m a.
Proof. reflexivity. Qed.

Lemma store_outside (p : Z) (l : list Z) (m : Z → Z) (a : Z) : ¬ (p <= a < p + Z.of_nat (length l)) → store p l m a = m a.
Proof. intros Ha. rewrite store_spec. replace (_ && _) with false by lia. done. Qed.

Section Load.
Context {S : Type} `{D : !DemoSys S} (unread : S → list Z) `{R : !FileReader D unread}.

(** Memory [m'] is [m] with [l] stored at [p], but for the 4096 bytes after it. *)
Definition stored_upto (p : Z) (l : list Z) (m m' : Z → Z) : Prop :=
  ∀ a, ¬ (p + Z.of_nat (length l) <= a < p + Z.of_nat (length l) + 4096) → m' a = store p l m a.

Lemma load_loop_ok (fuel : nat) (fd p : Z) (w : world S) :
  (length (unread w.(w_sys)) < fuel)%nat →
  ∃ w' loaded rest, load_loop fuel fd p w = (Done tt, w') ∧ w'.(w_demo) = w.(w_demo) ∧ unread w.(w_sys) = loaded ++ rest ∧
    (rest = [] ∧ (∀ a, w'.(w_bytes) a = store p loaded w.(w_bytes) a) ∨
     (∃ s, (sys_read fd (p + Z.of_nat (length loaded)) 4096 s).1.1 = - 1) ∧ stored_upto p loaded w.(w_bytes) w'.(w_bytes)).
Proof using R.
  revert p w. induction fuel as [|fuel IH]; intros p w Hf; [lia|]. cbn [load_loop]. unfold bind at 1, call.
  destruct (fr_read fd p 4096 w.(w_sys) ltac:(lia)) as (r & bytes & s' & E & Hb & Hr). rewrite E.
  unfold bind. destruct Hr as [->|(-> & Hu & H0)].
  { change (-1 <=? 0) with true. cbn iota. eexists _, [], _. split; [reflexivity|]. split; [done|]. split; [reflexivity|]. right.
    cbn [length]. split; [exists w.(w_sys); by rewrite Z.add_0_r, E|]. intros a Ha. cbn [length] in Ha.
    change (store p bytes (w_bytes w) a = store p [] (w_bytes w) a). rewrite store_nil, store_outside; [done|lia]. }
  destruct (Z.leb_spec (Z.of_nat (length bytes)) 0) as [Hz|Hz].
  { assert (Hn : bytes = []) by (apply nil_length_inv; lia). eexists _, [], _. split; [reflexivity|]. split; [done|]. split; [reflexivity|]. left.
    split; [apply H0; lia|]. intros a. cbn. by rewrite Hn. }
  match goal with |- context [load_loop fuel fd _ ?x] => destruct (IH (p + Z.of_nat (length bytes)) x) as (w' & loaded & rest & -> & E1 & E2 & E3) end.
  { cbn. apply (f_equal length) in Hu. rewrite length_app in Hu. lia. }
  cbn in E1, E2, E3. exists w', (bytes ++ loaded), rest. split; [done|]. split; [done|]. split; [by rewrite Hu, E2, app_assoc|].
  destruct E3 as [[E3 E4]|[[s Es] E4]]; [left|right].
  - split; [done|]. intros a. by rewrite E4, store_app.
  - rewrite length_app, Nat2Z.inj_add, Z.add_assoc. split; [by exists s|]. intros a Ha. rewrite <- store_app.
    rewrite length_app, Nat2Z.inj_add, Z.add_assoc in Ha. by apply E4.
Qed.

(** C37: what the demonstration loads, and where it starts.  With enough passes
    [vmrun_load_binary] ends with a first part of the file at the start of the
    guest's memory.  Either it is the whole file and no other byte changed; or a
    [read] failed: then the rest of the file is missing, without any report,
    and only the 4096 bytes after what was loaded may have changed.  The code
    segment and instruction pointer that [vmrun_reset_vcpu] sets point to guest
    address 0x10000, so after a complete load the first instruction is of the
    file only if the file is longer than that, and otherwise what the memory
    held before. *)
Theorem load_binary_correct (fuel : nat) (w : world S) (sregs : vmrun_sregs) (regs : vmrun_regs) :
  let fd := (sys_open_binary w.(w_sys)).1 in let file := unread (sys_open_binary w.(w_sys)).2 in
  let start := w.(w_demo).(ram_start) in
  let entry := (reset_sregs sregs).(s_cs).(g_base) + (reset_regs regs).(u_rip) in
  0 <= fd → (length file < fuel)%nat →
  entry = 0x10000 ∧
  ∃ w' loaded rest, vmrun_load_binary fuel w = (Done tt, w') ∧ w'.(w_demo) = w.(w_demo) ∧ file = loaded ++ rest ∧
    (∀ a, start <= a < start + Z.of_nat (length loaded) → w'.(w_bytes) a = loaded !!! Z.to_nat (a - start)) ∧
    (rest = [] ∧
       (∀ a, ¬ (start <= a < start + Z.of_nat (length loaded)) → w'.(w_bytes) a = w.(w_bytes) a) ∧
       w'.(w_bytes) (start + entry) = default (w.(w_bytes) (start + entry)) (file !! Z.to_nat entry) ∨
     (∃ s, (sys_read fd (start + Z.of_nat (length loaded)) 4096 s).1.1 = - 1) ∧
       ∀ a, ¬ (start <= a < start + Z.of_nat (length loaded) + 4096) → w'.(w_bytes) a = w.(w_bytes) a).
Proof using R.
  intros fd file start entry Hfd Hf. split; [done|]. unfold vmrun_load_binary, bind at 1, call. unfold fd in *. unfold file in *.
  destruct (sys_open_binary w.(w_sys)) as [n s]. cbn [fst snd] in *. destruct (Z.ltb_spec n 0); [lia|].
  unfold bind, get. match goal with |- context [load_loop fuel n _ ?x] =>
    destruct (load_loop_ok fuel n (ram_start (w_demo x)) x Hf) as (w' & loaded & rest & -> & E1 & E2 & E3) end.
  cbn in E1, E2, E3. fold start in E3. exists w', loaded, rest. split; [done|]. split; [done|]. split; [done|].
  destruct E3 as [[-> E3]|[Hs E3]].
  - split; [intros a Ha|left; split; [done|split; [intros a Ha|]]].
    + rewrite E3, store_spec. replace (_ && _) with true by lia. done.
    + rewrite E3, store_spec. replace (_ && _) with false by lia. done.
    + change entry with 0x10000. rewrite E3. unfold store. replace (start + 0x10000 - start) with 0x10000 by lia.
      replace (start <=? start + 0x10000) with true by lia. rewrite E2, app_nil_r. by destruct (loaded !! _).
  - split; [intros a Ha|right; split; [done|intros a Ha]]; rewrite E3, store_spec by lia.
    + replace (_ && _) with true by lia. done.
    + replace (_ && _) with false by lia. done.
Qed.
End Load.

(* ------------------------------------------------------------------ *)
(** ** The memory region *)

Section Region.
Context `{KM : KvmMmuPages} (have_readonly largepages : bool) (access_ok : Z → Z → bool).

(** 8000000 bytes are not a whole number of pages. *)
Lemma region_refused (mem : memory_region) (m : vm_mem) :
  mem.(m_slot) = 0 → mem.(m_memory_size) = RAM_SIZE →
  vmrun_vm_ioctl_set_memory_region have_readonly largepages access_ok mem m = (- EINVAL, m).
Proof using Type.
  intros Hs Hm. unfold vmrun_vm_ioctl_set_memory_region. rewrite Hs. change (u16 0 >=? VMRUN_USER_MEM_SLOTS) with false. cbv iota.
  unfold vmrun_set_memory_region, __vmrun_set_memory_region, mr_checks. rewrite Hm.
  change (truth (Z.land RAM_SIZE (PAGE_SIZE - 1))) with true. cbv zeta. unfold vmrun_check_memory_region_flags.
  destruct (truth (Z.land _ _)); reflexivity.
Qed.

Context {S : Type} `{D : !DemoSys S} `{R : !RegionServer D have_readonly largepages access_ok}.

Lemma create_vm_fails (w : world S) :
  let '(r, w') := Demo.vmrun_create_vm RAM_SIZE w in
  (r = Done (- 1) ∨ r = Oops) ∧ w'.(w_bytes) = w.(w_bytes) ∧ w'.(w_demo).(d_vcpus) = w.(w_demo).(d_vcpus).
Proof using R.
  unfold Demo.vmrun_create_vm, bind at 1, get. unfold bind at 1, Demo.ioctl.
  destruct (sys_create_vm _ _ _) as [[fd s1]|]; [|split_and!; [by right|done|done]].
  unfold bind at 1, modify. destruct (fd <? 0); [split_and!; [by left|done|done]|]. unfold bind at 1. unfold bind at 1, call.
  match goal with |- context [sys_mmap_ram RAM_SIZE ?x] => destruct (sys_mmap_ram RAM_SIZE x) as [p s2] end.
  unfold bind at 1. destruct (p =? MAP_FAILED); [split_and!; [by left|done|done]|]. unfold bind. cbn -[RAM_SIZE].
  match goal with |- context [sys_set_region ?a ?b ?c] => destruct (sys_set_region a b c) as [[r s3]|] eqn:E end.
  - apply rs_region in E as [->|(m & ->)]; [split_and!; [by left|done|done]|].
    rewrite region_refused by done. change (libc _) with (- 1). split_and!; [by left|done|done].
  - split_and!; [by right|done|done].
Qed.

(** C38: the demonstration never runs its guest.  Whatever the kernel's state is,
    as long as it checks memory regions as [vmrun_vm_ioctl_set_memory_region]
    does, [main] returns -1, unless the kernel does not survive the creation of
    the virtual machine: the size of the memory, 8000000, is not a multiple of
    the page size, and the region is refused.  Nothing is loaded and no VCPU is
    created. *)
Theorem demo_never_starts (fuel : nat) (c : Demo.vcpu) (w : world S) :
  let '(r, w') := main fuel c w in
  (r = Done (- 1) ∨ r = Oops) ∧ w'.(w_bytes) = w.(w_bytes) ∧ w'.(w_demo).(d_vcpus) = w.(w_demo).(d_vcpus).
Proof using R.
  unfold main, bind at 1, Demo.vmrun_init. unfold bind at 1, call.
  destruct (sys_open_device _) as [fd s]. unfold bind at 1, modify, ret at 1. destruct (negb (negb _)); [split_and!; [by left|done|done]|].
  unfold bind at 1. match goal with |- context [Demo.vmrun_create_vm RAM_SIZE ?x] => pose proof (create_vm_fails x) as H; destruct (Demo.vmrun_create_vm RAM_SIZE x) as [r w'] end.
  destruct H as ([-> | ->] & H2 & H3); (split_and!; [first [by left|by right]|done|done]).
Qed.
End Region.

(* ------------------------------------------------------------------ *)
(** ** The kernel model as the system below the program *)

(** The kernel, and the unread part of the binary. *)
Record node := { nd_kernel : kernel; nd_unread : list Z }.

(** The calls that concern a VCPU's file, the device's and the addresses of
    mappings. *)
Record other_calls := {
  oc_get_sregs : Z → node → option (Z * option vmrun_sregs * node);
  oc_set_sregs : Z → vmrun_sregs → node → option (Z * node);
  oc_set_regs : Z → vmrun_regs → node → option (Z * node);
  oc_run : Z → Z → node → option (Z * node);
  oc_reason : Z → node → Z;
  oc_device : Z; oc_binary : Z; oc_ram : Z; oc_runs : Z
}.

Section Node.
Context `{X : X86} `{KM : KvmMmuPages} (iopm_base : Z) (mmu_reset mmu_setup : vmrun_vcpu → vmrun_mmu)
        (mmu_free_valid_roots : vmrun_vcpu → vmrun_vcpu) (have_readonly largepages : bool) (access_ok : Z → Z → bool).
Context (cenv : create_env) (lm : vmrun_vcpu → bool) (env : vm_env) (r0 : Z)
        (oc : other_calls).

Definition with_kernel (s : node) (p : option (Z * kernel)) : option (Z * node) :=
  '(r, k) ← p; Some (libc r, {| nd_kernel := k; nd_unread := s.(nd_unread) |}).

(** An ioctl on the descriptor of a virtual machine. *)
Definition on_vm (fd : Z) (mem : option memory_region) (cmd : vm_cmd) (arg : Z) (s : node) : option (Z * node) :=
  match s.(nd_kernel).(vm_files) !! fd with
  | None => Some (- 1, s)
  | Some vm => with_kernel s (vmrun_vm_ioctl iopm_base mmu_reset mmu_setup mmu_free_valid_roots have_readonly largepages access_ok
                                cenv lm r0 mem vm cmd arg s.(nd_kernel))
  end.

Definition node_sys : DemoSys node :=
  {| sys_open_device := λ s, (oc.(oc_device), s);
     sys_create_vm := λ _ type s, with_kernel s (vmrun_dev_ioctl mmu_free_valid_roots have_readonly largepages access_ok cenv lm env VMRUN_CREATE_VM type s.(nd_kernel));
     sys_mmap_ram := λ _ s, (oc.(oc_ram), s);
     sys_set_region := λ fd mem, on_vm fd (Some mem) VMRUN_SET_USER_MEMORY_REGION 0;
     sys_open_binary := λ s, (oc.(oc_binary), s);
     sys_read := λ _ p n s, if negb (access_ok p n) then (- 1, [], s)       (* EFAULT *)
                            else let k := Nat.min (Z.to_nat n) (length s.(nd_unread)) in
                                 (Z.of_nat k, take k s.(nd_unread), {| nd_kernel := s.(nd_kernel); nd_unread := drop k s.(nd_unread) |});
     sys_create_vcpu := λ fd id, on_vm fd None VMRUN_CREATE_VCPU id;
     sys_mmap_size := λ _ arg s, with_kernel s (vmrun_dev_ioctl mmu_free_valid_roots have_readonly largepages access_ok cenv lm env VMRUN_GET_VCPU_MMAP_SIZE arg s.(nd_kernel));
     sys_mmap_run := λ _ _ s, (oc.(oc_runs), s);
     sys_get_sregs := oc.(oc_get_sregs); sys_set_sregs := oc.(oc_set_sregs); sys_set_regs := oc.(oc_set_regs);
     sys_run := oc.(oc_run); sys_exit_reason := oc.(oc_reason);
     sys_thread := λ s, (0, s); sys_close := λ _ s, s; sys_munmap := λ _ _ s, s |}.

#[export] Instance node_regions : RegionServer node_sys have_readonly largepages access_ok.
Proof using Type.
  split. intros fd mem s r s'. cbn. unfold on_vm, with_kernel, vmrun_vm_ioctl.
  destruct (vm_files _ !! fd) as [vm|]; [|intros [= <- _]; by left].
  destruct (k_vms _ !! vm) as [v|]; cbn [mbind option_bind]; [|done]. destruct (negb _); [intros [= <- _]; by left|].
  destruct (vmrun_vm_ioctl_set_memory_region _ _ _ _ _) as [r1 m1] eqn:E1. cbn. intros [= <- _]. right. exists (lv_mem v). by rewrite E1.
Qed.

#[export] Instance node_reads : FileReader node_sys nd_unread.
Proof using Type.
  split. intros fd p n s Hn. cbn. destruct (negb (access_ok p n)); [eexists _, _, _; split; [reflexivity|]; cbn; split; [lia|by left]|].
  eexists _, _, _. split; [reflexivity|]. cbn [nd_unread]. rewrite length_take. split; [lia|]. right.
  split; [lia|]. split; [by rewrite take_drop|]. intros H. apply nil_length_inv. lia.
Qed.
End Node.

(** ** Examples *)

Definition zero_regs : vmrun_regs :=
  {| u_rax := 0; u_rbx := 0; u_rcx := 0; u_rdx := 0; u_rsi := 0; u_rdi := 0; u_rsp := 0; u_rbp := 0; u_r8 := 0; u_r9 := 0; u_r10 := 0;
     u_r11 := 0; u_r12 := 0; u_r13 := 0; u_r14 := 0; u_r15 := 0; u_rip := 0; u_rflags := 0 |}.
Definition malloc_vcpu : Demo.vcpu :=
  {| vcpu_id := 0; vcpu_fd := 0; vmrun_run := 0; vmrun_run_mmap_size := 0; c_regs := zero_regs; c_sregs := zero_sregs |}.
Definition malloc_demo : demo :=
  {| dev_fd := 0; vm_fd := 0; ram_size := 0; ram_start := 0;
     d_mem := {| m_slot := 0; m_flags := 0; m_guest_phys_addr := 0; m_memory_size := 0; m_userspace_addr := 0 |};
     d_vcpus := None; vcpu_number := 0 |}.
Definition quiet_calls : other_calls :=
  {| oc_get_sregs := λ _ s, Some (0, Some zero_sregs, s); oc_set_sregs := λ _ _ s, Some (0, s); oc_set_regs := λ _ _ s, Some (0, s);
     oc_run := λ _ _ s, Some (0, s); oc_reason := λ _ _, VMRUN_EXIT_SHUTDOWN; oc_device := 5; oc_binary := 6; oc_ram := 0x7f0000000000;
     oc_runs := 0x7f1000000000 |}.

(** A kernel with a virtual machine at 0x1000, where the variable that
    [vmrun_create_vm] leaves uninitialised holds that address, and a binary of
    three bytes.  The first 2 GiB are no memory of the program. *)
Definition example_access (p n : Z) : bool := 2 ^ 31 <=? p.
Definition example_env : vm_env := (start_env 0x1000) <| ve_vm := 0x2000 |>.
Definition example_sys : DemoSys node :=
  node_sys (X := amd64) (KM := kvm_mmu_pages) 0 (λ v, v.(Vcpu.mmu)) (λ v, v.(Vcpu.mmu)) (λ v, v) true true example_access
    good_env (λ _, false) example_env 0 quiet_calls.
Definition example_world (ram : Z) : world node :=
  {| w_demo := malloc_demo <| ram_start := ram |>; w_bytes := λ _, 0; w_freed := false;
     w_sys := {| nd_kernel := one_kernel; nd_unread := [0x31; 0xc0; 0xe7] |} |}.

Lemma demo_never_starts_witness : (main (D := example_sys) 10 malloc_vcpu (example_world 0)).1 = Done (- 1).
Proof.
  pose proof (demo_never_starts (KM := kvm_mmu_pages) true true example_access (D := example_sys)
                (R := node_regions (X := amd64) (KM := kvm_mmu_pages) 0 (λ v, v.(Vcpu.mmu)) (λ v, v.(Vcpu.mmu)) (λ v, v) true true example_access
                        good_env (λ _, false) example_env 0 quiet_calls) 10 malloc_vcpu (example_world 0)) as H.
  destruct (main (D := example_sys) 10 malloc_vcpu (example_world 0)) as [r w'] eqn:E. destruct H as ([H|H] & _); [exact H|].
  assert (Hr : match (main (D := example_sys) 10 malloc_vcpu (example_world 0)).1 with Oops => false | _ => true end = true) by (vm_compute; reflexivity).
  rewrite E in Hr. cbn in Hr. rewrite H in Hr. discriminate Hr.
Defined.

Lemma example_reads (fd p : Z) (s : node) : 2 ^ 31 <= p → (sys_read (DemoSys := example_sys) fd p 4096 s).1.1 ≠ - 1.
Proof.
  intros Hp. cbn [sys_read example_sys node_sys]. unfold example_access. rewrite (proj2 (Z.leb_le (2 ^ 31) p) Hp). cbn [negb fst]. lia.
Qed.

(** A complete load. *)
Lemma load_binary_correct_witness :
  ∃ w', vmrun_load_binary (D := example_sys) 4 (example_world (2 ^ 31)) = (Done tt, w') ∧ w'.(w_bytes) (2 ^ 31 + 2) = 0xe7.
Proof.
  destruct (load_binary_correct (D := example_sys) nd_unread
              (R := node_reads (X := amd64) (KM := kvm_mmu_pages) 0 (λ v, v.(Vcpu.mmu)) (λ v, v.(Vcpu.mmu)) (λ v, v) true true example_access
                      good_env (λ _, false) example_env 0 quiet_calls) 4 (example_world (2 ^ 31)) zero_sregs zero_regs)
    as (_ & w' & loaded & rest & E & _ & Ef & Hl & H).
  - cbn. lia.
  - cbn. lia.
  - exists w'. split; [exact E|]. destruct H as [[-> _]|[[s Hs] _]].
    + rewrite app_nil_r in Ef. rewrite <- Ef in Hl. exact (Hl (2 ^ 31 + 2) ltac:(cbn; lia)).
    + exfalso. refine (example_reads _ _ _ _ Hs). change (ram_start (w_demo (example_world (2 ^ 31)))) with (2 ^ 31). lia.
Defined.
